(* ===== verification/_CoqProject ===== *)
-Q . S2P
Prelude.v
Sorting.v
Bytes.v
Errors.v
Enums.v
Wire.v
Header.v
Codes.v
Session.v
Flow.v
Lifecycle.v
Control.v
Capability.v
RuntimeControl.v
Operation.v
Recovery.v
Negotiation.v
Transport.v
Route.v
RuntimeError.v
Packet.v
Async.v
Stream.v
Multiplex.v
Pressure.v
PreSubmit.v
Object.v
Cache.v
Data.v
Schema.v
Regions.v
Submit.v
SubmitTensor.v
Event.v
Client.v
ClientOpen.v
SessionLogic.v
ClientTheory.v
ClientOpenTheory.v
ClientMethods.v
ClientRuns.v
ClientWire.v
Server.v
ServerOpen.v
ServerTheory.v
ServerMethods.v
ServerOpenTheory.v
ServerRuns.v
Connect.v
ConnectTheory.v
Listen.v
ListenTheory.v
EndToEnd.v
FfiTypes.v
FfiStore.v
FfiObjects.v
FfiStoreTheory.v
FfiTransport.v
FfiRoles.v
FfiEvents.v
FfiFrames.v
FfiApi.v
FfiOwnership.v
FfiBatch.v
FfiBatchTheory.v
FfiPolicy.v
Catalogue.v
