(* ===== verification/Prelude.v ===== *)
(** * A verified model of NNRP/1, the protocol core of nnrp-rs

    nnrp-rs implements NNRP/1, a binary protocol between a client that submits frames
    (tensors, tokens, objects) and a server that pushes results.  This library models
    the protocol core, [src/crates/nnrp-core], the choice of a transport,
    [src/crates/nnrp-transport-provider], the deterministic parts of the runtime,
    [src/crates/nnrp-runtime], and its interface for C, [src/crates/nnrp-ffi], as functions and
    proves what they promise.

    ** The program and its parts

    Every packet is a 40-byte common header, a metadata struct that the header's
    message type selects, and a body.  The core crate holds
    - the wire structs: fixed little-endian layouts with reserved fields, flag masks
      and semantic checks, each with [parse], [write] and [to_bytes], some followed by
      a tail whose length a field declares (diagnostics, a body, an extension);
    - the body regions: object references and typed payload frames;
    - capability tokens, negotiated in a canonical encoding;
    - state machines: the connection and its sessions, the registry of operations, the
      registry of schemas; and the checks of recovery, migration and caching.
    The transport provider crate keeps a registry of transports and selects one from the
    policy, the peer's support, the limits, the readiness of routes and the probes.
    The runtime crate drives them.  Packets arrive on a stream transport in chunks; a driver
    task shares the connection among its sessions; a client opens sessions, and a session
    submits requests, which builders encode, and turns packets into events.  A server binds
    listeners, serves each connection that they accept, and gives the sessions that are opened
    on it to the application, which reads operations and writes their results.  All of it is
    modelled: routes, errors, the stream reader, the driver, the builders, events, the client,
    the server, their sessions, the providers through which they connect and listen, the pressure
    state and the reservations of deadlines that arrive before their frame.
    The C interface gives the runtime to other languages: handles stand for connections,
    sessions, operations, buffers, descriptors, registries, leases and tickets in one store, and
    for transports in another; calls check what C passes, run the runtime to an end or a timeout,
    and copy what it returns into buffers of the library.

    ** Files

    - [Prelude]: outcomes (a value, an error or a panic), methods on a mutable state,
      and the lemmas and hints on them.
    - [Sorting]: [slice::sort_by] with a comparison that may panic or be no order, and
      what holds of it when it is one (class [TotalComparison]).
    - [Bytes]: bytes, little-endian integers at their width, checked and saturating
      arithmetic, the width of [usize] as a class [Target] (at least 32 bits; instances
      for 32 and 64), bit masks.
    - [Errors], [Enums]: [NnrpError] (error.rs), the wire enums (enums.rs) with the class
      [WireEnum] that each instantiates, the mask and zero checks.
    - [Wire]: the accessors of control.rs and its siblings on byte slices ([read_u32],
      [write_u32], ..., out of range is a panic), and the interface of a wire struct:
      [WireCodec] (operations, layout, guard), [WireCodecLaws] (what [parse] and [write]
      promise), [StrictWireCodec], [TailedCodec].  Clients use the laws and never
      the offsets.
    - [Header] (header.rs, version.rs), [Codes] (codes.rs), [Session] (session.rs), [Flow]
      (flow.rs), [Control] and [RuntimeControl] (control.rs), [Object] (object.rs),
      [Cache] (cache.rs), [Data] and [Regions] (data.rs), [Schema] (schema.rs): the structs,
      one [Module] each with the struct as a record, its operations under their names,
      and the instances of the interfaces.
    - [Capability] (capability.rs): encoding and decoding of token bodies.
    - [Operation] (operation.rs), [Lifecycle] (lifecycle.rs), [Recovery] (recovery.rs): the
      state machines and checks.
    - [Negotiation]: the contract of the handshake checks of [Control].
    - [Transport]: the transport provider (lib.rs of its crate).
    - [Packet], [Pressure], [PreSubmit], [Route], [RuntimeError] (packet.rs, pressure.rs,
      pre_submit.rs, route.rs and error.rs of the runtime crate).
    - [Async]: asynchronous methods, their triples, and a transport as its caller sees it.
    - [Stream] (transport.rs): the packet reader of stream transports.
    - [Multiplex] (multiplex.rs): the driver task, the connection and the session transports.
    - [Submit] (submit.rs): the request builders; [SubmitTensor]: a reader of tensor bodies
      and the round trip of tensor submissions.
    - [Event] (event.rs): runtime events.
    - [Client], [ClientOpen] (client.rs): the session, and opening one.  [ClientTheory] has the
      invariant of a session and the rules of its methods, [ClientMethods] the methods that
      wait or submit, [ClientOpenTheory] the contract of opening, [ClientRuns] the
      properties over sequences of calls, [ClientWire] those of events and tickets.
    - [SessionLogic]: what the two kinds of sessions share in their proofs.
    - [Server], [ServerOpen] (server.rs): the session of a server, with the operations handed to
      the application, and serving a connection: hello, probes, [SESSION_OPEN], the registry of
      sessions, the choice among listeners.  [ServerTheory] has the invariant of a session and
      the rules of its methods, [ServerMethods] those of the methods that wait or write,
      [ServerOpenTheory] the contracts of accepting and serving, [ServerRuns] the properties over
      sequences of calls.
    - [Connect], [ConnectTheory] (client_provider.rs): connecting through providers.
    - [Listen], [ListenTheory] (server_provider.rs and [NnrpServer] of server.rs): binding
      listeners and the accept loop.
    - [EndToEnd]: a client and a server together.
    - [FfiTypes] (nnrp-ffi/src/lib.rs): statuses, handles, views and the structs that mirror those
      of the core.  [FfiStore]: the handle store and the accept tickets.  [FfiObjects]: descriptors,
      buffers, schema registries, recovery checks and cache leases.  [FfiRoles]: connections,
      sessions, submissions and tickets.  [FfiEvents]: events and their batches.  [FfiFrames]: frames
      and replies.  [FfiPolicy]: admission requests.
    - [FfiTransport], [FfiBatch] (nnrp-ffi/src/transport.rs): the store of transports with its
      reused slots; opening, closing, and reading and writing packets in batches.
    - [FfiStoreTheory]: the invariant of the handle store and what the calls on it may do;
      [FfiApi]: all calls and their runs; [FfiOwnership]: what goes with what;
      [FfiBatchTheory]: the contracts of the batches.
    - [Catalogue]: the lists of all structs and enums, and the theorems on all of them.

    ** Correspondence with the code

    A struct is a record with the same fields, an enum an inductive type with the same
    constructors and a [repr]; an integer is a [Z], and [typed] says that each field of a
    struct fits its type.  A [&str] is the list of its bytes.  [Result] is [Outcome], whose third
    constructor is a panic: an index out of range, [expect] or [unreachable!].  A method
    on [&mut self] is a function to the outcome and the state after it, so that a store
    before an error is visible.  A [BTreeMap] is a [gmap]; where the code iterates over
    it, the model sorts by key.  An [async fn] is an [Async] function: it may also wait, and the
    state where it waits is part of its result, as a caller may drop the future there.
    A transport is the list of the results that its reads, polls, writes and closes will
    have, and the log of the packets that it was given to write, each with whether that write
    returned; a call past the end of a list waits, and a run may supply further results.  The peer
    sees the packets whose write returned, and of those whose write failed or was dropped while it
    waited any ([FramedTransport.carries]), as some transports hand a packet to a task before they
    wait; that a stream may then hold a part of a packet is below this model.  The channels
    between the driver and its handles are unbounded queues in a shared store, and a step of
    the driver is one turn of its loop.  The clock of a client is an argument of the calls that read
    it; a server reads the clock and random bytes from lists in its state.  The registry of sessions is
    shared: before each section of a connection that holds its lock, other tasks change it by the next
    function of a list, [others].  A provider is its
    descriptor, and what its [connect] or [bind] returns comes from a list in the state, beside the
    log of the calls.  What the listeners answer and the tasks of connections deliver in a turn of
    the accept loop is a [Moment] of a list.  [debug_assert] is on.
    A call of the C interface is a method of the store: [Ok] is the status 0 with the values that it
    writes, [Err] a status with which it writes nothing but an empty result; a call that writes
    beside an error has its status in the value.  A pointer is null, memory of the host, or an entry
    of the store, and reading what is not readable is a panic.  Objects of the runtime are the
    numbers of their cells; what the runtime returns to a call is an argument, and so is
    [elsewhere], what other threads do to the store while the call waits without its lock.  The
    parts of a call that hold the lock run alone.  A handle that C passes may have other flags than the
    one it got, which the store ignores when it resolves a handle and compares when it looks for an
    owner: the class [Discipline] says whether callers change them, and the theorems that need that they do not
    are stated for [tidy_caller].  What arrives while a batch is read is a
    [Window] for each wait.  The build is the one that is shipped, without the feature for
    benchmarks.  Loops are recursions on the list they walk, [try_fold] or
    [collect]; some loops have fuel: [subtree_loop] (one more turn than there are records),
    [decode_loop] (the length of the body), the loops that wait for an acknowledgement or an
    operation (the reads that are left, as each turn takes one), the loop that serves a connection
    (the packets that are left), the accept loop (the moments that are left), the searches for a
    free id (more turns than ids are taken), the loop that skips probes (the packets that have
    arrived); and running out is [None] or a panic that
    theorems exclude.  The readers of [SubmitTensor] are specifications with fuel, which the round
    trip shows to be enough.  Allocation succeeds; [Vec::with_capacity] with a capacity from the
    caller, in the batches of client events, panics when the bytes exceed [isize::MAX].

    ** Theorems

    - [Catalogue]: every struct round-trips, has one encoding per value, never panics
      and writes its own bytes only; structs with tails and enums likewise.
    - [Header], [Packet], [Object]: exactly which byte strings are packets, round
      trips of packets, and what becomes of a packet whose parts do not match its header.
    - [Capability]: the body of a set of tokens is unique and decoding inverts encoding.
    - [Operation]: the parent relation is a forest inside a session, operations only move
      along allowed transitions, cancellation cancels exactly its scope, the subtree walk
      ends.
    - [Lifecycle]: the invariant of the connection's tables, atomic errors, what is stable
      about a session, rejected closes, which flow updates are accepted.
    - [Negotiation], [Recovery], [Schema], [Cache]: what accepted messages guarantee, and
      the registry's contract.
    - [Regions]: payload frames partition the payload region; regions round-trip; the
      declared mask is exactly the slots present.
    - [Transport]: which evidence is accepted, which provider is selected and what is
      reported of the others, the invariant of the registry, medians of probes; and that
      the winner depends on the order of registration when cost models differ.
    - [PreSubmit], [Pressure]: the two indices agree, a reserved deadline reaches its
      submission once, and two endpoints keep mirrored pressure states.

    - [Stream]: the reader gives the packets that the bytes of the stream hold, however they
      are cut into reads, and what a peer writes is delivered.
    - [Multiplex]: the driver implements a map from sessions to mailboxes; packets reach their
      session in order and no other; what is held before registration is bounded.
    - [Submit], [SubmitTensor]: which inputs make a request, and that a receiver reads back
      what was submitted.
    - [ClientOpenTheory], [ClientRuns], [ClientWire]: what opening a session does; its invariant
      over all calls, without panics; one terminal message per operation; fresh identifiers;
      the packet of a submission and the answer to it; events and tickets as on the wire.
    - [ServerOpenTheory], [ServerRuns]: which requests open or resume a session and what is stored
      and sent, with other connections at work on the registry between the steps; the invariant of
      a session over all calls, without panics; one confirmed result per operation, and when the
      peer may see two; terminal operations stay; late results are dropped; two connections may
      choose one id.
    - [ConnectTheory], [ListenTheory]: only permitted providers are called, for [nnrps] only
      protected ones; which of them is chosen, which listeners are bound and in which order; the
      accept loop loses no session.
    - [EndToEnd]: the request that a client submits is the operation that the server gives to the
      application, and its result is what the client returns; the two ends agree on the hello, on
      a session and its ticket, and on probes.
    - [FfiTypes]: the structs of C and of the core correspond.  [FfiApi], [FfiTransport]: the
      invariant of the stores over all calls; a handle is given out once, and a dead one stays dead;
      views keep their bytes; what changed flags of a handle do.  [FfiOwnership]: closing removes
      exactly what is owned; what the two records of an operation do to its handle; the life of a
      lease.  [FfiBatchTheory]: batches keep packets, their order and the limits, probes are
      answered, and what is certain of a write that failed.  [FfiPolicy]: one decision for each
      request.

    Reachable states are those of [rtc step] (of an inductive predicate in [Transport]) from the
    initial state, where [step] is any call, with any arguments, whatever it returns, and for
    sessions also the supply of further results to the transport; invariants are by induction on it.

    ** Not modelled

    The four transports (sockets, TLS, QUIC and WebSocket libraries), the WebAssembly bindings, the
    conformance runner and the scripts: I/O and glue around what is modelled.  Of the C interface,
    the choice of a transport crate and its socket ([connect_transport], [listen_transport]),
    [transport_probe], the functions for benchmarks, and the tables of versions and capabilities.
    Locks are not: a call of a client or of a session runs alone, and the tasks of a server
    are interleaved at the sections that hold the registry (the race of two
    acceptances is a theorem) and at the turns of the accept loop.  Running out of memory and writes of a
    part of a packet.
    [Display] texts, derived traits and trivial getters are left out. *)

From Stdlib Require Export ZArith Lia.
From stdpp Require Export base list gmap strings sorting relations.

(** ** Outcomes

    A Rust function that returns [Result<A, E>] has three possible ends: the
    value [Ok], the error [Err], or a panic (an out-of-range index, a failed
    [expect], a reached [unreachable!]).  [Outcome] keeps the three apart, so
    that the absence of panics is a theorem and not a modelling choice. *)

Inductive Outcome (E A : Type) : Type :=
| Ok (a : A)
| Err (e : E)
| Panic.

Arguments Ok {E A} a.
Arguments Err {E A} e.
Arguments Panic {E A}.

(** [Option::is_some]. *)
Definition is_some {A} (o : option A) : bool := match o with Some _ => true | None => false end.

Section outcome.
Context {E : Type}.

#[global] Instance outcome_ret : MRet (Outcome E) := fun A a => Ok a.

(** The [?] operator: an error or a panic ends the caller. *)
#[global] Instance outcome_bind : MBind (Outcome E) := fun A B f o =>
  match o with
  | Ok a => f a
  | Err e => Err e
  | Panic => Panic
  end.

Definition is_ok {A} (o : Outcome E A) : bool :=
  match o with Ok _ => true | _ => false end.

(** [Option::ok_or]. *)
Definition ok_or {A} (o : option A) (e : E) : Outcome E A :=
  match o with Some a => Ok a | None => Err e end.

(** [Option::expect]. *)
Definition expect {A} (o : option A) : Outcome E A :=
  match o with Some a => Ok a | None => Panic end.

(** [if cond { return Err(e) }], the shape of every guard. *)
Definition reject_if (cond : bool) (e : E) : Outcome E unit :=
  if cond then Err e else Ok tt.

(** [Iterator::collect::<Result<Vec<_>, _>>]: the first error ends the loop. *)
Fixpoint collect {A B} (f : A -> Outcome E B) (l : list A) : Outcome E (list B) :=
  match l with
  | [] => Ok []
  | a :: l => b ← f a; bs ← collect f l; Ok (b :: bs)
  end.

(** [Iterator::try_fold]. *)
Fixpoint try_fold {A B} (f : B -> A -> Outcome E B) (b : B) (l : list A) : Outcome E B :=
  match l with
  | [] => Ok b
  | a :: l => b' ← f b a; try_fold f b' l
  end.

#[global] Instance Ok_inj {A} : Inj (=) (=) (@Ok E A).
Proof. by intros a b [= ->]. Qed.

Lemma bind_Ok {A B} (o : Outcome E A) (f : A -> Outcome E B) b :
  (a ← o; f a) = Ok b <-> exists a, o = Ok a /\ f a = Ok b.
Proof. destruct o; simpl; split; intros; destruct_and?; naive_solver. Qed.

Lemma bind_no_panic {A B} (o : Outcome E A) (f : A -> Outcome E B) :
  o <> Panic -> (forall a, o = Ok a -> f a <> Panic) -> (a ← o; f a) <> Panic.
Proof. destruct o; simpl; intros Ho Hf; auto; by destruct Ho. Qed.

Lemma reject_if_Ok c e u : reject_if c e = Ok u <-> c = false.
Proof. destruct c, u; simpl; naive_solver. Qed.

Lemma reject_if_no_panic c e : reject_if c e <> Panic.
Proof. by destruct c. Qed.

Lemma ok_or_Ok {A} (o : option A) e a : ok_or o e = Ok a <-> o = Some a.
Proof. destruct o; simpl; naive_solver. Qed.

Lemma ok_or_no_panic {A} (o : option A) e : ok_or o e <> Panic.
Proof. by destruct o. Qed.

Lemma Ok_no_panic {A} (a : A) : @Ok E A a <> Panic.
Proof. done. Qed.

Lemma Err_no_panic {A} (e : E) : @Err E A e <> Panic.
Proof. done. Qed.

Lemma is_ok_true {A} (o : Outcome E A) : is_ok o = true <-> exists a, o = Ok a.
Proof. destruct o; simpl; naive_solver. Qed.

Lemma is_ok_unit (o : Outcome E unit) : is_ok o = true <-> o = Ok tt.
Proof. destruct o as [[]| |]; simpl; naive_solver. Qed.

Lemma collect_Ok {A B} (f : A -> Outcome E B) l bs :
  collect f l = Ok bs <-> Forall2 (fun a b => f a = Ok b) l bs.
Proof.
  revert bs; induction l as [|a l IH]; intros bs; simpl.
  - split; [intros [= <-]; constructor|inversion 1; by subst].
  - rewrite bind_Ok. setoid_rewrite bind_Ok. split.
    + intros (b & Hb & bs' & Hbs & [= <-]). constructor; [done|by apply IH].
    + inversion 1 as [|? b ? bs' Hb Hbs]; subst.
      exists b. split; [done|]. exists bs'. by rewrite IH.
Qed.

(** A loop of guards passes when every guard does. *)
Lemma collect_units {A} (f : A -> Outcome E unit) l :
  (exists us, collect f l = Ok us) <-> Forall (fun a => f a = Ok tt) l.
Proof.
  induction l as [|a l IH]; simpl; [by split; eauto|].
  rewrite Forall_cons, <- IH. split.
  - intros (us & Hus). apply bind_Ok in Hus as ([] & Ha & Hus).
    apply bind_Ok in Hus as (vs & Hvs & _). eauto.
  - intros [Ha [us Hus]]. rewrite Ha, Hus. simpl. eauto.
Qed.

Lemma collect_no_panic {A B} (f : A -> Outcome E B) l :
  (forall a, a ∈ l -> f a <> Panic) -> collect f l <> Panic.
Proof.
  induction l as [|a l IH]; intros Hf; simpl; [done|].
  apply bind_no_panic; [apply Hf; set_solver|]. intros b _.
  apply bind_no_panic; [apply IH; set_solver|done].
Qed.

Lemma try_fold_no_panic {A B} (f : B -> A -> Outcome E B) b l :
  (forall b a, f b a <> Panic) -> try_fold f b l <> Panic.
Proof.
  intros Hf. revert b. induction l as [|a l IH]; intros b; simpl; [done|].
  apply bind_no_panic; [apply Hf|intros b' _; apply IH].
Qed.
End outcome.

(** [Result::map_err]. *)
Definition map_err {E F A} (g : E -> F) (o : Outcome E A) : Outcome F A :=
  match o with Ok a => Ok a | Err e => Err (g e) | Panic => Panic end.

Lemma map_err_Ok {E F A} (g : E -> F) (o : Outcome E A) a : map_err g o = Ok a <-> o = Ok a.
Proof. destruct o; simpl; naive_solver. Qed.

Lemma then_unit_Ok {E B} (o : Outcome E unit) (k : Outcome E B) b :
  (_ ← o; k) = Ok b <-> o = Ok tt /\ k = Ok b.
Proof. rewrite bind_Ok. split; [by intros ([] & ? & ?)|by intros [? ?]; exists tt]. Qed.

Lemma filter_ext_in {A} (P Q : A -> Prop) `{forall a, Decision (P a), forall a, Decision (Q a)} (l : list A) :
  (forall a, a ∈ l -> P a <-> Q a) -> filter P l = filter Q l.
Proof.
  induction l as [|a l IH]; intros HPQ; [done|]. rewrite !filter_cons.
  rewrite IH by (intros b Hb; apply HPQ; set_solver).
  pose proof (HPQ a ltac:(set_solver)). repeat case_decide; tauto.
Qed.

Lemma StronglySorted_filter {A} (Rel : A -> A -> Prop) (P : A -> Prop) `{forall a, Decision (P a)}
    (l : list A) :
  StronglySorted Rel l -> StronglySorted Rel (filter P l).
Proof.
  induction 1 as [|a l Hl IH Ha]; [constructor|]. rewrite filter_cons. case_decide; [|done].
  constructor; [done|]. rewrite Forall_forall in *. intros b [_ Hb]%list_elem_of_filter. auto.
Qed.

Create HintDb nopanic.
#[export] Hint Resolve bind_no_panic reject_if_no_panic ok_or_no_panic Ok_no_panic
  Err_no_panic : nopanic.

(** Split the hypothesis [(x ← o; k) = Ok b] into the value of [o] and the rest. *)
Ltac inv_bind H :=
  let a := fresh "a" in
  let Ha := fresh "Ha" in
  apply bind_Ok in H as (a & Ha & H).

(** ** Methods that take [&mut self]

    A method is a function from the state before the call to its outcome and
    the state after it.  The state after an [Err] is part of the result: a
    method that has stored a field before it fails leaves that field stored. *)

Definition Method (S E A : Type) : Type := S -> Outcome E A * S.

Section method.
Context {S E : Type}.

(** The state and the outcome of a call. *)
Definition state_after {A} (m : Method S E A) (s : S) : S := snd (m s).
Definition outcome_of {A} (m : Method S E A) (s : S) : Outcome E A := fst (m s).
End method.
