(* ===== verification/Sorting.v ===== *)
(** [slice::sort_by] with a comparison that may panic.

    The slices that this program sorts with a comparison of its own have a handful of
    elements, and on such slices the standard library runs an insertion sort that moves
    each element to the left past the elements it is smaller than.  [sort_by] is that sort.  On a total order
    every stable sort gives the same result; what is used of [sort_by] is that it permutes
    its input and, on a total preorder, that the result is sorted. *)

From S2P Require Import Prelude.

(** [Ordering::then_with]. *)
Definition then_with (c d : comparison) : comparison := match c with Eq => d | _ => c end.

(** ** Comparisons that are total preorders *)

Class TotalComparison {A} (f : A -> A -> comparison) : Prop := {
  comparison_antisym x y : f y x = CompOpp (f x y);
  comparison_trans x y z : f x y <> Gt -> f y z <> Gt -> f x z <> Gt
}.

#[export] Instance Z_comparison {A} (key : A -> Z) : TotalComparison (fun x y => (key x ?= key y)%Z).
Proof.
  split; intros; [apply Z.compare_antisym|].
  rewrite Z.compare_ngt_iff in *. lia.
Qed.

#[export] Instance reverse_comparison {A} (f : A -> A -> comparison) :
  TotalComparison f -> TotalComparison (fun x y => f y x).
Proof.
  intros Hf. split; intros; [apply comparison_antisym|].
  by apply (comparison_trans (f := f) z y x).
Qed.

(** The lexicographic composition. *)
#[export] Instance then_with_comparison {A} (f g : A -> A -> comparison) :
  TotalComparison f -> TotalComparison g -> TotalComparison (fun x y => then_with (f x y) (g x y)).
Proof.
  intros Hf Hg. split.
  - intros x y. rewrite (comparison_antisym x y), (comparison_antisym (f := g) x y).
    by destruct (f x y).
  - intros x y z. pose proof (comparison_trans (f := f) x y z). unfold then_with.
    pose proof (comparison_trans (f := f) z x y). pose proof (comparison_trans (f := f) y z x).
    pose proof (comparison_trans (f := g) x y z).
    rewrite (comparison_antisym (f := f) x z), (comparison_antisym (f := f) y z),
      (comparison_antisym (f := f) x y) in *.
    destruct (f x y), (f y z), (f x z); simpl in *; intuition congruence.
Qed.

Section sort_by.
Context {E A : Type} (cmp : A -> A -> Outcome E comparison).

(** Insert at the end of the sorted prefix, whose last element is the head of the list. *)
Fixpoint insert_tail (x : A) (prefix : list A) : Outcome E (list A) :=
  match prefix with
  | [] => Ok [x]
  | y :: rest =>
      c ← cmp x y;
      match c with
      | Lt => rest ← insert_tail x rest; Ok (y :: rest)
      | _ => Ok (x :: y :: rest)
      end
  end.

Definition sort_by (l : list A) : Outcome E (list A) :=
  prefix ← try_fold (fun prefix x => insert_tail x prefix) [] l;
  Ok (reverse prefix).

Lemma insert_tail_perm x prefix prefix' :
  insert_tail x prefix = Ok prefix' -> prefix' ≡ₚ x :: prefix.
Proof.
  revert prefix'; induction prefix as [|y prefix IH]; intros prefix' Hi; simpl in Hi.
  { by injection Hi as <-. }
  apply bind_Ok in Hi as (c & _ & Hi).
  destruct c; [by injection Hi as <-| |by injection Hi as <-].
  apply bind_Ok in Hi as (rest & Hr & Hi). injection Hi as <-.
  rewrite (IH _ Hr). apply Permutation_swap.
Qed.

Lemma sort_loop_perm l prefix prefix' :
  try_fold (fun prefix x => insert_tail x prefix) prefix l = Ok prefix' ->
  prefix' ≡ₚ l ++ prefix.
Proof.
  revert prefix; induction l as [|x l IH]; intros prefix Hl; simpl in Hl.
  { by injection Hl as <-. }
  apply bind_Ok in Hl as (p & Hp & Hl). rewrite (IH _ Hl), (insert_tail_perm _ _ _ Hp).
  by rewrite <- Permutation_middle.
Qed.

Lemma sort_by_perm l l' : sort_by l = Ok l' -> l' ≡ₚ l.
Proof.
  intros Hs. apply bind_Ok in Hs as (p & Hp & Hs). injection Hs as <-.
  rewrite reverse_Permutation, (sort_loop_perm _ _ _ Hp). by rewrite app_nil_r.
Qed.

(** ** A comparison that does not panic on the elements at hand *)

Context (f : A -> A -> comparison) (P : A -> Prop).
Hypothesis cmp_f : forall x y, P x -> P y -> cmp x y = Ok (f x y).

Lemma insert_tail_total x prefix :
  P x -> Forall P prefix -> exists prefix', insert_tail x prefix = Ok prefix'.
Proof.
  intros Hx. induction 1 as [|y prefix Hy _ [prefix' IH]]; simpl; [by eauto|].
  rewrite cmp_f by done. simpl. destruct (f x y); [by eauto| |by eauto].
  rewrite IH. simpl. by eauto.
Qed.

Lemma sort_by_total l : Forall P l -> exists l', sort_by l = Ok l'.
Proof.
  intros Hl. assert (forall prefix, Forall P prefix ->
    exists p, try_fold (fun prefix x => insert_tail x prefix) prefix l = Ok p) as Hloop.
  { induction Hl as [|x l Hx _ IH]; intros prefix Hp; simpl; [by eauto|].
    destruct (insert_tail_total x prefix Hx Hp) as [p Hi]. rewrite Hi. simpl. apply IH.
    rewrite (insert_tail_perm _ _ _ Hi). by constructor. }
  destruct (Hloop [] (Forall_nil_2 _)) as [p Hp]. exists (reverse p). unfold sort_by.
  by rewrite Hp.
Qed.

(** ** A total preorder *)

Definition le (x y : A) : Prop := f x y <> Gt.

Hypothesis f_antisym : forall x y, P x -> P y -> f y x = CompOpp (f x y).
Hypothesis f_trans : forall x y z, P x -> P y -> P z -> le x y -> le y z -> le x z.

(** The prefix, read from its end, decreases. *)
Definition descending : list A -> Prop := StronglySorted (fun x y => le y x).

Lemma insert_tail_descending x prefix prefix' :
  P x -> Forall P prefix -> descending prefix -> insert_tail x prefix = Ok prefix' ->
  descending prefix'.
Proof.
  intros Hx HP Hs. revert prefix'.
  induction Hs as [|y prefix Hs IH Hall]; intros prefix' Hi; simpl in Hi.
  { injection Hi as <-. repeat constructor. }
  apply Forall_cons in HP as [Hy HP]. rewrite cmp_f in Hi by done. simpl in Hi.
  assert (f x y <> Lt -> descending (x :: y :: prefix)) as Htop.
  { intros Hn. assert (le y x) as Hyx
      by (unfold le; rewrite f_antisym by done; by destruct (f x y)).
    constructor; [by constructor|]. constructor; [done|].
    apply Forall_forall. intros z Hz. rewrite Forall_forall in Hall, HP.
    apply (f_trans z y x); auto. }
  destruct (f x y) eqn:Hf; [by injection Hi as <-; apply Htop| |by injection Hi as <-; apply Htop].
  apply bind_Ok in Hi as (rest & Hr & Hi). injection Hi as <-. constructor; [by apply IH|].
  rewrite (insert_tail_perm _ _ _ Hr). constructor; [|done]. unfold le. by rewrite Hf.
Qed.

Lemma sort_loop_descending l prefix prefix' :
  Forall P l -> Forall P prefix -> descending prefix ->
  try_fold (fun prefix x => insert_tail x prefix) prefix l = Ok prefix' -> descending prefix'.
Proof.
  intros Hl. revert prefix. induction Hl as [|x l Hx _ IH]; intros prefix HP Hs Hp; simpl in Hp.
  { by injection Hp as <-. }
  apply bind_Ok in Hp as (p & Hi & Hp). apply (IH p); [|by eapply insert_tail_descending|done].
  rewrite (insert_tail_perm _ _ _ Hi). by constructor.
Qed.

(** The first element of the result is a least one. *)
Lemma sort_by_least l x l' :
  Forall P l -> sort_by l = Ok (x :: l') -> forall y, y ∈ l -> y = x \/ le x y.
Proof.
  intros Hl Hs y Hy. assert (y ∈ x :: l') as Hin by (by rewrite (sort_by_perm _ _ Hs)).
  apply bind_Ok in Hs as (p & Hp & Hs). injection Hs as Hs.
  assert (descending p) as Hd by (eapply sort_loop_descending; [done| | |done]; constructor).
  apply (f_equal reverse) in Hs. rewrite reverse_involutive, reverse_cons in Hs. subst p.
  apply elem_of_cons in Hin as [->|Hin]; [by left|right].
  apply (StronglySorted_app_1_elem_of _ _ _ y x Hd); [by apply elem_of_reverse|by left].
Qed.

(** The result is sorted. *)
Lemma sort_by_sorted l l' : Forall P l -> sort_by l = Ok l' -> StronglySorted le l'.
Proof.
  intros Hl Hs. apply bind_Ok in Hs as (p & Hp & [= <-]).
  assert (descending p) as Hd by (eapply sort_loop_descending; [done| | |done]; constructor).
  clear -Hd. induction Hd as [|x p Hd IH Hx]; [constructor|]. rewrite reverse_cons.
  apply StronglySorted_app_2; [|done|repeat constructor].
  intros y z Hy ->%list_elem_of_singleton. rewrite elem_of_reverse in Hy.
  exact (proj1 (Forall_forall _ _) Hx y Hy).
Qed.
End sort_by.

(** A part of a sorted list is sorted. *)
Lemma sublist_sorted {A} (R : relation A) l l' : sublist l l' -> StronglySorted R l' -> StronglySorted R l.
Proof.
  induction 1 as [|x l l' Hs IH|x l l' Hs IH]; [done| |].
  - intros [Hl Hx]%StronglySorted_inv. constructor; [by apply IH|].
    apply Forall_forall. intros y Hy. rewrite Forall_forall in Hx. apply Hx. by eapply elem_of_sublist.
  - intros [Hl _]%StronglySorted_inv. by apply IH.
Qed.
