(* ===== verification/Bytes.v ===== *)
(** Bytes and machine integers.

    A [u8], [u16], [u32] or [u64] is a [Z] in the range of its width; a slice is a list of bytes.
    The little-endian conversions of the Rust standard library
    ([to_le_bytes], [from_le_bytes]) are [le_bytes] and [le_value], and a slice
    access that Rust checks at run time ([s\[i\]], [s\[a..b\]],
    [copy_from_slice]) yields [Panic] out of range.  The file also models the
    width-bound operations the sources use: [checked_add], [saturating_add],
    [!x] at a width and the [as] casts. *)

From Stdlib Require Export Strings.Byte.
From S2P Require Import Prelude.

Local Open Scope Z_scope.

Abbreviation bytes := (list byte).

#[export] Instance byte_eq_dec : EqDecision byte := Byte.byte_eq_dec.

(** ** One byte *)

Definition Z_of_byte (b : byte) : Z := Z.of_N (Byte.to_N b).

(** The low eight bits of an integer, as Rust's [as u8]. *)
Definition byte_of_Z (z : Z) : byte :=
  default x00 (Byte.of_N (Z.to_N (z mod 256))).

Lemma Z_of_byte_range b : 0 <= Z_of_byte b < 256.
Proof. unfold Z_of_byte. pose proof (Byte.to_N_bounded b). lia. Qed.

Lemma Z_of_byte_of_Z z : Z_of_byte (byte_of_Z z) = z mod 256.
Proof.
  unfold Z_of_byte, byte_of_Z.
  pose proof (Z.mod_pos_bound z 256 eq_refl) as Hz.
  destruct (Byte.of_N (Z.to_N (z mod 256))) as [b|] eqn:Hb; simpl.
  - apply Byte.to_of_N in Hb. rewrite Hb. lia.
  - apply Byte.of_N_None_iff in Hb. lia.
Qed.

Lemma byte_of_Z_of_byte b : byte_of_Z (Z_of_byte b) = b.
Proof.
  unfold byte_of_Z. rewrite Z.mod_small by apply Z_of_byte_range.
  unfold Z_of_byte. by rewrite N2Z.id, Byte.of_to_N.
Qed.

(** ** Little-endian conversions *)

Fixpoint le_bytes (w : nat) (z : Z) : bytes :=
  match w with
  | O => []
  | S w => byte_of_Z z :: le_bytes w (z / 256)
  end.

Fixpoint le_value (bs : bytes) : Z :=
  match bs with
  | [] => 0
  | b :: bs => Z_of_byte b + 256 * le_value bs
  end.

(** The number of values of a [w]-byte unsigned integer. *)
Definition modulus (w : nat) : Z := 2 ^ (8 * Z.of_nat w).

Lemma modulus_S w : modulus (S w) = 256 * modulus w.
Proof.
  unfold modulus. replace (8 * Z.of_nat (S w)) with (8 + 8 * Z.of_nat w) by lia.
  by rewrite Z.pow_add_r by lia.
Qed.

Lemma modulus_pos w : 0 < modulus w.
Proof. apply Z.pow_pos_nonneg; lia. Qed.

Lemma length_le_bytes w z : length (le_bytes w z) = w.
Proof. revert z; induction w; intros; simpl; auto. Qed.

Lemma le_value_bytes w z : le_value (le_bytes w z) = z mod modulus w.
Proof.
  revert z; induction w as [|w IH]; intros z; simpl.
  - unfold modulus. simpl. by rewrite Z.mod_1_r.
  - rewrite IH, Z_of_byte_of_Z, modulus_S.
    pose proof (modulus_pos w). rewrite Z.rem_mul_r by lia. lia.
Qed.

Lemma le_value_range bs : 0 <= le_value bs < modulus (length bs).
Proof.
  induction bs as [|b bs IH]; simpl; [by unfold modulus|].
  rewrite modulus_S. pose proof (Z_of_byte_range b). lia.
Qed.

Lemma le_bytes_value bs : le_bytes (length bs) (le_value bs) = bs.
Proof.
  induction bs as [|b bs IH]; simpl; [done|]. pose proof (Z_of_byte_range b) as Hb.
  rewrite (Z.mul_comm 256), Z.div_add, Z.div_small, Z.add_0_l, IH by lia. f_equal.
  rewrite <- (byte_of_Z_of_byte b) at 2. unfold byte_of_Z. f_equal. f_equal. f_equal.
  rewrite Z.mod_add, (Z.mod_small (Z_of_byte b)) by lia. reflexivity.
Qed.

Lemma le_bytes_zero w : le_bytes w 0 = replicate w x00.
Proof. induction w as [|w IH]; simpl; [done|]. by rewrite Z.div_0_l, IH. Qed.

(** The two's complement reading of a [w]-byte value: [i16::from_le_bytes]. *)
Definition to_signed (w : nat) (z : Z) : Z :=
  if z <? modulus w / 2 then z else z - modulus w.

Lemma modulus_even w : (0 < w)%nat -> modulus w = 2 * (modulus w / 2).
Proof.
  destruct w as [|w]; [lia|]. intros _. rewrite modulus_S.
  replace (256 * modulus w) with (128 * modulus w * 2) by lia.
  rewrite Z.div_mul by lia. lia.
Qed.

Lemma to_signed_mod w z :
  (0 < w)%nat -> - (modulus w / 2) <= z < modulus w / 2 ->
  to_signed w (z mod modulus w) = z.
Proof.
  intros Hw Hz. pose proof (modulus_even w Hw) as He. pose proof (modulus_pos w).
  unfold to_signed. destruct (Z.ltb_spec (z mod modulus w) (modulus w / 2)) as [Hlt|Hge].
  - destruct (Z_lt_le_dec z 0) as [Hn|Hp]; [|by apply Z.mod_small; lia].
    rewrite <- (Z.mod_add z 1), Z.mod_small in Hlt by lia. lia.
  - destruct (Z_lt_le_dec z 0) as [Hn|Hp].
    + rewrite <- (Z.mod_add z 1), Z.mod_small by lia. lia.
    + rewrite Z.mod_small in Hge by lia. lia.
Qed.

Lemma to_signed_range w z :
  (0 < w)%nat -> 0 <= z < modulus w -> - (modulus w / 2) <= to_signed w z < modulus w / 2.
Proof.
  intros Hw Hz. pose proof (modulus_even w Hw). unfold to_signed.
  destruct (Z.ltb_spec z (modulus w / 2)); lia.
Qed.

Lemma to_signed_inv w z :
  0 <= z < modulus w -> to_signed w z mod modulus w = z.
Proof.
  intros Hz. unfold to_signed. destruct (z <? modulus w / 2); [by apply Z.mod_small|].
  replace (z - modulus w) with (z + (-1) * modulus w) by lia.
  rewrite Z.mod_add by lia. by apply Z.mod_small.
Qed.

Lemma le_bytes_mod w z : le_bytes w (z mod modulus w) = le_bytes w z.
Proof.
  rewrite <- le_value_bytes. rewrite <- (length_le_bytes w z) at 1. apply le_bytes_value.
Qed.

(** ** Lengths and indices *)

(** [s.len()], a [usize]. *)
Definition len {A} (l : list A) : Z := Z.of_nat (length l).

Lemma len_app {A} (a b : list A) : len (a ++ b) = len a + len b.
Proof. unfold len. rewrite length_app. lia. Qed.

Lemma len_cons {A} (x : A) xs : len (x :: xs) = len xs + 1.
Proof. unfold len. simpl. lia. Qed.

Lemma len_nonneg {A} (a : list A) : 0 <= len a.
Proof. unfold len. lia. Qed.

(** [u8::MAX] and the like. *)
Definition u8_max : Z := 255.
Definition u16_max : Z := 65535.
Definition u32_max : Z := 4294967295.
Definition u64_max : Z := 18446744073709551615.

(** The pointer width of the target: the crate is built for 64-bit and 32-bit
    (WebAssembly) targets, whose [usize] holds every [u32]. *)
Class Target := {
  usize_max : Z;
  usize_max_u32 : u32_max <= usize_max;
  (** [size_of] of an event with its packet, which the compiler chooses; no type is larger than [isize::MAX]. *)
  event_packet_size : Z;
  event_packet_size_fits : 0 < event_packet_size <= usize_max / 2
}.

#[program] Definition target32 : Target := {| usize_max := u32_max; event_packet_size := 256 |}.
Next Obligation. vm_compute. discriminate. Qed.
Next Obligation. split; vm_compute; congruence. Qed.
#[program] Definition target64 : Target := {| usize_max := u64_max; event_packet_size := 512 |}.
Next Obligation. vm_compute. discriminate. Qed.
Next Obligation. split; vm_compute; congruence. Qed.

(** [Vec::with_capacity]: more than [isize::MAX] bytes are a capacity overflow. *)
Definition capacity_fits `{Target} (capacity size : Z) : bool := capacity * size <=? usize_max / 2.

Definition with_capacity `{Target} {E} (capacity size : Z) : Outcome E unit :=
  if capacity_fits capacity size then Ok tt else Panic.

(** [a.checked_add(b)] for a type whose largest value is [max]. *)
Definition checked_add (max a b : Z) : option Z :=
  if a + b <=? max then Some (a + b) else None.

Definition checked_mul (max a b : Z) : option Z :=
  if a * b <=? max then Some (a * b) else None.

(** [a.saturating_add(b)]. *)
Definition saturating_add (max a b : Z) : Z := Z.min (a + b) max.

Lemma checked_add_Some max a b c :
  checked_add max a b = Some c <-> c = a + b /\ a + b <= max.
Proof. unfold checked_add. destruct (Z.leb_spec (a + b) max); naive_solver lia. Qed.

Lemma checked_mul_Some max a b c :
  checked_mul max a b = Some c <-> c = a * b /\ a * b <= max.
Proof. unfold checked_mul. destruct (Z.leb_spec (a * b) max); naive_solver lia. Qed.

Lemma usize_max_nonneg `{Target} : 0 <= usize_max.
Proof. pose proof usize_max_u32. unfold u32_max in *. lia. Qed.

(** [a.checked_add(b)] on [usize] indices. *)
Definition usize_add `{Target} (a b : nat) : option nat :=
  if Z.of_nat (a + b) <=? usize_max then Some (a + b)%nat else None.

Lemma usize_add_Some `{Target} a b c :
  usize_add a b = Some c <-> c = (a + b)%nat /\ Z.of_nat (a + b) <= usize_max.
Proof.
  unfold usize_add. destruct (Z.leb_spec (Z.of_nat (a + b)) usize_max).
  - split; [intros [= <-]|intros [-> _]]; done.
  - split; [done|lia].
Qed.

(** [s.get(a..b)]. *)
Definition get_range {A} (source : list A) (a b : nat) : option (list A) :=
  if decide (a <= b /\ b <= length source)%nat then Some (take (b - a) (drop a source)) else None.

Lemma get_range_Some {A} (source : list A) a b s :
  get_range source a b = Some s <->
  (a <= b /\ b <= length source)%nat /\ s = take (b - a) (drop a source).
Proof. unfold get_range. case_decide; naive_solver. Qed.

Lemma get_range_app {A} (pre mid post : list A) a b :
  length pre = a -> b = (a + length mid)%nat -> get_range (pre ++ mid ++ post) a b = Some mid.
Proof.
  intros <- ->. apply get_range_Some. rewrite !length_app. split; [lia|].
  rewrite drop_app_length. replace (_ + _ - _)%nat with (length mid) by lia.
  by rewrite take_app_length.
Qed.

(** [!x] on an unsigned integer of [w] bits. *)
Definition bnot (w : Z) (x : Z) : Z := Z.lxor x (Z.ones w).

(** [x & !allowed == 0] says that [allowed] has every bit of [x]. *)
Definition bits_within (x allowed : Z) : bool := Z.ldiff x allowed =? 0.

Lemma land_bnot w x a :
  0 <= w -> 0 <= x < 2 ^ w -> Z.land x (bnot w a) = Z.ldiff x a.
Proof.
  intros Hw Hx. unfold bnot. destruct (Z.eq_dec x 0) as [->|Hnz]; [done|].
  apply Z.bits_inj'. intros n Hn.
  rewrite Z.land_spec, Z.lxor_spec, Z.ldiff_spec.
  destruct (Z_lt_le_dec n w) as [Hlt|Hge].
  - rewrite Z.ones_spec_low by lia. by rewrite xorb_true_r.
  - rewrite Z.ones_spec_high by lia. rewrite (Z.bits_above_log2 x); [done|lia|].
    apply Z.log2_lt_pow2; [lia|].
    eapply Z.lt_le_trans; [apply Hx|]. apply Z.pow_le_mono_r; lia.
Qed.

Lemma bits_within_spec x a :
  bits_within x a = true <-> forall n, 0 <= n -> Z.testbit x n = true -> Z.testbit a n = true.
Proof.
  unfold bits_within. rewrite Z.eqb_eq. split.
  - intros H n Hn Hx. apply (f_equal (fun z => Z.testbit z n)) in H.
    rewrite Z.ldiff_spec, Z.bits_0, Hx in H. by destruct (Z.testbit a n).
  - intros H. apply Z.bits_inj'. intros n Hn. rewrite Z.ldiff_spec, Z.bits_0.
    destruct (Z.testbit x n) eqn:Hx; simpl; [|done]. by rewrite (H n).
Qed.

Arguments le_bytes : simpl never.
Arguments le_value : simpl never.

(** Single bits, as [1 << s]. *)
Lemma testbit_shiftl_one s n : 0 <= s -> Z.testbit (Z.shiftl 1 s) n = (n =? s).
Proof. intros Hs. rewrite Z.shiftl_1_l, Z.eqb_sym. by apply Z.pow2_bits_eqb. Qed.

Lemma land_bit_zero x s : 0 <= s -> Z.land x (Z.shiftl 1 s) = 0 <-> Z.testbit x s = false.
Proof.
  intros Hs. split.
  - intros H%(f_equal (fun z => Z.testbit z s)).
    by rewrite Z.land_spec, testbit_shiftl_one, Z.eqb_refl, andb_true_r, Z.bits_0 in H.
  - intros H. apply Z.bits_inj'. intros n Hn. rewrite Z.land_spec, testbit_shiftl_one, Z.bits_0 by done.
    destruct (Z.eqb_spec n s) as [->|]; [by rewrite H|apply andb_false_r].
Qed.
