(* ===== verification/Errors.v ===== *)
(** The error type of nnrp-core ([src/crates/nnrp-core/src/error.rs]) and the
    interface every wire enum of the crate implements.

    [OperationState] is declared here and not with the other enums because the
    error [InvalidOperationTransition] carries two of its values. *)

From S2P Require Import Prelude Bytes.

Local Open Scope Z_scope.

Module OperationState.

Inductive t :=
| Accepted | Running | Partial | WaitingTool
| Superseded | Cancelled | Failed | Completed.

#[global] Instance eq_dec : EqDecision t.
Proof. solve_decision. Defined.

Definition repr (x : t) : Z :=
  match x with
  | Accepted => 0
  | Running => 1
  | Partial => 2
  | WaitingTool => 3
  | Superseded => 4
  | Cancelled => 5
  | Failed => 6
  | Completed => 7
  end.

Definition is_terminal (x : t) : bool :=
  match x with
  | Superseded | Cancelled | Failed | Completed => true
  | _ => false
  end.

Definition can_transition_to (self next : t) : bool :=
  if is_terminal self then false
  else
    match self, next with
    | Accepted, (Running | Cancelled | Failed | Superseded) => true
    | Running, (Partial | WaitingTool | Cancelled | Failed | Completed | Superseded) => true
    | Partial, (Partial | WaitingTool | Cancelled | Failed | Completed | Superseded) => true
    | WaitingTool, (Running | Cancelled | Failed | Superseded) => true
    | _, _ => false
    end.

End OperationState.

(** A [&'static str] is a [string]; an owned [String] holds the bytes of a token
    that a peer sent. *)
Inductive NnrpError :=
| UnsupportedWireFormat (value : Z)
| SourceTooShort (expected actual : Z)
| DestinationTooShort (expected actual : Z)
| InvalidMagic
| InvalidHeaderLength (value : Z)
| UnsupportedVersionMajor (value : Z)
| UnknownMessageType (value : Z)
| UnknownEnumValue (enum_name : string) (value : Z)
| ReservedBitsSet (value allowed : Z)
| InvalidProtocolCombination (rule : string)
| ConnectionNotOpen
| ConnectionAlreadyClosed
| SessionAlreadyExists (session_id : Z)
| UnknownSession (session_id : Z)
| SessionNotOpen (session_id : Z)
| OperationAlreadyExists (operation_id : Z)
| UnknownOperation (operation_id : Z)
| InvalidOperationRelationship (rule : string)
| InvalidOperationTransition (from to : OperationState.t)
| NonZeroReservedField (field : string)
| PacketLengthMismatch (declared actual : Z)
| DeclaredLengthMismatch (field : string) (declared actual : Z)
| MessageLengthOverflow
| InvalidCapabilityTokenBody (reason : string)
| InvalidCapabilityToken (token : bytes)
| UnknownCapabilityToken (token : bytes).

#[export] Instance NnrpError_eq_dec : EqDecision NnrpError.
Proof. solve_decision. Defined.

(** [Result<A, NnrpError>]. *)
Abbreviation R := (Outcome NnrpError).

(** ** Wire enums

    A [#\[repr(uN)\]] enum is written to the wire with [as uN] and read with its
    [try_from_uN].  [enum_width] is the number of bytes of [uN]. *)

Class WireEnum (A : Type) := {
  enum_width : nat;
  enum_repr : A -> Z;
  enum_try_from : Z -> R A
}.

(** What a codec relies on: reading back what was written gives the same
    constructor, a value that reads as a constructor is that constructor's, the
    discriminants fit the width, and reading never panics. *)
Class WireEnumLaws (A : Type) `{WireEnum A} : Prop := {
  enum_repr_range (a : A) : 0 <= enum_repr a < modulus enum_width;
  enum_try_from_repr (a : A) : enum_try_from (enum_repr a) = Ok a;
  enum_try_from_sound z (a : A) : enum_try_from z = Ok a -> z = enum_repr a;
  enum_try_from_no_panic z : enum_try_from (A := A) z <> Panic
}.

Section enum.
Context {A : Type} `{WireEnumLaws A}.

Lemma enum_repr_inj (a b : A) : enum_repr a = enum_repr b -> a = b.
Proof.
  intros Hab. pose proof (enum_try_from_repr a) as Ha. rewrite Hab, enum_try_from_repr in Ha.
  congruence.
Qed.

Lemma enum_try_from_iff z (a : A) : enum_try_from z = Ok a <-> z = enum_repr a.
Proof. split; [apply enum_try_from_sound|intros ->; apply enum_try_from_repr]. Qed.

Lemma enum_unknown_rejected z :
  (forall a : A, enum_repr a <> z) -> exists e, enum_try_from (A := A) z = Err e.
Proof.
  intros Hz. destruct (enum_try_from z) as [a|e|] eqn:E; [|by eauto|].
  - by destruct (Hz a); symmetry; apply enum_try_from_sound.
  - by apply enum_try_from_no_panic in E.
Qed.
End enum.

(** The four laws of a concrete enum, by enumerating the constructors and the
    patterns of its [try_from] function. *)
Ltac solve_enum try_from :=
  split;
  [ by intros []
  | by intros []
  | intros z a Hz; change (try_from z = Ok a) in Hz; unfold try_from in Hz;
    repeat case_match; simplify_eq; reflexivity
  | intros z; change (try_from z <> Panic); unfold try_from;
    repeat case_match; discriminate ].
