(* ===== verification/Enums.v ===== *)
(** The enums of the protocol header, the session, operation and flow-control
    messages ([src/crates/nnrp-core/src/enums.rs]) and the header flags.

    Each [#\[repr(uN)\]] enum is a module: its constructors [t], the discriminants
    [repr] that [as uN] writes, and the [try_from_uN] that reads them back.  The
    state machine of [OperationState] ([can_transition_to]) is here as well. *)

From S2P Require Import Prelude Bytes Errors.

Local Open Scope Z_scope.

Module MessageType.

Inductive t :=
| ClientHello | ServerHelloAck | SessionPatch | SessionPatchAck | Close | Error
| SessionOpen | SessionOpenAck | SessionClose | SessionCloseAck | FrameSubmit
| FrameCancel | ResultPush | ResultDrop | CachePut | CacheAck | CacheInvalidate
| FlowUpdate | ResultHint | TransportProbe | TransportProbeAck | SessionMigrate
| SessionMigrateAck | Ping | Pong | Cancel | Abort | PriorityUpdate | Deadline
| ExpireAt | Supersede | BudgetUpdate | Progress | PartialResult | Backpressure
| CreditUpdate | CapabilityNegotiation | DegradeProfile | RouteHint | ExecutionHint
| TraceContext | ResultDropReason | ObjectDeclare | ObjectRef | ObjectRelease
| ObjectPatch | ObjectDelta | CacheReference | CacheMiss | ErrorRecoverable
| RetryAfter.

Definition repr (x : t) : Z :=
  match x with
  | ClientHello => 0x01
  | ServerHelloAck => 0x02
  | SessionPatch => 0x03
  | SessionPatchAck => 0x04
  | Close => 0x05
  | Error => 0x06
  | SessionOpen => 0x07
  | SessionOpenAck => 0x08
  | SessionClose => 0x09
  | SessionCloseAck => 0x0a
  | FrameSubmit => 0x10
  | FrameCancel => 0x11
  | ResultPush => 0x12
  | ResultDrop => 0x13
  | CachePut => 0x14
  | CacheAck => 0x15
  | CacheInvalidate => 0x16
  | FlowUpdate => 0x17
  | ResultHint => 0x18
  | TransportProbe => 0x19
  | TransportProbeAck => 0x1a
  | SessionMigrate => 0x1b
  | SessionMigrateAck => 0x1c
  | Ping => 0x20
  | Pong => 0x21
  | Cancel => 0x30
  | Abort => 0x31
  | PriorityUpdate => 0x32
  | Deadline => 0x33
  | ExpireAt => 0x34
  | Supersede => 0x35
  | BudgetUpdate => 0x36
  | Progress => 0x37
  | PartialResult => 0x38
  | Backpressure => 0x39
  | CreditUpdate => 0x3a
  | CapabilityNegotiation => 0x3b
  | DegradeProfile => 0x3c
  | RouteHint => 0x3d
  | ExecutionHint => 0x3e
  | TraceContext => 0x3f
  | ResultDropReason => 0x40
  | ObjectDeclare => 0x41
  | ObjectRef => 0x42
  | ObjectRelease => 0x43
  | ObjectPatch => 0x44
  | ObjectDelta => 0x45
  | CacheReference => 0x46
  | CacheMiss => 0x47
  | ErrorRecoverable => 0x48
  | RetryAfter => 0x49
  end.

Definition try_from_u8 (value : Z) : R t :=
  match value with
  | 0x01 => Ok ClientHello
  | 0x02 => Ok ServerHelloAck
  | 0x03 => Ok SessionPatch
  | 0x04 => Ok SessionPatchAck
  | 0x05 => Ok Close
  | 0x06 => Ok Error
  | 0x07 => Ok SessionOpen
  | 0x08 => Ok SessionOpenAck
  | 0x09 => Ok SessionClose
  | 0x0a => Ok SessionCloseAck
  | 0x10 => Ok FrameSubmit
  | 0x11 => Ok FrameCancel
  | 0x12 => Ok ResultPush
  | 0x13 => Ok ResultDrop
  | 0x14 => Ok CachePut
  | 0x15 => Ok CacheAck
  | 0x16 => Ok CacheInvalidate
  | 0x17 => Ok FlowUpdate
  | 0x18 => Ok ResultHint
  | 0x19 => Ok TransportProbe
  | 0x1a => Ok TransportProbeAck
  | 0x1b => Ok SessionMigrate
  | 0x1c => Ok SessionMigrateAck
  | 0x20 => Ok Ping
  | 0x21 => Ok Pong
  | 0x30 => Ok Cancel
  | 0x31 => Ok Abort
  | 0x32 => Ok PriorityUpdate
  | 0x33 => Ok Deadline
  | 0x34 => Ok ExpireAt
  | 0x35 => Ok Supersede
  | 0x36 => Ok BudgetUpdate
  | 0x37 => Ok Progress
  | 0x38 => Ok PartialResult
  | 0x39 => Ok Backpressure
  | 0x3a => Ok CreditUpdate
  | 0x3b => Ok CapabilityNegotiation
  | 0x3c => Ok DegradeProfile
  | 0x3d => Ok RouteHint
  | 0x3e => Ok ExecutionHint
  | 0x3f => Ok TraceContext
  | 0x40 => Ok ResultDropReason
  | 0x41 => Ok ObjectDeclare
  | 0x42 => Ok ObjectRef
  | 0x43 => Ok ObjectRelease
  | 0x44 => Ok ObjectPatch
  | 0x45 => Ok ObjectDelta
  | 0x46 => Ok CacheReference
  | 0x47 => Ok CacheMiss
  | 0x48 => Ok ErrorRecoverable
  | 0x49 => Ok RetryAfter
  | _ => Err (UnknownMessageType value)
  end.

Lemma message_type_repr_inj x y : repr x = repr y -> x = y.
Proof.
  intros Hxy. assert (forall z, try_from_u8 (repr z) = Ok z) as E by (by intros []).
  pose proof (E x) as Ex. rewrite Hxy, E in Ex. congruence.
Qed.

#[global] Instance eq_dec : EqDecision t.
Proof.
  refine (fun x y => cast_if (decide (repr x = repr y))).
  - by apply message_type_repr_inj.
  - by intros ->.
Defined.

End MessageType.

#[export] Instance MessageType_enum : WireEnum MessageType.t :=
  {| enum_width := 1; enum_repr := MessageType.repr; enum_try_from := MessageType.try_from_u8 |}.
#[export] Instance MessageType_laws : WireEnumLaws MessageType.t.
Proof. solve_enum MessageType.try_from_u8. Qed.

Module SessionPriorityClass.

Inductive t :=
| Interactive | Balanced | Background.

Definition repr (x : t) : Z :=
  match x with
  | Interactive => 0
  | Balanced => 1
  | Background => 2
  end.

Definition try_from_u8 (value : Z) : R t :=
  match value with
  | 0 => Ok Interactive
  | 1 => Ok Balanced
  | 2 => Ok Background
  | _ => Err (UnknownEnumValue "session_priority_class" value)
  end.

#[global] Instance eq_dec : EqDecision t.
Proof. solve_decision. Defined.

End SessionPriorityClass.

#[export] Instance SessionPriorityClass_enum : WireEnum SessionPriorityClass.t :=
  {| enum_width := 1; enum_repr := SessionPriorityClass.repr; enum_try_from := SessionPriorityClass.try_from_u8 |}.
#[export] Instance SessionPriorityClass_laws : WireEnumLaws SessionPriorityClass.t.
Proof. solve_enum SessionPriorityClass.try_from_u8. Qed.

Module SessionStatus.

Inductive t :=
| Opened | Rejected | RetryLater | Resumed.

Definition repr (x : t) : Z :=
  match x with
  | Opened => 0
  | Rejected => 1
  | RetryLater => 2
  | Resumed => 3
  end.

Definition try_from_u8 (value : Z) : R t :=
  match value with
  | 0 => Ok Opened
  | 1 => Ok Rejected
  | 2 => Ok RetryLater
  | 3 => Ok Resumed
  | _ => Err (UnknownEnumValue "session_status" value)
  end.

#[global] Instance eq_dec : EqDecision t.
Proof. solve_decision. Defined.

End SessionStatus.

#[export] Instance SessionStatus_enum : WireEnum SessionStatus.t :=
  {| enum_width := 1; enum_repr := SessionStatus.repr; enum_try_from := SessionStatus.try_from_u8 |}.
#[export] Instance SessionStatus_laws : WireEnumLaws SessionStatus.t.
Proof. solve_enum SessionStatus.try_from_u8. Qed.

Module SessionCloseReason.

Inductive t :=
| Normal | ClientShutdown | ServerShutdown | IdleTimeout | ProtocolError | AuthRevoked.

Definition repr (x : t) : Z :=
  match x with
  | Normal => 0
  | ClientShutdown => 1
  | ServerShutdown => 2
  | IdleTimeout => 3
  | ProtocolError => 4
  | AuthRevoked => 5
  end.

Definition try_from_u16 (value : Z) : R t :=
  match value with
  | 0 => Ok Normal
  | 1 => Ok ClientShutdown
  | 2 => Ok ServerShutdown
  | 3 => Ok IdleTimeout
  | 4 => Ok ProtocolError
  | 5 => Ok AuthRevoked
  | _ => Err (UnknownEnumValue "close_reason" value)
  end.

#[global] Instance eq_dec : EqDecision t.
Proof. solve_decision. Defined.

End SessionCloseReason.

#[export] Instance SessionCloseReason_enum : WireEnum SessionCloseReason.t :=
  {| enum_width := 2; enum_repr := SessionCloseReason.repr; enum_try_from := SessionCloseReason.try_from_u16 |}.
#[export] Instance SessionCloseReason_laws : WireEnumLaws SessionCloseReason.t.
Proof. solve_enum SessionCloseReason.try_from_u16. Qed.

Module InFlightPolicy.

Inductive t :=
| Drain | Abort.

Definition repr (x : t) : Z :=
  match x with
  | Drain => 0
  | Abort => 1
  end.

Definition try_from_u8 (value : Z) : R t :=
  match value with
  | 0 => Ok Drain
  | 1 => Ok Abort
  | _ => Err (UnknownEnumValue "in_flight_policy" value)
  end.

#[global] Instance eq_dec : EqDecision t.
Proof. solve_decision. Defined.

End InFlightPolicy.

#[export] Instance InFlightPolicy_enum : WireEnum InFlightPolicy.t :=
  {| enum_width := 1; enum_repr := InFlightPolicy.repr; enum_try_from := InFlightPolicy.try_from_u8 |}.
#[export] Instance InFlightPolicy_laws : WireEnumLaws InFlightPolicy.t.
Proof. solve_enum InFlightPolicy.try_from_u8. Qed.

Module SessionCloseStatus.

Inductive t :=
| Acknowledged | Draining | Closed | Rejected.

Definition repr (x : t) : Z :=
  match x with
  | Acknowledged => 0
  | Draining => 1
  | Closed => 2
  | Rejected => 3
  end.

Definition try_from_u8 (value : Z) : R t :=
  match value with
  | 0 => Ok Acknowledged
  | 1 => Ok Draining
  | 2 => Ok Closed
  | 3 => Ok Rejected
  | _ => Err (UnknownEnumValue "close_status" value)
  end.

#[global] Instance eq_dec : EqDecision t.
Proof. solve_decision. Defined.

End SessionCloseStatus.

#[export] Instance SessionCloseStatus_enum : WireEnum SessionCloseStatus.t :=
  {| enum_width := 1; enum_repr := SessionCloseStatus.repr; enum_try_from := SessionCloseStatus.try_from_u8 |}.
#[export] Instance SessionCloseStatus_laws : WireEnumLaws SessionCloseStatus.t.
Proof. solve_enum SessionCloseStatus.try_from_u8. Qed.

(** [OperationState::try_from_u8]; the type and its transitions are in [Errors]. *)
Definition OperationState_try_from_u8 (value : Z) : R OperationState.t :=
  match value with
  | 0 => Ok OperationState.Accepted
  | 1 => Ok OperationState.Running
  | 2 => Ok OperationState.Partial
  | 3 => Ok OperationState.WaitingTool
  | 4 => Ok OperationState.Superseded
  | 5 => Ok OperationState.Cancelled
  | 6 => Ok OperationState.Failed
  | 7 => Ok OperationState.Completed
  | _ => Err (UnknownEnumValue "operation_state" value)
  end.

#[export] Instance OperationState_enum : WireEnum OperationState.t :=
  {| enum_width := 1; enum_repr := OperationState.repr;
     enum_try_from := OperationState_try_from_u8 |}.
#[export] Instance OperationState_laws : WireEnumLaws OperationState.t.
Proof. solve_enum OperationState_try_from_u8. Qed.

Module ResultTerminalState.

Inductive t :=
| Success | Cancelled | Dropped | Error.

Definition repr (x : t) : Z :=
  match x with
  | Success => 0
  | Cancelled => 1
  | Dropped => 2
  | Error => 3
  end.

Definition try_from_u8 (value : Z) : R t :=
  match value with
  | 0 => Ok Success
  | 1 => Ok Cancelled
  | 2 => Ok Dropped
  | 3 => Ok Error
  | _ => Err (UnknownEnumValue "result_terminal_state" value)
  end.

#[global] Instance eq_dec : EqDecision t.
Proof. solve_decision. Defined.

Definition from_operation_state (state : OperationState.t) : option t :=
  match state with
  | OperationState.Completed => Some Success
  | OperationState.Cancelled => Some Cancelled
  | OperationState.Superseded => Some Dropped
  | OperationState.Failed => Some Error
  | OperationState.Accepted | OperationState.Running
  | OperationState.Partial | OperationState.WaitingTool => None
  end.

Definition wire_name (x : t) : string :=
  match x with
  | Success => "success"
  | Cancelled => "cancelled"
  | Dropped => "dropped"
  | Error => "error"
  end.

End ResultTerminalState.

#[export] Instance ResultTerminalState_enum : WireEnum ResultTerminalState.t :=
  {| enum_width := 1; enum_repr := ResultTerminalState.repr; enum_try_from := ResultTerminalState.try_from_u8 |}.
#[export] Instance ResultTerminalState_laws : WireEnumLaws ResultTerminalState.t.
Proof. solve_enum ResultTerminalState.try_from_u8. Qed.

Module CancelScope.

Inductive t :=
| Operation | Subtree | Group | Session.

Definition repr (x : t) : Z :=
  match x with
  | Operation => 0
  | Subtree => 1
  | Group => 2
  | Session => 3
  end.

Definition try_from_u8 (value : Z) : R t :=
  match value with
  | 0 => Ok Operation
  | 1 => Ok Subtree
  | 2 => Ok Group
  | 3 => Ok Session
  | _ => Err (UnknownEnumValue "cancel_scope" value)
  end.

#[global] Instance eq_dec : EqDecision t.
Proof. solve_decision. Defined.

End CancelScope.

#[export] Instance CancelScope_enum : WireEnum CancelScope.t :=
  {| enum_width := 1; enum_repr := CancelScope.repr; enum_try_from := CancelScope.try_from_u8 |}.
#[export] Instance CancelScope_laws : WireEnumLaws CancelScope.t.
Proof. solve_enum CancelScope.try_from_u8. Qed.

Module FlowScopeKind.

Inductive t :=
| Connection | Session | Operation.

Definition repr (x : t) : Z :=
  match x with
  | Connection => 0
  | Session => 1
  | Operation => 2
  end.

Definition try_from_u8 (value : Z) : R t :=
  match value with
  | 0 => Ok Connection
  | 1 => Ok Session
  | 2 => Ok Operation
  | _ => Err (UnknownEnumValue "scope_kind" value)
  end.

#[global] Instance eq_dec : EqDecision t.
Proof. solve_decision. Defined.

End FlowScopeKind.

#[export] Instance FlowScopeKind_enum : WireEnum FlowScopeKind.t :=
  {| enum_width := 1; enum_repr := FlowScopeKind.repr; enum_try_from := FlowScopeKind.try_from_u8 |}.
#[export] Instance FlowScopeKind_laws : WireEnumLaws FlowScopeKind.t.
Proof. solve_enum FlowScopeKind.try_from_u8. Qed.

Module FlowUpdateReason.

Inductive t :=
| Grant | Reduce | Pause | Resume | Congestion.

Definition repr (x : t) : Z :=
  match x with
  | Grant => 0
  | Reduce => 1
  | Pause => 2
  | Resume => 3
  | Congestion => 4
  end.

Definition try_from_u8 (value : Z) : R t :=
  match value with
  | 0 => Ok Grant
  | 1 => Ok Reduce
  | 2 => Ok Pause
  | 3 => Ok Resume
  | 4 => Ok Congestion
  | _ => Err (UnknownEnumValue "update_reason" value)
  end.

#[global] Instance eq_dec : EqDecision t.
Proof. solve_decision. Defined.

End FlowUpdateReason.

#[export] Instance FlowUpdateReason_enum : WireEnum FlowUpdateReason.t :=
  {| enum_width := 1; enum_repr := FlowUpdateReason.repr; enum_try_from := FlowUpdateReason.try_from_u8 |}.
#[export] Instance FlowUpdateReason_laws : WireEnumLaws FlowUpdateReason.t.
Proof. solve_enum FlowUpdateReason.try_from_u8. Qed.

Module BackpressureLevel.

Inductive t :=
| None | Soft | Hard | Paused.

Definition repr (x : t) : Z :=
  match x with
  | None => 0
  | Soft => 1
  | Hard => 2
  | Paused => 3
  end.

Definition try_from_u8 (value : Z) : R t :=
  match value with
  | 0 => Ok None
  | 1 => Ok Soft
  | 2 => Ok Hard
  | 3 => Ok Paused
  | _ => Err (UnknownEnumValue "backpressure_level" value)
  end.

#[global] Instance eq_dec : EqDecision t.
Proof. solve_decision. Defined.

End BackpressureLevel.

#[export] Instance BackpressureLevel_enum : WireEnum BackpressureLevel.t :=
  {| enum_width := 1; enum_repr := BackpressureLevel.repr; enum_try_from := BackpressureLevel.try_from_u8 |}.
#[export] Instance BackpressureLevel_laws : WireEnumLaws BackpressureLevel.t.
Proof. solve_enum BackpressureLevel.try_from_u8. Qed.

(** ** Bit masks and reserved fields

    The guards the codecs share: [value & !allowed != 0] at the width of the
    field, and a reserved field that must be zero. *)

Definition mask_ok (w : Z) (value allowed : Z) : bool :=
  Z.land value (bnot w allowed) =? 0.

Definition validate_mask (w : Z) (value allowed : Z) : R unit :=
  reject_if (negb (mask_ok w value allowed)) (ReservedBitsSet value allowed).

Definition validate_mask_u8 := validate_mask 8.
Definition validate_mask_u16 := validate_mask 16.
Definition validate_mask_u32 := validate_mask 32.

Definition validate_zero (field : string) (value : Z) : R unit :=
  reject_if (negb (value =? 0)) (NonZeroReservedField field).

Lemma validate_mask_Ok w v a u : validate_mask w v a = Ok u <-> mask_ok w v a = true.
Proof. unfold validate_mask. rewrite reject_if_Ok, negb_false_iff. done. Qed.

Lemma validate_zero_Ok f v u : validate_zero f v = Ok u <-> v = 0.
Proof. unfold validate_zero. rewrite reject_if_Ok, negb_false_iff, Z.eqb_eq. done. Qed.

Lemma mask_ok_within w v a :
  0 <= w -> 0 <= v < 2 ^ w -> mask_ok w v a = bits_within v a.
Proof. intros. unfold mask_ok, bits_within. by rewrite land_bnot. Qed.

Module HeaderFlags.

Definition NONE : Z := 0.
Definition ACK_REQUIRED : Z := 0x0000_0001.
Definition CAN_DROP : Z := 0x0000_0002.
Definition STALE : Z := 0x0000_0004.
Definition EOS : Z := 0x0000_0008.
Definition RETRANSMIT : Z := 0x0000_0010.
Definition KEYFRAME : Z := 0x0000_0020.

Definition KNOWN_MASK : Z :=
  Z.lor (Z.lor (Z.lor (Z.lor (Z.lor ACK_REQUIRED CAN_DROP) STALE) EOS) RETRANSMIT) KEYFRAME.

Definition validate_known (flags : Z) : R unit :=
  reject_if (negb (mask_ok 32 flags KNOWN_MASK)) (ReservedBitsSet flags KNOWN_MASK).

End HeaderFlags.
