(* ===== verification/Wire.v ===== *)
(** Fixed-layout metadata codecs.

    Every metadata block of the protocol is a struct with
    - [parse], which checks the length of the source, the reserved fields and the
      flag masks, and reads each field at a literal offset;
    - [write], which checks the length of the destination and the field values
      and stores each field at a literal offset;
    - [to_bytes], which writes into a zeroed array of the exact length.

    The first part models the byte accessors that each source file repeats
    ([require_len], [read_u16], [write_u32], ...).  The second part gives the
    abstract view: a message is a list of fields laid out one after the other,
    with no offset in sight.  The class [WireCodec] packages a struct's operations
    with its layout, [WireCodecLaws] says that the operations implement the layout, and
    the last part proves, from those laws alone, what the rest of the system
    relies on: round trips, canonical encodings and the absence of panics. *)

From S2P Require Import Prelude Bytes Errors Enums.

Local Open Scope Z_scope.

(** ** Byte accessors *)

(** [s\[a..b\]] on a slice. *)
Definition slice (source : bytes) (a b : nat) : R bytes :=
  if decide (a <= b /\ b <= length source)%nat then Ok (take (b - a) (drop a source)) else Panic.

(** [s\[i\]] on a slice of [u8]. *)
Definition index (source : bytes) (i : nat) : R Z :=
  match source !! i with Some b => Ok (Z_of_byte b) | None => Panic end.

Definition read_le (w : nat) (source : bytes) (offset : nat) : R Z :=
  bs ← slice source offset (offset + w); Ok (le_value bs).

Definition read_u16 := read_le 2.
Definition read_u32 := read_le 4.
Definition read_u64 := read_le 8.

Definition read_i16 (source : bytes) (offset : nat) : R Z :=
  bs ← slice source offset (offset + 2); Ok (to_signed 2 (le_value bs)).

(** [d\[off..off+src.len()\].copy_from_slice(src)]. *)
Definition copy_from_slice (destination : bytes) (offset : nat) (src : bytes) : R bytes :=
  if decide (offset + length src <= length destination)%nat
  then Ok (take offset destination ++ src ++ drop (offset + length src) destination)
  else Panic.

Definition write_le (w : nat) (destination : bytes) (offset : nat) (value : Z) : R bytes :=
  copy_from_slice destination offset (le_bytes w value).

(** [d\[i\] = value]. *)
Definition write_u8 := write_le 1.
Definition write_u16 := write_le 2.
Definition write_u32 := write_le 4.
Definition write_u64 := write_le 8.
Definition write_i16 := write_le 2.

(** [d\[..n\].fill(0)]. *)
Definition fill_zero (destination : bytes) (n : nat) : R bytes :=
  if decide (n <= length destination)%nat
  then Ok (replicate n x00 ++ drop n destination)
  else Panic.

Definition require_len (source : bytes) (expected : nat) : R unit :=
  reject_if (len source <? Z.of_nat expected)
    (SourceTooShort (Z.of_nat expected) (len source)).

Definition require_destination_len (destination : bytes) (expected : nat) : R unit :=
  reject_if (len destination <? Z.of_nat expected)
    (DestinationTooShort (Z.of_nat expected) (len destination)).

Definition require_declared_len (field : string) (declared actual : Z) : R unit :=
  reject_if (negb (declared =? actual)) (DeclaredLengthMismatch field declared actual).

(** [split_declared_tail]: the bytes after the fixed part, whose number the fixed part declares. *)
Definition split_declared_tail
    (source : bytes) (fixed_len : nat) (declared_tail_len : Z) (field : string) : R bytes :=
  _ ← require_len source fixed_len;
  let actual_tail_len := len source - Z.of_nat fixed_len in
  _ ← require_declared_len field declared_tail_len actual_tail_len;
  slice source fixed_len (length source).

(** ** Fields and layouts *)

(** Unsigned and two's complement fields of a number of bytes. *)
Inductive fkind := KU (w : nat) | KI (w : nat).

Definition fwidth (k : fkind) : nat := match k with KU w | KI w => w end.

Record field := F { fk : fkind; fv : Z }.

Definition field_bytes (f : field) : bytes := le_bytes (fwidth (fk f)) (fv f).

Definition encode (fs : list field) : bytes := concat (map field_bytes fs).

Definition shape_width (ks : list fkind) : nat := sum_list (map fwidth ks).

(** The value of a field fits its type. *)
Definition field_ok (f : field) : bool :=
  match fk f with
  | KU w => (0 <=? fv f) && (fv f <? modulus w)
  | KI w => (0 <? w)%nat && (- (modulus w / 2) <=? fv f) && (fv f <? modulus w / 2)
  end.

Definition fields_ok (fs : list field) : bool := forallb field_ok fs.

(** The field that starts at a byte offset. *)
Fixpoint field_at (fs : list field) (offset : nat) : option field :=
  match fs with
  | [] => None
  | f :: fs =>
      match offset with
      | O => Some f
      | _ => if (fwidth (fk f) <=? offset)%nat
             then field_at fs (offset - fwidth (fk f)) else None
      end
  end.

(** Replace the field that starts at a byte offset. *)
Fixpoint set_field (fs : list field) (offset : nat) (g : field) : list field :=
  match fs with
  | [] => []
  | f :: fs =>
      match offset with
      | O => g :: fs
      | _ => f :: set_field fs (offset - fwidth (fk f)) g
      end
  end.

(** No field is empty. *)
Definition shape_pos (ks : list fkind) : bool := forallb (fun k => negb (fwidth k =? 0)%nat) ks.

Lemma shape_pos_Forall ks : shape_pos ks = true <-> Forall (fun k => fwidth k <> 0%nat) ks.
Proof.
  unfold shape_pos. rewrite forallb_forall, Forall_forall.
  setoid_rewrite list_elem_of_In. setoid_rewrite negb_true_iff.
  by setoid_rewrite Nat.eqb_neq.
Qed.

Lemma shape_pos_map fs :
  shape_pos (map fk fs) = true -> forall h, h ∈ fs -> fwidth (fk h) <> 0%nat.
Proof.
  intros Hpos%shape_pos_Forall h Hh. rewrite Forall_forall in Hpos.
  apply Hpos, list_elem_of_fmap. eauto.
Qed.

Lemma length_field_bytes f : length (field_bytes f) = fwidth (fk f).
Proof. apply length_le_bytes. Qed.

Lemma encode_cons f fs : encode (f :: fs) = field_bytes f ++ encode fs.
Proof. done. Qed.

Lemma length_encode fs : length (encode fs) = shape_width (map fk fs).
Proof.
  induction fs as [|f fs IH]; [done|].
  by rewrite encode_cons, length_app, length_field_bytes, IH.
Qed.

Lemma fields_ok_at fs offset f :
  fields_ok fs = true -> field_at fs offset = Some f -> field_ok f = true.
Proof.
  revert offset; induction fs as [|g fs IH]; intros offset Hok Hat; [done|].
  simpl in *. apply andb_prop in Hok as [Hg Hfs]. destruct offset; [by simplify_eq|].
  case_match; [by eapply IH|done].
Qed.

(** A field found at an offset occupies exactly its bytes there. *)
Lemma field_at_split fs offset f :
  field_at fs offset = Some f ->
  exists pre post, fs = pre ++ f :: post /\ length (encode pre) = offset.
Proof.
  revert offset; induction fs as [|g fs IH]; intros offset Hat; [done|].
  simpl in Hat. destruct offset as [|o]; simplify_eq.
  - by exists [], fs.
  - case_match eqn:Hle; [|done]. apply Nat.leb_le in Hle.
    destruct (IH _ Hat) as (pre & post & -> & Hlen).
    exists (g :: pre), post. split; [done|].
    rewrite encode_cons, length_app, length_field_bytes. lia.
Qed.

Lemma encode_app fs gs : encode (fs ++ gs) = encode fs ++ encode gs.
Proof. unfold encode. by rewrite map_app, concat_app. Qed.

Lemma set_field_split pre f post g offset :
  length (encode pre) = offset -> (forall h, h ∈ pre -> fwidth (fk h) <> 0%nat) ->
  set_field (pre ++ f :: post) offset g = pre ++ g :: post.
Proof.
  revert offset; induction pre as [|h pre IH]; intros offset Hlen Hpos; simpl.
  - by subst.
  - rewrite encode_cons, length_app, length_field_bytes in Hlen.
    assert (fwidth (fk h) <> 0%nat) by (apply Hpos; set_solver).
    destruct offset as [|o]; [lia|]. f_equal. apply IH; [lia|set_solver].
Qed.

Lemma slice_app pre bs post :
  slice (pre ++ bs ++ post) (length pre) (length pre + length bs) = Ok bs.
Proof.
  unfold slice. rewrite decide_True by (rewrite !length_app; lia).
  rewrite drop_app_length. replace (_ + _ - _)%nat with (length bs) by lia.
  by rewrite take_app_length.
Qed.

Lemma encode_around pre f post rest :
  encode (pre ++ f :: post) ++ rest = encode pre ++ field_bytes f ++ encode post ++ rest.
Proof. by rewrite encode_app, encode_cons, <- !app_assoc. Qed.

Lemma slice_encode fs rest offset f :
  field_at fs offset = Some f ->
  slice (encode fs ++ rest) offset (offset + fwidth (fk f)) = Ok (field_bytes f).
Proof.
  intros (pre & post & -> & <-)%field_at_split. rewrite encode_around, <- length_field_bytes.
  apply slice_app.
Qed.

Lemma slice_encode_at fs rest a b f :
  field_at fs a = Some f -> (a + fwidth (fk f))%nat = b ->
  slice (encode fs ++ rest) a b = Ok (field_bytes f).
Proof. intros Hf <-. by apply slice_encode. Qed.

(** ** Accessors over an encoded layout *)

Section accessors.
Context (fs : list field) (rest : bytes) (offset : nat).

Lemma read_le_encode w v :
  fields_ok fs = true -> field_at fs offset = Some (F (KU w) v) ->
  read_le w (encode fs ++ rest) offset = Ok v.
Proof.
  intros Hok Hat. unfold read_le. pose proof (slice_encode _ rest _ _ Hat) as Hs.
  simpl in Hs. rewrite Hs. simpl.
  unfold field_bytes. simpl. rewrite le_value_bytes.
  pose proof (fields_ok_at _ _ _ Hok Hat) as Hv. unfold field_ok in Hv. simpl in Hv.
  rewrite Z.mod_small by lia. done.
Qed.

Lemma read_i16_encode v :
  fields_ok fs = true -> field_at fs offset = Some (F (KI 2) v) ->
  read_i16 (encode fs ++ rest) offset = Ok v.
Proof.
  intros Hok Hat. unfold read_i16. pose proof (slice_encode _ rest _ _ Hat) as Hs.
  simpl in Hs. rewrite Hs. simpl.
  unfold field_bytes. simpl. rewrite le_value_bytes.
  pose proof (fields_ok_at _ _ _ Hok Hat) as Hv. unfold field_ok in Hv. simpl in Hv.
  rewrite to_signed_mod by lia. done.
Qed.

Lemma index_encode v :
  fields_ok fs = true -> field_at fs offset = Some (F (KU 1) v) ->
  index (encode fs ++ rest) offset = Ok v.
Proof.
  intros Hok Hat. unfold index.
  pose proof (fields_ok_at _ _ _ Hok Hat) as Hv. unfold field_ok in Hv. simpl in Hv.
  destruct (field_at_split _ _ _ Hat) as (pre & post & -> & <-).
  rewrite encode_around, lookup_app_r, Nat.sub_diag by lia.
  change (field_bytes (F (KU 1) v)) with [byte_of_Z v]. simpl.
  change (modulus 1) with 256 in Hv. rewrite Z_of_byte_of_Z, Z.mod_small by lia. done.
Qed.

(** A store of a field's width at the field's offset replaces that field. *)
Lemma write_le_encode w g v :
  shape_pos (map fk fs) = true -> field_at fs offset = Some g -> fwidth (fk g) = w ->
  write_le w (encode fs ++ rest) offset v =
  Ok (encode (set_field fs offset (F (KU w) v)) ++ rest).
Proof.
  intros Hpos Hat Hg. pose proof (shape_pos_map _ Hpos) as Hp. destruct (field_at_split _ _ _ Hat) as (pre & post & -> & Hlen).
  rewrite (set_field_split _ _ _ _ _ Hlen) by set_solver. rewrite !encode_around.
  unfold write_le, copy_from_slice. rewrite length_le_bytes, decide_True
    by (rewrite !length_app, length_field_bytes; lia). subst offset.
  rewrite take_app_length, <- drop_drop, drop_app_length. do 3 f_equal.
  rewrite <- Hg, <- (length_field_bytes g), drop_app_length. done.
Qed.
End accessors.

(** Storing given bytes over a field of their number stores their value. *)
Lemma copy_encode fs rest offset g src :
  shape_pos (map fk fs) = true -> field_at fs offset = Some g -> fwidth (fk g) = length src ->
  copy_from_slice (encode fs ++ rest) offset src =
  Ok (encode (set_field fs offset (F (KU (length src)) (le_value src))) ++ rest).
Proof.
  intros Hpos Hat Hg. rewrite <- (write_le_encode _ _ _ _ _ _ Hpos Hat Hg).
  unfold write_le. by rewrite le_bytes_value.
Qed.

Lemma write_i16_encode fs rest offset g v :
  shape_pos (map fk fs) = true -> field_at fs offset = Some g -> fwidth (fk g) = 2%nat ->
  write_i16 (encode fs ++ rest) offset v =
  Ok (encode (set_field fs offset (F (KI 2) v)) ++ rest).
Proof.
  intros Hpos Hat Hg. unfold write_i16. rewrite (write_le_encode _ _ _ _ _ _ Hpos Hat Hg).
  do 2 f_equal. clear. revert offset; induction fs as [|f fs IH]; intros offset; simpl; [done|].
  destruct offset; [done|]. by rewrite !encode_cons, IH.
Qed.

Definition zero_fields (fs : list field) : list field := map (fun f => F (fk f) 0) fs.

Lemma encode_zero fs : encode (zero_fields fs) = replicate (shape_width (map fk fs)) x00.
Proof.
  induction fs as [|f fs IH]; [done|]. simpl. rewrite encode_cons, IH.
  unfold field_bytes at 1. simpl. rewrite le_bytes_zero, <- replicate_add. done.
Qed.

Lemma fill_zero_encode fs rest n :
  shape_width (map fk fs) = n ->
  fill_zero (encode fs ++ rest) n = Ok (encode (zero_fields fs) ++ rest).
Proof.
  intros <-. unfold fill_zero. rewrite decide_True by (rewrite length_app, length_encode; lia).
  rewrite encode_zero. rewrite <- (length_encode fs) at 2. by rewrite drop_app_length.
Qed.

Lemma require_len_Ok source n u :
  require_len source n = Ok u <-> (n <= length source)%nat.
Proof. unfold require_len, len. rewrite reject_if_Ok, Z.ltb_ge. lia. Qed.

Lemma require_destination_len_Ok d n u :
  require_destination_len d n = Ok u <-> (n <= length d)%nat.
Proof. unfold require_destination_len, len. rewrite reject_if_Ok, Z.ltb_ge. lia. Qed.

(** Any long enough byte string is the encoding of some field values. *)
Lemma decompose ks bs :
  (shape_width ks <= length bs)%nat -> shape_pos ks = true ->
  exists vs, length vs = length ks /\ fields_ok (zip_with F ks vs) = true /\
    bs = encode (zip_with F ks vs) ++ drop (shape_width ks) bs.
Proof.
  intros Hlen Hpos%shape_pos_Forall. revert bs Hlen.
  induction Hpos as [|k ks Hk Hks IH]; intros bs Hlen.
  { exists []. by rewrite drop_0. }
  change (shape_width (k :: ks)) with (fwidth k + shape_width ks)%nat in *.
  destruct (IH (drop (fwidth k) bs)) as (vs & Hvs & Hok & Hbs);
    [rewrite length_drop; lia|].
  set (b := take (fwidth k) bs). assert (length b = fwidth k) as Hb
    by (unfold b; rewrite length_take; lia).
  pose proof (le_value_range b) as Hr. rewrite Hb in Hr.
  exists ((match k with KU _ => le_value b | KI w => to_signed w (le_value b) end) :: vs).
  split; [by simpl; rewrite Hvs|]. simpl. rewrite encode_cons, Hok, andb_true_r. split.
  - destruct k as [w|w]; unfold field_ok; simpl in *; [lia|].
    pose proof (to_signed_range w (le_value b) ltac:(lia) ltac:(lia)) as [??].
    rewrite !andb_true_iff, Nat.ltb_lt, Z.leb_le, Z.ltb_lt. split_and!; [lia|done|done].
  - rewrite <- app_assoc, <- drop_drop, <- Hbs.
    rewrite <- (take_drop (fwidth k) bs) at 1. f_equal. fold b. unfold field_bytes.
    destruct k as [w|w]; simpl in *; [by rewrite <- Hb, le_bytes_value|].
    rewrite <- le_bytes_mod, to_signed_inv by done. by rewrite <- Hb, le_bytes_value.
Qed.

(** ** Codecs *)

(** A struct of the protocol: its operations, its layout, and the constraints on
    its values beyond the types of its fields. *)
Class WireCodec (A : Type) := {
  codec_len : nat;
  codec_shape : list fkind;
  codec_parse : bytes -> R A;
  codec_write : A -> bytes -> R bytes;
  codec_layout : A -> list field;
  codec_guard : A -> bool
}.

Section codec_defs.
Context {A : Type} `{WireCodec A}.

(** The bytes a message stands for. *)
Definition wire (m : A) : bytes := encode (codec_layout m).

(** Every field fits its type: what Rust's types guarantee. *)
Definition typed (m : A) : bool := fields_ok (codec_layout m).

Definition valid (m : A) : bool := typed m && codec_guard m.
End codec_defs.

(** The contract between a struct's operations and its layout. *)
Class WireCodecLaws (A : Type) `{WireCodec A} : Prop := {
  law_len : shape_width codec_shape = codec_len;
  law_shape (m : A) : map fk (codec_layout m) = codec_shape;
  law_parse_short bs : (length bs < codec_len)%nat ->
    codec_parse (A := A) bs = Err (SourceTooShort (Z.of_nat codec_len) (len bs));
  law_parse_wire (m : A) rest : valid m = true -> codec_parse (wire m ++ rest) = Ok m;
  law_parse_sound bs (m : A) : codec_parse bs = Ok m ->
    valid m = true /\ take codec_len bs = wire m;
  law_parse_no_panic bs : codec_parse (A := A) bs <> Panic;
  law_write_short (m : A) d : (length d < codec_len)%nat ->
    codec_write m d = Err (DestinationTooShort (Z.of_nat codec_len) (len d));
  law_write_valid (m : A) d : valid m = true -> (codec_len <= length d)%nat ->
    codec_write m d = Ok (wire m ++ drop codec_len d);
  law_write_sound (m : A) d d' : codec_write m d = Ok d' ->
    (codec_len <= length d)%nat /\ d' = wire m ++ drop codec_len d;
  law_write_no_panic (m : A) d : codec_write m d <> Panic
}.

(** A codec whose [write] accepts nothing that its [parse] would refuse. *)
Class StrictWireCodec (A : Type) `{WireCodecLaws A} : Prop :=
  law_write_strict (m : A) d d' : typed m = true -> codec_write m d = Ok d' -> valid m = true.

(** [to_bytes]: [write] into a zeroed array of the exact length. *)
Definition codec_to_bytes {A} `{WireCodec A} (m : A) : R bytes :=
  codec_write m (replicate codec_len x00).

(** ** What follows from the laws

    The clients of a codec use these lemmas and never its offsets. *)

Section codec_theory.
Context {A : Type} `{WireCodecLaws A}.
Implicit Types m : A.

Lemma length_wire m : length (wire m) = codec_len (A := A).
Proof. unfold wire. by rewrite length_encode, law_shape, law_len. Qed.

Lemma to_bytes_valid m : valid m = true -> codec_to_bytes m = Ok (wire m).
Proof.
  intros Hv. unfold codec_to_bytes. rewrite law_write_valid; [|done|by rewrite length_replicate].
  by rewrite drop_ge, app_nil_r by (rewrite length_replicate; lia).
Qed.

(** The encoding of a message is canonical: a parsed message encodes to the very
    bytes it was parsed from. *)
Lemma parse_to_bytes bs m :
  codec_parse bs = Ok m -> codec_to_bytes m = Ok (take (codec_len (A := A)) bs).
Proof.
  intros Hp. destruct (law_parse_sound _ _ Hp) as [Hv Ht]. rewrite Ht. by apply to_bytes_valid.
Qed.

Lemma parse_length bs m : codec_parse bs = Ok m -> (codec_len (A := A) <= length bs)%nat.
Proof.
  intros Hp. destruct (Nat.lt_ge_cases (length bs) (codec_len (A := A))) as [Hlt|]; [|done].
  rewrite (law_parse_short _ Hlt) in Hp. done.
Qed.

(** What [parse] sees of its source is its first [codec_len] bytes. *)
Lemma parse_prefix bs m rest :
  codec_parse bs = Ok m -> codec_parse (take (codec_len (A := A)) bs ++ rest) = Ok m.
Proof.
  intros Hp. destruct (law_parse_sound _ _ Hp) as [Hv ->]. by apply law_parse_wire.
Qed.

Lemma parse_iff bs m :
  codec_parse bs = Ok m <-> valid m = true /\ take (codec_len (A := A)) bs = wire m.
Proof.
  split; [apply law_parse_sound|]. intros [Hv Ht].
  rewrite <- (take_drop (codec_len (A := A)) bs), Ht. by apply law_parse_wire.
Qed.

Lemma wire_inj m1 m2 : valid m1 = true -> valid m2 = true -> wire m1 = wire m2 -> m1 = m2.
Proof.
  intros H1 H2 Heq. pose proof (law_parse_wire _ [] H1) as P1.
  rewrite Heq, (law_parse_wire _ [] H2) in P1. congruence.
Qed.

Lemma write_then_parse m d d' :
  valid m = true -> codec_write m d = Ok d' -> codec_parse d' = Ok m.
Proof. intros Hv [_ ->]%law_write_sound. by apply law_parse_wire. Qed.

(** [write] changes the first [codec_len] bytes of the destination and nothing else. *)
Lemma write_frame m d d' :
  codec_write m d = Ok d' ->
  length d' = length d /\ drop (codec_len (A := A)) d' = drop (codec_len (A := A)) d.
Proof.
  intros [Hlen ->]%law_write_sound. split.
  - rewrite length_app, length_wire, length_drop. lia.
  - by rewrite drop_app_length' by (by rewrite length_wire).
Qed.

Lemma write_error m d e :
  codec_write m d = Err e -> valid m = true -> (length d < codec_len (A := A))%nat.
Proof.
  intros He Hv. destruct (Nat.lt_ge_cases (length d) (codec_len (A := A))) as [|Hge]; [done|].
  by rewrite (law_write_valid _ _ Hv Hge) in He.
Qed.

(** Either a message comes out, or an error: never a panic. *)
Lemma parse_total bs : (exists m, codec_parse bs = Ok m) \/ (exists e, codec_parse (A := A) bs = Err e).
Proof.
  pose proof (law_parse_no_panic (A := A) bs) as Hp.
  destruct (codec_parse bs) as [m|e|]; [by left; eauto|by right; eauto|done].
Qed.

Lemma strict_round_trip `{!StrictWireCodec A} m :
  typed m = true ->
  (exists bs, codec_to_bytes m = Ok bs /\ codec_parse bs = Ok m) \/
  (exists e, codec_to_bytes m = Err e /\ valid m = false).
Proof.
  intros Ht. unfold codec_to_bytes.
  destruct (codec_write m (replicate codec_len x00)) as [bs|e|] eqn:Hw.
  - left. exists bs. split; [done|]. eapply write_then_parse; [|done].
    by eapply law_write_strict.
  - right. exists e. split; [done|]. destruct (valid m) eqn:Hv; [|done].
    apply write_error in Hw; [|done]. rewrite length_replicate in Hw. lia.
  - by apply law_write_no_panic in Hw.
Qed.
End codec_theory.

(** ** Codecs with a declared tail

    A struct may declare, in one of its fields, the number of bytes that follow
    its fixed part (diagnostics, a body, an extension).  [parse_with_*] splits a
    source into the struct and exactly that tail, [to_vec_with_*] puts them back
    together.  [tail_check] is what a struct checks of the tail itself. *)

Class TailedCodec (A : Type) `{WireCodec A} := {
  tail_field : string;
  tail_declared : A -> Z;
  tail_check : A -> bytes -> R unit;
  parse_with_tail : bytes -> R (A * bytes);
  to_vec_with_tail : A -> bytes -> R bytes
}.

Class TailedCodecLaws (A : Type) `{TailedCodec A} : Prop := {
  law_parse_tail bs :
    parse_with_tail bs =
      (m ← codec_parse (A := A) bs;
       tail ← split_declared_tail bs (codec_len (A := A)) (tail_declared m) tail_field;
       _ ← tail_check m tail;
       Ok (m, tail));
  law_to_vec_tail (m : A) tail :
    to_vec_with_tail m tail =
      (_ ← require_declared_len tail_field (tail_declared m) (len tail);
       _ ← tail_check m tail;
       fixed ← codec_to_bytes m;
       Ok (fixed ++ tail));
  law_tail_check (m : A) tail : tail_check m tail <> Panic
}.

Lemma require_declared_len_Ok f d a u : require_declared_len f d a = Ok u <-> d = a.
Proof. unfold require_declared_len. rewrite reject_if_Ok, negb_false_iff, Z.eqb_eq. done. Qed.

Lemma slice_to_end source a :
  (a <= length source)%nat -> slice source a (length source) = Ok (drop a source).
Proof.
  intros Ha. unfold slice. rewrite decide_True by lia.
  by rewrite take_ge by (rewrite length_drop; lia).
Qed.

Lemma split_declared_tail_Ok source n d f tail :
  split_declared_tail source n d f = Ok tail <->
  (n <= length source)%nat /\ d = len tail /\ tail = drop n source.
Proof.
  unfold split_declared_tail. rewrite bind_Ok. setoid_rewrite bind_Ok. split.
  - intros (u & Hn%require_len_Ok & v & Hd%require_declared_len_Ok & Hs).
    rewrite slice_to_end in Hs by done. simplify_eq.
    split_and!; [done| |done]. unfold len. rewrite length_drop. lia.
  - intros (Hn & -> & ->). exists tt. rewrite require_len_Ok. split; [done|]. exists tt.
    rewrite require_declared_len_Ok, slice_to_end by done. split; [|done].
    unfold len. rewrite length_drop. lia.
Qed.

Lemma split_declared_tail_no_panic source n d f : split_declared_tail source n d f <> Panic.
Proof.
  unfold split_declared_tail. apply bind_no_panic; [apply reject_if_no_panic|].
  intros [] Hn%require_len_Ok. apply bind_no_panic; [apply reject_if_no_panic|].
  intros _ _. by rewrite slice_to_end.
Qed.

Section tailed_theory.
Context {A : Type} `{WireCodecLaws A} `{!TailedCodec A, !TailedCodecLaws A}.
Implicit Types m : A.

Lemma parse_with_tail_Ok bs m tail :
  parse_with_tail bs = Ok (m, tail) <->
  valid m = true /\ tail_declared m = len tail /\ tail_check m tail = Ok tt /\
  bs = wire m ++ tail.
Proof.
  rewrite law_parse_tail. split.
  - intros Hp. apply bind_Ok in Hp as (m' & [Hv Ht]%parse_iff & Hp).
    apply bind_Ok in Hp as (tail' & (Hn & Hd & Htail)%split_declared_tail_Ok & Hp).
    apply bind_Ok in Hp as ([] & Hc & [= <- <-]).
    split_and!; [done..|]. by rewrite <- Ht, Htail, take_drop.
  - intros (Hv & Hd & Hc & ->). rewrite (law_parse_wire _ tail Hv). simpl.
    rewrite (proj2 (split_declared_tail_Ok _ _ _ _ tail)); [by simpl; rewrite Hc|].
    rewrite length_app, length_wire, drop_app_length' by (by rewrite length_wire).
    split_and!; [lia|done|done].
Qed.

Lemma to_vec_with_tail_valid m tail :
  valid m = true -> tail_declared m = len tail -> tail_check m tail = Ok tt ->
  to_vec_with_tail m tail = Ok (wire m ++ tail).
Proof.
  intros Hv Hd Hc. rewrite law_to_vec_tail.
  rewrite (proj2 (require_declared_len_Ok _ _ _ tt) Hd). simpl.
  rewrite Hc. simpl. by rewrite to_bytes_valid.
Qed.

(** What is parsed is put back together byte for byte. *)
Lemma parse_then_to_vec bs m tail :
  parse_with_tail bs = Ok (m, tail) -> to_vec_with_tail m tail = Ok bs.
Proof. intros (Hv & Hd & Hc & ->)%parse_with_tail_Ok. by apply to_vec_with_tail_valid. Qed.

Lemma to_vec_then_parse `{!StrictWireCodec A} m tail bs :
  typed m = true -> to_vec_with_tail m tail = Ok bs -> parse_with_tail bs = Ok (m, tail).
Proof.
  intros Ht Hbs. rewrite law_to_vec_tail in Hbs.
  inv_bind Hbs. apply require_declared_len_Ok in Ha.
  apply bind_Ok in Hbs as ([] & Hc & Hbs).
  apply bind_Ok in Hbs as (fixed & Hf & [= <-]).
  apply parse_with_tail_Ok.
  assert (valid m = true) as Hv by (by eapply law_write_strict).
  rewrite (to_bytes_valid _ Hv) in Hf. injection Hf as <-. done.
Qed.

Lemma parse_with_tail_no_panic bs : parse_with_tail (A := A) bs <> Panic.
Proof.
  rewrite law_parse_tail. apply bind_no_panic; [apply law_parse_no_panic|intros m _].
  apply bind_no_panic; [apply split_declared_tail_no_panic|intros tail _].
  apply bind_no_panic; [apply law_tail_check|done].
Qed.

Lemma to_vec_with_tail_no_panic m tail : to_vec_with_tail m tail <> Panic.
Proof.
  rewrite law_to_vec_tail. apply bind_no_panic; [apply reject_if_no_panic|intros _ _].
  apply bind_no_panic; [apply law_tail_check|intros _ _].
  apply bind_no_panic; [apply law_write_no_panic|done].
Qed.
End tailed_theory.

(** The laws of a tailed codec whose tail is not inspected. *)
Ltac solve_tailed := split; [reflexivity|reflexivity|discriminate].

(** ** Proof automation for the laws of a concrete codec *)

Lemma bind_known {E A B} (o : Outcome E A) (k : A -> Outcome E B) a r :
  o = Ok a -> (x ← o; k x) = r -> k a = r.
Proof. by intros ->. Qed.

Lemma bind_step {E A B} (o : Outcome E A) (k : A -> Outcome E B) a r :
  o = Ok a -> k a = r -> (x ← o; k x) = r.
Proof. by intros ->. Qed.

Lemma bind_error {E A B} (o : Outcome E A) (k : A -> Outcome E B) e :
  o = Err e -> (x ← o; k x) = Err e.
Proof. by intros ->. Qed.

Lemma bind_error_no_panic {E A B} (o : Outcome E A) (k : A -> Outcome E B) e :
  o = Err e -> (x ← o; k x) <> Panic.
Proof. by intros ->. Qed.

Lemma bind_step_no_panic {E A B} (o : Outcome E A) (k : A -> Outcome E B) a :
  o = Ok a -> k a <> Panic -> (x ← o; k x) <> Panic.
Proof. by intros ->. Qed.

(** The outcome of an accessor over [encode fs ++ rest], where [Hok : fields_ok fs = true]. *)
Ltac accessor Hok :=
  first
    [ eapply read_le_encode; [exact Hok|reflexivity]
    | eapply index_encode; [exact Hok|reflexivity]
    | eapply read_i16_encode; [exact Hok|reflexivity]
    | eapply slice_encode_at; reflexivity
    | eapply fill_zero_encode; reflexivity
    | eapply write_i16_encode; reflexivity
    | eapply write_le_encode; reflexivity
    | eapply copy_encode; reflexivity ].

(** Reading back the discriminant of an enum field. *)
Ltac enum_accessor :=
  lazymatch goal with
  | |- _ = @Ok _ ?A _ => exact (enum_try_from_repr (A := A) _)
  end.

(** A guard that a hypothesis says is passed. *)
Ltac guard_accessor :=
  first
    [ eassumption
    | apply (validate_mask_Ok _ _ _ tt); eassumption
    | apply (validate_zero_Ok _ _ tt); reflexivity
    | apply (validate_zero_Ok _ _ tt), Z.eqb_eq; eassumption ].

Ltac long_enough := rewrite length_app, length_encode; cbv; lia.

Ltac length_accessor :=
  first
    [ apply (require_len_Ok _ _ tt); long_enough
    | apply (require_destination_len_Ok _ _ tt); long_enough ].

(** Split [b1 && b2 = true] and turn [is_ok o = true] into the value of [o]. *)
Ltac split_guards :=
  repeat match goal with
  | H : _ && _ = true |- _ => apply andb_prop in H as [? ?]
  | H : is_ok _ = true |- _ => apply is_ok_unit in H
  end.

(** Name the fields of [bs] by the shape of the codec. *)
Ltac explode bs ks Hlen Hok :=
  let vs := fresh "vs" in let Hvs := fresh "Hvs" in let Hbs := fresh "Hbs" in
  let rest := fresh "rest" in
  destruct (decompose ks bs Hlen eq_refl) as (vs & Hvs & Hok & Hbs);
  repeat (destruct vs as [|? vs]; [try discriminate Hvs|try discriminate Hvs]);
  clear Hvs;
  cbn [zip_with] in Hok, Hbs;
  set (rest := drop (shape_width ks) bs) in Hbs; clearbody rest; subst bs.

Lemma require_len_short source n :
  (length source < n)%nat ->
  require_len source n = Err (SourceTooShort (Z.of_nat n) (len source)).
Proof.
  intros Hn. unfold require_len, len.
  by rewrite (proj2 (Z.ltb_lt _ _)) by lia.
Qed.

Lemma require_destination_len_short d n :
  (length d < n)%nat ->
  require_destination_len d n = Err (DestinationTooShort (Z.of_nat n) (len d)).
Proof.
  intros Hn. unfold require_destination_len, len.
  by rewrite (proj2 (Z.ltb_lt _ _)) by lia.
Qed.

(** Run a [parse] or [write] whose accessors and guards all succeed. *)
Ltac run_steps Hok extra :=
  repeat (eapply bind_step;
          [first [ accessor Hok | enum_accessor | guard_accessor | length_accessor | extra ]
          |cbv beta]).

(** Run a [parse] or [write] in a hypothesis, keeping what each guard says. *)
Ltac run_steps_in Hp Hok :=
  repeat (first [ eapply bind_known in Hp; [|accessor Hok] | inv_bind Hp ]; cbv beta in Hp).

(** Read what the passed guards say. *)
Ltac read_guards :=
  repeat match goal with
  | a : unit |- _ => destruct a
  | H : validate_zero _ _ = Ok _ |- _ => apply validate_zero_Ok in H; subst
  | H : validate_mask_u8 _ _ = Ok _ |- _ => apply validate_mask_Ok in H
  | H : validate_mask_u16 _ _ = Ok _ |- _ => apply validate_mask_Ok in H
  | H : validate_mask_u32 _ _ = Ok _ |- _ => apply validate_mask_Ok in H
  | H : _ ?z = @Ok _ ?A ?a |- _ =>
      is_var z; is_var a;
      pose proof (enum_try_from_sound (A := A) z a H); clear H; subst z
  end.

Ltac close_guards :=
  repeat (apply andb_true_intro; split);
  first [ reflexivity | assumption | apply is_ok_unit; assumption
        | apply Z.eqb_eq; assumption ].

Ltac no_panic_step :=
  lazymatch goal with
  | |- _ <> @Panic _ ?A =>
      first [ apply reject_if_no_panic
            | exact (enum_try_from_no_panic (A := A) _)
            | solve [ auto with nopanic ] ]
  end.

Ltac no_panic_steps Hok :=
  repeat first
    [ eapply bind_step_no_panic; [accessor Hok|cbv beta]
    | apply bind_no_panic; [no_panic_step|intros ? ?; cbv beta] ];
  no_panic_step.

(** The laws of a codec from its operations.  [extra] runs a guard that is
    neither a mask, a reserved field nor a hypothesis; [finish] closes what
    [close_guards] leaves. *)
Ltac solve_codec_with parse write guard extra finish :=
  let ks := lazymatch goal with
            | |- WireCodecLaws ?A => eval cbv in (codec_shape (A := A)) end in
  let Hok := fresh "Hok" in
  let Hlen := fresh "Hlen" in
  let Hg := fresh "Hg" in
  let Hp := fresh "Hp" in
  let m := fresh "m" in
  let bs := fresh "bs" in
  split;
  [ reflexivity
  | intros m; reflexivity
  | intros bs Hlen; change (parse bs = Err (SourceTooShort (Z.of_nat codec_len) (len bs)));
    exact (bind_error _ _ _ (require_len_short _ _ Hlen))
  | intros m bs Hg; apply andb_prop in Hg as [Hok Hg]; unfold typed in Hok;
    change (guard m = true) in Hg; unfold guard in Hg; split_guards;
    change (parse (encode (codec_layout m) ++ bs) = Ok m); unfold parse;
    run_steps Hok extra; first [ reflexivity | finish ]
  | intros bs m Hp; change (parse bs = Ok m) in Hp; unfold parse in Hp;
    apply bind_Ok in Hp as (? & Hlen & Hp); apply require_len_Ok in Hlen;
    explode bs ks Hlen Hok; run_steps_in Hp Hok; read_guards;
    injection Hp as <-; split;
    [ apply andb_true_intro; split;
      [ try exact Hok
      | lazymatch goal with |- codec_guard ?x = true => change (guard x = true) end;
        unfold guard; try close_guards ]
    | unfold wire; rewrite take_app_length' by (rewrite length_encode; reflexivity);
      try reflexivity ];
    finish
  | intros bs; change (parse bs <> Panic);
    destruct (decide (codec_len <= length bs)%nat) as [Hlen|Hlen];
    [ explode bs ks Hlen Hok; unfold parse; no_panic_steps Hok
    | exact (bind_error_no_panic _ _ _ (require_len_short _ _ (proj1 (Nat.nle_gt _ _) Hlen))) ]
  | intros m bs Hlen;
    change (write m bs = Err (DestinationTooShort (Z.of_nat codec_len) (len bs)));
    exact (bind_error _ _ _ (require_destination_len_short _ _ Hlen))
  | intros m bs Hg Hlen; apply andb_prop in Hg as [_ Hg];
    change (guard m = true) in Hg; unfold guard in Hg; split_guards;
    change (write m bs = Ok (wire m ++ drop codec_len bs)); unfold write;
    explode bs ks Hlen Hok; run_steps Hok extra;
    rewrite drop_app_length' by (rewrite length_encode; reflexivity); reflexivity
  | intros m bs ? Hp; unfold codec_write in Hp;
    match type of Hp with _ = ?r => change (write m bs = r) in Hp end; unfold write in Hp;
    apply bind_Ok in Hp as (? & Hlen & Hp); apply require_destination_len_Ok in Hlen;
    explode bs ks Hlen Hok; run_steps_in Hp Hok; injection Hp as <-;
    split; [exact Hlen|];
    rewrite drop_app_length' by (rewrite length_encode; reflexivity); reflexivity
  | intros m bs; change (write m bs <> Panic);
    destruct (decide (codec_len <= length bs)%nat) as [Hlen|Hlen];
    [ explode bs ks Hlen Hok; unfold write; no_panic_steps Hok
    | exact (bind_error_no_panic _ _ _
        (require_destination_len_short _ _ (proj1 (Nat.nle_gt _ _) Hlen))) ] ].

Ltac solve_codec parse write guard := solve_codec_with parse write guard fail idtac.

(** [write] passes its guards only on values that satisfy the codec's guard. *)
Ltac solve_strict_with write guard finish :=
  let Hok := fresh "Hok" in
  let Hlen := fresh "Hlen" in
  let Ht := fresh "Ht" in
  let Hp := fresh "Hp" in
  let m := fresh "m" in
  let d := fresh "d" in
  intros m d ? Ht Hp;
  let ks := lazymatch type of m with ?A => eval cbv in (codec_shape (A := A)) end in
  match type of Hp with _ = ?r => change (write m d = r) in Hp end; unfold write in Hp;
  apply bind_Ok in Hp as (? & Hlen & Hp); apply require_destination_len_Ok in Hlen;
  explode d ks Hlen Hok; run_steps_in Hp Hok; read_guards;
  apply andb_true_intro; split; [exact Ht|];
  change (guard m = true); unfold guard; finish.

Ltac solve_strict write guard := solve_strict_with write guard close_guards.
