(* ===== verification/Header.v ===== *)
(** The protocol version and the common packet header
    ([src/crates/nnrp-core/src/version.rs], [src/crates/nnrp-core/src/header.rs]).

    Every packet starts with the 40-byte header, which declares the lengths of
    the metadata and of the body that follow it. *)

From S2P Require Import Prelude Bytes Errors Enums Wire.

Local Open Scope Z_scope.

Definition CURRENT_WIRE_FORMAT : Z := 0.

Module ProtocolVersion.

Record t := mk { major : Z; wire_format : Z }.

Definition CURRENT : t := {| major := 1; wire_format := CURRENT_WIRE_FORMAT |}.

Definition try_new (major wire_format : Z) : R t :=
  _ ← reject_if (negb (wire_format =? CURRENT_WIRE_FORMAT)) (UnsupportedWireFormat wire_format);
  Ok {| major := major; wire_format := wire_format |}.

End ProtocolVersion.

Definition COMMON_HEADER_LEN : nat := 40.
Definition CURRENT_VERSION_MAJOR : Z := 1.

(** [*b"NNRP"]. *)
Definition MAGIC : bytes := [x4e; x4e; x52; x50].

Module CommonHeader.

#[projections(primitive)]
Record t := mk {
  version_major : Z;
  wire_format : Z;
  message_type : MessageType.t;
  header_len : Z;
  flags : Z;
  meta_len : Z;
  body_len : Z;
  session_id : Z;
  frame_id : Z;
  view_id : Z;
  route_id : Z;
  trace_id : Z
}.

Definition new (message_type : MessageType.t) (meta_len body_len : Z) : t := {|
  version_major := CURRENT_VERSION_MAJOR;
  wire_format := CURRENT_WIRE_FORMAT;
  message_type := message_type;
  header_len := Z.of_nat COMMON_HEADER_LEN;
  flags := HeaderFlags.NONE;
  meta_len := meta_len;
  body_len := body_len;
  session_id := 0;
  frame_id := 0;
  view_id := 0;
  route_id := 0;
  trace_id := 0 |}.

(** The payload length is a sum of two [u32]; the packet length is a [usize]. *)
Definition packet_len `{Target} (m : t) : R Z :=
  payload_len ← ok_or (checked_add u32_max (meta_len m) (body_len m)) MessageLengthOverflow;
  ok_or (checked_add usize_max (Z.of_nat COMMON_HEADER_LEN) payload_len) MessageLengthOverflow.

Definition write (m : t) (destination : bytes) : R bytes :=
  _ ← require_destination_len destination COMMON_HEADER_LEN;
  _ ← reject_if (negb (header_len m =? Z.of_nat COMMON_HEADER_LEN))
        (InvalidHeaderLength (header_len m));
  _ ← HeaderFlags.validate_known (flags m);
  destination ← copy_from_slice destination 0 MAGIC;
  destination ← write_u8 destination 4 (version_major m);
  destination ← write_u8 destination 5 (wire_format m);
  destination ← write_u8 destination 6 (MessageType.repr (message_type m));
  destination ← write_u8 destination 7 (header_len m);
  destination ← write_u32 destination 8 (flags m);
  destination ← write_u32 destination 12 (meta_len m);
  destination ← write_u32 destination 16 (body_len m);
  destination ← write_u32 destination 20 (session_id m);
  destination ← write_u32 destination 24 (frame_id m);
  destination ← write_u16 destination 28 (view_id m);
  destination ← write_u16 destination 30 (route_id m);
  destination ← write_u64 destination 32 (trace_id m);
  Ok destination.

Definition to_bytes (m : t) : R bytes := write m (replicate COMMON_HEADER_LEN x00).

Definition parse (source : bytes) : R t :=
  _ ← require_len source COMMON_HEADER_LEN;
  magic ← slice source 0 4;
  _ ← reject_if (negb (bool_decide (magic = MAGIC))) InvalidMagic;
  version_major ← index source 4;
  _ ← reject_if (negb (version_major =? CURRENT_VERSION_MAJOR))
        (UnsupportedVersionMajor version_major);
  wire_format ← index source 5;
  _ ← reject_if (negb (wire_format =? CURRENT_WIRE_FORMAT)) (UnsupportedWireFormat wire_format);
  header_len ← index source 7;
  _ ← reject_if (negb (header_len =? Z.of_nat COMMON_HEADER_LEN))
        (InvalidHeaderLength header_len);
  flags ← read_u32 source 8;
  _ ← HeaderFlags.validate_known flags;
  message_type_raw ← index source 6;
  message_type ← MessageType.try_from_u8 message_type_raw;
  meta_len ← read_u32 source 12;
  body_len ← read_u32 source 16;
  session_id ← read_u32 source 20;
  frame_id ← read_u32 source 24;
  view_id ← read_u16 source 28;
  route_id ← read_u16 source 30;
  trace_id ← read_u64 source 32;
  Ok {| version_major := version_major; wire_format := wire_format;
      message_type := message_type; header_len := header_len; flags := flags;
      meta_len := meta_len; body_len := body_len; session_id := session_id;
      frame_id := frame_id; view_id := view_id; route_id := route_id; trace_id := trace_id |}.

(** The header, the metadata and the body of a packet that is exactly the source. *)
Definition parse_packet `{Target} (source : bytes) : R (t * bytes * bytes) :=
  header ← parse source;
  declared ← packet_len header;
  _ ← reject_if (negb (declared =? len source)) (PacketLengthMismatch declared (len source));
  let meta_start := COMMON_HEADER_LEN in
  let meta_end := (meta_start + Z.to_nat (meta_len header))%nat in
  metadata ← slice source meta_start meta_end;
  body ← slice source meta_end (length source);
  Ok (header, metadata, body).

Definition layout (m : t) : list field :=
  [ F (KU 4) (le_value MAGIC); F (KU 1) (version_major m); F (KU 1) (wire_format m);
    F (KU 1) (MessageType.repr (message_type m)); F (KU 1) (header_len m); F (KU 4) (flags m);
    F (KU 4) (meta_len m); F (KU 4) (body_len m); F (KU 4) (session_id m); F (KU 4) (frame_id m);
    F (KU 2) (view_id m); F (KU 2) (route_id m); F (KU 8) (trace_id m) ].

Definition guard (m : t) : bool :=
  (version_major m =? CURRENT_VERSION_MAJOR) && (wire_format m =? CURRENT_WIRE_FORMAT) &&
  (header_len m =? Z.of_nat COMMON_HEADER_LEN) && is_ok (HeaderFlags.validate_known (flags m)).

End CommonHeader.

#[export] Instance CommonHeader_codec : WireCodec CommonHeader.t := {|
  codec_len := COMMON_HEADER_LEN;
  codec_shape := [KU 4; KU 1; KU 1; KU 1; KU 1; KU 4; KU 4; KU 4; KU 4; KU 4; KU 2; KU 2; KU 8];
  codec_parse := CommonHeader.parse;
  codec_write := CommonHeader.write;
  codec_layout := CommonHeader.layout;
  codec_guard := CommonHeader.guard |}.

Lemma magic_field v :
  0 <= v < modulus 4 -> field_bytes (F (KU 4) v) = MAGIC -> v = le_value MAGIC.
Proof.
  intros Hv Hm. rewrite <- Hm. unfold field_bytes. simpl.
  by rewrite le_value_bytes, Z.mod_small.
Qed.

Lemma reject_unless_Ok {E} c (e : E) u : reject_if (negb c) e = Ok u <-> c = true.
Proof. by rewrite reject_if_Ok, negb_false_iff. Qed.

Lemma fields_ok_head w v fs : fields_ok (F (KU w) v :: fs) = true -> 0 <= v < modulus w.
Proof. unfold fields_ok, field_ok. simpl. lia. Qed.

(** Use the guards that [parse] passed: the magic number, then the fixed values. *)
Ltac header_guards :=
  repeat match goal with
  | H : reject_if (negb (bool_decide _)) _ = Ok _ |- _ =>
      apply reject_unless_Ok, bool_decide_eq_true in H
  | H : reject_if (negb _) _ = Ok _ |- _ => apply reject_unless_Ok in H
  | H : field_bytes _ = MAGIC, Hok : fields_ok _ = true |- _ =>
      apply (magic_field _ (fields_ok_head _ _ _ Hok)) in H; subst
  end.

#[export] Instance CommonHeader_codec_laws : WireCodecLaws CommonHeader.t.
Proof.
  solve_codec_with CommonHeader.parse CommonHeader.write CommonHeader.guard
    ltac:(apply (reject_unless_Ok _ _ tt); first [ eassumption | reflexivity ])
    ltac:(header_guards; first [ exact Hok | reflexivity | close_guards ]).
Qed.

(** ** Packets *)

Section packet.
Context `{Htarget : Target}.
Implicit Types header : CommonHeader.t.

(** The length of a packet, when both sums fit. *)
Definition packet_fits header : Prop :=
  CommonHeader.meta_len header + CommonHeader.body_len header <= u32_max /\
  Z.of_nat COMMON_HEADER_LEN + (CommonHeader.meta_len header + CommonHeader.body_len header)
    <= usize_max.

Lemma packet_len_Ok header n :
  CommonHeader.packet_len header = Ok n <->
  packet_fits header /\
  n = Z.of_nat COMMON_HEADER_LEN + (CommonHeader.meta_len header + CommonHeader.body_len header).
Proof.
  unfold CommonHeader.packet_len, packet_fits. rewrite bind_Ok.
  setoid_rewrite ok_or_Ok. setoid_rewrite checked_add_Some. split.
  - intros (payload & [-> ?] & -> & ?). done.
  - intros [[? ?] ->]. eexists. split_and!; eauto.
Qed.

Lemma packet_len_overflow header :
  ~ packet_fits header -> CommonHeader.packet_len header = Err MessageLengthOverflow.
Proof.
  intros Hn. unfold CommonHeader.packet_len, packet_fits, checked_add in *.
  do 2 (case_match; simpl; [|done]). lia.
Qed.

Lemma packet_len_no_panic header : CommonHeader.packet_len header <> Panic.
Proof. unfold CommonHeader.packet_len. apply bind_no_panic; intros; apply ok_or_no_panic. Qed.

Lemma valid_lengths header :
  valid header = true ->
  0 <= CommonHeader.meta_len header < modulus 4 /\ 0 <= CommonHeader.body_len header < modulus 4.
Proof.
  intros [Ht _]%andb_prop. unfold typed, fields_ok in Ht. simpl in Ht.
  repeat (apply andb_prop in Ht as [? Ht]). unfold field_ok in *. simpl in *. lia.
Qed.

Lemma header_parse_iff source header :
  CommonHeader.parse source = Ok header <->
  valid header = true /\ take COMMON_HEADER_LEN source = wire header.
Proof. exact (parse_iff (A := CommonHeader.t) source header). Qed.

(** The packets that parse are exactly a valid header followed by as many bytes as
    it declares, split where it says. *)
Lemma parse_packet_Ok source header metadata body :
  CommonHeader.parse_packet source = Ok (header, metadata, body) <->
  valid header = true /\ packet_fits header /\
  len metadata = CommonHeader.meta_len header /\ len body = CommonHeader.body_len header /\
  source = wire header ++ metadata ++ body.
Proof.
  unfold CommonHeader.parse_packet. split.
  - intros Hp. apply bind_Ok in Hp as (h & Hh & Hp).
    apply header_parse_iff in Hh as [Hv Ht].
    apply bind_Ok in Hp as (n & [Hfit ->]%packet_len_Ok & Hp).
    apply bind_Ok in Hp as (u & [= Hlen%Z.eqb_eq]%reject_unless_Ok & Hp).
    destruct (valid_lengths _ Hv) as [Hm Hb]. unfold len in Hlen.
    apply bind_Ok in Hp as (md & Hmd & Hp). apply bind_Ok in Hp as (bd & Hbd & [= <- <- <-]).
    rewrite slice_to_end in Hbd by lia.
    unfold slice in Hmd. case_decide as Hs; [|done].
    apply (inj Ok) in Hbd as <-, Hmd as <-.
    split_and!; [done|done|unfold len; rewrite length_take, length_drop; lia
                |unfold len; rewrite length_drop; lia|].
    rewrite <- Ht.
    rewrite <- (take_drop COMMON_HEADER_LEN source) at 1. f_equal.
    rewrite <- (take_drop (Z.to_nat (CommonHeader.meta_len h)) (drop _ _)), drop_drop at 1.
    do 2 f_equal. lia.
  - intros (Hv & Hfit & Hm & Hb & ->). pose proof (length_wire header) as Hw.
    change (codec_len (A := CommonHeader.t)) with COMMON_HEADER_LEN in Hw.
    eapply bind_step; [exact (law_parse_wire (A := CommonHeader.t) header _ Hv)|cbv beta].
    eapply bind_step; [by apply packet_len_Ok|cbv beta].
    eapply (bind_step _ _ tt); [|cbv beta].
    { apply reject_unless_Ok, Z.eqb_eq. unfold len in *. rewrite !length_app. lia. }
    cbv zeta. rewrite <- Hm, <- Hw. unfold len. rewrite Nat2Z.id.
    eapply bind_step; [apply slice_app|cbv beta].
    rewrite slice_to_end by (rewrite !length_app; lia).
    by rewrite app_assoc, drop_app_length' by (by rewrite length_app).
Qed.

Lemma parse_packet_no_panic source : CommonHeader.parse_packet source <> Panic.
Proof.
  unfold CommonHeader.parse_packet.
  apply bind_no_panic; [exact (law_parse_no_panic (A := CommonHeader.t) _)|intros h Hh].
  apply header_parse_iff in Hh as [Hv _]. destruct (valid_lengths _ Hv).
  apply bind_no_panic; [apply packet_len_no_panic|intros n [Hfit ->]%packet_len_Ok].
  apply bind_no_panic; [apply reject_if_no_panic|intros u Hlen%reject_unless_Ok%Z.eqb_eq].
  unfold len in Hlen. apply bind_no_panic; [|intros md _].
  - unfold slice. rewrite decide_True by lia. done.
  - by rewrite slice_to_end by lia.
Qed.
End packet.

(** ** Headers made by [CommonHeader::new] *)

(** A header that [CommonHeader::new] makes is valid when its lengths are [u32] values. *)
Lemma new_header_valid mt ml bl :
  0 <= ml <= u32_max -> 0 <= bl <= u32_max -> valid (CommonHeader.new mt ml bl) = true.
Proof.
  intros Hm Hb. unfold valid, typed, fields_ok, field_ok, u32_max in *.
  assert (forall v, 0 <= v <= 4294967295 -> (0 <=? v) = true /\ (v <? modulus 4) = true) as Hw
    by (intros v ?; change (modulus 4) with 4294967296; lia).
  destruct (Hw ml Hm) as [Hm1 Hm2], (Hw bl Hb) as [Hb1 Hb2].
  destruct mt; cbn -[modulus Z.ltb Z.leb]; rewrite Hm1, Hm2, Hb1, Hb2; reflexivity.
Qed.

Lemma new_header_bytes mt ml bl :
  0 <= ml <= u32_max -> 0 <= bl <= u32_max ->
  CommonHeader.to_bytes (CommonHeader.new mt ml bl) = Ok (wire (CommonHeader.new mt ml bl)).
Proof.
  intros Hm Hb. exact (to_bytes_valid (A := CommonHeader.t) _ (new_header_valid mt ml bl Hm Hb)).
Qed.

(** A packet of a new header, a metadata block and a body parses back to the three. *)
Lemma new_packet_parse `{Target} mt metadata body :
  len metadata + len body <= u32_max ->
  Z.of_nat COMMON_HEADER_LEN + (len metadata + len body) <= usize_max ->
  CommonHeader.parse_packet
    (wire (CommonHeader.new mt (len metadata) (len body)) ++ metadata ++ body) =
  Ok (CommonHeader.new mt (len metadata) (len body), metadata, body).
Proof.
  intros Hsum Hfit. apply parse_packet_Ok. unfold packet_fits, len in *. simpl.
  split_and!; [|done..]. apply new_header_valid; lia.
Qed.

(** ** Contract *)

(** What [write] has checked when it succeeds. *)
Lemma header_write_guard h d d' :
  CommonHeader.write h d = Ok d' ->
  CommonHeader.header_len h = Z.of_nat COMMON_HEADER_LEN /\
  HeaderFlags.validate_known (CommonHeader.flags h) = Ok tt.
Proof.
  intros Hw. apply bind_Ok in Hw as (_ & _ & Hw).
  apply bind_Ok in Hw as (_ & Hl%reject_unless_Ok%Z.eqb_eq & Hw).
  by apply bind_Ok in Hw as ([] & Hf & _).
Qed.

(** What [CommonHeader::parse] accepts is written back as the 40 bytes it was read from; and
    a header of the current version and wire format that [to_bytes] accepts parses back to
    itself, whatever follows it. *)
Theorem header_codec :
  (forall source h, CommonHeader.parse source = Ok h ->
     CommonHeader.to_bytes h = Ok (take COMMON_HEADER_LEN source)) /\
  (forall h bs rest, typed h = true ->
     CommonHeader.version_major h = CURRENT_VERSION_MAJOR ->
     CommonHeader.wire_format h = CURRENT_WIRE_FORMAT ->
     CommonHeader.to_bytes h = Ok bs ->
     length bs = COMMON_HEADER_LEN /\ CommonHeader.parse (bs ++ rest) = Ok h).
Proof.
  split; [exact (parse_to_bytes (A := CommonHeader.t))|].
  intros h bs rest Ht Hv Hf Hw. destruct (header_write_guard _ _ _ Hw) as [Hl Hfl].
  assert (valid h = true) as Hval.
  { unfold valid. rewrite Ht. change (CommonHeader.guard h = true). unfold CommonHeader.guard.
    by rewrite Hv, Hf, Hl, Hfl. }
  assert (bs = wire h) as ->
    by (apply (inj (@Ok NnrpError _)); rewrite <- Hw;
        exact (to_bytes_valid (A := CommonHeader.t) _ Hval)).
  split; [exact (length_wire h)|]. exact (law_parse_wire (A := CommonHeader.t) h rest Hval).
Qed.

(** [write] does not check the version: a header of another version is encoded, and no
    receiver accepts it. *)
Example header_version_unchecked :
  exists bs, CommonHeader.to_bytes (CommonHeader.mk 2 0 MessageType.Ping 40 0 0 0 0 0 0 0 0) = Ok bs /\
    CommonHeader.parse bs = Err (UnsupportedVersionMajor 2).
Proof. eexists. split; [vm_compute; reflexivity|vm_compute; reflexivity]. Qed.

(** C24: [parse_packet] ends without a panic on every source, and accepts a source as a header, a
    metadata block and a body exactly when the source is a header that parses followed by
    the two parts, with the lengths that the header declares and a total that does not
    overflow. *)
Theorem parse_packet_exact `{Target} source header metadata body :
  CommonHeader.parse_packet source <> Panic /\
  (CommonHeader.parse_packet source = Ok (header, metadata, body) <->
   exists header_bytes,
     source = header_bytes ++ metadata ++ body /\
     length header_bytes = COMMON_HEADER_LEN /\ CommonHeader.parse header_bytes = Ok header /\
     len metadata = CommonHeader.meta_len header /\ len body = CommonHeader.body_len header /\
     len metadata + len body <= u32_max /\ len source <= usize_max).
Proof.
  split; [apply parse_packet_no_panic|]. rewrite parse_packet_Ok. unfold packet_fits.
  setoid_rewrite header_parse_iff. split.
  - intros (Hv & [Hs Hu] & Hm & Hb & ->). exists (wire header).
    pose proof (length_wire header) as Hw. change (codec_len (A := CommonHeader.t)) with COMMON_HEADER_LEN in Hw.
    rewrite take_ge by lia. unfold len in *. rewrite !length_app. split_and!; try done; lia.
  - intros (hb & -> & Hl & [Hv Hw] & Hm & Hb & Hs & Hu). rewrite take_ge in Hw by lia. subst hb.
    unfold len in *. rewrite !length_app, Hl in Hu. split_and!; try done; lia.
Qed.
