(* ===== verification/Codes.v ===== *)
(** Error codes carried on the wire ([src/crates/nnrp-core/src/codes.rs]). *)

From S2P Require Import Prelude.

Local Open Scope Z_scope.

Definition SESSION_ERROR_NONE : Z := 0x0000_0000.
Definition SESSION_ERROR_AUTH_FAILED : Z := 0x0001_0001.
Definition SESSION_ERROR_PROFILE_UNSUPPORTED : Z := 0x0001_0002.
Definition SESSION_ERROR_SCHEMA_UNSUPPORTED : Z := 0x0001_0003.
Definition SESSION_ERROR_PRIORITY_REJECTED : Z := 0x0001_0004.
Definition SESSION_ERROR_LEASE_POLICY_REJECTED : Z := 0x0001_0005.
Definition SESSION_ERROR_RESUME_REJECTED : Z := 0x0001_0006.
Definition SESSION_ERROR_LIMIT_REACHED : Z := 0x0001_0007.
Definition CACHE_ERROR_NONE : Z := 0x0003_0000.
Definition CACHE_ERROR_MISS : Z := 0x0003_0001.
Definition CACHE_ERROR_LEASE_EXPIRED : Z := 0x0003_0002.
Definition CACHE_ERROR_VERSION_MISMATCH : Z := 0x0003_0003.
Definition CACHE_ERROR_DEPENDENCY_INVALID : Z := 0x0003_0004.
Definition CACHE_ERROR_SCHEMA_MISMATCH : Z := 0x0003_0005.
Definition SCHEMA_ERROR_NONE : Z := 0x0004_0000.
Definition SCHEMA_ERROR_UNKNOWN : Z := 0x0004_0001.
Definition SCHEMA_ERROR_VERSION_UNKNOWN : Z := 0x0004_0002.
Definition SCHEMA_ERROR_HASH_CONFLICT : Z := 0x0004_0003.
Definition SCHEMA_ERROR_INCOMPATIBLE : Z := 0x0004_0004.
Definition SCHEMA_ERROR_DEPENDENCY_MISSING : Z := 0x0004_0005.
Definition SCHEMA_ERROR_UPDATE_REJECTED : Z := 0x0004_0006.
