(* ===== verification/Session.v ===== *)
(** Session open and close metadata ([src/crates/nnrp-core/src/session.rs]).

    Each struct is a module with the record [t], its [parse], [write] and
    [to_bytes], and the layout and value constraints that its [WireCodec] instance
    refers to. *)

From S2P Require Import Prelude Bytes Errors Enums Wire.

Local Open Scope Z_scope.

Definition SESSION_OPEN_METADATA_LEN : nat := 48.
Definition SESSION_OPEN_ACK_METADATA_LEN : nat := 56.
Definition SESSION_CLOSE_METADATA_LEN : nat := 24.
Definition SESSION_CLOSE_ACK_METADATA_LEN : nat := 16.
Definition SESSION_FLAGS_KNOWN_MASK : Z := 0x0f.
Definition SESSION_FLAGS_ACK_KNOWN_MASK : Z := 0x0000_001f.

Module SessionOpenMetadata.

#[projections(primitive)]
Record t := mk {
  requested_session_id : Z;
  profile_id : Z;
  priority_class : SessionPriorityClass.t;
  session_flags : Z;
  schema_id : Z;
  schema_version : Z;
  default_deadline_ms : Z;
  max_in_flight_operations : Z;
  lease_ttl_hint_ms : Z;
  resume_token_bytes : Z;
  auth_bytes : Z;
  session_extension_bytes : Z;
  client_session_tag : Z
}.

Definition parse (source : bytes) : R t :=
  _ ← require_len source SESSION_OPEN_METADATA_LEN;
  reserved0 ← read_u16 source 22;
  _ ← validate_zero "session_open.reserved0" reserved0;
  session_flags ← index source 7;
  _ ← validate_mask_u8 session_flags SESSION_FLAGS_KNOWN_MASK;
  requested_session_id ← read_u32 source 0;
  profile_id ← read_u16 source 4;
  priority_class_raw ← index source 6;
  priority_class ← SessionPriorityClass.try_from_u8 priority_class_raw;
  schema_id ← read_u32 source 8;
  schema_version ← read_u32 source 12;
  default_deadline_ms ← read_u32 source 16;
  max_in_flight_operations ← read_u16 source 20;
  lease_ttl_hint_ms ← read_u32 source 24;
  resume_token_bytes ← read_u32 source 28;
  auth_bytes ← read_u32 source 32;
  session_extension_bytes ← read_u32 source 36;
  client_session_tag ← read_u64 source 40;
  Ok {| requested_session_id := requested_session_id; profile_id := profile_id;
      priority_class := priority_class; session_flags := session_flags; schema_id := schema_id;
      schema_version := schema_version; default_deadline_ms := default_deadline_ms;
      max_in_flight_operations := max_in_flight_operations;
      lease_ttl_hint_ms := lease_ttl_hint_ms; resume_token_bytes := resume_token_bytes;
      auth_bytes := auth_bytes; session_extension_bytes := session_extension_bytes;
      client_session_tag := client_session_tag |}.

Definition write (m : t) (destination : bytes) : R bytes :=
  _ ← require_destination_len destination SESSION_OPEN_METADATA_LEN;
  _ ← validate_mask_u8 (session_flags m) SESSION_FLAGS_KNOWN_MASK;
  destination ← fill_zero destination SESSION_OPEN_METADATA_LEN;
  destination ← write_u32 destination 0 (requested_session_id m);
  destination ← write_u16 destination 4 (profile_id m);
  destination ← write_u8 destination 6 (SessionPriorityClass.repr (priority_class m));
  destination ← write_u8 destination 7 (session_flags m);
  destination ← write_u32 destination 8 (schema_id m);
  destination ← write_u32 destination 12 (schema_version m);
  destination ← write_u32 destination 16 (default_deadline_ms m);
  destination ← write_u16 destination 20 (max_in_flight_operations m);
  destination ← write_u32 destination 24 (lease_ttl_hint_ms m);
  destination ← write_u32 destination 28 (resume_token_bytes m);
  destination ← write_u32 destination 32 (auth_bytes m);
  destination ← write_u32 destination 36 (session_extension_bytes m);
  destination ← write_u64 destination 40 (client_session_tag m);
  Ok destination.

Definition to_bytes (m : t) : R bytes := write m (replicate SESSION_OPEN_METADATA_LEN x00).

Definition layout (m : t) : list field :=
  [ F (KU 4) (requested_session_id m); F (KU 2) (profile_id m);
      F (KU 1) (SessionPriorityClass.repr (priority_class m)); F (KU 1) (session_flags m);
      F (KU 4) (schema_id m); F (KU 4) (schema_version m); F (KU 4) (default_deadline_ms m);
      F (KU 2) (max_in_flight_operations m); F (KU 2) 0; F (KU 4) (lease_ttl_hint_ms m);
      F (KU 4) (resume_token_bytes m); F (KU 4) (auth_bytes m);
      F (KU 4) (session_extension_bytes m); F (KU 8) (client_session_tag m) ].

Definition guard (m : t) : bool := mask_ok 8 (session_flags m) SESSION_FLAGS_KNOWN_MASK.

End SessionOpenMetadata.

#[export] Instance SessionOpenMetadata_codec : WireCodec SessionOpenMetadata.t := {|
  codec_len := SESSION_OPEN_METADATA_LEN;
  codec_shape := [KU 4; KU 2; KU 1; KU 1; KU 4; KU 4; KU 4; KU 2; KU 2; KU 4; KU 4; KU 4; KU 4;
      KU 8 ];
  codec_parse := SessionOpenMetadata.parse;
  codec_write := SessionOpenMetadata.write;
  codec_layout := SessionOpenMetadata.layout;
  codec_guard := SessionOpenMetadata.guard |}.
#[export] Instance SessionOpenMetadata_codec_laws : WireCodecLaws SessionOpenMetadata.t.
Proof. solve_codec SessionOpenMetadata.parse SessionOpenMetadata.write SessionOpenMetadata.guard. Qed.
#[export] Instance SessionOpenMetadata_strict : StrictWireCodec SessionOpenMetadata.t.
Proof. solve_strict SessionOpenMetadata.write SessionOpenMetadata.guard. Qed.

Module SessionOpenAckMetadata.

#[projections(primitive)]
Record t := mk {
  session_id : Z;
  accepted_profile_id : Z;
  accepted_priority_class : SessionPriorityClass.t;
  session_status : SessionStatus.t;
  schema_id : Z;
  schema_version : Z;
  granted_operation_credit : Z;
  max_in_flight_operations : Z;
  lease_ttl_ms : Z;
  resume_window_ms : Z;
  resume_token_bytes : Z;
  session_extension_bytes : Z;
  server_session_tag : Z;
  route_scope_id : Z;
  session_error_code : Z;
  session_flags_ack : Z
}.

Definition parse (source : bytes) : R t :=
  _ ← require_len source SESSION_OPEN_ACK_METADATA_LEN;
  session_flags_ack ← read_u32 source 52;
  _ ← validate_mask_u32 session_flags_ack SESSION_FLAGS_ACK_KNOWN_MASK;
  session_id ← read_u32 source 0;
  accepted_profile_id ← read_u16 source 4;
  accepted_priority_class_raw ← index source 6;
  accepted_priority_class ← SessionPriorityClass.try_from_u8 accepted_priority_class_raw;
  session_status_raw ← index source 7;
  session_status ← SessionStatus.try_from_u8 session_status_raw;
  schema_id ← read_u32 source 8;
  schema_version ← read_u32 source 12;
  granted_operation_credit ← read_u16 source 16;
  max_in_flight_operations ← read_u16 source 18;
  lease_ttl_ms ← read_u32 source 20;
  resume_window_ms ← read_u32 source 24;
  resume_token_bytes ← read_u32 source 28;
  session_extension_bytes ← read_u32 source 32;
  server_session_tag ← read_u64 source 36;
  route_scope_id ← read_u32 source 44;
  session_error_code ← read_u32 source 48;
  Ok {| session_id := session_id; accepted_profile_id := accepted_profile_id;
      accepted_priority_class := accepted_priority_class; session_status := session_status;
      schema_id := schema_id; schema_version := schema_version;
      granted_operation_credit := granted_operation_credit;
      max_in_flight_operations := max_in_flight_operations; lease_ttl_ms := lease_ttl_ms;
      resume_window_ms := resume_window_ms; resume_token_bytes := resume_token_bytes;
      session_extension_bytes := session_extension_bytes;
      server_session_tag := server_session_tag; route_scope_id := route_scope_id;
      session_error_code := session_error_code; session_flags_ack := session_flags_ack |}.

Definition write (m : t) (destination : bytes) : R bytes :=
  _ ← require_destination_len destination SESSION_OPEN_ACK_METADATA_LEN;
  _ ← validate_mask_u32 (session_flags_ack m) SESSION_FLAGS_ACK_KNOWN_MASK;
  destination ← fill_zero destination SESSION_OPEN_ACK_METADATA_LEN;
  destination ← write_u32 destination 0 (session_id m);
  destination ← write_u16 destination 4 (accepted_profile_id m);
  destination ← write_u8 destination 6 (SessionPriorityClass.repr (accepted_priority_class m));
  destination ← write_u8 destination 7 (SessionStatus.repr (session_status m));
  destination ← write_u32 destination 8 (schema_id m);
  destination ← write_u32 destination 12 (schema_version m);
  destination ← write_u16 destination 16 (granted_operation_credit m);
  destination ← write_u16 destination 18 (max_in_flight_operations m);
  destination ← write_u32 destination 20 (lease_ttl_ms m);
  destination ← write_u32 destination 24 (resume_window_ms m);
  destination ← write_u32 destination 28 (resume_token_bytes m);
  destination ← write_u32 destination 32 (session_extension_bytes m);
  destination ← write_u64 destination 36 (server_session_tag m);
  destination ← write_u32 destination 44 (route_scope_id m);
  destination ← write_u32 destination 48 (session_error_code m);
  destination ← write_u32 destination 52 (session_flags_ack m);
  Ok destination.

Definition to_bytes (m : t) : R bytes := write m (replicate SESSION_OPEN_ACK_METADATA_LEN x00).

Definition layout (m : t) : list field :=
  [ F (KU 4) (session_id m); F (KU 2) (accepted_profile_id m);
      F (KU 1) (SessionPriorityClass.repr (accepted_priority_class m));
      F (KU 1) (SessionStatus.repr (session_status m)); F (KU 4) (schema_id m);
      F (KU 4) (schema_version m); F (KU 2) (granted_operation_credit m);
      F (KU 2) (max_in_flight_operations m); F (KU 4) (lease_ttl_ms m);
      F (KU 4) (resume_window_ms m); F (KU 4) (resume_token_bytes m);
      F (KU 4) (session_extension_bytes m); F (KU 8) (server_session_tag m);
      F (KU 4) (route_scope_id m); F (KU 4) (session_error_code m);
      F (KU 4) (session_flags_ack m) ].

Definition guard (m : t) : bool := mask_ok 32 (session_flags_ack m) SESSION_FLAGS_ACK_KNOWN_MASK.

End SessionOpenAckMetadata.

#[export] Instance SessionOpenAckMetadata_codec : WireCodec SessionOpenAckMetadata.t := {|
  codec_len := SESSION_OPEN_ACK_METADATA_LEN;
  codec_shape := [KU 4; KU 2; KU 1; KU 1; KU 4; KU 4; KU 2; KU 2; KU 4; KU 4; KU 4; KU 4; KU 8;
      KU 4; KU 4; KU 4 ];
  codec_parse := SessionOpenAckMetadata.parse;
  codec_write := SessionOpenAckMetadata.write;
  codec_layout := SessionOpenAckMetadata.layout;
  codec_guard := SessionOpenAckMetadata.guard |}.
#[export] Instance SessionOpenAckMetadata_codec_laws : WireCodecLaws SessionOpenAckMetadata.t.
Proof. solve_codec SessionOpenAckMetadata.parse SessionOpenAckMetadata.write SessionOpenAckMetadata.guard. Qed.
#[export] Instance SessionOpenAckMetadata_strict : StrictWireCodec SessionOpenAckMetadata.t.
Proof. solve_strict SessionOpenAckMetadata.write SessionOpenAckMetadata.guard. Qed.

Module SessionCloseMetadata.

#[projections(primitive)]
Record t := mk {
  close_reason : SessionCloseReason.t;
  in_flight_policy : InFlightPolicy.t;
  drain_timeout_ms : Z;
  last_operation_id : Z;
  session_error_code : Z;
  session_close_tag : Z
}.

Definition parse (source : bytes) : R t :=
  _ ← require_len source SESSION_CLOSE_METADATA_LEN;
  reserved0 ← index source 3;
  _ ← validate_zero "session_close.reserved0" reserved0;
  close_reason_raw ← read_u16 source 0;
  close_reason ← SessionCloseReason.try_from_u16 close_reason_raw;
  in_flight_policy_raw ← index source 2;
  in_flight_policy ← InFlightPolicy.try_from_u8 in_flight_policy_raw;
  drain_timeout_ms ← read_u32 source 4;
  last_operation_id ← read_u64 source 8;
  session_error_code ← read_u32 source 16;
  session_close_tag ← read_u32 source 20;
  Ok {| close_reason := close_reason; in_flight_policy := in_flight_policy;
      drain_timeout_ms := drain_timeout_ms; last_operation_id := last_operation_id;
      session_error_code := session_error_code; session_close_tag := session_close_tag |}.

Definition write (m : t) (destination : bytes) : R bytes :=
  _ ← require_destination_len destination SESSION_CLOSE_METADATA_LEN;
  destination ← fill_zero destination SESSION_CLOSE_METADATA_LEN;
  destination ← write_u16 destination 0 (SessionCloseReason.repr (close_reason m));
  destination ← write_u8 destination 2 (InFlightPolicy.repr (in_flight_policy m));
  destination ← write_u32 destination 4 (drain_timeout_ms m);
  destination ← write_u64 destination 8 (last_operation_id m);
  destination ← write_u32 destination 16 (session_error_code m);
  destination ← write_u32 destination 20 (session_close_tag m);
  Ok destination.

Definition to_bytes (m : t) : R bytes := write m (replicate SESSION_CLOSE_METADATA_LEN x00).

Definition layout (m : t) : list field :=
  [ F (KU 2) (SessionCloseReason.repr (close_reason m));
      F (KU 1) (InFlightPolicy.repr (in_flight_policy m)); F (KU 1) 0;
      F (KU 4) (drain_timeout_ms m); F (KU 8) (last_operation_id m);
      F (KU 4) (session_error_code m); F (KU 4) (session_close_tag m) ].

Definition guard (m : t) : bool := true.

End SessionCloseMetadata.

#[export] Instance SessionCloseMetadata_codec : WireCodec SessionCloseMetadata.t := {|
  codec_len := SESSION_CLOSE_METADATA_LEN;
  codec_shape := [KU 2; KU 1; KU 1; KU 4; KU 8; KU 4; KU 4 ];
  codec_parse := SessionCloseMetadata.parse;
  codec_write := SessionCloseMetadata.write;
  codec_layout := SessionCloseMetadata.layout;
  codec_guard := SessionCloseMetadata.guard |}.
#[export] Instance SessionCloseMetadata_codec_laws : WireCodecLaws SessionCloseMetadata.t.
Proof. solve_codec SessionCloseMetadata.parse SessionCloseMetadata.write SessionCloseMetadata.guard. Qed.
#[export] Instance SessionCloseMetadata_strict : StrictWireCodec SessionCloseMetadata.t.
Proof. solve_strict SessionCloseMetadata.write SessionCloseMetadata.guard. Qed.

Module SessionCloseAckMetadata.

#[projections(primitive)]
Record t := mk {
  close_status : SessionCloseStatus.t;
  last_operation_id : Z;
  session_error_code : Z
}.

Definition parse (source : bytes) : R t :=
  _ ← require_len source SESSION_CLOSE_ACK_METADATA_LEN;
  reserved0 ← index source 1;
  _ ← validate_zero "session_close_ack.reserved0" reserved0;
  reserved1 ← read_u16 source 2;
  _ ← validate_zero "session_close_ack.reserved1" reserved1;
  close_status_raw ← index source 0;
  close_status ← SessionCloseStatus.try_from_u8 close_status_raw;
  last_operation_id ← read_u64 source 4;
  session_error_code ← read_u32 source 12;
  Ok {| close_status := close_status; last_operation_id := last_operation_id;
      session_error_code := session_error_code |}.

Definition write (m : t) (destination : bytes) : R bytes :=
  _ ← require_destination_len destination SESSION_CLOSE_ACK_METADATA_LEN;
  destination ← fill_zero destination SESSION_CLOSE_ACK_METADATA_LEN;
  destination ← write_u8 destination 0 (SessionCloseStatus.repr (close_status m));
  destination ← write_u64 destination 4 (last_operation_id m);
  destination ← write_u32 destination 12 (session_error_code m);
  Ok destination.

Definition to_bytes (m : t) : R bytes := write m (replicate SESSION_CLOSE_ACK_METADATA_LEN x00).

Definition layout (m : t) : list field :=
  [ F (KU 1) (SessionCloseStatus.repr (close_status m)); F (KU 1) 0; F (KU 2) 0;
      F (KU 8) (last_operation_id m); F (KU 4) (session_error_code m) ].

Definition guard (m : t) : bool := true.

End SessionCloseAckMetadata.

#[export] Instance SessionCloseAckMetadata_codec : WireCodec SessionCloseAckMetadata.t := {|
  codec_len := SESSION_CLOSE_ACK_METADATA_LEN;
  codec_shape := [KU 1; KU 1; KU 2; KU 8; KU 4 ];
  codec_parse := SessionCloseAckMetadata.parse;
  codec_write := SessionCloseAckMetadata.write;
  codec_layout := SessionCloseAckMetadata.layout;
  codec_guard := SessionCloseAckMetadata.guard |}.
#[export] Instance SessionCloseAckMetadata_codec_laws : WireCodecLaws SessionCloseAckMetadata.t.
Proof. solve_codec SessionCloseAckMetadata.parse SessionCloseAckMetadata.write SessionCloseAckMetadata.guard. Qed.
#[export] Instance SessionCloseAckMetadata_strict : StrictWireCodec SessionCloseAckMetadata.t.
Proof. solve_strict SessionCloseAckMetadata.write SessionCloseAckMetadata.guard. Qed.
