(* ===== verification/Flow.v ===== *)
(** Flow control metadata ([src/crates/nnrp-core/src/flow.rs]). *)

From S2P Require Import Prelude Bytes Errors Enums Wire Header.

Local Open Scope Z_scope.

Definition FLOW_UPDATE_METADATA_LEN : nat := 32.
Definition FLOW_UPDATE_FLAGS_KNOWN_MASK : Z := 0x0000_000f.
Definition FLOW_UPDATE_FLAG_CREDIT_VALID : Z := 0x0000_0001.
Definition FLOW_UPDATE_FLAG_RETRY_AFTER_VALID : Z := 0x0000_0002.
Definition FLOW_UPDATE_FLAG_BACKGROUND_ONLY : Z := 0x0000_0004.
Definition FLOW_UPDATE_FLAG_DRAIN_IN_FLIGHT_ONLY : Z := 0x0000_0008.

Definition validate_flags (value : Z) : R unit :=
  reject_if (negb (mask_ok 32 value FLOW_UPDATE_FLAGS_KNOWN_MASK))
    (ReservedBitsSet value FLOW_UPDATE_FLAGS_KNOWN_MASK).

Module FlowUpdateMetadata.

#[projections(primitive)]
Record t := mk {
  scope_kind : FlowScopeKind.t;
  update_reason : FlowUpdateReason.t;
  backpressure_level : BackpressureLevel.t;
  connection_credit : Z;
  session_credit : Z;
  operation_credit : Z;
  operation_id : Z;
  retry_after_ms : Z;
  credit_epoch : Z;
  flow_flags : Z
}.

Definition parse (source : bytes) : R t :=
  _ ← require_len source FLOW_UPDATE_METADATA_LEN;
  reserved0 ← index source 3;
  _ ← validate_zero "flow_update.reserved0" reserved0;
  reserved1 ← read_u16 source 10;
  _ ← validate_zero "flow_update.reserved1" reserved1;
  flow_flags ← read_u32 source 28;
  _ ← validate_flags flow_flags;
  scope_kind_raw ← index source 0;
  scope_kind ← FlowScopeKind.try_from_u8 scope_kind_raw;
  update_reason_raw ← index source 1;
  update_reason ← FlowUpdateReason.try_from_u8 update_reason_raw;
  backpressure_level_raw ← index source 2;
  backpressure_level ← BackpressureLevel.try_from_u8 backpressure_level_raw;
  connection_credit ← read_u16 source 4;
  session_credit ← read_u16 source 6;
  operation_credit ← read_u16 source 8;
  operation_id ← read_u64 source 12;
  retry_after_ms ← read_u32 source 20;
  credit_epoch ← read_u32 source 24;
  Ok {| scope_kind := scope_kind; update_reason := update_reason;
      backpressure_level := backpressure_level; connection_credit := connection_credit;
      session_credit := session_credit; operation_credit := operation_credit;
      operation_id := operation_id; retry_after_ms := retry_after_ms;
      credit_epoch := credit_epoch; flow_flags := flow_flags |}.

Definition write (m : t) (destination : bytes) : R bytes :=
  _ ← require_destination_len destination FLOW_UPDATE_METADATA_LEN;
  _ ← validate_flags (flow_flags m);
  destination ← fill_zero destination FLOW_UPDATE_METADATA_LEN;
  destination ← write_u8 destination 0 (FlowScopeKind.repr (scope_kind m));
  destination ← write_u8 destination 1 (FlowUpdateReason.repr (update_reason m));
  destination ← write_u8 destination 2 (BackpressureLevel.repr (backpressure_level m));
  destination ← write_u16 destination 4 (connection_credit m);
  destination ← write_u16 destination 6 (session_credit m);
  destination ← write_u16 destination 8 (operation_credit m);
  destination ← write_u64 destination 12 (operation_id m);
  destination ← write_u32 destination 20 (retry_after_ms m);
  destination ← write_u32 destination 24 (credit_epoch m);
  destination ← write_u32 destination 28 (flow_flags m);
  Ok destination.

Definition to_bytes (m : t) : R bytes := write m (replicate FLOW_UPDATE_METADATA_LEN x00).

Definition validate_routing (m : t) (header : CommonHeader.t) : R unit :=
  if negb (bool_decide (CommonHeader.message_type header = MessageType.FlowUpdate))
  then Err (InvalidProtocolCombination
              "FLOW_UPDATE routing validation requires a FLOW_UPDATE header")
  else
    _ ← match scope_kind m with
        | FlowScopeKind.Connection =>
            reject_if (negb (CommonHeader.session_id header =? 0) || negb (session_credit m =? 0)
                       || negb (operation_credit m =? 0) || negb (operation_id m =? 0))
              (InvalidProtocolCombination
                 "connection-scope FLOW_UPDATE requires header.session_id=0 and non-connection fields cleared")
        | FlowScopeKind.Session =>
            reject_if ((CommonHeader.session_id header =? 0) || negb (connection_credit m =? 0)
                       || negb (operation_credit m =? 0) || negb (operation_id m =? 0))
              (InvalidProtocolCombination
                 "session-scope FLOW_UPDATE requires header.session_id!=0 and non-session fields cleared")
        | FlowScopeKind.Operation =>
            reject_if ((CommonHeader.session_id header =? 0) || (operation_id m =? 0))
              (InvalidProtocolCombination
                 "operation-scope FLOW_UPDATE requires header.session_id!=0 and operation_id!=0")
        end;
    reject_if (negb (retry_after_ms m =? 0)
               && (Z.land (flow_flags m) FLOW_UPDATE_FLAG_RETRY_AFTER_VALID =? 0))
      (InvalidProtocolCombination "FLOW_UPDATE retry_after_ms requires retry_after_valid flag").

Definition layout (m : t) : list field :=
  [ F (KU 1) (FlowScopeKind.repr (scope_kind m));
      F (KU 1) (FlowUpdateReason.repr (update_reason m));
      F (KU 1) (BackpressureLevel.repr (backpressure_level m)); F (KU 1) 0;
      F (KU 2) (connection_credit m); F (KU 2) (session_credit m);
      F (KU 2) (operation_credit m); F (KU 2) 0; F (KU 8) (operation_id m);
      F (KU 4) (retry_after_ms m); F (KU 4) (credit_epoch m); F (KU 4) (flow_flags m) ].

Definition guard (m : t) : bool := is_ok (validate_flags (flow_flags m)).

End FlowUpdateMetadata.

#[export] Instance FlowUpdateMetadata_codec : WireCodec FlowUpdateMetadata.t := {|
  codec_len := FLOW_UPDATE_METADATA_LEN;
  codec_shape := [KU 1; KU 1; KU 1; KU 1; KU 2; KU 2; KU 2; KU 2; KU 8; KU 4; KU 4; KU 4 ];
  codec_parse := FlowUpdateMetadata.parse;
  codec_write := FlowUpdateMetadata.write;
  codec_layout := FlowUpdateMetadata.layout;
  codec_guard := FlowUpdateMetadata.guard |}.
#[export] Instance FlowUpdateMetadata_codec_laws : WireCodecLaws FlowUpdateMetadata.t.
Proof. solve_codec FlowUpdateMetadata.parse FlowUpdateMetadata.write FlowUpdateMetadata.guard. Qed.
#[export] Instance FlowUpdateMetadata_strict : StrictWireCodec FlowUpdateMetadata.t.
Proof. solve_strict FlowUpdateMetadata.write FlowUpdateMetadata.guard. Qed.
