(* ===== verification/Lifecycle.v ===== *)
(** The connection and session lifecycle ([src/crates/nnrp-core/src/lifecycle.rs]).

    A connection keeps a table of its sessions and, beside it, the state in which
    each session was established, to which a rejected close returns.  The two
    [BTreeMap]s are [gmap]s.  [step] is the relation of the calls a program can make,
    and the invariant is proved over its reachable states. *)

From S2P Require Import Prelude Bytes Errors Enums Wire Header Session Flow.

Local Open Scope Z_scope.

Module ConnectionLifecycleState.

Inductive t := Open | Closing | Closed.

#[global] Instance eq_dec : EqDecision t.
Proof. solve_decision. Defined.

End ConnectionLifecycleState.

Module SessionLifecycleState.

Inductive t := Open | Resumed | Closing | Draining | Closed.

#[global] Instance eq_dec : EqDecision t.
Proof. solve_decision. Defined.

Definition accepts_session_scoped_messages (self : t) : bool :=
  match self with Open | Resumed | Closing | Draining => true | Closed => false end.

Definition accepts_new_operations (self : t) : bool :=
  match self with Open | Resumed => true | _ => false end.

End SessionLifecycleState.

Module SessionLifecycle.

Record t := mk {
  session_id : Z;
  state : SessionLifecycleState.t;
  profile_id : Z;
  priority_class : SessionPriorityClass.t;
  schema_id : Z;
  schema_version : Z;
  max_in_flight_operations : Z;
  route_scope_id : Z;
  last_operation_id : Z;
  session_error_code : Z
}.

Definition set_state (self : t) (s : SessionLifecycleState.t) : t := {|
  session_id := session_id self; state := s; profile_id := profile_id self;
  priority_class := priority_class self; schema_id := schema_id self;
  schema_version := schema_version self;
  max_in_flight_operations := max_in_flight_operations self;
  route_scope_id := route_scope_id self; last_operation_id := last_operation_id self;
  session_error_code := session_error_code self |}.

(** The three stores of a close message. *)
Definition set_close (self : t) (s : SessionLifecycleState.t) (last_operation error_code : Z) : t := {|
  session_id := session_id self; state := s; profile_id := profile_id self;
  priority_class := priority_class self; schema_id := schema_id self;
  schema_version := schema_version self;
  max_in_flight_operations := max_in_flight_operations self;
  route_scope_id := route_scope_id self; last_operation_id := last_operation;
  session_error_code := error_code |}.

End SessionLifecycle.

Module ConnectionLifecycle.

Record t := mk {
  state : ConnectionLifecycleState.t;
  sessions : gmap Z SessionLifecycle.t;
  established_session_states : gmap Z SessionLifecycleState.t
}.

Definition new : t := {|
  state := ConnectionLifecycleState.Open;
  sessions := ∅;
  established_session_states := ∅ |}.

Definition session_count (self : t) : nat := size (sessions self).

Definition session (self : t) (session_id : Z) : option SessionLifecycle.t :=
  sessions self !! session_id.

Definition set_session (self : t) (session_id : Z) (s : SessionLifecycle.t) : t := {|
  state := state self;
  sessions := <[session_id := s]> (sessions self);
  established_session_states := established_session_states self |}.

Definition require_connection_open (self : t) : R unit :=
  match state self with
  | ConnectionLifecycleState.Open => Ok tt
  | ConnectionLifecycleState.Closing | ConnectionLifecycleState.Closed => Err ConnectionNotOpen
  end.

Definition close_connection : Method t NnrpError unit := fun self =>
  match state self with
  | ConnectionLifecycleState.Open | ConnectionLifecycleState.Closing =>
      (Ok tt,
       {| state := ConnectionLifecycleState.Closed;
          sessions := (fun s => SessionLifecycle.set_state s SessionLifecycleState.Closed)
                        <$> sessions self;
          established_session_states := established_session_states self |})
  | ConnectionLifecycleState.Closed => (Err ConnectionAlreadyClosed, self)
  end.

(** The session that a successful ack installs. *)
Definition session_of_ack (ack : SessionOpenAckMetadata.t) (state : SessionLifecycleState.t)
    : SessionLifecycle.t := {|
  SessionLifecycle.session_id := SessionOpenAckMetadata.session_id ack;
  SessionLifecycle.state := state;
  SessionLifecycle.profile_id := SessionOpenAckMetadata.accepted_profile_id ack;
  SessionLifecycle.priority_class := SessionOpenAckMetadata.accepted_priority_class ack;
  SessionLifecycle.schema_id := SessionOpenAckMetadata.schema_id ack;
  SessionLifecycle.schema_version := SessionOpenAckMetadata.schema_version ack;
  SessionLifecycle.max_in_flight_operations := SessionOpenAckMetadata.max_in_flight_operations ack;
  SessionLifecycle.route_scope_id := SessionOpenAckMetadata.route_scope_id ack;
  SessionLifecycle.last_operation_id := 0;
  SessionLifecycle.session_error_code := SessionOpenAckMetadata.session_error_code ack |}.

Definition apply_session_open_ack (ack : SessionOpenAckMetadata.t) : Method t NnrpError unit :=
  fun self =>
  match require_connection_open self with
  | Err e => (Err e, self)
  | Panic => (Panic, self)
  | Ok _ =>
      let session_id := SessionOpenAckMetadata.session_id ack in
      match SessionOpenAckMetadata.session_status ack with
      | SessionStatus.Opened | SessionStatus.Resumed =>
          if session_id =? 0 then
            (Err (InvalidProtocolCombination
                    "successful SESSION_OPEN_ACK requires a non-zero session_id"), self)
          else if is_some (sessions self !! session_id) then
            (Err (SessionAlreadyExists session_id), self)
          else
            let installed : R SessionLifecycleState.t :=
              match SessionOpenAckMetadata.session_status ack with
              | SessionStatus.Opened => Ok SessionLifecycleState.Open
              | SessionStatus.Resumed => Ok SessionLifecycleState.Resumed
              | SessionStatus.Rejected | SessionStatus.RetryLater => Panic (* unreachable!() *)
              end in
            match installed with
            | Ok s =>
                (Ok tt,
                 {| state := state self;
                    sessions := <[session_id := session_of_ack ack s]> (sessions self);
                    established_session_states :=
                      <[session_id := s]> (established_session_states self) |})
            | Err e => (Err e, self)
            | Panic => (Panic, self)
            end
      | SessionStatus.Rejected | SessionStatus.RetryLater =>
          if negb (session_id =? 0) then
            (Err (InvalidProtocolCombination
                    "rejected SESSION_OPEN_ACK must not install a session_id"), self)
          else (Ok tt, self)
      end
  end.

Definition begin_session_close (header : CommonHeader.t) (close : SessionCloseMetadata.t)
    : Method t NnrpError unit := fun self =>
  let session_id := CommonHeader.session_id header in
  let checked : R SessionLifecycle.t :=
    _ ← require_connection_open self;
    _ ← reject_if (negb (bool_decide (CommonHeader.message_type header = MessageType.SessionClose)))
          (InvalidProtocolCombination
             "SESSION_CLOSE lifecycle transition requires a SESSION_CLOSE header");
    _ ← reject_if (session_id =? 0)
          (InvalidProtocolCombination "SESSION_CLOSE requires header.session_id!=0");
    s ← ok_or (sessions self !! session_id) (UnknownSession session_id);
    _ ← reject_if (negb (SessionLifecycleState.accepts_new_operations (SessionLifecycle.state s)))
          (SessionNotOpen session_id);
    Ok s in
  match checked with
  | Ok s =>
      (Ok tt,
       set_session self session_id
         (SessionLifecycle.set_close s SessionLifecycleState.Closing
            (SessionCloseMetadata.last_operation_id close)
            (SessionCloseMetadata.session_error_code close)))
  | Err e => (Err e, self)
  | Panic => (Panic, self)
  end.

Definition apply_session_close_ack (header : CommonHeader.t) (ack : SessionCloseAckMetadata.t)
    : Method t NnrpError unit := fun self =>
  let session_id := CommonHeader.session_id header in
  let checked : R (SessionLifecycle.t * SessionLifecycleState.t) :=
    _ ← require_connection_open self;
    _ ← reject_if (negb (bool_decide (CommonHeader.message_type header
                                      = MessageType.SessionCloseAck)))
          (InvalidProtocolCombination
             "SESSION_CLOSE_ACK lifecycle transition requires a SESSION_CLOSE_ACK header");
    _ ← reject_if (session_id =? 0)
          (InvalidProtocolCombination "SESSION_CLOSE_ACK requires header.session_id!=0");
    s ← ok_or (sessions self !! session_id) (UnknownSession session_id);
    _ ← match SessionLifecycle.state s with
        | SessionLifecycleState.Open | SessionLifecycleState.Resumed
        | SessionLifecycleState.Closing | SessionLifecycleState.Draining => Ok tt
        | SessionLifecycleState.Closed => Err (SessionNotOpen session_id)
        end;
    next ← match SessionCloseAckMetadata.close_status ack with
           | SessionCloseStatus.Acknowledged => Ok SessionLifecycleState.Closing
           | SessionCloseStatus.Draining => Ok SessionLifecycleState.Draining
           | SessionCloseStatus.Closed => Ok SessionLifecycleState.Closed
           | SessionCloseStatus.Rejected =>
               ok_or (established_session_states self !! session_id) (UnknownSession session_id)
           end;
    Ok (s, next) in
  match checked with
  | Ok (s, next) =>
      (Ok tt,
       set_session self session_id
         (SessionLifecycle.set_close s next
            (SessionCloseAckMetadata.last_operation_id ack)
            (SessionCloseAckMetadata.session_error_code ack)))
  | Err e => (Err e, self)
  | Panic => (Panic, self)
  end.

Definition validate_flow_update
    (self : t) (header : CommonHeader.t) (metadata : FlowUpdateMetadata.t) : R unit :=
  _ ← require_connection_open self;
  _ ← FlowUpdateMetadata.validate_routing metadata header;
  match FlowUpdateMetadata.scope_kind metadata with
  | FlowScopeKind.Connection => Ok tt
  | FlowScopeKind.Session | FlowScopeKind.Operation =>
      let session_id := CommonHeader.session_id header in
      match sessions self !! session_id with
      | Some s =>
          if SessionLifecycleState.accepts_session_scoped_messages (SessionLifecycle.state s)
          then Ok tt else Err (UnknownSession session_id)
      | None => Err (UnknownSession session_id)
      end
  end.

(** ** The calls of a program *)

Inductive call :=
| CloseConnection
| ApplySessionOpenAck (ack : SessionOpenAckMetadata.t)
| BeginSessionClose (header : CommonHeader.t) (close : SessionCloseMetadata.t)
| ApplySessionCloseAck (header : CommonHeader.t) (ack : SessionCloseAckMetadata.t).

Definition run (c : call) : Method t NnrpError unit :=
  match c with
  | CloseConnection => close_connection
  | ApplySessionOpenAck ack => apply_session_open_ack ack
  | BeginSessionClose header close => begin_session_close header close
  | ApplySessionCloseAck header ack => apply_session_close_ack header ack
  end.

Definition step (self self' : t) : Prop := exists c, self' = state_after (run c) self.
Definition reachable (self : t) : Prop := rtc step new self.

(** ** The invariant *)

(** Both tables have the same keys; a session is stored under its own non-zero id; it was
    established open or resumed; and a closed connection has closed sessions only. *)
Record invariant (self : t) : Prop := {
  inv_tables : dom (sessions self) = dom (established_session_states self);
  inv_ids k s : sessions self !! k = Some s -> SessionLifecycle.session_id s = k /\ k <> 0;
  inv_established k e : established_session_states self !! k = Some e ->
    SessionLifecycleState.accepts_new_operations e = true;
  inv_closed k s : state self = ConnectionLifecycleState.Closed ->
    sessions self !! k = Some s -> SessionLifecycle.state s = SessionLifecycleState.Closed;
  inv_never_closing : state self <> ConnectionLifecycleState.Closing
}.

(** Every call either changes nothing, closes everything, installs a fresh session
    or updates one open session. *)
Inductive effect (self : t) : t -> Prop :=
| effect_none : effect self self
| effect_close : state self <> ConnectionLifecycleState.Closed ->
    effect self
      {| state := ConnectionLifecycleState.Closed;
         sessions := (fun s => SessionLifecycle.set_state s SessionLifecycleState.Closed)
                       <$> sessions self;
         established_session_states := established_session_states self |}
| effect_install ack s :
    state self = ConnectionLifecycleState.Open ->
    SessionOpenAckMetadata.session_id ack <> 0 ->
    sessions self !! SessionOpenAckMetadata.session_id ack = None ->
    SessionLifecycleState.accepts_new_operations s = true ->
    effect self
      {| state := state self;
         sessions := <[SessionOpenAckMetadata.session_id ack := session_of_ack ack s]>
                       (sessions self);
         established_session_states :=
           <[SessionOpenAckMetadata.session_id ack := s]> (established_session_states self) |}
| effect_update k s next op code :
    state self = ConnectionLifecycleState.Open ->
    sessions self !! k = Some s ->
    SessionLifecycle.state s <> SessionLifecycleState.Closed ->
    effect self (set_session self k (SessionLifecycle.set_close s next op code)).

Lemma require_open_Ok self u :
  require_connection_open self = Ok u <-> state self = ConnectionLifecycleState.Open.
Proof. destruct u. unfold require_connection_open. by destruct (state self). Qed.

Lemma require_open_no_panic self : require_connection_open self <> Panic.
Proof. unfold require_connection_open. by destruct (state self). Qed.

Lemma open_ack_effect ack self : effect self (state_after (apply_session_open_ack ack) self).
Proof.
  unfold state_after, apply_session_open_ack.
  destruct (require_connection_open self) as [u|e|] eqn:Ho; [|constructor|constructor].
  apply require_open_Ok in Ho.
  destruct (SessionOpenAckMetadata.session_status ack),
    (Z.eqb_spec (SessionOpenAckMetadata.session_id ack) 0),
    (sessions self !! SessionOpenAckMetadata.session_id ack) eqn:E; simpl;
    first [ apply effect_none | by apply effect_install ].
Qed.

Lemma begin_close_effect header close self :
  effect self (state_after (begin_session_close header close) self).
Proof.
  unfold state_after, begin_session_close. case_match eqn:Hc; [|constructor|constructor].
  apply bind_Ok in Hc as (? & Ho%require_open_Ok & Hc).
  apply bind_Ok in Hc as (? & _ & Hc). apply bind_Ok in Hc as (? & _ & Hc).
  apply bind_Ok in Hc as (s & Hs%ok_or_Ok & Hc).
  apply bind_Ok in Hc as (? & Hn%reject_if_Ok & [= <-]).
  apply effect_update; [done|done|]. intros Hcl. by rewrite Hcl in Hn.
Qed.

Lemma close_ack_effect header ack self :
  effect self (state_after (apply_session_close_ack header ack) self).
Proof.
  unfold state_after, apply_session_close_ack. case_match eqn:Hc; [|constructor|constructor].
  apply bind_Ok in Hc as (? & Ho%require_open_Ok & Hc).
  apply bind_Ok in Hc as (? & _ & Hc). apply bind_Ok in Hc as (? & _ & Hc).
  apply bind_Ok in Hc as (s & Hs%ok_or_Ok & Hc). apply bind_Ok in Hc as (? & Hst & Hc).
  apply bind_Ok in Hc as (next & _ & [= <-]).
  apply effect_update; [done|done|]. intros Hcl. by rewrite Hcl in Hst.
Qed.

Lemma run_effect c self : effect self (state_after (run c) self).
Proof.
  destruct c; simpl.
  - unfold state_after, close_connection. destruct (state self) eqn:E; constructor; congruence.
  - apply open_ack_effect.
  - apply begin_close_effect.
  - apply close_ack_effect.
Qed.

Lemma effect_invariant self self' : effect self self' -> invariant self -> invariant self'.
Proof.
  intros He Hi. destruct He as [|Hc|ack s Ho Hid Hnone Hs|k s next op code Ho Hk Hns]; [done| | |].
  - constructor; simpl.
    + rewrite dom_fmap_L. apply (inv_tables _ Hi).
    + intros k s (s0 & <- & Hs)%lookup_fmap_Some. by apply (inv_ids _ Hi) in Hs.
    + apply (inv_established _ Hi).
    + by intros k s _ (s0 & <- & _)%lookup_fmap_Some.
    + done.
  - constructor; simpl.
    + rewrite !dom_insert_L. f_equal. apply (inv_tables _ Hi).
    + intros k s' [[<- <-]|[_ Hk]]%lookup_insert_Some; [done|by apply (inv_ids _ Hi)].
    + intros k e [[<- <-]|[_ Hk]]%lookup_insert_Some; [done|by eapply (inv_established _ Hi)].
    + congruence.
    + congruence.
  - constructor; simpl.
    + rewrite dom_insert_lookup_L by eauto. apply (inv_tables _ Hi).
    + intros k' s' [[<- <-]|[_ Hk']]%lookup_insert_Some; [|by apply (inv_ids _ Hi)].
      by apply (inv_ids _ Hi) in Hk.
    + apply (inv_established _ Hi).
    + congruence.
    + congruence.
Qed.

Lemma lifecycle_new_invariant : invariant new.
Proof. constructor; simpl; [by rewrite !dom_empty_L|..]; try done; by intros ??. Qed.

(** A property kept by every effect holds along every run. *)
Lemma run_induction (P : t -> Prop) self self' :
  (forall s s', effect s s' -> P s -> P s') -> rtc step self self' -> P self -> P self'.
Proof.
  intros HP. induction 1 as [|x y z [c ->] _ IH]; [done|]. intros Hx. apply IH.
  eapply HP; [apply run_effect|done].
Qed.

Lemma lifecycle_reachable_invariant self : reachable self -> invariant self.
Proof.
  intros Hr. eapply (run_induction invariant); [apply effect_invariant|exact Hr|apply lifecycle_new_invariant].
Qed.

(** ** Panics, errors, closed connections *)

Lemma run_no_panic c self : outcome_of (run c) self <> Panic.
Proof.
  unfold outcome_of. destruct c as [|ack|header close|header ack]; simpl.
  - unfold close_connection. by destruct (state self).
  - unfold apply_session_open_ack. pose proof (require_open_no_panic self).
    destruct (require_connection_open self); [|done|done].
    destruct (SessionOpenAckMetadata.session_status ack); repeat case_match; simplify_eq/=; done.
  - unfold begin_session_close. case_match eqn:Hc; [done|done|]. exfalso. revert Hc.
    apply bind_no_panic; [apply require_open_no_panic|intros _ _].
    auto 10 with nopanic.
  - unfold apply_session_close_ack. case_match eqn:Hc; [repeat case_match; simpl; done|done|]. exfalso. revert Hc.
    apply bind_no_panic; [apply require_open_no_panic|intros _ _].
    do 2 (apply bind_no_panic; [apply reject_if_no_panic|intros _ _]).
    apply bind_no_panic; [apply ok_or_no_panic|intros s _].
    apply bind_no_panic; [by case_match|intros _ _].
    apply bind_no_panic; [case_match; auto with nopanic|done].
Qed.

(** A call that fails leaves the connection as it was. *)
Lemma run_error_atomic c self e :
  outcome_of (run c) self = Err e -> state_after (run c) self = self.
Proof.
  unfold outcome_of, state_after. destruct c as [|ack|header close|header ack]; simpl.
  - unfold close_connection. destruct (state self); simpl; done.
  - unfold apply_session_open_ack. repeat case_match; simpl; done.
  - unfold begin_session_close. case_match; simpl; done.
  - unfold apply_session_close_ack. repeat case_match; simpl; done.
Qed.

Lemma run_closed c self :
  state self = ConnectionLifecycleState.Closed ->
  state_after (run c) self = self /\ exists e, outcome_of (run c) self = Err e.
Proof.
  intros Hc. assert (exists e, outcome_of (run c) self = Err e) as [e He].
  { unfold outcome_of. assert (require_connection_open self = Err ConnectionNotOpen) as Ho
      by (unfold require_connection_open; by rewrite Hc).
    destruct c; simpl; unfold close_connection, apply_session_open_ack, begin_session_close,
      apply_session_close_ack; rewrite ?Ho, ?Hc; simpl; eauto. }
  split; [by eapply run_error_atomic|eauto].
Qed.

(** ** Sessions *)

(** What never changes of a session once it is installed. *)
Definition same_identity (s s' : SessionLifecycle.t) : Prop :=
  SessionLifecycle.session_id s' = SessionLifecycle.session_id s /\
  SessionLifecycle.profile_id s' = SessionLifecycle.profile_id s /\
  SessionLifecycle.priority_class s' = SessionLifecycle.priority_class s /\
  SessionLifecycle.schema_id s' = SessionLifecycle.schema_id s /\
  SessionLifecycle.schema_version s' = SessionLifecycle.schema_version s /\
  SessionLifecycle.max_in_flight_operations s' = SessionLifecycle.max_in_flight_operations s /\
  SessionLifecycle.route_scope_id s' = SessionLifecycle.route_scope_id s.

(** A session stays in the table with its identity, keeps the state it was established
    in, and does not change at all once it is closed. *)
Definition continues (k : Z) (self self' : t) : Prop :=
  forall s, sessions self !! k = Some s ->
    established_session_states self' !! k = established_session_states self !! k /\
    exists s', sessions self' !! k = Some s' /\ same_identity s s' /\
      (SessionLifecycle.state s = SessionLifecycleState.Closed -> s' = s).

Lemma effect_continues k self self' : effect self self' -> continues k self self'.
Proof.
  intros He s Hs. destruct He as [|Hc|ack s0 Ho Hid Hnone Hs0|k' s0 next op code Ho Hk Hns]; simpl.
  - split; [done|]. exists s. by split_and!.
  - split; [done|]. rewrite lookup_fmap, Hs. simpl. eexists. split; [done|].
    split; [by split_and!|]. intros Hcl. destruct s. simpl in *. by rewrite Hcl.
  - rewrite !lookup_insert_ne by congruence. split; [done|]. exists s. by split_and!.
  - split; [done|]. destruct (decide (k = k')) as [<-|Hne].
    + rewrite lookup_insert_eq. simplify_eq. eexists. split; [done|].
      split; [by split_and!|done].
    + rewrite lookup_insert_ne by done. exists s. by split_and!.
Qed.

Lemma continues_refl k self : continues k self self.
Proof. intros s Hs. split; [done|]. exists s. by split_and!. Qed.

Lemma continues_trans k a b c : continues k a b -> continues k b c -> continues k a c.
Proof.
  intros Hab Hbc s Hs. destruct (Hab s Hs) as (He & s1 & Hs1 & Hid & Hcl).
  destruct (Hbc s1 Hs1) as (He' & s2 & Hs2 & Hid' & Hcl'). split; [congruence|].
  exists s2. split; [done|]. split.
  - unfold same_identity in *. naive_solver congruence.
  - intros H. pose proof (Hcl H) as ->. auto.
Qed.

Lemma run_continues k self self' : rtc step self self' -> continues k self self'.
Proof.
  induction 1 as [|x y z [c ->] _ IH]; [apply continues_refl|].
  eapply continues_trans; [apply effect_continues, run_effect|done].
Qed.

(** ** The two ends of a close *)

(** A close begins exactly on an open session of an open connection. *)
Lemma begin_close_Ok header close self self' :
  begin_session_close header close self = (Ok tt, self') <->
  state self = ConnectionLifecycleState.Open /\
  CommonHeader.message_type header = MessageType.SessionClose /\
  CommonHeader.session_id header <> 0 /\
  exists s, sessions self !! CommonHeader.session_id header = Some s /\
    SessionLifecycleState.accepts_new_operations (SessionLifecycle.state s) = true /\
    self' = set_session self (CommonHeader.session_id header)
      (SessionLifecycle.set_close s SessionLifecycleState.Closing
         (SessionCloseMetadata.last_operation_id close)
         (SessionCloseMetadata.session_error_code close)).
Proof.
  unfold begin_session_close. split.
  - case_match eqn:Hc; [|done|done]. intros [= <-].
    apply bind_Ok in Hc as (? & Ho%require_open_Ok & Hc).
    apply bind_Ok in Hc as (? & Hm%reject_if_Ok & Hc).
    apply bind_Ok in Hc as (? & Hz%reject_if_Ok & Hc).
    apply bind_Ok in Hc as (s & Hs%ok_or_Ok & Hc).
    apply bind_Ok in Hc as (? & Hn%reject_if_Ok & [= <-]).
    apply negb_false_iff in Hm, Hn. apply bool_decide_eq_true in Hm. apply Z.eqb_neq in Hz. eauto 10.
  - intros (Ho & Hm & Hz & s & Hs & Hn & ->).
    rewrite (proj2 (require_open_Ok self tt) Ho). simpl.
    rewrite bool_decide_eq_true_2, (proj2 (Z.eqb_neq _ _) Hz) by done. simpl.
    rewrite Hs. simpl. by rewrite Hn.
Qed.

(** A rejected close puts the session back into the state it was established in. *)
Lemma close_rejected_restores header ack self s e :
  state self = ConnectionLifecycleState.Open ->
  CommonHeader.message_type header = MessageType.SessionCloseAck ->
  CommonHeader.session_id header <> 0 ->
  sessions self !! CommonHeader.session_id header = Some s ->
  SessionLifecycle.state s <> SessionLifecycleState.Closed ->
  established_session_states self !! CommonHeader.session_id header = Some e ->
  SessionCloseAckMetadata.close_status ack = SessionCloseStatus.Rejected ->
  apply_session_close_ack header ack self =
  (Ok tt, set_session self (CommonHeader.session_id header)
            (SessionLifecycle.set_close s e (SessionCloseAckMetadata.last_operation_id ack)
               (SessionCloseAckMetadata.session_error_code ack))).
Proof.
  intros Ho Hm Hz Hs Hns He Hr. unfold apply_session_close_ack.
  rewrite (proj2 (require_open_Ok self tt) Ho). simpl.
  rewrite bool_decide_eq_true_2, (proj2 (Z.eqb_neq _ _) Hz) by done. simpl.
  rewrite Hs. simpl. destruct (SessionLifecycle.state s); [..|done]; simpl; by rewrite Hr, He.
Qed.

(** Flow updates are accepted on an open connection for itself and for its sessions
    that are not closed. *)
Lemma flow_update_Ok self header m :
  validate_flow_update self header m = Ok tt <->
  state self = ConnectionLifecycleState.Open /\
  FlowUpdateMetadata.validate_routing m header = Ok tt /\
  (FlowUpdateMetadata.scope_kind m = FlowScopeKind.Connection \/
   exists s, sessions self !! CommonHeader.session_id header = Some s /\
     SessionLifecycle.state s <> SessionLifecycleState.Closed).
Proof.
  unfold validate_flow_update. rewrite bind_Ok. setoid_rewrite require_open_Ok. split.
  - intros (_ & Ho & Hf). apply bind_Ok in Hf as ([] & Hr & Hf). split_and!; [done|done|].
    destruct (FlowUpdateMetadata.scope_kind m); [by left|right..];
      (destruct (sessions self !! _) as [s|]; [|done]); exists s;
      (split; [done|]); intros Hc; by rewrite Hc in Hf.
  - intros (Ho & Hr & Hs). exists tt. split; [done|]. rewrite Hr. simpl.
    destruct (FlowUpdateMetadata.scope_kind m); [done|..];
      (destruct Hs as [[=]|(s & -> & Hs)]); by destruct (SessionLifecycle.state s).
Qed.

(** ** Contract *)

(** C29: In every connection a program can reach, the session table and the table of
    established states have the same keys, a session is stored under its own non-zero id
    and was established open or resumed, a closed connection has closed sessions only,
    and the connection is never in the state Closing. *)
Theorem lifecycle_invariant self :
  reachable self ->
  dom (sessions self) = dom (established_session_states self) /\
  (forall k s, sessions self !! k = Some s ->
     SessionLifecycle.session_id s = k /\ k <> 0 /\
     exists e, established_session_states self !! k = Some e /\
       SessionLifecycleState.accepts_new_operations e = true) /\
  (state self = ConnectionLifecycleState.Closed ->
     map_Forall (fun _ s => SessionLifecycle.state s = SessionLifecycleState.Closed)
       (sessions self)) /\
  state self <> ConnectionLifecycleState.Closing.
Proof.
  intros Hi%lifecycle_reachable_invariant. split_and!.
  - apply (inv_tables _ Hi).
  - intros k s Hs. destruct (inv_ids _ Hi _ _ Hs) as [Hid Hk]. split_and!; [done..|].
    destruct (established_session_states self !! k) as [e|] eqn:He.
    + exists e. split; [done|]. by apply (inv_established _ Hi) in He.
    + apply not_elem_of_dom in He. rewrite <- (inv_tables _ Hi) in He.
      by apply not_elem_of_dom in He; congruence.
  - intros Hc k s Hs. by apply (inv_closed _ Hi) in Hs.
  - apply (inv_never_closing _ Hi).
Qed.

Lemma reachable_step c self : reachable self -> reachable (state_after (run c) self).
Proof. intros Hr. eapply rtc_r; [exact Hr|]. by exists c. Qed.

Definition opened_ack (sid : Z) : SessionOpenAckMetadata.t :=
  SessionOpenAckMetadata.mk sid 2 SessionPriorityClass.Balanced SessionStatus.Resumed
    1 1 4 16 0 1000 32 0 0 0 0 1.

(** A connection with the resumed session 5. *)
Definition one_session : t := state_after (run (ApplySessionOpenAck (opened_ack 5))) new.

Lemma one_session_reachable : reachable one_session.
Proof. apply reachable_step, rtc_refl. Qed.

Lemma lifecycle_invariant_witness :
  state one_session <> ConnectionLifecycleState.Closing /\
  exists e, established_session_states one_session !! 5 = Some e.
Proof.
  destruct (lifecycle_invariant one_session one_session_reachable) as (_ & Hs & _ & Hn).
  split; [exact Hn|]. destruct (Hs 5 _ eq_refl) as (_ & _ & e & He & _). by exists e.
Defined.

(** No call panics; a call that returns an error has changed nothing; and on a closed
    connection every call is an error, so that it stays closed. *)
Theorem lifecycle_calls c self :
  outcome_of (run c) self <> Panic /\
  (forall e, outcome_of (run c) self = Err e -> state_after (run c) self = self) /\
  (state self = ConnectionLifecycleState.Closed ->
     state_after (run c) self = self /\ exists e, outcome_of (run c) self = Err e).
Proof. split_and!; [apply run_no_panic|intros e; apply run_error_atomic|apply run_closed]. Qed.

(** Along every sequence of calls an installed session stays in the table under its id,
    with the parameters it was installed with and the state it was established in; once
    closed, it never changes again. *)
Theorem session_continuity self self' k s :
  rtc step self self' -> sessions self !! k = Some s ->
  established_session_states self' !! k = established_session_states self !! k /\
  exists s', sessions self' !! k = Some s' /\ same_identity s s' /\
    (SessionLifecycle.state s = SessionLifecycleState.Closed -> s' = s).
Proof. intros Hrun. apply (run_continues k self self' Hrun). Qed.

Lemma session_continuity_witness :
  exists s', sessions (state_after (run CloseConnection) one_session) !! 5 = Some s' /\
    SessionLifecycle.profile_id s' = 2.
Proof.
  edestruct (session_continuity one_session (state_after (run CloseConnection) one_session) 5)
    as (_ & s' & Hs' & Hid & _).
  - apply rtc_once. by exists CloseConnection.
  - vm_compute; reflexivity.
  - exists s'. split; [exact Hs'|]. apply Hid.
Defined.

(** When a close has begun and the peer rejects it, the session returns to the state
    it was established in and accepts operations again; the other sessions are as they
    were before the close. *)
Theorem rejected_close_restores self self1 header close header' ack :
  reachable self ->
  begin_session_close header close self = (Ok tt, self1) ->
  CommonHeader.message_type header' = MessageType.SessionCloseAck ->
  CommonHeader.session_id header' = CommonHeader.session_id header ->
  SessionCloseAckMetadata.close_status ack = SessionCloseStatus.Rejected ->
  exists self2 s2,
    apply_session_close_ack header' ack self1 = (Ok tt, self2) /\
    sessions self2 !! CommonHeader.session_id header = Some s2 /\
    established_session_states self !! CommonHeader.session_id header
      = Some (SessionLifecycle.state s2) /\
    SessionLifecycleState.accepts_new_operations (SessionLifecycle.state s2) = true /\
    (forall k, k <> CommonHeader.session_id header -> sessions self2 !! k = sessions self !! k).
Proof.
  intros Hi%lifecycle_reachable_invariant
    (Hopen & _ & Hnz & s & Hs & Hacc & ->)%begin_close_Ok Hmt Hsid Hrej.
  set (sid := CommonHeader.session_id header) in *.
  assert (is_Some (established_session_states self !! sid)) as [e He].
  { apply elem_of_dom. rewrite <- (inv_tables _ Hi). by apply elem_of_dom. }
  eexists _, _. split.
  { refine (close_rejected_restores header' ack _ _ e _ Hmt _ _ _ _ Hrej).
    - exact Hopen.
    - by rewrite Hsid.
    - rewrite Hsid. apply lookup_insert_eq.
    - done.
    - rewrite Hsid. exact He. }
  rewrite Hsid. simpl. split_and!.
  - apply lookup_insert_eq.
  - exact He.
  - by apply (inv_established _ Hi) in He.
  - intros k Hk. by rewrite !lookup_insert_ne.
Qed.

Definition session_header (mt : MessageType.t) (sid : Z) : CommonHeader.t :=
  CommonHeader.mk 1 0 mt 40 0 0 0 sid 0 0 0 0.

Definition normal_close : SessionCloseMetadata.t :=
  SessionCloseMetadata.mk SessionCloseReason.Normal InFlightPolicy.Drain 0 9 0 0.

Lemma rejected_close_restores_witness :
  exists self2 s2,
    apply_session_close_ack (session_header MessageType.SessionCloseAck 5)
      (SessionCloseAckMetadata.mk SessionCloseStatus.Rejected 9 0)
      (state_after (begin_session_close (session_header MessageType.SessionClose 5) normal_close)
         one_session) = (Ok tt, self2) /\
    sessions self2 !! 5 = Some s2 /\ SessionLifecycle.state s2 = SessionLifecycleState.Resumed.
Proof.
  destruct (rejected_close_restores one_session
    (state_after (begin_session_close (session_header MessageType.SessionClose 5) normal_close)
       one_session)
    (session_header MessageType.SessionClose 5) normal_close
    (session_header MessageType.SessionCloseAck 5)
    (SessionCloseAckMetadata.mk SessionCloseStatus.Rejected 9 0)
    one_session_reachable) as (self2 & s2 & Ho & Hs & He & _);
    [vm_compute; reflexivity|reflexivity|reflexivity|reflexivity|].
  exists self2, s2. split; [exact Ho|]. split; [exact Hs|]. 
  change (Some SessionLifecycleState.Resumed = Some (SessionLifecycle.state s2)) in He. congruence.
Defined.

(** The credits and ids that a FLOW_UPDATE of each scope carries. *)
Definition scope_fields (header : CommonHeader.t) (m : FlowUpdateMetadata.t) : Prop :=
  match FlowUpdateMetadata.scope_kind m with
  | FlowScopeKind.Connection =>
      CommonHeader.session_id header = 0 /\ FlowUpdateMetadata.session_credit m = 0 /\
      FlowUpdateMetadata.operation_credit m = 0 /\ FlowUpdateMetadata.operation_id m = 0
  | FlowScopeKind.Session =>
      CommonHeader.session_id header <> 0 /\ FlowUpdateMetadata.connection_credit m = 0 /\
      FlowUpdateMetadata.operation_credit m = 0 /\ FlowUpdateMetadata.operation_id m = 0
  | FlowScopeKind.Operation =>
      CommonHeader.session_id header <> 0 /\ FlowUpdateMetadata.operation_id m <> 0
  end.

Lemma validate_routing_Ok header m :
  FlowUpdateMetadata.validate_routing m header = Ok tt <->
  CommonHeader.message_type header = MessageType.FlowUpdate /\ scope_fields header m /\
  (FlowUpdateMetadata.retry_after_ms m <> 0 ->
   Z.land (FlowUpdateMetadata.flow_flags m) FLOW_UPDATE_FLAG_RETRY_AFTER_VALID <> 0).
Proof.
  unfold FlowUpdateMetadata.validate_routing, scope_fields.
  case_bool_decide as Hmt; simpl; [|by split; [|intros [? _]]].
  destruct (FlowUpdateMetadata.scope_kind m); rewrite bind_Ok; setoid_rewrite reject_if_Ok;
    rewrite ?orb_false_iff, ?negb_false_iff, ?andb_false_iff, ?negb_false_iff;
    rewrite ?Z.eqb_eq, ?Z.eqb_neq; naive_solver lia.
Qed.

(** A FLOW_UPDATE is accepted exactly on an open connection, under a FLOW_UPDATE
    header, with the fields of its scope and no others set, with a retry delay only when
    the flag announces it, and, unless it is for the connection, for a session that is
    installed and not closed. *)
Theorem flow_update_exact self header m :
  validate_flow_update self header m = Ok tt <->
  state self = ConnectionLifecycleState.Open /\
  CommonHeader.message_type header = MessageType.FlowUpdate /\ scope_fields header m /\
  (FlowUpdateMetadata.retry_after_ms m <> 0 ->
   Z.land (FlowUpdateMetadata.flow_flags m) FLOW_UPDATE_FLAG_RETRY_AFTER_VALID <> 0) /\
  (FlowUpdateMetadata.scope_kind m = FlowScopeKind.Connection \/
   exists s, sessions self !! CommonHeader.session_id header = Some s /\
     SessionLifecycle.state s <> SessionLifecycleState.Closed).
Proof. rewrite flow_update_Ok, validate_routing_Ok. tauto. Qed.

End ConnectionLifecycle.
