(* ===== verification/Control.v ===== *)
(** Connection control metadata ([src/crates/nnrp-core/src/control.rs]): the
    capability handshake (CLIENT_HELLO, SERVER_HELLO_ACK), session patches, result hints,
    transport probes, session migration and errors, with the transport policy.  The
    runtime control messages of the same source file are in [RuntimeControl.v]. *)

From S2P Require Import Prelude Bytes Errors Enums Wire Header.

Local Open Scope Z_scope.

Definition CLIENT_HELLO_METADATA_LEN : nat := 64.
Definition SERVER_HELLO_ACK_METADATA_LEN : nat := 80.
Definition SESSION_PATCH_METADATA_LEN : nat := 36.
Definition SESSION_PATCH_ACK_METADATA_LEN : nat := 48.
Definition RESULT_HINT_METADATA_LEN : nat := 16.
Definition TRANSPORT_PROBE_METADATA_LEN : nat := 16.
Definition TRANSPORT_PROBE_ACK_METADATA_LEN : nat := 16.
Definition SESSION_MIGRATE_METADATA_LEN : nat := 24.
Definition SESSION_MIGRATE_ACK_METADATA_LEN : nat := 24.
Definition ERROR_METADATA_LEN : nat := 32.
Definition SESSION_PATCH_FIELD_KNOWN_MASK : Z := 0x0000_007f.
Definition SERVER_HELLO_ACK_FLAGS_KNOWN_MASK : Z := 0x0000_0001.

(** ** Guards the codecs of this file share *)

Definition require_nonzero (rule : string) (value : Z) : R unit :=
  reject_if (value =? 0) (InvalidProtocolCombination rule).

(** [accepted & !supported != 0] on [u32] bitmaps. *)
Definition require_subset (rule : string) (accepted supported : Z) : R unit :=
  reject_if (negb (mask_ok 32 accepted supported)) (InvalidProtocolCombination rule).

(** [bit < 64 && bitmap & (1u64 << bit) != 0]. *)
Definition has_bitmap_bit (bitmap bit : Z) : bool :=
  (bit <? 64) && negb (Z.land bitmap (Z.shiftl 1 bit) =? 0).

Module ResultHintBudgetPolicy.

Inductive t :=
| None | Full | Partial | StaleReuse | Drop.

Definition repr (x : t) : Z :=
  match x with
  | None => 0
  | Full => 1
  | Partial => 2
  | StaleReuse => 3
  | Drop => 4
  end.

Definition try_from_u32 (value : Z) : R t :=
  match value with
  | 0 => Ok None
  | 1 => Ok Full
  | 2 => Ok Partial
  | 3 => Ok StaleReuse
  | 4 => Ok Drop
  | _ => Err (UnknownEnumValue "result_hint_budget_policy" value)
  end.

#[global] Instance eq_dec : EqDecision t.
Proof. solve_decision. Defined.

End ResultHintBudgetPolicy.

#[export] Instance ResultHintBudgetPolicy_enum : WireEnum ResultHintBudgetPolicy.t :=
  {| enum_width := 4; enum_repr := ResultHintBudgetPolicy.repr; enum_try_from := ResultHintBudgetPolicy.try_from_u32 |}.
#[export] Instance ResultHintBudgetPolicy_laws : WireEnumLaws ResultHintBudgetPolicy.t.
Proof. solve_enum ResultHintBudgetPolicy.try_from_u32. Qed.

Module ResultHintCongestionState.

Inductive t :=
| None | Steady | Elevated | Saturated.

Definition repr (x : t) : Z :=
  match x with
  | None => 0
  | Steady => 1
  | Elevated => 2
  | Saturated => 3
  end.

Definition try_from_u32 (value : Z) : R t :=
  match value with
  | 0 => Ok None
  | 1 => Ok Steady
  | 2 => Ok Elevated
  | 3 => Ok Saturated
  | _ => Err (UnknownEnumValue "result_hint_congestion_state" value)
  end.

#[global] Instance eq_dec : EqDecision t.
Proof. solve_decision. Defined.

End ResultHintCongestionState.

#[export] Instance ResultHintCongestionState_enum : WireEnum ResultHintCongestionState.t :=
  {| enum_width := 4; enum_repr := ResultHintCongestionState.repr; enum_try_from := ResultHintCongestionState.try_from_u32 |}.
#[export] Instance ResultHintCongestionState_laws : WireEnumLaws ResultHintCongestionState.t.
Proof. solve_enum ResultHintCongestionState.try_from_u32. Qed.

Module ResultHintReason.

Inductive t :=
| None | QueueFull | ServerBusy | BudgetExceeded | Superseded.

Definition repr (x : t) : Z :=
  match x with
  | None => 0
  | QueueFull => 1
  | ServerBusy => 2
  | BudgetExceeded => 3
  | Superseded => 4
  end.

Definition try_from_u32 (value : Z) : R t :=
  match value with
  | 0 => Ok None
  | 1 => Ok QueueFull
  | 2 => Ok ServerBusy
  | 3 => Ok BudgetExceeded
  | 4 => Ok Superseded
  | _ => Err (UnknownEnumValue "result_hint_reason" value)
  end.

#[global] Instance eq_dec : EqDecision t.
Proof. solve_decision. Defined.

End ResultHintReason.

#[export] Instance ResultHintReason_enum : WireEnum ResultHintReason.t :=
  {| enum_width := 4; enum_repr := ResultHintReason.repr; enum_try_from := ResultHintReason.try_from_u32 |}.
#[export] Instance ResultHintReason_laws : WireEnumLaws ResultHintReason.t.
Proof. solve_enum ResultHintReason.try_from_u32. Qed.

Module SessionPatchAckStatus.

Inductive t :=
| Accepted | PartiallyApplied | Rejected.

Definition repr (x : t) : Z :=
  match x with
  | Accepted => 0
  | PartiallyApplied => 1
  | Rejected => 2
  end.

Definition try_from_u16 (value : Z) : R t :=
  match value with
  | 0 => Ok Accepted
  | 1 => Ok PartiallyApplied
  | 2 => Ok Rejected
  | _ => Err (UnknownEnumValue "session_patch_ack_status" value)
  end.

#[global] Instance eq_dec : EqDecision t.
Proof. solve_decision. Defined.

End SessionPatchAckStatus.

#[export] Instance SessionPatchAckStatus_enum : WireEnum SessionPatchAckStatus.t :=
  {| enum_width := 2; enum_repr := SessionPatchAckStatus.repr; enum_try_from := SessionPatchAckStatus.try_from_u16 |}.
#[export] Instance SessionPatchAckStatus_laws : WireEnumLaws SessionPatchAckStatus.t.
Proof. solve_enum SessionPatchAckStatus.try_from_u16. Qed.

Module SessionPatchRejectReason.

Inductive t :=
| None | UnsupportedField | InvalidRange | UnsupportedStrategy | InvalidLaneMask
| RateLimited.

Definition repr (x : t) : Z :=
  match x with
  | None => 0
  | UnsupportedField => 1
  | InvalidRange => 2
  | UnsupportedStrategy => 3
  | InvalidLaneMask => 4
  | RateLimited => 5
  end.

Definition try_from_u16 (value : Z) : R t :=
  match value with
  | 0 => Ok None
  | 1 => Ok UnsupportedField
  | 2 => Ok InvalidRange
  | 3 => Ok UnsupportedStrategy
  | 4 => Ok InvalidLaneMask
  | 5 => Ok RateLimited
  | _ => Err (UnknownEnumValue "session_patch_reject_reason" value)
  end.

#[global] Instance eq_dec : EqDecision t.
Proof. solve_decision. Defined.

End SessionPatchRejectReason.

#[export] Instance SessionPatchRejectReason_enum : WireEnum SessionPatchRejectReason.t :=
  {| enum_width := 2; enum_repr := SessionPatchRejectReason.repr; enum_try_from := SessionPatchRejectReason.try_from_u16 |}.
#[export] Instance SessionPatchRejectReason_laws : WireEnumLaws SessionPatchRejectReason.t.
Proof. solve_enum SessionPatchRejectReason.try_from_u16. Qed.

Module TransportId.

Inductive t :=
| Unspecified | Quic | Tcp | Ipc | WebSocket.

Definition repr (x : t) : Z :=
  match x with
  | Unspecified => 0
  | Quic => 1
  | Tcp => 2
  | Ipc => 3
  | WebSocket => 4
  end.

Definition try_from_u32 (value : Z) : R t :=
  match value with
  | 0 => Ok Unspecified
  | 1 => Ok Quic
  | 2 => Ok Tcp
  | 3 => Ok Ipc
  | 4 => Ok WebSocket
  | _ => Err (UnknownEnumValue "transport_id" value)
  end.

#[global] Instance eq_dec : EqDecision t.
Proof. solve_decision. Defined.

End TransportId.

#[export] Instance TransportId_enum : WireEnum TransportId.t :=
  {| enum_width := 4; enum_repr := TransportId.repr; enum_try_from := TransportId.try_from_u32 |}.
#[export] Instance TransportId_laws : WireEnumLaws TransportId.t.
Proof. solve_enum TransportId.try_from_u32. Qed.

Module ErrorScope.

Inductive t :=
| Connection | Session | Frame.

Definition repr (x : t) : Z :=
  match x with
  | Connection => 0
  | Session => 1
  | Frame => 2
  end.

Definition try_from_u32 (value : Z) : R t :=
  match value with
  | 0 => Ok Connection
  | 1 => Ok Session
  | 2 => Ok Frame
  | _ => Err (UnknownEnumValue "error_scope" value)
  end.

#[global] Instance eq_dec : EqDecision t.
Proof. solve_decision. Defined.

End ErrorScope.

#[export] Instance ErrorScope_enum : WireEnum ErrorScope.t :=
  {| enum_width := 4; enum_repr := ErrorScope.repr; enum_try_from := ErrorScope.try_from_u32 |}.
#[export] Instance ErrorScope_laws : WireEnumLaws ErrorScope.t.
Proof. solve_enum ErrorScope.try_from_u32. Qed.

Module TransportPolicy.

Inductive t :=
| Auto | PreferQuic | PreferTcp | PreferIpc | PreferWebSocket
| ForceQuic | ForceTcp | ForceIpc | ForceWebSocket.

#[global] Instance eq_dec : EqDecision t.
Proof. solve_decision. Defined.

Definition allows (self : t) (transport_id : TransportId.t) : bool :=
  match self with
  | Auto | PreferQuic | PreferTcp | PreferIpc | PreferWebSocket =>
      match transport_id with
      | TransportId.Quic | TransportId.Tcp | TransportId.Ipc | TransportId.WebSocket => true
      | _ => false
      end
  | ForceQuic => match transport_id with TransportId.Quic => true | _ => false end
  | ForceTcp => match transport_id with TransportId.Tcp => true | _ => false end
  | ForceIpc => match transport_id with TransportId.Ipc => true | _ => false end
  | ForceWebSocket => match transport_id with TransportId.WebSocket => true | _ => false end
  end.

Definition preferred_transport (self : t) : option TransportId.t :=
  match self with
  | PreferQuic | ForceQuic => Some TransportId.Quic
  | PreferTcp | ForceTcp => Some TransportId.Tcp
  | PreferIpc | ForceIpc => Some TransportId.Ipc
  | PreferWebSocket | ForceWebSocket => Some TransportId.WebSocket
  | Auto => None
  end.

Definition forced_transport (self : t) : option TransportId.t :=
  match self with
  | ForceQuic => Some TransportId.Quic
  | ForceTcp => Some TransportId.Tcp
  | ForceIpc => Some TransportId.Ipc
  | ForceWebSocket => Some TransportId.WebSocket
  | Auto | PreferQuic | PreferTcp | PreferIpc | PreferWebSocket => None
  end.

End TransportPolicy.

Definition validate_specified_transport (transport_id : TransportId.t) (rule : string) : R unit :=
  reject_if (bool_decide (transport_id = TransportId.Unspecified))
    (InvalidProtocolCombination rule).

Module ClientHelloMetadata.

#[projections(primitive)]
Record t := mk {
  min_version_major : Z;
  max_version_major : Z;
  supported_wire_format_bitmap : Z;
  supported_profile_bitmap : Z;
  supported_payload_kind_bitmap : Z;
  supported_codec_bitmap : Z;
  supported_compression_bitmap : Z;
  supported_dtype_bitmap : Z;
  supported_layout_bitmap : Z;
  cache_digest_bitmap : Z;
  cache_object_bitmap : Z;
  cache_namespace_count : Z;
  max_lane_count : Z;
  max_cache_entries : Z;
  max_cache_bytes : Z;
  target_cadence_x100 : Z;
  latency_budget_ms : Z;
  quality_tier : Z;
  degrade_policy : Z;
  requested_session_id : Z;
  auth_bytes : Z;
  control_extension_bytes : Z
}.

Definition validate_capability_window (m : t) : R unit :=
  _ ← reject_if (max_version_major m <? min_version_major m)
        (InvalidProtocolCombination "CLIENT_HELLO version window must be ordered");
  _ ← reject_if ((CURRENT_VERSION_MAJOR <? min_version_major m)
                 || (max_version_major m <? CURRENT_VERSION_MAJOR))
        (InvalidProtocolCombination "CLIENT_HELLO version window must include NNRP/1");
  _ ← reject_if (negb (has_bitmap_bit (supported_wire_format_bitmap m) CURRENT_WIRE_FORMAT))
        (InvalidProtocolCombination
           "CLIENT_HELLO supported_wire_format_bitmap must include wire_format 0");
  _ ← require_nonzero "CLIENT_HELLO supported_profile_bitmap" (supported_profile_bitmap m);
  require_nonzero "CLIENT_HELLO supported_payload_kind_bitmap" (supported_payload_kind_bitmap m).

Lemma validate_capability_window_no_panic m : validate_capability_window m <> Panic.
Proof. unfold validate_capability_window, require_nonzero. auto 10 with nopanic. Qed.


Definition parse (source : bytes) : R t :=
  _ ← require_len source CLIENT_HELLO_METADATA_LEN;
  min_version_major ← index source 0;
  max_version_major ← index source 1;
  supported_wire_format_bitmap ← read_u16 source 2;
  supported_profile_bitmap ← read_u32 source 4;
  supported_payload_kind_bitmap ← read_u32 source 8;
  supported_codec_bitmap ← read_u32 source 12;
  supported_compression_bitmap ← read_u32 source 16;
  supported_dtype_bitmap ← read_u32 source 20;
  supported_layout_bitmap ← read_u32 source 24;
  cache_digest_bitmap ← read_u16 source 28;
  cache_object_bitmap ← read_u16 source 30;
  cache_namespace_count ← read_u16 source 32;
  max_lane_count ← read_u16 source 34;
  max_cache_entries ← read_u32 source 36;
  max_cache_bytes ← read_u32 source 40;
  target_cadence_x100 ← read_u16 source 44;
  latency_budget_ms ← read_u16 source 46;
  quality_tier ← read_u16 source 48;
  degrade_policy ← read_u16 source 50;
  requested_session_id ← read_u32 source 52;
  auth_bytes ← read_u32 source 56;
  control_extension_bytes ← read_u32 source 60;
  let metadata := {| min_version_major := min_version_major;
      max_version_major := max_version_major;
      supported_wire_format_bitmap := supported_wire_format_bitmap;
      supported_profile_bitmap := supported_profile_bitmap;
      supported_payload_kind_bitmap := supported_payload_kind_bitmap;
      supported_codec_bitmap := supported_codec_bitmap;
      supported_compression_bitmap := supported_compression_bitmap;
      supported_dtype_bitmap := supported_dtype_bitmap;
      supported_layout_bitmap := supported_layout_bitmap;
      cache_digest_bitmap := cache_digest_bitmap; cache_object_bitmap := cache_object_bitmap;
      cache_namespace_count := cache_namespace_count; max_lane_count := max_lane_count;
      max_cache_entries := max_cache_entries; max_cache_bytes := max_cache_bytes;
      target_cadence_x100 := target_cadence_x100; latency_budget_ms := latency_budget_ms;
      quality_tier := quality_tier; degrade_policy := degrade_policy;
      requested_session_id := requested_session_id; auth_bytes := auth_bytes;
      control_extension_bytes := control_extension_bytes |} in
  _ ← validate_capability_window metadata;
  Ok metadata.

Definition write (m : t) (destination : bytes) : R bytes :=
  _ ← require_destination_len destination CLIENT_HELLO_METADATA_LEN;
  _ ← validate_capability_window m;
  destination ← fill_zero destination CLIENT_HELLO_METADATA_LEN;
  destination ← write_u8 destination 0 (min_version_major m);
  destination ← write_u8 destination 1 (max_version_major m);
  destination ← write_u16 destination 2 (supported_wire_format_bitmap m);
  destination ← write_u32 destination 4 (supported_profile_bitmap m);
  destination ← write_u32 destination 8 (supported_payload_kind_bitmap m);
  destination ← write_u32 destination 12 (supported_codec_bitmap m);
  destination ← write_u32 destination 16 (supported_compression_bitmap m);
  destination ← write_u32 destination 20 (supported_dtype_bitmap m);
  destination ← write_u32 destination 24 (supported_layout_bitmap m);
  destination ← write_u16 destination 28 (cache_digest_bitmap m);
  destination ← write_u16 destination 30 (cache_object_bitmap m);
  destination ← write_u16 destination 32 (cache_namespace_count m);
  destination ← write_u16 destination 34 (max_lane_count m);
  destination ← write_u32 destination 36 (max_cache_entries m);
  destination ← write_u32 destination 40 (max_cache_bytes m);
  destination ← write_u16 destination 44 (target_cadence_x100 m);
  destination ← write_u16 destination 46 (latency_budget_ms m);
  destination ← write_u16 destination 48 (quality_tier m);
  destination ← write_u16 destination 50 (degrade_policy m);
  destination ← write_u32 destination 52 (requested_session_id m);
  destination ← write_u32 destination 56 (auth_bytes m);
  destination ← write_u32 destination 60 (control_extension_bytes m);
  Ok destination.

Definition to_bytes (m : t) : R bytes := write m (replicate CLIENT_HELLO_METADATA_LEN x00).

Definition layout (m : t) : list field :=
  [ F (KU 1) (min_version_major m); F (KU 1) (max_version_major m);
      F (KU 2) (supported_wire_format_bitmap m); F (KU 4) (supported_profile_bitmap m);
      F (KU 4) (supported_payload_kind_bitmap m); F (KU 4) (supported_codec_bitmap m);
      F (KU 4) (supported_compression_bitmap m); F (KU 4) (supported_dtype_bitmap m);
      F (KU 4) (supported_layout_bitmap m); F (KU 2) (cache_digest_bitmap m);
      F (KU 2) (cache_object_bitmap m); F (KU 2) (cache_namespace_count m);
      F (KU 2) (max_lane_count m); F (KU 4) (max_cache_entries m);
      F (KU 4) (max_cache_bytes m); F (KU 2) (target_cadence_x100 m);
      F (KU 2) (latency_budget_ms m); F (KU 2) (quality_tier m); F (KU 2) (degrade_policy m);
      F (KU 4) (requested_session_id m); F (KU 4) (auth_bytes m);
      F (KU 4) (control_extension_bytes m) ].

Definition guard (m : t) : bool := is_ok (validate_capability_window m).

End ClientHelloMetadata.
#[export] Hint Resolve ClientHelloMetadata.validate_capability_window_no_panic : nopanic.

#[export] Instance ClientHelloMetadata_codec : WireCodec ClientHelloMetadata.t := {|
  codec_len := CLIENT_HELLO_METADATA_LEN;
  codec_shape := [KU 1; KU 1; KU 2; KU 4; KU 4; KU 4; KU 4; KU 4; KU 4; KU 2; KU 2; KU 2; KU 2;
      KU 4; KU 4; KU 2; KU 2; KU 2; KU 2; KU 4; KU 4; KU 4 ];
  codec_parse := ClientHelloMetadata.parse;
  codec_write := ClientHelloMetadata.write;
  codec_layout := ClientHelloMetadata.layout;
  codec_guard := ClientHelloMetadata.guard |}.
#[export] Instance ClientHelloMetadata_codec_laws : WireCodecLaws ClientHelloMetadata.t.
Proof. solve_codec ClientHelloMetadata.parse ClientHelloMetadata.write ClientHelloMetadata.guard. Qed.
#[export] Instance ClientHelloMetadata_strict : StrictWireCodec ClientHelloMetadata.t.
Proof. solve_strict ClientHelloMetadata.write ClientHelloMetadata.guard. Qed.

Module ServerHelloAckMetadata.

#[projections(primitive)]
Record t := mk {
  selected_version_major : Z;
  selected_wire_format : Z;
  auth_status : Z;
  session_id : Z;
  accepted_profile_bitmap : Z;
  accepted_payload_kind_bitmap : Z;
  accepted_codec_bitmap : Z;
  accepted_compression_bitmap : Z;
  accepted_dtype_bitmap : Z;
  accepted_layout_bitmap : Z;
  cache_digest_bitmap : Z;
  cache_object_bitmap : Z;
  max_cache_entries : Z;
  max_cache_bytes : Z;
  max_lane_count : Z;
  max_concurrent_frames : Z;
  target_cadence_x100 : Z;
  latency_budget_ms : Z;
  quality_tier : Z;
  degrade_policy : Z;
  max_body_bytes : Z;
  token_ttl_ms : Z;
  retry_after_ms : Z;
  control_extension_bytes : Z;
  server_flags : Z
}.

Definition parse (source : bytes) : R t :=
  _ ← require_len source SERVER_HELLO_ACK_METADATA_LEN;
  reserved0 ← index source 3;
  _ ← validate_zero "server_hello_ack.reserved0" reserved0;
  server_flags ← read_u32 source 76;
  _ ← validate_mask_u32 server_flags SERVER_HELLO_ACK_FLAGS_KNOWN_MASK;
  selected_version_major ← index source 0;
  selected_wire_format ← index source 1;
  auth_status ← index source 2;
  session_id ← read_u32 source 4;
  accepted_profile_bitmap ← read_u32 source 8;
  accepted_payload_kind_bitmap ← read_u32 source 12;
  accepted_codec_bitmap ← read_u32 source 16;
  accepted_compression_bitmap ← read_u32 source 20;
  accepted_dtype_bitmap ← read_u32 source 24;
  accepted_layout_bitmap ← read_u32 source 28;
  cache_digest_bitmap ← read_u32 source 32;
  cache_object_bitmap ← read_u32 source 36;
  max_cache_entries ← read_u32 source 40;
  max_cache_bytes ← read_u32 source 44;
  max_lane_count ← read_u16 source 48;
  max_concurrent_frames ← read_u16 source 50;
  target_cadence_x100 ← read_u16 source 52;
  latency_budget_ms ← read_u16 source 54;
  quality_tier ← read_u16 source 56;
  degrade_policy ← read_u16 source 58;
  max_body_bytes ← read_u32 source 60;
  token_ttl_ms ← read_u32 source 64;
  retry_after_ms ← read_u32 source 68;
  control_extension_bytes ← read_u32 source 72;
  Ok {| selected_version_major := selected_version_major;
      selected_wire_format := selected_wire_format; auth_status := auth_status;
      session_id := session_id; accepted_profile_bitmap := accepted_profile_bitmap;
      accepted_payload_kind_bitmap := accepted_payload_kind_bitmap;
      accepted_codec_bitmap := accepted_codec_bitmap;
      accepted_compression_bitmap := accepted_compression_bitmap;
      accepted_dtype_bitmap := accepted_dtype_bitmap;
      accepted_layout_bitmap := accepted_layout_bitmap;
      cache_digest_bitmap := cache_digest_bitmap; cache_object_bitmap := cache_object_bitmap;
      max_cache_entries := max_cache_entries; max_cache_bytes := max_cache_bytes;
      max_lane_count := max_lane_count; max_concurrent_frames := max_concurrent_frames;
      target_cadence_x100 := target_cadence_x100; latency_budget_ms := latency_budget_ms;
      quality_tier := quality_tier; degrade_policy := degrade_policy;
      max_body_bytes := max_body_bytes; token_ttl_ms := token_ttl_ms;
      retry_after_ms := retry_after_ms; control_extension_bytes := control_extension_bytes;
      server_flags := server_flags |}.

Definition write (m : t) (destination : bytes) : R bytes :=
  _ ← require_destination_len destination SERVER_HELLO_ACK_METADATA_LEN;
  _ ← validate_mask_u32 (server_flags m) SERVER_HELLO_ACK_FLAGS_KNOWN_MASK;
  destination ← fill_zero destination SERVER_HELLO_ACK_METADATA_LEN;
  destination ← write_u8 destination 0 (selected_version_major m);
  destination ← write_u8 destination 1 (selected_wire_format m);
  destination ← write_u8 destination 2 (auth_status m);
  destination ← write_u32 destination 4 (session_id m);
  destination ← write_u32 destination 8 (accepted_profile_bitmap m);
  destination ← write_u32 destination 12 (accepted_payload_kind_bitmap m);
  destination ← write_u32 destination 16 (accepted_codec_bitmap m);
  destination ← write_u32 destination 20 (accepted_compression_bitmap m);
  destination ← write_u32 destination 24 (accepted_dtype_bitmap m);
  destination ← write_u32 destination 28 (accepted_layout_bitmap m);
  destination ← write_u32 destination 32 (cache_digest_bitmap m);
  destination ← write_u32 destination 36 (cache_object_bitmap m);
  destination ← write_u32 destination 40 (max_cache_entries m);
  destination ← write_u32 destination 44 (max_cache_bytes m);
  destination ← write_u16 destination 48 (max_lane_count m);
  destination ← write_u16 destination 50 (max_concurrent_frames m);
  destination ← write_u16 destination 52 (target_cadence_x100 m);
  destination ← write_u16 destination 54 (latency_budget_ms m);
  destination ← write_u16 destination 56 (quality_tier m);
  destination ← write_u16 destination 58 (degrade_policy m);
  destination ← write_u32 destination 60 (max_body_bytes m);
  destination ← write_u32 destination 64 (token_ttl_ms m);
  destination ← write_u32 destination 68 (retry_after_ms m);
  destination ← write_u32 destination 72 (control_extension_bytes m);
  destination ← write_u32 destination 76 (server_flags m);
  Ok destination.

Definition to_bytes (m : t) : R bytes := write m (replicate SERVER_HELLO_ACK_METADATA_LEN x00).

Definition validate_against_client_hello (m : t) (client_hello : ClientHelloMetadata.t) : R unit :=
  _ ← reject_if ((selected_version_major m <? ClientHelloMetadata.min_version_major client_hello)
                 || (ClientHelloMetadata.max_version_major client_hello <? selected_version_major m))
        (InvalidProtocolCombination
           "SERVER_HELLO_ACK selected version must be inside client window");
  _ ← reject_if (negb (has_bitmap_bit
                         (ClientHelloMetadata.supported_wire_format_bitmap client_hello)
                         (selected_wire_format m)))
        (InvalidProtocolCombination
           "SERVER_HELLO_ACK selected wire format must be client-supported");
  _ ← require_subset "SERVER_HELLO_ACK accepted_profile_bitmap"
        (accepted_profile_bitmap m) (ClientHelloMetadata.supported_profile_bitmap client_hello);
  _ ← require_subset "SERVER_HELLO_ACK accepted_payload_kind_bitmap"
        (accepted_payload_kind_bitmap m)
        (ClientHelloMetadata.supported_payload_kind_bitmap client_hello);
  _ ← require_subset "SERVER_HELLO_ACK accepted_codec_bitmap"
        (accepted_codec_bitmap m) (ClientHelloMetadata.supported_codec_bitmap client_hello);
  _ ← require_subset "SERVER_HELLO_ACK accepted_compression_bitmap"
        (accepted_compression_bitmap m)
        (ClientHelloMetadata.supported_compression_bitmap client_hello);
  _ ← require_subset "SERVER_HELLO_ACK accepted_dtype_bitmap"
        (accepted_dtype_bitmap m) (ClientHelloMetadata.supported_dtype_bitmap client_hello);
  _ ← require_subset "SERVER_HELLO_ACK accepted_layout_bitmap"
        (accepted_layout_bitmap m) (ClientHelloMetadata.supported_layout_bitmap client_hello);
  _ ← require_subset "SERVER_HELLO_ACK cache_digest_bitmap"
        (cache_digest_bitmap m) (ClientHelloMetadata.cache_digest_bitmap client_hello);
  require_subset "SERVER_HELLO_ACK cache_object_bitmap"
    (cache_object_bitmap m) (ClientHelloMetadata.cache_object_bitmap client_hello).

Definition layout (m : t) : list field :=
  [ F (KU 1) (selected_version_major m); F (KU 1) (selected_wire_format m);
      F (KU 1) (auth_status m); F (KU 1) 0; F (KU 4) (session_id m);
      F (KU 4) (accepted_profile_bitmap m); F (KU 4) (accepted_payload_kind_bitmap m);
      F (KU 4) (accepted_codec_bitmap m); F (KU 4) (accepted_compression_bitmap m);
      F (KU 4) (accepted_dtype_bitmap m); F (KU 4) (accepted_layout_bitmap m);
      F (KU 4) (cache_digest_bitmap m); F (KU 4) (cache_object_bitmap m);
      F (KU 4) (max_cache_entries m); F (KU 4) (max_cache_bytes m);
      F (KU 2) (max_lane_count m); F (KU 2) (max_concurrent_frames m);
      F (KU 2) (target_cadence_x100 m); F (KU 2) (latency_budget_ms m);
      F (KU 2) (quality_tier m); F (KU 2) (degrade_policy m); F (KU 4) (max_body_bytes m);
      F (KU 4) (token_ttl_ms m); F (KU 4) (retry_after_ms m);
      F (KU 4) (control_extension_bytes m); F (KU 4) (server_flags m) ].

Definition guard (m : t) : bool := mask_ok 32 (server_flags m) SERVER_HELLO_ACK_FLAGS_KNOWN_MASK.

End ServerHelloAckMetadata.

#[export] Instance ServerHelloAckMetadata_codec : WireCodec ServerHelloAckMetadata.t := {|
  codec_len := SERVER_HELLO_ACK_METADATA_LEN;
  codec_shape := [KU 1; KU 1; KU 1; KU 1; KU 4; KU 4; KU 4; KU 4; KU 4; KU 4; KU 4; KU 4; KU 4;
      KU 4; KU 4; KU 2; KU 2; KU 2; KU 2; KU 2; KU 2; KU 4; KU 4; KU 4; KU 4; KU 4 ];
  codec_parse := ServerHelloAckMetadata.parse;
  codec_write := ServerHelloAckMetadata.write;
  codec_layout := ServerHelloAckMetadata.layout;
  codec_guard := ServerHelloAckMetadata.guard |}.
#[export] Instance ServerHelloAckMetadata_codec_laws : WireCodecLaws ServerHelloAckMetadata.t.
Proof. solve_codec ServerHelloAckMetadata.parse ServerHelloAckMetadata.write ServerHelloAckMetadata.guard. Qed.
#[export] Instance ServerHelloAckMetadata_strict : StrictWireCodec ServerHelloAckMetadata.t.
Proof. solve_strict ServerHelloAckMetadata.write ServerHelloAckMetadata.guard. Qed.

Module SessionPatchMetadata.

#[projections(primitive)]
Record t := mk {
  profile_id : Z;
  patch_mask : Z;
  target_cadence_x100 : Z;
  quality_tier : Z;
  degrade_policy : Z;
  active_lane_mask : Z;
  preferred_codec_bitmap : Z;
  preferred_compression_bitmap : Z;
  profile_patch_bytes : Z
}.

Definition parse (source : bytes) : R t :=
  _ ← require_len source SESSION_PATCH_METADATA_LEN;
  reserved0 ← read_u16 source 2;
  _ ← validate_zero "session_patch.reserved0" reserved0;
  patch_mask ← read_u32 source 4;
  _ ← validate_mask_u32 patch_mask SESSION_PATCH_FIELD_KNOWN_MASK;
  profile_id ← read_u16 source 0;
  target_cadence_x100 ← read_u32 source 8;
  quality_tier ← read_u16 source 12;
  degrade_policy ← read_u16 source 14;
  active_lane_mask ← read_u64 source 16;
  preferred_codec_bitmap ← read_u32 source 24;
  preferred_compression_bitmap ← read_u32 source 28;
  profile_patch_bytes ← read_u32 source 32;
  Ok {| profile_id := profile_id; patch_mask := patch_mask;
      target_cadence_x100 := target_cadence_x100; quality_tier := quality_tier;
      degrade_policy := degrade_policy; active_lane_mask := active_lane_mask;
      preferred_codec_bitmap := preferred_codec_bitmap;
      preferred_compression_bitmap := preferred_compression_bitmap;
      profile_patch_bytes := profile_patch_bytes |}.

Definition write (m : t) (destination : bytes) : R bytes :=
  _ ← require_destination_len destination SESSION_PATCH_METADATA_LEN;
  _ ← validate_mask_u32 (patch_mask m) SESSION_PATCH_FIELD_KNOWN_MASK;
  destination ← fill_zero destination SESSION_PATCH_METADATA_LEN;
  destination ← write_u16 destination 0 (profile_id m);
  destination ← write_u32 destination 4 (patch_mask m);
  destination ← write_u32 destination 8 (target_cadence_x100 m);
  destination ← write_u16 destination 12 (quality_tier m);
  destination ← write_u16 destination 14 (degrade_policy m);
  destination ← write_u64 destination 16 (active_lane_mask m);
  destination ← write_u32 destination 24 (preferred_codec_bitmap m);
  destination ← write_u32 destination 28 (preferred_compression_bitmap m);
  destination ← write_u32 destination 32 (profile_patch_bytes m);
  Ok destination.

Definition to_bytes (m : t) : R bytes := write m (replicate SESSION_PATCH_METADATA_LEN x00).

Definition layout (m : t) : list field :=
  [ F (KU 2) (profile_id m); F (KU 2) 0; F (KU 4) (patch_mask m);
      F (KU 4) (target_cadence_x100 m); F (KU 2) (quality_tier m); F (KU 2) (degrade_policy m);
      F (KU 8) (active_lane_mask m); F (KU 4) (preferred_codec_bitmap m);
      F (KU 4) (preferred_compression_bitmap m); F (KU 4) (profile_patch_bytes m) ].

Definition guard (m : t) : bool := mask_ok 32 (patch_mask m) SESSION_PATCH_FIELD_KNOWN_MASK.

End SessionPatchMetadata.

#[export] Instance SessionPatchMetadata_codec : WireCodec SessionPatchMetadata.t := {|
  codec_len := SESSION_PATCH_METADATA_LEN;
  codec_shape := [KU 2; KU 2; KU 4; KU 4; KU 2; KU 2; KU 8; KU 4; KU 4; KU 4 ];
  codec_parse := SessionPatchMetadata.parse;
  codec_write := SessionPatchMetadata.write;
  codec_layout := SessionPatchMetadata.layout;
  codec_guard := SessionPatchMetadata.guard |}.
#[export] Instance SessionPatchMetadata_codec_laws : WireCodecLaws SessionPatchMetadata.t.
Proof. solve_codec SessionPatchMetadata.parse SessionPatchMetadata.write SessionPatchMetadata.guard. Qed.
#[export] Instance SessionPatchMetadata_strict : StrictWireCodec SessionPatchMetadata.t.
Proof. solve_strict SessionPatchMetadata.write SessionPatchMetadata.guard. Qed.

Module SessionPatchAckMetadata.

#[projections(primitive)]
Record t := mk {
  ack_status : SessionPatchAckStatus.t;
  reject_reason : SessionPatchRejectReason.t;
  applied_patch_mask : Z;
  rejected_patch_mask : Z;
  retry_after_ms : Z;
  effective_profile_id : Z;
  effective_target_cadence_x100 : Z;
  effective_quality_tier : Z;
  effective_degrade_policy : Z;
  effective_lane_mask : Z;
  effective_codec_bitmap : Z;
  effective_compression_bitmap : Z;
  profile_patch_ack_bytes : Z
}.

Definition parse (source : bytes) : R t :=
  _ ← require_len source SESSION_PATCH_ACK_METADATA_LEN;
  reserved0 ← read_u16 source 18;
  _ ← validate_zero "session_patch_ack.reserved0" reserved0;
  applied_patch_mask ← read_u32 source 4;
  rejected_patch_mask ← read_u32 source 8;
  _ ← validate_mask_u32 applied_patch_mask SESSION_PATCH_FIELD_KNOWN_MASK;
  _ ← validate_mask_u32 rejected_patch_mask SESSION_PATCH_FIELD_KNOWN_MASK;
  ack_status_raw ← read_u16 source 0;
  ack_status ← SessionPatchAckStatus.try_from_u16 ack_status_raw;
  reject_reason_raw ← read_u16 source 2;
  reject_reason ← SessionPatchRejectReason.try_from_u16 reject_reason_raw;
  retry_after_ms ← read_u32 source 12;
  effective_profile_id ← read_u16 source 16;
  effective_target_cadence_x100 ← read_u32 source 20;
  effective_quality_tier ← read_u16 source 24;
  effective_degrade_policy ← read_u16 source 26;
  effective_lane_mask ← read_u64 source 28;
  effective_codec_bitmap ← read_u32 source 36;
  effective_compression_bitmap ← read_u32 source 40;
  profile_patch_ack_bytes ← read_u32 source 44;
  Ok {| ack_status := ack_status; reject_reason := reject_reason;
      applied_patch_mask := applied_patch_mask; rejected_patch_mask := rejected_patch_mask;
      retry_after_ms := retry_after_ms; effective_profile_id := effective_profile_id;
      effective_target_cadence_x100 := effective_target_cadence_x100;
      effective_quality_tier := effective_quality_tier;
      effective_degrade_policy := effective_degrade_policy;
      effective_lane_mask := effective_lane_mask;
      effective_codec_bitmap := effective_codec_bitmap;
      effective_compression_bitmap := effective_compression_bitmap;
      profile_patch_ack_bytes := profile_patch_ack_bytes |}.

Definition write (m : t) (destination : bytes) : R bytes :=
  _ ← require_destination_len destination SESSION_PATCH_ACK_METADATA_LEN;
  _ ← validate_mask_u32 (applied_patch_mask m) SESSION_PATCH_FIELD_KNOWN_MASK;
  _ ← validate_mask_u32 (rejected_patch_mask m) SESSION_PATCH_FIELD_KNOWN_MASK;
  destination ← fill_zero destination SESSION_PATCH_ACK_METADATA_LEN;
  destination ← write_u16 destination 0 (SessionPatchAckStatus.repr (ack_status m));
  destination ← write_u16 destination 2 (SessionPatchRejectReason.repr (reject_reason m));
  destination ← write_u32 destination 4 (applied_patch_mask m);
  destination ← write_u32 destination 8 (rejected_patch_mask m);
  destination ← write_u32 destination 12 (retry_after_ms m);
  destination ← write_u16 destination 16 (effective_profile_id m);
  destination ← write_u32 destination 20 (effective_target_cadence_x100 m);
  destination ← write_u16 destination 24 (effective_quality_tier m);
  destination ← write_u16 destination 26 (effective_degrade_policy m);
  destination ← write_u64 destination 28 (effective_lane_mask m);
  destination ← write_u32 destination 36 (effective_codec_bitmap m);
  destination ← write_u32 destination 40 (effective_compression_bitmap m);
  destination ← write_u32 destination 44 (profile_patch_ack_bytes m);
  Ok destination.

Definition to_bytes (m : t) : R bytes := write m (replicate SESSION_PATCH_ACK_METADATA_LEN x00).

Definition layout (m : t) : list field :=
  [ F (KU 2) (SessionPatchAckStatus.repr (ack_status m));
      F (KU 2) (SessionPatchRejectReason.repr (reject_reason m));
      F (KU 4) (applied_patch_mask m); F (KU 4) (rejected_patch_mask m);
      F (KU 4) (retry_after_ms m); F (KU 2) (effective_profile_id m); F (KU 2) 0;
      F (KU 4) (effective_target_cadence_x100 m); F (KU 2) (effective_quality_tier m);
      F (KU 2) (effective_degrade_policy m); F (KU 8) (effective_lane_mask m);
      F (KU 4) (effective_codec_bitmap m); F (KU 4) (effective_compression_bitmap m);
      F (KU 4) (profile_patch_ack_bytes m) ].

Definition guard (m : t) : bool := mask_ok 32 (applied_patch_mask m) SESSION_PATCH_FIELD_KNOWN_MASK && mask_ok 32 (rejected_patch_mask m) SESSION_PATCH_FIELD_KNOWN_MASK.

End SessionPatchAckMetadata.

#[export] Instance SessionPatchAckMetadata_codec : WireCodec SessionPatchAckMetadata.t := {|
  codec_len := SESSION_PATCH_ACK_METADATA_LEN;
  codec_shape := [KU 2; KU 2; KU 4; KU 4; KU 4; KU 2; KU 2; KU 4; KU 2; KU 2; KU 8; KU 4; KU 4;
      KU 4 ];
  codec_parse := SessionPatchAckMetadata.parse;
  codec_write := SessionPatchAckMetadata.write;
  codec_layout := SessionPatchAckMetadata.layout;
  codec_guard := SessionPatchAckMetadata.guard |}.
#[export] Instance SessionPatchAckMetadata_codec_laws : WireCodecLaws SessionPatchAckMetadata.t.
Proof. solve_codec SessionPatchAckMetadata.parse SessionPatchAckMetadata.write SessionPatchAckMetadata.guard. Qed.
#[export] Instance SessionPatchAckMetadata_strict : StrictWireCodec SessionPatchAckMetadata.t.
Proof. solve_strict SessionPatchAckMetadata.write SessionPatchAckMetadata.guard. Qed.

Module ResultHintMetadata.

#[projections(primitive)]
Record t := mk {
  applied_budget_policy : ResultHintBudgetPolicy.t;
  congestion_state : ResultHintCongestionState.t;
  reason : ResultHintReason.t;
  retry_after_ms : Z
}.

Definition parse (source : bytes) : R t :=
  _ ← require_len source RESULT_HINT_METADATA_LEN;
  applied_budget_policy_raw ← read_u32 source 0;
  applied_budget_policy ← ResultHintBudgetPolicy.try_from_u32 applied_budget_policy_raw;
  congestion_state_raw ← read_u32 source 4;
  congestion_state ← ResultHintCongestionState.try_from_u32 congestion_state_raw;
  reason_raw ← read_u32 source 8;
  reason ← ResultHintReason.try_from_u32 reason_raw;
  retry_after_ms ← read_u32 source 12;
  Ok {| applied_budget_policy := applied_budget_policy; congestion_state := congestion_state;
      reason := reason; retry_after_ms := retry_after_ms |}.

Definition write (m : t) (destination : bytes) : R bytes :=
  _ ← require_destination_len destination RESULT_HINT_METADATA_LEN;
  destination ← write_u32 destination 0 (ResultHintBudgetPolicy.repr (applied_budget_policy m));
  destination ← write_u32 destination 4 (ResultHintCongestionState.repr (congestion_state m));
  destination ← write_u32 destination 8 (ResultHintReason.repr (reason m));
  destination ← write_u32 destination 12 (retry_after_ms m);
  Ok destination.

Definition to_bytes (m : t) : R bytes := write m (replicate RESULT_HINT_METADATA_LEN x00).

Definition layout (m : t) : list field :=
  [ F (KU 4) (ResultHintBudgetPolicy.repr (applied_budget_policy m));
      F (KU 4) (ResultHintCongestionState.repr (congestion_state m));
      F (KU 4) (ResultHintReason.repr (reason m)); F (KU 4) (retry_after_ms m) ].

Definition guard (m : t) : bool := true.

End ResultHintMetadata.

#[export] Instance ResultHintMetadata_codec : WireCodec ResultHintMetadata.t := {|
  codec_len := RESULT_HINT_METADATA_LEN;
  codec_shape := [KU 4; KU 4; KU 4; KU 4 ];
  codec_parse := ResultHintMetadata.parse;
  codec_write := ResultHintMetadata.write;
  codec_layout := ResultHintMetadata.layout;
  codec_guard := ResultHintMetadata.guard |}.
#[export] Instance ResultHintMetadata_codec_laws : WireCodecLaws ResultHintMetadata.t.
Proof. solve_codec ResultHintMetadata.parse ResultHintMetadata.write ResultHintMetadata.guard. Qed.
#[export] Instance ResultHintMetadata_strict : StrictWireCodec ResultHintMetadata.t.
Proof. solve_strict ResultHintMetadata.write ResultHintMetadata.guard. Qed.

Module TransportProbeMetadata.

#[projections(primitive)]
Record t := mk {
  probe_id : Z;
  probe_payload_bytes : Z;
  client_send_ts_us : Z
}.

Definition parse (source : bytes) : R t :=
  _ ← require_len source TRANSPORT_PROBE_METADATA_LEN;
  probe_id ← read_u32 source 0;
  probe_payload_bytes ← read_u32 source 4;
  client_send_ts_us ← read_u64 source 8;
  Ok {| probe_id := probe_id; probe_payload_bytes := probe_payload_bytes;
      client_send_ts_us := client_send_ts_us |}.

Definition write (m : t) (destination : bytes) : R bytes :=
  _ ← require_destination_len destination TRANSPORT_PROBE_METADATA_LEN;
  destination ← write_u32 destination 0 (probe_id m);
  destination ← write_u32 destination 4 (probe_payload_bytes m);
  destination ← write_u64 destination 8 (client_send_ts_us m);
  Ok destination.

Definition to_bytes (m : t) : R bytes := write m (replicate TRANSPORT_PROBE_METADATA_LEN x00).

Definition layout (m : t) : list field :=
  [ F (KU 4) (probe_id m); F (KU 4) (probe_payload_bytes m); F (KU 8) (client_send_ts_us m) ].

Definition guard (m : t) : bool := true.

End TransportProbeMetadata.

#[export] Instance TransportProbeMetadata_codec : WireCodec TransportProbeMetadata.t := {|
  codec_len := TRANSPORT_PROBE_METADATA_LEN;
  codec_shape := [KU 4; KU 4; KU 8 ];
  codec_parse := TransportProbeMetadata.parse;
  codec_write := TransportProbeMetadata.write;
  codec_layout := TransportProbeMetadata.layout;
  codec_guard := TransportProbeMetadata.guard |}.
#[export] Instance TransportProbeMetadata_codec_laws : WireCodecLaws TransportProbeMetadata.t.
Proof. solve_codec TransportProbeMetadata.parse TransportProbeMetadata.write TransportProbeMetadata.guard. Qed.
#[export] Instance TransportProbeMetadata_strict : StrictWireCodec TransportProbeMetadata.t.
Proof. solve_strict TransportProbeMetadata.write TransportProbeMetadata.guard. Qed.

Module TransportProbeAckMetadata.

#[projections(primitive)]
Record t := mk {
  probe_id : Z;
  server_recv_ts_us : Z
}.

Definition parse (source : bytes) : R t :=
  _ ← require_len source TRANSPORT_PROBE_ACK_METADATA_LEN;
  reserved0 ← read_u32 source 4;
  _ ← validate_zero "transport_probe_ack.reserved0" reserved0;
  probe_id ← read_u32 source 0;
  server_recv_ts_us ← read_u64 source 8;
  Ok {| probe_id := probe_id; server_recv_ts_us := server_recv_ts_us |}.

Definition write (m : t) (destination : bytes) : R bytes :=
  _ ← require_destination_len destination TRANSPORT_PROBE_ACK_METADATA_LEN;
  destination ← fill_zero destination TRANSPORT_PROBE_ACK_METADATA_LEN;
  destination ← write_u32 destination 0 (probe_id m);
  destination ← write_u64 destination 8 (server_recv_ts_us m);
  Ok destination.

Definition to_bytes (m : t) : R bytes := write m (replicate TRANSPORT_PROBE_ACK_METADATA_LEN x00).

Definition layout (m : t) : list field :=
  [ F (KU 4) (probe_id m); F (KU 4) 0; F (KU 8) (server_recv_ts_us m) ].

Definition guard (m : t) : bool := true.

End TransportProbeAckMetadata.

#[export] Instance TransportProbeAckMetadata_codec : WireCodec TransportProbeAckMetadata.t := {|
  codec_len := TRANSPORT_PROBE_ACK_METADATA_LEN;
  codec_shape := [KU 4; KU 4; KU 8 ];
  codec_parse := TransportProbeAckMetadata.parse;
  codec_write := TransportProbeAckMetadata.write;
  codec_layout := TransportProbeAckMetadata.layout;
  codec_guard := TransportProbeAckMetadata.guard |}.
#[export] Instance TransportProbeAckMetadata_codec_laws : WireCodecLaws TransportProbeAckMetadata.t.
Proof. solve_codec TransportProbeAckMetadata.parse TransportProbeAckMetadata.write TransportProbeAckMetadata.guard. Qed.
#[export] Instance TransportProbeAckMetadata_strict : StrictWireCodec TransportProbeAckMetadata.t.
Proof. solve_strict TransportProbeAckMetadata.write TransportProbeAckMetadata.guard. Qed.

Module SessionMigrateMetadata.

#[projections(primitive)]
Record t := mk {
  old_transport_id : TransportId.t;
  new_transport_id : TransportId.t;
  last_result_frame_id : Z;
  client_migrate_ts_us : Z
}.

Definition parse (source : bytes) : R t :=
  _ ← require_len source SESSION_MIGRATE_METADATA_LEN;
  old_transport_id_raw ← read_u32 source 0;
  old_transport_id ← TransportId.try_from_u32 old_transport_id_raw;
  new_transport_id_raw ← read_u32 source 4;
  new_transport_id ← TransportId.try_from_u32 new_transport_id_raw;
  _ ← validate_specified_transport old_transport_id "session_migrate.old_transport_id";
  _ ← validate_specified_transport new_transport_id "session_migrate.new_transport_id";
  last_result_frame_id ← read_u64 source 8;
  client_migrate_ts_us ← read_u64 source 16;
  Ok {| old_transport_id := old_transport_id; new_transport_id := new_transport_id;
      last_result_frame_id := last_result_frame_id;
      client_migrate_ts_us := client_migrate_ts_us |}.

Definition write (m : t) (destination : bytes) : R bytes :=
  _ ← require_destination_len destination SESSION_MIGRATE_METADATA_LEN;
  _ ← validate_specified_transport (old_transport_id m) "session_migrate.old_transport_id";
  _ ← validate_specified_transport (new_transport_id m) "session_migrate.new_transport_id";
  destination ← write_u32 destination 0 (TransportId.repr (old_transport_id m));
  destination ← write_u32 destination 4 (TransportId.repr (new_transport_id m));
  destination ← write_u64 destination 8 (last_result_frame_id m);
  destination ← write_u64 destination 16 (client_migrate_ts_us m);
  Ok destination.

Definition to_bytes (m : t) : R bytes := write m (replicate SESSION_MIGRATE_METADATA_LEN x00).

Definition layout (m : t) : list field :=
  [ F (KU 4) (TransportId.repr (old_transport_id m));
      F (KU 4) (TransportId.repr (new_transport_id m)); F (KU 8) (last_result_frame_id m);
      F (KU 8) (client_migrate_ts_us m) ].

Definition guard (m : t) : bool := is_ok (validate_specified_transport (old_transport_id m) "session_migrate.old_transport_id") && is_ok (validate_specified_transport (new_transport_id m) "session_migrate.new_transport_id").

End SessionMigrateMetadata.

#[export] Instance SessionMigrateMetadata_codec : WireCodec SessionMigrateMetadata.t := {|
  codec_len := SESSION_MIGRATE_METADATA_LEN;
  codec_shape := [KU 4; KU 4; KU 8; KU 8 ];
  codec_parse := SessionMigrateMetadata.parse;
  codec_write := SessionMigrateMetadata.write;
  codec_layout := SessionMigrateMetadata.layout;
  codec_guard := SessionMigrateMetadata.guard |}.
#[export] Instance SessionMigrateMetadata_codec_laws : WireCodecLaws SessionMigrateMetadata.t.
Proof. solve_codec SessionMigrateMetadata.parse SessionMigrateMetadata.write SessionMigrateMetadata.guard. Qed.
#[export] Instance SessionMigrateMetadata_strict : StrictWireCodec SessionMigrateMetadata.t.
Proof. solve_strict SessionMigrateMetadata.write SessionMigrateMetadata.guard. Qed.

Module SessionMigrateAckMetadata.

#[projections(primitive)]
Record t := mk {
  accept_code : Z;
  resume_from_frame_id : Z;
  grace_window_ms : Z;
  server_migrate_ts_us : Z
}.

Definition parse (source : bytes) : R t :=
  _ ← require_len source SESSION_MIGRATE_ACK_METADATA_LEN;
  accept_code ← read_u32 source 0;
  resume_from_frame_id ← read_u64 source 4;
  grace_window_ms ← read_u32 source 12;
  server_migrate_ts_us ← read_u64 source 16;
  Ok {| accept_code := accept_code; resume_from_frame_id := resume_from_frame_id;
      grace_window_ms := grace_window_ms; server_migrate_ts_us := server_migrate_ts_us |}.

Definition write (m : t) (destination : bytes) : R bytes :=
  _ ← require_destination_len destination SESSION_MIGRATE_ACK_METADATA_LEN;
  destination ← write_u32 destination 0 (accept_code m);
  destination ← write_u64 destination 4 (resume_from_frame_id m);
  destination ← write_u32 destination 12 (grace_window_ms m);
  destination ← write_u64 destination 16 (server_migrate_ts_us m);
  Ok destination.

Definition to_bytes (m : t) : R bytes := write m (replicate SESSION_MIGRATE_ACK_METADATA_LEN x00).

Definition layout (m : t) : list field :=
  [ F (KU 4) (accept_code m); F (KU 8) (resume_from_frame_id m); F (KU 4) (grace_window_ms m);
      F (KU 8) (server_migrate_ts_us m) ].

Definition guard (m : t) : bool := true.

End SessionMigrateAckMetadata.

#[export] Instance SessionMigrateAckMetadata_codec : WireCodec SessionMigrateAckMetadata.t := {|
  codec_len := SESSION_MIGRATE_ACK_METADATA_LEN;
  codec_shape := [KU 4; KU 8; KU 4; KU 8 ];
  codec_parse := SessionMigrateAckMetadata.parse;
  codec_write := SessionMigrateAckMetadata.write;
  codec_layout := SessionMigrateAckMetadata.layout;
  codec_guard := SessionMigrateAckMetadata.guard |}.
#[export] Instance SessionMigrateAckMetadata_codec_laws : WireCodecLaws SessionMigrateAckMetadata.t.
Proof. solve_codec SessionMigrateAckMetadata.parse SessionMigrateAckMetadata.write SessionMigrateAckMetadata.guard. Qed.
#[export] Instance SessionMigrateAckMetadata_strict : StrictWireCodec SessionMigrateAckMetadata.t.
Proof. solve_strict SessionMigrateAckMetadata.write SessionMigrateAckMetadata.guard. Qed.

Module ErrorMetadata.

#[projections(primitive)]
Record t := mk {
  error_code : Z;
  error_scope : ErrorScope.t;
  is_fatal : bool;
  retry_after_ms : Z;
  related_session_id : Z;
  related_frame_id : Z;
  related_view_id : Z;
  diagnostic_bytes : Z
}.

Definition parse (source : bytes) : R t :=
  _ ← require_len source ERROR_METADATA_LEN;
  fatal_flag ← read_u32 source 8;
  _ ← reject_if (1 <? fatal_flag) (InvalidProtocolCombination "ERROR is_fatal must be 0 or 1");
  error_code ← read_u32 source 0;
  error_scope_raw ← read_u32 source 4;
  error_scope ← ErrorScope.try_from_u32 error_scope_raw;
  retry_after_ms ← read_u32 source 12;
  related_session_id ← read_u32 source 16;
  related_frame_id ← read_u32 source 20;
  related_view_id ← read_u32 source 24;
  diagnostic_bytes ← read_u32 source 28;
  Ok {| error_code := error_code; error_scope := error_scope;
      is_fatal := negb (fatal_flag =? 0); retry_after_ms := retry_after_ms;
      related_session_id := related_session_id; related_frame_id := related_frame_id;
      related_view_id := related_view_id; diagnostic_bytes := diagnostic_bytes |}.

Definition write (m : t) (destination : bytes) : R bytes :=
  _ ← require_destination_len destination ERROR_METADATA_LEN;
  destination ← write_u32 destination 0 (error_code m);
  destination ← write_u32 destination 4 (ErrorScope.repr (error_scope m));
  destination ← write_u32 destination 8 (if is_fatal m then 1 else 0);
  destination ← write_u32 destination 12 (retry_after_ms m);
  destination ← write_u32 destination 16 (related_session_id m);
  destination ← write_u32 destination 20 (related_frame_id m);
  destination ← write_u32 destination 24 (related_view_id m);
  destination ← write_u32 destination 28 (diagnostic_bytes m);
  Ok destination.

Definition to_bytes (m : t) : R bytes := write m (replicate ERROR_METADATA_LEN x00).

Definition layout (m : t) : list field :=
  [ F (KU 4) (error_code m); F (KU 4) (ErrorScope.repr (error_scope m));
      F (KU 4) (if is_fatal m then 1 else 0); F (KU 4) (retry_after_ms m);
      F (KU 4) (related_session_id m); F (KU 4) (related_frame_id m);
      F (KU 4) (related_view_id m); F (KU 4) (diagnostic_bytes m) ].

Definition guard (m : t) : bool := true.

End ErrorMetadata.

#[export] Instance ErrorMetadata_codec : WireCodec ErrorMetadata.t := {|
  codec_len := ERROR_METADATA_LEN;
  codec_shape := [KU 4; KU 4; KU 4; KU 4; KU 4; KU 4; KU 4; KU 4 ];
  codec_parse := ErrorMetadata.parse;
  codec_write := ErrorMetadata.write;
  codec_layout := ErrorMetadata.layout;
  codec_guard := ErrorMetadata.guard |}.
Lemma fatal_flag_accepted {E} (b : bool) (e : E) :
  reject_if (1 <? (if b then 1 else 0)) e = Ok tt.
Proof. by destruct b. Qed.

Lemma fatal_flag_canonical {E} (v : Z) (e : E) u :
  0 <= v -> reject_if (1 <? v) e = Ok u -> v = (if negb (v =? 0) then 1 else 0).
Proof. intros Hv H%reject_if_Ok. destruct (Z.eqb_spec v 0); simpl; lia. Qed.

(** The flag read is the one its [bool] is written as. *)
Ltac error_fatal_flag :=
  match goal with
  | H : reject_if (1 <? ?v) _ = Ok _, Hok : fields_ok _ = true |- _ =>
      let E := fresh in
      assert (v = (if negb (v =? 0) then 1 else 0)) as E
        by (refine (fatal_flag_canonical _ _ _ _ H);
            unfold fields_ok, field_ok in Hok; simpl in Hok; lia);
      clear H; unfold typed, wire; cbn; rewrite <- E
  end.

#[export] Instance ErrorMetadata_codec_laws : WireCodecLaws ErrorMetadata.t.
Proof. 
  solve_codec_with ErrorMetadata.parse ErrorMetadata.write ErrorMetadata.guard
    ltac:(apply fatal_flag_accepted) ltac:(first
      [ destruct m as [? ? [] ? ? ? ? ?]; reflexivity
      | error_fatal_flag; first [ exact Hok | reflexivity ] ]). Qed.
#[export] Instance ErrorMetadata_strict : StrictWireCodec ErrorMetadata.t.
Proof. solve_strict ErrorMetadata.write ErrorMetadata.guard. Qed.

(** ** Headers of messages without metadata *)

Definition validate_empty_control_header
    (header : CommonHeader.t) (expected_message_type : MessageType.t) : R unit :=
  reject_if (negb (bool_decide (CommonHeader.message_type header = expected_message_type))
             || negb (CommonHeader.meta_len header =? 0)
             || negb (CommonHeader.body_len header =? 0))
    (InvalidProtocolCombination
       "empty control message requires expected type, meta_len=0, and body_len=0").

Definition validate_close_header (header : CommonHeader.t) : R unit :=
  reject_if (negb (bool_decide (CommonHeader.message_type header = MessageType.Close))
             || negb (CommonHeader.meta_len header =? 0))
    (InvalidProtocolCombination "CLOSE requires message_type=CLOSE and meta_len=0").
