(* ===== verification/Capability.v ===== *)
(** Capability token bodies ([src/crates/nnrp-core/src/capability.rs]).

    The body of a CAPABILITY message is a list of tokens, each a [u16] length
    followed by the token's bytes, in strictly increasing byte order.  A [&str] is
    the list of its bytes.  [encode_capability_tokens] sorts its input;
    [decode_capability_tokens] accepts the canonical order only.  The section
    [canonical] states what a body stands for without loops or offsets, and the
    lemmas show that both functions implement it. *)

From S2P Require Import Prelude Bytes Errors Enums Wire.

Local Open Scope Z_scope.

(** ** Strings of the standard library *)

(** [\[u8\]::cmp]: lexicographic. *)
Fixpoint bytes_cmp (a b : bytes) : comparison :=
  match a, b with
  | [], [] => Eq
  | [], _ :: _ => Lt
  | _ :: _, [] => Gt
  | x :: a, y :: b =>
      match Z_of_byte x ?= Z_of_byte y with
      | Eq => bytes_cmp a b
      | c => c
      end
  end.

Definition in_range (lo hi : Z) (b : byte) : bool := (lo <=? Z_of_byte b) && (Z_of_byte b <=? hi).

(** A continuation byte of a UTF-8 sequence. *)
Definition utf8_tail : byte -> bool := in_range 0x80 0xbf.

(** [std::str::from_utf8(bytes).is_ok()]: the well-formed byte sequences of the Unicode
    standard (no overlong forms, no surrogates, nothing above U+10FFFF). *)
Fixpoint utf8_valid (bs : bytes) : bool :=
  match bs with
  | [] => true
  | b0 :: r0 =>
      if in_range 0 0x7f b0 then utf8_valid r0
      else
        match r0 with
        | [] => false
        | b1 :: r1 =>
            if in_range 0xc2 0xdf b0 then utf8_tail b1 && utf8_valid r1
            else
              match r1 with
              | [] => false
              | b2 :: r2 =>
                  if in_range 0xe0 0xef b0 then
                    in_range (if Z_of_byte b0 =? 0xe0 then 0xa0 else 0x80)
                             (if Z_of_byte b0 =? 0xed then 0x9f else 0xbf) b1
                    && utf8_tail b2 && utf8_valid r2
                  else
                    match r2 with
                    | [] => false
                    | b3 :: r3 =>
                        in_range 0xf0 0xf4 b0
                        && in_range (if Z_of_byte b0 =? 0xf0 then 0x90 else 0x80)
                                    (if Z_of_byte b0 =? 0xf4 then 0x8f else 0xbf) b1
                        && utf8_tail b2 && utf8_tail b3 && utf8_valid r3
                    end
              end
        end
  end.

(** [str::is_ascii] and the character classes of [validate_capability_token]. *)
Definition is_ascii (token : bytes) : bool := forallb (in_range 0 0x7f) token.
Definition is_ascii_lowercase : byte -> bool := in_range 0x61 0x7a.
Definition is_ascii_digit : byte -> bool := in_range 0x30 0x39.

(** The bytes of a string literal. *)
Definition str (s : string) : bytes := String.list_byte_of_string s.

(** ** Tokens *)

Definition PREVIEW4_CONTROL_CAPABILITY_TOKENS : list bytes :=
  map str [
    "control.cancel_abort";
    "control.supersede";
    "control.priority_update";
    "control.deadline_expire";
    "control.progress_partial";
    "control.credit_backpressure";
    "control.capability_costs";
    "control.route_execution_hint";
    "control.trace_context";
    "control.result_drop_reason";
    "control.degrade_profile";
    "control.budget_update";
    "control.recoverable_error" ].

Definition PREVIEW4_OBJECT_CAPABILITY_TOKENS : list bytes :=
  map str [
    "object.lifecycle";
    "object.delta";
    "object.cost";
    "object.ownership";
    "cache.reference" ].

Definition PREVIEW4_TRANSPORT_NAMES : list bytes := map str [ "tcp"; "quic"; "ipc"; "websocket" ].

Definition CAPABILITY_TOKEN_LENGTH_BYTES : nat := 2.

Definition is_preview4_capability_token (token : bytes) : bool :=
  bool_decide (token ∈ PREVIEW4_CONTROL_CAPABILITY_TOKENS) ||
  bool_decide (token ∈ PREVIEW4_OBJECT_CAPABILITY_TOKENS).

(** The characters a token is made of: [b'.' | b'_' | b'-'] and the two classes. *)
Definition token_byte (b : byte) : bool :=
  is_ascii_lowercase b || is_ascii_digit b ||
  match b with x2e | x5f | x2d => true | _ => false end.

Definition token_ok (token : bytes) : bool :=
  negb (bool_decide (token = [])) && is_ascii token && forallb token_byte token.

Definition validate_capability_token (token : bytes) : R unit :=
  reject_if (negb (token_ok token)) (InvalidCapabilityToken token).

(** ** Encoding *)

Definition bytes_le (a b : bytes) : Prop := bytes_cmp a b <> Gt.
#[global] Instance bytes_le_dec : RelDecision bytes_le.
Proof. intros a b. unfold bytes_le. solve_decision. Defined.

(** [tokens.windows(2).any(|pair| pair\[0\] == pair\[1\])]. *)
Fixpoint adjacent_duplicate (tokens : list bytes) : bool :=
  match tokens with
  | a :: (b :: _) as rest => bool_decide (a = b) || adjacent_duplicate rest
  | _ => false
  end.

Section capability.
Context `{Htarget : Target}.

(** [sort_unstable_by] on a total order whose equal elements are identical: any
    sorting function gives the same list. *)
Definition encode_capability_tokens (tokens : list bytes) : R bytes :=
  _ ← collect validate_capability_token tokens;
  let tokens := merge_sort bytes_le tokens in
  _ ← reject_if (adjacent_duplicate tokens)
        (InvalidCapabilityTokenBody "capability tokens must be unique");
  _ ← try_fold (fun total token =>
        ok_or (value ← usize_add total CAPABILITY_TOKEN_LENGTH_BYTES;
               usize_add value (length token)) MessageLengthOverflow) 0%nat tokens;
  try_fold (fun body token =>
    _ ← reject_if (u16_max <? len token) MessageLengthOverflow;
    Ok (body ++ le_bytes 2 (len token) ++ token)) [] tokens.

(** ** Decoding *)

(** The [while offset < body.len()] loop.  Each turn moves [offset] forward, so a
    fuel of the length of the body is never used up. *)
Fixpoint decode_loop (fuel : nat) (body : bytes) (tokens : list bytes) (offset : nat)
    : R (list bytes) :=
  if (offset <? length body)%nat then
    match fuel with
    | O => Panic
    | S fuel =>
        length_end ← ok_or (usize_add offset CAPABILITY_TOKEN_LENGTH_BYTES) MessageLengthOverflow;
        length_bytes ← ok_or (get_range body offset length_end)
          (InvalidCapabilityTokenBody "capability entry is missing its token length");
        token_len ← read_u16 length_bytes 0;
        _ ← reject_if (token_len =? 0)
              (InvalidCapabilityTokenBody "capability token length must be non-zero");
        token_end ← ok_or (usize_add length_end (Z.to_nat token_len)) MessageLengthOverflow;
        token ← ok_or (get_range body length_end token_end)
          (InvalidCapabilityTokenBody "capability token exceeds the declared body");
        _ ← reject_if (negb (utf8_valid token))
              (InvalidCapabilityTokenBody "capability token must be ASCII");
        _ ← validate_capability_token token;
        _ ← match last tokens with
            | None => Ok tt
            | Some previous =>
                match bytes_cmp previous token with
                | Lt => Ok tt
                | Eq => Err (InvalidCapabilityTokenBody "capability tokens must be unique")
                | Gt => Err (InvalidCapabilityTokenBody
                               "capability tokens must use canonical byte order")
                end
            end;
        decode_loop fuel body (tokens ++ [token]) token_end
    end
  else Ok tokens.

Definition decode_capability_tokens (body : bytes) (expected_count : Z) : R (list bytes) :=
  if expected_count =? 0 then
    if bool_decide (body = []) then Ok []
    else Err (InvalidCapabilityTokenBody "zero capability count requires an empty body")
  else if bool_decide (body = []) then
    Err (InvalidCapabilityTokenBody "non-zero capability count requires a non-empty body")
  else
    tokens ← decode_loop (length body) body [] 0;
    _ ← reject_if (negb (len tokens =? expected_count))
          (DeclaredLengthMismatch "capability_count" expected_count (len tokens));
    Ok tokens.

Definition validate_registered_capability_tokens
    (tokens extension_registry : list bytes) : R unit :=
  _ ← collect validate_capability_token extension_registry;
  _ ← collect (fun token =>
        reject_if (negb (is_preview4_capability_token token)
                   && negb (bool_decide (token ∈ extension_registry)))
          (UnknownCapabilityToken token)) tokens;
  Ok tt.

Definition decode_registered_capability_tokens
    (body : bytes) (expected_count : Z) (extension_registry : list bytes) : R (list bytes) :=
  tokens ← decode_capability_tokens body expected_count;
  _ ← validate_registered_capability_tokens tokens extension_registry;
  Ok tokens.
End capability.

(** ** The byte order *)

Definition bytes_lt (a b : bytes) : Prop := bytes_cmp a b = Lt.

Lemma bytes_cmp_refl a : bytes_cmp a a = Eq.
Proof. induction a as [|x a IH]; simpl; [done|]. by rewrite Z.compare_refl. Qed.

Lemma Z_of_byte_inj x y : Z_of_byte x = Z_of_byte y -> x = y.
Proof. intros H. by rewrite <- (byte_of_Z_of_byte x), H, byte_of_Z_of_byte. Qed.

Lemma bytes_cmp_eq a b : bytes_cmp a b = Eq <-> a = b.
Proof.
  split; [|intros ->; apply bytes_cmp_refl].
  revert b; induction a as [|x a IH]; intros [|y b]; simpl; try done.
  case_match eqn:E; try done. apply Z.compare_eq, Z_of_byte_inj in E as ->.
  by intros ->%IH.
Qed.

Lemma bytes_cmp_antisym a b : bytes_cmp b a = CompOpp (bytes_cmp a b).
Proof.
  revert b; induction a as [|x a IH]; intros [|y b]; simpl; try done.
  rewrite (Z.compare_antisym (Z_of_byte x)), IH. by destruct (Z_of_byte x ?= Z_of_byte y).
Qed.

Lemma bytes_lt_trans a b c : bytes_lt a b -> bytes_lt b c -> bytes_lt a c.
Proof.
  unfold bytes_lt. revert b c; induction a as [|x a IH]; intros [|y b] [|z c]; simpl; try done.
  destruct (Z.compare_spec (Z_of_byte x) (Z_of_byte y)) as [Hxy|Hxy|Hxy]; try done;
    destruct (Z.compare_spec (Z_of_byte y) (Z_of_byte z)) as [Hyz|Hyz|Hyz]; try done; intros.
  - rewrite Hxy, Hyz, Z.compare_refl. eauto.
  - by rewrite (proj2 (Z.compare_lt_iff _ _)) by lia.
  - by rewrite (proj2 (Z.compare_lt_iff _ _)) by lia.
  - by rewrite (proj2 (Z.compare_lt_iff _ _)) by lia.
Qed.

Lemma bytes_le_cases a b : bytes_le a b <-> bytes_lt a b \/ a = b.
Proof.
  unfold bytes_le, bytes_lt. rewrite <- bytes_cmp_eq. destruct (bytes_cmp a b); naive_solver.
Qed.

#[global] Instance bytes_lt_transitive : Transitive bytes_lt.
Proof. intros a b c. apply bytes_lt_trans. Qed.

#[global] Instance bytes_le_trans : Transitive bytes_le.
Proof.
  intros a b c. rewrite !bytes_le_cases. intros [Hab| ->] [Hbc| ->]; eauto using bytes_lt_trans.
Qed.

#[global] Instance bytes_le_total : Total bytes_le.
Proof. intros a b. unfold bytes_le. rewrite (bytes_cmp_antisym a b). destruct (bytes_cmp a b); auto. Qed.

#[global] Instance bytes_le_antisymm : AntiSymm (=) bytes_le.
Proof.
  intros a b. unfold bytes_le. rewrite (bytes_cmp_antisym a b), <- bytes_cmp_eq.
  by destruct (bytes_cmp a b).
Qed.

(** ** What a body stands for *)

(** The entries of a list of tokens, one after the other. *)
Definition entry (token : bytes) : bytes := le_bytes 2 (len token) ++ token.
Definition entries (tokens : list bytes) : bytes := concat (map entry tokens).

Definition token_fits (token : bytes) : Prop := token_ok token = true /\ len token <= u16_max.

(** The token lists that have a body: valid tokens in strictly increasing order. *)
Definition canonical (tokens : list bytes) : Prop :=
  Forall token_fits tokens /\ Sorted bytes_lt tokens.

Arguments entry : simpl never.
Arguments entries : simpl never.

Lemma entries_cons t ts : entries (t :: ts) = entry t ++ entries ts.
Proof. done. Qed.

Lemma entries_app ts us : entries (ts ++ us) = entries ts ++ entries us.
Proof. unfold entries. by rewrite map_app, concat_app. Qed.

Lemma length_entry token : length (entry token) = (2 + length token)%nat.
Proof. unfold entry. by rewrite length_app, length_le_bytes. Qed.

Lemma token_ok_nonempty token : token_ok token = true -> token <> [].
Proof. intros [[Hne _]%andb_prop _]%andb_prop. by apply negb_true_iff, bool_decide_eq_false in Hne. Qed.

Lemma ascii_utf8_valid bs : is_ascii bs = true -> utf8_valid bs = true.
Proof.
  unfold is_ascii. induction bs as [|b bs IH]; simpl; [done|].
  intros [-> Hbs]%andb_prop. by apply IH.
Qed.

Lemma token_ok_utf8 token : token_ok token = true -> utf8_valid token = true.
Proof. intros [[_ Ha]%andb_prop _]%andb_prop. by apply ascii_utf8_valid. Qed.

Lemma validate_capability_token_Ok token u :
  validate_capability_token token = Ok u <-> token_ok token = true.
Proof. unfold validate_capability_token. by rewrite reject_if_Ok, negb_false_iff. Qed.

(** ** Encoding implements it *)

Section capability_theory.
Context `{Htarget : Target}.

Lemma validate_all tokens :
  (exists us, collect validate_capability_token tokens = Ok us) <->
  Forall (fun t => token_ok t = true) tokens.
Proof.
  rewrite collect_units. apply Forall_iff. intros t. apply validate_capability_token_Ok.
Qed.

Lemma adjacent_duplicate_sorted tokens :
  Sorted bytes_le tokens -> adjacent_duplicate tokens = false <-> Sorted bytes_lt tokens.
Proof.
  induction 1 as [|a ts Hts IH Hhd]; [done|]. destruct Hhd as [|b ts Hab]; simpl in *.
  { split; [repeat constructor|done]. }
  rewrite orb_false_iff, bool_decide_eq_false. apply bytes_le_cases in Hab. split.
  - intros [Hne Hs]. constructor; [by apply IH|]. constructor. naive_solver.
  - inversion 1 as [|? ? Hs Hhd]; subst. inversion Hhd as [|? ? Hlt]; subst.
    split; [|by apply IH]. intros <-. unfold bytes_lt in Hlt. by rewrite bytes_cmp_refl in Hlt.
Qed.

Lemma capacity_Ok tokens n n' :
  Z.of_nat n <= usize_max ->
  try_fold (fun total token =>
    ok_or (value ← usize_add total CAPABILITY_TOKEN_LENGTH_BYTES;
           usize_add value (length token)) MessageLengthOverflow) n tokens = Ok n' <->
  n' = (n + length (entries tokens))%nat /\ Z.of_nat n' <= usize_max.
Proof.
  revert n; induction tokens as [|t ts IH]; intros n Hn; cbn [try_fold].
  { change (length (entries [])) with 0%nat. rewrite Nat.add_0_r. split; [intros [= <-]; done|intros [-> _]; done]. }
  rewrite entries_cons, length_app, length_entry, bind_Ok. setoid_rewrite ok_or_Ok.
  change CAPABILITY_TOKEN_LENGTH_BYTES with 2%nat. split.
  - intros (m & Hm & Hts). apply bind_Some in Hm as (v & Hv & Hm).
    apply usize_add_Some in Hv as [-> Hv]. apply usize_add_Some in Hm as [-> Hm].
    apply IH in Hts as [-> Hle]; [|done]. split; lia.
  - intros [-> Hle]. exists (n + 2 + length t)%nat. split.
    + apply bind_Some. exists (n + 2)%nat. rewrite !usize_add_Some. lia.
    + apply IH; lia.
Qed.

Lemma body_loop_Ok tokens body body' :
  try_fold (fun body token =>
    _ ← reject_if (u16_max <? len token) MessageLengthOverflow;
    Ok (body ++ le_bytes 2 (len token) ++ token)) body tokens = Ok body' <->
  Forall (fun t => len t <= u16_max) tokens /\ body' = body ++ entries tokens.
Proof.
  revert body; induction tokens as [|t ts IH]; intros body; cbn [try_fold].
  { change (entries []) with (@nil byte). rewrite app_nil_r. split; [intros [= <-]; done|intros [_ ->]; done]. }
  rewrite entries_cons, bind_Ok, Forall_cons. split.
  - intros (b & Hb & Hts). apply bind_Ok in Hb as (u & Hu%reject_if_Ok & [= <-]).
    apply Z.ltb_ge in Hu. apply IH in Hts as [Hall ->]. by rewrite <- app_assoc.
  - intros [[Ht Hts] ->]. eexists. split.
    + apply bind_Ok. exists tt. rewrite reject_if_Ok, Z.ltb_ge. done.
    + apply IH. by rewrite <- app_assoc.
Qed.

(** Encoding succeeds on distinct valid tokens whose entries fit in memory, and
    yields the entries of the sorted tokens. *)
Lemma encode_capability_tokens_Ok tokens body :
  encode_capability_tokens tokens = Ok body <->
  canonical (merge_sort bytes_le tokens) /\
  body = entries (merge_sort bytes_le tokens) /\ len body <= usize_max.
Proof.
  unfold encode_capability_tokens, canonical. set (s := merge_sort bytes_le tokens).
  assert (s ≡ₚ tokens) as Hp by apply merge_sort_Permutation.
  assert (Sorted bytes_le s) as Hs by apply (Sorted_merge_sort bytes_le).
  assert (forall b, b = entries s -> len b <= usize_max <->
    Z.of_nat (0 + length (entries s)) <= usize_max) as Hlen by (intros ? ->; done).
  split.
  - intros He. apply bind_Ok in He as (us & Hus & He).
    apply (ex_intro (fun us => _ = Ok us)), validate_all in Hus.
    apply bind_Ok in He as (u & Hu%reject_if_Ok & He).
    apply bind_Ok in He as (n & [-> Hn]%capacity_Ok & He); [|exact usize_max_nonneg].
    apply body_loop_Ok in He as [Hfit ->]. simpl.
    split_and!; [|by apply adjacent_duplicate_sorted|done|by apply Hlen].
    rewrite <- Hp in Hus. unfold token_fits. by apply Forall_and.
  - intros ([Hfit Hlt] & -> & Hle). apply Forall_and in Hfit as [Hok Hfit].
    destruct (proj2 (validate_all tokens)) as [us ->]; [by rewrite <- Hp|]. simpl.
    rewrite (proj2 (adjacent_duplicate_sorted s Hs) Hlt). simpl.
    rewrite (proj2 (capacity_Ok s 0 _ usize_max_nonneg) (conj eq_refl Hle)). simpl.
    by apply body_loop_Ok.
Qed.

(** ** Decoding implements it *)

Lemma decode_loop_no_panic fuel body tokens offset :
  (length body - offset <= fuel)%nat -> decode_loop fuel body tokens offset <> Panic.
Proof.
  revert tokens offset; induction fuel as [|fuel IH]; intros tokens offset Hf; simpl;
    case_match eqn:Hlt; try done; apply Nat.ltb_lt in Hlt; [lia|].
  apply bind_no_panic; [apply ok_or_no_panic|intros le [-> _]%ok_or_Ok%usize_add_Some].
  apply bind_no_panic; [apply ok_or_no_panic|intros lb [Hr ->]%ok_or_Ok%get_range_Some].
  change CAPABILITY_TOKEN_LENGTH_BYTES with 2%nat in *.
  apply bind_no_panic; [|intros n _].
  { unfold read_u16, read_le, slice. rewrite decide_True; [done|].
    rewrite length_take, length_drop. lia. }
  apply bind_no_panic; [apply reject_if_no_panic|intros _ _].
  apply bind_no_panic; [apply ok_or_no_panic|intros te [-> _]%ok_or_Ok%usize_add_Some].
  apply bind_no_panic; [apply ok_or_no_panic|intros token _].
  do 2 (apply bind_no_panic; [apply reject_if_no_panic|intros _ _]).
  apply bind_no_panic; [repeat case_match; done|intros _ _]. apply IH. lia.
Qed.

(** The order check against the last token is the head of the order of the rest. *)
Definition follows (tokens : list bytes) (token : bytes) : Prop :=
  match last tokens with Some previous => bytes_lt previous token | None => True end.

Lemma order_check_Ok tokens token u :
  match last tokens with
  | None => Ok tt
  | Some previous =>
      match bytes_cmp previous token with
      | Lt => Ok tt
      | Eq => Err (InvalidCapabilityTokenBody "capability tokens must be unique")
      | Gt => Err (InvalidCapabilityTokenBody "capability tokens must use canonical byte order")
      end
  end = Ok u <-> follows tokens token.
Proof.
  destruct u. unfold follows, bytes_lt. destruct (last tokens); [|done].
  destruct (bytes_cmp _ _); naive_solver.
Qed.

(** One turn of the loop reads one entry: what a turn that succeeds has read, ... *)
Lemma decode_turn_sound fuel body tokens offset res :
  (offset < length body)%nat ->
  decode_loop (S fuel) body tokens offset = Ok res ->
  exists token rest, drop offset body = entry token ++ rest /\ token_fits token /\
    follows tokens token /\ Z.of_nat (offset + length (entry token)) <= usize_max /\
    decode_loop fuel body (tokens ++ [token]) (offset + length (entry token)) = Ok res.
Proof.
  intros Hlt.
  cbn [decode_loop]. rewrite (proj2 (Nat.ltb_lt _ _) Hlt).
  change CAPABILITY_TOKEN_LENGTH_BYTES with 2%nat.
  intros Hd. apply bind_Ok in Hd as (le & [-> Hle]%ok_or_Ok%usize_add_Some & Hd).
  apply bind_Ok in Hd as (lb & [Hr Elb]%ok_or_Ok%get_range_Some & Hd).
  replace (offset + 2 - offset)%nat with 2%nat in Elb by lia.
  apply bind_Ok in Hd as (n & Hn & Hd). apply bind_Ok in Hd as (_ & Hnz%reject_if_Ok & Hd).
  apply bind_Ok in Hd as (te & [-> Hte]%ok_or_Ok%usize_add_Some & Hd).
  apply bind_Ok in Hd as (token & [Hr' Et]%ok_or_Ok%get_range_Some & Hd).
  apply bind_Ok in Hd as (_ & _ & Hd).
  apply bind_Ok in Hd as (_ & Hok%validate_capability_token_Ok & Hd).
  apply bind_Ok in Hd as (_ & Hf%order_check_Ok & Hd).
  assert (length lb = 2%nat) as Hlb by (subst; rewrite length_take, length_drop; lia).
  apply bind_Ok in Hn as (lb' & Hs & [= <-]).
  unfold slice in Hs. rewrite decide_True in Hs by lia.
  rewrite drop_0, take_ge in Hs by lia. apply (inj Ok) in Hs as <-.
  pose proof (le_value_range lb) as Hrange. rewrite Hlb in Hrange.
  change (modulus 2) with 65536 in Hrange.
  replace (offset + 2 + Z.to_nat (le_value lb) - (offset + 2))%nat
    with (Z.to_nat (le_value lb)) in Et by lia.
  assert (length token = Z.to_nat (le_value lb)) as Ht
    by (subst token; rewrite length_take, length_drop; lia).
  exists token, (drop (offset + length (entry token)) body).
  rewrite length_entry, Ht, Nat.add_assoc.
  split_and!; [|split; [done|unfold len, u16_max; lia]|done|lia|done].
  unfold entry, len. rewrite Ht, Z2Nat.id by lia.
  rewrite <- Hlb at 1. rewrite le_bytes_value, Elb, Et, <- app_assoc.
  rewrite <- (take_drop 2 (drop offset body)) at 1. f_equal. rewrite drop_drop.
  rewrite <- (take_drop (Z.to_nat (le_value lb)) (drop (offset + 2) body)) at 1.
  rewrite drop_drop, Elb. done.
Qed.

(** ... and that it succeeds on an entry. *)
Lemma decode_turn_complete fuel body tokens offset token rest res :
  (offset < length body)%nat -> drop offset body = entry token ++ rest -> token_fits token ->
  follows tokens token -> Z.of_nat (offset + length (entry token)) <= usize_max ->
  decode_loop fuel body (tokens ++ [token]) (offset + length (entry token)) = Ok res ->
  decode_loop (S fuel) body tokens offset = Ok res.
Proof.
  intros Hlt Hb [Hok Hfit] Hf Hle Hd.
  cbn [decode_loop]. rewrite (proj2 (Nat.ltb_lt _ _) Hlt).
  change CAPABILITY_TOKEN_LENGTH_BYTES with 2%nat.
  rewrite length_entry in Hle, Hd. pose proof (take_drop offset body) as Hsplit.
  assert (length (take offset body) = offset) as Hpre by (rewrite length_take; lia).
  rewrite Hb in Hsplit. unfold entry in Hsplit. set (pre := take offset body) in *.
  pose proof (token_ok_nonempty _ Hok) as Hne.
  assert (0 < len token) as Hpos by (unfold len; destruct token; simpl; [done|lia]).
  assert (le_value (le_bytes 2 (len token)) = len token) as Hv
    by (rewrite le_value_bytes; apply Z.mod_small; unfold u16_max in Hfit;
        change (modulus 2) with 65536; lia).
  eapply bind_step; [apply ok_or_Ok, usize_add_Some; split; [done|lia]|cbv beta].
  eapply (bind_step _ _ (le_bytes 2 (len token))); [|cbv beta].
  { apply ok_or_Ok. rewrite <- Hsplit, <- app_assoc.
    apply get_range_app; [done|by rewrite length_le_bytes]. }
  eapply (bind_step _ _ (len token)); [by rewrite <- Hv at 2|cbv beta].
  eapply (bind_step _ _ tt); [apply reject_if_Ok, Z.eqb_neq; lia|cbv beta].
  unfold len in *. rewrite Nat2Z.id.
  eapply bind_step; [apply ok_or_Ok, usize_add_Some; split; [done|lia]|cbv beta].
  eapply (bind_step _ _ token); [|cbv beta].
  { apply ok_or_Ok. rewrite <- Hsplit, <- app_assoc, app_assoc.
    apply get_range_app; [by rewrite length_app, length_le_bytes, Hpre|done]. }
  eapply (bind_step _ _ tt); [by apply reject_if_Ok; rewrite token_ok_utf8|cbv beta].
  eapply (bind_step _ _ tt); [by apply validate_capability_token_Ok|cbv beta].
  eapply (bind_step _ _ tt); [by apply order_check_Ok|cbv beta].
  by rewrite <- Nat.add_assoc.
Qed.

Definition follows_head (tokens new : list bytes) : Prop :=
  match new with [] => True | token :: _ => follows tokens token end.

Lemma follows_snoc tokens token new :
  follows_head (tokens ++ [token]) new <-> HdRel bytes_lt token new.
Proof.
  unfold follows_head, follows. destruct new as [|t new]; [by split; [constructor|]|].
  rewrite last_snoc. split; [by constructor|by inversion 1].
Qed.

Lemma entry_nonempty token rest : entry token ++ rest <> [].
Proof. intros Hn%(f_equal length). rewrite length_app, length_entry in Hn. simpl in Hn. lia. Qed.

Lemma entries_nil tokens : entries tokens = [] -> tokens = [].
Proof. destruct tokens; [done|]. intros []%entry_nonempty. Qed.

Lemma decode_loop_Ok fuel body tokens offset res :
  (length body - offset <= fuel)%nat -> (offset <= length body)%nat ->
  Z.of_nat offset <= usize_max ->
  decode_loop fuel body tokens offset = Ok res <->
  exists new, res = tokens ++ new /\ drop offset body = entries new /\ canonical new /\
    follows_head tokens new /\ len body <= usize_max.
Proof.
  revert tokens offset; induction fuel as [|fuel IH]; intros tokens offset Hfuel Hle Hoff;
    (destruct (Nat.lt_ge_cases offset (length body)) as [Hlt|Hge]; [try lia|]).
  1, 3: destruct (Nat.eq_dec offset (length body)) as [->|]; [|lia]; cbn [decode_loop];
    rewrite Nat.ltb_irrefl, drop_all; split;
    [ intros [= <-]; exists []; rewrite app_nil_r; split_and!; first [ done | repeat constructor ]
    | intros (new & -> & ->%eq_sym%entries_nil & _); by rewrite app_nil_r ].
  split.
  - intros (token & rest & Hb & Hfit & Hf & Hu & Hd)%decode_turn_sound; [|done].
    pose proof (length_entry token).
    assert (length (drop offset body) = length (entry token) + length rest)%nat as Hl
      by (by rewrite Hb, length_app). rewrite length_drop in Hl.
    apply IH in Hd as (new & -> & Hn & [Hall Hs] & Hh%follows_snoc & Hlen); [|lia..].
    exists (token :: new). rewrite <- app_assoc. split_and!; [done| |split|done|done].
    + rewrite entries_cons, <- Hn, <- drop_drop, Hb, drop_app_length. done.
    + by constructor.
    + by constructor.
  - intros (new & -> & Hb & [Hall Hs] & Hh & Hlen).
    destruct new as [|token new].
    { apply (f_equal length) in Hb. rewrite length_drop in Hb. change (length (entries [])) with 0%nat in Hb. lia. }
    apply Forall_cons in Hall as [Hfit Hall]. inversion Hs as [|? ? Hs' Hhd]; subst.
    rewrite entries_cons in Hb. pose proof (length_entry token).
    assert (length (drop offset body) = length (entry token) + length (entries new))%nat as Hl
      by (by rewrite Hb, length_app). rewrite length_drop in Hl. unfold len in Hlen.
    eapply decode_turn_complete; [done..|lia|].
    apply IH; [lia..|]. exists new. rewrite <- app_assoc.
    split_and!; [done| |done|by apply follows_snoc|done].
    by rewrite <- drop_drop, Hb, drop_app_length.
Qed.

(** A body decodes to the tokens whose entries it is, and to nothing else. *)
Lemma decode_capability_tokens_Ok body count tokens :
  decode_capability_tokens body count = Ok tokens <->
  canonical tokens /\ len tokens = count /\ body = entries tokens /\ len body <= usize_max.
Proof.
  unfold decode_capability_tokens. destruct (Z.eqb_spec count 0) as [->|Hc].
  - case_bool_decide as Hb; subst; split.
    + intros [= <-]. split_and!; [by repeat constructor|done|done|exact usize_max_nonneg].
    + intros (_ & Hl & _). by destruct tokens.
    + done.
    + intros (_ & Hl & -> & _). by destruct tokens.
  - case_bool_decide as Hb; subst; split.
    + done.
    + intros (_ & <- & ->%eq_sym%entries_nil & _). done.
    + intros Hd. apply bind_Ok in Hd as (ts & Hts & Hd).
      apply bind_Ok in Hd as (u & Hn%reject_if_Ok & [= <-]).
      apply negb_false_iff, Z.eqb_eq in Hn.
      apply decode_loop_Ok in Hts as (new & -> & He & Hcan & _ & Hlen);
        [|lia|lia|exact usize_max_nonneg]. by rewrite drop_0 in He.
    + intros (Hcan & Hl & He & Hlen). eapply bind_step.
      * apply decode_loop_Ok; [lia|lia|exact usize_max_nonneg|].
        exists tokens. rewrite drop_0. split_and!; try done. by destruct tokens.
      * simpl. by rewrite Hl, Z.eqb_refl.
Qed.

Lemma decode_capability_tokens_no_panic body count : decode_capability_tokens body count <> Panic.
Proof.
  unfold decode_capability_tokens. repeat (case_match; try done).
  apply bind_no_panic; [apply decode_loop_no_panic; lia|intros ts _].
  apply bind_no_panic; [apply reject_if_no_panic|done].
Qed.
End capability_theory.

(** ** Contract *)

Section capability_contract.
Context `{Htarget : Target}.

Lemma len_perm {A} (l l' : list A) : l ≡ₚ l' -> len l = len l'.
Proof. intros Hp. unfold len. by rewrite Hp. Qed.

Lemma sorted_lt_le tokens : Sorted bytes_lt tokens -> Sorted bytes_le tokens.
Proof.
  induction 1 as [|a ts _ IH Hhd]; constructor; [done|].
  destruct Hhd; constructor. apply bytes_le_cases. by left.
Qed.

(** Sorting canonical tokens, in whatever order they come, gives the canonical order. *)
Lemma sort_canonical tokens tokens' :
  canonical tokens -> tokens' ≡ₚ tokens -> merge_sort bytes_le tokens' = tokens.
Proof.
  intros [_ Hs%sorted_lt_le] Hp. apply (Sorted_unique bytes_le); [|done|].
  - apply Sorted_merge_sort, _.
  - by rewrite merge_sort_Permutation.
Qed.

Lemma validate_registered_Ok tokens registry u :
  validate_registered_capability_tokens tokens registry = Ok u <->
  Forall (fun t => token_ok t = true) registry /\
  Forall (fun t => is_preview4_capability_token t = true \/ t ∈ registry) tokens.
Proof.
  destruct u. unfold validate_registered_capability_tokens. rewrite bind_Ok.
  rewrite <- validate_all. setoid_rewrite bind_Ok.
  assert ((exists us, collect (fun token => reject_if (negb (is_preview4_capability_token token)
      && negb (bool_decide (token ∈ registry))) (UnknownCapabilityToken token)) tokens = Ok us) <->
    Forall (fun t => is_preview4_capability_token t = true \/ t ∈ registry) tokens) as Hc.
  { rewrite collect_units. apply Forall_iff. intros t.
    rewrite reject_if_Ok, andb_false_iff, !negb_false_iff, bool_decide_eq_true. done. }
  rewrite <- Hc. naive_solver.
Qed.
End capability_contract.

(** The body that [encode_capability_tokens] makes decodes, with the number of tokens, to
    the same tokens in canonical byte order. *)
Theorem capability_encode_decode (T : Target) tokens body :
  encode_capability_tokens tokens = Ok body ->
  exists sorted, decode_capability_tokens body (len tokens) = Ok sorted /\
    sorted ≡ₚ tokens /\ Sorted bytes_lt sorted.
Proof.
  intros (Hc & Hb & Hlen)%encode_capability_tokens_Ok. exists (merge_sort bytes_le tokens).
  assert (merge_sort bytes_le tokens ≡ₚ tokens) as Hp by apply merge_sort_Permutation.
  split_and!; [|done|apply Hc]. apply decode_capability_tokens_Ok. rewrite (len_perm _ _ Hp). done.
Qed.

Lemma capability_encode_decode_witness :
  exists body sorted,
    encode_capability_tokens (Htarget := target64) [str "object.delta"; str "cache.reference"] = Ok body /\
    decode_capability_tokens (Htarget := target64) body 2 = Ok sorted /\
    sorted ≡ₚ [str "object.delta"; str "cache.reference"].
Proof.
  destruct (capability_encode_decode target64 [str "object.delta"; str "cache.reference"]
    (entries [str "cache.reference"; str "object.delta"])) as (sorted & Hd & Hp & _);
    [vm_compute; reflexivity|].
  eexists _, sorted. split; [|split; [exact Hd|exact Hp]]. vm_compute; reflexivity.
Defined.

(** A body that decodes is the only encoding of its tokens: the tokens are valid and
    strictly increasing, there are as many as declared, and encoding them in any order
    gives the very body back. *)
Theorem capability_canonical (T : Target) body count tokens tokens' :
  decode_capability_tokens body count = Ok tokens -> tokens' ≡ₚ tokens ->
  Forall (fun t => token_ok t = true) tokens /\ Sorted bytes_lt tokens /\ len tokens = count /\
  encode_capability_tokens tokens' = Ok body.
Proof.
  intros (Hc & Hn & Hb & Hlen)%decode_capability_tokens_Ok Hp. split_and!; [|apply Hc|done|].
  - eapply Forall_impl; [apply Hc|]. by intros t [? _].
  - apply encode_capability_tokens_Ok. by rewrite (sort_canonical _ _ Hc Hp).
Qed.

Lemma capability_canonical_witness :
  decode_capability_tokens (Htarget := target64)
    (entries [str "cache.reference"; str "object.delta"]) 2
    = Ok [str "cache.reference"; str "object.delta"] /\
  encode_capability_tokens (Htarget := target64) [str "object.delta"; str "cache.reference"]
    = Ok (entries [str "cache.reference"; str "object.delta"]).
Proof.
  split; [vm_compute; reflexivity|].
  apply (capability_canonical target64 _ 2 [str "cache.reference"; str "object.delta"]);
    [vm_compute; reflexivity|apply Permutation_swap].
Defined.

Lemma decode_registered_no_panic `{Target} body count registry :
  decode_registered_capability_tokens body count registry <> Panic.
Proof.
  unfold decode_registered_capability_tokens.
  apply bind_no_panic; [apply decode_capability_tokens_no_panic|intros ts _].
  apply bind_no_panic; [|done]. unfold validate_registered_capability_tokens, validate_capability_token.
  apply bind_no_panic; [apply collect_no_panic; intros; apply reject_if_no_panic|intros _ _].
  apply bind_no_panic; [apply collect_no_panic; intros; apply reject_if_no_panic|done].
Qed.

(** Decoding against the registry ends on every body, without a panic, and accepts exactly
    the bodies that are the entries of valid, strictly increasing tokens, in the
    declared number, each a protocol token or one of the registered extensions, when
    the extensions themselves are valid tokens. *)
Theorem registered_tokens_exact (T : Target) body count registry tokens :
  decode_registered_capability_tokens body count registry <> Panic /\
  (decode_registered_capability_tokens body count registry = Ok tokens <->
   body = entries tokens /\ len body <= usize_max /\ len tokens = count /\
   Forall token_fits tokens /\ Sorted bytes_lt tokens /\
   Forall (fun t => token_ok t = true) registry /\
   Forall (fun t => is_preview4_capability_token t = true \/ t ∈ registry) tokens).
Proof.
  split; [apply decode_registered_no_panic|]. unfold decode_registered_capability_tokens.
  rewrite bind_Ok. setoid_rewrite bind_Ok. setoid_rewrite decode_capability_tokens_Ok.
  setoid_rewrite validate_registered_Ok. unfold canonical. naive_solver.
Qed.

#[export] Hint Resolve decode_capability_tokens_no_panic : nopanic.
