(* ===== verification/RuntimeControl.v ===== *)
(** Runtime control metadata ([src/crates/nnrp-core/src/control.rs]): cancel and
    abort requests, scheduling, supersede, budget, progress, partial results, pressure,
    capabilities, route hints, trace context, drop reasons and recoverable errors,
    with the semantic checks that go with a message type. *)

From S2P Require Import Prelude Bytes Errors Enums Wire Header Control Capability.

Local Open Scope Z_scope.

Definition CONTROL_REQUEST_METADATA_LEN : nat := 32.
Definition SCHEDULING_METADATA_LEN : nat := 32.
Definition SUPERSEDE_METADATA_LEN : nat := 32.
Definition BUDGET_METADATA_LEN : nat := 40.
Definition PROGRESS_METADATA_LEN : nat := 32.
Definition PARTIAL_RESULT_METADATA_LEN : nat := 40.
Definition PRESSURE_METADATA_LEN : nat := 32.
Definition CAPABILITY_METADATA_LEN : nat := 32.
Definition ROUTE_HINT_METADATA_LEN : nat := 32.
Definition TRACE_CONTEXT_METADATA_LEN : nat := 32.
Definition RESULT_DROP_REASON_METADATA_LEN : nat := 32.
Definition RECOVERABLE_ERROR_METADATA_LEN : nat := 32.
Definition RETRY_AFTER_METADATA_LEN : nat := 32.
Definition CONTROL_REQUEST_FLAGS_KNOWN_MASK : Z := 0x03.
Definition CONTROL_REQUEST_FLAG_COOPERATIVE_ALLOWED : Z := 0x01.
Definition CONTROL_REQUEST_FLAG_HARD_ABORT_ALLOWED : Z := 0x02.
Definition SCHEDULING_FLAGS_KNOWN_MASK : Z := 0x0000_0003.
Definition SCHEDULING_FLAG_DISCARD_STALE : Z := 0x0000_0001.
Definition SCHEDULING_FLAG_EMIT_DROP_REASON : Z := 0x0000_0002.
Definition SUPERSEDE_FLAGS_KNOWN_MASK : Z := 0x0001.
Definition BUDGET_FLAGS_KNOWN_MASK : Z := 0x0000_0003.
Definition PARTIAL_RESULT_FLAGS_KNOWN_MASK : Z := 0x0000_0003.
Definition PRESSURE_FLAGS_KNOWN_MASK : Z := 0x0000_0003.
Definition CAPABILITY_FLAGS_KNOWN_MASK : Z := 0x0000_0003.
Definition ROUTE_HINT_FLAGS_KNOWN_MASK : Z := 0x0000_0003.
Definition TRACE_CONTEXT_FLAGS_KNOWN_MASK : Z := 0x0003.
Definition RESULT_DROP_FLAGS_KNOWN_MASK : Z := 0x03.
Definition RESULT_DROP_REASON_DEADLINE_EXPIRED : Z := 0x0001.
Definition RECOVERABLE_ERROR_FLAGS_KNOWN_MASK : Z := 0x03.
Definition RETRY_AFTER_FLAGS_KNOWN_MASK : Z := 0x03.

(** ** Value checks *)

Definition validate_percent_x100 (value : Z) : R unit :=
  reject_if (negb ((value <=? 10000) || (value =? u16_max)))
    (InvalidProtocolCombination "progress.percent_x100 must be 0..10000 or 0xffff").

Definition validate_pressure_level (value : Z) : R unit :=
  reject_if (negb (value <=? 3)) (UnknownEnumValue "pressure_level" value).

Definition validate_standard_role (value : Z) : R unit :=
  reject_if (negb ((value <=? 0x07) || (0x80 <=? value))) (UnknownEnumValue "runtime_role" value).

Module ControlRequestMetadata.

#[projections(primitive)]
Record t := mk {
  operation_id : Z;
  control_sequence : Z;
  reason_code : Z;
  source_role : Z;
  flags : Z;
  diagnostic_bytes : Z
}.

Definition parse (source : bytes) : R t :=
  _ ← require_len source CONTROL_REQUEST_METADATA_LEN;
  flags ← index source 19;
  _ ← validate_mask_u8 flags CONTROL_REQUEST_FLAGS_KNOWN_MASK;
  reserved ← read_u64 source 24;
  _ ← validate_zero "control_request.reserved" reserved;
  operation_id ← read_u64 source 0;
  control_sequence ← read_u64 source 8;
  reason_code ← read_u16 source 16;
  source_role ← index source 18;
  flags ← index source 19;
  diagnostic_bytes ← read_u32 source 20;
  Ok {| operation_id := operation_id; control_sequence := control_sequence;
      reason_code := reason_code; source_role := source_role; flags := flags;
      diagnostic_bytes := diagnostic_bytes |}.

Definition write (m : t) (destination : bytes) : R bytes :=
  _ ← require_destination_len destination CONTROL_REQUEST_METADATA_LEN;
  _ ← validate_mask_u8 (flags m) CONTROL_REQUEST_FLAGS_KNOWN_MASK;
  destination ← fill_zero destination CONTROL_REQUEST_METADATA_LEN;
  destination ← write_u64 destination 0 (operation_id m);
  destination ← write_u64 destination 8 (control_sequence m);
  destination ← write_u16 destination 16 (reason_code m);
  destination ← write_u8 destination 18 (source_role m);
  destination ← write_u8 destination 19 (flags m);
  destination ← write_u32 destination 20 (diagnostic_bytes m);
  Ok destination.

Definition to_bytes (m : t) : R bytes := write m (replicate CONTROL_REQUEST_METADATA_LEN x00).

Definition layout (m : t) : list field :=
  [ F (KU 8) (operation_id m); F (KU 8) (control_sequence m); F (KU 2) (reason_code m);
      F (KU 1) (source_role m); F (KU 1) (flags m); F (KU 4) (diagnostic_bytes m); F (KU 8) 0 ].

Definition guard (m : t) : bool := mask_ok 8 (flags m) CONTROL_REQUEST_FLAGS_KNOWN_MASK.

Definition parse_with_diagnostics (source : bytes) : R (t * bytes) :=
  metadata ← parse source;
  diagnostics ← split_declared_tail source CONTROL_REQUEST_METADATA_LEN (diagnostic_bytes metadata) "control_request.diagnostic_bytes";
  Ok (metadata, diagnostics).

Definition to_vec_with_diagnostics (m : t) (diagnostics : bytes) : R bytes :=
  _ ← require_declared_len "control_request.diagnostic_bytes" (diagnostic_bytes m) (len diagnostics);
  bytes ← to_bytes m;
  Ok (bytes ++ diagnostics).

End ControlRequestMetadata.

#[export] Instance ControlRequestMetadata_codec : WireCodec ControlRequestMetadata.t := {|
  codec_len := CONTROL_REQUEST_METADATA_LEN;
  codec_shape := [KU 8; KU 8; KU 2; KU 1; KU 1; KU 4; KU 8 ];
  codec_parse := ControlRequestMetadata.parse;
  codec_write := ControlRequestMetadata.write;
  codec_layout := ControlRequestMetadata.layout;
  codec_guard := ControlRequestMetadata.guard |}.
#[export] Instance ControlRequestMetadata_codec_laws : WireCodecLaws ControlRequestMetadata.t.
Proof. solve_codec ControlRequestMetadata.parse ControlRequestMetadata.write ControlRequestMetadata.guard. Qed.
#[export] Instance ControlRequestMetadata_strict : StrictWireCodec ControlRequestMetadata.t.
Proof. solve_strict ControlRequestMetadata.write ControlRequestMetadata.guard. Qed.

#[export] Instance ControlRequestMetadata_tailed : TailedCodec ControlRequestMetadata.t := {|
  tail_field := "control_request.diagnostic_bytes";
  tail_declared := ControlRequestMetadata.diagnostic_bytes;
  tail_check := fun _ _ => Ok tt;
  parse_with_tail := ControlRequestMetadata.parse_with_diagnostics;
  to_vec_with_tail := ControlRequestMetadata.to_vec_with_diagnostics |}.
#[export] Instance ControlRequestMetadata_tailed_laws : TailedCodecLaws ControlRequestMetadata.t.
Proof. solve_tailed. Qed.

Module SchedulingMetadata.

#[projections(primitive)]
Record t := mk {
  operation_id : Z;
  control_sequence : Z;
  priority_class : Z;
  priority_delta : Z;
  deadline_unix_ms : Z;
  flags : Z
}.

Definition parse (source : bytes) : R t :=
  _ ← require_len source SCHEDULING_METADATA_LEN;
  flags ← read_u32 source 28;
  _ ← validate_mask_u32 flags SCHEDULING_FLAGS_KNOWN_MASK;
  operation_id ← read_u64 source 0;
  control_sequence ← read_u64 source 8;
  priority_class ← read_u16 source 16;
  priority_delta ← read_i16 source 18;
  deadline_unix_ms ← read_u64 source 20;
  Ok {| operation_id := operation_id; control_sequence := control_sequence;
      priority_class := priority_class; priority_delta := priority_delta;
      deadline_unix_ms := deadline_unix_ms; flags := flags |}.

Definition write (m : t) (destination : bytes) : R bytes :=
  _ ← require_destination_len destination SCHEDULING_METADATA_LEN;
  _ ← validate_mask_u32 (flags m) SCHEDULING_FLAGS_KNOWN_MASK;
  destination ← write_u64 destination 0 (operation_id m);
  destination ← write_u64 destination 8 (control_sequence m);
  destination ← write_u16 destination 16 (priority_class m);
  destination ← write_i16 destination 18 (priority_delta m);
  destination ← write_u64 destination 20 (deadline_unix_ms m);
  destination ← write_u32 destination 28 (flags m);
  Ok destination.

Definition to_bytes (m : t) : R bytes := write m (replicate SCHEDULING_METADATA_LEN x00).

Definition layout (m : t) : list field :=
  [ F (KU 8) (operation_id m); F (KU 8) (control_sequence m); F (KU 2) (priority_class m);
      F (KI 2) (priority_delta m); F (KU 8) (deadline_unix_ms m); F (KU 4) (flags m) ].

Definition guard (m : t) : bool := mask_ok 32 (flags m) SCHEDULING_FLAGS_KNOWN_MASK.

End SchedulingMetadata.

#[export] Instance SchedulingMetadata_codec : WireCodec SchedulingMetadata.t := {|
  codec_len := SCHEDULING_METADATA_LEN;
  codec_shape := [KU 8; KU 8; KU 2; KI 2; KU 8; KU 4 ];
  codec_parse := SchedulingMetadata.parse;
  codec_write := SchedulingMetadata.write;
  codec_layout := SchedulingMetadata.layout;
  codec_guard := SchedulingMetadata.guard |}.
#[export] Instance SchedulingMetadata_codec_laws : WireCodecLaws SchedulingMetadata.t.
Proof. solve_codec SchedulingMetadata.parse SchedulingMetadata.write SchedulingMetadata.guard. Qed.
#[export] Instance SchedulingMetadata_strict : StrictWireCodec SchedulingMetadata.t.
Proof. solve_strict SchedulingMetadata.write SchedulingMetadata.guard. Qed.

Module SupersedeMetadata.

#[projections(primitive)]
Record t := mk {
  old_operation_id : Z;
  new_operation_id : Z;
  control_sequence : Z;
  drop_reason_code : Z;
  flags : Z;
  diagnostic_bytes : Z
}.

Definition parse (source : bytes) : R t :=
  _ ← require_len source SUPERSEDE_METADATA_LEN;
  flags ← read_u16 source 26;
  _ ← validate_mask_u16 flags SUPERSEDE_FLAGS_KNOWN_MASK;
  old_operation_id ← read_u64 source 0;
  new_operation_id ← read_u64 source 8;
  control_sequence ← read_u64 source 16;
  drop_reason_code ← read_u16 source 24;
  diagnostic_bytes ← read_u32 source 28;
  Ok {| old_operation_id := old_operation_id; new_operation_id := new_operation_id;
      control_sequence := control_sequence; drop_reason_code := drop_reason_code;
      flags := flags; diagnostic_bytes := diagnostic_bytes |}.

Definition write (m : t) (destination : bytes) : R bytes :=
  _ ← require_destination_len destination SUPERSEDE_METADATA_LEN;
  _ ← validate_mask_u16 (flags m) SUPERSEDE_FLAGS_KNOWN_MASK;
  destination ← write_u64 destination 0 (old_operation_id m);
  destination ← write_u64 destination 8 (new_operation_id m);
  destination ← write_u64 destination 16 (control_sequence m);
  destination ← write_u16 destination 24 (drop_reason_code m);
  destination ← write_u16 destination 26 (flags m);
  destination ← write_u32 destination 28 (diagnostic_bytes m);
  Ok destination.

Definition to_bytes (m : t) : R bytes := write m (replicate SUPERSEDE_METADATA_LEN x00).

Definition layout (m : t) : list field :=
  [ F (KU 8) (old_operation_id m); F (KU 8) (new_operation_id m);
      F (KU 8) (control_sequence m); F (KU 2) (drop_reason_code m); F (KU 2) (flags m);
      F (KU 4) (diagnostic_bytes m) ].

Definition guard (m : t) : bool := mask_ok 16 (flags m) SUPERSEDE_FLAGS_KNOWN_MASK.

Definition parse_with_diagnostics (source : bytes) : R (t * bytes) :=
  metadata ← parse source;
  diagnostics ← split_declared_tail source SUPERSEDE_METADATA_LEN (diagnostic_bytes metadata) "supersede.diagnostic_bytes";
  Ok (metadata, diagnostics).

Definition to_vec_with_diagnostics (m : t) (diagnostics : bytes) : R bytes :=
  _ ← require_declared_len "supersede.diagnostic_bytes" (diagnostic_bytes m) (len diagnostics);
  bytes ← to_bytes m;
  Ok (bytes ++ diagnostics).

End SupersedeMetadata.

#[export] Instance SupersedeMetadata_codec : WireCodec SupersedeMetadata.t := {|
  codec_len := SUPERSEDE_METADATA_LEN;
  codec_shape := [KU 8; KU 8; KU 8; KU 2; KU 2; KU 4 ];
  codec_parse := SupersedeMetadata.parse;
  codec_write := SupersedeMetadata.write;
  codec_layout := SupersedeMetadata.layout;
  codec_guard := SupersedeMetadata.guard |}.
#[export] Instance SupersedeMetadata_codec_laws : WireCodecLaws SupersedeMetadata.t.
Proof. solve_codec SupersedeMetadata.parse SupersedeMetadata.write SupersedeMetadata.guard. Qed.
#[export] Instance SupersedeMetadata_strict : StrictWireCodec SupersedeMetadata.t.
Proof. solve_strict SupersedeMetadata.write SupersedeMetadata.guard. Qed.

#[export] Instance SupersedeMetadata_tailed : TailedCodec SupersedeMetadata.t := {|
  tail_field := "supersede.diagnostic_bytes";
  tail_declared := SupersedeMetadata.diagnostic_bytes;
  tail_check := fun _ _ => Ok tt;
  parse_with_tail := SupersedeMetadata.parse_with_diagnostics;
  to_vec_with_tail := SupersedeMetadata.to_vec_with_diagnostics |}.
#[export] Instance SupersedeMetadata_tailed_laws : TailedCodecLaws SupersedeMetadata.t.
Proof. solve_tailed. Qed.

Module BudgetMetadata.

#[projections(primitive)]
Record t := mk {
  operation_id : Z;
  compute_budget_units : Z;
  memory_budget_bytes : Z;
  bandwidth_budget_bytes : Z;
  token_budget : Z;
  flags : Z
}.

Definition parse (source : bytes) : R t :=
  _ ← require_len source BUDGET_METADATA_LEN;
  flags ← read_u32 source 36;
  _ ← validate_mask_u32 flags BUDGET_FLAGS_KNOWN_MASK;
  operation_id ← read_u64 source 0;
  compute_budget_units ← read_u64 source 8;
  memory_budget_bytes ← read_u64 source 16;
  bandwidth_budget_bytes ← read_u64 source 24;
  token_budget ← read_u32 source 32;
  Ok {| operation_id := operation_id; compute_budget_units := compute_budget_units;
      memory_budget_bytes := memory_budget_bytes;
      bandwidth_budget_bytes := bandwidth_budget_bytes; token_budget := token_budget;
      flags := flags |}.

Definition write (m : t) (destination : bytes) : R bytes :=
  _ ← require_destination_len destination BUDGET_METADATA_LEN;
  _ ← validate_mask_u32 (flags m) BUDGET_FLAGS_KNOWN_MASK;
  destination ← write_u64 destination 0 (operation_id m);
  destination ← write_u64 destination 8 (compute_budget_units m);
  destination ← write_u64 destination 16 (memory_budget_bytes m);
  destination ← write_u64 destination 24 (bandwidth_budget_bytes m);
  destination ← write_u32 destination 32 (token_budget m);
  destination ← write_u32 destination 36 (flags m);
  Ok destination.

Definition to_bytes (m : t) : R bytes := write m (replicate BUDGET_METADATA_LEN x00).

Definition layout (m : t) : list field :=
  [ F (KU 8) (operation_id m); F (KU 8) (compute_budget_units m);
      F (KU 8) (memory_budget_bytes m); F (KU 8) (bandwidth_budget_bytes m);
      F (KU 4) (token_budget m); F (KU 4) (flags m) ].

Definition guard (m : t) : bool := mask_ok 32 (flags m) BUDGET_FLAGS_KNOWN_MASK.

End BudgetMetadata.

#[export] Instance BudgetMetadata_codec : WireCodec BudgetMetadata.t := {|
  codec_len := BUDGET_METADATA_LEN;
  codec_shape := [KU 8; KU 8; KU 8; KU 8; KU 4; KU 4 ];
  codec_parse := BudgetMetadata.parse;
  codec_write := BudgetMetadata.write;
  codec_layout := BudgetMetadata.layout;
  codec_guard := BudgetMetadata.guard |}.
#[export] Instance BudgetMetadata_codec_laws : WireCodecLaws BudgetMetadata.t.
Proof. solve_codec BudgetMetadata.parse BudgetMetadata.write BudgetMetadata.guard. Qed.
#[export] Instance BudgetMetadata_strict : StrictWireCodec BudgetMetadata.t.
Proof. solve_strict BudgetMetadata.write BudgetMetadata.guard. Qed.

Module ProgressMetadata.

#[projections(primitive)]
Record t := mk {
  operation_id : Z;
  progress_sequence : Z;
  stage_code : Z;
  percent_x100 : Z;
  object_id : Z;
  body_bytes : Z
}.

Definition parse (source : bytes) : R t :=
  _ ← require_len source PROGRESS_METADATA_LEN;
  percent_x100 ← read_u16 source 18;
  _ ← validate_percent_x100 percent_x100;
  operation_id ← read_u64 source 0;
  progress_sequence ← read_u64 source 8;
  stage_code ← read_u16 source 16;
  object_id ← read_u64 source 20;
  body_bytes ← read_u32 source 28;
  Ok {| operation_id := operation_id; progress_sequence := progress_sequence;
      stage_code := stage_code; percent_x100 := percent_x100; object_id := object_id;
      body_bytes := body_bytes |}.

Definition write (m : t) (destination : bytes) : R bytes :=
  _ ← require_destination_len destination PROGRESS_METADATA_LEN;
  _ ← validate_percent_x100 (percent_x100 m);
  destination ← write_u64 destination 0 (operation_id m);
  destination ← write_u64 destination 8 (progress_sequence m);
  destination ← write_u16 destination 16 (stage_code m);
  destination ← write_u16 destination 18 (percent_x100 m);
  destination ← write_u64 destination 20 (object_id m);
  destination ← write_u32 destination 28 (body_bytes m);
  Ok destination.

Definition to_bytes (m : t) : R bytes := write m (replicate PROGRESS_METADATA_LEN x00).

Definition layout (m : t) : list field :=
  [ F (KU 8) (operation_id m); F (KU 8) (progress_sequence m); F (KU 2) (stage_code m);
      F (KU 2) (percent_x100 m); F (KU 8) (object_id m); F (KU 4) (body_bytes m) ].

Definition guard (m : t) : bool := is_ok (validate_percent_x100 (percent_x100 m)).

Definition parse_with_body (source : bytes) : R (t * bytes) :=
  metadata ← parse source;
  body ← split_declared_tail source PROGRESS_METADATA_LEN (body_bytes metadata) "progress.body_bytes";
  Ok (metadata, body).

Definition to_vec_with_body (m : t) (body : bytes) : R bytes :=
  _ ← require_declared_len "progress.body_bytes" (body_bytes m) (len body);
  bytes ← to_bytes m;
  Ok (bytes ++ body).

End ProgressMetadata.

#[export] Instance ProgressMetadata_codec : WireCodec ProgressMetadata.t := {|
  codec_len := PROGRESS_METADATA_LEN;
  codec_shape := [KU 8; KU 8; KU 2; KU 2; KU 8; KU 4 ];
  codec_parse := ProgressMetadata.parse;
  codec_write := ProgressMetadata.write;
  codec_layout := ProgressMetadata.layout;
  codec_guard := ProgressMetadata.guard |}.
#[export] Instance ProgressMetadata_codec_laws : WireCodecLaws ProgressMetadata.t.
Proof. solve_codec ProgressMetadata.parse ProgressMetadata.write ProgressMetadata.guard. Qed.
#[export] Instance ProgressMetadata_strict : StrictWireCodec ProgressMetadata.t.
Proof. solve_strict ProgressMetadata.write ProgressMetadata.guard. Qed.

#[export] Instance ProgressMetadata_tailed : TailedCodec ProgressMetadata.t := {|
  tail_field := "progress.body_bytes";
  tail_declared := ProgressMetadata.body_bytes;
  tail_check := fun _ _ => Ok tt;
  parse_with_tail := ProgressMetadata.parse_with_body;
  to_vec_with_tail := ProgressMetadata.to_vec_with_body |}.
#[export] Instance ProgressMetadata_tailed_laws : TailedCodecLaws ProgressMetadata.t.
Proof. solve_tailed. Qed.

Module PartialResultMetadata.

#[projections(primitive)]
Record t := mk {
  operation_id : Z;
  result_sequence : Z;
  object_id : Z;
  delta_sequence : Z;
  body_bytes : Z;
  flags : Z
}.

Definition parse (source : bytes) : R t :=
  _ ← require_len source PARTIAL_RESULT_METADATA_LEN;
  flags ← read_u32 source 36;
  _ ← validate_mask_u32 flags PARTIAL_RESULT_FLAGS_KNOWN_MASK;
  operation_id ← read_u64 source 0;
  result_sequence ← read_u64 source 8;
  object_id ← read_u64 source 16;
  delta_sequence ← read_u64 source 24;
  body_bytes ← read_u32 source 32;
  Ok {| operation_id := operation_id; result_sequence := result_sequence;
      object_id := object_id; delta_sequence := delta_sequence; body_bytes := body_bytes;
      flags := flags |}.

Definition write (m : t) (destination : bytes) : R bytes :=
  _ ← require_destination_len destination PARTIAL_RESULT_METADATA_LEN;
  _ ← validate_mask_u32 (flags m) PARTIAL_RESULT_FLAGS_KNOWN_MASK;
  destination ← write_u64 destination 0 (operation_id m);
  destination ← write_u64 destination 8 (result_sequence m);
  destination ← write_u64 destination 16 (object_id m);
  destination ← write_u64 destination 24 (delta_sequence m);
  destination ← write_u32 destination 32 (body_bytes m);
  destination ← write_u32 destination 36 (flags m);
  Ok destination.

Definition to_bytes (m : t) : R bytes := write m (replicate PARTIAL_RESULT_METADATA_LEN x00).

Definition layout (m : t) : list field :=
  [ F (KU 8) (operation_id m); F (KU 8) (result_sequence m); F (KU 8) (object_id m);
      F (KU 8) (delta_sequence m); F (KU 4) (body_bytes m); F (KU 4) (flags m) ].

Definition guard (m : t) : bool := mask_ok 32 (flags m) PARTIAL_RESULT_FLAGS_KNOWN_MASK.

Definition parse_with_body (source : bytes) : R (t * bytes) :=
  metadata ← parse source;
  body ← split_declared_tail source PARTIAL_RESULT_METADATA_LEN (body_bytes metadata) "partial_result.body_bytes";
  Ok (metadata, body).

Definition to_vec_with_body (m : t) (body : bytes) : R bytes :=
  _ ← require_declared_len "partial_result.body_bytes" (body_bytes m) (len body);
  bytes ← to_bytes m;
  Ok (bytes ++ body).

End PartialResultMetadata.

#[export] Instance PartialResultMetadata_codec : WireCodec PartialResultMetadata.t := {|
  codec_len := PARTIAL_RESULT_METADATA_LEN;
  codec_shape := [KU 8; KU 8; KU 8; KU 8; KU 4; KU 4 ];
  codec_parse := PartialResultMetadata.parse;
  codec_write := PartialResultMetadata.write;
  codec_layout := PartialResultMetadata.layout;
  codec_guard := PartialResultMetadata.guard |}.
#[export] Instance PartialResultMetadata_codec_laws : WireCodecLaws PartialResultMetadata.t.
Proof. solve_codec PartialResultMetadata.parse PartialResultMetadata.write PartialResultMetadata.guard. Qed.
#[export] Instance PartialResultMetadata_strict : StrictWireCodec PartialResultMetadata.t.
Proof. solve_strict PartialResultMetadata.write PartialResultMetadata.guard. Qed.

#[export] Instance PartialResultMetadata_tailed : TailedCodec PartialResultMetadata.t := {|
  tail_field := "partial_result.body_bytes";
  tail_declared := PartialResultMetadata.body_bytes;
  tail_check := fun _ _ => Ok tt;
  parse_with_tail := PartialResultMetadata.parse_with_body;
  to_vec_with_tail := PartialResultMetadata.to_vec_with_body |}.
#[export] Instance PartialResultMetadata_tailed_laws : TailedCodecLaws PartialResultMetadata.t.
Proof. solve_tailed. Qed.

Module PressureMetadata.

#[projections(primitive)]
Record t := mk {
  scope_id : Z;
  credit_window : Z;
  pressure_level : Z;
  pressure_reason : Z;
  retry_after_ms : Z;
  flags : Z
}.

Definition parse (source : bytes) : R t :=
  _ ← require_len source PRESSURE_METADATA_LEN;
  flags ← read_u32 source 24;
  _ ← validate_mask_u32 flags PRESSURE_FLAGS_KNOWN_MASK;
  reserved ← read_u32 source 28;
  _ ← validate_zero "pressure.reserved" reserved;
  scope_id ← read_u64 source 0;
  credit_window ← read_u64 source 8;
  pressure_level ← read_u16 source 16;
  pressure_reason ← read_u16 source 18;
  retry_after_ms ← read_u32 source 20;
  Ok {| scope_id := scope_id; credit_window := credit_window; pressure_level := pressure_level;
      pressure_reason := pressure_reason; retry_after_ms := retry_after_ms; flags := flags |}.

Definition write (m : t) (destination : bytes) : R bytes :=
  _ ← require_destination_len destination PRESSURE_METADATA_LEN;
  _ ← validate_mask_u32 (flags m) PRESSURE_FLAGS_KNOWN_MASK;
  destination ← fill_zero destination PRESSURE_METADATA_LEN;
  destination ← write_u64 destination 0 (scope_id m);
  destination ← write_u64 destination 8 (credit_window m);
  destination ← write_u16 destination 16 (pressure_level m);
  destination ← write_u16 destination 18 (pressure_reason m);
  destination ← write_u32 destination 20 (retry_after_ms m);
  destination ← write_u32 destination 24 (flags m);
  Ok destination.

Definition to_bytes (m : t) : R bytes := write m (replicate PRESSURE_METADATA_LEN x00).

Definition layout (m : t) : list field :=
  [ F (KU 8) (scope_id m); F (KU 8) (credit_window m); F (KU 2) (pressure_level m);
      F (KU 2) (pressure_reason m); F (KU 4) (retry_after_ms m); F (KU 4) (flags m);
      F (KU 4) 0 ].

Definition guard (m : t) : bool := mask_ok 32 (flags m) PRESSURE_FLAGS_KNOWN_MASK.

End PressureMetadata.

#[export] Instance PressureMetadata_codec : WireCodec PressureMetadata.t := {|
  codec_len := PRESSURE_METADATA_LEN;
  codec_shape := [KU 8; KU 8; KU 2; KU 2; KU 4; KU 4; KU 4 ];
  codec_parse := PressureMetadata.parse;
  codec_write := PressureMetadata.write;
  codec_layout := PressureMetadata.layout;
  codec_guard := PressureMetadata.guard |}.
#[export] Instance PressureMetadata_codec_laws : WireCodecLaws PressureMetadata.t.
Proof. solve_codec PressureMetadata.parse PressureMetadata.write PressureMetadata.guard. Qed.
#[export] Instance PressureMetadata_strict : StrictWireCodec PressureMetadata.t.
Proof. solve_strict PressureMetadata.write PressureMetadata.guard. Qed.

Module CapabilityMetadata.

#[projections(primitive)]
Record t := mk {
  profile_id : Z;
  capability_count : Z;
  cost_model_id : Z;
  preference_rank : Z;
  limit_bytes : Z;
  limit_units : Z;
  body_bytes : Z;
  flags : Z
}.

Definition parse (source : bytes) : R t :=
  _ ← require_len source CAPABILITY_METADATA_LEN;
  flags ← read_u32 source 28;
  _ ← validate_mask_u32 flags CAPABILITY_FLAGS_KNOWN_MASK;
  profile_id ← read_u16 source 0;
  capability_count ← read_u16 source 2;
  cost_model_id ← read_u16 source 4;
  preference_rank ← read_u16 source 6;
  limit_bytes ← read_u64 source 8;
  limit_units ← read_u64 source 16;
  body_bytes ← read_u32 source 24;
  Ok {| profile_id := profile_id; capability_count := capability_count;
      cost_model_id := cost_model_id; preference_rank := preference_rank;
      limit_bytes := limit_bytes; limit_units := limit_units; body_bytes := body_bytes;
      flags := flags |}.

Definition write (m : t) (destination : bytes) : R bytes :=
  _ ← require_destination_len destination CAPABILITY_METADATA_LEN;
  _ ← validate_mask_u32 (flags m) CAPABILITY_FLAGS_KNOWN_MASK;
  destination ← write_u16 destination 0 (profile_id m);
  destination ← write_u16 destination 2 (capability_count m);
  destination ← write_u16 destination 4 (cost_model_id m);
  destination ← write_u16 destination 6 (preference_rank m);
  destination ← write_u64 destination 8 (limit_bytes m);
  destination ← write_u64 destination 16 (limit_units m);
  destination ← write_u32 destination 24 (body_bytes m);
  destination ← write_u32 destination 28 (flags m);
  Ok destination.

Definition to_bytes (m : t) : R bytes := write m (replicate CAPABILITY_METADATA_LEN x00).

Definition layout (m : t) : list field :=
  [ F (KU 2) (profile_id m); F (KU 2) (capability_count m); F (KU 2) (cost_model_id m);
      F (KU 2) (preference_rank m); F (KU 8) (limit_bytes m); F (KU 8) (limit_units m);
      F (KU 4) (body_bytes m); F (KU 4) (flags m) ].

Definition guard (m : t) : bool := mask_ok 32 (flags m) CAPABILITY_FLAGS_KNOWN_MASK.

(** [decode_capability_tokens(body, capability_count)?], whose tokens are dropped. *)
Definition check_tokens `{Target} (m : t) (body : bytes) : R unit :=
  _ ← decode_capability_tokens body (capability_count m); Ok tt.

Definition parse_with_body `{Target} (source : bytes) : R (t * bytes) :=
  metadata ← parse source;
  body ← split_declared_tail source CAPABILITY_METADATA_LEN (body_bytes metadata) "capability.body_bytes";
  _ ← check_tokens metadata body;
  Ok (metadata, body).

Definition to_vec_with_body `{Target} (m : t) (body : bytes) : R bytes :=
  _ ← require_declared_len "capability.body_bytes" (body_bytes m) (len body);
  _ ← check_tokens m body;
  bytes ← to_bytes m;
  Ok (bytes ++ body).

End CapabilityMetadata.

#[export] Instance CapabilityMetadata_codec : WireCodec CapabilityMetadata.t := {|
  codec_len := CAPABILITY_METADATA_LEN;
  codec_shape := [KU 2; KU 2; KU 2; KU 2; KU 8; KU 8; KU 4; KU 4 ];
  codec_parse := CapabilityMetadata.parse;
  codec_write := CapabilityMetadata.write;
  codec_layout := CapabilityMetadata.layout;
  codec_guard := CapabilityMetadata.guard |}.
#[export] Instance CapabilityMetadata_codec_laws : WireCodecLaws CapabilityMetadata.t.
Proof. solve_codec CapabilityMetadata.parse CapabilityMetadata.write CapabilityMetadata.guard. Qed.
#[export] Instance CapabilityMetadata_strict : StrictWireCodec CapabilityMetadata.t.
Proof. solve_strict CapabilityMetadata.write CapabilityMetadata.guard. Qed.

#[export] Instance CapabilityMetadata_tailed `{Target} : TailedCodec CapabilityMetadata.t := {|
  tail_field := "capability.body_bytes";
  tail_declared := CapabilityMetadata.body_bytes;
  tail_check := CapabilityMetadata.check_tokens;
  parse_with_tail := CapabilityMetadata.parse_with_body;
  to_vec_with_tail := CapabilityMetadata.to_vec_with_body |}.
#[export] Instance CapabilityMetadata_tailed_laws `{Target} : TailedCodecLaws CapabilityMetadata.t.
Proof.
  split; [reflexivity|reflexivity|]. intros m tail.
  apply bind_no_panic; [apply decode_capability_tokens_no_panic|done].
Qed.

Module RouteHintMetadata.

#[projections(primitive)]
Record t := mk {
  operation_id : Z;
  route_id : Z;
  executor_class : Z;
  affinity_class : Z;
  deadline_unix_ms : Z;
  body_bytes : Z;
  flags : Z
}.

Definition parse (source : bytes) : R t :=
  _ ← require_len source ROUTE_HINT_METADATA_LEN;
  flags ← read_u32 source 28;
  _ ← validate_mask_u32 flags ROUTE_HINT_FLAGS_KNOWN_MASK;
  operation_id ← read_u64 source 0;
  route_id ← read_u32 source 8;
  executor_class ← read_u16 source 12;
  affinity_class ← read_u16 source 14;
  deadline_unix_ms ← read_u64 source 16;
  body_bytes ← read_u32 source 24;
  Ok {| operation_id := operation_id; route_id := route_id; executor_class := executor_class;
      affinity_class := affinity_class; deadline_unix_ms := deadline_unix_ms;
      body_bytes := body_bytes; flags := flags |}.

Definition write (m : t) (destination : bytes) : R bytes :=
  _ ← require_destination_len destination ROUTE_HINT_METADATA_LEN;
  _ ← validate_mask_u32 (flags m) ROUTE_HINT_FLAGS_KNOWN_MASK;
  destination ← write_u64 destination 0 (operation_id m);
  destination ← write_u32 destination 8 (route_id m);
  destination ← write_u16 destination 12 (executor_class m);
  destination ← write_u16 destination 14 (affinity_class m);
  destination ← write_u64 destination 16 (deadline_unix_ms m);
  destination ← write_u32 destination 24 (body_bytes m);
  destination ← write_u32 destination 28 (flags m);
  Ok destination.

Definition to_bytes (m : t) : R bytes := write m (replicate ROUTE_HINT_METADATA_LEN x00).

Definition layout (m : t) : list field :=
  [ F (KU 8) (operation_id m); F (KU 4) (route_id m); F (KU 2) (executor_class m);
      F (KU 2) (affinity_class m); F (KU 8) (deadline_unix_ms m); F (KU 4) (body_bytes m);
      F (KU 4) (flags m) ].

Definition guard (m : t) : bool := mask_ok 32 (flags m) ROUTE_HINT_FLAGS_KNOWN_MASK.

Definition parse_with_body (source : bytes) : R (t * bytes) :=
  metadata ← parse source;
  body ← split_declared_tail source ROUTE_HINT_METADATA_LEN (body_bytes metadata) "route_hint.body_bytes";
  Ok (metadata, body).

Definition to_vec_with_body (m : t) (body : bytes) : R bytes :=
  _ ← require_declared_len "route_hint.body_bytes" (body_bytes m) (len body);
  bytes ← to_bytes m;
  Ok (bytes ++ body).

End RouteHintMetadata.

#[export] Instance RouteHintMetadata_codec : WireCodec RouteHintMetadata.t := {|
  codec_len := ROUTE_HINT_METADATA_LEN;
  codec_shape := [KU 8; KU 4; KU 2; KU 2; KU 8; KU 4; KU 4 ];
  codec_parse := RouteHintMetadata.parse;
  codec_write := RouteHintMetadata.write;
  codec_layout := RouteHintMetadata.layout;
  codec_guard := RouteHintMetadata.guard |}.
#[export] Instance RouteHintMetadata_codec_laws : WireCodecLaws RouteHintMetadata.t.
Proof. solve_codec RouteHintMetadata.parse RouteHintMetadata.write RouteHintMetadata.guard. Qed.
#[export] Instance RouteHintMetadata_strict : StrictWireCodec RouteHintMetadata.t.
Proof. solve_strict RouteHintMetadata.write RouteHintMetadata.guard. Qed.

#[export] Instance RouteHintMetadata_tailed : TailedCodec RouteHintMetadata.t := {|
  tail_field := "route_hint.body_bytes";
  tail_declared := RouteHintMetadata.body_bytes;
  tail_check := fun _ _ => Ok tt;
  parse_with_tail := RouteHintMetadata.parse_with_body;
  to_vec_with_tail := RouteHintMetadata.to_vec_with_body |}.
#[export] Instance RouteHintMetadata_tailed_laws : TailedCodecLaws RouteHintMetadata.t.
Proof. solve_tailed. Qed.

Module TraceContextMetadata.

#[projections(primitive)]
Record t := mk {
  trace_id : Z;
  span_id : Z;
  parent_span_id : Z;
  stage_code : Z;
  flags : Z;
  body_bytes : Z
}.

Definition parse (source : bytes) : R t :=
  _ ← require_len source TRACE_CONTEXT_METADATA_LEN;
  flags ← read_u16 source 26;
  _ ← validate_mask_u16 flags TRACE_CONTEXT_FLAGS_KNOWN_MASK;
  trace_id ← read_u64 source 0;
  span_id ← read_u64 source 8;
  parent_span_id ← read_u64 source 16;
  stage_code ← read_u16 source 24;
  body_bytes ← read_u32 source 28;
  Ok {| trace_id := trace_id; span_id := span_id; parent_span_id := parent_span_id;
      stage_code := stage_code; flags := flags; body_bytes := body_bytes |}.

Definition write (m : t) (destination : bytes) : R bytes :=
  _ ← require_destination_len destination TRACE_CONTEXT_METADATA_LEN;
  _ ← validate_mask_u16 (flags m) TRACE_CONTEXT_FLAGS_KNOWN_MASK;
  destination ← write_u64 destination 0 (trace_id m);
  destination ← write_u64 destination 8 (span_id m);
  destination ← write_u64 destination 16 (parent_span_id m);
  destination ← write_u16 destination 24 (stage_code m);
  destination ← write_u16 destination 26 (flags m);
  destination ← write_u32 destination 28 (body_bytes m);
  Ok destination.

Definition to_bytes (m : t) : R bytes := write m (replicate TRACE_CONTEXT_METADATA_LEN x00).

Definition layout (m : t) : list field :=
  [ F (KU 8) (trace_id m); F (KU 8) (span_id m); F (KU 8) (parent_span_id m);
      F (KU 2) (stage_code m); F (KU 2) (flags m); F (KU 4) (body_bytes m) ].

Definition guard (m : t) : bool := mask_ok 16 (flags m) TRACE_CONTEXT_FLAGS_KNOWN_MASK.

Definition parse_with_body (source : bytes) : R (t * bytes) :=
  metadata ← parse source;
  body ← split_declared_tail source TRACE_CONTEXT_METADATA_LEN (body_bytes metadata) "trace_context.body_bytes";
  Ok (metadata, body).

Definition to_vec_with_body (m : t) (body : bytes) : R bytes :=
  _ ← require_declared_len "trace_context.body_bytes" (body_bytes m) (len body);
  bytes ← to_bytes m;
  Ok (bytes ++ body).

(** [TraceContextIds] and the error context of a failed decode. *)
Record Ids := mkIds { ids_trace_id : Z; ids_span_id : Z; ids_parent_span_id : Z }.

Record DecodeError := mkDecodeError { trace : option Ids; error : NnrpError }.

End TraceContextMetadata.

#[export] Instance TraceContextMetadata_codec : WireCodec TraceContextMetadata.t := {|
  codec_len := TRACE_CONTEXT_METADATA_LEN;
  codec_shape := [KU 8; KU 8; KU 8; KU 2; KU 2; KU 4 ];
  codec_parse := TraceContextMetadata.parse;
  codec_write := TraceContextMetadata.write;
  codec_layout := TraceContextMetadata.layout;
  codec_guard := TraceContextMetadata.guard |}.
#[export] Instance TraceContextMetadata_codec_laws : WireCodecLaws TraceContextMetadata.t.
Proof. solve_codec TraceContextMetadata.parse TraceContextMetadata.write TraceContextMetadata.guard. Qed.
#[export] Instance TraceContextMetadata_strict : StrictWireCodec TraceContextMetadata.t.
Proof. solve_strict TraceContextMetadata.write TraceContextMetadata.guard. Qed.

#[export] Instance TraceContextMetadata_tailed : TailedCodec TraceContextMetadata.t := {|
  tail_field := "trace_context.body_bytes";
  tail_declared := TraceContextMetadata.body_bytes;
  tail_check := fun _ _ => Ok tt;
  parse_with_tail := TraceContextMetadata.parse_with_body;
  to_vec_with_tail := TraceContextMetadata.to_vec_with_body |}.
#[export] Instance TraceContextMetadata_tailed_laws : TailedCodecLaws TraceContextMetadata.t.
Proof. solve_tailed. Qed.

Module ResultDropReasonMetadata.

#[projections(primitive)]
Record t := mk {
  operation_id : Z;
  result_sequence : Z;
  drop_reason_code : Z;
  source_role : Z;
  flags : Z;
  diagnostic_bytes : Z
}.

Definition parse (source : bytes) : R t :=
  _ ← require_len source RESULT_DROP_REASON_METADATA_LEN;
  flags ← index source 19;
  _ ← validate_mask_u8 flags RESULT_DROP_FLAGS_KNOWN_MASK;
  reserved ← read_u64 source 24;
  _ ← validate_zero "result_drop_reason.reserved" reserved;
  operation_id ← read_u64 source 0;
  result_sequence ← read_u64 source 8;
  drop_reason_code ← read_u16 source 16;
  source_role ← index source 18;
  flags ← index source 19;
  diagnostic_bytes ← read_u32 source 20;
  Ok {| operation_id := operation_id; result_sequence := result_sequence;
      drop_reason_code := drop_reason_code; source_role := source_role; flags := flags;
      diagnostic_bytes := diagnostic_bytes |}.

Definition write (m : t) (destination : bytes) : R bytes :=
  _ ← require_destination_len destination RESULT_DROP_REASON_METADATA_LEN;
  _ ← validate_mask_u8 (flags m) RESULT_DROP_FLAGS_KNOWN_MASK;
  destination ← fill_zero destination RESULT_DROP_REASON_METADATA_LEN;
  destination ← write_u64 destination 0 (operation_id m);
  destination ← write_u64 destination 8 (result_sequence m);
  destination ← write_u16 destination 16 (drop_reason_code m);
  destination ← write_u8 destination 18 (source_role m);
  destination ← write_u8 destination 19 (flags m);
  destination ← write_u32 destination 20 (diagnostic_bytes m);
  Ok destination.

Definition to_bytes (m : t) : R bytes := write m (replicate RESULT_DROP_REASON_METADATA_LEN x00).

Definition layout (m : t) : list field :=
  [ F (KU 8) (operation_id m); F (KU 8) (result_sequence m); F (KU 2) (drop_reason_code m);
      F (KU 1) (source_role m); F (KU 1) (flags m); F (KU 4) (diagnostic_bytes m); F (KU 8) 0 ].

Definition guard (m : t) : bool := mask_ok 8 (flags m) RESULT_DROP_FLAGS_KNOWN_MASK.

Definition parse_with_diagnostics (source : bytes) : R (t * bytes) :=
  metadata ← parse source;
  diagnostics ← split_declared_tail source RESULT_DROP_REASON_METADATA_LEN (diagnostic_bytes metadata) "result_drop_reason.diagnostic_bytes";
  Ok (metadata, diagnostics).

Definition to_vec_with_diagnostics (m : t) (diagnostics : bytes) : R bytes :=
  _ ← require_declared_len "result_drop_reason.diagnostic_bytes" (diagnostic_bytes m) (len diagnostics);
  bytes ← to_bytes m;
  Ok (bytes ++ diagnostics).

End ResultDropReasonMetadata.

#[export] Instance ResultDropReasonMetadata_codec : WireCodec ResultDropReasonMetadata.t := {|
  codec_len := RESULT_DROP_REASON_METADATA_LEN;
  codec_shape := [KU 8; KU 8; KU 2; KU 1; KU 1; KU 4; KU 8 ];
  codec_parse := ResultDropReasonMetadata.parse;
  codec_write := ResultDropReasonMetadata.write;
  codec_layout := ResultDropReasonMetadata.layout;
  codec_guard := ResultDropReasonMetadata.guard |}.
#[export] Instance ResultDropReasonMetadata_codec_laws : WireCodecLaws ResultDropReasonMetadata.t.
Proof. solve_codec ResultDropReasonMetadata.parse ResultDropReasonMetadata.write ResultDropReasonMetadata.guard. Qed.
#[export] Instance ResultDropReasonMetadata_strict : StrictWireCodec ResultDropReasonMetadata.t.
Proof. solve_strict ResultDropReasonMetadata.write ResultDropReasonMetadata.guard. Qed.

#[export] Instance ResultDropReasonMetadata_tailed : TailedCodec ResultDropReasonMetadata.t := {|
  tail_field := "result_drop_reason.diagnostic_bytes";
  tail_declared := ResultDropReasonMetadata.diagnostic_bytes;
  tail_check := fun _ _ => Ok tt;
  parse_with_tail := ResultDropReasonMetadata.parse_with_diagnostics;
  to_vec_with_tail := ResultDropReasonMetadata.to_vec_with_diagnostics |}.
#[export] Instance ResultDropReasonMetadata_tailed_laws : TailedCodecLaws ResultDropReasonMetadata.t.
Proof. solve_tailed. Qed.

Module RecoverableErrorMetadata.

#[projections(primitive)]
Record t := mk {
  error_code : Z;
  error_scope : ErrorScope.t;
  recovery_action : Z;
  source_role : Z;
  flags : Z;
  retry_after_ms : Z;
  related_session_id : Z;
  related_frame_id : Z;
  related_view_id : Z;
  diagnostic_bytes : Z
}.

Definition parse (source : bytes) : R t :=
  _ ← require_len source RECOVERABLE_ERROR_METADATA_LEN;
  flags ← index source 11;
  _ ← validate_mask_u8 flags RECOVERABLE_ERROR_FLAGS_KNOWN_MASK;
  error_code ← read_u32 source 0;
  error_scope_raw ← read_u32 source 4;
  error_scope ← ErrorScope.try_from_u32 error_scope_raw;
  recovery_action ← read_u16 source 8;
  source_role ← index source 10;
  retry_after_ms ← read_u32 source 12;
  related_session_id ← read_u32 source 16;
  related_frame_id ← read_u32 source 20;
  related_view_id ← read_u32 source 24;
  diagnostic_bytes ← read_u32 source 28;
  Ok {| error_code := error_code; error_scope := error_scope;
      recovery_action := recovery_action; source_role := source_role; flags := flags;
      retry_after_ms := retry_after_ms; related_session_id := related_session_id;
      related_frame_id := related_frame_id; related_view_id := related_view_id;
      diagnostic_bytes := diagnostic_bytes |}.

Definition write (m : t) (destination : bytes) : R bytes :=
  _ ← require_destination_len destination RECOVERABLE_ERROR_METADATA_LEN;
  _ ← validate_mask_u8 (flags m) RECOVERABLE_ERROR_FLAGS_KNOWN_MASK;
  destination ← write_u32 destination 0 (error_code m);
  destination ← write_u32 destination 4 (ErrorScope.repr (error_scope m));
  destination ← write_u16 destination 8 (recovery_action m);
  destination ← write_u8 destination 10 (source_role m);
  destination ← write_u8 destination 11 (flags m);
  destination ← write_u32 destination 12 (retry_after_ms m);
  destination ← write_u32 destination 16 (related_session_id m);
  destination ← write_u32 destination 20 (related_frame_id m);
  destination ← write_u32 destination 24 (related_view_id m);
  destination ← write_u32 destination 28 (diagnostic_bytes m);
  Ok destination.

Definition to_bytes (m : t) : R bytes := write m (replicate RECOVERABLE_ERROR_METADATA_LEN x00).

Definition layout (m : t) : list field :=
  [ F (KU 4) (error_code m); F (KU 4) (ErrorScope.repr (error_scope m));
      F (KU 2) (recovery_action m); F (KU 1) (source_role m); F (KU 1) (flags m);
      F (KU 4) (retry_after_ms m); F (KU 4) (related_session_id m);
      F (KU 4) (related_frame_id m); F (KU 4) (related_view_id m);
      F (KU 4) (diagnostic_bytes m) ].

Definition guard (m : t) : bool := mask_ok 8 (flags m) RECOVERABLE_ERROR_FLAGS_KNOWN_MASK.

Definition parse_with_diagnostics (source : bytes) : R (t * bytes) :=
  metadata ← parse source;
  diagnostics ← split_declared_tail source RECOVERABLE_ERROR_METADATA_LEN (diagnostic_bytes metadata) "recoverable_error.diagnostic_bytes";
  Ok (metadata, diagnostics).

Definition to_vec_with_diagnostics (m : t) (diagnostics : bytes) : R bytes :=
  _ ← require_declared_len "recoverable_error.diagnostic_bytes" (diagnostic_bytes m) (len diagnostics);
  bytes ← to_bytes m;
  Ok (bytes ++ diagnostics).

End RecoverableErrorMetadata.

#[export] Instance RecoverableErrorMetadata_codec : WireCodec RecoverableErrorMetadata.t := {|
  codec_len := RECOVERABLE_ERROR_METADATA_LEN;
  codec_shape := [KU 4; KU 4; KU 2; KU 1; KU 1; KU 4; KU 4; KU 4; KU 4; KU 4 ];
  codec_parse := RecoverableErrorMetadata.parse;
  codec_write := RecoverableErrorMetadata.write;
  codec_layout := RecoverableErrorMetadata.layout;
  codec_guard := RecoverableErrorMetadata.guard |}.
#[export] Instance RecoverableErrorMetadata_codec_laws : WireCodecLaws RecoverableErrorMetadata.t.
Proof. solve_codec RecoverableErrorMetadata.parse RecoverableErrorMetadata.write RecoverableErrorMetadata.guard. Qed.
#[export] Instance RecoverableErrorMetadata_strict : StrictWireCodec RecoverableErrorMetadata.t.
Proof. solve_strict RecoverableErrorMetadata.write RecoverableErrorMetadata.guard. Qed.

#[export] Instance RecoverableErrorMetadata_tailed : TailedCodec RecoverableErrorMetadata.t := {|
  tail_field := "recoverable_error.diagnostic_bytes";
  tail_declared := RecoverableErrorMetadata.diagnostic_bytes;
  tail_check := fun _ _ => Ok tt;
  parse_with_tail := RecoverableErrorMetadata.parse_with_diagnostics;
  to_vec_with_tail := RecoverableErrorMetadata.to_vec_with_diagnostics |}.
#[export] Instance RecoverableErrorMetadata_tailed_laws : TailedCodecLaws RecoverableErrorMetadata.t.
Proof. solve_tailed. Qed.

Module RetryAfterMetadata.

#[projections(primitive)]
Record t := mk {
  scope_id : Z;
  control_sequence : Z;
  retry_after_ms : Z;
  jitter_ms : Z;
  reason_code : Z;
  source_role : Z;
  flags : Z;
  diagnostic_bytes : Z
}.

Definition parse (source : bytes) : R t :=
  _ ← require_len source RETRY_AFTER_METADATA_LEN;
  flags ← index source 27;
  _ ← validate_mask_u8 flags RETRY_AFTER_FLAGS_KNOWN_MASK;
  scope_id ← read_u64 source 0;
  control_sequence ← read_u64 source 8;
  retry_after_ms ← read_u32 source 16;
  jitter_ms ← read_u32 source 20;
  reason_code ← read_u16 source 24;
  source_role ← index source 26;
  diagnostic_bytes ← read_u32 source 28;
  Ok {| scope_id := scope_id; control_sequence := control_sequence;
      retry_after_ms := retry_after_ms; jitter_ms := jitter_ms; reason_code := reason_code;
      source_role := source_role; flags := flags; diagnostic_bytes := diagnostic_bytes |}.

Definition write (m : t) (destination : bytes) : R bytes :=
  _ ← require_destination_len destination RETRY_AFTER_METADATA_LEN;
  _ ← validate_mask_u8 (flags m) RETRY_AFTER_FLAGS_KNOWN_MASK;
  destination ← write_u64 destination 0 (scope_id m);
  destination ← write_u64 destination 8 (control_sequence m);
  destination ← write_u32 destination 16 (retry_after_ms m);
  destination ← write_u32 destination 20 (jitter_ms m);
  destination ← write_u16 destination 24 (reason_code m);
  destination ← write_u8 destination 26 (source_role m);
  destination ← write_u8 destination 27 (flags m);
  destination ← write_u32 destination 28 (diagnostic_bytes m);
  Ok destination.

Definition to_bytes (m : t) : R bytes := write m (replicate RETRY_AFTER_METADATA_LEN x00).

Definition layout (m : t) : list field :=
  [ F (KU 8) (scope_id m); F (KU 8) (control_sequence m); F (KU 4) (retry_after_ms m);
      F (KU 4) (jitter_ms m); F (KU 2) (reason_code m); F (KU 1) (source_role m);
      F (KU 1) (flags m); F (KU 4) (diagnostic_bytes m) ].

Definition guard (m : t) : bool := mask_ok 8 (flags m) RETRY_AFTER_FLAGS_KNOWN_MASK.

Definition parse_with_diagnostics (source : bytes) : R (t * bytes) :=
  metadata ← parse source;
  diagnostics ← split_declared_tail source RETRY_AFTER_METADATA_LEN (diagnostic_bytes metadata) "retry_after.diagnostic_bytes";
  Ok (metadata, diagnostics).

Definition to_vec_with_diagnostics (m : t) (diagnostics : bytes) : R bytes :=
  _ ← require_declared_len "retry_after.diagnostic_bytes" (diagnostic_bytes m) (len diagnostics);
  bytes ← to_bytes m;
  Ok (bytes ++ diagnostics).

End RetryAfterMetadata.

#[export] Instance RetryAfterMetadata_codec : WireCodec RetryAfterMetadata.t := {|
  codec_len := RETRY_AFTER_METADATA_LEN;
  codec_shape := [KU 8; KU 8; KU 4; KU 4; KU 2; KU 1; KU 1; KU 4 ];
  codec_parse := RetryAfterMetadata.parse;
  codec_write := RetryAfterMetadata.write;
  codec_layout := RetryAfterMetadata.layout;
  codec_guard := RetryAfterMetadata.guard |}.
#[export] Instance RetryAfterMetadata_codec_laws : WireCodecLaws RetryAfterMetadata.t.
Proof. solve_codec RetryAfterMetadata.parse RetryAfterMetadata.write RetryAfterMetadata.guard. Qed.
#[export] Instance RetryAfterMetadata_strict : StrictWireCodec RetryAfterMetadata.t.
Proof. solve_strict RetryAfterMetadata.write RetryAfterMetadata.guard. Qed.

#[export] Instance RetryAfterMetadata_tailed : TailedCodec RetryAfterMetadata.t := {|
  tail_field := "retry_after.diagnostic_bytes";
  tail_declared := RetryAfterMetadata.diagnostic_bytes;
  tail_check := fun _ _ => Ok tt;
  parse_with_tail := RetryAfterMetadata.parse_with_diagnostics;
  to_vec_with_tail := RetryAfterMetadata.to_vec_with_diagnostics |}.
#[export] Instance RetryAfterMetadata_tailed_laws : TailedCodecLaws RetryAfterMetadata.t.
Proof. solve_tailed. Qed.

(** ** Semantic checks *)

Definition validate_control_request_semantics
    (message_type : MessageType.t) (metadata : ControlRequestMetadata.t) : R unit :=
  _ ← match message_type with
      | MessageType.Cancel | MessageType.Abort => Ok tt
      | _ => Err (InvalidProtocolCombination "control request metadata requires CANCEL or ABORT")
      end;
  validate_standard_role (ControlRequestMetadata.source_role metadata).

Definition validate_scheduling_semantics
    (message_type : MessageType.t) (metadata : SchedulingMetadata.t) : R unit :=
  match message_type with
  | MessageType.PriorityUpdate => Ok tt
  | MessageType.Deadline | MessageType.ExpireAt =>
      reject_if (SchedulingMetadata.deadline_unix_ms metadata =? 0)
        (InvalidProtocolCombination "DEADLINE and EXPIRE_AT require deadline_unix_ms")
  | _ =>
      Err (InvalidProtocolCombination
             "scheduling metadata requires PRIORITY_UPDATE, DEADLINE, or EXPIRE_AT")
  end.

Definition validate_progress_semantics (metadata : ProgressMetadata.t) : R unit :=
  reject_if (ProgressMetadata.operation_id metadata =? 0)
    (InvalidProtocolCombination "PROGRESS requires a non-zero operation_id").

Definition validate_partial_result_semantics (metadata : PartialResultMetadata.t) : R unit :=
  _ ← reject_if (PartialResultMetadata.operation_id metadata =? 0)
        (InvalidProtocolCombination "PARTIAL_RESULT requires a non-zero operation_id");
  _ ← reject_if (negb (Z.land (PartialResultMetadata.flags metadata) 0x0000_0002 =? 0)
                 && (PartialResultMetadata.object_id metadata =? 0))
        (InvalidProtocolCombination "PARTIAL_RESULT object-ref flag requires object_id");
  reject_if ((PartialResultMetadata.body_bytes metadata =? 0)
             && (PartialResultMetadata.object_id metadata =? 0))
    (InvalidProtocolCombination "PARTIAL_RESULT requires inline body bytes or object_id").

Definition validate_pressure_semantics
    (message_type : MessageType.t) (metadata : PressureMetadata.t) : R unit :=
  match message_type with
  | MessageType.Backpressure =>
      _ ← reject_if (PressureMetadata.pressure_level metadata =? 0)
            (InvalidProtocolCombination "BACKPRESSURE requires non-zero pressure_level");
      validate_pressure_level (PressureMetadata.pressure_level metadata)
  | MessageType.CreditUpdate => Ok tt
  | _ =>
      Err (InvalidProtocolCombination "pressure metadata requires BACKPRESSURE or CREDIT_UPDATE")
  end.

Definition validate_trace_context_semantics (metadata : TraceContextMetadata.t) : R unit :=
  reject_if ((TraceContextMetadata.trace_id metadata =? 0)
             || (TraceContextMetadata.span_id metadata =? 0))
    (InvalidProtocolCombination "TRACE_CONTEXT requires non-zero trace_id and span_id").

Definition validate_result_drop_reason_semantics (metadata : ResultDropReasonMetadata.t) : R unit :=
  _ ← reject_if (ResultDropReasonMetadata.operation_id metadata =? 0)
        (InvalidProtocolCombination "RESULT_DROP_REASON requires a non-zero operation_id");
  _ ← reject_if (ResultDropReasonMetadata.drop_reason_code metadata =? 0)
        (InvalidProtocolCombination "RESULT_DROP_REASON requires a non-zero drop_reason_code");
  validate_standard_role (ResultDropReasonMetadata.source_role metadata).

(** ** Trace context with the error context of a failed decode *)

Definition trace_context_ids_from_source (source : bytes) : R (option TraceContextMetadata.Ids) :=
  if len source <? 24 then Ok None
  else
    trace_id ← read_u64 source 0;
    span_id ← read_u64 source 8;
    parent_span_id ← read_u64 source 16;
    Ok (Some {| TraceContextMetadata.ids_trace_id := trace_id;
                TraceContextMetadata.ids_span_id := span_id;
                TraceContextMetadata.ids_parent_span_id := parent_span_id |}).

Definition parse_with_body_and_error_context (source : bytes)
    : Outcome TraceContextMetadata.DecodeError (TraceContextMetadata.t * bytes) :=
  let decoded : R (TraceContextMetadata.t * bytes) :=
    p ← TraceContextMetadata.parse_with_body source;
    _ ← validate_trace_context_semantics (fst p);
    Ok p in
  match decoded with
  | Ok p => Ok p
  | Err error =>
      match trace_context_ids_from_source source with
      | Ok trace =>
          Err {| TraceContextMetadata.trace := trace; TraceContextMetadata.error := error |}
      | _ => Panic
      end
  | Panic => Panic
  end.
