(* ===== verification/Operation.v ===== *)
(** The operation registry ([src/crates/nnrp-core/src/operation.rs]).

    Operations form a forest (each has an optional parent), may belong to a group, and
    move through the states of [OperationState].  The [BTreeMap] is a [gmap]; where
    the source iterates over it, the model sorts by key.

    The second half of the file gives the contract: the invariant of the
    registries a program can reach, what [cancel] cancels, and that a terminal
    operation never changes again. *)

From S2P Require Import Prelude Bytes Errors Enums Wire RuntimeControl.

Local Open Scope Z_scope.

Module OperationDescriptor.

Record t := mk {
  session_id : Z;
  operation_id : Z;
  parent_operation_id : option Z;
  operation_group_id : option Z
}.

Definition new (session_id operation_id : Z) : t := {|
  session_id := session_id;
  operation_id := operation_id;
  parent_operation_id := None;
  operation_group_id := None |}.

End OperationDescriptor.

Module OperationSchedule.

Record t := mk {
  priority_class : Z;
  priority_delta : Z;
  deadline_unix_ms : Z;
  expire_at_unix_ms : Z;
  update_sequence : Z;
  flags : Z
}.

Definition default : t := mk 0 0 0 0 0 0.

Definition set_update_sequence (self : t) (v : Z) : t := {|
  priority_class := priority_class self; priority_delta := priority_delta self;
  deadline_unix_ms := deadline_unix_ms self; expire_at_unix_ms := expire_at_unix_ms self;
  update_sequence := v; flags := flags self |}.

Definition set_priority (self : t) (class delta : Z) : t := {|
  priority_class := class; priority_delta := delta;
  deadline_unix_ms := deadline_unix_ms self; expire_at_unix_ms := expire_at_unix_ms self;
  update_sequence := update_sequence self; flags := flags self |}.

Definition set_deadline (self : t) (v : Z) : t := {|
  priority_class := priority_class self; priority_delta := priority_delta self;
  deadline_unix_ms := v; expire_at_unix_ms := expire_at_unix_ms self;
  update_sequence := update_sequence self; flags := flags self |}.

Definition set_expire_at (self : t) (v flags : Z) : t := {|
  priority_class := priority_class self; priority_delta := priority_delta self;
  deadline_unix_ms := deadline_unix_ms self; expire_at_unix_ms := v;
  update_sequence := update_sequence self; flags := flags |}.

End OperationSchedule.

Module OperationRecord.

Record t := mk {
  descriptor : OperationDescriptor.t;
  state : OperationState.t;
  schedule : OperationSchedule.t
}.

(** [record.state = s] and [record.schedule = s]. *)
Definition set_state (self : t) (s : OperationState.t) : t :=
  {| descriptor := descriptor self; state := s; schedule := schedule self |}.
Definition set_schedule (self : t) (s : OperationSchedule.t) : t :=
  {| descriptor := descriptor self; state := state self; schedule := s |}.

Definition parent (self : t) : option Z := OperationDescriptor.parent_operation_id (descriptor self).
Definition group (self : t) : option Z := OperationDescriptor.operation_group_id (descriptor self).
Definition session (self : t) : Z := OperationDescriptor.session_id (descriptor self).
Definition id (self : t) : Z := OperationDescriptor.operation_id (descriptor self).

End OperationRecord.

Module OperationCancelRequest.

Record t := mk { session_id : Z; operation_id : Z; cancel_scope : CancelScope.t }.

End OperationCancelRequest.

Definition validate_descriptor_shape (descriptor : OperationDescriptor.t) : R unit :=
  _ ← reject_if (OperationDescriptor.session_id descriptor =? 0)
        (InvalidOperationRelationship "operation session_id must be non-zero");
  _ ← reject_if (OperationDescriptor.operation_id descriptor =? 0)
        (InvalidOperationRelationship "operation_id must be non-zero");
  _ ← reject_if (bool_decide (OperationDescriptor.parent_operation_id descriptor
                              = Some (OperationDescriptor.operation_id descriptor)))
        (InvalidOperationRelationship "operation cannot be its own parent");
  reject_if (bool_decide (OperationDescriptor.operation_group_id descriptor = Some 0))
    (InvalidOperationRelationship "operation_group_id must be non-zero when present").

Module OperationRegistry.

Record t := mk { operations : gmap Z OperationRecord.t }.

Definition new : t := {| operations := ∅ |}.

Definition operation_count (self : t) : nat := size (operations self).

Definition operation (self : t) (operation_id : Z) : option OperationRecord.t :=
  operations self !! operation_id.

(** A store through [get_mut] or [insert]. *)
Definition store (self : t) (operation_id : Z) (record : OperationRecord.t) : t :=
  {| operations := <[operation_id := record]> (operations self) |}.

Definition entry_le (a b : Z * OperationRecord.t) : Prop := a.1 <= b.1.
#[global] Instance entry_le_dec : RelDecision entry_le.
Proof. intros a b. unfold entry_le. apply _. Defined.

(** [operations.values()], in the order of the keys. *)
Definition values (self : t) : list OperationRecord.t :=
  (merge_sort entry_le (map_to_list (operations self))).*2.

Definition register (descriptor : OperationDescriptor.t) : Method t NnrpError unit := fun self =>
  let checked : R unit :=
    _ ← validate_descriptor_shape descriptor;
    _ ← reject_if (is_some (operations self !! OperationDescriptor.operation_id descriptor))
          (OperationAlreadyExists (OperationDescriptor.operation_id descriptor));
    match OperationDescriptor.parent_operation_id descriptor with
    | None => Ok tt
    | Some parent_operation_id =>
        parent ← ok_or (operations self !! parent_operation_id)
                   (UnknownOperation parent_operation_id);
        reject_if (negb (OperationRecord.session parent
                         =? OperationDescriptor.session_id descriptor))
          (InvalidOperationRelationship "parent operation must belong to the same session")
    end in
  match checked with
  | Ok _ =>
      (Ok tt,
       store self (OperationDescriptor.operation_id descriptor)
         {| OperationRecord.descriptor := descriptor;
            OperationRecord.state := OperationState.Accepted;
            OperationRecord.schedule := OperationSchedule.default |})
  | Err e => (Err e, self)
  | Panic => (Panic, self)
  end.

Definition transition (operation_id : Z) (next_state : OperationState.t)
    : Method t NnrpError unit := fun self =>
  match operations self !! operation_id with
  | None => (Err (UnknownOperation operation_id), self)
  | Some record =>
      if negb (OperationState.can_transition_to (OperationRecord.state record) next_state)
      then (Err (InvalidOperationTransition (OperationRecord.state record) next_state), self)
      else (Ok tt, store self operation_id (OperationRecord.set_state record next_state))
  end.

Definition complete (operation_id : Z) : Method t NnrpError unit := fun self =>
  match operations self !! operation_id with
  | None => (Err (UnknownOperation operation_id), self)
  | Some record =>
      if OperationState.is_terminal (OperationRecord.state record)
      then (Err (InvalidOperationTransition (OperationRecord.state record)
                   OperationState.Completed), self)
      else
        let record :=
          if bool_decide (OperationRecord.state record = OperationState.Accepted)
          then OperationRecord.set_state record OperationState.Running else record in
        let self := store self operation_id record in
        if negb (OperationState.can_transition_to (OperationRecord.state record)
                   OperationState.Completed)
        then (Err (InvalidOperationTransition (OperationRecord.state record)
                     OperationState.Completed), self)
        else
          (Ok tt, store self operation_id (OperationRecord.set_state record OperationState.Completed))
  end.

Definition abort (operation_id : Z) : Method t NnrpError unit := fun self =>
  match operations self !! operation_id with
  | None => (Err (UnknownOperation operation_id), self)
  | Some record =>
      if negb (OperationState.can_transition_to (OperationRecord.state record)
                 OperationState.Failed)
      then (Err (InvalidOperationTransition (OperationRecord.state record)
                   OperationState.Failed), self)
      else (Ok tt, store self operation_id (OperationRecord.set_state record OperationState.Failed))
  end.

(** The stale discard is enabled, has a time, and the time has come. *)
Definition expired (schedule : OperationSchedule.t) (now_unix_ms : Z) : bool :=
  negb ((Z.land (OperationSchedule.flags schedule) SCHEDULING_FLAG_DISCARD_STALE =? 0)
        || (OperationSchedule.expire_at_unix_ms schedule =? 0)
        || (now_unix_ms <? OperationSchedule.expire_at_unix_ms schedule)).

Definition expire_if_stale (operation_id now_unix_ms : Z)
    : Method t NnrpError (option OperationSchedule.t) := fun self =>
  match operations self !! operation_id with
  | None => (Err (UnknownOperation operation_id), self)
  | Some record =>
      if OperationState.is_terminal (OperationRecord.state record) then (Ok None, self)
      else if negb (expired (OperationRecord.schedule record) now_unix_ms) then (Ok None, self)
      else if negb (OperationState.can_transition_to (OperationRecord.state record)
                      OperationState.Superseded)
      then (Err (InvalidOperationTransition (OperationRecord.state record)
                   OperationState.Superseded), self)
      else (Ok (Some (OperationRecord.schedule record)),
            store self operation_id (OperationRecord.set_state record OperationState.Superseded))
  end.

Definition apply_scheduling_update
    (session_id : Z) (message_type : MessageType.t) (metadata : SchedulingMetadata.t)
    : Method t NnrpError OperationSchedule.t := fun self =>
  let operation_id := SchedulingMetadata.operation_id metadata in
  match operations self !! operation_id with
  | None => (Err (UnknownOperation operation_id), self)
  | Some record =>
      if negb (OperationRecord.session record =? session_id)
      then (Err (InvalidOperationRelationship
                   "scheduling update session_id must match the target operation"), self)
      else if OperationState.is_terminal (OperationRecord.state record)
      then (Err (InvalidOperationTransition (OperationRecord.state record)
                   (OperationRecord.state record)), self)
      else
        let schedule :=
          OperationSchedule.set_update_sequence (OperationRecord.schedule record)
            (SchedulingMetadata.control_sequence metadata) in
        (* the sequence number is stored before the message type is looked at *)
        let self := store self operation_id (OperationRecord.set_schedule record schedule) in
        let finish (schedule : OperationSchedule.t) :=
          (Ok schedule, store self operation_id (OperationRecord.set_schedule record schedule)) in
        match message_type with
        | MessageType.PriorityUpdate =>
            finish (OperationSchedule.set_priority schedule
                      (SchedulingMetadata.priority_class metadata)
                      (SchedulingMetadata.priority_delta metadata))
        | MessageType.Deadline =>
            finish (OperationSchedule.set_deadline schedule
                      (SchedulingMetadata.deadline_unix_ms metadata))
        | MessageType.ExpireAt =>
            finish (OperationSchedule.set_expire_at schedule
                      (SchedulingMetadata.deadline_unix_ms metadata)
                      (SchedulingMetadata.flags metadata))
        | _ =>
            (Err (InvalidProtocolCombination
                    "scheduling update requires PRIORITY_UPDATE, DEADLINE, or EXPIRE_AT"), self)
        end
  end.

(** ** Cancellation *)

(** The ids of the records whose parent is [operation_id]. *)
Definition children (vs : list OperationRecord.t) (operation_id : Z) : list Z :=
  OperationRecord.id <$>
    filter (fun r => OperationRecord.parent r = Some operation_id) vs.

(** The [while let Some(operation_id) = stack.pop()] loop; the head of the list is the
    top of the stack.  [None] means that the fuel ran out. *)
Fixpoint subtree_loop (fuel : nat) (vs : list OperationRecord.t) (collected : gset Z)
    (stack : list Z) : option (gset Z) :=
  match stack with
  | [] => Some collected
  | operation_id :: stack =>
      match fuel with
      | O => None
      | S fuel =>
          if decide (operation_id ∈ collected) then subtree_loop fuel vs collected stack
          else subtree_loop fuel vs ({[operation_id]} ∪ collected)
                 (reverse (children vs operation_id) ++ stack)
      end
  end.

(** Every record is pushed at most once, by its parent: one more turn than there are
    records is enough. *)
Definition subtree_operation_ids (self : t) (root_operation_id : Z) : R (list Z) :=
  let vs := values self in
  expect (elements <$> subtree_loop (S (length vs)) vs ∅ [root_operation_id]).

Definition group_operation_ids (self : t) (operation_group_id : option Z) : R (list Z) :=
  operation_group_id ← ok_or operation_group_id
    (InvalidOperationRelationship
       "group cancel requires the target operation to have an operation_group_id");
  Ok (OperationRecord.id <$>
        filter (fun r => OperationRecord.group r = Some operation_group_id) (values self)).

Definition session_operation_ids (self : t) (session_id : Z) : list Z :=
  OperationRecord.id <$> filter (fun r => OperationRecord.session r = session_id) (values self).

(** The loop over the collected ids: the ids cancelled so far. *)
Fixpoint cancel_loop (ids cancelled : list Z) : Method t NnrpError (list Z) := fun self =>
  match ids with
  | [] => (Ok cancelled, self)
  | operation_id :: ids =>
      match operations self !! operation_id with
      | None => (Panic, self)
      | Some record =>
          if negb (OperationState.is_terminal (OperationRecord.state record))
          then cancel_loop ids (cancelled ++ [operation_id])
                 (store self operation_id
                    (OperationRecord.set_state record OperationState.Cancelled))
          else cancel_loop ids cancelled self
      end
  end.

(** The first half of [cancel]: the request is checked and the ids are collected. *)
Definition cancel_ids (self : t) (request : OperationCancelRequest.t) : R (list Z) :=
  target ← ok_or (operations self !! OperationCancelRequest.operation_id request)
             (UnknownOperation (OperationCancelRequest.operation_id request));
  _ ← reject_if (negb (OperationRecord.session target
                       =? OperationCancelRequest.session_id request))
        (InvalidOperationRelationship
           "cancel request session_id must match the target operation");
  match OperationCancelRequest.cancel_scope request with
  | CancelScope.Operation => Ok [OperationCancelRequest.operation_id request]
  | CancelScope.Subtree =>
      subtree_operation_ids self (OperationCancelRequest.operation_id request)
  | CancelScope.Group => group_operation_ids self (OperationRecord.group target)
  | CancelScope.Session =>
      Ok (session_operation_ids self (OperationCancelRequest.session_id request))
  end.

Definition cancel (request : OperationCancelRequest.t) : Method t NnrpError (list Z) := fun self =>
  match cancel_ids self request with
  | Ok operation_ids => cancel_loop (merge_sort Z.le operation_ids) [] self
  | Err e => (Err e, self)
  | Panic => (Panic, self)
  end.

(** ** The calls of a program *)

Inductive call :=
| Register (descriptor : OperationDescriptor.t)
| Transition (operation_id : Z) (next_state : OperationState.t)
| Complete (operation_id : Z)
| Abort (operation_id : Z)
| ExpireIfStale (operation_id now_unix_ms : Z)
| ApplySchedulingUpdate (session_id : Z) (message_type : MessageType.t)
    (metadata : SchedulingMetadata.t)
| Cancel (request : OperationCancelRequest.t).

(** The registry after a call, whatever the call returns. *)
Definition exec (c : call) (self : t) : t :=
  match c with
  | Register d => state_after (register d) self
  | Transition i s => state_after (transition i s) self
  | Complete i => state_after (complete i) self
  | Abort i => state_after (abort i) self
  | ExpireIfStale i now => state_after (expire_if_stale i now) self
  | ApplySchedulingUpdate s mt md => state_after (apply_scheduling_update s mt md) self
  | Cancel r => state_after (cancel r) self
  end.

Definition step (self self' : t) : Prop := exists c, self' = exec c self.
Definition reachable (self : t) : Prop := rtc step new self.

(** ** Records only move forward *)

(** A transition the state machine allows. *)
Definition allowed (s s' : OperationState.t) : Prop := OperationState.can_transition_to s s' = true.

(** What can happen to a record: its descriptor stays, its state follows allowed
    transitions, and once terminal it is frozen. *)
Definition evolves (r r' : OperationRecord.t) : Prop :=
  OperationRecord.descriptor r' = OperationRecord.descriptor r /\
  rtc allowed (OperationRecord.state r) (OperationRecord.state r') /\
  (OperationState.is_terminal (OperationRecord.state r) = true -> r' = r).

#[global] Instance evolves_refl : Reflexive evolves.
Proof. intros r. by split_and!. Qed.

#[global] Instance evolves_trans : Transitive evolves.
Proof.
  intros r1 r2 r3 (Hd1 & Hs1 & Ht1) (Hd2 & Hs2 & Ht2). split_and!.
  - congruence.
  - by etrans.
  - intros Ht. pose proof (Ht1 Ht) as ->. auto.
Qed.

(** Every record of [self] is still there in [self'], evolved. *)
Definition preserves (self self' : t) : Prop :=
  forall k r, operations self !! k = Some r ->
    exists r', operations self' !! k = Some r' /\ evolves r r'.

#[global] Instance preserves_refl : Reflexive preserves.
Proof. intros self k r Hr. by exists r. Qed.

#[global] Instance preserves_trans : Transitive preserves.
Proof.
  intros s1 s2 s3 H12 H23 k r Hr. destruct (H12 _ _ Hr) as (r2 & Hr2 & He).
  destruct (H23 _ _ Hr2) as (r3 & Hr3 & He'). exists r3. split; [done|by etrans].
Qed.

(** The descriptors by id: what relations between operations are made of. *)
Definition descriptors (self : t) : gmap Z OperationDescriptor.t :=
  OperationRecord.descriptor <$> operations self.

Lemma store_preserves self k r r' :
  operations self !! k = Some r -> evolves r r' -> preserves self (store self k r').
Proof.
  intros Hk He k' r0 Hr0. simpl. destruct (decide (k' = k)) as [->|Hne].
  - rewrite lookup_insert_eq. exists r'. by simplify_eq.
  - rewrite lookup_insert_ne by done. by exists r0.
Qed.

Lemma store_descriptors self k r r' :
  operations self !! k = Some r ->
  OperationRecord.descriptor r' = OperationRecord.descriptor r ->
  descriptors (store self k r') = descriptors self.
Proof.
  intros Hk Hd. unfold descriptors. simpl. rewrite fmap_insert, Hd.
  apply insert_id. by rewrite lookup_fmap, Hk.
Qed.

Lemma evolves_state r s :
  rtc allowed (OperationRecord.state r) s ->
  OperationState.is_terminal (OperationRecord.state r) = false ->
  evolves r (OperationRecord.set_state r s).
Proof. intros Hs Ht. split_and!; [done|done|]. congruence. Qed.

Lemma evolves_schedule r s :
  OperationState.is_terminal (OperationRecord.state r) = false ->
  evolves r (OperationRecord.set_schedule r s).
Proof. intros Ht. split_and!; [done|done|]. congruence. Qed.

Lemma allowed_not_terminal s s' : allowed s s' -> OperationState.is_terminal s = false.
Proof. unfold allowed, OperationState.can_transition_to. by destruct (OperationState.is_terminal s). Qed.

Lemma evolves_allowed r s :
  allowed (OperationRecord.state r) s -> evolves r (OperationRecord.set_state r s).
Proof. intros Ha. apply evolves_state; [by apply rtc_once|by eapply allowed_not_terminal]. Qed.

(** A live operation may be cancelled. *)
Lemma live_cancellable s : OperationState.is_terminal s = false -> allowed s OperationState.Cancelled.
Proof. by destruct s. Qed.

(** A call that changes one record. *)
Lemma store_step self k r r' :
  operations self !! k = Some r -> evolves r r' ->
  preserves self (store self k r') /\ descriptors (store self k r') = descriptors self.
Proof.
  intros Hk He. split; [by eapply store_preserves|].
  eapply store_descriptors; [exact Hk|]. apply He.
Qed.

Lemma cancel_loop_step ids cancelled self :
  preserves self (state_after (cancel_loop ids cancelled) self) /\
  descriptors (state_after (cancel_loop ids cancelled) self) = descriptors self.
Proof.
  unfold state_after. revert cancelled self.
  induction ids as [|k ids IH]; intros cancelled self; simpl; [done|].
  destruct (operations self !! k) as [r|] eqn:Hk; [|done]. case_match eqn:Ht; [|apply IH].
  apply negb_true_iff in Ht.
  destruct (store_step self k r (OperationRecord.set_state r OperationState.Cancelled) Hk
    (evolves_allowed _ _ (live_cancellable _ Ht))) as [Hp Hd].
  destruct (IH (cancelled ++ [k]) (store self k (OperationRecord.set_state r OperationState.Cancelled)))
    as [Hp' Hd']. split; [by etrans|congruence].
Qed.

Lemma complete_step i self :
  preserves self (snd (complete i self)) /\ descriptors (snd (complete i self)) = descriptors self.
Proof.
  unfold complete. destruct (operations self !! i) as [r|] eqn:Hi; [|done].
  destruct (OperationState.is_terminal _) eqn:Ht; [done|]. cbv zeta.
  set (r' := if bool_decide _ then _ else _).
  assert (evolves r r') as He.
  { unfold r'. case_bool_decide as Ha; [|done]. apply evolves_allowed. unfold allowed. by rewrite Ha. }
  destruct (store_step _ _ _ _ Hi He) as [Hp Hd].
  case_match eqn:Hc; [done|]. apply negb_false_iff in Hc.
  destruct (store_step (store self i r') i r' (OperationRecord.set_state r' OperationState.Completed))
    as [Hp' Hd']; [apply lookup_insert_eq|by apply evolves_allowed|].
  split; [by etrans|by rewrite <- Hd, <- Hd'].
Qed.

Lemma scheduling_step sid mt md self :
  preserves self (snd (apply_scheduling_update sid mt md self)) /\
  descriptors (snd (apply_scheduling_update sid mt md self)) = descriptors self.
Proof.
  unfold apply_scheduling_update. destruct (operations self !! _) as [r|] eqn:Hi; [|done].
  case_match; [done|]. destruct (OperationState.is_terminal _) eqn:Ht; [done|]. cbv zeta.
  set (k := SchedulingMetadata.operation_id md) in *.
  set (self1 := store self k _).
  assert (forall s, preserves self (store self1 k (OperationRecord.set_schedule r s)) /\
    descriptors (store self1 k (OperationRecord.set_schedule r s)) = descriptors self) as Hs.
  { intros s. replace (store self1 k _) with (store self k (OperationRecord.set_schedule r s))
      by (unfold store, self1; simpl; by rewrite insert_insert_eq).
    by apply (store_step _ _ r); [|apply evolves_schedule]. }
  destruct mt; try apply Hs; by apply (store_step _ _ r); [|apply evolves_schedule].
Qed.

Definition is_register (c : call) : bool := match c with Register _ => true | _ => false end.

(** Every call other than [register] changes existing records only. *)
Lemma exec_step c self :
  is_register c = false ->
  preserves self (exec c self) /\ descriptors (exec c self) = descriptors self.
Proof.
  destruct c as [d|i s|i|i|i now|sid mt md|req]; intros Hc; [done|..];
    cbn [exec]; unfold state_after.
  - unfold transition. destruct (operations self !! i) as [r|] eqn:Hi; [|done].
    case_match eqn:Ha; [done|]. apply negb_false_iff in Ha.
    by apply (store_step _ _ r); [|apply evolves_allowed].
  - apply complete_step.
  - unfold abort. destruct (operations self !! i) as [r|] eqn:Hi; [|done].
    case_match eqn:Ha; [done|]. apply negb_false_iff in Ha.
    by apply (store_step _ _ r); [|apply evolves_allowed].
  - unfold expire_if_stale. destruct (operations self !! i) as [r|] eqn:Hi; [|done].
    do 2 (case_match; [done|]). case_match eqn:Ha; [done|]. apply negb_false_iff in Ha.
    by apply (store_step _ _ r); [|apply evolves_allowed].
  - apply scheduling_step.
  - unfold cancel. case_match; [|done|done]. apply cancel_loop_step.
Qed.

(** ** The invariant *)

(** An id and its descriptor agree, ids are not zero, and a parent is a registered
    operation of the same session. *)
Definition well_formed (ds : gmap Z OperationDescriptor.t) : Prop :=
  forall k d, ds !! k = Some d ->
    OperationDescriptor.operation_id d = k /\ k <> 0 /\ OperationDescriptor.session_id d <> 0 /\
    OperationDescriptor.operation_group_id d <> Some 0 /\
    forall p, OperationDescriptor.parent_operation_id d = Some p ->
      exists dp, ds !! p = Some dp /\
        OperationDescriptor.session_id dp = OperationDescriptor.session_id d.

(** [c] is a child of [p]. *)
Definition child (ds : gmap Z OperationDescriptor.t) (p c : Z) : Prop :=
  exists d, ds !! c = Some d /\ OperationDescriptor.parent_operation_id d = Some p.

(** Parents come before their children in some numbering: the relation is a forest. *)
Definition forest (ds : gmap Z OperationDescriptor.t) : Prop :=
  exists rank : Z -> nat, forall p c, child ds p c -> (rank p < rank c)%nat.

Definition invariant (self : t) : Prop :=
  well_formed (descriptors self) /\ forest (descriptors self).

Lemma descriptors_lookup self k :
  descriptors self !! k = OperationRecord.descriptor <$> operations self !! k.
Proof. apply lookup_fmap. Qed.

Lemma validate_descriptor_shape_Ok d :
  validate_descriptor_shape d = Ok tt <->
  OperationDescriptor.session_id d <> 0 /\ OperationDescriptor.operation_id d <> 0 /\
  OperationDescriptor.parent_operation_id d <> Some (OperationDescriptor.operation_id d) /\
  OperationDescriptor.operation_group_id d <> Some 0.
Proof.
  unfold validate_descriptor_shape. rewrite bind_Ok. setoid_rewrite reject_if_Ok.
  split.
  - intros (_ & H1%Z.eqb_neq & H2). apply bind_Ok in H2 as (_ & H2%reject_if_Ok & H3).
    apply bind_Ok in H3 as (_ & H3%reject_if_Ok & H4%reject_if_Ok).
    rewrite bool_decide_eq_false in H3, H4. by apply Z.eqb_neq in H2.
  - intros (H1 & H2 & H3 & H4). exists tt. rewrite Z.eqb_neq. split; [done|].
    rewrite (proj2 (Z.eqb_neq _ _) H2), !bool_decide_eq_false_2 by done. done.
Qed.

(** The guards of [register], as one condition. *)
Definition registrable (self : t) (d : OperationDescriptor.t) : Prop :=
  validate_descriptor_shape d = Ok tt /\
  operations self !! OperationDescriptor.operation_id d = None /\
  forall p, OperationDescriptor.parent_operation_id d = Some p ->
    exists rp, operations self !! p = Some rp /\
      OperationRecord.session rp = OperationDescriptor.session_id d.

Lemma register_Ok d self self' :
  register d self = (Ok tt, self') <->
  registrable self d /\
  self' = store self (OperationDescriptor.operation_id d)
            {| OperationRecord.descriptor := d;
               OperationRecord.state := OperationState.Accepted;
               OperationRecord.schedule := OperationSchedule.default |}.
Proof.
  unfold register, registrable. destruct (validate_descriptor_shape d) as [[]|e|]; simpl;
    [|by split; [|intros [[[=] _] _]]..].
  destruct (operations self !! OperationDescriptor.operation_id d); simpl;
    [by split; [|intros [(_ & [=] & _) _]]|].
  destruct (OperationDescriptor.parent_operation_id d) as [p|]; simpl.
  2: { split; [by intros [= <-]|by intros [_ ->]]. }
  destruct (operations self !! p) as [rp|] eqn:Hp; simpl.
  2: { split; [done|]. intros [(_ & _ & H) _]. destruct (H p eq_refl) as (? & ? & _). congruence. }
  destruct (Z.eqb_spec (OperationRecord.session rp) (OperationDescriptor.session_id d)); simpl.
  - split; [|by intros [_ ->]]. intros [= <-]. split_and!; try done.
    intros p' [= <-]. eauto.
  - split; [done|]. intros [(_ & _ & H) _]. destruct (H p eq_refl) as (? & ? & ?). congruence.
Qed.

(** A failed [register] changes nothing. *)
Lemma register_Err d self :
  outcome_of (register d) self <> Ok tt -> state_after (register d) self = self.
Proof. unfold outcome_of, state_after, register. by repeat case_match. Qed.

Lemma register_invariant d self self' :
  register d self = (Ok tt, self') -> invariant self -> invariant self'.
Proof.
  intros [(Hshape & Hfresh & Hpar) ->]%register_Ok [Hwf [rank Hrank]].
  apply validate_descriptor_shape_Ok in Hshape as (Hs & Hi & Hself & Hg).
  set (i := OperationDescriptor.operation_id d) in *.
  assert (descriptors self !! i = None) as Hnone by (by rewrite descriptors_lookup, Hfresh).
  assert (forall p c, child (descriptors self) p c -> is_Some (descriptors self !! p)) as Hp.
  { intros p c (dc & Hc & Hdp). destruct (Hwf _ _ Hc) as (_ & _ & _ & _ & H).
    destruct (H _ Hdp) as (dp & -> & _). eauto. }
  unfold invariant, descriptors. simpl. rewrite fmap_insert. simpl. fold (descriptors self). split.
  - intros k dk Hk. destruct (decide (k = i)) as [->|Hne].
    + rewrite lookup_insert_eq in Hk. injection Hk as <-. split_and!; try done.
      intros p Hdp. destruct (Hpar p Hdp) as (rp & Hrp & Hses).
      exists (OperationRecord.descriptor rp). split; [|done].
      rewrite lookup_insert_ne by congruence. by rewrite descriptors_lookup, Hrp.
    + rewrite lookup_insert_ne in Hk by done.
      destruct (Hwf _ _ Hk) as (? & ? & ? & ? & H). split_and!; try done.
      intros p Hdp. destruct (H p Hdp) as (dp & Hdp' & Hses). exists dp.
      rewrite lookup_insert_ne by congruence. done.
  - exists (fun k => if decide (k = i)
                     then S (default 0%nat (rank <$> OperationDescriptor.parent_operation_id d))
                     else rank k).
    intros p c (dc & Hc & Hdp). destruct (decide (c = i)) as [->|Hne].
    + rewrite lookup_insert_eq in Hc. injection Hc as <-. rewrite Hdp. simpl.
      rewrite decide_False by congruence. lia.
    + rewrite lookup_insert_ne in Hc by done.
      assert (child (descriptors self) p c) as Hch by (by exists dc).
      rewrite decide_False by (intros ->; destruct (Hp _ _ Hch); congruence). by apply Hrank.
Qed.

Lemma exec_invariant c self : invariant self -> invariant (exec c self).
Proof.
  intros Hinv. destruct (is_register c) eqn:Hc.
  - destruct c as [d| | | | | |]; try done. cbn [exec].
    destruct (register d self) as [o self'] eqn:Hr.
    destruct (decide (is_ok o = true)) as [Ho|Ho].
    + apply is_ok_unit in Ho. subst o. unfold state_after. rewrite Hr.
      by eapply register_invariant.
    + rewrite register_Err; [done|]. unfold outcome_of. rewrite Hr. simpl. intros ->. done.
  - unfold invariant. by rewrite (proj2 (exec_step c self Hc)).
Qed.

Lemma registry_new_invariant : invariant new.
Proof.
  split; [by intros k d|]. exists (fun _ => 0%nat). by intros p c (d & Hd & _).
Qed.

Lemma rtc_step_ind (P : t -> Prop) :
  (forall c self, P self -> P (exec c self)) -> forall self self', rtc step self self' -> P self -> P self'.
Proof. intros HP self self'. induction 1 as [|x y z [c ->] _ IH]; auto. Qed.

Lemma registry_reachable_invariant self : reachable self -> invariant self.
Proof.
  intros Hr. eapply (rtc_step_ind invariant); [apply exec_invariant|exact Hr|apply registry_new_invariant].
Qed.

(** [register] keeps the other records. *)
Lemma exec_preserves c self : preserves self (exec c self).
Proof.
  destruct (is_register c) eqn:Hc; [|by apply exec_step].
  destruct c as [d| | | | | |]; try done. cbn [exec].
  destruct (register d self) as [o self'] eqn:Hr.
  destruct (decide (is_ok o = true)) as [Ho|Ho].
  - apply is_ok_unit in Ho. subst o. unfold state_after. rewrite Hr. simpl.
    apply register_Ok in Hr as [(_ & Hfresh & _) ->]. intros k r Hk. exists r. split; [|done].
    simpl. by rewrite lookup_insert_ne by congruence.
  - rewrite register_Err; [done|]. unfold outcome_of. rewrite Hr. simpl. intros ->. done.
Qed.

Lemma run_preserves self self' : rtc step self self' -> preserves self self'.
Proof.
  induction 1 as [|x y z [c ->] _ IH]; [done|]. etrans; [apply exec_preserves|done].
Qed.

(** A forest has no cycle. *)
Lemma forest_acyclic ds k : forest ds -> ~ tc (child ds) k k.
Proof.
  intros [rank Hrank] Hc.
  assert (forall a b, tc (child ds) a b -> (rank a < rank b)%nat) as H.
  { intros a b. induction 1 as [a b Hab|a b c Hab _ IH]; [by apply Hrank|].
    specialize (Hrank _ _ Hab). lia. }
  apply H in Hc. lia.
Qed.

(** ** The subtree walk terminates and is exact *)

(** The records whose parent has not been collected: what is still to be pushed. *)
Definition is_pending (collected : gset Z) (r : OperationRecord.t) : bool :=
  match OperationRecord.parent r with Some p => bool_decide (p ∉ collected) | None => false end.

Definition pending (vs : list OperationRecord.t) (collected : gset Z) : nat :=
  length (filter (fun r => is_pending collected r = true) vs).

Lemma pending_collect vs collected k :
  k ∉ collected ->
  (pending vs ({[k]} ∪ collected) + length (children vs k) = pending vs collected)%nat.
Proof.
  intros Hk. unfold pending, children. rewrite length_fmap.
  induction vs as [|r vs IH]; [done|]. rewrite !filter_cons.
  assert (is_pending ({[k]} ∪ collected) r =
    is_pending collected r && negb (bool_decide (OperationRecord.parent r = Some k))) as Hr.
  { unfold is_pending. destruct (OperationRecord.parent r) as [p|]; [|done].
    repeat case_bool_decide; simpl; set_solver. }
  assert (OperationRecord.parent r = Some k -> is_pending collected r = true) as Hp.
  { intros Hp. unfold is_pending. rewrite Hp. by apply bool_decide_eq_true_2. }
  rewrite Hr. case_bool_decide as Hc; rewrite ?andb_false_r, ?andb_true_r.
  - rewrite (Hp Hc). repeat case_decide; simpl; try done; lia.
  - repeat case_decide; simpl; try done; lia.
Qed.

(** Each turn lowers the length of the stack plus the pending records by one. *)
Lemma subtree_loop_terminates fuel vs collected stack :
  (length stack + pending vs collected <= fuel)%nat ->
  is_Some (subtree_loop fuel vs collected stack).
Proof.
  revert collected stack. induction fuel as [|fuel IH]; intros collected stack Hf;
    destruct stack as [|k stack]; simpl in *; [by eauto|lia|by eauto|].
  case_decide as Hk; apply IH; [lia|].
  pose proof (pending_collect vs collected k Hk). rewrite length_app, length_reverse. lia.
Qed.

Lemma subtree_operation_ids_Ok self root :
  exists s, subtree_loop (S (length (values self))) (values self) ∅ [root] = Some s /\
    subtree_operation_ids self root = Ok (elements s).
Proof.
  destruct (subtree_loop_terminates (S (length (values self))) (values self) ∅ [root]) as [s Hs].
  { simpl. unfold pending.
    pose proof (length_filter (fun r => is_pending ∅ r = true) (values self)). lia. }
  exists s. split; [done|]. unfold subtree_operation_ids. by rewrite Hs.
Qed.

Lemma closed_rtc {A} (Rel : A -> A -> Prop) (X : A -> Prop) x y :
  (forall p c, X p -> Rel p c -> X c) -> X x -> rtc Rel x y -> X y.
Proof. intros Hc Hx. induction 1 as [|x y z Hxy _ IH]; eauto. Qed.

(** What the loop has collected when it ends: the root and everything below it. *)
Lemma subtree_loop_exact (Rel : Z -> Z -> Prop) vs root fuel collected stack s :
  (forall p c, c ∈ children vs p <-> Rel p c) ->
  (forall k, k ∈ collected \/ k ∈ stack -> rtc Rel root k) ->
  (root ∈ collected \/ root ∈ stack) ->
  (forall p c, p ∈ collected -> Rel p c -> c ∈ collected \/ c ∈ stack) ->
  subtree_loop fuel vs collected stack = Some s ->
  forall k, k ∈ s <-> rtc Rel root k.
Proof.
  intros HR. revert collected stack.
  assert (forall collected : gset Z,
    (forall k, k ∈ collected \/ k ∈ @nil Z -> rtc Rel root k) ->
    (root ∈ collected \/ root ∈ @nil Z) ->
    (forall p c, p ∈ collected -> Rel p c -> c ∈ collected \/ c ∈ @nil Z) ->
    forall k, k ∈ collected <-> rtc Rel root k) as Hend.
  { intros X Hsound Hroot Hclosed k. split; [by auto|].
    apply (closed_rtc Rel (fun x => x ∈ X)); [|set_solver].
    intros p c Hp Hpc. destruct (Hclosed p c Hp Hpc); [done|set_solver]. }
  induction fuel as [|fuel IH]; intros X [|k stack] Hsound Hroot Hclosed Hs; simpl in Hs;
    try done; [injection Hs as <-; by apply Hend|injection Hs as <-; by apply Hend|].
  case_decide as Hk.
  - apply (IH X stack); try done; [set_solver|set_solver|].
    intros p c Hp Hpc. destruct (Hclosed p c Hp Hpc); set_solver.
  - apply (IH ({[k]} ∪ X) (reverse (children vs k) ++ stack)); try done.
    + intros x Hx. destruct (decide (x ∈ reverse (children vs k))) as [Hc|Hc].
      * apply rtc_r with k; [apply Hsound; set_solver|]. apply HR. set_solver.
      * apply Hsound. set_solver.
    + set_solver.
    + intros p c Hp Hpc. destruct (decide (p = k)) as [->|Hne].
      * right. apply HR in Hpc. set_solver.
      * destruct (Hclosed p c ltac:(set_solver) Hpc); set_solver.
Qed.

(** ** What [cancel] cancels *)

(** The operations a request is about. *)
Definition in_scope (self : t) (request : OperationCancelRequest.t) (k : Z) : Prop :=
  let root := OperationCancelRequest.operation_id request in
  match OperationCancelRequest.cancel_scope request with
  | CancelScope.Operation => k = root
  | CancelScope.Subtree => rtc (child (descriptors self)) root k
  | CancelScope.Group =>
      exists target r g, operations self !! root = Some target /\
        OperationRecord.group target = Some g /\
        operations self !! k = Some r /\ OperationRecord.group r = Some g
  | CancelScope.Session =>
      exists r, operations self !! k = Some r /\
        OperationRecord.session r = OperationCancelRequest.session_id request
  end.

(** Registered and not in a terminal state. *)
Definition live (self : t) (k : Z) : Prop :=
  exists r, operations self !! k = Some r /\
    OperationState.is_terminal (OperationRecord.state r) = false.

Definition live_b (self : t) (k : Z) : bool :=
  match operations self !! k with
  | Some r => negb (OperationState.is_terminal (OperationRecord.state r))
  | None => false
  end.

Lemma live_b_spec self k : live_b self k = true <-> live self k.
Proof.
  unfold live_b, live. destruct (operations self !! k) as [r|].
  - rewrite negb_true_iff. split; [by eauto|by intros (? & [= <-] & ?)].
  - split; [done|by intros (? & [=] & _)].
Qed.

Definition cancelled_record (r : OperationRecord.t) : OperationRecord.t :=
  OperationRecord.set_state r OperationState.Cancelled.

(** The loop over distinct registered ids cancels the live ones and nothing else. *)
Lemma cancel_loop_exact ids acc self :
  NoDup ids -> (forall k, k ∈ ids -> is_Some (operations self !! k)) ->
  let self' := state_after (cancel_loop ids acc) self in
  outcome_of (cancel_loop ids acc) self = Ok (acc ++ filter (fun k => live_b self k = true) ids) /\
  (forall k, k ∈ ids -> live_b self k = true ->
     operations self' !! k = cancelled_record <$> operations self !! k) /\
  (forall k, ~ (k ∈ ids /\ live_b self k = true) -> operations self' !! k = operations self !! k).
Proof.
  cbv zeta. unfold outcome_of, state_after. revert acc self.
  induction ids as [|i ids IH]; intros acc self Hnd Hin.
  { cbn. rewrite app_nil_r. split_and!; [done|set_solver|done]. }
  apply NoDup_cons in Hnd as [Hi Hnd]. destruct (Hin i ltac:(set_solver)) as [r Hr].
  cbn [cancel_loop]. rewrite Hr.
  destruct (OperationState.is_terminal (OperationRecord.state r)) eqn:Ht; cbn [negb].
  - assert (live_b self i = false) as Hl by (unfold live_b; by rewrite Hr, Ht).
    destruct (IH acc self Hnd ltac:(set_solver)) as (Ho & Hyes & Hno).
    rewrite filter_cons_False by (by rewrite Hl). split_and!; [done| |].
    + intros k Hk Hlk. apply Hyes; [|done]. apply elem_of_cons in Hk as [->|]; [congruence|done].
    + intros k Hk. apply Hno. set_solver.
  - assert (live_b self i = true) as Hl by (unfold live_b; by rewrite Hr, Ht).
    set (self1 := store self i (OperationRecord.set_state r OperationState.Cancelled)).
    assert (forall k, k <> i -> operations self1 !! k = operations self !! k) as Hne
      by (intros k ?; apply lookup_insert_ne; done).
    assert (forall k, k <> i -> live_b self1 k = live_b self k) as Hlne
      by (intros k ?; unfold live_b; by rewrite Hne).
    destruct (IH (acc ++ [i]) self1 Hnd) as (Ho & Hyes & Hno).
    { intros k Hk. rewrite Hne by set_solver. apply Hin. set_solver. }
    rewrite filter_cons_True by done. split_and!.
    + rewrite Ho, <- app_assoc. simpl. do 3 f_equal. apply filter_ext_in.
      intros k Hk. by rewrite Hlne by set_solver.
    + intros k Hk Hlk. destruct (decide (k = i)) as [->|Hki].
      * rewrite Hno by (intros [? _]; done). unfold self1. simpl.
        by rewrite lookup_insert_eq, Hr.
      * rewrite Hyes by (rewrite ?Hlne by done; set_solver). by rewrite Hne.
    + intros k Hk. destruct (decide (k = i)) as [->|Hki]; [by destruct Hk; set_solver|].
      rewrite Hno; [by apply Hne|]. rewrite Hlne by done. set_solver.
Qed.

(** ** The ids that [cancel] collects *)

Lemma elem_of_values self r :
  r ∈ values self <-> exists k, operations self !! k = Some r.
Proof.
  unfold values. rewrite list_elem_of_fmap. setoid_rewrite merge_sort_Permutation. split.
  - intros ([k r'] & -> & Hin%elem_of_map_to_list). eauto.
  - intros (k & Hk). exists (k, r). by rewrite elem_of_map_to_list.
Qed.

Lemma well_formed_id self k r :
  well_formed (descriptors self) -> operations self !! k = Some r -> OperationRecord.id r = k.
Proof.
  intros Hwf Hk. destruct (Hwf k (OperationRecord.descriptor r)) as [Hid _]; [|done].
  by rewrite descriptors_lookup, Hk.
Qed.

(** The ids of the records with a property. *)
Lemma elem_of_selected self (P : OperationRecord.t -> Prop) `{forall r, Decision (P r)} k :
  well_formed (descriptors self) ->
  k ∈ OperationRecord.id <$> filter P (values self) <->
  exists r, operations self !! k = Some r /\ P r.
Proof.
  intros Hwf. rewrite list_elem_of_fmap. setoid_rewrite list_elem_of_filter.
  setoid_rewrite elem_of_values. split.
  - intros (r & -> & HP & k' & Hk'). rewrite (well_formed_id _ _ _ Hwf Hk'). eauto.
  - intros (r & Hk & HP). exists r. split; [|by eauto]. symmetry. by eapply well_formed_id.
Qed.

Lemma NoDup_selected self (P : OperationRecord.t -> Prop) `{forall r, Decision (P r)} :
  well_formed (descriptors self) -> NoDup (OperationRecord.id <$> filter P (values self)).
Proof.
  intros Hwf. assert (NoDup (OperationRecord.id <$> values self)) as Hnd.
  { unfold values. rewrite merge_sort_Permutation, <- list_fmap_compose.
    rewrite (list_fmap_ext _ fst); [apply NoDup_fst_map_to_list|].
    intros i [k r] Hi%list_elem_of_lookup_2%elem_of_map_to_list. simpl.
    by eapply well_formed_id. }
  revert Hnd. generalize (values self) as vs. intros vs.
  induction vs as [|r vs IH]; simpl; [done|]. intros [Hr Hnd]%NoDup_cons. rewrite filter_cons.
  case_decide; [|by apply IH]. simpl. apply NoDup_cons. split; [|by apply IH].
  intros (r' & Heq & [_ Hin]%list_elem_of_filter)%list_elem_of_fmap. destruct Hr.
  rewrite Heq. by apply list_elem_of_fmap_2.
Qed.

Lemma children_child self p c :
  well_formed (descriptors self) ->
  c ∈ children (values self) p <-> child (descriptors self) p c.
Proof.
  intros Hwf. unfold children. rewrite elem_of_selected by done. unfold child. split.
  - intros (r & Hr & Hp). exists (OperationRecord.descriptor r).
    by rewrite descriptors_lookup, Hr.
  - intros (d & Hd & Hp). rewrite descriptors_lookup in Hd.
    apply fmap_Some in Hd as (r & Hr & ->). eauto.
Qed.

Lemma subtree_ids_exact self root :
  well_formed (descriptors self) ->
  exists ids, subtree_operation_ids self root = Ok ids /\ NoDup ids /\
    forall k, k ∈ ids <-> rtc (child (descriptors self)) root k.
Proof.
  intros Hwf. destruct (subtree_operation_ids_Ok self root) as (s & Hs & Hids).
  exists (elements s). split; [done|]. split; [apply NoDup_elements|]. intros k.
  rewrite elem_of_elements. revert k.
  refine (subtree_loop_exact _ _ _ _ _ _ _ (fun p c => children_child self p c Hwf) _ _ _ Hs);
    set_solver.
Qed.

(** A request is accepted when its target is registered in the session it names and,
    for a group cancel, has a group. *)
Definition cancellable (self : t) (request : OperationCancelRequest.t) : Prop :=
  exists target, operations self !! OperationCancelRequest.operation_id request = Some target /\
    OperationRecord.session target = OperationCancelRequest.session_id request /\
    (OperationCancelRequest.cancel_scope request = CancelScope.Group ->
       is_Some (OperationRecord.group target)).

Lemma cancel_ids_exact self request :
  well_formed (descriptors self) -> cancellable self request ->
  exists ids, cancel_ids self request = Ok ids /\ NoDup ids /\
    forall k, k ∈ ids <-> in_scope self request k.
Proof.
  intros Hwf (target & Ht & Hs & Hg). unfold cancel_ids, in_scope. rewrite Ht. simpl.
  rewrite (proj2 (Z.eqb_eq _ _) Hs). simpl.
  destruct (OperationCancelRequest.cancel_scope request).
  - eexists. split; [done|]. split; [apply NoDup_singleton|set_solver].
  - by apply subtree_ids_exact.
  - destruct (Hg eq_refl) as [g Hgr]. unfold group_operation_ids. rewrite Hgr. simpl.
    eexists. split; [done|]. split; [by apply NoDup_selected|]. intros k.
    rewrite elem_of_selected by done. split.
    + intros (r & Hr & Hrg). exists target, r, g. done.
    + intros (target' & r & g' & [= <-] & Hg' & Hr & Hrg). exists r. split; [done|congruence].
  - unfold session_operation_ids. eexists. split; [done|]. split; [by apply NoDup_selected|].
    intros k. by rewrite elem_of_selected.
Qed.

Lemma cancel_ids_rejected self request :
  ~ cancellable self request -> exists e, cancel_ids self request = Err e.
Proof.
  intros Hn. unfold cancel_ids, cancellable in *.
  destruct (operations self !! _) as [target|]; simpl; [|by eauto].
  destruct (Z.eqb_spec (OperationRecord.session target) (OperationCancelRequest.session_id request))
    as [Hs|Hs]; simpl; [|by eauto].
  destruct (OperationCancelRequest.cancel_scope request) eqn:Hsc;
    try (destruct Hn; exists target; split_and!; done).
  unfold group_operation_ids. destruct (OperationRecord.group target) as [g|] eqn:Hg; simpl;
    [|by eauto]. destruct Hn. exists target. rewrite Hg. by split_and!.
Qed.

Lemma in_scope_registered self request k :
  cancellable self request -> in_scope self request k -> is_Some (operations self !! k).
Proof.
  intros (target & Ht & _) Hk. unfold in_scope in Hk.
  destruct (OperationCancelRequest.cancel_scope request).
  - subst. by rewrite Ht.
  - apply rtc_inv_r in Hk as [<-|(p & _ & d & Hd & _)]; [by rewrite Ht|].
    rewrite descriptors_lookup in Hd. by apply fmap_Some in Hd as (r & -> & _).
  - by destruct Hk as (? & r & ? & _ & _ & -> & _).
  - by destruct Hk as (r & -> & _).
Qed.

(** An accepted request cancels exactly the live operations in its scope, reports them
    in increasing order, and leaves every other record alone. *)
Lemma cancel_spec self request :
  well_formed (descriptors self) -> cancellable self request ->
  exists cancelled,
    outcome_of (cancel request) self = Ok cancelled /\
    Sorted Z.le cancelled /\ NoDup cancelled /\
    (forall k, k ∈ cancelled <-> in_scope self request k /\ live self k) /\
    (forall k, k ∈ cancelled ->
       operations (state_after (cancel request) self) !! k =
       cancelled_record <$> operations self !! k) /\
    (forall k, k ∉ cancelled ->
       operations (state_after (cancel request) self) !! k = operations self !! k).
Proof.
  intros Hwf Hc. destruct (cancel_ids_exact _ _ Hwf Hc) as (ids & Hids & Hnd & Hin).
  assert (merge_sort Z.le ids ≡ₚ ids) as Hp by apply merge_sort_Permutation.
  unfold outcome_of, state_after, cancel. rewrite Hids.
  destruct (cancel_loop_exact (merge_sort Z.le ids) [] self) as (Ho & Hyes & Hno).
  { by rewrite Hp. }
  { intros k. rewrite Hp, Hin. by apply in_scope_registered. }
  exists (filter (fun k => live_b self k = true) (merge_sort Z.le ids)).
  split_and!.
  - exact Ho.
  - apply StronglySorted_Sorted, StronglySorted_filter, (StronglySorted_merge_sort Z.le).
  - apply NoDup_filter. by rewrite Hp.
  - intros k. rewrite list_elem_of_filter, Hp, Hin, live_b_spec. tauto.
  - intros k [Hl Hk]%list_elem_of_filter. by apply Hyes.
  - intros k Hk. apply Hno. rewrite list_elem_of_filter in Hk. tauto.
Qed.

(** Any other request is refused and changes nothing. *)
Lemma cancel_rejected self request :
  ~ cancellable self request ->
  exists e, cancel request self = (Err e, self).
Proof.
  intros Hn. destruct (cancel_ids_rejected _ _ Hn) as [e He]. exists e.
  unfold cancel. by rewrite He.
Qed.

(** The operations below an operation belong to its session. *)
Lemma subtree_session ds p c dp dc :
  well_formed ds -> rtc (child ds) p c -> ds !! p = Some dp -> ds !! c = Some dc ->
  OperationDescriptor.session_id dc = OperationDescriptor.session_id dp.
Proof.
  intros Hwf Hpc. revert dp. induction Hpc as [|p q c (dq & Hq & Hqp) _ IH]; intros dp Hp Hc.
  - congruence.
  - destruct (Hwf _ _ Hq) as (_ & _ & _ & _ & Hpar). destruct (Hpar _ Hqp) as (dp' & Hp' & Hses).
    rewrite (IH dq Hq Hc). congruence.
Qed.

(** ** Contract *)

Lemma reachable_exec c self : reachable self -> reachable (exec c self).
Proof. intros Hr. eapply rtc_r; [exact Hr|]. by exists c. Qed.

Lemma reachable_calls cs : reachable (foldl (fun self c => exec c self) new cs).
Proof.
  assert (forall self, reachable self -> reachable (foldl (fun self c => exec c self) self cs)) as H.
  { induction cs as [|c cs IH]; intros self Hr; [done|]. apply IH. by apply reachable_exec. }
  apply H, rtc_refl.
Qed.

(** A session with a root operation 10, its child 11 (completed) and its grandchild 12;
    an operation 20 of another session in the same group as 10. *)
Definition family : t := foldl (fun self c => exec c self) new
  [ Register (OperationDescriptor.mk 1 10 None (Some 7));
    Register (OperationDescriptor.mk 1 11 (Some 10) None);
    Register (OperationDescriptor.mk 1 12 (Some 11) None);
    Register (OperationDescriptor.mk 2 20 None (Some 7));
    Complete 11 ].

(** C3: On every registry a program can reach, a cancel request whose target is registered
    in the session it names (and is in a group, for a group cancel) cancels exactly the live
    operations in its scope, reports their ids in increasing order and changes no other
    record; any other request is refused and changes nothing. *)
Theorem cancel_exact self request :
  reachable self ->
  (cancellable self request ->
   exists cancelled,
     outcome_of (cancel request) self = Ok cancelled /\
     Sorted Z.le cancelled /\ NoDup cancelled /\
     (forall k, k ∈ cancelled <-> in_scope self request k /\ live self k) /\
     (forall k, k ∈ cancelled ->
        operations (state_after (cancel request) self) !! k =
        cancelled_record <$> operations self !! k) /\
     (forall k, k ∉ cancelled ->
        operations (state_after (cancel request) self) !! k = operations self !! k)) /\
  (~ cancellable self request -> exists e, cancel request self = (Err e, self)).
Proof.
  intros [Hwf _]%registry_reachable_invariant. split.
  - by apply cancel_spec.
  - apply cancel_rejected.
Qed.

Lemma cancel_exact_witness :
  outcome_of (cancel (OperationCancelRequest.mk 1 10 CancelScope.Subtree)) family = Ok [10; 12] /\
  exists e, cancel (OperationCancelRequest.mk 2 10 CancelScope.Subtree) family = (Err e, family).
Proof.
  split.
  - destruct (cancel_exact family (OperationCancelRequest.mk 1 10 CancelScope.Subtree))
      as [(cancelled & Ho & _) _]; [apply reachable_calls| |].
    + eexists. split_and!; [vm_compute; reflexivity|reflexivity|done].
    + reflexivity.
  - apply (cancel_exact family (OperationCancelRequest.mk 2 10 CancelScope.Subtree));
      [apply reachable_calls|].
    intros (target & Ht & Hs & _). vm_compute in Ht. injection Ht as <-. done.
Defined.

(** C15: In every reachable registry the operations form a forest: each is stored under
    its own non-zero id, its parent is a registered operation of the same session, and no
    operation is its own ancestor. *)
Theorem registry_forest self :
  reachable self ->
  (forall k r, operations self !! k = Some r ->
     OperationRecord.id r = k /\ k <> 0 /\ OperationRecord.session r <> 0 /\
     forall p, OperationRecord.parent r = Some p ->
       exists rp, operations self !! p = Some rp /\
         OperationRecord.session rp = OperationRecord.session r) /\
  (forall k, ~ tc (child (descriptors self)) k k).
Proof.
  intros [Hwf Hf]%registry_reachable_invariant. split; [|intros k; by apply forest_acyclic].
  intros k r Hr. destruct (Hwf k (OperationRecord.descriptor r)) as (Hid & Hk & Hs & _ & Hp).
  { by rewrite descriptors_lookup, Hr. }
  split_and!; [done..|]. intros p (dp & Hdp & Hses)%Hp. rewrite descriptors_lookup in Hdp.
  apply fmap_Some in Hdp as (rp & Hrp & ->). eauto.
Qed.

Lemma registry_forest_witness :
  exists r, operations family !! 12 = Some r /\ OperationRecord.parent r = Some 11 /\
    is_Some (operations family !! 11) /\ ~ tc (child (descriptors family)) 12 12.
Proof.
  destruct (registry_forest family (reachable_calls _)) as [Hrec Hacyc].
  eexists. split; [vm_compute; reflexivity|]. split; [reflexivity|]. split; [|apply Hacyc].
  destruct (Hrec 12 _ eq_refl) as (_ & _ & _ & Hp).
  destruct (Hp 11 eq_refl) as (rp & Hrp & _). by exists rp.
Defined.

(** C16: Along every sequence of calls a registered operation stays registered with its
    descriptor, its state follows transitions that [can_transition_to] allows, and once
    it is in a terminal state its record never changes again. *)
Theorem operations_move_forward self self' k r :
  rtc step self self' -> operations self !! k = Some r ->
  exists r', operations self' !! k = Some r' /\
    OperationRecord.descriptor r' = OperationRecord.descriptor r /\
    rtc (fun s s' => OperationState.can_transition_to s s' = true)
      (OperationRecord.state r) (OperationRecord.state r') /\
    (OperationState.is_terminal (OperationRecord.state r) = true -> r' = r).
Proof. intros Hrun Hr. destruct (run_preserves _ _ Hrun k r Hr) as (r' & Hr' & ?). by exists r'. Qed.

Lemma operations_move_forward_witness :
  exists r, operations family !! 11 = Some r /\
    operations (exec (Cancel (OperationCancelRequest.mk 1 10 CancelScope.Session)) family) !! 11
    = Some r.
Proof.
  set (c := Cancel (OperationCancelRequest.mk 1 10 CancelScope.Session)).
  eexists. split; [vm_compute; reflexivity|].
  edestruct (operations_move_forward family (exec c family) 11) as (r' & Hr' & _ & _ & Hfrozen).
  - apply rtc_once. by exists c.
  - vm_compute; reflexivity.
  - rewrite Hr'. f_equal. apply Hfrozen. reflexivity.
Defined.

(** C38: The walk over an operation's subtree ends after at most one turn more than there
    are records, and collects the root and its descendants, each once; in a reachable
    registry they all belong to the session of the root. *)
Theorem subtree_walk self root r :
  reachable self -> operations self !! root = Some r ->
  is_Some (subtree_loop (S (length (values self))) (values self) ∅ [root]) /\
  exists ids, subtree_operation_ids self root = Ok ids /\ NoDup ids /\
    (forall k, k ∈ ids <-> rtc (child (descriptors self)) root k) /\
    (forall k, k ∈ ids -> exists r', operations self !! k = Some r' /\
       OperationRecord.session r' = OperationRecord.session r).
Proof.
  intros [Hwf _]%registry_reachable_invariant Hr.
  destruct (subtree_operation_ids_Ok self root) as (s & Hs & _). split; [by eexists|].
  destruct (subtree_ids_exact self root Hwf) as (ids & Hids & Hnd & Hin).
  exists ids. split_and!; [done..|]. intros k Hk%Hin.
  assert (is_Some (operations self !! k)) as [r' Hr'].
  { apply rtc_inv_r in Hk as [<-|(p & _ & d & Hd & _)]; [by rewrite Hr|].
    rewrite descriptors_lookup in Hd. by apply fmap_Some in Hd as (? & -> & _). }
  exists r'. split; [done|].
  eapply (subtree_session (descriptors self)); [done..| |]; by rewrite descriptors_lookup, ?Hr, ?Hr'.
Qed.

Lemma subtree_walk_witness :
  exists ids, subtree_operation_ids family 11 = Ok ids /\
    (12 ∈ ids <-> rtc (child (descriptors family)) 11 12).
Proof.
  destruct (subtree_walk family 11 _ (reachable_calls _) eq_refl) as (_ & ids & Hids & _ & Hin & _).
  exists ids. split; [exact Hids|apply Hin].
Defined.

(** What a scheduling update does, on every branch: for a live operation of the named
    session the three scheduling messages store their own fields and the control
    sequence; every other message type is an error that has nevertheless stored the
    control sequence; for an unknown, foreign or terminal operation nothing changes. *)
Theorem scheduling_update_effect session_id mt md self :
  let op := SchedulingMetadata.operation_id md in
  let seq s := OperationSchedule.set_update_sequence s (SchedulingMetadata.control_sequence md) in
  let '(result, self') := apply_scheduling_update session_id mt md self in
  match operations self !! op with
  | Some r =>
      if (OperationRecord.session r =? session_id)
         && negb (OperationState.is_terminal (OperationRecord.state r))
      then
        (forall k, k <> op -> operations self' !! k = operations self !! k) /\
        exists s, operations self' !! op = Some (OperationRecord.set_schedule r s) /\
          OperationSchedule.update_sequence s = SchedulingMetadata.control_sequence md /\
          match mt with
          | MessageType.PriorityUpdate =>
              result = Ok s /\
              s = OperationSchedule.set_priority (seq (OperationRecord.schedule r))
                    (SchedulingMetadata.priority_class md) (SchedulingMetadata.priority_delta md)
          | MessageType.Deadline =>
              result = Ok s /\
              s = OperationSchedule.set_deadline (seq (OperationRecord.schedule r))
                    (SchedulingMetadata.deadline_unix_ms md)
          | MessageType.ExpireAt =>
              result = Ok s /\
              s = OperationSchedule.set_expire_at (seq (OperationRecord.schedule r))
                    (SchedulingMetadata.deadline_unix_ms md) (SchedulingMetadata.flags md)
          | _ => (exists e, result = Err e) /\ s = seq (OperationRecord.schedule r)
          end
      else (exists e, result = Err e) /\ self' = self
  | None => result = Err (UnknownOperation op) /\ self' = self
  end.
Proof.
  cbv zeta. unfold apply_scheduling_update.
  destruct (operations self !! _) as [r|] eqn:Hr; [|done].
  destruct (Z.eqb_spec (OperationRecord.session r) session_id); simpl; [|by eauto].
  destruct (OperationState.is_terminal (OperationRecord.state r)); simpl; [by eauto|].
  destruct mt; (split; [intros k Hk; simpl; by rewrite !lookup_insert_ne|]);
    eexists; (split; [apply lookup_insert_eq|]); (split; [reflexivity|]); by eauto.
Qed.

(** A message of the wrong type is refused and still changes the schedule. *)
Example scheduling_error_keeps_sequence :
  let md := SchedulingMetadata.mk 12 99 0 0 0 0 in
  exists e r, outcome_of (apply_scheduling_update 1 MessageType.Ping md) family = Err e /\
    operations (state_after (apply_scheduling_update 1 MessageType.Ping md) family) !! 12 = Some r /\
    OperationSchedule.update_sequence (OperationRecord.schedule r) = 99.
Proof. vm_compute. eauto. Qed.

(** A cancel of scope Operation, Subtree or Session touches the session of the request
    only; a group cancel has no such bound, and there is a reachable registry where it
    cancels an operation of another session. *)
Theorem cancel_sessions :
  (forall self request k r,
     reachable self -> cancellable self request -> in_scope self request k ->
     operations self !! k = Some r ->
     OperationRecord.session r = OperationCancelRequest.session_id request \/
     OperationCancelRequest.cancel_scope request = CancelScope.Group) /\
  (exists self request r,
     reachable self /\ OperationCancelRequest.cancel_scope request = CancelScope.Group /\
     operations self !! 20 = Some r /\
     OperationRecord.session r <> OperationCancelRequest.session_id request /\
     outcome_of (cancel request) self = Ok [10; 20]).
Proof.
  split.
  - intros self request k r [Hwf _]%registry_reachable_invariant (target & Ht & Hs & _) Hk Hr.
    unfold in_scope in Hk. destruct (OperationCancelRequest.cancel_scope request); [left..|by right|left].
    + subst k. congruence.
    + rewrite <- Hs. eapply (subtree_session (descriptors self)); [done..| |];
        by rewrite descriptors_lookup, ?Ht, ?Hr.
    + destruct Hk as (r' & Hr' & <-). congruence.
  - exists family, (OperationCancelRequest.mk 1 10 CancelScope.Group). eexists.
    split; [apply reachable_calls|]. split; [reflexivity|]. split; [vm_compute; reflexivity|].
    split; [discriminate|vm_compute; reflexivity].
Qed.

End OperationRegistry.
