(* ===== verification/Recovery.v ===== *)
(** Session recovery ([src/crates/nnrp-core/src/recovery.rs]): resume requests and
    their acknowledgements, and the cursor of a migrated session. *)

From S2P Require Import Prelude Bytes Errors Enums Wire Header Codes Session Control.

Local Open Scope Z_scope.

Definition SESSION_FLAG_ALLOW_RESUME : Z := 0x01.
Definition SESSION_ACK_FLAG_RESUME_ENABLED : Z := 0x0000_0001.

Module SessionRecoveryIntent.

Record t := mk {
  requested_session_id : Z;
  resume_token_bytes : Z;
  resume_from_operation_id : option Z
}.

Definition from_session_open
    (metadata : SessionOpenMetadata.t) (resume_from_operation_id : option Z) : t := {|
  requested_session_id := SessionOpenMetadata.requested_session_id metadata;
  resume_token_bytes := SessionOpenMetadata.resume_token_bytes metadata;
  resume_from_operation_id := resume_from_operation_id |}.

Definition is_resume_attempt (self : t) : bool := 0 <? resume_token_bytes self.

End SessionRecoveryIntent.

Module SessionRecoveryOutcome.

Inductive t :=
| Fresh
| ResumeEnabled (resume_window_ms : Z)
| Resumed (resume_window_ms : Z)
| ResumeRejected.

End SessionRecoveryOutcome.

Definition validate_session_recovery_request (metadata : SessionOpenMetadata.t) : R unit :=
  if 0 <? SessionOpenMetadata.resume_token_bytes metadata then
    _ ← reject_if (Z.land (SessionOpenMetadata.session_flags metadata) SESSION_FLAG_ALLOW_RESUME
                   =? 0)
          (InvalidProtocolCombination "resume token requires allow_resume session flag");
    reject_if (SessionOpenMetadata.requested_session_id metadata =? 0)
      (InvalidProtocolCombination "resume token must be bound to a requested session id")
  else Ok tt.

Definition resume_enabled (ack : SessionOpenAckMetadata.t) : bool :=
  negb (Z.land (SessionOpenAckMetadata.session_flags_ack ack) SESSION_ACK_FLAG_RESUME_ENABLED =? 0).

Definition validate_session_recovery_ack
    (request : SessionOpenMetadata.t) (ack : SessionOpenAckMetadata.t)
    : R SessionRecoveryOutcome.t :=
  let window := SessionOpenAckMetadata.resume_window_ms ack in
  _ ← reject_if (resume_enabled ack
                 && ((window =? 0) || (SessionOpenAckMetadata.resume_token_bytes ack =? 0)))
        (InvalidProtocolCombination
           "resume_enabled ack requires non-zero resume window and token bytes");
  match SessionOpenAckMetadata.session_status ack with
  | SessionStatus.Opened =>
      if resume_enabled ack then Ok (SessionRecoveryOutcome.ResumeEnabled window)
      else Ok SessionRecoveryOutcome.Fresh
  | SessionStatus.Resumed =>
      _ ← reject_if (SessionOpenMetadata.resume_token_bytes request =? 0)
            (InvalidProtocolCombination "resumed ack requires a resume token in the request");
      _ ← reject_if (negb (SessionOpenAckMetadata.session_error_code ack =? SESSION_ERROR_NONE))
            (InvalidProtocolCombination "resumed ack must not carry a session error");
      _ ← reject_if (negb (resume_enabled ack))
            (InvalidProtocolCombination "resumed ack must keep resume_enabled set");
      Ok (SessionRecoveryOutcome.Resumed window)
  | SessionStatus.Rejected =>
      if SessionOpenAckMetadata.session_error_code ack =? SESSION_ERROR_RESUME_REJECTED
      then Ok SessionRecoveryOutcome.ResumeRejected
      else Ok SessionRecoveryOutcome.Fresh
  | SessionStatus.RetryLater => Ok SessionRecoveryOutcome.Fresh
  end.

Definition validate_migration_recovery
    (request : SessionMigrateMetadata.t) (ack : SessionMigrateAckMetadata.t) : R unit :=
  _ ← reject_if (bool_decide (SessionMigrateMetadata.old_transport_id request
                              = SessionMigrateMetadata.new_transport_id request))
        (InvalidProtocolCombination "session migration must bind a different transport");
  reject_if (SessionMigrateAckMetadata.resume_from_frame_id ack
             <? SessionMigrateMetadata.last_result_frame_id request)
    (InvalidProtocolCombination
       "migration resume cursor cannot move behind the last result frame").

Definition should_replay_frame_after_migration
    (ack : SessionMigrateAckMetadata.t) (frame_id : Z) : bool :=
  SessionMigrateAckMetadata.resume_from_frame_id ack <=? frame_id.

(** ** Contract *)

(** An accepted migration moves to another transport, and replays the frames from the
    resume cursor on: none of them comes before the last frame whose result arrived. *)
Lemma migration_replay request ack :
  validate_migration_recovery request ack = Ok tt ->
  SessionMigrateMetadata.old_transport_id request <> SessionMigrateMetadata.new_transport_id request /\
  forall frame, should_replay_frame_after_migration ack frame = true <->
    SessionMigrateAckMetadata.resume_from_frame_id ack <= frame /\
    SessionMigrateMetadata.last_result_frame_id request <= frame.
Proof.
  unfold validate_migration_recovery, should_replay_frame_after_migration. intros Hv.
  apply bind_Ok in Hv as (_ & Ht%reject_if_Ok & Hc%reject_if_Ok).
  apply bool_decide_eq_false in Ht. apply Z.ltb_ge in Hc.
  split; [done|]. intros frame. rewrite Z.leb_le. lia.
Qed.

(** After a recovery request that passed its check, an acknowledgement is read as resumed
    exactly when its status says so, it carries no error, the request had a token, and the
    ack keeps the session resumable with a window and a token; the session is then the one
    that the request named, and the request had allowed the resume. *)
Theorem session_resume_exact request ack w :
  0 <= SessionOpenMetadata.resume_token_bytes request ->
  validate_session_recovery_request request = Ok tt ->
  (validate_session_recovery_ack request ack = Ok (SessionRecoveryOutcome.Resumed w) <->
   SessionOpenAckMetadata.session_status ack = SessionStatus.Resumed /\
   SessionOpenAckMetadata.session_error_code ack = SESSION_ERROR_NONE /\
   SessionOpenMetadata.resume_token_bytes request <> 0 /\ resume_enabled ack = true /\
   SessionOpenAckMetadata.resume_window_ms ack = w /\ w <> 0 /\
   SessionOpenAckMetadata.resume_token_bytes ack <> 0) /\
  (validate_session_recovery_ack request ack = Ok (SessionRecoveryOutcome.Resumed w) ->
   SessionOpenMetadata.requested_session_id request <> 0 /\
   Z.land (SessionOpenMetadata.session_flags request) SESSION_FLAG_ALLOW_RESUME <> 0).
Proof.
  intros Hnn Hreq.
  assert (validate_session_recovery_ack request ack = Ok (SessionRecoveryOutcome.Resumed w) <->
    SessionOpenAckMetadata.session_status ack = SessionStatus.Resumed /\
    SessionOpenAckMetadata.session_error_code ack = SESSION_ERROR_NONE /\
    SessionOpenMetadata.resume_token_bytes request <> 0 /\ resume_enabled ack = true /\
    SessionOpenAckMetadata.resume_window_ms ack = w /\ w <> 0 /\
    SessionOpenAckMetadata.resume_token_bytes ack <> 0) as Hiff.
  { clear Hreq. unfold validate_session_recovery_ack.
    destruct (resume_enabled ack) eqn:He; simpl;
      destruct (Z.eqb_spec (SessionOpenAckMetadata.resume_window_ms ack) 0),
        (Z.eqb_spec (SessionOpenAckMetadata.resume_token_bytes ack) 0); simpl;
      destruct (SessionOpenAckMetadata.session_status ack); simpl;
      destruct (Z.eqb_spec (SessionOpenMetadata.resume_token_bytes request) 0); simpl;
      destruct (Z.eqb_spec (SessionOpenAckMetadata.session_error_code ack) SESSION_ERROR_NONE); simpl;
      repeat case_match; naive_solver. }
  split; [exact Hiff|]. intros (_ & _ & Ht & _)%Hiff.
  unfold validate_session_recovery_request in Hreq.
  rewrite (proj2 (Z.ltb_lt _ _)) in Hreq by lia.
  apply bind_Ok in Hreq as (_ & Hf%reject_if_Ok%Z.eqb_neq & Hid%reject_if_Ok%Z.eqb_neq). done.
Qed.

Definition resume_request : SessionOpenMetadata.t :=
  SessionOpenMetadata.mk 42 1 SessionPriorityClass.Balanced SESSION_FLAG_ALLOW_RESUME 0 0 0 1 0 16 0 0 0.

Definition resume_ack : SessionOpenAckMetadata.t :=
  SessionOpenAckMetadata.mk 42 1 SessionPriorityClass.Balanced SessionStatus.Resumed 0 0 1 1 0 5000 16
    0 0 0 0 SESSION_ACK_FLAG_RESUME_ENABLED.

Lemma session_resume_exact_witness :
  validate_session_recovery_ack resume_request resume_ack = Ok (SessionRecoveryOutcome.Resumed 5000) /\
  SessionOpenMetadata.requested_session_id resume_request <> 0.
Proof.
  destruct (session_resume_exact resume_request resume_ack 5000) as [Hiff Hid];
    [vm_compute; discriminate|vm_compute; reflexivity|].
  split; [|apply Hid]; apply Hiff; vm_compute; split_and!; first [reflexivity|discriminate].
Defined.
