(* ===== verification/Negotiation.v ===== *)
(** The handshake: what a CLIENT_HELLO and a SERVER_HELLO_ACK that pass their checks
    guarantee ([src/crates/nnrp-core/src/control.rs], [validate_capability_window] and
    [validate_against_client_hello], modelled in [Control]).

    The source compares bitmaps with masks and shifts; the contract is stated bit by
    bit. *)

From S2P Require Import Prelude Bytes Errors Enums Wire Header Control.

Local Open Scope Z_scope.

(** Every capability of [accepted] is one of [supported]. *)
Definition bits_subset (accepted supported : Z) : Prop :=
  forall n, 0 <= n -> Z.testbit accepted n = true -> Z.testbit supported n = true.

#[export] Instance bits_subset_preorder : PreOrder bits_subset.
Proof. split; [by intros x n|]. intros x y z Hxy Hyz n Hn Hx. by apply Hyz, Hxy. Qed.

Lemma require_subset_Ok rule accepted supported u :
  0 <= accepted < modulus 4 ->
  require_subset rule accepted supported = Ok u <-> bits_subset accepted supported.
Proof.
  intros Ha. unfold require_subset. rewrite reject_unless_Ok.
  rewrite mask_ok_within; [apply bits_within_spec|lia|exact Ha].
Qed.

Lemma has_bitmap_bit_true bitmap bit :
  0 <= bit -> has_bitmap_bit bitmap bit = true <-> bit < 64 /\ Z.testbit bitmap bit = true.
Proof.
  intros Hb. unfold has_bitmap_bit. rewrite andb_true_iff, Z.ltb_lt, negb_true_iff, Z.eqb_neq.
  rewrite land_bit_zero by done. by rewrite not_false_iff_true.
Qed.

(** A guard that keeps a value within bounds. *)
Lemma bounds_check lo hi v (e : NnrpError) :
  reject_if ((v <? lo) || (hi <? v)) e = Ok tt <-> lo <= v <= hi.
Proof. rewrite reject_if_Ok, orb_false_iff, !Z.ltb_ge. done. Qed.

(** A guard followed by others. *)
Lemma bind_unit_Ok {E B} (o : Outcome E unit) (k : Outcome E B) b :
  (_ ← o; k) = Ok b <-> o = Ok tt /\ k = Ok b.
Proof. rewrite bind_Ok. split; [by intros ([] & ? & ?)|by intros [? ?]; exists tt]. Qed.

(** The [i]-th field of a struct whose fields fit. *)
Lemma typed_field {A} `{WireCodec A} (m : A) i w v :
  typed m = true -> codec_layout m !! i = Some (F (KU w) v) -> 0 <= v < modulus w.
Proof.
  intros Ht Hi. unfold typed, fields_ok in Ht. rewrite forallb_forall in Ht.
  apply list_elem_of_lookup_2, list_elem_of_In, Ht in Hi. unfold field_ok in Hi. simpl in Hi. lia.
Qed.

Section negotiation.
Context (hello : ClientHelloMetadata.t) (ack : ServerHelloAckMetadata.t).

(** What the ack grants of each bitmap is what the hello offers. *)
Definition grants_within_offer : Prop :=
  bits_subset (ServerHelloAckMetadata.accepted_profile_bitmap ack)
    (ClientHelloMetadata.supported_profile_bitmap hello) /\
  bits_subset (ServerHelloAckMetadata.accepted_payload_kind_bitmap ack)
    (ClientHelloMetadata.supported_payload_kind_bitmap hello) /\
  bits_subset (ServerHelloAckMetadata.accepted_codec_bitmap ack)
    (ClientHelloMetadata.supported_codec_bitmap hello) /\
  bits_subset (ServerHelloAckMetadata.accepted_compression_bitmap ack)
    (ClientHelloMetadata.supported_compression_bitmap hello) /\
  bits_subset (ServerHelloAckMetadata.accepted_dtype_bitmap ack)
    (ClientHelloMetadata.supported_dtype_bitmap hello) /\
  bits_subset (ServerHelloAckMetadata.accepted_layout_bitmap ack)
    (ClientHelloMetadata.supported_layout_bitmap hello) /\
  bits_subset (ServerHelloAckMetadata.cache_digest_bitmap ack)
    (ClientHelloMetadata.cache_digest_bitmap hello) /\
  bits_subset (ServerHelloAckMetadata.cache_object_bitmap ack)
    (ClientHelloMetadata.cache_object_bitmap hello).

(** The version and the wire format that the ack selects are ones that the hello offers. *)
Definition selection_within_offer : Prop :=
  ClientHelloMetadata.min_version_major hello <= ServerHelloAckMetadata.selected_version_major ack
    <= ClientHelloMetadata.max_version_major hello /\
  ServerHelloAckMetadata.selected_wire_format ack < 64 /\
  Z.testbit (ClientHelloMetadata.supported_wire_format_bitmap hello)
    (ServerHelloAckMetadata.selected_wire_format ack) = true.
End negotiation.

(** A hello whose window check passes offers this version of the protocol, its wire
    format, a profile and a payload kind. *)
Lemma capability_window_Ok hello :
  ClientHelloMetadata.validate_capability_window hello = Ok tt <->
  ClientHelloMetadata.min_version_major hello <= CURRENT_VERSION_MAJOR
    <= ClientHelloMetadata.max_version_major hello /\
  Z.testbit (ClientHelloMetadata.supported_wire_format_bitmap hello) CURRENT_WIRE_FORMAT = true /\
  ClientHelloMetadata.supported_profile_bitmap hello <> 0 /\
  ClientHelloMetadata.supported_payload_kind_bitmap hello <> 0.
Proof.
  unfold ClientHelloMetadata.validate_capability_window, require_nonzero.
  rewrite !bind_unit_Ok, !reject_if_Ok, negb_false_iff, has_bitmap_bit_true by done.
  rewrite orb_false_iff, !Z.ltb_ge, !Z.eqb_neq. change CURRENT_WIRE_FORMAT with 0.
  intuition lia.
Qed.

Lemma hello_ack_Ok hello ack :
  typed ack = true ->
  ServerHelloAckMetadata.validate_against_client_hello ack hello = Ok tt <->
  selection_within_offer hello ack /\ grants_within_offer hello ack.
Proof.
  intros Ht. pose proof (fun i w v => typed_field ack i w v Ht) as Hf.
  pose proof (Hf 1%nat 1%nat _ eq_refl) as Hwf. clear Ht.
  unfold ServerHelloAckMetadata.validate_against_client_hello, selection_within_offer,
    grants_within_offer.
  rewrite <- (require_subset_Ok "SERVER_HELLO_ACK accepted_profile_bitmap" _ _ tt (Hf 5%nat _ _ eq_refl)).
  rewrite <- (require_subset_Ok "SERVER_HELLO_ACK accepted_payload_kind_bitmap" _ _ tt (Hf 6%nat _ _ eq_refl)).
  rewrite <- (require_subset_Ok "SERVER_HELLO_ACK accepted_codec_bitmap" _ _ tt (Hf 7%nat _ _ eq_refl)).
  rewrite <- (require_subset_Ok "SERVER_HELLO_ACK accepted_compression_bitmap" _ _ tt (Hf 8%nat _ _ eq_refl)).
  rewrite <- (require_subset_Ok "SERVER_HELLO_ACK accepted_dtype_bitmap" _ _ tt (Hf 9%nat _ _ eq_refl)).
  rewrite <- (require_subset_Ok "SERVER_HELLO_ACK accepted_layout_bitmap" _ _ tt (Hf 10%nat _ _ eq_refl)).
  rewrite <- (require_subset_Ok "SERVER_HELLO_ACK cache_digest_bitmap" _ _ tt (Hf 11%nat _ _ eq_refl)).
  rewrite <- (require_subset_Ok "SERVER_HELLO_ACK cache_object_bitmap" _ _ tt (Hf 12%nat _ _ eq_refl)).
  rewrite <- has_bitmap_bit_true by lia.
  rewrite <- (reject_unless_Ok _ (InvalidProtocolCombination
    "SERVER_HELLO_ACK selected wire format must be client-supported") tt).
  rewrite <- (bounds_check _ _ _ (InvalidProtocolCombination
    "SERVER_HELLO_ACK selected version must be inside client window")).
  rewrite !bind_unit_Ok. tauto.
Qed.

(** A CLIENT_HELLO and a SERVER_HELLO_ACK, as parsed, that pass the check of the ack against
    the hello: the check accepts exactly the acks whose version is inside the client's
    window, whose wire format is one of the client's, and whose eight capability
    bitmaps grant, bit by bit, only what the client offered; and the parsed hello offers NNRP/1
    with wire format 0. *)
Theorem handshake_exact hello_bytes hello ack_bytes ack :
  ClientHelloMetadata.parse hello_bytes = Ok hello ->
  ServerHelloAckMetadata.parse ack_bytes = Ok ack ->
  (ServerHelloAckMetadata.validate_against_client_hello ack hello = Ok tt <->
   selection_within_offer hello ack /\ grants_within_offer hello ack) /\
  ClientHelloMetadata.min_version_major hello <= CURRENT_VERSION_MAJOR
    <= ClientHelloMetadata.max_version_major hello /\
  Z.testbit (ClientHelloMetadata.supported_wire_format_bitmap hello) CURRENT_WIRE_FORMAT = true.
Proof.
  intros Hh Ha. pose proof (parse_iff (A := ServerHelloAckMetadata.t) ack_bytes ack) as [Hva _].
  pose proof (parse_iff (A := ClientHelloMetadata.t) hello_bytes hello) as [Hvh _].
  destruct (Hva Ha) as [Hta _]. destruct (Hvh Hh) as [Hg _]. clear Hva Hvh.
  apply andb_prop in Hta as [Hta _]. apply andb_prop in Hg as [_ Hg].
  split; [by apply hello_ack_Ok|]. change (ClientHelloMetadata.guard hello = true) in Hg.
  unfold ClientHelloMetadata.guard in Hg. apply is_ok_unit in Hg.
  by apply capability_window_Ok in Hg as (? & ? & _).
Qed.

Definition small_hello : ClientHelloMetadata.t :=
  ClientHelloMetadata.mk 1 1 1 6 3 1 0 1 1 0 0 0 1 0 0 0 0 0 0 0 0 0.
Definition small_ack : ServerHelloAckMetadata.t :=
  ServerHelloAckMetadata.mk 1 0 0 7 2 1 1 0 1 1 0 0 0 0 1 1 0 0 0 0 0 0 0 0 0.

Lemma handshake_exact_witness :
  grants_within_offer small_hello small_ack.
Proof.
  destruct (handshake_exact (wire small_hello) small_hello (wire small_ack) small_ack)
    as [[Hgrant _] _]; [vm_compute; reflexivity|vm_compute; reflexivity|].
  apply Hgrant. vm_compute; reflexivity.
Defined.
