(* ===== verification/Transport.v ===== *)
(** Transport providers ([src/crates/nnrp-transport-provider/src/lib.rs]): the registry of
    providers, and the choice of one of them from the policy, the peer's support, the limits,
    the readiness of the routes and the probes.

    A [String] is the list of its bytes.  The sets that the evidence checks keep are lists:
    only membership and equality as sets are used of them. *)

From S2P Require Import Prelude Sorting Bytes Errors Enums Wire Header Control Capability.

Local Open Scope Z_scope.

Definition DEFAULT_PROVIDER_MAX_FRAME_BYTES : Z := 64 * 1024 * 1024.

(** ** Descriptors *)

Module TransportProviderKind.

Inductive t := PureRust | NativeDynamic | Wasm.

End TransportProviderKind.

Module ProviderCost.

Record t := mk { model_id : Z; units : Z }.

Definition default : t := mk 0 0.

End ProviderCost.

Module ProviderLimits.

Record t := mk { max_frame_bytes : Z }.

Definition default : t := mk DEFAULT_PROVIDER_MAX_FRAME_BYTES.

End ProviderLimits.

Module ProviderLimitation.

Inductive t :=
| RequiresUdp | RequiresTcp | LocalHostOnly | NativeHostOnly | BrowserHostOnly
| UnixDomainSocket | WindowsNamedPipe.

#[global] Instance eq_dec : EqDecision t.
Proof. solve_decision. Defined.

End ProviderLimitation.

Module TransportProviderMetadata.

Record t := mk {
  id : bytes;
  cost : ProviderCost.t;
  preference_rank : Z;
  limits : ProviderLimits.t;
  limitations : list ProviderLimitation.t
}.

(** [windows] is [cfg!(target_os = "windows")]. *)
Definition official (windows : bool) (transport_id : TransportId.t) (kind : TransportProviderKind.t)
    : t :=
  let '(id, preference_rank, limitations) :=
    match transport_id, kind with
    | TransportId.WebSocket, TransportProviderKind.Wasm =>
        (str "nnrp.transport.websocket.browser-wasm", 3,
         [ProviderLimitation.RequiresTcp; ProviderLimitation.BrowserHostOnly])
    | _, TransportProviderKind.Wasm =>
        (str "nnrp.transport.unspecified.browser-wasm", u16_max,
         [ProviderLimitation.BrowserHostOnly])
    | TransportId.Quic, _ =>
        (str "nnrp.transport.quic.native", 1,
         [ProviderLimitation.RequiresUdp; ProviderLimitation.NativeHostOnly])
    | TransportId.Tcp, _ =>
        (str "nnrp.transport.tcp.native", 2,
         [ProviderLimitation.RequiresTcp; ProviderLimitation.NativeHostOnly])
    | TransportId.Ipc, _ =>
        (str "nnrp.transport.ipc.native", 0,
         [ProviderLimitation.LocalHostOnly; ProviderLimitation.NativeHostOnly;
          if windows then ProviderLimitation.WindowsNamedPipe
          else ProviderLimitation.UnixDomainSocket])
    | TransportId.WebSocket, _ =>
        (str "nnrp.transport.websocket.native", 3,
         [ProviderLimitation.RequiresTcp; ProviderLimitation.NativeHostOnly])
    | TransportId.Unspecified, _ => (str "nnrp.transport.unspecified.native", u16_max, [])
    end in
  {| id := id; cost := ProviderCost.default; preference_rank := preference_rank;
     limits := ProviderLimits.default; limitations := limitations |}.

End TransportProviderMetadata.

Module TransportProviderDescriptor.

Record t := mk {
  name : bytes;
  version : bytes;
  transport_id : TransportId.t;
  kind : TransportProviderKind.t;
  available : bool;
  library_path : option bytes;
  metadata : TransportProviderMetadata.t;
  diagnostic : option bytes
}.

(** [TransportProviderDescriptor::available] and [::missing]; the first name is that of a
    field here. *)
Definition new_available (windows : bool) (name version : bytes) (transport_id : TransportId.t)
    (kind : TransportProviderKind.t) : t := {|
  name := name; version := version; transport_id := transport_id; kind := kind;
  available := true; library_path := None;
  metadata := TransportProviderMetadata.official windows transport_id kind;
  diagnostic := None |}.

Definition missing (windows : bool) (name version : bytes) (transport_id : TransportId.t)
    (kind : TransportProviderKind.t) (diagnostic : bytes) : t := {|
  name := name; version := version; transport_id := transport_id; kind := kind;
  available := false; library_path := None;
  metadata := TransportProviderMetadata.official windows transport_id kind;
  diagnostic := Some diagnostic |}.

Definition with_library_path (self : t) (path : bytes) : t := {|
  name := name self; version := version self; transport_id := transport_id self;
  kind := kind self; available := available self; library_path := Some path;
  metadata := metadata self; diagnostic := diagnostic self |}.

Definition with_metadata (self : t) (metadata : TransportProviderMetadata.t) : t := {|
  name := name self; version := version self; transport_id := transport_id self;
  kind := kind self; available := available self; library_path := library_path self;
  metadata := metadata; diagnostic := diagnostic self |}.

(** What identifies a provider: its transport and its id. *)
Definition id (self : t) : bytes := TransportProviderMetadata.id (metadata self).
Definition key (self : t) : TransportId.t * bytes := (transport_id self, id self).

End TransportProviderDescriptor.

Definition validate_provider_metadata (metadata : TransportProviderMetadata.t)
    : Outcome string unit :=
  _ ← reject_if (bool_decide (TransportProviderMetadata.id metadata = [])
                 || negb (is_ascii (TransportProviderMetadata.id metadata)))
        "provider id must be a non-empty ASCII string";
  _ ← reject_if ((ProviderCost.model_id (TransportProviderMetadata.cost metadata) =? 0)
                 && negb (ProviderCost.units (TransportProviderMetadata.cost metadata) =? 0))
        "provider cost units must be zero when model id is zero";
  _ ← reject_if (ProviderLimits.max_frame_bytes (TransportProviderMetadata.limits metadata) =? 0)
        "provider max frame bytes must be positive";
  let unique_limitations := remove_dups (TransportProviderMetadata.limitations metadata) in
  reject_if (negb (length unique_limitations
                   =? length (TransportProviderMetadata.limitations metadata))%nat)
    "provider limitations must not contain duplicates".

Definition is_selectable_transport (transport_id : TransportId.t) : bool :=
  match transport_id with
  | TransportId.Quic | TransportId.Tcp | TransportId.Ipc | TransportId.WebSocket => true
  | TransportId.Unspecified => false
  end.

(** ** The registry *)

Module TransportProviderRegistryError.

Inductive t :=
| InvalidProviderMetadata (provider_id : bytes) (diagnostic : string)
| DuplicateTransportId (transport_id : TransportId.t)
| DuplicateProviderId (provider_id : bytes).

End TransportProviderRegistryError.

Definition validate_provider_registration
    (providers : list TransportProviderDescriptor.t) (provider : TransportProviderDescriptor.t)
    : Outcome TransportProviderRegistryError.t unit :=
  _ ← map_err (TransportProviderRegistryError.InvalidProviderMetadata
                 (TransportProviderDescriptor.id provider))
        (validate_provider_metadata (TransportProviderDescriptor.metadata provider));
  _ ← reject_if (existsb (fun registered =>
          bool_decide (TransportProviderDescriptor.transport_id registered
                       = TransportProviderDescriptor.transport_id provider)) providers)
        (TransportProviderRegistryError.DuplicateTransportId
           (TransportProviderDescriptor.transport_id provider));
  reject_if (existsb (fun registered =>
      bool_decide (TransportProviderDescriptor.id registered
                   = TransportProviderDescriptor.id provider)) providers)
    (TransportProviderRegistryError.DuplicateProviderId (TransportProviderDescriptor.id provider)).

(** ** Evidence *)

Module RemoteTransportSupport.

Record t := mk { supported : list TransportId.t }.

(** [Vec::dedup]. *)
Fixpoint dedup (l : list TransportId.t) : list TransportId.t :=
  match l with
  | a :: (b :: _) as rest => if bool_decide (a = b) then dedup rest else a :: dedup rest
  | _ => l
  end.

(** [sort_by_key] on the discriminant. *)
Definition by_repr (a b : TransportId.t) : Outcome Empty_set comparison :=
  Ok (TransportId.repr a ?= TransportId.repr b).

Definition new (transports : list TransportId.t) : t :=
  let selectable := filter (fun t => is_selectable_transport t = true) transports in
  {| supported := match sort_by by_repr selectable with Ok l => dedup l | _ => [] end |}.

Definition supports (self : t) (transport_id : TransportId.t) : bool :=
  bool_decide (transport_id ∈ supported self).

End RemoteTransportSupport.

Module ProbeState.

Inductive t := NotRun | Succeeded | Failed | Missing.

#[global] Instance eq_dec : EqDecision t.
Proof. solve_decision. Defined.

End ProbeState.

Module ProbeMetrics.

Record t := mk {
  sample_count : Z;
  success_count : Z;
  median_throughput_bytes_per_sec : Z;
  median_rtt_us : Z
}.

End ProbeMetrics.

Module TransportCandidateReadiness.

Record t := mk {
  transport_id : TransportId.t;
  provider_id : bytes;
  route_resolved : bool;
  security_satisfied : bool;
  diagnostic : option bytes
}.

Definition ready (transport_id : TransportId.t) (provider_id : bytes) : t :=
  mk transport_id provider_id true true None.

Definition route_unresolved (transport_id : TransportId.t) (provider_id diagnostic : bytes) : t :=
  mk transport_id provider_id false true (Some diagnostic).

Definition security_unsatisfied (transport_id : TransportId.t) (provider_id diagnostic : bytes) : t :=
  mk transport_id provider_id true false (Some diagnostic).

Definition key (self : t) : TransportId.t * bytes := (transport_id self, provider_id self).

End TransportCandidateReadiness.

Module TransportProbeObservation.

Record t := mk {
  transport_id : TransportId.t;
  provider_id : bytes;
  state : ProbeState.t;
  metrics : option ProbeMetrics.t;
  diagnostic : option bytes
}.

Definition succeeded (transport_id : TransportId.t) (provider_id : bytes) (metrics : ProbeMetrics.t)
    : t := mk transport_id provider_id ProbeState.Succeeded (Some metrics) None.

Definition failed (transport_id : TransportId.t) (provider_id diagnostic : bytes) : t :=
  mk transport_id provider_id ProbeState.Failed None (Some diagnostic).

Definition key (self : t) : TransportId.t * bytes := (transport_id self, provider_id self).

End TransportProbeObservation.

Module TransportSelectionOptions.

Record t := mk {
  peer_supported_transports : list TransportId.t;
  policy : TransportPolicy.t;
  requested_max_frame_bytes : option Z;
  candidate_readiness : list TransportCandidateReadiness.t;
  probe_observations : list TransportProbeObservation.t
}.

Definition default : t := mk [] TransportPolicy.Auto None [] [].

End TransportSelectionOptions.

Module TransportRejectionReason.

Inductive t :=
| PolicyDisallowed | LocalUnavailable | PeerUnsupported | LimitExceeded | RouteUnresolved
| SecurityUnsatisfied | ProbeMissing | ProbeFailed.

#[global] Instance eq_dec : EqDecision t.
Proof. solve_decision. Defined.

End TransportRejectionReason.

Module TransportCandidateDiagnostic.

Record t := mk {
  transport_id : TransportId.t;
  provider : TransportProviderMetadata.t;
  local_available : bool;
  peer_supported : bool;
  within_limits : bool;
  probe_state : ProbeState.t;
  probe : option ProbeMetrics.t;
  selection_rank : option Z;
  rejection_reason : option TransportRejectionReason.t;
  diagnostic : option bytes
}.

Definition set_rank (self : t) (rank : Z) : t := {|
  transport_id := transport_id self; provider := provider self;
  local_available := local_available self; peer_supported := peer_supported self;
  within_limits := within_limits self; probe_state := probe_state self; probe := probe self;
  selection_rank := Some rank; rejection_reason := rejection_reason self;
  diagnostic := diagnostic self |}.

(** The stores of the probe loops. *)
Definition set_probe (self : t) (state : ProbeState.t) (metrics : option ProbeMetrics.t)
    (reason : option TransportRejectionReason.t) (text : option bytes) : t := {|
  transport_id := transport_id self; provider := provider self;
  local_available := local_available self; peer_supported := peer_supported self;
  within_limits := within_limits self; probe_state := state; probe := metrics;
  selection_rank := selection_rank self; rejection_reason := reason; diagnostic := text |}.

End TransportCandidateDiagnostic.

Module TransportSelection.

Record t := mk {
  selected_provider : TransportProviderDescriptor.t;
  candidates : list TransportCandidateDiagnostic.t;
  policy : TransportPolicy.t;
  diagnostic : option bytes
}.

End TransportSelection.

Module TransportSelectionErrorCode.

Inductive t := InvalidEvidence | ForcedTransportUnavailable | NoViableTransport.

End TransportSelectionErrorCode.

Module TransportSelectionError.

Inductive t :=
| InvalidEvidence (policy : option TransportPolicy.t)
    (candidates : list TransportCandidateDiagnostic.t) (diagnostic : bytes)
| ForcedTransportUnavailable (policy : TransportPolicy.t) (transport_id : TransportId.t)
    (candidates : list TransportCandidateDiagnostic.t) (diagnostic : option bytes)
| NoViableTransport (policy : TransportPolicy.t)
    (candidates : list TransportCandidateDiagnostic.t) (diagnostic : option bytes).

Definition code (self : t) : TransportSelectionErrorCode.t :=
  match self with
  | InvalidEvidence _ _ _ => TransportSelectionErrorCode.InvalidEvidence
  | ForcedTransportUnavailable _ _ _ _ => TransportSelectionErrorCode.ForcedTransportUnavailable
  | NoViableTransport _ _ _ => TransportSelectionErrorCode.NoViableTransport
  end.

Definition get_policy (self : t) : option TransportPolicy.t :=
  match self with
  | InvalidEvidence policy _ _ => policy
  | ForcedTransportUnavailable policy _ _ _ | NoViableTransport policy _ _ => Some policy
  end.

Definition get_transport_id (self : t) : option TransportId.t :=
  match self with
  | ForcedTransportUnavailable _ transport_id _ _ => Some transport_id
  | InvalidEvidence _ _ _ | NoViableTransport _ _ _ => None
  end.

Definition get_candidates (self : t) : list TransportCandidateDiagnostic.t :=
  match self with
  | InvalidEvidence _ candidates _ | ForcedTransportUnavailable _ _ candidates _
  | NoViableTransport _ candidates _ => candidates
  end.

Definition get_diagnostic (self : t) : option bytes :=
  match self with
  | InvalidEvidence _ _ diagnostic => Some diagnostic
  | ForcedTransportUnavailable _ _ _ diagnostic | NoViableTransport _ _ diagnostic => diagnostic
  end.

End TransportSelectionError.

(** The outcome of a selection. *)
Abbreviation Sel := (Outcome TransportSelectionError.t).

Definition invalid_evidence (diagnostic : bytes) : TransportSelectionError.t :=
  TransportSelectionError.InvalidEvidence None [] diagnostic.

(** [{:?}] of a [TransportId]. *)
Definition debug (transport_id : TransportId.t) : bytes :=
  match transport_id with
  | TransportId.Unspecified => str "Unspecified"
  | TransportId.Quic => str "Quic"
  | TransportId.Tcp => str "Tcp"
  | TransportId.Ipc => str "Ipc"
  | TransportId.WebSocket => str "WebSocket"
  end.

(** [{:?}/{}] of a transport and a provider id. *)
Definition debug_key (k : TransportId.t * bytes) : bytes := debug k.1 ++ str "/" ++ k.2.

Definition validate_probe_metrics (metrics : ProbeMetrics.t) : Outcome string unit :=
  _ ← reject_if (ProbeMetrics.sample_count metrics =? 0) "sample count must be positive";
  reject_if ((ProbeMetrics.success_count metrics =? 0)
             || (ProbeMetrics.sample_count metrics <? ProbeMetrics.success_count metrics))
    "success count must be in 1..=sample count".

(** The body of the loop over the providers.  The state holds the providers seen: their
    transports, ids and keys are the three sets of the source. *)
Definition provider_step (seen : list TransportProviderDescriptor.t)
    (provider : TransportProviderDescriptor.t) : Sel (list TransportProviderDescriptor.t) :=
  let transport_id := TransportProviderDescriptor.transport_id provider in
  let id := TransportProviderDescriptor.id provider in
  _ ← map_err (fun diagnostic => invalid_evidence
          (str "provider " ++ id ++ str " has invalid metadata: " ++ str diagnostic))
        (validate_provider_metadata (TransportProviderDescriptor.metadata provider));
  _ ← reject_if (negb (is_selectable_transport transport_id))
        (invalid_evidence (str "provider uses non-selectable transport " ++ debug transport_id));
  _ ← reject_if (bool_decide (transport_id ∈ TransportProviderDescriptor.transport_id <$> seen))
        (invalid_evidence (str "duplicate provider for transport " ++ debug transport_id));
  _ ← reject_if (bool_decide (id ∈ TransportProviderDescriptor.id <$> seen))
        (invalid_evidence (str "duplicate provider id " ++ id));
  Ok (seen ++ [provider]).

(** The check of a provider id and of its key, which both evidence loops start with. *)
Definition key_step (what invalid_id : string) (provider_keys seen : list (TransportId.t * bytes))
    (k : TransportId.t * bytes) : Sel (list (TransportId.t * bytes)) :=
  _ ← reject_if (bool_decide (k.2 = []) || negb (is_ascii k.2))
        (invalid_evidence (str invalid_id));
  _ ← reject_if (negb (bool_decide (k ∈ provider_keys)))
        (invalid_evidence (str "unmatched " ++ str what ++ str " for " ++ debug_key k));
  _ ← reject_if (bool_decide (k ∈ seen))
        (invalid_evidence (str "duplicate " ++ str what ++ str " for " ++ debug_key k));
  Ok (seen ++ [k]).

Definition observation_step (provider_keys seen : list (TransportId.t * bytes))
    (observation : TransportProbeObservation.t) : Sel (list (TransportId.t * bytes)) :=
  let k := TransportProbeObservation.key observation in
  seen ← key_step "probe observation"
    "probe observation provider id must be a non-empty ASCII string" provider_keys seen k;
  _ ← match TransportProbeObservation.state observation,
            TransportProbeObservation.metrics observation with
      | ProbeState.Succeeded, Some metrics =>
          map_err (fun diagnostic => invalid_evidence
              (str "invalid probe metrics for " ++ debug_key k ++ str ": " ++ str diagnostic))
            (validate_probe_metrics metrics)
      | ProbeState.Failed, None => Ok tt
      | ProbeState.Succeeded, None =>
          Err (invalid_evidence
                 (str "successful probe observation requires metrics for " ++ debug_key k))
      | ProbeState.Failed, Some _ =>
          Err (invalid_evidence
                 (str "failed probe observation forbids metrics for " ++ debug_key k))
      | _, _ =>
          Err (invalid_evidence
                 (str "probe observation state must be succeeded or failed for " ++ debug_key k))
      end;
  Ok seen.

(** [readiness_keys != provider_keys], as sets. *)
Definition same_set {A} `{EqDecision A} (l l' : list A) : bool :=
  forallb (fun a => bool_decide (a ∈ l')) l && forallb (fun a => bool_decide (a ∈ l)) l'.

Definition validate_selection_evidence
    (providers : list TransportProviderDescriptor.t)
    (readiness : list TransportCandidateReadiness.t)
    (observations : list TransportProbeObservation.t) : Sel unit :=
  seen ← try_fold provider_step [] providers;
  let provider_keys := TransportProviderDescriptor.key <$> seen in
  readiness_keys ← try_fold (fun seen record => key_step "readiness"
      "candidate readiness provider id must be a non-empty ASCII string" provider_keys seen
      (TransportCandidateReadiness.key record)) [] readiness;
  _ ← reject_if (negb (same_set readiness_keys provider_keys))
        (invalid_evidence (str "readiness must contain exactly one record for every provider"));
  _ ← try_fold (observation_step provider_keys) [] observations;
  Ok tt.

(** ** Candidates *)

Module EvaluatedCandidate.

Record t := mk {
  descriptor : TransportProviderDescriptor.t;
  diagnostic : TransportCandidateDiagnostic.t
}.

Definition set_diagnostic (self : t) (d : TransportCandidateDiagnostic.t) : t :=
  {| descriptor := descriptor self; diagnostic := d |}.

Definition eligible (self : t) : bool :=
  negb (is_some (TransportCandidateDiagnostic.rejection_reason (diagnostic self))).

Definition probed (self : t) : bool :=
  bool_decide (TransportCandidateDiagnostic.probe_state (diagnostic self) = ProbeState.Succeeded).

End EvaluatedCandidate.

Section evaluation.
Context (remote : RemoteTransportSupport.t) (policy : TransportPolicy.t)
  (requested_max_frame_bytes : option Z) (readiness : list TransportCandidateReadiness.t).

Definition matching_readiness (provider : TransportProviderDescriptor.t)
    : option TransportCandidateReadiness.t :=
  find (fun r => bool_decide (TransportCandidateReadiness.transport_id r
                              = TransportProviderDescriptor.transport_id provider)
                 && bool_decide (TransportCandidateReadiness.provider_id r
                                 = TransportProviderDescriptor.id provider)) readiness.

Definition within_limits (provider : TransportProviderDescriptor.t) : bool :=
  match requested_max_frame_bytes with
  | Some requested =>
      requested <=? ProviderLimits.max_frame_bytes
        (TransportProviderMetadata.limits (TransportProviderDescriptor.metadata provider))
  | None => true
  end.

(** [readiness.is_some_and(|readiness| !..)]. *)
Definition lacks (p : TransportCandidateReadiness.t -> bool)
    (r : option TransportCandidateReadiness.t) : bool :=
  match r with Some r => negb (p r) | None => false end.

Definition rejection (provider : TransportProviderDescriptor.t)
    : option TransportRejectionReason.t :=
  let transport_id := TransportProviderDescriptor.transport_id provider in
  let r := matching_readiness provider in
  if negb (TransportPolicy.allows policy transport_id)
  then Some TransportRejectionReason.PolicyDisallowed
  else if negb (TransportProviderDescriptor.available provider)
  then Some TransportRejectionReason.LocalUnavailable
  else if negb (RemoteTransportSupport.supports remote transport_id)
  then Some TransportRejectionReason.PeerUnsupported
  else if negb (within_limits provider) then Some TransportRejectionReason.LimitExceeded
  else if lacks TransportCandidateReadiness.route_resolved r
  then Some TransportRejectionReason.RouteUnresolved
  else if lacks TransportCandidateReadiness.security_satisfied r
  then Some TransportRejectionReason.SecurityUnsatisfied
  else None.

(** The closure of [evaluate_candidates]. *)
Definition evaluate (provider : TransportProviderDescriptor.t) : EvaluatedCandidate.t := {|
  EvaluatedCandidate.descriptor := provider;
  EvaluatedCandidate.diagnostic := {|
    TransportCandidateDiagnostic.transport_id := TransportProviderDescriptor.transport_id provider;
    TransportCandidateDiagnostic.provider := TransportProviderDescriptor.metadata provider;
    TransportCandidateDiagnostic.local_available := TransportProviderDescriptor.available provider;
    TransportCandidateDiagnostic.peer_supported :=
      RemoteTransportSupport.supports remote (TransportProviderDescriptor.transport_id provider);
    TransportCandidateDiagnostic.within_limits := within_limits provider;
    TransportCandidateDiagnostic.probe_state := ProbeState.NotRun;
    TransportCandidateDiagnostic.probe := None;
    TransportCandidateDiagnostic.selection_rank := None;
    TransportCandidateDiagnostic.rejection_reason := rejection provider;
    TransportCandidateDiagnostic.diagnostic :=
      match matching_readiness provider ≫= TransportCandidateReadiness.diagnostic with
      | Some d => Some d
      | None => TransportProviderDescriptor.diagnostic provider
      end |} |}.

Definition evaluate_candidates (providers : list TransportProviderDescriptor.t)
    : list EvaluatedCandidate.t :=
  evaluate <$> filter (fun p =>
    is_selectable_transport (TransportProviderDescriptor.transport_id p) = true) providers.
End evaluation.

(** The indices of the candidates with a property: [enumerate().filter_map(..)]. *)
Fixpoint indices_from (start : nat) (p : EvaluatedCandidate.t -> bool)
    (candidates : list EvaluatedCandidate.t) : list nat :=
  match candidates with
  | [] => []
  | c :: rest =>
      if p c then start :: indices_from (S start) p rest
      else indices_from (S start) p rest
  end.

Definition eligible_indices (candidates : list EvaluatedCandidate.t) : list nat :=
  indices_from 0 EvaluatedCandidate.eligible candidates.

(** [candidates\[index\]], and a store into its diagnostic. *)
Definition candidate_at (candidates : list EvaluatedCandidate.t) (index : nat)
    : Sel EvaluatedCandidate.t := expect (candidates !! index).

Definition update_at
    (f : EvaluatedCandidate.t -> TransportCandidateDiagnostic.t)
    (candidates : list EvaluatedCandidate.t) (index : nat) : Sel (list EvaluatedCandidate.t) :=
  c ← candidate_at candidates index;
  Ok (<[index := EvaluatedCandidate.set_diagnostic c (f c)]> candidates).

(** ** Orders *)

Definition bool_compare (a b : bool) : comparison :=
  match a, b with true, false => Gt | false, true => Lt | _, _ => Eq end.

Definition compare_cost (left right : ProviderCost.t) : comparison :=
  if negb (ProviderCost.model_id left =? 0)
     && (ProviderCost.model_id left =? ProviderCost.model_id right)
  then ProviderCost.units left ?= ProviderCost.units right
  else Eq.

Definition is_preferred (policy : TransportPolicy.t) (d : TransportProviderDescriptor.t) : bool :=
  bool_decide (Some (TransportProviderDescriptor.transport_id d)
               = TransportPolicy.preferred_transport policy).

(** The comparison of two descriptors with their metrics. *)
Definition compare_probed (policy : TransportPolicy.t)
    (left : TransportProviderDescriptor.t) (left_probe : ProbeMetrics.t)
    (right : TransportProviderDescriptor.t) (right_probe : ProbeMetrics.t) : comparison :=
  let lm := TransportProviderDescriptor.metadata left in
  let rm := TransportProviderDescriptor.metadata right in
  then_with (ProbeMetrics.success_count right_probe ?= ProbeMetrics.success_count left_probe)
  (then_with (ProbeMetrics.median_throughput_bytes_per_sec right_probe
              ?= ProbeMetrics.median_throughput_bytes_per_sec left_probe)
  (then_with (ProbeMetrics.median_rtt_us left_probe ?= ProbeMetrics.median_rtt_us right_probe)
  (then_with (compare_cost (TransportProviderMetadata.cost lm) (TransportProviderMetadata.cost rm))
  (then_with (bool_compare (is_preferred policy right) (is_preferred policy left))
  (then_with (TransportProviderMetadata.preference_rank lm
              ?= TransportProviderMetadata.preference_rank rm)
  (then_with (TransportId.repr (TransportProviderDescriptor.transport_id left)
              ?= TransportId.repr (TransportProviderDescriptor.transport_id right))
     (bytes_cmp (TransportProviderMetadata.id lm) (TransportProviderMetadata.id rm)))))))).

Definition compare_candidates (policy : TransportPolicy.t) (left right : EvaluatedCandidate.t)
    : Sel comparison :=
  left_probe ← expect (TransportCandidateDiagnostic.probe (EvaluatedCandidate.diagnostic left));
  right_probe ← expect (TransportCandidateDiagnostic.probe (EvaluatedCandidate.diagnostic right));
  Ok (compare_probed policy (EvaluatedCandidate.descriptor left) left_probe
        (EvaluatedCandidate.descriptor right) right_probe).

Definition compare_diagnostics (left right : EvaluatedCandidate.t) : comparison :=
  let ld := EvaluatedCandidate.descriptor left in
  let rd := EvaluatedCandidate.descriptor right in
  match TransportCandidateDiagnostic.selection_rank (EvaluatedCandidate.diagnostic left),
        TransportCandidateDiagnostic.selection_rank (EvaluatedCandidate.diagnostic right) with
  | Some left_rank, Some right_rank => left_rank ?= right_rank
  | Some _, None => Lt
  | None, Some _ => Gt
  | None, None =>
      then_with (TransportId.repr (TransportProviderDescriptor.transport_id ld)
                 ?= TransportId.repr (TransportProviderDescriptor.transport_id rd))
        (bytes_cmp (TransportProviderDescriptor.id ld) (TransportProviderDescriptor.id rd))
  end.

Definition ordered_diagnostics (candidates : list EvaluatedCandidate.t)
    : Sel (list TransportCandidateDiagnostic.t) :=
  sorted ← sort_by (E := TransportSelectionError.t)
             (fun left right => Ok (compare_diagnostics left right)) candidates;
  Ok (map EvaluatedCandidate.diagnostic sorted).

(** ** Selection *)

Definition selection_error {A} (policy : TransportPolicy.t)
    (candidates : list TransportCandidateDiagnostic.t) : Sel A :=
  match TransportPolicy.forced_transport policy with
  | Some transport_id =>
      Err (TransportSelectionError.ForcedTransportUnavailable policy transport_id candidates None)
  | None => Err (TransportSelectionError.NoViableTransport policy candidates None)
  end.

Definition direct_selection (candidates : list EvaluatedCandidate.t) (selected_index : nat)
    (policy : TransportPolicy.t) : Sel TransportSelection.t :=
  candidates ← update_at (fun c => TransportCandidateDiagnostic.set_rank
                                     (EvaluatedCandidate.diagnostic c) 0) candidates selected_index;
  selected ← candidate_at candidates selected_index;
  diagnostics ← ordered_diagnostics candidates;
  Ok {| TransportSelection.selected_provider := EvaluatedCandidate.descriptor selected;
        TransportSelection.candidates := diagnostics;
        TransportSelection.policy := policy;
        TransportSelection.diagnostic := None |}.

(** The stores of the loop of [select_transport]: the probe is missing. *)
Definition mark_missing (c : EvaluatedCandidate.t) : TransportCandidateDiagnostic.t :=
  let d := EvaluatedCandidate.diagnostic c in
  TransportCandidateDiagnostic.set_probe d ProbeState.Missing (TransportCandidateDiagnostic.probe d)
    (Some TransportRejectionReason.ProbeMissing) (TransportCandidateDiagnostic.diagnostic d).

Definition select_transport (providers : list TransportProviderDescriptor.t)
    (options : TransportSelectionOptions.t) : Sel TransportSelection.t :=
  let remote := RemoteTransportSupport.new
    (TransportSelectionOptions.peer_supported_transports options) in
  let policy := TransportSelectionOptions.policy options in
  let readiness := TransportSelectionOptions.candidate_readiness options in
  _ ← validate_selection_evidence providers readiness [];
  let candidates := evaluate_candidates remote policy
    (TransportSelectionOptions.requested_max_frame_bytes options) readiness providers in
  match eligible_indices candidates with
  | [index] => direct_selection candidates index policy
  | eligible =>
      candidates ← try_fold (update_at mark_missing) candidates eligible;
      diagnostics ← ordered_diagnostics candidates;
      selection_error policy diagnostics
  end.

Definition matching_probe_observation (provider : TransportProviderDescriptor.t)
    (observations : list TransportProbeObservation.t) : option TransportProbeObservation.t :=
  find (fun o => bool_decide (TransportProbeObservation.transport_id o
                              = TransportProviderDescriptor.transport_id provider)
                 && bool_decide (TransportProbeObservation.provider_id o
                                 = TransportProviderDescriptor.id provider)) observations.

(** The body of the loop over the eligible candidates of [select_transport_with_probe]. *)
Definition record_probe (observations : list TransportProbeObservation.t)
    (c : EvaluatedCandidate.t) : TransportCandidateDiagnostic.t :=
  let d := EvaluatedCandidate.diagnostic c in
  match matching_probe_observation (EvaluatedCandidate.descriptor c) observations with
  | Some o =>
      if bool_decide (TransportProbeObservation.state o = ProbeState.Succeeded)
      then TransportCandidateDiagnostic.set_probe d ProbeState.Succeeded
             (TransportProbeObservation.metrics o)
             (TransportCandidateDiagnostic.rejection_reason d)
             (TransportProbeObservation.diagnostic o)
      else TransportCandidateDiagnostic.set_probe d ProbeState.Failed
             (TransportCandidateDiagnostic.probe d) (Some TransportRejectionReason.ProbeFailed)
             (TransportProbeObservation.diagnostic o)
  | None => mark_missing c
  end.

(** [for (rank, index) in successful.iter().copied().enumerate()]. *)
Definition assign_ranks (candidates : list EvaluatedCandidate.t) (successful : list nat)
    : Sel (list EvaluatedCandidate.t) :=
  try_fold (fun candidates ranked =>
      update_at (fun c => TransportCandidateDiagnostic.set_rank
                            (EvaluatedCandidate.diagnostic c) (Z.of_nat ranked.1))
        candidates ranked.2)
    candidates (zip (seq 0 (length successful)) successful).

(** The rest of [select_transport_with_probe], when there is not exactly one eligible
    candidate. *)
Definition ranked_selection (policy : TransportPolicy.t)
    (observations : list TransportProbeObservation.t) (candidates : list EvaluatedCandidate.t)
    (eligible : list nat) : Sel TransportSelection.t :=
  candidates ← try_fold (update_at (record_probe observations)) candidates eligible;
  let successful := indices_from 0 EvaluatedCandidate.probed candidates in
  successful ← sort_by (fun left right =>
      left ← candidate_at candidates left; right ← candidate_at candidates right;
      compare_candidates policy left right) successful;
  candidates ← assign_ranks candidates successful;
  match successful with
  | selected_index :: _ =>
      selected ← candidate_at candidates selected_index;
      diagnostics ← ordered_diagnostics candidates;
      Ok {| TransportSelection.selected_provider := EvaluatedCandidate.descriptor selected;
            TransportSelection.candidates := diagnostics;
            TransportSelection.policy := policy;
            TransportSelection.diagnostic := None |}
  | [] =>
      diagnostics ← ordered_diagnostics candidates;
      selection_error policy diagnostics
  end.

Definition select_transport_with_probe (providers : list TransportProviderDescriptor.t)
    (options : TransportSelectionOptions.t) : Sel TransportSelection.t :=
  let remote := RemoteTransportSupport.new
    (TransportSelectionOptions.peer_supported_transports options) in
  let policy := TransportSelectionOptions.policy options in
  let readiness := TransportSelectionOptions.candidate_readiness options in
  let observations := TransportSelectionOptions.probe_observations options in
  _ ← validate_selection_evidence providers readiness observations;
  let candidates := evaluate_candidates remote policy
    (TransportSelectionOptions.requested_max_frame_bytes options) readiness providers in
  match eligible_indices candidates with
  | [index] => direct_selection candidates index policy
  | eligible =>
      ranked_selection policy observations candidates eligible
  end.

(** ** The registry's operations *)

Module TransportProviderRegistry.

Record t := mk { providers : list TransportProviderDescriptor.t }.

Definition new : t := {| providers := [] |}.

Definition register (provider : TransportProviderDescriptor.t)
    : Method t TransportProviderRegistryError.t unit := fun self =>
  match validate_provider_registration (providers self) provider with
  | Ok _ => (Ok tt, {| providers := providers self ++ [provider] |})
  | Err e => (Err e, self)
  | Panic => (Panic, self)
  end.

Definition with_provider (self : t) (provider : TransportProviderDescriptor.t)
    : Outcome TransportProviderRegistryError.t t :=
  match register provider self with
  | (Ok _, self) => Ok self
  | (Err e, _) => Err e
  | (Panic, _) => Panic
  end.

Definition available_for (self : t) (transport_id : TransportId.t)
    : list TransportProviderDescriptor.t :=
  filter (fun p => TransportProviderDescriptor.available p
                   && bool_decide (TransportProviderDescriptor.transport_id p = transport_id) = true)
    (providers self).

Definition select (self : t) (options : TransportSelectionOptions.t) : Sel TransportSelection.t :=
  select_transport (providers self) options.

Definition select_with_probe (self : t) (options : TransportSelectionOptions.t)
    : Sel TransportSelection.t :=
  select_transport_with_probe (providers self) options.

End TransportProviderRegistry.

(** ** Probes *)

(** [a.saturating_mul(b)]. *)
Definition saturating_mul (max a b : Z) : Z := Z.min (a * b) max.

Module ProbeSample.

Record t := mk {
  transport_id : TransportId.t;
  provider_id : bytes;
  elapsed_us : Z;
  rtt_us : option Z;
  bytes_sent : Z;
  bytes_received : Z;
  timed_out : bool;
  failed : bool
}.

Definition success (transport_id : TransportId.t) (provider_id : bytes)
    (elapsed_us rtt_us bytes_sent bytes_received : Z) : t :=
  mk transport_id provider_id elapsed_us (Some rtt_us) bytes_sent bytes_received false false.

Definition failure (transport_id : TransportId.t) (provider_id : bytes) (elapsed_us : Z)
    (timed_out : bool) : t :=
  mk transport_id provider_id elapsed_us None 0 0 timed_out true.

Definition is_successful (self : t) : bool :=
  negb (failed self) && negb (timed_out self) && is_some (rtt_us self) && (0 <? elapsed_us self).

(** Bytes per second, in [u64] arithmetic that saturates. *)
Definition throughput (self : t) : Z :=
  saturating_mul u64_max
    (saturating_add u64_max (bytes_sent self) (bytes_received self)) 1000000 / elapsed_us self.

End ProbeSample.

Definition matching_probe_samples (provider : TransportProviderDescriptor.t)
    (samples : list ProbeSample.t) : list ProbeSample.t :=
  filter (fun s => bool_decide (ProbeSample.transport_id s
                                = TransportProviderDescriptor.transport_id provider)
                   && bool_decide (ProbeSample.provider_id s
                                   = TransportProviderDescriptor.id provider) = true) samples.

(** The median of [u64] values; an empty list would underflow the index. *)
Definition median (values : list Z) : Outcome Empty_set Z :=
  let values := merge_sort Z.le values in
  let upper := (length values / 2)%nat in
  if (length values mod 2 =? 1)%nat then expect (values !! upper)
  else
    lower ← match upper with O => Panic | S i => expect (values !! i) end;
    upper_value ← expect (values !! upper);
    Ok (lower + (upper_value - lower) / 2).

Definition saturating_u32 (value : Z) : Z := if value <=? u32_max then value else u32_max.

Definition summarize_provider_probe (provider : TransportProviderDescriptor.t)
    (samples : list ProbeSample.t) : Outcome Empty_set (option ProbeMetrics.t) :=
  let provider_samples := matching_probe_samples provider samples in
  let successful := filter (fun s => ProbeSample.is_successful s = true) provider_samples in
  if bool_decide (successful = []) then Ok None
  else
    let throughputs := map ProbeSample.throughput successful in
    let rtts := omap ProbeSample.rtt_us successful in
    median_throughput ← median throughputs;
    median_rtt ← median rtts;
    Ok (Some {| ProbeMetrics.sample_count := saturating_u32 (len provider_samples);
                ProbeMetrics.success_count := saturating_u32 (len successful);
                ProbeMetrics.median_throughput_bytes_per_sec := median_throughput;
                ProbeMetrics.median_rtt_us := median_rtt |}).

(** The file system is the argument [is_file]. *)
Definition detect_native_library (windows : bool) (is_file : bytes -> bool)
    (name version : bytes) (transport_id : TransportId.t) (candidates : list bytes)
    : TransportProviderDescriptor.t :=
  match find is_file candidates with
  | Some candidate =>
      TransportProviderDescriptor.with_library_path
        (TransportProviderDescriptor.new_available windows name version transport_id
           TransportProviderKind.NativeDynamic) candidate
  | None =>
      TransportProviderDescriptor.missing windows name version transport_id
        TransportProviderKind.NativeDynamic (str "native transport library was not found")
  end.

(** ** What the evidence checks accept *)

Section folds.
Context {A B : Type} (g : A -> B).

(** A property of each element and of those before it. *)
Fixpoint along (Q : list B -> A -> Prop) (seen : list B) (l : list A) : Prop :=
  match l with
  | [] => True
  | x :: l => Q seen x /\ along Q (seen ++ [g x]) l
  end.

Lemma try_fold_along {E} (step : list B -> A -> Outcome E (list B)) Q l seen r :
  (forall seen x r, step seen x = Ok r <-> Q seen x /\ r = seen ++ [g x]) ->
  try_fold step seen l = Ok r <-> along Q seen l /\ r = seen ++ map g l.
Proof.
  intros Hstep. revert seen; induction l as [|x l IH]; intros seen; simpl.
  { rewrite app_nil_r. split; [by intros [= <-]|by intros [_ ->]]. }
  rewrite bind_Ok. setoid_rewrite Hstep. split.
  - intros (s & [Hq ->] & Hl). apply IH in Hl as [Hl ->]. by rewrite <- app_assoc.
  - intros [[Hq Hl] ->]. eexists. split; [done|]. apply IH. by rewrite <- app_assoc.
Qed.

Lemma along_and Q1 Q2 l seen :
  along (fun seen x => Q1 seen x /\ Q2 seen x) seen l <-> along Q1 seen l /\ along Q2 seen l.
Proof. revert seen; induction l as [|x l IH]; intros seen; simpl; [done|]. rewrite IH. tauto. Qed.

Lemma along_each P l seen : along (fun _ x => P x) seen l <-> Forall P l.
Proof. revert seen; induction l as [|x l IH]; intros seen; simpl; [done|]. by rewrite IH, Forall_cons. Qed.

(** Each element's key is new. *)
Lemma along_fresh {K} (h : B -> K) l seen :
  NoDup (h <$> seen) ->
  along (fun seen x => h (g x) ∉ (h <$> seen)) seen l <-> NoDup (h <$> seen ++ map g l).
Proof.
  revert seen; induction l as [|x l IH]; intros seen Hs; simpl; [by rewrite app_nil_r|].
  assert (seen ++ g x :: map g l = (seen ++ [g x]) ++ map g l) as -> by (by rewrite <- app_assoc).
  assert (NoDup (h <$> seen ++ [g x]) <-> h (g x) ∉ (h <$> seen)) as Hsnoc.
  { rewrite fmap_app, NoDup_app. simpl. split.
    - intros (_ & Hd & _) Hin. apply (Hd _ Hin). by left.
    - intros Hn. split_and!; [done| |apply NoDup_singleton]. set_solver. }
  split.
  - intros [Hn Hl]. by apply IH in Hl; [|apply Hsnoc].
  - intros Hn. assert (NoDup (h <$> seen ++ [g x])) as Hx
      by (rewrite fmap_app in Hn; by apply NoDup_app in Hn as [? _]).
    split; [by apply Hsnoc|by apply IH].
Qed.

Lemma along_iff Q Q' l seen :
  (forall seen x, Q seen x <-> Q' seen x) -> along Q seen l <-> along Q' seen l.
Proof.
  intros HQ. revert seen; induction l as [|x l IH]; intros seen; simpl; [done|]. by rewrite HQ, IH.
Qed.

Lemma along_new l : along (fun seen x => g x ∉ seen) [] l <-> NoDup (map g l).
Proof.
  rewrite (along_iff _ (fun seen x => g x ∉ ((fun b => b) <$> seen)))
    by (intros; by rewrite list_fmap_id).
  rewrite (along_fresh (fun b => b)) by constructor. by rewrite list_fmap_id.
Qed.
End folds.

(** A provider that can be a candidate at all. *)
Definition provider_ok (p : TransportProviderDescriptor.t) : Prop :=
  validate_provider_metadata (TransportProviderDescriptor.metadata p) = Ok tt /\
  is_selectable_transport (TransportProviderDescriptor.transport_id p) = true.

Definition observation_ok (o : TransportProbeObservation.t) : Prop :=
  match TransportProbeObservation.state o, TransportProbeObservation.metrics o with
  | ProbeState.Succeeded, Some m => validate_probe_metrics m = Ok tt
  | ProbeState.Failed, None => True
  | _, _ => False
  end.

Lemma provider_step_Ok seen p r :
  provider_step seen p = Ok r <->
  (provider_ok p /\
   (TransportProviderDescriptor.transport_id p
      ∉ (TransportProviderDescriptor.transport_id <$> seen)) /\
   (TransportProviderDescriptor.id p ∉ (TransportProviderDescriptor.id <$> seen))) /\
  r = seen ++ [p].
Proof.
  unfold provider_step, provider_ok.
  rewrite !then_unit_Ok, map_err_Ok, !reject_if_Ok, negb_false_iff, !bool_decide_eq_false.
  split; [by intros (? & ? & ? & ? & [= <-])|by intros ([[? ?] [? ?]] & ->)].
Qed.

Lemma key_step_Ok what text keys seen k r :
  (forall k, k ∈ keys -> k.2 <> [] /\ is_ascii k.2 = true) ->
  key_step what text keys seen k = Ok r <-> (k ∈ keys /\ k ∉ seen) /\ r = seen ++ [k].
Proof.
  intros Hids. unfold key_step.
  rewrite !then_unit_Ok, !reject_if_Ok, orb_false_iff, !negb_false_iff, !bool_decide_eq_false,
    bool_decide_eq_true. split.
  - by intros (_ & ? & ? & [= <-]).
  - intros [[Hin ?] ->]. by destruct (Hids k Hin).
Qed.

Lemma observation_step_Ok keys seen o r :
  (forall k, k ∈ keys -> k.2 <> [] /\ is_ascii k.2 = true) ->
  observation_step keys seen o = Ok r <->
  ((TransportProbeObservation.key o ∈ keys /\ observation_ok o) /\
   TransportProbeObservation.key o ∉ seen) /\
  r = seen ++ [TransportProbeObservation.key o].
Proof.
  intros Hids. unfold observation_step, observation_ok. rewrite bind_Ok.
  setoid_rewrite (fun r => key_step_Ok _ _ keys seen _ r Hids). setoid_rewrite then_unit_Ok.
  split.
  - intros (s & [[Hin Hn] ->] & Hm & [= <-]). split_and!; try done.
    destruct (TransportProbeObservation.state o), (TransportProbeObservation.metrics o);
      try done; by apply map_err_Ok in Hm.
  - intros ([[Hin Hok] Hn] & ->). eexists. split; [done|]. split; [|done].
    destruct (TransportProbeObservation.state o), (TransportProbeObservation.metrics o);
      try done; by apply map_err_Ok.
Qed.

Lemma same_set_true {A} `{EqDecision A} (l l' : list A) :
  same_set l l' = true <-> forall a, a ∈ l <-> a ∈ l'.
Proof.
  unfold same_set. rewrite andb_true_iff, !forallb_forall.
  setoid_rewrite bool_decide_eq_true. setoid_rewrite <- list_elem_of_In. naive_solver.
Qed.

Definition readiness_keys (rs : list TransportCandidateReadiness.t) : list (TransportId.t * bytes) :=
  map TransportCandidateReadiness.key rs.

(** The evidence that is accepted: providers with valid metadata, one for each transport and
    id; exactly one readiness record for each of them; at most one well-formed observation for
    each, and none of another provider. *)
Definition evidence_ok (ps : list TransportProviderDescriptor.t)
    (rs : list TransportCandidateReadiness.t) (os : list TransportProbeObservation.t) : Prop :=
  let keys := TransportProviderDescriptor.key <$> ps in
  Forall provider_ok ps /\
  NoDup (TransportProviderDescriptor.transport_id <$> ps) /\
  NoDup (TransportProviderDescriptor.id <$> ps) /\
  NoDup (readiness_keys rs) /\ (forall k, k ∈ readiness_keys rs <-> k ∈ keys) /\
  Forall (fun o => TransportProbeObservation.key o ∈ keys /\ observation_ok o) os /\
  NoDup (map TransportProbeObservation.key os).

Lemma provider_ok_id p :
  provider_ok p -> TransportProviderDescriptor.id p <> [] /\
    is_ascii (TransportProviderDescriptor.id p) = true.
Proof.
  intros [Hm _]. unfold validate_provider_metadata in Hm. apply then_unit_Ok in Hm as [Hid _].
  apply reject_if_Ok, orb_false_iff in Hid as [Hne Ha].
  apply bool_decide_eq_false in Hne. by apply negb_false_iff in Ha.
Qed.

Lemma providers_loop_Ok ps r :
  try_fold provider_step [] ps = Ok r <->
  (Forall provider_ok ps /\ NoDup (TransportProviderDescriptor.transport_id <$> ps) /\
   NoDup (TransportProviderDescriptor.id <$> ps)) /\ r = ps.
Proof.
  rewrite (try_fold_along (fun p => p) provider_step _ ps [] r provider_step_Ok).
  rewrite along_and, along_each, along_and.
  rewrite (along_fresh (fun p => p) TransportProviderDescriptor.transport_id) by constructor.
  rewrite (along_fresh (fun p => p) TransportProviderDescriptor.id) by constructor.
  by rewrite map_id.
Qed.

Lemma keys_valid ps k :
  Forall provider_ok ps -> k ∈ TransportProviderDescriptor.key <$> ps ->
  k.2 <> [] /\ is_ascii k.2 = true.
Proof.
  intros Hok (p & -> & Hp)%list_elem_of_fmap. rewrite Forall_forall in Hok.
  by apply provider_ok_id, Hok.
Qed.

Lemma evidence_Ok ps rs os :
  validate_selection_evidence ps rs os = Ok tt <-> evidence_ok ps rs os.
Proof.
  unfold validate_selection_evidence, evidence_ok. rewrite bind_Ok.
  setoid_rewrite providers_loop_Ok. set (keys := TransportProviderDescriptor.key <$> ps).
  assert (Forall provider_ok ps -> forall r,
    try_fold (fun seen record => key_step "readiness"
      "candidate readiness provider id must be a non-empty ASCII string" keys seen
      (TransportCandidateReadiness.key record)) [] rs = Ok r <->
    (Forall (fun k => k ∈ keys) (readiness_keys rs) /\ NoDup (readiness_keys rs)) /\
    r = readiness_keys rs) as Hr.
  { intros Hps r. rewrite (try_fold_along TransportCandidateReadiness.key _ _ rs [] r
      (fun seen x r => key_step_Ok _ _ keys seen (TransportCandidateReadiness.key x) r
         (fun k => keys_valid ps k Hps))).
    rewrite along_and, (along_each _ (fun x => TransportCandidateReadiness.key x ∈ keys)).
    rewrite <- (Forall_map TransportCandidateReadiness.key (fun k => k ∈ keys)).
    by rewrite along_new. }
  assert (Forall provider_ok ps -> (exists r, try_fold (observation_step keys) [] os = Ok r) <->
    Forall (fun o => TransportProbeObservation.key o ∈ keys /\ observation_ok o) os /\
    NoDup (map TransportProbeObservation.key os)) as Ho.
  { intros Hps.
    rewrite <- (along_each TransportProbeObservation.key _ os []), <- along_new, <- along_and.
    pose proof (fun r => try_fold_along TransportProbeObservation.key _ _ os [] r
      (fun seen x r => observation_step_Ok keys seen x r (fun k => keys_valid ps k Hps))) as Hf.
    split; [by intros [r [Ha _]%Hf]|]. intros Ha. eexists. by apply Hf. }
  split.
  - intros (seen & [(Hps & Ht & Hi) ->] & Hv). specialize (Hr Hps). specialize (Ho Hps).
    apply bind_Ok in Hv as (rk & [[Hin Hnd] ->]%Hr & Hv).
    apply then_unit_Ok in Hv as [Hs Hv]. apply reject_if_Ok, negb_false_iff in Hs.
    rewrite same_set_true in Hs. apply bind_Ok in Hv as (ok & Hok & _).
    destruct (proj1 Ho (ex_intro _ _ Hok)). done.
  - intros (Hps & Ht & Hi & Hnd & Hs & Hob & Hod). exists ps. split; [done|].
    eapply bind_step; [apply Hr; [done|]; split; [split; [|done]|done]|cbv beta].
    { apply Forall_forall. intros k. apply Hs. }
    eapply (bind_step _ _ tt); [|cbv beta].
    { apply reject_if_Ok, negb_false_iff, same_set_true, Hs. }
    destruct (proj2 (Ho Hps)) as [r Hfold]; [done|]. by eapply bind_step; [exact Hfold|].
Qed.

(** ** Loops over the candidates *)

Lemma indices_lookup p pre cs :
  (fun i => (pre ++ cs) !! i) <$> indices_from (length pre) p cs =
  Some <$> filter (fun c => p c = true) cs.
Proof.
  revert pre; induction cs as [|c cs IH]; intros pre; simpl; [done|].
  specialize (IH (pre ++ [c])). rewrite length_app, Nat.add_1_r, <- app_assoc in IH. simpl in IH.
  rewrite filter_cons. destruct (p c).
  - rewrite decide_True by done. rewrite !fmap_cons, IH. f_equal. by apply list_lookup_middle.
  - rewrite decide_False by done. exact IH.
Qed.

Lemma update_loop f p pre cs :
  try_fold (update_at f) (pre ++ cs) (indices_from (length pre) p cs) =
  Ok (pre ++ map (fun c => if p c then EvaluatedCandidate.set_diagnostic c (f c) else c) cs).
Proof.
  revert pre; induction cs as [|c cs IH]; intros pre; simpl; [done|].
  assert (forall c', try_fold (update_at f) (pre ++ c' :: cs) (indices_from (S (length pre)) p cs) =
    Ok (pre ++ c' :: map (fun c => if p c then EvaluatedCandidate.set_diagnostic c (f c) else c) cs))
    as Hrest.
  { intros c'. specialize (IH (pre ++ [c'])). rewrite length_app, Nat.add_1_r, <- !app_assoc in IH.
    exact IH. }
  destruct (p c); [|apply Hrest]. cbn [try_fold].
  assert (update_at f (pre ++ c :: cs) (length pre) =
    Ok (pre ++ EvaluatedCandidate.set_diagnostic c (f c) :: cs)) as ->; [|apply Hrest].
  unfold update_at, candidate_at. rewrite list_lookup_middle by done. simpl.
  by rewrite insert_app_r_alt, Nat.sub_diag by done.
Qed.

Lemma update_at_lookup f cs i c :
  cs !! i = Some c ->
  update_at f cs i = Ok (<[i := EvaluatedCandidate.set_diagnostic c (f c)]> cs).
Proof. intros Hc. unfold update_at, candidate_at. by rewrite Hc. Qed.

(** Stores that keep a view of each candidate succeed on indices in range and keep the
    views of all. *)
Lemma stores_keep {X K} (view : EvaluatedCandidate.t -> K)
    (f : X -> EvaluatedCandidate.t -> TransportCandidateDiagnostic.t) idx (xs : list X) cs :
  (forall x c, view (EvaluatedCandidate.set_diagnostic c (f x c)) = view c) ->
  Forall (fun x => (idx x < length cs)%nat) xs ->
  exists cs', try_fold (fun cs x => update_at (f x) cs (idx x)) cs xs = Ok cs' /\
    view <$> cs' = view <$> cs.
Proof.
  intros Hf. revert cs; induction xs as [|x xs IH]; intros cs Hin; simpl; [by eauto|].
  apply Forall_cons in Hin as [Hx Hin]. destruct (lookup_lt_is_Some_2 _ _ Hx) as [c Hc].
  rewrite (update_at_lookup _ _ _ _ Hc). simpl.
  destruct (IH (<[idx x := EvaluatedCandidate.set_diagnostic c (f x c)]> cs)) as (cs' & Hcs' & Hid).
  { by rewrite length_insert. }
  exists cs'. split; [done|]. rewrite Hid, list_fmap_insert, Hf.
  apply list_insert_id. by rewrite list_lookup_fmap, Hc.
Qed.

Lemma ordered_diagnostics_Ok cs :
  exists ds, ordered_diagnostics cs = Ok ds /\ ds ≡ₚ map EvaluatedCandidate.diagnostic cs.
Proof.
  destruct (sort_by_total (E := TransportSelectionError.t)
    (fun left right => Ok (compare_diagnostics left right)) compare_diagnostics (fun _ => True)
    (fun _ _ _ _ => eq_refl) cs) as [l Hl]; [by apply Forall_true|].
  unfold ordered_diagnostics. rewrite Hl. simpl. eexists. split; [done|].
  apply sort_by_perm in Hl. by rewrite Hl.
Qed.

(** ** The comparison of candidates *)

#[export] Instance keyed_bytes_comparison {A} (key : A -> bytes) :
  TotalComparison (fun x y => bytes_cmp (key x) (key y)).
Proof.
  split; [intros; apply bytes_cmp_antisym|]. intros x y z. apply bytes_le_trans.
Qed.

Section comparison.
Context (policy : TransportPolicy.t).

Definition cost_model (p : TransportProviderDescriptor.t) : Z :=
  ProviderCost.model_id (TransportProviderMetadata.cost (TransportProviderDescriptor.metadata p)).

(** What costs count for among providers of one model: units, or nothing for model 0. *)
Definition cost_key (x : TransportProviderDescriptor.t * ProbeMetrics.t) : Z :=
  if cost_model x.1 =? 0 then 0
  else ProviderCost.units (TransportProviderMetadata.cost (TransportProviderDescriptor.metadata x.1)).

(** The comparison when all costs are of one model. *)
Definition compare_one_model (x y : TransportProviderDescriptor.t * ProbeMetrics.t) : comparison :=
  then_with (ProbeMetrics.success_count y.2 ?= ProbeMetrics.success_count x.2)
  (then_with (ProbeMetrics.median_throughput_bytes_per_sec y.2
              ?= ProbeMetrics.median_throughput_bytes_per_sec x.2)
  (then_with (ProbeMetrics.median_rtt_us x.2 ?= ProbeMetrics.median_rtt_us y.2)
  (then_with (cost_key x ?= cost_key y)
  (then_with ((if is_preferred policy y.1 then 1 else 0) ?= (if is_preferred policy x.1 then 1 else 0))
  (then_with (TransportProviderMetadata.preference_rank (TransportProviderDescriptor.metadata x.1)
              ?= TransportProviderMetadata.preference_rank (TransportProviderDescriptor.metadata y.1))
  (then_with (TransportId.repr (TransportProviderDescriptor.transport_id x.1)
              ?= TransportId.repr (TransportProviderDescriptor.transport_id y.1))
     (bytes_cmp (TransportProviderDescriptor.id x.1) (TransportProviderDescriptor.id y.1)))))))).

#[export] Instance compare_one_model_total : TotalComparison compare_one_model.
Proof.
  unfold compare_one_model.
  repeat apply then_with_comparison;
    first [ exact (keyed_bytes_comparison (fun x => TransportProviderDescriptor.id x.1))
          | exact (Z_comparison _)
          | exact (reverse_comparison _ (Z_comparison _)) ].
Qed.

Lemma compare_probed_one_model x y :
  cost_model x.1 = cost_model y.1 ->
  compare_probed policy x.1 x.2 y.1 y.2 = compare_one_model x y.
Proof.
  intros Hm. unfold compare_probed, compare_one_model, compare_cost, cost_key. rewrite <- Hm.
  unfold cost_model in *. rewrite <- Hm, Z.eqb_refl, andb_true_r.
  destruct (ProviderCost.model_id _ =? 0); simpl;
    by destruct (is_preferred policy x.1), (is_preferred policy y.1).
Qed.
End comparison.

(** ** What a selection reports *)

(** A diagnostic without its rank. *)
Definition unranked (d : TransportCandidateDiagnostic.t) : TransportCandidateDiagnostic.t := {|
  TransportCandidateDiagnostic.transport_id := TransportCandidateDiagnostic.transport_id d;
  TransportCandidateDiagnostic.provider := TransportCandidateDiagnostic.provider d;
  TransportCandidateDiagnostic.local_available := TransportCandidateDiagnostic.local_available d;
  TransportCandidateDiagnostic.peer_supported := TransportCandidateDiagnostic.peer_supported d;
  TransportCandidateDiagnostic.within_limits := TransportCandidateDiagnostic.within_limits d;
  TransportCandidateDiagnostic.probe_state := TransportCandidateDiagnostic.probe_state d;
  TransportCandidateDiagnostic.probe := TransportCandidateDiagnostic.probe d;
  TransportCandidateDiagnostic.selection_rank := None;
  TransportCandidateDiagnostic.rejection_reason := TransportCandidateDiagnostic.rejection_reason d;
  TransportCandidateDiagnostic.diagnostic := TransportCandidateDiagnostic.diagnostic d |}.

Section selection.
Context (options : TransportSelectionOptions.t).

(** The candidate of a provider, before any probe is looked at. *)
Definition candidate (p : TransportProviderDescriptor.t) : EvaluatedCandidate.t :=
  evaluate (RemoteTransportSupport.new (TransportSelectionOptions.peer_supported_transports options))
    (TransportSelectionOptions.policy options)
    (TransportSelectionOptions.requested_max_frame_bytes options)
    (TransportSelectionOptions.candidate_readiness options) p.

(** No guard rejects the provider. *)
Definition viable (p : TransportProviderDescriptor.t) : bool :=
  EvaluatedCandidate.eligible (candidate p).

Definition viable_providers (ps : list TransportProviderDescriptor.t)
    : list TransportProviderDescriptor.t := filter (fun p => viable p = true) ps.

(** The diagnostic of each provider when the viable ones get the report [f]. *)
Definition report (f : EvaluatedCandidate.t -> TransportCandidateDiagnostic.t)
    (p : TransportProviderDescriptor.t) : TransportCandidateDiagnostic.t :=
  if viable p then f (candidate p) else EvaluatedCandidate.diagnostic (candidate p).

Definition chosen (p : TransportProviderDescriptor.t) (ds : list TransportCandidateDiagnostic.t)
    : Sel TransportSelection.t :=
  Ok {| TransportSelection.selected_provider := p; TransportSelection.candidates := ds;
        TransportSelection.policy := TransportSelectionOptions.policy options;
        TransportSelection.diagnostic := None |}.

Lemma candidates_of ps rs os :
  evidence_ok ps rs os ->
  evaluate_candidates
    (RemoteTransportSupport.new (TransportSelectionOptions.peer_supported_transports options))
    (TransportSelectionOptions.policy options)
    (TransportSelectionOptions.requested_max_frame_bytes options)
    (TransportSelectionOptions.candidate_readiness options) ps = candidate <$> ps.
Proof.
  intros (Hps & _). unfold evaluate_candidates. f_equal. induction Hps as [|p ps [_ Hp] _ IH]; [done|].
  by rewrite filter_cons_True, IH.
Qed.

Lemma eligible_lookup ps :
  (fun i => (candidate <$> ps) !! i) <$> eligible_indices (candidate <$> ps) =
  (fun p => Some (candidate p)) <$> viable_providers ps.
Proof.
  pose proof (indices_lookup EvaluatedCandidate.eligible [] (candidate <$> ps)) as Hl.
  simpl in Hl. unfold eligible_indices. rewrite Hl. unfold viable_providers, viable.
  rewrite (list_fmap_compose candidate Some). f_equal. clear Hl.
  induction ps as [|p ps IH]; [done|]. rewrite fmap_cons, !filter_cons.
  by destruct (decide _); rewrite ?fmap_cons, IH.
Qed.

(** The stores of a report into the candidates of the viable providers. *)
Definition reported_candidate f (p : TransportProviderDescriptor.t) : EvaluatedCandidate.t :=
  EvaluatedCandidate.set_diagnostic (candidate p) (report f p).

Lemma report_loop f ps :
  try_fold (update_at f) (candidate <$> ps) (eligible_indices (candidate <$> ps)) =
  Ok (reported_candidate f <$> ps).
Proof.
  pose proof (update_loop f EvaluatedCandidate.eligible [] (candidate <$> ps)) as Hl.
  simpl in Hl. unfold eligible_indices. rewrite Hl. f_equal.
  change (map ?g ?l) with (g <$> l). rewrite <- list_fmap_compose. apply list_fmap_ext.
  intros _ p _. simpl. unfold reported_candidate, report, viable.
  by destruct (EvaluatedCandidate.eligible (candidate p)).
Qed.

Lemma ordered_reports f ps :
  exists ds, ordered_diagnostics (reported_candidate f <$> ps) = Ok ds /\ ds ≡ₚ map (report f) ps.
Proof.
  destruct (ordered_diagnostics_Ok (reported_candidate f <$> ps)) as (ds & Hds & Hp).
  exists ds. split; [done|]. rewrite Hp.
  change (_ <$> ps) with (map (reported_candidate f) ps). by rewrite map_map.
Qed.

(** One viable provider is selected at once. *)
Lemma direct_selection_exact ps i p :
  eligible_indices (candidate <$> ps) = [i] -> viable_providers ps = [p] ->
  exists ds, direct_selection (candidate <$> ps) i (TransportSelectionOptions.policy options) =
      chosen p ds /\
    ds ≡ₚ map (report (fun c =>
      TransportCandidateDiagnostic.set_rank (EvaluatedCandidate.diagnostic c) 0)) ps.
Proof.
  intros Hi Hp. pose proof (eligible_lookup ps) as Hl. rewrite Hi, Hp in Hl.
  injection Hl as Hl. set (f c := TransportCandidateDiagnostic.set_rank (EvaluatedCandidate.diagnostic c) 0).
  pose proof (report_loop f ps) as Hu. rewrite Hi in Hu. simpl in Hu.
  apply bind_Ok in Hu as (cs & Hu & [= ->]).
  destruct (ordered_reports f ps) as (ds & Hds & Hperm). exists ds. split; [|done].
  unfold direct_selection. change (update_at _ (_ <$> _) i) with (update_at f (candidate <$> ps) i).
  rewrite Hu. simpl. unfold candidate_at.
  rewrite list_lookup_fmap in Hl |- *. destruct (ps !! i) as [q|]; [|done]. simpl in *.
  rewrite Hds. simpl. unfold chosen. repeat f_equal. injection Hl as Hl. exact Hl.
Qed.

(** How many candidates are eligible decides the case. *)
Lemma eligible_cases ps :
  match viable_providers ps with
  | [p] => exists i, eligible_indices (candidate <$> ps) = [i]
  | _ => forall i, eligible_indices (candidate <$> ps) <> [i]
  end.
Proof.
  pose proof (f_equal length (eligible_lookup ps)) as Hl. rewrite !length_fmap in Hl.
  destruct (eligible_indices _) as [|i [|??]], (viable_providers ps) as [|p [|??]]; try done. eauto.
Qed.

(** The report of [select_transport]. *)
Definition direct_report (ps : list TransportProviderDescriptor.t)
    : EvaluatedCandidate.t -> TransportCandidateDiagnostic.t :=
  match viable_providers ps with
  | [_] => fun c => TransportCandidateDiagnostic.set_rank (EvaluatedCandidate.diagnostic c) 0
  | _ => mark_missing
  end.

Lemma select_exact ps :
  evidence_ok ps (TransportSelectionOptions.candidate_readiness options) [] ->
  exists ds, ds ≡ₚ map (report (direct_report ps)) ps /\
    select_transport ps options =
    match viable_providers ps with
    | [p] => chosen p ds
    | _ => selection_error (TransportSelectionOptions.policy options) ds
    end.
Proof.
  intros Hev. unfold select_transport. rewrite (proj2 (evidence_Ok _ _ _) Hev). simpl.
  rewrite (candidates_of _ _ _ Hev). unfold direct_report. pose proof (eligible_cases ps) as Hc.
  destruct (ordered_reports mark_missing ps) as (ds & Hds & Hp).
  pose proof (report_loop mark_missing ps) as Hm.
  destruct (eligible_indices (candidate <$> ps)) as [|i [|j l]] eqn:Hi,
    (viable_providers ps) as [|p [|??]] eqn:Hv.
  all: try (by exfalso; eapply Hc); try (by destruct Hc).
  3: { destruct (direct_selection_exact ps i p Hi Hv) as (ds' & Hs & Hp'). eauto. }
  all: exists ds; split; [done|]; simpl in *; first [rewrite Hm | injection Hm as ->]; simpl; by rewrite Hds.
Qed.

(** ** The choice among probed providers *)

(** The metrics of a provider's successful observation. *)
Definition success_metrics (p : TransportProviderDescriptor.t) : option ProbeMetrics.t :=
  match matching_probe_observation p (TransportSelectionOptions.probe_observations options) with
  | Some o =>
      if bool_decide (TransportProbeObservation.state o = ProbeState.Succeeded)
      then TransportProbeObservation.metrics o else None
  | None => None
  end.

(** The viable providers that were probed with success. *)
Definition probed_provider (p : TransportProviderDescriptor.t)
    : option (TransportProviderDescriptor.t * ProbeMetrics.t) :=
  if viable p then pair p <$> success_metrics p else None.

Definition probed_providers (ps : list TransportProviderDescriptor.t)
    : list (TransportProviderDescriptor.t * ProbeMetrics.t) := omap probed_provider ps.

Definition probe_report : EvaluatedCandidate.t -> TransportCandidateDiagnostic.t :=
  record_probe (TransportSelectionOptions.probe_observations options).

Abbreviation probed_candidate := (reported_candidate probe_report).

Lemma matching_observation_ok ps rs p o :
  evidence_ok ps rs (TransportSelectionOptions.probe_observations options) ->
  matching_probe_observation p (TransportSelectionOptions.probe_observations options) = Some o ->
  observation_ok o.
Proof.
  intros (_ & _ & _ & _ & _ & Hos & _) Hf. apply find_some in Hf as [Hin _].
  apply list_elem_of_In in Hin. rewrite Forall_forall in Hos. by apply Hos in Hin as [_ ?].
Qed.

(** Which candidates count as probed, and with which metrics. *)
Lemma probed_candidate_spec ps rs p :
  evidence_ok ps rs (TransportSelectionOptions.probe_observations options) ->
  if EvaluatedCandidate.probed (probed_candidate p)
  then exists m, viable p = true /\ success_metrics p = Some m /\
    TransportCandidateDiagnostic.probe (EvaluatedCandidate.diagnostic (probed_candidate p)) = Some m
  else viable p = false \/ success_metrics p = None.
Proof.
  intros Hev. pose proof (fun o => matching_observation_ok ps rs p o Hev) as Hok.
  unfold EvaluatedCandidate.probed, reported_candidate, report, success_metrics, probe_report, record_probe.
  destruct (viable p); [|by left]. cbn -[bool_decide].
  destruct (matching_probe_observation p _) as [o|] eqn:Ho; [|by right].
  specialize (Hok o eq_refl). unfold observation_ok in Hok.
  destruct (TransportProbeObservation.state o), (TransportProbeObservation.metrics o) as [m|];
    try done; simpl; by eauto.
Qed.

(** The probed provider at an index. *)
Definition probed_index (ps : list TransportProviderDescriptor.t) (i : nat)
    : option (TransportProviderDescriptor.t * ProbeMetrics.t) := ps !! i ≫= probed_provider.

Lemma probed_index_elem ps i x :
  probed_index ps i = Some x -> ps !! i = Some x.1 /\ x ∈ probed_providers ps.
Proof.
  unfold probed_index. intros (p & Hp & Hx)%bind_Some. split.
  - unfold probed_provider in Hx. destruct (viable p); [|done].
    apply fmap_Some in Hx as (m & _ & ->). done.
  - apply list_elem_of_omap. exists p. split; [|done]. by eapply list_elem_of_lookup_2.
Qed.

(** The indices that are sorted are those of the probed providers. *)
Lemma probed_indices ps rs :
  evidence_ok ps rs (TransportSelectionOptions.probe_observations options) ->
  probed_index ps <$> indices_from 0 EvaluatedCandidate.probed (probed_candidate <$> ps) =
  Some <$> probed_providers ps.
Proof.
  intros Hev. pose proof (indices_lookup EvaluatedCandidate.probed [] (probed_candidate <$> ps)) as Hl.
  apply (f_equal (fmap (fun o => o ≫= fun c => probed_provider (EvaluatedCandidate.descriptor c)))) in Hl.
  rewrite <- !list_fmap_compose in Hl. simpl in Hl.
  etransitivity; [|etransitivity; [exact Hl|]].
  - apply list_fmap_ext. intros _ i _. simpl. rewrite list_lookup_fmap. unfold probed_index.
    by destruct (ps !! i).
  - clear Hl. unfold probed_providers.
    assert (forall p, if EvaluatedCandidate.probed (probed_candidate p)
      then exists x, probed_provider p = Some x else probed_provider p = None) as Hp.
    { intros p. pose proof (probed_candidate_spec ps rs p Hev) as Hs. unfold probed_provider.
      destruct (EvaluatedCandidate.probed _); [destruct Hs as (m & -> & -> & _); eauto|].
      destruct Hs as [-> | ->]; [done|by destruct (viable p)]. }
    clear Hev. induction ps as [|p ps IH]; [done|]. rewrite fmap_cons, filter_cons.
    specialize (Hp p). cbn [omap list_omap]. destruct (EvaluatedCandidate.probed _).
    + rewrite decide_True, fmap_cons by done. destruct Hp as [x Hx]. rewrite Hx, fmap_cons.
      f_equal; [exact Hx|exact IH].
    + rewrite decide_False by done. rewrite Hp. exact IH.
Qed.

(** The comparison that the indices are sorted by. *)
Definition compare_at (cs : list EvaluatedCandidate.t) (i j : nat) : Sel comparison :=
  left ← candidate_at cs i; right ← candidate_at cs j;
  compare_candidates (TransportSelectionOptions.policy options) left right.

Definition compare_indices (ps : list TransportProviderDescriptor.t) (i j : nat) : comparison :=
  match probed_index ps i, probed_index ps j with
  | Some x, Some y => compare_probed (TransportSelectionOptions.policy options) x.1 x.2 y.1 y.2
  | _, _ => Eq
  end.

Lemma candidate_at_probed ps rs i x :
  evidence_ok ps rs (TransportSelectionOptions.probe_observations options) ->
  probed_index ps i = Some x ->
  exists c, candidate_at (probed_candidate <$> ps) i = Ok c /\
    EvaluatedCandidate.descriptor c = x.1 /\
    TransportCandidateDiagnostic.probe (EvaluatedCandidate.diagnostic c) = Some x.2.
Proof.
  intros Hev. unfold probed_index. intros (p & Hp & Hx)%bind_Some.
  exists (probed_candidate p). unfold candidate_at. rewrite list_lookup_fmap, Hp.
  unfold probed_provider in Hx. destruct (viable p) eqn:Hv; [|done].
  apply fmap_Some in Hx as (m & Hm & ->). split_and!; [done..|].
  pose proof (probed_candidate_spec ps rs p Hev) as Hs. rewrite Hv, Hm in Hs.
  destruct (EvaluatedCandidate.probed _); [|by destruct Hs].
  by destruct Hs as (? & _ & [= <-] & ?).
Qed.

Lemma compare_at_Ok ps rs i j :
  evidence_ok ps rs (TransportSelectionOptions.probe_observations options) ->
  is_Some (probed_index ps i) -> is_Some (probed_index ps j) ->
  compare_at (probed_candidate <$> ps) i j = Ok (compare_indices ps i j).
Proof.
  intros Hev [x Hx] [y Hy]. unfold compare_indices. rewrite Hx, Hy.
  destruct (candidate_at_probed ps rs i x Hev Hx) as (c & Hc & Hd & Hm).
  destruct (candidate_at_probed ps rs j y Hev Hy) as (c' & Hc' & Hd' & Hm').
  unfold compare_at, compare_candidates. rewrite Hc. simpl. rewrite Hc'. simpl.
  by rewrite Hm, Hm', Hd, Hd'.
Qed.

(** All the probed providers state their costs in one model. *)
Definition one_cost_model (ps : list TransportProviderDescriptor.t) : Prop :=
  forall x y, x ∈ probed_providers ps -> y ∈ probed_providers ps -> cost_model x.1 = cost_model y.1.

Lemma compare_indices_one_model ps i j x y :
  one_cost_model ps -> probed_index ps i = Some x -> probed_index ps j = Some y ->
  compare_indices ps i j = compare_one_model (TransportSelectionOptions.policy options) x y.
Proof.
  intros Hm Hx Hy. unfold compare_indices. rewrite Hx, Hy. apply compare_probed_one_model.
  apply Hm; by eapply probed_index_elem.
Qed.

(** The head of the sorted indices. *)
Lemma sorted_head ps rs i l :
  evidence_ok ps rs (TransportSelectionOptions.probe_observations options) -> one_cost_model ps ->
  sort_by (compare_at (probed_candidate <$> ps))
    (indices_from 0 EvaluatedCandidate.probed (probed_candidate <$> ps)) = Ok (i :: l) ->
  Forall (fun j => is_Some (probed_index ps j))
    (indices_from 0 EvaluatedCandidate.probed (probed_candidate <$> ps)) ->
  forall j, j ∈ indices_from 0 EvaluatedCandidate.probed (probed_candidate <$> ps) ->
  j = i \/ compare_indices ps i j <> Gt.
Proof.
  intros Hev Hone Hs Hall.
  apply (sort_by_least _ (compare_indices ps) (fun j => is_Some (probed_index ps j)) 
    (fun i j => compare_at_Ok ps rs i j Hev)) with (l' := l); [| |done..].
  - intros a b [x Hx] [y Hy]. rewrite (compare_indices_one_model ps a b x y) by done.
    rewrite (compare_indices_one_model ps b a y x) by done. apply comparison_antisym.
  - intros a b c [x Hx] [y Hy] [z Hz]. unfold le.
    rewrite (compare_indices_one_model ps a b x y), (compare_indices_one_model ps b c y z),
      (compare_indices_one_model ps a c x z) by done. apply comparison_trans.
Qed.

(** What a store of a rank keeps. *)
Definition unranked_view (c : EvaluatedCandidate.t)
    : TransportProviderDescriptor.t * TransportCandidateDiagnostic.t :=
  (EvaluatedCandidate.descriptor c, unranked (EvaluatedCandidate.diagnostic c)).

Lemma assign_ranks_keep cs successful :
  Forall (fun i => (i < length cs)%nat) successful ->
  exists cs', assign_ranks cs successful = Ok cs' /\ unranked_view <$> cs' = unranked_view <$> cs.
Proof.
  intros Hin. apply (stores_keep unranked_view
    (fun ranked c => TransportCandidateDiagnostic.set_rank (EvaluatedCandidate.diagnostic c)
       (Z.of_nat ranked.1)) snd); [done|].
  apply Forall_forall. intros [r i] Hi. rewrite Forall_forall in Hin. apply Hin.
  apply elem_of_zip_r in Hi. exact Hi.
Qed.

Lemma unranked_report p :
  unranked (report probe_report p) = report probe_report p.
Proof.
  unfold report, probe_report, record_probe, mark_missing. destruct (viable p); [|done].
  destruct (matching_probe_observation _ _); [|done]. by destruct (bool_decide _).
Qed.

Lemma views_reported ps cs ds :
  unranked_view <$> cs = unranked_view <$> (probed_candidate <$> ps) ->
  ds ≡ₚ map EvaluatedCandidate.diagnostic cs ->
  map unranked ds ≡ₚ map (report probe_report) ps.
Proof.
  intros Hv Hp. rewrite Hp, map_map. apply (f_equal (fmap snd)) in Hv.
  rewrite <- !list_fmap_compose in Hv. change (map ?f ?l) with (f <$> l).
  assert (forall l l' : list TransportCandidateDiagnostic.t, l = l' -> l ≡ₚ l') as Heq
    by (by intros ? ? ->).
  apply Heq. etransitivity; [exact Hv|].
  apply list_fmap_ext. intros _ p _. apply unranked_report.
Qed.

(** [x] comes before every other probed provider. *)
Definition best (ps : list TransportProviderDescriptor.t)
    (x : TransportProviderDescriptor.t * ProbeMetrics.t) : Prop :=
  forall y, y ∈ probed_providers ps -> y <> x ->
  compare_probed (TransportSelectionOptions.policy options) x.1 x.2 y.1 y.2 = Lt.

Lemma compare_probed_Eq pol p m q m' :
  compare_probed pol p m q m' = Eq ->
  TransportProviderDescriptor.transport_id p = TransportProviderDescriptor.transport_id q.
Proof.
  unfold compare_probed, then_with. repeat (case_match; try discriminate). intros _.
  apply (enum_repr_inj (A := TransportId.t)), Z.compare_eq. assumption.
Qed.

(** Two probed providers differ in their transports. *)
Lemma probed_index_inj ps rs os i j x y :
  evidence_ok ps rs os -> probed_index ps i = Some x -> probed_index ps j = Some y ->
  TransportProviderDescriptor.transport_id x.1 = TransportProviderDescriptor.transport_id y.1 ->
  i = j.
Proof.
  intros (_ & Hnd & _) Hx%probed_index_elem Hy%probed_index_elem Ht.
  apply (NoDup_lookup _ i j (TransportProviderDescriptor.transport_id x.1) Hnd);
    rewrite list_lookup_fmap; [by rewrite (proj1 Hx)|by rewrite (proj1 Hy), Ht].
Qed.

Lemma sorted_head_best ps rs i l x :
  evidence_ok ps rs (TransportSelectionOptions.probe_observations options) -> one_cost_model ps ->
  sort_by (compare_at (probed_candidate <$> ps))
    (indices_from 0 EvaluatedCandidate.probed (probed_candidate <$> ps)) = Ok (i :: l) ->
  Forall (fun j => is_Some (probed_index ps j))
    (indices_from 0 EvaluatedCandidate.probed (probed_candidate <$> ps)) ->
  probed_index ps i = Some x -> best ps x.
Proof.
  intros Hev Hone Hs Hall Hx y Hy Hne. 
  assert (Some y ∈ (Some <$> probed_providers ps)) as Hin by (apply list_elem_of_fmap; eauto).
  rewrite <- (probed_indices ps rs Hev) in Hin. apply list_elem_of_fmap in Hin as (j & Hj & Hin).
  destruct (sorted_head ps rs i l Hev Hone Hs Hall j Hin) as [-> | Hle]; [congruence|].
  unfold compare_indices in Hle. rewrite Hx, <- Hj in Hle.
  destruct (compare_probed _ _ _ _ _) eqn:Hc; [|done..].
  apply compare_probed_Eq in Hc. assert (i = j) as -> by (by eapply probed_index_inj). congruence.
Qed.

(** What [ranked_selection] gives. *)
Definition ranked_result (ps : list TransportProviderDescriptor.t)
    (ds : list TransportCandidateDiagnostic.t) (r : Sel TransportSelection.t) : Prop :=
  match probed_providers ps with
  | [] => r = selection_error (TransportSelectionOptions.policy options) ds
  | _ => exists x, x ∈ probed_providers ps /\ r = chosen x.1 ds /\ (one_cost_model ps -> best ps x)
  end.

Lemma ranked_selection_exact ps rs :
  evidence_ok ps rs (TransportSelectionOptions.probe_observations options) ->
  exists ds, map unranked ds ≡ₚ map (report probe_report) ps /\
    ranked_result ps ds (ranked_selection (TransportSelectionOptions.policy options)
      (TransportSelectionOptions.probe_observations options) (candidate <$> ps)
      (eligible_indices (candidate <$> ps))).
Proof.
  intros Hev. unfold ranked_selection, ranked_result.
  rewrite (report_loop probe_report ps : try_fold (update_at (record_probe _)) _ _ = _). simpl.
  set (S0 := indices_from 0 EvaluatedCandidate.probed (probed_candidate <$> ps)).
  pose proof (probed_indices ps rs Hev) as Hidx. fold S0 in Hidx.
  assert (Forall (fun j => is_Some (probed_index ps j)) S0) as Hall.
  { apply Forall_forall. intros j Hj. assert (probed_index ps j ∈ (Some <$> probed_providers ps)) as Hin
      by (rewrite <- Hidx; apply list_elem_of_fmap; eauto).
    apply list_elem_of_fmap in Hin as (y & -> & _). by eexists. }
  destruct (sort_by_total _ (compare_indices ps) _ (fun i j => compare_at_Ok ps rs i j Hev) S0 Hall)
    as [sorted Hs].
  change (sort_by _ S0) with (sort_by (compare_at (probed_candidate <$> ps)) S0). rewrite Hs. simpl.
  pose proof (sort_by_perm _ _ _ Hs) as Hperm.
  destruct (assign_ranks_keep (probed_candidate <$> ps) sorted) as (cs & Hcs & Hv).
  { rewrite Hperm, length_fmap. eapply Forall_impl; [exact Hall|]. intros j [y Hy].
    apply probed_index_elem in Hy as [Hy _]. by eapply lookup_lt_Some. }
  rewrite Hcs. simpl. destruct (ordered_diagnostics_Ok cs) as (ds & Hds & Hp). exists ds.
  split; [by eapply views_reported|].
  destruct sorted as [|i l].
  - apply Permutation_nil_l in Hperm. rewrite <- Hperm in Hidx. destruct (probed_providers ps); [|done].
    by rewrite Hds.
  - assert (is_Some (probed_index ps i)) as [x Hx].
    { rewrite Forall_forall in Hall. apply Hall. rewrite <- Hperm. by left. }
    destruct (probed_index_elem ps i x Hx) as [Hi Hin].
    destruct (probed_providers ps) eqn:Hpp; [by apply elem_of_nil in Hin|]. rewrite <- Hpp in *.
    exists x. split; [done|]. split; [|intros Hone; by eapply sorted_head_best].
    apply (f_equal (fun l => l !! i)) in Hv. rewrite !list_lookup_fmap, Hi in Hv. simpl in Hv.
    unfold candidate_at. destruct (cs !! i) as [c|]; [|done]. simpl. rewrite Hds. simpl.
    unfold chosen. simpl in Hv. injection Hv as Hv. by rewrite <- Hv.
Qed.

Lemma select_with_probe_exact ps :
  evidence_ok ps (TransportSelectionOptions.candidate_readiness options)
    (TransportSelectionOptions.probe_observations options) ->
  exists ds, match viable_providers ps with
  | [p] => select_transport_with_probe ps options = chosen p ds /\
      ds ≡ₚ map (report (direct_report ps)) ps
  | _ => ranked_result ps ds (select_transport_with_probe ps options) /\
      map unranked ds ≡ₚ map (report probe_report) ps
  end.
Proof.
  intros Hev. unfold select_transport_with_probe. rewrite (proj2 (evidence_Ok _ _ _) Hev). simpl.
  rewrite (candidates_of _ _ _ Hev). unfold direct_report. pose proof (eligible_cases ps) as Hc.
  destruct (ranked_selection_exact ps _ Hev) as (ds & Hds & Hr).
  destruct (eligible_indices (candidate <$> ps)) as [|i [|j l]] eqn:Hi,
    (viable_providers ps) as [|p [|??]] eqn:Hv.
  all: try (by exfalso; eapply Hc); try (by destruct Hc); try (by exists ds).
  destruct (direct_selection_exact ps i p Hi Hv) as (ds' & Hs & Hp'). eauto.
Qed.
End selection.

(** ** What makes a provider viable *)

Lemma elem_of_dedup t l : t ∈ RemoteTransportSupport.dedup l <-> t ∈ l.
Proof.
  induction l as [|a l IH]; [done|]. destruct l as [|b l]; [done|].
  change (RemoteTransportSupport.dedup (a :: b :: l)) with
    (if bool_decide (a = b) then RemoteTransportSupport.dedup (b :: l)
     else a :: RemoteTransportSupport.dedup (b :: l)).
  case_bool_decide as Hab; [subst|]; [rewrite IH|]; rewrite ?elem_of_cons, ?IH, ?elem_of_cons; naive_solver.
Qed.

Lemma supports_exact ts t :
  RemoteTransportSupport.supports (RemoteTransportSupport.new ts) t = true <->
  t ∈ ts /\ is_selectable_transport t = true.
Proof.
  unfold RemoteTransportSupport.supports, RemoteTransportSupport.new. rewrite bool_decide_eq_true.
  set (l := filter _ ts).
  destruct (sort_by_total RemoteTransportSupport.by_repr
    (fun a b => TransportId.repr a ?= TransportId.repr b) (fun _ => True)
    (fun _ _ _ _ => eq_refl) l) as [l' Hl]; [by apply Forall_true|].
  simpl. rewrite Hl, elem_of_dedup, (sort_by_perm _ _ _ Hl). unfold l.
  rewrite list_elem_of_filter. tauto.
Qed.

(** The conditions on a provider that the readiness record and the options state. *)
Definition viable_conditions (options : TransportSelectionOptions.t)
    (p : TransportProviderDescriptor.t) : Prop :=
  TransportPolicy.allows (TransportSelectionOptions.policy options)
    (TransportProviderDescriptor.transport_id p) = true /\
  TransportProviderDescriptor.available p = true /\
  TransportProviderDescriptor.transport_id p
    ∈ TransportSelectionOptions.peer_supported_transports options /\
  (forall n, TransportSelectionOptions.requested_max_frame_bytes options = Some n ->
     n <= ProviderLimits.max_frame_bytes
            (TransportProviderMetadata.limits (TransportProviderDescriptor.metadata p))) /\
  exists r, r ∈ TransportSelectionOptions.candidate_readiness options /\
    TransportCandidateReadiness.key r = TransportProviderDescriptor.key p /\
    TransportCandidateReadiness.route_resolved r = true /\
    TransportCandidateReadiness.security_satisfied r = true.

(** The readiness record of a provider. *)
Lemma matching_readiness_exact ps rs os p :
  evidence_ok ps rs os -> p ∈ ps ->
  exists r, matching_readiness rs p = Some r /\
    forall r', r' ∈ rs -> TransportCandidateReadiness.key r' = TransportProviderDescriptor.key p ->
    r' = r.
Proof.
  intros (_ & _ & _ & Hnd & Hkeys & _) Hp.
  assert (TransportProviderDescriptor.key p ∈ readiness_keys rs) as Hin
    by (apply Hkeys, list_elem_of_fmap; eauto).
  unfold matching_readiness. destruct (find _ rs) as [r|] eqn:Hf.
  - exists r. split; [done|]. intros r' Hr' Hk. apply find_some in Hf as [Hr Hm].
    apply andb_true_iff in Hm as [Ht Hi]. apply bool_decide_eq_true in Ht, Hi.
    apply list_elem_of_In in Hr.
    apply list_elem_of_lookup in Hr as [i Hi'], Hr' as [j Hj].
    assert (i = j) as <-; [|congruence].
    apply (NoDup_lookup _ i j (TransportProviderDescriptor.key p) Hnd);
      unfold readiness_keys; change (map ?f ?l) with (f <$> l); rewrite list_lookup_fmap.
    + rewrite Hi'. simpl. f_equal. unfold TransportCandidateReadiness.key, TransportProviderDescriptor.key.
      congruence.
    + by rewrite Hj, <- Hk.
  - apply list_elem_of_fmap in Hin as (r & Hk & Hr). exfalso.
    apply list_elem_of_In in Hr. pose proof (find_none _ _ Hf r Hr) as Hn. simpl in Hn.
    unfold TransportCandidateReadiness.key, TransportProviderDescriptor.key in Hk.
    injection Hk as Ht Hi. rewrite Ht, Hi, !bool_decide_true in Hn by done. done.
Qed.

Lemma matching_readiness_elem rs p r :
  matching_readiness rs p = Some r ->
  r ∈ rs /\ TransportCandidateReadiness.key r = TransportProviderDescriptor.key p.
Proof.
  intros [Hr Hm]%find_some. apply andb_true_iff in Hm as [Ht Hi].
  apply bool_decide_eq_true in Ht, Hi. split; [by apply list_elem_of_In|].
  unfold TransportCandidateReadiness.key, TransportProviderDescriptor.key. congruence.
Qed.

Lemma viable_exact options ps os p :
  evidence_ok ps (TransportSelectionOptions.candidate_readiness options) os -> p ∈ ps ->
  viable options p = true <-> viable_conditions options p.
Proof.
  intros Hev Hp. destruct (matching_readiness_exact _ _ _ _ Hev Hp) as (r & Hr & Hu).
  pose proof (matching_readiness_elem _ _ _ Hr) as [Hin Hk].
  assert (is_selectable_transport (TransportProviderDescriptor.transport_id p) = true) as Hsel.
  { destruct Hev as [Hps _]. rewrite Forall_forall in Hps. by apply Hps. }
  unfold viable, EvaluatedCandidate.eligible, candidate, evaluate, rejection, viable_conditions.
  cbn [EvaluatedCandidate.diagnostic TransportCandidateDiagnostic.rejection_reason].
  rewrite Hr. cbn [lacks].
  pose proof (supports_exact (TransportSelectionOptions.peer_supported_transports options)
    (TransportProviderDescriptor.transport_id p)) as Hsup. 
  assert (within_limits (TransportSelectionOptions.requested_max_frame_bytes options) p = true <->
    forall n, TransportSelectionOptions.requested_max_frame_bytes options = Some n ->
     n <= ProviderLimits.max_frame_bytes
            (TransportProviderMetadata.limits (TransportProviderDescriptor.metadata p))) as Hlim.
  { unfold within_limits. destruct (TransportSelectionOptions.requested_max_frame_bytes options).
    - rewrite Z.leb_le. naive_solver.
    - naive_solver. }
  assert (TransportCandidateReadiness.route_resolved r
          && TransportCandidateReadiness.security_satisfied r = true
    <-> exists r, r ∈ TransportSelectionOptions.candidate_readiness options /\
    TransportCandidateReadiness.key r = TransportProviderDescriptor.key p /\
    TransportCandidateReadiness.route_resolved r = true /\
    TransportCandidateReadiness.security_satisfied r = true) as Hrs.
  { rewrite andb_true_iff. split; [by intros []; exists r|]. intros (r' & Hr' & Hk' & ? & ?).
    by rewrite <- (Hu r' Hr' Hk'). }
  rewrite <- Hlim, <- Hrs. clear Hlim Hrs.
  assert (TransportProviderDescriptor.transport_id p
            ∈ TransportSelectionOptions.peer_supported_transports options <->
    RemoteTransportSupport.supports (RemoteTransportSupport.new
      (TransportSelectionOptions.peer_supported_transports options))
      (TransportProviderDescriptor.transport_id p) = true) as -> by tauto.
  clear. destruct (TransportPolicy.allows _ _), (TransportProviderDescriptor.available p),
    (RemoteTransportSupport.supports _ _), (within_limits _ _),
    (TransportCandidateReadiness.route_resolved r), (TransportCandidateReadiness.security_satisfied r);
    simpl; intuition congruence.
Qed.

(** ** Evidence that is refused *)

(** A result that is no failure but invalid evidence. *)
Definition accepts_or_invalid {A} (o : Sel A) : Prop :=
  match o with
  | Ok _ => True
  | Err e => exists text, e = invalid_evidence text
  | Panic => False
  end.

Lemma accepts_bind {A B} (o : Sel A) (k : A -> Sel B) :
  accepts_or_invalid o -> (forall a, accepts_or_invalid (k a)) -> accepts_or_invalid (a ← o; k a).
Proof. by destruct o; simpl. Qed.

Lemma accepts_reject b text : accepts_or_invalid (reject_if b (invalid_evidence text)).
Proof. destruct b; simpl; eauto. Qed.

Lemma accepts_map_err {A} (o : Outcome string A) g :
  o <> Panic -> accepts_or_invalid (map_err (fun d => invalid_evidence (g d)) o).
Proof. destruct o; simpl; eauto. Qed.

Lemma metadata_no_panic m : validate_provider_metadata m <> Panic.
Proof. unfold validate_provider_metadata, reject_if. by repeat case_match. Qed.

Lemma metrics_no_panic m : validate_probe_metrics m <> Panic.
Proof. unfold validate_probe_metrics, reject_if. by repeat case_match. Qed.

Lemma accepts_fold {A B} (step : B -> A -> Sel B) b l :
  (forall b a, accepts_or_invalid (step b a)) -> accepts_or_invalid (try_fold step b l).
Proof.
  intros Hs. revert b; induction l as [|a l IH]; intros b; [done|]. by apply accepts_bind.
Qed.

Ltac solve_accepts :=
  repeat match goal with
  | |- accepts_or_invalid (_ ≫= _) => apply accepts_bind; [|intros ?]
  | |- accepts_or_invalid (reject_if _ _) => apply accepts_reject
  | |- accepts_or_invalid (Ok _) => exact I
  | |- accepts_or_invalid (Err _) => by eexists
  | |- accepts_or_invalid (try_fold _ _ _) => apply accepts_fold; intros ? ?
  | |- accepts_or_invalid (map_err _ _) =>
      apply accepts_map_err; first [apply metadata_no_panic | apply metrics_no_panic]
  | |- accepts_or_invalid (match ?x with _ => _ end) => destruct x
  end.

Lemma evidence_refused ps rs os : accepts_or_invalid (validate_selection_evidence ps rs os).
Proof.
  unfold validate_selection_evidence, provider_step, key_step, observation_step, key_step.
  solve_accepts.
Qed.

Lemma invalid_evidence_selects {A} ps rs os (k : unit -> Sel A) :
  ~ evidence_ok ps rs os ->
  exists text, (a ← validate_selection_evidence ps rs os; k a) = Err (invalid_evidence text).
Proof.
  intros Hn. pose proof (evidence_refused ps rs os) as Hr.
  destruct (validate_selection_evidence ps rs os) as [[]|e|] eqn:Hv;
    [|by destruct Hr as [? ->]; eexists|done].
  by apply evidence_Ok in Hv.
Qed.

(** ** The registry *)

Inductive registered : TransportProviderRegistry.t -> Prop :=
| registered_new : registered TransportProviderRegistry.new
| registered_register r p :
    registered r -> registered (TransportProviderRegistry.register p r).2.

(** What a registration requires. *)
Definition registrable (r : TransportProviderRegistry.t) (p : TransportProviderDescriptor.t) : Prop :=
  validate_provider_metadata (TransportProviderDescriptor.metadata p) = Ok tt /\
  (TransportProviderDescriptor.transport_id p
     ∉ (TransportProviderDescriptor.transport_id <$> TransportProviderRegistry.providers r)) /\
  (TransportProviderDescriptor.id p
     ∉ (TransportProviderDescriptor.id <$> TransportProviderRegistry.providers r)).

Lemma existsb_key {A K} `{EqDecision K} (key : A -> K) k l :
  existsb (fun a => bool_decide (key a = k)) l = false <-> k ∉ (key <$> l).
Proof.
  rewrite <- not_true_iff_false, existsb_exists, list_elem_of_fmap.
  setoid_rewrite bool_decide_eq_true. setoid_rewrite list_elem_of_In. naive_solver.
Qed.

Lemma provider_register_Ok r p :
  registrable r p ->
  TransportProviderRegistry.register p r =
  (Ok tt, {| TransportProviderRegistry.providers := TransportProviderRegistry.providers r ++ [p] |}).
Proof.
  intros (Hm & Ht & Hi). unfold TransportProviderRegistry.register, validate_provider_registration.
  apply existsb_key in Ht, Hi. by rewrite Hm, Ht, Hi.
Qed.

Lemma provider_register_Err r p :
  ~ registrable r p -> exists e, TransportProviderRegistry.register p r = (Err e, r).
Proof.
  intros Hn. unfold TransportProviderRegistry.register, validate_provider_registration.
  pose proof (metadata_no_panic (TransportProviderDescriptor.metadata p)) as Hnp.
  destruct (validate_provider_metadata _) as [[]|e|] eqn:Hm; simpl; [|by eexists|done].
  destruct (existsb (fun registered => bool_decide
    (TransportProviderDescriptor.transport_id registered = _)) _) eqn:Ht; simpl; [by eexists|].
  destruct (existsb (fun registered => bool_decide
    (TransportProviderDescriptor.id registered = _)) _) eqn:Hi; simpl; [by eexists|].
  destruct Hn. apply existsb_key in Ht, Hi. done.
Qed.

Definition registry_ok (r : TransportProviderRegistry.t) : Prop :=
  let ps := TransportProviderRegistry.providers r in
  Forall (fun p => validate_provider_metadata (TransportProviderDescriptor.metadata p) = Ok tt) ps /\
  NoDup (TransportProviderDescriptor.transport_id <$> ps) /\
  NoDup (TransportProviderDescriptor.id <$> ps).

Lemma NoDup_snoc {A K} (key : A -> K) l a :
  NoDup (key <$> l) -> key a ∉ (key <$> l) -> NoDup (key <$> l ++ [a]).
Proof.
  intros Hl Ha. rewrite fmap_app. apply NoDup_app. split_and!; [done| |apply NoDup_singleton].
  intros k Hk Hka. simpl in Hka. apply list_elem_of_singleton in Hka as ->. done.
Qed.

Lemma registered_ok r : registered r -> registry_ok r.
Proof.
  induction 1 as [|r p _ (Hm & Ht & Hi)]; [by split_and!; constructor|].
  assert (registrable r p \/ ~ registrable r p) as [Hp|Hp].
  { unfold registrable. destruct (validate_provider_metadata _) as [[]|e|]; [|naive_solver..].
    destruct (decide (TransportProviderDescriptor.transport_id p ∈ TransportProviderDescriptor.transport_id
      <$> TransportProviderRegistry.providers r)); [naive_solver|].
    destruct (decide (TransportProviderDescriptor.id p ∈ TransportProviderDescriptor.id
      <$> TransportProviderRegistry.providers r)); naive_solver. }
  - rewrite provider_register_Ok by done. destruct Hp as (Hpm & Hpt & Hpi). unfold registry_ok. simpl.
    split_and!; [|by apply NoDup_snoc..]. apply Forall_app. by repeat constructor.
  - by destruct (provider_register_Err r p Hp) as [e ->].
Qed.

(** ** The summary of probes *)

(** [m] splits the values into two halves, and is not below all of them. *)
Definition is_median (values : list Z) (m : Z) : Prop :=
  (exists lows highs, values ≡ₚ lows ++ highs /\
     (length lows <= length highs <= S (length lows))%nat /\
     Forall (fun v => v <= m) lows /\ Forall (fun v => m <= v) highs) /\
  exists v, v ∈ values /\ v <= m.

Lemma sorted_lookup_le (l : list Z) i j x y :
  StronglySorted Z.le l -> (i <= j)%nat -> l !! i = Some x -> l !! j = Some y -> x <= y.
Proof.
  intros Hs Hij Hx Hy. destruct (decide (i = j)) as [->|]; [simplify_eq; lia|].
  rewrite <- (take_drop j l) in Hs. apply (StronglySorted_app_1_elem_of _ _ _ x y Hs).
  - apply (list_elem_of_lookup_2 _ i). by rewrite lookup_take_lt by lia.
  - apply (list_elem_of_lookup_2 _ 0). by rewrite lookup_drop, Nat.add_0_r.
Qed.

(** A value between the two halves of a sorted list. *)
Lemma sorted_halves (l : list Z) m i x :
  (forall j v, l !! j = Some v -> (j < length l / 2)%nat -> v <= m) ->
  (forall j v, l !! j = Some v -> (length l / 2 <= j)%nat -> m <= v) ->
  l !! i = Some x -> x <= m -> is_median l m.
Proof.
  intros Hlow Hhigh Hx Hm. split; [|exists x; split; [by eapply list_elem_of_lookup_2|done]].
  set (k := (length l / 2)%nat) in *.
  pose proof (Nat.div_mod_eq (length l) 2). pose proof (Nat.mod_upper_bound (length l) 2 ltac:(lia)).
  exists (take k l), (drop k l). rewrite take_drop, length_take_le, length_drop by lia.
  split_and!; [done|lia|lia| |]; apply Forall_forall; intros v [j Hj]%list_elem_of_lookup.
  - pose proof (lookup_lt_Some _ _ _ Hj) as Hlt. rewrite length_take_le in Hlt by lia.
    rewrite lookup_take_lt in Hj by lia. eauto.
  - rewrite lookup_drop in Hj. eapply Hhigh; [exact Hj|lia].
Qed.

Lemma sorted_median (l : list Z) :
  StronglySorted Z.le l -> l <> [] ->
  exists m, (if (length l mod 2 =? 1)%nat then expect (l !! (length l / 2)%nat)
    else lower ← match (length l / 2)%nat with O => Panic | S i => expect (l !! i) end;
         upper_value ← expect (l !! (length l / 2)%nat);
         Ok (lower + (upper_value - lower) / 2)) = @Ok Empty_set _ m /\ is_median l m.
Proof.
  intros Hs Hne. pose proof (sorted_halves l) as Hmed. set (k := (length l / 2)%nat) in *.
  pose proof (Nat.div_mod_eq (length l) 2) as Hdiv. fold k in Hdiv.
  pose proof (Nat.mod_upper_bound (length l) 2 ltac:(lia)) as Hmod.
  assert (0 < length l)%nat as Hpos by (destruct l; [done|simpl; lia]).
  destruct (lookup_lt_is_Some_2 l k) as [u Hu]; [lia|].
  assert (forall j v, l !! j = Some v -> (k <= j)%nat -> u <= v) as Hhigh
    by (intros; by eapply sorted_lookup_le).
  destruct (Nat.eqb_spec (length l mod 2) 1) as [Ho|He].
  - exists u. rewrite Hu. split; [done|]. apply (Hmed u k u); [|done..|lia].
    intros j v Hv Hj. eapply sorted_lookup_le; [done| |done..]. lia.
  - destruct k as [|i] eqn:Ek; [lia|]. destruct (lookup_lt_is_Some_2 l i) as [w Hw]; [lia|].
    rewrite Hw, Hu. simpl. eexists. split; [done|].
    assert (w <= u) by (by eapply (sorted_lookup_le l i (S i)); [| lia| |]).
    pose proof (Z.div_pos (u - w) 2 ltac:(lia) ltac:(lia)).
    pose proof (Z.div_le_upper_bound (u - w) 2 (u - w) ltac:(lia) ltac:(lia)).
    apply (Hmed _ i w); [| |done|lia].
    + intros j v Hv Hj. assert (v <= w) by (eapply (sorted_lookup_le l j i); [done|lia|done..]). lia.
    + intros j v Hv Hj. specialize (Hhigh j v Hv Hj). lia.
Qed.

Lemma median_exact values :
  values <> [] -> exists m, median values = Ok m /\ is_median values m.
Proof.
  intros Hne. unfold median. pose proof (merge_sort_Permutation Z.le values) as Hp.
  destruct (sorted_median (merge_sort Z.le values)) as (m & Hm & Hmed).
  - apply StronglySorted_merge_sort; apply _.
  - intros He. rewrite He in Hp. apply Permutation_nil_l in Hp. by destruct Hne.
  - exists m. split; [exact Hm|]. destruct Hmed as [(lows & highs & Hl & Hrest) (v & Hv & Hle)].
    split; [|exists v; by rewrite <- Hp]. exists lows, highs. by rewrite <- Hp.
Qed.

(** The samples of a provider that count. *)
Definition successful_samples (p : TransportProviderDescriptor.t) (samples : list ProbeSample.t)
    : list ProbeSample.t :=
  filter (fun s => ProbeSample.is_successful s = true) (matching_probe_samples p samples).

Lemma successful_rtt s :
  ProbeSample.is_successful s = true -> is_Some (ProbeSample.rtt_us s) /\ 0 < ProbeSample.elapsed_us s.
Proof.
  unfold ProbeSample.is_successful. rewrite !andb_true_iff, Z.ltb_lt. intros [[_ Hr] He].
  split; [|done]. destruct (ProbeSample.rtt_us s); [by eexists|done].
Qed.

Lemma successful_rtts p samples :
  Some <$> omap ProbeSample.rtt_us (successful_samples p samples) =
  ProbeSample.rtt_us <$> successful_samples p samples.
Proof.
  unfold successful_samples. induction (matching_probe_samples p samples) as [|s l IH]; [done|].
  rewrite filter_cons. destruct (decide _) as [Hs|_]; [|exact IH].
  apply successful_rtt in Hs as [[r Hr] _]. cbn [omap list_omap]. by rewrite Hr, !fmap_cons, IH, Hr.
Qed.

Lemma saturating_u32_mono a b : a <= b -> saturating_u32 a <= saturating_u32 b.
Proof. unfold saturating_u32. intros. repeat case_match; lia. Qed.

Lemma saturating_u32_pos a : 0 < a -> 0 < saturating_u32 a.
Proof. unfold saturating_u32, u32_max. intros. case_match; [done|]. vm_compute. done. Qed.

(** What a summary states. *)
Definition summarises (p : TransportProviderDescriptor.t) (samples : list ProbeSample.t)
    (m : ProbeMetrics.t) : Prop :=
  ProbeMetrics.sample_count m = saturating_u32 (len (matching_probe_samples p samples)) /\
  ProbeMetrics.success_count m = saturating_u32 (len (successful_samples p samples)) /\
  is_median (map ProbeSample.throughput (successful_samples p samples))
    (ProbeMetrics.median_throughput_bytes_per_sec m) /\
  is_median (omap ProbeSample.rtt_us (successful_samples p samples)) (ProbeMetrics.median_rtt_us m) /\
  validate_probe_metrics m = Ok tt.

Lemma summary_valid p samples m :
  successful_samples p samples <> [] ->
  ProbeMetrics.sample_count m = saturating_u32 (len (matching_probe_samples p samples)) ->
  ProbeMetrics.success_count m = saturating_u32 (len (successful_samples p samples)) ->
  validate_probe_metrics m = Ok tt.
Proof.
  intros Hne Hsc Huc. unfold validate_probe_metrics. rewrite Hsc, Huc.
  assert (0 < len (successful_samples p samples)) as H0.
  { unfold len. destruct (successful_samples p samples); [done|simpl; lia]. }
  assert (len (successful_samples p samples) <= len (matching_probe_samples p samples)) as H1.
  { unfold len, successful_samples. pose proof (length_filter
      (fun s => ProbeSample.is_successful s = true) (matching_probe_samples p samples)). lia. }
  pose proof (saturating_u32_pos _ H0). pose proof (saturating_u32_mono _ _ H1).
  apply then_unit_Ok. rewrite !reject_if_Ok, orb_false_iff, !Z.eqb_neq, Z.ltb_ge. lia.
Qed.

(** ** Selection and the order of registration *)

Definition sample_provider (transport_id : TransportId.t) (id : bytes) (rank : Z)
    (cost : ProviderCost.t) : TransportProviderDescriptor.t := {|
  TransportProviderDescriptor.name := id;
  TransportProviderDescriptor.version := str "1";
  TransportProviderDescriptor.transport_id := transport_id;
  TransportProviderDescriptor.kind := TransportProviderKind.PureRust;
  TransportProviderDescriptor.available := true;
  TransportProviderDescriptor.library_path := None;
  TransportProviderDescriptor.metadata := {|
    TransportProviderMetadata.id := id; TransportProviderMetadata.cost := cost;
    TransportProviderMetadata.preference_rank := rank;
    TransportProviderMetadata.limits := ProviderLimits.default;
    TransportProviderMetadata.limitations := [] |};
  TransportProviderDescriptor.diagnostic := None |}.

(** Three providers: the first and the third share a cost model, the second has its own. *)
Definition sample_quic := sample_provider TransportId.Quic (str "a") 1 (ProviderCost.mk 1 5).
Definition sample_tcp := sample_provider TransportId.Tcp (str "b") 2 (ProviderCost.mk 2 0).
Definition sample_websocket := sample_provider TransportId.WebSocket (str "c") 3 (ProviderCost.mk 1 3).

Definition sample_options (ps : list TransportProviderDescriptor.t) : TransportSelectionOptions.t := {|
  TransportSelectionOptions.peer_supported_transports := TransportProviderDescriptor.transport_id <$> ps;
  TransportSelectionOptions.policy := TransportPolicy.Auto;
  TransportSelectionOptions.requested_max_frame_bytes := None;
  TransportSelectionOptions.candidate_readiness :=
    map (fun p => TransportCandidateReadiness.ready (TransportProviderDescriptor.transport_id p)
                    (TransportProviderDescriptor.id p)) ps;
  TransportSelectionOptions.probe_observations :=
    map (fun p => TransportProbeObservation.succeeded (TransportProviderDescriptor.transport_id p)
                    (TransportProviderDescriptor.id p) (ProbeMetrics.mk 1 1 1000 10)) ps |}.

Definition selected (o : Sel TransportSelection.t) : option bytes :=
  match o with
  | Ok s => Some (TransportProviderDescriptor.id (TransportSelection.selected_provider s))
  | _ => None
  end.

(** The winner depends on the order of registration when cost models differ: each of the three
    providers loses to another one, so no order is sorted. *)
Lemma selection_follows_registration_order :
  let ps := [sample_quic; sample_tcp; sample_websocket] in
  let qs := [sample_websocket; sample_quic; sample_tcp] in
  qs ≡ₚ ps /\
  selected (select_transport_with_probe ps (sample_options ps)) = Some (str "a") /\
  selected (select_transport_with_probe qs (sample_options ps)) = Some (str "c").
Proof.
  cbv zeta. split; [|by split; vm_compute]. apply (Permutation_middle [sample_quic; sample_tcp] []).
Qed.

(** A registry takes a provider of the transport [Unspecified], and no selection works any
    more. *)
Lemma unspecified_provider_blocks p r options :
  registrable r p -> TransportProviderDescriptor.transport_id p = TransportId.Unspecified ->
  exists r' text text', TransportProviderRegistry.register p r = (Ok tt, r') /\
    TransportProviderRegistry.select r' options = Err (invalid_evidence text) /\
    TransportProviderRegistry.select_with_probe r' options = Err (invalid_evidence text').
Proof.
  intros Hp Ht. rewrite provider_register_Ok by done.
  assert (forall rs os, ~ evidence_ok (TransportProviderRegistry.providers r ++ [p]) rs os) as Hn.
  { intros rs os (Hps & _). apply Forall_app in Hps as [_ Hps]. apply Forall_cons in Hps as [[_ Hs] _].
    by rewrite Ht in Hs. }
  eexists. unfold TransportProviderRegistry.select, TransportProviderRegistry.select_with_probe,
    select_transport, select_transport_with_probe. simpl.
  edestruct (invalid_evidence_selects (A := TransportSelection.t)) as [text Htext]; [by apply Hn|].
  edestruct (invalid_evidence_selects (A := TransportSelection.t)) as [text' Htext']; [by apply Hn|].
  exists text, text'. split; [done|]. split; [exact Htext|exact Htext'].
Qed.

(** ** Contract *)

Lemma evidence_without_observations ps rs os : evidence_ok ps rs os -> evidence_ok ps rs [].
Proof. intros (? & ? & ? & ? & ? & _). repeat (split; [first [done | constructor]|]). constructor. Qed.

(** C34: On evidence that is consistent, a provider is viable exactly when the policy allows
    it, it is available, the peer supports its transport, it carries the requested frame size
    and its route is resolved and secure.  A viable provider that is the only one is selected
    at once by both functions.  Otherwise the selection without probes fails; the one with
    probes fails exactly when no viable provider was probed with success, and else selects
    one that was, which comes before every other one when their costs are of one model.  There
    is one diagnostic for each provider, with its rejection and its probe. *)
Theorem transport_selection_exact ps options :
  evidence_ok ps (TransportSelectionOptions.candidate_readiness options)
    (TransportSelectionOptions.probe_observations options) ->
  (forall p, p ∈ ps -> viable options p = true <-> viable_conditions options p) /\
  (exists ds, ds ≡ₚ map (report options (direct_report options ps)) ps /\
    select_transport ps options =
    match viable_providers options ps with
    | [p] => chosen options p ds
    | _ => selection_error (TransportSelectionOptions.policy options) ds
    end) /\
  exists ds, match viable_providers options ps with
  | [p] => select_transport_with_probe ps options = chosen options p ds /\
      ds ≡ₚ map (report options (direct_report options ps)) ps
  | _ => ranked_result options ps ds (select_transport_with_probe ps options) /\
      map unranked ds ≡ₚ map (report options (probe_report options)) ps
  end.
Proof.
  intros Hev. split_and!.
  - intros p Hp. by eapply viable_exact.
  - by eapply select_exact, evidence_without_observations.
  - by apply select_with_probe_exact.
Qed.

(** Two providers of one cost model: the evidence is consistent and the cheaper one is
    selected, although it has the higher preference rank. *)
Lemma transport_selection_exact_witness :
  let ps := [sample_quic; sample_websocket] in
  evidence_ok ps (TransportSelectionOptions.candidate_readiness (sample_options ps))
    (TransportSelectionOptions.probe_observations (sample_options ps)) /\
  viable_conditions (sample_options ps) sample_quic /\
  selected (select_transport_with_probe ps (sample_options ps)) = Some (str "c").
Proof.
  set (ps := [sample_quic; sample_websocket]).
  assert (evidence_ok ps (TransportSelectionOptions.candidate_readiness (sample_options ps))
    (TransportSelectionOptions.probe_observations (sample_options ps))) as Hev
    by (apply evidence_Ok; vm_compute; reflexivity).
  split; [exact Hev|]. split; [|vm_compute; reflexivity].
  destruct (transport_selection_exact ps (sample_options ps) Hev) as [Hv _].
  apply Hv; [left|vm_compute; reflexivity].
Defined.

(** A registry holds providers with valid metadata, no two of one transport or one id.
    A registration appends a provider that keeps this and refuses any other without a change.  A
    selection from the registry passes its checks exactly when every provider's transport can be
    selected, there is one readiness record for each provider and at most one well-formed
    observation for each; else both selections return invalid evidence, and never panic. *)
Theorem transport_registry_contract r options :
  registered r ->
  let ps := TransportProviderRegistry.providers r in
  let keys := TransportProviderDescriptor.key <$> ps in
  let rs := TransportSelectionOptions.candidate_readiness options in
  let os := TransportSelectionOptions.probe_observations options in
  registry_ok r /\
  (forall p, (registrable r p -> TransportProviderRegistry.register p r =
                (Ok tt, {| TransportProviderRegistry.providers := ps ++ [p] |})) /\
             (~ registrable r p ->
                exists e, TransportProviderRegistry.register p r = (Err e, r))) /\
  (evidence_ok ps rs os <->
     Forall (fun p => is_selectable_transport (TransportProviderDescriptor.transport_id p) = true) ps /\
     (NoDup (readiness_keys rs) /\ (forall k, k ∈ readiness_keys rs <-> k ∈ keys)) /\
     Forall (fun o => TransportProbeObservation.key o ∈ keys /\ observation_ok o) os /\
     NoDup (map TransportProbeObservation.key os)) /\
  (~ evidence_ok ps rs os -> exists text,
     TransportProviderRegistry.select_with_probe r options = Err (invalid_evidence text)) /\
  (~ evidence_ok ps rs [] -> exists text,
     TransportProviderRegistry.select r options = Err (invalid_evidence text)).
Proof.
  intros Hr ps keys rs os. pose proof (registered_ok r Hr) as Hok. split; [done|].
  split; [intros p; split; [apply provider_register_Ok|apply provider_register_Err]|]. split.
  - destruct Hok as (Hm & Ht & Hi). unfold evidence_ok, provider_ok. rewrite Forall_and. tauto.
  - split; intros Hn; by apply invalid_evidence_selects.
Qed.

(** A registry with the official QUIC provider, registered from the empty one. *)
Lemma transport_registry_contract_witness :
  let p := TransportProviderDescriptor.new_available false (str "quic") (str "1") TransportId.Quic
             TransportProviderKind.PureRust in
  let r := (TransportProviderRegistry.register p TransportProviderRegistry.new).2 in
  registered r /\ registry_ok r /\ TransportProviderRegistry.providers r = [p].
Proof.
  set (p := TransportProviderDescriptor.new_available false (str "quic") (str "1") TransportId.Quic
              TransportProviderKind.PureRust).
  set (r := (TransportProviderRegistry.register p TransportProviderRegistry.new).2).
  assert (registered r) as Hr by (apply registered_register, registered_new).
  split; [exact Hr|]. split; [|vm_compute; reflexivity].
  exact (proj1 (transport_registry_contract r TransportSelectionOptions.default Hr)).
Defined.

(** The summary of a provider's samples never panics.  Without a successful sample there
    is none; else its counts are those of the samples, up to saturation, its throughput and round trip
    are medians of the successful samples, and it passes the check of probe metrics. *)
Theorem probe_summary_exact p samples :
  match successful_samples p samples with
  | [] => summarize_provider_probe p samples = Ok None
  | _ => exists m, summarize_provider_probe p samples = Ok (Some m) /\ summarises p samples m
  end.
Proof.
  unfold summarize_provider_probe. fold (successful_samples p samples).
  pose proof (summary_valid p samples) as Hv. pose proof (successful_rtts p samples) as Hr. unfold summarises.
  destruct (successful_samples p samples) as [|s l] eqn:Hs; [done|]. rewrite <- Hs in *.
  rewrite bool_decide_false by (by rewrite Hs).
  destruct (median_exact (map ProbeSample.throughput (successful_samples p samples))) as (t & Ht & Hmt);
    [by rewrite Hs|].
  destruct (median_exact (omap ProbeSample.rtt_us (successful_samples p samples))) as (r & Hmr & Hmed).
  { intros He. rewrite He, Hs in Hr. done. }
  cbn zeta. rewrite Ht. simpl. rewrite Hmr. simpl. eexists. split; [done|]. simpl.
  split_and!; try done. apply Hv; [by rewrite Hs|done..].
Qed.
