(* ===== verification/Route.v ===== *)
(** Endpoints and provider routes ([src/crates/nnrp-runtime/src/route.rs]).

    The URI parser is the crate [http]: a parsed URI is a value of the type [Uri], of which
    the scheme and the authority are looked at. *)

From S2P Require Import Prelude Bytes Errors Enums Control Capability.

Local Open Scope Z_scope.

Module RouteConfigurationError.

Inductive t :=
| InvalidEndpoint
| UnsupportedApplicationScheme (scheme : bytes)
| ApplicationCredentialsNotAllowed
| FragmentNotAllowed
| UnsupportedProviderScheme
| EmptyProviderLocator
| EmptyServerName
| EmptyTrustedCertificate
| EmptyCertificate
| EmptyPrivateKey.

(** The messages of the derived [Display]. *)
Definition to_string (self : t) : bytes :=
  match self with
  | InvalidEndpoint => str "endpoint is not a valid absolute URI"
  | UnsupportedApplicationScheme scheme =>
      str "application endpoint must use nnrp:// or nnrps://, not " ++ scheme ++ str "://"
  | ApplicationCredentialsNotAllowed => str "application endpoint credentials are not allowed"
  | FragmentNotAllowed => str "endpoint fragments are not allowed"
  | UnsupportedProviderScheme =>
      str "provider endpoint must use tcp://, quic://, unix://, npipe://, ws://, or wss://"
  | EmptyProviderLocator => str "provider endpoint locator is empty"
  | EmptyServerName => str "client transport security server_name must not be empty"
  | EmptyTrustedCertificate =>
      str "client transport security trusted_certificate_der must not be empty"
  | EmptyCertificate => str "server transport security certificate_der must not be empty"
  | EmptyPrivateKey => str "server transport security private_key_pkcs8_der must not be empty"
  end.

End RouteConfigurationError.

Abbreviation Routed := (Outcome RouteConfigurationError.t).

(** The character [c] of a one-character string literal, as a byte. *)
Definition contains (s : bytes) (c : byte) : bool := bool_decide (c ∈ s).

Fixpoint starts_with (prefix s : bytes) : bool :=
  match prefix, s with
  | [], _ => true
  | a :: prefix, b :: s => bool_decide (a = b) && starts_with prefix s
  | _ :: _, [] => false
  end.

(** [str::find]: the offset of the first occurrence. *)
Fixpoint find_from (offset : nat) (needle s : bytes) : option nat :=
  if starts_with needle s then Some offset
  else match s with
       | [] => None
       | _ :: s => find_from (S offset) needle s
       end.

Definition find_str (needle s : bytes) : option nat := find_from 0 needle s.

(** ** URIs *)

(** The part of the crate [http] that the endpoints use: parsing, the scheme, the authority
    with its host and port, and the path with the query. *)
Class UriParser := {
  Uri : Type;
  uri_from_str : bytes -> option Uri;
  uri_scheme_str : Uri -> option bytes;
  uri_authority : Uri -> option bytes;
  authority_host : bytes -> bytes;
  authority_port_u16 : bytes -> option Z;
  uri_path_and_query : Uri -> option bytes
}.

Definition b_hash : byte := "#"%byte.
Definition b_at : byte := "@"%byte.
Definition b_query : byte := "?"%byte.

Module NnrpEndpoint.
Section endpoint.
Context `{UriParser}.

Record t := mk { value : bytes; uri : Uri }.

Definition from_str (value : bytes) : Routed t :=
  if contains value b_hash then Err RouteConfigurationError.FragmentNotAllowed
  else
    uri ← ok_or (uri_from_str value) RouteConfigurationError.InvalidEndpoint;
    _ ← match uri_scheme_str uri with
        | None => Err RouteConfigurationError.InvalidEndpoint
        | Some scheme =>
            if bool_decide (scheme = str "nnrp") || bool_decide (scheme = str "nnrps") then Ok tt
            else Err (RouteConfigurationError.UnsupportedApplicationScheme scheme)
        end;
    authority ← ok_or (uri_authority uri) RouteConfigurationError.InvalidEndpoint;
    _ ← reject_if (contains authority b_at)
          RouteConfigurationError.ApplicationCredentialsNotAllowed;
    Ok {| value := value; uri := uri |}.

Definition authority (self : t) : Routed bytes := expect (uri_authority (uri self)).

Definition path_and_query (self : t) : bytes :=
  match uri_path_and_query (uri self) with Some p => p | None => str "/" end.

Definition host (self : t) : Routed bytes :=
  a ← expect (uri_authority (uri self)); Ok (authority_host a).

Definition port (self : t) : option Z := uri_authority (uri self) ≫= authority_port_u16.

Definition is_secure (self : t) : bool :=
  bool_decide (uri_scheme_str (uri self) = Some (str "nnrps")).

End endpoint.
End NnrpEndpoint.

Module ProviderEndpoint.

Record t := mk { value : bytes; scheme_end : nat }.

(** [&self.value\[..self.scheme_end\]]. *)
Definition scheme (self : t) : bytes := take (scheme_end self) (value self).

Definition is_secure (self : t) : bool := bool_decide (scheme self = str "wss").

Definition matches_transport (self : t) (transport_id : TransportId.t) : bool :=
  match transport_id with
  | TransportId.Tcp => bool_decide (scheme self = str "tcp")
  | TransportId.Quic => bool_decide (scheme self = str "quic")
  | TransportId.Ipc =>
      bool_decide (scheme self = str "unix") || bool_decide (scheme self = str "npipe")
  | TransportId.WebSocket =>
      bool_decide (scheme self = str "ws") || bool_decide (scheme self = str "wss")
  | _ => false
  end.

Definition provider_schemes : list bytes :=
  [str "tcp"; str "quic"; str "unix"; str "npipe"; str "ws"; str "wss"].

Definition from_str `{UriParser} (value : bytes) : Routed t :=
  scheme_end ← ok_or (find_str (str "://") value) RouteConfigurationError.InvalidEndpoint;
  let scheme := take scheme_end value in
  _ ← reject_if (negb (bool_decide (scheme ∈ provider_schemes)))
        RouteConfigurationError.UnsupportedProviderScheme;
  let locator := drop (scheme_end + 3) value in
  _ ← reject_if (bool_decide (locator = [])) RouteConfigurationError.EmptyProviderLocator;
  _ ← reject_if (contains value b_hash) RouteConfigurationError.FragmentNotAllowed;
  _ ← if bool_decide (scheme = str "unix")
      then reject_if (negb (starts_with (str "/") locator) || bool_decide (locator = str "/")
                      || contains locator b_query)
             RouteConfigurationError.InvalidEndpoint
      else if bool_decide (scheme = str "npipe")
      then reject_if (contains locator b_query || contains locator b_at)
             RouteConfigurationError.InvalidEndpoint
      else
        uri ← ok_or (uri_from_str value) RouteConfigurationError.InvalidEndpoint;
        authority ← ok_or (uri_authority uri) RouteConfigurationError.EmptyProviderLocator;
        reject_if (contains authority b_at) RouteConfigurationError.InvalidEndpoint;
  Ok {| value := value; scheme_end := scheme_end |}.

End ProviderEndpoint.

(** ** Routes *)

(** [s.trim().is_empty()] on a UTF-8 string: every character is white space. *)
Fixpoint all_white_space (s : bytes) : bool :=
  match s with
  | [] => true
  | a :: r1 =>
      if in_range 0x09 0x0d a || in_range 0x20 0x20 a then all_white_space r1
      else match r1 with
      | [] => false
      | b :: r2 =>
          if in_range 0xc2 0xc2 a && (in_range 0x85 0x85 b || in_range 0xa0 0xa0 b)
          then all_white_space r2
          else match r2 with
          | [] => false
          | c :: r3 =>
              if (in_range 0xe1 0xe1 a && in_range 0x9a 0x9a b && in_range 0x80 0x80 c)
                 || (in_range 0xe2 0xe2 a && in_range 0x80 0x80 b
                     && (in_range 0x80 0x8a c || in_range 0xa8 0xa9 c || in_range 0xaf 0xaf c))
                 || (in_range 0xe2 0xe2 a && in_range 0x81 0x81 b && in_range 0x9f 0x9f c)
                 || (in_range 0xe3 0xe3 a && in_range 0x80 0x80 b && in_range 0x80 0x80 c)
              then all_white_space r3 else false
          end
      end
  end.

Module ClientTransportSecurity.

Record t := mk { server_name : bytes; trusted_certificate_der : bytes }.

Definition validate (self : t) : Routed unit :=
  _ ← reject_if (all_white_space (server_name self)) RouteConfigurationError.EmptyServerName;
  reject_if (bool_decide (trusted_certificate_der self = []))
    RouteConfigurationError.EmptyTrustedCertificate.

End ClientTransportSecurity.

Module ServerTransportSecurity.

Record t := mk { certificate_der : bytes; private_key_pkcs8_der : bytes }.

Definition validate (self : t) : Routed unit :=
  _ ← reject_if (bool_decide (certificate_der self = [])) RouteConfigurationError.EmptyCertificate;
  reject_if (bool_decide (private_key_pkcs8_der self = []))
    RouteConfigurationError.EmptyPrivateKey.

End ServerTransportSecurity.

(** [if let Some(x) = o { check(x)?; }]. *)
Definition if_some {E A} (o : option A) (check : A -> Outcome E unit) : Outcome E unit :=
  match o with Some a => check a | None => Ok tt end.

Module ClientProviderRoute.

Record t := mk {
  provider_endpoint : option ProviderEndpoint.t;
  security : option ClientTransportSecurity.t
}.

Definition default : t := mk None None.
Definition at_endpoint (endpoint : ProviderEndpoint.t) : t := mk (Some endpoint) None.

Definition native_tls (server_name trusted_certificate_der : bytes) : t :=
  mk None (Some (ClientTransportSecurity.mk server_name trusted_certificate_der)).

Definition validate_for (self : t) (transport_id : TransportId.t) : Routed unit :=
  _ ← if_some (provider_endpoint self) (fun endpoint =>
        reject_if (negb (ProviderEndpoint.matches_transport endpoint transport_id))
          RouteConfigurationError.UnsupportedProviderScheme);
  if_some (security self) ClientTransportSecurity.validate.

End ClientProviderRoute.

Module ServerProviderRoute.

Record t := mk {
  provider_endpoint : option ProviderEndpoint.t;
  security : option ServerTransportSecurity.t
}.

Definition default : t := mk None None.
Definition at_endpoint (endpoint : ProviderEndpoint.t) : t := mk (Some endpoint) None.

Definition native_tls (certificate_der private_key_pkcs8_der : bytes) : t :=
  mk None (Some (ServerTransportSecurity.mk certificate_der private_key_pkcs8_der)).

Definition validate_for (self : t) (transport_id : TransportId.t) : Routed unit :=
  _ ← if_some (provider_endpoint self) (fun endpoint =>
        reject_if (negb (ProviderEndpoint.matches_transport endpoint transport_id))
          RouteConfigurationError.UnsupportedProviderScheme);
  if_some (security self) ServerTransportSecurity.validate.

End ServerProviderRoute.

(** ** Routes by transport

    [BTreeMap<TransportId, _>] for clients and for servers. *)

#[global] Instance transport_id_countable : Countable TransportId.t.
Proof.
  refine (inj_countable TransportId.repr
    (fun n => match TransportId.try_from_u32 n with Ok t => Some t | _ => None end) _).
  abstract (by intros []).
Defined.

Definition ClientProviderRoutes : Type := gmap TransportId.t ClientProviderRoute.t.
Definition ServerProviderRoutes : Type := gmap TransportId.t ServerProviderRoute.t.

(** The transports with a route, in ascending order: [routes.keys()]. *)
Definition route_keys {A} (routes : gmap TransportId.t A) : list TransportId.t :=
  filter (fun transport_id => is_Some (routes !! transport_id))
    [TransportId.Unspecified; TransportId.Quic; TransportId.Tcp; TransportId.Ipc; TransportId.WebSocket].

Lemma elem_of_route_keys {A} (routes : gmap TransportId.t A) transport_id :
  transport_id ∈ route_keys routes <-> is_Some (routes !! transport_id).
Proof.
  unfold route_keys. rewrite list_elem_of_filter. split; [by intros [? _]|]. intros H. split; [done|].
  destruct transport_id; set_solver.
Qed.
