(* ===== verification/RuntimeError.v ===== *)
(** The runtime's errors ([src/crates/nnrp-runtime/src/error.rs]) and the kinds of transport
    they name ([src/crates/nnrp-runtime/src/transport.rs]). *)

From S2P Require Import Prelude Bytes Errors Enums Control Transport Route.

(** [std::io::Error]: its kind and its text.  The kinds that the runtime looks at have names. *)
Module IoErrorKind.

Inductive t :=
| UnexpectedEof | BrokenPipe | ConnectionAborted | ConnectionReset | NotConnected
| OtherKind (code : Z).

#[global] Instance eq_dec : EqDecision t.
Proof. solve_decision. Defined.

End IoErrorKind.

Module IoError.

Record t := mk { kind : IoErrorKind.t; text : string }.

End IoError.

Module RuntimeTransportKind.

Inductive t := Tcp | Quic | Ipc | WebSocket.

#[global] Instance eq_dec : EqDecision t.
Proof. solve_decision. Defined.

Definition transport_id (self : t) : TransportId.t :=
  match self with
  | Tcp => TransportId.Tcp
  | Quic => TransportId.Quic
  | Ipc => TransportId.Ipc
  | WebSocket => TransportId.WebSocket
  end.

Definition from_transport_id (value : TransportId.t) : option t :=
  match value with
  | TransportId.Quic => Some Quic
  | TransportId.Tcp => Some Tcp
  | TransportId.Ipc => Some Ipc
  | TransportId.WebSocket => Some WebSocket
  | _ => None
  end.

End RuntimeTransportKind.

Inductive RuntimeError :=
| Io (error : IoError.t)
| Protocol (error : NnrpError)
| RouteConfiguration (error : RouteConfigurationError.t)
| TransportSelectionFailed (error : TransportSelectionError.t)
| DuplicateTransportProvider (transport_id : TransportId.t)
| DuplicateServerTransportProvider (transport_id : TransportId.t)
| DuplicateClientProviderId (id : bytes)
| DuplicateServerProviderId (id : bytes)
| ServerRouteRejected (transport_id : TransportId.t) (reason : TransportRejectionReason.t)
    (diagnostic : bytes)
| ServerListenerSetClosed
| ServerAcceptTimeout
| SelectedProviderUnavailable (id : bytes)
| UnsupportedTransport (message : string)
| FrameIdOverflow
| FrameTooLarge (declared max : Z)
| TransportClosed (transport : RuntimeTransportKind.t) (detail : string)
| UnexpectedMessage (message : string)
| InvalidRecoveryTicket (message : string)
| SessionRejected (code : Z) (diagnostic : bytes)
| Internal (message : string).

(** The outcome of a runtime call. *)
Abbreviation RT := (Outcome RuntimeError).

(** The [?] on an [NnrpError]. *)
Definition protocol {A} (o : R A) : RT A := map_err Protocol o.

Lemma protocol_Ok {A} (o : R A) a : protocol o = Ok a <-> o = Ok a.
Proof. apply map_err_Ok. Qed.

Lemma protocol_no_panic {A} (o : R A) : o <> Panic -> protocol o <> Panic.
Proof. by destruct o. Qed.

#[export] Hint Resolve protocol_no_panic : nopanic.
