(* ===== verification/Packet.v ===== *)
(** Runtime packets ([src/crates/nnrp-runtime/src/packet.rs]): a header with its metadata
    and its body, as the runtime sends and receives them. *)

From S2P Require Import Prelude Bytes Errors Enums Wire Header.

Local Open Scope Z_scope.

Module RuntimeFrameHeader.

Record t := mk {
  version_major : Z;
  wire_format : Z;
  message_type : MessageType.t;
  flags : Z;
  session_id : Z;
  frame_id : Z;
  view_id : Z;
  route_id : Z;
  trace_id : Z
}.

Definition from (header : CommonHeader.t) : t := {|
  version_major := CommonHeader.version_major header;
  wire_format := CommonHeader.wire_format header;
  message_type := CommonHeader.message_type header;
  flags := CommonHeader.flags header;
  session_id := CommonHeader.session_id header;
  frame_id := CommonHeader.frame_id header;
  view_id := CommonHeader.view_id header;
  route_id := CommonHeader.route_id header;
  trace_id := CommonHeader.trace_id header |}.

End RuntimeFrameHeader.

(** [usize] to [u32]. *)
Definition checked_len (value : Z) : R Z :=
  if value <=? u32_max then Ok value else Err MessageLengthOverflow.

Module RuntimePacket.

Record t := mk { header : CommonHeader.t; metadata : bytes; body : bytes }.

(** [header.meta_len = ..; header.body_len = ..]. *)
Definition set_lens (h : CommonHeader.t) (meta_len body_len : Z) : CommonHeader.t := {|
  CommonHeader.version_major := CommonHeader.version_major h;
  CommonHeader.wire_format := CommonHeader.wire_format h;
  CommonHeader.message_type := CommonHeader.message_type h;
  CommonHeader.header_len := CommonHeader.header_len h;
  CommonHeader.flags := CommonHeader.flags h;
  CommonHeader.meta_len := meta_len;
  CommonHeader.body_len := body_len;
  CommonHeader.session_id := CommonHeader.session_id h;
  CommonHeader.frame_id := CommonHeader.frame_id h;
  CommonHeader.view_id := CommonHeader.view_id h;
  CommonHeader.route_id := CommonHeader.route_id h;
  CommonHeader.trace_id := CommonHeader.trace_id h |}.

Section packets.
Context `{Htarget : Target}.

Definition new (header : CommonHeader.t) (metadata body : bytes) : R t :=
  meta_len ← checked_len (len metadata);
  body_len ← checked_len (len body);
  let header := set_lens header meta_len body_len in
  _ ← CommonHeader.packet_len header;
  Ok {| header := header; metadata := metadata; body := body |}.

Definition to_bytes (self : t) : R bytes :=
  _ ← CommonHeader.packet_len (header self);
  header_bytes ← CommonHeader.to_bytes (header self);
  Ok (header_bytes ++ metadata self ++ body self).

Definition from_parts (header : CommonHeader.t) (metadata body : bytes) : R t :=
  declared_len ← CommonHeader.packet_len header;
  let actual_len := Z.of_nat COMMON_HEADER_LEN + len metadata + len body in
  _ ← reject_if (negb (declared_len =? actual_len)) (PacketLengthMismatch declared_len actual_len);
  Ok {| header := header; metadata := metadata; body := body |}.

Lemma checked_len_Ok v w : checked_len v = Ok w <-> w = v /\ v <= u32_max.
Proof.
  unfold checked_len. destruct (Z.leb_spec v u32_max);
    (split; [try done; intros [= <-]; done|intros [-> ?]; done || lia]).
Qed.

Lemma new_Ok h md bd p :
  new h md bd = Ok p <->
  p = {| header := set_lens h (len md) (len bd); metadata := md; body := bd |} /\
  len md <= u32_max /\ len bd <= u32_max /\ packet_fits (header p).
Proof.
  unfold new. split.
  - intros Hn. apply bind_Ok in Hn as (ml & [-> Hml]%checked_len_Ok & Hn).
    apply bind_Ok in Hn as (bl & [-> Hbl]%checked_len_Ok & Hn).
    apply bind_Ok in Hn as (n & [Hfit _]%packet_len_Ok & [= <-]). done.
  - intros (-> & Hml & Hbl & Hfit). simpl in Hfit.
    eapply bind_step; [apply checked_len_Ok; split; [reflexivity|done]|cbv beta].
    eapply bind_step; [apply checked_len_Ok; split; [reflexivity|done]|cbv beta zeta].
    eapply bind_step; [by apply packet_len_Ok|done].
Qed.

Lemma to_bytes_Ok p :
  valid (header p) = true -> packet_fits (header p) ->
  to_bytes p = Ok (wire (header p) ++ metadata p ++ body p).
Proof.
  intros Hv Hfit. eapply bind_step; [by apply packet_len_Ok|cbv beta].
  eapply bind_step; [exact (to_bytes_valid (A := CommonHeader.t) _ Hv)|done].
Qed.

(** [from_parts] compares the total length only. *)
Lemma from_parts_Ok h md bd p :
  from_parts h md bd = Ok p <->
  p = {| header := h; metadata := md; body := bd |} /\ packet_fits h /\
  CommonHeader.meta_len h + CommonHeader.body_len h = len md + len bd.
Proof.
  unfold from_parts. split.
  - intros Hp. apply bind_Ok in Hp as (n & [Hfit ->]%packet_len_Ok & Hp).
    apply bind_Ok in Hp as (? & Hl%reject_unless_Ok%Z.eqb_eq & [= <-]). split_and!; [done|done|lia].
  - intros (-> & Hfit & Hl). eapply bind_step; [by apply packet_len_Ok|cbv beta].
    eapply (bind_step _ _ tt); [|done]. apply reject_unless_Ok, Z.eqb_eq. lia.
Qed.
End packets.

(** ** Contract *)

Lemma set_lens_valid h ml bl :
  valid h = true -> 0 <= ml <= u32_max -> 0 <= bl <= u32_max -> valid (set_lens h ml bl) = true.
Proof.
  intros [Ht Hg]%andb_prop Hm Hb. apply andb_true_intro. split; [|exact Hg].
  unfold u32_max in *. unfold typed, fields_ok in *.
  cbn -[field_ok] in *. repeat (apply andb_prop in Ht as [? Ht]).
  assert (forall v, 0 <= v <= 4294967295 -> field_ok (F (KU 4) v) = true) as Hu32
    by (intros v Hv; unfold field_ok; cbn -[modulus]; change (modulus 4) with 4294967296; lia).
  repeat (apply andb_true_intro; split; [first [assumption | by apply Hu32]|]). done.
Qed.

(** A packet that [RuntimePacket::new] makes from a valid header is serialised, and the
    bytes parse back to the header, with the lengths of the parts filled in, and to
    the same metadata and body. *)
Theorem packet_round_trip (T : Target) h md bd p :
  valid h = true -> new h md bd = Ok p ->
  exists bs, to_bytes p = Ok bs /\
    CommonHeader.parse_packet bs = Ok (set_lens h (len md) (len bd), md, bd).
Proof.
  intros Hv (-> & Hm & Hb & Hfit)%new_Ok. simpl in Hfit.
  assert (valid (set_lens h (len md) (len bd)) = true) as Hval
    by (apply set_lens_valid; unfold len in *; try done; lia).
  eexists. split.
  - by apply to_bytes_Ok.
  - apply parse_packet_Ok. done.
Qed.

Definition ping_header : CommonHeader.t := CommonHeader.new MessageType.Ping 0 0.

Lemma packet_round_trip_witness :
  exists p bs, new (Htarget := target64) ping_header [x01; x02] [x03] = Ok p /\
    to_bytes (Htarget := target64) p = Ok bs /\
    CommonHeader.parse_packet (H := target64) bs
      = Ok (set_lens ping_header 2 1, [x01; x02], [x03]).
Proof.
  eexists.
  destruct (packet_round_trip target64 ping_header [x01; x02] [x03]
    {| header := set_lens ping_header 2 1; metadata := [x01; x02]; body := [x03] |})
    as (bs & Hb & Hp); [vm_compute; reflexivity|vm_compute; reflexivity|].
  exists bs. split; [vm_compute; reflexivity|]. split; [exact Hb|exact Hp].
Defined.

(** [from_parts] compares the total length only.  When it accepts parts whose
    split differs from the header's, the packet is serialised and a receiver reads the
    same bytes, but divided where the header says: its metadata and body are those of the
    sender exactly when the declared metadata length is the length of the metadata. *)
Theorem from_parts_resplits (T : Target) h md bd p :
  valid h = true -> from_parts h md bd = Ok p ->
  exists bs md' bd', to_bytes p = Ok bs /\ CommonHeader.parse_packet bs = Ok (h, md', bd') /\
    md' ++ bd' = md ++ bd /\ len md' = CommonHeader.meta_len h /\
    (md' = md /\ bd' = bd <-> CommonHeader.meta_len h = len md).
Proof.
  intros Hv (-> & Hfit & Hsum)%from_parts_Ok. destruct (valid_lengths _ Hv) as [Hm Hb].
  set (n := Z.to_nat (CommonHeader.meta_len h)).
  assert (length (md ++ bd) = length md + length bd)%nat as Hl by apply length_app.
  unfold len in *.
  assert (length (take n (md ++ bd)) = n) as Hn by (rewrite length_take; lia).
  exists (wire h ++ md ++ bd), (take n (md ++ bd)), (drop n (md ++ bd)). split_and!.
  - by apply to_bytes_Ok.
  - apply parse_packet_Ok. unfold len. rewrite Hn, length_drop, take_drop.
    split_and!; try done; lia.
  - apply take_drop.
  - lia.
  - split; [intros [<- _]; lia|]. intros Heq.
    assert (n = length md) as -> by lia. by rewrite take_app_length, drop_app_length.
Qed.

Lemma from_parts_resplits_witness :
  exists p bs, from_parts (Htarget := target64) (CommonHeader.new MessageType.Ping 2 1) [x01] [x02; x03]
      = Ok p /\
    to_bytes (Htarget := target64) p = Ok bs /\
    CommonHeader.parse_packet (H := target64) bs
      = Ok (CommonHeader.new MessageType.Ping 2 1, [x01; x02], [x03]).
Proof.
  eexists.
  destruct (from_parts_resplits target64 (CommonHeader.new MessageType.Ping 2 1) [x01] [x02; x03]
    {| header := CommonHeader.new MessageType.Ping 2 1; metadata := [x01]; body := [x02; x03] |})
    as (bs & md' & bd' & Hb & Hp & Happ & Hlen & _); [vm_compute; reflexivity|vm_compute; reflexivity|].
  exists bs. split; [vm_compute; reflexivity|]. split; [exact Hb|]. rewrite Hp.
  destruct md' as [|a [|b [|c md']]]; unfold len in Hlen; simpl in Hlen; try lia.
  simpl in Happ. by injection Happ as -> -> ->.
Defined.

(** What [parse_packet] returns, [from_parts] accepts, and serialising it gives
    the very bytes that were received. *)
Theorem parsed_packet_reserialises (T : Target) source h md bd :
  CommonHeader.parse_packet source = Ok (h, md, bd) ->
  from_parts h md bd = Ok {| header := h; metadata := md; body := bd |} /\
  to_bytes {| header := h; metadata := md; body := bd |} = Ok source.
Proof.
  intros (Hv & Hfit & Hm & Hb & ->)%parse_packet_Ok. split; [|by apply to_bytes_Ok].
  apply from_parts_Ok. split_and!; [done|done|lia].
Qed.

Lemma parsed_packet_reserialises_witness :
  exists source, CommonHeader.parse_packet (H := target64) source = Ok (ping_header, [], []) /\
    to_bytes (Htarget := target64) {| header := ping_header; metadata := []; body := [] |} = Ok source.
Proof.
  destruct (parsed_packet_reserialises target64 (wire ping_header) ping_header [] [])
    as [_ Hs]; [vm_compute; reflexivity|].
  exists (wire ping_header). split; [vm_compute; reflexivity|exact Hs].
Defined.

End RuntimePacket.
