(* ===== verification/Async.v ===== *)
(** Asynchronous methods.

    A call of an [async fn] on [&mut self] ends with an outcome, or waits at an [.await] for
    something that has not happened.  A caller may drop a future that waits, so the state
    at the point where it waits is part of the result, as it is for an error.

    A transport is seen from its caller: the results that its reads, polls and writes will
    have, in order, and the packets that it was given to write.  A call beyond the end of its list
    waits.  A packet whose write returned is out.  One whose write failed, or was given up while it
    waited, is out or not: the session transport and the transport over pipes hand it to a task
    before they wait. *)

From S2P Require Import Prelude Bytes Errors Wire Packet RuntimeError.

Inductive Poll (A : Type) : Type :=
| Ready (o : RT A)
| Pending.

Arguments Ready {A} o.
Arguments Pending {A}.

Definition Async (S A : Type) : Type := S -> Poll A * S.

Section async.
Context {S : Type}.

#[global] Instance async_ret : MRet (Async S) := fun A a s => (Ready (Ok a), s).

(** [m.await?]: an error, a panic or a wait ends the caller. *)
#[global] Instance async_bind : MBind (Async S) := fun A B k m s =>
  match m s with
  | (Ready (Ok a), s) => k a s
  | (Ready (Err e), s) => (Ready (Err e), s)
  | (Ready Panic, s) => (Ready Panic, s)
  | (Pending, s) => (Pending, s)
  end.

(** [o?] for a value computed without state. *)
Definition lift {A} (o : RT A) : Async S A := fun s => (Ready o, s).

Definition gets {A} (f : S -> A) : Async S A := fun s => (Ready (Ok (f s)), s).

Definition modify (f : S -> S) : Async S unit := fun s => (Ready (Ok tt), f s).

(** A check that reads the state and changes nothing. *)
Definition check {A} (f : S -> RT A) : Async S A := fun s => (Ready (f s), s).

(** [let _ = m.await;] and the [Ok] of [m.await]. *)
Definition attempt {A} (m : Async S A) : Async S (option A) := fun s =>
  match m s with
  | (Ready (Ok a), s) => (Ready (Ok (Some a)), s)
  | (Ready (Err _), s) => (Ready (Ok None), s)
  | (Ready Panic, s) => (Ready Panic, s)
  | (Pending, s) => (Pending, s)
  end.

(** A synchronous method of a field. *)
Definition on_field {F A} (get : S -> F) (set : S -> F -> S) (m : Method F RuntimeError A)
    : Async S A := fun s =>
  let (o, f) := m (get s) in (Ready o, set s f).

(** ** Triples

    From a state in which [P] holds a call does not panic; when it returns [a], [Q a] holds
    after it, and when it fails or waits, [E] does. *)
Definition triple {A} (P : S -> Prop) (m : Async S A) (Q : A -> S -> Prop) (E : S -> Prop) : Prop :=
  forall s, P s ->
    match m s with
    | (Ready (Ok a), s') => Q a s'
    | (Ready (Err _), s') => E s'
    | (Ready Panic, _) => False
    | (Pending, s') => E s'
    end.

(** The value and the state of a call that returns. *)
Definition returns {A} (m : Async S A) (s : S) (a : A) (s' : S) : Prop :=
  m s = (Ready (Ok a), s').

Lemma returns_bind {A B} (m : Async S A) (k : A -> Async S B) s b s' :
  returns (x ← m; k x) s b s' <-> exists a s1, returns m s a s1 /\ returns (k a) s1 b s'.
Proof.
  unfold returns, mbind, async_bind. destruct (m s) as [[[a|e|]|] s1]; split.
  all: try (intros [=]). all: try (by intros (a' & s2 & [=] & _)).
  - eauto.
  - by intros (a' & s2 & [= <- <-] & ?).
Qed.

Lemma returns_lift {A} (o : RT A) s a s' : returns (lift o) s a s' <-> o = Ok a /\ s' = s.
Proof. unfold returns, lift. naive_solver. Qed.

Lemma returns_gets {A} (f : S -> A) s a s' : returns (gets f) s a s' <-> a = f s /\ s' = s.
Proof. unfold returns, gets. naive_solver. Qed.

Lemma returns_modify (f : S -> S) s u s' : returns (modify f) s u s' <-> s' = f s.
Proof. destruct u. unfold returns, modify. naive_solver. Qed.

Lemma returns_ret {A} (a b : A) s s' : returns (mret (M := Async S) a) s b s' <-> b = a /\ s' = s.
Proof. unfold returns, mret, async_ret. naive_solver. Qed.

Lemma triple_bind {A B} P (m : Async S A) (k : A -> Async S B) Q Q' E :
  triple P m Q E -> (forall a, triple (Q a) (k a) Q' E) -> triple P (x ← m; k x) Q' E.
Proof.
  intros Hm Hk s Hs. specialize (Hm s Hs). unfold mbind, async_bind.
  destruct (m s) as [[[a|e|]|] s1]; [by apply Hk|done..].
Qed.

Lemma triple_conseq {A} (P P' : S -> Prop) (m : Async S A) Q Q' E E' :
  triple P' m Q' E' -> (forall s, P s -> P' s) -> (forall a s, Q' a s -> Q a s) ->
  (forall s, E' s -> E s) -> triple P m Q E.
Proof.
  intros Hm HP HQ HE s Hs. specialize (Hm s (HP s Hs)).
  destruct (m s) as [[[a|e|]|] s1]; auto.
Qed.

(** A fact that does not speak of the state. *)
Lemma triple_pure {A} (P : S -> Prop) (fact : Prop) (m : Async S A) Q E :
  (fact -> triple P m Q E) -> triple (fun s => P s /\ fact) m Q E.
Proof. intros Hm s [Hs Hf]. by apply (Hm Hf). Qed.

Lemma triple_ret {A} P (a : A) Q E : (forall s, P s -> Q a s) -> triple P (mret (M := Async S) a) Q E.
Proof. intros HQ s Hs. by apply HQ. Qed.

Lemma triple_lift {A} P (o : RT A) Q E :
  o <> Panic -> (forall s, P s -> E s) -> (forall a s, o = Ok a -> P s -> Q a s) ->
  triple P (lift o) Q E.
Proof. intros Ho HE HQ s Hs. simpl. destruct o; auto. Qed.

Lemma triple_modify P (f : S -> S) Q E :
  (forall s, P s -> Q tt (f s)) -> triple P (modify f) Q E.
Proof. intros HQ s Hs. by apply HQ. Qed.

Lemma triple_bind_lift {A B} P (o : RT A) (k : A -> Async S B) Q E :
  o <> Panic -> (forall s, P s -> E s) -> (forall a, o = Ok a -> triple P (k a) Q E) ->
  triple P (x ← lift o; k x) Q E.
Proof.
  intros Ho HE Hk s Hs. unfold mbind, async_bind, lift. destruct o as [a|e|]; [by apply Hk|auto|done].
Qed.

Lemma triple_bind_gets {A B} P (f : S -> A) (k : A -> Async S B) Q E :
  (forall a, triple (fun s => P s /\ f s = a) (k a) Q E) -> triple P (x ← gets f; k x) Q E.
Proof. intros Hk s Hs. by apply (Hk (f s)). Qed.

Lemma triple_bind_modify {B} P P' (f : S -> S) (k : unit -> Async S B) Q E :
  (forall s, P s -> P' (f s)) -> triple P' (k tt) Q E -> triple P (x ← modify f; k x) Q E.
Proof. intros Hf Hk s Hs. by apply (Hk (f s)), Hf. Qed.

Lemma attempt_triple {A} (P : S -> Prop) (m : Async S A) Q E :
  triple P m Q E -> triple P (attempt m) (fun r s => match r with Some a => Q a s | None => E s end) E.
Proof.
  intros Hm s Hs. specialize (Hm s Hs). unfold attempt. by destruct (m s) as [[[a|e|]|] s'].
Qed.

(** What a triple says of a call that returns. *)
Lemma triple_returns {A} P (m : Async S A) Q E s a s' :
  triple P m Q E -> P s -> returns m s a s' -> Q a s'.
Proof. intros Hm Hs Hr. specialize (Hm s Hs). unfold returns in Hr. by rewrite Hr in Hm. Qed.

(** What it says of the state after any call. *)
Lemma triple_after {A} P (m : Async S A) (E : S -> Prop) s :
  triple P m (fun _ => E) E -> P s -> E (m s).2 /\ (m s).1 <> Ready Panic.
Proof. intros Hm Hs. specialize (Hm s Hs). destruct (m s) as [[[a|e|]|] s1]; simpl; by split. Qed.
End async.

(** ** A transport as its caller sees it ([FramedTransport] of transport.rs) *)

Module FramedTransport.

Record t := mk {
  transport_kind : RuntimeTransportKind.t;
  reads : list (RT RuntimePacket.t);
  polls : list (RT (option RuntimePacket.t));
  writes : list (RT unit);
  closes : list (RT unit);
  (** Every packet that a write was called with, and whether the write returned. *)
  handed : list (RuntimePacket.t * bool)
}.

(** The packets whose write returned. *)
Definition returned (log : list (RuntimePacket.t * bool)) : list RuntimePacket.t :=
  (filter (fun entry => entry.2 = true) log).*1.

#[global] Arguments returned : simpl never.

Definition written (self : t) : list RuntimePacket.t := returned (handed self).

(** What the peer may see of the packets: those whose write returned, and any of the others. *)
Inductive carries : list (RuntimePacket.t * bool) -> list RuntimePacket.t -> Prop :=
| carries_nil : carries [] []
| carries_out packet ok log wire : carries log wire -> carries ((packet, ok) :: log) (packet :: wire)
| carries_lost packet log wire : carries log wire -> carries ((packet, false) :: log) wire.

Definition set_reads (self : t) reads : t :=
  mk (transport_kind self) reads (polls self) (writes self) (closes self) (handed self).
Definition set_polls (self : t) polls : t :=
  mk (transport_kind self) (reads self) polls (writes self) (closes self) (handed self).
Definition set_writes (self : t) writes handed : t :=
  mk (transport_kind self) (reads self) (polls self) writes (closes self) handed.
Definition set_closes (self : t) closes : t :=
  mk (transport_kind self) (reads self) (polls self) (writes self) closes (handed self).

Definition read_packet : Async t RuntimePacket.t := fun self =>
  match reads self with
  | [] => (Pending, self)
  | r :: rest => (Ready r, set_reads self rest)
  end.

Definition try_read_packet : Async t (option RuntimePacket.t) := fun self =>
  match polls self with
  | [] => (Ready (Ok None), self)
  | r :: rest => (Ready r, set_polls self rest)
  end.

Definition write_packet (packet : RuntimePacket.t) : Async t unit := fun self =>
  match writes self with
  | [] => (Pending, set_writes self [] (handed self ++ [(packet, false)]))
  | Ok u :: rest => (Ready (Ok u), set_writes self rest (handed self ++ [(packet, true)]))
  | r :: rest => (Ready r, set_writes self rest (handed self ++ [(packet, false)]))
  end.

Definition close : Async t unit := fun self =>
  match closes self with
  | [] => (Pending, self)
  | r :: rest => (Ready r, set_closes self rest)
  end.

(** No result in the lists is a panic. *)
Definition well_behaved (self : t) : Prop :=
  Forall (fun r => r <> Panic) (reads self) /\ Forall (fun r => r <> Panic) (polls self) /\
  Forall (fun r => r <> Panic) (writes self) /\ Forall (fun r => r <> Panic) (closes self).

Lemma returned_app log log' : returned (log ++ log') = returned log ++ returned log'.
Proof. unfold returned. by rewrite filter_app, fmap_app. Qed.

(** Whatever the peer sees, it sees what was written, in order. *)
Lemma carries_returned log wire : carries log wire -> returned log `sublist_of` wire.
Proof.
  unfold returned. induction 1 as [|packet [] log wire _ IH|packet log wire _ IH]; cbn; [done|by constructor..|done].
Qed.

(** More results for the calls to come. *)
Definition supplied (self self' : t) : Prop := exists rs ps ws cs,
  well_behaved (mk (transport_kind self) rs ps ws cs []) /\
  self' = mk (transport_kind self) (reads self ++ rs) (polls self ++ ps) (writes self ++ ws) (closes self ++ cs)
            (handed self).

Lemma supplied_well_behaved self self' : supplied self self' -> well_behaved self -> well_behaved self'.
Proof.
  intros (rs & ps & ws & cs & (Hr & Hp & Hw & Hc) & ->) (? & ? & ? & ?). by split_and!; apply Forall_app.
Qed.

Lemma supplied_handed self self' : supplied self self' -> handed self' = handed self.
Proof. by intros (rs & ps & ws & cs & _ & ->). Qed.

(** A call keeps a transport well behaved and does not panic; what was written stays written. *)
Definition calm {A} (m : Async t A) : Prop := forall self,
  well_behaved self ->
  (m self).1 <> Ready Panic /\ well_behaved (m self).2 /\ written self `prefix_of` written (m self).2.

Lemma read_packet_calm : calm read_packet.
Proof.
  intros [k [|r rs] ps ws cs w] (Hr & Hp & Hw & Hc); cbn; [by split_and!|].
  apply Forall_cons in Hr as [? ?]. by split_and!; [intros [=]| |done].
Qed.

Lemma try_read_packet_calm : calm try_read_packet.
Proof.
  intros [k rs [|p ps] ws cs w] (Hr & Hp & Hw & Hc); cbn; [by split_and!|].
  apply Forall_cons in Hp as [? ?]. by split_and!; [intros [=]| |done].
Qed.

Lemma write_packet_calm packet : calm (write_packet packet).
Proof.
  intros [k rs ps [|x ws] cs w] (Hr & Hp & Hw & Hc); cbn.
  { split_and!; try done. unfold written. cbn. rewrite returned_app. apply prefix_app_r. done. }
  apply Forall_cons in Hw as [? ?].
  unfold written. by destruct x; cbn; split_and!; try done; rewrite returned_app; apply prefix_app_r.
Qed.

Lemma close_calm : calm close.
Proof.
  intros [k rs ps ws [|c cs] w] (Hr & Hp & Hw & Hc); cbn; [by split_and!|].
  apply Forall_cons in Hc as [? ?]. by split_and!; [intros [=]| |done].
Qed.

(** A write that succeeds appends its packet. *)
Lemma write_packet_returns packet self u self' :
  returns (write_packet packet) self u self' ->
  written self' = written self ++ [packet] /\ reads self' = reads self.
Proof.
  unfold returns. destruct self as [k rs ps [|[v|e|] ws] cs w]; cbn; [done| |done|done].
  intros [= <- <-]. unfold written. cbn. by rewrite returned_app.
Qed.

End FramedTransport.
