(* ===== verification/Stream.v ===== *)
(** The framing of packets on a byte stream ([src/crates/nnrp-runtime/src/transport.rs]).

    [StreamPacketReader] reads a stream in chunks of whatever size the operating system
    returns and hands out one packet per call.  Its specification is [first_packet], which
    looks at all the bytes at once.  A call of [reader.read] is one element of the list of
    results; a reader that has used up the list waits. *)

From S2P Require Import Prelude Bytes Errors Enums Wire Header Packet RuntimeError.

Local Open Scope Z_scope.

Module RuntimeFrameLimits.

Record t := mk { max_packet_bytes : Z }.

Definition DEFAULT_MAX_PACKET_BYTES : Z := 64 * 1024 * 1024.

Definition default : t := mk DEFAULT_MAX_PACKET_BYTES.

Definition validate_packet_len (self : t) (declared : Z) : RT unit :=
  if max_packet_bytes self <? declared
  then Err (FrameTooLarge declared (max_packet_bytes self)) else Ok tt.

End RuntimeFrameLimits.

Definition STREAM_READ_CHUNK_BYTES : Z := 64 * 1024.

(** One result of [reader.read]: the bytes read, none at the end of the stream, or an error. *)
Inductive ReadResult :=
| Read (chunk : bytes)
| ReadFailed (error : IoError.t).

Definition eof_error : RuntimeError :=
  Io (IoError.mk IoErrorKind.UnexpectedEof "stream closed before a complete NNRP packet").

Module StreamPacketReader.

(** The scratch buffer holds the bytes of one read only and is not part of the state. *)
Record t := mk { buffered : bytes; consumed : nat; packet_len : option Z }.

Definition new : t := {| buffered := []; consumed := 0; packet_len := None |}.

Definition available (self : t) : nat := length (buffered self) - consumed self.

Section reader.
Context `{Htarget : Target} (limits : RuntimeFrameLimits.t).

Definition take_packet (packet_len : Z) : Method t RuntimeError RuntimePacket.t := fun self =>
  let packet_start := consumed self in
  let packet_end := (packet_start + Z.to_nat packet_len)%nat in
  let packet : RT RuntimePacket.t :=
    packet ← protocol (slice (buffered self) packet_start packet_end);
    '(header, metadata, body) ← protocol (CommonHeader.parse_packet packet);
    protocol (RuntimePacket.from_parts header metadata body) in
  match packet with
  | Ok packet =>
      (Ok packet,
       if (packet_end =? length (buffered self))%nat
       then {| buffered := []; consumed := 0; packet_len := None |}
       else if STREAM_READ_CHUNK_BYTES <=? Z.of_nat packet_end
       then {| buffered := drop packet_end (buffered self); consumed := 0; packet_len := None |}
       else {| buffered := buffered self; consumed := packet_end; packet_len := None |})
  | Err e => (Err e, self)
  | Panic => (Panic, self)
  end.

(** The header check at the top of the loop. *)
Definition check_header : Method t RuntimeError unit := fun self =>
  match packet_len self with
  | Some _ => (Ok tt, self)
  | None =>
      if (COMMON_HEADER_LEN <=? available self)%nat
      then
        let checked : RT Z :=
          source ← protocol (slice (buffered self) (consumed self)
                               (consumed self + COMMON_HEADER_LEN));
          header ← protocol (CommonHeader.parse source);
          packet_len ← protocol (CommonHeader.packet_len header);
          _ ← RuntimeFrameLimits.validate_packet_len limits packet_len;
          Ok packet_len in
        match checked with
        | Ok n => (Ok tt, {| buffered := buffered self; consumed := consumed self;
                             packet_len := Some n |})
        | Err e => (Err e, self)
        | Panic => (Panic, self)
        end
      else (Ok tt, self)
  end.

(** The loop: [None] is a reader that waits for the stream.  The results of [reader.read]
    that are left over belong to later calls. *)
Fixpoint read_packet (reads : list ReadResult) (self : t)
    : option (RT RuntimePacket.t) * t * list ReadResult :=
  match check_header self with
  | (Err e, self) => (Some (Err e), self, reads)
  | (Panic, self) => (Some Panic, self, reads)
  | (Ok _, self) =>
      let wait :=
        match reads with
        | [] => (None, self, [])
        | ReadFailed e :: reads => (Some (Err (Io e)), self, reads)
        | Read [] :: reads => (Some (Err eof_error), self, reads)
        | Read chunk :: reads =>
            read_packet reads {| buffered := buffered self ++ chunk; consumed := consumed self;
                                 packet_len := packet_len self |}
        end in
      match packet_len self with
      | Some n =>
          if n <=? Z.of_nat (available self)
          then let '(r, self) := take_packet n self in (Some r, self, reads)
          else wait
      | None => wait
      end
  end.

(** [count] calls, up to the first that waits or fails. *)
Fixpoint read_packets (count : nat) (reads : list ReadResult) (self : t)
    : list RuntimePacket.t * option (RT RuntimePacket.t) * t * list ReadResult :=
  match count with
  | O => ([], None, self, reads)
  | S count =>
      match read_packet reads self with
      | (Some (Ok p), self, reads) =>
          let '(ps, last, self, reads) := read_packets count reads self in
          (p :: ps, last, self, reads)
      | (r, self, reads) => ([], r, self, reads)
      end
  end.

(** ** The specification *)

(** The length that the header in front of the bytes declares, checked. *)
Definition declared_len (source : bytes) : RT Z :=
  header ← protocol (CommonHeader.parse (take COMMON_HEADER_LEN source));
  n ← protocol (CommonHeader.packet_len header);
  _ ← RuntimeFrameLimits.validate_packet_len limits n;
  Ok n.

(** The first packet of a stream and the bytes after it; [None] if there are not enough. *)
Definition first_packet (stream : bytes) : option (RT (RuntimePacket.t * bytes)) :=
  if (length stream <? COMMON_HEADER_LEN)%nat then None
  else match declared_len stream with
       | Ok n =>
           if len stream <? n then None
           else Some (packet ← protocol (CommonHeader.parse_packet (take (Z.to_nat n) stream));
                      Ok ({| RuntimePacket.header := packet.1.1;
                             RuntimePacket.metadata := packet.1.2;
                             RuntimePacket.body := packet.2 |}, drop (Z.to_nat n) stream))
       | Err e => Some (Err e)
       | Panic => Some Panic
       end.

(** The first [count] packets of a stream, how the next one fails if it does, and the rest. *)
Fixpoint split_packets (count : nat) (stream : bytes)
    : list RuntimePacket.t * option (RT RuntimePacket.t) * bytes :=
  match count with
  | O => ([], None, stream)
  | S count =>
      match first_packet stream with
      | Some (Ok (p, rest)) =>
          let '(ps, last, rest) := split_packets count rest in (p :: ps, last, rest)
      | Some (Err e) => ([], Some (Err e), stream)
      | Some Panic => ([], Some Panic, stream)
      | None => ([], None, stream)
      end
  end.

(** ** The reader against its specification *)

(** The bytes that were received and not handed out yet. *)
Definition pending (self : t) : bytes := drop (consumed self) (buffered self).

Definition set_packet_len (self : t) (n : Z) : t :=
  {| buffered := buffered self; consumed := consumed self; packet_len := Some n |}.

(** The cached length is that of the packet in front; the bytes that were handed out and are
    still buffered are fewer than one chunk. *)
Definition wf (self : t) : Prop :=
  (consumed self <= length (buffered self))%nat /\
  Z.of_nat (consumed self) < STREAM_READ_CHUNK_BYTES /\
  match packet_len self with
  | Some n => (COMMON_HEADER_LEN <= length (pending self))%nat /\ declared_len (pending self) = Ok n
  | None => True
  end.

Lemma new_wf : wf new.
Proof. unfold wf. simpl. split_and!; [lia|done|done]. Qed.

Lemma declared_len_app s t :
  (COMMON_HEADER_LEN <= length s)%nat -> declared_len (s ++ t) = declared_len s.
Proof. intros Hs. unfold declared_len. by rewrite take_app_le. Qed.

Lemma declared_len_Ok s n :
  declared_len s = Ok n ->
  exists header, CommonHeader.parse s = Ok header /\ packet_fits header /\
    n = Z.of_nat COMMON_HEADER_LEN + (CommonHeader.meta_len header + CommonHeader.body_len header) /\
    n <= RuntimeFrameLimits.max_packet_bytes limits.
Proof.
  unfold declared_len. intros Hd. apply bind_Ok in Hd as (h & Hh%protocol_Ok & Hd).
  apply bind_Ok in Hd as (m & Hm%protocol_Ok & Hd). apply packet_len_Ok in Hm as [Hfit Hm].
  apply bind_Ok in Hd as (u & Hv & [= <-]). exists h. unfold RuntimeFrameLimits.validate_packet_len in Hv.
  destruct (Z.ltb_spec (RuntimeFrameLimits.max_packet_bytes limits) m); [done|].
  split_and!; [|done..]. apply header_parse_iff. apply header_parse_iff in Hh as [? Ht].
  split; [done|]. by rewrite take_take, Nat.min_id in Ht.
Qed.

(** Once the declared bytes are there, the packet parses. *)
Lemma first_packet_complete s n :
  (COMMON_HEADER_LEN <= length s)%nat -> declared_len s = Ok n -> n <= len s ->
  exists header metadata body,
    CommonHeader.parse_packet (take (Z.to_nat n) s) = Ok (header, metadata, body) /\
    packet_fits header /\
    first_packet s = Some (Ok ({| RuntimePacket.header := header; RuntimePacket.metadata := metadata;
                                  RuntimePacket.body := body |}, drop (Z.to_nat n) s)).
Proof.
  intros Hlen Hd Hn. pose proof (declared_len_Ok s n Hd) as (h & Hh & Hfit & Hnn & _).
  apply header_parse_iff in Hh as [Hv Ht]. destruct (valid_lengths _ Hv) as [Hm Hb]. unfold len in Hn.
  set (payload := drop COMMON_HEADER_LEN (take (Z.to_nat n) s)).
  assert (take (Z.to_nat n) s = wire h ++ payload) as Hs.
  { unfold payload. rewrite <- Ht, <- (take_drop COMMON_HEADER_LEN (take (Z.to_nat n) s)) at 1.
    f_equal. rewrite take_take. f_equal. lia. }
  assert (len payload = CommonHeader.meta_len h + CommonHeader.body_len h) as Hp.
  { unfold payload, len. rewrite length_drop, length_take. lia. }
  set (ml := Z.to_nat (CommonHeader.meta_len h)).
  assert (CommonHeader.parse_packet (take (Z.to_nat n) s) =
    Ok (h, take ml payload, drop ml payload)) as Hparse.
  { apply parse_packet_Ok. unfold len in *. rewrite length_take, length_drop, take_drop. unfold ml.
    split_and!; [done|done|lia|lia|done]. }
  exists h, (take ml payload), (drop ml payload). split_and!; [done|done|].
  unfold first_packet. rewrite (proj2 (Nat.ltb_ge _ _)), Hd by lia.
  rewrite (proj2 (Z.ltb_ge _ _)), Hparse by (unfold len; lia). done.
Qed.

Lemma check_header_spec self :
  wf self ->
  check_header self =
  if (length (pending self) <? COMMON_HEADER_LEN)%nat then (Ok tt, self)
  else match declared_len (pending self) with
       | Ok n => (Ok tt, set_packet_len self n)
       | Err e => (Err e, self)
       | Panic => (Panic, self)
       end.
Proof.
  intros (Hc & _ & Hp). unfold check_header. destruct (packet_len self) as [n|] eqn:Hn.
  - destruct Hp as [Hlen Hd]. rewrite (proj2 (Nat.ltb_ge _ _)), Hd by lia.
    unfold set_packet_len. rewrite <- Hn. by destruct self.
  - unfold pending, available. rewrite length_drop. case_match eqn:Ha.
    + apply Nat.leb_le in Ha. rewrite (proj2 (Nat.ltb_ge _ _)) by lia.
      unfold slice. rewrite decide_True by lia. unfold declared_len.
      replace (_ + COMMON_HEADER_LEN - _)%nat with COMMON_HEADER_LEN by lia. simpl.
      unfold set_packet_len. destruct (protocol (CommonHeader.parse _)) as [h| |]; simpl; [|done..].
      destruct (protocol (CommonHeader.packet_len h)) as [m| |]; simpl; [|done..].
      by destruct (RuntimeFrameLimits.validate_packet_len limits m).
    + apply Nat.leb_gt in Ha. by rewrite (proj2 (Nat.ltb_lt _ _)) by lia.
Qed.

Lemma take_packet_spec self n :
  wf self -> (COMMON_HEADER_LEN <= length (pending self))%nat ->
  declared_len (pending self) = Ok n -> n <= len (pending self) ->
  exists p self', take_packet n self = (Ok p, self') /\
    first_packet (pending self) = Some (Ok (p, pending self')) /\ wf self' /\
    packet_len self' = None.
Proof.
  intros (Hc & Hchunk & _) Hlen Hd Hn.
  destruct (first_packet_complete _ _ Hlen Hd Hn) as (h & md & bd & Hparse & Hfit & Hfirst).
  destruct (declared_len_Ok _ _ Hd) as (h' & Hh' & Hf' & Hnn & _).
  unfold len in Hn. unfold take_packet. unfold pending in Hn, Hparse, Hlen. rewrite length_drop in Hn, Hlen.
  apply header_parse_iff in Hh' as [Hv' _]. destruct (valid_lengths _ Hv').
  unfold slice. rewrite decide_True by lia.
  replace (consumed self + Z.to_nat n - consumed self)%nat with (Z.to_nat n) by lia. simpl.
  rewrite Hparse. simpl. apply parse_packet_Ok in Hparse as (_ & _ & Hm & Hb & _).
  rewrite (proj2 (RuntimePacket.from_parts_Ok h md bd _)) by (split_and!; [done|done|lia]). simpl.
  eexists _, _. split; [done|]. rewrite Hfirst.
  assert (drop (Z.to_nat n) (pending self) = drop (consumed self + Z.to_nat n) (buffered self)) as Hdrop
    by (unfold pending; by rewrite drop_drop).
  case_match eqn:He; [|case_match eqn:Hk].
  - apply Nat.eqb_eq in He. split_and!; [|apply new_wf|done].
    rewrite Hdrop, drop_ge by lia. done.
  - split_and!; [by rewrite Hdrop| |done]. unfold wf. simpl. split_and!; [lia|done|done].
  - apply Nat.eqb_neq in He. apply Z.leb_gt in Hk.
    split_and!; [by rewrite Hdrop| |done]. unfold wf. simpl. split_and!; [lia|done|done].
Qed.
Lemma declared_len_no_panic s : declared_len s <> Panic.
Proof.
  unfold declared_len. apply bind_no_panic; [|intros h _].
  { apply protocol_no_panic. exact (law_parse_no_panic (A := CommonHeader.t) _). }
  apply bind_no_panic; [apply protocol_no_panic, packet_len_no_panic|intros n _].
  unfold RuntimeFrameLimits.validate_packet_len. by case_match.
Qed.

Lemma first_packet_no_panic s : first_packet s <> Some Panic.
Proof.
  unfold first_packet. case_match eqn:Hl; [done|]. apply Nat.ltb_ge in Hl.
  pose proof (declared_len_no_panic s). destruct (declared_len s) as [n|e|] eqn:Hd; [|done..].
  case_match eqn:Hn; [done|]. apply Z.ltb_ge in Hn.
  destruct (first_packet_complete s n Hl Hd Hn) as (h & md & bd & -> & _). done.
Qed.

(** What the reader does on the bytes it has. *)
Lemma first_packet_cases s :
  match first_packet s with
  | None => (length s < COMMON_HEADER_LEN)%nat \/
      (COMMON_HEADER_LEN <= length s)%nat /\ exists n, declared_len s = Ok n /\ len s < n
  | Some (Ok _) => (COMMON_HEADER_LEN <= length s)%nat /\ exists n, declared_len s = Ok n /\ n <= len s
  | Some (Err e) => (COMMON_HEADER_LEN <= length s)%nat /\ declared_len s = Err e
  | Some Panic => False
  end.
Proof.
  pose proof (first_packet_no_panic s) as Hnp. unfold first_packet in *.
  destruct (Nat.ltb_spec (length s) COMMON_HEADER_LEN) as [Hl|Hl]; [by left|].
  destruct (declared_len s) as [n|e|] eqn:Hd; [|by split|by destruct Hnp].
  destruct (Z.ltb_spec (len s) n) as [Hn|Hn]; [by right; eauto|].
  destruct (first_packet_complete s n Hl Hd Hn) as (h & md & bd & -> & _). simpl. eauto.
Qed.

(** More bytes do not change the first packet. *)
Lemma first_packet_app s t :
  match first_packet s with
  | Some (Ok (p, rest)) => first_packet (s ++ t) = Some (Ok (p, rest ++ t))
  | Some r => first_packet (s ++ t) = Some r
  | None => True
  end.
Proof.
  pose proof (first_packet_cases s) as Hc. destruct (first_packet s) as [[[p rest]|e|]|] eqn:Hf; [| |done|done].
  - destruct Hc as [Hl (n & Hd & Hn)]. destruct (first_packet_complete s n Hl Hd Hn) as (h & md & bd & Hp & _ & Hs).
    rewrite Hf in Hs. injection Hs as -> ->. unfold len in Hn.
    unfold first_packet. rewrite length_app, (proj2 (Nat.ltb_ge _ _)), declared_len_app, Hd by lia.
    rewrite (proj2 (Z.ltb_ge _ _)) by (unfold len; rewrite length_app; lia).
    rewrite take_app_le, drop_app_le by lia. rewrite Hp. done.
  - destruct Hc as [Hl Hd]. unfold first_packet.
    by rewrite length_app, (proj2 (Nat.ltb_ge _ _)), declared_len_app, Hd by lia.
Qed.

Definition extend (self : t) (chunk : bytes) : t :=
  {| buffered := buffered self ++ chunk; consumed := consumed self; packet_len := packet_len self |}.

Lemma extend_pending self chunk : wf self -> pending (extend self chunk) = pending self ++ chunk.
Proof. intros [Hc _]. unfold pending. simpl. by rewrite drop_app_le. Qed.

Lemma extend_wf self chunk : wf self -> wf (extend self chunk).
Proof.
  intros Hw. pose proof (extend_pending self chunk Hw) as Hp. destruct Hw as (Hc & Hk & Hl).
  unfold wf. rewrite Hp. simpl. rewrite !length_app. split_and!; [lia|done|].
  destruct (packet_len self); [|done]. destruct Hl as [Hlen Hd]. split; [lia|].
  by rewrite declared_len_app.
Qed.

Lemma set_packet_len_wf self n :
  wf self -> (COMMON_HEADER_LEN <= length (pending self))%nat -> declared_len (pending self) = Ok n ->
  wf (set_packet_len self n).
Proof. by intros (? & ? & _). Qed.

(** One turn of the loop: hand out, fail, or wait with the state after the check. *)
Lemma read_packet_step reads self :
  wf self ->
  match first_packet (pending self) with
  | Some (Ok (p, rest)) => exists self', read_packet reads self = (Some (Ok p), self', reads) /\
      wf self' /\ pending self' = rest
  | Some (Err e) => read_packet reads self = (Some (Err e), self, reads)
  | Some Panic => False
  | None => exists self', wf self' /\ pending self' = pending self /\
      read_packet [] self = (None, self', []) /\
      (forall e tail, read_packet (ReadFailed e :: tail) self = (Some (Err (Io e)), self', tail)) /\
      (forall tail, read_packet (Read [] :: tail) self = (Some (Err eof_error), self', tail)) /\
      forall chunk tail, chunk <> [] ->
      read_packet (Read chunk :: tail) self = read_packet tail (extend self' chunk)
  end.
Proof.
  intros Hw. pose proof (check_header_spec self Hw) as Hch.
  pose proof (first_packet_cases (pending self)) as Hc.
  destruct (first_packet (pending self)) as [[[p rest]|e|]|] eqn:Hf; [| |done|].
  - destruct Hc as [Hl (n & Hd & Hn)]. rewrite (proj2 (Nat.ltb_ge _ _)), Hd in Hch by lia.
    destruct (take_packet_spec (set_packet_len self n) n) as (p' & self' & Ht & Hf' & Hw' & _);
      [by apply set_packet_len_wf|done..|].
    change (pending (set_packet_len self n)) with (pending self) in Hf'. rewrite Hf in Hf'.
    injection Hf' as <- Hr. exists self'. split; [|done].
    unfold len, pending in Hn. rewrite length_drop in Hn.
    destruct reads; simpl; rewrite Hch; simpl; rewrite (proj2 (Z.leb_le _ _)) by (unfold available; simpl; lia);
      by rewrite Ht.
  - destruct Hc as [Hl Hd]. rewrite (proj2 (Nat.ltb_ge _ _)), Hd in Hch by lia.
    destruct reads; simpl; by rewrite Hch.
  - destruct Hc as [Hl | [Hl (n & Hd & Hn)]].
    + rewrite (proj2 (Nat.ltb_lt _ _)) in Hch by done. exists self.
      assert (packet_len self = None) as Hpl
        by (destruct Hw as (_ & _ & Hpl); destruct (packet_len self); [lia|done]).
      split_and!; [done|done| |intros ? ?|intros ?|intros [|b chunk] tail Hne; [done|]];
        cbn [read_packet]; rewrite Hch; unfold extend; by rewrite Hpl.
    + rewrite (proj2 (Nat.ltb_ge _ _)), Hd in Hch by lia. exists (set_packet_len self n).
      unfold len, pending in Hn. rewrite length_drop in Hn.
      assert ((n <=? Z.of_nat (available (set_packet_len self n))) = false) as Ha
        by (apply Z.leb_gt; unfold available; simpl; lia).
      split_and!; [by apply set_packet_len_wf|done| |intros ? ?|intros ?|
                   intros [|b chunk] tail Hne; [done|]];
        cbn [read_packet]; rewrite Hch; cbn [packet_len set_packet_len]; by rewrite Ha.
Qed.
(** A call on a stream that continues with some chunks, whatever comes after them. *)
Lemma read_packet_chunks chunks tail self :
  wf self -> Forall (fun chunk => chunk <> []) chunks ->
  match first_packet (pending self ++ concat chunks) with
  | Some (Ok (p, rest)) => exists self' chunks',
      read_packet ((Read <$> chunks) ++ tail) self = (Some (Ok p), self', (Read <$> chunks') ++ tail) /\
      wf self' /\ Forall (fun chunk => chunk <> []) chunks' /\ pending self' ++ concat chunks' = rest
  | Some (Err e) => exists self' chunks',
      read_packet ((Read <$> chunks) ++ tail) self = (Some (Err e), self', (Read <$> chunks') ++ tail) /\
      wf self' /\ Forall (fun chunk => chunk <> []) chunks' /\
      pending self' ++ concat chunks' = pending self ++ concat chunks
  | Some Panic => False
  | None => exists self', wf self' /\ pending self' = pending self ++ concat chunks /\
      forall tail, read_packet ((Read <$> chunks) ++ tail) self = read_packet tail self'
  end.
Proof.
  revert self. induction chunks as [|chunk chunks IH]; intros self Hw Hne.
  { simpl. rewrite app_nil_r. pose proof (read_packet_step tail self Hw) as Hs.
    destruct (first_packet (pending self)) as [[[p rest]|e|]|]; [| |done|by exists self].
    - destruct Hs as (self' & Hr & Hw' & Hp). exists self', []. simpl. rewrite app_nil_r. done.
    - exists self, []. simpl. rewrite app_nil_r. done. }
  pose proof (read_packet_step ((Read <$> chunk :: chunks) ++ tail) self Hw) as Hs.
  pose proof (first_packet_app (pending self) (concat (chunk :: chunks))) as Happ.
  destruct (first_packet (pending self)) as [[[p rest]|e|]|]; [| |done|].
  - rewrite Happ. destruct Hs as (self' & Hr & Hw' & <-). by exists self', (chunk :: chunks).
  - rewrite Happ. by exists self, (chunk :: chunks).
  - destruct Hs as (self' & Hw' & Hp & _ & _ & _ & Hr). apply Forall_cons in Hne as [Hc Hne].
    change (concat (chunk :: chunks)) with (chunk ++ concat chunks). rewrite (app_assoc (pending self)).
    specialize (IH (extend self' chunk) (extend_wf _ _ Hw') Hne).
    rewrite extend_pending, Hp in IH by done. rewrite fmap_cons.
    destruct (first_packet _) as [[[p rest]|e|]|]; [| |done|].
    1,2: by rewrite <- app_comm_cons, Hr.
    destruct IH as (self'' & ? & ? & IH). exists self''. split_and!; [done..|].
    intros tail'. by rewrite <- app_comm_cons, Hr.
Qed.

Lemma read_packets_chunks count chunks self :
  wf self -> Forall (fun chunk => chunk <> []) chunks ->
  let '(ps, last, rest) := split_packets count (pending self ++ concat chunks) in
  exists self' chunks',
    read_packets count (Read <$> chunks) self = (ps, last, self', Read <$> chunks') /\
    wf self' /\ pending self' ++ concat chunks' = rest.
Proof.
  revert chunks self. induction count as [|count IH]; intros chunks self Hw Hne; simpl.
  { by exists self, chunks. }
  pose proof (read_packet_chunks chunks [] self Hw Hne) as Hr.
  destruct (first_packet _) as [[[p rest]|e|]|] eqn:Hf; [| |done|].
  - destruct Hr as (self' & chunks' & Hr & Hw' & Hne' & <-). rewrite !app_nil_r in Hr. rewrite Hr.
    specialize (IH chunks' self' Hw' Hne'). destruct (split_packets count _) as [[ps last] rest].
    destruct IH as (self'' & chunks'' & -> & ? & ?). by exists self'', chunks''.
  - destruct Hr as (self' & chunks' & Hr & Hw' & _ & Hp). rewrite !app_nil_r in Hr. rewrite Hr.
    by exists self', chunks'.
  - destruct Hr as (self' & Hw' & Hp & Hr). specialize (Hr []). rewrite app_nil_r in Hr. rewrite Hr.
    pose proof (read_packet_step [] self' Hw') as Hs.
    rewrite Hp, Hf in Hs. destruct Hs as (self'' & Hw'' & Hp'' & -> & _).
    exists self'', []. simpl. by rewrite app_nil_r, Hp''.
Qed.

(** ** Writing *)

(** [write_packet] of a stream transport: the bytes that go to the stream. *)
Definition write_packet (packet : RuntimePacket.t) : RT bytes :=
  bytes ← protocol (RuntimePacket.to_bytes packet);
  _ ← RuntimeFrameLimits.validate_packet_len limits (len bytes);
  Ok bytes.

(** A packet that parses back to itself: those of [RuntimePacket::new] and [read_packet]. *)
Definition faithful (packet : RuntimePacket.t) : Prop :=
  valid (RuntimePacket.header packet) = true /\
  CommonHeader.meta_len (RuntimePacket.header packet) = len (RuntimePacket.metadata packet) /\
  CommonHeader.body_len (RuntimePacket.header packet) = len (RuntimePacket.body packet).

Lemma write_packet_first packet bs rest :
  faithful packet -> write_packet packet = Ok bs ->
  first_packet (bs ++ rest) = Some (Ok (packet, rest)).
Proof.
  intros (Hv & Hm & Hb) Hw. unfold write_packet in Hw. apply bind_Ok in Hw as (bs' & Hbs%protocol_Ok & Hw).
  apply bind_Ok in Hw as (u & Hlim & [= <-]).
  assert (packet_fits (RuntimePacket.header packet)) as Hfit.
  { unfold RuntimePacket.to_bytes in Hbs. by apply bind_Ok in Hbs as (n & [? _]%packet_len_Ok & _). }
  rewrite (RuntimePacket.to_bytes_Ok packet Hv Hfit) in Hbs. apply (inj Ok) in Hbs as <-.
  pose proof (length_wire (RuntimePacket.header packet)) as Hw.
  change (codec_len (A := CommonHeader.t)) with COMMON_HEADER_LEN in Hw.
  set (bs := wire _ ++ _ ++ _) in *.
  assert (len bs = Z.of_nat COMMON_HEADER_LEN +
    (len (RuntimePacket.metadata packet) + len (RuntimePacket.body packet))) as Hlen.
  { unfold bs, len. rewrite !length_app. lia. }
  assert (declared_len (bs ++ rest) = Ok (len bs)) as Hd.
  { unfold declared_len.
    eapply bind_step; [apply protocol_Ok, header_parse_iff; split; [exact Hv|]|cbv beta].
    { unfold bs. rewrite <- app_assoc, take_take, Nat.min_id. by apply take_app_length'. }
    eapply bind_step; [apply protocol_Ok, packet_len_Ok; split; [exact Hfit|reflexivity]|cbv beta].
    rewrite Hm, Hb, <- Hlen. by eapply bind_step. }
  assert (CommonHeader.parse_packet bs = Ok (RuntimePacket.header packet,
    RuntimePacket.metadata packet, RuntimePacket.body packet)) as Hp
    by (by apply parse_packet_Ok).
  unfold first_packet. rewrite (proj2 (Nat.ltb_ge _ _)), Hd by (rewrite length_app; unfold len in *; lia).
  rewrite (proj2 (Z.ltb_ge _ _)) by (unfold len; rewrite length_app; lia).
  unfold len. rewrite Nat2Z.id, take_app_length, drop_app_length, Hp. simpl. by destruct packet.
Qed.

Lemma split_packets_written packets bss rest :
  Forall faithful packets -> collect write_packet packets = Ok bss ->
  split_packets (length packets) (concat bss ++ rest) = (packets, None, rest).
Proof.
  intros Hf Hw. apply collect_Ok in Hw. induction Hw as [|p bs packets bss Hp Hw IH]; [done|].
  apply Forall_cons in Hf as [Hf1 Hf]. simpl. rewrite <- app_assoc.
  by rewrite (write_packet_first p bs _ Hf1 Hp), IH.
Qed.
(** When the chunks hold as many packets as are asked for, nothing after them is read. *)
Lemma read_packets_found count chunks tail self ps rest :
  wf self -> Forall (fun chunk => chunk <> []) chunks ->
  split_packets count (pending self ++ concat chunks) = (ps, None, rest) -> length ps = count ->
  exists self' chunks',
    read_packets count ((Read <$> chunks) ++ tail) self = (ps, None, self', (Read <$> chunks') ++ tail) /\
    wf self' /\ pending self' ++ concat chunks' = rest.
Proof.
  revert chunks self ps. induction count as [|count IH]; intros chunks self ps Hw Hne Hs Hl; simpl in *.
  { injection Hs as <- <-. by exists self, chunks. }
  pose proof (read_packet_chunks chunks tail self Hw Hne) as Hr.
  destruct (first_packet _) as [[[p rest']|e|]|]; [|done|done|by injection Hs as <- <-].
  destruct Hr as (self' & chunks' & -> & Hw' & Hne' & <-).
  destruct (split_packets count _) as [[ps' last] rest''] eqn:Hs'. injection Hs as <- -> ->.
  injection Hl as Hl. destruct (IH chunks' self' ps' Hw' Hne' Hs' Hl) as (self'' & chunks'' & -> & ? & ?).
  by exists self'', chunks''.
Qed.

Lemma faithful_new header metadata body packet :
  valid header = true -> RuntimePacket.new header metadata body = Ok packet -> faithful packet.
Proof.
  intros Hv (-> & Hm & Hb & _)%RuntimePacket.new_Ok. split_and!; [|done..].
  apply RuntimePacket.set_lens_valid; unfold len in *; [done|lia..].
Qed.
End reader.

(** ** Contract *)

(** C11: However the stream is cut into chunks, any number of calls of
    [read_packet] hands out the packets that a parser of the whole stream finds, fails where
    it fails and with the same error, and waits where it lacks bytes.  No byte is lost, fewer bytes than one
    chunk stay buffered after they were handed out, and a stream that
    ends or fails inside a packet is an error. *)
Theorem stream_reader_exact (T : Target) limits count chunks :
  Forall (fun chunk => chunk <> []) chunks ->
  let '(ps, last, rest) := split_packets limits count (concat chunks) in
  (exists self chunks',
     read_packets limits count (Read <$> chunks) new = (ps, last, self, Read <$> chunks') /\
     wf limits self /\ pending self ++ concat chunks' = rest) /\
  (first_packet limits (concat chunks) = None ->
     exists self, pending self = concat chunks /\
       (forall tail, read_packet limits ((Read <$> chunks) ++ Read [] :: tail) new =
          (Some (Err eof_error), self, tail)) /\
       (forall e tail, read_packet limits ((Read <$> chunks) ++ ReadFailed e :: tail) new =
          (Some (Err (Io e)), self, tail))).
Proof.
  intros Hne. pose proof (read_packets_chunks limits count chunks new (new_wf limits) Hne) as Hr.
  change (pending new) with (@nil byte) in Hr. simpl in Hr.
  destruct (split_packets limits count (concat chunks)) as [[ps last] rest].
  split; [exact Hr|]. intros Hf.
  pose proof (read_packet_chunks limits chunks [] new (new_wf limits) Hne) as Hc.
  change (pending new) with (@nil byte) in Hc. simpl in Hc. rewrite Hf in Hc.
  destruct Hc as (self & Hw & Hp & Hread). pose proof (read_packet_step limits [] self Hw) as Hs.
  rewrite Hp, Hf in Hs. destruct Hs as (self' & _ & Hp' & _ & Hfail & Heof & _).
  exists self'. split_and!; [done| |]; intros; by rewrite Hread.
Qed.

Lemma stream_reader_exact_witness :
  exists chunks, Forall (fun chunk => chunk <> []) chunks /\
  (forall limits count,
     let '(ps, last, rest) := @split_packets target64 limits count (concat chunks) in
     exists self chunks',
       @read_packets target64 limits count (Read <$> chunks) new =
         (ps, last, self, Read <$> chunks') /\
       @wf target64 limits self /\ pending self ++ concat chunks' = rest).
Proof.
  exists [["N"%byte]; ["N"%byte; "R"%byte]]. assert (Forall (fun chunk => chunk <> [])
    [["N"%byte]; ["N"%byte; "R"%byte]]) as Hne by (repeat constructor; discriminate).
  split; [exact Hne|]. intros limits count.
  pose proof (stream_reader_exact target64 limits count _ Hne) as H.
  destruct (split_packets limits count _) as [[ps last] rest]. exact (proj1 H).
Defined.

(** C25: Packets that are written to a stream one after the other are handed
    out as they were written, in their order and one per call, however the stream is cut into
    chunks: each as soon as its last byte has arrived, whatever the stream does after it. *)
Theorem stream_delivers (T : Target) limits packets bss chunks rest tail :
  Forall faithful packets -> collect (write_packet limits) packets = Ok bss ->
  Forall (fun chunk => chunk <> []) chunks -> concat chunks = concat bss ++ rest ->
  exists self reads,
    read_packets limits (length packets) ((Read <$> chunks) ++ tail) new = (packets, None, self, reads).
Proof.
  intros Hf Hw Hne Hc. pose proof (split_packets_written limits packets bss rest Hf Hw) as Hs.
  rewrite <- Hc in Hs.
  destruct (read_packets_found limits (length packets) chunks tail new packets rest) as
    (self & chunks' & Hr & _); [apply new_wf|done|exact Hs|done|]. eauto.
Qed.

(** Two packets, sent in two chunks of which the first ends in the header of the second. *)
Lemma stream_delivers_witness :
  let limits := RuntimeFrameLimits.default in
  let p := {| RuntimePacket.header := CommonHeader.new MessageType.Ping 0 1;
              RuntimePacket.metadata := []; RuntimePacket.body := ["x"%byte] |} in
  match @collect RuntimeError _ _ (@write_packet target64 limits) [p; p] with
  | Ok bss =>
      let stream := concat bss in
      exists self reads,
        @read_packets target64 limits 2 (Read <$> [take 50 stream; drop 50 stream]) new =
        ([p; p], None, self, reads)
  | _ => False
  end.
Proof.
  intros limits p. destruct (collect (write_packet limits) [p; p]) as [bss| |] eqn:Hw;
    [|vm_compute in Hw; discriminate|vm_compute in Hw; discriminate].
  set (chunks := [take 50 (concat bss); drop 50 (concat bss)]).
  destruct (stream_delivers target64 limits [p; p] bss chunks [] []) as (self & reads & Hr).
  - repeat constructor.
  - exact Hw.
  - vm_compute in Hw. injection Hw as <-. repeat constructor; discriminate.
  - unfold chunks. simpl. rewrite !app_nil_r. apply take_drop.
  - rewrite app_nil_r in Hr. eauto.
Defined.

End StreamPacketReader.
