(* ===== verification/Multiplex.v ===== *)
(** The connection driver ([src/crates/nnrp-runtime/src/multiplex.rs]).

    One task owns the transport of a connection.  It takes commands from a channel and
    packets from the transport, and forwards each packet to the channel of its session or to
    the control channel.  [Driver.t] is the state of the task together with the channels; a
    turn of its loop is [Driver.turn], and the turns, the callers and the receivers
    interleave in the step relation [Driver.step].

    The specification is one mailbox for each session ([Mailboxes]); the refinement theorem
    says that the three tables of the driver and its channels implement it. *)

From stdpp Require Import pretty.
From S2P Require Import Prelude Bytes Errors Enums Wire Header Packet RuntimeError.

Local Open Scope Z_scope.

Definition MAX_PRE_REGISTRATION_PACKETS : Z := 4096.
Definition MAX_PRE_REGISTRATION_BYTES : Z := 8 * 1024 * 1024.

Abbreviation session_of := (fun p : RuntimePacket.t => CommonHeader.session_id (RuntimePacket.header p)).
Abbreviation type_of := (fun p : RuntimePacket.t => CommonHeader.message_type (RuntimePacket.header p)).

Definition is_open_ack (p : RuntimePacket.t) : bool :=
  bool_decide (type_of p = MessageType.SessionOpenAck).

Module PendingSessionPackets.

Record t := mk { packets : list RuntimePacket.t; bytes_held : Z }.

Definition default : t := {| packets := []; bytes_held := 0 |}.

Definition overflowed : string := "pre-registration packet byte count overflowed".
Definition exceeded : string := "pre-registration packet buffer limit exceeded".

Definition push `{Target} (packet : RuntimePacket.t) : Method t string unit := fun self =>
  let checked : Outcome string Z :=
    size ← ok_or (checked_add usize_max (len (RuntimePacket.metadata packet))
                    (len (RuntimePacket.body packet))) overflowed;
    packet_bytes ← ok_or (checked_add usize_max size (Z.of_nat COMMON_HEADER_LEN)) overflowed;
    total_bytes ← ok_or (checked_add usize_max (bytes_held self) packet_bytes) overflowed;
    _ ← reject_if ((MAX_PRE_REGISTRATION_PACKETS <=? len (packets self))
                   || (MAX_PRE_REGISTRATION_BYTES <? total_bytes)) exceeded;
    Ok total_bytes in
  match checked with
  | Ok total_bytes =>
      (Ok tt, {| packets := packets self ++ [packet]; bytes_held := total_bytes |})
  | Err e => (Err e, self)
  | Panic => (Panic, self)
  end.

End PendingSessionPackets.

Module DriverFailure.

Record t := mk { transport : RuntimeTransportKind.t; detail : string }.

Definition into_runtime_error (self : t) : RuntimeError :=
  TransportClosed (transport self) (detail self).

End DriverFailure.

Module DriverEvent.

Inductive t := Packet (packet : RuntimePacket.t) | Failed (failure : DriverFailure.t).

End DriverEvent.

(** An unbounded channel: the events in it, and whether each end is still held. *)
Module Channel.

Record t := mk { queue : list DriverEvent.t; receiver : bool; sender : bool }.

Definition new : t := mk [] true true.
Definition push (self : t) (e : DriverEvent.t) : t := mk (queue self ++ [e]) (receiver self) (sender self).
Definition drop_sender (self : t) : t := mk (queue self) (receiver self) false.
Definition drop_receiver (self : t) : t := mk [] false (sender self).

(** [unbounded_send]: fails when the receiver is gone. *)
Definition send (e : DriverEvent.t) (self : t) : bool * t :=
  if receiver self then (true, push self e) else (false, self).

(** [next]: waits ([None]) on an empty channel whose sender is held; [Some None] is the end. *)
Definition next (self : t) : option (option DriverEvent.t) * t :=
  match queue self with
  | e :: rest => (Some (Some e), mk rest (receiver self) (sender self))
  | [] => (if sender self then None else Some None, self)
  end.

End Channel.

(** A command names the oneshot channel of its completion and, for a registration, the event
    channel by an index into the stores of channels. *)
Module DriverCommand.

Inductive t :=
| Write (packet : RuntimePacket.t) (completion : nat)
| Register (session_id : Z) (events : nat) (completion : nat)
| Unregister (session_id : Z)
| Close (completion : nat).

End DriverCommand.

Module Driver.

Record t := mk {
  sessions : gmap Z nat;
  awaiting_registration : gset Z;
  pending_sessions : gmap Z PendingSessionPackets.t;
  terminal_failure : option DriverFailure.t;
  running : bool;
  commands : list DriverCommand.t;
  control : Channel.t;
  channels : gmap nat Channel.t;
  completions : gmap nat (Outcome DriverFailure.t unit);
  written : list RuntimePacket.t
}.

Definition start : t := {|
  sessions := ∅; awaiting_registration := ∅; pending_sessions := ∅; terminal_failure := None;
  running := true; commands := []; control := Channel.new; channels := ∅; completions := ∅;
  written := [] |}.

(** Stores. *)
Definition set_tables (self : t) s a p : t :=
  mk s a p (terminal_failure self) (running self) (commands self) (control self) (channels self)
    (completions self) (written self).
Definition set_failure (self : t) f : t :=
  mk (sessions self) (awaiting_registration self) (pending_sessions self) f (running self)
    (commands self) (control self) (channels self) (completions self) (written self).
Definition set_running (self : t) b : t :=
  mk (sessions self) (awaiting_registration self) (pending_sessions self) (terminal_failure self) b
    (commands self) (control self) (channels self) (completions self) (written self).
Definition set_commands (self : t) l : t :=
  mk (sessions self) (awaiting_registration self) (pending_sessions self) (terminal_failure self)
    (running self) l (control self) (channels self) (completions self) (written self).
Definition set_channels (self : t) c cs : t :=
  mk (sessions self) (awaiting_registration self) (pending_sessions self) (terminal_failure self)
    (running self) (commands self) c cs (completions self) (written self).
Definition complete (completion : nat) (r : Outcome DriverFailure.t unit) (self : t) : t :=
  mk (sessions self) (awaiting_registration self) (pending_sessions self) (terminal_failure self)
    (running self) (commands self) (control self) (channels self)
    (<[completion := r]> (completions self)) (written self).
Definition set_written (self : t) l : t :=
  mk (sessions self) (awaiting_registration self) (pending_sessions self) (terminal_failure self)
    (running self) (commands self) (control self) (channels self) (completions self) l.

Definition send_to (index : nat) (e : DriverEvent.t) (cs : gmap nat Channel.t)
    : bool * gmap nat Channel.t :=
  match cs !! index with
  | Some ch => let '(ok, ch) := Channel.send e ch in (ok, <[index := ch]> cs)
  | None => (false, cs)
  end.

(** A sender goes out of scope. *)
Definition release (index : nat) (cs : gmap nat Channel.t) : gmap nat Channel.t :=
  alter Channel.drop_sender index cs.

Definition remove_session (session_id : Z) (self : t) : t :=
  set_channels
    (set_tables self (delete session_id (sessions self))
       (awaiting_registration self ∖ {[session_id]}) (delete session_id (pending_sessions self)))
    (control self)
    (match sessions self !! session_id with
     | Some index => release index (channels self)
     | None => channels self
     end).

(** The loop over [sessions.values()]. *)
Definition broadcast_failure (error : DriverFailure.t) (self : t) : t :=
  set_channels self (Channel.send (DriverEvent.Failed error) (control self)).2
    (foldl (fun cs index => (send_to index (DriverEvent.Failed error) cs).2) (channels self)
       (map_to_list (sessions self)).*2).

(** [break]: the task ends and drops the transport, the tables and all senders. *)
Definition stop (self : t) : t :=
  set_running
    (set_tables
       (set_channels self (Channel.drop_sender (control self))
          (foldl (fun cs index => release index cs) (channels self) (map_to_list (sessions self)).*2))
       ∅ ∅ ∅)
    false.

Section driver.
Context `{Htarget : Target} (transport_kind : RuntimeTransportKind.t)
  (to_string : RuntimeError -> string).

Definition from_error (e : RuntimeError) : DriverFailure.t :=
  {| DriverFailure.transport := transport_kind; DriverFailure.detail := to_string e |}.

Definition failure (detail : string) : DriverFailure.t :=
  {| DriverFailure.transport := transport_kind; DriverFailure.detail := detail |}.

Definition await_registration (p : RuntimePacket.t) (self : t) : t :=
  if is_open_ack p && negb (session_of p =? 0)
  then set_tables self (sessions self) (awaiting_registration self ∪ {[session_of p]})
         (pending_sessions self)
  else self.

(** [io] is the result of the call of the transport that the branch makes, if any. *)
Definition on_command (command : DriverCommand.t) (io : option RuntimeError) (self : t) : t :=
  match command with
  | DriverCommand.Write packet completion =>
      match terminal_failure self with
      | Some error => complete completion (Err error) self
      | None =>
          let self := await_registration packet self in
          match io with
          | None => complete completion (Ok tt) (set_written self (written self ++ [packet]))
          | Some e =>
              stop (broadcast_failure (from_error e)
                      (complete completion (Err (from_error e)) self))
          end
      end
  | DriverCommand.Register session_id events completion =>
      match sessions self !! session_id with
      | Some _ =>
          complete completion
            (Err (failure ("session " +:+ pretty (Z.to_N session_id) +:+ " is already registered")))
            (set_channels self (control self) (release events (channels self)))
      | None =>
          let pending := match pending_sessions self !! session_id with
                         | Some pending => PendingSessionPackets.packets pending
                         | None => []
                         end in
          let cs := foldl (fun cs p => (send_to events (DriverEvent.Packet p) cs).2)
                      (channels self) pending in
          let cs := match terminal_failure self with
                    | Some error => (send_to events (DriverEvent.Failed error) cs).2
                    | None => cs
                    end in
          complete completion (Ok tt)
            (set_channels
               (set_tables self (<[session_id := events]> (sessions self))
                  (awaiting_registration self ∖ {[session_id]})
                  (delete session_id (pending_sessions self)))
               (control self) cs)
      end
  | DriverCommand.Unregister session_id => remove_session session_id self
  | DriverCommand.Close completion =>
      match terminal_failure self with
      | Some error => stop (complete completion (Err error) self)
      | None =>
          stop (complete completion
                  (match io with None => Ok tt | Some e => Err (from_error e) end) self)
      end
  end.

(** A packet for the control channel. *)
Definition to_control (packet : RuntimePacket.t) (self : t) : t :=
  let '(ok, control) := Channel.send (DriverEvent.Packet packet) (control self) in
  let self := set_channels self control (channels self) in
  if negb ok && bool_decide (sessions self = ∅) then stop self else self.

Definition on_packet (packet : RuntimePacket.t) (self : t) : t :=
  let self := await_registration packet self in
  let session_id := session_of packet in
  if session_id =? 0 then to_control packet self
  else
    match sessions self !! session_id with
    | Some index =>
        let '(ok, cs) := send_to index (DriverEvent.Packet packet) (channels self) in
        if ok then set_channels self (control self) cs else remove_session session_id self
    | None =>
        if bool_decide (session_id ∈ awaiting_registration self) && negb (is_open_ack packet)
        then
          let pending := match pending_sessions self !! session_id with
                         | Some pending => pending
                         | None => PendingSessionPackets.default
                         end in
          match PendingSessionPackets.push packet pending with
          | (Ok _, pending) =>
              set_tables self (sessions self) (awaiting_registration self)
                (<[session_id := pending]> (pending_sessions self))
          | (Err detail, _) =>
              stop (broadcast_failure (failure detail) self)
          | (Panic, _) => self
          end
        else if negb (is_open_ack packet)
        then
          let failure := failure ("received packet for unknown session "
                                    +:+ pretty (Z.to_N session_id)) in
          set_failure (broadcast_failure failure self) (Some failure)
        else to_control packet self
    end.

(** One turn of the loop.  The transport is polled while nothing has failed. *)
Inductive Next :=
| NextCommand (io : option RuntimeError)
| CommandsClosed
| Incoming (packet : RuntimePacket.t)
| IncomingFailed (e : RuntimeError).

Definition turn (next : Next) (self : t) : option t :=
  if negb (running self) then None
  else match next with
       | NextCommand io =>
           match commands self with
           | command :: rest => Some (on_command command io (set_commands self rest))
           | [] => None
           end
       | CommandsClosed =>
           match commands self with
           | [] => Some (stop self)
           | _ => None
           end
       | Incoming packet =>
           match terminal_failure self with
           | None => Some (on_packet packet self)
           | Some _ => None
           end
       | IncomingFailed e =>
           match terminal_failure self with
           | None => Some (set_failure (broadcast_failure (from_error e) self) (Some (from_error e)))
           | Some _ => None
           end
       end.

(** ** Callers and receivers *)

(** [commands.unbounded_send]: the driver holds the receiver while it runs. *)
Definition send_command (command : DriverCommand.t) (self : t) : bool * t :=
  if running self then (true, set_commands self (commands self ++ [command])) else (false, self).

Definition closed_error (detail : string) : RuntimeError := TransportClosed transport_kind detail.

(** [result.await]: a completion that is not there yet is waited for, and is dropped when the
    driver has ended. *)
Definition await_completion (completion : nat) (dropped : string) (self : t) : option (RT unit) :=
  match completions self !! completion with
  | Some r => Some (map_err DriverFailure.into_runtime_error r)
  | None => if running self then None else Some (Err (closed_error dropped))
  end.

Definition command_closed : RuntimeError := closed_error "connection driver command channel closed".

(** The calls of [MultiplexedConnection], up to their [await]: the new channels have the
    indices [completion] and [events]. *)
Definition connection_write_packet (packet : RuntimePacket.t) (completion : nat)
    : Method t RuntimeError unit := fun self =>
  match send_command (DriverCommand.Write packet completion) self with
  | (true, self) => (Ok tt, self)
  | (false, self) => (Err command_closed, self)
  end.

Definition register_session (session_id : Z) (events completion : nat)
    : Method t RuntimeError unit := fun self =>
  if session_id =? 0
  then (Err (UnexpectedMessage "multiplexed session id must be non-zero"), self)
  else
    match send_command (DriverCommand.Register session_id events completion)
            (set_channels self (control self) (<[events := Channel.new]> (channels self))) with
    | (true, self) => (Ok tt, self)
    | (false, self) => (Err command_closed, self)
    end.

Definition connection_close (completion : nat) : Method t RuntimeError unit := fun self =>
  match send_command (DriverCommand.Close completion) self with
  | (true, self) => (Ok tt, self)
  | (false, self) => (Err command_closed, self)
  end.

(** What an event gives to a reader; [None] waits. *)
Definition event_packet (closed : string) (e : option (option DriverEvent.t))
    : option (RT RuntimePacket.t) :=
  match e with
  | None => None
  | Some (Some (DriverEvent.Packet packet)) => Some (Ok packet)
  | Some (Some (DriverEvent.Failed error)) => Some (Err (DriverFailure.into_runtime_error error))
  | Some None => Some (Err (closed_error closed))
  end.

Definition read_control_packet (self : t) : option (RT RuntimePacket.t) * t :=
  let '(e, ch) := Channel.next (control self) in
  (event_packet "connection driver control channel closed" e, set_channels self ch (channels self)).

End driver.
End Driver.

Module MultiplexedSessionTransport.

Record t := mk {
  session_id : Z;
  transport_kind : RuntimeTransportKind.t;
  events : nat;
  closed : bool
}.

Definition closed_error (self : t) (detail : string) : RuntimeError :=
  TransportClosed (transport_kind self) detail.

(** [unregister], which [close] and [drop] call. *)
Definition unregister (self : t) (driver : Driver.t) : t * Driver.t :=
  if closed self then (self, driver)
  else (mk (session_id self) (transport_kind self) (events self) true,
        (Driver.send_command (DriverCommand.Unregister (session_id self)) driver).2).

(** The result, and the store after it. *)
Definition read_packet (self : t) (driver : Driver.t) : option (RT RuntimePacket.t) * Driver.t :=
  match Driver.channels driver !! events self with
  | Some ch =>
      let '(e, ch) := Channel.next ch in
      (Driver.event_packet (transport_kind self) "session event channel closed" e,
       Driver.set_channels driver (Driver.control driver)
         (<[events self := ch]> (Driver.channels driver)))
  | None => (None, driver)
  end.

Definition try_read_packet (self : t) (driver : Driver.t)
    : RT (option RuntimePacket.t) * Driver.t :=
  match read_packet self driver with
  | (None, driver) => (Ok None, driver)
  | (Some (Ok packet), driver) => (Ok (Some packet), driver)
  | (Some (Err e), driver) => (Err e, driver)
  | (Some Panic, driver) => (Panic, driver)
  end.

Definition write_packet (self : t) (packet : RuntimePacket.t) (completion : nat)
    (driver : Driver.t) : RT unit * Driver.t :=
  if closed self then (Err (closed_error self "session transport is closed"), driver)
  else
    match Driver.send_command (DriverCommand.Write packet completion) driver with
    | (true, driver) => (Ok tt, driver)
    | (false, driver) =>
        (Err (closed_error self "connection driver command channel closed"), driver)
    end.

Definition close (self : t) (driver : Driver.t) : RT unit * (t * Driver.t) :=
  (Ok tt, unregister self driver).

End MultiplexedSessionTransport.

(** ** Interleaving *)

Module Multiplex.
Section multiplex.
Context `{Htarget : Target} (transport_kind : RuntimeTransportKind.t)
  (to_string : RuntimeError -> string).

Abbreviation D := Driver.t.

Inductive label :=
| Turn (next : Driver.Next)
| Call (command : DriverCommand.t)
| Receive (events : nat) (e : DriverEvent.t)
| ReceiveControl (e : DriverEvent.t)
| Forget (events : nat).

(** The driver turns; a caller sends a command, a registration with a new channel; a receiver
    takes an event or is dropped. *)
Inductive step : D -> label -> D -> Prop :=
| step_turn d next d' :
    Driver.turn transport_kind to_string next d = Some d' -> step d (Turn next) d'
| step_register d session_id events completion d' :
    Driver.channels d !! events = None ->
    Driver.register_session transport_kind session_id events completion d = (Ok tt, d') ->
    step d (Call (DriverCommand.Register session_id events completion)) d'
| step_call d command d' :
    (forall s i c, command <> DriverCommand.Register s i c) ->
    Driver.send_command command d = (true, d') -> step d (Call command) d'
| step_receive d events ch e ch' :
    Driver.channels d !! events = Some ch -> Channel.next ch = (Some (Some e), ch') ->
    step d (Receive events e)
      (Driver.set_channels d (Driver.control d) (<[events := ch']> (Driver.channels d)))
| step_receive_control d e ch :
    Channel.next (Driver.control d) = (Some (Some e), ch) ->
    step d (ReceiveControl e) (Driver.set_channels d ch (Driver.channels d))
| step_forget d events ch :
    Driver.channels d !! events = Some ch ->
    step d (Forget events)
      (Driver.set_channels d (Driver.control d)
         (<[events := Channel.drop_receiver ch]> (Driver.channels d))).

Inductive steps : D -> list label -> D -> Prop :=
| steps_nil d : steps d [] d
| steps_snoc d ls d' l d'' : steps d ls d' -> step d' l d'' -> steps d (ls ++ [l]) d''.

Definition reachable (d : D) : Prop := exists ls, steps Driver.start ls d.

(** ** The invariant *)

Definition registers (cs : list DriverCommand.t) : list nat :=
  omap (fun c => match c with DriverCommand.Register _ i _ => Some i | _ => None end) cs.

Definition packet_bytes (p : RuntimePacket.t) : Z :=
  len (RuntimePacket.metadata p) + len (RuntimePacket.body p) + Z.of_nat COMMON_HEADER_LEN.

Definition pending_ok (s : Z) (pending : PendingSessionPackets.t) : Prop :=
  Forall (fun p => session_of p = s /\ is_open_ack p = false) (PendingSessionPackets.packets pending) /\
  PendingSessionPackets.bytes_held pending =
    foldr Z.add 0 (map packet_bytes (PendingSessionPackets.packets pending)) /\
  len (PendingSessionPackets.packets pending) <= MAX_PRE_REGISTRATION_PACKETS /\
  PendingSessionPackets.bytes_held pending <= MAX_PRE_REGISTRATION_BYTES.

Definition for_session (s : Z) (e : DriverEvent.t) : Prop :=
  match e with DriverEvent.Packet p => session_of p = s | DriverEvent.Failed _ => True end.

Record wf (d : D) : Prop := {
  wf_inj s s' i : Driver.sessions d !! s = Some i -> Driver.sessions d !! s' = Some i -> s = s';
  wf_disjoint s i : Driver.sessions d !! s = Some i -> i ∉ registers (Driver.commands d);
  wf_registers : NoDup (registers (Driver.commands d));
  wf_registered s i : Driver.sessions d !! s = Some i -> is_Some (Driver.channels d !! i);
  wf_fresh i : i ∈ registers (Driver.commands d) ->
    exists ch, Driver.channels d !! i = Some ch /\ Channel.queue ch = [];
  wf_queue s i ch : Driver.sessions d !! s = Some i -> Driver.channels d !! i = Some ch ->
    Forall (for_session s) (Channel.queue ch);
  wf_pending s p : Driver.pending_sessions d !! s = Some p ->
    s ∈ Driver.awaiting_registration d /\ Driver.sessions d !! s = None /\ pending_ok s p;
  wf_stopped : Driver.running d = false ->
    Driver.sessions d = ∅ /\ Driver.awaiting_registration d = ∅ /\ Driver.pending_sessions d = ∅
}.

(** ** Channels under the loops *)

Lemma send_to_alter i e cs :
  (Driver.send_to i e cs).2 = alter (fun ch => (Channel.send e ch).2) i cs.
Proof.
  unfold Driver.send_to. destruct (cs !! i) as [ch|] eqn:Hi.
  - destruct (Channel.send e ch) as [ok ch'] eqn:Hs. simpl. apply map_eq. intros j.
    destruct (decide (i = j)) as [<-|Hn].
    + by rewrite lookup_insert_eq, lookup_alter_eq, Hi; simpl; rewrite Hs.
    + by rewrite lookup_insert_ne, lookup_alter_ne.
  - simpl. apply map_eq. intros j. destruct (decide (i = j)) as [<-|Hn].
    + by rewrite lookup_alter_eq, Hi.
    + by rewrite lookup_alter_ne.
Qed.

Lemma foldl_alter {A} (f : Channel.t -> Channel.t) (g : A -> nat) (l : list A)
    (cs : gmap nat Channel.t) j :
  NoDup (g <$> l) ->
  foldl (fun cs a => alter f (g a) cs) cs l !! j =
  if decide (j ∈ g <$> l) then f <$> cs !! j else cs !! j.
Proof.
  revert cs; induction l as [|a l IH]; intros cs Hnd; simpl; [done|].
  apply NoDup_cons in Hnd as [Ha Hnd]. rewrite IH by done.
  destruct (decide (g a = j)) as [<-|Hn].
  - rewrite decide_False, lookup_alter_eq by done. by rewrite decide_True by set_solver.
  - rewrite lookup_alter_ne by done. repeat case_decide; set_solver.
Qed.

Lemma foldl_send e (l : list nat) cs :
  foldl (fun cs i => (Driver.send_to i e cs).2) cs l =
  foldl (fun cs i => alter (fun ch => (Channel.send e ch).2) i cs) cs l.
Proof. revert cs; induction l as [|i l IH]; intros cs; simpl; [done|]. by rewrite send_to_alter, IH. Qed.

Lemma session_indices_NoDup d : wf d -> NoDup (map_to_list (Driver.sessions d)).*2.
Proof.
  intros Hwf. apply NoDup_fmap_2_strong; [|apply NoDup_map_to_list].
  intros [s i] [s' i'] Hs%elem_of_map_to_list Hs'%elem_of_map_to_list Heq. simpl in Heq. subst i'.
  by rewrite (wf_inj _ Hwf s s' i Hs Hs').
Qed.

Lemma elem_of_indices d i :
  i ∈ (map_to_list (Driver.sessions d)).*2 <-> exists s, Driver.sessions d !! s = Some i.
Proof.
  rewrite list_elem_of_fmap. split.
  - intros ([s j] & -> & Hs%elem_of_map_to_list). eauto.
  - intros [s Hs%elem_of_map_to_list]. by exists (s, i).
Qed.

Lemma broadcast_channels error d i :
  wf d ->
  Driver.channels (Driver.broadcast_failure error d) !! i =
  if decide (i ∈ (map_to_list (Driver.sessions d)).*2)
  then (fun ch => (Channel.send (DriverEvent.Failed error) ch).2) <$> Driver.channels d !! i
  else Driver.channels d !! i.
Proof.
  intros Hwf. simpl.
  pose proof (foldl_alter (fun ch => (Channel.send (DriverEvent.Failed error) ch).2) (fun x => x)
    (map_to_list (Driver.sessions d)).*2 (Driver.channels d) i) as Hf.
  rewrite list_fmap_id in Hf. rewrite <- Hf by (by apply session_indices_NoDup).
  by rewrite foldl_send.
Qed.

Lemma stop_channels d i :
  wf d ->
  Driver.channels (Driver.stop d) !! i =
  if decide (i ∈ (map_to_list (Driver.sessions d)).*2)
  then Channel.drop_sender <$> Driver.channels d !! i else Driver.channels d !! i.
Proof.
  intros Hwf. simpl.
  pose proof (foldl_alter Channel.drop_sender (fun x => x)
    (map_to_list (Driver.sessions d)).*2 (Driver.channels d) i) as Hf.
  rewrite list_fmap_id in Hf. rewrite <- Hf by (by apply session_indices_NoDup). done.
Qed.

(** ** The specification: a mailbox for each session *)

(** A session that was announced and has no reader yet, one with a reader, and one whose
    reader is gone. *)
Inductive Mailbox :=
| Waiting (packets : list RuntimePacket.t)
| Open (events : list DriverEvent.t)
| Gone.

Abbreviation Boxes := (Z -> option Mailbox).

Definition channel_box (ch : option Channel.t) : Mailbox :=
  match ch with
  | Some ch => if Channel.receiver ch then Open (Channel.queue ch) else Gone
  | None => Gone
  end.

Definition held (d : D) (s : Z) : list RuntimePacket.t :=
  match Driver.pending_sessions d !! s with
  | Some p => PendingSessionPackets.packets p
  | None => []
  end.

(** The mailboxes that the tables and the channels stand for. *)
Definition box (d : D) : Boxes := fun s =>
  match Driver.sessions d !! s with
  | Some i => Some (channel_box (Driver.channels d !! i))
  | None => if decide (s ∈ Driver.awaiting_registration d) then Some (Waiting (held d s)) else None
  end.

Definition put (s : Z) (m : option Mailbox) (b : Boxes) : Boxes := fun s' =>
  if decide (s' = s) then m else b s'.

(** A SESSION_OPEN_ACK announces its session. *)
Definition announce (p : RuntimePacket.t) (b : Boxes) : Boxes :=
  if is_open_ack p && negb (session_of p =? 0)
  then match b (session_of p) with
       | None => put (session_of p) (Some (Waiting [])) b
       | Some _ => b
       end
  else b.

(** Every reader learns of a failure. *)
Definition fail (f : DriverFailure.t) (b : Boxes) : Boxes := fun s =>
  match b s with
  | Some (Open es) => Some (Open (es ++ [DriverEvent.Failed f]))
  | m => m
  end.

(** A packet goes to the mailbox of its session; an acknowledgement that nobody reads goes to the
    control channel; a packet of an unknown session fails the connection. *)
Definition deliver (p : RuntimePacket.t) (b : Boxes) : Boxes :=
  let b := announce p b in
  let s := session_of p in
  if s =? 0 then b
  else match b s with
       | Some (Open es) => put s (Some (Open (es ++ [DriverEvent.Packet p]))) b
       | Some Gone => put s None b
       | Some (Waiting ps) => if is_open_ack p then b else put s (Some (Waiting (ps ++ [p]))) b
       | None => fail (Driver.failure transport_kind
                         ("received packet for unknown session " +:+ pretty (Z.to_N s))) b
       end.

(** A reader gets what waited for it, and the failure if there was one. *)
Definition opened (reader : bool) (terminal : option DriverFailure.t) (ps : list RuntimePacket.t)
    : Mailbox :=
  if reader
  then Open ((DriverEvent.Packet <$> ps) ++
             match terminal with Some f => [DriverEvent.Failed f] | None => [] end)
  else Gone.

Definition attach (s : Z) (reader : bool) (terminal : option DriverFailure.t) (b : Boxes) : Boxes :=
  match b s with
  | Some (Waiting ps) => put s (Some (opened reader terminal ps)) b
  | None => put s (Some (opened reader terminal [])) b
  | _ => b
  end.

(** The mailboxes after a step of a driver that runs on. *)
Definition spec (d : D) (l : label) : Boxes :=
  let b := box d in
  match l with
  | Turn (Driver.Incoming p) => deliver p b
  | Turn (Driver.IncomingFailed e) => fail (Driver.from_error transport_kind to_string e) b
  | Turn (Driver.NextCommand io) =>
      match Driver.commands d with
      | DriverCommand.Write p _ :: _ =>
          match Driver.terminal_failure d with None => announce p b | Some _ => b end
      | DriverCommand.Register s i _ :: _ =>
          attach s (match Driver.channels d !! i with
                    | Some ch => Channel.receiver ch | None => false end)
            (Driver.terminal_failure d) b
      | DriverCommand.Unregister s :: _ => put s None b
      | _ => b
      end
  | Receive i _ => fun s =>
      if decide (Driver.sessions d !! s = Some i)
      then match b s with Some (Open (_ :: es)) => Some (Open es) | m => m end
      else b s
  | Forget i => fun s => if decide (Driver.sessions d !! s = Some i) then Some Gone else b s
  | _ => b
  end.

(** ** The tables implement the mailboxes *)

Lemma box_ext d d' :
  Driver.sessions d' = Driver.sessions d ->
  Driver.awaiting_registration d' = Driver.awaiting_registration d ->
  Driver.pending_sessions d' = Driver.pending_sessions d ->
  (forall s i, Driver.sessions d !! s = Some i -> Driver.channels d' !! i = Driver.channels d !! i) ->
  forall s, box d' s = box d s.
Proof.
  intros Hs Ha Hp Hc s. unfold box, held. rewrite Hs, Ha, Hp.
  destruct (Driver.sessions d !! s) as [i|] eqn:Hi; [|done]. by rewrite (Hc s i).
Qed.

Lemma held_unknown d s :
  wf d -> s ∉ Driver.awaiting_registration d -> held d s = [].
Proof.
  intros Hwf Hs. unfold held. destruct (Driver.pending_sessions d !! s) as [p|] eqn:Hp; [|done].
  by apply (wf_pending _ Hwf) in Hp as [? _].
Qed.

Lemma put_eq s m b : put s m b s = m.
Proof. unfold put. by rewrite decide_True. Qed.

Lemma put_ne s s' m b : s' <> s -> put s m b s' = b s'.
Proof. intros. unfold put. by rewrite decide_False. Qed.

Lemma decide_union {X} (s s' : Z) (A : gset Z) (a b : X) :
  s <> s' -> (if decide (s ∈ A ∪ {[s']}) then a else b) = if decide (s ∈ A) then a else b.
Proof. intros. repeat case_decide; set_solver. Qed.

Lemma decide_difference {X} (s s' : Z) (A : gset Z) (a b : X) :
  s <> s' -> (if decide (s ∈ A ∖ {[s']}) then a else b) = if decide (s ∈ A) then a else b.
Proof. intros. repeat case_decide; set_solver. Qed.

Lemma await_box p d s :
  wf d -> box (Driver.await_registration p d) s = announce p (box d) s.
Proof.
  intros Hwf. unfold Driver.await_registration, announce.
  destruct (is_open_ack p && negb (session_of p =? 0)); [|done].
  destruct (decide (s = session_of p)) as [->|Hn].
  - unfold box, held. simpl.
    destruct (Driver.sessions d !! session_of p) as [i|] eqn:Hi; [by rewrite Hi|].
    rewrite decide_True by set_solver. case_decide as Ha.
    + rewrite Hi. by rewrite decide_True.
    + rewrite put_eq. fold (held d (session_of p)). by rewrite held_unknown.
  - assert (box d s = match box d (session_of p) with
        | Some _ => box d | None => put (session_of p) (Some (Waiting [])) (box d) end s) as <-
      by (case_match; [done|by rewrite put_ne]).
    unfold box, held. simpl. by rewrite decide_union.
Qed.

(** An event for one session. *)
Lemma send_box d s0 i e ch c s :
  wf d -> Driver.sessions d !! s0 = Some i -> Driver.channels d !! i = Some ch ->
  Channel.receiver ch = true ->
  box (Driver.set_channels d c (<[i := Channel.push ch e]> (Driver.channels d))) s =
  put s0 (Some (Open (Channel.queue ch ++ [e]))) (box d) s.
Proof.
  intros Hwf Hi Hch Hr. destruct (decide (s = s0)) as [->|Hn].
  - rewrite put_eq. unfold box. simpl. rewrite Hi, lookup_insert_eq. simpl. by rewrite Hr.
  - rewrite put_ne by done. unfold box, held. simpl. destruct (Driver.sessions d !! s) as [j|] eqn:Hj; [|done].
    rewrite lookup_insert_ne; [done|]. intros ->. by destruct Hn, (wf_inj _ Hwf s s0 j).
Qed.

Lemma send_failed_box f ch :
  channel_box ((fun ch => (Channel.send (DriverEvent.Failed f) ch).2) <$> ch) =
  match channel_box ch with
  | Open es => Open (es ++ [DriverEvent.Failed f])
  | m => m
  end.
Proof. destruct ch as [ch|]; [|done]. simpl. unfold Channel.send. destruct (Channel.receiver ch) eqn:Hr; simpl; by rewrite Hr. Qed.

Lemma broadcast_box f d s : wf d -> box (Driver.broadcast_failure f d) s = fail f (box d) s.
Proof.
  intros Hwf. unfold fail. unfold box at 1.
  change (Driver.sessions (Driver.broadcast_failure f d)) with (Driver.sessions d).
  unfold box. destruct (Driver.sessions d !! s) as [i|] eqn:Hi.
  - rewrite broadcast_channels, decide_True by (done || (apply elem_of_indices; eauto)).
    rewrite send_failed_box. by destruct (channel_box (Driver.channels d !! i)).
  - unfold held. simpl. by case_decide.
Qed.

Lemma stop_box d s : box (Driver.stop d) s = None.
Proof. unfold box. simpl. rewrite lookup_empty. by rewrite decide_False by set_solver. Qed.

Lemma release_box ch : channel_box (Channel.drop_sender <$> ch) = channel_box ch.
Proof. by destruct ch. Qed.

Lemma remove_box d s0 s : wf d -> box (Driver.remove_session s0 d) s = put s0 None (box d) s.
Proof.
  intros Hwf. destruct (decide (s = s0)) as [->|Hn].
  - rewrite put_eq. unfold box. simpl. rewrite lookup_delete_eq. by rewrite decide_False by set_solver.
  - rewrite put_ne by done. unfold box, held. simpl.
    rewrite !lookup_delete_ne, decide_difference by done.
    destruct (Driver.sessions d !! s) as [j|] eqn:Hj; [|done]. do 2 f_equal.
    destruct (Driver.sessions d !! s0) as [i|] eqn:Hi; [|done]. unfold Driver.release.
    rewrite lookup_alter_ne; [done|]. intros ->. by destruct Hn, (wf_inj _ Hwf s s0 j).
Qed.

(** What a loop of sends leaves in a channel. *)
Lemma foldl_sends i ps cs ch :
  cs !! i = Some ch ->
  foldl (fun cs p => (Driver.send_to i (DriverEvent.Packet p) cs).2) cs ps =
  <[i := if Channel.receiver ch
         then Channel.mk (Channel.queue ch ++ (DriverEvent.Packet <$> ps)) true (Channel.sender ch)
         else ch]> cs.
Proof.
  revert cs ch. induction ps as [|p ps IH]; intros cs ch Hch; simpl.
  - rewrite app_nil_r. rewrite insert_id; [done|]. destruct ch as [q [] sn]; done.
  - unfold Driver.send_to at 2. rewrite Hch. unfold Channel.send.
    destruct (Channel.receiver ch) eqn:Hr; simpl.
    + rewrite (IH _ (Channel.push ch (DriverEvent.Packet p))) by apply lookup_insert_eq.
      simpl. rewrite Hr, insert_insert_eq, <- app_assoc. done.
    + rewrite (IH _ ch) by apply lookup_insert_eq. by rewrite Hr, insert_insert_eq.
Qed.

(** The channel of a new reader after the registration. *)
Definition filled (ch : Channel.t) (ps : list RuntimePacket.t) (terminal : option DriverFailure.t)
    : Channel.t :=
  if Channel.receiver ch
  then Channel.mk (Channel.queue ch ++ (DriverEvent.Packet <$> ps) ++
                   match terminal with Some f => [DriverEvent.Failed f] | None => [] end)
         true (Channel.sender ch)
  else ch.

Lemma register_channels i ps cs ch terminal :
  cs !! i = Some ch ->
  (let cs := foldl (fun cs p => (Driver.send_to i (DriverEvent.Packet p) cs).2) cs ps in
   match terminal with
   | Some error => (Driver.send_to i (DriverEvent.Failed error) cs).2
   | None => cs
   end) = <[i := filled ch ps terminal]> cs.
Proof.
  intros Hch. cbv zeta. rewrite (foldl_sends i ps cs ch Hch). unfold filled.
  destruct terminal as [f|].
  - unfold Driver.send_to. rewrite lookup_insert_eq. unfold Channel.send.
    destruct (Channel.receiver ch) eqn:Hr; simpl; [|rewrite Hr; simpl];
      rewrite insert_insert_eq; [|done]. unfold Channel.push. simpl. by rewrite <- app_assoc.
  - destruct (Channel.receiver ch); [|done]. by rewrite app_nil_r.
Qed.

Lemma register_box d s0 i completion rest io s :
  wf d -> Driver.commands d = DriverCommand.Register s0 i completion :: rest ->
  box (Driver.on_command transport_kind to_string (DriverCommand.Register s0 i completion) io
         (Driver.set_commands d rest)) s =
  spec d (Turn (Driver.NextCommand io)) s.
Proof.
  intros Hwf Hcmd. simpl. rewrite Hcmd. destruct (wf_fresh _ Hwf i) as (ch & Hch & Hq).
  { rewrite Hcmd. by left. }
  unfold attach. destruct (Driver.sessions d !! s0) as [j|] eqn:Hj.
  - assert (box d s0 = Some (channel_box (Driver.channels d !! j))) as -> by (unfold box; by rewrite Hj).
    etransitivity; [apply (box_ext d); try done|
      unfold channel_box; destruct (Driver.channels d !! j) as [[? [] ?]|]; done].
    intros s' i' Hs'. simpl. unfold Driver.release. rewrite lookup_alter_ne; [done|]. intros <-.
    apply (wf_disjoint _ Hwf s' i Hs'). rewrite Hcmd. by left.
  - rewrite Hch. simpl. fold (held d s0).
    rewrite (register_channels i (held d s0) (Driver.channels d) ch) by done.
    set (o := opened (Channel.receiver ch) (Driver.terminal_failure d)).
    assert (match box d s0 with
            | Some (Waiting ps) => put s0 (Some (o ps)) (box d)
            | None => put s0 (Some (o [])) (box d) | _ => box d end s =
            put s0 (Some (o (held d s0))) (box d) s) as ->.
    { unfold box at 1. rewrite Hj. case_decide as Ha; [done|]. by rewrite held_unknown. }
    destruct (decide (s = s0)) as [->|Hn].
    + rewrite put_eq. unfold box. simpl. rewrite !lookup_insert_eq. unfold filled, o, opened.
      destruct (Channel.receiver ch) eqn:Hr; simpl; [by rewrite Hq|by rewrite Hr].
    + rewrite put_ne by done. unfold box, held. simpl.
      rewrite lookup_insert_ne, lookup_delete_ne, decide_difference by done.
      destruct (Driver.sessions d !! s) as [j|] eqn:Hj'; [|done]. rewrite lookup_insert_ne; [done|].
      intros <-. apply (wf_disjoint _ Hwf s i Hj'). rewrite Hcmd. by left.
Qed.

Lemma to_control_box p d s :
  Driver.running (Driver.to_control p d) = true -> box (Driver.to_control p d) s = box d s.
Proof.
  unfold Driver.to_control. destruct (Channel.send _ _) as [ok ch]. case_match; [done|].
  intros _. by apply box_ext.
Qed.

Lemma push_Ok p pending pending' :
  PendingSessionPackets.push p pending = (Ok tt, pending') ->
  PendingSessionPackets.packets pending' = PendingSessionPackets.packets pending ++ [p] /\
  PendingSessionPackets.bytes_held pending' = PendingSessionPackets.bytes_held pending + packet_bytes p /\
  len (PendingSessionPackets.packets pending) < MAX_PRE_REGISTRATION_PACKETS /\
  PendingSessionPackets.bytes_held pending' <= MAX_PRE_REGISTRATION_BYTES.
Proof.
  unfold PendingSessionPackets.push. intros Hp.
  case_match eqn:Hc; [|done..]. injection Hp as <-. simpl.
  apply bind_Ok in Hc as (a1 & [-> _]%ok_or_Ok%checked_add_Some & Hc).
  apply bind_Ok in Hc as (a2 & [-> _]%ok_or_Ok%checked_add_Some & Hc).
  apply bind_Ok in Hc as (a3 & [-> _]%ok_or_Ok%checked_add_Some & Hc).
  apply then_unit_Ok in Hc as [Hr [= <-]]. apply reject_if_Ok, orb_false_iff in Hr as [Hn Hb].
  unfold packet_bytes. split_and!; [done|lia..].
Qed.

Lemma push_no_panic p pending : (PendingSessionPackets.push p pending).1 <> Panic.
Proof.
  unfold PendingSessionPackets.push, checked_add, reject_if. repeat (case_match; simpl in *; try done).
Qed.
(** ** Every step keeps the invariant *)

Lemma start_wf : wf Driver.start.
Proof.
  constructor; simpl; intros; rewrite ?lookup_empty in *; first [done | constructor | set_solver].
Qed.

Lemma complete_wf c r d : wf d -> wf (Driver.complete c r d).
Proof. intros []. by constructor. Qed.

Lemma written_wf l d : wf d -> wf (Driver.set_written d l).
Proof. intros []. by constructor. Qed.

Lemma failure_wf f d : wf d -> wf (Driver.set_failure d f).
Proof. intros []. by constructor. Qed.

(** A change of the channels that keeps what the readers may see. *)
Lemma channels_wf d c cs :
  wf d ->
  (forall s i ch, Driver.sessions d !! s = Some i -> Driver.channels d !! i = Some ch ->
     exists ch', cs !! i = Some ch' /\
       (Forall (for_session s) (Channel.queue ch) -> Forall (for_session s) (Channel.queue ch'))) ->
  (forall i ch, i ∈ registers (Driver.commands d) -> Driver.channels d !! i = Some ch ->
     Channel.queue ch = [] -> exists ch', cs !! i = Some ch' /\ Channel.queue ch' = []) ->
  wf (Driver.set_channels d c cs).
Proof.
  intros Hwf Hs Hr. constructor; simpl; try apply Hwf.
  - intros s i Hi. destruct (wf_registered _ Hwf s i Hi) as [ch Hch].
    destruct (Hs s i ch Hi Hch) as (ch' & -> & _). by eexists.
  - intros i Hi. destruct (wf_fresh _ Hwf i Hi) as (ch & Hch & Hq). eauto.
  - intros s i ch' Hi Hch'. destruct (wf_registered _ Hwf s i Hi) as [ch Hch].
    destruct (Hs s i ch Hi Hch) as (ch'' & Hch'' & Hf). simplify_eq. by eapply Hf, wf_queue.
Qed.

Lemma await_wf p d : wf d -> Driver.running d = true -> wf (Driver.await_registration p d).
Proof.
  intros Hwf Hrun. unfold Driver.await_registration. case_match; [|done].
  constructor; simpl; try apply Hwf.
  - intros s q Hq. apply (wf_pending _ Hwf) in Hq as (? & ? & ?). split_and!; [set_solver|done|done].
  - congruence.
Qed.

Lemma send_queue f ch s :
  Forall (for_session s) (Channel.queue ch) ->
  Forall (for_session s) (Channel.queue (Channel.send (DriverEvent.Failed f) ch).2).
Proof.
  unfold Channel.send. destruct (Channel.receiver ch); [|done]. simpl. intros. apply Forall_app. by repeat constructor.
Qed.

Lemma broadcast_wf f d : wf d -> wf (Driver.broadcast_failure f d).
Proof.
  intros Hwf. apply channels_wf; [done| |].
  - intros s i ch Hi Hch. pose proof (broadcast_channels f d i Hwf) as Hb. simpl in Hb.
    rewrite Hch, decide_True in Hb by (apply elem_of_indices; eauto). rewrite Hb. simpl.
    eexists. split; [done|]. apply send_queue.
  - intros i ch Hi Hch Hq. pose proof (broadcast_channels f d i Hwf) as Hb. simpl in Hb.
    rewrite Hch, decide_False in Hb; [eauto|]. intros [s Hs]%elem_of_indices.
    by apply (wf_disjoint _ Hwf s i).
Qed.

Lemma stop_wf d : wf d -> wf (Driver.stop d).
Proof.
  intros Hwf. constructor; try (by intros; simpl in *; rewrite ?lookup_empty in * ); [apply Hwf|].
  intros i Hi. destruct (wf_fresh _ Hwf i Hi) as (ch & Hch & Hq). rewrite stop_channels, Hch by done.
  rewrite decide_False; [eauto|]. intros [s Hs]%elem_of_indices. by apply (wf_disjoint _ Hwf s i).
Qed.

Lemma remove_wf s0 d : wf d -> wf (Driver.remove_session s0 d).
Proof.
  intros Hwf.
  assert (forall i, exists ch', match Driver.sessions d !! s0 with
      | Some index => Driver.release index (Driver.channels d) | None => Driver.channels d end !! i = ch' /\
      match Driver.channels d !! i with
      | Some ch => exists c, ch' = Some c /\ Channel.queue c = Channel.queue ch
      | None => ch' = None end) as Hcs.
  { intros i. eexists. split; [done|]. unfold Driver.release.
    destruct (Driver.sessions d !! s0) as [j|]; [|by destruct (Driver.channels d !! i); eauto].
    destruct (decide (j = i)) as [->|]; [rewrite lookup_alter_eq|rewrite lookup_alter_ne by done];
      destruct (Driver.channels d !! i); simpl; eauto. }
  constructor; simpl; try (intros *; rewrite !lookup_delete_Some); try apply Hwf.
  - intros [_ H1] [_ H2]. by eapply wf_inj.
  - intros [_ H1]. by eapply wf_disjoint.
  - intros [_ H1]. destruct (wf_registered _ Hwf s i H1) as [ch Hch].
    destruct (Hcs i) as (ch' & -> & Hc). rewrite Hch in Hc. destruct Hc as (c & -> & _). by eexists.
  - intros i Hi. destruct (wf_fresh _ Hwf i Hi) as (ch & Hch & Hq).
    destruct (Hcs i) as (ch' & -> & Hc). rewrite Hch in Hc. destruct Hc as (c & -> & Hqc).
    exists c. by rewrite Hqc.
  - intros [_ H1] Hch'. destruct (wf_registered _ Hwf s i H1) as [c Hc].
    destruct (Hcs i) as (ch'' & Heq & Hcc). rewrite Hc in Hcc. destruct Hcc as (c' & -> & Hq).
    rewrite Heq in Hch'. injection Hch' as <-. rewrite Hq. by eapply wf_queue.
  - intros [Hne H1]. apply (wf_pending _ Hwf) in H1 as (? & ? & ?).
    split_and!; [set_solver| |done]. by rewrite lookup_delete_ne.
  - intros Hr. destruct (wf_stopped _ Hwf Hr) as (-> & -> & ->). set_solver.
Qed.

Lemma pop_command_wf d c rest : wf d -> Driver.commands d = c :: rest -> wf (Driver.set_commands d rest).
Proof.
  intros Hwf Hc. pose proof (wf_registers _ Hwf) as Hnd. rewrite Hc in Hnd.
  assert (forall i, i ∈ registers rest -> i ∈ registers (c :: rest)) as Hsub
    by (intros i; unfold registers; simpl; case_match; set_solver).
  constructor; simpl; try apply Hwf.
  - intros s i Hi Hin. apply (wf_disjoint _ Hwf s i Hi). rewrite Hc. auto.
  - unfold registers in *. simpl in Hnd. case_match; [by apply NoDup_cons in Hnd as [_ ?]|done].
  - intros i Hi. apply (wf_fresh _ Hwf). rewrite Hc. auto.
Qed.
Lemma filled_queue s ch ps terminal :
  Channel.queue ch = [] -> Forall (fun p => session_of p = s) ps ->
  Forall (for_session s) (Channel.queue (filled ch ps terminal)).
Proof.
  intros Hq Hps. unfold filled. destruct (Channel.receiver ch); [|by rewrite Hq]. simpl. rewrite Hq. simpl.
  apply Forall_app. split; [|by destruct terminal; repeat constructor].
  induction Hps; by constructor.
Qed.

Lemma held_sessions d s : wf d -> Forall (fun p => session_of p = s) (held d s).
Proof.
  intros Hwf. unfold held. destruct (Driver.pending_sessions d !! s) as [q|] eqn:Hq; [|by constructor].
  apply (wf_pending _ Hwf) in Hq as (_ & _ & Hok & _). eapply Forall_impl; [exact Hok|]. by intros ? [? _].
Qed.

Lemma register_wf d s0 i completion rest io :
  wf d -> Driver.running d = true ->
  Driver.commands d = DriverCommand.Register s0 i completion :: rest ->
  wf (Driver.on_command transport_kind to_string (DriverCommand.Register s0 i completion) io
        (Driver.set_commands d rest)).
Proof.
  intros Hwf Hrun Hcmd. pose proof (pop_command_wf d _ rest Hwf Hcmd) as Hwf'.
  pose proof (wf_registers _ Hwf) as Hnd. rewrite Hcmd in Hnd. apply NoDup_cons in Hnd as [Hi _].
  fold (registers rest) in Hi.
  assert (i ∈ registers (Driver.commands d)) as Hin by (rewrite Hcmd; by left).
  destruct (wf_fresh _ Hwf i Hin) as (ch & Hch & Hq). simpl.
  destruct (Driver.sessions d !! s0) as [j|] eqn:Hj; apply complete_wf.
  - apply (channels_wf (Driver.set_commands d rest)); [done| |]; simpl; unfold Driver.release.
    + intros s k ck Hk Hck. exists ck. rewrite lookup_alter_ne; [done|]. intros <-.
      by apply (wf_disjoint _ Hwf s i).
    + intros k ck Hk Hck Hqk. exists ck. rewrite lookup_alter_ne; [done|]. by intros <-.
  - fold (held d s0). rewrite (register_channels i (held d s0) (Driver.channels d) ch) by done.
    constructor; simpl.
    + intros s s' k Hs Hs'. apply lookup_insert_Some in Hs as [[<- <-]|[? Hs]], Hs' as [[<- ?]|[? Hs']];
        try done; try (by destruct (wf_disjoint _ Hwf s' i)); subst;
        try (by destruct (wf_disjoint _ Hwf s k)). by eapply (wf_inj _ Hwf).
    + intros s k Hs. apply lookup_insert_Some in Hs as [[<- <-]|[? Hs]]; [done|].
      by apply (wf_disjoint _ Hwf' s).
    + apply Hwf'.
    + intros s k Hs. apply lookup_insert_Some in Hs as [[<- <-]|[? Hs]]; [rewrite lookup_insert_eq; by eexists|].
      destruct (wf_registered _ Hwf s k Hs). apply lookup_insert_is_Some. destruct (decide (i = k)); eauto.
    + intros k Hk. rewrite lookup_insert_ne by (by intros <-). by apply (wf_fresh _ Hwf').
    + intros s k ck Hs Hck. apply lookup_insert_Some in Hs as [[<- <-]|[? Hs]].
      * rewrite lookup_insert_eq in Hck. injection Hck as <-. apply filled_queue; [done|].
        by apply held_sessions.
      * rewrite lookup_insert_ne in Hck by (intros <-; by apply (wf_disjoint _ Hwf s i)).
        by eapply (wf_queue _ Hwf).
    + intros s p Hp. apply lookup_delete_Some in Hp as [? Hp]. apply (wf_pending _ Hwf) in Hp as (? & ? & ?).
      rewrite lookup_insert_ne by done. split_and!; [set_solver|done|done].
    + congruence.
Qed.

Lemma on_command_wf d command rest io :
  wf d -> Driver.running d = true -> Driver.commands d = command :: rest ->
  wf (Driver.on_command transport_kind to_string command io (Driver.set_commands d rest)).
Proof.
  intros Hwf Hrun Hcmd. pose proof (pop_command_wf d _ rest Hwf Hcmd) as Hwf'.
  destruct command as [p c|s i c|s|c]; [| by apply register_wf| by apply remove_wf|]; simpl.
  - case_match; [by apply complete_wf|]. destruct io.
    + by apply stop_wf, broadcast_wf, complete_wf, await_wf.
    + by apply complete_wf, written_wf, await_wf.
  - case_match; by apply stop_wf, complete_wf.
Qed.

Lemma to_control_wf p d : wf d -> wf (Driver.to_control p d).
Proof.
  intros Hwf. unfold Driver.to_control. destruct (Channel.send _ _) as [ok ch].
  assert (wf (Driver.set_channels d ch (Driver.channels d))) by (apply channels_wf; eauto).
  case_match; [by apply stop_wf|done].
Qed.

Lemma pending_push_wf d p pending pending' :
  wf d -> Driver.running d = true -> Driver.sessions d !! session_of p = None ->
  session_of p ∈ Driver.awaiting_registration d -> is_open_ack p = false ->
  match Driver.pending_sessions d !! session_of p with
  | Some q => pending = q | None => pending = PendingSessionPackets.default end ->
  PendingSessionPackets.push p pending = (Ok tt, pending') ->
  wf (Driver.set_tables d (Driver.sessions d) (Driver.awaiting_registration d)
        (<[session_of p := pending']> (Driver.pending_sessions d))).
Proof.
  intros Hwf Hrun Hs Ha Hack Hp (Hps & Hb & Hn & Hmax)%push_Ok.
  assert (pending_ok (session_of p) pending) as (Hf & Hsum & _).
  { destruct (Driver.pending_sessions d !! session_of p) as [q|] eqn:Hq; subst.
    - by apply (wf_pending _ Hwf) in Hq as (_ & _ & ?).
    - unfold pending_ok. simpl. unfold len. simpl. split_and!; done. }
  constructor; simpl; try apply Hwf; [|congruence].
  intros s q Hq. apply lookup_insert_Some in Hq as [[<- <-]|[? Hq]]; [|by apply (wf_pending _ Hwf)].
  split_and!; [done|done|]. unfold pending_ok. rewrite Hps, Hb. split_and!.
  - apply Forall_app. by repeat constructor.
  - rewrite Hsum, map_app. simpl. rewrite foldr_app. simpl.
    generalize (map packet_bytes (PendingSessionPackets.packets pending)). intros l.
    induction l as [|a l IH]; simpl; lia.
  - unfold len in *. rewrite length_app. simpl. lia.
  - lia.
Qed.

Lemma on_packet_wf p d : wf d -> Driver.running d = true -> wf (Driver.on_packet transport_kind p d).
Proof.
  intros Hwf Hrun. unfold Driver.on_packet. pose proof (await_wf p d Hwf Hrun) as Hwf'.
  assert (Driver.running (Driver.await_registration p d) = true) as Hrun'
    by (unfold Driver.await_registration; by case_match).
  set (d' := Driver.await_registration p d) in *.
  case_match; [by apply to_control_wf|]. destruct (Driver.sessions d' !! session_of p) as [i|] eqn:Hi.
  - destruct (wf_registered _ Hwf' _ _ Hi) as [ch Hch]. unfold Driver.send_to. rewrite Hch.
    unfold Channel.send. destruct (Channel.receiver ch); [|by apply remove_wf].
    apply channels_wf; [done| |].
    + intros s j cj Hj Hcj. destruct (decide (i = j)) as [<-|Hn].
      * rewrite lookup_insert_eq. eexists. split; [done|]. intros Hf. simplify_eq. apply Forall_app.
        split; [done|]. repeat constructor. by rewrite (wf_inj _ Hwf' s (session_of p) i).
      * rewrite lookup_insert_ne by done. eauto.
    + intros j cj Hj Hcj Hq. rewrite lookup_insert_ne; [eauto|]. intros <-.
      by apply (wf_disjoint _ Hwf' _ _ Hi).
  - case_match eqn:Hwait; [|by case_match; [apply failure_wf, broadcast_wf|apply to_control_wf]].
    apply andb_true_iff in Hwait as [Ha%bool_decide_eq_true Hack%negb_true_iff].
    destruct (PendingSessionPackets.push p _) as [[[]|e|] pending'] eqn:Hpush.
    + eapply pending_push_wf; try done. by case_match.
    + by apply stop_wf, broadcast_wf.
    + done.
Qed.
Lemma turn_wf next d d' :
  wf d -> Driver.turn transport_kind to_string next d = Some d' -> wf d'.
Proof.
  intros Hwf Ht. unfold Driver.turn in Ht. destruct (Driver.running d) eqn:Hrun; [|done]. simpl in Ht.
  destruct next as [io| |p|e].
  - destruct (Driver.commands d) as [|c rest] eqn:Hc; [done|]. injection Ht as <-.
    by apply on_command_wf.
  - destruct (Driver.commands d); [|done]. injection Ht as <-. by apply stop_wf.
  - case_match; [done|]. injection Ht as <-. by apply on_packet_wf.
  - case_match; [done|]. injection Ht as <-. by apply failure_wf, broadcast_wf.
Qed.

Lemma append_command_wf d c :
  wf d ->
  match c with
  | DriverCommand.Register _ i _ => (i ∉ registers (Driver.commands d)) /\
      (forall s, Driver.sessions d !! s <> Some i) /\
      exists ch, Driver.channels d !! i = Some ch /\ Channel.queue ch = []
  | _ => True
  end -> wf (Driver.set_commands d (Driver.commands d ++ [c])).
Proof.
  intros Hwf Hc. assert (registers (Driver.commands d ++ [c]) = registers (Driver.commands d) ++
    (match c with DriverCommand.Register _ i _ => [i] | _ => [] end)) as Hr.
  { unfold registers. rewrite omap_app. by destruct c. }
  constructor; simpl; rewrite ?Hr; try apply Hwf.
  - intros s i Hi. rewrite elem_of_app. intros [Hin|Hin]; [by apply (wf_disjoint _ Hwf s i)|].
    destruct c; set_solver.
  - apply NoDup_app. split_and!; [apply Hwf| |by destruct c; repeat constructor; set_solver].
    intros i Hi Hin. destruct c; set_solver.
  - intros i. rewrite elem_of_app. intros [Hin|Hin]; [by apply (wf_fresh _ Hwf)|].
    destruct c; set_solver.
Qed.

(** A receiver changes the queue of its own channel only. *)
Lemma receiver_wf d i ch ch' :
  wf d -> Driver.channels d !! i = Some ch ->
  (forall e, e ∈ Channel.queue ch' -> e ∈ Channel.queue ch) ->
  wf (Driver.set_channels d (Driver.control d) (<[i := ch']> (Driver.channels d))).
Proof.
  intros Hwf Hch Hsub. apply channels_wf; [done| |].
  - intros s j cj Hj Hcj. destruct (decide (i = j)) as [<-|Hn].
    + rewrite lookup_insert_eq. eexists. split; [done|]. simplify_eq. rewrite !Forall_forall. auto.
    + rewrite lookup_insert_ne by done. eauto.
  - intros j cj Hj Hcj Hq. destruct (decide (i = j)) as [<-|Hn].
    + rewrite lookup_insert_eq. eexists. split; [done|]. simplify_eq.
      destruct (Channel.queue ch') as [|e q]; [done|]. specialize (Hsub e ltac:(by left)). rewrite Hq in Hsub.
      set_solver.
    + rewrite lookup_insert_ne by done. eauto.
Qed.

Lemma next_queue ch e ch' :
  Channel.next ch = (Some (Some e), ch') ->
  Channel.queue ch = e :: Channel.queue ch' /\ Channel.receiver ch' = Channel.receiver ch.
Proof. unfold Channel.next. destruct (Channel.queue ch) eqn:Hq; [by destruct (Channel.sender ch)|]. by intros [= <- <-]. Qed.

Lemma driver_step_wf d l d' : wf d -> step d l d' -> wf d'.
Proof.
  intros Hwf Hs. destruct Hs as [d next d' Ht|d s i c d' Hi Hr|d c d' Hc Hr|d i ch e ch' Hch Hn|d e ch Hn|d i ch Hch].
  - by eapply turn_wf.
  - unfold Driver.register_session, Driver.send_command in Hr. case_match; [done|]. simpl in Hr.
    destruct (Driver.running d); [|done]. injection Hr as <-.
    assert (forall s, Driver.sessions d !! s <> Some i) as Hns.
    { intros s' Hs'. destruct (wf_registered _ Hwf s' i Hs'). congruence. }
    assert (i ∉ registers (Driver.commands d)) as Hnr.
    { intros Hin. destruct (wf_fresh _ Hwf i Hin) as (ch & ? & _). congruence. }
    apply (append_command_wf (Driver.set_channels d (Driver.control d) (<[i := Channel.new]> (Driver.channels d)))
      (DriverCommand.Register s i c)).
    + apply channels_wf; [done| |].
      * intros s' j cj Hj Hcj. exists cj. rewrite lookup_insert_ne by (intros <-; by eapply Hns). done.
      * intros j cj Hj Hcj Hq. exists cj. rewrite lookup_insert_ne by (by intros <-). done.
    + simpl. rewrite lookup_insert_eq. split_and!; [done..|]. by eexists.
  - unfold Driver.send_command in Hr. destruct (Driver.running d); [|done]. injection Hr as <-.
    apply append_command_wf; [done|]. destruct c; try done. by destruct (Hc session_id events completion).
  - apply (receiver_wf d i ch); [done..|]. apply next_queue in Hn as [-> _]. set_solver.
  - apply channels_wf; eauto.
  - apply (receiver_wf d i ch); [done..|]. simpl. set_solver.
Qed.

Lemma steps_wf d ls d' : steps d ls d' -> wf d -> wf d'.
Proof. induction 1; [done|]. intros. by eapply driver_step_wf; [apply IHsteps|]. Qed.

Lemma driver_reachable_wf d : reachable d -> wf d.
Proof. intros [ls Hs]. by eapply steps_wf; [|apply start_wf]. Qed.

(** ** Every step follows the specification *)

Lemma stopped_box d s : wf d -> Driver.running d = false -> box d s = None.
Proof.
  intros Hwf Hr. destruct (wf_stopped _ Hwf Hr) as (Hs & Ha & _). unfold box.
  rewrite Hs, Ha, lookup_empty. by rewrite decide_False by set_solver.
Qed.

Lemma failure_box d f s : box (Driver.set_failure d f) s = box d s.
Proof. by apply box_ext. Qed.

Lemma on_packet_box p d s :
  wf d -> Driver.running d = true ->
  Driver.running (Driver.on_packet transport_kind p d) = true ->
  box (Driver.on_packet transport_kind p d) s = deliver p (box d) s.
Proof.
  intros Hwf Hrun. unfold Driver.on_packet, deliver. pose proof (await_wf p d Hwf Hrun) as Hwf'.
  assert (forall s, announce p (box d) s = box (Driver.await_registration p d) s) as Hann
    by (intros; by rewrite await_box).
  set (d' := Driver.await_registration p d) in *. rewrite (Hann (session_of p)).
  destruct (session_of p =? 0) eqn:H0; [by intros; rewrite to_control_box, Hann|].
  assert (forall m, put (session_of p) m (announce p (box d)) s = put (session_of p) m (box d') s) as Hput
    by (intros m; unfold put; by case_decide; [|apply Hann]).
  unfold box at 2. destruct (Driver.sessions d' !! session_of p) as [i|] eqn:Hi.
  - destruct (wf_registered _ Hwf' _ _ Hi) as [ch Hch]. unfold Driver.send_to. rewrite Hch. simpl.
    unfold Channel.send. destruct (Channel.receiver ch) eqn:Hr; intros _; rewrite Hput.
    + by apply send_box.
    + by apply remove_box.
  - case_decide as Ha; [rewrite (bool_decide_eq_true_2 _ Ha)|rewrite (bool_decide_eq_false_2 _ Ha)]; simpl.
    + destruct (is_open_ack p) eqn:Hack; simpl; [by intros; rewrite to_control_box, Hann|].
      fold (held d' (session_of p)).
      destruct (PendingSessionPackets.push p _) as [[[]|e|] pending'] eqn:Hpush; [|done|].
      * intros _. rewrite Hput. apply push_Ok in Hpush as (Hps & _).
        destruct (decide (s = session_of p)) as [->|Hn].
        -- rewrite put_eq. unfold box, held. simpl. rewrite Hi, lookup_insert_eq. rewrite decide_True by done.
           rewrite Hps. do 3 f_equal. by case_match.
        -- rewrite put_ne by done. unfold box, held. simpl. by rewrite lookup_insert_ne.
      * by destruct (push_no_panic p (match Driver.pending_sessions d' !! session_of p with
          | Some q => q | None => PendingSessionPackets.default end)); rewrite Hpush.
    + destruct (is_open_ack p) eqn:Hack; simpl.
      * exfalso. apply Ha. unfold d', Driver.await_registration. rewrite Hack, H0. set_solver.
      * intros _. rewrite failure_box, broadcast_box by done. unfold fail. by rewrite Hann.
Qed.

(** The mailboxes after a command, while the driver runs on. *)
Lemma on_command_box d command rest io s :
  wf d -> Driver.running d = true -> Driver.commands d = command :: rest ->
  Driver.running (Driver.on_command transport_kind to_string command io
                    (Driver.set_commands d rest)) = true ->
  box (Driver.on_command transport_kind to_string command io (Driver.set_commands d rest)) s =
  spec d (Turn (Driver.NextCommand io)) s.
Proof.
  intros Hwf Hrun Hcmd. pose proof (pop_command_wf d _ rest Hwf Hcmd) as Hwf'.
  assert (forall p s, announce p (box (Driver.set_commands d rest)) s = announce p (box d) s) as Hb by done.
  destruct command as [p c|s0 i c|s0|c]; [| | |].
  - unfold spec. rewrite Hcmd. simpl. destruct (Driver.terminal_failure d); [done|].
    destruct io; [done|]. intros _. rewrite <- (Hb p s), <- await_box by done. by apply box_ext.
  - intros _. by apply register_box.
  - intros _. unfold spec. rewrite Hcmd. cbn [Driver.on_command]. by rewrite remove_box.
  - simpl. by destruct (Driver.terminal_failure d).
Qed.

Lemma receive_box d i ch ch' s :
  Driver.channels d !! i = Some ch ->
  box (Driver.set_channels d (Driver.control d) (<[i := ch']> (Driver.channels d))) s =
  if decide (Driver.sessions d !! s = Some i) then Some (channel_box (Some ch')) else box d s.
Proof.
  intros Hch. unfold box, held. simpl. destruct (Driver.sessions d !! s) as [j|] eqn:Hj.
  - case_decide as He; [injection He as ->; by rewrite lookup_insert_eq|].
    rewrite lookup_insert_ne; [done|]. by intros <-.
  - by case_decide.
Qed.

Lemma step_box d l d' s :
  wf d -> step d l d' -> box d' s = if Driver.running d' then spec d l s else None.
Proof.
  intros Hwf Hs. pose proof (driver_step_wf _ _ _ Hwf Hs) as Hwf'.
  destruct (Driver.running d') eqn:Hrun'; [|by apply stopped_box].
  destruct Hs as [d next d' Ht|d s0 i c d' Hi Hr|d c d' Hc Hr|d i ch e ch' Hch Hn|d e ch Hn|d i ch Hch].
  - unfold Driver.turn in Ht. destruct (Driver.running d) eqn:Hrun; [|done]. simpl in Ht.
    destruct next as [io| |p|e].
    + destruct (Driver.commands d) as [|command rest] eqn:Hc; [done|]. injection Ht as <-.
      by apply on_command_box.
    + destruct (Driver.commands d); [|done]. by injection Ht as <-.
    + case_match; [done|]. injection Ht as <-. by apply on_packet_box.
    + case_match; [done|]. injection Ht as <-. by rewrite failure_box, broadcast_box.
  - unfold Driver.register_session, Driver.send_command in Hr. case_match; [done|]. simpl in Hr.
    destruct (Driver.running d); [|done]. injection Hr as <-. apply box_ext; try done.
    intros s' j Hj. simpl. rewrite lookup_insert_ne; [done|]. intros <-.
    destruct (wf_registered _ Hwf s' i Hj). congruence.
  - unfold Driver.send_command in Hr. destruct (Driver.running d); [|done]. injection Hr as <-.
    by apply box_ext.
  - rewrite (receive_box d i ch) by done. apply next_queue in Hn as [Hq Hr]. unfold spec, box.
    case_decide as Hs; [|done]. rewrite Hs, Hch. simpl. rewrite Hr, Hq. by destruct (Channel.receiver ch).
  - by apply box_ext.
  - rewrite (receive_box d i ch) by done. done.
Qed.
(** ** In order and without loss *)

Definition packets_of (es : list DriverEvent.t) : list RuntimePacket.t :=
  omap (fun e => match e with DriverEvent.Packet p => Some p | _ => None end) es.

(** What a step hands to the reader of a channel, and the packets of a session it takes in. *)
Definition handed (i : nat) (ls : list label) : list RuntimePacket.t :=
  omap (fun l => match l with
                 | Receive j (DriverEvent.Packet p) => if decide (j = i) then Some p else None
                 | _ => None
                 end) ls.

Definition arrivals (s : Z) (ls : list label) : list RuntimePacket.t :=
  omap (fun l => match l with
                 | Turn (Driver.Incoming p) => if decide (session_of p = s) then Some p else None
                 | _ => None
                 end) ls.

Lemma packets_of_app es es' : packets_of (es ++ es') = packets_of es ++ packets_of es'.
Proof. apply omap_app. Qed.

(** The commands that a turn leaves in the queue are those that were there; the channels stay. *)
Definition keeps (d d' : D) : Prop :=
  (forall i, i ∈ registers (Driver.commands d') -> i ∈ registers (Driver.commands d)) /\
  (forall i, is_Some (Driver.channels d !! i) -> is_Some (Driver.channels d' !! i)).

Lemma keeps_trans d1 d2 d3 : keeps d1 d2 -> keeps d2 d3 -> keeps d1 d3.
Proof. intros [? ?] [? ?]. split; auto. Qed.

Lemma alter_keeps f i (cs : gmap nat Channel.t) j : is_Some (cs !! j) -> is_Some (alter f i cs !! j).
Proof.
  destruct (decide (i = j)) as [->|]; [rewrite lookup_alter_eq|by rewrite lookup_alter_ne].
  intros [? ->]. by eexists.
Qed.

Lemma foldl_keeps {A} (f : gmap nat Channel.t -> A -> gmap nat Channel.t) l cs j :
  (forall cs a, is_Some (cs !! j) -> is_Some (f cs a !! j)) ->
  is_Some (cs !! j) -> is_Some (foldl f cs l !! j).
Proof. intros Hf. revert cs; induction l as [|a l IH]; intros cs Hc; simpl; auto. Qed.

Lemma send_keeps i e cs j : is_Some (cs !! j) -> is_Some ((Driver.send_to i e cs).2 !! j).
Proof. rewrite send_to_alter. apply alter_keeps. Qed.

Lemma stop_keeps d : keeps d (Driver.stop d).
Proof.
  split; [done|]. intros i Hi. simpl. apply foldl_keeps; [|done]. intros cs a. apply alter_keeps.
Qed.

Lemma broadcast_keeps f d : keeps d (Driver.broadcast_failure f d).
Proof.
  split; [done|]. intros i Hi. simpl. apply foldl_keeps; [|done]. intros cs a. apply send_keeps.
Qed.

Lemma remove_keeps s d : keeps d (Driver.remove_session s d).
Proof. split; [done|]. intros i Hi. simpl. case_match; [by apply alter_keeps|done]. Qed.

Lemma await_keeps p d : keeps d (Driver.await_registration p d).
Proof. unfold Driver.await_registration. by case_match. Qed.

Lemma complete_keeps c r d : keeps d (Driver.complete c r d).
Proof. done. Qed.

Lemma failure_keeps f d : keeps d (Driver.set_failure d f).
Proof. done. Qed.

Lemma to_control_keeps p d : keeps d (Driver.to_control p d).
Proof.
  unfold Driver.to_control. destruct (Channel.send _ _) as [ok ch].
  destruct (_ && _); [|done]. by eapply (keeps_trans d (Driver.set_channels d ch _)), stop_keeps.
Qed.

Lemma on_packet_keeps p d : keeps d (Driver.on_packet transport_kind p d).
Proof.
  unfold Driver.on_packet. eapply keeps_trans; [apply await_keeps|].
  set (d' := Driver.await_registration p d). case_match; [apply to_control_keeps|].
  destruct (Driver.sessions d' !! _) as [i|].
  - destruct (Driver.send_to _ _ _) as [ok cs] eqn:Hs. destruct ok; [|apply remove_keeps].
    split; [done|]. intros j Hj. simpl. pose proof (send_keeps i (DriverEvent.Packet p) (Driver.channels d') j Hj) as Hk.
    by rewrite Hs in Hk.
  - destruct (_ && _).
    + destruct (PendingSessionPackets.push p _) as [[| |] ?]; [done| |done].
      eapply keeps_trans; [apply broadcast_keeps|apply stop_keeps].
    + destruct (negb _); [|apply to_control_keeps].
      eapply keeps_trans; [apply broadcast_keeps|apply failure_keeps].
Qed.

Lemma on_command_keeps c io d : keeps d (Driver.on_command transport_kind to_string c io d).
Proof.
  destruct c as [p c|s i c|s|c]; [| |apply remove_keeps|]; simpl.
  - destruct (Driver.terminal_failure d); [done|]. eapply keeps_trans; [apply await_keeps|].
    destruct io; [|by split; intros; simpl in *]. eapply keeps_trans; [apply complete_keeps|].
    eapply keeps_trans; [apply broadcast_keeps|apply stop_keeps].
  - destruct (Driver.sessions d !! s); split; try done; intros j Hj; simpl; [by apply alter_keeps|].
    assert (is_Some (foldl (fun cs p => (Driver.send_to i (DriverEvent.Packet p) cs).2)
      (Driver.channels d) (held d s) !! j)) by (apply foldl_keeps; [intros ? ?; apply send_keeps|done]).
    destruct (Driver.terminal_failure d); [by apply send_keeps|done].
  - destruct (Driver.terminal_failure d); (eapply keeps_trans; [apply complete_keeps|apply stop_keeps]).
Qed.

Lemma turn_keeps next d d' : Driver.turn transport_kind to_string next d = Some d' -> keeps d d'.
Proof.
  intros Ht. unfold Driver.turn in Ht. destruct (Driver.running d); [|done]. simpl in Ht.
  destruct next as [io| |p|e].
  - destruct (Driver.commands d) as [|c rest] eqn:Hcmd; [done|]. injection Ht as <-.
    eapply keeps_trans; [|apply on_command_keeps]. split; [|done]. rewrite Hcmd. simpl.
    intros i. unfold registers. simpl. case_match; set_solver.
  - destruct (Driver.commands d) eqn:Hcmd; [|done]. injection Ht as <-. apply stop_keeps.
  - destruct (Driver.terminal_failure d); [done|]. injection Ht as <-. apply on_packet_keeps.
  - destruct (Driver.terminal_failure d); [done|]. injection Ht as <-.
    eapply keeps_trans; [apply broadcast_keeps|apply failure_keeps].
Qed.

(** An index that is in use is never registered again. *)
Lemma step_used d l d' i :
  step d l d' -> is_Some (Driver.channels d !! i) -> i ∉ registers (Driver.commands d) ->
  is_Some (Driver.channels d' !! i) /\ i ∉ registers (Driver.commands d').
Proof.
  intros Hs Hi Hr. destruct Hs as [d next d' Ht|d s j c d' Hj Hc|d c d' Hnr Hc|d j ch e ch' Hch Hn|d e ch Hn|d j ch Hch].
  - apply turn_keeps in Ht as [Hcmd Hch]. split; auto.
  - unfold Driver.register_session, Driver.send_command in Hc. destruct (s =? 0); [done|]. simpl in Hc.
    destruct (Driver.running d); [|done]. injection Hc as <-. simpl.
    assert (i <> j) by (intros ->; rewrite Hj in Hi; by destruct Hi).
    split; [by rewrite lookup_insert_ne|]. unfold registers in *. rewrite omap_app. simpl. set_solver.
  - unfold Driver.send_command in Hc. destruct (Driver.running d); [|done]. injection Hc as <-. simpl.
    split; [done|]. unfold registers in *. rewrite omap_app. destruct c; simpl; rewrite ?app_nil_r; try done.
    by destruct (Hnr session_id events completion).
  - simpl. split; [|done]. apply lookup_insert_is_Some. destruct (decide (j = i)); eauto.
  - done.
  - simpl. split; [|done]. apply lookup_insert_is_Some. destruct (decide (j = i)); eauto.
Qed.

(** A session keeps its channel, or gets one from a registration. *)
Lemma turn_sessions next d d' s i :
  Driver.turn transport_kind to_string next d = Some d' -> Driver.sessions d' !! s = Some i ->
  Driver.sessions d !! s = Some i \/ i ∈ registers (Driver.commands d).
Proof.
  intros Ht Hs. unfold Driver.turn in Ht. destruct (Driver.running d); [|done]. simpl in Ht.
  assert (forall p d, Driver.sessions (Driver.await_registration p d) = Driver.sessions d) as Ha.
  { clear. intros p d. unfold Driver.await_registration. by case_match. }
  assert (forall p d, Driver.sessions (Driver.to_control p d) !! s = Some i -> Driver.sessions d !! s = Some i) as Hc.
  { clear. intros p d. unfold Driver.to_control. destruct (Channel.send _ _) as [ok ch]. by destruct (_ && _). }
  assert (forall s0, Driver.sessions (Driver.remove_session s0 d) !! s = Some i -> Driver.sessions d !! s = Some i) as Hrm.
  { intros s0. simpl. by intros [_ ?]%lookup_delete_Some. }
  destruct next as [io| |p|e].
  - destruct (Driver.commands d) as [|c rest] eqn:Hcmd; [done|]. injection Ht as <-.
    destruct c as [p c|s0 j c|s0|c]; simpl in Hs.
    + left. destruct (Driver.terminal_failure d); [done|]. by destruct io; [|simpl in Hs; rewrite Ha in Hs].
    + destruct (Driver.sessions d !! s0); [by left|]. simpl in Hs.
      apply lookup_insert_Some in Hs as [[_ ->]|[_ ?]]; [right; by left|by left].
    + left. by eapply (Hrm s0).
    + by destruct (Driver.terminal_failure d).
  - destruct (Driver.commands d); [|done]. by injection Ht as <-.
  - destruct (Driver.terminal_failure d); [done|]. injection Ht as <-. left.
    unfold Driver.on_packet in Hs. rewrite <- (Ha p d).
    destruct (session_of p =? 0); [by eapply Hc|].
    destruct (Driver.sessions (Driver.await_registration p d) !! session_of p) as [k|].
    + destruct (Driver.send_to _ _ _) as [[] cs]; [done|]. simpl in Hs.
      by apply lookup_delete_Some in Hs as [_ ?].
    + destruct (_ && _).
      * by destruct (PendingSessionPackets.push p _) as [[| |] ?].
      * destruct (negb _); [done|by eapply Hc].
  - destruct (Driver.terminal_failure d); [done|]. injection Ht as <-. by left.
Qed.

Lemma step_sessions d l d' s i :
  step d l d' -> Driver.sessions d' !! s = Some i ->
  Driver.sessions d !! s = Some i \/ i ∈ registers (Driver.commands d).
Proof.
  intros Hs Hi. destruct Hs as [d next d' Ht|d s0 j c d' Hj Hc|d c d' Hnr Hc|d j ch e ch' Hch Hn|d e ch Hn|d j ch Hch];
    [by eapply turn_sessions|left..]; try done.
  - unfold Driver.register_session, Driver.send_command in Hc. destruct (s0 =? 0); [done|]. simpl in Hc.
    destruct (Driver.running d); [|done]. by injection Hc as <-.
  - unfold Driver.send_command in Hc. destruct (Driver.running d); [|done]. by injection Hc as <-.
Qed.

Lemma announce_some p b s m : b s = Some m -> announce p b s = Some m.
Proof.
  intros Hb. unfold announce. destruct (_ && _); [|done]. destruct (b (session_of p)) eqn:Hp; [done|].
  rewrite put_ne; [done|]. intros ->. congruence.
Qed.

Lemma channel_box_Open ch es :
  channel_box ch = Open es -> exists c, ch = Some c /\ Channel.receiver c = true /\ Channel.queue c = es.
Proof. destruct ch as [c|]; simpl; [|done]. destruct (Channel.receiver c) eqn:Hr; [|done]. intros [= <-]. eauto. Qed.

Lemma channel_box_not_Waiting ch ps : channel_box ch <> Waiting ps.
Proof. destruct ch as [c|]; simpl; [by destruct (Channel.receiver c)|done]. Qed.

Lemma fail_Open f b s es :
  fail f b s = Some (Open es) -> exists es', b s = Some (Open es') /\ es = es' ++ [DriverEvent.Failed f].
Proof. unfold fail. destruct (b s) as [[]|]; intros [= <-]. eauto. Qed.

(** One step, seen from a session with a reader. *)
Lemma step_delivers d l d' s i es :
  wf d -> s <> 0 -> step d l d' -> Driver.sessions d !! s = Some i -> box d' s = Some (Open es) ->
  exists es', box d s = Some (Open es') /\
    handed i [l] ++ packets_of es = packets_of es' ++ arrivals s [l].
Proof.
  intros Hwf Hs0 Hstep Hi Hbox. rewrite (step_box d l d' s Hwf Hstep) in Hbox.
  destruct (Driver.running d'); [|done].
  assert (box d s = Some (channel_box (Driver.channels d !! i))) as Hd by (unfold box; by rewrite Hi).
  assert (forall es', box d s = Some (Open es') -> packets_of es' = packets_of es ->
    arrivals s [l] = [] -> handed i [l] = [] -> exists es', box d s = Some (Open es') /\
    handed i [l] ++ packets_of es = packets_of es' ++ arrivals s [l]) as Hsame.
  { intros es' He Hp Ha Hh. exists es'. by rewrite Hp, Ha, Hh, app_nil_r. }
  destruct l as [next|c|j e|e|j]; simpl in Hbox.
  - destruct next as [io| |p|e].
    + destruct (Driver.commands d) as [|[p c|s0 j c|s0|c] rest] eqn:Hcmd; try by eapply Hsame.
      * destruct (Driver.terminal_failure d); [by eapply Hsame|].
        rewrite (announce_some p _ s _ Hd) in Hbox. rewrite Hbox in Hd. by eapply Hsame.
      * apply (Hsame es); try done. unfold attach in Hbox.
        destruct (decide (s = s0)) as [->|Hn].
        -- rewrite Hd in Hbox. pose proof (channel_box_not_Waiting (Driver.channels d !! i)) as Hnw.
           destruct (channel_box _); [by destruct (Hnw packets)|congruence..].
        -- by destruct (box d s0) as [[]|]; rewrite ?put_ne in Hbox by done.
      * destruct (decide (s = s0)) as [->|Hn]; [by rewrite put_eq in Hbox|].
        rewrite put_ne in Hbox by done. by eapply Hsame.
    + by eapply Hsame.
    + unfold deliver in Hbox. destruct (decide (session_of p = s)) as [Hp|Hp].
      * assert (arrivals s [Turn (Driver.Incoming p)] = [p]) as Harr by (unfold arrivals; simpl; by rewrite decide_True).
        rewrite Harr. simpl. rewrite Hp, (proj2 (Z.eqb_neq _ _)), (announce_some p _ s _ Hd) in Hbox by done.
        pose proof (channel_box_not_Waiting (Driver.channels d !! i)) as Hnw.
        destruct (channel_box _) as [ps|es'|]; [by destruct (Hnw ps)| |by rewrite put_eq in Hbox].
        rewrite put_eq in Hbox. injection Hbox as <-. exists es'. split; [done|].
        by rewrite packets_of_app.
      * assert (arrivals s [Turn (Driver.Incoming p)] = []) as Harr by (unfold arrivals; simpl; by rewrite decide_False).
        pose proof (announce_some p _ s _ Hd) as Hann.
        assert (forall m, put (session_of p) m (announce p (box d)) s = box d s) as Hput
          by (intros m; rewrite put_ne by done; by rewrite Hann, Hd).
        destruct (session_of p =? 0); [rewrite Hann, <- Hd in Hbox; by eapply Hsame|].
        destruct (announce p (box d) (session_of p)) as [[ps|es'|]|];
          [destruct (is_open_ack p)|..]; rewrite ?Hput in Hbox; try by eapply Hsame.
        -- rewrite Hann, <- Hd in Hbox. by eapply Hsame.
        -- apply fail_Open in Hbox as (es' & He & ->). rewrite Hann, <- Hd in He.
           apply (Hsame es'); try done. rewrite packets_of_app. simpl. by rewrite app_nil_r.
    + apply fail_Open in Hbox as (es' & He & ->). apply (Hsame es'); try done.
      rewrite packets_of_app. simpl. by rewrite app_nil_r.
  - by eapply Hsame.
  - rewrite Hd in Hbox. inversion Hstep as [| | |? ? ch ? ch' Hch Hnext| |]; subst.
    apply next_queue in Hnext as [Hq Hr]. case_decide as He.
    + rewrite Hi in He. injection He as <-. rewrite Hch in Hbox, Hd. simpl in Hbox, Hd.
      destruct (Channel.receiver ch); [|done]. rewrite Hq in Hbox. injection Hbox as <-.
      exists (Channel.queue ch). split; [done|]. rewrite Hq. unfold handed, arrivals. simpl.
      destruct e as [p|f]; simpl; rewrite ?decide_True by done; simpl; by rewrite app_nil_r.
    + rewrite <- Hd in Hbox. apply (Hsame es); try done. unfold handed. simpl.
      destruct e; [|done]. rewrite decide_False; [done|]. intros ->. by rewrite Hi in He.
  - by eapply Hsame.
  - case_decide as He; [done|]. by eapply Hsame.
Qed.

(** A run in which a session has a reader from beginning to end. *)
Lemma steps_deliver d ls d' s i es :
  steps d ls d' -> wf d -> s <> 0 -> Driver.sessions d !! s = Some i -> Driver.sessions d' !! s = Some i ->
  box d' s = Some (Open es) ->
  exists es', box d s = Some (Open es') /\
    handed i ls ++ packets_of es = packets_of es' ++ arrivals s ls.
Proof.
  intros Hss Hwf Hs0 Hi. revert es. induction Hss as [d|d ls d' l d'' Hss IH Hstep]; intros es Hi' Hbox.
  { exists es. split; [done|]. by rewrite app_nil_r. }
  assert (is_Some (Driver.channels d' !! i) /\ i ∉ registers (Driver.commands d')) as [_ Hused].
  { clear d'' l IH Hstep Hi' Hbox. induction Hss as [d|d ls d' l d'' Hss IH Hstep].
    - split; [by eapply wf_registered|by eapply wf_disjoint].
    - destruct IH as [? ?]; [done..|]. by eapply step_used. }
  assert (Driver.sessions d' !! s = Some i) as Hmid.
  { by destruct (step_sessions d' l d'' s i Hstep Hi'). }
  destruct (step_delivers d' l d'' s i es) as (es1 & Hb1 & He1); try done.
  { by eapply steps_wf. }
  destruct (IH Hwf Hi es1 Hmid Hb1) as (es0 & Hb0 & He0). exists es0. split; [done|].
  unfold handed, arrivals in *. rewrite !omap_app, <- app_assoc, He1, app_assoc, He0.
  by rewrite <- app_assoc.
Qed.
End multiplex.

(** ** Contract *)

(** C6: The tables and channels of the driver implement one mailbox for each session.
    Whatever the callers, the readers and the transport do, each step of a driver that runs on
    changes the mailboxes as the specification says, and a driver that has ended has none. *)
Theorem multiplex_refines (T : Target) kind to_string d l d' :
  reachable kind to_string d -> step kind to_string d l d' ->
  (forall s, box Driver.start s = None) /\
  forall s, box d' s = if Driver.running d' then spec kind to_string d l s else None.
Proof.
  intros Hr Hs. split; [done|]. intros s. apply step_box; [by eapply driver_reachable_wf|done].
Qed.

(** C17: While a session has a reader, the packets that were handed to it,
    followed by those that are in its channel, are the packets that were in its
    channel at first, followed by those of the session that the transport has delivered since: none is lost,
    doubled, reordered or taken from another session. *)
Theorem multiplex_in_order (T : Target) kind to_string d ls d' s i es :
  reachable kind to_string d -> steps kind to_string d ls d' -> s <> 0 ->
  Driver.sessions d !! s = Some i -> Driver.sessions d' !! s = Some i ->
  box d' s = Some (Open es) ->
  exists es', box d s = Some (Open es') /\
    handed i ls ++ packets_of es = packets_of es' ++ arrivals s ls.
Proof. intros Hr Hs. eapply steps_deliver; [exact Hs|]. by eapply driver_reachable_wf. Qed.

(** C39: In every reachable state a reader finds packets of its own session only, a session that
    waits for its reader holds at most 4096 packets and 8 MiB, all of its own and none
    of them an acknowledgement, no two sessions share a channel, and an ended driver has
    no sessions. *)
Theorem multiplex_isolated (T : Target) kind to_string d :
  reachable kind to_string d ->
  (forall s es, box d s = Some (Open es) -> Forall (for_session s) es) /\
  (forall s pending, Driver.pending_sessions d !! s = Some pending ->
     pending_ok s pending /\ box d s = Some (Waiting (PendingSessionPackets.packets pending))) /\
  (forall s s' i, Driver.sessions d !! s = Some i -> Driver.sessions d !! s' = Some i -> s = s') /\
  (Driver.running d = false -> forall s, box d s = None).
Proof.
  intros Hr%driver_reachable_wf. split_and!.
  - intros s es Hb. unfold box in Hb. destruct (Driver.sessions d !! s) as [i|] eqn:Hi.
    + injection Hb as Hb. apply channel_box_Open in Hb as (ch & Hch & _ & <-). by eapply wf_queue.
    + by case_decide.
  - intros s pending Hp. pose proof (wf_pending _ Hr s pending Hp) as (Ha & Hs & Hok).
    split; [done|]. unfold box, held. by rewrite Hs, decide_True, Hp.
  - apply Hr.
  - intros. by apply stopped_box.
Qed.

(** ** A run *)

Definition sample_packet (message_type : MessageType.t) (session_id : Z) (body : bytes)
    : RuntimePacket.t := {|
  RuntimePacket.header := {|
    CommonHeader.version_major := CURRENT_VERSION_MAJOR;
    CommonHeader.wire_format := CURRENT_WIRE_FORMAT;
    CommonHeader.message_type := message_type;
    CommonHeader.header_len := Z.of_nat COMMON_HEADER_LEN;
    CommonHeader.flags := 0; CommonHeader.meta_len := 0; CommonHeader.body_len := len body;
    CommonHeader.session_id := session_id; CommonHeader.frame_id := 0;
    CommonHeader.view_id := 0; CommonHeader.route_id := 0; CommonHeader.trace_id := 0 |};
  RuntimePacket.metadata := []; RuntimePacket.body := body |}.

Definition sample_ack : RuntimePacket.t := sample_packet MessageType.SessionOpenAck 7 [].
Definition sample_early : RuntimePacket.t := sample_packet MessageType.ResultPush 7 ["e"%byte].
Definition sample_late : RuntimePacket.t := sample_packet MessageType.ResultPush 7 ["l"%byte].

(** What a label makes of a state, where it is possible. *)
Definition advance `{Target} (d : Driver.t) (l : label) : Driver.t :=
  match l with
  | Turn next =>
      match Driver.turn RuntimeTransportKind.Tcp (fun _ => EmptyString) next d with
      | Some d' => d' | None => d
      end
  | Call (DriverCommand.Register s i c) =>
      (Driver.register_session RuntimeTransportKind.Tcp s i c d).2
  | Call c => (Driver.send_command c d).2
  | Receive i _ =>
      match Driver.channels d !! i with
      | Some ch => Driver.set_channels d (Driver.control d)
                     (<[i := (Channel.next ch).2]> (Driver.channels d))
      | None => d
      end
  | _ => d
  end.

(** A SESSION_OPEN_ACK, an early packet, the registration. *)
Definition sample_start `{Target} : Driver.t :=
  foldl advance Driver.start
    [ Turn (Driver.Incoming sample_ack); Turn (Driver.Incoming sample_early);
      Call (DriverCommand.Register 7 0 0); Turn (Driver.NextCommand None) ].

Definition sample_run : list label :=
  [ Turn (Driver.Incoming sample_late); Receive 0 (DriverEvent.Packet sample_early) ].

Lemma sample_start_reachable :
  @reachable target64 RuntimeTransportKind.Tcp (fun _ => EmptyString) (@sample_start target64).
Proof.
  exists ([] ++ [Turn (Driver.Incoming sample_ack)] ++ [Turn (Driver.Incoming sample_early)] ++
          [Call (DriverCommand.Register 7 0 0)] ++ [Turn (Driver.NextCommand None)]).
  unfold sample_start. simpl foldl. rewrite !app_assoc.
  eapply steps_snoc; [eapply steps_snoc; [eapply steps_snoc; [eapply steps_snoc; [apply steps_nil|]|]|]|].
  - apply step_turn. vm_compute. reflexivity.
  - apply step_turn. vm_compute. reflexivity.
  - apply step_register; vm_compute; reflexivity.
  - apply step_turn. vm_compute. reflexivity.
Qed.

Lemma sample_run_steps :
  @steps target64 RuntimeTransportKind.Tcp (fun _ => EmptyString) (@sample_start target64) sample_run
    (foldl (@advance target64) (@sample_start target64) sample_run).
Proof.
  change sample_run with (([] ++ [Turn (Driver.Incoming sample_late)]) ++
    [Receive 0 (DriverEvent.Packet sample_early)]) at 1.
  set (d := @advance target64 (@sample_start target64) (Turn (Driver.Incoming sample_late))).
  apply (steps_snoc _ _ _ _ d); [eapply steps_snoc; [apply steps_nil|]|].
  - apply step_turn. vm_compute. reflexivity.
  - assert (foldl (@advance target64) (@sample_start target64) sample_run =
      Driver.set_channels d (Driver.control d)
        (<[0%nat := Channel.mk [DriverEvent.Packet sample_late] true true]> (Driver.channels d))) as ->
      by (vm_compute; reflexivity).
    eapply step_receive; vm_compute; reflexivity.
Qed.

(** The reader gets the early packet while the late one is in the channel. *)
Lemma multiplex_in_order_witness :
  exists d', @steps target64 RuntimeTransportKind.Tcp (fun _ => EmptyString)
      (@sample_start target64) sample_run d' /\
    box d' 7 = Some (Open [DriverEvent.Packet sample_late]) /\
    exists es', box (@sample_start target64) 7 = Some (Open es') /\
      handed 0 sample_run ++ [sample_late] = packets_of es' ++ arrivals 7 sample_run.
Proof.
  set (d' := foldl (@advance target64) (@sample_start target64) sample_run).
  exists d'. split; [exact sample_run_steps|]. split; [vm_compute; reflexivity|].
  apply (multiplex_in_order target64 RuntimeTransportKind.Tcp (fun _ => EmptyString)
    sample_start sample_run d' 7 0 [DriverEvent.Packet sample_late]).
  - exact sample_start_reachable.
  - exact sample_run_steps.
  - discriminate.
  - vm_compute. reflexivity.
  - vm_compute. reflexivity.
  - vm_compute. reflexivity.
Defined.

Lemma multiplex_refines_witness :
  let l := Turn (Driver.Incoming sample_late) in
  let d' := @advance target64 (@sample_start target64) l in
  box d' 7 = Some (Open [DriverEvent.Packet sample_early; DriverEvent.Packet sample_late]) /\
  forall s, box d' s = if Driver.running d'
    then @spec RuntimeTransportKind.Tcp (fun _ => EmptyString) (@sample_start target64) l s else None.
Proof.
  intros l d'. split; [vm_compute; reflexivity|].
  refine (proj2 (multiplex_refines target64 RuntimeTransportKind.Tcp (fun _ => EmptyString)
    sample_start l d' sample_start_reachable _)).
  apply step_turn. vm_compute. reflexivity.
Defined.

Lemma multiplex_isolated_witness :
  exists es, box (@sample_start target64) 7 = Some (Open es) /\ Forall (for_session 7) es.
Proof.
  exists [DriverEvent.Packet sample_early]. split; [vm_compute; reflexivity|].
  apply (proj1 (multiplex_isolated target64 RuntimeTransportKind.Tcp (fun _ => EmptyString)
    sample_start sample_start_reachable)). vm_compute. reflexivity.
Defined.

End Multiplex.
