(* ===== verification/Pressure.v ===== *)
(** Credit and backpressure state of a runtime endpoint
    ([src/crates/nnrp-runtime/src/pressure.rs]). *)

From S2P Require Import Prelude Bytes Errors Enums Wire RuntimeControl.

Local Open Scope Z_scope.

Module RuntimePressureState.

Record t := mk {
  outbound_credit_window : Z;
  inbound_credit_window : Z;
  remote_backpressure_level : Z;
  remote_backpressure_reason : Z;
  remote_retry_after_ms : Z;
  remote_pressure_flags : Z;
  local_backpressure_level : Z;
  local_backpressure_reason : Z;
  local_retry_after_ms : Z;
  local_pressure_flags : Z
}.

Definition default : t := mk 0 0 0 0 0 0 0 0 0 0.

Definition apply_inbound (message_type : MessageType.t) (metadata : PressureMetadata.t)
    : Method t NnrpError unit := fun self =>
  match message_type with
  | MessageType.CreditUpdate =>
      (Ok tt,
       {| outbound_credit_window := PressureMetadata.credit_window metadata;
          inbound_credit_window := inbound_credit_window self;
          remote_backpressure_level := remote_backpressure_level self;
          remote_backpressure_reason := remote_backpressure_reason self;
          remote_retry_after_ms := remote_retry_after_ms self;
          remote_pressure_flags := remote_pressure_flags self;
          local_backpressure_level := local_backpressure_level self;
          local_backpressure_reason := local_backpressure_reason self;
          local_retry_after_ms := local_retry_after_ms self;
          local_pressure_flags := local_pressure_flags self |})
  | MessageType.Backpressure =>
      (Ok tt,
       {| outbound_credit_window := PressureMetadata.credit_window metadata;
          inbound_credit_window := inbound_credit_window self;
          remote_backpressure_level := PressureMetadata.pressure_level metadata;
          remote_backpressure_reason := PressureMetadata.pressure_reason metadata;
          remote_retry_after_ms := PressureMetadata.retry_after_ms metadata;
          remote_pressure_flags := PressureMetadata.flags metadata;
          local_backpressure_level := local_backpressure_level self;
          local_backpressure_reason := local_backpressure_reason self;
          local_retry_after_ms := local_retry_after_ms self;
          local_pressure_flags := local_pressure_flags self |})
  | _ =>
      (Err (InvalidProtocolCombination
              "pressure state inbound update requires BACKPRESSURE or CREDIT_UPDATE"), self)
  end.

Definition apply_outbound (message_type : MessageType.t) (metadata : PressureMetadata.t)
    : Method t NnrpError unit := fun self =>
  match message_type with
  | MessageType.CreditUpdate =>
      (Ok tt,
       {| outbound_credit_window := outbound_credit_window self;
          inbound_credit_window := PressureMetadata.credit_window metadata;
          remote_backpressure_level := remote_backpressure_level self;
          remote_backpressure_reason := remote_backpressure_reason self;
          remote_retry_after_ms := remote_retry_after_ms self;
          remote_pressure_flags := remote_pressure_flags self;
          local_backpressure_level := local_backpressure_level self;
          local_backpressure_reason := local_backpressure_reason self;
          local_retry_after_ms := local_retry_after_ms self;
          local_pressure_flags := local_pressure_flags self |})
  | MessageType.Backpressure =>
      (Ok tt,
       {| outbound_credit_window := outbound_credit_window self;
          inbound_credit_window := PressureMetadata.credit_window metadata;
          remote_backpressure_level := remote_backpressure_level self;
          remote_backpressure_reason := remote_backpressure_reason self;
          remote_retry_after_ms := remote_retry_after_ms self;
          remote_pressure_flags := remote_pressure_flags self;
          local_backpressure_level := PressureMetadata.pressure_level metadata;
          local_backpressure_reason := PressureMetadata.pressure_reason metadata;
          local_retry_after_ms := PressureMetadata.retry_after_ms metadata;
          local_pressure_flags := PressureMetadata.flags metadata |})
  | _ =>
      (Err (InvalidProtocolCombination
              "pressure state outbound update requires BACKPRESSURE or CREDIT_UPDATE"), self)
  end.

(** ** Two endpoints

    A message that one endpoint sends (and records with [apply_outbound]) is recorded
    by the other with [apply_inbound]. *)

(** What [a] imposes on the traffic it receives is what [b] knows of it. *)
Definition imposes (a b : t) : Prop :=
  inbound_credit_window a = outbound_credit_window b /\
  local_backpressure_level a = remote_backpressure_level b /\
  local_backpressure_reason a = remote_backpressure_reason b /\
  local_retry_after_ms a = remote_retry_after_ms b /\
  local_pressure_flags a = remote_pressure_flags b.

Definition mirrored (a b : t) : Prop := imposes a b /\ imposes b a.

(** A message from the first endpoint or from the second. *)
Inductive message :=
| FromFirst (mt : MessageType.t) (m : PressureMetadata.t)
| FromSecond (mt : MessageType.t) (m : PressureMetadata.t).

Definition deliver (msg : message) (ends : t * t) : t * t :=
  match msg with
  | FromFirst mt m => (state_after (apply_outbound mt m) ends.1, state_after (apply_inbound mt m) ends.2)
  | FromSecond mt m => (state_after (apply_inbound mt m) ends.1, state_after (apply_outbound mt m) ends.2)
  end.

Lemma deliver_mirrored msg a b :
  mirrored a b -> mirrored (deliver msg (a, b)).1 (deliver msg (a, b)).2.
Proof.
  intros [Hab Hba]. unfold mirrored, imposes in *. destruct msg as [mt m|mt m]; destruct mt; simpl;
    tauto.
Qed.

Lemma deliveries_mirrored msgs :
  let ends := foldl (fun e msg => deliver msg e) (default, default) msgs in
  mirrored ends.1 ends.2.
Proof.
  cbv zeta. assert (mirrored (default, default).1 (default, default).2) as H by done. revert H.
  generalize (default, default) as ends.
  induction msgs as [|msg msgs IH]; intros [a b] H; simpl; [done|].
  apply IH. by apply deliver_mirrored.
Qed.

(** Both endpoints accept a message or both refuse it. *)
Lemma deliver_agree mt m a b :
  is_ok (outcome_of (apply_outbound mt m) a) = is_ok (outcome_of (apply_inbound mt m) b).
Proof. by destruct mt. Qed.

(** ** Contract *)

(** However many pressure messages two endpoints exchange, in whatever order and of whatever
    type, what each one imposes on its peer (credit window, level, reason, delay, flags)
    is what the peer has recorded; both endpoints accept a message or both refuse it, and a
    refused one changes neither. *)
Theorem pressure_endpoints_agree msgs mt m :
  let ends := foldl (fun e msg => deliver msg e) (default, default) msgs in
  mirrored ends.1 ends.2 /\
  is_ok (outcome_of (apply_outbound mt m) ends.1) = is_ok (outcome_of (apply_inbound mt m) ends.2) /\
  (is_ok (outcome_of (apply_outbound mt m) ends.1) = false ->
   deliver (FromFirst mt m) ends = ends /\ deliver (FromSecond mt m) ends = ends).
Proof.
  cbv zeta. split; [apply deliveries_mirrored|]. set (ends := foldl _ _ _). destruct ends as [a b].
  split; [apply deliver_agree|]. by destruct mt.
Qed.

End RuntimePressureState.
