(* ===== verification/PreSubmit.v ===== *)
(** Deadline reservations ([src/crates/nnrp-runtime/src/pre_submit.rs]).

    A DEADLINE that arrives before its FRAME_SUBMIT is kept in a reservation, found
    by operation and by frame.  The two [BTreeMap]s index the same reservations; the
    invariant says so and the lemmas show that every operation keeps it. *)

From S2P Require Import Prelude Bytes Errors Enums Wire RuntimeControl RuntimeError.

Local Open Scope Z_scope.

Module Reservation.

Record t := mk { frame_id : Z; metadata : SchedulingMetadata.t }.

End Reservation.

Module PreSubmitDeadlineReservations.

Record t := mk {
  limit : nat;
  by_operation : gmap Z Reservation.t;
  by_frame : gmap Z Z
}.

Definition new (max_in_flight_operations : Z) : t := {|
  limit := Z.to_nat (Z.max max_in_flight_operations 1);
  by_operation := ∅;
  by_frame := ∅ |}.

Definition deadline (r : Reservation.t) : Z :=
  SchedulingMetadata.deadline_unix_ms (Reservation.metadata r).

Definition any_expired (self : t) (now_unix_ms : Z) : bool :=
  existsb (fun e => deadline e.2 <=? now_unix_ms) (map_to_list (by_operation self)).

Definition reject_expired (self : t) (now_unix_ms : Z) : Outcome RuntimeError unit :=
  reject_if (any_expired self now_unix_ms)
    (UnexpectedMessage "pre-submit DEADLINE expired before FRAME_SUBMIT").

Definition reserve (frame_id : Z) (metadata : SchedulingMetadata.t) (now_unix_ms : Z)
    : Method t RuntimeError unit := fun self =>
  let operation_id := SchedulingMetadata.operation_id metadata in
  let checked : Outcome RuntimeError unit :=
    _ ← reject_expired self now_unix_ms;
    _ ← reject_if ((frame_id =? 0) || (operation_id =? 0))
          (UnexpectedMessage "pre-submit DEADLINE requires non-zero operation and frame ids");
    _ ← reject_if (SchedulingMetadata.deadline_unix_ms metadata <=? now_unix_ms)
          (UnexpectedMessage "pre-submit DEADLINE is already expired");
    _ ← reject_if (is_some (by_operation self !! operation_id)
                   || is_some (by_frame self !! frame_id))
          (UnexpectedMessage "pre-submit DEADLINE reservation is duplicated");
    reject_if (limit self <=? size (by_operation self))%nat
      (UnexpectedMessage "pre-submit DEADLINE reservation limit exceeded") in
  match checked with
  | Ok _ =>
      (Ok tt,
       {| limit := limit self;
          by_operation :=
            <[operation_id := {| Reservation.frame_id := frame_id;
                                 Reservation.metadata := metadata |}]> (by_operation self);
          by_frame := <[frame_id := operation_id]> (by_frame self) |})
  | Err e => (Err e, self)
  | Panic => (Panic, self)
  end.

Definition remove_operation (operation_id : Z) (self : t) : option Reservation.t * t :=
  match by_operation self !! operation_id with
  | None => (None, self)
  | Some reservation =>
      (Some reservation,
       {| limit := limit self;
          by_operation := delete operation_id (by_operation self);
          by_frame := delete (Reservation.frame_id reservation) (by_frame self) |})
  end.

Definition take_for_submit (operation_id frame_id now_unix_ms : Z)
    : Method t RuntimeError (option SchedulingMetadata.t) := fun self =>
  match reject_expired self now_unix_ms with
  | Err e => (Err e, self)
  | Panic => (Panic, self)
  | Ok _ =>
      match remove_operation operation_id self with
      | (Some reservation, self) =>
          if negb (Reservation.frame_id reservation =? frame_id)
          then (Err (UnexpectedMessage
                       "FRAME_SUBMIT does not match its pre-submit DEADLINE frame id"), self)
          else (Ok (Some (Reservation.metadata reservation)), self)
      | (None, self) =>
          match by_frame self !! frame_id with
          | Some reserved_operation_id =>
              (Err (UnexpectedMessage
                      "FRAME_SUBMIT does not match its pre-submit DEADLINE operation id"),
               snd (remove_operation reserved_operation_id self))
          | None => (Ok None, self)
          end
      end
  end.

Definition discard (operation_id frame_id : Z) (self : t) : t :=
  match by_operation self !! operation_id with
  | Some reservation =>
      if Reservation.frame_id reservation =? frame_id
      then snd (remove_operation operation_id self) else self
  | None => self
  end.

(** ** The invariant *)

(** The two tables index the same reservations, under non-zero ids, within the limit. *)
Record invariant (self : t) : Prop := {
  inv_index op frame : by_frame self !! frame = Some op <->
    exists r, by_operation self !! op = Some r /\ Reservation.frame_id r = frame;
  inv_operation op r : by_operation self !! op = Some r ->
    SchedulingMetadata.operation_id (Reservation.metadata r) = op /\ op <> 0 /\
    Reservation.frame_id r <> 0;
  inv_limit : (size (by_operation self) <= limit self)%nat;
  inv_limit_positive : (1 <= limit self)%nat
}.

Inductive step : t -> t -> Prop :=
| step_reserve frame md now self : step self (state_after (reserve frame md now) self)
| step_take op frame now self : step self (state_after (take_for_submit op frame now) self)
| step_discard op frame self : step self (discard op frame self).

Definition reachable (self : t) : Prop := exists n, rtc step (new n) self.

Lemma reservations_new_invariant n : invariant (new n).
Proof.
  constructor; simpl.
  - intros op frame. rewrite lookup_empty. split; [done|]. intros (r & Hr & _).
    by rewrite lookup_empty in Hr.
  - by intros op r Hr.
  - rewrite map_size_empty. lia.
  - lia.
Qed.

(** What [reserve] requires. *)
Lemma reserve_Ok frame md now self self' :
  reserve frame md now self = (Ok tt, self') <->
  any_expired self now = false /\ frame <> 0 /\ SchedulingMetadata.operation_id md <> 0 /\
  now < SchedulingMetadata.deadline_unix_ms md /\
  by_operation self !! SchedulingMetadata.operation_id md = None /\ by_frame self !! frame = None /\
  (size (by_operation self) < limit self)%nat /\
  self' = {| limit := limit self;
             by_operation := <[SchedulingMetadata.operation_id md :=
               {| Reservation.frame_id := frame; Reservation.metadata := md |}]> (by_operation self);
             by_frame := <[frame := SchedulingMetadata.operation_id md]> (by_frame self) |}.
Proof.
  unfold reserve, reject_expired.
  destruct (any_expired self now); simpl; [by split; [|intros [[=] _]]|].
  destruct (Z.eqb_spec frame 0); simpl; [by split; [|intros (_ & ? & _)]|].
  destruct (Z.eqb_spec (SchedulingMetadata.operation_id md) 0); simpl;
    [by split; [|intros (_ & _ & ? & _)]|].
  destruct (Z.leb_spec (SchedulingMetadata.deadline_unix_ms md) now); simpl;
    [split; [done|intros (_ & _ & _ & ? & _); lia]|].
  destruct (by_operation self !! _); simpl; [by split; [|intros (_ & _ & _ & _ & [=] & _)]|].
  destruct (by_frame self !! frame); simpl; [by split; [|intros (_ & _ & _ & _ & _ & [=] & _)]|].
  destruct (Nat.leb_spec (limit self) (size (by_operation self))); simpl.
  - split; [done|]. intros (_ & _ & _ & _ & _ & _ & ? & _). lia.
  - split; [by intros [= <-]|]. by intros (_ & _ & _ & _ & _ & _ & _ & ->).
Qed.

Lemma reserve_error frame md now self :
  outcome_of (reserve frame md now) self <> Ok tt -> state_after (reserve frame md now) self = self.
Proof. unfold outcome_of, state_after, reserve. case_match; simpl; done. Qed.

Lemma reserve_invariant frame md now self self' :
  reserve frame md now self = (Ok tt, self') -> invariant self -> invariant self'.
Proof.
  intros (_ & Hf & Ho & _ & Hop & Hfr & Hsize & ->)%reserve_Ok Hi.
  set (op := SchedulingMetadata.operation_id md) in *. constructor; simpl.
  - intros op' frame'. rewrite lookup_insert_Some. split.
    + intros [[<- <-]|[Hne Hold]].
      * eexists. by rewrite lookup_insert_eq.
      * apply (inv_index _ Hi) in Hold as (r & Hr & Hrf). exists r. split; [|done].
        rewrite lookup_insert_ne by congruence. done.
    + intros (r & [[<- <-]|[Hne Hold]]%lookup_insert_Some & Hrf); [by left|].
      right. assert (by_frame self !! frame' = Some op') as Hb by (apply (inv_index _ Hi); eauto).
      split; [|done]. congruence.
  - intros op' r [[<- <-]|[_ Hold]]%lookup_insert_Some; [done|by apply (inv_operation _ Hi)].
  - rewrite map_size_insert_None by done. lia.
  - apply (inv_limit_positive _ Hi).
Qed.

Lemma remove_invariant op self : invariant self -> invariant (snd (remove_operation op self)).
Proof.
  intros Hi. unfold remove_operation. destruct (by_operation self !! op) as [r|] eqn:Hr; [|done].
  simpl. constructor; simpl.
  - intros op' frame'. rewrite lookup_delete_Some. setoid_rewrite lookup_delete_Some. split.
    + intros [Hne (r' & Hr' & Hf)%(inv_index _ Hi)]. exists r'. split; [|done].
      split; [|done]. intros <-. congruence.
    + intros (r' & [Hne Hr'] & Hf).
      assert (by_frame self !! frame' = Some op') as Hb by (apply (inv_index _ Hi); eauto).
      assert (by_frame self !! Reservation.frame_id r = Some op) as Hb'
        by (apply (inv_index _ Hi); eauto).
      split; [|done]. congruence.
  - intros op' r' [_ Hr']%lookup_delete_Some. by apply (inv_operation _ Hi).
  - rewrite map_size_delete_Some by eauto. pose proof (inv_limit _ Hi). lia.
  - apply (inv_limit_positive _ Hi).
Qed.

Lemma take_state op frame now self :
  exists ops, state_after (take_for_submit op frame now) self = self \/
    state_after (take_for_submit op frame now) self = snd (remove_operation ops self).
Proof.
  unfold state_after, take_for_submit. destruct (reject_expired self now); [|by exists op; left..].
  destruct (remove_operation op self) as [[r|] self1] eqn:Hr.
  - exists op. right. rewrite Hr. by case_match.
  - assert (self1 = self) as ->
      by (unfold remove_operation in Hr; destruct (by_operation self !! op); congruence).
    destruct (by_frame self !! frame) as [op'|]; [by exists op'; right|by exists op; left].
Qed.

Lemma step_invariant self self' : step self self' -> invariant self -> invariant self'.
Proof.
  intros [frame md now s|op frame now s|op frame s] Hi.
  - destruct (reserve frame md now s) as [o s'] eqn:Hr.
    destruct (decide (is_ok o = true)) as [Ho|Ho].
    + apply is_ok_unit in Ho. subst o. unfold state_after. rewrite Hr. by eapply reserve_invariant.
    + rewrite reserve_error; [done|]. unfold outcome_of. rewrite Hr. simpl. by intros ->.
  - destruct (take_state op frame now s) as (op' & [-> | ->]); [done|by apply remove_invariant].
  - unfold discard. repeat case_match; [by apply remove_invariant|done|done].
Qed.

Lemma reservations_reachable_invariant self : reachable self -> invariant self.
Proof.
  intros [n Hr]. cut (invariant (new n)); [|apply reservations_new_invariant].
  induction Hr as [|x y z Hxy _ IH]; [done|]. intros Hx. apply IH. by eapply step_invariant.
Qed.

(** ** Reserving and submitting *)

Lemma any_expired_false self now :
  any_expired self now = false <->
  forall op r, by_operation self !! op = Some r -> now < deadline r.
Proof.
  unfold any_expired. split.
  - intros He op r Hr. destruct (Z.leb_spec (deadline r) now) as [Hle|]; [|done].
    assert (existsb (fun e => deadline e.2 <=? now) (map_to_list (by_operation self)) = true) as Ht.
    { apply existsb_exists. exists (op, r). split; [|by apply Z.leb_le].
      by apply list_elem_of_In, elem_of_map_to_list. }
    congruence.
  - intros Hall. destruct (existsb _ _) eqn:He; [|done].
    apply existsb_exists in He as ([op r] & Hin%list_elem_of_In%elem_of_map_to_list & Hle%Z.leb_le).
    specialize (Hall _ _ Hin). simpl in Hle. lia.
Qed.

Definition removed (op : Z) (r : Reservation.t) (self : t) : t := {|
  limit := limit self;
  by_operation := delete op (by_operation self);
  by_frame := delete (Reservation.frame_id r) (by_frame self) |}.

(** A submission takes its own reservation, once. *)
Lemma take_reserved op frame now self r :
  any_expired self now = false -> by_operation self !! op = Some r ->
  Reservation.frame_id r = frame ->
  take_for_submit op frame now self = (Ok (Some (Reservation.metadata r)), removed op r self).
Proof.
  intros He Hr Hf. unfold take_for_submit, reject_expired, remove_operation.
  rewrite He, Hr. simpl. by rewrite (proj2 (Z.eqb_eq _ _) Hf).
Qed.

(** A deadline that is reserved is handed to the submission that matches it. *)
Lemma reserve_then_take frame md now now' self self' :
  reserve frame md now self = (Ok tt, self') ->
  now' < SchedulingMetadata.deadline_unix_ms md -> any_expired self now' = false ->
  exists self'',
    take_for_submit (SchedulingMetadata.operation_id md) frame now' self' = (Ok (Some md), self'') /\
    by_operation self'' = by_operation self /\ by_frame self'' = by_frame self.
Proof.
  intros (_ & _ & _ & _ & Hop & Hfr & _ & ->)%reserve_Ok Hnow He.
  eexists. split;
    [apply (take_reserved _ _ _ _ {| Reservation.frame_id := frame; Reservation.metadata := md |})|].
  - apply any_expired_false. rewrite any_expired_false in He. simpl.
    intros op r [[_ <-]|[_ Hr]]%lookup_insert_Some; [done|by apply (He op)].
  - apply lookup_insert_eq.
  - done.
  - simpl. split; by rewrite delete_insert_id.
Qed.

(** ** Contract *)

(** In every table of reservations a program can reach, the index by frame and the table
    by operation hold the same reservations, each under the ids it was made with, no id is
    zero, and there are no more of them than the limit. *)
Theorem reservations_indexed self :
  reachable self ->
  (forall op frame, by_frame self !! frame = Some op <->
     exists r, by_operation self !! op = Some r /\ Reservation.frame_id r = frame) /\
  (forall op r, by_operation self !! op = Some r ->
     SchedulingMetadata.operation_id (Reservation.metadata r) = op /\ op <> 0 /\
     Reservation.frame_id r <> 0) /\
  (size (by_operation self) <= limit self)%nat.
Proof.
  intros Hi%reservations_reachable_invariant.
  split; [apply (inv_index _ Hi)|]. split; [apply (inv_operation _ Hi)|apply (inv_limit _ Hi)].
Qed.

Definition deadline_at (op now : Z) : SchedulingMetadata.t := SchedulingMetadata.mk op 1 0 0 now 0.

(** Operation 3 has reserved frame 8 until 100. *)
Definition one_reservation : t := state_after (reserve 8 (deadline_at 3 100) 10) (new 2).

Lemma one_reservation_reachable : reachable one_reservation.
Proof. exists 2. apply rtc_once, step_reserve. Qed.

Lemma reservations_indexed_witness :
  by_frame one_reservation !! 8 = Some 3 /\
  exists r, by_operation one_reservation !! 3 = Some r /\ Reservation.frame_id r = 8.
Proof.
  split; [vm_compute; reflexivity|].
  apply (reservations_indexed one_reservation one_reservation_reachable). vm_compute; reflexivity.
Defined.

(** A deadline that has been reserved is handed to the submission of its operation and
    frame, when no reservation has expired by then; the tables are then what they were
    before the reservation, so that a second submission finds none. *)
Theorem reserved_deadline_delivered frame md now now' self self' :
  reserve frame md now self = (Ok tt, self') ->
  now' < SchedulingMetadata.deadline_unix_ms md -> any_expired self now' = false ->
  let op := SchedulingMetadata.operation_id md in
  exists self'',
    take_for_submit op frame now' self' = (Ok (Some md), self'') /\
    by_operation self'' = by_operation self /\ by_frame self'' = by_frame self /\
    take_for_submit op frame now' self'' = (Ok None, self'').
Proof.
  intros Hr Hd He. destruct (reserve_then_take _ _ _ _ _ _ Hr Hd He) as (self'' & Ht & Ho & Hf).
  apply reserve_Ok in Hr as (_ & _ & _ & _ & Hop & Hfr & _). exists self''. split_and!; [done..|].
  unfold take_for_submit, reject_expired, remove_operation.
  replace (any_expired self'' now') with false by (unfold any_expired in *; by rewrite Ho).
  by rewrite Ho, Hop, Hf, Hfr.
Qed.

Lemma reserved_deadline_delivered_witness :
  exists self'', take_for_submit 3 8 50 one_reservation = (Ok (Some (deadline_at 3 100)), self'') /\
    take_for_submit 3 8 50 self'' = (Ok None, self'').
Proof.
  destruct (reserved_deadline_delivered 8 (deadline_at 3 100) 10 50 (new 2) one_reservation)
    as (self'' & Ht & _ & _ & Ht'); [vm_compute; reflexivity|vm_compute; reflexivity|vm_compute; reflexivity|].
  exists self''. split; [exact Ht|exact Ht'].
Defined.

(** When no reservation has expired, a submission consumes whatever was reserved for its
    operation.  It is given metadata exactly when that reservation is for its frame, none
    exactly when neither its operation nor its frame is reserved, and the reservations
    of other operations and frames stay. *)
Theorem take_for_submit_contract op frame now self md :
  reachable self -> any_expired self now = false ->
  let self' := state_after (take_for_submit op frame now) self in
  by_operation self' !! op = None /\
  (outcome_of (take_for_submit op frame now) self = Ok (Some md) <->
   exists r, by_operation self !! op = Some r /\ Reservation.frame_id r = frame /\
     Reservation.metadata r = md) /\
  (outcome_of (take_for_submit op frame now) self = Ok None <->
   by_operation self !! op = None /\ by_frame self !! frame = None) /\
  (forall op' r, op' <> op -> by_operation self !! op' = Some r -> Reservation.frame_id r <> frame ->
     by_operation self' !! op' = Some r).
Proof.
  intros Hi%reservations_reachable_invariant He. cbv zeta.
  unfold state_after, outcome_of, take_for_submit, reject_expired, remove_operation. rewrite He. simpl.
  destruct (by_operation self !! op) as [r|] eqn:Hr.
  - destruct (Z.eqb_spec (Reservation.frame_id r) frame); simpl;
      (split; [apply lookup_delete_eq|]); (split; [naive_solver|]); (split; [naive_solver|]);
      intros op' r' Hne Hr' _; by rewrite lookup_delete_ne.
  - destruct (by_frame self !! frame) as [op'|] eqn:Hf; simpl; [|naive_solver].
    destruct (proj1 (inv_index _ Hi op' frame) Hf) as (r' & Hr' & Hf').
    rewrite Hr'. simpl. split; [by apply lookup_delete_None; right|].
    split; [naive_solver|]. split; [naive_solver|]. intros op2 r2 _ Hr2 Hne.
    rewrite lookup_delete_ne; [done|]. intros ->. congruence.
Qed.

Lemma take_for_submit_contract_witness :
  outcome_of (take_for_submit 3 9 50) one_reservation <> Ok None /\
  by_operation (state_after (take_for_submit 3 9 50) one_reservation) !! 3 = None.
Proof.
  destruct (take_for_submit_contract 3 9 50 one_reservation (deadline_at 3 100))
    as (Hgone & _ & Hnone & _); [exact one_reservation_reachable|vm_compute; reflexivity|].
  split; [|exact Hgone]. intros [Hop _]%Hnone. vm_compute in Hop. discriminate.
Defined.

End PreSubmitDeadlineReservations.
