(* ===== verification/Object.v ===== *)
(** Runtime objects ([src/crates/nnrp-core/src/object.rs]): descriptors, references,
    releases, deltas, cache references and misses, each with a declared tail, and the
    two whole packets the file builds and parses. *)

From S2P Require Import Prelude Bytes Errors Enums Wire Header.

Local Open Scope Z_scope.

Definition OBJECT_DESCRIPTOR_METADATA_LEN : nat := 48.
Definition OBJECT_REFERENCE_METADATA_LEN : nat := 48.
Definition OBJECT_RELEASE_METADATA_LEN : nat := 32.
Definition OBJECT_DELTA_METADATA_LEN : nat := 40.
Definition CACHE_REFERENCE_METADATA_LEN : nat := 56.
Definition CACHE_MISS_METADATA_LEN : nat := 32.
Definition OBJECT_REFERENCE_FLAGS_KNOWN_MASK : Z := 0x0000_0007.
Definition OBJECT_RELEASE_FLAGS_KNOWN_MASK : Z := 0x03.
Definition OBJECT_DELTA_FLAGS_KNOWN_MASK : Z := 0x0000_0007.
Definition CACHE_REFERENCE_FLAGS_KNOWN_MASK : Z := 0x0000_0003.

Module RuntimeObjectKind.

Inductive t :=
| Unspecified | Tensor | TokenBlock | ImageTile | FeatureMap | ToolResult
| TraceSegment | OpaqueBytes | DocumentChunk | AudioChunk | VideoChunk | RoutePlan
| CacheManifest.

Definition repr (x : t) : Z :=
  match x with
  | Unspecified => 0x0000
  | Tensor => 0x0001
  | TokenBlock => 0x0002
  | ImageTile => 0x0003
  | FeatureMap => 0x0004
  | ToolResult => 0x0005
  | TraceSegment => 0x0006
  | OpaqueBytes => 0x0007
  | DocumentChunk => 0x0008
  | AudioChunk => 0x0009
  | VideoChunk => 0x000a
  | RoutePlan => 0x000b
  | CacheManifest => 0x000c
  end.

Definition try_from_u16 (value : Z) : R t :=
  match value with
  | 0x0000 => Ok Unspecified
  | 0x0001 => Ok Tensor
  | 0x0002 => Ok TokenBlock
  | 0x0003 => Ok ImageTile
  | 0x0004 => Ok FeatureMap
  | 0x0005 => Ok ToolResult
  | 0x0006 => Ok TraceSegment
  | 0x0007 => Ok OpaqueBytes
  | 0x0008 => Ok DocumentChunk
  | 0x0009 => Ok AudioChunk
  | 0x000a => Ok VideoChunk
  | 0x000b => Ok RoutePlan
  | 0x000c => Ok CacheManifest
  | _ => Err (UnknownEnumValue "runtime_object_kind" value)
  end.

#[global] Instance eq_dec : EqDecision t.
Proof. solve_decision. Defined.

End RuntimeObjectKind.

#[export] Instance RuntimeObjectKind_enum : WireEnum RuntimeObjectKind.t :=
  {| enum_width := 2; enum_repr := RuntimeObjectKind.repr; enum_try_from := RuntimeObjectKind.try_from_u16 |}.
#[export] Instance RuntimeObjectKind_laws : WireEnumLaws RuntimeObjectKind.t.
Proof. solve_enum RuntimeObjectKind.try_from_u16. Qed.

Module RuntimeRole.

Inductive t :=
| Unspecified | Client | Server | Runtime | Subagent | Tool | Scheduler
| ConformanceRunner.

Definition repr (x : t) : Z :=
  match x with
  | Unspecified => 0x00
  | Client => 0x01
  | Server => 0x02
  | Runtime => 0x03
  | Subagent => 0x04
  | Tool => 0x05
  | Scheduler => 0x06
  | ConformanceRunner => 0x07
  end.

Definition try_from_u8 (value : Z) : R t :=
  match value with
  | 0x00 => Ok Unspecified
  | 0x01 => Ok Client
  | 0x02 => Ok Server
  | 0x03 => Ok Runtime
  | 0x04 => Ok Subagent
  | 0x05 => Ok Tool
  | 0x06 => Ok Scheduler
  | 0x07 => Ok ConformanceRunner
  | _ => Err (UnknownEnumValue "runtime_role" value)
  end.

#[global] Instance eq_dec : EqDecision t.
Proof. solve_decision. Defined.

End RuntimeRole.

#[export] Instance RuntimeRole_enum : WireEnum RuntimeRole.t :=
  {| enum_width := 1; enum_repr := RuntimeRole.repr; enum_try_from := RuntimeRole.try_from_u8 |}.
#[export] Instance RuntimeRole_laws : WireEnumLaws RuntimeRole.t.
Proof. solve_enum RuntimeRole.try_from_u8. Qed.

Module MemoryLocationHint.

Inductive t :=
| Unspecified | HostMemory | DeviceMemory | SharedMemory | RemoteMemory | MmapFile
| ObjectStore.

Definition repr (x : t) : Z :=
  match x with
  | Unspecified => 0x0000
  | HostMemory => 0x0001
  | DeviceMemory => 0x0002
  | SharedMemory => 0x0003
  | RemoteMemory => 0x0004
  | MmapFile => 0x0005
  | ObjectStore => 0x0006
  end.

Definition try_from_u16 (value : Z) : R t :=
  match value with
  | 0x0000 => Ok Unspecified
  | 0x0001 => Ok HostMemory
  | 0x0002 => Ok DeviceMemory
  | 0x0003 => Ok SharedMemory
  | 0x0004 => Ok RemoteMemory
  | 0x0005 => Ok MmapFile
  | 0x0006 => Ok ObjectStore
  | _ => Err (UnknownEnumValue "memory_location_hint" value)
  end.

#[global] Instance eq_dec : EqDecision t.
Proof. solve_decision. Defined.

End MemoryLocationHint.

#[export] Instance MemoryLocationHint_enum : WireEnum MemoryLocationHint.t :=
  {| enum_width := 2; enum_repr := MemoryLocationHint.repr; enum_try_from := MemoryLocationHint.try_from_u16 |}.
#[export] Instance MemoryLocationHint_laws : WireEnumLaws MemoryLocationHint.t.
Proof. solve_enum MemoryLocationHint.try_from_u16. Qed.

Module OwnershipHint.

Inductive t :=
| Unspecified | ProducerOwned | ConsumerOwned | SessionOwned | Borrowed | TransferOnRef
| ReleaseOnDrop.

Definition repr (x : t) : Z :=
  match x with
  | Unspecified => 0x0000
  | ProducerOwned => 0x0001
  | ConsumerOwned => 0x0002
  | SessionOwned => 0x0003
  | Borrowed => 0x0004
  | TransferOnRef => 0x0005
  | ReleaseOnDrop => 0x0006
  end.

Definition try_from_u16 (value : Z) : R t :=
  match value with
  | 0x0000 => Ok Unspecified
  | 0x0001 => Ok ProducerOwned
  | 0x0002 => Ok ConsumerOwned
  | 0x0003 => Ok SessionOwned
  | 0x0004 => Ok Borrowed
  | 0x0005 => Ok TransferOnRef
  | 0x0006 => Ok ReleaseOnDrop
  | _ => Err (UnknownEnumValue "ownership_hint" value)
  end.

#[global] Instance eq_dec : EqDecision t.
Proof. solve_decision. Defined.

End OwnershipHint.

#[export] Instance OwnershipHint_enum : WireEnum OwnershipHint.t :=
  {| enum_width := 2; enum_repr := OwnershipHint.repr; enum_try_from := OwnershipHint.try_from_u16 |}.
#[export] Instance OwnershipHint_laws : WireEnumLaws OwnershipHint.t.
Proof. solve_enum OwnershipHint.try_from_u16. Qed.

Module ObjectReleaseReason.

Inductive t :=
| Completed | Cancelled | Expired | Replaced | Invalidated | OwnerClosed | LeaseExpired
| ConformanceInjection.

Definition repr (x : t) : Z :=
  match x with
  | Completed => 0x0000
  | Cancelled => 0x0001
  | Expired => 0x0002
  | Replaced => 0x0003
  | Invalidated => 0x0004
  | OwnerClosed => 0x0005
  | LeaseExpired => 0x0006
  | ConformanceInjection => 0x0007
  end.

Definition try_from_u16 (value : Z) : R t :=
  match value with
  | 0x0000 => Ok Completed
  | 0x0001 => Ok Cancelled
  | 0x0002 => Ok Expired
  | 0x0003 => Ok Replaced
  | 0x0004 => Ok Invalidated
  | 0x0005 => Ok OwnerClosed
  | 0x0006 => Ok LeaseExpired
  | 0x0007 => Ok ConformanceInjection
  | _ => Err (UnknownEnumValue "object_release_reason" value)
  end.

#[global] Instance eq_dec : EqDecision t.
Proof. solve_decision. Defined.

End ObjectReleaseReason.

#[export] Instance ObjectReleaseReason_enum : WireEnum ObjectReleaseReason.t :=
  {| enum_width := 2; enum_repr := ObjectReleaseReason.repr; enum_try_from := ObjectReleaseReason.try_from_u16 |}.
#[export] Instance ObjectReleaseReason_laws : WireEnumLaws ObjectReleaseReason.t.
Proof. solve_enum ObjectReleaseReason.try_from_u16. Qed.

Module CacheReuseScope.

Inductive t :=
| Operation | Session | Connection | Global | Tenant | Profile.

Definition repr (x : t) : Z :=
  match x with
  | Operation => 0x0000
  | Session => 0x0001
  | Connection => 0x0002
  | Global => 0x0003
  | Tenant => 0x0004
  | Profile => 0x0005
  end.

Definition try_from_u16 (value : Z) : R t :=
  match value with
  | 0x0000 => Ok Operation
  | 0x0001 => Ok Session
  | 0x0002 => Ok Connection
  | 0x0003 => Ok Global
  | 0x0004 => Ok Tenant
  | 0x0005 => Ok Profile
  | _ => Err (UnknownEnumValue "cache_reuse_scope" value)
  end.

#[global] Instance eq_dec : EqDecision t.
Proof. solve_decision. Defined.

End CacheReuseScope.

#[export] Instance CacheReuseScope_enum : WireEnum CacheReuseScope.t :=
  {| enum_width := 2; enum_repr := CacheReuseScope.repr; enum_try_from := CacheReuseScope.try_from_u16 |}.
#[export] Instance CacheReuseScope_laws : WireEnumLaws CacheReuseScope.t.
Proof. solve_enum CacheReuseScope.try_from_u16. Qed.

Module CacheMissReason.

Inductive t :=
| Unknown | NotFound | Expired | Invalidated | SchemaMismatch | ProducerUnavailable
| LeaseRequired | PermissionDenied.

Definition repr (x : t) : Z :=
  match x with
  | Unknown => 0x0000
  | NotFound => 0x0001
  | Expired => 0x0002
  | Invalidated => 0x0003
  | SchemaMismatch => 0x0004
  | ProducerUnavailable => 0x0005
  | LeaseRequired => 0x0006
  | PermissionDenied => 0x0007
  end.

Definition try_from_u16 (value : Z) : R t :=
  match value with
  | 0x0000 => Ok Unknown
  | 0x0001 => Ok NotFound
  | 0x0002 => Ok Expired
  | 0x0003 => Ok Invalidated
  | 0x0004 => Ok SchemaMismatch
  | 0x0005 => Ok ProducerUnavailable
  | 0x0006 => Ok LeaseRequired
  | 0x0007 => Ok PermissionDenied
  | _ => Err (UnknownEnumValue "cache_miss_reason" value)
  end.

#[global] Instance eq_dec : EqDecision t.
Proof. solve_decision. Defined.

End CacheMissReason.

#[export] Instance CacheMissReason_enum : WireEnum CacheMissReason.t :=
  {| enum_width := 2; enum_repr := CacheMissReason.repr; enum_try_from := CacheMissReason.try_from_u16 |}.
#[export] Instance CacheMissReason_laws : WireEnumLaws CacheMissReason.t.
Proof. solve_enum CacheMissReason.try_from_u16. Qed.

Module ObjectDescriptorMetadata.

#[projections(primitive)]
Record t := mk {
  object_id : Z;
  object_kind : RuntimeObjectKind.t;
  producer_role : RuntimeRole.t;
  consumer_role : RuntimeRole.t;
  session_id : Z;
  byte_size : Z;
  compute_cost_units : Z;
  memory_location_hint : MemoryLocationHint.t;
  ownership_hint : OwnershipHint.t;
  lifetime_hint_ms : Z;
  metadata_bytes : Z
}.

Definition parse (source : bytes) : R t :=
  _ ← require_len source OBJECT_DESCRIPTOR_METADATA_LEN;
  reserved ← read_u64 source 40;
  _ ← validate_zero "object_descriptor.reserved" reserved;
  object_id ← read_u64 source 0;
  object_kind_raw ← read_u16 source 8;
  object_kind ← RuntimeObjectKind.try_from_u16 object_kind_raw;
  producer_role_raw ← index source 10;
  producer_role ← RuntimeRole.try_from_u8 producer_role_raw;
  consumer_role_raw ← index source 11;
  consumer_role ← RuntimeRole.try_from_u8 consumer_role_raw;
  session_id ← read_u32 source 12;
  byte_size ← read_u64 source 16;
  compute_cost_units ← read_u32 source 24;
  memory_location_hint_raw ← read_u16 source 28;
  memory_location_hint ← MemoryLocationHint.try_from_u16 memory_location_hint_raw;
  ownership_hint_raw ← read_u16 source 30;
  ownership_hint ← OwnershipHint.try_from_u16 ownership_hint_raw;
  lifetime_hint_ms ← read_u32 source 32;
  metadata_bytes ← read_u32 source 36;
  Ok {| object_id := object_id; object_kind := object_kind; producer_role := producer_role;
      consumer_role := consumer_role; session_id := session_id; byte_size := byte_size;
      compute_cost_units := compute_cost_units; memory_location_hint := memory_location_hint;
      ownership_hint := ownership_hint; lifetime_hint_ms := lifetime_hint_ms;
      metadata_bytes := metadata_bytes |}.

Definition write (m : t) (destination : bytes) : R bytes :=
  _ ← require_destination_len destination OBJECT_DESCRIPTOR_METADATA_LEN;
  destination ← fill_zero destination OBJECT_DESCRIPTOR_METADATA_LEN;
  destination ← write_u64 destination 0 (object_id m);
  destination ← write_u16 destination 8 (RuntimeObjectKind.repr (object_kind m));
  destination ← write_u8 destination 10 (RuntimeRole.repr (producer_role m));
  destination ← write_u8 destination 11 (RuntimeRole.repr (consumer_role m));
  destination ← write_u32 destination 12 (session_id m);
  destination ← write_u64 destination 16 (byte_size m);
  destination ← write_u32 destination 24 (compute_cost_units m);
  destination ← write_u16 destination 28 (MemoryLocationHint.repr (memory_location_hint m));
  destination ← write_u16 destination 30 (OwnershipHint.repr (ownership_hint m));
  destination ← write_u32 destination 32 (lifetime_hint_ms m);
  destination ← write_u32 destination 36 (metadata_bytes m);
  Ok destination.

Definition to_bytes (m : t) : R bytes := write m (replicate OBJECT_DESCRIPTOR_METADATA_LEN x00).

Definition layout (m : t) : list field :=
  [ F (KU 8) (object_id m); F (KU 2) (RuntimeObjectKind.repr (object_kind m));
      F (KU 1) (RuntimeRole.repr (producer_role m));
      F (KU 1) (RuntimeRole.repr (consumer_role m)); F (KU 4) (session_id m);
      F (KU 8) (byte_size m); F (KU 4) (compute_cost_units m);
      F (KU 2) (MemoryLocationHint.repr (memory_location_hint m));
      F (KU 2) (OwnershipHint.repr (ownership_hint m)); F (KU 4) (lifetime_hint_ms m);
      F (KU 4) (metadata_bytes m); F (KU 8) 0 ].

Definition guard (m : t) : bool := true.

Definition parse_with_extension (source : bytes) : R (t * bytes) :=
  metadata ← parse source;
  extension ← split_declared_tail source OBJECT_DESCRIPTOR_METADATA_LEN (metadata_bytes metadata) "object_descriptor.metadata_bytes";
  Ok (metadata, extension).

Definition to_vec_with_extension (m : t) (extension : bytes) : R bytes :=
  _ ← require_declared_len "object_descriptor.metadata_bytes" (metadata_bytes m) (len extension);
  bytes ← to_bytes m;
  Ok (bytes ++ extension).

End ObjectDescriptorMetadata.

#[export] Instance ObjectDescriptorMetadata_codec : WireCodec ObjectDescriptorMetadata.t := {|
  codec_len := OBJECT_DESCRIPTOR_METADATA_LEN;
  codec_shape := [KU 8; KU 2; KU 1; KU 1; KU 4; KU 8; KU 4; KU 2; KU 2; KU 4; KU 4; KU 8 ];
  codec_parse := ObjectDescriptorMetadata.parse;
  codec_write := ObjectDescriptorMetadata.write;
  codec_layout := ObjectDescriptorMetadata.layout;
  codec_guard := ObjectDescriptorMetadata.guard |}.
#[export] Instance ObjectDescriptorMetadata_codec_laws : WireCodecLaws ObjectDescriptorMetadata.t.
Proof. solve_codec ObjectDescriptorMetadata.parse ObjectDescriptorMetadata.write ObjectDescriptorMetadata.guard. Qed.
#[export] Instance ObjectDescriptorMetadata_strict : StrictWireCodec ObjectDescriptorMetadata.t.
Proof. solve_strict ObjectDescriptorMetadata.write ObjectDescriptorMetadata.guard. Qed.

#[export] Instance ObjectDescriptorMetadata_tailed : TailedCodec ObjectDescriptorMetadata.t := {|
  tail_field := "object_descriptor.metadata_bytes";
  tail_declared := ObjectDescriptorMetadata.metadata_bytes;
  tail_check := fun _ _ => Ok tt;
  parse_with_tail := ObjectDescriptorMetadata.parse_with_extension;
  to_vec_with_tail := ObjectDescriptorMetadata.to_vec_with_extension |}.
#[export] Instance ObjectDescriptorMetadata_tailed_laws : TailedCodecLaws ObjectDescriptorMetadata.t.
Proof. solve_tailed. Qed.

Module ObjectReferenceMetadata.

#[projections(primitive)]
Record t := mk {
  object_id : Z;
  operation_id : Z;
  object_version : Z;
  offset : Z;
  length : Z;
  flags : Z;
  metadata_bytes : Z
}.

Definition parse (source : bytes) : R t :=
  _ ← require_len source OBJECT_REFERENCE_METADATA_LEN;
  flags ← read_u32 source 40;
  _ ← validate_mask_u32 flags OBJECT_REFERENCE_FLAGS_KNOWN_MASK;
  object_id ← read_u64 source 0;
  operation_id ← read_u64 source 8;
  object_version ← read_u64 source 16;
  offset ← read_u64 source 24;
  length ← read_u64 source 32;
  metadata_bytes ← read_u32 source 44;
  Ok {| object_id := object_id; operation_id := operation_id; object_version := object_version;
      offset := offset; length := length; flags := flags; metadata_bytes := metadata_bytes |}.

Definition write (m : t) (destination : bytes) : R bytes :=
  _ ← require_destination_len destination OBJECT_REFERENCE_METADATA_LEN;
  _ ← validate_mask_u32 (flags m) OBJECT_REFERENCE_FLAGS_KNOWN_MASK;
  destination ← write_u64 destination 0 (object_id m);
  destination ← write_u64 destination 8 (operation_id m);
  destination ← write_u64 destination 16 (object_version m);
  destination ← write_u64 destination 24 (offset m);
  destination ← write_u64 destination 32 (length m);
  destination ← write_u32 destination 40 (flags m);
  destination ← write_u32 destination 44 (metadata_bytes m);
  Ok destination.

Definition to_bytes (m : t) : R bytes := write m (replicate OBJECT_REFERENCE_METADATA_LEN x00).

Definition layout (m : t) : list field :=
  [ F (KU 8) (object_id m); F (KU 8) (operation_id m); F (KU 8) (object_version m);
      F (KU 8) (offset m); F (KU 8) (length m); F (KU 4) (flags m);
      F (KU 4) (metadata_bytes m) ].

Definition guard (m : t) : bool := mask_ok 32 (flags m) OBJECT_REFERENCE_FLAGS_KNOWN_MASK.

Definition parse_with_extension (source : bytes) : R (t * bytes) :=
  metadata ← parse source;
  extension ← split_declared_tail source OBJECT_REFERENCE_METADATA_LEN (metadata_bytes metadata) "object_reference.metadata_bytes";
  Ok (metadata, extension).

Definition to_vec_with_extension (m : t) (extension : bytes) : R bytes :=
  _ ← require_declared_len "object_reference.metadata_bytes" (metadata_bytes m) (len extension);
  bytes ← to_bytes m;
  Ok (bytes ++ extension).

End ObjectReferenceMetadata.

#[export] Instance ObjectReferenceMetadata_codec : WireCodec ObjectReferenceMetadata.t := {|
  codec_len := OBJECT_REFERENCE_METADATA_LEN;
  codec_shape := [KU 8; KU 8; KU 8; KU 8; KU 8; KU 4; KU 4 ];
  codec_parse := ObjectReferenceMetadata.parse;
  codec_write := ObjectReferenceMetadata.write;
  codec_layout := ObjectReferenceMetadata.layout;
  codec_guard := ObjectReferenceMetadata.guard |}.
#[export] Instance ObjectReferenceMetadata_codec_laws : WireCodecLaws ObjectReferenceMetadata.t.
Proof. solve_codec ObjectReferenceMetadata.parse ObjectReferenceMetadata.write ObjectReferenceMetadata.guard. Qed.
#[export] Instance ObjectReferenceMetadata_strict : StrictWireCodec ObjectReferenceMetadata.t.
Proof. solve_strict ObjectReferenceMetadata.write ObjectReferenceMetadata.guard. Qed.

#[export] Instance ObjectReferenceMetadata_tailed : TailedCodec ObjectReferenceMetadata.t := {|
  tail_field := "object_reference.metadata_bytes";
  tail_declared := ObjectReferenceMetadata.metadata_bytes;
  tail_check := fun _ _ => Ok tt;
  parse_with_tail := ObjectReferenceMetadata.parse_with_extension;
  to_vec_with_tail := ObjectReferenceMetadata.to_vec_with_extension |}.
#[export] Instance ObjectReferenceMetadata_tailed_laws : TailedCodecLaws ObjectReferenceMetadata.t.
Proof. solve_tailed. Qed.

Module ObjectReleaseMetadata.

#[projections(primitive)]
Record t := mk {
  object_id : Z;
  operation_id : Z;
  release_reason : ObjectReleaseReason.t;
  source_role : RuntimeRole.t;
  flags : Z;
  diagnostic_bytes : Z
}.

Definition parse (source : bytes) : R t :=
  _ ← require_len source OBJECT_RELEASE_METADATA_LEN;
  flags ← index source 19;
  _ ← validate_mask_u8 flags OBJECT_RELEASE_FLAGS_KNOWN_MASK;
  reserved ← read_u64 source 24;
  _ ← validate_zero "object_release.reserved" reserved;
  object_id ← read_u64 source 0;
  operation_id ← read_u64 source 8;
  release_reason_raw ← read_u16 source 16;
  release_reason ← ObjectReleaseReason.try_from_u16 release_reason_raw;
  source_role_raw ← index source 18;
  source_role ← RuntimeRole.try_from_u8 source_role_raw;
  diagnostic_bytes ← read_u32 source 20;
  Ok {| object_id := object_id; operation_id := operation_id; release_reason := release_reason;
      source_role := source_role; flags := flags; diagnostic_bytes := diagnostic_bytes |}.

Definition write (m : t) (destination : bytes) : R bytes :=
  _ ← require_destination_len destination OBJECT_RELEASE_METADATA_LEN;
  _ ← validate_mask_u8 (flags m) OBJECT_RELEASE_FLAGS_KNOWN_MASK;
  destination ← fill_zero destination OBJECT_RELEASE_METADATA_LEN;
  destination ← write_u64 destination 0 (object_id m);
  destination ← write_u64 destination 8 (operation_id m);
  destination ← write_u16 destination 16 (ObjectReleaseReason.repr (release_reason m));
  destination ← write_u8 destination 18 (RuntimeRole.repr (source_role m));
  destination ← write_u8 destination 19 (flags m);
  destination ← write_u32 destination 20 (diagnostic_bytes m);
  Ok destination.

Definition to_bytes (m : t) : R bytes := write m (replicate OBJECT_RELEASE_METADATA_LEN x00).

Definition layout (m : t) : list field :=
  [ F (KU 8) (object_id m); F (KU 8) (operation_id m);
      F (KU 2) (ObjectReleaseReason.repr (release_reason m));
      F (KU 1) (RuntimeRole.repr (source_role m)); F (KU 1) (flags m);
      F (KU 4) (diagnostic_bytes m); F (KU 8) 0 ].

Definition guard (m : t) : bool := mask_ok 8 (flags m) OBJECT_RELEASE_FLAGS_KNOWN_MASK.

Definition parse_with_diagnostics (source : bytes) : R (t * bytes) :=
  metadata ← parse source;
  diagnostics ← split_declared_tail source OBJECT_RELEASE_METADATA_LEN (diagnostic_bytes metadata) "object_release.diagnostic_bytes";
  Ok (metadata, diagnostics).

Definition to_vec_with_diagnostics (m : t) (diagnostics : bytes) : R bytes :=
  _ ← require_declared_len "object_release.diagnostic_bytes" (diagnostic_bytes m) (len diagnostics);
  bytes ← to_bytes m;
  Ok (bytes ++ diagnostics).

End ObjectReleaseMetadata.

#[export] Instance ObjectReleaseMetadata_codec : WireCodec ObjectReleaseMetadata.t := {|
  codec_len := OBJECT_RELEASE_METADATA_LEN;
  codec_shape := [KU 8; KU 8; KU 2; KU 1; KU 1; KU 4; KU 8 ];
  codec_parse := ObjectReleaseMetadata.parse;
  codec_write := ObjectReleaseMetadata.write;
  codec_layout := ObjectReleaseMetadata.layout;
  codec_guard := ObjectReleaseMetadata.guard |}.
#[export] Instance ObjectReleaseMetadata_codec_laws : WireCodecLaws ObjectReleaseMetadata.t.
Proof. solve_codec ObjectReleaseMetadata.parse ObjectReleaseMetadata.write ObjectReleaseMetadata.guard. Qed.
#[export] Instance ObjectReleaseMetadata_strict : StrictWireCodec ObjectReleaseMetadata.t.
Proof. solve_strict ObjectReleaseMetadata.write ObjectReleaseMetadata.guard. Qed.

#[export] Instance ObjectReleaseMetadata_tailed : TailedCodec ObjectReleaseMetadata.t := {|
  tail_field := "object_release.diagnostic_bytes";
  tail_declared := ObjectReleaseMetadata.diagnostic_bytes;
  tail_check := fun _ _ => Ok tt;
  parse_with_tail := ObjectReleaseMetadata.parse_with_diagnostics;
  to_vec_with_tail := ObjectReleaseMetadata.to_vec_with_diagnostics |}.
#[export] Instance ObjectReleaseMetadata_tailed_laws : TailedCodecLaws ObjectReleaseMetadata.t.
Proof. solve_tailed. Qed.

Module ObjectDeltaMetadata.

#[projections(primitive)]
Record t := mk {
  object_id : Z;
  delta_sequence : Z;
  region_offset : Z;
  region_bytes : Z;
  delta_bytes : Z;
  flags : Z;
  metadata_bytes : Z
}.

Definition parse (source : bytes) : R t :=
  _ ← require_len source OBJECT_DELTA_METADATA_LEN;
  flags ← read_u32 source 32;
  _ ← validate_mask_u32 flags OBJECT_DELTA_FLAGS_KNOWN_MASK;
  object_id ← read_u64 source 0;
  delta_sequence ← read_u64 source 8;
  region_offset ← read_u64 source 16;
  region_bytes ← read_u32 source 24;
  delta_bytes ← read_u32 source 28;
  metadata_bytes ← read_u32 source 36;
  Ok {| object_id := object_id; delta_sequence := delta_sequence;
      region_offset := region_offset; region_bytes := region_bytes; delta_bytes := delta_bytes;
      flags := flags; metadata_bytes := metadata_bytes |}.

Definition write (m : t) (destination : bytes) : R bytes :=
  _ ← require_destination_len destination OBJECT_DELTA_METADATA_LEN;
  _ ← validate_mask_u32 (flags m) OBJECT_DELTA_FLAGS_KNOWN_MASK;
  destination ← write_u64 destination 0 (object_id m);
  destination ← write_u64 destination 8 (delta_sequence m);
  destination ← write_u64 destination 16 (region_offset m);
  destination ← write_u32 destination 24 (region_bytes m);
  destination ← write_u32 destination 28 (delta_bytes m);
  destination ← write_u32 destination 32 (flags m);
  destination ← write_u32 destination 36 (metadata_bytes m);
  Ok destination.

Definition to_bytes (m : t) : R bytes := write m (replicate OBJECT_DELTA_METADATA_LEN x00).

Definition layout (m : t) : list field :=
  [ F (KU 8) (object_id m); F (KU 8) (delta_sequence m); F (KU 8) (region_offset m);
      F (KU 4) (region_bytes m); F (KU 4) (delta_bytes m); F (KU 4) (flags m);
      F (KU 4) (metadata_bytes m) ].

Definition guard (m : t) : bool := mask_ok 32 (flags m) OBJECT_DELTA_FLAGS_KNOWN_MASK.

Definition parse_with_extension (source : bytes) : R (t * bytes) :=
  metadata ← parse source;
  extension ← split_declared_tail source OBJECT_DELTA_METADATA_LEN (metadata_bytes metadata) "object_delta.metadata_bytes";
  Ok (metadata, extension).

Definition to_vec_with_extension (m : t) (extension : bytes) : R bytes :=
  _ ← require_declared_len "object_delta.metadata_bytes" (metadata_bytes m) (len extension);
  bytes ← to_bytes m;
  Ok (bytes ++ extension).

End ObjectDeltaMetadata.

#[export] Instance ObjectDeltaMetadata_codec : WireCodec ObjectDeltaMetadata.t := {|
  codec_len := OBJECT_DELTA_METADATA_LEN;
  codec_shape := [KU 8; KU 8; KU 8; KU 4; KU 4; KU 4; KU 4 ];
  codec_parse := ObjectDeltaMetadata.parse;
  codec_write := ObjectDeltaMetadata.write;
  codec_layout := ObjectDeltaMetadata.layout;
  codec_guard := ObjectDeltaMetadata.guard |}.
#[export] Instance ObjectDeltaMetadata_codec_laws : WireCodecLaws ObjectDeltaMetadata.t.
Proof. solve_codec ObjectDeltaMetadata.parse ObjectDeltaMetadata.write ObjectDeltaMetadata.guard. Qed.
#[export] Instance ObjectDeltaMetadata_strict : StrictWireCodec ObjectDeltaMetadata.t.
Proof. solve_strict ObjectDeltaMetadata.write ObjectDeltaMetadata.guard. Qed.

#[export] Instance ObjectDeltaMetadata_tailed : TailedCodec ObjectDeltaMetadata.t := {|
  tail_field := "object_delta.metadata_bytes";
  tail_declared := ObjectDeltaMetadata.metadata_bytes;
  tail_check := fun _ _ => Ok tt;
  parse_with_tail := ObjectDeltaMetadata.parse_with_extension;
  to_vec_with_tail := ObjectDeltaMetadata.to_vec_with_extension |}.
#[export] Instance ObjectDeltaMetadata_tailed_laws : TailedCodecLaws ObjectDeltaMetadata.t.
Proof. solve_tailed. Qed.

Module CacheReferenceMetadata.

#[projections(primitive)]
Record t := mk {
  cache_namespace : Z;
  cache_key_hi : Z;
  cache_key_lo : Z;
  profile_id : Z;
  reuse_scope : CacheReuseScope.t;
  lease_id : Z;
  producer_trace_id : Z;
  expiration_hint_ms : Z;
  metadata_bytes : Z;
  flags : Z
}.

Definition parse (source : bytes) : R t :=
  _ ← require_len source CACHE_REFERENCE_METADATA_LEN;
  flags ← read_u32 source 48;
  _ ← validate_mask_u32 flags CACHE_REFERENCE_FLAGS_KNOWN_MASK;
  reserved ← read_u32 source 52;
  _ ← validate_zero "cache_reference.reserved" reserved;
  cache_namespace ← read_u32 source 0;
  profile_id ← read_u16 source 4;
  reuse_scope_raw ← read_u16 source 6;
  reuse_scope ← CacheReuseScope.try_from_u16 reuse_scope_raw;
  cache_key_hi ← read_u64 source 8;
  cache_key_lo ← read_u64 source 16;
  lease_id ← read_u64 source 24;
  producer_trace_id ← read_u64 source 32;
  expiration_hint_ms ← read_u32 source 40;
  metadata_bytes ← read_u32 source 44;
  Ok {| cache_namespace := cache_namespace; cache_key_hi := cache_key_hi;
      cache_key_lo := cache_key_lo; profile_id := profile_id; reuse_scope := reuse_scope;
      lease_id := lease_id; producer_trace_id := producer_trace_id;
      expiration_hint_ms := expiration_hint_ms; metadata_bytes := metadata_bytes;
      flags := flags |}.

Definition write (m : t) (destination : bytes) : R bytes :=
  _ ← require_destination_len destination CACHE_REFERENCE_METADATA_LEN;
  _ ← validate_mask_u32 (flags m) CACHE_REFERENCE_FLAGS_KNOWN_MASK;
  destination ← fill_zero destination CACHE_REFERENCE_METADATA_LEN;
  destination ← write_u32 destination 0 (cache_namespace m);
  destination ← write_u16 destination 4 (profile_id m);
  destination ← write_u16 destination 6 (CacheReuseScope.repr (reuse_scope m));
  destination ← write_u64 destination 8 (cache_key_hi m);
  destination ← write_u64 destination 16 (cache_key_lo m);
  destination ← write_u64 destination 24 (lease_id m);
  destination ← write_u64 destination 32 (producer_trace_id m);
  destination ← write_u32 destination 40 (expiration_hint_ms m);
  destination ← write_u32 destination 44 (metadata_bytes m);
  destination ← write_u32 destination 48 (flags m);
  Ok destination.

Definition to_bytes (m : t) : R bytes := write m (replicate CACHE_REFERENCE_METADATA_LEN x00).

Definition layout (m : t) : list field :=
  [ F (KU 4) (cache_namespace m); F (KU 2) (profile_id m);
      F (KU 2) (CacheReuseScope.repr (reuse_scope m)); F (KU 8) (cache_key_hi m);
      F (KU 8) (cache_key_lo m); F (KU 8) (lease_id m); F (KU 8) (producer_trace_id m);
      F (KU 4) (expiration_hint_ms m); F (KU 4) (metadata_bytes m); F (KU 4) (flags m);
      F (KU 4) 0 ].

Definition guard (m : t) : bool := mask_ok 32 (flags m) CACHE_REFERENCE_FLAGS_KNOWN_MASK.

Definition parse_with_extension (source : bytes) : R (t * bytes) :=
  metadata ← parse source;
  extension ← split_declared_tail source CACHE_REFERENCE_METADATA_LEN (metadata_bytes metadata) "cache_reference.metadata_bytes";
  Ok (metadata, extension).

Definition to_vec_with_extension (m : t) (extension : bytes) : R bytes :=
  _ ← require_declared_len "cache_reference.metadata_bytes" (metadata_bytes m) (len extension);
  bytes ← to_bytes m;
  Ok (bytes ++ extension).

End CacheReferenceMetadata.

#[export] Instance CacheReferenceMetadata_codec : WireCodec CacheReferenceMetadata.t := {|
  codec_len := CACHE_REFERENCE_METADATA_LEN;
  codec_shape := [KU 4; KU 2; KU 2; KU 8; KU 8; KU 8; KU 8; KU 4; KU 4; KU 4; KU 4 ];
  codec_parse := CacheReferenceMetadata.parse;
  codec_write := CacheReferenceMetadata.write;
  codec_layout := CacheReferenceMetadata.layout;
  codec_guard := CacheReferenceMetadata.guard |}.
#[export] Instance CacheReferenceMetadata_codec_laws : WireCodecLaws CacheReferenceMetadata.t.
Proof. solve_codec CacheReferenceMetadata.parse CacheReferenceMetadata.write CacheReferenceMetadata.guard. Qed.
#[export] Instance CacheReferenceMetadata_strict : StrictWireCodec CacheReferenceMetadata.t.
Proof. solve_strict CacheReferenceMetadata.write CacheReferenceMetadata.guard. Qed.

#[export] Instance CacheReferenceMetadata_tailed : TailedCodec CacheReferenceMetadata.t := {|
  tail_field := "cache_reference.metadata_bytes";
  tail_declared := CacheReferenceMetadata.metadata_bytes;
  tail_check := fun _ _ => Ok tt;
  parse_with_tail := CacheReferenceMetadata.parse_with_extension;
  to_vec_with_tail := CacheReferenceMetadata.to_vec_with_extension |}.
#[export] Instance CacheReferenceMetadata_tailed_laws : TailedCodecLaws CacheReferenceMetadata.t.
Proof. solve_tailed. Qed.

Module CacheMissMetadata.

#[projections(primitive)]
Record t := mk {
  cache_namespace : Z;
  cache_key_hi : Z;
  cache_key_lo : Z;
  miss_reason : CacheMissReason.t;
  profile_id : Z;
  diagnostic_bytes : Z
}.

Definition parse (source : bytes) : R t :=
  _ ← require_len source CACHE_MISS_METADATA_LEN;
  reserved ← read_u32 source 28;
  _ ← validate_zero "cache_miss.reserved" reserved;
  cache_namespace ← read_u32 source 0;
  profile_id ← read_u16 source 4;
  miss_reason_raw ← read_u16 source 6;
  miss_reason ← CacheMissReason.try_from_u16 miss_reason_raw;
  cache_key_hi ← read_u64 source 8;
  cache_key_lo ← read_u64 source 16;
  diagnostic_bytes ← read_u32 source 24;
  Ok {| cache_namespace := cache_namespace; cache_key_hi := cache_key_hi;
      cache_key_lo := cache_key_lo; miss_reason := miss_reason; profile_id := profile_id;
      diagnostic_bytes := diagnostic_bytes |}.

Definition write (m : t) (destination : bytes) : R bytes :=
  _ ← require_destination_len destination CACHE_MISS_METADATA_LEN;
  destination ← fill_zero destination CACHE_MISS_METADATA_LEN;
  destination ← write_u32 destination 0 (cache_namespace m);
  destination ← write_u16 destination 4 (profile_id m);
  destination ← write_u16 destination 6 (CacheMissReason.repr (miss_reason m));
  destination ← write_u64 destination 8 (cache_key_hi m);
  destination ← write_u64 destination 16 (cache_key_lo m);
  destination ← write_u32 destination 24 (diagnostic_bytes m);
  Ok destination.

Definition to_bytes (m : t) : R bytes := write m (replicate CACHE_MISS_METADATA_LEN x00).

Definition layout (m : t) : list field :=
  [ F (KU 4) (cache_namespace m); F (KU 2) (profile_id m);
      F (KU 2) (CacheMissReason.repr (miss_reason m)); F (KU 8) (cache_key_hi m);
      F (KU 8) (cache_key_lo m); F (KU 4) (diagnostic_bytes m); F (KU 4) 0 ].

Definition guard (m : t) : bool := true.

Definition parse_with_diagnostics (source : bytes) : R (t * bytes) :=
  metadata ← parse source;
  diagnostics ← split_declared_tail source CACHE_MISS_METADATA_LEN (diagnostic_bytes metadata) "cache_miss.diagnostic_bytes";
  Ok (metadata, diagnostics).

Definition to_vec_with_diagnostics (m : t) (diagnostics : bytes) : R bytes :=
  _ ← require_declared_len "cache_miss.diagnostic_bytes" (diagnostic_bytes m) (len diagnostics);
  bytes ← to_bytes m;
  Ok (bytes ++ diagnostics).

End CacheMissMetadata.

#[export] Instance CacheMissMetadata_codec : WireCodec CacheMissMetadata.t := {|
  codec_len := CACHE_MISS_METADATA_LEN;
  codec_shape := [KU 4; KU 2; KU 2; KU 8; KU 8; KU 4; KU 4 ];
  codec_parse := CacheMissMetadata.parse;
  codec_write := CacheMissMetadata.write;
  codec_layout := CacheMissMetadata.layout;
  codec_guard := CacheMissMetadata.guard |}.
#[export] Instance CacheMissMetadata_codec_laws : WireCodecLaws CacheMissMetadata.t.
Proof. solve_codec CacheMissMetadata.parse CacheMissMetadata.write CacheMissMetadata.guard. Qed.
#[export] Instance CacheMissMetadata_strict : StrictWireCodec CacheMissMetadata.t.
Proof. solve_strict CacheMissMetadata.write CacheMissMetadata.guard. Qed.

#[export] Instance CacheMissMetadata_tailed : TailedCodec CacheMissMetadata.t := {|
  tail_field := "cache_miss.diagnostic_bytes";
  tail_declared := CacheMissMetadata.diagnostic_bytes;
  tail_check := fun _ _ => Ok tt;
  parse_with_tail := CacheMissMetadata.parse_with_diagnostics;
  to_vec_with_tail := CacheMissMetadata.to_vec_with_diagnostics |}.
#[export] Instance CacheMissMetadata_tailed_laws : TailedCodecLaws CacheMissMetadata.t.
Proof. solve_tailed. Qed.

(** ** Packets *)

Module ObjectReferencePacket.

Record t := mk {
  header : CommonHeader.t;
  metadata : ObjectReferenceMetadata.t;
  extension_metadata : bytes
}.

End ObjectReferencePacket.

Module ObjectDeltaPacket.

Record t := mk {
  header : CommonHeader.t;
  metadata : ObjectDeltaMetadata.t;
  extension_metadata : bytes;
  delta_payload : bytes
}.

End ObjectDeltaPacket.

Definition require_message_type (actual expected : MessageType.t) : R unit :=
  reject_if (negb (bool_decide (actual = expected)))
    (InvalidProtocolCombination "object packet message type does not match parser").

(** [u32::try_from(value)]. *)
Definition checked_u32_len (value : Z) : R Z :=
  if value <=? u32_max then Ok value else Err MessageLengthOverflow.

Definition parse_object_reference_packet `{Target} (source : bytes) : R ObjectReferencePacket.t :=
  p ← CommonHeader.parse_packet source;
  let '(header, metadata_bytes, body) := p in
  _ ← require_message_type (CommonHeader.message_type header) MessageType.ObjectRef;
  _ ← require_declared_len "object_reference.body_len" 0 (len body);
  q ← ObjectReferenceMetadata.parse_with_extension metadata_bytes;
  Ok {| ObjectReferencePacket.header := header; ObjectReferencePacket.metadata := fst q;
        ObjectReferencePacket.extension_metadata := snd q |}.

Definition object_reference_packet_bytes
    (metadata : ObjectReferenceMetadata.t) (extension_metadata : bytes) : R bytes :=
  metadata_bytes ← ObjectReferenceMetadata.to_vec_with_extension metadata extension_metadata;
  meta_len ← checked_u32_len (len metadata_bytes);
  packet ← CommonHeader.to_bytes (CommonHeader.new MessageType.ObjectRef meta_len 0);
  Ok (packet ++ metadata_bytes).

Definition parse_object_delta_packet `{Target} (source : bytes) : R ObjectDeltaPacket.t :=
  p ← CommonHeader.parse_packet source;
  let '(header, metadata_bytes, body) := p in
  _ ← require_message_type (CommonHeader.message_type header) MessageType.ObjectDelta;
  q ← ObjectDeltaMetadata.parse_with_extension metadata_bytes;
  _ ← require_declared_len "object_delta.delta_bytes"
        (ObjectDeltaMetadata.delta_bytes (fst q)) (len body);
  Ok {| ObjectDeltaPacket.header := header; ObjectDeltaPacket.metadata := fst q;
        ObjectDeltaPacket.extension_metadata := snd q; ObjectDeltaPacket.delta_payload := body |}.

Definition object_delta_packet_bytes
    (metadata : ObjectDeltaMetadata.t) (extension_metadata delta_payload : bytes) : R bytes :=
  _ ← require_declared_len "object_delta.delta_bytes"
        (ObjectDeltaMetadata.delta_bytes metadata) (len delta_payload);
  metadata_bytes ← ObjectDeltaMetadata.to_vec_with_extension metadata extension_metadata;
  meta_len ← checked_u32_len (len metadata_bytes);
  body_len ← checked_u32_len (len delta_payload);
  packet ← CommonHeader.to_bytes (CommonHeader.new MessageType.ObjectDelta meta_len body_len);
  Ok (packet ++ metadata_bytes ++ delta_payload).

Lemma checked_u32_len_Ok v w : checked_u32_len v = Ok w <-> w = v /\ v <= u32_max.
Proof. unfold checked_u32_len. destruct (Z.leb_spec v u32_max); split; try done; [intros [= <-]; done|intros [-> _]; done|lia]. Qed.


Section packets.
Context `{Htarget : Target}.

Lemma object_reference_packet_bytes_Ok m extension bs :
  object_reference_packet_bytes m extension = Ok bs <->
  exists md, to_vec_with_tail m extension = Ok md /\ len md <= u32_max /\
    bs = wire (CommonHeader.new MessageType.ObjectRef (len md) 0) ++ md.
Proof.
  unfold object_reference_packet_bytes. split.
  - intros Hb. apply bind_Ok in Hb as (md & Hmd & Hb).
    apply bind_Ok in Hb as (ml & [-> Hml]%checked_u32_len_Ok & Hb).
    rewrite new_header_bytes in Hb by (unfold len, u32_max in *; lia).
    apply (inj Ok) in Hb as <-. eauto.
  - intros (md & Hmd & Hml & ->). eapply bind_step; [exact Hmd|cbv beta].
    eapply bind_step; [by apply checked_u32_len_Ok|cbv beta].
    by rewrite new_header_bytes by (unfold len, u32_max in *; lia).
Qed.

Lemma object_delta_packet_bytes_Ok m extension payload bs :
  object_delta_packet_bytes m extension payload = Ok bs <->
  ObjectDeltaMetadata.delta_bytes m = len payload /\
  exists md, to_vec_with_tail m extension = Ok md /\ len md <= u32_max /\
    len payload <= u32_max /\
    bs = wire (CommonHeader.new MessageType.ObjectDelta (len md) (len payload)) ++ md ++ payload.
Proof.
  unfold object_delta_packet_bytes. split.
  - intros Hb. apply bind_Ok in Hb as (u & Hd%require_declared_len_Ok & Hb).
    apply bind_Ok in Hb as (md & Hmd & Hb).
    apply bind_Ok in Hb as (ml & [-> Hml]%checked_u32_len_Ok & Hb).
    apply bind_Ok in Hb as (bl & [-> Hbl]%checked_u32_len_Ok & Hb).
    rewrite new_header_bytes in Hb by (unfold len, u32_max in *; lia).
    apply (inj Ok) in Hb as <-. eauto 10.
  - intros (Hd & md & Hmd & Hml & Hbl & ->).
    eapply (bind_step _ _ tt); [by apply require_declared_len_Ok|cbv beta].
    eapply bind_step; [exact Hmd|cbv beta].
    do 2 (eapply bind_step; [by apply checked_u32_len_Ok; split; [reflexivity|]|cbv beta]).
    by rewrite new_header_bytes by (unfold len, u32_max in *; lia).
Qed.

(** The reference packet that is built parses back to what it was built from. *)
Lemma reference_packet_round_trip m extension bs :
  typed m = true -> object_reference_packet_bytes m extension = Ok bs -> len bs <= usize_max ->
  parse_object_reference_packet bs =
  Ok {| ObjectReferencePacket.header :=
          CommonHeader.new MessageType.ObjectRef (len bs - Z.of_nat COMMON_HEADER_LEN) 0;
        ObjectReferencePacket.metadata := m;
        ObjectReferencePacket.extension_metadata := extension |}.
Proof.
  intros Ht (md & Hmd & Hml & Hbs)%object_reference_packet_bytes_Ok Hfit.
  assert (len bs = Z.of_nat COMMON_HEADER_LEN + len md) as Hlen.
  { rewrite Hbs. unfold len. rewrite length_app, length_wire. simpl codec_len. lia. }
  pose proof (new_packet_parse MessageType.ObjectRef md []) as Hp. rewrite app_nil_r in Hp.
  rewrite Hlen, Z.add_simpl_l. subst bs. unfold parse_object_reference_packet.
  eapply bind_step; [apply Hp; change (len []) with 0; lia|cbv beta iota].
  eapply (bind_step _ _ tt); [done|cbv beta].
  eapply (bind_step _ _ tt); [done|cbv beta].
  eapply bind_step; [exact (to_vec_then_parse m extension md Ht Hmd)|done].
Qed.

Lemma delta_packet_round_trip m extension payload bs :
  typed m = true -> object_delta_packet_bytes m extension payload = Ok bs ->
  len bs - Z.of_nat COMMON_HEADER_LEN <= u32_max -> len bs <= usize_max ->
  parse_object_delta_packet bs =
  Ok {| ObjectDeltaPacket.header :=
          CommonHeader.new MessageType.ObjectDelta
            (len bs - Z.of_nat COMMON_HEADER_LEN - len payload) (len payload);
        ObjectDeltaPacket.metadata := m;
        ObjectDeltaPacket.extension_metadata := extension;
        ObjectDeltaPacket.delta_payload := payload |}.
Proof.
  intros Ht (Hd & md & Hmd & Hml & Hbl & Hbs)%object_delta_packet_bytes_Ok Hsum Hfit.
  assert (len bs = Z.of_nat COMMON_HEADER_LEN + (len md + len payload)) as Hlen.
  { rewrite Hbs. unfold len. rewrite !length_app, length_wire. simpl codec_len. lia. }
  rewrite Hlen, Z.add_simpl_l, Z.add_simpl_r. rewrite Hlen in Hsum, Hfit. subst bs.
  unfold parse_object_delta_packet.
  eapply bind_step; [apply new_packet_parse; lia|cbv beta iota].
  eapply (bind_step _ _ tt); [done|cbv beta].
  eapply bind_step; [exact (to_vec_then_parse m extension md Ht Hmd)|cbv beta].
  eapply (bind_step _ _ tt); [by apply require_declared_len_Ok|done].
Qed.

(** A delta packet whose metadata and payload together exceed a [u32] is built, but
    no receiver parses it. *)
Lemma delta_packet_overflow m extension payload bs :
  object_delta_packet_bytes m extension payload = Ok bs ->
  u32_max < len bs - Z.of_nat COMMON_HEADER_LEN ->
  parse_object_delta_packet bs = Err MessageLengthOverflow.
Proof.
  intros (Hd & md & Hmd & Hml & Hbl & Hbs)%object_delta_packet_bytes_Ok Hsum.
  set (h := CommonHeader.new MessageType.ObjectDelta (len md) (len payload)) in *.
  assert (len bs = Z.of_nat COMMON_HEADER_LEN + (len md + len payload)) as Hlen.
  { rewrite Hbs. unfold len. rewrite !length_app, length_wire. simpl codec_len. lia. }
  assert (CommonHeader.parse bs = Ok h) as Hp.
  { rewrite Hbs. refine (law_parse_wire (A := CommonHeader.t) h _ _).
    apply new_header_valid; unfold len in *; lia. }
  assert (CommonHeader.packet_len h = Err MessageLengthOverflow) as Ho.
  { apply packet_len_overflow. unfold packet_fits. simpl. lia. }
  unfold parse_object_delta_packet, CommonHeader.parse_packet.
  apply bind_error. eapply bind_step; [exact Hp|]. by apply bind_error.
Qed.
End packets.

(** ** Contract *)

(** The OBJECT_REF packet that is built parses back to the metadata and the extension it
    was built from.  The OBJECT_DELTA packet does so too, with its payload, when its
    length fits the header's arithmetic; a longer one is built all the same, and every
    receiver refuses it with a length overflow. *)
Theorem object_packet_contract (T : Target) :
  (forall m extension bs,
     typed m = true -> object_reference_packet_bytes m extension = Ok bs -> len bs <= usize_max ->
     exists header, parse_object_reference_packet bs =
       Ok {| ObjectReferencePacket.header := header; ObjectReferencePacket.metadata := m;
             ObjectReferencePacket.extension_metadata := extension |}) /\
  (forall m extension payload bs,
     typed m = true -> object_delta_packet_bytes m extension payload = Ok bs -> len bs <= usize_max ->
     if len bs - Z.of_nat COMMON_HEADER_LEN <=? u32_max then
       exists header, parse_object_delta_packet bs =
         Ok {| ObjectDeltaPacket.header := header; ObjectDeltaPacket.metadata := m;
               ObjectDeltaPacket.extension_metadata := extension;
               ObjectDeltaPacket.delta_payload := payload |}
     else parse_object_delta_packet bs = Err MessageLengthOverflow).
Proof.
  split.
  - intros m extension bs Ht Hb Hl. eexists. by apply reference_packet_round_trip.
  - intros m extension payload bs Ht Hb Hl. destruct (Z.leb_spec (len bs - Z.of_nat COMMON_HEADER_LEN) u32_max).
    + eexists. by apply delta_packet_round_trip.
    + by eapply delta_packet_overflow.
Qed.
