(* ===== verification/Cache.v ===== *)
(** Cache metadata and cache bookkeeping ([src/crates/nnrp-core/src/cache.rs]): the three
    cache messages, object identity and invalidation, leases, dependencies and
    the reuse policy. *)

From S2P Require Import Prelude Bytes Errors Enums Wire Codes Object.

Local Open Scope Z_scope.

Definition CACHE_PUT_METADATA_LEN : nat := 40.
Definition CACHE_ACK_METADATA_LEN : nat := 40.
Definition CACHE_INVALIDATE_METADATA_LEN : nat := 32.
Definition CACHE_PUT_FLAGS_KNOWN_MASK : Z := 0x0000_0003.

Module CacheObjectKind.

Inductive t :=
| CameraBlock | TileIndexBlock | TensorSectionTable | CodecTable | ReusableResultObject
| PayloadLayoutTemplate | PromptSegment | ToolSchema | StructuredEventSchema.

Definition repr (x : t) : Z :=
  match x with
  | CameraBlock => 0x0001
  | TileIndexBlock => 0x0002
  | TensorSectionTable => 0x0003
  | CodecTable => 0x0004
  | ReusableResultObject => 0x0005
  | PayloadLayoutTemplate => 0x0006
  | PromptSegment => 0x0007
  | ToolSchema => 0x0008
  | StructuredEventSchema => 0x0009
  end.

Definition try_from_u32 (value : Z) : R t :=
  match value with
  | 0x0001 => Ok CameraBlock
  | 0x0002 => Ok TileIndexBlock
  | 0x0003 => Ok TensorSectionTable
  | 0x0004 => Ok CodecTable
  | 0x0005 => Ok ReusableResultObject
  | 0x0006 => Ok PayloadLayoutTemplate
  | 0x0007 => Ok PromptSegment
  | 0x0008 => Ok ToolSchema
  | 0x0009 => Ok StructuredEventSchema
  | _ => Err (UnknownEnumValue "cache_object_kind" value)
  end.

#[global] Instance eq_dec : EqDecision t.
Proof. solve_decision. Defined.

End CacheObjectKind.

#[export] Instance CacheObjectKind_enum : WireEnum CacheObjectKind.t :=
  {| enum_width := 4; enum_repr := CacheObjectKind.repr; enum_try_from := CacheObjectKind.try_from_u32 |}.
#[export] Instance CacheObjectKind_laws : WireEnumLaws CacheObjectKind.t.
Proof. solve_enum CacheObjectKind.try_from_u32. Qed.

Module CacheAckStatus.

Inductive t :=
| Accepted | Rejected | Replaced.

Definition repr (x : t) : Z :=
  match x with
  | Accepted => 0
  | Rejected => 1
  | Replaced => 2
  end.

Definition try_from_u32 (value : Z) : R t :=
  match value with
  | 0 => Ok Accepted
  | 1 => Ok Rejected
  | 2 => Ok Replaced
  | _ => Err (UnknownEnumValue "cache_ack_status" value)
  end.

#[global] Instance eq_dec : EqDecision t.
Proof. solve_decision. Defined.

End CacheAckStatus.

#[export] Instance CacheAckStatus_enum : WireEnum CacheAckStatus.t :=
  {| enum_width := 4; enum_repr := CacheAckStatus.repr; enum_try_from := CacheAckStatus.try_from_u32 |}.
#[export] Instance CacheAckStatus_laws : WireEnumLaws CacheAckStatus.t.
Proof. solve_enum CacheAckStatus.try_from_u32. Qed.

Module CacheInvalidateScope.

Inductive t :=
| WholeSession | Namespace | ObjectKind | ObjectKey.

Definition repr (x : t) : Z :=
  match x with
  | WholeSession => 0
  | Namespace => 1
  | ObjectKind => 2
  | ObjectKey => 3
  end.

Definition try_from_u32 (value : Z) : R t :=
  match value with
  | 0 => Ok WholeSession
  | 1 => Ok Namespace
  | 2 => Ok ObjectKind
  | 3 => Ok ObjectKey
  | _ => Err (UnknownEnumValue "cache_invalidate_scope" value)
  end.

#[global] Instance eq_dec : EqDecision t.
Proof. solve_decision. Defined.

End CacheInvalidateScope.

#[export] Instance CacheInvalidateScope_enum : WireEnum CacheInvalidateScope.t :=
  {| enum_width := 4; enum_repr := CacheInvalidateScope.repr; enum_try_from := CacheInvalidateScope.try_from_u32 |}.
#[export] Instance CacheInvalidateScope_laws : WireEnumLaws CacheInvalidateScope.t.
Proof. solve_enum CacheInvalidateScope.try_from_u32. Qed.

Module CachePutMetadata.

#[projections(primitive)]
Record t := mk {
  cache_namespace : Z;
  cache_key_hi : Z;
  cache_key_lo : Z;
  object_kind : CacheObjectKind.t;
  ttl_ms : Z;
  object_bytes : Z;
  codec_bitmap : Z;
  flags : Z
}.

Definition parse (source : bytes) : R t :=
  _ ← require_len source CACHE_PUT_METADATA_LEN;
  flags ← read_u32 source 36;
  _ ← validate_mask_u32 flags CACHE_PUT_FLAGS_KNOWN_MASK;
  cache_namespace ← read_u32 source 0;
  cache_key_hi ← read_u64 source 8;
  cache_key_lo ← read_u64 source 16;
  object_kind_raw ← read_u32 source 4;
  object_kind ← CacheObjectKind.try_from_u32 object_kind_raw;
  ttl_ms ← read_u32 source 24;
  object_bytes ← read_u32 source 28;
  codec_bitmap ← read_u32 source 32;
  Ok {| cache_namespace := cache_namespace; cache_key_hi := cache_key_hi;
      cache_key_lo := cache_key_lo; object_kind := object_kind; ttl_ms := ttl_ms;
      object_bytes := object_bytes; codec_bitmap := codec_bitmap; flags := flags |}.

Definition write (m : t) (destination : bytes) : R bytes :=
  _ ← require_destination_len destination CACHE_PUT_METADATA_LEN;
  _ ← validate_mask_u32 (flags m) CACHE_PUT_FLAGS_KNOWN_MASK;
  destination ← write_u32 destination 0 (cache_namespace m);
  destination ← write_u32 destination 4 (CacheObjectKind.repr (object_kind m));
  destination ← write_u64 destination 8 (cache_key_hi m);
  destination ← write_u64 destination 16 (cache_key_lo m);
  destination ← write_u32 destination 24 (ttl_ms m);
  destination ← write_u32 destination 28 (object_bytes m);
  destination ← write_u32 destination 32 (codec_bitmap m);
  destination ← write_u32 destination 36 (flags m);
  Ok destination.

Definition to_bytes (m : t) : R bytes := write m (replicate CACHE_PUT_METADATA_LEN x00).

Definition layout (m : t) : list field :=
  [ F (KU 4) (cache_namespace m); F (KU 4) (CacheObjectKind.repr (object_kind m));
      F (KU 8) (cache_key_hi m); F (KU 8) (cache_key_lo m); F (KU 4) (ttl_ms m);
      F (KU 4) (object_bytes m); F (KU 4) (codec_bitmap m); F (KU 4) (flags m) ].

Definition guard (m : t) : bool := mask_ok 32 (flags m) CACHE_PUT_FLAGS_KNOWN_MASK.

End CachePutMetadata.

#[export] Instance CachePutMetadata_codec : WireCodec CachePutMetadata.t := {|
  codec_len := CACHE_PUT_METADATA_LEN;
  codec_shape := [KU 4; KU 4; KU 8; KU 8; KU 4; KU 4; KU 4; KU 4 ];
  codec_parse := CachePutMetadata.parse;
  codec_write := CachePutMetadata.write;
  codec_layout := CachePutMetadata.layout;
  codec_guard := CachePutMetadata.guard |}.
#[export] Instance CachePutMetadata_codec_laws : WireCodecLaws CachePutMetadata.t.
Proof. solve_codec CachePutMetadata.parse CachePutMetadata.write CachePutMetadata.guard. Qed.
#[export] Instance CachePutMetadata_strict : StrictWireCodec CachePutMetadata.t.
Proof. solve_strict CachePutMetadata.write CachePutMetadata.guard. Qed.

Module CacheAckMetadata.

#[projections(primitive)]
Record t := mk {
  cache_namespace : Z;
  cache_key_hi : Z;
  cache_key_lo : Z;
  status : CacheAckStatus.t;
  accepted_ttl_ms : Z;
  max_object_bytes : Z;
  detail_code : Z
}.

Definition parse (source : bytes) : R t :=
  _ ← require_len source CACHE_ACK_METADATA_LEN;
  reserved ← read_u32 source 36;
  _ ← validate_zero "cache_ack.reserved" reserved;
  cache_namespace ← read_u32 source 0;
  cache_key_hi ← read_u64 source 8;
  cache_key_lo ← read_u64 source 16;
  status_raw ← read_u32 source 4;
  status ← CacheAckStatus.try_from_u32 status_raw;
  accepted_ttl_ms ← read_u32 source 24;
  max_object_bytes ← read_u32 source 28;
  detail_code ← read_u32 source 32;
  Ok {| cache_namespace := cache_namespace; cache_key_hi := cache_key_hi;
      cache_key_lo := cache_key_lo; status := status; accepted_ttl_ms := accepted_ttl_ms;
      max_object_bytes := max_object_bytes; detail_code := detail_code |}.

Definition write (m : t) (destination : bytes) : R bytes :=
  _ ← require_destination_len destination CACHE_ACK_METADATA_LEN;
  destination ← fill_zero destination CACHE_ACK_METADATA_LEN;
  destination ← write_u32 destination 0 (cache_namespace m);
  destination ← write_u32 destination 4 (CacheAckStatus.repr (status m));
  destination ← write_u64 destination 8 (cache_key_hi m);
  destination ← write_u64 destination 16 (cache_key_lo m);
  destination ← write_u32 destination 24 (accepted_ttl_ms m);
  destination ← write_u32 destination 28 (max_object_bytes m);
  destination ← write_u32 destination 32 (detail_code m);
  Ok destination.

Definition to_bytes (m : t) : R bytes := write m (replicate CACHE_ACK_METADATA_LEN x00).

Definition layout (m : t) : list field :=
  [ F (KU 4) (cache_namespace m); F (KU 4) (CacheAckStatus.repr (status m));
      F (KU 8) (cache_key_hi m); F (KU 8) (cache_key_lo m); F (KU 4) (accepted_ttl_ms m);
      F (KU 4) (max_object_bytes m); F (KU 4) (detail_code m); F (KU 4) 0 ].

Definition guard (m : t) : bool := true.

End CacheAckMetadata.

#[export] Instance CacheAckMetadata_codec : WireCodec CacheAckMetadata.t := {|
  codec_len := CACHE_ACK_METADATA_LEN;
  codec_shape := [KU 4; KU 4; KU 8; KU 8; KU 4; KU 4; KU 4; KU 4 ];
  codec_parse := CacheAckMetadata.parse;
  codec_write := CacheAckMetadata.write;
  codec_layout := CacheAckMetadata.layout;
  codec_guard := CacheAckMetadata.guard |}.
#[export] Instance CacheAckMetadata_codec_laws : WireCodecLaws CacheAckMetadata.t.
Proof. solve_codec CacheAckMetadata.parse CacheAckMetadata.write CacheAckMetadata.guard. Qed.
#[export] Instance CacheAckMetadata_strict : StrictWireCodec CacheAckMetadata.t.
Proof. solve_strict CacheAckMetadata.write CacheAckMetadata.guard. Qed.

Module CacheInvalidateMetadata.

#[projections(primitive)]
Record t := mk {
  invalidate_scope : CacheInvalidateScope.t;
  cache_namespace : Z;
  cache_key_hi : Z;
  cache_key_lo : Z;
  reason_code : Z
}.

Definition validate_scope_fields (m : t) : R unit :=
  let valid :=
    match invalidate_scope m with
    | CacheInvalidateScope.WholeSession =>
        (cache_namespace m =? 0) && (cache_key_hi m =? 0) && (cache_key_lo m =? 0)
    | CacheInvalidateScope.Namespace => (cache_key_hi m =? 0) && (cache_key_lo m =? 0)
    | CacheInvalidateScope.ObjectKind => (cache_key_hi m <=? u32_max) && (cache_key_lo m =? 0)
    | CacheInvalidateScope.ObjectKey => true
    end in
  reject_if (negb valid)
    (InvalidProtocolCombination "cache invalidate identity fields must match invalidate_scope").


Definition parse (source : bytes) : R t :=
  _ ← require_len source CACHE_INVALIDATE_METADATA_LEN;
  reserved ← read_u32 source 28;
  _ ← validate_zero "cache_invalidate.reserved" reserved;
  invalidate_scope_raw ← read_u32 source 0;
  invalidate_scope ← CacheInvalidateScope.try_from_u32 invalidate_scope_raw;
  cache_namespace ← read_u32 source 4;
  cache_key_hi ← read_u64 source 8;
  cache_key_lo ← read_u64 source 16;
  reason_code ← read_u32 source 24;
  let metadata := {| invalidate_scope := invalidate_scope; cache_namespace := cache_namespace;
      cache_key_hi := cache_key_hi; cache_key_lo := cache_key_lo;
      reason_code := reason_code |} in
  _ ← validate_scope_fields metadata;
  Ok metadata.

Definition write (m : t) (destination : bytes) : R bytes :=
  _ ← require_destination_len destination CACHE_INVALIDATE_METADATA_LEN;
  _ ← validate_scope_fields m;
  destination ← fill_zero destination CACHE_INVALIDATE_METADATA_LEN;
  destination ← write_u32 destination 0 (CacheInvalidateScope.repr (invalidate_scope m));
  destination ← write_u32 destination 4 (cache_namespace m);
  destination ← write_u64 destination 8 (cache_key_hi m);
  destination ← write_u64 destination 16 (cache_key_lo m);
  destination ← write_u32 destination 24 (reason_code m);
  Ok destination.

Definition to_bytes (m : t) : R bytes := write m (replicate CACHE_INVALIDATE_METADATA_LEN x00).

Definition layout (m : t) : list field :=
  [ F (KU 4) (CacheInvalidateScope.repr (invalidate_scope m)); F (KU 4) (cache_namespace m);
      F (KU 8) (cache_key_hi m); F (KU 8) (cache_key_lo m); F (KU 4) (reason_code m);
      F (KU 4) 0 ].

Definition guard (m : t) : bool := is_ok (validate_scope_fields m).

End CacheInvalidateMetadata.

#[export] Instance CacheInvalidateMetadata_codec : WireCodec CacheInvalidateMetadata.t := {|
  codec_len := CACHE_INVALIDATE_METADATA_LEN;
  codec_shape := [KU 4; KU 4; KU 8; KU 8; KU 4; KU 4 ];
  codec_parse := CacheInvalidateMetadata.parse;
  codec_write := CacheInvalidateMetadata.write;
  codec_layout := CacheInvalidateMetadata.layout;
  codec_guard := CacheInvalidateMetadata.guard |}.
#[export] Instance CacheInvalidateMetadata_codec_laws : WireCodecLaws CacheInvalidateMetadata.t.
Proof. solve_codec CacheInvalidateMetadata.parse CacheInvalidateMetadata.write CacheInvalidateMetadata.guard. Qed.
#[export] Instance CacheInvalidateMetadata_strict : StrictWireCodec CacheInvalidateMetadata.t.
Proof. solve_strict CacheInvalidateMetadata.write CacheInvalidateMetadata.guard. Qed.

(** ** Objects *)

Module CacheObjectId.

Record t := mk {
  cache_namespace : Z;
  cache_key_hi : Z;
  cache_key_lo : Z;
  object_kind : CacheObjectKind.t
}.

#[global] Instance eq_dec : EqDecision t.
Proof. solve_decision. Defined.

Definition from_put (metadata : CachePutMetadata.t) : t := {|
  cache_namespace := CachePutMetadata.cache_namespace metadata;
  cache_key_hi := CachePutMetadata.cache_key_hi metadata;
  cache_key_lo := CachePutMetadata.cache_key_lo metadata;
  object_kind := CachePutMetadata.object_kind metadata |}.

Definition matches_invalidate (self : t) (metadata : CacheInvalidateMetadata.t) : bool :=
  match CacheInvalidateMetadata.invalidate_scope metadata with
  | CacheInvalidateScope.WholeSession => true
  | CacheInvalidateScope.Namespace =>
      cache_namespace self =? CacheInvalidateMetadata.cache_namespace metadata
  | CacheInvalidateScope.ObjectKind =>
      (cache_namespace self =? CacheInvalidateMetadata.cache_namespace metadata)
      && (CacheObjectKind.repr (object_kind self) =? CacheInvalidateMetadata.cache_key_hi metadata)
  | CacheInvalidateScope.ObjectKey =>
      (cache_namespace self =? CacheInvalidateMetadata.cache_namespace metadata)
      && (cache_key_hi self =? CacheInvalidateMetadata.cache_key_hi metadata)
      && (cache_key_lo self =? CacheInvalidateMetadata.cache_key_lo metadata)
  end.

End CacheObjectId.

Module CacheValidationFailure.

Inductive t := Miss | LeaseExpired | VersionMismatch | DependencyInvalid | SchemaMismatch.

Definition error_code (self : t) : Z :=
  match self with
  | Miss => CACHE_ERROR_MISS
  | LeaseExpired => CACHE_ERROR_LEASE_EXPIRED
  | VersionMismatch => CACHE_ERROR_VERSION_MISMATCH
  | DependencyInvalid => CACHE_ERROR_DEPENDENCY_INVALID
  | SchemaMismatch => CACHE_ERROR_SCHEMA_MISMATCH
  end.

End CacheValidationFailure.

(** ** Leases *)

Module CacheLeaseOwnerScope.

Inductive t := Connection | Session | Operation.

End CacheLeaseOwnerScope.

Module CacheLease.

Record t := mk {
  object_id : CacheObjectId.t;
  object_version : Z;
  lease_id : Z;
  owner_scope : CacheLeaseOwnerScope.t;
  owner_id : Z;
  granted_at_ms : Z;
  ttl_ms : Z
}.

Definition expires_at_ms (self : t) : Z := saturating_add u64_max (granted_at_ms self) (ttl_ms self).

Definition is_expired_at (self : t) (now_ms : Z) : bool := expires_at_ms self <=? now_ms.

Definition validate_live_at (self : t) (now_ms : Z) : Outcome CacheValidationFailure.t unit :=
  reject_if (is_expired_at self now_ms) CacheValidationFailure.LeaseExpired.

Definition validate_version (self : t) (expected_version : Z)
    : Outcome CacheValidationFailure.t unit :=
  reject_if (negb (object_version self =? expected_version)) CacheValidationFailure.VersionMismatch.

End CacheLease.

(** ** Dependencies *)

Module CacheDependency.

Record t := mk { object_id : CacheObjectId.t; required_version : Z }.

End CacheDependency.

Module CacheDependencyState.

Record t := mk { object_id : CacheObjectId.t; current_version : Z; invalidated : bool }.

End CacheDependencyState.

(** The body of the loop of [validate_cache_dependencies]: the first state of the
    dependency's object decides. *)
Definition check_dependency (states : list CacheDependencyState.t) (dependency : CacheDependency.t)
    : Outcome CacheValidationFailure.t unit :=
  state ← ok_or
    (find (fun state => bool_decide (CacheDependencyState.object_id state
                                     = CacheDependency.object_id dependency)) states)
    CacheValidationFailure.DependencyInvalid;
  reject_if (CacheDependencyState.invalidated state
             || negb (CacheDependencyState.current_version state
                      =? CacheDependency.required_version dependency))
    CacheValidationFailure.DependencyInvalid.

Definition validate_cache_dependencies
    (dependencies : list CacheDependency.t) (states : list CacheDependencyState.t)
    : Outcome CacheValidationFailure.t unit :=
  _ ← collect (check_dependency states) dependencies; Ok tt.

(** ** Policy *)

Module CacheInvalidationReason.

Inductive t := Explicit | DependencyInvalidated | LeaseExpired | VersionMismatch | SchemaMismatch.

End CacheInvalidationReason.

Module CachePolicyOptions.

Record t := mk {
  enabled : bool;
  reuse_scope : option CacheReuseScope.t;
  expiration_hint_ms : Z;
  invalidation_reason : CacheInvalidationReason.t
}.

Definition default : t := {|
  enabled := false;
  reuse_scope := None;
  expiration_hint_ms := 0;
  invalidation_reason := CacheInvalidationReason.Explicit |}.

Definition validate (self : t) : R unit :=
  _ ← reject_if (negb (enabled self)
                 && (is_some (reuse_scope self) || negb (expiration_hint_ms self =? 0)))
        (InvalidProtocolCombination
           "disabled cache policy must not carry reuse scope or expiration hint");
  reject_if (enabled self && negb (is_some (reuse_scope self)))
    (InvalidProtocolCombination "enabled cache policy requires a reuse scope").

End CachePolicyOptions.

(** ** What they decide *)

(** A lease lives exactly from its grant for its time to live, cut off at the end of the
    [u64] clock. *)
Lemma lease_live_iff lease now :
  0 <= CacheLease.ttl_ms lease ->
  CacheLease.validate_live_at lease now = Ok tt <->
  now < Z.min (CacheLease.granted_at_ms lease + CacheLease.ttl_ms lease) u64_max.
Proof.
  intros Httl. unfold CacheLease.validate_live_at, CacheLease.is_expired_at.
  rewrite reject_if_Ok, Z.leb_gt. done.
Qed.

Lemma check_dependency_Ok states d u :
  check_dependency states d = Ok u <->
  exists pre s post, states = pre ++ s :: post /\
    Forall (fun s' => CacheDependencyState.object_id s' <> CacheDependency.object_id d) pre /\
    CacheDependencyState.object_id s = CacheDependency.object_id d /\
    CacheDependencyState.invalidated s = false /\
    CacheDependencyState.current_version s = CacheDependency.required_version d.
Proof.
  unfold check_dependency. rewrite bind_Ok. setoid_rewrite ok_or_Ok.
  setoid_rewrite reject_if_Ok. setoid_rewrite orb_false_iff. setoid_rewrite negb_false_iff.
  setoid_rewrite Z.eqb_eq. induction states as [|s states IH]; simpl.
  { split; [intros (? & ? & _); done|]. intros ([|? ?] & ? & ? & ? & _); done. }
  case_bool_decide as Hs.
  - split; [intros (s' & [= <-] & Hi & Hv); by exists [], s, states|].
    intros (pre & s' & post & Heq & Hpre & Hs' & Hi & Hv). exists s. split; [done|].
    destruct pre as [|p pre]; simplify_eq/=; [done|]. by apply Forall_cons in Hpre as [Hp _].
  - rewrite IH. split.
    + intros (pre & s' & post & -> & Hpre & Hrest). exists (s :: pre), s', post.
      split; [done|]. split; [by constructor|done].
    + intros (pre & s' & post & Heq & Hpre & Hs' & Hrest).
      destruct pre as [|p pre]; simplify_eq/=.
      exists pre, s', post. apply Forall_cons in Hpre as [_ Hpre]. done.
Qed.

(** The dependencies are accepted when each one's object has a state, and the first
    such state is live and at the required version. *)
Lemma dependencies_Ok dependencies states :
  validate_cache_dependencies dependencies states = Ok tt <->
  Forall (fun d => check_dependency states d = Ok tt) dependencies.
Proof.
  unfold validate_cache_dependencies. rewrite bind_Ok, <- collect_units. split.
  - intros (us & Hus & _). eauto.
  - intros (us & Hus). eauto.
Qed.

(** Invalidation of a whole session matches every object; a narrower scope matches
    a subset of the objects of its namespace. *)
Lemma invalidate_namespace id m :
  CacheObjectId.matches_invalidate id m = true ->
  CacheInvalidateMetadata.invalidate_scope m = CacheInvalidateScope.WholeSession \/
  CacheObjectId.cache_namespace id = CacheInvalidateMetadata.cache_namespace m.
Proof.
  unfold CacheObjectId.matches_invalidate. destruct (CacheInvalidateMetadata.invalidate_scope m);
    rewrite ?andb_true_iff, ?Z.eqb_eq; naive_solver.
Qed.

(** An enabled policy has a reuse scope, a disabled one has neither a scope nor a hint. *)
Lemma policy_Ok p :
  CachePolicyOptions.validate p = Ok tt <->
  if CachePolicyOptions.enabled p then is_Some (CachePolicyOptions.reuse_scope p)
  else CachePolicyOptions.reuse_scope p = None /\ CachePolicyOptions.expiration_hint_ms p = 0.
Proof.
  unfold CachePolicyOptions.validate.
  destruct p as [[] [s|] hint r]; simpl.
  - by split; [eauto|].
  - by split; [|intros [? [=]]].
  - by split; [|intros [[=] _]].
  - destruct (Z.eqb_spec hint 0); simpl; by split; [|intros []].
Qed.

(** ** Contract *)

(** The dependencies of a cached object are accepted exactly when each of them has a recorded
    state, and the first state recorded for its object is not invalidated and has the required
    version. *)
Theorem cache_dependencies_exact dependencies states :
  validate_cache_dependencies dependencies states = Ok tt <->
  forall d, d ∈ dependencies ->
    exists pre s post, states = pre ++ s :: post /\
      Forall (fun s' => CacheDependencyState.object_id s' <> CacheDependency.object_id d) pre /\
      CacheDependencyState.object_id s = CacheDependency.object_id d /\
      CacheDependencyState.invalidated s = false /\
      CacheDependencyState.current_version s = CacheDependency.required_version d.
Proof.
  rewrite dependencies_Ok, Forall_forall. setoid_rewrite check_dependency_Ok. done.
Qed.
