(* ===== verification/Data.v ===== *)
(** Data messages ([src/crates/nnrp-core/src/data.rs]): frame submissions, results, and the
    fixed-size blocks a body is made of.  The regions of a body, which are arrays of
    such blocks, are in [Regions.v]. *)

From S2P Require Import Prelude Bytes Errors Enums Wire Header Control Codes Cache.

Local Open Scope Z_scope.

Definition FRAME_SUBMIT_METADATA_LEN : nat := 72.
Definition RESULT_PUSH_METADATA_LEN : nat := 64.
Definition INLINE_OBJECT_BLOCK_HEADER_LEN : nat := 16.
Definition OBJECT_REFERENCE_BLOCK_LEN : nat := 24.
Definition EXTENSION_FRAME_DESCRIPTOR_LEN : nat := 16.
Definition TENSOR_SECTION_DESCRIPTOR_LEN : nat := 32.
Definition BUDGET_POLICY_KNOWN_MASK : Z := 0x0f.
Definition RESULT_FLAGS_KNOWN_MASK : Z := 0x0007.
Definition PAYLOAD_KIND_KNOWN_MASK : Z := 0x0000_007f.
Definition SUBMIT_OBJECT_REF_MASK_KNOWN_BITS : Z := 0x0000_000f.
Definition STANDARD_PROFILE_UNSPECIFIED : Z := 0x0000.
Definition STANDARD_PROFILE_TENSOR : Z := 0x0001.
Definition STANDARD_PROFILE_TOKEN : Z := 0x0002.

(** ** Policies and payload kinds *)

Module BudgetPolicy.

Definition NONE : Z := 0.
Definition ALLOW_PARTIAL : Z := 0x01.
Definition ALLOW_STALE_REUSE : Z := 0x02.
Definition ALLOW_DEGRADED : Z := 0x04.
Definition ALLOW_DROP : Z := 0x08.

Definition try_from_u8 (value : Z) : R Z :=
  _ ← validate_mask_u8 value BUDGET_POLICY_KNOWN_MASK; Ok value.

Definition contains (self policy : Z) : bool := Z.land self policy =? policy.

Definition bitor (self rhs : Z) : Z := Z.lor self rhs.

End BudgetPolicy.

Module LossTolerancePolicy.

Inductive t :=
| Strict | BestEffort | LowLatency | FireAndForget | InheritSession.

Definition repr (x : t) : Z :=
  match x with
  | Strict => 0
  | BestEffort => 1
  | LowLatency => 2
  | FireAndForget => 3
  | InheritSession => 0xff
  end.

Definition try_from_u8 (value : Z) : R t :=
  match value with
  | 0 => Ok Strict
  | 1 => Ok BestEffort
  | 2 => Ok LowLatency
  | 3 => Ok FireAndForget
  | 0xff => Ok InheritSession
  | _ => Err (UnknownEnumValue "loss_tolerance_policy" value)
  end.

#[global] Instance eq_dec : EqDecision t.
Proof. solve_decision. Defined.

End LossTolerancePolicy.

#[export] Instance LossTolerancePolicy_enum : WireEnum LossTolerancePolicy.t :=
  {| enum_width := 1; enum_repr := LossTolerancePolicy.repr; enum_try_from := LossTolerancePolicy.try_from_u8 |}.
#[export] Instance LossTolerancePolicy_laws : WireEnumLaws LossTolerancePolicy.t.
Proof. solve_enum LossTolerancePolicy.try_from_u8. Qed.

Module InputProfile.

Inductive t :=
| Unspecified | ChangedTilesLuma | DenseLumaFrame.

Definition repr (x : t) : Z :=
  match x with
  | Unspecified => 0
  | ChangedTilesLuma => 1
  | DenseLumaFrame => 2
  end.

Definition try_from_u8 (value : Z) : R t :=
  match value with
  | 0 => Ok Unspecified
  | 1 => Ok ChangedTilesLuma
  | 2 => Ok DenseLumaFrame
  | _ => Err (UnknownEnumValue "input_profile" value)
  end.

#[global] Instance eq_dec : EqDecision t.
Proof. solve_decision. Defined.

End InputProfile.

#[export] Instance InputProfile_enum : WireEnum InputProfile.t :=
  {| enum_width := 1; enum_repr := InputProfile.repr; enum_try_from := InputProfile.try_from_u8 |}.
#[export] Instance InputProfile_laws : WireEnumLaws InputProfile.t.
Proof. solve_enum InputProfile.try_from_u8. Qed.

Module TileIndexMode.

Inductive t :=
| DenseRange | RawU16 | DeltaU16 | Bitset.

Definition repr (x : t) : Z :=
  match x with
  | DenseRange => 0
  | RawU16 => 1
  | DeltaU16 => 2
  | Bitset => 3
  end.

Definition try_from_u8 (value : Z) : R t :=
  match value with
  | 0 => Ok DenseRange
  | 1 => Ok RawU16
  | 2 => Ok DeltaU16
  | 3 => Ok Bitset
  | _ => Err (UnknownEnumValue "tile_index_mode" value)
  end.

#[global] Instance eq_dec : EqDecision t.
Proof. solve_decision. Defined.

End TileIndexMode.

#[export] Instance TileIndexMode_enum : WireEnum TileIndexMode.t :=
  {| enum_width := 1; enum_repr := TileIndexMode.repr; enum_try_from := TileIndexMode.try_from_u8 |}.
#[export] Instance TileIndexMode_laws : WireEnumLaws TileIndexMode.t.
Proof. solve_enum TileIndexMode.try_from_u8. Qed.

Module SubmitMode.

Inductive t :=
| Inline | Reference | Mixed.

Definition repr (x : t) : Z :=
  match x with
  | Inline => 0
  | Reference => 1
  | Mixed => 2
  end.

Definition try_from_u8 (value : Z) : R t :=
  match value with
  | 0 => Ok Inline
  | 1 => Ok Reference
  | 2 => Ok Mixed
  | _ => Err (UnknownEnumValue "submit_mode" value)
  end.

#[global] Instance eq_dec : EqDecision t.
Proof. solve_decision. Defined.

End SubmitMode.

#[export] Instance SubmitMode_enum : WireEnum SubmitMode.t :=
  {| enum_width := 1; enum_repr := SubmitMode.repr; enum_try_from := SubmitMode.try_from_u8 |}.
#[export] Instance SubmitMode_laws : WireEnumLaws SubmitMode.t.
Proof. solve_enum SubmitMode.try_from_u8. Qed.

Module ResultClass.

Inductive t :=
| Complete | Partial | StaleReuse | Degraded.

Definition repr (x : t) : Z :=
  match x with
  | Complete => 0
  | Partial => 1
  | StaleReuse => 2
  | Degraded => 3
  end.

Definition try_from_u8 (value : Z) : R t :=
  match value with
  | 0 => Ok Complete
  | 1 => Ok Partial
  | 2 => Ok StaleReuse
  | 3 => Ok Degraded
  | _ => Err (UnknownEnumValue "result_class" value)
  end.

#[global] Instance eq_dec : EqDecision t.
Proof. solve_decision. Defined.

End ResultClass.

#[export] Instance ResultClass_enum : WireEnum ResultClass.t :=
  {| enum_width := 1; enum_repr := ResultClass.repr; enum_try_from := ResultClass.try_from_u8 |}.
#[export] Instance ResultClass_laws : WireEnumLaws ResultClass.t.
Proof. solve_enum ResultClass.try_from_u8. Qed.

Module PayloadKind.

Inductive t :=
| Tensor | TokenChunk | AudioChunk | VideoChunk | StructuredEvent | ToolDelta
| OpaqueBytes.

Definition repr (x : t) : Z :=
  match x with
  | Tensor => 0x00000001
  | TokenChunk => 0x00000002
  | AudioChunk => 0x00000004
  | VideoChunk => 0x00000008
  | StructuredEvent => 0x00000010
  | ToolDelta => 0x00000020
  | OpaqueBytes => 0x00000040
  end.

Definition try_from_bit (value : Z) : R t :=
  match value with
  | 0x00000001 => Ok Tensor
  | 0x00000002 => Ok TokenChunk
  | 0x00000004 => Ok AudioChunk
  | 0x00000008 => Ok VideoChunk
  | 0x00000010 => Ok StructuredEvent
  | 0x00000020 => Ok ToolDelta
  | 0x00000040 => Ok OpaqueBytes
  | _ => Err (UnknownEnumValue "payload_kind" value)
  end.

#[global] Instance eq_dec : EqDecision t.
Proof. solve_decision. Defined.

Definition bit (x : t) : Z := repr x.

Definition is_standard_profile (x : t) : bool :=
  match x with Tensor | TokenChunk => true | _ => false end.

Definition is_registry_bound_family (x : t) : bool :=
  match x with
  | AudioChunk | VideoChunk | StructuredEvent | ToolDelta | OpaqueBytes => true
  | _ => false
  end.

End PayloadKind.

#[export] Instance PayloadKind_enum : WireEnum PayloadKind.t :=
  {| enum_width := 4; enum_repr := PayloadKind.repr; enum_try_from := PayloadKind.try_from_bit |}.
#[export] Instance PayloadKind_laws : WireEnumLaws PayloadKind.t.
Proof. solve_enum PayloadKind.try_from_bit. Qed.

Module PayloadKindBitmap.

Definition TENSOR : Z := PayloadKind.repr PayloadKind.Tensor.

Definition validate (self : Z) : R unit := validate_mask_u32 self PAYLOAD_KIND_KNOWN_MASK.

Definition contains_tensor (self : Z) : bool := negb (Z.land self TENSOR =? 0).

Definition contains (self : Z) (kind : PayloadKind.t) : bool :=
  negb (Z.land self (PayloadKind.bit kind) =? 0).

End PayloadKindBitmap.

Lemma budget_policy_Ok v w :
  BudgetPolicy.try_from_u8 v = Ok w <-> w = v /\ mask_ok 8 v BUDGET_POLICY_KNOWN_MASK = true.
Proof.
  unfold BudgetPolicy.try_from_u8. rewrite bind_Ok. setoid_rewrite validate_mask_Ok. split.
  - by intros (_ & Hm & [= <-]).
  - intros [-> Hm]. by exists tt.
Qed.

Lemma budget_policy_no_panic v : BudgetPolicy.try_from_u8 v <> Panic.
Proof. unfold BudgetPolicy.try_from_u8. apply bind_no_panic; [apply reject_if_no_panic|done]. Qed.
#[export] Hint Resolve budget_policy_no_panic : nopanic.

(** ** Frame submissions *)

Module FrameSubmitMetadata.

#[projections(primitive)]
Record t := mk {
  src_width : Z;
  src_height : Z;
  tile_width : Z;
  tile_height : Z;
  tile_count : Z;
  section_count : Z;
  frame_class : Z;
  input_profile : InputProfile.t;
  tile_index_mode : TileIndexMode.t;
  latency_budget_ms : Z;
  target_fps_x100 : Z;
  retry_of_frame : Z;
  tile_base_id : Z;
  camera_bytes : Z;
  tile_index_bytes : Z;
  operation_id : Z;
  submit_mode : SubmitMode.t;
  budget_policy : Z;
  loss_tolerance_policy : LossTolerancePolicy.t;
  object_ref_mask : Z;
  dependency_frame_id : Z;
  payload_kind_bitmap : Z;
  payload_frame_count : Z
}.

Definition validate_payload_shape (m : t) : R unit :=
  _ ← reject_if (operation_id m =? 0)
        (InvalidProtocolCombination "FRAME_SUBMIT operation_id must not be zero");
  if PayloadKindBitmap.contains_tensor (payload_kind_bitmap m) then Ok tt
  else
    reject_if (negb (src_width m =? 0) || negb (src_height m =? 0) || negb (tile_width m =? 0)
               || negb (tile_height m =? 0) || negb (tile_count m =? 0)
               || negb (section_count m =? 0) || negb (tile_base_id m =? 0)
               || negb (camera_bytes m =? 0) || negb (tile_index_bytes m =? 0)
               || negb (bool_decide (input_profile m = InputProfile.Unspecified)))
      (InvalidProtocolCombination "non-tensor FRAME_SUBMIT must clear tensor tile fields").

Lemma submit_payload_shape_no_panic m : validate_payload_shape m <> Panic.
Proof.
  unfold validate_payload_shape. apply bind_no_panic; [apply reject_if_no_panic|intros _ _].
  case_match; [done|apply reject_if_no_panic].
Qed.


Definition parse (source : bytes) : R t :=
  _ ← require_len source FRAME_SUBMIT_METADATA_LEN;
  reserved0 ← index source 15;
  _ ← validate_zero "frame_submit.reserved0" reserved0;
  reserved1 ← read_u32 source 36;
  _ ← validate_zero "frame_submit.reserved1" reserved1;
  reserved2 ← read_u32 source 48;
  _ ← validate_zero "frame_submit.reserved2" reserved2;
  reserved3 ← index source 55;
  _ ← validate_zero "frame_submit.reserved3" reserved3;
  reserved4 ← read_u16 source 70;
  _ ← validate_zero "frame_submit.reserved4" reserved4;
  budget_policy_raw ← index source 53;
  budget_policy ← BudgetPolicy.try_from_u8 budget_policy_raw;
  payload_kind_bitmap ← read_u32 source 64;
  _ ← PayloadKindBitmap.validate payload_kind_bitmap;
  src_width ← read_u16 source 0;
  src_height ← read_u16 source 2;
  tile_width ← read_u16 source 4;
  tile_height ← read_u16 source 6;
  tile_count ← read_u16 source 8;
  section_count ← read_u16 source 10;
  frame_class ← index source 12;
  input_profile_raw ← index source 13;
  input_profile ← InputProfile.try_from_u8 input_profile_raw;
  tile_index_mode_raw ← index source 14;
  tile_index_mode ← TileIndexMode.try_from_u8 tile_index_mode_raw;
  latency_budget_ms ← read_u16 source 16;
  target_fps_x100 ← read_u16 source 18;
  retry_of_frame ← read_u32 source 20;
  tile_base_id ← read_u32 source 24;
  camera_bytes ← read_u32 source 28;
  tile_index_bytes ← read_u32 source 32;
  operation_id ← read_u64 source 40;
  submit_mode_raw ← index source 52;
  submit_mode ← SubmitMode.try_from_u8 submit_mode_raw;
  loss_tolerance_policy_raw ← index source 54;
  loss_tolerance_policy ← LossTolerancePolicy.try_from_u8 loss_tolerance_policy_raw;
  object_ref_mask ← read_u32 source 56;
  dependency_frame_id ← read_u32 source 60;
  payload_frame_count ← read_u16 source 68;
  let metadata := {| src_width := src_width; src_height := src_height;
      tile_width := tile_width; tile_height := tile_height; tile_count := tile_count;
      section_count := section_count; frame_class := frame_class;
      input_profile := input_profile; tile_index_mode := tile_index_mode;
      latency_budget_ms := latency_budget_ms; target_fps_x100 := target_fps_x100;
      retry_of_frame := retry_of_frame; tile_base_id := tile_base_id;
      camera_bytes := camera_bytes; tile_index_bytes := tile_index_bytes;
      operation_id := operation_id; submit_mode := submit_mode; budget_policy := budget_policy;
      loss_tolerance_policy := loss_tolerance_policy; object_ref_mask := object_ref_mask;
      dependency_frame_id := dependency_frame_id; payload_kind_bitmap := payload_kind_bitmap;
      payload_frame_count := payload_frame_count |} in
  _ ← validate_payload_shape metadata;
  Ok metadata.

Definition write (m : t) (destination : bytes) : R bytes :=
  _ ← require_destination_len destination FRAME_SUBMIT_METADATA_LEN;
  _ ← BudgetPolicy.try_from_u8 (budget_policy m);
  _ ← PayloadKindBitmap.validate (payload_kind_bitmap m);
  _ ← validate_payload_shape m;
  destination ← fill_zero destination FRAME_SUBMIT_METADATA_LEN;
  destination ← write_u16 destination 0 (src_width m);
  destination ← write_u16 destination 2 (src_height m);
  destination ← write_u16 destination 4 (tile_width m);
  destination ← write_u16 destination 6 (tile_height m);
  destination ← write_u16 destination 8 (tile_count m);
  destination ← write_u16 destination 10 (section_count m);
  destination ← write_u8 destination 12 (frame_class m);
  destination ← write_u8 destination 13 (InputProfile.repr (input_profile m));
  destination ← write_u8 destination 14 (TileIndexMode.repr (tile_index_mode m));
  destination ← write_u16 destination 16 (latency_budget_ms m);
  destination ← write_u16 destination 18 (target_fps_x100 m);
  destination ← write_u32 destination 20 (retry_of_frame m);
  destination ← write_u32 destination 24 (tile_base_id m);
  destination ← write_u32 destination 28 (camera_bytes m);
  destination ← write_u32 destination 32 (tile_index_bytes m);
  destination ← write_u64 destination 40 (operation_id m);
  destination ← write_u8 destination 52 (SubmitMode.repr (submit_mode m));
  destination ← write_u8 destination 53 (budget_policy m);
  destination ← write_u8 destination 54 (LossTolerancePolicy.repr (loss_tolerance_policy m));
  destination ← write_u32 destination 56 (object_ref_mask m);
  destination ← write_u32 destination 60 (dependency_frame_id m);
  destination ← write_u32 destination 64 (payload_kind_bitmap m);
  destination ← write_u16 destination 68 (payload_frame_count m);
  Ok destination.

Definition to_bytes (m : t) : R bytes := write m (replicate FRAME_SUBMIT_METADATA_LEN x00).

Definition layout (m : t) : list field :=
  [ F (KU 2) (src_width m); F (KU 2) (src_height m); F (KU 2) (tile_width m);
      F (KU 2) (tile_height m); F (KU 2) (tile_count m); F (KU 2) (section_count m);
      F (KU 1) (frame_class m); F (KU 1) (InputProfile.repr (input_profile m));
      F (KU 1) (TileIndexMode.repr (tile_index_mode m)); F (KU 1) 0;
      F (KU 2) (latency_budget_ms m); F (KU 2) (target_fps_x100 m);
      F (KU 4) (retry_of_frame m); F (KU 4) (tile_base_id m); F (KU 4) (camera_bytes m);
      F (KU 4) (tile_index_bytes m); F (KU 4) 0; F (KU 8) (operation_id m); F (KU 4) 0;
      F (KU 1) (SubmitMode.repr (submit_mode m)); F (KU 1) (budget_policy m);
      F (KU 1) (LossTolerancePolicy.repr (loss_tolerance_policy m)); F (KU 1) 0;
      F (KU 4) (object_ref_mask m); F (KU 4) (dependency_frame_id m);
      F (KU 4) (payload_kind_bitmap m); F (KU 2) (payload_frame_count m); F (KU 2) 0 ].

Definition guard (m : t) : bool := mask_ok 8 (budget_policy m) BUDGET_POLICY_KNOWN_MASK && is_ok (PayloadKindBitmap.validate (payload_kind_bitmap m)) && is_ok (validate_payload_shape m).

End FrameSubmitMetadata.
#[export] Hint Resolve FrameSubmitMetadata.submit_payload_shape_no_panic : nopanic.

#[export] Instance FrameSubmitMetadata_codec : WireCodec FrameSubmitMetadata.t := {|
  codec_len := FRAME_SUBMIT_METADATA_LEN;
  codec_shape := [KU 2; KU 2; KU 2; KU 2; KU 2; KU 2; KU 1; KU 1; KU 1; KU 1; KU 2; KU 2; KU 4;
      KU 4; KU 4; KU 4; KU 4; KU 8; KU 4; KU 1; KU 1; KU 1; KU 1; KU 4; KU 4; KU 4; KU 2;
      KU 2 ];
  codec_parse := FrameSubmitMetadata.parse;
  codec_write := FrameSubmitMetadata.write;
  codec_layout := FrameSubmitMetadata.layout;
  codec_guard := FrameSubmitMetadata.guard |}.
(** The budget policy read is the one in the field, and passes its mask. *)
Ltac budget_guard :=
  repeat match goal with
  | H : BudgetPolicy.try_from_u8 _ = Ok _ |- _ => apply budget_policy_Ok in H as [? ?]; subst
  end.

#[export] Instance FrameSubmitMetadata_codec_laws : WireCodecLaws FrameSubmitMetadata.t.
Proof. 
  solve_codec_with FrameSubmitMetadata.parse FrameSubmitMetadata.write FrameSubmitMetadata.guard
    ltac:(apply budget_policy_Ok; split; [reflexivity|eassumption])
    ltac:(budget_guard; first [ exact Hok | reflexivity | close_guards ]). Qed.
#[export] Instance FrameSubmitMetadata_strict : StrictWireCodec FrameSubmitMetadata.t.
Proof. 
  solve_strict_with FrameSubmitMetadata.write FrameSubmitMetadata.guard
    ltac:(budget_guard; close_guards). Qed.

(** ** Results *)

Module ResultPushMetadata.

#[projections(primitive)]
Record t := mk {
  status_code : Z;
  result_flags : Z;
  section_count : Z;
  tile_count : Z;
  active_profile_id : Z;
  inference_ms : Z;
  queue_ms : Z;
  server_total_ms : Z;
  tile_base_id : Z;
  tile_index_bytes : Z;
  result_class : ResultClass.t;
  applied_budget_policy : Z;
  reused_frame_id : Z;
  covered_tile_count : Z;
  dropped_tile_count : Z;
  payload_kind_bitmap : Z;
  payload_frame_count : Z
}.

Definition validate_payload_shape (m : t) : R unit :=
  let is_stale := bool_decide (result_class m = ResultClass.StaleReuse)
                  || negb (Z.land (result_flags m) 0x0001 =? 0) in
  _ ← reject_if (negb (Bool.eqb is_stale (negb (reused_frame_id m =? 0))))
        (InvalidProtocolCombination "RESULT_PUSH stale semantics and reused_frame_id must agree");
  if negb (PayloadKindBitmap.contains_tensor (payload_kind_bitmap m)) then
    reject_if (negb (section_count m =? 0) || negb (tile_count m =? 0)
               || negb (tile_base_id m =? 0) || negb (tile_index_bytes m =? 0)
               || negb (covered_tile_count m =? 0) || negb (dropped_tile_count m =? 0))
      (InvalidProtocolCombination "non-tensor RESULT_PUSH must clear tensor coverage fields")
  else
    let is_partial := bool_decide (result_class m = ResultClass.Partial)
                      || negb (Z.land (result_flags m) 0x0004 =? 0) in
    _ ← reject_if (is_partial && (dropped_tile_count m =? 0))
          (InvalidProtocolCombination "partial RESULT_PUSH must report dropped tiles");
    reject_if ((tile_count m <? covered_tile_count m) || (tile_count m <? dropped_tile_count m)
               || negb (covered_tile_count m + dropped_tile_count m =? tile_count m))
      (InvalidProtocolCombination "RESULT_PUSH coverage must equal tile_count").

Lemma result_payload_shape_no_panic m : validate_payload_shape m <> Panic.
Proof.
  unfold validate_payload_shape. apply bind_no_panic; [apply reject_if_no_panic|intros _ _].
  case_match; [apply reject_if_no_panic|].
  apply bind_no_panic; intros; apply reject_if_no_panic.
Qed.


Definition parse (source : bytes) : R t :=
  _ ← require_len source RESULT_PUSH_METADATA_LEN;
  reserved0 ← read_u16 source 10;
  _ ← validate_zero "result_push.reserved0" reserved0;
  reserved1 ← read_u16 source 18;
  _ ← validate_zero "result_push.reserved1" reserved1;
  reserved2 ← read_u64 source 28;
  _ ← validate_zero "result_push.reserved2" reserved2;
  reserved3 ← read_u64 source 36;
  _ ← validate_zero "result_push.reserved3" reserved3;
  reserved4 ← read_u16 source 46;
  _ ← validate_zero "result_push.reserved4" reserved4;
  reserved5 ← read_u16 source 62;
  _ ← validate_zero "result_push.reserved5" reserved5;
  result_flags ← read_u16 source 2;
  _ ← validate_mask_u16 result_flags RESULT_FLAGS_KNOWN_MASK;
  applied_budget_policy ← index source 45;
  _ ← validate_mask_u8 applied_budget_policy BUDGET_POLICY_KNOWN_MASK;
  payload_kind_bitmap ← read_u32 source 56;
  _ ← PayloadKindBitmap.validate payload_kind_bitmap;
  status_code ← read_u16 source 0;
  section_count ← read_u16 source 4;
  tile_count ← read_u16 source 6;
  active_profile_id ← read_u16 source 8;
  inference_ms ← read_u16 source 12;
  queue_ms ← read_u16 source 14;
  server_total_ms ← read_u16 source 16;
  tile_base_id ← read_u32 source 20;
  tile_index_bytes ← read_u32 source 24;
  result_class_raw ← index source 44;
  result_class ← ResultClass.try_from_u8 result_class_raw;
  reused_frame_id ← read_u32 source 48;
  covered_tile_count ← read_u16 source 52;
  dropped_tile_count ← read_u16 source 54;
  payload_frame_count ← read_u16 source 60;
  let metadata := {| status_code := status_code; result_flags := result_flags;
      section_count := section_count; tile_count := tile_count;
      active_profile_id := active_profile_id; inference_ms := inference_ms;
      queue_ms := queue_ms; server_total_ms := server_total_ms; tile_base_id := tile_base_id;
      tile_index_bytes := tile_index_bytes; result_class := result_class;
      applied_budget_policy := applied_budget_policy; reused_frame_id := reused_frame_id;
      covered_tile_count := covered_tile_count; dropped_tile_count := dropped_tile_count;
      payload_kind_bitmap := payload_kind_bitmap;
      payload_frame_count := payload_frame_count |} in
  _ ← validate_payload_shape metadata;
  Ok metadata.

Definition write (m : t) (destination : bytes) : R bytes :=
  _ ← require_destination_len destination RESULT_PUSH_METADATA_LEN;
  _ ← validate_mask_u16 (result_flags m) RESULT_FLAGS_KNOWN_MASK;
  _ ← validate_mask_u8 (applied_budget_policy m) BUDGET_POLICY_KNOWN_MASK;
  _ ← PayloadKindBitmap.validate (payload_kind_bitmap m);
  _ ← validate_payload_shape m;
  destination ← fill_zero destination RESULT_PUSH_METADATA_LEN;
  destination ← write_u16 destination 0 (status_code m);
  destination ← write_u16 destination 2 (result_flags m);
  destination ← write_u16 destination 4 (section_count m);
  destination ← write_u16 destination 6 (tile_count m);
  destination ← write_u16 destination 8 (active_profile_id m);
  destination ← write_u16 destination 12 (inference_ms m);
  destination ← write_u16 destination 14 (queue_ms m);
  destination ← write_u16 destination 16 (server_total_ms m);
  destination ← write_u32 destination 20 (tile_base_id m);
  destination ← write_u32 destination 24 (tile_index_bytes m);
  destination ← write_u8 destination 44 (ResultClass.repr (result_class m));
  destination ← write_u8 destination 45 (applied_budget_policy m);
  destination ← write_u32 destination 48 (reused_frame_id m);
  destination ← write_u16 destination 52 (covered_tile_count m);
  destination ← write_u16 destination 54 (dropped_tile_count m);
  destination ← write_u32 destination 56 (payload_kind_bitmap m);
  destination ← write_u16 destination 60 (payload_frame_count m);
  Ok destination.

Definition to_bytes (m : t) : R bytes := write m (replicate RESULT_PUSH_METADATA_LEN x00).

Definition layout (m : t) : list field :=
  [ F (KU 2) (status_code m); F (KU 2) (result_flags m); F (KU 2) (section_count m);
      F (KU 2) (tile_count m); F (KU 2) (active_profile_id m); F (KU 2) 0;
      F (KU 2) (inference_ms m); F (KU 2) (queue_ms m); F (KU 2) (server_total_ms m);
      F (KU 2) 0; F (KU 4) (tile_base_id m); F (KU 4) (tile_index_bytes m); F (KU 8) 0;
      F (KU 8) 0; F (KU 1) (ResultClass.repr (result_class m));
      F (KU 1) (applied_budget_policy m); F (KU 2) 0; F (KU 4) (reused_frame_id m);
      F (KU 2) (covered_tile_count m); F (KU 2) (dropped_tile_count m);
      F (KU 4) (payload_kind_bitmap m); F (KU 2) (payload_frame_count m); F (KU 2) 0 ].

Definition guard (m : t) : bool := mask_ok 16 (result_flags m) RESULT_FLAGS_KNOWN_MASK && mask_ok 8 (applied_budget_policy m) BUDGET_POLICY_KNOWN_MASK && is_ok (PayloadKindBitmap.validate (payload_kind_bitmap m)) && is_ok (validate_payload_shape m).

End ResultPushMetadata.
#[export] Hint Resolve ResultPushMetadata.result_payload_shape_no_panic : nopanic.

#[export] Instance ResultPushMetadata_codec : WireCodec ResultPushMetadata.t := {|
  codec_len := RESULT_PUSH_METADATA_LEN;
  codec_shape := [KU 2; KU 2; KU 2; KU 2; KU 2; KU 2; KU 2; KU 2; KU 2; KU 2; KU 4; KU 4; KU 8;
      KU 8; KU 1; KU 1; KU 2; KU 4; KU 2; KU 2; KU 4; KU 2; KU 2 ];
  codec_parse := ResultPushMetadata.parse;
  codec_write := ResultPushMetadata.write;
  codec_layout := ResultPushMetadata.layout;
  codec_guard := ResultPushMetadata.guard |}.
#[export] Instance ResultPushMetadata_codec_laws : WireCodecLaws ResultPushMetadata.t.
Proof. solve_codec ResultPushMetadata.parse ResultPushMetadata.write ResultPushMetadata.guard. Qed.
#[export] Instance ResultPushMetadata_strict : StrictWireCodec ResultPushMetadata.t.
Proof. solve_strict ResultPushMetadata.write ResultPushMetadata.guard. Qed.

(** ** Blocks of a body *)

Module InlineObjectBlockHeader.

#[projections(primitive)]
Record t := mk {
  object_kind : CacheObjectKind.t;
  object_flags : Z;
  profile_id : Z;
  object_bytes : Z
}.

Definition parse (source : bytes) : R t :=
  _ ← require_len source INLINE_OBJECT_BLOCK_HEADER_LEN;
  object_flags ← read_u16 source 2;
  _ ← validate_zero "inline_object.object_flags" object_flags;
  reserved0 ← read_u16 source 6;
  _ ← validate_zero "inline_object.reserved0" reserved0;
  reserved1 ← read_u32 source 12;
  _ ← validate_zero "inline_object.reserved1" reserved1;
  object_kind_raw ← read_u16 source 0;
  object_kind ← CacheObjectKind.try_from_u32 object_kind_raw;
  profile_id ← read_u16 source 4;
  object_bytes ← read_u32 source 8;
  Ok {| object_kind := object_kind; object_flags := object_flags; profile_id := profile_id;
      object_bytes := object_bytes |}.

Definition write (m : t) (destination : bytes) : R bytes :=
  _ ← require_destination_len destination INLINE_OBJECT_BLOCK_HEADER_LEN;
  _ ← validate_zero "inline_object.object_flags" (object_flags m);
  destination ← fill_zero destination INLINE_OBJECT_BLOCK_HEADER_LEN;
  destination ← write_u16 destination 0 (CacheObjectKind.repr (object_kind m));
  destination ← write_u16 destination 2 (object_flags m);
  destination ← write_u16 destination 4 (profile_id m);
  destination ← write_u32 destination 8 (object_bytes m);
  Ok destination.

Definition to_bytes (m : t) : R bytes := write m (replicate INLINE_OBJECT_BLOCK_HEADER_LEN x00).

Definition layout (m : t) : list field :=
  [ F (KU 2) (CacheObjectKind.repr (object_kind m)); F (KU 2) (object_flags m);
      F (KU 2) (profile_id m); F (KU 2) 0; F (KU 4) (object_bytes m); F (KU 4) 0 ].

Definition guard (m : t) : bool := (object_flags m =? 0).

End InlineObjectBlockHeader.

#[export] Instance InlineObjectBlockHeader_codec : WireCodec InlineObjectBlockHeader.t := {|
  codec_len := INLINE_OBJECT_BLOCK_HEADER_LEN;
  codec_shape := [KU 2; KU 2; KU 2; KU 2; KU 4; KU 4 ];
  codec_parse := InlineObjectBlockHeader.parse;
  codec_write := InlineObjectBlockHeader.write;
  codec_layout := InlineObjectBlockHeader.layout;
  codec_guard := InlineObjectBlockHeader.guard |}.
#[export] Instance InlineObjectBlockHeader_codec_laws : WireCodecLaws InlineObjectBlockHeader.t.
Proof. solve_codec InlineObjectBlockHeader.parse InlineObjectBlockHeader.write InlineObjectBlockHeader.guard. Qed.
#[export] Instance InlineObjectBlockHeader_strict : StrictWireCodec InlineObjectBlockHeader.t.
Proof. solve_strict InlineObjectBlockHeader.write InlineObjectBlockHeader.guard. Qed.

Module TensorSectionDescriptor.

#[projections(primitive)]
Record t := mk {
  role_id : Z;
  codec_id : Z;
  dtype_id : Z;
  layout_id : Z;
  scale_policy : Z;
  section_flags : Z;
  element_count_per_tile : Z;
  codec_table_bytes : Z;
  length_table_bytes : Z;
  payload_bytes : Z;
  payload_stride_bytes : Z
}.

Definition MIXED_CODEC : Z := 0x0001.
Definition FIXED_STRIDE : Z := 0x0002.
Definition KNOWN_FLAGS : Z := Z.lor MIXED_CODEC FIXED_STRIDE.

Definition validate (m : t) : R unit :=
  _ ← reject_if (negb (mask_ok 16 (section_flags m) KNOWN_FLAGS))
        (InvalidProtocolCombination "tensor section flags contain unknown bits");
  _ ← reject_if (negb (Bool.eqb (codec_table_bytes m =? 0)
                                (Z.land (section_flags m) MIXED_CODEC =? 0)))
        (InvalidProtocolCombination "tensor codec table presence must match MIXED_CODEC");
  _ ← reject_if (negb (Bool.eqb (payload_stride_bytes m =? 0)
                                (Z.land (section_flags m) FIXED_STRIDE =? 0)))
        (InvalidProtocolCombination "tensor payload stride presence must match FIXED_STRIDE");
  reject_if (negb (length_table_bytes m mod 4 =? 0))
    (InvalidProtocolCombination "tensor length table bytes must be a multiple of four").

Lemma tensor_section_no_panic m : validate m <> Panic.
Proof. unfold validate. repeat (apply bind_no_panic; [apply reject_if_no_panic|intros _ _]). apply reject_if_no_panic. Qed.


Definition parse (source : bytes) : R t :=
  _ ← require_len source TENSOR_SECTION_DESCRIPTOR_LEN;
  reserved ← read_u32 source 28;
  _ ← validate_zero "tensor_section.reserved" reserved;
  role_id ← read_u16 source 0;
  codec_id ← index source 2;
  dtype_id ← index source 3;
  layout_id ← index source 4;
  scale_policy ← index source 5;
  section_flags ← read_u16 source 6;
  element_count_per_tile ← read_u32 source 8;
  codec_table_bytes ← read_u32 source 12;
  length_table_bytes ← read_u32 source 16;
  payload_bytes ← read_u32 source 20;
  payload_stride_bytes ← read_u32 source 24;
  let descriptor := {| role_id := role_id; codec_id := codec_id; dtype_id := dtype_id;
      layout_id := layout_id; scale_policy := scale_policy; section_flags := section_flags;
      element_count_per_tile := element_count_per_tile; codec_table_bytes := codec_table_bytes;
      length_table_bytes := length_table_bytes; payload_bytes := payload_bytes;
      payload_stride_bytes := payload_stride_bytes |} in
  _ ← validate descriptor;
  Ok descriptor.

Definition write (m : t) (destination : bytes) : R bytes :=
  _ ← require_destination_len destination TENSOR_SECTION_DESCRIPTOR_LEN;
  _ ← validate m;
  destination ← fill_zero destination TENSOR_SECTION_DESCRIPTOR_LEN;
  destination ← write_u16 destination 0 (role_id m);
  destination ← write_u8 destination 2 (codec_id m);
  destination ← write_u8 destination 3 (dtype_id m);
  destination ← write_u8 destination 4 (layout_id m);
  destination ← write_u8 destination 5 (scale_policy m);
  destination ← write_u16 destination 6 (section_flags m);
  destination ← write_u32 destination 8 (element_count_per_tile m);
  destination ← write_u32 destination 12 (codec_table_bytes m);
  destination ← write_u32 destination 16 (length_table_bytes m);
  destination ← write_u32 destination 20 (payload_bytes m);
  destination ← write_u32 destination 24 (payload_stride_bytes m);
  Ok destination.

Definition to_bytes (m : t) : R bytes := write m (replicate TENSOR_SECTION_DESCRIPTOR_LEN x00).

Definition layout (m : t) : list field :=
  [ F (KU 2) (role_id m); F (KU 1) (codec_id m); F (KU 1) (dtype_id m); F (KU 1) (layout_id m);
      F (KU 1) (scale_policy m); F (KU 2) (section_flags m);
      F (KU 4) (element_count_per_tile m); F (KU 4) (codec_table_bytes m);
      F (KU 4) (length_table_bytes m); F (KU 4) (payload_bytes m);
      F (KU 4) (payload_stride_bytes m); F (KU 4) 0 ].

Definition guard (m : t) : bool := is_ok (validate m).

End TensorSectionDescriptor.
#[export] Hint Resolve TensorSectionDescriptor.tensor_section_no_panic : nopanic.

#[export] Instance TensorSectionDescriptor_codec : WireCodec TensorSectionDescriptor.t := {|
  codec_len := TENSOR_SECTION_DESCRIPTOR_LEN;
  codec_shape := [KU 2; KU 1; KU 1; KU 1; KU 1; KU 2; KU 4; KU 4; KU 4; KU 4; KU 4; KU 4 ];
  codec_parse := TensorSectionDescriptor.parse;
  codec_write := TensorSectionDescriptor.write;
  codec_layout := TensorSectionDescriptor.layout;
  codec_guard := TensorSectionDescriptor.guard |}.
#[export] Instance TensorSectionDescriptor_codec_laws : WireCodecLaws TensorSectionDescriptor.t.
Proof. solve_codec TensorSectionDescriptor.parse TensorSectionDescriptor.write TensorSectionDescriptor.guard. Qed.
#[export] Instance TensorSectionDescriptor_strict : StrictWireCodec TensorSectionDescriptor.t.
Proof. solve_strict TensorSectionDescriptor.write TensorSectionDescriptor.guard. Qed.

Module ObjectReferenceBlock.

#[projections(primitive)]
Record t := mk {
  object_kind : CacheObjectKind.t;
  ref_flags : Z;
  cache_namespace : Z;
  cache_key_hi : Z;
  cache_key_lo : Z
}.

Definition parse (source : bytes) : R t :=
  _ ← require_len source OBJECT_REFERENCE_BLOCK_LEN;
  ref_flags ← read_u16 source 2;
  _ ← validate_zero "object_reference.ref_flags" ref_flags;
  object_kind_raw ← read_u16 source 0;
  object_kind ← CacheObjectKind.try_from_u32 object_kind_raw;
  cache_namespace ← read_u32 source 4;
  cache_key_hi ← read_u64 source 8;
  cache_key_lo ← read_u64 source 16;
  Ok {| object_kind := object_kind; ref_flags := ref_flags; cache_namespace := cache_namespace;
      cache_key_hi := cache_key_hi; cache_key_lo := cache_key_lo |}.

Definition write (m : t) (destination : bytes) : R bytes :=
  _ ← require_destination_len destination OBJECT_REFERENCE_BLOCK_LEN;
  _ ← validate_zero "object_reference.ref_flags" (ref_flags m);
  destination ← fill_zero destination OBJECT_REFERENCE_BLOCK_LEN;
  destination ← write_u16 destination 0 (CacheObjectKind.repr (object_kind m));
  destination ← write_u32 destination 4 (cache_namespace m);
  destination ← write_u64 destination 8 (cache_key_hi m);
  destination ← write_u64 destination 16 (cache_key_lo m);
  Ok destination.

Definition to_bytes (m : t) : R bytes := write m (replicate OBJECT_REFERENCE_BLOCK_LEN x00).

Definition layout (m : t) : list field :=
  [ F (KU 2) (CacheObjectKind.repr (object_kind m)); F (KU 2) 0; F (KU 4) (cache_namespace m);
      F (KU 8) (cache_key_hi m); F (KU 8) (cache_key_lo m) ].

Definition guard (m : t) : bool := (ref_flags m =? 0).

Definition cache_miss_error_metadata (m : t)
    (related_session_id related_frame_id related_view_id diagnostic_bytes : Z) : ErrorMetadata.t :=
  {| ErrorMetadata.error_code := CACHE_ERROR_MISS;
     ErrorMetadata.error_scope := ErrorScope.Frame;
     ErrorMetadata.is_fatal := false;
     ErrorMetadata.retry_after_ms := 0;
     ErrorMetadata.related_session_id := related_session_id;
     ErrorMetadata.related_frame_id := related_frame_id;
     ErrorMetadata.related_view_id := related_view_id;
     ErrorMetadata.diagnostic_bytes := diagnostic_bytes |}.

End ObjectReferenceBlock.

#[export] Instance ObjectReferenceBlock_codec : WireCodec ObjectReferenceBlock.t := {|
  codec_len := OBJECT_REFERENCE_BLOCK_LEN;
  codec_shape := [KU 2; KU 2; KU 4; KU 8; KU 8 ];
  codec_parse := ObjectReferenceBlock.parse;
  codec_write := ObjectReferenceBlock.write;
  codec_layout := ObjectReferenceBlock.layout;
  codec_guard := ObjectReferenceBlock.guard |}.
#[export] Instance ObjectReferenceBlock_codec_laws : WireCodecLaws ObjectReferenceBlock.t.
Proof. 
  solve_codec_with ObjectReferenceBlock.parse ObjectReferenceBlock.write ObjectReferenceBlock.guard
    fail
    ltac:(destruct m; simpl in *; match goal with
          | H : (_ =? 0) = true |- _ => apply Z.eqb_eq in H; subst; reflexivity end). Qed.
#[export] Instance ObjectReferenceBlock_strict : StrictWireCodec ObjectReferenceBlock.t.
Proof. solve_strict ObjectReferenceBlock.write ObjectReferenceBlock.guard. Qed.

Definition validate_result_drop_header (header : CommonHeader.t) : R unit :=
  reject_if (negb (bool_decide (CommonHeader.message_type header = MessageType.ResultDrop))
             || negb (CommonHeader.meta_len header =? 0)
             || negb (CommonHeader.body_len header =? 0))
    (InvalidProtocolCombination
       "RESULT_DROP is header-only and requires meta_len=0 and body_len=0").
