(* ===== verification/Schema.v ===== *)
(** Schemas ([src/crates/nnrp-core/src/schema.rs]): the schema descriptor header, the typed
    payload descriptor and the schema registry.

    The registry's [BTreeMap] is a [gmap]; the order that [snapshot] exposes is
    restored by sorting the keys. *)

From S2P Require Import Prelude Bytes Errors Enums Wire Codes Data.

Local Open Scope Z_scope.

Definition SCHEMA_DESCRIPTOR_HEADER_LEN : nat := 32.
Definition TYPED_PAYLOAD_DESCRIPTOR_LEN : nat := 24.
Definition SCHEMA_FLAGS_KNOWN_MASK : Z := 0x000f.
Definition DESCRIPTOR_FLAGS_KNOWN_MASK : Z := 0x0f.
Definition PROFILE_UNSPECIFIED : Z := 0.
Definition PROFILE_TENSOR : Z := 1.
Definition PROFILE_TOKEN : Z := 2.
Definition TOKEN_DELTA_SCHEMA_ID : Z := 0x0000_1001.
Definition TOKEN_DELTA_SCHEMA_VERSION : Z := 3.
Definition STREAM_SEMANTICS_TOKEN_DELTA : Z := 2.

Module SchemaDescriptorHeader.

#[projections(primitive)]
Record t := mk {
  schema_id : Z;
  schema_version : Z;
  profile_id : Z;
  schema_flags : Z;
  min_version_major : Z;
  max_version_major : Z;
  body_bytes : Z;
  dependency_count : Z;
  default_stream_semantics : Z;
  schema_hash : Z
}.

Definition parse (source : bytes) : R t :=
  _ ← require_len source SCHEMA_DESCRIPTOR_HEADER_LEN;
  reserved0 ← read_u16 source 14;
  _ ← validate_zero "schema_descriptor.reserved0" reserved0;
  schema_flags ← read_u16 source 10;
  _ ← validate_mask_u16 schema_flags SCHEMA_FLAGS_KNOWN_MASK;
  schema_id ← read_u32 source 0;
  schema_version ← read_u32 source 4;
  profile_id ← read_u16 source 8;
  min_version_major ← index source 12;
  max_version_major ← index source 13;
  body_bytes ← read_u32 source 16;
  dependency_count ← read_u16 source 20;
  default_stream_semantics ← read_u16 source 22;
  schema_hash ← read_u64 source 24;
  Ok {| schema_id := schema_id; schema_version := schema_version; profile_id := profile_id;
      schema_flags := schema_flags; min_version_major := min_version_major;
      max_version_major := max_version_major; body_bytes := body_bytes;
      dependency_count := dependency_count;
      default_stream_semantics := default_stream_semantics; schema_hash := schema_hash |}.

Definition write (m : t) (destination : bytes) : R bytes :=
  _ ← require_destination_len destination SCHEMA_DESCRIPTOR_HEADER_LEN;
  _ ← validate_mask_u16 (schema_flags m) SCHEMA_FLAGS_KNOWN_MASK;
  destination ← fill_zero destination SCHEMA_DESCRIPTOR_HEADER_LEN;
  destination ← write_u32 destination 0 (schema_id m);
  destination ← write_u32 destination 4 (schema_version m);
  destination ← write_u16 destination 8 (profile_id m);
  destination ← write_u16 destination 10 (schema_flags m);
  destination ← write_u8 destination 12 (min_version_major m);
  destination ← write_u8 destination 13 (max_version_major m);
  destination ← write_u32 destination 16 (body_bytes m);
  destination ← write_u16 destination 20 (dependency_count m);
  destination ← write_u16 destination 22 (default_stream_semantics m);
  destination ← write_u64 destination 24 (schema_hash m);
  Ok destination.

Definition to_bytes (m : t) : R bytes := write m (replicate SCHEMA_DESCRIPTOR_HEADER_LEN x00).

Definition layout (m : t) : list field :=
  [ F (KU 4) (schema_id m); F (KU 4) (schema_version m); F (KU 2) (profile_id m);
      F (KU 2) (schema_flags m); F (KU 1) (min_version_major m);
      F (KU 1) (max_version_major m); F (KU 2) 0; F (KU 4) (body_bytes m);
      F (KU 2) (dependency_count m); F (KU 2) (default_stream_semantics m);
      F (KU 8) (schema_hash m) ].

Definition guard (m : t) : bool := mask_ok 16 (schema_flags m) SCHEMA_FLAGS_KNOWN_MASK.

End SchemaDescriptorHeader.

#[export] Instance SchemaDescriptorHeader_codec : WireCodec SchemaDescriptorHeader.t := {|
  codec_len := SCHEMA_DESCRIPTOR_HEADER_LEN;
  codec_shape := [KU 4; KU 4; KU 2; KU 2; KU 1; KU 1; KU 2; KU 4; KU 2; KU 2; KU 8 ];
  codec_parse := SchemaDescriptorHeader.parse;
  codec_write := SchemaDescriptorHeader.write;
  codec_layout := SchemaDescriptorHeader.layout;
  codec_guard := SchemaDescriptorHeader.guard |}.
#[export] Instance SchemaDescriptorHeader_codec_laws : WireCodecLaws SchemaDescriptorHeader.t.
Proof. solve_codec SchemaDescriptorHeader.parse SchemaDescriptorHeader.write SchemaDescriptorHeader.guard. Qed.
#[export] Instance SchemaDescriptorHeader_strict : StrictWireCodec SchemaDescriptorHeader.t.
Proof. solve_strict SchemaDescriptorHeader.write SchemaDescriptorHeader.guard. Qed.

Module TypedPayloadDescriptor.

#[projections(primitive)]
Record t := mk {
  profile_id : Z;
  payload_kind : PayloadKind.t;
  descriptor_flags : Z;
  schema_id : Z;
  schema_version : Z;
  stream_semantics : Z;
  offset : Z;
  length : Z
}.

Definition parse (source : bytes) : R t :=
  _ ← require_len source TYPED_PAYLOAD_DESCRIPTOR_LEN;
  reserved0 ← read_u16 source 14;
  _ ← validate_zero "typed_payload_descriptor.reserved0" reserved0;
  payload_kind_raw ← index source 2;
  payload_kind ← PayloadKind.try_from_bit payload_kind_raw;
  descriptor_flags ← index source 3;
  _ ← validate_mask_u8 descriptor_flags DESCRIPTOR_FLAGS_KNOWN_MASK;
  profile_id ← read_u16 source 0;
  schema_id ← read_u32 source 4;
  schema_version ← read_u32 source 8;
  stream_semantics ← read_u16 source 12;
  offset ← read_u32 source 16;
  length ← read_u32 source 20;
  Ok {| profile_id := profile_id; payload_kind := payload_kind;
      descriptor_flags := descriptor_flags; schema_id := schema_id;
      schema_version := schema_version; stream_semantics := stream_semantics; offset := offset;
      length := length |}.

Definition write (m : t) (destination : bytes) : R bytes :=
  _ ← require_destination_len destination TYPED_PAYLOAD_DESCRIPTOR_LEN;
  _ ← validate_mask_u8 (descriptor_flags m) DESCRIPTOR_FLAGS_KNOWN_MASK;
  destination ← fill_zero destination TYPED_PAYLOAD_DESCRIPTOR_LEN;
  destination ← write_u16 destination 0 (profile_id m);
  destination ← write_u8 destination 2 (PayloadKind.repr (payload_kind m));
  destination ← write_u8 destination 3 (descriptor_flags m);
  destination ← write_u32 destination 4 (schema_id m);
  destination ← write_u32 destination 8 (schema_version m);
  destination ← write_u16 destination 12 (stream_semantics m);
  destination ← write_u32 destination 16 (offset m);
  destination ← write_u32 destination 20 (length m);
  Ok destination.

Definition to_bytes (m : t) : R bytes := write m (replicate TYPED_PAYLOAD_DESCRIPTOR_LEN x00).

Definition layout (m : t) : list field :=
  [ F (KU 2) (profile_id m); F (KU 1) (PayloadKind.repr (payload_kind m));
      F (KU 1) (descriptor_flags m); F (KU 4) (schema_id m); F (KU 4) (schema_version m);
      F (KU 2) (stream_semantics m); F (KU 2) 0; F (KU 4) (offset m); F (KU 4) (length m) ].

Definition guard (m : t) : bool := mask_ok 8 (descriptor_flags m) DESCRIPTOR_FLAGS_KNOWN_MASK.

End TypedPayloadDescriptor.

#[export] Instance TypedPayloadDescriptor_codec : WireCodec TypedPayloadDescriptor.t := {|
  codec_len := TYPED_PAYLOAD_DESCRIPTOR_LEN;
  codec_shape := [KU 2; KU 1; KU 1; KU 4; KU 4; KU 2; KU 2; KU 4; KU 4 ];
  codec_parse := TypedPayloadDescriptor.parse;
  codec_write := TypedPayloadDescriptor.write;
  codec_layout := TypedPayloadDescriptor.layout;
  codec_guard := TypedPayloadDescriptor.guard |}.
#[export] Instance TypedPayloadDescriptor_codec_laws : WireCodecLaws TypedPayloadDescriptor.t.
Proof. solve_codec TypedPayloadDescriptor.parse TypedPayloadDescriptor.write TypedPayloadDescriptor.guard. Qed.
#[export] Instance TypedPayloadDescriptor_strict : StrictWireCodec TypedPayloadDescriptor.t.
Proof. solve_strict TypedPayloadDescriptor.write TypedPayloadDescriptor.guard. Qed.

(** ** The registry *)

Module SchemaRegistryAction.

Inductive t := Installed | AlreadyInstalled | Updated | Invalidated.

End SchemaRegistryAction.

Module SchemaRegistryFailure.

Inductive t := Unknown | VersionUnknown | HashConflict | Incompatible | UpdateRejected.

Definition error_code (self : t) : Z :=
  match self with
  | Unknown => SCHEMA_ERROR_UNKNOWN
  | VersionUnknown => SCHEMA_ERROR_VERSION_UNKNOWN
  | HashConflict => SCHEMA_ERROR_HASH_CONFLICT
  | Incompatible => SCHEMA_ERROR_INCOMPATIBLE
  | UpdateRejected => SCHEMA_ERROR_UPDATE_REJECTED
  end.

End SchemaRegistryFailure.

Definition token_delta_schema_descriptor : SchemaDescriptorHeader.t := {|
  SchemaDescriptorHeader.schema_id := TOKEN_DELTA_SCHEMA_ID;
  SchemaDescriptorHeader.schema_version := TOKEN_DELTA_SCHEMA_VERSION;
  SchemaDescriptorHeader.profile_id := PROFILE_TOKEN;
  SchemaDescriptorHeader.schema_flags := 0;
  SchemaDescriptorHeader.min_version_major := 1;
  SchemaDescriptorHeader.max_version_major := 1;
  SchemaDescriptorHeader.body_bytes := 0;
  SchemaDescriptorHeader.dependency_count := 0;
  SchemaDescriptorHeader.default_stream_semantics := STREAM_SEMANTICS_TOKEN_DELTA;
  SchemaDescriptorHeader.schema_hash := 0x6e6e_7270_746f_6b33 |}.

Definition profile_assigned (profile_id : Z) : bool :=
  (profile_id =? PROFILE_UNSPECIFIED) || (profile_id =? PROFILE_TENSOR)
  || (profile_id =? PROFILE_TOKEN).

Definition validate_profile_assignment (profile_id : Z) : Outcome SchemaRegistryFailure.t unit :=
  reject_if (negb (profile_assigned profile_id)) SchemaRegistryFailure.UpdateRejected.

Module SchemaRegistry.

Definition key : Type := Z * Z.

Record t := mk { entries : gmap key SchemaDescriptorHeader.t }.

(** The order of the keys of the [BTreeMap]: by schema, then by version. *)
Definition key_le (a b : key) : Prop := a.1 < b.1 \/ a.1 = b.1 /\ a.2 <= b.2.
#[global] Instance key_le_dec : RelDecision key_le.
Proof. intros a b. unfold key_le. solve_decision. Defined.

Definition key_of (d : SchemaDescriptorHeader.t) : key :=
  (SchemaDescriptorHeader.schema_id d, SchemaDescriptorHeader.schema_version d).

Definition entry_le (a b : key * SchemaDescriptorHeader.t) : Prop := key_le a.1 b.1.
#[global] Instance entry_le_dec : RelDecision entry_le.
Proof. intros a b. unfold entry_le. apply _. Defined.

Definition new : t := {| entries := ∅ |}.

(** [keys().any(..)]: whether some key satisfies a test. *)
Definition any_key (p : key -> bool) (self : t) : bool :=
  existsb (fun e => p e.1) (map_to_list (entries self)).

Definition install (descriptor : SchemaDescriptorHeader.t)
    : Method t SchemaRegistryFailure.t SchemaRegistryAction.t := fun self =>
  match validate_profile_assignment (SchemaDescriptorHeader.profile_id descriptor) with
  | Err e => (Err e, self)
  | Panic => (Panic, self)
  | Ok _ =>
      let k := key_of descriptor in
      match entries self !! k with
      | Some existing =>
          if (SchemaDescriptorHeader.schema_hash existing
              =? SchemaDescriptorHeader.schema_hash descriptor)
             && (SchemaDescriptorHeader.profile_id existing
                 =? SchemaDescriptorHeader.profile_id descriptor)
          then (Ok SchemaRegistryAction.AlreadyInstalled, self)
          else (Err SchemaRegistryFailure.HashConflict, self)
      | None =>
          let has_older_version :=
            any_key (fun k' => (k'.1 =? SchemaDescriptorHeader.schema_id descriptor)
                               && (k'.2 <? SchemaDescriptorHeader.schema_version descriptor)) self in
          (Ok (if has_older_version then SchemaRegistryAction.Updated
               else SchemaRegistryAction.Installed),
           {| entries := <[k := descriptor]> (entries self) |})
      end
  end.

Definition standard : Outcome SchemaRegistryFailure.t t :=
  match install token_delta_schema_descriptor new with
  | (Ok _, registry) => Ok registry
  | _ => Panic
  end.

Definition lookup (self : t) (schema_id schema_version : Z) : option SchemaDescriptorHeader.t :=
  entries self !! (schema_id, schema_version).

Definition snapshot (self : t) : list SchemaDescriptorHeader.t :=
  (merge_sort entry_le (map_to_list (entries self))).*2.

Definition invalidate (schema_id schema_version : Z)
    : Method t SchemaRegistryFailure.t SchemaRegistryAction.t := fun self =>
  match entries self !! (schema_id, schema_version) with
  | Some _ => (Ok SchemaRegistryAction.Invalidated,
       {| entries := delete (schema_id, schema_version) (entries self) |})
  | None => (Err SchemaRegistryFailure.VersionUnknown, self)
  end.

Definition validate_binding (self : t) (descriptor : TypedPayloadDescriptor.t)
    : Outcome SchemaRegistryFailure.t unit :=
  _ ← validate_profile_assignment (TypedPayloadDescriptor.profile_id descriptor);
  if TypedPayloadDescriptor.profile_id descriptor =? PROFILE_UNSPECIFIED then
    if (TypedPayloadDescriptor.schema_id descriptor =? 0)
       && (TypedPayloadDescriptor.schema_version descriptor =? 0)
    then Ok tt
    else Err SchemaRegistryFailure.Incompatible
  else if TypedPayloadDescriptor.schema_id descriptor =? 0 then
    Err SchemaRegistryFailure.Unknown
  else
    match lookup self (TypedPayloadDescriptor.schema_id descriptor)
            (TypedPayloadDescriptor.schema_version descriptor) with
    | None =>
        if any_key (fun k => k.1 =? TypedPayloadDescriptor.schema_id descriptor) self
        then Err SchemaRegistryFailure.VersionUnknown
        else Err SchemaRegistryFailure.Unknown
    | Some schema =>
        reject_if (negb (SchemaDescriptorHeader.profile_id schema
                         =? TypedPayloadDescriptor.profile_id descriptor))
          SchemaRegistryFailure.Incompatible
    end.

(** ** Well-formedness

    Every entry is stored under the key made of its own fields, and its profile is
    an assigned one. *)

Definition wf (self : t) : Prop :=
  map_Forall (fun k d => key_of d = k /\
    profile_assigned (SchemaDescriptorHeader.profile_id d) = true) (entries self).

Inductive step : t -> t -> Prop :=
| step_install d self : step self (state_after (install d) self)
| step_invalidate id v self : step self (state_after (invalidate id v) self).

(** The registries a program can have built. *)
Definition reachable (self : t) : Prop := rtc step new self.

Lemma install_state d self :
  entries (state_after (install d) self) =
  if profile_assigned (SchemaDescriptorHeader.profile_id d) then
    match entries self !! key_of d with
    | Some _ => entries self
    | None => <[key_of d := d]> (entries self)
    end
  else entries self.
Proof.
  unfold state_after, install, validate_profile_assignment. destruct (profile_assigned _); [|done].
  cbn -[base.lookup]. destruct (entries self !! key_of d); [|done]. by case_match.
Qed.

Lemma invalidate_state id v self :
  entries (state_after (invalidate id v) self) = delete (id, v) (entries self).
Proof.
  unfold state_after, invalidate. destruct (entries self !! (id, v)) eqn:E; [done|].
  symmetry. by apply delete_id.
Qed.

Lemma step_wf self self' : step self self' -> wf self -> wf self'.
Proof.
  intros [d s|id v s] Hwf.
  - unfold wf. rewrite install_state. destruct (profile_assigned _) eqn:Hp; [|done].
    destruct (entries s !! key_of d); [done|]. by apply map_Forall_insert_2.
  - unfold wf. rewrite invalidate_state. by apply map_Forall_delete.
Qed.

Lemma reachable_wf self : reachable self -> wf self.
Proof.
  intros Hr. cut (wf new); [|apply map_Forall_empty]. unfold reachable in Hr.
  revert Hr. generalize new. induction 1 as [|x y z Hxy _ IH]; [done|].
  intros Hx. apply IH. by eapply step_wf.
Qed.

Lemma any_key_spec p self :
  any_key p self = true <-> exists k d, entries self !! k = Some d /\ p k = true.
Proof.
  unfold any_key. rewrite existsb_exists. split.
  - intros ([k d] & Hin%list_elem_of_In%elem_of_map_to_list & Hp). eauto.
  - intros (k & d & Hk & Hp). exists (k, d). split; [|done].
    by apply list_elem_of_In, elem_of_map_to_list.
Qed.

(** [install] never replaces an entry. *)
Lemma install_keeps d self k d' :
  entries self !! k = Some d' -> entries (state_after (install d) self) !! k = Some d'.
Proof.
  intros Hk. rewrite install_state. case_match; [|done].
  destruct (entries self !! key_of d) eqn:E; [done|]. rewrite lookup_insert_ne by congruence. done.
Qed.

Lemma lookup_key d self :
  lookup self (SchemaDescriptorHeader.schema_id d) (SchemaDescriptorHeader.schema_version d) =
  entries self !! key_of d.
Proof. done. Qed.

Lemma install_lookup d self a :
  outcome_of (install d) self = Ok a ->
  exists d', lookup (state_after (install d) self) (SchemaDescriptorHeader.schema_id d)
               (SchemaDescriptorHeader.schema_version d) = Some d' /\
    SchemaDescriptorHeader.schema_hash d' = SchemaDescriptorHeader.schema_hash d /\
    SchemaDescriptorHeader.profile_id d' = SchemaDescriptorHeader.profile_id d.
Proof.
  rewrite lookup_key, install_state.
  unfold outcome_of, install, validate_profile_assignment.
  destruct (profile_assigned _); [|done]. cbn -[base.lookup].
  destruct (entries self !! key_of d) as [d'|] eqn:E; [|intros _; exists d; by rewrite lookup_insert_eq].
  case_match eqn:Heq; [|done]. intros _. exists d'. rewrite E.
  apply andb_prop in Heq as [Hh Hp]. by rewrite Z.eqb_eq in Hh, Hp.
Qed.

Lemma install_again d self a :
  outcome_of (install d) self = Ok a ->
  install d (state_after (install d) self) =
  (Ok SchemaRegistryAction.AlreadyInstalled, state_after (install d) self).
Proof.
  intros Ha. destruct (install_lookup _ _ _ Ha) as (d' & Hl & Hh & Hp).
  rewrite lookup_key in Hl.
  unfold install at 1. assert (profile_assigned (SchemaDescriptorHeader.profile_id d) = true) as Hpa.
  { unfold outcome_of, install, validate_profile_assignment in Ha. by destruct (profile_assigned _). }
  unfold validate_profile_assignment. rewrite Hpa. cbn -[base.lookup install state_after].
  by rewrite Hl, Hh, Hp, !Z.eqb_refl.
Qed.

Lemma install_assigned d self a :
  outcome_of (install d) self = Ok a ->
  profile_assigned (SchemaDescriptorHeader.profile_id d) = true.
Proof.
  unfold outcome_of, install, validate_profile_assignment.
  by destruct (profile_assigned (SchemaDescriptorHeader.profile_id d)).
Qed.

(** The action that [install] reports. *)
Lemma install_fresh d self :
  profile_assigned (SchemaDescriptorHeader.profile_id d) = true -> entries self !! key_of d = None ->
  outcome_of (install d) self = Ok SchemaRegistryAction.Updated <->
  exists v d', v < SchemaDescriptorHeader.schema_version d /\
    lookup self (SchemaDescriptorHeader.schema_id d) v = Some d'.
Proof.
  intros Hp Hk. unfold outcome_of, install, validate_profile_assignment. rewrite Hp.
  cbn -[base.lookup]. rewrite Hk. cbn -[base.lookup].
  assert (forall b : bool, Ok (if b then SchemaRegistryAction.Updated else SchemaRegistryAction.Installed)
    = @Ok SchemaRegistryFailure.t _ SchemaRegistryAction.Updated <-> b = true) as Hb by (by intros []).
  rewrite Hb, any_key_spec. unfold lookup. split.
  - intros ([id v] & d' & Hd & [Hid%Z.eqb_eq Hv%Z.ltb_lt]%andb_prop). simpl in *. subst. eauto.
  - intros (v & d' & Hv & Hd). exists (SchemaDescriptorHeader.schema_id d, v), d'.
    split; [done|]. simpl. rewrite Z.eqb_refl. by apply Z.ltb_lt.
Qed.

#[global] Instance entry_le_total : Total entry_le.
Proof. intros a b. unfold entry_le, key_le. lia. Qed.

#[global] Instance entry_le_transitive : Transitive entry_le.
Proof. intros a b c. unfold entry_le, key_le. lia. Qed.

(** [snapshot] lists every entry once, in key order. *)
Lemma snapshot_spec self :
  wf self ->
  Sorted key_le (key_of <$> snapshot self) /\
  snapshot self ≡ₚ (map_to_list (entries self)).*2 /\ length (snapshot self) = size (entries self).
Proof.
  intros Hwf. unfold snapshot. set (s := merge_sort entry_le (map_to_list (entries self))).
  assert (s ≡ₚ map_to_list (entries self)) as Hp by apply merge_sort_Permutation.
  assert (Sorted entry_le s) as Hs by apply (Sorted_merge_sort entry_le).
  split_and!.
  - rewrite <- list_fmap_compose.
    assert (Forall (fun e => key_of e.2 = e.1) s) as Hk.
    { rewrite Hp. apply Forall_forall. intros [k d] Hin%elem_of_map_to_list. by apply Hwf. }
    clear Hp. induction Hs as [|e s Hs IH Hhd]; simpl; [constructor|].
    apply Forall_cons in Hk as [He Hk]. constructor; [by apply IH|].
    destruct Hhd as [|e' s Hee]; simpl; constructor.
    apply Forall_cons in Hk as [He' _]. unfold entry_le in Hee. unfold compose.
    by rewrite He, He'.
  - by rewrite Hp.
  - rewrite length_fmap, Hp. by rewrite length_map_to_list.
Qed.

(** ** Contract *)

(** On every registry a program can build, an accepted [install] makes the schema found under
    its id and version, with the same hash and profile, replaces no entry, and is
    idempotent; the action says whether an older version was there.  A refused one
    changes nothing. *)
Theorem install_contract self d :
  reachable self ->
  let self' := state_after (install d) self in
  (forall k d', entries self !! k = Some d' -> entries self' !! k = Some d') /\
  match outcome_of (install d) self with
  | Ok action =>
      (exists d', lookup self' (SchemaDescriptorHeader.schema_id d)
                    (SchemaDescriptorHeader.schema_version d) = Some d' /\
         SchemaDescriptorHeader.schema_hash d' = SchemaDescriptorHeader.schema_hash d /\
         SchemaDescriptorHeader.profile_id d' = SchemaDescriptorHeader.profile_id d /\
         profile_assigned (SchemaDescriptorHeader.profile_id d') = true) /\
      install d self' = (Ok SchemaRegistryAction.AlreadyInstalled, self') /\
      (entries self !! key_of d = None ->
       action = SchemaRegistryAction.Updated <->
       exists v d', v < SchemaDescriptorHeader.schema_version d /\
         lookup self (SchemaDescriptorHeader.schema_id d) v = Some d')
  | Err _ => self' = self
  | Panic => False
  end.
Proof.
  intros Hr. cbv zeta. split; [intros k d'; apply install_keeps|].
  destruct (outcome_of (install d) self) as [a|e|] eqn:Ho.
  - destruct (install_lookup _ _ _ Ho) as (d' & Hd' & Hh & Hp). split_and!.
    + exists d'. split_and!; [done..|].
      assert (reachable (state_after (install d) self)) as Hr'
        by (eapply rtc_r; [exact Hr|constructor]).
      by apply (reachable_wf _ Hr') in Hd' as [_ ?].
    + by eapply install_again.
    + intros Hn. rewrite <- install_fresh; [|by eapply install_assigned|done]. rewrite Ho. naive_solver.
  - revert Ho. unfold outcome_of, state_after, install. repeat case_match; naive_solver.
  - revert Ho. unfold outcome_of, install, validate_profile_assignment, reject_if.
    repeat case_match; naive_solver.
Qed.

Lemma install_contract_witness :
  install token_delta_schema_descriptor (state_after (install token_delta_schema_descriptor) new) =
  (Ok SchemaRegistryAction.AlreadyInstalled, state_after (install token_delta_schema_descriptor) new).
Proof.
  destruct (install_contract new token_delta_schema_descriptor) as [_ H]; [apply rtc_refl|].
  exact (proj1 (proj2 H)).
Defined.

(** A typed payload is bound exactly when its profile is unspecified and it names no schema,
    or its profile is assigned, and the schema and version that it names are installed
    for that profile.  The failure says that the version is unknown exactly when
    another version of the schema is installed. *)
Theorem schema_binding_exact self p :
  (validate_binding self p = Ok tt <->
   if TypedPayloadDescriptor.profile_id p =? PROFILE_UNSPECIFIED then
     TypedPayloadDescriptor.schema_id p = 0 /\ TypedPayloadDescriptor.schema_version p = 0
   else
     profile_assigned (TypedPayloadDescriptor.profile_id p) = true /\
     TypedPayloadDescriptor.schema_id p <> 0 /\
     exists d, lookup self (TypedPayloadDescriptor.schema_id p)
                 (TypedPayloadDescriptor.schema_version p) = Some d /\
       SchemaDescriptorHeader.profile_id d = TypedPayloadDescriptor.profile_id p) /\
  (validate_binding self p = Err SchemaRegistryFailure.VersionUnknown <->
   TypedPayloadDescriptor.profile_id p <> PROFILE_UNSPECIFIED /\
   profile_assigned (TypedPayloadDescriptor.profile_id p) = true /\
   TypedPayloadDescriptor.schema_id p <> 0 /\
   lookup self (TypedPayloadDescriptor.schema_id p) (TypedPayloadDescriptor.schema_version p) = None /\
   exists v d, lookup self (TypedPayloadDescriptor.schema_id p) v = Some d).
Proof.
  unfold validate_binding, validate_profile_assignment.
  destruct (Z.eqb_spec (TypedPayloadDescriptor.profile_id p) PROFILE_UNSPECIFIED) as [->|Hne].
  { cbn -[Z.eqb]. rewrite <- !Z.eqb_eq, <- andb_true_iff. by case_match; naive_solver. }
  destruct (profile_assigned _); cbn -[Z.eqb lookup any_key]; [|naive_solver].
  destruct (Z.eqb_spec (TypedPayloadDescriptor.schema_id p) 0) as [->|Hid]; [naive_solver|].
  destruct (lookup self _ _) as [d|].
  - destruct (Z.eqb_spec (SchemaDescriptorHeader.profile_id d) (TypedPayloadDescriptor.profile_id p));
      simpl; naive_solver.
  - destruct (any_key _ self) eqn:Ha.
    + apply any_key_spec in Ha as ([id v] & d & Hk & Hid'%Z.eqb_eq). simpl in Hid'. subst id.
      split; [naive_solver|]. split; [by eauto 10|done].
    + split; [naive_solver|]. split; [done|]. intros (_ & _ & _ & _ & v & d & Hd).
      assert (any_key (fun k => k.1 =? TypedPayloadDescriptor.schema_id p) self = true) as Ht
        by (apply any_key_spec; eexists _, d; split; [exact Hd|apply Z.eqb_refl]).
      congruence.
Qed.

(** [snapshot] lists every descriptor of the registry exactly once, in the order of schema id
    and version, and every listed descriptor is found under its own id and version. *)
Theorem snapshot_lists_entries self :
  reachable self ->
  Sorted key_le (key_of <$> snapshot self) /\ NoDup (key_of <$> snapshot self) /\
  (forall d, d ∈ snapshot self <->
     lookup self (SchemaDescriptorHeader.schema_id d) (SchemaDescriptorHeader.schema_version d) = Some d).
Proof.
  intros Hwf%reachable_wf. destruct (snapshot_spec self Hwf) as (Hs & Hp & _).
  split_and!; [done| |].
  - rewrite Hp, <- list_fmap_compose.
    rewrite (list_fmap_ext _ fst); [apply NoDup_fst_map_to_list|].
    intros i [k d] Hi%list_elem_of_lookup_2%elem_of_map_to_list. by apply Hwf in Hi as [? _].
  - intros d. rewrite Hp, list_elem_of_fmap, lookup_key. split.
    + intros ([k d'] & -> & Hin%elem_of_map_to_list). simpl. by destruct (Hwf _ _ Hin) as [-> _].
    + intros Hd. exists (key_of d, d). by rewrite elem_of_map_to_list.
Qed.

Lemma snapshot_lists_entries_witness :
  token_delta_schema_descriptor ∈ snapshot (state_after (install token_delta_schema_descriptor) new).
Proof.
  apply (snapshot_lists_entries (state_after (install token_delta_schema_descriptor) new));
    [apply rtc_once; constructor|vm_compute; reflexivity].
Defined.

End SchemaRegistry.
