(* ===== verification/Regions.v ===== *)
(** Body regions ([src/crates/nnrp-core/src/data.rs]): the region prelude, arrays of
    fixed-size blocks, the object reference region and the typed payload region.

    The section [arrays] treats an array of blocks once, for any struct that
    satisfies the codec laws: the two regions that are arrays instantiate it. *)

From S2P Require Import Prelude Bytes Errors Enums Wire Header Control Codes Cache Data Schema.

Local Open Scope Z_scope.

(** ** Arrays of blocks *)

Fixpoint chunks (fuel n : nat) (l : bytes) : list bytes :=
  match fuel with
  | O => []
  | S fuel => if (n <=? length l)%nat then take n l :: chunks fuel n (drop n l) else []
  end.

(** [l.chunks_exact(n)] for [n > 0]: each turn takes a byte or more. *)
Definition chunks_exact (n : nat) (l : bytes) : list bytes := chunks (length l) n l.

(** [block.write(&mut buffer\[index * n..(index + 1) * n\])?]. *)
Definition write_block {A} (n : nat) (write : A -> bytes -> R bytes)
    (buffer : bytes) (indexed : nat * A) : R bytes :=
  let (index, block) := indexed in
  part ← slice buffer (index * n) ((index + 1) * n);
  part ← write block part;
  copy_from_slice buffer (index * n) part.

(** A zeroed vector, and the loop over the enumerated blocks. *)
Definition write_blocks {A} (n : nat) (write : A -> bytes -> R bytes) (blocks : list A) : R bytes :=
  try_fold (write_block n write) (replicate (length blocks * n) x00)
    (zip (seq 0 (length blocks)) blocks).

Lemma chunks_concat n (bs : list bytes) fuel :
  (0 < n)%nat -> Forall (fun b => length b = n) bs -> (length bs <= fuel)%nat ->
  chunks fuel n (concat bs) = bs.
Proof.
  intros Hn Hbs. revert fuel. induction Hbs as [|b bs Hb Hbs IH]; intros fuel Hf; simpl.
  - destruct fuel; simpl; [done|]. by rewrite (proj2 (Nat.leb_gt _ _)).
  - destruct fuel as [|fuel]; simpl in *; [lia|].
    rewrite (proj2 (Nat.leb_le _ _)) by (rewrite length_app; lia).
    by rewrite take_app_length', drop_app_length', IH by lia.
Qed.

Lemma chunks_length fuel n l : Forall (fun b => length b = n) (chunks fuel n l).
Proof.
  revert l; induction fuel as [|fuel IH]; intros l; simpl; [done|].
  destruct (Nat.leb_spec n (length l)); [|done]. constructor; [|done].
  rewrite length_take. lia.
Qed.

Lemma concat_chunks n l k fuel :
  (0 < n)%nat -> length l = (k * n)%nat -> (length l <= fuel)%nat -> concat (chunks fuel n l) = l.
Proof.
  intros Hn. revert l fuel. induction k as [|k IH]; intros l fuel Hl Hf.
  - destruct l; [|done]. destruct fuel; simpl; [done|]. by rewrite (proj2 (Nat.leb_gt _ _)).
  - destruct fuel as [|fuel]; simpl in *; [destruct l; simpl in *; lia|].
    rewrite (proj2 (Nat.leb_le _ _)) by lia. simpl.
    rewrite IH by (rewrite length_drop; lia). by rewrite take_drop.
Qed.

Lemma concat_length_const n (bs : list bytes) :
  Forall (fun b => length b = n) bs -> length (concat bs) = (length bs * n)%nat.
Proof. induction 1 as [|b bs Hb _ IH]; simpl; [done|]. rewrite length_app. lia. Qed.

Section arrays.
Context {A : Type} `{WireCodecLaws A}.
Implicit Types ms : list A.

(** The bytes an array of blocks stands for. *)
Definition wires ms : bytes := concat (map wire ms).

Lemma wires_blocks ms : Forall (fun b => length b = codec_len (A := A)) (map wire ms).
Proof. apply Forall_map, Forall_true. intros m. apply length_wire. Qed.

Lemma length_wires ms : length (wires ms) = (length ms * codec_len (A := A))%nat.
Proof. unfold wires. rewrite (concat_length_const _ _ (wires_blocks ms)), length_map. done. Qed.

Lemma parse_blocks_Ok bs ms :
  (0 < codec_len (A := A))%nat ->
  (length bs mod codec_len (A := A) = 0)%nat ->
  collect codec_parse (chunks_exact (codec_len (A := A)) bs) = Ok ms <->
  Forall (fun m => valid m = true) ms /\ bs = wires ms.
Proof.
  intros Hpos Hmod. rewrite collect_Ok. set (n := codec_len (A := A)) in *. split.
  - intros Hall. apply Nat.Div0.mod_divides in Hmod as [k Hk].
    assert (concat (chunks_exact n bs) = bs) as Hc
      by (apply (concat_chunks n bs k); [done|lia|lia]).
    pose proof (chunks_length (length bs) n bs) as Hlen. fold (chunks_exact n bs) in Hlen.
    rewrite <- Hc. clear Hk Hc. unfold wires. generalize dependent (chunks_exact n bs).
    intros cs Hall Hlen. induction Hall as [|b m bs' ms' Hb Hall IH]; [done|].
    apply Forall_cons in Hlen as [Hbl Hlen]. destruct (IH Hlen) as [Hv He].
    apply parse_iff in Hb as [Hm Ht]. rewrite take_ge in Ht by lia. subst b. simpl.
    split; [by constructor|]. by f_equal.
  - intros [Hv ->]. unfold wires, chunks_exact.
    rewrite (chunks_concat n); [|done|apply wires_blocks|].
    + clear Hmod. induction Hv as [|m ms' Hm Hv IH]; simpl; constructor; [|done].
      rewrite <- (app_nil_r (wire m)). by apply law_parse_wire.
    + rewrite (concat_length_const n); [|apply wires_blocks]. rewrite length_map. nia.
Qed.

Lemma write_block_at m pre block post i :
  length block = codec_len (A := A) -> length pre = (i * codec_len (A := A))%nat ->
  write_block codec_len codec_write (pre ++ block ++ post) (i, m) =
  (b ← codec_write m block; Ok (pre ++ b ++ post)).
Proof.
  intros Hb Hp. unfold write_block.
  eapply bind_step; [|cbv beta].
  { rewrite <- Hp. replace (_ * _)%nat with (length pre + length block)%nat by lia.
    apply slice_app. }
  destruct (codec_write m block) as [b|e|] eqn:Hw; [|done|done]. simpl.
  destruct (write_frame _ _ _ Hw) as [Hl _]. unfold copy_from_slice.
  rewrite decide_True by (rewrite !length_app; lia). rewrite <- Hp.
  rewrite take_app_length, <- drop_drop, drop_app_length, Hl, drop_app_length. done.
Qed.

Lemma write_loop_Ok ms pre i bs :
  length pre = (i * codec_len (A := A))%nat ->
  try_fold (write_block codec_len codec_write) (pre ++ replicate (length ms * codec_len (A := A)) x00)
    (zip (seq i (length ms)) ms) = Ok bs <->
  Forall (fun m => is_ok (codec_to_bytes m) = true) ms /\ bs = pre ++ wires ms.
Proof.
  revert pre i. induction ms as [|m ms IH]; intros pre i Hp; cbn [length seq zip zip_with try_fold].
  { rewrite !app_nil_r. split; [intros [= <-]; done|intros [_ ->]; done]. }
  rewrite Nat.mul_succ_l, Nat.add_comm, replicate_add, write_block_at
    by (rewrite ?length_replicate; done).
  rewrite Forall_cons. unfold codec_to_bytes at 1.
  destruct (codec_write m _) as [b|e|] eqn:Hw; cbn [mbind outcome_bind is_ok];
    [|by split; [|intros [[] _]]..].
  apply law_write_sound in Hw as [_ ->].
  rewrite drop_ge, app_nil_r by (rewrite length_replicate; lia).
  rewrite app_assoc, IH by (rewrite length_app, length_wire; lia).
  change (wires (m :: ms)) with (wire m ++ wires ms). rewrite <- app_assoc. naive_solver.
Qed.

Lemma write_loop_no_panic ms pre i :
  length pre = (i * codec_len (A := A))%nat ->
  try_fold (write_block codec_len codec_write) (pre ++ replicate (length ms * codec_len (A := A)) x00)
    (zip (seq i (length ms)) ms) <> Panic.
Proof.
  revert pre i. induction ms as [|m ms IH]; intros pre i Hp; cbn [length seq zip zip_with try_fold];
    [done|].
  rewrite Nat.mul_succ_l, Nat.add_comm, replicate_add, write_block_at
    by (rewrite ?length_replicate; done).
  pose proof (law_write_no_panic m (replicate (codec_len (A := A)) x00)) as Hnp.
  destruct (codec_write m _) as [b|e|] eqn:Hw; cbn [mbind outcome_bind]; [|done|done].
  apply law_write_sound in Hw as [_ ->].
  rewrite drop_ge, app_nil_r by (rewrite length_replicate; lia).
  rewrite app_assoc. apply IH. rewrite length_app, length_wire. lia.
Qed.

Lemma write_blocks_no_panic ms : write_blocks codec_len codec_write ms <> Panic.
Proof. apply (write_loop_no_panic ms [] 0). done. Qed.

(** The loop writes the blocks one after the other, or stops at the first that
    cannot be written. *)
Lemma write_blocks_Ok ms bs :
  write_blocks codec_len codec_write ms = Ok bs <->
  Forall (fun m => is_ok (codec_to_bytes m) = true) ms /\ bs = wires ms.
Proof. apply (write_loop_Ok ms [] 0). done. Qed.

Lemma write_blocks_valid ms :
  Forall (fun m => valid m = true) ms -> write_blocks codec_len codec_write ms = Ok (wires ms).
Proof.
  intros Hv. apply write_blocks_Ok. split; [|done].
  eapply Forall_impl; [exact Hv|]. intros m Hm. cbv beta. by rewrite to_bytes_valid.
Qed.

Lemma write_blocks_strict `{!StrictWireCodec A} ms bs :
  Forall (fun m => typed m = true) ms -> write_blocks codec_len codec_write ms = Ok bs ->
  Forall (fun m => valid m = true) ms /\ bs = wires ms.
Proof.
  intros Ht [Hok ->]%write_blocks_Ok. split; [|done].
  apply Forall_forall. intros m Hm. rewrite Forall_forall in Ht, Hok.
  destruct (proj1 (is_ok_true _) (Hok m Hm)) as [b Hb]. eapply law_write_strict; eauto.
Qed.
End arrays.

(** ** The region prelude *)

Definition BODY_REGION_PRELUDE_LEN : nat := 32.

Module BodyRegionPrelude.

#[projections(primitive)]
Record t := mk {
  inline_object_bytes : Z;
  object_reference_bytes : Z;
  typed_payload_descriptor_bytes : Z;
  typed_payload_frame_bytes : Z;
  extension_descriptor_bytes : Z;
  extension_payload_bytes : Z
}.

Definition validate_alignment (m : t) : R unit :=
  _ ← reject_if (negb (object_reference_bytes m mod Z.of_nat OBJECT_REFERENCE_BLOCK_LEN =? 0))
        (InvalidProtocolCombination
           "object_reference_bytes must be a multiple of object reference block length");
  _ ← reject_if (negb (typed_payload_descriptor_bytes m mod Z.of_nat TYPED_PAYLOAD_DESCRIPTOR_LEN
                       =? 0))
        (InvalidProtocolCombination
           "typed_payload_descriptor_bytes must be a multiple of typed payload descriptor length");
  reject_if (negb (extension_descriptor_bytes m mod Z.of_nat EXTENSION_FRAME_DESCRIPTOR_LEN =? 0))
    (InvalidProtocolCombination
       "extension_descriptor_bytes must be a multiple of extension frame descriptor length").

Lemma alignment_no_panic m : validate_alignment m <> Panic.
Proof.
  unfold validate_alignment. do 2 (apply bind_no_panic; [apply reject_if_no_panic|intros _ _]).
  apply reject_if_no_panic.
Qed.


Definition parse (source : bytes) : R t :=
  _ ← require_len source BODY_REGION_PRELUDE_LEN;
  body_flags ← read_u32 source 24;
  _ ← validate_zero "body_region_prelude.body_flags" body_flags;
  reserved ← read_u32 source 28;
  _ ← validate_zero "body_region_prelude.reserved" reserved;
  inline_object_bytes ← read_u32 source 0;
  object_reference_bytes ← read_u32 source 4;
  typed_payload_descriptor_bytes ← read_u32 source 8;
  typed_payload_frame_bytes ← read_u32 source 12;
  extension_descriptor_bytes ← read_u32 source 16;
  extension_payload_bytes ← read_u32 source 20;
  let prelude := {| inline_object_bytes := inline_object_bytes;
      object_reference_bytes := object_reference_bytes;
      typed_payload_descriptor_bytes := typed_payload_descriptor_bytes;
      typed_payload_frame_bytes := typed_payload_frame_bytes;
      extension_descriptor_bytes := extension_descriptor_bytes;
      extension_payload_bytes := extension_payload_bytes |} in
  _ ← validate_alignment prelude;
  Ok prelude.

Definition write (m : t) (destination : bytes) : R bytes :=
  _ ← require_destination_len destination BODY_REGION_PRELUDE_LEN;
  _ ← validate_alignment m;
  destination ← fill_zero destination BODY_REGION_PRELUDE_LEN;
  destination ← write_u32 destination 0 (inline_object_bytes m);
  destination ← write_u32 destination 4 (object_reference_bytes m);
  destination ← write_u32 destination 8 (typed_payload_descriptor_bytes m);
  destination ← write_u32 destination 12 (typed_payload_frame_bytes m);
  destination ← write_u32 destination 16 (extension_descriptor_bytes m);
  destination ← write_u32 destination 20 (extension_payload_bytes m);
  Ok destination.

Definition to_bytes (m : t) : R bytes := write m (replicate BODY_REGION_PRELUDE_LEN x00).

Definition total_region_bytes (m : t) : R Z :=
  try_fold (fun sum value => ok_or (checked_add u32_max sum value) MessageLengthOverflow) 0
    [ inline_object_bytes m; object_reference_bytes m; typed_payload_descriptor_bytes m;
      typed_payload_frame_bytes m; extension_descriptor_bytes m; extension_payload_bytes m ].

Definition layout (m : t) : list field :=
  [ F (KU 4) (inline_object_bytes m); F (KU 4) (object_reference_bytes m);
      F (KU 4) (typed_payload_descriptor_bytes m); F (KU 4) (typed_payload_frame_bytes m);
      F (KU 4) (extension_descriptor_bytes m); F (KU 4) (extension_payload_bytes m);
      F (KU 4) 0; F (KU 4) 0 ].

Definition guard (m : t) : bool := is_ok (validate_alignment m).

End BodyRegionPrelude.
#[export] Hint Resolve BodyRegionPrelude.alignment_no_panic : nopanic.

#[export] Instance BodyRegionPrelude_codec : WireCodec BodyRegionPrelude.t := {|
  codec_len := BODY_REGION_PRELUDE_LEN;
  codec_shape := [KU 4; KU 4; KU 4; KU 4; KU 4; KU 4; KU 4; KU 4 ];
  codec_parse := BodyRegionPrelude.parse;
  codec_write := BodyRegionPrelude.write;
  codec_layout := BodyRegionPrelude.layout;
  codec_guard := BodyRegionPrelude.guard |}.
#[export] Instance BodyRegionPrelude_codec_laws : WireCodecLaws BodyRegionPrelude.t.
Proof. solve_codec BodyRegionPrelude.parse BodyRegionPrelude.write BodyRegionPrelude.guard. Qed.
#[export] Instance BodyRegionPrelude_strict : StrictWireCodec BodyRegionPrelude.t.
Proof. solve_strict BodyRegionPrelude.write BodyRegionPrelude.guard. Qed.

(** ** Object references *)

Definition validate_submit_object_ref_mask (submit_mode : SubmitMode.t) (object_ref_mask : Z)
    : R unit :=
  _ ← validate_mask_u32 object_ref_mask SUBMIT_OBJECT_REF_MASK_KNOWN_BITS;
  match submit_mode with
  | SubmitMode.Inline =>
      reject_if (negb (object_ref_mask =? 0))
        (InvalidProtocolCombination "inline FRAME_SUBMIT must not declare object_ref_mask")
  | SubmitMode.Reference | SubmitMode.Mixed =>
      reject_if (object_ref_mask =? 0)
        (InvalidProtocolCombination
           "reference or mixed FRAME_SUBMIT requires non-zero object_ref_mask")
  end.

Definition submit_object_slot_index (object_kind : CacheObjectKind.t) : option Z :=
  match object_kind with
  | CacheObjectKind.CameraBlock => Some 0
  | CacheObjectKind.TileIndexBlock => Some 1
  | CacheObjectKind.TensorSectionTable => Some 2
  | CacheObjectKind.PayloadLayoutTemplate => Some 3
  | _ => None
  end.

Module ObjectReferenceRegion.

Record t := mk { blocks : list ObjectReferenceBlock.t }.

Definition parse (source : bytes) : R t :=
  _ ← reject_if (negb (length source mod OBJECT_REFERENCE_BLOCK_LEN =? 0)%nat)
        (InvalidProtocolCombination
           "object reference region length must be a multiple of object reference block length");
  blocks ← collect ObjectReferenceBlock.parse (chunks_exact OBJECT_REFERENCE_BLOCK_LEN source);
  Ok {| blocks := blocks |}.

Definition from_blocks (blocks : list ObjectReferenceBlock.t) : t := {| blocks := blocks |}.

Definition to_bytes (self : t) : R bytes :=
  write_blocks OBJECT_REFERENCE_BLOCK_LEN ObjectReferenceBlock.write (blocks self).

(** One turn of the loop of [validate_submit_mask]: the expected slot and the mask seen. *)
Definition mask_step (object_ref_mask : Z) (state : Z * Z) (block : ObjectReferenceBlock.t)
    : R (Z * Z) :=
  let (expected_slot, seen_mask) := state in
  match submit_object_slot_index (ObjectReferenceBlock.object_kind block) with
  | None => Ok state
  | Some slot =>
      _ ← reject_if (slot <? expected_slot)
            (InvalidProtocolCombination "object reference region standard slots must be sorted");
      let bit := Z.shiftl 1 slot in
      _ ← reject_if (negb (Z.land seen_mask bit =? 0))
            (InvalidProtocolCombination
               "object reference region must not duplicate standard slots");
      _ ← reject_if (Z.land object_ref_mask bit =? 0)
            (InvalidProtocolCombination
               "object reference block requires matching object_ref_mask bit");
      Ok (slot, Z.lor seen_mask bit)
  end.

Definition validate_submit_mask (self : t) (submit_mode : SubmitMode.t) (object_ref_mask : Z)
    : R unit :=
  _ ← validate_submit_object_ref_mask submit_mode object_ref_mask;
  state ← try_fold (mask_step object_ref_mask) (0, 0) (blocks self);
  reject_if (negb (snd state =? object_ref_mask))
    (InvalidProtocolCombination "object reference region must exactly match object_ref_mask").

(** The callback [contains] decides from the block alone. *)
Definition validate_resolved (self : t) (contains : ObjectReferenceBlock.t -> bool) : R unit :=
  _ ← collect (fun block => reject_if (negb (contains block))
                 (InvalidProtocolCombination "object reference must resolve from cache"))
        (blocks self);
  Ok tt.

Definition first_unresolved (self : t) (contains : ObjectReferenceBlock.t -> bool)
    : option ObjectReferenceBlock.t :=
  find (fun block => negb (contains block)) (blocks self).

Definition validate_resolved_or_cache_miss (self : t) (contains : ObjectReferenceBlock.t -> bool)
    (related_session_id related_frame_id related_view_id : Z) : Outcome ErrorMetadata.t unit :=
  match first_unresolved self contains with
  | Some block =>
      Err (ObjectReferenceBlock.cache_miss_error_metadata block
             related_session_id related_frame_id related_view_id 0)
  | None => Ok tt
  end.

Lemma reference_blocks_Ok source ms :
  (length source mod OBJECT_REFERENCE_BLOCK_LEN = 0)%nat ->
  collect ObjectReferenceBlock.parse (chunks_exact OBJECT_REFERENCE_BLOCK_LEN source) = Ok ms <->
  Forall (fun m => valid m = true) ms /\ source = wires ms.
Proof. exact (parse_blocks_Ok (A := ObjectReferenceBlock.t) source ms (Nat.lt_0_succ _)). Qed.

Lemma region_parse_Ok source region :
  parse source = Ok region <->
  Forall (fun b => valid b = true) (blocks region) /\ source = wires (blocks region).
Proof.
  unfold parse. split.
  - intros Hp. apply bind_Ok in Hp as (u & Hm%reject_if_Ok & Hp).
    apply negb_false_iff, Nat.eqb_eq in Hm.
    apply bind_Ok in Hp as (bs & Hbs & [= <-]).
    by apply reference_blocks_Ok in Hbs.
  - intros [Hv Hs].
    assert (length source mod OBJECT_REFERENCE_BLOCK_LEN = 0)%nat as Hm.
    { rewrite Hs, length_wires. apply Nat.Div0.mod_mul. }
    eapply (bind_step _ _ tt); [by rewrite Hm|cbv beta].
    eapply (bind_step _ _ (blocks region)); [|by destruct region].
    by apply reference_blocks_Ok.
Qed.

(** ** The submit mask

    The standard slots of the blocks, in order, must be strictly increasing, and
    their bits are exactly the declared mask. *)

Definition slots (self : t) : list Z :=
  omap (fun b => submit_object_slot_index (ObjectReferenceBlock.object_kind b)) (blocks self).

Definition mask_of (ss : list Z) : Z := foldr (fun s acc => Z.lor (Z.shiftl 1 s) acc) 0 ss.

Lemma slot_range k s : submit_object_slot_index k = Some s -> 0 <= s <= 3.
Proof. destruct k; intros [= <-]; lia. Qed.

(** Nothing above the last slot has been seen. *)
Definition seen_below (expected seen : Z) : Prop :=
  forall n, expected < n -> Z.testbit seen n = false.

Lemma seen_below_step expected seen s :
  expected <= s -> 0 <= s -> seen_below expected seen -> seen_below s (Z.lor seen (Z.shiftl 1 s)).
Proof.
  intros He Hs Hb n Hn. rewrite Z.lor_spec, testbit_shiftl_one, Hb by lia.
  simpl. apply Z.eqb_neq. lia.
Qed.

(** The next slot is above the last one exactly when the loop's two checks pass. *)
Lemma head_above s seen ss :
  seen_below s seen -> 0 <= s -> 
  (forall s', head ss = Some s' -> s <= s' /\ Z.testbit (Z.lor seen (Z.shiftl 1 s)) s' = false) <->
  HdRel Z.lt s ss.
Proof.
  intros Hb Hs. destruct ss as [|s' ss]; simpl; [by split; [constructor|]|]. split.
  - intros H. destruct (H s' eq_refl) as [Hle Ht]. constructor.
    rewrite Z.lor_spec, testbit_shiftl_one in Ht by done. apply orb_false_iff in Ht as [_ Ht].
    apply Z.eqb_neq in Ht. lia.
  - inversion 1 as [|? ? Hlt]; subst. intros ? [= <-]. split; [lia|].
    rewrite Z.lor_spec, testbit_shiftl_one, Hb by lia. apply Z.eqb_neq. lia.
Qed.

Lemma mask_step_Ok mask s expected seen b bs final :
  submit_object_slot_index (ObjectReferenceBlock.object_kind b) = Some s -> 0 <= s ->
  (exists e, try_fold (mask_step mask) (expected, seen) (b :: bs) = Ok (e, final)) <->
  expected <= s /\ Z.testbit seen s = false /\ Z.testbit mask s = true /\
  exists e, try_fold (mask_step mask) (s, Z.lor seen (Z.shiftl 1 s)) bs = Ok (e, final).
Proof.
  intros Hslot Hs. cbn [try_fold mask_step]. rewrite Hslot. cbv zeta.
  pose proof (land_bit_zero seen s Hs) as Hseen. pose proof (land_bit_zero mask s Hs) as Hmask.
  destruct (Z.ltb_spec s expected) as [Hlt|Hge]; cbn.
  { split; [by intros (e & [=])|lia]. }
  destruct (Z.eqb_spec (Z.land seen (Z.shiftl 1 s)) 0) as [Hz|Hz]; cbn.
  - destruct (Z.eqb_spec (Z.land mask (Z.shiftl 1 s)) 0) as [Hm|Hm]; cbn.
    + split; [by intros (e & [=])|]. rewrite (proj1 Hmask Hm). by intros (_ & _ & [=] & _).
    + assert (Z.testbit mask s = true) as Ht
        by (destruct (Z.testbit mask s); [done|by destruct Hm; apply Hmask]).
      rewrite Hseen in Hz. naive_solver.
  - split; [by intros (e & [=])|]. intros (_ & Hf & _). by destruct Hz; apply Hseen.
Qed.

Lemma slots_range region s : s ∈ slots region -> 0 <= s.
Proof. intros (b & _ & Hs)%list_elem_of_omap. apply slot_range in Hs. lia. Qed.

Lemma mask_of_bit ss s :
  (forall s', s' ∈ ss -> 0 <= s') -> s ∈ ss -> Z.testbit (mask_of ss) s = true.
Proof.
  intros Hpos. induction 1 as [s ss|s s' ss Hin IH]; simpl; rewrite Z.lor_spec.
  - by rewrite testbit_shiftl_one, Z.eqb_refl by (apply Hpos; set_solver).
  - rewrite IH by set_solver. apply orb_true_r.
Qed.

Lemma mask_loop_Ok mask bs expected seen final :
  seen_below expected seen ->
  (exists e, try_fold (mask_step mask) (expected, seen) bs = Ok (e, final)) <->
  let ss := omap (fun b => submit_object_slot_index (ObjectReferenceBlock.object_kind b)) bs in
  (forall s, s ∈ ss -> Z.testbit mask s = true) /\ Sorted Z.lt ss /\
  (forall s, head ss = Some s -> expected <= s /\ Z.testbit seen s = false) /\
  final = Z.lor seen (mask_of ss).
Proof.
  revert expected seen. induction bs as [|b bs IH]; intros expected seen Hbelow.
  { cbn. rewrite Z.lor_0_r. split.
    - intros (e & [= -> ->]). split_and!; [set_solver|constructor|done|done].
    - intros (_ & _ & _ & ->). eauto. }
  cbn [omap list_omap].
  destruct (submit_object_slot_index (ObjectReferenceBlock.object_kind b)) as [s|] eqn:Hslot.
  2: { cbn [try_fold mask_step]. rewrite Hslot. by apply IH. }
  pose proof (slot_range _ _ Hslot) as Hs. rewrite (mask_step_Ok _ _ _ _ _ _ _ Hslot) by lia. split.
  - intros (He & Hseen & Hmask & Hrest).
    apply IH in Hrest as (Hall & Hsort & Hhead & ->); [|by apply (seen_below_step expected); [|lia|]].
    split_and!; [set_solver| |by intros s' [= <-]|by rewrite <- Z.lor_assoc].
    constructor; [done|]. apply head_above in Hhead; [done|by intros n Hn; apply Hbelow; lia|lia].
  - intros (Hall & Hsort & Hhead & ->). destruct (Hhead s eq_refl) as [He Hseen].
    inversion Hsort as [|? ? Hsort' Hhd]; subst.
    split_and!; [done|done|set_solver|]. apply IH; [by apply (seen_below_step expected); [|lia|]|].
    split_and!; [set_solver|done| |by rewrite <- Z.lor_assoc].
    apply head_above; [by intros n Hn; apply Hbelow; lia|lia|done].
Qed.

Lemma bit_of_mask_of ss n :
  0 <= n -> Z.testbit (mask_of ss) n = true -> Forall (fun s => 0 <= s) ss -> n ∈ ss.
Proof.
  intros Hn. induction ss as [|s ss IH]; simpl; [by rewrite Z.bits_0|].
  intros Hb [Hs Hss]%Forall_cons. rewrite Z.lor_spec, testbit_shiftl_one in Hb by done.
  destruct (Z.eqb_spec n s) as [->|Hne]; [by left|]. right. by apply IH.
Qed.

Lemma slots_bounds region : Forall (fun s => 0 <= s <= 3) (slots region).
Proof.
  apply Forall_forall. intros s (b & _ & Hs)%list_elem_of_omap. by eapply slot_range.
Qed.

(** The mask of standard slots has known bits only. *)
Lemma slots_mask_known region :
  0 <= mask_of (slots region) < 2 ^ 32 ->
  mask_ok 32 (mask_of (slots region)) SUBMIT_OBJECT_REF_MASK_KNOWN_BITS = true.
Proof.
  intros Hr. rewrite mask_ok_within by lia. apply bits_within_spec. intros n Hn Hb.
  pose proof (slots_bounds region) as Hs.
  apply bit_of_mask_of in Hb; [|done|by eapply Forall_impl; [exact Hs|]; simpl; lia].
  rewrite Forall_forall in Hs. specialize (Hs n Hb).
  assert (n = 0 \/ n = 1 \/ n = 2 \/ n = 3) as Hc by lia. by destruct_or! Hc; subst n.
Qed.

(** The mask check accepts exactly the regions whose standard slots are strictly
    increasing and whose slot bits are the declared mask. *)
Lemma validate_submit_mask_Ok region mode mask :
  validate_submit_mask region mode mask = Ok tt <->
  validate_submit_object_ref_mask mode mask = Ok tt /\
  Sorted Z.lt (slots region) /\ mask_of (slots region) = mask.
Proof.
  unfold validate_submit_mask. split.
  - intros Hv. apply bind_Ok in Hv as ([] & Hm & Hv). apply bind_Ok in Hv as ([e final] & Hl & Hv).
    apply reject_if_Ok, negb_false_iff, Z.eqb_eq in Hv. simpl in Hv. subst final.
    apply (ex_intro (fun e => _ = Ok (e, mask))), mask_loop_Ok in Hl as (Hall & Hs & _ & Hf);
      [|intros n _; apply Z.bits_0]. rewrite Z.lor_0_l in Hf. done.
  - intros (Hm & Hs & Hf). eapply (bind_step _ _ tt); [done|cbv beta].
    destruct (proj2 (mask_loop_Ok mask (blocks region) 0 0 mask (fun n _ => Z.bits_0 n)))
      as [e He].
    + cbv zeta. fold (slots region). split_and!; [|done| |by rewrite Z.lor_0_l].
      * intros s Hin. rewrite <- Hf. apply mask_of_bit; [|done]. apply slots_range.
      * intros s Hhd. split; [|apply Z.bits_0]. apply (slots_range region).
        destruct (slots region); simplify_eq/=. set_solver.
    + eapply bind_step; [exact He|cbv beta]. simpl. by rewrite Z.eqb_refl.
Qed.

(** Parsing and writing an object reference region are inverse to each other: what [parse]
    accepts is written back byte for byte, and a region of well-typed blocks that can be
    written parses back to itself. *)
Theorem object_region_round_trip :
  (forall source region, parse source = Ok region -> to_bytes region = Ok source) /\
  (forall region source, Forall (fun b => typed b = true) (blocks region) ->
     to_bytes region = Ok source -> parse source = Ok region).
Proof.
  split.
  - intros source region [Hv ->]%region_parse_Ok.
    exact (write_blocks_valid (A := ObjectReferenceBlock.t) _ Hv).
  - intros region source Ht Hb. apply region_parse_Ok.
    exact (write_blocks_strict (A := ObjectReferenceBlock.t) _ _ Ht Hb).
Qed.

(** A FRAME_SUBMIT's object references are accepted exactly when the standard slots of the
    blocks are strictly increasing, their bits are the declared mask, and the mask is
    zero just for an inline submit. *)
Theorem submit_mask_exact region mode mask :
  0 <= mask <= u32_max ->
  validate_submit_mask region mode mask = Ok tt <->
  Sorted Z.lt (slots region) /\ mask_of (slots region) = mask /\
  (mode = SubmitMode.Inline <-> mask = 0).
Proof.
  intros Hm. unfold u32_max in Hm. rewrite validate_submit_mask_Ok.
  unfold validate_submit_object_ref_mask, validate_mask_u32.
  assert (forall m, m = mask_of (slots region) -> 0 <= m <= 4294967295 ->
    validate_mask 32 m SUBMIT_OBJECT_REF_MASK_KNOWN_BITS = Ok tt) as Hk
    by (intros m -> ?; apply validate_mask_Ok, slots_mask_known; lia).
  split.
  - intros (Hv & Hs & Heq). split_and!; [done..|]. apply bind_Ok in Hv as (_ & _ & Hv).
    destruct mode; apply reject_if_Ok in Hv;
      rewrite ?negb_false_iff, ?Z.eqb_eq, ?Z.eqb_neq in Hv; naive_solver.
  - intros (Hs & Heq & Hmode). split_and!; [|done..]. rewrite Hk by done. simpl.
    destruct mode; apply reject_if_Ok; rewrite ?negb_false_iff, ?Z.eqb_eq, ?Z.eqb_neq; naive_solver.
Qed.

Definition camera_and_sections : t := {| blocks :=
  [ ObjectReferenceBlock.mk CacheObjectKind.CameraBlock 0 1 2 3;
    ObjectReferenceBlock.mk CacheObjectKind.TensorSectionTable 0 1 4 5 ] |}.

Lemma submit_mask_exact_witness :
  validate_submit_mask camera_and_sections SubmitMode.Mixed 5 = Ok tt.
Proof.
  apply (submit_mask_exact camera_and_sections SubmitMode.Mixed 5); [unfold u32_max; lia|].
  split; [repeat constructor|]. split; [reflexivity|done].
Defined.

End ObjectReferenceRegion.

(** ** Typed payloads *)

Definition validate_descriptor_profile (descriptor : TypedPayloadDescriptor.t) : R unit :=
  _ ← reject_if (bool_decide (TypedPayloadDescriptor.payload_kind descriptor = PayloadKind.Tensor))
        (InvalidProtocolCombination
           "tensor payloads use tensor sections and must not use typed payload descriptors");
  _ ← reject_if (TypedPayloadDescriptor.profile_id descriptor =? STANDARD_PROFILE_TENSOR)
        (InvalidProtocolCombination
           "non-tensor typed payload frames must not use tensor profile");
  reject_if (bool_decide (TypedPayloadDescriptor.payload_kind descriptor = PayloadKind.TokenChunk)
             && negb (TypedPayloadDescriptor.profile_id descriptor =? STANDARD_PROFILE_TOKEN))
    (InvalidProtocolCombination "token-only typed payload frames require token profile").

Definition checked_payload_end `{Target} (descriptor : TypedPayloadDescriptor.t) : R Z :=
  end_ ← ok_or (checked_add u32_max (TypedPayloadDescriptor.offset descriptor)
                  (TypedPayloadDescriptor.length descriptor)) MessageLengthOverflow;
  if end_ <=? usize_max then Ok end_ else Err MessageLengthOverflow.

Module TypedPayloadFrameView.

Record t := mk { descriptor : TypedPayloadDescriptor.t; payload : bytes }.

End TypedPayloadFrameView.

Module TypedPayloadRegion.

Record t := mk { descriptors : list TypedPayloadDescriptor.t; payload_region : bytes }.

Section typed_payload.
Context `{Htarget : Target}.

(** One turn of the loop of [validate]: the next expected offset and the union of the
    kinds. *)
Definition frame_step (region_len : Z) (state : Z * Z) (descriptor : TypedPayloadDescriptor.t)
    : R (Z * Z) :=
  let (next_expected_offset, descriptor_kind_union) := state in
  _ ← validate_descriptor_profile descriptor;
  let descriptor_kind_union :=
    Z.lor descriptor_kind_union
      (PayloadKind.bit (TypedPayloadDescriptor.payload_kind descriptor)) in
  _ ← reject_if (negb (TypedPayloadDescriptor.offset descriptor =? next_expected_offset))
        (InvalidProtocolCombination
           "typed payload descriptors must be packed in strictly contiguous order");
  next_expected_offset ← checked_payload_end descriptor;
  _ ← reject_if (region_len <? next_expected_offset)
        (InvalidProtocolCombination "typed payload descriptor range must fit the frame region");
  Ok (next_expected_offset, descriptor_kind_union).

Definition validate (self : t) (payload_kind_bitmap payload_frame_count : Z) : R unit :=
  _ ← reject_if (negb (len (descriptors self) =? payload_frame_count))
        (InvalidProtocolCombination
           "typed payload descriptor count must match payload_frame_count");
  state ← try_fold (frame_step (len (payload_region self))) (0, 0) (descriptors self);
  let (next_expected_offset, descriptor_kind_union) := state : Z * Z in
  _ ← reject_if (negb (next_expected_offset =? len (payload_region self)))
        (InvalidProtocolCombination
           "typed payload frame region must be exactly covered by descriptors");
  let expected_kind_union := Z.land payload_kind_bitmap (bnot 32 PayloadKindBitmap.TENSOR) in
  reject_if (negb (descriptor_kind_union =? expected_kind_union))
    (InvalidProtocolCombination
       "payload_kind_bitmap non-tensor bits must equal the typed descriptor kind union").

Definition parse (payload_kind_bitmap payload_frame_count : Z)
    (descriptor_region payload_region : bytes) : R t :=
  _ ← PayloadKindBitmap.validate payload_kind_bitmap;
  expected_descriptor_bytes ←
    ok_or (checked_mul usize_max payload_frame_count (Z.of_nat TYPED_PAYLOAD_DESCRIPTOR_LEN))
      MessageLengthOverflow;
  _ ← reject_if (negb (len descriptor_region =? expected_descriptor_bytes))
        (InvalidProtocolCombination
           "typed payload descriptor region length must match payload_frame_count");
  if payload_frame_count =? 0 then
    _ ← reject_if (negb (bool_decide (descriptor_region = []))
                   || negb (bool_decide (payload_region = [])))
          (InvalidProtocolCombination
             "zero typed payload frames require empty descriptor and frame regions");
    Ok {| descriptors := []; payload_region := payload_region |}
  else
    descriptors ← collect TypedPayloadDescriptor.parse
                    (chunks_exact TYPED_PAYLOAD_DESCRIPTOR_LEN descriptor_region);
    let region := {| descriptors := descriptors; payload_region := payload_region |} in
    _ ← validate region payload_kind_bitmap payload_frame_count;
    Ok region.

Definition from_parts (payload_kind_bitmap : Z) (descriptors : list TypedPayloadDescriptor.t)
    (payload_region : bytes) : R t :=
  _ ← reject_if (u16_max <? len descriptors) MessageLengthOverflow;
  let payload_frame_count := len descriptors in
  let region := {| descriptors := descriptors; payload_region := payload_region |} in
  _ ← validate region payload_kind_bitmap payload_frame_count;
  Ok region.

Definition frame_view (self : t) (descriptor : TypedPayloadDescriptor.t)
    : R TypedPayloadFrameView.t :=
  let start := TypedPayloadDescriptor.offset descriptor in
  end_ ← checked_payload_end descriptor;
  payload ← slice (payload_region self) (Z.to_nat start) (Z.to_nat end_);
  Ok {| TypedPayloadFrameView.descriptor := descriptor; TypedPayloadFrameView.payload := payload |}.

Definition frame_views (self : t) : R (list TypedPayloadFrameView.t) :=
  collect (frame_view self) (descriptors self).

Definition descriptor_region_bytes (self : t) : R bytes :=
  write_blocks TYPED_PAYLOAD_DESCRIPTOR_LEN TypedPayloadDescriptor.write (descriptors self).

(** ** What a region promises

    The payloads of the frames, in order, are the whole payload region. *)

(** The descriptors cover the offsets from [next] to [last] without gap or overlap. *)
Fixpoint packed (next : Z) (ds : list TypedPayloadDescriptor.t) (last : Z) : Prop :=
  match ds with
  | [] => next = last
  | d :: ds =>
      TypedPayloadDescriptor.offset d = next /\
      next + TypedPayloadDescriptor.length d <= u32_max /\
      packed (next + TypedPayloadDescriptor.length d) ds last
  end.

Definition kind_union (ds : list TypedPayloadDescriptor.t) : Z :=
  foldr (fun d acc => Z.lor (PayloadKind.bit (TypedPayloadDescriptor.payload_kind d)) acc) 0 ds.

Definition lengths_ok (ds : list TypedPayloadDescriptor.t) : Prop :=
  Forall (fun d => 0 <= TypedPayloadDescriptor.length d) ds.

Lemma checked_payload_end_Ok d e :
  checked_payload_end d = Ok e <->
  e = TypedPayloadDescriptor.offset d + TypedPayloadDescriptor.length d /\ e <= u32_max.
Proof.
  unfold checked_payload_end. rewrite bind_Ok. setoid_rewrite ok_or_Ok.
  setoid_rewrite checked_add_Some. pose proof usize_max_u32 as Hu. split.
  - intros (x & [-> Hx] & He). case_match; [by injection He as <-|done].
  - intros [-> He]. eexists. split; [split; [done|exact He]|].
    rewrite (proj2 (Z.leb_le _ _)) by lia. done.
Qed.

Lemma packed_le next ds last : lengths_ok ds -> packed next ds last -> next <= last.
Proof.
  revert next. induction ds as [|d ds IH]; simpl; intros next Hl Hp; [lia|].
  apply Forall_cons in Hl as [Hd Hl]. destruct Hp as (_ & _ & Hp). apply IH in Hp; [lia|done].
Qed.

Lemma frame_loop_Ok region_len ds next union last union' :
  lengths_ok ds -> last <= region_len ->
  try_fold (frame_step region_len) (next, union) ds = Ok (last, union') <->
  Forall (fun d => validate_descriptor_profile d = Ok tt) ds /\
  packed next ds last /\ union' = Z.lor union (kind_union ds).
Proof.
  revert next union. induction ds as [|d ds IH]; intros next union Hl Hlast.
  { simpl. rewrite Z.lor_0_r. split; [by intros [= -> ->]|by intros (_ & -> & ->)]. }
  apply Forall_cons in Hl as [Hd Hl]. cbn [try_fold frame_step packed kind_union foldr].
  rewrite Forall_cons. split.
  - intros Hf. apply bind_Ok in Hf as ([n u] & Hs & Hf).
    apply bind_Ok in Hs as ([] & Hpr & Hs). cbv zeta in Hs.
    apply bind_Ok in Hs as (? & Ho%reject_if_Ok & Hs). apply negb_false_iff, Z.eqb_eq in Ho.
    apply bind_Ok in Hs as (e & [-> He]%checked_payload_end_Ok & Hs).
    apply bind_Ok in Hs as (? & Hfit%reject_if_Ok & [= <- <-]).
    apply IH in Hf as (Hprs & Hp & ->); [|done..]. rewrite Z.lor_assoc, <- Ho. done.
  - intros ([Hpr Hprs] & (Ho & He & Hp) & ->).
    pose proof (packed_le _ _ _ Hl Hp) as Hle.
    eapply bind_step.
    + eapply bind_step; [exact Hpr|cbv beta zeta].
      eapply (bind_step _ _ tt); [by rewrite Ho, Z.eqb_refl|cbv beta].
      eapply bind_step; [apply checked_payload_end_Ok; split; [reflexivity|lia]|cbv beta].
      eapply (bind_step _ _ tt); [apply reject_if_Ok, Z.ltb_ge; lia|reflexivity].
    + cbv beta. apply IH; [done..|]. rewrite Ho, Z.lor_assoc. done.
Qed.

Lemma validate_Ok region bitmap count :
  lengths_ok (descriptors region) ->
  validate region bitmap count = Ok tt <->
  len (descriptors region) = count /\
  Forall (fun d => validate_descriptor_profile d = Ok tt) (descriptors region) /\
  packed 0 (descriptors region) (len (payload_region region)) /\
  kind_union (descriptors region) = Z.land bitmap (bnot 32 PayloadKindBitmap.TENSOR).
Proof.
  intros Hl. unfold validate. split.
  - intros Hv. apply bind_Ok in Hv as (? & Hc%reject_if_Ok & Hv).
    apply negb_false_iff, Z.eqb_eq in Hc. apply bind_Ok in Hv as ([n u] & Hs & Hv).
    apply bind_Ok in Hv as (? & Hn%reject_if_Ok & Hu%reject_if_Ok).
    apply negb_false_iff, Z.eqb_eq in Hn, Hu. subst n.
    apply frame_loop_Ok in Hs as (Hprs & Hp & ->); [|done..]. by rewrite Z.lor_0_l in Hu.
  - intros (Hc & Hprs & Hp & Hu).
    eapply (bind_step _ _ tt); [by rewrite Hc, Z.eqb_refl|cbv beta].
    eapply (bind_step _ _ (len (payload_region region), Z.lor 0 (kind_union (descriptors region))));
      [by apply frame_loop_Ok|cbv beta iota zeta].
    eapply (bind_step _ _ tt); [by rewrite Z.eqb_refl|cbv beta].
    by rewrite Z.lor_0_l, Hu, Z.eqb_refl.
Qed.

(** The view of a frame of a packed region, and the rest of the region after it. *)
Lemma views_packed region ds next :
  0 <= next -> lengths_ok ds -> packed next ds (len (payload_region region)) ->
  exists views, collect (frame_view region) ds = Ok views /\
    map TypedPayloadFrameView.descriptor views = ds /\
    Forall (fun v => len (TypedPayloadFrameView.payload v) =
      TypedPayloadDescriptor.length (TypedPayloadFrameView.descriptor v)) views /\
    concat (map TypedPayloadFrameView.payload views) = drop (Z.to_nat next) (payload_region region).
Proof.
  revert next. induction ds as [|d ds IH]; intros next Hn Hl Hp; simpl.
  { exists []. simpl in *. split_and!; [done..|]. rewrite drop_ge; [done|].
    unfold len in Hp. lia. }
  apply Forall_cons in Hl as [Hd Hl]. destruct Hp as (Ho & He & Hp).
  pose proof (packed_le _ _ _ Hl Hp) as Hle. unfold len in Hle.
  destruct (IH (next + TypedPayloadDescriptor.length d) ltac:(lia) Hl Hp)
    as (views & Hv & Hds & Hlens & Hc).
  set (payload := take (Z.to_nat (TypedPayloadDescriptor.length d))
                    (drop (Z.to_nat next) (payload_region region))).
  exists ({| TypedPayloadFrameView.descriptor := d; TypedPayloadFrameView.payload := payload |}
            :: views).
  split_and!.
  - eapply bind_step; [|cbv beta; by rewrite Hv].
    unfold frame_view. cbv zeta.
    eapply bind_step; [apply checked_payload_end_Ok; split; [reflexivity|lia]|cbv beta].
    eapply (bind_step _ _ payload); [|done]. unfold slice. rewrite decide_True by lia.
    unfold payload. do 2 f_equal; [lia|f_equal; lia].
  - simpl. by rewrite Hds.
  - constructor; [|done]. simpl. unfold payload, len. rewrite length_take, length_drop. lia.
  - simpl. rewrite Hc, Z2Nat.inj_add, <- drop_drop by lia. apply take_drop.
Qed.

Lemma descriptor_blocks_Ok source ms :
  (length source mod TYPED_PAYLOAD_DESCRIPTOR_LEN = 0)%nat ->
  collect TypedPayloadDescriptor.parse (chunks_exact TYPED_PAYLOAD_DESCRIPTOR_LEN source) = Ok ms <->
  Forall (fun m => valid m = true) ms /\ source = wires ms.
Proof. exact (parse_blocks_Ok (A := TypedPayloadDescriptor.t) source ms (Nat.lt_0_succ _)). Qed.

Lemma typed_length d : typed d = true -> 0 <= TypedPayloadDescriptor.length d.
Proof.
  intros Ht. unfold typed, fields_ok in Ht. simpl in Ht. repeat (apply andb_prop in Ht as [? Ht]).
  unfold field_ok in *. simpl in *. lia.
Qed.

Lemma typed_lengths ds : Forall (fun d => typed d = true) ds -> lengths_ok ds.
Proof. intros Ht. eapply Forall_impl; [exact Ht|]. apply typed_length. Qed.

Lemma valid_typed_all ds :
  Forall (fun d : TypedPayloadDescriptor.t => valid d = true) ds ->
  Forall (fun d => typed d = true) ds.
Proof. intros Hv. eapply Forall_impl; [exact Hv|]. by intros d [Ht _]%andb_prop. Qed.

(** What [parse] establishes of its result. *)
Lemma typed_region_parse bitmap count descriptor_region payload region :
  parse bitmap count descriptor_region payload = Ok region ->
  Forall (fun d => valid d = true) (descriptors region) /\
  descriptor_region = wires (descriptors region) /\ payload_region region = payload /\
  len (descriptors region) = count /\
  packed 0 (descriptors region) (len payload) /\
  (count <> 0 -> validate region bitmap count = Ok tt).
Proof.
  unfold parse. intros Hp. apply bind_Ok in Hp as (? & _ & Hp).
  apply bind_Ok in Hp as (n & [-> _]%ok_or_Ok%checked_mul_Some & Hp).
  apply bind_Ok in Hp as (? & Hlen%reject_if_Ok & Hp). apply negb_false_iff, Z.eqb_eq in Hlen.
  destruct (Z.eqb_spec count 0) as [->|Hc].
  - apply bind_Ok in Hp as (? & Hr%reject_if_Ok & [= <-]).
    apply orb_false_iff in Hr as [H1%negb_false_iff%bool_decide_eq_true H2%negb_false_iff%bool_decide_eq_true].
    subst. by split_and!.
  - apply bind_Ok in Hp as (ds & Hds & Hp). cbv zeta in Hp.
    apply bind_Ok in Hp as ([] & Hv & [= <-]).
    assert (length descriptor_region = Z.to_nat count * TYPED_PAYLOAD_DESCRIPTOR_LEN)%nat as Hl
      by (unfold len in Hlen; nia).
    apply descriptor_blocks_Ok in Hds as [Hval Hw];
      [|rewrite Hl; apply Nat.Div0.mod_mul].
    pose proof (typed_lengths _ (valid_typed_all _ Hval)) as Hlens.
    destruct (proj1 (validate_Ok {| descriptors := ds; payload_region := payload |} _ _ Hlens) Hv) as (Hcount & _ & Hpk & _). done.
Qed.

(** A region built from parts is read back from its bytes. *)
Lemma from_parts_round_trip bitmap ds payload region descriptor_region :
  Forall (fun d => typed d = true) ds -> PayloadKindBitmap.validate bitmap = Ok tt ->
  from_parts bitmap ds payload = Ok region ->
  descriptor_region_bytes region = Ok descriptor_region ->
  parse bitmap (len ds) descriptor_region payload = Ok region.
Proof.
  intros Ht Hb Hf Hd. unfold from_parts in Hf.
  apply bind_Ok in Hf as (? & Hn%reject_if_Ok & Hf). apply Z.ltb_ge in Hn. cbv zeta in Hf.
  apply bind_Ok in Hf as ([] & Hv & [= <-]).
  destruct (write_blocks_strict (A := TypedPayloadDescriptor.t) ds _ Ht Hd) as [Hval ->].
  simpl descriptors in *.
  pose proof (length_wires ds) as Hl. change (codec_len (A := TypedPayloadDescriptor.t))
    with TYPED_PAYLOAD_DESCRIPTOR_LEN in Hl.
  unfold parse. eapply (bind_step _ _ tt); [exact Hb|cbv beta].
  eapply bind_step; [|cbv beta].
  { apply ok_or_Ok, checked_mul_Some. split; [reflexivity|].
    pose proof usize_max_u32. unfold u16_max, u32_max in *.
    change (Z.of_nat TYPED_PAYLOAD_DESCRIPTOR_LEN) with 24. lia. }
  eapply (bind_step _ _ tt); [|cbv beta].
  { apply reject_if_Ok, negb_false_iff, Z.eqb_eq. unfold len. lia. }
  destruct (Z.eqb_spec (len ds) 0) as [Hz|Hz].
  - destruct ds; [|done]. apply validate_Ok in Hv as (_ & _ & Hp & _); [|constructor].
    simpl in Hp. by destruct payload.
  - eapply bind_step; [|cbv beta zeta].
    { apply descriptor_blocks_Ok; [rewrite Hl; apply Nat.Div0.mod_mul|done]. }
    by rewrite Hv.
Qed.
End typed_payload.

(** After a successful parse every frame has a view, in the order of the descriptors; each
    view has its descriptor's length, and the views one after the other are the whole
    payload region, without gap or overlap. *)
Theorem typed_payload_partition (T : Target) bitmap count descriptor_region payload region :
  parse bitmap count descriptor_region payload = Ok region ->
  exists views, frame_views region = Ok views /\
    map TypedPayloadFrameView.descriptor views = descriptors region /\
    Forall (fun v => len (TypedPayloadFrameView.payload v) =
      TypedPayloadDescriptor.length (TypedPayloadFrameView.descriptor v)) views /\
    concat (map TypedPayloadFrameView.payload views) = payload.
Proof.
  intros (Hval & _ & <- & _ & Hpk & _)%typed_region_parse.
  apply (views_packed region (descriptors region) 0); [lia| |done].
  by apply typed_lengths, valid_typed_all.
Qed.

(** Two token frames of two and one bytes. *)
Definition token_frames : list TypedPayloadDescriptor.t :=
  [ TypedPayloadDescriptor.mk STANDARD_PROFILE_TOKEN PayloadKind.TokenChunk 0 1 1 0 0 2;
    TypedPayloadDescriptor.mk STANDARD_PROFILE_TOKEN PayloadKind.TokenChunk 0 1 1 0 2 1 ].

Definition token_region : t := {| descriptors := token_frames; payload_region := [x0a; x0b; x0c] |}.

Lemma typed_payload_partition_witness :
  exists views, frame_views (Htarget := target64) token_region = Ok views /\
    concat (map TypedPayloadFrameView.payload views) = [x0a; x0b; x0c].
Proof.
  destruct (typed_payload_partition target64 (PayloadKind.bit PayloadKind.TokenChunk) 2
    (wires token_frames) [x0a; x0b; x0c] token_region) as (views & Hv & _ & _ & Hc);
    [vm_compute; reflexivity|].
  exists views. split; [exact Hv|exact Hc].
Defined.

(** Reading and building a typed payload region are inverse to each other: the descriptors
    of a parsed region are written back byte for byte, and a region that [from_parts]
    accepts is read back from the descriptors it writes. *)
Theorem typed_payload_round_trip (T : Target) :
  (forall bitmap count descriptor_region payload region,
     parse bitmap count descriptor_region payload = Ok region ->
     descriptor_region_bytes region = Ok descriptor_region /\ payload_region region = payload) /\
  (forall bitmap ds payload region descriptor_region,
     Forall (fun d => typed d = true) ds -> PayloadKindBitmap.validate bitmap = Ok tt ->
     from_parts bitmap ds payload = Ok region ->
     descriptor_region_bytes region = Ok descriptor_region ->
     parse bitmap (len ds) descriptor_region payload = Ok region).
Proof.
  split; [|apply from_parts_round_trip].
  intros bitmap count dr payload region (Hval & -> & Hp & _)%typed_region_parse. split; [|done].
  exact (write_blocks_valid (A := TypedPayloadDescriptor.t) _ Hval).
Qed.

(** A message that declares a kind but no frame: [parse] accepts what [from_parts] and
    [validate] refuse. *)
Example zero_frames_skip_kinds (T : Target) :
  let region := {| descriptors := []; payload_region := [] |} in
  let bitmap := PayloadKind.bit PayloadKind.TokenChunk in
  parse bitmap 0 [] [] = Ok region /\
  (exists e, validate region bitmap 0 = Err e) /\ (exists e, from_parts bitmap [] [] = Err e).
Proof.
  cbv zeta. split_and!; [|by eexists; vm_compute..].
  unfold parse. eapply (bind_step _ _ tt); [reflexivity|cbv beta].
  eapply (bind_step _ _ 0); [|reflexivity].
  apply ok_or_Ok, checked_mul_Some. split; [reflexivity|exact usize_max_nonneg].
Qed.

End TypedPayloadRegion.
