(* ===== verification/Submit.v ===== *)
(** Building a submission ([src/crates/nnrp-runtime/src/submit.rs]).

    [NnrpSubmitRequest] turns tensors, tokens or typed payloads into the metadata and the
    body of a FRAME_SUBMIT.  The theorems read the result back with the functions a
    receiver has: the parsers of [Data], [Schema] and [Regions]. *)

From S2P Require Import Prelude Bytes Errors Enums Wire Header Control Codes Cache Data Schema.
From S2P Require Import Regions.

Local Open Scope Z_scope.

Definition ALIGNMENT : Z := 8.

Module NnrpSubmitHeaderContext.

Record t := mk { flags : Z; view_id : Z; route_id : Z; trace_id : Z }.

Definition default : t := mk HeaderFlags.NONE 0 0 0.

End NnrpSubmitHeaderContext.

Module NnrpSubmitIdentity.

Record t := mk { operation_id : Z; frame_id : Z; header : NnrpSubmitHeaderContext.t }.

End NnrpSubmitIdentity.

Module NnrpSubmitPolicy.

Record t := mk {
  frame_class : Z;
  latency_budget_ms : Z;
  target_fps_x100 : Z;
  retry_of_frame : Z;
  budget_policy : Z;
  loss_tolerance_policy : LossTolerancePolicy.t;
  dependency_frame_id : Z
}.

Definition default : t := mk 0 0 0 0 BudgetPolicy.NONE LossTolerancePolicy.InheritSession 0.

End NnrpSubmitPolicy.

Module NnrpTensorSection.

Record t := mk {
  role_id : Z;
  default_codec_id : Z;
  dtype_id : Z;
  layout_id : Z;
  scale_policy : Z;
  element_count_per_tile : Z;
  tile_payloads : list bytes;
  codec_ids : bytes;
  payload_stride_bytes : Z
}.

End NnrpTensorSection.

Module NnrpSubmitObjectReferences.

Record t := mk {
  camera : option ObjectReferenceBlock.t;
  tile_index : option ObjectReferenceBlock.t;
  tensor_section_table : option ObjectReferenceBlock.t
}.

End NnrpSubmitObjectReferences.

Module NnrpTensorSubmitInput.

Record t := mk {
  identity : NnrpSubmitIdentity.t;
  policy : NnrpSubmitPolicy.t;
  src_width : Z;
  src_height : Z;
  tile_width : Z;
  tile_height : Z;
  tile_ids : list Z;
  sections : list NnrpTensorSection.t;
  camera_block : bytes;
  input_profile : InputProfile.t;
  tile_index_mode : TileIndexMode.t;
  tile_base_id : Z;
  references : NnrpSubmitObjectReferences.t
}.

End NnrpTensorSubmitInput.

Module NnrpTokenChunk.

Record t := mk { payload : bytes; descriptor_flags : Z }.

Definition partial (payload : bytes) : t := mk payload 0x02.

End NnrpTokenChunk.

Module NnrpTokenSubmitInput.

Record t := mk {
  identity : NnrpSubmitIdentity.t;
  policy : NnrpSubmitPolicy.t;
  chunks : list NnrpTokenChunk.t
}.

End NnrpTokenSubmitInput.

Module NnrpTypedPayloadInputFrame.

Record t := mk {
  profile_id : Z;
  payload_kind : PayloadKind.t;
  descriptor_flags : Z;
  schema_id : Z;
  schema_version : Z;
  stream_semantics : Z;
  payload : bytes
}.

End NnrpTypedPayloadInputFrame.

Module NnrpTypedPayloadSubmitInput.

Record t := mk {
  identity : NnrpSubmitIdentity.t;
  policy : NnrpSubmitPolicy.t;
  frames : list NnrpTypedPayloadInputFrame.t
}.

End NnrpTypedPayloadSubmitInput.

(** ** Helpers *)

Definition validate_identity (identity : NnrpSubmitIdentity.t) : R unit :=
  reject_if ((NnrpSubmitIdentity.operation_id identity =? 0)
             || (NnrpSubmitIdentity.frame_id identity =? 0))
    (InvalidProtocolCombination "submit operation_id and frame_id must be non-zero").

(** [value.try_into()] from [usize]. *)
Definition to_u32 (value : Z) : R Z :=
  if value <=? u32_max then Ok value else Err MessageLengthOverflow.

(** [bytes.resize(len, 0)]. *)
Definition resize (bs : bytes) (n : nat) : bytes := take n bs ++ replicate (n - length bs) x00.

Definition align (bs : bytes) : bytes :=
  let aligned := Z.land (len bs + ALIGNMENT - 1) (Z.lnot (ALIGNMENT - 1)) in
  resize bs (Z.to_nat aligned).

Definition encode_body (inline_region reference_region descriptor_region payload_region : bytes)
    : R bytes :=
  inline_object_bytes ← to_u32 (len inline_region);
  object_reference_bytes ← to_u32 (len reference_region);
  typed_payload_descriptor_bytes ← to_u32 (len descriptor_region);
  typed_payload_frame_bytes ← to_u32 (len payload_region);
  let prelude := {|
    BodyRegionPrelude.inline_object_bytes := inline_object_bytes;
    BodyRegionPrelude.object_reference_bytes := object_reference_bytes;
    BodyRegionPrelude.typed_payload_descriptor_bytes := typed_payload_descriptor_bytes;
    BodyRegionPrelude.typed_payload_frame_bytes := typed_payload_frame_bytes;
    BodyRegionPrelude.extension_descriptor_bytes := 0;
    BodyRegionPrelude.extension_payload_bytes := 0 |} in
  prelude_bytes ← BodyRegionPrelude.to_bytes prelude;
  Ok (prelude_bytes ++ inline_region ++ reference_region ++ descriptor_region ++ payload_region).

(** The region is extended in place; on an error the caller drops it. *)
Definition append_inline_object (region : bytes) (object_kind : CacheObjectKind.t)
    (payload : bytes) : R bytes :=
  object_bytes ← to_u32 (len payload);
  let header := {|
    InlineObjectBlockHeader.object_kind := object_kind;
    InlineObjectBlockHeader.object_flags := 0;
    InlineObjectBlockHeader.profile_id := 0;
    InlineObjectBlockHeader.object_bytes := object_bytes |} in
  header_bytes ← InlineObjectBlockHeader.to_bytes header;
  Ok (align (region ++ header_bytes ++ payload)).

Definition reference_step (blocks : list ObjectReferenceBlock.t)
    (expected : option ObjectReferenceBlock.t * CacheObjectKind.t)
    : R (list ObjectReferenceBlock.t) :=
  let (block, kind) := expected in
  match block with
  | None => Ok blocks
  | Some block =>
      _ ← reject_if (negb (bool_decide (ObjectReferenceBlock.object_kind block = kind)))
            (InvalidProtocolCombination "submit object reference is in the wrong standard slot");
      Ok (blocks ++ [block])
  end.

Definition standard_references (references : NnrpSubmitObjectReferences.t)
    : R (list ObjectReferenceBlock.t) :=
  let expected :=
    [ (NnrpSubmitObjectReferences.camera references, CacheObjectKind.CameraBlock);
      (NnrpSubmitObjectReferences.tile_index references, CacheObjectKind.TileIndexBlock);
      (NnrpSubmitObjectReferences.tensor_section_table references,
       CacheObjectKind.TensorSectionTable) ] in
  try_fold reference_step [] expected.

Definition reference_mask (blocks : list ObjectReferenceBlock.t) : Z :=
  fold_left (fun mask block =>
    Z.lor mask
      match ObjectReferenceBlock.object_kind block with
      | CacheObjectKind.CameraBlock => Z.shiftl 1 0
      | CacheObjectKind.TileIndexBlock => Z.shiftl 1 1
      | CacheObjectKind.TensorSectionTable => Z.shiftl 1 2
      | CacheObjectKind.PayloadLayoutTemplate => Z.shiftl 1 3
      | _ => 0
      end) blocks 0.

(** ** The regions of a body

    [encode_body] is read back by cutting the body where the prelude says. *)

Lemma to_u32_Ok value v : to_u32 value = Ok v <-> v = value /\ value <= u32_max.
Proof. unfold to_u32. destruct (Z.leb_spec value u32_max); naive_solver lia. Qed.

Lemma to_u32_no_panic value : to_u32 value <> Panic.
Proof. unfold to_u32. by case_match. Qed.

Lemma field_ok_u w v : 0 <= v < modulus w -> field_ok (F (KU w) v) = true.
Proof. intros Hv. unfold field_ok. simpl. lia. Qed.

(** [typed m = true] from the ranges of the fields. *)
Ltac solve_fields :=
  unfold typed, fields_ok; apply forallb_forall; intros ? Hin; simpl in Hin;
  repeat (destruct Hin as [<-|Hin]; [apply field_ok_u; simpl; change (modulus 1) with 256;
    change (modulus 2) with 65536; change (modulus 4) with 4294967296;
    change (modulus 8) with 18446744073709551616; try lia|]); try done.

(** The prelude of four regions without extensions. *)
Definition body_prelude (i r d p : bytes) : BodyRegionPrelude.t := {|
  BodyRegionPrelude.inline_object_bytes := len i;
  BodyRegionPrelude.object_reference_bytes := len r;
  BodyRegionPrelude.typed_payload_descriptor_bytes := len d;
  BodyRegionPrelude.typed_payload_frame_bytes := len p;
  BodyRegionPrelude.extension_descriptor_bytes := 0;
  BodyRegionPrelude.extension_payload_bytes := 0 |}.

(** The four regions of a body, cut at the lengths of its prelude. *)
Definition read_regions (body : bytes) : R (bytes * bytes * bytes * bytes) :=
  prelude ← BodyRegionPrelude.parse body;
  let i := (BODY_REGION_PRELUDE_LEN + Z.to_nat (BodyRegionPrelude.inline_object_bytes prelude))%nat in
  let r := (i + Z.to_nat (BodyRegionPrelude.object_reference_bytes prelude))%nat in
  let d := (r + Z.to_nat (BodyRegionPrelude.typed_payload_descriptor_bytes prelude))%nat in
  let p := (d + Z.to_nat (BodyRegionPrelude.typed_payload_frame_bytes prelude))%nat in
  inline_region ← slice body BODY_REGION_PRELUDE_LEN i;
  reference_region ← slice body i r;
  descriptor_region ← slice body r d;
  payload_region ← slice body d p;
  Ok (inline_region, reference_region, descriptor_region, payload_region).

Definition regions_fit (i r d p : bytes) : Prop :=
  len i <= u32_max /\ len r <= u32_max /\ len d <= u32_max /\ len p <= u32_max /\
  len r mod Z.of_nat OBJECT_REFERENCE_BLOCK_LEN = 0 /\
  len d mod Z.of_nat TYPED_PAYLOAD_DESCRIPTOR_LEN = 0.

Lemma body_prelude_valid i r d p : regions_fit i r d p -> valid (body_prelude i r d p) = true.
Proof.
  intros (Hi & Hr & Hd & Hp & Hrm & Hdm). unfold u32_max in *.
  pose proof (len_nonneg i). pose proof (len_nonneg r). pose proof (len_nonneg d).
  pose proof (len_nonneg p).
  apply andb_true_intro. split.
  - solve_fields.
  - cbn [codec_guard BodyRegionPrelude_codec]. unfold BodyRegionPrelude.guard,
      BodyRegionPrelude.validate_alignment. cbn -[Z.modulo OBJECT_REFERENCE_BLOCK_LEN
        TYPED_PAYLOAD_DESCRIPTOR_LEN Z.of_nat]. by rewrite Hrm, Hdm.
Qed.

Lemma encode_body_Ok i r d p body :
  encode_body i r d p = Ok body <->
  regions_fit i r d p /\ body = wire (body_prelude i r d p) ++ i ++ r ++ d ++ p.
Proof.
  unfold encode_body. split.
  - intros He. apply bind_Ok in He as (? & [-> Hi]%to_u32_Ok & He).
    apply bind_Ok in He as (? & [-> Hr]%to_u32_Ok & He).
    apply bind_Ok in He as (? & [-> Hd]%to_u32_Ok & He).
    apply bind_Ok in He as (? & [-> Hp]%to_u32_Ok & He). cbv zeta in He.
    fold (body_prelude i r d p) in He. apply bind_Ok in He as (pre & Hpre & [= <-]).
    assert (regions_fit i r d p) as Hfit.
    { split_and!; [done..| |]; unfold BodyRegionPrelude.to_bytes, BodyRegionPrelude.write in Hpre;
        apply bind_Ok in Hpre as (? & _ & Hpre); apply bind_Ok in Hpre as (? & Hal & _);
        unfold BodyRegionPrelude.validate_alignment in Hal;
        apply bind_Ok in Hal as (? & H1%reject_if_Ok & Hal);
        apply bind_Ok in Hal as (? & H2%reject_if_Ok & _);
        by apply negb_false_iff, Z.eqb_eq in H1, H2. }
    split; [done|]. change (codec_to_bytes (body_prelude i r d p) = Ok pre) in Hpre.
    rewrite to_bytes_valid in Hpre by (by apply body_prelude_valid). by injection Hpre as <-.
  - intros [Hfit ->]. pose proof Hfit as (Hi & Hr & Hd & Hp & _).
    do 4 (eapply bind_step; [by apply to_u32_Ok|cbv beta zeta]).
    fold (body_prelude i r d p).
    eapply (bind_step _ _ (wire (body_prelude i r d p))); [|done].
    change (codec_to_bytes (body_prelude i r d p) = Ok (wire (body_prelude i r d p))).
    apply to_bytes_valid. by apply body_prelude_valid.
Qed.

Lemma slice_region pre mid post a b :
  length pre = a -> b = (a + length mid)%nat -> slice (pre ++ mid ++ post) a b = Ok mid.
Proof. intros <- ->. apply slice_app. Qed.

(** A body that [encode_body] makes is cut back into its regions. *)
Lemma encode_body_read i r d p body :
  encode_body i r d p = Ok body -> read_regions body = Ok (i, r, d, p).
Proof.
  intros [Hfit ->]%encode_body_Ok. unfold read_regions.
  eapply bind_step;
    [exact (law_parse_wire (body_prelude i r d p) _ (body_prelude_valid _ _ _ _ Hfit))|].
  cbv beta zeta. cbn [body_prelude BodyRegionPrelude.inline_object_bytes
    BodyRegionPrelude.object_reference_bytes BodyRegionPrelude.typed_payload_descriptor_bytes
    BodyRegionPrelude.typed_payload_frame_bytes]. unfold len. rewrite !Nat2Z.id.
  pose proof (length_wire (body_prelude i r d p)) as Hw.
  change (codec_len (A := BodyRegionPrelude.t)) with BODY_REGION_PRELUDE_LEN in Hw.
  set (w := wire _) in *.
  eapply bind_step; [by apply slice_region|cbv beta].
  eapply bind_step; [rewrite app_assoc; apply slice_region; rewrite ?length_app; lia|cbv beta].
  eapply bind_step; [rewrite app_assoc, (app_assoc (w ++ i)); apply slice_region;
    rewrite ?length_app; lia|cbv beta].
  eapply bind_step; [|cbv beta; reflexivity].
  rewrite app_assoc, (app_assoc (w ++ i)), (app_assoc ((w ++ i) ++ r)), <- (app_nil_r p) at 1.
  apply slice_region; rewrite ?length_app; lia.
Qed.

(** ** Tile indices *)

(** [a + b] on [u32]: a panic on overflow.  [dense_no_overflow] shows that it is not
    reached, so a build that wraps instead behaves the same. *)
Definition add_u32 (a b : Z) : R Z :=
  match checked_add u32_max a b with Some c => Ok c | None => Panic end.

Definition dense_check (tile_base_id : Z) (indexed : nat * Z) : R unit :=
  let (index, tile_id) := indexed in
  expected ← add_u32 tile_base_id (Z.of_nat index mod 2 ^ 32);
  reject_if (negb (tile_id =? expected))
    (InvalidProtocolCombination "dense tile ids must be contiguous from tile_base_id").

(** [u32::saturating_sub]. *)
Definition saturating_sub (a b : Z) : Z := Z.max 0 (a - b).

(** One turn of the loop of the delta mode: the bytes so far and the previous id. *)
Definition delta_step (state : bytes * option Z) (tile_id : Z) : R (bytes * option Z) :=
  let (encoded, previous) := state in
  let value := match previous with
               | None => tile_id
               | Some prior => saturating_sub tile_id prior
               end in
  let not_after := match previous with None => false | Some prior => tile_id <=? prior end in
  _ ← reject_if (not_after || (u16_max <? value))
        (InvalidProtocolCombination "delta tile ids must be strictly increasing with u16 deltas");
  Ok (encoded ++ le_bytes 2 (value mod 2 ^ 16), Some tile_id).

(** [ids.windows(2).any(|pair| pair\[0\] >= pair\[1\])]. *)
Fixpoint any_unordered (ids : list Z) : bool :=
  match ids with
  | a :: (b :: _) as rest => (b <=? a) || any_unordered rest
  | _ => false
  end.

(** [encoded\[id / 8\] |= 1 << (id % 8)]. *)
Definition set_bit (encoded : bytes) (id : Z) : R bytes :=
  let i := Z.to_nat (id / 8) in
  byte ← index encoded i;
  write_u8 encoded i (Z.lor byte (Z.shiftl 1 (id mod 8))).

Definition encode_tile_indices (tile_ids : list Z) (mode : TileIndexMode.t) (tile_base_id : Z)
    : R bytes :=
  match mode with
  | TileIndexMode.DenseRange =>
      _ ← collect (dense_check tile_base_id) (zip (seq 0 (length tile_ids)) tile_ids);
      Ok []
  | TileIndexMode.RawU16 => Ok (concat (map (le_bytes 2) tile_ids))
  | TileIndexMode.DeltaU16 =>
      '(encoded, _) ← try_fold delta_step ([], None) tile_ids;
      Ok encoded
  | TileIndexMode.Bitset =>
      _ ← reject_if (any_unordered tile_ids)
            (InvalidProtocolCombination "bitset tile ids must be strictly increasing");
      let size := match last tile_ids with
                  | None => 0%nat
                  | Some id => (Z.to_nat (id / 8) + 1)%nat
                  end in
      try_fold set_bit (replicate size x00) tile_ids
  end.

(** ** Reading tile indices back

    The decoder is the meaning of the four modes: a range from the base, 16-bit ids, 16-bit
    differences, or a set of bits. *)

Module TileIndex.

Definition u16s (bs : bytes) : list Z := map le_value (chunks_exact 2 bs).

Fixpoint undelta (previous : Z) (deltas : list Z) : list Z :=
  match deltas with
  | [] => []
  | delta :: deltas => previous + delta :: undelta (previous + delta) deltas
  end.

Definition bit_at (bs : bytes) (id : Z) : bool :=
  match bs !! Z.to_nat (id / 8) with
  | Some b => Z.testbit (Z_of_byte b) (id mod 8)
  | None => false
  end.

Definition decode (mode : TileIndexMode.t) (tile_base_id : Z) (tile_count : nat) (bs : bytes)
    : list Z :=
  match mode with
  | TileIndexMode.DenseRange => map (fun i => tile_base_id + Z.of_nat i) (seq 0 tile_count)
  | TileIndexMode.RawU16 => u16s bs
  | TileIndexMode.DeltaU16 => undelta 0 (u16s bs)
  | TileIndexMode.Bitset =>
      filter (fun id => bit_at bs id = true) (map Z.of_nat (seq 0 (8 * length bs)))
  end.

(** The lists of ids that a mode can express. *)
Definition expressible (mode : TileIndexMode.t) (tile_base_id : Z) (ids : list Z) : Prop :=
  match mode with
  | TileIndexMode.DenseRange =>
      ids = map (fun i => tile_base_id + Z.of_nat i) (seq 0 (length ids))
  | TileIndexMode.RawU16 => True
  | TileIndexMode.DeltaU16 | TileIndexMode.Bitset => Sorted Z.lt ids
  end.

Definition u16_ids (ids : list Z) : Prop := Forall (fun id => 0 <= id <= u16_max) ids.

Lemma u16s_encode vs : u16_ids vs -> u16s (concat (map (le_bytes 2) vs)) = vs.
Proof.
  intros Hv. unfold u16s, chunks_exact. rewrite chunks_concat; [|lia| |].
  - induction Hv as [|v vs Hv _ IH]; simpl; [done|]. rewrite IH, le_value_bytes. f_equal.
    apply Z.mod_small. change (modulus 2) with 65536. unfold u16_max in Hv. lia.
  - apply Forall_map, Forall_true. intros v. apply length_le_bytes.
  - rewrite (concat_length_const 2), length_map; [lia|].
    apply Forall_map, Forall_true. intros v. apply length_le_bytes.
Qed.

(** *** The dense range *)

Lemma add_u32_Ok a b c : add_u32 a b = Ok c <-> c = a + b /\ a + b <= u32_max.
Proof.
  unfold add_u32. destruct (checked_add u32_max a b) as [d|] eqn:Hc.
  - apply checked_add_Some in Hc as [-> ?]. naive_solver.
  - split; [done|]. intros [-> Hle]. unfold checked_add in Hc.
    by rewrite (proj2 (Z.leb_le _ _) Hle) in Hc.
Qed.

Lemma dense_check_Ok base i id :
  Z.of_nat i < 2 ^ 32 -> id <= u16_max ->
  dense_check base (i, id) = Ok tt <-> id = base + Z.of_nat i.
Proof.
  intros Hi Hid. unfold dense_check. rewrite Z.mod_small by lia. rewrite bind_Ok.
  setoid_rewrite add_u32_Ok. setoid_rewrite reject_if_Ok. setoid_rewrite negb_false_iff.
  setoid_rewrite Z.eqb_eq. unfold u16_max, u32_max in *. split; [naive_solver|].
  intros ->. eexists. split; [split; [done|lia]|done].
Qed.

Lemma dense_loop_Ok base ids i :
  Z.of_nat i + len ids <= 2 ^ 32 -> u16_ids ids ->
  (exists us, collect (dense_check base) (zip (seq i (length ids)) ids) = Ok us) <->
  ids = map (fun k => base + Z.of_nat k) (seq i (length ids)).
Proof.
  intros Hlen Hids. rewrite collect_units. revert i Hlen.
  induction Hids as [|id ids Hid _ IH]; intros i Hlen; simpl; [by split|].
  unfold len in Hlen. simpl in Hlen.
  rewrite Forall_cons, dense_check_Ok by lia. rewrite IH by (unfold len; lia).
  split; [by intros [-> <-]|]. intros [= -> <-]. done.
Qed.

(** The sum never overflows: the first id already bounds the base. *)
Lemma dense_no_overflow base ids i :
  0 <= base <= u32_max -> (i <> 0%nat -> base <= u16_max) -> Z.of_nat i + len ids <= 2 ^ 16 ->
  u16_ids ids -> collect (dense_check base) (zip (seq i (length ids)) ids) <> Panic.
Proof.
  intros Hb Hi Hlen Hids. revert i Hi Hlen.
  induction Hids as [|id ids Hid Hids IH]; intros i Hi Hlen; simpl; [done|].
  unfold len in Hlen. simpl in Hlen. unfold u16_max, u32_max in *.
  apply bind_no_panic.
  - unfold dense_check. apply bind_no_panic; [|intros; apply reject_if_no_panic].
    rewrite Z.mod_small by lia.
    rewrite (proj2 (add_u32_Ok base (Z.of_nat i) (base + Z.of_nat i))); [done|].
    split; [done|]. unfold u32_max. destruct (decide (i = 0%nat)) as [->|Hne]; lia.
  - intros [] Hc%dense_check_Ok; [|lia|unfold u16_max; lia].
    apply bind_no_panic; [|done]. apply IH; [lia|unfold len; lia].
Qed.

(** *** Differences *)

Fixpoint deltas (previous : Z) (ids : list Z) : list Z :=
  match ids with
  | [] => []
  | id :: ids => id - previous :: deltas id ids
  end.

Lemma undelta_deltas previous ids : undelta previous (deltas previous ids) = ids.
Proof.
  revert previous. induction ids as [|id ids IH]; intros previous; simpl; [done|].
  rewrite (Z.add_comm previous), Z.sub_add. by rewrite IH.
Qed.

Definition after (previous : option Z) (ids : list Z) : Prop :=
  match previous with Some p => HdRel Z.lt p ids | None => True end.

Lemma delta_step_Ok acc previous id state :
  0 <= id <= u16_max -> (forall p, previous = Some p -> 0 <= p) ->
  delta_step (acc, previous) id = Ok state <->
  after previous [id] /\ state = (acc ++ le_bytes 2 (id - default 0 previous), Some id).
Proof.
  intros Hid Hp. unfold delta_step. rewrite then_unit_Ok, reject_if_Ok, orb_false_iff, Z.ltb_ge.
  destruct previous as [p|]; simpl.
  - specialize (Hp p eq_refl). rewrite Z.leb_gt. unfold saturating_sub, u16_max in *. split.
    + intros ([Hlt _] & [= <-]). split; [by constructor|].
      rewrite Z.max_r, Z.mod_small by lia. done.
    + intros [Ha ->]. inversion Ha as [|? ? Hlt]; subst. split; [split; lia|].
      rewrite Z.max_r, Z.mod_small by lia. done.
  - unfold u16_max in *. rewrite Z.sub_0_r, Z.mod_small by lia. naive_solver lia.
Qed.

Lemma delta_loop_Ok ids acc previous state :
  u16_ids ids -> (forall p, previous = Some p -> 0 <= p) ->
  try_fold delta_step (acc, previous) ids = Ok state <->
  Sorted Z.lt ids /\ after previous ids /\
  state = (acc ++ concat (map (le_bytes 2) (deltas (default 0 previous) ids)),
           if decide (ids = []) then previous else last ids).
Proof.
  intros Hids. revert acc previous. induction Hids as [|id ids Hid Hids IH]; intros acc previous Hp.
  { cbn. rewrite app_nil_r. split; [intros [= <-]|by intros (_ & _ & ->)].
    split_and!; [constructor|destruct previous; simpl; [constructor|done]|done]. }
  cbn [try_fold]. rewrite bind_Ok. setoid_rewrite (delta_step_Ok acc previous id _ Hid Hp).
  assert (forall p, Some id = Some p -> 0 <= p) as Hid' by (intros p [= <-]; lia).
  assert ((if decide (ids = []) then Some id else last ids) = last (id :: ids)) as Hlast
    by (by destruct ids). split.
  - intros (st & [Ha ->] & Hr). apply IH in Hr as (Hs & Hh & ->); [|done].
    simpl in Hh. split_and!; [by constructor| |].
    + destruct previous; simpl in *; [|done]. inversion Ha. by constructor.
    + rewrite Hlast. simpl. by rewrite <- app_assoc.
  - intros (Hs & Ha & ->). inversion Hs as [|? ? Hs' Hh]; subst.
    eexists. split; [split; [|done]|].
    + destruct previous; simpl in *; [|done]. inversion Ha. by constructor.
    + apply IH; [done|]. split_and!; [done|done|]. rewrite Hlast. simpl. by rewrite <- app_assoc.
Qed.

Lemma deltas_u16 previous ids :
  0 <= previous -> u16_ids ids -> Sorted Z.lt ids -> HdRel Z.le previous ids ->
  u16_ids (deltas previous ids).
Proof.
  intros Hp Hids. revert previous Hp. induction Hids as [|id ids Hid Hids IH];
    intros previous Hp Hs Hh; simpl; [constructor|].
  inversion Hh as [|? ? Hle]; subst. inversion Hs as [|? ? Hs' Hh']; subst.
  constructor; [unfold u16_max in *; lia|]. apply IH; [lia|done|].
  destruct Hh'; constructor. lia.
Qed.

(** *** Bits *)

Lemma any_unordered_sorted ids : any_unordered ids = false <-> Sorted Z.lt ids.
Proof.
  induction ids as [|a [|b ids] IH]; [by split; constructor|by split; repeat constructor|].
  cbn [any_unordered]. rewrite orb_false_iff, IH, Z.leb_gt. split.
  - intros [Hlt Hs]. constructor; [done|]. by constructor.
  - intros Hs. inversion Hs as [|? ? Hs' Hh]; subst. by inversion Hh.
Qed.

Lemma byte_bit_set b n m :
  0 <= n < 8 -> 0 <= m < 8 ->
  Z.testbit (Z_of_byte (byte_of_Z (Z.lor (Z_of_byte b) (Z.shiftl 1 n)))) m =
  Z.testbit (Z_of_byte b) m || (m =? n).
Proof.
  intros Hn Hm. rewrite Z_of_byte_of_Z. change 256 with (2 ^ 8).
  rewrite Z.mod_pow2_bits_low by lia. by rewrite Z.lor_spec, testbit_shiftl_one by lia.
Qed.

Lemma set_bit_Ok bs id :
  0 <= id -> (Z.to_nat (id / 8) < length bs)%nat ->
  exists bs', set_bit bs id = Ok bs' /\ length bs' = length bs /\
    forall j, 0 <= j -> bit_at bs' j = bit_at bs j || (j =? id).
Proof.
  intros Hid Hlt. unfold set_bit. set (i := Z.to_nat (id / 8)) in *.
  destruct (lookup_lt_is_Some_2 bs i Hlt) as [b Hb].
  pose proof (Z.mod_pos_bound id 8 eq_refl) as Hm.
  assert (length (take i bs) = i) as Hti by (rewrite length_take; lia).
  set (b' := byte_of_Z (Z.lor (Z_of_byte b) (Z.shiftl 1 (id mod 8)))).
  assert (write_u8 bs i (Z.lor (Z_of_byte b) (Z.shiftl 1 (id mod 8))) = Ok (<[i:=b']> bs)) as Hw.
  { unfold write_u8, write_le, copy_from_slice. rewrite length_le_bytes, decide_True by lia.
    rewrite insert_take_drop by done. rewrite Nat.add_1_r. done. }
  exists (<[i:=b']> bs). split_and!.
  - cbv zeta. unfold index. rewrite Hb. cbn [mbind outcome_bind]. exact Hw.
  - apply length_insert.
  - intros j Hj. unfold bit_at. pose proof (Z.mod_pos_bound j 8 eq_refl) as Hjm.
    pose proof (Z.div_pos j 8 Hj eq_refl). pose proof (Z.div_pos id 8 Hid eq_refl).
    pose proof (Z.div_mod j 8 ltac:(lia)). pose proof (Z.div_mod id 8 ltac:(lia)).
    destruct (decide (i = Z.to_nat (j / 8))) as [He|Hne].
    + rewrite <- He, list_lookup_insert_eq, Hb by done. unfold b'. rewrite byte_bit_set by lia.
      f_equal. unfold i in He. destruct (Z.eqb_spec j id); [subst; apply Z.eqb_refl|].
      apply Z.eqb_neq. lia.
    + rewrite list_lookup_insert_ne by done. symmetry. rewrite (proj2 (Z.eqb_neq j id)); [by rewrite orb_false_r|].
      intros ->. by apply Hne.
Qed.

Lemma bit_loop_Ok ids bs :
  Forall (fun id => 0 <= id /\ (Z.to_nat (id / 8) < length bs)%nat) ids ->
  exists bs', try_fold set_bit bs ids = Ok bs' /\ length bs' = length bs /\
    forall j, 0 <= j -> bit_at bs' j = true <-> bit_at bs j = true \/ j ∈ ids.
Proof.
  intros Hids. remember (length bs) as n eqn:Hn. revert bs Hn.
  induction Hids as [|id ids [Hid Hlt] _ IH]; intros bs ->; cbn [try_fold].
  { exists bs. split_and!; [done|done|]. set_solver. }
  destruct (set_bit_Ok bs id Hid Hlt) as (bs1 & -> & Hl1 & Hb1). cbn [mbind outcome_bind].
  destruct (IH bs1 (eq_sym Hl1)) as (bs' & -> & Hl & Hb). exists bs'. split_and!; [done|done|].
  intros j Hj. rewrite Hb, Hb1, orb_true_iff, Z.eqb_eq by done. rewrite elem_of_cons. tauto.
Qed.

Lemma bit_at_zeros n id : bit_at (replicate n x00) id = false.
Proof.
  unfold bit_at. destruct (replicate n x00 !! _) as [b|] eqn:Hb; [|done].
  apply lookup_replicate in Hb as [-> _]. apply Z.bits_0.
Qed.

Lemma sorted_last_max ids id m : Sorted Z.lt ids -> last ids = Some m -> id ∈ ids -> id <= m.
Proof.
  intros Hs%Sorted_StronglySorted Hl Hin; [|intros ? ? ?; lia].
  apply last_Some in Hl as [l ->]. apply elem_of_app in Hin as [Hin|Hin%list_elem_of_singleton]; [|lia].
  apply Z.lt_le_incl, (StronglySorted_app_1_elem_of _ _ _ _ _ Hs Hin). set_solver.
Qed.

Lemma strictly_sorted_unique (l1 l2 : list Z) :
  StronglySorted Z.lt l1 -> StronglySorted Z.lt l2 -> (forall z, z ∈ l1 <-> z ∈ l2) -> l1 = l2.
Proof.
  revert l2. induction l1 as [|a l1 IH]; intros [|b l2] H1 H2 Heq; [done| | |].
  - exfalso. pose proof (proj2 (Heq b) ltac:(set_solver)). set_solver.
  - exfalso. pose proof (proj1 (Heq a) ltac:(set_solver)). set_solver.
  - inversion H1 as [|? ? Hs1 Ha]; inversion H2 as [|? ? Hs2 Hb]; subst.
    rewrite Forall_forall in Ha, Hb.
    assert (a = b) as ->.
    { destruct (proj1 (elem_of_cons _ _ _) (proj1 (Heq a) ltac:(set_solver))) as [->|Hin1]; [done|].
      destruct (proj1 (elem_of_cons _ _ _) (proj2 (Heq b) ltac:(set_solver))) as [->|Hin2]; [done|].
      specialize (Ha b Hin2). specialize (Hb a Hin1). lia. }
    f_equal. apply IH; [done|done|]. intros z. specialize (Heq z).
    rewrite !elem_of_cons in Heq. split; intros Hz.
    + destruct (proj1 Heq (or_intror Hz)) as [->|]; [specialize (Ha b Hz); lia|done].
    + destruct (proj2 Heq (or_intror Hz)) as [->|]; [specialize (Hb b Hz); lia|done].
Qed.

Definition bitset_size (ids : list Z) : nat :=
  match last ids with None => 0 | Some id => Z.to_nat (id / 8) + 1 end.

Lemma bitset_in_range ids :
  u16_ids ids -> Sorted Z.lt ids ->
  Forall (fun id => 0 <= id /\ (Z.to_nat (id / 8) < bitset_size ids)%nat) ids.
Proof.
  intros Hids Hs. apply Forall_forall. intros id Hin.
  pose proof (proj1 (Forall_forall _ _) Hids id Hin) as Hid. cbv beta in Hid.
  split; [lia|]. unfold bitset_size.
  destruct (last ids) as [m|] eqn:Hl; [|by apply last_None in Hl; subst; set_solver].
  pose proof (sorted_last_max ids id m Hs Hl Hin).
  pose proof (Z.div_le_mono id m 8 ltac:(lia) ltac:(lia)). lia.
Qed.

Lemma seq_strictly_sorted a n : StronglySorted Z.lt (map Z.of_nat (seq a n)).
Proof.
  revert a. induction n as [|n IH]; intros a; simpl; constructor; [apply IH|].
  apply Forall_forall. intros z (k & -> & [Hk _]%elem_of_seq)%list_elem_of_fmap. lia.
Qed.

Lemma decode_bitset ids bs :
  Sorted Z.lt ids -> Forall (fun id => 0 <= id /\ (Z.to_nat (id / 8) < length bs)%nat) ids ->
  (forall j, 0 <= j -> bit_at bs j = true <-> j ∈ ids) ->
  filter (fun id => bit_at bs id = true) (map Z.of_nat (seq 0 (8 * length bs))) = ids.
Proof.
  intros Hs Hr Hb. apply strictly_sorted_unique.
  - apply StronglySorted_filter, seq_strictly_sorted.
  - apply Sorted_StronglySorted; [intros ? ? ?; lia|done].
  - intros z. rewrite list_elem_of_filter. rewrite Forall_forall in Hr. split.
    + intros [Hz (k & -> & _)%list_elem_of_fmap]. apply Hb; [lia|done].
    + intros Hz. destruct (Hr z Hz) as [Hp Hlt]. split; [by apply Hb|].
      apply list_elem_of_fmap. exists (Z.to_nat z). split; [lia|]. apply elem_of_seq.
      pose proof (Z.div_mod z 8 ltac:(lia)). pose proof (Z.mod_pos_bound z 8 eq_refl). lia.
Qed.

Lemma bitset_round_trip ids :
  u16_ids ids -> Sorted Z.lt ids ->
  exists bs, try_fold set_bit (replicate (bitset_size ids) x00) ids = Ok bs /\
    filter (fun id => bit_at bs id = true) (map Z.of_nat (seq 0 (8 * length bs))) = ids.
Proof.
  intros Hids Hs. pose proof (bitset_in_range ids Hids Hs) as Hr.
  destruct (bit_loop_Ok ids (replicate (bitset_size ids) x00)) as (bs & Hbs & Hl & Hb).
  { by rewrite length_replicate. }
  exists bs. split; [done|]. rewrite length_replicate in Hl. apply decode_bitset; [done|by rewrite Hl|].
  intros j Hj. rewrite Hb, bit_at_zeros by done. naive_solver.
Qed.

#[global] Instance expressible_dec mode base ids : Decision (expressible mode base ids).
Proof.
  destruct mode; simpl; try apply _;
    (destruct (any_unordered ids) eqn:Hu; [right|left]; rewrite <- any_unordered_sorted;
     [by rewrite Hu|done]).
Defined.

Lemma tile_indices_Ok mode base ids :
  u16_ids ids -> len ids <= u16_max -> expressible mode base ids ->
  exists bs, encode_tile_indices ids mode base = Ok bs /\ decode mode base (length ids) bs = ids.
Proof.
  intros Hids Hlen He. destruct mode; simpl in *.
  - destruct (proj2 (dense_loop_Ok base ids 0 ltac:(unfold u16_max in *; lia) Hids) He) as [us ->].
    by exists [].
  - eexists. split; [done|]. by apply u16s_encode.
  - eexists. split.
    { eapply bind_step;
        [by apply (delta_loop_Ok ids [] None _ Hids); [|split_and!; [| |reflexivity]]|reflexivity]. }
    cbn [app default].
    rewrite u16s_encode, undelta_deltas; [done|]. apply deltas_u16; [lia|done|done|].
    destruct Hids; constructor. lia.
  - rewrite (proj2 (any_unordered_sorted ids) He). cbn [reject_if mbind outcome_bind].
    destruct (bitset_round_trip ids Hids He) as (bs & Hbs & Hd). by exists bs.
Qed.

Lemma tile_indices_Err mode base ids :
  u16_ids ids -> len ids <= u16_max -> 0 <= base <= u32_max -> ~ expressible mode base ids ->
  exists e, encode_tile_indices ids mode base = Err e.
Proof.
  intros Hids Hlen Hb He. destruct mode; simpl in *.
  - pose proof (dense_no_overflow base ids 0 Hb ltac:(done) ltac:(unfold u16_max in *; lia) Hids) as Hnp.
    destruct (collect _ _) as [us|e|] eqn:Hc; [|by exists e|done].
    destruct He. apply dense_loop_Ok; [unfold u16_max in *; lia|done|by exists us].
  - done.
  - destruct (try_fold delta_step ([], None) ids) as [st|e|] eqn:Hf; [|by exists e|].
    + apply delta_loop_Ok in Hf as (Hs & _); [|done|done]. by destruct He.
    + exfalso. revert Hf. apply try_fold_no_panic. intros [acc previous] id. unfold delta_step.
      apply bind_no_panic; [apply reject_if_no_panic|done].
  - destruct (any_unordered ids) eqn:Hu; [by eexists|].
    by apply any_unordered_sorted in Hu.
Qed.

Lemma encode_decode mode base ids bs :
  u16_ids ids -> len ids <= u16_max -> 0 <= base <= u32_max ->
  encode_tile_indices ids mode base = Ok bs -> decode mode base (length ids) bs = ids.
Proof.
  intros Hids Hlen Hb Hbs. destruct (expressible_dec mode base ids) as [He|He].
  - destruct (tile_indices_Ok mode base ids Hids Hlen He) as (bs' & Hbs' & Hd). congruence.
  - destruct (tile_indices_Err mode base ids Hids Hlen Hb He) as [e Herr]. congruence.
Qed.

End TileIndex.

(** The tile index block of a tensor submission encodes exactly the lists of tile ids its
    mode can express (any list for 16-bit ids, the range from the base for a dense range,
    strictly increasing lists for differences and bit sets), reading the block back gives
    the ids, every other list is an error, and no index or sum goes out of range. *)
Theorem tile_indices_exact mode tile_base_id tile_ids :
  TileIndex.u16_ids tile_ids -> len tile_ids <= u16_max -> 0 <= tile_base_id <= u32_max ->
  (TileIndex.expressible mode tile_base_id tile_ids /\
   exists bs, encode_tile_indices tile_ids mode tile_base_id = Ok bs /\
     TileIndex.decode mode tile_base_id (length tile_ids) bs = tile_ids) \/
  (~ TileIndex.expressible mode tile_base_id tile_ids /\
   exists e, encode_tile_indices tile_ids mode tile_base_id = Err e).
Proof.
  intros Hids Hlen Hb. destruct (decide (TileIndex.expressible mode tile_base_id tile_ids)).
  - left. split; [done|]. by apply TileIndex.tile_indices_Ok.
  - right. split; [done|]. by apply TileIndex.tile_indices_Err.
Qed.

Lemma tile_indices_exact_witness :
  exists bs, encode_tile_indices [0; 3; 9] TileIndexMode.Bitset 0 = Ok bs /\
    TileIndex.decode TileIndexMode.Bitset 0 3 bs = [0; 3; 9].
Proof.
  destruct (tile_indices_exact TileIndexMode.Bitset 0 [0; 3; 9]) as [[_ H]|[He _]].
  - unfold TileIndex.u16_ids, u16_max. repeat constructor; lia.
  - vm_compute. discriminate.
  - unfold u32_max. lia.
  - exact H.
  - destruct He. simpl. repeat constructor.
Defined.

(** ** Tensor sections *)

(** One turn of the loop over the payloads of a section: the length table and the
    payload so far. *)
Definition tile_step (payload_stride_bytes : Z) (state : bytes * bytes) (tile_payload : bytes)
    : R (bytes * bytes) :=
  let (length_table, payload) := state in
  tile_len ← to_u32 (len tile_payload);
  let length_table := length_table ++ le_bytes 4 tile_len in
  if payload_stride_bytes =? 0 then Ok (length_table, payload ++ tile_payload)
  else
    _ ← reject_if (payload_stride_bytes <? len tile_payload)
          (InvalidProtocolCombination "tensor tile payload exceeds fixed stride");
    let payload := payload ++ tile_payload in
    Ok (length_table,
        resize payload (length payload + Z.to_nat payload_stride_bytes - length tile_payload)).

Definition mixed_codec (section : NnrpTensorSection.t) : bool :=
  negb (bool_decide (NnrpTensorSection.codec_ids section = []))
  && existsb (fun codec => negb (Z_of_byte codec =? NnrpTensorSection.default_codec_id section))
       (NnrpTensorSection.codec_ids section).

(** The body of the closure, after [previous_role] has been replaced. *)
Definition encode_tensor_section (tile_count : Z) (section : NnrpTensorSection.t) : R bytes :=
  _ ← reject_if (negb (len (NnrpTensorSection.tile_payloads section) =? tile_count))
        (InvalidProtocolCombination "tensor section tile payload count must match tile_count");
  _ ← reject_if (negb (bool_decide (NnrpTensorSection.codec_ids section = []))
                 && negb (len (NnrpTensorSection.codec_ids section) =? tile_count))
        (InvalidProtocolCombination "tensor codec id count must match tile_count");
  let mixed := mixed_codec section in
  let codec_table := if mixed then NnrpTensorSection.codec_ids section else [] in
  let stride := NnrpTensorSection.payload_stride_bytes section in
  '(length_table, payload) ←
    try_fold (tile_step stride) ([], []) (NnrpTensorSection.tile_payloads section);
  codec_table_bytes ← to_u32 (len codec_table);
  length_table_bytes ← to_u32 (len length_table);
  payload_bytes ← to_u32 (len payload);
  let descriptor := {|
    TensorSectionDescriptor.role_id := NnrpTensorSection.role_id section;
    TensorSectionDescriptor.codec_id := NnrpTensorSection.default_codec_id section;
    TensorSectionDescriptor.dtype_id := NnrpTensorSection.dtype_id section;
    TensorSectionDescriptor.layout_id := NnrpTensorSection.layout_id section;
    TensorSectionDescriptor.scale_policy := NnrpTensorSection.scale_policy section;
    TensorSectionDescriptor.section_flags :=
      Z.lor (if mixed then TensorSectionDescriptor.MIXED_CODEC else 0)
        (if negb (stride =? 0) then TensorSectionDescriptor.FIXED_STRIDE else 0);
    TensorSectionDescriptor.element_count_per_tile :=
      NnrpTensorSection.element_count_per_tile section;
    TensorSectionDescriptor.codec_table_bytes := codec_table_bytes;
    TensorSectionDescriptor.length_table_bytes := length_table_bytes;
    TensorSectionDescriptor.payload_bytes := payload_bytes;
    TensorSectionDescriptor.payload_stride_bytes := stride |} in
  descriptor_bytes ← TensorSectionDescriptor.to_bytes descriptor;
  Ok (descriptor_bytes ++ codec_table ++ length_table ++ payload).

(** The closure of [encode_tensor_sections] keeps the previous role across its calls. *)
Fixpoint encode_sections_from (previous_role : option Z) (tile_count : Z)
    (sections : list NnrpTensorSection.t) : R (list bytes) :=
  match sections with
  | [] => Ok []
  | section :: sections =>
      _ ← reject_if (match previous_role with
                     | Some role => NnrpTensorSection.role_id section <=? role
                     | None => false
                     end)
            (InvalidProtocolCombination "tensor sections must be strictly ordered by role_id");
      encoded ← encode_tensor_section tile_count section;
      rest ← encode_sections_from (Some (NnrpTensorSection.role_id section)) tile_count sections;
      Ok (encoded :: rest)
  end.

Definition encode_tensor_sections (sections : list NnrpTensorSection.t) (tile_count : Z)
    : R (list bytes) :=
  encode_sections_from None tile_count sections.

(** ** Requests *)

Module NnrpSubmitRequest.

Record t := mk {
  operation_id : Z;
  frame_id : Z;
  header : NnrpSubmitHeaderContext.t;
  metadata : FrameSubmitMetadata.t;
  body : bytes
}.

Definition new (identity : NnrpSubmitIdentity.t) (metadata : FrameSubmitMetadata.t) (body : bytes)
    : t :=
  {| operation_id := NnrpSubmitIdentity.operation_id identity;
     frame_id := NnrpSubmitIdentity.frame_id identity;
     header := NnrpSubmitIdentity.header identity;
     metadata := metadata;
     body := body |}.

Definition encoded_payload (self : t) : R bytes :=
  metadata_bytes ← FrameSubmitMetadata.to_bytes (metadata self);
  Ok (metadata_bytes ++ body self).

(** [if cond { region = f(region)? }]. *)
Definition append_if (cond : bool) (region : bytes) (kind : CacheObjectKind.t) (payload : bytes)
    : R bytes :=
  if cond then append_inline_object region kind payload else Ok region.

Definition section_region (sections : list bytes) : bytes :=
  fold_left (fun region section => align region ++ section) sections [].

Definition tensor_submit_mode (has_inline has_references : bool) : SubmitMode.t :=
  match has_inline, has_references with
  | false, true => SubmitMode.Reference
  | true, true => SubmitMode.Mixed
  | _, _ => SubmitMode.Inline
  end.

Definition tensor (input : NnrpTensorSubmitInput.t) : R t :=
  let identity := NnrpTensorSubmitInput.identity input in
  let policy := NnrpTensorSubmitInput.policy input in
  let tile_ids := NnrpTensorSubmitInput.tile_ids input in
  let sections := NnrpTensorSubmitInput.sections input in
  let camera_block := NnrpTensorSubmitInput.camera_block input in
  let refs := NnrpTensorSubmitInput.references input in
  let camera_referenced := is_some (NnrpSubmitObjectReferences.camera refs) in
  let tile_index_referenced := is_some (NnrpSubmitObjectReferences.tile_index refs) in
  let sections_referenced := is_some (NnrpSubmitObjectReferences.tensor_section_table refs) in
  _ ← validate_identity identity;
  _ ← HeaderFlags.validate_known (NnrpSubmitHeaderContext.flags (NnrpSubmitIdentity.header identity));
  _ ← reject_if ((u16_max <? len tile_ids) || (u16_max <? len sections)) MessageLengthOverflow;
  tile_index_payload ←
    encode_tile_indices tile_ids (NnrpTensorSubmitInput.tile_index_mode input)
      (NnrpTensorSubmitInput.tile_base_id input);
  section_payloads ← encode_tensor_sections sections (len tile_ids);
  references ← standard_references refs;
  let object_ref_mask := reference_mask references in
  let has_inline :=
    (negb (bool_decide (camera_block = [])) && negb camera_referenced)
    || (negb (bool_decide (tile_ids = [])) && negb tile_index_referenced)
    || (negb (len sections =? 0) && negb sections_referenced) in
  let has_references := negb (len references =? 0) in
  let submit_mode := tensor_submit_mode has_inline has_references in
  inline_region ← append_if (negb camera_referenced && negb (bool_decide (camera_block = [])))
    [] CacheObjectKind.CameraBlock camera_block;
  inline_region ← append_if (negb tile_index_referenced && negb (bool_decide (tile_ids = [])))
    inline_region CacheObjectKind.TileIndexBlock tile_index_payload;
  inline_region ← append_if (negb sections_referenced && negb (bool_decide (section_payloads = [])))
    inline_region CacheObjectKind.TensorSectionTable (section_region section_payloads);
  let reference_region := ObjectReferenceRegion.from_blocks references in
  _ ← ObjectReferenceRegion.validate_submit_mask reference_region submit_mode object_ref_mask;
  reference_bytes ← ObjectReferenceRegion.to_bytes reference_region;
  body ← encode_body inline_region reference_bytes [] [];
  camera_bytes ← if camera_referenced then Ok 0 else to_u32 (len camera_block);
  tile_index_bytes ← if tile_index_referenced then Ok 0 else to_u32 (len tile_index_payload);
  let metadata := {|
    FrameSubmitMetadata.src_width := NnrpTensorSubmitInput.src_width input;
    FrameSubmitMetadata.src_height := NnrpTensorSubmitInput.src_height input;
    FrameSubmitMetadata.tile_width := NnrpTensorSubmitInput.tile_width input;
    FrameSubmitMetadata.tile_height := NnrpTensorSubmitInput.tile_height input;
    FrameSubmitMetadata.tile_count := len tile_ids mod 2 ^ 16;
    FrameSubmitMetadata.section_count := len sections mod 2 ^ 16;
    FrameSubmitMetadata.frame_class := NnrpSubmitPolicy.frame_class policy;
    FrameSubmitMetadata.input_profile := NnrpTensorSubmitInput.input_profile input;
    FrameSubmitMetadata.tile_index_mode := NnrpTensorSubmitInput.tile_index_mode input;
    FrameSubmitMetadata.latency_budget_ms := NnrpSubmitPolicy.latency_budget_ms policy;
    FrameSubmitMetadata.target_fps_x100 := NnrpSubmitPolicy.target_fps_x100 policy;
    FrameSubmitMetadata.retry_of_frame := NnrpSubmitPolicy.retry_of_frame policy;
    FrameSubmitMetadata.tile_base_id := NnrpTensorSubmitInput.tile_base_id input;
    FrameSubmitMetadata.camera_bytes := camera_bytes;
    FrameSubmitMetadata.tile_index_bytes := tile_index_bytes;
    FrameSubmitMetadata.operation_id := NnrpSubmitIdentity.operation_id identity;
    FrameSubmitMetadata.submit_mode := submit_mode;
    FrameSubmitMetadata.budget_policy := NnrpSubmitPolicy.budget_policy policy;
    FrameSubmitMetadata.loss_tolerance_policy := NnrpSubmitPolicy.loss_tolerance_policy policy;
    FrameSubmitMetadata.object_ref_mask := object_ref_mask;
    FrameSubmitMetadata.dependency_frame_id := NnrpSubmitPolicy.dependency_frame_id policy;
    FrameSubmitMetadata.payload_kind_bitmap := PayloadKindBitmap.TENSOR;
    FrameSubmitMetadata.payload_frame_count := 0 |} in
  _ ← FrameSubmitMetadata.to_bytes metadata;
  Ok (new identity metadata body).

Definition typed_step (state : list TypedPayloadDescriptor.t * bytes * Z)
    (frame : NnrpTypedPayloadInputFrame.t) : R (list TypedPayloadDescriptor.t * bytes * Z) :=
  let '(descriptors, payload_region, bitmap) := state in
  offset ← to_u32 (len payload_region);
  length ← to_u32 (len (NnrpTypedPayloadInputFrame.payload frame));
  let descriptor := {|
    TypedPayloadDescriptor.profile_id := NnrpTypedPayloadInputFrame.profile_id frame;
    TypedPayloadDescriptor.payload_kind := NnrpTypedPayloadInputFrame.payload_kind frame;
    TypedPayloadDescriptor.descriptor_flags := NnrpTypedPayloadInputFrame.descriptor_flags frame;
    TypedPayloadDescriptor.schema_id := NnrpTypedPayloadInputFrame.schema_id frame;
    TypedPayloadDescriptor.schema_version := NnrpTypedPayloadInputFrame.schema_version frame;
    TypedPayloadDescriptor.stream_semantics := NnrpTypedPayloadInputFrame.stream_semantics frame;
    TypedPayloadDescriptor.offset := offset;
    TypedPayloadDescriptor.length := length |} in
  Ok (descriptors ++ [descriptor], payload_region ++ NnrpTypedPayloadInputFrame.payload frame,
      Z.lor bitmap (PayloadKind.bit (NnrpTypedPayloadInputFrame.payload_kind frame))).

Section typed.
Context `{Htarget : Target}.

Definition typed_payload (input : NnrpTypedPayloadSubmitInput.t) : R t :=
  let identity := NnrpTypedPayloadSubmitInput.identity input in
  let policy := NnrpTypedPayloadSubmitInput.policy input in
  let frames := NnrpTypedPayloadSubmitInput.frames input in
  _ ← validate_identity identity;
  _ ← HeaderFlags.validate_known (NnrpSubmitHeaderContext.flags (NnrpSubmitIdentity.header identity));
  _ ← reject_if ((len frames =? 0) || (u16_max <? len frames))
        (InvalidProtocolCombination "typed payload submit requires between one and 65535 frames");
  let frame_count := len frames mod 2 ^ 16 in
  '(descriptors, payload_region, bitmap) ← try_fold typed_step ([], [], 0) frames;
  typed_region ← TypedPayloadRegion.from_parts bitmap descriptors payload_region;
  descriptor_region ← TypedPayloadRegion.descriptor_region_bytes typed_region;
  body ← encode_body [] [] descriptor_region payload_region;
  let metadata := {|
    FrameSubmitMetadata.src_width := 0;
    FrameSubmitMetadata.src_height := 0;
    FrameSubmitMetadata.tile_width := 0;
    FrameSubmitMetadata.tile_height := 0;
    FrameSubmitMetadata.tile_count := 0;
    FrameSubmitMetadata.section_count := 0;
    FrameSubmitMetadata.frame_class := NnrpSubmitPolicy.frame_class policy;
    FrameSubmitMetadata.input_profile := InputProfile.Unspecified;
    FrameSubmitMetadata.tile_index_mode := TileIndexMode.RawU16;
    FrameSubmitMetadata.latency_budget_ms := NnrpSubmitPolicy.latency_budget_ms policy;
    FrameSubmitMetadata.target_fps_x100 := NnrpSubmitPolicy.target_fps_x100 policy;
    FrameSubmitMetadata.retry_of_frame := NnrpSubmitPolicy.retry_of_frame policy;
    FrameSubmitMetadata.tile_base_id := 0;
    FrameSubmitMetadata.camera_bytes := 0;
    FrameSubmitMetadata.tile_index_bytes := 0;
    FrameSubmitMetadata.operation_id := NnrpSubmitIdentity.operation_id identity;
    FrameSubmitMetadata.submit_mode := SubmitMode.Inline;
    FrameSubmitMetadata.budget_policy := NnrpSubmitPolicy.budget_policy policy;
    FrameSubmitMetadata.loss_tolerance_policy := NnrpSubmitPolicy.loss_tolerance_policy policy;
    FrameSubmitMetadata.object_ref_mask := 0;
    FrameSubmitMetadata.dependency_frame_id := NnrpSubmitPolicy.dependency_frame_id policy;
    FrameSubmitMetadata.payload_kind_bitmap := bitmap;
    FrameSubmitMetadata.payload_frame_count := frame_count |} in
  _ ← FrameSubmitMetadata.to_bytes metadata;
  Ok (new identity metadata body).

Definition token_frame (chunk : NnrpTokenChunk.t) : NnrpTypedPayloadInputFrame.t :=
  {| NnrpTypedPayloadInputFrame.profile_id := PROFILE_TOKEN;
     NnrpTypedPayloadInputFrame.payload_kind := PayloadKind.TokenChunk;
     NnrpTypedPayloadInputFrame.descriptor_flags := NnrpTokenChunk.descriptor_flags chunk;
     NnrpTypedPayloadInputFrame.schema_id := TOKEN_DELTA_SCHEMA_ID;
     NnrpTypedPayloadInputFrame.schema_version := TOKEN_DELTA_SCHEMA_VERSION;
     NnrpTypedPayloadInputFrame.stream_semantics := STREAM_SEMANTICS_TOKEN_DELTA;
     NnrpTypedPayloadInputFrame.payload := NnrpTokenChunk.payload chunk |}.

Definition token (input : NnrpTokenSubmitInput.t) : R t :=
  typed_payload {|
    NnrpTypedPayloadSubmitInput.identity := NnrpTokenSubmitInput.identity input;
    NnrpTypedPayloadSubmitInput.policy := NnrpTokenSubmitInput.policy input;
    NnrpTypedPayloadSubmitInput.frames := map token_frame (NnrpTokenSubmitInput.chunks input) |}.


(** ** Reading a typed submission back *)

(** The descriptors of the frames when their payloads start at [offset]. *)
Fixpoint describe (offset : Z) (frames : list NnrpTypedPayloadInputFrame.t)
    : list TypedPayloadDescriptor.t :=
  match frames with
  | [] => []
  | frame :: frames =>
      let length := len (NnrpTypedPayloadInputFrame.payload frame) in
      {| TypedPayloadDescriptor.profile_id := NnrpTypedPayloadInputFrame.profile_id frame;
         TypedPayloadDescriptor.payload_kind := NnrpTypedPayloadInputFrame.payload_kind frame;
         TypedPayloadDescriptor.descriptor_flags :=
           NnrpTypedPayloadInputFrame.descriptor_flags frame;
         TypedPayloadDescriptor.schema_id := NnrpTypedPayloadInputFrame.schema_id frame;
         TypedPayloadDescriptor.schema_version := NnrpTypedPayloadInputFrame.schema_version frame;
         TypedPayloadDescriptor.stream_semantics :=
           NnrpTypedPayloadInputFrame.stream_semantics frame;
         TypedPayloadDescriptor.offset := offset;
         TypedPayloadDescriptor.length := length |} :: describe (offset + length) frames
  end.

Definition payloads (frames : list NnrpTypedPayloadInputFrame.t) : bytes :=
  concat (map NnrpTypedPayloadInputFrame.payload frames).

Definition frame_kinds (frames : list NnrpTypedPayloadInputFrame.t) : Z :=
  foldr (fun frame acc => Z.lor (PayloadKind.bit (NnrpTypedPayloadInputFrame.payload_kind frame)) acc)
    0 frames.

(** What a receiver sees of a frame. *)
Definition frame_of_view (view : TypedPayloadFrameView.t) : NnrpTypedPayloadInputFrame.t :=
  let d := TypedPayloadFrameView.descriptor view in
  {| NnrpTypedPayloadInputFrame.profile_id := TypedPayloadDescriptor.profile_id d;
     NnrpTypedPayloadInputFrame.payload_kind := TypedPayloadDescriptor.payload_kind d;
     NnrpTypedPayloadInputFrame.descriptor_flags := TypedPayloadDescriptor.descriptor_flags d;
     NnrpTypedPayloadInputFrame.schema_id := TypedPayloadDescriptor.schema_id d;
     NnrpTypedPayloadInputFrame.schema_version := TypedPayloadDescriptor.schema_version d;
     NnrpTypedPayloadInputFrame.stream_semantics := TypedPayloadDescriptor.stream_semantics d;
     NnrpTypedPayloadInputFrame.payload := TypedPayloadFrameView.payload view |}.

Lemma typed_loop_Ok frames ds p b ds' p' b' :
  len p + len (payloads frames) <= u32_max ->
  try_fold typed_step (ds, p, b) frames = Ok (ds', p', b') <->
  ds' = ds ++ describe (len p) frames /\ p' = p ++ payloads frames /\
  b' = Z.lor b (frame_kinds frames).
Proof.
  revert ds p b. induction frames as [|f frames IH]; intros ds p b Hfit.
  { cbn. rewrite Z.lor_0_r, !app_nil_r. naive_solver. }
  change (payloads (f :: frames)) with (NnrpTypedPayloadInputFrame.payload f ++ payloads frames) in *.
  rewrite len_app in Hfit. pose proof (len_nonneg p). pose proof (len_nonneg (payloads frames)).
  pose proof (len_nonneg (NnrpTypedPayloadInputFrame.payload f)).
  cbn [try_fold typed_step]. rewrite (proj2 (to_u32_Ok (len p) (len p))) by (split; [done|lia]).
  rewrite (proj2 (to_u32_Ok (len (NnrpTypedPayloadInputFrame.payload f)) _)) by (split; [done|lia]).
  cbn [mbind outcome_bind]. rewrite IH by (rewrite len_app; lia).
  rewrite len_app, <- !app_assoc. cbn [describe frame_kinds foldr app].
  by rewrite Z.lor_assoc.
Qed.

(** A step that overflows leaves no room to accept the region. *)
Lemma typed_loop_inv frames ds p b ds' p' b' :
  try_fold typed_step (ds, p, b) frames = Ok (ds', p', b') ->
  ds' = ds ++ describe (len p) frames /\ p' = p ++ payloads frames /\
  b' = Z.lor b (frame_kinds frames).
Proof.
  revert ds p b. induction frames as [|f frames IH]; intros ds p b.
  { cbn. rewrite Z.lor_0_r, !app_nil_r. naive_solver. }
  cbn [try_fold typed_step]. intros Hs. apply bind_Ok in Hs as ([[ds1 p1] b1] & Hs & Hr).
  apply bind_Ok in Hs as (o & [-> _]%to_u32_Ok & Hs).
  apply bind_Ok in Hs as (l & [-> _]%to_u32_Ok & [= <- <- <-]).
  apply IH in Hr as (-> & -> & ->).
  rewrite len_app, <- !app_assoc, <- Z.lor_assoc. done.
Qed.

Lemma describe_lengths offset frames : TypedPayloadRegion.lengths_ok (describe offset frames).
Proof.
  revert offset. induction frames as [|f frames IH]; intros offset; simpl; constructor; [|apply IH].
  apply len_nonneg.
Qed.

Lemma length_describe offset frames : length (describe offset frames) = length frames.
Proof. revert offset. induction frames as [|f frames IH]; intros; simpl; auto. Qed.

Lemma describe_packed offset frames last :
  TypedPayloadRegion.packed offset (describe offset frames) last <->
  last = offset + len (payloads frames) /\ (frames = [] \/ last <= u32_max).
Proof.
  revert offset. induction frames as [|f frames IH]; intros offset; simpl.
  { unfold len. simpl. naive_solver lia. }
  change (payloads (f :: frames)) with (NnrpTypedPayloadInputFrame.payload f ++ payloads frames).
  rewrite len_app, IH. pose proof (len_nonneg (payloads frames)). split.
  - intros (_ & Hle & -> & [->|Hl]); [|split; [lia|right; lia]].
    split; [simpl; lia|]. right. change (len (payloads [])) with 0. lia.
  - intros (-> & [?|Hle]); [done|]. split_and!; [done|lia|lia|]. right. lia.
Qed.

Lemma describe_kinds offset frames :
  TypedPayloadRegion.kind_union (describe offset frames) = frame_kinds frames.
Proof. revert offset. induction frames as [|f frames IH]; intros; simpl; [done|]. by rewrite IH. Qed.


(** The kinds of the frames are known bits, and stay so without the tensor bit. *)
Lemma kinds_known frames : Z.land (frame_kinds frames) 127 = frame_kinds frames.
Proof.
  induction frames as [|f frames IH]; simpl; [done|].
  rewrite Z.land_lor_distr_l, IH. f_equal. by destruct (NnrpTypedPayloadInputFrame.payload_kind f).
Qed.

Lemma kinds_range frames : 0 <= frame_kinds frames < 128.
Proof.
  rewrite <- kinds_known. change 127 with (Z.ones 7). rewrite Z.land_ones by lia.
  apply Z.mod_pos_bound. lia.
Qed.

Lemma kinds_valid frames : PayloadKindBitmap.validate (frame_kinds frames) = Ok tt.
Proof.
  pose proof (kinds_range frames). unfold PayloadKindBitmap.validate, validate_mask_u32.
  apply validate_mask_Ok. rewrite mask_ok_within by lia. unfold bits_within. apply Z.eqb_eq.
  rewrite <- kinds_known. unfold PAYLOAD_KIND_KNOWN_MASK. rewrite Z.ldiff_land, <- Z.land_assoc.
  by rewrite Z.land_lnot_diag, Z.land_0_r.
Qed.

Lemma kinds_no_tensor frames :
  Forall (fun f => NnrpTypedPayloadInputFrame.payload_kind f <> PayloadKind.Tensor) frames ->
  Z.land (frame_kinds frames) (bnot 32 PayloadKindBitmap.TENSOR) = frame_kinds frames.
Proof.
  intros Hf. rewrite land_bnot by (pose proof (kinds_range frames); lia).
  induction Hf as [|f frames Hk Hf IH]; simpl; [done|].
  rewrite Z.ldiff_land, Z.land_lor_distr_l, <- !Z.ldiff_land, IH. f_equal.
  by destruct (NnrpTypedPayloadInputFrame.payload_kind f).
Qed.

(** What Rust's types say of the inputs. *)
Definition frame_typed (f : NnrpTypedPayloadInputFrame.t) : Prop :=
  0 <= NnrpTypedPayloadInputFrame.profile_id f <= u16_max /\
  0 <= NnrpTypedPayloadInputFrame.descriptor_flags f <= u8_max /\
  0 <= NnrpTypedPayloadInputFrame.schema_id f <= u32_max /\
  0 <= NnrpTypedPayloadInputFrame.schema_version f <= u32_max /\
  0 <= NnrpTypedPayloadInputFrame.stream_semantics f <= u16_max.

Definition identity_typed (i : NnrpSubmitIdentity.t) : Prop :=
  0 <= NnrpSubmitIdentity.operation_id i <= u64_max.

Definition policy_typed (p : NnrpSubmitPolicy.t) : Prop :=
  0 <= NnrpSubmitPolicy.frame_class p <= u8_max /\
  0 <= NnrpSubmitPolicy.latency_budget_ms p <= u16_max /\
  0 <= NnrpSubmitPolicy.target_fps_x100 p <= u16_max /\
  0 <= NnrpSubmitPolicy.retry_of_frame p <= u32_max /\
  0 <= NnrpSubmitPolicy.budget_policy p <= u8_max /\
  0 <= NnrpSubmitPolicy.dependency_frame_id p <= u32_max.

Definition typed_input (input : NnrpTypedPayloadSubmitInput.t) : Prop :=
  identity_typed (NnrpTypedPayloadSubmitInput.identity input) /\
  policy_typed (NnrpTypedPayloadSubmitInput.policy input) /\
  Forall frame_typed (NnrpTypedPayloadSubmitInput.frames input).

(** A frame that may be submitted outside a tensor. *)
Definition frame_ok (f : NnrpTypedPayloadInputFrame.t) : Prop :=
  NnrpTypedPayloadInputFrame.payload_kind f <> PayloadKind.Tensor /\
  NnrpTypedPayloadInputFrame.profile_id f <> STANDARD_PROFILE_TENSOR /\
  (NnrpTypedPayloadInputFrame.payload_kind f = PayloadKind.TokenChunk ->
   NnrpTypedPayloadInputFrame.profile_id f = STANDARD_PROFILE_TOKEN) /\
  mask_ok 8 (NnrpTypedPayloadInputFrame.descriptor_flags f) DESCRIPTOR_FLAGS_KNOWN_MASK = true.

Definition identity_ok (i : NnrpSubmitIdentity.t) : Prop :=
  NnrpSubmitIdentity.operation_id i <> 0 /\ NnrpSubmitIdentity.frame_id i <> 0 /\
  HeaderFlags.validate_known (NnrpSubmitHeaderContext.flags (NnrpSubmitIdentity.header i)) = Ok tt.

Definition policy_ok (p : NnrpSubmitPolicy.t) : Prop :=
  mask_ok 8 (NnrpSubmitPolicy.budget_policy p) BUDGET_POLICY_KNOWN_MASK = true.

(** The policy a receiver reads from the metadata. *)
Definition policy_of (m : FrameSubmitMetadata.t) : NnrpSubmitPolicy.t := {|
  NnrpSubmitPolicy.frame_class := FrameSubmitMetadata.frame_class m;
  NnrpSubmitPolicy.latency_budget_ms := FrameSubmitMetadata.latency_budget_ms m;
  NnrpSubmitPolicy.target_fps_x100 := FrameSubmitMetadata.target_fps_x100 m;
  NnrpSubmitPolicy.retry_of_frame := FrameSubmitMetadata.retry_of_frame m;
  NnrpSubmitPolicy.budget_policy := FrameSubmitMetadata.budget_policy m;
  NnrpSubmitPolicy.loss_tolerance_policy := FrameSubmitMetadata.loss_tolerance_policy m;
  NnrpSubmitPolicy.dependency_frame_id := FrameSubmitMetadata.dependency_frame_id m |}.

Lemma identity_checks {B} i (k : R B) b :
  (_ ← validate_identity i;
   _ ← HeaderFlags.validate_known (NnrpSubmitHeaderContext.flags (NnrpSubmitIdentity.header i));
   k) = Ok b <-> identity_ok i /\ k = Ok b.
Proof.
  rewrite !then_unit_Ok. unfold validate_identity, identity_ok.
  rewrite reject_if_Ok, orb_false_iff, !Z.eqb_neq. tauto.
Qed.

Lemma Forall_describe (P : TypedPayloadDescriptor.t -> Prop) (Q : NnrpTypedPayloadInputFrame.t -> Prop) :
  (forall offset f, P (default (TypedPayloadDescriptor.mk 0 PayloadKind.Tensor 0 0 0 0 0 0)
                         (head (describe offset [f]))) <-> Q f) ->
  forall offset frames, Forall P (describe offset frames) <-> Forall Q frames.
Proof.
  intros HPQ offset frames. revert offset.
  induction frames as [|f frames IH]; intros offset; simpl; [by split|].
  rewrite !Forall_cons, IH. by rewrite <- (HPQ offset f).
Qed.

Lemma descriptor_profile_Ok d :
  validate_descriptor_profile d = Ok tt <->
  TypedPayloadDescriptor.payload_kind d <> PayloadKind.Tensor /\
  TypedPayloadDescriptor.profile_id d <> STANDARD_PROFILE_TENSOR /\
  (TypedPayloadDescriptor.payload_kind d = PayloadKind.TokenChunk ->
   TypedPayloadDescriptor.profile_id d = STANDARD_PROFILE_TOKEN).
Proof.
  unfold validate_descriptor_profile. rewrite !then_unit_Ok, !reject_if_Ok, bool_decide_eq_false,
    Z.eqb_neq, andb_false_iff, bool_decide_eq_false, negb_false_iff, Z.eqb_eq.
  destruct (decide (TypedPayloadDescriptor.payload_kind d = PayloadKind.TokenChunk)); tauto.
Qed.

Lemma describe_typed offset frames :
  0 <= offset -> offset + len (payloads frames) <= u32_max -> Forall frame_typed frames ->
  Forall (fun d => typed d = true) (describe offset frames).
Proof.
  intros Ho Hfit Hf. revert offset Ho Hfit.
  induction Hf as [|f frames Hf _ IH]; intros offset Ho Hfit; simpl; [done|].
  change (payloads (f :: frames)) with (NnrpTypedPayloadInputFrame.payload f ++ payloads frames) in *.
  rewrite len_app in Hfit. pose proof (len_nonneg (payloads frames)).
  pose proof (len_nonneg (NnrpTypedPayloadInputFrame.payload f)).
  constructor; [|apply IH; lia].
  destruct Hf as (? & ? & ? & ? & ?). unfold u8_max, u16_max, u32_max in *. solve_fields.
  by destruct (NnrpTypedPayloadInputFrame.payload_kind f).
Qed.

(** The metadata of a submission without tensors. *)
Definition typed_metadata (input : NnrpTypedPayloadSubmitInput.t) : FrameSubmitMetadata.t :=
  let policy := NnrpTypedPayloadSubmitInput.policy input in
  FrameSubmitMetadata.mk 0 0 0 0 0 0 (NnrpSubmitPolicy.frame_class policy)
    InputProfile.Unspecified TileIndexMode.RawU16 (NnrpSubmitPolicy.latency_budget_ms policy)
    (NnrpSubmitPolicy.target_fps_x100 policy) (NnrpSubmitPolicy.retry_of_frame policy) 0 0 0
    (NnrpSubmitIdentity.operation_id (NnrpTypedPayloadSubmitInput.identity input))
    SubmitMode.Inline (NnrpSubmitPolicy.budget_policy policy)
    (NnrpSubmitPolicy.loss_tolerance_policy policy) 0
    (NnrpSubmitPolicy.dependency_frame_id policy)
    (frame_kinds (NnrpTypedPayloadSubmitInput.frames input))
    (len (NnrpTypedPayloadSubmitInput.frames input)).

Lemma typed_metadata_typed input :
  typed_input input -> len (NnrpTypedPayloadSubmitInput.frames input) <= u16_max ->
  typed (typed_metadata input) = true.
Proof.
  intros (Hi & (? & ? & ? & ? & ? & ?) & _) Hl. unfold identity_typed in Hi.
  pose proof (len_nonneg (NnrpTypedPayloadSubmitInput.frames input)).
  pose proof (kinds_range (NnrpTypedPayloadSubmitInput.frames input)).
  unfold u8_max, u16_max, u32_max, u64_max in *. solve_fields.
  by destruct (NnrpSubmitPolicy.loss_tolerance_policy _).
Qed.

Lemma typed_metadata_valid input :
  typed_input input -> 1 <= len (NnrpTypedPayloadSubmitInput.frames input) <= u16_max ->
  valid (typed_metadata input) = true <->
  NnrpSubmitIdentity.operation_id (NnrpTypedPayloadSubmitInput.identity input) <> 0 /\
  policy_ok (NnrpTypedPayloadSubmitInput.policy input).
Proof.
  intros Ht Hl. unfold valid. rewrite typed_metadata_typed by (done || lia). simpl.
  unfold FrameSubmitMetadata.guard, policy_ok. cbn [typed_metadata FrameSubmitMetadata.budget_policy
    FrameSubmitMetadata.payload_kind_bitmap]. rewrite kinds_valid. cbn [is_ok].
  rewrite andb_true_r, andb_true_iff, is_ok_unit.
  unfold FrameSubmitMetadata.validate_payload_shape. rewrite then_unit_Ok, reject_if_Ok, Z.eqb_neq.
  simpl. case_match; simpl; naive_solver.
Qed.

(** The request of an accepted input. *)
Definition typed_request (input : NnrpTypedPayloadSubmitInput.t) : t :=
  let frames := NnrpTypedPayloadSubmitInput.frames input in
  let ds := wires (describe 0 frames) in
  new (NnrpTypedPayloadSubmitInput.identity input) (typed_metadata input)
    (wire (body_prelude [] [] ds (payloads frames)) ++ ds ++ payloads frames).

Definition typed_acceptable (input : NnrpTypedPayloadSubmitInput.t) : Prop :=
  let frames := NnrpTypedPayloadSubmitInput.frames input in
  identity_ok (NnrpTypedPayloadSubmitInput.identity input) /\
  policy_ok (NnrpTypedPayloadSubmitInput.policy input) /\
  1 <= len frames <= u16_max /\ Forall frame_ok frames /\ len (payloads frames) <= u32_max.

Lemma region_from_parts_Ok bitmap ds payload region :
  TypedPayloadRegion.from_parts bitmap ds payload = Ok region <->
  len ds <= u16_max /\
  TypedPayloadRegion.validate {| TypedPayloadRegion.descriptors := ds;
    TypedPayloadRegion.payload_region := payload |} bitmap (len ds) = Ok tt /\
  region = {| TypedPayloadRegion.descriptors := ds; TypedPayloadRegion.payload_region := payload |}.
Proof.
  unfold TypedPayloadRegion.from_parts. cbv zeta.
  rewrite !then_unit_Ok, reject_if_Ok, Z.ltb_ge. naive_solver.
Qed.

Lemma describe_frames_ok offset frames :
  Forall frame_ok frames <->
  Forall (fun d => validate_descriptor_profile d = Ok tt /\ codec_guard d = true)
    (describe offset frames).
Proof.
  symmetry. revert offset frames. apply Forall_describe. intros offset f.
  rewrite descriptor_profile_Ok. simpl. unfold TypedPayloadDescriptor.guard, frame_ok. simpl. tauto.
Qed.

(** Building the region and its bytes succeeds exactly on frames that may be sent. *)
Lemma frames_region_Ok frames region dr :
  Forall frame_typed frames -> 1 <= len frames <= u16_max ->
  TypedPayloadRegion.from_parts (frame_kinds frames) (describe 0 frames) (payloads frames)
    = Ok region /\ TypedPayloadRegion.descriptor_region_bytes region = Ok dr <->
  Forall frame_ok frames /\ len (payloads frames) <= u32_max /\
  region = {| TypedPayloadRegion.descriptors := describe 0 frames;
              TypedPayloadRegion.payload_region := payloads frames |} /\
  dr = wires (describe 0 frames).
Proof.
  intros Hft Hl. rewrite region_from_parts_Ok, TypedPayloadRegion.validate_Ok by apply describe_lengths.
  assert (len (describe 0 frames) = len frames) as Hlen by (unfold len; by rewrite length_describe).
  simpl. rewrite Hlen, describe_packed, describe_kinds, (describe_frames_ok 0), Forall_and.
  assert (frames <> []) as Hne by (intros ->; unfold len in Hl; simpl in Hl; lia). split.
  - intros ((_ & (_ & Hpr & [_ [?|Hfit]] & _) & ->) & Hdr); [done|]. 
    pose proof (describe_typed 0 frames ltac:(lia) ltac:(lia) Hft) as Htd.
    destruct (write_blocks_strict (A := TypedPayloadDescriptor.t) _ _ Htd Hdr) as [Hval ->].
    split_and!; [done| |done..]. eapply Forall_impl; [exact Hval|]. by intros d [_ Hg]%andb_prop.
  - intros ([Hpr Hg] & Hfit & -> & ->). split_and!; [lia|done|done|lia|by right| |done|].
    + symmetry. apply kinds_no_tensor.
      pose proof (proj2 (describe_frames_ok 0 frames) (proj2 (Forall_and _ _) (conj Hpr Hg))) as Hok.
      eapply Forall_impl; [exact Hok|]. by intros f (Hk & _).
    + pose proof (describe_typed 0 frames ltac:(lia) ltac:(lia) Hft) as Htd.
      refine (write_blocks_valid (A := TypedPayloadDescriptor.t) (describe 0 frames) _).
      eapply Forall_impl; [exact (proj2 (Forall_and _ _) (conj Htd Hg))|].
      intros d [H1 H2]. by apply andb_true_intro.
Qed.

Lemma frames_regions_fit frames :
  1 <= len frames <= u16_max -> len (payloads frames) <= u32_max ->
  regions_fit [] [] (wires (describe 0 frames)) (payloads frames).
Proof.
  intros Hl Hp. unfold regions_fit. pose proof (length_wires (describe 0 frames)) as Hw.
  change (codec_len (A := TypedPayloadDescriptor.t)) with 24%nat in Hw.
  rewrite length_describe in Hw. unfold len, u16_max, u32_max in *.
  change (Z.of_nat TYPED_PAYLOAD_DESCRIPTOR_LEN) with 24.
  split_and!; try done; [lia|]. rewrite Hw, Nat2Z.inj_mul. apply Z.mod_mul. lia.
Qed.

Lemma typed_metadata_writes input :
  typed_input input -> 1 <= len (NnrpTypedPayloadSubmitInput.frames input) <= u16_max ->
  is_ok (FrameSubmitMetadata.to_bytes (typed_metadata input)) = true <->
  NnrpSubmitIdentity.operation_id (NnrpTypedPayloadSubmitInput.identity input) <> 0 /\
  policy_ok (NnrpTypedPayloadSubmitInput.policy input).
Proof.
  intros Ht Hl. rewrite <- typed_metadata_valid by done.
  change (FrameSubmitMetadata.to_bytes (typed_metadata input))
    with (codec_to_bytes (typed_metadata input)). split.
  - intros [bs Hbs]%is_ok_true. eapply (law_write_strict (A := FrameSubmitMetadata.t)); [|exact Hbs].
    apply typed_metadata_typed; [done|lia].
  - intros Hv. by rewrite to_bytes_valid.
Qed.

Lemma typed_payload_Ok input request :
  typed_input input ->
  typed_payload input = Ok request <-> typed_acceptable input /\ request = typed_request input.
Proof.
  intros Ht. pose proof Ht as (_ & _ & Hft). unfold typed_payload. cbv zeta.
  rewrite identity_checks, then_unit_Ok, reject_if_Ok, orb_false_iff, Z.eqb_neq, Z.ltb_ge.
  set (frames := NnrpTypedPayloadSubmitInput.frames input) in *.
  pose proof (len_nonneg frames) as Hnn.
  split.
  - intros (Hid & [Hne Hmax] & Hr). apply bind_Ok in Hr as ([[ds p] b] & Hloop & Hr).
    apply typed_loop_inv in Hloop as (-> & -> & ->). cbn [app] in Hr. rewrite Z.lor_0_l in Hr.
    change (len (@nil byte)) with 0 in Hr.
    apply bind_Ok in Hr as (region & Hreg & Hr). apply bind_Ok in Hr as (dr & Hdr & Hr).
    destruct (proj1 (frames_region_Ok frames region dr Hft ltac:(lia)) (conj Hreg Hdr))
      as (Hok & Hfit & -> & ->).
    apply bind_Ok in Hr as (body & [_ ->]%encode_body_Ok & Hr).
    rewrite Z.mod_small in Hr by (unfold u16_max in *; lia).
    apply bind_Ok in Hr as (m & Hm & [= <-]).
    destruct (proj1 (typed_metadata_writes input Ht ltac:(fold frames; lia)))
      as [_ Hpol]; [by apply is_ok_true; exists m|].
    split; [|done]. unfold typed_acceptable. fold frames. by split_and!; try lia.
  - intros ((Hid & Hpol & Hl & Hok & Hfit) & ->). fold frames in Hl, Hok, Hfit.
    split_and!; [done|lia|lia|].
    eapply bind_step.
    { apply typed_loop_Ok; [by change (len (@nil byte)) with 0|]. done. }
    cbv beta iota. cbn [app]. rewrite Z.lor_0_l. change (len (@nil byte)) with 0.
    destruct (proj2 (frames_region_Ok frames _ _ Hft Hl) (conj Hok (conj Hfit (conj eq_refl eq_refl))))
      as [Hreg Hdr].
    eapply bind_step; [exact Hreg|cbv beta]. eapply bind_step; [exact Hdr|cbv beta].
    eapply bind_step; [apply encode_body_Ok; split; [by apply frames_regions_fit|done]|cbv beta].
    rewrite Z.mod_small by (unfold u16_max in *; lia).
    destruct (proj1 (is_ok_true _) (proj2 (typed_metadata_writes input Ht Hl) (conj (proj1 Hid) Hpol)))
      as [m Hm].
    eapply bind_step; [exact Hm|]. done.
Qed.

(** Views that have the descriptors of the frames and cover their payloads are the frames. *)
Lemma views_are_frames offset frames views :
  map TypedPayloadFrameView.descriptor views = describe offset frames ->
  Forall (fun v => len (TypedPayloadFrameView.payload v) =
    TypedPayloadDescriptor.length (TypedPayloadFrameView.descriptor v)) views ->
  concat (map TypedPayloadFrameView.payload views) = payloads frames ->
  map frame_of_view views = frames.
Proof.
  revert offset views. induction frames as [|f frames IH]; intros offset [|v views]; try done.
  cbn [map describe concat]. intros [= Hd Hds] [Hl Hls]%Forall_cons Hc.
  change (payloads (f :: frames)) with (NnrpTypedPayloadInputFrame.payload f ++ payloads frames) in Hc.
  rewrite Hd in Hl. simpl in Hl. unfold len in Hl. apply Nat2Z.inj in Hl.
  apply app_inj_1 in Hc as [Hp Hps]; [|done]. f_equal; [|by eapply IH].
  unfold frame_of_view. rewrite Hd, Hp. by destruct f.
Qed.

Lemma typed_body_read input :
  typed_input input -> typed_acceptable input ->
  let frames := NnrpTypedPayloadSubmitInput.frames input in
  read_regions (body (typed_request input)) =
    Ok ([], [], wires (describe 0 frames), payloads frames).
Proof.
  intros Ht (_ & _ & Hl & _ & Hfit). apply encode_body_read, encode_body_Ok.
  split; [by apply frames_regions_fit|done].
Qed.

Lemma typed_region_read input :
  typed_input input -> typed_acceptable input ->
  let frames := NnrpTypedPayloadSubmitInput.frames input in
  let region := {| TypedPayloadRegion.descriptors := describe 0 frames;
                   TypedPayloadRegion.payload_region := payloads frames |} in
  TypedPayloadRegion.parse (frame_kinds frames) (len frames) (wires (describe 0 frames))
    (payloads frames) = Ok region /\
  exists views, TypedPayloadRegion.frame_views region = Ok views /\
    map frame_of_view views = frames.
Proof.
  intros (_ & _ & Hft) (_ & _ & Hl & Hok & Hfit). cbv zeta.
  set (frames := NnrpTypedPayloadSubmitInput.frames input) in *.
  destruct (proj2 (frames_region_Ok frames _ _ Hft Hl) (conj Hok (conj Hfit (conj eq_refl eq_refl))))
    as [Hreg Hdr]. split.
  - replace (len frames) with (len (describe 0 frames)) by (unfold len; by rewrite length_describe).
    apply (TypedPayloadRegion.from_parts_round_trip _ _ _ _ _
             (describe_typed 0 frames ltac:(lia) ltac:(lia) Hft) (kinds_valid frames) Hreg Hdr).
  - destruct (TypedPayloadRegion.views_packed {| TypedPayloadRegion.descriptors := describe 0 frames;
      TypedPayloadRegion.payload_region := payloads frames |} (describe 0 frames) 0)
      as (views & Hv & Hds & Hlens & Hc); [lia|apply describe_lengths| |].
    { apply describe_packed. split; [done|by right]. }
    exists views. split; [exact Hv|]. by eapply views_are_frames.
Qed.

Lemma region_validate_no_panic region bitmap count :
  TypedPayloadRegion.validate region bitmap count <> Panic.
Proof.
  unfold TypedPayloadRegion.validate. apply bind_no_panic; [apply reject_if_no_panic|intros _ _].
  apply bind_no_panic; [apply try_fold_no_panic|].
  - intros [next union] d. unfold TypedPayloadRegion.frame_step, validate_descriptor_profile,
      checked_payload_end. cbv zeta.
    repeat first [apply reject_if_no_panic|apply ok_or_no_panic|done|case_match
                 |apply bind_no_panic; [|intros ? _]].
  - intros [next union] _. apply bind_no_panic; [|intros ? _]; apply reject_if_no_panic.
Qed.

Lemma encode_body_no_panic i r d p : encode_body i r d p <> Panic.
Proof.
  unfold encode_body. do 4 (apply bind_no_panic; [apply to_u32_no_panic|intros ? _]). cbv zeta.
  apply bind_no_panic; [|done]. exact (law_write_no_panic (A := BodyRegionPrelude.t) _ _).
Qed.

Lemma typed_payload_no_panic input : typed_payload input <> Panic.
Proof.
  unfold typed_payload. cbv zeta.
  do 3 (apply bind_no_panic; [apply reject_if_no_panic|intros ? _]).
  apply bind_no_panic; [apply try_fold_no_panic|].
  { intros [[ds p] b] f. unfold typed_step. cbv zeta.
    do 2 (apply bind_no_panic; [apply to_u32_no_panic|intros ? _]). done. }
  intros [[ds p] b] _. apply bind_no_panic; [|intros region _].
  { apply bind_no_panic; [apply reject_if_no_panic|intros _ _]. cbv zeta.
    apply bind_no_panic; [apply region_validate_no_panic|done]. }
  apply bind_no_panic;
    [exact (write_blocks_no_panic (A := TypedPayloadDescriptor.t) _)|intros dr _].
  apply bind_no_panic; [apply encode_body_no_panic|intros body _].
  apply bind_no_panic; [|done]. exact (law_write_no_panic (A := FrameSubmitMetadata.t) _ _).
Qed.

End typed.

(** C40: A submission without tensors is built exactly when its operation and frame ids
    are not zero, its header and budget flags are known, it has between one and 65535
    frames that fit 4 GiB in all, no frame is a tensor or uses the tensor profile, token frames use the token
    profile and the descriptor flags are known; in every other case the result is an error
    and never a panic. *)
Theorem typed_submit_accepts (T : Target) input :
  typed_input input ->
  ((exists request, typed_payload input = Ok request) <-> typed_acceptable input) /\
  typed_payload input <> Panic.
Proof.
  intros Ht. split.
  - setoid_rewrite (typed_payload_Ok input _ Ht). naive_solver.
  - apply typed_payload_no_panic.
Qed.

Definition two_frames : NnrpTypedPayloadSubmitInput.t := {|
  NnrpTypedPayloadSubmitInput.identity := NnrpSubmitIdentity.mk 7 9 NnrpSubmitHeaderContext.default;
  NnrpTypedPayloadSubmitInput.policy := NnrpSubmitPolicy.default;
  NnrpTypedPayloadSubmitInput.frames :=
    [ NnrpTypedPayloadInputFrame.mk 41 PayloadKind.AudioChunk 1 42 3 4 [x01; x02; x03];
      NnrpTypedPayloadInputFrame.mk 2 PayloadKind.TokenChunk 2 52 5 6 [x04; x05] ] |}.

Lemma two_frames_typed : typed_input two_frames.
Proof.
  unfold typed_input, identity_typed, policy_typed, u8_max, u16_max, u32_max, u64_max. cbn.
  unfold BudgetPolicy.NONE. split_and!; try lia.
  apply Forall_cons; split; [|apply Forall_cons; split; [|done]];
    unfold frame_typed, u8_max, u16_max, u32_max; cbn; lia.
Qed.

Lemma typed_submit_accepts_witness :
  (exists request, typed_payload (Htarget := target64) two_frames = Ok request) /\
  typed_acceptable two_frames.
Proof.
  destruct (typed_submit_accepts target64 two_frames two_frames_typed) as [Hiff _].
  assert (exists request, typed_payload (Htarget := target64) two_frames = Ok request) as He
    by (eexists; vm_compute; reflexivity).
  exact (conj He (proj1 Hiff He)).
Defined.

(** What is submitted is what is received: the payload of a request that was built parses
    to its metadata, which carries the operation and the policy, the body is cut by its
    prelude into the descriptor and the payload region, and these parse to the submitted
    frames, in order, with their payloads. *)
Theorem typed_submit_round_trip (T : Target) input request :
  typed_input input -> typed_payload input = Ok request ->
  exists payload descriptor_region payload_region region views,
    encoded_payload request = Ok payload /\
    FrameSubmitMetadata.parse payload = Ok (metadata request) /\
    FrameSubmitMetadata.operation_id (metadata request) =
      NnrpSubmitIdentity.operation_id (NnrpTypedPayloadSubmitInput.identity input) /\
    policy_of (metadata request) = NnrpTypedPayloadSubmitInput.policy input /\
    read_regions (drop FRAME_SUBMIT_METADATA_LEN payload) =
      Ok ([], [], descriptor_region, payload_region) /\
    TypedPayloadRegion.parse (FrameSubmitMetadata.payload_kind_bitmap (metadata request))
      (FrameSubmitMetadata.payload_frame_count (metadata request))
      descriptor_region payload_region = Ok region /\
    TypedPayloadRegion.frame_views region = Ok views /\
    map frame_of_view views = NnrpTypedPayloadSubmitInput.frames input.
Proof.
  intros Ht [Hacc ->]%typed_payload_Ok; [|done]. pose proof Hacc as ((Hop & _) & Hpol & Hl & _).
  assert (valid (typed_metadata input) = true) as Hv by (by apply typed_metadata_valid).
  destruct (typed_region_read input Ht Hacc) as (Hparse & views & Hviews & Hframes).
  eexists _, _, _, _, views. split_and!.
  - unfold encoded_payload. eapply bind_step; [exact (to_bytes_valid _ Hv)|reflexivity].
  - exact (law_parse_wire (typed_metadata input) _ Hv).
  - done.
  - clear. destruct input as [identity [] frames]. reflexivity.
  - rewrite drop_app_length'; [|exact (length_wire (typed_metadata input))].
    by apply typed_body_read.
  - exact Hparse.
  - exact Hviews.
  - exact Hframes.
Qed.

Lemma typed_submit_round_trip_witness :
  exists request views, typed_payload (Htarget := target64) two_frames = Ok request /\
    map frame_of_view views = NnrpTypedPayloadSubmitInput.frames two_frames.
Proof.
  assert (typed_payload (Htarget := target64) two_frames = Ok (typed_request two_frames)) as He
    by (vm_compute; reflexivity).
  destruct (typed_submit_round_trip target64 two_frames _ two_frames_typed He)
    as (payload & dr & pr & region & views & _ & _ & _ & _ & _ & _ & _ & Hf).
  exact (ex_intro _ _ (ex_intro _ views (conj He Hf))).
Defined.

End NnrpSubmitRequest.
