(* ===== verification/SubmitTensor.v ===== *)
(** Reading a tensor submission back.

    [NnrpSubmitRequest.tensor] ([src/crates/nnrp-runtime/src/submit.rs]) packs a camera block, tile
    indices and tensor sections into the inline region of a body, or refers to cached
    ones.  This file gives the packed form its meaning by readers that walk the inline
    objects and the sections, and shows that they recover the input. *)

From S2P Require Import Prelude Bytes Errors Enums Wire Header Control Codes Cache Data Schema.
From S2P Require Import Regions Submit.

Local Open Scope Z_scope.

(** ** Alignment *)

(** The next multiple of eight. *)
Definition padded (n : nat) : nat := (n + 7) / 8 * 8.

Lemma padded_bounds n : (n <= padded n < n + 8)%nat.
Proof.
  unfold padded. pose proof (Nat.div_mod_eq (n + 7) 8).
  pose proof (Nat.mod_upper_bound (n + 7) 8). lia.
Qed.

Lemma padded_add k n : padded (k * 8 + n) = (k * 8 + padded n)%nat.
Proof.
  unfold padded. replace (k * 8 + n + 7)%nat with (n + 7 + k * 8)%nat by lia.
  rewrite Nat.div_add by lia. lia.
Qed.

Lemma clear_low_bits z : 0 <= z -> Z.land z (Z.lnot 7) = z / 8 * 8.
Proof.
  intros Hz. rewrite <- Z.ldiff_land. change 7 with (Z.ones 3).
  rewrite Z.ldiff_ones_r, Z.shiftl_mul_pow2, Z.shiftr_div_pow2 by lia. done.
Qed.

Lemma align_pads bs : align bs = bs ++ replicate (padded (length bs) - length bs) x00.
Proof.
  unfold align, resize. cbv zeta. unfold ALIGNMENT.
  change (8 - 1) with 7. rewrite clear_low_bits by (unfold len; lia).
  replace (Z.to_nat ((len bs + 8 - 1) / 8 * 8)) with (padded (length bs)).
  - rewrite take_ge by (pose proof (padded_bounds (length bs)); lia). done.
  - unfold padded, len. replace (Z.of_nat (length bs) + 8 - 1) with (Z.of_nat (length bs + 7)) by lia.
    rewrite <- (Nat2Z.inj_div _ 8). lia.
Qed.

Lemma length_align bs : length (align bs) = padded (length bs).
Proof.
  rewrite align_pads, length_app, length_replicate. pose proof (padded_bounds (length bs)). lia.
Qed.

(** Padding after an aligned prefix pads the rest on its own. *)
Lemma align_app a b k : length a = (k * 8)%nat -> align (a ++ b) = a ++ align b.
Proof.
  intros Ha. rewrite !align_pads, <- app_assoc, length_app, Ha, padded_add. do 3 f_equal. lia.
Qed.

(** ** Inline objects *)

(** The kinds and contents of the objects of an inline region.  Each object takes
    sixteen bytes or more, so the length of the region is fuel enough. *)
Fixpoint read_objects (fuel : nat) (region : bytes) : R (list (CacheObjectKind.t * bytes)) :=
  match region, fuel with
  | [], _ => Ok []
  | _, O => Panic
  | _, S fuel =>
      header ← InlineObjectBlockHeader.parse region;
      let size := (INLINE_OBJECT_BLOCK_HEADER_LEN
                   + Z.to_nat (InlineObjectBlockHeader.object_bytes header))%nat in
      payload ← slice region INLINE_OBJECT_BLOCK_HEADER_LEN size;
      rest ← read_objects fuel (drop (padded size) region);
      Ok ((InlineObjectBlockHeader.object_kind header, payload) :: rest)
  end.

(** The bytes of one object with its padding. *)
Definition object_wire (object : CacheObjectKind.t * bytes) : bytes :=
  align (wire (InlineObjectBlockHeader.mk object.1 0 0 (len object.2)) ++ object.2).

Lemma object_header_valid kind (payload : bytes) :
  len payload <= u32_max -> valid (InlineObjectBlockHeader.mk kind 0 0 (len payload)) = true.
Proof.
  intros Hl. pose proof (len_nonneg payload). unfold u32_max in Hl. apply andb_true_intro.
  split; [|done]. solve_fields. by destruct kind.
Qed.

Lemma length_object_wire object :
  length (object_wire object) = padded (INLINE_OBJECT_BLOCK_HEADER_LEN + length object.2).
Proof.
  unfold object_wire. rewrite length_align, length_app.
  by rewrite (length_wire (InlineObjectBlockHeader.mk _ _ _ _)).
Qed.

Lemma append_inline_object_Ok region kind payload region' k :
  length region = (k * 8)%nat ->
  append_inline_object region kind payload = Ok region' <->
  len payload <= u32_max /\ region' = region ++ object_wire (kind, payload).
Proof.
  intros Hk. unfold append_inline_object. split.
  - intros H. apply bind_Ok in H as (? & [-> Hl]%to_u32_Ok & H). cbv zeta in H.
    apply bind_Ok in H as (h & Hh & [= <-]). split; [done|].
    change (codec_to_bytes (InlineObjectBlockHeader.mk kind 0 0 (len payload)) = Ok h) in Hh.
    rewrite to_bytes_valid in Hh by (by apply object_header_valid). injection Hh as <-.
    by apply (align_app _ _ k).
  - intros [Hl ->]. eapply bind_step; [by apply to_u32_Ok|cbv beta zeta].
    eapply bind_step.
    + exact (to_bytes_valid (InlineObjectBlockHeader.mk kind 0 0 (len payload))
               (object_header_valid _ _ Hl)).
    + cbv beta. f_equal. by apply (align_app _ _ k).
Qed.

Lemma read_objects_wire objects fuel :
  Forall (fun o => len o.2 <= u32_max) objects ->
  (length (concat (map object_wire objects)) <= fuel)%nat ->
  read_objects fuel (concat (map object_wire objects)) = Ok objects.
Proof.
  intros Hall. revert fuel. induction Hall as [|[kind payload] objects Ho _ IH]; intros fuel Hf.
  { by destruct fuel. }
  cbn [map concat] in *. simpl in Ho. rewrite length_app, length_object_wire in Hf.
  pose proof (padded_bounds (INLINE_OBJECT_BLOCK_HEADER_LEN + length payload)) as Hpad.
  change INLINE_OBJECT_BLOCK_HEADER_LEN with 16%nat in Hf, Hpad. cbn [snd] in Hf.
  destruct fuel as [|fuel]; [lia|].
  set (rest := concat (map object_wire objects)) in *.
  set (header := InlineObjectBlockHeader.mk kind 0 0 (len payload)).
  assert (object_wire (kind, payload) ++ rest = wire header ++ payload ++
    (replicate (padded (16 + length payload) - (16 + length payload)) x00 ++ rest)) as Heq.
  { unfold object_wire. rewrite align_pads, length_app, (length_wire (InlineObjectBlockHeader.mk _ _ _ _)).
    simpl. rewrite <- !app_assoc. done. }
  assert (length (wire header) = 16)%nat as Hh by exact (length_wire header).
  destruct (object_wire (kind, payload) ++ rest) as [|b0 bs] eqn:Hbs.
  { apply (f_equal length) in Heq. rewrite length_app, Hh in Heq. simpl in Heq. lia. }
  cbn [read_objects]. rewrite Heq.
  eapply bind_step; [exact (law_parse_wire header _ (object_header_valid _ _ Ho))|cbv beta zeta].
  cbn [header InlineObjectBlockHeader.object_bytes InlineObjectBlockHeader.object_kind].
  unfold len. rewrite Nat2Z.id. change INLINE_OBJECT_BLOCK_HEADER_LEN with 16%nat.
  eapply bind_step; [by apply slice_region|cbv beta].
  replace (drop _ _) with rest; [by rewrite IH by lia|].
  rewrite <- Heq, <- Hbs, drop_app_length'; [done|]. by rewrite length_object_wire.
Qed.

(** ** Tensor sections *)

(** What a section says: its descriptor fields, and the codec and the payload of each tile. *)
Record SectionView := {
  view_role_id : Z;
  view_dtype_id : Z;
  view_layout_id : Z;
  view_scale_policy : Z;
  view_element_count_per_tile : Z;
  view_codecs : bytes;
  view_tiles : list bytes
}.

Definition view_of_section (tile_count : nat) (s : NnrpTensorSection.t) : SectionView := {|
  view_role_id := NnrpTensorSection.role_id s;
  view_dtype_id := NnrpTensorSection.dtype_id s;
  view_layout_id := NnrpTensorSection.layout_id s;
  view_scale_policy := NnrpTensorSection.scale_policy s;
  view_element_count_per_tile := NnrpTensorSection.element_count_per_tile s;
  view_codecs :=
    if decide (NnrpTensorSection.codec_ids s = [])
    then replicate tile_count (byte_of_Z (NnrpTensorSection.default_codec_id s))
    else NnrpTensorSection.codec_ids s;
  view_tiles := NnrpTensorSection.tile_payloads s |}.

(** The payloads of the tiles: one after the other, or at a fixed distance. *)
Fixpoint cut_tiles (stride : nat) (lengths : list Z) (payload : bytes) : list bytes :=
  match lengths with
  | [] => []
  | n :: lengths =>
      let n := Z.to_nat n in
      take n payload :: cut_tiles stride lengths
        (drop (if (stride =? 0)%nat then n else stride) payload)
  end.

Definition read_section (tile_count : nat) (source : bytes) : R (SectionView * nat) :=
  d ← TensorSectionDescriptor.parse source;
  let a := TENSOR_SECTION_DESCRIPTOR_LEN in
  let b := (a + Z.to_nat (TensorSectionDescriptor.codec_table_bytes d))%nat in
  let c := (b + Z.to_nat (TensorSectionDescriptor.length_table_bytes d))%nat in
  let e := (c + Z.to_nat (TensorSectionDescriptor.payload_bytes d))%nat in
  codec_table ← slice source a b;
  length_table ← slice source b c;
  payload ← slice source c e;
  Ok ({| view_role_id := TensorSectionDescriptor.role_id d;
         view_dtype_id := TensorSectionDescriptor.dtype_id d;
         view_layout_id := TensorSectionDescriptor.layout_id d;
         view_scale_policy := TensorSectionDescriptor.scale_policy d;
         view_element_count_per_tile := TensorSectionDescriptor.element_count_per_tile d;
         view_codecs :=
           if Z.land (TensorSectionDescriptor.section_flags d) TensorSectionDescriptor.MIXED_CODEC =? 0
           then replicate tile_count (byte_of_Z (TensorSectionDescriptor.codec_id d))
           else codec_table;
         view_tiles :=
           cut_tiles (Z.to_nat (TensorSectionDescriptor.payload_stride_bytes d))
             (map le_value (chunks_exact 4 length_table)) payload |}, e).

(** The sections of a table; each takes thirty-two bytes or more. *)
Fixpoint read_sections (fuel tile_count : nat) (source : bytes) : R (list SectionView) :=
  match source, fuel with
  | [], _ => Ok []
  | _, O => Panic
  | _, S fuel =>
      '(view, size) ← read_section tile_count source;
      rest ← read_sections fuel tile_count (drop (padded size) source);
      Ok (view :: rest)
  end.

Definition section_typed (s : NnrpTensorSection.t) : Prop :=
  0 <= NnrpTensorSection.role_id s <= u16_max /\
  0 <= NnrpTensorSection.default_codec_id s <= u8_max /\
  0 <= NnrpTensorSection.dtype_id s <= u8_max /\
  0 <= NnrpTensorSection.layout_id s <= u8_max /\
  0 <= NnrpTensorSection.scale_policy s <= u8_max /\
  0 <= NnrpTensorSection.element_count_per_tile s <= u32_max /\
  0 <= NnrpTensorSection.payload_stride_bytes s <= u32_max.

(** A tile with its padding up to the stride. *)
Definition tile_wire (stride : Z) (tile : bytes) : bytes :=
  if stride =? 0 then tile else resize tile (Z.to_nat stride).

Definition tile_lengths (tiles : list bytes) : bytes := concat (map (fun t => le_bytes 4 (len t)) tiles).

Definition tiles_fit (stride : Z) (tiles : list bytes) : Prop :=
  Forall (fun t => len t <= u32_max /\ (stride <> 0 -> len t <= stride)) tiles.

Lemma resize_app (a b : bytes) n :
  (length b <= n)%nat -> resize (a ++ b) (length (a ++ b) + n - length b) = a ++ resize b n.
Proof.
  intros Hb. unfold resize. rewrite length_app.
  rewrite !take_ge by (rewrite ?length_app; lia). rewrite <- app_assoc. do 3 f_equal. lia.
Qed.

Lemma tile_loop_Ok stride tiles lt p result :
  0 <= stride ->
  try_fold (tile_step stride) (lt, p) tiles = Ok result <->
  tiles_fit stride tiles /\
  result = (lt ++ tile_lengths tiles, p ++ concat (map (tile_wire stride) tiles)).
Proof.
  intros Hs. revert lt p. induction tiles as [|tile tiles IH]; intros lt p.
  { cbn. rewrite !app_nil_r. unfold tiles_fit. naive_solver. }
  unfold tiles_fit. rewrite Forall_cons. cbn [try_fold tile_step tile_lengths map concat].
  rewrite !app_assoc. fold (tile_lengths tiles). unfold tile_wire at 1.
  destruct (Z.leb_spec (len tile) u32_max) as [Hle|Hgt].
  2: { rewrite (bind_error _ _ MessageLengthOverflow); [|rewrite (bind_error _ _ MessageLengthOverflow); [done|]].
       - split; [done|]. intros ([[? _] _] & _). lia.
       - unfold to_u32. by rewrite (proj2 (Z.leb_gt _ _)). }
  rewrite (proj2 (to_u32_Ok (len tile) (len tile))) by done. cbn [mbind outcome_bind].
  destruct (Z.eqb_spec stride 0) as [->|Hne]; cbn [mbind outcome_bind].
  { rewrite IH. naive_solver. }
  destruct (Z.ltb_spec stride (len tile)) as [Hlt|Hge]; cbn [reject_if mbind outcome_bind].
  { split; [done|]. intros ([[_ H] _] & _). specialize (H Hne). lia. }
  rewrite IH, resize_app by (unfold len in Hge; lia). naive_solver.
Qed.

Lemma read_lengths tiles :
  Forall (fun t => len t <= u32_max) tiles ->
  map le_value (chunks_exact 4 (tile_lengths tiles)) = map len tiles.
Proof.
  intros Ht. unfold tile_lengths, chunks_exact. rewrite <- (map_map len (le_bytes 4)).
  assert (Forall (fun b : bytes => length b = 4%nat) (map (le_bytes 4) (map len tiles))) as Hl
    by (apply Forall_map, Forall_true; intros; apply length_le_bytes).
  rewrite chunks_concat; [|lia|done|rewrite (concat_length_const 4) by done; lia].
  induction Ht as [|t tiles Ht _ IH]; simpl; [done|]. rewrite le_value_bytes, IH; [|by inversion Hl].
  f_equal. apply Z.mod_small. change (modulus 4) with 4294967296. unfold u32_max, len in *. lia.
Qed.

Lemma tile_wire_split stride tile rest :
  0 <= stride -> (stride <> 0 -> len tile <= stride) ->
  take (length tile) (tile_wire stride tile ++ rest) = tile /\
  drop (if (Z.to_nat stride =? 0)%nat then length tile else Z.to_nat stride)
    (tile_wire stride tile ++ rest) = rest.
Proof.
  intros Hs Hfit. unfold tile_wire, len in *. destruct (Z.eqb_spec stride 0) as [->|Hne]; simpl.
  { by rewrite take_app_length, drop_app_length. }
  specialize (Hfit Hne). rewrite (proj2 (Nat.eqb_neq _ _)) by lia. unfold resize.
  rewrite (take_ge tile) by lia. split.
  - by rewrite <- app_assoc, take_app_length.
  - apply drop_app_length'. rewrite length_app, length_replicate. lia.
Qed.

Lemma cut_tiles_wire stride tiles :
  0 <= stride -> tiles_fit stride tiles ->
  cut_tiles (Z.to_nat stride) (map len tiles) (concat (map (tile_wire stride) tiles)) = tiles.
Proof.
  intros Hs Hf. induction Hf as [|tile tiles [_ Hfit] _ IH]; cbn [cut_tiles map concat]; [done|].
  destruct (tile_wire_split stride tile (concat (map (tile_wire stride) tiles)) Hs Hfit) as [Ht Hd].
  unfold len at 1 3. rewrite Nat2Z.id. by rewrite Ht, Hd, IH.
Qed.

(** The codec table of a section that is not mixed says nothing new. *)
Lemma uniform_codecs s tile_count :
  0 <= NnrpTensorSection.default_codec_id s <= u8_max ->
  NnrpTensorSection.codec_ids s = [] \/ length (NnrpTensorSection.codec_ids s) = tile_count ->
  mixed_codec s = false ->
  view_codecs (view_of_section tile_count s) =
  replicate tile_count (byte_of_Z (NnrpTensorSection.default_codec_id s)).
Proof.
  intros Hd Hl Hm. simpl. case_decide as He; [done|]. destruct Hl as [?|Hl]; [done|].
  unfold mixed_codec in Hm. rewrite (bool_decide_eq_false_2 _ He) in Hm. simpl in Hm. subst tile_count.
  clear He. induction (NnrpTensorSection.codec_ids s) as [|c cs IH]; simpl in *; [done|].
  apply orb_false_iff in Hm as [Hc Hm]. apply negb_false_iff, Z.eqb_eq in Hc.
  f_equal; [by rewrite <- Hc, byte_of_Z_of_byte|by apply IH].
Qed.

(** The parts of an encoded section. *)
Definition codec_table (s : NnrpTensorSection.t) : bytes :=
  if mixed_codec s then NnrpTensorSection.codec_ids s else [].
Definition section_payload (s : NnrpTensorSection.t) : bytes :=
  concat (map (tile_wire (NnrpTensorSection.payload_stride_bytes s)) (NnrpTensorSection.tile_payloads s)).
Definition section_descriptor (s : NnrpTensorSection.t) : TensorSectionDescriptor.t :=
  TensorSectionDescriptor.mk (NnrpTensorSection.role_id s) (NnrpTensorSection.default_codec_id s)
    (NnrpTensorSection.dtype_id s) (NnrpTensorSection.layout_id s)
    (NnrpTensorSection.scale_policy s)
    (Z.lor (if mixed_codec s then TensorSectionDescriptor.MIXED_CODEC else 0)
       (if negb (NnrpTensorSection.payload_stride_bytes s =? 0)
        then TensorSectionDescriptor.FIXED_STRIDE else 0))
    (NnrpTensorSection.element_count_per_tile s) (len (codec_table s))
    (len (tile_lengths (NnrpTensorSection.tile_payloads s))) (len (section_payload s))
    (NnrpTensorSection.payload_stride_bytes s).
Definition section_wire (s : NnrpTensorSection.t) : bytes :=
  wire (section_descriptor s) ++ codec_table s ++
  tile_lengths (NnrpTensorSection.tile_payloads s) ++ section_payload s.

Definition section_ok (tile_count : nat) (s : NnrpTensorSection.t) : Prop :=
  length (NnrpTensorSection.tile_payloads s) = tile_count /\
  (NnrpTensorSection.codec_ids s = [] \/ length (NnrpTensorSection.codec_ids s) = tile_count) /\
  tiles_fit (NnrpTensorSection.payload_stride_bytes s) (NnrpTensorSection.tile_payloads s) /\
  len (section_payload s) <= u32_max.

Lemma length_tile_lengths tiles : length (tile_lengths tiles) = (length tiles * 4)%nat.
Proof.
  unfold tile_lengths. rewrite (concat_length_const 4), length_map; [done|].
  apply Forall_map, Forall_true. intros t. apply length_le_bytes.
Qed.

Lemma section_descriptor_valid tile_count s :
  section_typed s -> section_ok tile_count s -> Z.of_nat tile_count <= u16_max ->
  valid (section_descriptor s) = true.
Proof.
  intros (? & ? & ? & ? & ? & ? & ?) (Ht & Hc & _ & Hp) Hn.
  pose proof (length_tile_lengths (NnrpTensorSection.tile_payloads s)) as Hlt.
  assert (length (codec_table s) <= tile_count)%nat as Hct.
  { unfold codec_table. destruct (mixed_codec s); simpl; [|lia]. destruct Hc as [-> | ->]; simpl; lia. }
  unfold u8_max, u16_max, u32_max, len in *.
  apply andb_true_intro. split.
  - solve_fields; unfold len; try lia.
    by destruct (mixed_codec s), (NnrpTensorSection.payload_stride_bytes s =? 0).
  - simpl. unfold TensorSectionDescriptor.guard, TensorSectionDescriptor.validate. simpl.
    assert ((len (codec_table s) =? 0) = negb (mixed_codec s)) as ->.
    { unfold codec_table. destruct (mixed_codec s) eqn:Hm; [|done]. unfold mixed_codec in Hm.
      by destruct (NnrpTensorSection.codec_ids s). }
    assert (len (tile_lengths (NnrpTensorSection.tile_payloads s)) mod 4 = 0) as ->.
    { unfold len. rewrite Hlt, Nat2Z.inj_mul. apply Z.mod_mul. lia. }
    by destruct (mixed_codec s), (NnrpTensorSection.payload_stride_bytes s =? 0).
Qed.

Lemma encode_tensor_section_Ok tile_count s bs :
  section_typed s -> Z.of_nat tile_count <= u16_max ->
  encode_tensor_section (Z.of_nat tile_count) s = Ok bs <->
  section_ok tile_count s /\ bs = section_wire s.
Proof.
  intros Ht Hn. unfold encode_tensor_section, section_ok. cbv zeta.
  fold (codec_table s). rewrite !then_unit_Ok, !reject_if_Ok, negb_false_iff, Z.eqb_eq.
  assert (0 <= NnrpTensorSection.payload_stride_bytes s) as Hs by apply Ht.
  unfold len at 1. rewrite Nat2Z.inj_iff.
  assert (negb (bool_decide (NnrpTensorSection.codec_ids s = []))
    && negb (len (NnrpTensorSection.codec_ids s) =? Z.of_nat tile_count) = false <->
    NnrpTensorSection.codec_ids s = [] \/ length (NnrpTensorSection.codec_ids s) = tile_count) as ->.
  { rewrite andb_false_iff, !negb_false_iff, bool_decide_eq_true, Z.eqb_eq.
    unfold len. by rewrite Nat2Z.inj_iff. }
  split.
  - intros (Htc & Hcc & Hr). apply bind_Ok in Hr as ([lt p] & [Hfit [= -> ->]]%tile_loop_Ok & Hr); [|done].
    cbn [app] in Hr. apply bind_Ok in Hr as (? & [-> _]%to_u32_Ok & Hr).
    apply bind_Ok in Hr as (? & [-> _]%to_u32_Ok & Hr).
    apply bind_Ok in Hr as (? & [-> Hp]%to_u32_Ok & Hr).
    fold (section_payload s) in *. fold (section_descriptor s) in Hr.
    assert (section_ok tile_count s) as Hok by done. split; [done|].
    apply bind_Ok in Hr as (d & Hd & [= <-]).
    change (codec_to_bytes (section_descriptor s) = Ok d) in Hd.
    rewrite to_bytes_valid in Hd by (by eapply section_descriptor_valid). by injection Hd as <-.
  - intros [(Htc & Hcc & Hfit & Hp) ->]. split_and!; [done..|].
    assert (valid (section_descriptor s) = true) as Hv
      by (by eapply section_descriptor_valid).
    pose proof (length_tile_lengths (NnrpTensorSection.tile_payloads s)) as Hlt.
    eapply bind_step; [by apply tile_loop_Ok|cbv beta iota]. cbn [app]. fold (section_payload s).
    eapply bind_step; [apply to_u32_Ok; split; [done|]|cbv beta].
    { unfold codec_table, len, u16_max, u32_max in *. destruct (mixed_codec s); simpl; [|lia].
      destruct Hcc as [-> | ->]; simpl; lia. }
    eapply bind_step; [apply to_u32_Ok; split; [done|]|cbv beta].
    { unfold len, u16_max, u32_max in *. lia. }
    eapply bind_step; [by apply to_u32_Ok|cbv beta]. fold (section_descriptor s).
    eapply bind_step; [exact (to_bytes_valid (section_descriptor s) Hv)|done].
Qed.

(** An encoded section is read back, whatever follows it. *)
Lemma read_section_wire tile_count s rest :
  section_typed s -> Z.of_nat tile_count <= u16_max -> section_ok tile_count s ->
  read_section tile_count (section_wire s ++ rest) =
  Ok (view_of_section tile_count s, length (section_wire s)).
Proof.
  intros Ht Hn Hok. pose proof Hok as (Htc & Hcc & Hfit & Hp).
  assert (0 <= NnrpTensorSection.payload_stride_bytes s) as Hs by apply Ht.
  unfold read_section, section_wire. rewrite <- !app_assoc.
  assert (length (wire (section_descriptor s)) = 32%nat) as Hw by exact (length_wire (section_descriptor s)).
  eapply bind_step;
    [exact (law_parse_wire _ _ (section_descriptor_valid tile_count s Ht Hok Hn))|cbv beta zeta].
  set (w := wire (section_descriptor s)) in *.
  cbn [section_descriptor TensorSectionDescriptor.codec_table_bytes TensorSectionDescriptor.length_table_bytes
    TensorSectionDescriptor.payload_bytes]. unfold len. rewrite !Nat2Z.id.
  change TENSOR_SECTION_DESCRIPTOR_LEN with 32%nat.
  eapply bind_step; [by apply slice_region|cbv beta].
  eapply bind_step; [rewrite app_assoc; apply slice_region; rewrite ?length_app; lia|cbv beta].
  eapply bind_step; [rewrite app_assoc, (app_assoc (w ++ _)); apply slice_region;
    rewrite ?length_app; lia|cbv beta].
  f_equal. f_equal; [|rewrite !length_app; lia].
  cbn [section_descriptor TensorSectionDescriptor.section_flags
    TensorSectionDescriptor.payload_stride_bytes TensorSectionDescriptor.codec_id].
  rewrite read_lengths, cut_tiles_wire;
    [|done|done|by eapply Forall_impl; [exact Hfit|]; intros t [? _]].
  unfold view_of_section. f_equal.
  replace (Z.land _ TensorSectionDescriptor.MIXED_CODEC =? 0) with (negb (mixed_codec s))
    by (by destruct (mixed_codec s), (NnrpTensorSection.payload_stride_bytes s =? 0)).
  destruct (mixed_codec s) eqn:Hm; cbn [negb].
  - unfold codec_table. rewrite Hm. rewrite decide_False; [done|]. intros He.
    unfold mixed_codec in Hm. by rewrite He in Hm.
  - symmetry. apply (uniform_codecs s tile_count); [apply Ht|done|done].
Qed.

(** Sections one after the other, each padded before the next. *)
Fixpoint pack (ss : list bytes) : bytes :=
  match ss with
  | [] => []
  | [s] => s
  | s :: ss => align s ++ pack ss
  end.

Lemma pack_loop ss a x k :
  length a = (k * 8)%nat ->
  fold_left (fun region section => align region ++ section) ss (a ++ x) = a ++ pack (x :: ss).
Proof.
  revert a x k. induction ss as [|s ss IH]; intros a x k Ha; [done|].
  cbn [fold_left]. rewrite (align_app a x k Ha). rewrite (IH _ _ (k + padded (length x) / 8)%nat).
  - by rewrite <- app_assoc.
  - rewrite length_app, length_align, Ha. unfold padded. rewrite Nat.div_mul by lia. lia.
Qed.

Lemma section_region_pack ss : NnrpSubmitRequest.section_region ss = pack ss.
Proof.
  unfold NnrpSubmitRequest.section_region. destruct ss as [|s ss]; [done|].
  cbn [fold_left]. change (align []) with (@nil byte). by apply (pack_loop ss [] s 0).
Qed.

Lemma read_sections_pack tile_count sections fuel :
  Forall section_typed sections -> Z.of_nat tile_count <= u16_max ->
  Forall (section_ok tile_count) sections ->
  (length (pack (map section_wire sections)) <= fuel)%nat ->
  read_sections fuel tile_count (pack (map section_wire sections)) =
  Ok (map (view_of_section tile_count) sections).
Proof.
  intros Ht Hn Hok. revert fuel. induction Ht as [|s sections Ht Hts IH]; intros fuel Hf.
  { by destruct fuel. }
  apply Forall_cons in Hok as [Hs Hoks]. specialize (IH Hoks).
  set (tail := match sections with
               | [] => []
               | _ => replicate (padded (length (section_wire s)) - length (section_wire s)) x00
                      ++ pack (map section_wire sections)
               end).
  assert (pack (map section_wire (s :: sections)) = section_wire s ++ tail) as Heq.
  { unfold tail. destruct sections as [|s' sections]; [symmetry; apply app_nil_r|].
    change (pack (map section_wire (s :: s' :: sections)))
      with (align (section_wire s) ++ pack (map section_wire (s' :: sections))).
    by rewrite align_pads, <- app_assoc. }
  assert (drop (padded (length (section_wire s))) (section_wire s ++ tail) =
          pack (map section_wire sections)) as Hdrop.
  { pose proof (padded_bounds (length (section_wire s))). unfold tail.
    destruct sections as [|s' sections]; [apply drop_ge; rewrite app_nil_r; lia|].
    rewrite app_assoc. apply drop_app_length'. rewrite length_app, length_replicate. lia. }
  assert (32 <= length (section_wire s))%nat as Hw.
  { unfold section_wire. rewrite length_app, (length_wire (section_descriptor s)).
    change (codec_len (A := TensorSectionDescriptor.t)) with 32%nat. lia. }
  rewrite Heq in Hf |- *. rewrite length_app in Hf.
  pose proof (f_equal length Hdrop) as Hdl. rewrite length_drop, length_app in Hdl.
  destruct fuel as [|fuel]; [lia|].
  destruct (section_wire s ++ tail) as [|b0 bs] eqn:Hbs.
  { apply (f_equal length) in Hbs. rewrite length_app in Hbs. simpl in Hbs. lia. }
  cbn [read_sections map]. rewrite <- Hbs.
  eapply bind_step; [by apply read_section_wire|cbv beta iota].
  rewrite Hbs, Hdrop, IH; [done|]. pose proof (padded_bounds (length (section_wire s))). lia.
Qed.

Lemma encode_sections_Ok previous tile_count sections ss :
  Forall section_typed sections -> Z.of_nat tile_count <= u16_max ->
  encode_sections_from previous (Z.of_nat tile_count) sections = Ok ss ->
  Forall (section_ok tile_count) sections /\ ss = map section_wire sections /\
  Sorted Z.lt (map NnrpTensorSection.role_id sections) /\
  match previous with
  | Some role => HdRel Z.lt role (map NnrpTensorSection.role_id sections)
  | None => True
  end.
Proof.
  intros Ht Hn. revert previous ss. induction Ht as [|s sections Ht _ IH]; intros previous ss.
  { intros [= <-]. split_and!; [done|done|constructor|by destruct previous]. }
  cbn [encode_sections_from]. intros [Hr H]%then_unit_Ok.
  apply bind_Ok in H as (bs & [Hok ->]%encode_tensor_section_Ok & H); [|done..].
  apply bind_Ok in H as (rest & (Hoks & -> & Hsort & Hhd)%IH & [= <-]).
  split_and!; [by constructor|done|by constructor|]. destruct previous as [role|]; [|done].
  apply reject_if_Ok, Z.leb_gt in Hr. by constructor.
Qed.

(** ** The whole request *)

Module TensorSubmit.
Import NnrpSubmitRequest.

Definition tensor_typed (input : NnrpTensorSubmitInput.t) : Prop :=
  identity_typed (NnrpTensorSubmitInput.identity input) /\
  policy_typed (NnrpTensorSubmitInput.policy input) /\
  0 <= NnrpTensorSubmitInput.src_width input <= u16_max /\
  0 <= NnrpTensorSubmitInput.src_height input <= u16_max /\
  0 <= NnrpTensorSubmitInput.tile_width input <= u16_max /\
  0 <= NnrpTensorSubmitInput.tile_height input <= u16_max /\
  TileIndex.u16_ids (NnrpTensorSubmitInput.tile_ids input) /\
  Forall section_typed (NnrpTensorSubmitInput.sections input) /\
  0 <= NnrpTensorSubmitInput.tile_base_id input <= u32_max /\
  forall block,
    NnrpSubmitObjectReferences.camera (NnrpTensorSubmitInput.references input) = Some block \/
    NnrpSubmitObjectReferences.tile_index (NnrpTensorSubmitInput.references input) = Some block \/
    NnrpSubmitObjectReferences.tensor_section_table (NnrpTensorSubmitInput.references input) = Some block ->
    typed block = true.

(** The references that are present, in the order of their slots. *)
Definition present (refs : NnrpSubmitObjectReferences.t) : list ObjectReferenceBlock.t :=
  omap (fun o => o)
    [ NnrpSubmitObjectReferences.camera refs; NnrpSubmitObjectReferences.tile_index refs;
      NnrpSubmitObjectReferences.tensor_section_table refs ].

Lemma standard_references_Ok refs blocks :
  standard_references refs = Ok blocks -> blocks = present refs /\ 0 <= reference_mask blocks < 16.
Proof.
  unfold standard_references, present. cbv zeta.
  destruct refs as [[c|] [t|] [s|]]; cbn [NnrpSubmitObjectReferences.camera
    NnrpSubmitObjectReferences.tile_index NnrpSubmitObjectReferences.tensor_section_table
    try_fold reference_step omap list_omap mbind outcome_bind app];
    repeat case_bool_decide; cbn [negb reject_if mbind outcome_bind app]; try (by intros [=]);
    intros [= <-]; (split; [done|]); unfold reference_mask; cbn [fold_left];
    repeat match goal with H : ObjectReferenceBlock.object_kind _ = _ |- _ => rewrite H; clear H end;
    vm_compute; split; congruence.
Qed.

(** The objects that [append_if] leaves in the region. *)
Definition objects_if (cond : bool) (kind : CacheObjectKind.t) (payload : bytes)
    : list (CacheObjectKind.t * bytes) :=
  if cond then [(kind, payload)] else [].

Lemma objects_aligned objects :
  exists k, length (concat (map object_wire objects)) = (k * 8)%nat.
Proof.
  induction objects as [|o objects [k IH]]; [by exists 0%nat|].
  cbn [map concat]. rewrite length_app, length_object_wire, IH. unfold padded.
  eexists (_ + k)%nat. by rewrite Nat.mul_add_distr_r.
Qed.

Definition fits (objects : list (CacheObjectKind.t * bytes)) : Prop :=
  Forall (fun o => len o.2 <= u32_max) objects.

Lemma append_if_Ok cond objects kind payload region :
  fits objects ->
  append_if cond (concat (map object_wire objects)) kind payload = Ok region ->
  let objects' := objects ++ objects_if cond kind payload in
  fits objects' /\ region = concat (map object_wire objects').
Proof.
  intros Hf. unfold append_if, objects_if, fits. destruct cond; cbv zeta.
  - destruct (objects_aligned objects) as [k Hk].
    intros [Hl ->]%(append_inline_object_Ok _ _ _ _ k Hk). split.
    + apply Forall_app. split; [done|]. by repeat constructor.
    + rewrite map_app, concat_app. cbn [map concat]. by rewrite app_nil_r.
  - intros [= <-]. by rewrite app_nil_r.
Qed.

Definition camera_inline (input : NnrpTensorSubmitInput.t) : bool :=
  negb (is_some (NnrpSubmitObjectReferences.camera (NnrpTensorSubmitInput.references input)))
  && negb (bool_decide (NnrpTensorSubmitInput.camera_block input = [])).
Definition tiles_inline (input : NnrpTensorSubmitInput.t) : bool :=
  negb (is_some (NnrpSubmitObjectReferences.tile_index (NnrpTensorSubmitInput.references input)))
  && negb (bool_decide (NnrpTensorSubmitInput.tile_ids input = [])).
Definition sections_inline (input : NnrpTensorSubmitInput.t) : bool :=
  negb (is_some (NnrpSubmitObjectReferences.tensor_section_table
                   (NnrpTensorSubmitInput.references input)))
  && negb (bool_decide (NnrpTensorSubmitInput.sections input = [])).

(** The inline objects of an accepted input. *)
Definition inline_objects (input : NnrpTensorSubmitInput.t) (tile_index sections : bytes)
    : list (CacheObjectKind.t * bytes) :=
  objects_if (camera_inline input) CacheObjectKind.CameraBlock (NnrpTensorSubmitInput.camera_block input)
  ++ objects_if (tiles_inline input) CacheObjectKind.TileIndexBlock tile_index
  ++ objects_if (sections_inline input) CacheObjectKind.TensorSectionTable sections.

Lemma present_typed input :
  tensor_typed input ->
  Forall (fun b => typed b = true) (present (NnrpTensorSubmitInput.references input)).
Proof.
  intros (_ & _ & _ & _ & _ & _ & _ & _ & _ & Hr). unfold present.
  destruct (NnrpTensorSubmitInput.references input) as [[c|] [t|] [s|]]; simpl in *;
    repeat constructor; apply Hr; auto.
Qed.

Lemma optional_len (referenced : bool) (bs : bytes) n :
  (if referenced then Ok 0 else to_u32 (len bs)) = Ok n -> 0 <= n <= u32_max.
Proof.
  pose proof (len_nonneg bs).
  destruct referenced; [intros [= <-]; unfold u32_max; lia|intros [-> ?]%to_u32_Ok; lia].
Qed.

Lemma inline_objects_eq input tile_index :
  (([] ++ objects_if (camera_inline input) CacheObjectKind.CameraBlock
            (NnrpTensorSubmitInput.camera_block input))
   ++ objects_if (tiles_inline input) CacheObjectKind.TileIndexBlock tile_index)
  ++ objects_if
       (negb (is_some (NnrpSubmitObjectReferences.tensor_section_table
                         (NnrpTensorSubmitInput.references input)))
        && negb (bool_decide (map section_wire (NnrpTensorSubmitInput.sections input) = [])))
       CacheObjectKind.TensorSectionTable
       (section_region (map section_wire (NnrpTensorSubmitInput.sections input))) =
  inline_objects input tile_index (pack (map section_wire (NnrpTensorSubmitInput.sections input))).
Proof.
  unfold inline_objects, sections_inline. rewrite section_region_pack, <- app_assoc.
  do 2 f_equal. by destruct (NnrpTensorSubmitInput.sections input).
Qed.

(** The metadata tells a receiver everything about the input that is not in the body: the sizes of
    the source and of a tile, the profile, the policy and the operation as they are; how the tile ids
    are to be decoded; how many tiles and sections there are and how long the camera block and
    the tile index are that it finds inline; whether it finds objects inline, as references, or both;
    and that the frames are tensors. *)
Definition describes (m : FrameSubmitMetadata.t) (input : NnrpTensorSubmitInput.t) (tile_index : bytes) : Prop :=
  let refs := NnrpTensorSubmitInput.references input in
  FrameSubmitMetadata.src_width m = NnrpTensorSubmitInput.src_width input /\
  FrameSubmitMetadata.src_height m = NnrpTensorSubmitInput.src_height input /\
  FrameSubmitMetadata.tile_width m = NnrpTensorSubmitInput.tile_width input /\
  FrameSubmitMetadata.tile_height m = NnrpTensorSubmitInput.tile_height input /\
  FrameSubmitMetadata.tile_count m = len (NnrpTensorSubmitInput.tile_ids input) /\
  FrameSubmitMetadata.section_count m = len (NnrpTensorSubmitInput.sections input) /\
  FrameSubmitMetadata.input_profile m = NnrpTensorSubmitInput.input_profile input /\
  FrameSubmitMetadata.tile_index_mode m = NnrpTensorSubmitInput.tile_index_mode input /\
  FrameSubmitMetadata.tile_base_id m = NnrpTensorSubmitInput.tile_base_id input /\
  FrameSubmitMetadata.camera_bytes m =
    match NnrpSubmitObjectReferences.camera refs with
    | Some _ => 0
    | None => len (NnrpTensorSubmitInput.camera_block input)
    end /\
  FrameSubmitMetadata.tile_index_bytes m =
    match NnrpSubmitObjectReferences.tile_index refs with Some _ => 0 | None => len tile_index end /\
  FrameSubmitMetadata.operation_id m =
    NnrpSubmitIdentity.operation_id (NnrpTensorSubmitInput.identity input) /\
  FrameSubmitMetadata.submit_mode m =
    match inline_objects input [] [], present refs with
    | [], _ :: _ => SubmitMode.Reference
    | _ :: _, _ :: _ => SubmitMode.Mixed
    | _, [] => SubmitMode.Inline
    end /\
  FrameSubmitMetadata.payload_kind_bitmap m = PayloadKindBitmap.TENSOR /\
  FrameSubmitMetadata.payload_frame_count m = 0 /\
  policy_of m = NnrpTensorSubmitInput.policy input.

Lemma optional_len_eq {A} (reference : option A) (bs : bytes) n :
  (if is_some reference then Ok 0 else to_u32 (len bs)) = Ok n ->
  n = match reference with Some _ => 0 | None => len bs end.
Proof. destruct reference; cbn; [by intros [= <-]|by intros [-> _]%to_u32_Ok]. Qed.

(** The mode that is computed from the input is the one of the objects that are appended. *)
Lemma tensor_submit_mode_eq input :
  tensor_submit_mode
    ((negb (bool_decide (NnrpTensorSubmitInput.camera_block input = []))
      && negb (is_some (NnrpSubmitObjectReferences.camera (NnrpTensorSubmitInput.references input))))
     || (negb (bool_decide (NnrpTensorSubmitInput.tile_ids input = []))
         && negb (is_some (NnrpSubmitObjectReferences.tile_index (NnrpTensorSubmitInput.references input))))
     || (negb (len (NnrpTensorSubmitInput.sections input) =? 0)
         && negb (is_some (NnrpSubmitObjectReferences.tensor_section_table (NnrpTensorSubmitInput.references input)))))
    (negb (len (present (NnrpTensorSubmitInput.references input)) =? 0)) =
  match inline_objects input [] [], present (NnrpTensorSubmitInput.references input) with
  | [], _ :: _ => SubmitMode.Reference
  | _ :: _, _ :: _ => SubmitMode.Mixed
  | _, [] => SubmitMode.Inline
  end.
Proof.
  assert ((len (NnrpTensorSubmitInput.sections input) =? 0) = bool_decide (NnrpTensorSubmitInput.sections input = [])) as ->.
  { destruct (NnrpTensorSubmitInput.sections input); [done|]. rewrite bool_decide_eq_false_2 by done.
    apply Z.eqb_neq. unfold len. cbn [length]. lia. }
  unfold inline_objects, camera_inline, tiles_inline, sections_inline, present, objects_if.
  destruct (NnrpTensorSubmitInput.references input) as [[] [] []]; cbn;
    repeat case_bool_decide; reflexivity.
Qed.

(** What a successful call has computed on its way. *)
Lemma tensor_Ok input request :
  tensor_typed input -> tensor input = Ok request ->
  let refs := present (NnrpTensorSubmitInput.references input) in
  exists tile_index m,
    len (NnrpTensorSubmitInput.tile_ids input) <= u16_max /\
    encode_tile_indices (NnrpTensorSubmitInput.tile_ids input)
      (NnrpTensorSubmitInput.tile_index_mode input)
      (NnrpTensorSubmitInput.tile_base_id input) = Ok tile_index /\
    Forall (section_ok (length (NnrpTensorSubmitInput.tile_ids input)))
      (NnrpTensorSubmitInput.sections input) /\
    let objects := inline_objects input tile_index
      (pack (map section_wire (NnrpTensorSubmitInput.sections input))) in
    fits objects /\
    ObjectReferenceRegion.validate_submit_mask (ObjectReferenceRegion.from_blocks refs)
      (FrameSubmitMetadata.submit_mode m) (FrameSubmitMetadata.object_ref_mask m) = Ok tt /\
    Forall (fun b => valid b = true) refs /\
    encode_body (concat (map object_wire objects)) (wires refs) [] [] = Ok (body request) /\
    describes m input tile_index /\
    request = new (NnrpTensorSubmitInput.identity input) m (body request) /\ valid m = true.
Proof.
  intros Ht Hr. pose proof Ht as (Hid & (? & ? & ? & ? & ? & ?) & ? & ? & ? & ? & Hids & Hss & ? & _).
  unfold tensor in Hr. cbv zeta in Hr. apply identity_checks in Hr as [_ Hr].
  apply then_unit_Ok in Hr as [[Htl%Z.ltb_ge Hsl%Z.ltb_ge]%reject_if_Ok%orb_false_iff Hr].
  apply bind_Ok in Hr as (tile_index & Hti & Hr). apply bind_Ok in Hr as (ss & Hs & Hr).
  unfold encode_tensor_sections, len in Hs.
  apply encode_sections_Ok in Hs as (Hok & -> & _); [|done|done].
  apply bind_Ok in Hr as (refs & [-> Hmask]%standard_references_Ok & Hr).
  apply bind_Ok in Hr as (r1 & AH1 & Hr). apply bind_Ok in Hr as (r2 & AH2 & Hr).
  apply bind_Ok in Hr as (r3 & AH3 & Hr).
  apply (append_if_Ok _ []) in AH1 as [F1 ->]; [|constructor]. cbn [app] in F1.
  apply append_if_Ok in AH2 as [F2 ->]; [|done]. apply append_if_Ok in AH3 as [F3 ->]; [|done].
  apply then_unit_Ok in Hr as [Hvm Hr]. apply bind_Ok in Hr as (rb & Hrb & Hr).
  destruct (write_blocks_strict (A := ObjectReferenceBlock.t) _ _ (present_typed input Ht) Hrb)
    as [Hrv ->].
  apply bind_Ok in Hr as (body & Hb & Hr).
  apply bind_Ok in Hr as (cb & Hcb & Hr). apply bind_Ok in Hr as (tb & Htb & Hr).
  pose proof (optional_len_eq _ _ _ Hcb) as Hce. pose proof (optional_len_eq _ _ _ Htb) as Hte.
  apply optional_len in Hcb, Htb.
  match type of Hr with context [FrameSubmitMetadata.to_bytes ?m0] => set (m := m0) in Hr end.
  apply bind_Ok in Hr as (mb & Hmb & [= <-]). exists tile_index, m. cbv zeta.
  assert (valid m = true) as Hm.
  { apply (law_write_strict (A := FrameSubmitMetadata.t) m (replicate FRAME_SUBMIT_METADATA_LEN x00) mb);
      [|exact Hmb].
    unfold identity_typed, u8_max, u16_max, u32_max, u64_max in *.
    pose proof (len_nonneg (NnrpTensorSubmitInput.tile_ids input)).
    pose proof (len_nonneg (NnrpTensorSubmitInput.sections input)).
    assert (0 <= len (NnrpTensorSubmitInput.tile_ids input) mod 2 ^ 16 < 65536)
      by exact (Z.mod_pos_bound _ 65536 eq_refl).
    assert (0 <= len (NnrpTensorSubmitInput.sections input) mod 2 ^ 16 < 65536)
      by exact (Z.mod_pos_bound _ 65536 eq_refl).
    clear Hmb. subst m. solve_fields.
    - by destruct (NnrpTensorSubmitInput.input_profile input).
    - by destruct (NnrpTensorSubmitInput.tile_index_mode input).
    - by destruct (tensor_submit_mode _ _).
    - by destruct (NnrpSubmitPolicy.loss_tolerance_policy _). }
  fold (camera_inline input) (tiles_inline input) in F3, Hb.
  rewrite inline_objects_eq in F3, Hb. split_and!; try done.
  pose proof (len_nonneg (NnrpTensorSubmitInput.tile_ids input)).
  pose proof (len_nonneg (NnrpTensorSubmitInput.sections input)).
  assert (policy_of m = NnrpTensorSubmitInput.policy input) as Hpol
    by (subst m; unfold policy_of; by destruct (NnrpTensorSubmitInput.policy input)).
  unfold describes. rewrite <- tensor_submit_mode_eq. subst m. cbn. unfold u16_max in *.
  rewrite !Z.mod_small by lia. by split_and!.
Qed.

(** C10: a tensor submission that was built is read back completely, from its bytes alone.  The request
    carries the identity of the input; its payload parses to metadata that describe the input ([describes]: the
    sizes, the profile, the policy, the operation, the tile index mode, the counts and the lengths, each
    the one of the input); the body is cut into the inline and the reference region; the references are the
    given ones and agree with the declared mode and mask; and the inline objects are the camera block, a
    tile index block that decodes, with the mode, base and count of the metadata, to the tile ids, and a section
    table that reads to the sections, with the codec and the payload of every tile: each of them unless it is
    referenced or empty. *)
Theorem tensor_submit_round_trip input request :
  tensor_typed input -> tensor input = Ok request ->
  exists payload m inline_region reference_region region tile_index sections,
    encoded_payload request = Ok payload /\
    NnrpSubmitIdentity.mk (operation_id request) (frame_id request) (header request) =
      NnrpTensorSubmitInput.identity input /\
    FrameSubmitMetadata.parse payload = Ok m /\
    describes m input tile_index /\
    read_regions (drop FRAME_SUBMIT_METADATA_LEN payload) =
      Ok (inline_region, reference_region, [], []) /\
    ObjectReferenceRegion.parse reference_region = Ok region /\
    ObjectReferenceRegion.blocks region = present (NnrpTensorSubmitInput.references input) /\
    ObjectReferenceRegion.validate_submit_mask region
      (FrameSubmitMetadata.submit_mode m) (FrameSubmitMetadata.object_ref_mask m) = Ok tt /\
    read_objects (length inline_region) inline_region =
      Ok (inline_objects input tile_index sections) /\
    TileIndex.decode (FrameSubmitMetadata.tile_index_mode m)
      (FrameSubmitMetadata.tile_base_id m) (Z.to_nat (FrameSubmitMetadata.tile_count m))
      tile_index = NnrpTensorSubmitInput.tile_ids input /\
    read_sections (length sections) (Z.to_nat (FrameSubmitMetadata.tile_count m)) sections =
      Ok (map (view_of_section (length (NnrpTensorSubmitInput.tile_ids input)))
            (NnrpTensorSubmitInput.sections input)).
Proof.
  intros Ht Hr. destruct (tensor_Ok _ _ Ht Hr)
    as (ti & m & Htl & Hti & Hok & Hfits & Hvm & Hrv & Hb & Hdesc & Hm & Hv). cbv zeta in *.
  pose proof Ht as (_ & _ & _ & _ & _ & _ & Hids & Hss & Hbase & _).
  pose proof Hdesc as (_ & _ & _ & _ & Hcount & _ & _ & Hmode & Hbid & _).
  eexists (wire m ++ body request), m, _, _, (ObjectReferenceRegion.from_blocks (present (NnrpTensorSubmitInput.references input))),
    ti, (pack (map section_wire (NnrpTensorSubmitInput.sections input))).
  rewrite Hcount, Hmode, Hbid. unfold len. rewrite Nat2Z.id. split_and!.
  - rewrite Hm. unfold encoded_payload. eapply bind_step; [exact (to_bytes_valid _ Hv)|reflexivity].
  - rewrite Hm. by destruct (NnrpTensorSubmitInput.identity input).
  - exact (law_parse_wire m _ Hv).
  - done.
  - rewrite drop_app_length' by exact (eq_sym (length_wire m)). by apply encode_body_read.
  - apply ObjectReferenceRegion.region_parse_Ok. by split.
  - done.
  - done.
  - by apply read_objects_wire.
  - by eapply TileIndex.encode_decode.
  - by apply read_sections_pack.
Qed.

Definition one_section : NnrpTensorSubmitInput.t := {|
  NnrpTensorSubmitInput.identity := NnrpSubmitIdentity.mk 7 9 NnrpSubmitHeaderContext.default;
  NnrpTensorSubmitInput.policy := NnrpSubmitPolicy.default;
  NnrpTensorSubmitInput.src_width := 32;
  NnrpTensorSubmitInput.src_height := 32;
  NnrpTensorSubmitInput.tile_width := 16;
  NnrpTensorSubmitInput.tile_height := 16;
  NnrpTensorSubmitInput.tile_ids := [2; 4];
  NnrpTensorSubmitInput.sections :=
    [ NnrpTensorSection.mk 1 2 3 4 0 16 [[x01]; [x02; x03]] [x02; x07] 4;
      NnrpTensorSection.mk 2 2 3 4 0 16 [[x04]; [x05]] [] 0 ];
  NnrpTensorSubmitInput.camera_block := [];
  NnrpTensorSubmitInput.input_profile := InputProfile.ChangedTilesLuma;
  NnrpTensorSubmitInput.tile_index_mode := TileIndexMode.RawU16;
  NnrpTensorSubmitInput.tile_base_id := 0;
  NnrpTensorSubmitInput.references := NnrpSubmitObjectReferences.mk
    (Some (ObjectReferenceBlock.mk CacheObjectKind.CameraBlock 0 1 0 1)) None None |}.

Lemma one_section_typed : tensor_typed one_section.
Proof.
  unfold tensor_typed, identity_typed, policy_typed, TileIndex.u16_ids, u8_max, u16_max, u32_max,
    u64_max. cbn. unfold BudgetPolicy.NONE. split_and!; try lia.
  - repeat constructor; lia.
  - apply Forall_cons; split; [|apply Forall_cons; split; [|done]];
      unfold section_typed, u8_max, u16_max, u32_max; cbn; lia.
  - intros block [[= <-]|[[=]|[=]]]. reflexivity.
Qed.

Lemma tensor_submit_round_trip_witness :
  exists request payload m sections, tensor one_section = Ok request /\
    encoded_payload request = Ok payload /\ FrameSubmitMetadata.parse payload = Ok m /\
    FrameSubmitMetadata.submit_mode m = SubmitMode.Mixed /\
    read_sections (length sections) 2 sections =
      Ok (map (view_of_section 2) (NnrpTensorSubmitInput.sections one_section)).
Proof.
  assert (is_ok (tensor one_section) = true) as Hok by (vm_compute; reflexivity).
  destruct (tensor one_section) as [request|e|] eqn:He; [|discriminate Hok..].
  destruct (tensor_submit_round_trip one_section request one_section_typed He)
    as (payload & m & ir & rr & region & ti & sections & Hp & _ & Hm & Hdesc & _ & _ & _ & _ & _ & _ & Hs).
  destruct Hdesc as (_ & _ & _ & _ & Hcount & _ & _ & _ & _ & _ & _ & _ & Hmode & _).
  rewrite Hcount in Hs.
  exists request, payload, m, sections. exact (conj eq_refl (conj Hp (conj Hm (conj Hmode Hs)))).
Defined.

End TensorSubmit.
