(* ===== verification/Event.v ===== *)
(** Runtime events ([src/crates/nnrp-runtime/src/event.rs]): the metadata and the tail of a
    message with the header they came under, and the local lifecycle events of operations. *)

From S2P Require Import Prelude Bytes Errors Enums Wire Header Session Flow Control.
From S2P Require Import RuntimeControl Object Cache Data Packet.

Local Open Scope Z_scope.

Module NnrpRuntimeEventMetadata.

Inductive t :=
| None
| FrameSubmit (value : FrameSubmitMetadata.t)
| ResultPush (value : ResultPushMetadata.t)
| ResultHint (value : ResultHintMetadata.t)
| ControlRequest (value : ControlRequestMetadata.t)
| Scheduling (value : SchedulingMetadata.t)
| Supersede (value : SupersedeMetadata.t)
| Budget (value : BudgetMetadata.t)
| Progress (value : ProgressMetadata.t)
| PartialResult (value : PartialResultMetadata.t)
| Pressure (value : PressureMetadata.t)
| Capability (value : CapabilityMetadata.t)
| RouteHint (value : RouteHintMetadata.t)
| TraceContext (value : TraceContextMetadata.t)
| ResultDropReason (value : ResultDropReasonMetadata.t)
| RecoverableError (value : RecoverableErrorMetadata.t)
| RetryAfter (value : RetryAfterMetadata.t)
| FlowUpdate (value : FlowUpdateMetadata.t)
| ObjectDescriptor (value : ObjectDescriptorMetadata.t)
| ObjectReference (value : ObjectReferenceMetadata.t)
| ObjectRelease (value : ObjectReleaseMetadata.t)
| ObjectDelta (value : ObjectDeltaMetadata.t)
| CacheReference (value : CacheReferenceMetadata.t)
| CacheMiss (value : CacheMissMetadata.t)
| CacheInvalidate (value : CacheInvalidateMetadata.t)
| SessionClose (value : SessionCloseMetadata.t).

Definition to_bytes (self : t) : R bytes :=
  match self with
  | None => Ok []
  | FrameSubmit value => FrameSubmitMetadata.to_bytes value
  | ResultPush value => ResultPushMetadata.to_bytes value
  | ResultHint value => ResultHintMetadata.to_bytes value
  | ControlRequest value => ControlRequestMetadata.to_bytes value
  | Scheduling value => SchedulingMetadata.to_bytes value
  | Supersede value => SupersedeMetadata.to_bytes value
  | Budget value => BudgetMetadata.to_bytes value
  | Progress value => ProgressMetadata.to_bytes value
  | PartialResult value => PartialResultMetadata.to_bytes value
  | Pressure value => PressureMetadata.to_bytes value
  | Capability value => CapabilityMetadata.to_bytes value
  | RouteHint value => RouteHintMetadata.to_bytes value
  | TraceContext value => TraceContextMetadata.to_bytes value
  | ResultDropReason value => ResultDropReasonMetadata.to_bytes value
  | RecoverableError value => RecoverableErrorMetadata.to_bytes value
  | RetryAfter value => RetryAfterMetadata.to_bytes value
  | FlowUpdate value => FlowUpdateMetadata.to_bytes value
  | ObjectDescriptor value => ObjectDescriptorMetadata.to_bytes value
  | ObjectReference value => ObjectReferenceMetadata.to_bytes value
  | ObjectRelease value => ObjectReleaseMetadata.to_bytes value
  | ObjectDelta value => ObjectDeltaMetadata.to_bytes value
  | CacheReference value => CacheReferenceMetadata.to_bytes value
  | CacheMiss value => CacheMissMetadata.to_bytes value
  | CacheInvalidate value => CacheInvalidateMetadata.to_bytes value
  | SessionClose value => SessionCloseMetadata.to_bytes value
  end.

Definition operation_id (self : t) : option Z :=
  match self with
  | FrameSubmit value => Some (FrameSubmitMetadata.operation_id value)
  | ControlRequest value => Some (ControlRequestMetadata.operation_id value)
  | Scheduling value => Some (SchedulingMetadata.operation_id value)
  | Supersede value => Some (SupersedeMetadata.old_operation_id value)
  | Budget value => Some (BudgetMetadata.operation_id value)
  | Progress value => Some (ProgressMetadata.operation_id value)
  | PartialResult value => Some (PartialResultMetadata.operation_id value)
  | RouteHint value =>
      if negb (RouteHintMetadata.operation_id value =? 0)
      then Some (RouteHintMetadata.operation_id value) else Datatypes.None
  | ResultDropReason value => Some (ResultDropReasonMetadata.operation_id value)
  | ObjectReference value => Some (ObjectReferenceMetadata.operation_id value)
  | ObjectRelease value => Some (ObjectReleaseMetadata.operation_id value)
  | _ => Datatypes.None
  end.

End NnrpRuntimeEventMetadata.

Module NnrpRuntimeEventTail.

Inductive t :=
| None
| Body (body : bytes)
| Diagnostic (body : bytes)
| MetadataBodyAndDelta (metadata_body delta : bytes).

Definition append_to (self : t) (payload : bytes) : bytes :=
  match self with
  | None => payload
  | Body body | Diagnostic body => payload ++ body
  | MetadataBodyAndDelta metadata_body delta => payload ++ metadata_body ++ delta
  end.

End NnrpRuntimeEventTail.

Module NnrpRuntimeEvent.

Record t := mk {
  header : RuntimeFrameHeader.t;
  metadata : NnrpRuntimeEventMetadata.t;
  tail : NnrpRuntimeEventTail.t
}.

Definition into_wire_parts (self : t) : R (RuntimeFrameHeader.t * bytes * bytes) :=
  metadata ← NnrpRuntimeEventMetadata.to_bytes (metadata self);
  let body := NnrpRuntimeEventTail.append_to (tail self) [] in
  Ok (header self, metadata, body).

Definition into_payload (self : t) : R bytes :=
  payload ← NnrpRuntimeEventMetadata.to_bytes (metadata self);
  Ok (NnrpRuntimeEventTail.append_to (tail self) payload).

Definition to_payload (self : t) : R bytes :=
  payload ← NnrpRuntimeEventMetadata.to_bytes (metadata self);
  Ok (NnrpRuntimeEventTail.append_to (tail self) payload).

End NnrpRuntimeEvent.

Module OperationLifecycleEvent.

Record t := mk { operation_id : Z; state : OperationState.t }.

Definition new (operation_id : Z) (state : OperationState.t) : R t :=
  _ ← reject_if (operation_id =? 0)
        (InvalidOperationRelationship
           "operation lifecycle event requires a non-zero operation_id");
  Ok {| operation_id := operation_id; state := state |}.

End OperationLifecycleEvent.

Module NnrpClientRoleEvent.

Inductive t :=
| Runtime (event : NnrpRuntimeEvent.t)
| Lifecycle (event : OperationLifecycleEvent.t).

Definition as_runtime (self : t) : option NnrpRuntimeEvent.t :=
  match self with Runtime event => Some event | Lifecycle _ => None end.

Definition as_lifecycle (self : t) : option OperationLifecycleEvent.t :=
  match self with Runtime _ => None | Lifecycle event => Some event end.

End NnrpClientRoleEvent.

Module NnrpTerminalEvent.

Inductive t :=
| Runtime (event : NnrpRuntimeEvent.t)
| Lifecycle (event : OperationLifecycleEvent.t).

Definition as_runtime (self : t) : option NnrpRuntimeEvent.t :=
  match self with Runtime event => Some event | Lifecycle _ => None end.

Definition as_lifecycle (self : t) : option OperationLifecycleEvent.t :=
  match self with Runtime _ => None | Lifecycle event => Some event end.

End NnrpTerminalEvent.
