(* ===== verification/Client.v ===== *)
(** The client of the runtime ([src/crates/nnrp-runtime/src/client.rs]): recovery tickets, terminal
    results, and the session, whose methods read and write packets.  The conversion of its
    events is in [src/crates/nnrp-runtime/src/event.rs].

    Every method of the session is an [Async] function of the session, whose transport says
    what its reads and writes will return.  The clock is an argument of the methods that
    look at it. *)

From S2P Require Import Prelude Bytes Errors Enums Wire Header Session Flow Control Codes.
From S2P Require Import Lifecycle Capability RuntimeControl Operation Recovery Transport Route.
From S2P Require Import RuntimeError Packet Async Pressure PreSubmit Object Cache Data Schema.
From S2P Require Import Regions Submit Event.

Local Open Scope Z_scope.

Definition MAX_PENDING_CLIENT_EVENTS : Z := 1024.

(** [return Err(RuntimeError::UnexpectedMessage(..))]. *)
Definition unexpected {A} (message : string) : RT A := Err (UnexpectedMessage message).

Module NnrpClientConfig.

Record t := mk {
  requested_session_id : Z;
  profile_id : Z;
  schema_id : Z;
  schema_version : Z;
  priority_class : SessionPriorityClass.t;
  default_deadline_ms : Z;
  max_in_flight_operations : Z;
  lease_ttl_hint_ms : Z;
  allow_resume : bool;
  resume_token_bytes : Z;
  cache_hints : list CacheObjectKind.t
}.

Definition default : t := {|
  requested_session_id := 0;
  profile_id := STANDARD_PROFILE_TOKEN;
  schema_id := TOKEN_DELTA_SCHEMA_ID;
  schema_version := TOKEN_DELTA_SCHEMA_VERSION;
  priority_class := SessionPriorityClass.Balanced;
  default_deadline_ms := 500;
  max_in_flight_operations := 4;
  lease_ttl_hint_ms := 30000;
  allow_resume := false;
  resume_token_bytes := 0;
  cache_hints := [] |}.

End NnrpClientConfig.

(** ** Recovery tickets *)

Module NnrpSessionRecoveryTicket.

Record t := mk {
  session_id : Z;
  resume_token : bytes;
  resume_from_operation_id : option Z;
  resume_window_ms : Z
}.

(** [*b"NRTK"]. *)
Definition MAGIC : bytes := [x4e; x52; x54; x4b].
Definition VERSION : Z := 1.
Definition FIXED_PREFIX_BYTES : nat := 28.
Definition FLAG_RESUME_FROM_OPERATION_ID_PRESENT : Z := 1.

Definition to_bytes (self : t) : RT bytes :=
  let flags := if is_some (resume_from_operation_id self)
               then FLAG_RESUME_FROM_OPERATION_ID_PRESENT else 0 in
  token_len ← (if len (resume_token self) <=? u32_max then Ok (len (resume_token self)) else Panic);
  Ok (MAGIC ++ le_bytes 2 VERSION ++ le_bytes 2 flags ++ le_bytes 4 (session_id self)
      ++ le_bytes 4 token_len ++ le_bytes 4 (resume_window_ms self)
      ++ le_bytes 8 (default 0 (resume_from_operation_id self)) ++ resume_token self).

(** A slice of an [NnrpError] outcome whose only other end is a panic. *)
Definition read_ticket (w : nat) (encoded : bytes) (offset : nat) : RT Z :=
  protocol (read_le w encoded offset).
Definition read_ticket_u16 := read_ticket 2.
Definition read_ticket_u32 := read_ticket 4.
Definition read_ticket_u64 := read_ticket 8.

Definition from_bytes `{Target} (encoded : bytes) : RT t :=
  _ ← reject_if (len encoded <? Z.of_nat FIXED_PREFIX_BYTES)
        (InvalidRecoveryTicket "ticket is truncated");
  magic ← protocol (slice encoded 0 4);
  _ ← reject_if (negb (bool_decide (magic = MAGIC)))
        (InvalidRecoveryTicket "magic does not match NRTK");
  version ← read_ticket_u16 encoded 4;
  _ ← reject_if (negb (version =? VERSION)) (InvalidRecoveryTicket "version is unsupported");
  flags ← read_ticket_u16 encoded 6;
  _ ← reject_if (negb (Z.land flags (bnot 16 FLAG_RESUME_FROM_OPERATION_ID_PRESENT) =? 0))
        (InvalidRecoveryTicket "reserved flags are non-zero");
  session_id ← read_ticket_u32 encoded 8;
  _ ← reject_if (session_id =? 0) (InvalidRecoveryTicket "session id is zero");
  token_len ← read_ticket_u32 encoded 12;
  _ ← reject_if (usize_max <? token_len) (InvalidRecoveryTicket "token length is invalid");
  _ ← reject_if (token_len =? 0) (InvalidRecoveryTicket "resume token is empty");
  expected_len ← ok_or (checked_add usize_max (Z.of_nat FIXED_PREFIX_BYTES) token_len)
                   (InvalidRecoveryTicket "ticket length overflows");
  _ ← reject_if (negb (len encoded =? expected_len))
        (InvalidRecoveryTicket "ticket has truncated or trailing token bytes");
  resume_window_ms ← read_ticket_u32 encoded 16;
  resume_from_operation_id ←
    (if negb (Z.land flags FLAG_RESUME_FROM_OPERATION_ID_PRESENT =? 0)
     then operation_id ← read_ticket_u64 encoded 20; Ok (Some operation_id)
     else Ok None);
  resume_token ← protocol (slice encoded FIXED_PREFIX_BYTES (length encoded));
  Ok {| session_id := session_id; resume_token := resume_token;
        resume_from_operation_id := resume_from_operation_id;
        resume_window_ms := resume_window_ms |}.

End NnrpSessionRecoveryTicket.

(** ** Terminal results *)

Module NnrpResult.

Record t := mk {
  operation_id : Z;
  terminal_state : ResultTerminalState.t;
  event : NnrpTerminalEvent.t
}.

Definition from_runtime (operation_id : Z) (event : NnrpRuntimeEvent.t) : RT t :=
  _ ← reject_if (operation_id =? 0)
        (UnexpectedMessage "terminal result requires a non-zero operation id");
  terminal_state ←
    match RuntimeFrameHeader.message_type (NnrpRuntimeEvent.header event),
          NnrpRuntimeEvent.metadata event, NnrpRuntimeEvent.tail event with
    | MessageType.ResultPush, NnrpRuntimeEventMetadata.ResultPush _, NnrpRuntimeEventTail.Body _ =>
        Ok ResultTerminalState.Success
    | MessageType.ResultDrop, NnrpRuntimeEventMetadata.None, NnrpRuntimeEventTail.None =>
        Ok ResultTerminalState.Dropped
    | MessageType.ResultDropReason, NnrpRuntimeEventMetadata.ResultDropReason _,
      NnrpRuntimeEventTail.Diagnostic _ =>
        Ok ResultTerminalState.Dropped
    | _, _, _ =>
        unexpected "runtime terminal evidence does not match a terminal result message"
    end;
  Ok {| operation_id := operation_id; terminal_state := terminal_state;
        event := NnrpTerminalEvent.Runtime event |}.

Definition from_lifecycle (event : OperationLifecycleEvent.t) : RT t :=
  _ ← reject_if (OperationLifecycleEvent.operation_id event =? 0)
        (UnexpectedMessage "terminal result requires a non-zero operation id");
  terminal_state ←
    ok_or (ResultTerminalState.from_operation_state (OperationLifecycleEvent.state event))
      (UnexpectedMessage "operation lifecycle event does not establish a terminal result");
  Ok {| operation_id := OperationLifecycleEvent.operation_id event;
        terminal_state := terminal_state; event := NnrpTerminalEvent.Lifecycle event |}.

End NnrpResult.

Module NnrpClientEvent.

Inductive t :=
| Result (result : NnrpResult.t)
| PartialResult (metadata : PartialResultMetadata.t) (body : bytes)
| Progress (metadata : ProgressMetadata.t) (body : bytes)
| Control (message_type : MessageType.t) (metadata : ControlRequestMetadata.t) (body : bytes)
| Scheduling (message_type : MessageType.t) (metadata : SchedulingMetadata.t)
| Supersede (metadata : SupersedeMetadata.t) (body : bytes)
| Budget (metadata : BudgetMetadata.t)
| FlowUpdate (metadata : FlowUpdateMetadata.t)
| Backpressure (metadata : PressureMetadata.t)
| CreditUpdate (metadata : PressureMetadata.t)
| ObjectDeclare (metadata : ObjectDescriptorMetadata.t) (body : bytes)
| ObjectRef (metadata : ObjectReferenceMetadata.t) (body : bytes)
| ObjectRelease (metadata : ObjectReleaseMetadata.t) (body : bytes)
| ObjectDelta (message_type : MessageType.t) (metadata : ObjectDeltaMetadata.t) (body : bytes)
| CacheReference (metadata : CacheReferenceMetadata.t) (body : bytes)
| CacheMiss (metadata : CacheMissMetadata.t) (body : bytes)
| CacheInvalidate (metadata : CacheInvalidateMetadata.t)
| Capability (message_type : MessageType.t) (metadata : CapabilityMetadata.t) (body : bytes)
| RouteHint (message_type : MessageType.t) (metadata : RouteHintMetadata.t) (body : bytes)
| TraceContext (frame_id : Z) (metadata : TraceContextMetadata.t) (body : bytes)
| RecoverableError (metadata : RecoverableErrorMetadata.t) (body : bytes)
| RetryAfter (metadata : RetryAfterMetadata.t) (body : bytes)
| ResultHint (metadata : ResultHintMetadata.t).

End NnrpClientEvent.

#[export] Instance RuntimeFrameHeader_eq_dec : EqDecision RuntimeFrameHeader.t.
Proof. solve_decision. Defined.

(** [body.split_off(at)]: the rest, and the bytes kept. *)
Definition split_off {A} (body : list A) (at_ : Z) : RT (list A * list A) :=
  if at_ <=? len body
  then Ok (take (Z.to_nat at_) body, drop (Z.to_nat at_) body) else Panic.

(** [NnrpRuntimeEvent::from_client]; the [debug_assert] is on. *)
Definition from_client (header : RuntimeFrameHeader.t) (event : NnrpClientEvent.t)
    : RT NnrpRuntimeEvent.t :=
  match event with
  | NnrpClientEvent.Result result =>
      match NnrpResult.event result with
      | NnrpTerminalEvent.Runtime event =>
          if bool_decide (header = NnrpRuntimeEvent.header event) then Ok event else Panic
      | NnrpTerminalEvent.Lifecycle _ => Panic
      end
  | _ =>
      '(metadata, tail) ←
        match event with
        | NnrpClientEvent.Result _ => Panic
        | NnrpClientEvent.PartialResult metadata body =>
            Ok (NnrpRuntimeEventMetadata.PartialResult metadata, NnrpRuntimeEventTail.Body body)
        | NnrpClientEvent.Progress metadata body =>
            Ok (NnrpRuntimeEventMetadata.Progress metadata, NnrpRuntimeEventTail.Body body)
        | NnrpClientEvent.Control _ metadata body =>
            Ok (NnrpRuntimeEventMetadata.ControlRequest metadata,
                NnrpRuntimeEventTail.Diagnostic body)
        | NnrpClientEvent.Scheduling _ metadata =>
            Ok (NnrpRuntimeEventMetadata.Scheduling metadata, NnrpRuntimeEventTail.None)
        | NnrpClientEvent.Supersede metadata body =>
            Ok (NnrpRuntimeEventMetadata.Supersede metadata, NnrpRuntimeEventTail.Diagnostic body)
        | NnrpClientEvent.Budget metadata =>
            Ok (NnrpRuntimeEventMetadata.Budget metadata, NnrpRuntimeEventTail.None)
        | NnrpClientEvent.FlowUpdate metadata =>
            Ok (NnrpRuntimeEventMetadata.FlowUpdate metadata, NnrpRuntimeEventTail.None)
        | NnrpClientEvent.Backpressure metadata | NnrpClientEvent.CreditUpdate metadata =>
            Ok (NnrpRuntimeEventMetadata.Pressure metadata, NnrpRuntimeEventTail.None)
        | NnrpClientEvent.ObjectDeclare metadata body =>
            Ok (NnrpRuntimeEventMetadata.ObjectDescriptor metadata, NnrpRuntimeEventTail.Body body)
        | NnrpClientEvent.ObjectRef metadata body =>
            Ok (NnrpRuntimeEventMetadata.ObjectReference metadata, NnrpRuntimeEventTail.Body body)
        | NnrpClientEvent.ObjectRelease metadata body =>
            Ok (NnrpRuntimeEventMetadata.ObjectRelease metadata,
                NnrpRuntimeEventTail.Diagnostic body)
        | NnrpClientEvent.ObjectDelta _ metadata body =>
            '(body, delta) ← split_off body (ObjectDeltaMetadata.metadata_bytes metadata);
            Ok (NnrpRuntimeEventMetadata.ObjectDelta metadata,
                NnrpRuntimeEventTail.MetadataBodyAndDelta body delta)
        | NnrpClientEvent.CacheReference metadata body =>
            Ok (NnrpRuntimeEventMetadata.CacheReference metadata, NnrpRuntimeEventTail.Body body)
        | NnrpClientEvent.CacheMiss metadata body =>
            Ok (NnrpRuntimeEventMetadata.CacheMiss metadata, NnrpRuntimeEventTail.Diagnostic body)
        | NnrpClientEvent.CacheInvalidate metadata =>
            Ok (NnrpRuntimeEventMetadata.CacheInvalidate metadata, NnrpRuntimeEventTail.None)
        | NnrpClientEvent.Capability _ metadata body =>
            Ok (NnrpRuntimeEventMetadata.Capability metadata, NnrpRuntimeEventTail.Body body)
        | NnrpClientEvent.RouteHint _ metadata body =>
            Ok (NnrpRuntimeEventMetadata.RouteHint metadata, NnrpRuntimeEventTail.Body body)
        | NnrpClientEvent.TraceContext _ metadata body =>
            Ok (NnrpRuntimeEventMetadata.TraceContext metadata, NnrpRuntimeEventTail.Body body)
        | NnrpClientEvent.RecoverableError metadata body =>
            Ok (NnrpRuntimeEventMetadata.RecoverableError metadata,
                NnrpRuntimeEventTail.Diagnostic body)
        | NnrpClientEvent.RetryAfter metadata body =>
            Ok (NnrpRuntimeEventMetadata.RetryAfter metadata, NnrpRuntimeEventTail.Diagnostic body)
        | NnrpClientEvent.ResultHint metadata =>
            Ok (NnrpRuntimeEventMetadata.ResultHint metadata, NnrpRuntimeEventTail.None)
        end;
      Ok {| NnrpRuntimeEvent.header := header; NnrpRuntimeEvent.metadata := metadata;
            NnrpRuntimeEvent.tail := tail |}
  end.

(** ** Checks that do not look at the session's tables *)

Definition require_body_len (actual expected : Z) (message : string) : RT unit :=
  reject_if (negb (actual =? expected)) (UnexpectedMessage message).

Definition validate_event_batch_limit (max_events : Z) : RT unit :=
  reject_if (max_events =? 0)
    (UnexpectedMessage "client event batch limit must be greater than zero").

Definition normalize_transport_close_after_ack (result : Poll unit) : Poll unit :=
  match result with
  | Ready (Err (TransportClosed _ _)) => Ready (Ok tt)
  | result => result
  end.

(** [if packet.metadata.len() != .. { return Err(..) }]. *)
Definition require_metadata_len (packet : RuntimePacket.t) (expected : nat) (message : string)
    : RT unit :=
  reject_if (negb (len (RuntimePacket.metadata packet) =? Z.of_nat expected))
    (UnexpectedMessage message).

(** The same check with [|| !packet.body.is_empty()]. *)
Definition require_bodyless (packet : RuntimePacket.t) (expected : nat) (message : string)
    : RT unit :=
  reject_if (negb (len (RuntimePacket.metadata packet) =? Z.of_nat expected)
             || negb (len (RuntimePacket.body packet) =? 0)) (UnexpectedMessage message).

Definition cache_object_bitmap (cache_hints : list CacheObjectKind.t) : RT Z :=
  try_fold (fun bitmap kind =>
    bit ← ok_or (if 1 <=? CacheObjectKind.repr kind then Some (CacheObjectKind.repr kind - 1) else None)
            (UnexpectedMessage "cache object kind cannot map to CLIENT_HELLO bitmap");
    mask ← ok_or (if bit <? 16 then Some (Z.shiftl 1 bit) else None)
             (UnexpectedMessage "cache object kind exceeds CLIENT_HELLO bitmap");
    Ok (Z.lor bitmap mask)) 0 cache_hints.

Definition session_open_metadata (config : NnrpClientConfig.t) (resume_token_bytes : Z)
    : RT SessionOpenMetadata.t :=
  _ ← reject_if (u32_max <? resume_token_bytes)
        (UnexpectedMessage "session resume token exceeds wire length");
  Ok {| SessionOpenMetadata.requested_session_id := NnrpClientConfig.requested_session_id config;
        SessionOpenMetadata.profile_id := NnrpClientConfig.profile_id config;
        SessionOpenMetadata.priority_class := NnrpClientConfig.priority_class config;
        SessionOpenMetadata.session_flags :=
          (if NnrpClientConfig.allow_resume config then SESSION_FLAG_ALLOW_RESUME else 0);
        SessionOpenMetadata.schema_id := NnrpClientConfig.schema_id config;
        SessionOpenMetadata.schema_version := NnrpClientConfig.schema_version config;
        SessionOpenMetadata.default_deadline_ms := NnrpClientConfig.default_deadline_ms config;
        SessionOpenMetadata.max_in_flight_operations :=
          NnrpClientConfig.max_in_flight_operations config;
        SessionOpenMetadata.lease_ttl_hint_ms := NnrpClientConfig.lease_ttl_hint_ms config;
        SessionOpenMetadata.resume_token_bytes := resume_token_bytes;
        SessionOpenMetadata.auth_bytes := 0;
        SessionOpenMetadata.session_extension_bytes := 0;
        SessionOpenMetadata.client_session_tag := NnrpClientConfig.requested_session_id config |}.

(** ** The session *)

Module NnrpClientSession.

Record t := mk {
  session_id : Z;
  next_frame_id : Z;
  operation_frames : gmap Z Z;
  frame_operations : gmap Z Z;
  local_operation_states : gmap Z OperationState.t;
  pending_terminal_controls : gmap Z OperationState.t;
  seen_operation_ids : gset Z;
  pre_submit_deadlines : PreSubmitDeadlineReservations.t;
  last_operation_id : Z;
  transport : FramedTransport.t;
  lifecycle : ConnectionLifecycle.t;
  pressure : RuntimePressureState.t;
  pending_events : list (NnrpClientEvent.t * RuntimePacket.t);
  pending_role_events : list NnrpClientRoleEvent.t;
  recovery_ticket : option NnrpSessionRecoveryTicket.t
}.

Definition set_tables (s : t) operation_frames frame_operations local pending_controls : t :=
  mk (session_id s) (next_frame_id s) operation_frames frame_operations local pending_controls
    (seen_operation_ids s) (pre_submit_deadlines s) (last_operation_id s) (transport s)
    (lifecycle s) (pressure s) (pending_events s) (pending_role_events s) (recovery_ticket s).
Definition set_pre_submit_deadlines (s : t) d : t :=
  mk (session_id s) (next_frame_id s) (operation_frames s) (frame_operations s)
    (local_operation_states s) (pending_terminal_controls s) (seen_operation_ids s) d
    (last_operation_id s) (transport s) (lifecycle s) (pressure s) (pending_events s)
    (pending_role_events s) (recovery_ticket s).
Definition set_transport (s : t) tr : t :=
  mk (session_id s) (next_frame_id s) (operation_frames s) (frame_operations s)
    (local_operation_states s) (pending_terminal_controls s) (seen_operation_ids s)
    (pre_submit_deadlines s) (last_operation_id s) tr (lifecycle s) (pressure s)
    (pending_events s) (pending_role_events s) (recovery_ticket s).
Definition set_lifecycle (s : t) l : t :=
  mk (session_id s) (next_frame_id s) (operation_frames s) (frame_operations s)
    (local_operation_states s) (pending_terminal_controls s) (seen_operation_ids s)
    (pre_submit_deadlines s) (last_operation_id s) (transport s) l (pressure s)
    (pending_events s) (pending_role_events s) (recovery_ticket s).
Definition set_pressure (s : t) p : t :=
  mk (session_id s) (next_frame_id s) (operation_frames s) (frame_operations s)
    (local_operation_states s) (pending_terminal_controls s) (seen_operation_ids s)
    (pre_submit_deadlines s) (last_operation_id s) (transport s) (lifecycle s) p
    (pending_events s) (pending_role_events s) (recovery_ticket s).
Definition set_pending_events (s : t) es : t :=
  mk (session_id s) (next_frame_id s) (operation_frames s) (frame_operations s)
    (local_operation_states s) (pending_terminal_controls s) (seen_operation_ids s)
    (pre_submit_deadlines s) (last_operation_id s) (transport s) (lifecycle s) (pressure s)
    es (pending_role_events s) (recovery_ticket s).
Definition set_pending_role_events (s : t) es : t :=
  mk (session_id s) (next_frame_id s) (operation_frames s) (frame_operations s)
    (local_operation_states s) (pending_terminal_controls s) (seen_operation_ids s)
    (pre_submit_deadlines s) (last_operation_id s) (transport s) (lifecycle s) (pressure s)
    (pending_events s) es (recovery_ticket s).

(** A call on the transport field. *)
Definition on_transport {A} (m : Async FramedTransport.t A) : Async t A := fun s =>
  let (r, tr) := m (transport s) in (r, set_transport s tr).

Definition read_packet : Async t RuntimePacket.t := on_transport FramedTransport.read_packet.
Definition try_read_packet : Async t (option RuntimePacket.t) :=
  on_transport FramedTransport.try_read_packet.
Definition write_packet (packet : RuntimePacket.t) : Async t unit :=
  on_transport (FramedTransport.write_packet packet).

(** The calls on the lifecycle and the pressure state, whose errors are protocol errors. *)
Definition on_lifecycle {A} (m : Method ConnectionLifecycle.t NnrpError A) : Async t A := fun s =>
  let (o, l) := m (lifecycle s) in (Ready (protocol o), set_lifecycle s l).
Definition on_pressure {A} (m : Method RuntimePressureState.t NnrpError A) : Async t A := fun s =>
  let (o, p) := m (pressure s) in (Ready (protocol o), set_pressure s p).
Definition on_deadlines {A} (m : Method PreSubmitDeadlineReservations.t RuntimeError A)
    : Async t A := fun s =>
  let (o, d) := m (pre_submit_deadlines s) in (Ready o, set_pre_submit_deadlines s d).

(** *** Checks on packets and operations *)

Definition require_packet_session (session_id : Z) (packet : RuntimePacket.t) (message : string)
    : RT unit :=
  reject_if (negb (CommonHeader.session_id (RuntimePacket.header packet) =? session_id))
    (UnexpectedMessage message).

Definition require_session_packet (packet : RuntimePacket.t) (message : string) (self : t)
    : RT unit :=
  require_packet_session (session_id self) packet message.

Definition require_optional_session_packet (packet : RuntimePacket.t) (message : string) (self : t)
    : RT unit :=
  let packet_session := CommonHeader.session_id (RuntimePacket.header packet) in
  reject_if (negb (packet_session =? 0) && negb (packet_session =? session_id self))
    (UnexpectedMessage message).

Definition correlated_frame_id (operation_id : Z) (self : t) : RT Z :=
  if operation_id =? 0 then Ok 0
  else ok_or (operation_frames self !! operation_id)
         (UnexpectedMessage "client runtime event references an unknown operation").

Definition require_operation_frame (operation_id frame_id : Z) (self : t) : RT unit :=
  correlated ← correlated_frame_id operation_id self;
  reject_if (negb (correlated =? frame_id))
    (UnexpectedMessage "client runtime event frame id does not match its operation").

Definition require_nonterminal_operation (operation_id : Z) (terminal_message : string) (self : t)
    : RT unit :=
  reject_if (match local_operation_states self !! operation_id with
             | Some state => OperationState.is_terminal state
             | None => false
             end) (UnexpectedMessage terminal_message).

Definition require_outbound_nonterminal_operation (operation_id : Z) (terminal_message : string)
    (self : t) : RT unit :=
  _ ← require_nonterminal_operation operation_id terminal_message self;
  reject_if (is_some (pending_terminal_controls self !! operation_id))
    (UnexpectedMessage terminal_message).

Definition require_trace_context_frame (frame_id : Z) (self : t) : RT unit :=
  if frame_id =? 0 then Ok tt
  else
    operation_id ← ok_or (frame_operations self !! frame_id)
      (UnexpectedMessage "client TRACE_CONTEXT references an unknown operation frame");
    require_nonterminal_operation operation_id
      "client TRACE_CONTEXT references a terminal operation" self.

Definition require_outbound_trace_context_frame (frame_id : Z) (self : t) : RT unit :=
  if frame_id =? 0 then Ok tt
  else
    operation_id ← ok_or (frame_operations self !! frame_id)
      (UnexpectedMessage "client TRACE_CONTEXT references an unknown operation frame");
    require_outbound_nonterminal_operation operation_id
      "client TRACE_CONTEXT references a terminal operation" self.

Definition ensure_pending_role_capacity (self : t) : RT unit :=
  reject_if (MAX_PENDING_CLIENT_EVENTS <=? len (pending_role_events self))
    (UnexpectedMessage "client local lifecycle event queue exceeded its limit").

(** *** Changes of the tables *)

(** The removals that end an operation. *)
Definition forget (operation_id frame_id : Z) (self : t) : t :=
  set_tables self (delete operation_id (operation_frames self))
    (delete frame_id (frame_operations self)) (delete operation_id (local_operation_states self))
    (delete operation_id (pending_terminal_controls self)).

Definition complete_operation_by_frame (frame_id : Z) : Async t Z := fun self =>
  match frame_operations self !! frame_id with
  | None => (Ready (unexpected "client terminal event references an unknown frame"), self)
  | Some operation_id => (Ready (Ok operation_id), forget operation_id frame_id self)
  end.

Definition complete_operation (operation_id frame_id : Z) : Async t unit :=
  _ ← check (require_operation_frame operation_id frame_id);
  modify (forget operation_id frame_id).

(** The local state is stored before the event is built. *)
Definition complete_local_operation (operation_id : Z) (state : OperationState.t) : Async t unit :=
  _ ← check (correlated_frame_id operation_id);
  _ ← check (fun self =>
        match local_operation_states self !! operation_id with
        | Some current => Err (Protocol (InvalidOperationTransition current state))
        | None => Ok tt
        end);
  _ ← modify (fun self =>
        set_tables self (operation_frames self) (frame_operations self)
          (<[operation_id := state]> (local_operation_states self))
          (pending_terminal_controls self));
  event ← lift (protocol (OperationLifecycleEvent.new operation_id state));
  modify (fun self => set_pending_role_events self
            (pending_role_events self ++ [NnrpClientRoleEvent.Lifecycle event])).

(** *** Reading an event

    One definition per arm of the match of [decode_event_packet]. *)

Definition wire_header (packet : RuntimePacket.t) : RuntimeFrameHeader.t :=
  RuntimeFrameHeader.from (RuntimePacket.header packet).
Definition packet_frame (packet : RuntimePacket.t) : Z :=
  CommonHeader.frame_id (RuntimePacket.header packet).
Definition packet_type (packet : RuntimePacket.t) : MessageType.t :=
  CommonHeader.message_type (RuntimePacket.header packet).

Definition decode_result_push (packet : RuntimePacket.t) : Async t NnrpClientEvent.t :=
  _ ← check (require_session_packet packet "client received result for another session");
  _ ← lift (require_metadata_len packet RESULT_PUSH_METADATA_LEN
              "client received malformed RESULT_PUSH metadata length");
  metadata ← lift (protocol (ResultPushMetadata.parse (RuntimePacket.metadata packet)));
  operation_id ← complete_operation_by_frame (packet_frame packet);
  result ← lift (NnrpResult.from_runtime operation_id
    {| NnrpRuntimeEvent.header := wire_header packet;
       NnrpRuntimeEvent.metadata := NnrpRuntimeEventMetadata.ResultPush metadata;
       NnrpRuntimeEvent.tail := NnrpRuntimeEventTail.Body (RuntimePacket.body packet) |});
  mret (NnrpClientEvent.Result result).

Definition decode_result_drop (packet : RuntimePacket.t) : Async t NnrpClientEvent.t :=
  _ ← check (require_session_packet packet "client received drop for another session");
  _ ← lift (protocol (validate_result_drop_header (RuntimePacket.header packet)));
  operation_id ← complete_operation_by_frame (packet_frame packet);
  result ← lift (NnrpResult.from_runtime operation_id
    {| NnrpRuntimeEvent.header := wire_header packet;
       NnrpRuntimeEvent.metadata := NnrpRuntimeEventMetadata.None;
       NnrpRuntimeEvent.tail := NnrpRuntimeEventTail.None |});
  mret (NnrpClientEvent.Result result).

Definition decode_result_drop_reason (packet : RuntimePacket.t) : Async t NnrpClientEvent.t :=
  _ ← check (require_session_packet packet "client received drop reason for another session");
  _ ← lift (require_metadata_len packet RESULT_DROP_REASON_METADATA_LEN
              "client received malformed RESULT_DROP_REASON metadata length");
  metadata ← lift (protocol (ResultDropReasonMetadata.parse (RuntimePacket.metadata packet)));
  _ ← lift (protocol (validate_result_drop_reason_semantics metadata));
  _ ← lift (require_body_len (len (RuntimePacket.body packet))
              (ResultDropReasonMetadata.diagnostic_bytes metadata)
              "client received RESULT_DROP_REASON body length mismatch");
  _ ← complete_operation (ResultDropReasonMetadata.operation_id metadata) (packet_frame packet);
  result ← lift (NnrpResult.from_runtime (ResultDropReasonMetadata.operation_id metadata)
    {| NnrpRuntimeEvent.header := wire_header packet;
       NnrpRuntimeEvent.metadata := NnrpRuntimeEventMetadata.ResultDropReason metadata;
       NnrpRuntimeEvent.tail := NnrpRuntimeEventTail.Diagnostic (RuntimePacket.body packet) |});
  mret (NnrpClientEvent.Result result).

Definition decode_partial_result (packet : RuntimePacket.t) : Async t NnrpClientEvent.t :=
  _ ← check (require_session_packet packet "client received partial result for another session");
  _ ← lift (require_metadata_len packet PARTIAL_RESULT_METADATA_LEN
              "client received malformed PARTIAL_RESULT metadata length");
  metadata ← lift (protocol (PartialResultMetadata.parse (RuntimePacket.metadata packet)));
  _ ← lift (protocol (validate_partial_result_semantics metadata));
  _ ← lift (require_body_len (PartialResultMetadata.body_bytes metadata)
              (len (RuntimePacket.body packet))
              "client received PARTIAL_RESULT body length mismatch");
  _ ← check (require_operation_frame (PartialResultMetadata.operation_id metadata)
               (packet_frame packet));
  _ ← check (require_nonterminal_operation (PartialResultMetadata.operation_id metadata)
               "client received PARTIAL_RESULT for a terminal operation");
  mret (NnrpClientEvent.PartialResult metadata (RuntimePacket.body packet)).

Definition decode_progress (packet : RuntimePacket.t) : Async t NnrpClientEvent.t :=
  _ ← check (require_session_packet packet "client received progress for another session");
  _ ← lift (require_metadata_len packet PROGRESS_METADATA_LEN
              "client received malformed PROGRESS metadata length");
  metadata ← lift (protocol (ProgressMetadata.parse (RuntimePacket.metadata packet)));
  _ ← lift (protocol (validate_progress_semantics metadata));
  _ ← lift (require_body_len (ProgressMetadata.body_bytes metadata)
              (len (RuntimePacket.body packet))
              "client received PROGRESS body length mismatch");
  _ ← check (require_operation_frame (ProgressMetadata.operation_id metadata)
               (packet_frame packet));
  _ ← check (require_nonterminal_operation (ProgressMetadata.operation_id metadata)
               "client received PROGRESS for a terminal operation");
  mret (NnrpClientEvent.Progress metadata (RuntimePacket.body packet)).

(** The state that a CANCEL or an ABORT leads to. *)
Definition control_state (message_type : MessageType.t) : RT OperationState.t :=
  match message_type with
  | MessageType.Cancel => Ok OperationState.Cancelled
  | MessageType.Abort => Ok OperationState.Failed
  | _ => Panic
  end.

Definition decode_control (packet : RuntimePacket.t) : Async t NnrpClientEvent.t :=
  _ ← check (require_session_packet packet "client received control for another session");
  _ ← lift (require_metadata_len packet CONTROL_REQUEST_METADATA_LEN
              "client received malformed runtime control metadata length");
  metadata ← lift (protocol (ControlRequestMetadata.parse (RuntimePacket.metadata packet)));
  _ ← lift (protocol (validate_control_request_semantics (packet_type packet) metadata));
  _ ← lift (require_body_len (len (RuntimePacket.body packet))
              (ControlRequestMetadata.diagnostic_bytes metadata)
              "client received runtime control diagnostic body length mismatch");
  let operation_id := ControlRequestMetadata.operation_id metadata in
  _ ← check (require_operation_frame operation_id (packet_frame packet));
  _ ← (if negb (operation_id =? 0)
       then
         _ ← check ensure_pending_role_capacity;
         state ← lift (control_state (packet_type packet));
         complete_local_operation operation_id state
       else mret tt);
  mret (NnrpClientEvent.Control (packet_type packet) metadata (RuntimePacket.body packet)).

Definition decode_scheduling (packet : RuntimePacket.t) : Async t NnrpClientEvent.t :=
  _ ← check (require_session_packet packet "client received scheduling update for another session");
  _ ← lift (require_bodyless packet SCHEDULING_METADATA_LEN
              "client received malformed scheduling metadata length");
  metadata ← lift (protocol (SchedulingMetadata.parse (RuntimePacket.metadata packet)));
  _ ← lift (protocol (validate_scheduling_semantics (packet_type packet) metadata));
  _ ← check (require_operation_frame (SchedulingMetadata.operation_id metadata)
               (packet_frame packet));
  mret (NnrpClientEvent.Scheduling (packet_type packet) metadata).

Definition decode_supersede (packet : RuntimePacket.t) : Async t NnrpClientEvent.t :=
  _ ← check (require_session_packet packet "client received supersede for another session");
  _ ← lift (require_metadata_len packet SUPERSEDE_METADATA_LEN
              "client received malformed SUPERSEDE metadata length");
  metadata ← lift (protocol (SupersedeMetadata.parse (RuntimePacket.metadata packet)));
  _ ← lift (require_body_len (len (RuntimePacket.body packet))
              (SupersedeMetadata.diagnostic_bytes metadata)
              "client received SUPERSEDE diagnostic body length mismatch");
  _ ← check (require_operation_frame (SupersedeMetadata.old_operation_id metadata)
               (packet_frame packet));
  _ ← check ensure_pending_role_capacity;
  _ ← complete_local_operation (SupersedeMetadata.old_operation_id metadata)
        OperationState.Superseded;
  mret (NnrpClientEvent.Supersede metadata (RuntimePacket.body packet)).

Definition decode_budget (packet : RuntimePacket.t) : Async t NnrpClientEvent.t :=
  _ ← check (require_session_packet packet "client received budget update for another session");
  _ ← lift (require_bodyless packet BUDGET_METADATA_LEN
              "client received malformed BUDGET_UPDATE lengths");
  metadata ← lift (protocol (BudgetMetadata.parse (RuntimePacket.metadata packet)));
  _ ← check (require_operation_frame (BudgetMetadata.operation_id metadata) (packet_frame packet));
  mret (NnrpClientEvent.Budget metadata).

Definition decode_flow_update (packet : RuntimePacket.t) : Async t NnrpClientEvent.t :=
  _ ← lift (require_bodyless packet FLOW_UPDATE_METADATA_LEN
              "client received malformed FLOW_UPDATE lengths");
  metadata ← lift (protocol (FlowUpdateMetadata.parse (RuntimePacket.metadata packet)));
  _ ← check (fun self => protocol (ConnectionLifecycle.validate_flow_update (lifecycle self)
               (RuntimePacket.header packet) metadata));
  mret (NnrpClientEvent.FlowUpdate metadata).

Definition decode_pressure (packet : RuntimePacket.t) : Async t NnrpClientEvent.t :=
  _ ← check (require_optional_session_packet packet
               "client received pressure update for another session");
  _ ← lift (require_metadata_len packet PRESSURE_METADATA_LEN
              "client received malformed pressure metadata length");
  metadata ← lift (protocol (PressureMetadata.parse (RuntimePacket.metadata packet)));
  _ ← lift (protocol (validate_pressure_semantics (packet_type packet) metadata));
  _ ← on_pressure (RuntimePressureState.apply_inbound (packet_type packet) metadata);
  lift (match packet_type packet with
        | MessageType.Backpressure => Ok (NnrpClientEvent.Backpressure metadata)
        | MessageType.CreditUpdate => Ok (NnrpClientEvent.CreditUpdate metadata)
        | _ => Panic
        end).

Section decode.
Context `{Htarget : Target}.

Definition decode_capability (packet : RuntimePacket.t) : Async t NnrpClientEvent.t :=
  _ ← check (require_optional_session_packet packet
               "client received capability update for another session");
  _ ← lift (require_metadata_len packet CAPABILITY_METADATA_LEN
              "client received malformed capability metadata length");
  metadata ← lift (protocol (CapabilityMetadata.parse (RuntimePacket.metadata packet)));
  _ ← lift (require_body_len (len (RuntimePacket.body packet))
              (CapabilityMetadata.body_bytes metadata)
              "client received capability body length mismatch");
  _ ← lift (protocol (decode_registered_capability_tokens (RuntimePacket.body packet)
              (CapabilityMetadata.capability_count metadata) []));
  mret (NnrpClientEvent.Capability (packet_type packet) metadata (RuntimePacket.body packet)).

Definition decode_route_hint (packet : RuntimePacket.t) : Async t NnrpClientEvent.t :=
  _ ← check (require_optional_session_packet packet
               "client received route hint for another session");
  _ ← lift (require_metadata_len packet ROUTE_HINT_METADATA_LEN
              "client received malformed route hint metadata length");
  metadata ← lift (protocol (RouteHintMetadata.parse (RuntimePacket.metadata packet)));
  _ ← lift (require_body_len (len (RuntimePacket.body packet))
              (RouteHintMetadata.body_bytes metadata)
              "client received route hint body length mismatch");
  _ ← check (require_operation_frame (RouteHintMetadata.operation_id metadata)
               (packet_frame packet));
  mret (NnrpClientEvent.RouteHint (packet_type packet) metadata (RuntimePacket.body packet)).

Definition decode_object_declare (packet : RuntimePacket.t) : Async t NnrpClientEvent.t :=
  _ ← check (require_session_packet packet
               "client received object declaration for another session");
  _ ← lift (require_metadata_len packet OBJECT_DESCRIPTOR_METADATA_LEN
              "client received malformed OBJECT_DECLARE metadata length");
  metadata ← lift (protocol (ObjectDescriptorMetadata.parse (RuntimePacket.metadata packet)));
  _ ← lift (require_body_len (len (RuntimePacket.body packet))
              (ObjectDescriptorMetadata.metadata_bytes metadata)
              "client received OBJECT_DECLARE body length mismatch");
  mret (NnrpClientEvent.ObjectDeclare metadata (RuntimePacket.body packet)).

Definition decode_object_ref (packet : RuntimePacket.t) : Async t NnrpClientEvent.t :=
  _ ← check (require_session_packet packet "client received object reference for another session");
  _ ← lift (require_metadata_len packet OBJECT_REFERENCE_METADATA_LEN
              "client received malformed OBJECT_REF metadata length");
  metadata ← lift (protocol (ObjectReferenceMetadata.parse (RuntimePacket.metadata packet)));
  _ ← lift (require_body_len (len (RuntimePacket.body packet))
              (ObjectReferenceMetadata.metadata_bytes metadata)
              "client received OBJECT_REF body length mismatch");
  _ ← check (require_operation_frame (ObjectReferenceMetadata.operation_id metadata)
               (packet_frame packet));
  mret (NnrpClientEvent.ObjectRef metadata (RuntimePacket.body packet)).

Definition decode_object_release (packet : RuntimePacket.t) : Async t NnrpClientEvent.t :=
  _ ← check (require_session_packet packet "client received object release for another session");
  _ ← lift (require_metadata_len packet OBJECT_RELEASE_METADATA_LEN
              "client received malformed OBJECT_RELEASE metadata length");
  metadata ← lift (protocol (ObjectReleaseMetadata.parse (RuntimePacket.metadata packet)));
  _ ← lift (require_body_len (len (RuntimePacket.body packet))
              (ObjectReleaseMetadata.diagnostic_bytes metadata)
              "client received OBJECT_RELEASE body length mismatch");
  _ ← check (require_operation_frame (ObjectReleaseMetadata.operation_id metadata)
               (packet_frame packet));
  mret (NnrpClientEvent.ObjectRelease metadata (RuntimePacket.body packet)).

Definition decode_object_delta (packet : RuntimePacket.t) : Async t NnrpClientEvent.t :=
  _ ← check (require_session_packet packet "client received object delta for another session");
  _ ← lift (require_metadata_len packet OBJECT_DELTA_METADATA_LEN
              "client received malformed object delta metadata length");
  metadata ← lift (protocol (ObjectDeltaMetadata.parse (RuntimePacket.metadata packet)));
  let expected_body_len :=
    saturating_add u32_max (ObjectDeltaMetadata.metadata_bytes metadata)
      (ObjectDeltaMetadata.delta_bytes metadata) in
  _ ← lift (require_body_len (len (RuntimePacket.body packet)) expected_body_len
              "client received object delta body length mismatch");
  mret (NnrpClientEvent.ObjectDelta (packet_type packet) metadata (RuntimePacket.body packet)).

Definition decode_cache_reference (packet : RuntimePacket.t) : Async t NnrpClientEvent.t :=
  _ ← check (require_session_packet packet "client received cache reference for another session");
  _ ← lift (require_metadata_len packet CACHE_REFERENCE_METADATA_LEN
              "client received malformed CACHE_REFERENCE metadata length");
  metadata ← lift (protocol (CacheReferenceMetadata.parse (RuntimePacket.metadata packet)));
  _ ← lift (require_body_len (len (RuntimePacket.body packet))
              (CacheReferenceMetadata.metadata_bytes metadata)
              "client received CACHE_REFERENCE body length mismatch");
  mret (NnrpClientEvent.CacheReference metadata (RuntimePacket.body packet)).

Definition decode_cache_miss (packet : RuntimePacket.t) : Async t NnrpClientEvent.t :=
  _ ← check (require_session_packet packet "client received cache miss for another session");
  _ ← lift (require_metadata_len packet CACHE_MISS_METADATA_LEN
              "client received malformed CACHE_MISS metadata length");
  metadata ← lift (protocol (CacheMissMetadata.parse (RuntimePacket.metadata packet)));
  _ ← lift (require_body_len (len (RuntimePacket.body packet))
              (CacheMissMetadata.diagnostic_bytes metadata)
              "client received CACHE_MISS body length mismatch");
  mret (NnrpClientEvent.CacheMiss metadata (RuntimePacket.body packet)).

Definition decode_cache_invalidate (packet : RuntimePacket.t) : Async t NnrpClientEvent.t :=
  _ ← check (require_session_packet packet "client received cache invalidate for another session");
  _ ← lift (require_bodyless packet CACHE_INVALIDATE_METADATA_LEN
              "client received malformed CACHE_INVALIDATE lengths");
  metadata ← lift (protocol (CacheInvalidateMetadata.parse (RuntimePacket.metadata packet)));
  mret (NnrpClientEvent.CacheInvalidate metadata).

Definition decode_trace_context (packet : RuntimePacket.t) : Async t NnrpClientEvent.t :=
  _ ← check (require_optional_session_packet packet
               "client received trace context for another session");
  _ ← lift (require_metadata_len packet TRACE_CONTEXT_METADATA_LEN
              "client received malformed TRACE_CONTEXT metadata length");
  metadata ← lift (protocol (TraceContextMetadata.parse (RuntimePacket.metadata packet)));
  _ ← lift (protocol (validate_trace_context_semantics metadata));
  _ ← check (require_trace_context_frame (packet_frame packet));
  let trace_id := CommonHeader.trace_id (RuntimePacket.header packet) in
  _ ← lift (reject_if (negb (trace_id =? 0) && negb (trace_id =? TraceContextMetadata.trace_id metadata))
              (UnexpectedMessage "client TRACE_CONTEXT header trace id does not match metadata"));
  _ ← lift (require_body_len (len (RuntimePacket.body packet))
              (TraceContextMetadata.body_bytes metadata)
              "client received TRACE_CONTEXT body length mismatch");
  mret (NnrpClientEvent.TraceContext (packet_frame packet) metadata (RuntimePacket.body packet)).

Definition decode_recoverable_error (packet : RuntimePacket.t) : Async t NnrpClientEvent.t :=
  _ ← check (require_optional_session_packet packet
               "client received recoverable error for another session");
  _ ← lift (require_metadata_len packet RECOVERABLE_ERROR_METADATA_LEN
              "client received malformed ERROR_RECOVERABLE metadata length");
  metadata ← lift (protocol (RecoverableErrorMetadata.parse (RuntimePacket.metadata packet)));
  _ ← lift (require_body_len (len (RuntimePacket.body packet))
              (RecoverableErrorMetadata.diagnostic_bytes metadata)
              "client received ERROR_RECOVERABLE diagnostic body length mismatch");
  mret (NnrpClientEvent.RecoverableError metadata (RuntimePacket.body packet)).

Definition decode_retry_after (packet : RuntimePacket.t) : Async t NnrpClientEvent.t :=
  _ ← check (require_optional_session_packet packet
               "client received retry-after for another session");
  _ ← lift (require_metadata_len packet RETRY_AFTER_METADATA_LEN
              "client received malformed RETRY_AFTER metadata length");
  metadata ← lift (protocol (RetryAfterMetadata.parse (RuntimePacket.metadata packet)));
  _ ← lift (require_body_len (len (RuntimePacket.body packet))
              (RetryAfterMetadata.diagnostic_bytes metadata)
              "client received RETRY_AFTER diagnostic body length mismatch");
  mret (NnrpClientEvent.RetryAfter metadata (RuntimePacket.body packet)).

Definition decode_result_hint (packet : RuntimePacket.t) : Async t NnrpClientEvent.t :=
  _ ← check (require_session_packet packet "client received result hint for another session");
  _ ← lift (require_bodyless packet RESULT_HINT_METADATA_LEN
              "client received malformed RESULT_HINT payload");
  metadata ← lift (protocol (ResultHintMetadata.parse (RuntimePacket.metadata packet)));
  mret (NnrpClientEvent.ResultHint metadata).

Definition decode_event (packet : RuntimePacket.t) : Async t NnrpClientEvent.t :=
  match packet_type packet with
  | MessageType.ResultPush => decode_result_push packet
  | MessageType.ResultDrop => decode_result_drop packet
  | MessageType.ResultDropReason => decode_result_drop_reason packet
  | MessageType.PartialResult => decode_partial_result packet
  | MessageType.Progress => decode_progress packet
  | MessageType.Cancel | MessageType.Abort => decode_control packet
  | MessageType.PriorityUpdate | MessageType.Deadline | MessageType.ExpireAt =>
      decode_scheduling packet
  | MessageType.Supersede => decode_supersede packet
  | MessageType.BudgetUpdate => decode_budget packet
  | MessageType.FlowUpdate => decode_flow_update packet
  | MessageType.Backpressure | MessageType.CreditUpdate => decode_pressure packet
  | MessageType.CapabilityNegotiation | MessageType.DegradeProfile => decode_capability packet
  | MessageType.RouteHint | MessageType.ExecutionHint => decode_route_hint packet
  | MessageType.ObjectDeclare => decode_object_declare packet
  | MessageType.ObjectRef => decode_object_ref packet
  | MessageType.ObjectRelease => decode_object_release packet
  | MessageType.ObjectPatch | MessageType.ObjectDelta => decode_object_delta packet
  | MessageType.CacheReference => decode_cache_reference packet
  | MessageType.CacheMiss => decode_cache_miss packet
  | MessageType.CacheInvalidate => decode_cache_invalidate packet
  | MessageType.TraceContext => decode_trace_context packet
  | MessageType.ErrorRecoverable => decode_recoverable_error packet
  | MessageType.RetryAfter => decode_retry_after packet
  | MessageType.ResultHint => decode_result_hint packet
  | _ => lift (unexpected "client expected a runtime result or control event")
  end.

Definition decode_event_packet (packet : RuntimePacket.t)
    : Async t (NnrpClientEvent.t * RuntimePacket.t) :=
  event ← decode_event packet;
  mret (event, packet).

(** *** Sending *)

(** [header.session_id = ..; header.frame_id = ..]. *)
Definition address (header : CommonHeader.t) (session_id frame_id : Z) : CommonHeader.t := {|
  CommonHeader.version_major := CommonHeader.version_major header;
  CommonHeader.wire_format := CommonHeader.wire_format header;
  CommonHeader.message_type := CommonHeader.message_type header;
  CommonHeader.header_len := CommonHeader.header_len header;
  CommonHeader.flags := CommonHeader.flags header;
  CommonHeader.meta_len := CommonHeader.meta_len header;
  CommonHeader.body_len := CommonHeader.body_len header;
  CommonHeader.session_id := session_id;
  CommonHeader.frame_id := frame_id;
  CommonHeader.view_id := CommonHeader.view_id header;
  CommonHeader.route_id := CommonHeader.route_id header;
  CommonHeader.trace_id := CommonHeader.trace_id header |}.

(** [header.flags = ..; header.view_id = ..; header.route_id = ..; header.trace_id = ..]. *)
Definition set_context (header : CommonHeader.t) (context : NnrpSubmitHeaderContext.t)
    : CommonHeader.t := {|
  CommonHeader.version_major := CommonHeader.version_major header;
  CommonHeader.wire_format := CommonHeader.wire_format header;
  CommonHeader.message_type := CommonHeader.message_type header;
  CommonHeader.header_len := CommonHeader.header_len header;
  CommonHeader.flags := NnrpSubmitHeaderContext.flags context;
  CommonHeader.meta_len := CommonHeader.meta_len header;
  CommonHeader.body_len := CommonHeader.body_len header;
  CommonHeader.session_id := CommonHeader.session_id header;
  CommonHeader.frame_id := CommonHeader.frame_id header;
  CommonHeader.view_id := NnrpSubmitHeaderContext.view_id context;
  CommonHeader.route_id := NnrpSubmitHeaderContext.route_id context;
  CommonHeader.trace_id := NnrpSubmitHeaderContext.trace_id context |}.

(** [value as u32] from [usize]. *)
Definition as_u32 (value : Z) : Z := value mod 2 ^ 32.

(** [self.transport.write_packet(&RuntimePacket::new(header, metadata, body)?).await]. *)
Definition write_parts (header : CommonHeader.t) (metadata : R bytes) (body : bytes)
    : Async t unit :=
  metadata ← lift (protocol metadata);
  packet ← lift (protocol (RuntimePacket.new header metadata body));
  write_packet packet.

Definition write_runtime_packet (message_type : MessageType.t) (frame_id : Z) (metadata body : bytes)
    : Async t unit :=
  session_id ← gets session_id;
  let header := address (CommonHeader.new message_type (as_u32 (len metadata)) (as_u32 (len body)))
                  session_id frame_id in
  packet ← lift (protocol (RuntimePacket.new header metadata body));
  write_packet packet.

(** [write_runtime_packet] with metadata still to be encoded. *)
Definition send (message_type : MessageType.t) (frame_id : Z) (metadata : R bytes) (body : bytes)
    : Async t unit :=
  metadata ← lift (protocol metadata);
  write_runtime_packet message_type frame_id metadata body.

Definition submit_nowait (now_unix_ms : Z) (request : NnrpSubmitRequest.t) : Async t Z :=
  let frame_id := NnrpSubmitRequest.frame_id request in
  let metadata := NnrpSubmitRequest.metadata request in
  let operation_id := FrameSubmitMetadata.operation_id metadata in
  let body := NnrpSubmitRequest.body request in
  _ ← check (fun self => reject_if ((frame_id =? 0) || (frame_id <? next_frame_id self))
        (UnexpectedMessage "client frame id must not be zero, reused, or moved backward"));
  _ ← check (fun self =>
        reject_if ((operation_id =? 0) || bool_decide (operation_id ∈ seen_operation_ids self))
          (UnexpectedMessage "client operation id must not be zero or reused"));
  next_frame_id ← lift (ok_or (checked_add u32_max frame_id 1) FrameIdOverflow);
  _ ← on_deadlines (PreSubmitDeadlineReservations.take_for_submit operation_id frame_id now_unix_ms);
  session_id ← gets session_id;
  let header := CommonHeader.new MessageType.FrameSubmit (Z.of_nat FRAME_SUBMIT_METADATA_LEN)
                  (as_u32 (len body)) in
  let header := set_context (address header session_id frame_id) (NnrpSubmitRequest.header request) in
  _ ← write_parts header (FrameSubmitMetadata.to_bytes metadata) body;
  _ ← modify (fun self =>
        mk (NnrpClientSession.session_id self) next_frame_id
          (<[operation_id := frame_id]> (operation_frames self))
          (<[frame_id := operation_id]> (frame_operations self))
          (local_operation_states self) (pending_terminal_controls self)
          ({[operation_id]} ∪ seen_operation_ids self) (pre_submit_deadlines self)
          (Z.max (last_operation_id self) operation_id) (transport self) (lifecycle self)
          (pressure self) (pending_events self) (pending_role_events self) (recovery_ticket self));
  mret frame_id.

Definition submit (now_unix_ms : Z) (request : NnrpSubmitRequest.t) : Async t Z :=
  submit_nowait now_unix_ms request.

Definition submit_encoded_with_frame_id (now_unix_ms frame_id : Z) (metadata : FrameSubmitMetadata.t)
    (body : bytes) : Async t Z :=
  submit_nowait now_unix_ms
    {| NnrpSubmitRequest.operation_id := FrameSubmitMetadata.operation_id metadata;
       NnrpSubmitRequest.frame_id := frame_id;
       NnrpSubmitRequest.header := NnrpSubmitHeaderContext.default;
       NnrpSubmitRequest.metadata := metadata;
       NnrpSubmitRequest.body := body |}.

Definition submit_encoded (now_unix_ms : Z) (metadata : FrameSubmitMetadata.t) (body : bytes)
    : Async t Z :=
  frame_id ← gets next_frame_id;
  submit_encoded_with_frame_id now_unix_ms frame_id metadata body.

Definition send_progress (metadata : ProgressMetadata.t) (body : bytes) : Async t unit :=
  _ ← lift (protocol (validate_progress_semantics metadata));
  _ ← lift (require_body_len (len body) (ProgressMetadata.body_bytes metadata)
              "client PROGRESS body length mismatch");
  frame_id ← check (correlated_frame_id (ProgressMetadata.operation_id metadata));
  _ ← check (require_outbound_nonterminal_operation (ProgressMetadata.operation_id metadata)
               "client PROGRESS references a terminal operation");
  send MessageType.Progress frame_id (ProgressMetadata.to_bytes metadata) body.

Definition send_partial_result (metadata : PartialResultMetadata.t) (body : bytes) : Async t unit :=
  _ ← lift (protocol (validate_partial_result_semantics metadata));
  _ ← lift (require_body_len (len body) (PartialResultMetadata.body_bytes metadata)
              "client PARTIAL_RESULT body length mismatch");
  frame_id ← check (correlated_frame_id (PartialResultMetadata.operation_id metadata));
  _ ← check (require_outbound_nonterminal_operation (PartialResultMetadata.operation_id metadata)
               "client PARTIAL_RESULT references a terminal operation");
  send MessageType.PartialResult frame_id (PartialResultMetadata.to_bytes metadata) body.

Definition send_result_drop_reason (metadata : ResultDropReasonMetadata.t) (diagnostics : bytes)
    : Async t unit :=
  _ ← lift (protocol (validate_result_drop_reason_semantics metadata));
  _ ← lift (require_body_len (len diagnostics) (ResultDropReasonMetadata.diagnostic_bytes metadata)
              "client RESULT_DROP_REASON diagnostic body length mismatch");
  frame_id ← check (correlated_frame_id (ResultDropReasonMetadata.operation_id metadata));
  send MessageType.ResultDropReason frame_id (ResultDropReasonMetadata.to_bytes metadata) diagnostics.

Definition send_backpressure (metadata : PressureMetadata.t) : Async t unit :=
  _ ← lift (protocol (validate_pressure_semantics MessageType.Backpressure metadata));
  _ ← on_pressure (RuntimePressureState.apply_outbound MessageType.Backpressure metadata);
  send MessageType.Backpressure 0 (PressureMetadata.to_bytes metadata) [].

Definition send_flow_update (metadata : FlowUpdateMetadata.t) : Async t unit :=
  session_id ← gets session_id;
  let header := CommonHeader.new MessageType.FlowUpdate (Z.of_nat FLOW_UPDATE_METADATA_LEN) 0 in
  let header :=
    match FlowUpdateMetadata.scope_kind metadata with
    | FlowScopeKind.Connection => header
    | _ => address header session_id (CommonHeader.frame_id header)
    end in
  _ ← lift (protocol (FlowUpdateMetadata.validate_routing metadata header));
  write_parts header (FlowUpdateMetadata.to_bytes metadata) [].

Definition send_control_request_with_diagnostics (message_type : MessageType.t)
    (metadata : ControlRequestMetadata.t) (diagnostics : bytes) : Async t unit :=
  let operation_id := ControlRequestMetadata.operation_id metadata in
  _ ← lift (protocol (validate_control_request_semantics message_type metadata));
  _ ← lift (require_body_len (len diagnostics) (ControlRequestMetadata.diagnostic_bytes metadata)
              "client runtime control diagnostic body length mismatch");
  pending_state ← lift (control_state message_type);
  _ ← (if negb (operation_id =? 0)
       then
         _ ← check (correlated_frame_id operation_id);
         _ ← check (fun self =>
               reject_if
                 ((MAX_PENDING_CLIENT_EVENTS <=? Z.of_nat (size (pending_terminal_controls self)))
                  && negb (is_some (pending_terminal_controls self !! operation_id)))
                 (UnexpectedMessage "client pending terminal control queue exceeded its limit"));
         check (fun self =>
           match (match pending_terminal_controls self !! operation_id with
                  | Some current => Some current
                  | None => local_operation_states self !! operation_id
                  end) with
           | Some current => Err (Protocol (InvalidOperationTransition current pending_state))
           | None => Ok tt
           end)
       else mret tt);
  session_id ← gets session_id;
  frame_id ← check (correlated_frame_id operation_id);
  let header := address (CommonHeader.new message_type (Z.of_nat CONTROL_REQUEST_METADATA_LEN)
                           (as_u32 (len diagnostics))) session_id frame_id in
  _ ← write_parts header (ControlRequestMetadata.to_bytes metadata) diagnostics;
  if operation_id =? 0 then mret tt
  else modify (fun self =>
         set_tables self (operation_frames self) (frame_operations self)
           (local_operation_states self)
           (<[operation_id := pending_state]> (pending_terminal_controls self))).

Definition send_control_request (message_type : MessageType.t) (metadata : ControlRequestMetadata.t)
    : Async t unit :=
  send_control_request_with_diagnostics message_type metadata [].

Definition cancel_operation (operation_id reason_code : Z) : Async t unit :=
  send_control_request MessageType.Cancel
    {| ControlRequestMetadata.operation_id := operation_id;
       ControlRequestMetadata.control_sequence := operation_id;
       ControlRequestMetadata.reason_code := reason_code;
       ControlRequestMetadata.source_role := 1;
       ControlRequestMetadata.flags := CONTROL_REQUEST_FLAG_COOPERATIVE_ALLOWED;
       ControlRequestMetadata.diagnostic_bytes := 0 |}.

Definition abort_operation (operation_id reason_code : Z) : Async t unit :=
  send_control_request MessageType.Abort
    {| ControlRequestMetadata.operation_id := operation_id;
       ControlRequestMetadata.control_sequence := operation_id;
       ControlRequestMetadata.reason_code := reason_code;
       ControlRequestMetadata.source_role := 1;
       ControlRequestMetadata.flags := CONTROL_REQUEST_FLAG_HARD_ABORT_ALLOWED;
       ControlRequestMetadata.diagnostic_bytes := 0 |}.

Definition send_scheduling_update (message_type : MessageType.t) (metadata : SchedulingMetadata.t)
    : Async t unit :=
  _ ← lift (protocol (validate_scheduling_semantics message_type metadata));
  session_id ← gets session_id;
  frame_id ← check (correlated_frame_id (SchedulingMetadata.operation_id metadata));
  let header := address (CommonHeader.new message_type (Z.of_nat SCHEDULING_METADATA_LEN) 0)
                  session_id frame_id in
  write_parts header (SchedulingMetadata.to_bytes metadata) [].

Definition update_priority (operation_id priority_class priority_delta : Z) : Async t unit :=
  send_scheduling_update MessageType.PriorityUpdate
    {| SchedulingMetadata.operation_id := operation_id;
       SchedulingMetadata.control_sequence := operation_id;
       SchedulingMetadata.priority_class := priority_class;
       SchedulingMetadata.priority_delta := priority_delta;
       SchedulingMetadata.deadline_unix_ms := 0;
       SchedulingMetadata.flags := 0 |}.

Definition update_deadline (operation_id deadline_unix_ms : Z) : Async t unit :=
  send_scheduling_update MessageType.Deadline
    {| SchedulingMetadata.operation_id := operation_id;
       SchedulingMetadata.control_sequence := operation_id;
       SchedulingMetadata.priority_class := 0;
       SchedulingMetadata.priority_delta := 0;
       SchedulingMetadata.deadline_unix_ms := deadline_unix_ms;
       SchedulingMetadata.flags :=
         Z.lor SCHEDULING_FLAG_DISCARD_STALE SCHEDULING_FLAG_EMIT_DROP_REASON |}.

Definition expire_at (operation_id deadline_unix_ms : Z) : Async t unit :=
  send_scheduling_update MessageType.ExpireAt
    {| SchedulingMetadata.operation_id := operation_id;
       SchedulingMetadata.control_sequence := operation_id;
       SchedulingMetadata.priority_class := 0;
       SchedulingMetadata.priority_delta := 0;
       SchedulingMetadata.deadline_unix_ms := deadline_unix_ms;
       SchedulingMetadata.flags :=
         Z.lor SCHEDULING_FLAG_DISCARD_STALE SCHEDULING_FLAG_EMIT_DROP_REASON |}.

(** [let result = write.await; if result.is_err() { discard } result]. *)
Definition write_or_discard (packet : RuntimePacket.t) (operation_id frame_id : Z) : Async t unit :=
  fun self =>
    match write_packet packet self with
    | (Ready (Err e), self) =>
        (Ready (Err e),
         set_pre_submit_deadlines self
           (PreSubmitDeadlineReservations.discard operation_id frame_id (pre_submit_deadlines self)))
    | r => r
    end.

(** The reservation of a deadline that could not be sent is taken back.  The [?] on the
    encoding and on the packet return without that. *)
Definition send_reserved_deadline (message_type : MessageType.t) (frame_id : Z)
    (metadata : SchedulingMetadata.t) : Async t unit :=
  session_id ← gets session_id;
  let header := address (CommonHeader.new message_type (Z.of_nat SCHEDULING_METADATA_LEN) 0)
                  session_id frame_id in
  metadata_bytes ← lift (protocol (SchedulingMetadata.to_bytes metadata));
  packet ← lift (protocol (RuntimePacket.new header metadata_bytes []));
  write_or_discard packet (SchedulingMetadata.operation_id metadata) frame_id.

Definition send_scheduling_update_for_frame (now_unix_ms : Z) (message_type : MessageType.t)
    (frame_id : Z) (metadata : SchedulingMetadata.t) : Async t unit :=
  let operation_id := SchedulingMetadata.operation_id metadata in
  _ ← lift (protocol (validate_scheduling_semantics message_type metadata));
  known ← gets (fun self => operation_frames self !! operation_id);
  match known with
  | Some expected_frame_id =>
      if negb (expected_frame_id =? frame_id)
      then lift (unexpected "client scheduling frame id does not match its operation")
      else send_scheduling_update message_type metadata
  | None =>
      _ ← lift (reject_if (negb (bool_decide (message_type = MessageType.Deadline)))
                  (Protocol (UnknownOperation operation_id)));
      _ ← check (fun self => reject_if ((frame_id =? 0) || (frame_id <? next_frame_id self))
            (UnexpectedMessage "client frame id must not be zero, reused, or moved backward"));
      _ ← check (fun self =>
            reject_if ((operation_id =? 0) || bool_decide (operation_id ∈ seen_operation_ids self))
              (UnexpectedMessage "client operation id must not be zero or reused"));
      _ ← on_deadlines (PreSubmitDeadlineReservations.reserve frame_id metadata now_unix_ms);
      send_reserved_deadline message_type frame_id metadata
  end.

Definition send_credit_update (metadata : PressureMetadata.t) : Async t unit :=
  _ ← lift (protocol (validate_pressure_semantics MessageType.CreditUpdate metadata));
  _ ← on_pressure (RuntimePressureState.apply_outbound MessageType.CreditUpdate metadata);
  session_id ← gets session_id;
  let header := address (CommonHeader.new MessageType.CreditUpdate (Z.of_nat PRESSURE_METADATA_LEN) 0)
                  session_id 0 in
  write_parts header (PressureMetadata.to_bytes metadata) [].

Definition supersede_operation (metadata : SupersedeMetadata.t) (diagnostics : bytes) : Async t unit :=
  _ ← lift (require_body_len (len diagnostics) (SupersedeMetadata.diagnostic_bytes metadata)
              "client supersede diagnostic body length mismatch");
  _ ← check ensure_pending_role_capacity;
  frame_id ← check (correlated_frame_id (SupersedeMetadata.old_operation_id metadata));
  _ ← send MessageType.Supersede frame_id (SupersedeMetadata.to_bytes metadata) diagnostics;
  complete_local_operation (SupersedeMetadata.old_operation_id metadata) OperationState.Superseded.

Definition update_budget (metadata : BudgetMetadata.t) : Async t unit :=
  frame_id ← check (correlated_frame_id (BudgetMetadata.operation_id metadata));
  send MessageType.BudgetUpdate frame_id (BudgetMetadata.to_bytes metadata) [].

Definition send_capability (message_type : MessageType.t) (metadata : CapabilityMetadata.t)
    (body : bytes) : Async t unit :=
  _ ← lift (match message_type with
            | MessageType.CapabilityNegotiation | MessageType.DegradeProfile => Ok tt
            | _ => unexpected
                "client capability send requires CAPABILITY_NEGOTIATION or DEGRADE_PROFILE"
            end);
  _ ← lift (require_body_len (len body) (CapabilityMetadata.body_bytes metadata)
              "client capability body length mismatch");
  _ ← lift (protocol (decode_registered_capability_tokens body
              (CapabilityMetadata.capability_count metadata) []));
  send message_type 0 (CapabilityMetadata.to_bytes metadata) body.

Definition send_route_hint (message_type : MessageType.t) (metadata : RouteHintMetadata.t)
    (body : bytes) : Async t unit :=
  _ ← lift (match message_type with
            | MessageType.RouteHint | MessageType.ExecutionHint => Ok tt
            | _ => unexpected "client route hint send requires ROUTE_HINT or EXECUTION_HINT"
            end);
  _ ← lift (require_body_len (len body) (RouteHintMetadata.body_bytes metadata)
              "client route hint body length mismatch");
  frame_id ← check (correlated_frame_id (RouteHintMetadata.operation_id metadata));
  send message_type frame_id (RouteHintMetadata.to_bytes metadata) body.

(** [header.trace_id = ..]. *)
Definition set_trace (header : CommonHeader.t) (trace_id : Z) : CommonHeader.t :=
  set_context header
    (NnrpSubmitHeaderContext.mk (CommonHeader.flags header) (CommonHeader.view_id header)
       (CommonHeader.route_id header) trace_id).

Definition send_trace_context (frame_id : Z) (metadata : TraceContextMetadata.t) (body : bytes)
    : Async t unit :=
  _ ← lift (protocol (validate_trace_context_semantics metadata));
  _ ← lift (require_body_len (len body) (TraceContextMetadata.body_bytes metadata)
              "client trace context body length mismatch");
  _ ← check (require_outbound_trace_context_frame frame_id);
  session_id ← gets session_id;
  let header := CommonHeader.new MessageType.TraceContext (Z.of_nat TRACE_CONTEXT_METADATA_LEN)
                  (as_u32 (len body)) in
  let header := set_trace (address header session_id frame_id)
                  (TraceContextMetadata.trace_id metadata) in
  write_parts header (TraceContextMetadata.to_bytes metadata) body.

Definition send_recoverable_error (metadata : RecoverableErrorMetadata.t) (diagnostics : bytes)
    : Async t unit :=
  _ ← lift (require_body_len (len diagnostics) (RecoverableErrorMetadata.diagnostic_bytes metadata)
              "client recoverable error diagnostic body length mismatch");
  send MessageType.ErrorRecoverable (RecoverableErrorMetadata.related_frame_id metadata)
    (RecoverableErrorMetadata.to_bytes metadata) diagnostics.

Definition send_retry_after (metadata : RetryAfterMetadata.t) (diagnostics : bytes) : Async t unit :=
  _ ← lift (require_body_len (len diagnostics) (RetryAfterMetadata.diagnostic_bytes metadata)
              "client retry-after diagnostic body length mismatch");
  send MessageType.RetryAfter 0 (RetryAfterMetadata.to_bytes metadata) diagnostics.

Definition send_object_declare (metadata : ObjectDescriptorMetadata.t) (body : bytes) : Async t unit :=
  _ ← lift (require_body_len (len body) (ObjectDescriptorMetadata.metadata_bytes metadata)
              "client OBJECT_DECLARE body length mismatch");
  send MessageType.ObjectDeclare 0 (ObjectDescriptorMetadata.to_bytes metadata) body.

Definition send_object_ref (metadata : ObjectReferenceMetadata.t) (body : bytes) : Async t unit :=
  _ ← lift (require_body_len (len body) (ObjectReferenceMetadata.metadata_bytes metadata)
              "client OBJECT_REF body length mismatch");
  frame_id ← check (correlated_frame_id (ObjectReferenceMetadata.operation_id metadata));
  send MessageType.ObjectRef frame_id (ObjectReferenceMetadata.to_bytes metadata) body.

Definition send_object_release (metadata : ObjectReleaseMetadata.t) (diagnostics : bytes)
    : Async t unit :=
  _ ← lift (require_body_len (len diagnostics) (ObjectReleaseMetadata.diagnostic_bytes metadata)
              "client OBJECT_RELEASE diagnostic body length mismatch");
  frame_id ← check (correlated_frame_id (ObjectReleaseMetadata.operation_id metadata));
  send MessageType.ObjectRelease frame_id (ObjectReleaseMetadata.to_bytes metadata) diagnostics.

Definition send_object_delta (message_type : MessageType.t) (metadata : ObjectDeltaMetadata.t)
    (body : bytes) : Async t unit :=
  _ ← lift (match message_type with
            | MessageType.ObjectPatch | MessageType.ObjectDelta => Ok tt
            | _ => unexpected "client object delta send requires OBJECT_PATCH or OBJECT_DELTA"
            end);
  let expected_body_len :=
    saturating_add u32_max (ObjectDeltaMetadata.metadata_bytes metadata)
      (ObjectDeltaMetadata.delta_bytes metadata) in
  _ ← lift (require_body_len (len body) expected_body_len
              "client object delta body length mismatch");
  send message_type 0 (ObjectDeltaMetadata.to_bytes metadata) body.

Definition send_cache_put (metadata : CachePutMetadata.t) (body : bytes) : Async t unit :=
  _ ← lift (require_body_len (len body) (CachePutMetadata.object_bytes metadata)
              "client CACHE_PUT body length mismatch");
  send MessageType.CachePut 0 (CachePutMetadata.to_bytes metadata) body.

Definition send_cache_ack (metadata : CacheAckMetadata.t) : Async t unit :=
  send MessageType.CacheAck 0 (CacheAckMetadata.to_bytes metadata) [].

Definition send_ping : Async t unit := write_runtime_packet MessageType.Ping 0 [] [].
Definition send_pong : Async t unit := write_runtime_packet MessageType.Pong 0 [] [].

Definition send_cache_reference (metadata : CacheReferenceMetadata.t) (body : bytes) : Async t unit :=
  _ ← lift (require_body_len (len body) (CacheReferenceMetadata.metadata_bytes metadata)
              "client CACHE_REFERENCE body length mismatch");
  send MessageType.CacheReference 0 (CacheReferenceMetadata.to_bytes metadata) body.

Definition send_cache_miss (metadata : CacheMissMetadata.t) (diagnostics : bytes) : Async t unit :=
  _ ← lift (require_body_len (len diagnostics) (CacheMissMetadata.diagnostic_bytes metadata)
              "client CACHE_MISS diagnostic body length mismatch");
  send MessageType.CacheMiss 0 (CacheMissMetadata.to_bytes metadata) diagnostics.

Definition send_cache_invalidate (metadata : CacheInvalidateMetadata.t) : Async t unit :=
  send MessageType.CacheInvalidate 0 (CacheInvalidateMetadata.to_bytes metadata) [].

Definition cancel_frame (frame_id : Z) : Async t unit :=
  _ ← check ensure_pending_role_capacity;
  operation_id ← check (fun self =>
    ok_or (frame_operations self !! frame_id)
      (UnexpectedMessage "client frame cancel references an unknown frame"));
  session_id ← gets session_id;
  _ ← write_parts (address (CommonHeader.new MessageType.FrameCancel 0 0) session_id frame_id)
        (Ok []) [];
  complete_local_operation operation_id OperationState.Cancelled.

(** The payload of a caller is parsed and sent by its message type. *)
Definition send_runtime_frame (now_unix_ms : Z) (message_type : MessageType.t) (frame_id : Z)
    (payload : bytes) : Async t unit :=
  match message_type with
  | MessageType.FlowUpdate =>
      metadata ← lift (protocol (FlowUpdateMetadata.parse payload));
      send_flow_update metadata
  | MessageType.Progress =>
      '(metadata, body) ← lift (protocol (ProgressMetadata.parse_with_body payload));
      send_progress metadata body
  | MessageType.PartialResult =>
      '(metadata, body) ← lift (protocol (PartialResultMetadata.parse_with_body payload));
      send_partial_result metadata body
  | MessageType.Backpressure =>
      metadata ← lift (protocol (PressureMetadata.parse payload));
      send_backpressure metadata
  | MessageType.ResultDropReason =>
      '(metadata, body) ← lift (protocol (ResultDropReasonMetadata.parse_with_diagnostics payload));
      send_result_drop_reason metadata body
  | MessageType.Cancel | MessageType.Abort =>
      '(metadata, body) ← lift (protocol (ControlRequestMetadata.parse_with_diagnostics payload));
      send_control_request_with_diagnostics message_type metadata body
  | MessageType.PriorityUpdate | MessageType.Deadline | MessageType.ExpireAt =>
      metadata ← lift (protocol (SchedulingMetadata.parse payload));
      send_scheduling_update_for_frame now_unix_ms message_type frame_id metadata
  | MessageType.Supersede =>
      '(metadata, body) ← lift (protocol (SupersedeMetadata.parse_with_diagnostics payload));
      supersede_operation metadata body
  | MessageType.BudgetUpdate =>
      metadata ← lift (protocol (BudgetMetadata.parse payload));
      update_budget metadata
  | MessageType.CreditUpdate =>
      metadata ← lift (protocol (PressureMetadata.parse payload));
      send_credit_update metadata
  | MessageType.CapabilityNegotiation | MessageType.DegradeProfile =>
      '(metadata, body) ← lift (protocol (CapabilityMetadata.parse_with_body payload));
      send_capability message_type metadata body
  | MessageType.RouteHint | MessageType.ExecutionHint =>
      '(metadata, body) ← lift (protocol (RouteHintMetadata.parse_with_body payload));
      send_route_hint message_type metadata body
  | MessageType.TraceContext =>
      '(metadata, body) ← lift (protocol (TraceContextMetadata.parse_with_body payload));
      send_trace_context frame_id metadata body
  | MessageType.ErrorRecoverable =>
      '(metadata, body) ← lift (protocol (RecoverableErrorMetadata.parse_with_diagnostics payload));
      send_recoverable_error metadata body
  | MessageType.RetryAfter =>
      '(metadata, body) ← lift (protocol (RetryAfterMetadata.parse_with_diagnostics payload));
      send_retry_after metadata body
  | MessageType.ObjectDeclare =>
      '(metadata, body) ← lift (protocol (ObjectDescriptorMetadata.parse_with_extension payload));
      send_object_declare metadata body
  | MessageType.ObjectRef =>
      '(metadata, body) ← lift (protocol (ObjectReferenceMetadata.parse_with_extension payload));
      send_object_ref metadata body
  | MessageType.ObjectRelease =>
      '(metadata, body) ← lift (protocol (ObjectReleaseMetadata.parse_with_diagnostics payload));
      send_object_release metadata body
  | MessageType.ObjectPatch | MessageType.ObjectDelta =>
      metadata ← lift (protocol (ObjectDeltaMetadata.parse payload));
      body ← lift (protocol (slice payload OBJECT_DELTA_METADATA_LEN (length payload)));
      send_object_delta message_type metadata body
  | MessageType.CachePut =>
      _ ← lift (reject_if (len payload <? Z.of_nat CACHE_PUT_METADATA_LEN)
                  (UnexpectedMessage "client CACHE_PUT payload is shorter than metadata"));
      metadata_bytes ← lift (protocol (slice payload 0 CACHE_PUT_METADATA_LEN));
      metadata ← lift (protocol (CachePutMetadata.parse metadata_bytes));
      body ← lift (protocol (slice payload CACHE_PUT_METADATA_LEN (length payload)));
      send_cache_put metadata body
  | MessageType.CacheAck =>
      metadata ← lift (protocol (CacheAckMetadata.parse payload));
      send_cache_ack metadata
  | MessageType.CacheReference =>
      '(metadata, body) ← lift (protocol (CacheReferenceMetadata.parse_with_extension payload));
      send_cache_reference metadata body
  | MessageType.CacheMiss =>
      '(metadata, body) ← lift (protocol (CacheMissMetadata.parse_with_diagnostics payload));
      send_cache_miss metadata body
  | MessageType.CacheInvalidate =>
      metadata ← lift (protocol (CacheInvalidateMetadata.parse payload));
      send_cache_invalidate metadata
  | _ => lift (unexpected "client runtime frame direction is unsupported")
  end.

(** *** Receiving *)

(** [self.pending_role_events.pop_front()]. *)
Definition pop_role_event : Async t (option NnrpClientRoleEvent.t) := fun self =>
  match pending_role_events self with
  | [] => (Ready (Ok None), self)
  | event :: rest => (Ready (Ok (Some event)), set_pending_role_events self rest)
  end.

Definition pop_event : Async t (option (NnrpClientEvent.t * RuntimePacket.t)) := fun self =>
  match pending_events self with
  | [] => (Ready (Ok None), self)
  | event :: rest => (Ready (Ok (Some event)), set_pending_events self rest)
  end.

Definition await_client_event_packet : Async t (NnrpClientEvent.t * RuntimePacket.t) :=
  pending ← pop_event;
  match pending with
  | Some event => mret event
  | None =>
      packet ← read_packet;
      decode_event_packet packet
  end.

Definition await_result : Async t NnrpResult.t :=
  pending ← pop_role_event;
  match pending with
  | Some (NnrpClientRoleEvent.Lifecycle event) => lift (NnrpResult.from_lifecycle event)
  | Some (NnrpClientRoleEvent.Runtime _) => lift Panic
  | None =>
      '(event, _) ← await_client_event_packet;
      match event with
      | NnrpClientEvent.Result result => mret result
      | _ => lift (unexpected
               "client expected a terminal result but received another runtime event")
      end
  end.

(** The runtime event of a client event and its packet. *)
Definition runtime_event (item : NnrpClientEvent.t * RuntimePacket.t)
    : RT (NnrpRuntimeEvent.t * RuntimePacket.t) :=
  let (event, packet) := item in
  event ← from_client (wire_header packet) event;
  Ok (event, packet).

Definition await_event_packet : Async t (NnrpRuntimeEvent.t * RuntimePacket.t) :=
  item ← await_client_event_packet;
  lift (runtime_event item).

Definition await_event : Async t NnrpClientRoleEvent.t :=
  pending ← pop_role_event;
  match pending with
  | Some event => mret event
  | None =>
      '(event, _) ← await_event_packet;
      mret (NnrpClientRoleEvent.Runtime event)
  end.

(** The first loop of [poll_event_packet_batch]: at most [room] events of the queue. *)
Fixpoint poll_pending (room : nat) : Async t (list (NnrpRuntimeEvent.t * RuntimePacket.t)) :=
  match room with
  | O => mret []
  | S room =>
      pending ← pop_event;
      match pending with
      | None => mret []
      | Some item =>
          event ← lift (runtime_event item);
          events ← poll_pending room;
          mret (event :: events)
      end
  end.

(** The second loop: at most [room] packets of the transport. *)
Fixpoint poll_transport (room : nat) : Async t (list (NnrpRuntimeEvent.t * RuntimePacket.t)) :=
  match room with
  | O => mret []
  | S room =>
      packet ← try_read_packet;
      match packet with
      | None => mret []
      | Some packet =>
          item ← decode_event_packet packet;
          event ← lift (runtime_event item);
          events ← poll_transport room;
          mret (event :: events)
      end
  end.

Definition poll_event_packet_batch (max_events : nat)
    : Async t (list (NnrpRuntimeEvent.t * RuntimePacket.t)) :=
  _ ← lift (with_capacity (Z.of_nat max_events) event_packet_size);
  events ← poll_pending max_events;
  more ← poll_transport (max_events - length events);
  mret (events ++ more).

Definition poll_event : Async t (option NnrpClientRoleEvent.t) :=
  pending ← pop_role_event;
  match pending with
  | Some event => mret (Some event)
  | None =>
      events ← poll_event_packet_batch 1;
      mret (match last events with
            | Some (event, _) => Some (NnrpClientRoleEvent.Runtime event)
            | None => None
            end)
  end.

Definition await_event_packet_batch (max_events : nat)
    : Async t (list (NnrpRuntimeEvent.t * RuntimePacket.t)) :=
  _ ← lift (validate_event_batch_limit (Z.of_nat max_events));
  _ ← lift (with_capacity (Z.of_nat max_events) event_packet_size);
  event ← await_event_packet;
  events ← poll_event_packet_batch (max_events - 1);
  mret (event :: events).

Definition receive_cache_put : Async t (CachePutMetadata.t * bytes) :=
  packet ← read_packet;
  _ ← check (require_session_packet packet "client received cache put for another session");
  _ ← lift (reject_if (negb (bool_decide (packet_type packet = MessageType.CachePut))
                       || negb (len (RuntimePacket.metadata packet)
                                =? Z.of_nat CACHE_PUT_METADATA_LEN))
              (UnexpectedMessage "client expected a well-formed CACHE_PUT"));
  metadata ← lift (protocol (CachePutMetadata.parse (RuntimePacket.metadata packet)));
  _ ← lift (require_body_len (len (RuntimePacket.body packet))
              (CachePutMetadata.object_bytes metadata)
              "client received CACHE_PUT body length mismatch");
  mret (metadata, RuntimePacket.body packet).

Definition receive_cache_ack : Async t CacheAckMetadata.t :=
  packet ← read_packet;
  _ ← check (require_session_packet packet "client received cache ack for another session");
  _ ← lift (reject_if (negb (bool_decide (packet_type packet = MessageType.CacheAck))
                       || negb (len (RuntimePacket.metadata packet)
                                =? Z.of_nat CACHE_ACK_METADATA_LEN)
                       || negb (len (RuntimePacket.body packet) =? 0))
              (UnexpectedMessage "client expected a well-formed CACHE_ACK"));
  lift (protocol (CacheAckMetadata.parse (RuntimePacket.metadata packet))).

Definition receive_empty_role_message (expected : MessageType.t) (error : string) : Async t unit :=
  packet ← read_packet;
  _ ← check (require_session_packet packet error);
  lift (reject_if (negb (bool_decide (packet_type packet = expected))
                   || negb (len (RuntimePacket.metadata packet) =? 0)
                   || negb (len (RuntimePacket.body packet) =? 0))
          (UnexpectedMessage error)).

Definition receive_ping : Async t unit :=
  receive_empty_role_message MessageType.Ping "client expected PING".
Definition receive_pong : Async t unit :=
  receive_empty_role_message MessageType.Pong "client expected PONG".

(** *** Patching, migrating and closing *)

(** An event that arrives while the session waits for an acknowledgement is kept. *)
Definition keep_event (packet : RuntimePacket.t) (message : string) : Async t unit :=
  event ← decode_event_packet packet;
  _ ← check (fun self => reject_if (MAX_PENDING_CLIENT_EVENTS <=? len (pending_events self))
                           (UnexpectedMessage message));
  modify (fun self => set_pending_events self (pending_events self ++ [event])).

(** The loop of [patch_session]: each turn reads a packet, so the reads to come bound it. *)
Fixpoint await_patch_ack (reads : list (RT RuntimePacket.t)) : Async t SessionPatchAckMetadata.t :=
  ack_packet ← read_packet;
  match reads with
  | [] => lift Panic
  | _ :: reads =>
      if negb (bool_decide (packet_type ack_packet = MessageType.SessionPatchAck)) then
        _ ← keep_event ack_packet
              "client session patch exceeded the pending event limit before acknowledgement";
        await_patch_ack reads
      else
        _ ← check (require_session_packet ack_packet
                     "client received patch ack for another session");
        _ ← lift (require_metadata_len ack_packet SESSION_PATCH_ACK_METADATA_LEN
                    "client received malformed SESSION_PATCH_ACK metadata length");
        lift (protocol (SessionPatchAckMetadata.parse (RuntimePacket.metadata ack_packet)))
  end.

(** The results that are still to be read. *)
Definition reads_left (self : t) : list (RT RuntimePacket.t) :=
  FramedTransport.reads (transport self).

Definition patch_session (patch : SessionPatchMetadata.t) : Async t SessionPatchAckMetadata.t :=
  _ ← lift (reject_if (negb (SessionPatchMetadata.profile_patch_bytes patch =? 0))
              (UnexpectedMessage
                 "client session patch metadata declares an unsupported profile-specific body"));
  session_id ← gets session_id;
  let header := address (CommonHeader.new MessageType.SessionPatch
                           (Z.of_nat SESSION_PATCH_METADATA_LEN) 0) session_id 0 in
  _ ← write_parts header (SessionPatchMetadata.to_bytes patch) [];
  reads ← gets reads_left;
  await_patch_ack reads.

Definition migrate_transport (request : SessionMigrateMetadata.t)
    : Async t SessionMigrateAckMetadata.t :=
  session_id ← gets session_id;
  let header := address (CommonHeader.new MessageType.SessionMigrate
                           (Z.of_nat SESSION_MIGRATE_METADATA_LEN) 0) session_id 0 in
  _ ← write_parts header (SessionMigrateMetadata.to_bytes request) [];
  ack_packet ← read_packet;
  _ ← lift (reject_if (negb (bool_decide (packet_type ack_packet = MessageType.SessionMigrateAck)))
              (UnexpectedMessage "client expected SESSION_MIGRATE_ACK"));
  _ ← check (require_session_packet ack_packet "client received migrate ack for another session");
  _ ← lift (require_metadata_len ack_packet SESSION_MIGRATE_ACK_METADATA_LEN
              "client received malformed SESSION_MIGRATE_ACK metadata length");
  ack ← lift (protocol (SessionMigrateAckMetadata.parse (RuntimePacket.metadata ack_packet)));
  _ ← lift (protocol (validate_migration_recovery request ack));
  mret ack.

Definition build_migration_request (self : t) (new_transport_id : TransportId.t)
    (last_result_frame_id client_migrate_ts_us : Z) : SessionMigrateMetadata.t :=
  {| SessionMigrateMetadata.old_transport_id :=
       RuntimeTransportKind.transport_id (FramedTransport.transport_kind (transport self));
     SessionMigrateMetadata.new_transport_id := new_transport_id;
     SessionMigrateMetadata.last_result_frame_id := last_result_frame_id;
     SessionMigrateMetadata.client_migrate_ts_us := client_migrate_ts_us |}.

(** The loop of [close_with]. *)
Fixpoint await_close_ack (reads : list (RT RuntimePacket.t)) : Async t SessionCloseAckMetadata.t :=
  ack_packet ← read_packet;
  match reads with
  | [] => lift Panic
  | _ :: reads =>
      if negb (bool_decide (packet_type ack_packet = MessageType.SessionCloseAck)) then
        _ ← keep_event ack_packet
              "client session close exceeded the pending event limit before acknowledgement";
        await_close_ack reads
      else
        _ ← lift (require_metadata_len ack_packet SESSION_CLOSE_ACK_METADATA_LEN
                    "client received malformed SESSION_CLOSE_ACK metadata length");
        _ ← check (fun self => require_packet_session (session_id self) ack_packet
                     "client received SESSION_CLOSE_ACK for another session");
        ack ← lift (protocol (SessionCloseAckMetadata.parse (RuntimePacket.metadata ack_packet)));
        _ ← on_lifecycle (ConnectionLifecycle.apply_session_close_ack
                            (RuntimePacket.header ack_packet) ack);
        match SessionCloseAckMetadata.close_status ack with
        | SessionCloseStatus.Closed => mret ack
        | SessionCloseStatus.Rejected => lift (unexpected "server rejected SESSION_CLOSE")
        | SessionCloseStatus.Acknowledged | SessionCloseStatus.Draining => await_close_ack reads
        end
  end.

Definition close_with (close : SessionCloseMetadata.t) : Async t SessionCloseAckMetadata.t :=
  session_id ← gets session_id;
  let header := address (CommonHeader.new MessageType.SessionClose
                           (Z.of_nat SESSION_CLOSE_METADATA_LEN) 0) session_id 0 in
  _ ← on_lifecycle (ConnectionLifecycle.begin_session_close header close);
  _ ← write_parts header (SessionCloseMetadata.to_bytes close) [];
  reads ← gets reads_left;
  await_close_ack reads.

(** [normalize_transport_close_after_ack(self.transport.close().await)]. *)
Definition close_transport_after_ack : Async t unit := fun self =>
  let (result, self) := on_transport FramedTransport.close self in
  (normalize_transport_close_after_ack result, self).

Definition close_in_place : Async t unit :=
  close ← gets (fun self =>
    {| SessionCloseMetadata.close_reason := SessionCloseReason.ClientShutdown;
       SessionCloseMetadata.in_flight_policy := InFlightPolicy.Drain;
       SessionCloseMetadata.drain_timeout_ms := 0;
       SessionCloseMetadata.last_operation_id := last_operation_id self;
       SessionCloseMetadata.session_error_code := SESSION_ERROR_NONE;
       SessionCloseMetadata.session_close_tag := session_id self |});
  _ ← close_with close;
  close_transport_after_ack.

Definition close_transport : Async t unit := on_transport FramedTransport.close.

(** [recovery_ticket()]: the ticket with the last operation of this session. *)
Definition current_recovery_ticket (self : t) : option NnrpSessionRecoveryTicket.t :=
  match recovery_ticket self with
  | None => None
  | Some ticket =>
      Some (if negb (last_operation_id self =? 0)
            then NnrpSessionRecoveryTicket.mk (NnrpSessionRecoveryTicket.session_id ticket)
                   (NnrpSessionRecoveryTicket.resume_token ticket)
                   (Some (match NnrpSessionRecoveryTicket.resume_from_operation_id ticket with
                          | None => last_operation_id self
                          | Some existing => Z.max existing (last_operation_id self)
                          end))
                   (NnrpSessionRecoveryTicket.resume_window_ms ticket)
            else ticket)
  end.

End decode.
End NnrpClientSession.
