(* ===== verification/ClientOpen.v ===== *)
(** Opening a session ([NnrpClient] of [src/crates/nnrp-runtime/src/client.rs]): the hello, the
    SESSION_OPEN exchange and the session it leads to.

    The connection is seen from the client, like the transport of a session: the results that
    its writes, control reads and registrations will have, and the packets whose write returned.  The locks
    serialise the calls, so a call runs alone. *)

From S2P Require Import Prelude Bytes Errors Enums Wire Header Session Flow Control Codes.
From S2P Require Import Lifecycle Capability RuntimeControl Operation Recovery Negotiation.
From S2P Require Import Transport Route RuntimeError Packet Async Pressure PreSubmit Object Cache.
From S2P Require Import Data Schema Regions Submit Event Client.

Local Open Scope Z_scope.

(** ** [String::from_utf8_lossy]

    Every longest prefix of a sequence that cannot be continued becomes U+FFFD. *)

Definition REPLACEMENT : bytes := [xef; xbf; xbd].

(** The second byte of a sequence of three and of four bytes. *)
Definition second_of_three (b0 : byte) : byte -> bool :=
  in_range (if Z_of_byte b0 =? 0xe0 then 0xa0 else 0x80) (if Z_of_byte b0 =? 0xed then 0x9f else 0xbf).
Definition second_of_four (b0 : byte) : byte -> bool :=
  in_range (if Z_of_byte b0 =? 0xf0 then 0x90 else 0x80) (if Z_of_byte b0 =? 0xf4 then 0x8f else 0xbf).

Fixpoint from_utf8_lossy (bs : bytes) : bytes :=
  match bs with
  | [] => []
  | b0 :: r0 =>
      if in_range 0 0x7f b0 then b0 :: from_utf8_lossy r0
      else if in_range 0xc2 0xdf b0 then
        match r0 with
        | b1 :: r1 =>
            if utf8_tail b1 then b0 :: b1 :: from_utf8_lossy r1 else REPLACEMENT ++ from_utf8_lossy r0
        | [] => REPLACEMENT
        end
      else if in_range 0xe0 0xef b0 then
        match r0 with
        | b1 :: r1 =>
            if second_of_three b0 b1 then
              match r1 with
              | b2 :: r2 =>
                  if utf8_tail b2 then b0 :: b1 :: b2 :: from_utf8_lossy r2
                  else REPLACEMENT ++ from_utf8_lossy r1
              | [] => REPLACEMENT
              end
            else REPLACEMENT ++ from_utf8_lossy r0
        | [] => REPLACEMENT
        end
      else if in_range 0xf0 0xf4 b0 then
        match r0 with
        | b1 :: r1 =>
            if second_of_four b0 b1 then
              match r1 with
              | b2 :: r2 =>
                  if utf8_tail b2 then
                    match r2 with
                    | b3 :: r3 =>
                        if utf8_tail b3 then b0 :: b1 :: b2 :: b3 :: from_utf8_lossy r3
                        else REPLACEMENT ++ from_utf8_lossy r2
                    | [] => REPLACEMENT
                    end
                  else REPLACEMENT ++ from_utf8_lossy r1
              | [] => REPLACEMENT
              end
            else REPLACEMENT ++ from_utf8_lossy r0
        | [] => REPLACEMENT
        end
      else REPLACEMENT ++ from_utf8_lossy r0
  end.

(** ** The connection *)

Module MultiplexedConnection.

Record t := mk {
  writes : list (RT unit);
  controls : list (RT RuntimePacket.t);
  registrations : list (RT FramedTransport.t);
  (** The packets whose write returned.  One whose write waits or failed is not listed, and may be
      out or not. *)
  written : list RuntimePacket.t
}.

Definition write_packet (packet : RuntimePacket.t) : Async t unit := fun self =>
  match writes self with
  | [] => (Pending, self)
  | Ok u :: rest =>
      (Ready (Ok u), mk rest (controls self) (registrations self) (written self ++ [packet]))
  | r :: rest => (Ready r, mk rest (controls self) (registrations self) (written self))
  end.

Definition read_control_packet : Async t RuntimePacket.t := fun self =>
  match controls self with
  | [] => (Pending, self)
  | r :: rest => (Ready r, mk (writes self) rest (registrations self) (written self))
  end.

Definition register_session (session_id : Z) : Async t FramedTransport.t := fun self =>
  if session_id =? 0
  then (Ready (unexpected "multiplexed session id must be non-zero"), self)
  else
    match registrations self with
    | [] => (Pending, self)
    | r :: rest => (Ready r, mk (writes self) (controls self) rest (written self))
    end.

(** No result in the lists is a panic, and a registered transport behaves too. *)
Definition well_behaved (self : t) : Prop :=
  Forall (fun r => r <> Panic) (writes self) /\ Forall (fun r => r <> Panic) (controls self) /\
  Forall (fun r => r <> Panic /\ forall tr, r = Ok tr -> FramedTransport.well_behaved tr)
    (registrations self).

End MultiplexedConnection.

(** ** The client *)

Module NnrpClient.

Record t := mk {
  connection : MultiplexedConnection.t;
  config : NnrpClientConfig.t;
  lifecycle : ConnectionLifecycle.t;
  hello : option ClientHelloMetadata.t
}.

Definition from_boxed_transport (connection : MultiplexedConnection.t) (config : NnrpClientConfig.t)
    : t := mk connection config ConnectionLifecycle.new None.

Definition set_connection (self : t) connection : t :=
  mk connection (config self) (lifecycle self) (hello self).
Definition set_lifecycle (self : t) lifecycle : t :=
  mk (connection self) (config self) lifecycle (hello self).
Definition set_hello (self : t) hello : t := mk (connection self) (config self) (lifecycle self) hello.

Definition on_connection {A} (m : Async MultiplexedConnection.t A) : Async t A := fun self =>
  let (r, c) := m (connection self) in (r, set_connection self c).
Definition on_lifecycle {A} (m : Method ConnectionLifecycle.t NnrpError A) : Async t A := fun self =>
  let (o, l) := m (lifecycle self) in (Ready (protocol o), set_lifecycle self l).

Section client.
Context `{Htarget : Target}.

Definition hello_metadata (config : NnrpClientConfig.t) (cache_object_bitmap : Z)
    : ClientHelloMetadata.t := {|
  ClientHelloMetadata.min_version_major := CURRENT_VERSION_MAJOR;
  ClientHelloMetadata.max_version_major := CURRENT_VERSION_MAJOR;
  ClientHelloMetadata.supported_wire_format_bitmap := Z.shiftl 1 CURRENT_WIRE_FORMAT;
  ClientHelloMetadata.supported_profile_bitmap := 0x3;
  ClientHelloMetadata.supported_payload_kind_bitmap :=
    Z.lor (Z.lor (Z.lor (Z.lor (PayloadKind.repr PayloadKind.Tensor)
      (PayloadKind.repr PayloadKind.TokenChunk)) (PayloadKind.repr PayloadKind.StructuredEvent))
      (PayloadKind.repr PayloadKind.ToolDelta)) (PayloadKind.repr PayloadKind.OpaqueBytes);
  ClientHelloMetadata.supported_codec_bitmap := 0;
  ClientHelloMetadata.supported_compression_bitmap := 0;
  ClientHelloMetadata.supported_dtype_bitmap := 0;
  ClientHelloMetadata.supported_layout_bitmap := 0;
  ClientHelloMetadata.cache_digest_bitmap := 0;
  ClientHelloMetadata.cache_object_bitmap := cache_object_bitmap;
  ClientHelloMetadata.cache_namespace_count := 0;
  ClientHelloMetadata.max_lane_count := 1;
  ClientHelloMetadata.max_cache_entries := 0;
  ClientHelloMetadata.max_cache_bytes := 0;
  ClientHelloMetadata.target_cadence_x100 := 0;
  ClientHelloMetadata.latency_budget_ms :=
    Z.min (NnrpClientConfig.default_deadline_ms config) u16_max;
  ClientHelloMetadata.quality_tier := 0;
  ClientHelloMetadata.degrade_policy := 0;
  ClientHelloMetadata.requested_session_id := NnrpClientConfig.requested_session_id config;
  ClientHelloMetadata.auth_bytes := 0;
  ClientHelloMetadata.control_extension_bytes := 0 |}.

(** The exchange of hellos, once per connection. *)
Definition exchange_hello (metadata : ClientHelloMetadata.t) : Async t unit :=
  let header := CommonHeader.new MessageType.ClientHello (Z.of_nat CLIENT_HELLO_METADATA_LEN) 0 in
  metadata_bytes ← lift (protocol (ClientHelloMetadata.to_bytes metadata));
  hello_packet ← lift (protocol (RuntimePacket.new header metadata_bytes []));
  _ ← on_connection (MultiplexedConnection.write_packet hello_packet);
  packet ← on_connection MultiplexedConnection.read_control_packet;
  _ ← lift (reject_if (negb (bool_decide (CommonHeader.message_type (RuntimePacket.header packet)
                                          = MessageType.ServerHelloAck)))
              (UnexpectedMessage "client expected SERVER_HELLO_ACK"));
  _ ← lift (reject_if (negb (len (RuntimePacket.body packet) =? 0))
              (UnexpectedMessage "SERVER_HELLO_ACK body must be empty without extensions"));
  ack ← lift (protocol (ServerHelloAckMetadata.parse (RuntimePacket.metadata packet)));
  _ ← lift (protocol (ServerHelloAckMetadata.validate_against_client_hello ack metadata));
  modify (fun self => set_hello self (Some metadata)).

Definition ensure_hello (config : NnrpClientConfig.t) : Async t unit :=
  bitmap ← lift (cache_object_bitmap (NnrpClientConfig.cache_hints config));
  existing ← gets hello;
  match existing with
  | Some existing =>
      lift (reject_if
              (negb (Z.land bitmap (bnot 16 (ClientHelloMetadata.cache_object_bitmap existing)) =? 0))
              (UnexpectedMessage
                 "session cache hints exceed the established CLIENT_HELLO capability"))
  | None => exchange_hello (hello_metadata config bitmap)
  end.

(** The checks of the acknowledgement, up to the ticket it carries. *)
Definition accept_open_ack (config : NnrpClientConfig.t) (resume : option NnrpSessionRecoveryTicket.t)
    (request : SessionOpenMetadata.t) (packet : RuntimePacket.t)
    : RT (SessionOpenAckMetadata.t * option NnrpSessionRecoveryTicket.t) :=
  _ ← reject_if (negb (bool_decide (CommonHeader.message_type (RuntimePacket.header packet)
                                    = MessageType.SessionOpenAck)))
        (UnexpectedMessage "client expected SESSION_OPEN_ACK");
  ack ← protocol (SessionOpenAckMetadata.parse (RuntimePacket.metadata packet));
  _ ← protocol (validate_session_recovery_ack request ack);
  let token_bytes := SessionOpenAckMetadata.resume_token_bytes ack in
  let extension_bytes := SessionOpenAckMetadata.session_extension_bytes ack in
  expected_body_len ←
    ok_or (if (token_bytes <=? usize_max) && (extension_bytes <=? usize_max)
           then checked_add usize_max token_bytes extension_bytes else None)
      (UnexpectedMessage "SESSION_OPEN_ACK body length overflows");
  _ ← reject_if (negb (len (RuntimePacket.body packet) =? expected_body_len))
        (UnexpectedMessage "SESSION_OPEN_ACK body length does not match token and extension lengths");
  _ ← match SessionOpenAckMetadata.session_status ack with
      | SessionStatus.Opened | SessionStatus.Resumed => Ok tt
      | _ => Err (SessionRejected (SessionOpenAckMetadata.session_error_code ack)
                    (from_utf8_lossy (RuntimePacket.body packet)))
      end;
  _ ← reject_if (negb (extension_bytes =? 0))
        (UnexpectedMessage "accepted SESSION_OPEN_ACK has an unsupported extension body");
  let capacity := NnrpClientConfig.resume_token_bytes config in
  _ ← reject_if ((0 <? token_bytes) && (0 <? capacity) && (capacity <? token_bytes))
        (UnexpectedMessage "SESSION_OPEN_ACK resume token exceeds client capacity");
  Ok (ack,
      if 0 <? token_bytes
      then Some {| NnrpSessionRecoveryTicket.session_id := SessionOpenAckMetadata.session_id ack;
                   NnrpSessionRecoveryTicket.resume_token := RuntimePacket.body packet;
                   NnrpSessionRecoveryTicket.resume_from_operation_id :=
                     match resume with
                     | Some ticket => NnrpSessionRecoveryTicket.resume_from_operation_id ticket
                     | None => None
                     end;
                   NnrpSessionRecoveryTicket.resume_window_ms :=
                     SessionOpenAckMetadata.resume_window_ms ack |}
      else None).

Definition open_session_inner (config : NnrpClientConfig.t)
    (resume_ticket : option NnrpSessionRecoveryTicket.t) : Async t NnrpClientSession.t :=
  _ ← ensure_hello config;
  let resume_token :=
    match resume_ticket with Some ticket => NnrpSessionRecoveryTicket.resume_token ticket | None => [] end in
  metadata ← lift (session_open_metadata config (len resume_token));
  metadata_bytes ← lift (protocol (SessionOpenMetadata.to_bytes metadata));
  let header := CommonHeader.new MessageType.SessionOpen (Z.of_nat SESSION_OPEN_METADATA_LEN) 0 in
  open_packet ← lift (protocol (RuntimePacket.new header metadata_bytes resume_token));
  _ ← on_connection (MultiplexedConnection.write_packet open_packet);
  ack_packet ← on_connection MultiplexedConnection.read_control_packet;
  '(ack, recovery_ticket) ← lift (accept_open_ack config resume_ticket metadata ack_packet);
  _ ← on_lifecycle (ConnectionLifecycle.apply_session_open_ack ack);
  lifecycle ← gets lifecycle;
  transport ← on_connection (MultiplexedConnection.register_session (SessionOpenAckMetadata.session_id ack));
  mret {| NnrpClientSession.session_id := SessionOpenAckMetadata.session_id ack;
          NnrpClientSession.next_frame_id := 1;
          NnrpClientSession.operation_frames := ∅;
          NnrpClientSession.frame_operations := ∅;
          NnrpClientSession.local_operation_states := ∅;
          NnrpClientSession.pending_terminal_controls := ∅;
          NnrpClientSession.seen_operation_ids := ∅;
          NnrpClientSession.pre_submit_deadlines :=
            PreSubmitDeadlineReservations.new (SessionOpenAckMetadata.max_in_flight_operations ack);
          NnrpClientSession.last_operation_id := 0;
          NnrpClientSession.transport := transport;
          NnrpClientSession.lifecycle := lifecycle;
          NnrpClientSession.pressure := RuntimePressureState.default;
          NnrpClientSession.pending_events := [];
          NnrpClientSession.pending_role_events := [];
          NnrpClientSession.recovery_ticket := recovery_ticket |}.

Definition open_session_with (config : NnrpClientConfig.t) : Async t NnrpClientSession.t :=
  open_session_inner config None.

Definition open_session : Async t NnrpClientSession.t :=
  config ← gets config;
  open_session_with config.

Definition resume_session_with (ticket : NnrpSessionRecoveryTicket.t) (config : NnrpClientConfig.t)
    : Async t NnrpClientSession.t :=
  open_session_inner
    {| NnrpClientConfig.requested_session_id := NnrpSessionRecoveryTicket.session_id ticket;
       NnrpClientConfig.profile_id := NnrpClientConfig.profile_id config;
       NnrpClientConfig.schema_id := NnrpClientConfig.schema_id config;
       NnrpClientConfig.schema_version := NnrpClientConfig.schema_version config;
       NnrpClientConfig.priority_class := NnrpClientConfig.priority_class config;
       NnrpClientConfig.default_deadline_ms := NnrpClientConfig.default_deadline_ms config;
       NnrpClientConfig.max_in_flight_operations := NnrpClientConfig.max_in_flight_operations config;
       NnrpClientConfig.lease_ttl_hint_ms := NnrpClientConfig.lease_ttl_hint_ms config;
       NnrpClientConfig.allow_resume := true;
       NnrpClientConfig.resume_token_bytes := NnrpClientConfig.resume_token_bytes config;
       NnrpClientConfig.cache_hints := NnrpClientConfig.cache_hints config |}
    (Some ticket).

Definition resume_session (ticket : NnrpSessionRecoveryTicket.t) : Async t NnrpClientSession.t :=
  config ← gets config;
  resume_session_with ticket config.

End client.
End NnrpClient.
