(* ===== verification/SessionLogic.v ===== *)
(** Reasoning about the sessions of the runtime, shared by the client and the server.

    [keeps] are triples over an invariant, [within] relates the states around a call, and the
    tactics discharge the guards and codecs that every method starts with. *)

From S2P Require Import Prelude Bytes Errors Enums Wire Header Session Flow Control Codes.
From S2P Require Import Lifecycle Capability RuntimeControl Operation Recovery Transport Route.
From S2P Require Import RuntimeError Packet Async Pressure PreSubmit Object Cache Data Schema.
From S2P Require Import Event Client.

Local Open Scope Z_scope.
Import NnrpClientSession(control_state).

(** ** Triples over an invariant

    [F] and [Q] are what is known of the state beyond the invariant. *)

Section keeps.
Context {S : Type} (inv : S -> Prop).

Definition keeps {A} (F : S -> Prop) (m : Async S A) (Q : A -> S -> Prop) : Prop :=
  triple (fun s => inv s /\ F s) m (fun a s => inv s /\ Q a s) inv.

Context {A B : Type}.
Implicit Types F : S -> Prop.

Lemma keeps_bind F (m : Async S A) (k : A -> Async S B) Q' Q :
  keeps F m Q' -> (forall a, keeps (Q' a) (k a) Q) -> keeps F (x ← m; k x) Q.
Proof. intros Hm Hk. by eapply triple_bind. Qed.

Lemma keeps_conseq F F' (m : Async S A) Q Q' :
  keeps F' m Q' -> (forall s, inv s -> F s -> F' s) -> (forall a s, inv s -> Q' a s -> Q a s) ->
  keeps F m Q.
Proof.
  intros Hm HF HQ. eapply triple_conseq; [exact Hm| | |done].
  - intros s [Hi Hs]. auto.
  - intros a s [Hi Hs]. auto.
Qed.

Lemma keeps_ext F (m m' : Async S A) Q : (forall s, m s = m' s) -> keeps F m' Q -> keeps F m Q.
Proof. intros He Hm s Hs. rewrite He. by apply Hm. Qed.

Lemma keeps_ret F (a : A) Q : (forall s, inv s -> F s -> Q a s) -> keeps F (mret a) Q.
Proof. intros HQ. apply triple_ret. intros s [Hi Hs]. auto. Qed.

Lemma keeps_lift F (o : RT A) Q :
  o <> Panic -> (forall a s, o = Ok a -> inv s -> F s -> Q a s) -> keeps F (lift o) Q.
Proof. intros Ho HQ. apply triple_lift; [done|by intros s []|]. intros a s Ha [Hi Hs]. auto. Qed.

Lemma keeps_bind_lift F (o : RT A) (k : A -> Async S B) Q :
  o <> Panic -> (forall a, o = Ok a -> keeps F (k a) Q) -> keeps F (x ← lift o; k x) Q.
Proof. intros Ho Hk. apply triple_bind_lift; [done|by intros s []|done]. Qed.

Lemma keeps_check F (f : S -> RT A) Q :
  (forall s, inv s -> F s -> f s <> Panic) -> (forall a s, inv s -> F s -> f s = Ok a -> Q a s) ->
  keeps F (check f) Q.
Proof.
  intros Hf HQ s [Hi HF]. unfold check. specialize (Hf s Hi HF).
  destruct (f s) as [a|e|] eqn:He; [by auto|done|done].
Qed.

Lemma keeps_bind_gets F (f : S -> A) (k : A -> Async S B) Q :
  (forall a, keeps (fun s => F s /\ f s = a) (k a) Q) -> keeps F (x ← gets f; k x) Q.
Proof.
  intros Hk. apply triple_bind_gets. intros a. eapply triple_conseq; [apply Hk| |done|done].
  intros s [[Hi Hs] Ha]. done.
Qed.

Lemma keeps_modify F (f : S -> S) Q :
  (forall s, inv s -> F s -> inv (f s) /\ Q tt (f s)) -> keeps F (modify f) Q.
Proof. intros HQ. apply triple_modify. intros s [Hi Hs]. auto. Qed.

(** A call keeps the invariant and does not panic, whatever is known. *)
Definition sound_for (m : Async S A) : Prop := keeps (fun _ => True) m (fun _ _ => True).

Lemma keeps_sound F (m : Async S A) : sound_for m -> keeps F m (fun _ _ => True).
Proof. intros Hm. by eapply keeps_conseq; [exact Hm|..]. Qed.

(** What an invariant says of a call that returns. *)
Lemma keeps_returns F (m : Async S A) Q s a s' :
  keeps F m Q -> inv s -> F s -> returns m s a s' -> inv s' /\ Q a s'.
Proof. intros Hm Hi Hs Hr. by apply (triple_returns _ _ _ _ _ _ _ Hm (conj Hi Hs) Hr). Qed.
End keeps.

Section keeps_more.
Context {S A B : Type} (inv : S -> Prop).

Lemma keeps_bind_check F (f : S -> RT A) (k : A -> Async S B) Q :
  (forall s, inv s -> F s -> f s <> Panic) ->
  (forall a, keeps inv (fun s => F s /\ f s = Ok a) (k a) Q) -> keeps inv F (x ← check f; k x) Q.
Proof.
  intros Hf Hk. eapply keeps_bind; [|exact Hk]. apply keeps_check; [done|]. by intros a s _ Hs He.
Qed.
End keeps_more.

(** ** Relations between the states around a call

    The state after a call, however it ends, is related to the state before it. *)
Definition within {S A} (R : S -> S -> Prop) (m : Async S A) : Prop := forall s, R s (m s).2.

Section within.
Context {S A B : Type} (R : S -> S -> Prop) `{!PreOrder R}.

Lemma within_pure (m : Async S A) : (forall s, (m s).2 = s) -> within R m.
Proof. intros Hm s. by rewrite Hm. Qed.

Lemma within_bind (m : Async S A) (k : A -> Async S B) :
  within R m -> (forall a, within R (k a)) -> within R (x ← m; k x).
Proof.
  intros Hm Hk s. specialize (Hm s). unfold mbind, async_bind.
  destruct (m s) as [[[a|e|]|] s1]; simpl in *; [by etrans; [exact Hm|apply Hk]|done..].
Qed.

Lemma within_modify (f : S -> S) : (forall s, R s (f s)) -> within R (modify f).
Proof. intros Hf s. apply Hf. Qed.

(** A check before the rest of a body: the rest may rely on it. *)
Lemma within_checked (f : S -> RT A) (k : A -> Async S B) (s : S) :
  (forall a, f s = Ok a -> R s (k a s).2) -> R s ((x ← check f; k x) s).2.
Proof.
  intros Hk. unfold mbind, async_bind, check. destruct (f s) as [a|e|] eqn:E; simpl; [by apply Hk|reflexivity..].
Qed.

Lemma within_lifted (o : RT A) (k : A -> Async S B) (s : S) :
  (forall a, o = Ok a -> R s (k a s).2) -> R s ((x ← lift o; k x) s).2.
Proof.
  intros Hk. unfold mbind, async_bind, lift. destruct o as [a|e|] eqn:E; simpl; [by apply Hk|reflexivity..].
Qed.

(** A call that keeps what is known, before the rest of a body. *)
Lemma within_then (F : S -> Prop) (m : Async S A) (k : A -> Async S B) (s : S) :
  within R m -> (forall s1, F s1 -> F (m s1).2) -> F s ->
  (forall a s1, F s1 -> R s1 (k a s1).2) -> R s ((x ← m; k x) s).2.
Proof.
  intros Hm HF Hs Hk. specialize (Hm s). specialize (HF s Hs). unfold mbind, async_bind.
  destruct (m s) as [[[a|e|]|] s1]; simpl in *; [|done..]. etrans; [exact Hm|by apply Hk].
Qed.

(** A call also keeps what the relation keeps. *)
Lemma keeps_within (inv F : S -> Prop) (m : Async S A) Q :
  keeps inv (fun _ => True) m Q -> within R m -> (forall s s', R s s' -> F s -> F s') ->
  keeps inv F m (fun a s => Q a s /\ F s).
Proof.
  intros Hm Hw HF s [Hi Hs]. specialize (Hm s (conj Hi I)). specialize (Hw s).
  destruct (m s) as [[[a|e|]|] s1]; simpl in *; [|done..]. destruct Hm. eauto.
Qed.
End within.

(** The name of the method that a body starts with. *)
Ltac head_of e := lazymatch e with ?f _ => head_of f | _ => e end.

(** The walk through a body: what is left are the state changes. *)
Ltac within_walk :=
  repeat first
    [ apply within_bind; [by apply _| |intros ?]
    | apply within_pure; [by apply _|intros ?; reflexivity]
    | case_match ].

(** ** Calls that return *)

Lemma returns_check {S A} (f : S -> RT A) s a s' : returns (check f) s a s' <-> f s = Ok a /\ s' = s.
Proof. unfold returns, check. split; [by intros [= <- <-]|by intros [-> ->]]. Qed.

(** A value that a call cannot return. *)
Definition returning {S A} (P : A -> Prop) (m : Async S A) : Prop :=
  forall s a s', returns m s a s' -> P a.

Section returning.
Context {S : Type}.

Lemma returning_bind {A B} P (m : Async S A) (k : A -> Async S B) :
  (forall a, returning P (k a)) -> returning P (x ← m; k x).
Proof. intros Hk s b s' (a & s1 & _ & Hr)%returns_bind. by eapply Hk. Qed.

Lemma returning_ret {A} (P : A -> Prop) a : P a -> returning P (mret (M := Async S) a).
Proof. by intros Ha s b s' [-> _]%returns_ret. Qed.

Lemma returning_lift {A} (P : A -> Prop) (o : RT A) :
  (forall a, o = Ok a -> P a) -> returning (S := S) P (lift o).
Proof. intros Ho s b s' [Hb _]%returns_lift. by apply Ho. Qed.

Lemma returning_bind_lift {A B} P (o : RT A) (k : A -> Async S B) :
  (forall a, o = Ok a -> returning P (k a)) -> returning P (x ← lift o; k x).
Proof. intros Hk s b s' (a & s1 & [Ho ->]%returns_lift & Hr)%returns_bind. by eapply Hk. Qed.
End returning.

(** ** Packets *)

Lemma packet_new_no_panic `{Htarget : Target} h md bd : RuntimePacket.new h md bd <> Panic.
Proof.
  unfold RuntimePacket.new, checked_len. apply bind_no_panic; [by case_match|intros ? _].
  apply bind_no_panic; [by case_match|intros ? _]. cbv zeta.
  apply bind_no_panic; [apply packet_len_no_panic|done].
Qed.

Lemma packet_new_header `{Htarget : Target} h md bd p :
  RuntimePacket.new h md bd = Ok p ->
  RuntimePacket.header p = RuntimePacket.set_lens h (len md) (len bd) /\
  RuntimePacket.metadata p = md /\ RuntimePacket.body p = bd.
Proof.
  unfold RuntimePacket.new. intros (? & [-> _]%RuntimePacket.checked_len_Ok & H)%bind_Ok.
  apply bind_Ok in H as (? & [-> _]%RuntimePacket.checked_len_Ok & H).
  cbv zeta in H. apply bind_Ok in H as (? & _ & [= <-]). done.
Qed.

(** ** Guards *)

(** The codecs do not panic: the type of the metadata names the codec. *)
Ltac codec_no_panic :=
  match goal with
  | |- ?o <> Panic =>
      first
        [ match type of o with
          | Outcome _ (?A * bytes) => exact (parse_with_tail_no_panic (A := A) _)
          | Outcome _ ?A => exact (law_parse_no_panic (A := A) _)
          end
        | match o with
          | _ ?m => match type of m with ?A => exact (law_write_no_panic (A := A) m _) end
          end ]
  end.

(** Guards and lookups do not panic. *)
Create HintDb guards.
#[export] Hint Unfold require_body_len require_metadata_len require_bodyless
  unexpected OperationLifecycleEvent.new
  validate_result_drop_header validate_result_drop_reason_semantics validate_standard_role
  validate_partial_result_semantics validate_progress_semantics validate_control_request_semantics
  validate_scheduling_semantics validate_pressure_semantics validate_pressure_level
  validate_trace_context_semantics validate_migration_recovery FlowUpdateMetadata.validate_routing
  ConnectionLifecycle.validate_flow_update ConnectionLifecycle.require_connection_open : guards.

Ltac guard_no_panic :=
  autounfold with guards;
  repeat first
    [ apply reject_if_no_panic | apply ok_or_no_panic | discriminate | apply protocol_no_panic
    | apply packet_new_no_panic | codec_no_panic
    | apply bind_no_panic; [|intros ? _] | case_match | done ].

(** ** What the checks of the metadata say *)

Lemma control_semantics_type mt m :
  validate_control_request_semantics mt m = Ok tt -> mt = MessageType.Cancel \/ mt = MessageType.Abort.
Proof. unfold validate_control_request_semantics. destruct mt; simpl; auto; done. Qed.

Lemma pressure_semantics_type mt m :
  validate_pressure_semantics mt m = Ok tt ->
  mt = MessageType.Backpressure \/ mt = MessageType.CreditUpdate.
Proof. unfold validate_pressure_semantics. destruct mt; simpl; auto; done. Qed.

Lemma control_state_terminal mt state :
  control_state mt = Ok state -> OperationState.is_terminal state = true.
Proof. by destruct mt; intros [= <-]. Qed.

Lemma drop_reason_semantics_op m :
  validate_result_drop_reason_semantics m = Ok tt -> ResultDropReasonMetadata.operation_id m <> 0.
Proof.
  unfold validate_result_drop_reason_semantics. intros [H%reject_if_Ok _]%then_unit_Ok.
  by apply Z.eqb_neq in H.
Qed.

(** The split of the body is within its length. *)
Lemma delta_split_fits bs m body :
  ObjectDeltaMetadata.parse bs = Ok m ->
  len body = saturating_add u32_max (ObjectDeltaMetadata.metadata_bytes m)
               (ObjectDeltaMetadata.delta_bytes m) ->
  ObjectDeltaMetadata.metadata_bytes m <= len (A := byte) body.
Proof.
  pose proof (law_parse_sound (A := ObjectDeltaMetadata.t) bs m) as Hs.
  intros Hp ->. destruct (Hs Hp) as [Hv _].
  apply andb_prop in Hv as [Ht _]. unfold typed, fields_ok in Ht. simpl in Ht.
  repeat (apply andb_prop in Ht as [? Ht]). unfold field_ok in *. simpl in *.
  change (modulus 4) with 4294967296 in *. unfold saturating_add, u32_max. lia.
Qed.

(** ** Reservations *)

Lemma reserve_no_panic frame md now d : (PreSubmitDeadlineReservations.reserve frame md now d).1 <> Panic.
Proof.
  unfold PreSubmitDeadlineReservations.reserve. case_match eqn:E; [done..|].
  exfalso. revert E. unfold PreSubmitDeadlineReservations.reject_expired.
  repeat (apply bind_no_panic; [apply reject_if_no_panic|intros _ _]). apply reject_if_no_panic.
Qed.

Lemma take_no_panic op frame now d : (PreSubmitDeadlineReservations.take_for_submit op frame now d).1 <> Panic.
Proof.
  unfold PreSubmitDeadlineReservations.take_for_submit, PreSubmitDeadlineReservations.reject_expired.
  destruct (PreSubmitDeadlineReservations.any_expired d now); simpl; [done|]. by repeat case_match.
Qed.
