(* ===== verification/ClientTheory.v ===== *)
(** What a client session keeps true ([src/crates/nnrp-runtime/src/client.rs]).

    [inv] is the invariant of the session's tables and queues.  Every method is shown to keep
    it and not to panic, whatever the peer sends, whatever the transport returns, and
    wherever a future is dropped. *)

From S2P Require Import Prelude Bytes Errors Enums Wire Header Session Flow Control Codes.
From S2P Require Import Lifecycle Capability RuntimeControl Operation Recovery Transport Route.
From S2P Require Import RuntimeError Packet Async Pressure PreSubmit Object Cache Data Schema.
From S2P Require Import Regions Submit Event Client SessionLogic.

Local Open Scope Z_scope.
Import NnrpClientSession.

(** ** The invariant *)

(** A queued event can be handed out. *)
Definition event_ok (item : NnrpClientEvent.t * RuntimePacket.t) : Prop :=
  exists event, from_client (wire_header item.2) item.1 = Ok event.

(** A queued lifecycle event says that an operation has ended. *)
Definition role_event_ok (event : NnrpClientRoleEvent.t) : Prop :=
  exists e, event = NnrpClientRoleEvent.Lifecycle e /\ OperationLifecycleEvent.operation_id e <> 0 /\
    OperationState.is_terminal (OperationLifecycleEvent.state e) = true.

Record inv (s : t) : Prop := {
  inv_inverse op frame :
    operation_frames s !! op = Some frame <-> frame_operations s !! frame = Some op;
  inv_live op frame : operation_frames s !! op = Some frame ->
    op <> 0 /\ frame <> 0 /\ op ∈ seen_operation_ids s /\ frame < next_frame_id s;
  inv_local op state : local_operation_states s !! op = Some state ->
    OperationState.is_terminal state = true /\ (op = 0 \/ is_Some (operation_frames s !! op));
  inv_controls op state : pending_terminal_controls s !! op = Some state ->
    OperationState.is_terminal state = true /\ is_Some (operation_frames s !! op);
  inv_controls_bound : Z.of_nat (size (pending_terminal_controls s)) <= MAX_PENDING_CLIENT_EVENTS;
  inv_seen op : op ∈ seen_operation_ids s -> op <> 0 /\ op <= last_operation_id s;
  inv_next : next_frame_id s <= u32_max;
  inv_role : Forall role_event_ok (pending_role_events s);
  inv_role_bound : len (pending_role_events s) <= MAX_PENDING_CLIENT_EVENTS;
  inv_events : Forall event_ok (pending_events s);
  inv_events_bound : len (pending_events s) <= MAX_PENDING_CLIENT_EVENTS;
  inv_deadlines : PreSubmitDeadlineReservations.invariant (pre_submit_deadlines s);
  inv_transport : FramedTransport.well_behaved (transport s)
}.

(** ** Triples of the session

    [F] and [Q] are what is known of the state beyond the invariant. *)
Definition sess {A} (F : t -> Prop) (m : Async t A) (Q : A -> t -> Prop) : Prop := keeps inv F m Q.

Definition any (_ : t) : Prop := True.

Section rules.
Context {A B : Type}.
Implicit Types F : t -> Prop.

Lemma sess_bind F (m : Async t A) (k : A -> Async t B) Q' Q :
  sess F m Q' -> (forall a, sess (Q' a) (k a) Q) -> sess F (x ← m; k x) Q.
Proof. apply keeps_bind. Qed.

Lemma sess_conseq F F' (m : Async t A) Q Q' :
  sess F' m Q' -> (forall s, inv s -> F s -> F' s) -> (forall a s, inv s -> Q' a s -> Q a s) ->
  sess F m Q.
Proof. apply keeps_conseq. Qed.

Lemma sess_ret F (a : A) Q : (forall s, inv s -> F s -> Q a s) -> sess F (mret a) Q.
Proof. apply keeps_ret. Qed.

Lemma sess_lift F (o : RT A) Q :
  o <> Panic -> (forall a s, o = Ok a -> inv s -> F s -> Q a s) -> sess F (lift o) Q.
Proof. apply keeps_lift. Qed.

Lemma sess_bind_lift F (o : RT A) (k : A -> Async t B) Q :
  o <> Panic -> (forall a, o = Ok a -> sess F (k a) Q) -> sess F (x ← lift o; k x) Q.
Proof. apply keeps_bind_lift. Qed.

Lemma sess_check F (f : t -> RT A) Q :
  (forall s, inv s -> F s -> f s <> Panic) -> (forall a s, inv s -> F s -> f s = Ok a -> Q a s) ->
  sess F (check f) Q.
Proof. apply keeps_check. Qed.

Lemma sess_bind_check F (f : t -> RT A) (k : A -> Async t B) Q :
  (forall s, inv s -> F s -> f s <> Panic) ->
  (forall a, sess (fun s => F s /\ f s = Ok a) (k a) Q) -> sess F (x ← check f; k x) Q.
Proof. apply keeps_bind_check. Qed.

Lemma sess_bind_gets F (f : t -> A) (k : A -> Async t B) Q :
  (forall a, sess (fun s => F s /\ f s = a) (k a) Q) -> sess F (x ← gets f; k x) Q.
Proof. apply keeps_bind_gets. Qed.

Lemma sess_modify F (f : t -> t) Q :
  (forall s, inv s -> F s -> inv (f s) /\ Q tt (f s)) -> sess F (modify f) Q.
Proof. apply keeps_modify. Qed.

(** What is known of the session does not depend on its transport. *)
Definition untouched F : Prop := forall s tr, F s -> F (set_transport s tr).

Lemma inv_set_transport s tr :
  FramedTransport.well_behaved tr -> inv s -> inv (set_transport s tr).
Proof. intros Htr []. by split. Qed.

Lemma sess_transport F (m : Async FramedTransport.t A) :
  FramedTransport.calm m -> untouched F -> sess F (on_transport m) (fun _ => F).
Proof.
  intros Hm HF s [Hi Hs]. destruct (Hm (transport s) (inv_transport s Hi)) as (Hnp & Hwb & _).
  unfold on_transport. destruct (m (transport s)) as [r tr]. simpl in *.
  assert (inv (set_transport s tr)) by (by apply inv_set_transport).
  destruct r as [[a|e|]|]; [split; [done|by apply HF]|done|done|done].
Qed.
End rules.

Lemma sess_read F : untouched F -> sess F read_packet (fun _ => F).
Proof. apply sess_transport, FramedTransport.read_packet_calm. Qed.

Lemma sess_write F packet : untouched F -> sess F (write_packet packet) (fun _ => F).
Proof. apply sess_transport, FramedTransport.write_packet_calm. Qed.

(** ** Automation *)

(** Guards and lookups do not panic. *)
#[export] Hint Unfold validate_event_batch_limit
  require_packet_session require_session_packet require_optional_session_packet correlated_frame_id
  require_operation_frame require_nonterminal_operation require_outbound_nonterminal_operation
  require_trace_context_frame require_outbound_trace_context_frame ensure_pending_role_capacity
  NnrpResult.from_runtime NnrpResult.from_lifecycle : guards.

Create HintDb sess.
#[export] Hint Extern 0 (untouched _) => (intros ? ? ?; cbn in *; tauto) : sess.

(** One step through the body of a method. *)
Ltac walk_one :=
  cbv zeta;
  match goal with
  | |- sess _ (mbind _ (lift _)) _ => apply sess_bind_lift; [guard_no_panic|intros ? ?]
  | |- sess _ (mbind _ (check _)) _ => apply sess_bind_check; [intros; guard_no_panic|intros ?]
  | |- sess _ (mbind _ (gets _)) _ => apply sess_bind_gets; intros ?
  | |- sess _ (mbind _ read_packet) _ =>
      eapply sess_bind; [apply sess_read; auto with sess|intros ?; cbv beta]
  | |- sess _ (mbind _ (write_packet _)) _ =>
      eapply sess_bind; [apply sess_write; auto with sess|intros ?; cbv beta]
  | |- sess _ (lift _) _ => apply sess_lift; [guard_no_panic|]
  | |- sess _ (check _) _ => apply sess_check; [intros; guard_no_panic|]
  | |- sess _ (mret _) _ => apply sess_ret
  end.

(** ** The tables *)

Lemma inv_forget s op frame : inv s -> operation_frames s !! op = Some frame -> inv (forget op frame s).
Proof.
  intros Hi Hf. pose proof (proj1 (inv_inverse s Hi op frame) Hf) as Hb.
  destruct Hi as [Hinv Hlive Hlocal Hctl Hcb Hseen Hnext Hrole Hrb Hev Heb Hdl Htr].
  split; simpl; try done.
  - intros o f. rewrite !lookup_delete_Some. split.
    + intros [Hne Ho]. split; [|by apply Hinv]. intros <-. apply Hinv in Ho. congruence.
    + intros [Hne Ho]. apply Hinv in Ho. split; [|done]. intros <-. congruence.
  - intros o f [_ Ho]%lookup_delete_Some. by apply Hlive.
  - intros o st [Hne Ho]%lookup_delete_Some. destruct (Hlocal o st Ho) as [Ht [->|Hs]]; [by auto|].
    split; [done|]. right. by rewrite lookup_delete_ne.
  - intros o st [Hne Ho]%lookup_delete_Some. destruct (Hctl o st Ho) as [Ht Hs].
    split; [done|]. by rewrite lookup_delete_ne.
  - destruct (pending_terminal_controls s !! op) as [st|] eqn:Hst.
    + rewrite map_size_delete_Some by (by eexists). lia.
    + by rewrite delete_id.
Qed.

Lemma inv_set_local s op state :
  inv s -> OperationState.is_terminal state = true ->
  (op = 0 \/ is_Some (operation_frames s !! op)) ->
  inv (set_tables s (operation_frames s) (frame_operations s)
         (<[op := state]> (local_operation_states s)) (pending_terminal_controls s)).
Proof.
  intros Hi Ht Ho. destruct Hi. split; simpl; try done.
  intros o st [[<- <-]|[Hne Hst]]%lookup_insert_Some; [done|by eauto].
Qed.

Lemma inv_push_role s event :
  inv s -> role_event_ok event -> len (pending_role_events s) < MAX_PENDING_CLIENT_EVENTS ->
  inv (set_pending_role_events s (pending_role_events s ++ [event])).
Proof.
  intros Hi He Hl. destruct Hi. split; simpl; try done.
  - apply Forall_app. by repeat constructor.
  - rewrite len_app. change (len [event]) with 1. lia.
Qed.

Lemma correlated_live op s frame :
  correlated_frame_id op s = Ok frame ->
  (op = 0 /\ frame = 0) \/ (op <> 0 /\ operation_frames s !! op = Some frame).
Proof.
  unfold correlated_frame_id. destruct (Z.eqb_spec op 0) as [->|Hne]; [by intros [= <-]; left|].
  intros H%ok_or_Ok. by right.
Qed.

Lemma require_frame_live op frame s :
  require_operation_frame op frame s = Ok tt ->
  (op = 0 /\ frame = 0) \/ (op <> 0 /\ operation_frames s !! op = Some frame).
Proof.
  unfold require_operation_frame. intros H. apply bind_Ok in H as (f & Hf & Hr).
  apply reject_if_Ok, negb_false_iff, Z.eqb_eq in Hr as ->. by apply correlated_live.
Qed.

(** An operation ends here in a terminal state, with room for its event. *)
Lemma complete_local_sess F op state :
  OperationState.is_terminal state = true ->
  (forall s, inv s -> F s -> len (pending_role_events s) < MAX_PENDING_CLIENT_EVENTS) ->
  sess F (complete_local_operation op state) (fun _ _ => True).
Proof.
  intros Ht Hcap. unfold complete_local_operation. do 2 walk_one.
  intros s [Hi [[HF Hc] _]]. apply correlated_live in Hc.
  pose proof (Hcap s Hi HF) as Hl.
  set (s1 := set_tables s (operation_frames s) (frame_operations s)
               (<[op := state]> (local_operation_states s)) (pending_terminal_controls s)).
  assert (inv s1) as Hi1.
  { apply inv_set_local; [done|done|]. destruct Hc as [[-> _]|[_ ->]]; [by left|by right; eexists]. }
  unfold mbind at 1, async_bind at 1. cbn [modify]. fold s1.
  unfold lift, mbind, async_bind, OperationLifecycleEvent.new.
  destruct (Z.eqb_spec op 0) as [->|Hne]; cbn; [done|]. split; [|done].
  apply (inv_push_role s1); [done| |done].
  eexists. by split_and!.
Qed.

Lemma complete_by_frame_sess F frame :
  untouched F ->
  sess F (complete_operation_by_frame frame) (fun op _ => op <> 0).
Proof.
  intros _ s [Hi HF]. unfold complete_operation_by_frame.
  destruct (frame_operations s !! frame) as [op|] eqn:Hf; [|done].
  apply (inv_inverse s Hi) in Hf. split; [by apply inv_forget|]. by apply (inv_live s Hi) in Hf as [? _].
Qed.

Lemma complete_operation_sess F op frame :
  op <> 0 -> sess F (complete_operation op frame) (fun _ _ => True).
Proof.
  intros Hop. unfold complete_operation. walk_one. apply sess_modify. intros s Hi [HF Hr].
  destruct a. apply require_frame_live in Hr as [[? _]|[_ Hr]]; [done|]. split; [|done].
  by apply inv_forget.
Qed.

(** ** Reading an event *)

Lemma from_runtime_Ok op event result :
  NnrpResult.from_runtime op event = Ok result ->
  NnrpResult.operation_id result = op /\ op <> 0 /\
  NnrpResult.event result = NnrpTerminalEvent.Runtime event.
Proof.
  unfold NnrpResult.from_runtime. intros [Hop%reject_if_Ok H]%then_unit_Ok. apply Z.eqb_neq in Hop.
  by apply bind_Ok in H as (state & _ & [= <-]).
Qed.

(** A result carries the header of its packet. *)
Lemma result_event_ok packet op event result :
  NnrpRuntimeEvent.header event = wire_header packet ->
  NnrpResult.from_runtime op event = Ok result ->
  event_ok (NnrpClientEvent.Result result, packet).
Proof.
  intros Hh (_ & _ & He)%from_runtime_Ok. exists event. simpl. rewrite He, bool_decide_eq_true_2 by done.
  done.
Qed.

Lemma capacity_left s u :
  ensure_pending_role_capacity s = Ok u -> len (pending_role_events s) < MAX_PENDING_CLIENT_EVENTS.
Proof. unfold ensure_pending_role_capacity. intros H%reject_if_Ok. lia. Qed.

(** A packet that is read becomes an event that can be handed out. *)
Definition reads_event `{Target} (decode : RuntimePacket.t -> Async t NnrpClientEvent.t) : Prop :=
  forall packet, sess any (decode packet) (fun event _ => event_ok (event, packet)).

Ltac plain_event :=
  intros packet; repeat walk_one; intros; eexists; reflexivity.

Section decode_events.
Context `{Htarget : Target}.

Lemma result_push_event : reads_event decode_result_push.
Proof.
  intros packet. unfold decode_result_push. do 3 walk_one.
  eapply sess_bind; [apply complete_by_frame_sess; auto with sess|intros op].
  walk_one. apply sess_ret. intros s _ _. by eapply result_event_ok; [|done].
Qed.

Lemma result_drop_event : reads_event decode_result_drop.
Proof.
  intros packet. unfold decode_result_drop. do 2 walk_one.
  eapply sess_bind; [apply complete_by_frame_sess; auto with sess|intros op].
  walk_one. apply sess_ret. intros s _ _. by eapply result_event_ok; [|done].
Qed.

Lemma result_drop_reason_event : reads_event decode_result_drop_reason.
Proof.
  intros packet. unfold decode_result_drop_reason. do 5 walk_one.
  destruct a2. apply protocol_Ok, drop_reason_semantics_op in H1.
  eapply sess_bind; [by apply complete_operation_sess|intros ?].
  walk_one. apply sess_ret. intros s _ _. by eapply result_event_ok; [|done].
Qed.

Lemma partial_result_event : reads_event decode_partial_result.
Proof. unfold decode_partial_result. plain_event. Qed.

Lemma progress_event : reads_event decode_progress.
Proof. unfold decode_progress. plain_event. Qed.

(** A CANCEL or an ABORT of an operation ends it locally. *)
Lemma control_event : reads_event decode_control.
Proof.
  intros packet. unfold decode_control. do 3 walk_one.
  cbv zeta. apply sess_bind_lift; [guard_no_panic|intros [] Hsem%protocol_Ok].
  apply control_semantics_type in Hsem. do 2 walk_one.
  apply (sess_bind _ _ _ (fun _ _ => True)); [|intros ?; apply sess_ret; intros; by eexists].
  destruct (negb _); [|by apply sess_ret]. walk_one.
  apply sess_bind_lift; [by destruct Hsem as [-> | ->]|intros state Hstate%control_state_terminal].
  apply complete_local_sess; [done|]. intros s Hi [_ Hc]. by eapply capacity_left.
Qed.

Lemma scheduling_event : reads_event decode_scheduling.
Proof. unfold decode_scheduling. plain_event. Qed.

Lemma supersede_event : reads_event decode_supersede.
Proof.
  intros packet. unfold decode_supersede. do 6 walk_one.
  apply (sess_bind _ _ _ (fun _ _ => True)); [|intros ?; apply sess_ret; intros; by eexists].
  apply complete_local_sess; [done|]. intros s Hi [_ Hc]. by eapply capacity_left.
Qed.

Lemma budget_event : reads_event decode_budget.
Proof. unfold decode_budget. plain_event. Qed.

Lemma flow_update_event : reads_event decode_flow_update.
Proof. unfold decode_flow_update. plain_event. Qed.

Lemma inv_set_pressure s p : inv s -> inv (set_pressure s p).
Proof. intros []. by split. Qed.

Lemma pressure_sess {A} F (m : Method RuntimePressureState.t NnrpError A) :
  (forall p, (m p).1 <> Panic) -> sess F (on_pressure m) (fun _ _ => True).
Proof.
  intros Hm s [Hi _]. unfold on_pressure. specialize (Hm (pressure s)).
  destruct (m (pressure s)) as [[a|e|] p]; simpl in *; [split; [|done]|..]; by try apply inv_set_pressure.
Qed.

Lemma pressure_event : reads_event decode_pressure.
Proof.
  intros packet. unfold decode_pressure. do 3 walk_one.
  apply sess_bind_lift; [guard_no_panic|intros [] Hsem%protocol_Ok%pressure_semantics_type].
  eapply sess_bind; [apply pressure_sess; intros p; by destruct Hsem as [-> | ->]|intros u].
  apply sess_lift; [by destruct Hsem as [-> | ->]|].
  intros e s He _ _. destruct Hsem as [Hs|Hs]; rewrite Hs in He; injection He as <-; by eexists.
Qed.

Lemma capability_event : reads_event decode_capability.
Proof.
  intros packet. unfold decode_capability. do 4 walk_one.
  apply sess_bind_lift; [|intros ? _; apply sess_ret; intros; by eexists].
  apply protocol_no_panic, decode_registered_no_panic.
Qed.

Lemma route_hint_event : reads_event decode_route_hint.
Proof. unfold decode_route_hint. plain_event. Qed.

Lemma object_declare_event : reads_event decode_object_declare.
Proof. unfold decode_object_declare. plain_event. Qed.

Lemma object_ref_event : reads_event decode_object_ref.
Proof. unfold decode_object_ref. plain_event. Qed.

Lemma object_release_event : reads_event decode_object_release.
Proof. unfold decode_object_release. plain_event. Qed.

Lemma object_delta_event : reads_event decode_object_delta.
Proof.
  intros packet. unfold decode_object_delta. do 2 walk_one.
  apply sess_bind_lift; [guard_no_panic|intros m Hm%protocol_Ok]. cbv zeta.
  apply sess_bind_lift; [guard_no_panic|intros ? Hl%reject_if_Ok].
  apply negb_false_iff, Z.eqb_eq in Hl. pose proof (delta_split_fits _ _ _ Hm Hl) as Hfit.
  apply sess_ret. intros s _ _. unfold event_ok, from_client, split_off. cbn [fst snd].
  rewrite (proj2 (Z.leb_le _ _) Hfit). by eexists.
Qed.

Lemma cache_reference_event : reads_event decode_cache_reference.
Proof. unfold decode_cache_reference. plain_event. Qed.

Lemma cache_miss_event : reads_event decode_cache_miss.
Proof. unfold decode_cache_miss. plain_event. Qed.

Lemma cache_invalidate_event : reads_event decode_cache_invalidate.
Proof. unfold decode_cache_invalidate. plain_event. Qed.

Lemma trace_context_event : reads_event decode_trace_context.
Proof. unfold decode_trace_context. plain_event. Qed.

Lemma recoverable_error_event : reads_event decode_recoverable_error.
Proof. unfold decode_recoverable_error. plain_event. Qed.

Lemma retry_after_event : reads_event decode_retry_after.
Proof. unfold decode_retry_after. plain_event. Qed.

Lemma result_hint_event : reads_event decode_result_hint.
Proof. unfold decode_result_hint. plain_event. Qed.

Lemma decode_event_sess : reads_event decode_event.
Proof.
  intros packet. unfold decode_event.
  destruct (packet_type packet);
    auto using result_push_event, result_drop_event, result_drop_reason_event, partial_result_event,
      progress_event, control_event, scheduling_event, supersede_event, budget_event,
      flow_update_event, pressure_event, capability_event, route_hint_event, object_declare_event,
      object_ref_event, object_release_event, object_delta_event, cache_reference_event,
      cache_miss_event, cache_invalidate_event, trace_context_event, recoverable_error_event,
      retry_after_event, result_hint_event;
    apply sess_lift; done.
Qed.

Lemma decode_event_packet_sess packet :
  sess any (decode_event_packet packet) (fun item _ => event_ok item).
Proof.
  eapply sess_bind; [apply decode_event_sess|intros event]. by apply sess_ret.
Qed.

End decode_events.

(** ** Sending *)

Section sending.
Context `{Htarget : Target}.
Implicit Types F : t -> Prop.

Lemma write_parts_sess F header metadata body :
  untouched F -> metadata <> Panic -> sess F (write_parts header metadata body) (fun _ => F).
Proof.
  intros HF Hm. unfold write_parts. do 2 walk_one. by apply sess_write.
Qed.

Lemma write_runtime_packet_sess F mt frame metadata body :
  untouched F -> sess F (write_runtime_packet mt frame metadata body) (fun _ => F).
Proof.
  intros HF. unfold write_runtime_packet. do 2 walk_one.
  eapply sess_conseq; [by apply sess_write|naive_solver|done].
Qed.

Lemma send_sess F mt frame metadata body :
  untouched F -> metadata <> Panic -> sess F (send mt frame metadata body) (fun _ => F).
Proof. intros HF Hm. unfold send. walk_one. by apply write_runtime_packet_sess. Qed.

(** The rule of a write. *)
Ltac write_rule :=
  lazymatch goal with
  | |- sess _ (send _ _ _ _) _ => apply send_sess
  | |- sess _ (write_parts _ _ _) _ => apply write_parts_sess
  | |- sess _ (write_runtime_packet _ _ _ _) _ => apply write_runtime_packet_sess
  | |- sess _ (write_packet _) _ => apply sess_write
  end.

(** A write at the end of a method. *)
Ltac last_write :=
  eapply (sess_conseq _ any _ _ (fun _ => any));
    [write_rule; [by intros ? ?|try codec_no_panic..]|done|done].

(** The method keeps the invariant and does not panic. *)
Definition sound {A} (m : Async t A) : Prop := sess any m (fun _ _ => True).

Lemma send_progress_sound m body : sound (send_progress m body).
Proof. unfold sound, send_progress. repeat walk_one. last_write. Qed.

Lemma send_partial_result_sound m body : sound (send_partial_result m body).
Proof. unfold sound, send_partial_result. repeat walk_one. last_write. Qed.

Lemma send_result_drop_reason_sound m body : sound (send_result_drop_reason m body).
Proof. unfold sound, send_result_drop_reason. repeat walk_one. last_write. Qed.

Lemma apply_outbound_no_panic mt m p : (RuntimePressureState.apply_outbound mt m p).1 <> Panic.
Proof. by destruct mt. Qed.

Lemma send_backpressure_sound m : sound (send_backpressure m).
Proof.
  unfold sound, send_backpressure. walk_one.
  eapply sess_bind; [apply pressure_sess; intros; apply apply_outbound_no_panic|intros ?]. last_write.
Qed.

Lemma send_credit_update_sound m : sound (send_credit_update m).
Proof.
  unfold sound, send_credit_update. walk_one.
  eapply sess_bind; [apply pressure_sess; intros; apply apply_outbound_no_panic|intros ?].
  walk_one. last_write.
Qed.

Lemma send_flow_update_sound m : sound (send_flow_update m).
Proof. unfold sound, send_flow_update. repeat walk_one. last_write. Qed.

Lemma send_scheduling_update_sound mt m : sound (send_scheduling_update mt m).
Proof. unfold sound, send_scheduling_update. repeat walk_one. last_write. Qed.

Lemma update_budget_sound m : sound (update_budget m).
Proof. unfold sound, update_budget. repeat walk_one. last_write. Qed.

Lemma send_capability_sound mt m body : sound (send_capability mt m body).
Proof.
  unfold sound, send_capability. do 2 walk_one.
  apply sess_bind_lift; [apply protocol_no_panic, decode_registered_no_panic|intros ? _]. last_write.
Qed.

Lemma send_route_hint_sound mt m body : sound (send_route_hint mt m body).
Proof. unfold sound, send_route_hint. repeat walk_one. last_write. Qed.

Lemma send_trace_context_sound frame m body : sound (send_trace_context frame m body).
Proof. unfold sound, send_trace_context. repeat walk_one. last_write. Qed.

Lemma send_recoverable_error_sound m body : sound (send_recoverable_error m body).
Proof. unfold sound, send_recoverable_error. repeat walk_one. last_write. Qed.

Lemma send_retry_after_sound m body : sound (send_retry_after m body).
Proof. unfold sound, send_retry_after. repeat walk_one. last_write. Qed.

Lemma send_object_declare_sound m body : sound (send_object_declare m body).
Proof. unfold sound, send_object_declare. repeat walk_one. last_write. Qed.

Lemma send_object_ref_sound m body : sound (send_object_ref m body).
Proof. unfold sound, send_object_ref. repeat walk_one. last_write. Qed.

Lemma send_object_release_sound m body : sound (send_object_release m body).
Proof. unfold sound, send_object_release. repeat walk_one. last_write. Qed.

Lemma send_object_delta_sound mt m body : sound (send_object_delta mt m body).
Proof. unfold sound, send_object_delta. repeat walk_one. last_write. Qed.

Lemma send_cache_put_sound m body : sound (send_cache_put m body).
Proof. unfold sound, send_cache_put. repeat walk_one. last_write. Qed.

Lemma send_cache_ack_sound m : sound (send_cache_ack m).
Proof. unfold sound, send_cache_ack. last_write. Qed.

Lemma send_cache_reference_sound m body : sound (send_cache_reference m body).
Proof. unfold sound, send_cache_reference. repeat walk_one. last_write. Qed.

Lemma send_cache_miss_sound m body : sound (send_cache_miss m body).
Proof. unfold sound, send_cache_miss. repeat walk_one. last_write. Qed.

Lemma send_cache_invalidate_sound m : sound (send_cache_invalidate m).
Proof. unfold sound, send_cache_invalidate. last_write. Qed.

Lemma send_ping_sound : sound send_ping.
Proof. unfold sound, send_ping. last_write. Qed.

Lemma send_pong_sound : sound send_pong.
Proof. unfold sound, send_pong. last_write. Qed.

Lemma supersede_operation_sound m body : sound (supersede_operation m body).
Proof.
  unfold sound, supersede_operation. do 3 walk_one.
  eapply sess_bind; [apply send_sess; [by intros ? ? ?|codec_no_panic]|intros ?].
  apply complete_local_sess; [done|]. intros s _ [[_ Hc] _]. by eapply capacity_left.
Qed.

Lemma cancel_frame_sound frame : sound (cancel_frame frame).
Proof.
  unfold sound, cancel_frame. do 3 walk_one.
  eapply sess_bind; [apply write_parts_sess; [by intros ? ? ?|done]|intros ?].
  apply complete_local_sess; [done|]. intros s _ [[[_ Hc] _] _]. by eapply capacity_left.
Qed.

End sending.
