(* ===== verification/ClientOpenTheory.v ===== *)
(** What opening a session does ([NnrpClient] of [src/crates/nnrp-runtime/src/client.rs]). *)

From S2P Require Import Prelude Bytes Errors Enums Wire Header Session Flow Control Codes.
From S2P Require Import Lifecycle Capability RuntimeControl Operation Recovery Negotiation.
From S2P Require Import Transport Route RuntimeError Packet Async Pressure PreSubmit Object Cache.
From S2P Require Import Data Schema Regions Submit Event Client SessionLogic ClientTheory ClientOpen.

Local Open Scope Z_scope.
Import NnrpClient.

(** ** Lossy text *)

Lemma utf8_replacement bs : utf8_valid (REPLACEMENT ++ bs) = utf8_valid bs.
Proof. by vm_compute. Qed.

Lemma utf8_replacement_only : utf8_valid REPLACEMENT = true.
Proof. done. Qed.

(** The text of a diagnostic is valid, and valid text is kept as it is. *)
Lemma from_utf8_lossy_valid bs : utf8_valid (from_utf8_lossy bs) = true.
Proof.
  induction bs as [[|b0 r0] IH] using (induction_ltof1 _ length); [done|].
  assert (forall r, (length r < length (b0 :: r0))%nat -> utf8_valid (from_utf8_lossy r) = true) as IH'
    by (intros r Hr; by apply IH).
  clear IH. cbn [from_utf8_lossy].
  repeat case_match; rewrite ?utf8_replacement; try exact utf8_replacement_only; try (apply IH'; cbn [length]; lia).
  all: cbn [utf8_valid]; fold (second_of_three b0) (second_of_four b0).
  all: repeat match goal with H : second_of_three _ _ = _ |- _ => rewrite H; clear H end.
  all: repeat match goal with H : second_of_four _ _ = _ |- _ => rewrite H; clear H end.
  all: repeat match goal with H : in_range _ _ _ = _ |- _ => rewrite H; clear H end.
  all: repeat match goal with H : utf8_tail _ = _ |- _ => rewrite H; clear H end; cbn [andb].
  all: apply IH'; cbn [length]; lia.
Qed.

Lemma from_utf8_lossy_id bs : utf8_valid bs = true -> from_utf8_lossy bs = bs.
Proof.
  induction bs as [[|b0 r0] IH] using (induction_ltof1 _ length); [done|].
  assert (forall r, (length r < length (b0 :: r0))%nat -> utf8_valid r = true -> from_utf8_lossy r = r) as IH'
    by (intros r Hr; by apply IH).
  clear IH. cbn [from_utf8_lossy utf8_valid]. fold (second_of_three b0) (second_of_four b0).
  intros Hv. repeat (case_match; try done); rewrite ?andb_true_iff in Hv; destruct_and?; try congruence.
  all: f_equal; try (apply IH'; [cbn [length]; lia|done]).
  all: repeat f_equal; apply IH'; [cbn [length]; lia|done].
Qed.

(** ** Calls of the client do not panic *)

Section opening.
Context `{Htarget : Target}.

Definition behaved (c : t) : Prop := MultiplexedConnection.well_behaved (connection c).

(** A call on a client with a well-behaved connection. *)
Definition calm {A} (m : Async t A) (Q : A -> Prop) : Prop :=
  triple behaved m (fun a c => behaved c /\ Q a) behaved.

Lemma calm_bind {A B} (m : Async t A) (k : A -> Async t B) Q Q' :
  calm m Q -> (forall a, Q a -> calm (k a) Q') -> calm (x ← m; k x) Q'.
Proof.
  intros Hm Hk. eapply triple_bind; [exact Hm|]. intros a c [Hc Ha]. by apply (Hk a Ha c).
Qed.

Lemma calm_lift {A} (o : RT A) : o <> Panic -> calm (lift o) (fun _ => True).
Proof. intros Ho. by apply triple_lift. Qed.

Lemma calm_gets {A} (f : t -> A) : calm (gets f) (fun _ => True).
Proof. intros c Hc. done. Qed.

Lemma calm_write packet : calm (on_connection (MultiplexedConnection.write_packet packet)) (fun _ => True).
Proof.
  intros [[ws cs rs w] cfg l h] (Hw & Hc & Hr). unfold on_connection. simpl in *.
  destruct ws as [|[u|e|] ws]; simpl; [done|..]; apply Forall_cons in Hw as [Hx Hw]; by repeat split.
Qed.

Lemma calm_read : calm (on_connection MultiplexedConnection.read_control_packet) (fun _ => True).
Proof.
  intros [[ws cs rs w] cfg l h] (Hw & Hc & Hr). unfold on_connection. simpl in *.
  destruct cs as [|[u|e|] cs]; simpl; [done|..]; apply Forall_cons in Hc as [Hx Hc]; by repeat split.
Qed.

Lemma calm_register id :
  calm (on_connection (MultiplexedConnection.register_session id)) FramedTransport.well_behaved.
Proof.
  intros [[ws cs rs w] cfg l h] (Hw & Hc & Hr). unfold on_connection, MultiplexedConnection.register_session.
  simpl in *. destruct (id =? 0); [done|].
  destruct rs as [|[u|e|] rs]; simpl; [done|..]; apply Forall_cons in Hr as [[Hx Hy] Hr];
    repeat split; try done; by apply Hy.
Qed.

Lemma calm_lifecycle ack :
  calm (on_lifecycle (ConnectionLifecycle.apply_session_open_ack ack)) (fun _ => True).
Proof.
  intros c Hc. unfold on_lifecycle.
  pose proof (ConnectionLifecycle.run_no_panic (ConnectionLifecycle.ApplySessionOpenAck ack) (lifecycle c)) as Hnp.
  unfold outcome_of in Hnp. simpl in Hnp.
  by destruct (ConnectionLifecycle.apply_session_open_ack ack (lifecycle c)) as [[a|e|] l].
Qed.

Lemma cache_object_bitmap_no_panic hints : cache_object_bitmap hints <> Panic.
Proof.
  apply try_fold_no_panic. intros b kind. do 2 (apply bind_no_panic; [apply ok_or_no_panic|intros ? _]). done.
Qed.

Lemma hello_validate_no_panic ack hello :
  ServerHelloAckMetadata.validate_against_client_hello ack hello <> Panic.
Proof.
  unfold ServerHelloAckMetadata.validate_against_client_hello. guard_no_panic.
Qed.

Lemma accept_open_ack_no_panic config resume request packet :
  accept_open_ack config resume request packet <> Panic.
Proof.
  unfold accept_open_ack, validate_session_recovery_ack. cbv zeta. guard_no_panic.
Qed.

Lemma exchange_hello_calm metadata : calm (exchange_hello metadata) (fun _ => True).
Proof.
  unfold exchange_hello. cbv zeta.
  eapply calm_bind; [apply calm_lift, protocol_no_panic; codec_no_panic|intros bytes _].
  eapply calm_bind; [apply calm_lift, protocol_no_panic, packet_new_no_panic|intros out _].
  eapply calm_bind; [apply calm_write|intros ? _].
  eapply calm_bind; [apply calm_read|intros packet _].
  do 2 (eapply calm_bind; [apply calm_lift, reject_if_no_panic|intros ? _]).
  eapply calm_bind; [apply calm_lift, protocol_no_panic; codec_no_panic|intros ack _].
  eapply calm_bind; [apply calm_lift, protocol_no_panic, hello_validate_no_panic|intros ? _].
  intros c Hc. split; [exact Hc|done].
Qed.

Lemma ensure_hello_calm config : calm (ensure_hello config) (fun _ => True).
Proof.
  unfold ensure_hello. eapply calm_bind; [apply calm_lift, cache_object_bitmap_no_panic|intros bitmap _].
  eapply calm_bind; [apply calm_gets|intros [existing|] _]; [apply calm_lift, reject_if_no_panic|].
  apply exchange_hello_calm.
Qed.

(** A session just opened satisfies the invariant. *)
Lemma inv_opened id n tr l p ticket :
  FramedTransport.well_behaved tr ->
  inv (NnrpClientSession.mk id 1 ∅ ∅ ∅ ∅ ∅ (PreSubmitDeadlineReservations.new n) 0 tr l p [] [] ticket).
Proof.
  intros Htr. split; simpl; try done.
  apply PreSubmitDeadlineReservations.reservations_new_invariant.
Qed.

Lemma open_session_calm config resume : calm (open_session_inner config resume) inv.
Proof.
  unfold open_session_inner. cbv zeta.
  eapply calm_bind; [apply ensure_hello_calm|intros ? _].
  eapply calm_bind; [apply calm_lift; unfold session_open_metadata; guard_no_panic|intros md _].
  eapply calm_bind; [apply calm_lift, protocol_no_panic; codec_no_panic|intros bytes _].
  eapply calm_bind; [apply calm_lift, protocol_no_panic, packet_new_no_panic|intros out _].
  eapply calm_bind; [apply calm_write|intros ? _].
  eapply calm_bind; [apply calm_read|intros packet _].
  eapply calm_bind; [apply calm_lift, accept_open_ack_no_panic|intros [ack ticket] _].
  eapply calm_bind; [apply calm_lifecycle|intros ? _].
  eapply calm_bind; [apply calm_gets|intros l _].
  eapply calm_bind; [apply calm_register|intros tr Htr].
  intros c Hc. split; [done|]. by apply inv_opened.
Qed.

(** ** What opening a session does *)

Lemma returns_write packet c u c' :
  returns (on_connection (MultiplexedConnection.write_packet packet)) c u c' ->
  MultiplexedConnection.written (connection c') = MultiplexedConnection.written (connection c) ++ [packet] /\
  lifecycle c' = lifecycle c /\ hello c' = hello c.
Proof.
  unfold returns, on_connection. destruct c as [[[|[v|e|] ws] cs rs w] cfg l h]; simpl; try done.
  by intros [= <- <-].
Qed.

Lemma returns_read c packet c' :
  returns (on_connection MultiplexedConnection.read_control_packet) c packet c' ->
  MultiplexedConnection.written (connection c') = MultiplexedConnection.written (connection c) /\
  lifecycle c' = lifecycle c /\ hello c' = hello c.
Proof.
  unfold returns, on_connection. destruct c as [[ws [|r cs] rs w] cfg l h]; simpl; [done|].
  by intros [= _ <-].
Qed.

Lemma returns_register id c tr c' :
  returns (on_connection (MultiplexedConnection.register_session id)) c tr c' ->
  id <> 0 /\
  MultiplexedConnection.written (connection c') = MultiplexedConnection.written (connection c) /\
  lifecycle c' = lifecycle c /\ hello c' = hello c.
Proof.
  unfold returns, on_connection, MultiplexedConnection.register_session.
  destruct (Z.eqb_spec id 0); simpl; [by intros [=]|].
  destruct c as [[ws cs [|r rs] w] cfg l h]; simpl; [done|]. by intros [= _ <-].
Qed.

Lemma packet_new_parts h md bd p :
  RuntimePacket.new h md bd = Ok p ->
  CommonHeader.message_type (RuntimePacket.header p) = CommonHeader.message_type h /\
  RuntimePacket.metadata p = md /\ RuntimePacket.body p = bd.
Proof.
  unfold RuntimePacket.new. intros (? & _ & H)%bind_Ok. apply bind_Ok in H as (? & _ & H).
  cbv zeta in H. apply bind_Ok in H as (? & _ & [= <-]). done.
Qed.

(** The packets that the client owes before a session is open: a hello, unless one was
    exchanged before, whose metadata decodes to what the client offered. *)
Definition hello_sent (config : NnrpClientConfig.t) (c c' : t) (sent : list RuntimePacket.t) : Prop :=
  match hello c with
  | Some offered => sent = [] /\ hello c' = Some offered
  | None => exists packet offered,
      sent = [packet] /\ hello c' = Some offered /\
      CommonHeader.message_type (RuntimePacket.header packet) = MessageType.ClientHello /\
      ClientHelloMetadata.to_bytes offered = Ok (RuntimePacket.metadata packet) /\
      RuntimePacket.body packet = [] /\
      ClientHelloMetadata.requested_session_id offered = NnrpClientConfig.requested_session_id config
  end.

Lemma ensure_hello_returns config c u c' :
  returns (ensure_hello config) c u c' ->
  exists sent, MultiplexedConnection.written (connection c') =
    MultiplexedConnection.written (connection c) ++ sent /\
    lifecycle c' = lifecycle c /\ hello_sent config c c' sent.
Proof.
  unfold ensure_hello. intros (bitmap & ? & [_ ->]%returns_lift & H)%returns_bind.
  apply returns_bind in H as (h & ? & [-> ->]%returns_gets & H). unfold hello_sent.
  destruct (hello c) as [existing|] eqn:Hh.
  - apply returns_lift in H as [_ ->]. exists []. by rewrite app_nil_r.
  - unfold exchange_hello in H. cbv zeta in H.
    apply returns_bind in H as (bytes & ? & [Hb%protocol_Ok ->]%returns_lift & H).
    apply returns_bind in H as (out & ? & [Hout%protocol_Ok%packet_new_parts ->]%returns_lift & H).
    apply returns_bind in H as (? & c1 & (Hw & Hl & _)%returns_write & H).
    apply returns_bind in H as (? & c2 & (Hw2 & Hl2 & _)%returns_read & H).
    repeat (apply returns_bind in H as (? & ? & [_ ->]%returns_lift & H)).
    apply returns_modify in H as ->. exists [out]. simpl. rewrite Hw2, Hw, Hl2, Hl.
    destruct Hout as (Ht & <- & Hbody).
    split; [done|]. split; [done|]. exists out, (hello_metadata config bitmap).
    split_and!; [done|done|exact Ht|exact Hb|exact Hbody|done].
Qed.

(** The ticket of a session: bound to it, with a token the client has room for, going on
    from the operation that the ticket used to open it names. *)
Definition ticket_ok (config : NnrpClientConfig.t) (resume : option NnrpSessionRecoveryTicket.t)
    (session_id : Z) (ticket : option NnrpSessionRecoveryTicket.t) : Prop :=
  forall t, ticket = Some t ->
    NnrpSessionRecoveryTicket.session_id t = session_id /\
    NnrpSessionRecoveryTicket.resume_token t <> [] /\
    (0 < NnrpClientConfig.resume_token_bytes config ->
     len (NnrpSessionRecoveryTicket.resume_token t) <= NnrpClientConfig.resume_token_bytes config) /\
    NnrpSessionRecoveryTicket.resume_from_operation_id t =
      (resume ≫= NnrpSessionRecoveryTicket.resume_from_operation_id).

Lemma accept_open_ack_Ok config resume request packet ack ticket :
  accept_open_ack config resume request packet = Ok (ack, ticket) ->
  ticket_ok config resume (SessionOpenAckMetadata.session_id ack) ticket /\
  (SessionOpenAckMetadata.session_status ack = SessionStatus.Opened \/
   SessionOpenAckMetadata.session_status ack = SessionStatus.Resumed /\
   SessionOpenMetadata.resume_token_bytes request <> 0).
Proof.
  unfold accept_open_ack. intros [_ H]%then_unit_Ok. apply bind_Ok in H as (ack' & _ & H).
  apply bind_Ok in H as (outcome & Hrec%protocol_Ok & H). cbv zeta in H.
  apply bind_Ok in H as (expected & Hexp%ok_or_Ok & H).
  apply then_unit_Ok in H as [Hlen%reject_if_Ok H].
  apply then_unit_Ok in H as [Hst H]. apply then_unit_Ok in H as [Hext%reject_if_Ok H].
  apply then_unit_Ok in H as [Hcap%reject_if_Ok H].
  injection H as -> Htk. destruct (_ && _) in Hexp; [|done]. apply checked_add_Some in Hexp as [-> _].
  apply negb_false_iff, Z.eqb_eq in Hlen, Hext. rewrite Hext, Z.add_0_r in Hlen. split.
  - intros t Ht. rewrite <- Htk in Ht. clear Htk. case_match eqn:Hpos; [|done]. injection Ht as <-. simpl.
    split_and!; [done| |lia|by destruct resume].
    intros Hnil. rewrite Hnil in Hlen. change (len (A := byte) []) with 0 in Hlen. lia.
  - unfold validate_session_recovery_ack in Hrec. cbv zeta in Hrec.
    apply then_unit_Ok in Hrec as [_ Hrec].
    destruct (SessionOpenAckMetadata.session_status ack); try discriminate Hst; [by left|right].
    split; [done|]. apply then_unit_Ok in Hrec as [Hz%reject_if_Ok _]. lia.
Qed.

Lemma open_ack_installs ack l u l' :
  SessionOpenAckMetadata.session_status ack = SessionStatus.Opened \/
    SessionOpenAckMetadata.session_status ack = SessionStatus.Resumed ->
  ConnectionLifecycle.apply_session_open_ack ack l = (Ok u, l') ->
  ConnectionLifecycle.session l (SessionOpenAckMetadata.session_id ack) = None /\
  exists s, ConnectionLifecycle.session l' (SessionOpenAckMetadata.session_id ack) = Some s /\
    SessionLifecycleState.accepts_new_operations (SessionLifecycle.state s) = true.
Proof.
  unfold ConnectionLifecycle.apply_session_open_ack, ConnectionLifecycle.session.
  destruct (ConnectionLifecycle.require_connection_open l); [|by intros _ [=]..]. cbv zeta.
  intros [-> | ->]; destruct (SessionOpenAckMetadata.session_id ack =? 0), (ConnectionLifecycle.sessions l !! _) eqn:E;
    simpl; try done; intros [= _ <-]; (split; [done|]); eexists; cbn; by rewrite lookup_insert_eq.
Qed.

(** C28: opening a session on a well-behaved connection does not panic.
    When it returns, the client has sent a hello that the server accepted, now or before, and
    then one SESSION_OPEN with the resume token as its body; the session has the non-zero id of
    the acknowledgement, which the connection did not have before and now accepts operations
    for; nothing of an earlier session is left in it; and a ticket it carries is bound to it
    and fits the client's capacity. *)
Theorem open_session_contract (c : t) (config : NnrpClientConfig.t)
    (resume : option NnrpSessionRecoveryTicket.t) :
  MultiplexedConnection.well_behaved (connection c) ->
  (open_session_inner config resume c).1 <> Ready Panic /\
  forall s c', returns (open_session_inner config resume) c s c' ->
    inv s /\ NnrpClientSession.session_id s <> 0 /\
    NnrpClientSession.lifecycle s = lifecycle c' /\
    ConnectionLifecycle.session (lifecycle c) (NnrpClientSession.session_id s) = None /\
    (exists l, ConnectionLifecycle.session (lifecycle c') (NnrpClientSession.session_id s) = Some l /\
       SessionLifecycleState.accepts_new_operations (SessionLifecycle.state l) = true) /\
    (exists sent packet request,
       MultiplexedConnection.written (connection c') =
         MultiplexedConnection.written (connection c) ++ sent ++ [packet] /\
       hello_sent config c c' sent /\
       CommonHeader.message_type (RuntimePacket.header packet) = MessageType.SessionOpen /\
       session_open_metadata config (len (RuntimePacket.body packet)) = Ok request /\
       SessionOpenMetadata.to_bytes request = Ok (RuntimePacket.metadata packet) /\
       RuntimePacket.body packet = default [] (NnrpSessionRecoveryTicket.resume_token <$> resume)) /\
    ticket_ok config resume (NnrpClientSession.session_id s) (NnrpClientSession.recovery_ticket s) /\
    NnrpClientSession.operation_frames s = ∅ /\ NnrpClientSession.seen_operation_ids s = ∅ /\
    NnrpClientSession.next_frame_id s = 1.
Proof.
  intros Hc. split.
  { pose proof (open_session_calm config resume c Hc) as Hm.
    destruct (open_session_inner config resume c) as [[[a|e|]|] ?]; done. }
  intros s c' Hr. pose proof (triple_returns _ _ _ _ _ _ _ (open_session_calm config resume) Hc Hr) as [_ Hi].
  split; [exact Hi|clear Hi Hc]. unfold open_session_inner in Hr. cbv zeta in Hr.
  apply returns_bind in Hr as (? & c1 & (sent & Hw1 & Hl1 & Hhello)%ensure_hello_returns & Hr).
  apply returns_bind in Hr as (request & ? & [Hreq ->]%returns_lift & Hr).
  apply returns_bind in Hr as (bytes & ? & [Hb%protocol_Ok ->]%returns_lift & Hr).
  apply returns_bind in Hr as (out & ? & [(Ht & <- & Hbody)%protocol_Ok%packet_new_parts ->]%returns_lift & Hr).
  apply returns_bind in Hr as (? & c2 & (Hw2 & Hl2 & Hh2)%returns_write & Hr).
  apply returns_bind in Hr as (packet & c3 & (Hw3 & Hl3 & Hh3)%returns_read & Hr).
  apply returns_bind in Hr as ([ack ticket] & ? & [[Htk Hst]%accept_open_ack_Ok ->]%returns_lift & Hr).
  apply returns_bind in Hr as (? & c4 & Hl & Hr). unfold returns, on_lifecycle in Hl.
  destruct (ConnectionLifecycle.apply_session_open_ack ack (lifecycle c3)) as [o l] eqn:Hack.
  injection Hl as Ho <-. apply protocol_Ok in Ho as ->. apply open_ack_installs in Hack as [Hn Hs]; [|by naive_solver].
  apply returns_bind in Hr as (? & ? & [-> ->]%returns_gets & Hr).
  apply returns_bind in Hr as (tr & c5 & (Hid & Hw5 & Hl5 & Hh5)%returns_register & Hr).
  apply returns_ret in Hr as [-> ->]. cbn in *. rewrite Hl3, Hl2, Hl1 in Hn.
  split; [exact Hid|]. split; [by rewrite Hl5|]. split; [exact Hn|]. split; [by rewrite Hl5|].
  split; [|by auto]. exists sent, out, request. rewrite Hw5, Hw3, Hw2, Hw1, <- app_assoc.
  split; [done|]. split.
  { unfold hello_sent in *. by rewrite Hh5, Hh3, Hh2. }
  split; [exact Ht|]. rewrite Hbody. split; [exact Hreq|]. split; [exact Hb|]. by destruct resume.
Qed.

End opening.

(** ** An example: a resumed session *)

Module Example.

(** A packet of a type with its metadata and body. *)
Definition packet_of (mt : MessageType.t) (session frame : Z) (metadata body : bytes) : RuntimePacket.t :=
  {| RuntimePacket.header :=
       RuntimePacket.set_lens (NnrpClientSession.address (CommonHeader.new mt 0 0) session frame)
         (len metadata) (len body);
     RuntimePacket.metadata := metadata; RuntimePacket.body := body |}.

Definition hello_ack : ServerHelloAckMetadata.t :=
  ServerHelloAckMetadata.mk 1 0 0 7 2 1 0 0 0 0 0 0 0 0 1 1 0 0 0 0 0 0 0 0 0.

Definition open_ack : SessionOpenAckMetadata.t :=
  SessionOpenAckMetadata.mk 42 1 SessionPriorityClass.Balanced SessionStatus.Resumed 0 0 1 8 0 5000 2
    0 0 0 0 SESSION_ACK_FLAG_RESUME_ENABLED.

Definition old_ticket : NnrpSessionRecoveryTicket.t :=
  NnrpSessionRecoveryTicket.mk 42 [x01; x02; x03] (Some 9) 5000.

Definition transport (reads : list (RT RuntimePacket.t)) (writes : nat) : FramedTransport.t :=
  FramedTransport.mk RuntimeTransportKind.Tcp reads [] (replicate writes (Ok tt)) [] [].

Definition client (tr : FramedTransport.t) : t :=
  from_boxed_transport
    (MultiplexedConnection.mk [Ok tt; Ok tt]
       [Ok (packet_of MessageType.ServerHelloAck 0 0 (wire hello_ack) []);
        Ok (packet_of MessageType.SessionOpenAck 0 0 (wire open_ack) [x0a; x0b])]
       [Ok tr] [])
    NnrpClientConfig.default.

Lemma client_behaved tr :
  FramedTransport.well_behaved tr -> MultiplexedConnection.well_behaved (connection (client tr)).
Proof.
  intros Htr. split; [by repeat constructor|]. split; [by repeat constructor|].
  apply Forall_cons. split; [|by apply Forall_nil]. split; [done|]. by intros ? [= <-].
Qed.

(** The configuration that [resume_session] opens with. *)
Definition resume_config : NnrpClientConfig.t :=
  let c := NnrpClientConfig.default in
  NnrpClientConfig.mk 42 (NnrpClientConfig.profile_id c) (NnrpClientConfig.schema_id c)
    (NnrpClientConfig.schema_version c) (NnrpClientConfig.priority_class c)
    (NnrpClientConfig.default_deadline_ms c) (NnrpClientConfig.max_in_flight_operations c)
    (NnrpClientConfig.lease_ttl_hint_ms c) true (NnrpClientConfig.resume_token_bytes c)
    (NnrpClientConfig.cache_hints c).

(** The session that the example opens over a transport. *)
Definition session (tr : FramedTransport.t) : NnrpClientSession.t :=
  NnrpClientSession.mk 42 1 ∅ ∅ ∅ ∅ ∅ (PreSubmitDeadlineReservations.new 8) 0 tr
    {| ConnectionLifecycle.state := ConnectionLifecycleState.Open;
       ConnectionLifecycle.sessions :=
         {[42 := ConnectionLifecycle.session_of_ack open_ack SessionLifecycleState.Resumed]};
       ConnectionLifecycle.established_session_states := {[42 := SessionLifecycleState.Resumed]} |}
    RuntimePressureState.default [] []
    (Some (NnrpSessionRecoveryTicket.mk 42 [x0a; x0b] (Some 9) 5000)).

Lemma session_opens tr : exists c',
  returns (open_session_inner (Htarget := target64) resume_config (Some old_ticket)) (client tr)
    (session tr) c'.
Proof. eexists. unfold returns. vm_compute. reflexivity. Qed.

End Example.

Lemma open_session_contract_witness :
  let tr := Example.transport [] 0 in
  MultiplexedConnection.well_behaved (connection (Example.client tr)) /\
  inv (Example.session tr) /\
  ticket_ok Example.resume_config (Some Example.old_ticket) 42
    (NnrpClientSession.recovery_ticket (Example.session tr)).
Proof.
  cbv zeta.
  assert (MultiplexedConnection.well_behaved (connection (Example.client (Example.transport [] 0)))) as Hc
    by (apply Example.client_behaved; by repeat constructor).
  destruct (Example.session_opens (Example.transport [] 0)) as [c' Hr].
  destruct (open_session_contract (Htarget := target64) _ Example.resume_config (Some Example.old_ticket) Hc)
    as [_ Ho].
  destruct (Ho _ _ Hr) as (Hi & _ & _ & _ & _ & _ & Ht & _). split; [exact Hc|]. split; [exact Hi|exact Ht].
Defined.
