(* ===== verification/ClientMethods.v ===== *)
(** The other methods of a client session ([src/crates/nnrp-runtime/src/client.rs]): submitting,
    reserving deadlines, waiting for events, patching, migrating and closing, and what holds of a
    session over any sequence of calls. *)

From S2P Require Import Prelude Bytes Errors Enums Wire Header Session Flow Control Codes.
From S2P Require Import Lifecycle Capability RuntimeControl Operation Recovery Transport Route.
From S2P Require Import RuntimeError Packet Async Pressure PreSubmit Object Cache Data Schema.
From S2P Require Import Regions Submit Event Client SessionLogic ClientTheory.

Local Open Scope Z_scope.
Import NnrpClientSession.

Create HintDb client discriminated.
#[export] Hint Constants Opaque : client.

(** The arms of [decode_event]. *)
Create HintDb arms.
#[export] Hint Unfold decode_result_push decode_result_drop decode_result_drop_reason
  decode_partial_result decode_progress decode_control decode_scheduling decode_supersede
  decode_budget decode_flow_update decode_pressure decode_capability decode_route_hint
  decode_object_declare decode_object_ref decode_object_release decode_object_delta
  decode_cache_reference decode_cache_miss decode_cache_invalidate decode_trace_context
  decode_recoverable_error decode_retry_after decode_result_hint : arms.

Section methods.
Context `{Htarget : Target}.
Implicit Types F : t -> Prop.

(** ** The fields *)

Lemma inv_set_deadlines s d :
  PreSubmitDeadlineReservations.invariant d -> inv s -> inv (set_pre_submit_deadlines s d).
Proof. intros Hd []. by split. Qed.

Lemma inv_set_lifecycle s l : inv s -> inv (set_lifecycle s l).
Proof. intros []. by split. Qed.

Lemma inv_set_events s events :
  inv s -> Forall event_ok events -> len events <= MAX_PENDING_CLIENT_EVENTS ->
  inv (set_pending_events s events).
Proof. intros [] He Hl. by split. Qed.

Lemma inv_set_roles s events :
  inv s -> Forall role_event_ok events -> len events <= MAX_PENDING_CLIENT_EVENTS ->
  inv (set_pending_role_events s events).
Proof. intros [] He Hl. by split. Qed.

(** What is known of the session does not depend on its reservations. *)
Definition undated F : Prop := forall s d, F s -> F (set_pre_submit_deadlines s d).

Lemma deadlines_sess {A} F (m : Method PreSubmitDeadlineReservations.t RuntimeError A) :
  (forall d, (m d).1 <> Panic) -> (forall d, PreSubmitDeadlineReservations.step d (m d).2) ->
  undated F -> sess F (on_deadlines m) (fun _ => F).
Proof.
  intros Hnp Hst HF s [Hi Hs]. specialize (Hnp (pre_submit_deadlines s)).
  specialize (Hst (pre_submit_deadlines s)).
  apply PreSubmitDeadlineReservations.step_invariant in Hst; [|apply (inv_deadlines s Hi)].
  unfold on_deadlines. destruct (m _) as [o d]. cbn in *.
  assert (inv (set_pre_submit_deadlines s d)) by (by apply inv_set_deadlines).
  destruct o; [by auto|done|done].
Qed.

Lemma lifecycle_sess (c : ConnectionLifecycle.call) :
  sess any (on_lifecycle (ConnectionLifecycle.run c)) (fun _ => any).
Proof.
  intros s [Hi _]. pose proof (ConnectionLifecycle.run_no_panic c (lifecycle s)) as Hnp.
  unfold on_lifecycle, outcome_of in *. destruct (ConnectionLifecycle.run c (lifecycle s)) as [o l].
  pose proof (inv_set_lifecycle s l Hi). by destruct o.
Qed.

Lemma reserve_sess F frame md now :
  undated F -> sess F (on_deadlines (PreSubmitDeadlineReservations.reserve frame md now)) (fun _ => F).
Proof.
  apply deadlines_sess; [intros d; apply reserve_no_panic|intros d; by constructor].
Qed.

Lemma take_sess F op frame now :
  undated F ->
  sess F (on_deadlines (PreSubmitDeadlineReservations.take_for_submit op frame now)) (fun _ => F).
Proof.
  apply deadlines_sess; [intros d; apply take_no_panic|intros d; by constructor].
Qed.

(** ** Submitting *)

(** The tables of a session after a submission. *)
Definition submitted (op frame : Z) (self : t) : t :=
  mk (session_id self) (frame + 1) (<[op := frame]> (operation_frames self))
    (<[frame := op]> (frame_operations self)) (local_operation_states self)
    (pending_terminal_controls self) ({[op]} ∪ seen_operation_ids self) (pre_submit_deadlines self)
    (Z.max (last_operation_id self) op) (transport self) (lifecycle self) (pressure self)
    (pending_events self) (pending_role_events self) (recovery_ticket self).

Lemma inv_submitted s op frame :
  inv s -> op <> 0 -> op ∉ seen_operation_ids s -> frame <> 0 -> next_frame_id s <= frame ->
  frame + 1 <= u32_max -> inv (submitted op frame s).
Proof.
  intros Hi Hop Hseen Hf Hnext Hmax.
  assert (operation_frames s !! op = None) as Ho.
  { destruct (operation_frames s !! op) as [f|] eqn:E; [|done]. by apply (inv_live s Hi) in E as (_ & _ & ? & _). }
  assert (frame_operations s !! frame = None) as Hfo.
  { destruct (frame_operations s !! frame) as [o|] eqn:E; [|done].
    apply (inv_inverse s Hi), (inv_live s Hi) in E. lia. }
  destruct Hi as [Hinv Hlive Hlocal Hctl Hcb Hsb Hn Hrole Hrb Hev Heb Hdl Htr].
  split; simpl; try done.
  - intros o f. rewrite !lookup_insert_Some. split.
    + intros [[<- <-]|[Hne Hof]]; [by left|]. right. split; [|by apply Hinv]. intros <-.
      apply Hinv in Hof. congruence.
    + intros [[<- <-]|[Hne Hof]]; [by left|]. right. apply Hinv in Hof. split; [|done]. intros <-.
      congruence.
  - intros o f [[<- <-]|[Hne Hof]]%lookup_insert_Some; [split_and!; [done|done|set_solver|lia]|].
    apply Hlive in Hof as (? & ? & ? & ?). split_and!; [done|done|set_solver|lia].
  - intros o st Hst. destruct (Hlocal o st Hst) as [Ht [->|Hs]]; [by auto|]. split; [done|]. right.
    by apply lookup_insert_is_Some'; right.
  - intros o st Hst. destruct (Hctl o st Hst) as [Ht Hs]. split; [done|].
    by apply lookup_insert_is_Some'; right.
  - intros o [Ho'|Ho']%elem_of_union; [apply elem_of_singleton in Ho' as ->; split; [done|lia]|].
    apply Hsb in Ho' as [? ?]. split; [done|lia].
Qed.

(** A submission that succeeds had fresh identifiers. *)
Definition fresh (op frame : Z) (s : t) : Prop :=
  op <> 0 /\ (op ∉ seen_operation_ids s) /\ frame <> 0 /\ next_frame_id s <= frame /\ frame + 1 <= u32_max.

Lemma submit_nowait_sess now request :
  sess any (submit_nowait now request)
    (fun frame s' => exists s, s' = submitted (FrameSubmitMetadata.operation_id (NnrpSubmitRequest.metadata request)) frame s /\
       frame = NnrpSubmitRequest.frame_id request /\
       fresh (FrameSubmitMetadata.operation_id (NnrpSubmitRequest.metadata request)) frame s).
Proof.
  unfold submit_nowait. cbv zeta.
  set (frame := NnrpSubmitRequest.frame_id request).
  set (op := FrameSubmitMetadata.operation_id (NnrpSubmitRequest.metadata request)).
  do 3 walk_one. rename H into Hadd.
  apply ok_or_Ok in Hadd. unfold checked_add in Hadd. case_match eqn:Hmax; [|done]. injection Hadd as <-.
  apply Z.leb_le in Hmax.
  apply (sess_conseq _ (fresh op frame) _ _ (fun f s' => exists s, s' = submitted op f s /\
    f = frame /\ fresh op f s)); [| |done].
  2:{ intros s _ [[_ Hf%reject_if_Ok] Ho%reject_if_Ok].
      apply orb_false_iff in Hf as [Hf Hn]. apply orb_false_iff in Ho as [Ho Hs]. apply bool_decide_eq_false in Hs.
      unfold fresh. split_and!; [lia|done|lia|lia|lia]. }
  eapply sess_bind; [apply take_sess; by intros ? ? ?|intros ?; cbv beta].
  walk_one.
  eapply sess_bind; [apply write_parts_sess; [by intros ? ? ?|codec_no_panic]|intros ?; cbv beta].
  eapply (sess_bind _ _ _ (fun _ s' => exists s, s' = submitted op frame s /\ fresh op frame s)).
  - apply sess_modify. intros s Hi [(? & ? & ? & ? & ?) _].
    split; [by apply (inv_submitted s)|]. by exists s.
  - intros ?. apply sess_ret. intros s' _ (s & -> & Hf). by exists s.
Qed.

Lemma submit_nowait_sound now request : sound (submit_nowait now request).
Proof. eapply sess_conseq; [apply submit_nowait_sess|done|done]. Qed.

Lemma submit_encoded_sound now md body : sound (submit_encoded now md body).
Proof.
  unfold sound, submit_encoded. walk_one. eapply sess_conseq; [apply submit_nowait_sound|done|done].
Qed.

(** ** Controls and deadlines *)

Lemma inv_set_controls s op state :
  inv s -> OperationState.is_terminal state = true -> is_Some (operation_frames s !! op) ->
  Z.of_nat (size (<[op := state]> (pending_terminal_controls s))) <= MAX_PENDING_CLIENT_EVENTS ->
  inv (set_tables s (operation_frames s) (frame_operations s) (local_operation_states s)
         (<[op := state]> (pending_terminal_controls s))).
Proof.
  intros Hi Ht Ho Hb. destruct Hi. split; simpl; try done.
  intros o st [[<- <-]|[Hne Hst]]%lookup_insert_Some; [done|by eauto].
Qed.

(** There is room for the control of a live operation. *)
Definition control_room (op : Z) (s : t) : Prop :=
  op = 0 \/ (is_Some (operation_frames s !! op) /\
    Z.of_nat (size (pending_terminal_controls s)) < MAX_PENDING_CLIENT_EVENTS).

Lemma send_control_sound mt md body : sound (send_control_request_with_diagnostics mt md body).
Proof.
  unfold sound, send_control_request_with_diagnostics. cbv zeta.
  set (op := ControlRequestMetadata.operation_id md).
  apply sess_bind_lift; [guard_no_panic|intros [] Hsem%protocol_Ok%control_semantics_type].
  walk_one.
  apply sess_bind_lift; [by destruct Hsem as [-> | ->]|intros state Hstate%control_state_terminal].
  eapply (sess_bind _ _ _ (fun _ => control_room op)).
  - destruct (Z.eqb_spec op 0) as [Hz|Hz]; simpl; [apply sess_ret; by left|]. repeat walk_one.
    intros [] s Hi [[_ Hc] Hr%reject_if_Ok] Hnone. right.
    apply correlated_live in Hc as [[? _]|[_ Hc]]; [done|]. split; [by eexists|].
    destruct (pending_terminal_controls s !! op) eqn:E; [done|]. simpl in Hr.
    rewrite andb_true_r in Hr. lia.
  - intros ?. do 2 walk_one.
    eapply sess_bind; [apply write_parts_sess; [by intros ? ? ?|codec_no_panic]|intros ?; cbv beta].
    destruct (Z.eqb_spec op 0) as [Hz|Hz]; [by apply sess_ret|]. apply sess_modify.
    intros s Hi [[[?|[Hl Hb]] _] _]; [done|]. split; [|done]. apply inv_set_controls; [done..|].
    rewrite map_size_insert. case_match; unfold id; lia.
Qed.

Lemma write_or_discard_sound packet op frame : sound (write_or_discard packet op frame).
Proof.
  intros s Hs. pose proof (sess_write any packet ltac:(done) s Hs) as Hw. unfold write_or_discard.
  destruct (write_packet packet s) as [[[u|e|]|] s']; [done| |done|done].
  apply inv_set_deadlines; [|done]. eapply PreSubmitDeadlineReservations.step_invariant; [constructor|].
  apply (inv_deadlines _ Hw).
Qed.

Lemma send_scheduling_for_frame_sound now mt frame md :
  sound (send_scheduling_update_for_frame now mt frame md).
Proof.
  unfold sound, send_scheduling_update_for_frame. cbv zeta. do 2 walk_one. case_match.
  - case_match; [by apply sess_lift|].
    eapply sess_conseq; [apply send_scheduling_update_sound|done|done].
  - do 3 walk_one. eapply sess_bind; [apply reserve_sess; by intros ? ? ?|intros ?; cbv beta].
    unfold send_reserved_deadline. do 3 walk_one.
    eapply sess_conseq; [apply write_or_discard_sound|done|done].
Qed.

Lemma slice_from_no_panic source a : (a <= length source)%nat -> slice source a (length source) <> Panic.
Proof. intros Ha. by rewrite slice_to_end. Qed.

Lemma object_delta_parse_len payload m :
  ObjectDeltaMetadata.parse payload = Ok m -> (OBJECT_DELTA_METADATA_LEN <= length payload)%nat.
Proof.
  intros Hp. pose proof (law_parse_sound (A := ObjectDeltaMetadata.t) payload m) as Hs.
  destruct (Hs Hp) as [_ Ht]. apply (f_equal length) in Ht.
  rewrite length_wire, length_take in Ht. change (codec_len (A := ObjectDeltaMetadata.t)) with OBJECT_DELTA_METADATA_LEN in Ht. lia.
Qed.

Lemma sound_bind_lift {A B} (o : RT A) (k : A -> Async t B) :
  o <> Panic -> (forall a, o = Ok a -> sound (k a)) -> sound (x ← lift o; k x).
Proof. apply sess_bind_lift. Qed.

Hint Resolve send_flow_update_sound send_progress_sound send_partial_result_sound
  send_backpressure_sound send_result_drop_reason_sound send_control_sound
  send_scheduling_for_frame_sound supersede_operation_sound update_budget_sound
  send_credit_update_sound send_capability_sound send_route_hint_sound send_trace_context_sound
  send_recoverable_error_sound send_retry_after_sound send_object_declare_sound
  send_object_ref_sound send_object_release_sound send_object_delta_sound send_cache_put_sound
  send_cache_ack_sound send_cache_reference_sound send_cache_miss_sound
  send_cache_invalidate_sound send_scheduling_update_sound : client.

Lemma send_runtime_frame_sound now mt frame payload : sound (send_runtime_frame now mt frame payload).
Proof.
  unfold send_runtime_frame.
  destruct mt; try (by apply sess_lift);
    try (apply sound_bind_lift; [apply protocol_no_panic; codec_no_panic|intros [md body] _]; by auto with client);
    try (apply sound_bind_lift; [apply protocol_no_panic; codec_no_panic|intros md Hmd]; by auto with client).
  1: { apply sound_bind_lift; [apply reject_if_no_panic|intros [] Hl%reject_if_Ok].
       assert (CACHE_PUT_METADATA_LEN <= length payload)%nat by (unfold len in Hl; lia).
       apply sound_bind_lift; [apply protocol_no_panic; unfold slice; by rewrite decide_True by lia|intros mb _].
       apply sound_bind_lift; [apply protocol_no_panic; codec_no_panic|intros md _].
       apply sound_bind_lift; [by apply protocol_no_panic, slice_from_no_panic|auto with client]. }
  all: apply sound_bind_lift; [apply protocol_no_panic; codec_no_panic|];
    intros md Hmd%protocol_Ok%object_delta_parse_len;
    apply sound_bind_lift; [by apply protocol_no_panic, slice_from_no_panic|auto with client].
Qed.

(** ** Receiving *)

Lemma pop_role_sess :
  sess any pop_role_event (fun item _ => match item with Some e => role_event_ok e | None => True end).
Proof.
  intros s [Hi _]. unfold pop_role_event. destruct (pending_role_events s) as [|e es] eqn:E; [done|].
  pose proof (inv_role s Hi) as Hr. pose proof (inv_role_bound s Hi) as Hb.
  rewrite E in Hr, Hb. apply Forall_cons in Hr as [He Hes]. rewrite len_cons in Hb. split; [|done].
  apply inv_set_roles; [done|done|lia].
Qed.

Lemma pop_event_sess :
  sess any pop_event (fun item _ => match item with Some e => event_ok e | None => True end).
Proof.
  intros s [Hi _]. unfold pop_event. destruct (pending_events s) as [|e es] eqn:E; [done|].
  pose proof (inv_events s Hi) as Hr. pose proof (inv_events_bound s Hi) as Hb.
  rewrite E in Hr, Hb. apply Forall_cons in Hr as [He Hes]. rewrite len_cons in Hb. split; [|done].
  apply inv_set_events; [done|done|lia].
Qed.

Lemma await_client_event_sess : sess any await_client_event_packet (fun item _ => event_ok item).
Proof.
  unfold await_client_event_packet. eapply sess_bind; [apply pop_event_sess|intros [item|]].
  - by apply sess_ret.
  - walk_one. eapply sess_conseq; [apply decode_event_packet_sess|done|done].
Qed.

Lemma runtime_event_ok item : event_ok item -> exists r, runtime_event item = Ok r.
Proof. destruct item as [event packet]. intros [e He]. simpl in *. rewrite He. by eexists. Qed.

Lemma runtime_event_no_panic item : event_ok item -> runtime_event item <> Panic.
Proof. by intros [r ->]%runtime_event_ok. Qed.

Lemma await_event_packet_sound : sound await_event_packet.
Proof.
  unfold sound, await_event_packet. eapply sess_bind; [apply await_client_event_sess|intros item].
  intros s [Hi He]. destruct (runtime_event_ok _ He) as [r Hr]. unfold lift. by rewrite Hr.
Qed.

Lemma sound_bind {A B} (m : Async t A) (k : A -> Async t B) :
  sound m -> (forall a, sound (k a)) -> sound (x ← m; k x).
Proof.
  intros Hm Hk. eapply sess_bind; [exact Hm|]. intros a. eapply sess_conseq; [apply Hk|done|done].
Qed.

Lemma await_event_sound : sound await_event.
Proof.
  unfold sound, await_event. eapply sess_bind; [apply pop_role_sess|intros [e|]].
  - by apply sess_ret.
  - eapply sess_conseq; [apply sound_bind; [apply await_event_packet_sound|]|done|done].
    intros [event packet]. by apply sess_ret.
Qed.

Lemma await_result_sound : sound await_result.
Proof.
  unfold sound, await_result. eapply sess_bind; [apply pop_role_sess|intros [e|]].
  - destruct e as [event|event]; [by intros s [_ (e & [=] & _)]|]. apply sess_lift; [guard_no_panic|done].
  - eapply sess_bind; [eapply sess_conseq; [apply await_client_event_sess|done|done]|].
    intros [event packet]. destruct event; first [by apply sess_ret|by apply sess_lift].
Qed.



Lemma poll_pending_sound room : sound (poll_pending room).
Proof.
  induction room as [|room IH]; simpl; [by apply sess_ret|].
  unfold sound. eapply sess_bind; [apply pop_event_sess|intros [item|]]; [|by apply sess_ret].
  intros s [Hi He]. destruct (runtime_event_ok _ He) as [r Hr]. rewrite Hr.
  apply (sound_bind (poll_pending room) (fun events => mret (r :: events))); [done| |done].
  intros ?. by apply sess_ret.
Qed.

Lemma poll_transport_sound room : sound (poll_transport room).
Proof.
  induction room as [|room IH]; simpl; [by apply sess_ret|].
  apply sound_bind.
  { apply sess_transport; [apply FramedTransport.try_read_packet_calm|done]. }
  intros [packet|]; [|by apply sess_ret].
  eapply sess_bind; [apply decode_event_packet_sess|intros item].
  intros s [Hi He]. destruct (runtime_event_ok _ He) as [r Hr]. rewrite Hr.
  apply (sound_bind (poll_transport room) (fun events => mret (r :: events))); [done| |done].
  intros ?. by apply sess_ret.
Qed.

Lemma with_capacity_no_panic {E} capacity size : capacity_fits capacity size = true -> with_capacity (E := E) capacity size <> Panic.
Proof. unfold with_capacity. by intros ->. Qed.

Lemma one_event_fits : capacity_fits 1 event_packet_size = true.
Proof. unfold capacity_fits. apply Z.leb_le. pose proof event_packet_size_fits. lia. Qed.

Lemma fewer_events_fit n :
  capacity_fits (Z.of_nat n) event_packet_size = true -> capacity_fits (Z.of_nat (n - 1)) event_packet_size = true.
Proof. unfold capacity_fits. rewrite !Z.leb_le. pose proof event_packet_size_fits. nia. Qed.

Lemma poll_batch_sound n : capacity_fits (Z.of_nat n) event_packet_size = true -> sound (poll_event_packet_batch n).
Proof.
  intros Hn. apply sound_bind_lift; [by apply with_capacity_no_panic|intros ? _].
  apply sound_bind; [apply poll_pending_sound|intros events].
  apply sound_bind; [apply poll_transport_sound|intros more]. by apply sess_ret.
Qed.

Lemma poll_event_sound : sound poll_event.
Proof.
  unfold sound, poll_event. eapply sess_bind; [apply pop_role_sess|intros [e|]]; [by apply sess_ret|].
  apply sound_bind; [apply poll_batch_sound, one_event_fits|intros events]. by apply sess_ret.
Qed.

Lemma await_batch_sound n : capacity_fits (Z.of_nat n) event_packet_size = true -> sound (await_event_packet_batch n).
Proof.
  intros Hn. apply sound_bind_lift; [apply reject_if_no_panic|intros ? _].
  apply sound_bind_lift; [by apply with_capacity_no_panic|intros ? _].
  apply sound_bind; [apply await_event_packet_sound|intros event].
  apply sound_bind; [by apply poll_batch_sound, fewer_events_fit|intros more]. by apply sess_ret.
Qed.

Lemma receive_cache_put_sound : sound receive_cache_put.
Proof. unfold sound, receive_cache_put. repeat walk_one. done. Qed.

Lemma receive_cache_ack_sound : sound receive_cache_ack.
Proof. unfold sound, receive_cache_ack. repeat walk_one. done. Qed.

Lemma receive_empty_sound mt message : sound (receive_empty_role_message mt message).
Proof. unfold sound, receive_empty_role_message. repeat walk_one. done. Qed.

(** ** Patching, migrating and closing *)

Lemma migrate_transport_sound request : sound (migrate_transport request).
Proof.
  unfold sound, migrate_transport. walk_one. cbv zeta.
  eapply sess_bind; [apply write_parts_sess; [by intros ? ? ?|codec_no_panic]|intros ?; cbv beta].
  repeat walk_one. done.
Qed.

Lemma close_transport_sound : sound close_transport.
Proof. apply sess_transport; [apply FramedTransport.close_calm|done]. Qed.

Lemma close_transport_after_ack_sound : sound close_transport_after_ack.
Proof.
  intros s Hs. pose proof (close_transport_sound s Hs) as Hc. unfold close_transport in Hc.
  unfold close_transport_after_ack. destruct (on_transport FramedTransport.close s) as [[[u|e|]|] s'];
    simpl; [done| |done|done].
  by destruct e.
Qed.

End methods.

(** ** What a call changes *)

(** The state changes of the code that reads an event. *)
Class reading (R : t -> t -> Prop) : Prop := {
  reading_preorder :: PreOrder R;
  reading_forget op frame s : R s (forget op frame s);
  reading_local op state s :
    R s (set_tables s (operation_frames s) (frame_operations s)
           (<[op := state]> (local_operation_states s)) (pending_terminal_controls s));
  reading_role events s : R s (set_pending_role_events s events);
  reading_pressure p s : R s (set_pressure s p)
}.

Section reading.
Context `{Htarget : Target} (R : t -> t -> Prop) `{HR : !reading R}.

Lemma within_by_frame frame : within R (complete_operation_by_frame frame).
Proof.
  intros s. unfold complete_operation_by_frame. case_match; cbn [snd]; [apply reading_forget|].
  reflexivity.
Qed.

Ltac within_changes :=
  within_walk;
  first [ apply within_by_frame
        | apply within_modify; intros ?;
          first [apply reading_forget|apply reading_local|apply reading_role] ].

Lemma within_complete_local op state : within R (complete_local_operation op state).
Proof. unfold complete_local_operation. within_changes. Qed.

Lemma within_pressure {A} (m : Method RuntimePressureState.t NnrpError A) : within R (on_pressure m).
Proof. intros s. unfold on_pressure. destruct (m (pressure s)). apply reading_pressure. Qed.

Lemma within_decode_event packet : within R (decode_event packet).
Proof.
  unfold decode_event. destruct (packet_type packet).
  all: try (apply within_pure; [by apply _|intros ?; reflexivity]).
  all: autounfold with arms; first [by within_walk|within_changes|within_walk; apply within_pressure].
Qed.

End reading.

(** Reading an event does not use the transport. *)
Definition same_transport (s s' : t) : Prop := transport s' = transport s.

#[export] Instance same_transport_reading : reading same_transport.
Proof.
  split; [|done..]. split; [by intros s|]. unfold same_transport. intros s1 s2 s3. congruence.
Qed.

(** ** Waiting for an acknowledgement *)

Section acks.
Context `{Htarget : Target}.

Lemma read_left_sess reads :
  sess (fun s => reads_left s = reads) read_packet
    (fun _ s => exists r rest, reads = r :: rest /\ reads_left s = rest).
Proof.
  intros s [Hi Hs]. pose proof (sess_read any ltac:(done) s (conj Hi I)) as Hr.
  unfold read_packet, on_transport, FramedTransport.read_packet, reads_left in *.
  destruct (FramedTransport.reads (transport s)) as [|r rest] eqn:E; simpl in *; [by destruct Hr|].
  destruct r; simpl in *; [|by destruct Hr..]. destruct Hr as [Hr _]. split; [done|]. by exists (Ok a), rest.
Qed.

Lemma keep_event_sess packet message reads :
  sess (fun s => reads_left s = reads) (keep_event packet message) (fun _ s => reads_left s = reads).
Proof.
  unfold keep_event. eapply sess_bind.
  { eapply (keeps_within same_transport); [apply decode_event_packet_sess| |].
    - apply within_bind; [apply _|by apply within_decode_event; apply _|intros ?].
      by apply within_pure; [apply _|].
    - unfold same_transport, reads_left. by intros s s' ->. }
  intros item. cbv beta. walk_one. apply sess_modify. intros s Hi [[He Hr] Hl%reject_if_Ok]. split; [|done].
  apply inv_set_events; [done| |].
  - apply Forall_app. split; [apply (inv_events s Hi)|by repeat constructor].
  - rewrite len_app. change (len [item]) with 1. lia.
Qed.

Lemma await_patch_ack_sess reads :
  sess (fun s => reads_left s = reads) (await_patch_ack reads) (fun _ _ => True).
Proof.
  induction reads as [|r reads IH]; simpl.
  all: eapply sess_bind; [apply read_left_sess|intros packet].
  - by intros s [_ (? & ? & [=] & _)].
  - eapply (sess_conseq _ (fun s => reads_left s = reads)); [|by intros s _ (? & ? & [= _ ->] & ?)|done].
    case_match.
    + eapply sess_bind; [apply keep_event_sess|intros ?]. exact IH.
    + repeat walk_one. done.
Qed.

Lemma patch_session_sound patch : sound (patch_session patch).
Proof.
  unfold sound, patch_session. do 2 walk_one. cbv zeta.
  eapply sess_bind; [apply write_parts_sess; [by intros ? ? ?|codec_no_panic]|intros ?; cbv beta].
  walk_one. eapply sess_conseq; [apply await_patch_ack_sess|by intros s _ [_ ?]|done].
Qed.

Lemma begin_close_sess header close :
  sess any (on_lifecycle (ConnectionLifecycle.begin_session_close header close)) (fun _ => any).
Proof. apply (lifecycle_sess (ConnectionLifecycle.BeginSessionClose header close)). Qed.

Lemma close_ack_sess header ack reads :
  sess (fun s => reads_left s = reads)
    (on_lifecycle (ConnectionLifecycle.apply_session_close_ack header ack))
    (fun _ s => reads_left s = reads).
Proof.
  pose proof (lifecycle_sess (ConnectionLifecycle.ApplySessionCloseAck header ack)) as Hl.
  intros s [Hi Hs]. specialize (Hl s (conj Hi I)). unfold on_lifecycle in *. simpl in *.
  destruct (ConnectionLifecycle.apply_session_close_ack header ack (lifecycle s)) as [o l].
  destruct (protocol o); [|done..]. by destruct Hl.
Qed.

Lemma await_close_ack_sess reads :
  sess (fun s => reads_left s = reads) (await_close_ack reads) (fun _ _ => True).
Proof.
  induction reads as [|r reads IH]; simpl.
  all: eapply sess_bind; [apply read_left_sess|intros packet].
  - by intros s [_ (? & ? & [=] & _)].
  - eapply (sess_conseq _ (fun s => reads_left s = reads)); [|by intros s _ (? & ? & [= _ ->] & ?)|done].
    case_match.
    + eapply sess_bind; [apply keep_event_sess|intros ?]. exact IH.
    + do 3 walk_one.
      eapply sess_bind; [eapply sess_conseq; [apply close_ack_sess|by intros s _ [? _]|done]|intros ?; cbv beta].
      case_match; [exact IH|exact IH|by apply sess_ret|by apply sess_lift].
Qed.

Lemma close_with_sound close : sound (close_with close).
Proof.
  unfold sound, close_with. walk_one. cbv zeta.
  eapply sess_bind; [eapply sess_conseq; [apply begin_close_sess|done|done]|intros ?; cbv beta].
  eapply sess_bind; [apply write_parts_sess; [by intros ? ? ?|codec_no_panic]|intros ?; cbv beta].
  walk_one. eapply sess_conseq; [apply await_close_ack_sess|by intros s _ [_ ?]|done].
Qed.

Lemma close_in_place_sound : sound close_in_place.
Proof.
  unfold sound, close_in_place. walk_one.
  eapply sess_conseq; [apply sound_bind; [apply close_with_sound|intros ?]|done|done].
  apply close_transport_after_ack_sound.
Qed.

End acks.
