(* ===== verification/ClientRuns.v ===== *)
(** Runs of a client session ([src/crates/nnrp-runtime/src/client.rs]): the calls a program can
    make of it, in any order, and what holds along every sequence of them. *)

From S2P Require Import Prelude Bytes Errors Enums Wire Header Session Flow Control Codes.
From S2P Require Import Lifecycle Capability RuntimeControl Operation Recovery Transport Route.
From S2P Require Import RuntimeError Packet Async Pressure PreSubmit Object Cache Data Schema.
From S2P Require Import Regions Submit Event Client SessionLogic ClientTheory ClientMethods ClientOpen.
From S2P Require Import ClientOpenTheory.

Local Open Scope Z_scope.
Import NnrpClientSession.

(** ** The state changes of all methods *)

Class acting (R : t -> t -> Prop) : Prop := {
  acting_reading :: reading R;
  acting_transport tr s : R s (set_transport s tr);
  acting_deadlines d s : R s (set_pre_submit_deadlines s d);
  acting_lifecycle l s : R s (set_lifecycle s l);
  acting_events events s : R s (set_pending_events s events);
  acting_controls controls s :
    R s (set_tables s (operation_frames s) (frame_operations s) (local_operation_states s) controls);
  acting_submitted op frame s : fresh op frame s -> R s (submitted op frame s)
}.

Section acting.
Context `{Htarget : Target} (R : t -> t -> Prop) `{HR : !acting R}.

Lemma within_transport {A} (m : Async FramedTransport.t A) : within R (on_transport m).
Proof. intros s. unfold on_transport. destruct (m (transport s)). apply acting_transport. Qed.

Lemma within_deadlines {A} (m : Method PreSubmitDeadlineReservations.t RuntimeError A) :
  within R (on_deadlines m).
Proof. intros s. unfold on_deadlines. destruct (m _). apply acting_deadlines. Qed.

Lemma within_lifecycle {A} (m : Method ConnectionLifecycle.t NnrpError A) : within R (on_lifecycle m).
Proof. intros s. unfold on_lifecycle. destruct (m _). apply acting_lifecycle. Qed.

Lemma within_pop_role : within R pop_role_event.
Proof. intros s. unfold pop_role_event. case_match; [reflexivity|apply reading_role]. Qed.

Lemma within_pop_event : within R pop_event.
Proof. intros s. unfold pop_event. case_match; [reflexivity|apply acting_events]. Qed.

Lemma within_write_or_discard packet op frame : within R (write_or_discard packet op frame).
Proof.
  intros s. pose proof (within_transport (FramedTransport.write_packet packet) s) as Hw.
  unfold write_or_discard, write_packet. destruct (on_transport _ s) as [[[u|e|]|] s']; [done| |done|done].
  etrans; [exact Hw|]. apply acting_deadlines.
Qed.

Lemma within_close_after_ack : within R close_transport_after_ack.
Proof.
  intros s. pose proof (within_transport FramedTransport.close s) as Hw.
  unfold close_transport_after_ack. by destruct (on_transport _ s).
Qed.

End acting.

(** The walk through the body of a method, by the head of what is left of it. *)
Ltac within_method :=
  repeat (cbv beta zeta;
    lazymatch goal with
    | |- within _ (mbind _ _) => apply within_bind; [by apply _| |intros ?]
    | |- within _ (lift _) => apply within_pure; [by apply _|intros ?; reflexivity]
    | |- within _ (check _) => apply within_pure; [by apply _|intros ?; reflexivity]
    | |- within _ (gets _) => apply within_pure; [by apply _|intros ?; reflexivity]
    | |- within _ (mret _) => apply within_pure; [by apply _|intros ?; reflexivity]
    | |- within _ (on_transport _) => apply within_transport; by apply _
    | |- within _ (on_deadlines _) => apply within_deadlines; by apply _
    | |- within _ (on_lifecycle _) => apply within_lifecycle; by apply _
    | |- within _ (on_pressure _) => apply within_pressure; by apply _
    | |- within _ (decode_event _) => apply within_decode_event; by apply _
    | |- within _ (complete_local_operation _ _) => apply within_complete_local; by apply _
    | |- within _ pop_role_event => apply within_pop_role; by apply _
    | |- within _ pop_event => apply within_pop_event; by apply _
    | |- within _ (write_or_discard _ _ _) => apply within_write_or_discard; by apply _
    | |- within _ (modify _) =>
        apply within_modify; intros ?; first [apply acting_controls|apply acting_events]
    | |- within _ (match _ with _ => _ end) => case_match
    | |- within _ ?m => let h := head_of m in unfold h
    end).

Section acting_methods.
Context `{Htarget : Target} (R : t -> t -> Prop) `{HR : !acting R}.

Lemma within_write_parts header metadata body : within R (write_parts header metadata body).
Proof. unfold write_parts. within_method. Qed.

Lemma write_parts_fresh op frame header metadata body s :
  fresh op frame s -> fresh op frame (write_parts header metadata body s).2.
Proof.
  intros Hf. unfold write_parts, mbind, async_bind, lift. destruct (protocol metadata); [|done..].
  simpl. destruct (protocol _); [|done..]. unfold write_packet, on_transport.
  by destruct (FramedTransport.write_packet _ _).
Qed.

Lemma within_submit now request : within R (submit_nowait now request).
Proof.
  intros s. unfold submit_nowait. cbv zeta.
  set (frame := NnrpSubmitRequest.frame_id request).
  set (op := FrameSubmitMetadata.operation_id (NnrpSubmitRequest.metadata request)).
  apply (within_checked R). intros _ [Hf Hn]%reject_if_Ok%orb_false_iff.
  apply (within_checked R). intros _ [Ho Hs]%reject_if_Ok%orb_false_iff.
  apply (within_lifted R). intros next Hadd%ok_or_Ok. unfold checked_add in Hadd.
  case_match eqn:Hmax; [|done]. injection Hadd as <-. apply bool_decide_eq_false in Hs.
  assert (fresh op frame s) as Hfresh by (unfold fresh; split_and!; [lia|done|lia|lia|lia]).
  apply (within_then R (fresh op frame)); [by apply (within_deadlines R)| |done|].
  { intros s1 H1. unfold on_deadlines. by destruct (PreSubmitDeadlineReservations.take_for_submit _ _ _ _). }
  intros _ s1 H1. apply (within_then R (fresh op frame)); [by apply within_pure; [apply _|]|done|done|].
  intros session s2 H2. apply (within_then R (fresh op frame)); [apply within_write_parts| |done|].
  { intros s3. apply write_parts_fresh. }
  intros _ s3 H3. by apply (acting_submitted op frame s3).
Qed.

Lemma within_keep_event packet message : within R (keep_event packet message).
Proof. unfold keep_event, decode_event_packet. within_method. Qed.

Lemma within_poll_pending room : within R (poll_pending room).
Proof.
  induction room as [|room IH]; simpl; [by apply within_pure; [apply _|]|]. within_method; try exact IH.
Qed.

Lemma within_poll_transport room : within R (poll_transport room).
Proof.
  induction room as [|room IH]; simpl; [by apply within_pure; [apply _|]|]. unfold decode_event_packet.
  within_method; try exact IH.
Qed.

Lemma within_poll_batch n : within R (poll_event_packet_batch n).
Proof.
  unfold poll_event_packet_batch. apply within_bind; [apply _|within_method|intros ?]. apply within_bind; [apply _|apply within_poll_pending|intros ?].
  apply within_bind; [apply _|apply within_poll_transport|intros ?]. by apply within_pure; [apply _|].
Qed.

Lemma within_await_client_event : within R await_client_event_packet.
Proof. unfold await_client_event_packet, decode_event_packet. within_method. Qed.

Lemma within_patch_ack reads : within R (await_patch_ack reads).
Proof.
  induction reads as [|r reads IH]; simpl; [within_method|].
  apply within_bind; [apply _|by apply (within_transport R)|intros packet]. case_match; [|within_method].
  apply within_bind; [apply _|apply within_keep_event|intros ?; exact IH].
Qed.

Lemma within_close_ack reads : within R (await_close_ack reads).
Proof.
  induction reads as [|r reads IH]; simpl; [within_method|].
  apply within_bind; [apply _|by apply (within_transport R)|intros packet]. case_match.
  - apply within_bind; [apply _|apply within_keep_event|intros ?; exact IH].
  - within_method; try exact IH.
Qed.

Lemma within_close_with close : within R (close_with close).
Proof.
  unfold close_with. cbv zeta. repeat (apply within_bind; [apply _|by within_method|intros ?]).
  apply within_close_ack.
Qed.

End acting_methods.

(** ** The calls of a program *)

Section runs.
Context `{Htarget : Target}.

(** Every public method that changes the session, with any arguments and at any time; the limit of
    a batch of events is one for which a vector can be reserved. *)
Inductive method : forall A, Async t A -> Prop :=
| call_submit now request : method Z (submit now request)
| call_submit_nowait now request : method Z (submit_nowait now request)
| call_submit_encoded now md body : method Z (submit_encoded now md body)
| call_submit_with_frame now frame md body : method Z (submit_encoded_with_frame_id now frame md body)
| call_send_runtime_frame now mt frame payload : method unit (send_runtime_frame now mt frame payload)
| call_await_result : method NnrpResult.t await_result
| call_await_event : method NnrpClientRoleEvent.t await_event
| call_poll_event : method (option NnrpClientRoleEvent.t) poll_event
| call_await_event_packet : method (NnrpRuntimeEvent.t * RuntimePacket.t) await_event_packet
| call_await_batch n : capacity_fits (Z.of_nat n) event_packet_size = true ->
    method (list (NnrpRuntimeEvent.t * RuntimePacket.t)) (await_event_packet_batch n)
| call_poll_batch n : capacity_fits (Z.of_nat n) event_packet_size = true ->
    method (list (NnrpRuntimeEvent.t * RuntimePacket.t)) (poll_event_packet_batch n)
| call_cancel_operation op reason : method unit (cancel_operation op reason)
| call_abort_operation op reason : method unit (abort_operation op reason)
| call_send_progress md body : method unit (send_progress md body)
| call_send_partial_result md body : method unit (send_partial_result md body)
| call_send_result_drop_reason md body : method unit (send_result_drop_reason md body)
| call_send_backpressure md : method unit (send_backpressure md)
| call_send_flow_update md : method unit (send_flow_update md)
| call_send_control_request mt md : method unit (send_control_request mt md)
| call_send_control_diagnostics mt md body :
    method unit (send_control_request_with_diagnostics mt md body)
| call_update_priority op class delta : method unit (update_priority op class delta)
| call_update_deadline op deadline : method unit (update_deadline op deadline)
| call_expire_at op deadline : method unit (expire_at op deadline)
| call_send_scheduling_update mt md : method unit (send_scheduling_update mt md)
| call_send_credit_update md : method unit (send_credit_update md)
| call_supersede_operation md body : method unit (supersede_operation md body)
| call_update_budget md : method unit (update_budget md)
| call_send_capability mt md body : method unit (send_capability mt md body)
| call_send_route_hint mt md body : method unit (send_route_hint mt md body)
| call_send_trace_context frame md body : method unit (send_trace_context frame md body)
| call_send_recoverable_error md body : method unit (send_recoverable_error md body)
| call_send_retry_after md body : method unit (send_retry_after md body)
| call_send_object_declare md body : method unit (send_object_declare md body)
| call_send_object_ref md body : method unit (send_object_ref md body)
| call_send_object_release md body : method unit (send_object_release md body)
| call_send_object_delta mt md body : method unit (send_object_delta mt md body)
| call_send_cache_put md body : method unit (send_cache_put md body)
| call_send_cache_ack md : method unit (send_cache_ack md)
| call_receive_cache_put : method (CachePutMetadata.t * bytes) receive_cache_put
| call_receive_cache_ack : method CacheAckMetadata.t receive_cache_ack
| call_send_ping : method unit send_ping
| call_send_pong : method unit send_pong
| call_receive_ping : method unit receive_ping
| call_receive_pong : method unit receive_pong
| call_send_cache_reference md body : method unit (send_cache_reference md body)
| call_send_cache_miss md body : method unit (send_cache_miss md body)
| call_send_cache_invalidate md : method unit (send_cache_invalidate md)
| call_cancel_frame frame : method unit (cancel_frame frame)
| call_patch_session patch : method SessionPatchAckMetadata.t (patch_session patch)
| call_migrate_transport request : method SessionMigrateAckMetadata.t (migrate_transport request)
| call_close_in_place : method unit close_in_place
| call_close_with close : method SessionCloseAckMetadata.t (close_with close).

Lemma method_sound A (m : Async t A) : method A m -> sound m.
Proof.
  destruct 1;
    auto using submit_nowait_sound, submit_encoded_sound, send_runtime_frame_sound, await_result_sound,
      await_event_sound, poll_event_sound, await_event_packet_sound, await_batch_sound, poll_batch_sound,
      send_control_sound, send_scheduling_update_sound, send_progress_sound, send_partial_result_sound,
      send_result_drop_reason_sound, send_backpressure_sound, send_flow_update_sound,
      send_credit_update_sound, supersede_operation_sound, update_budget_sound, send_capability_sound,
      send_route_hint_sound, send_trace_context_sound, send_recoverable_error_sound,
      send_retry_after_sound, send_object_declare_sound, send_object_ref_sound,
      send_object_release_sound, send_object_delta_sound, send_cache_put_sound, send_cache_ack_sound,
      receive_cache_put_sound, receive_cache_ack_sound, send_ping_sound, send_pong_sound,
      receive_empty_sound, send_cache_reference_sound, send_cache_miss_sound,
      send_cache_invalidate_sound, cancel_frame_sound, patch_session_sound, migrate_transport_sound,
      close_in_place_sound, close_with_sound.
  all: first [ apply submit_nowait_sound | apply send_control_sound
             | apply send_scheduling_update_sound | apply receive_empty_sound ].
Qed.

(** One call: however it ends, the session is left in the state after it.  Between calls the
    transport gets more packets and can write more. *)
Inductive step (s : t) : t -> Prop :=
| step_call A (m : Async t A) : method A m -> step s (m s).2
| step_supplied tr : FramedTransport.supplied (transport s) tr -> step s (set_transport s tr).
Definition run : t -> t -> Prop := rtc step.

Section within_runs.
Context (R : t -> t -> Prop) `{HR : !acting R}.

Lemma within_send_frame now mt frame payload : within R (send_runtime_frame now mt frame payload).
Proof.
  unfold send_runtime_frame. destruct mt; within_method.
Qed.

Lemma within_patch patch : within R (patch_session patch).
Proof.
  unfold patch_session. cbv zeta. repeat (apply within_bind; [apply _|by within_method|intros ?]).
  by apply (within_patch_ack R).
Qed.

Lemma within_close_in_place : within R close_in_place.
Proof.
  unfold close_in_place. apply within_bind; [apply _|by within_method|intros ?].
  apply within_bind; [apply _|by apply (within_close_with R)|intros ?]. by apply (within_close_after_ack R).
Qed.

Lemma within_receiving :
  within R await_result /\ within R await_event_packet /\ within R await_event /\
  (forall n, within R (await_event_packet_batch n)) /\ within R poll_event.
Proof.
  assert (within R await_event_packet) as Hp.
  { unfold await_event_packet. apply within_bind; [apply _|by apply (within_await_client_event R)|intros ?].
    within_method. }
  split_and!; [|done|..].
  - unfold await_result. apply within_bind; [apply _|by apply (within_pop_role R)|intros pending].
    repeat case_match; [within_method..|].
    apply within_bind; [apply _|by apply (within_await_client_event R)|intros ?]. within_method.
  - unfold await_event. apply within_bind; [apply _|by apply (within_pop_role R)|intros pending].
    case_match; [within_method|]. apply within_bind; [apply _|done|intros ?]. within_method.
  - intros n. unfold await_event_packet_batch. apply within_bind; [apply _|within_method|intros ?].
    apply within_bind; [apply _|within_method|intros ?].
    apply within_bind; [apply _|done|intros ?].
    apply within_bind; [apply _|by apply (within_poll_batch R)|intros ?]. within_method.
  - unfold poll_event. apply within_bind; [apply _|by apply (within_pop_role R)|intros pending].
    case_match; [within_method|].
    apply within_bind; [apply _|by apply (within_poll_batch R)|intros ?]. within_method.
Qed.

Lemma within_with_frame now frame md body : within R (submit_encoded_with_frame_id now frame md body).
Proof. by apply (within_submit R). Qed.

Lemma within_encoded now md body : within R (submit_encoded now md body).
Proof.
  unfold submit_encoded. apply within_bind; [apply _|by within_method|intros ?]. apply within_with_frame.
Qed.

Lemma method_within A (m : Async t A) : method A m -> within R m.
Proof.
  destruct within_receiving as (? & ? & ? & ? & ?).
  destruct 1; lazymatch goal with
    | |- within _ (submit _ _) => apply within_submit, HR
    | |- within _ (submit_nowait _ _) => apply within_submit, HR
    | |- within _ (submit_encoded _ _ _) => apply within_encoded
    | |- within _ (submit_encoded_with_frame_id _ _ _ _) => apply within_with_frame
    | |- within _ (send_runtime_frame _ _ _ _) => apply within_send_frame
    | |- within _ (poll_event_packet_batch _) => apply within_poll_batch, HR
    | |- within _ (await_event_packet_batch _) => done
    | |- within _ await_result => done
    | |- within _ await_event => done
    | |- within _ await_event_packet => done
    | |- within _ poll_event => done
    | |- within _ (patch_session _) => apply within_patch
    | |- within _ close_in_place => apply within_close_in_place
    | |- within _ (close_with _) => apply within_close_with, HR
    | |- _ => within_method
    end.
Qed.

Lemma run_within s s' : run s s' -> R s s'.
Proof.
  induction 1 as [|s s1 s2 [A m Hm|tr _] _ IH]; [reflexivity|..].
  - etrans; [by apply (method_within A m)|done].
  - etrans; [apply acting_transport|done].
Qed.

End within_runs.

Lemma run_inv s s' : run s s' -> inv s -> inv s'.
Proof.
  induction 1 as [|s s1 s2 [A m Hm|tr Htr] _ IH]; [done|..]; intros Hi; apply IH.
  2: { apply FramedTransport.supplied_well_behaved in Htr; [|apply (inv_transport s Hi)]. by destruct Hi. }
  pose proof (method_sound A m Hm s (conj Hi I)) as Hs. by destruct (m s) as [[[a|e|]|] s3]; [destruct Hs|..].
Qed.

End runs.

(** ** What time does to a session *)

(** An operation that was submitted has ended here: it is not live, or it ended locally. *)
Definition over (s : t) (op : Z) : Prop :=
  operation_frames s !! op = None \/ is_Some (local_operation_states s !! op).

(** What is never undone: identifiers stay used, and what has ended stays ended. *)
Record later (s s' : t) : Prop := {
  later_seen : seen_operation_ids s ⊆ seen_operation_ids s';
  later_next : next_frame_id s <= next_frame_id s';
  later_dead op : op ∈ seen_operation_ids s -> operation_frames s !! op = None ->
    operation_frames s' !! op = None;
  later_frames frame : frame < next_frame_id s -> frame_operations s !! frame = None ->
    frame_operations s' !! frame = None;
  later_over op : op ∈ seen_operation_ids s -> over s op -> over s' op;
  later_session : session_id s' = session_id s
}.

#[export] Instance later_preorder : PreOrder later.
Proof.
  split.
  - intros s. by split.
  - intros s1 s2 s3 [A1 B1 C1 F1 D1 E1] [A2 B2 C2 F2 D2 E2]. split; [set_solver|lia|..].
    + intros op Hop Hn. apply C2; [set_solver|by apply C1].
    + intros frame Hf Hn. apply F2; [lia|by apply F1].
    + intros op Hop Hn. apply D2; [set_solver|by apply D1].
    + congruence.
Qed.

#[export] Instance later_reading : reading later.
Proof.
  split; [apply _|..]; intros; split; simpl; try done; try lia.
  - intros op' _ Hn. by apply lookup_delete_None; right.
  - intros frame' _ Hn. by apply lookup_delete_None; right.
  - intros op' _ [Hn|Hs]; unfold over; simpl; [by left; apply lookup_delete_None; right|].
    destruct (decide (op = op')) as [->|Hne]; [left; apply lookup_delete_eq|].
    right. by rewrite lookup_delete_ne.
  - intros op' _ [Hn|Hs]; unfold over; simpl; [by left|right].
    by apply lookup_insert_is_Some'; right.
Qed.

#[export] Instance later_acting : acting later.
Proof.
  split; [apply _|..]; intros; split; simpl; try done; try lia.
  - set_solver.
  - destruct H as (_ & _ & _ & ? & _). lia.
  - destruct H as (_ & Hns & _). intros op' Hop Hn.
    rewrite lookup_insert_ne; [done|]. by intros <-.
  - destruct H as (_ & _ & _ & Hge & _). intros f Hf Hn. rewrite lookup_insert_ne; [done|]. lia.
  - destruct H as (_ & Hns & _). intros op' Hop [Hn|Hs]; unfold over; simpl; [left|by right].
    rewrite lookup_insert_ne; [done|]. by intros <-.
Qed.

(** ** Terminal results *)

Definition no_result (e : NnrpClientEvent.t) : Prop := forall r, e <> NnrpClientEvent.Result r.

Ltac not_a_result :=
  autounfold with arms;
  repeat (cbv zeta; apply returning_bind; intros ?);
  first [ by apply returning_ret
        | apply returning_lift; intros ? ?; repeat case_match; simplify_eq; done ].

Section results.
Context `{Htarget : Target}.

(** An operation that is live and its frame, and the state without it. *)
Definition ends (op frame : Z) (s s' : t) : Prop :=
  operation_frames s !! op = Some frame /\ s' = forget op frame s.

Lemma by_frame_ends frame s op s' :
  inv s -> returns (complete_operation_by_frame frame) s op s' -> ends op frame s s'.
Proof.
  unfold returns, complete_operation_by_frame. intros Hi.
  destruct (frame_operations s !! frame) as [op'|] eqn:Hf; intros [= <- <-]. split; [|done].
  by apply (inv_inverse s Hi).
Qed.

Lemma complete_ends op frame s u s' :
  op <> 0 -> returns (complete_operation op frame) s u s' -> ends op frame s s'.
Proof.
  unfold complete_operation. intros Hop ([] & ? & [Hc ->]%returns_check & ->%returns_modify)%returns_bind.
  apply require_frame_live in Hc as [[? _]|[_ Hc]]; [done|]. by split.
Qed.

(** A terminal event ends the operation that its packet names. *)
Lemma result_ends packet s r s' :
  inv s -> returns (decode_event packet) s (NnrpClientEvent.Result r) s' ->
  ends (NnrpResult.operation_id r) (packet_frame packet) s s'.
Proof.
  intros Hi Hr. unfold decode_event in Hr.
  assert (forall m, returning no_result m -> returns m s (NnrpClientEvent.Result r) s' -> False) as Hno.
  { intros m Hm Hret. by apply (Hm _ _ _ Hret r). }
  destruct (packet_type packet);
    try (exfalso; revert Hr; apply Hno; by not_a_result); unfold returns in Hr.
  - unfold decode_result_push in Hr.
    apply returns_bind in Hr as (? & ? & [_ ->]%returns_check & Hr).
    do 2 apply returns_bind in Hr as (? & ? & [_ ->]%returns_lift & Hr).
    apply returns_bind in Hr as (op & s1 & Hop%by_frame_ends & Hr); [|done].
    apply returns_bind in Hr as (? & ? & [Hres%from_runtime_Ok ->]%returns_lift & Hr).
    apply returns_ret in Hr as [[= ->] ->]. destruct Hres as [-> _]. done.
  - unfold decode_result_drop in Hr.
    apply returns_bind in Hr as (? & ? & [_ ->]%returns_check & Hr).
    apply returns_bind in Hr as (? & ? & [_ ->]%returns_lift & Hr).
    apply returns_bind in Hr as (op & s1 & Hop%by_frame_ends & Hr); [|done].
    apply returns_bind in Hr as (? & ? & [Hres%from_runtime_Ok ->]%returns_lift & Hr).
    apply returns_ret in Hr as [[= ->] ->]. destruct Hres as [-> _]. done.
  - unfold decode_result_drop_reason in Hr.
    apply returns_bind in Hr as (? & ? & [_ ->]%returns_check & Hr).
    do 2 apply returns_bind in Hr as (? & ? & [_ ->]%returns_lift & Hr).
    apply returns_bind in Hr as ([] & ? & [Hsem%protocol_Ok%drop_reason_semantics_op ->]%returns_lift & Hr).
    apply returns_bind in Hr as (? & ? & [_ ->]%returns_lift & Hr).
    apply returns_bind in Hr as (? & s1 & Hop%complete_ends & Hr); [|done].
    apply returns_bind in Hr as (? & ? & [Hres%from_runtime_Ok ->]%returns_lift & Hr).
    apply returns_ret in Hr as [[= ->] ->]. destruct Hres as [-> _]. done.
Qed.

End results.

(** ** A submission that succeeds *)

Section submission.
Context `{Htarget : Target}.

Definition submit_header (s : t) (request : NnrpSubmitRequest.t) : CommonHeader.t :=
  set_context
    (address (CommonHeader.new MessageType.FrameSubmit (Z.of_nat FRAME_SUBMIT_METADATA_LEN)
                (as_u32 (len (NnrpSubmitRequest.body request))))
       (session_id s) (NnrpSubmitRequest.frame_id request))
    (NnrpSubmitRequest.header request).

Lemma submit_returns now request s frame s' :
  returns (submit_nowait now request) s frame s' ->
  fresh (FrameSubmitMetadata.operation_id (NnrpSubmitRequest.metadata request)) frame s /\
  frame = NnrpSubmitRequest.frame_id request /\
  exists packet d tr,
    FramedTransport.written tr = FramedTransport.written (transport s) ++ [packet] /\
    (exists bytes, FrameSubmitMetadata.to_bytes (NnrpSubmitRequest.metadata request) = Ok bytes /\
       RuntimePacket.new (submit_header s request) bytes (NnrpSubmitRequest.body request) = Ok packet) /\
    s' = submitted (FrameSubmitMetadata.operation_id (NnrpSubmitRequest.metadata request)) frame
           (set_transport (set_pre_submit_deadlines s d) tr).
Proof.
  unfold submit_nowait. cbv zeta.
  intros (? & ? & [Hf%reject_if_Ok ->]%returns_check & H)%returns_bind.
  apply returns_bind in H as (? & ? & [Ho%reject_if_Ok ->]%returns_check & H).
  apply returns_bind in H as (next & ? & [Hadd%ok_or_Ok ->]%returns_lift & H).
  apply checked_add_Some in Hadd as [-> Hmax].
  apply returns_bind in H as (? & s1 & Hd & H). unfold returns, on_deadlines in Hd.
  destruct (PreSubmitDeadlineReservations.take_for_submit _ _ _ _) as [o d] eqn:Htake. injection Hd as _ <-.
  apply returns_bind in H as (? & ? & [-> ->]%returns_gets & H).
  apply returns_bind in H as (? & s2 & Hw & H).
  unfold write_parts in Hw. apply returns_bind in Hw as (bytes & ? & [Hb%protocol_Ok ->]%returns_lift & Hw).
  apply returns_bind in Hw as (packet & ? & [Hp%protocol_Ok ->]%returns_lift & Hw).
  unfold returns, write_packet, on_transport in Hw.
  destruct (FramedTransport.write_packet packet _) as [r tr] eqn:Hwr. injection Hw as -> <-.
  apply FramedTransport.write_packet_returns in Hwr as [Hwr _].
  apply returns_bind in H as (? & ? & ->%returns_modify & H). apply returns_ret in H as [-> ->].
  apply orb_false_iff in Hf as [Hf Hn]. apply orb_false_iff in Ho as [Ho Hs].
  apply bool_decide_eq_false in Hs. split; [unfold fresh; split_and!; [lia|done|lia|lia|lia]|].
  split; [done|]. exists packet, d, tr. split; [done|]. split; [by exists bytes|done].
Qed.

End submission.

(** ** The properties of a session *)

Section properties.
Context `{Htarget : Target}.

(** A session that a client opened over a well-behaved connection. *)
Definition opened (s : t) : Prop :=
  exists client config resume client',
    MultiplexedConnection.well_behaved (NnrpClient.connection client) /\
    returns (NnrpClient.open_session_inner config resume) client s client'.

Lemma opened_inv s : opened s -> inv s.
Proof.
  intros (client & config & resume & client' & Hc & Hr).
  by destruct (triple_returns _ _ _ _ _ _ _ (open_session_calm config resume) Hc Hr).
Qed.

(** C4: in every session that a client opens, after any sequence of calls
    of its public methods, whatever their arguments, whatever the peer sends and the transport
    returns, and wherever an asynchronous call fails or is dropped, the tables of operations and
    frames are inverse, every live operation is known and has a frame below the next one, the
    queues are within their limits and hold events that can be handed out, and the next call of any
    method does not panic.  The two methods that return a batch of events are called with a
    limit for which a vector of events can be reserved, at most [isize::MAX] bytes; with a larger
    one a poll panics, before it changes anything.  (A reservation within that size is taken to
    succeed.) *)
Theorem client_sessions_sound (s s' : t) :
  opened s -> run s s' ->
  inv s' /\ (forall A (m : Async t A), method A m -> (m s').1 <> Ready Panic) /\
  forall n, capacity_fits (Z.of_nat n) event_packet_size = false ->
    poll_event_packet_batch n s' = (Ready Panic, s').
Proof.
  intros Ho%opened_inv Hr. assert (inv s') as Hi by (by eapply run_inv). split; [done|]. split.
  - intros A m Hm. pose proof (method_sound A m Hm s' (conj Hi I)) as Hs.
    by destruct (m s') as [[[a|e|]|] s1].
  - intros n Hn. unfold poll_event_packet_batch, with_capacity. by rewrite Hn.
Qed.

(** C8: a session takes at most one terminal message for an operation, ever.
    When it accepts RESULT_PUSH, RESULT_DROP or RESULT_DROP_REASON, the operation was live under
    the frame of the packet; after any further calls, a terminal message that it accepts ends
    another operation, under another frame. *)
Theorem client_answers_once (s0 s s1 s2 s3 : t) (packet packet' : RuntimePacket.t)
    (r r' : NnrpResult.t) :
  opened s0 -> run s0 s ->
  returns (decode_event packet) s (NnrpClientEvent.Result r) s1 -> run s1 s2 ->
  returns (decode_event packet') s2 (NnrpClientEvent.Result r') s3 ->
  operation_frames s !! NnrpResult.operation_id r = Some (packet_frame packet) /\
  NnrpResult.operation_id r' <> NnrpResult.operation_id r /\
  packet_frame packet' <> packet_frame packet.
Proof.
  intros Ho%opened_inv Hrun0 Hr Hrun Hr'. assert (inv s) as Hi by (by eapply run_inv).
  assert (inv s1) as Hi1.
  { pose proof (triple_returns _ _ _ _ _ _ _ (decode_event_sess packet) (conj Hi I) Hr) as [? _]. done. }
  apply result_ends in Hr as [Hl ->]; [|done].
  pose proof (run_inv _ _ Hrun Hi1) as Hi2. apply (run_within later) in Hrun as [_ _ Hdead Hframes _ _].
  apply result_ends in Hr' as [Hl' _]; [|done].
  destruct (inv_live s Hi _ _ Hl) as (_ & _ & Hseen & Hlt).
  split_and!; [done| |].
  - intros Heq. rewrite Heq in Hl'. rewrite Hdead in Hl'; [done|done|]. apply lookup_delete_eq.
  - intros Heq. rewrite Heq in Hl'. apply (inv_inverse s2 Hi2) in Hl'.
    rewrite Hframes in Hl'; [done|done|]. apply lookup_delete_eq.
Qed.

(** C33: identifiers are used once.  After a submission that succeeded and any calls, a submission of the
    same operation, whether it has been answered or not, or of a frame id that is not larger, is refused:
    the call fails, nothing is given to the transport and the session stays as it is.  So the submissions
    of a session that succeed have ever larger frame ids and never the same operation id. *)
Theorem submissions_fresh (s s1 s2 : t) (now frame : Z) (request : NnrpSubmitRequest.t) :
  let operation (r : NnrpSubmitRequest.t) := FrameSubmitMetadata.operation_id (NnrpSubmitRequest.metadata r) in
  returns (submit now request) s frame s1 -> run s1 s2 ->
  (forall now' request', operation request' = operation request \/ NnrpSubmitRequest.frame_id request' <= frame ->
     exists message, submit now' request' s2 = (Ready (Err (UnexpectedMessage message)), s2)) /\
  (forall now' request' frame' s3, returns (submit now' request') s2 frame' s3 ->
     frame < frame' /\ operation request' <> operation request).
Proof.
  intros operation (_ & _ & _ & d & tr & _ & _ & ->)%submit_returns Hrun.
  apply (run_within later) in Hrun as [Hseen Hnext _ _ _ _]. cbn in Hseen, Hnext. split.
  - intros now' request' Hreused. unfold submit, submit_nowait, check, mbind, async_bind, reject_if. cbv zeta.
    destruct (((NnrpSubmitRequest.frame_id request' =? 0) || (NnrpSubmitRequest.frame_id request' <? next_frame_id s2))) eqn:Hf;
      [by eexists|].
    replace (bool_decide (FrameSubmitMetadata.operation_id (NnrpSubmitRequest.metadata request') ∈ seen_operation_ids s2)) with true;
      [rewrite orb_true_r; by eexists|].
    symmetry. apply bool_decide_eq_true. destruct Hreused as [Heq|Hle]; [|lia].
    unfold operation in Heq. rewrite Heq. set_solver.
  - intros now' request' frame' s3 ((_ & Hns & _ & Hge & _) & _)%submit_returns. split; [lia|].
    unfold operation. intros Heq. apply Hns. rewrite Heq. set_solver.
Qed.

(** a submission that succeeds appends one packet to what the session has
    written: a FRAME_SUBMIT of this session with the frame, the header context, the encoded
    metadata and the body of the request; and the operation is live under that frame. *)
Theorem submit_on_the_wire (s s' : t) (now frame : Z) (request : NnrpSubmitRequest.t) :
  returns (submit now request) s frame s' ->
  let metadata := NnrpSubmitRequest.metadata request in
  let context := NnrpSubmitRequest.header request in
  frame = NnrpSubmitRequest.frame_id request /\
  operation_frames s' !! FrameSubmitMetadata.operation_id metadata = Some frame /\
  frame_operations s' !! frame = Some (FrameSubmitMetadata.operation_id metadata) /\
  exists packet,
    FramedTransport.written (transport s') = FramedTransport.written (transport s) ++ [packet] /\
    FrameSubmitMetadata.to_bytes metadata = Ok (RuntimePacket.metadata packet) /\
    RuntimePacket.body packet = NnrpSubmitRequest.body request /\
    RuntimePacket.header packet =
      {| CommonHeader.version_major := CURRENT_VERSION_MAJOR;
         CommonHeader.wire_format := CURRENT_WIRE_FORMAT;
         CommonHeader.message_type := MessageType.FrameSubmit;
         CommonHeader.header_len := Z.of_nat COMMON_HEADER_LEN;
         CommonHeader.flags := NnrpSubmitHeaderContext.flags context;
         CommonHeader.meta_len := len (RuntimePacket.metadata packet);
         CommonHeader.body_len := len (RuntimePacket.body packet);
         CommonHeader.session_id := session_id s;
         CommonHeader.frame_id := frame;
         CommonHeader.view_id := NnrpSubmitHeaderContext.view_id context;
         CommonHeader.route_id := NnrpSubmitHeaderContext.route_id context;
         CommonHeader.trace_id := NnrpSubmitHeaderContext.trace_id context |}.
Proof.
  intros (_ & -> & packet & d & tr & Hw & (bytes & Hb & Hp) & ->)%submit_returns. cbv zeta.
  split; [done|]. simpl. split; [apply lookup_insert_eq|]. split; [apply lookup_insert_eq|].
  exists packet. split; [exact Hw|]. apply packet_new_header in Hp as (-> & -> & ->). done.
Qed.

(** A well-formed RESULT_PUSH for a live operation, next on the transport with nothing queued,
    is the result that is awaited. *)
Lemma await_result_answers s2 op frame packet metadata rest :
  inv s2 -> operation_frames s2 !! op = Some frame ->
  pending_role_events s2 = [] -> pending_events s2 = [] -> reads_left s2 = Ok packet :: rest ->
  packet_type packet = MessageType.ResultPush -> packet_frame packet = frame ->
  CommonHeader.session_id (RuntimePacket.header packet) = session_id s2 ->
  length (RuntimePacket.metadata packet) = RESULT_PUSH_METADATA_LEN ->
  ResultPushMetadata.parse (RuntimePacket.metadata packet) = Ok metadata ->
  exists s3,
    returns await_result s2
      {| NnrpResult.operation_id := op;
         NnrpResult.terminal_state := ResultTerminalState.Success;
         NnrpResult.event := NnrpTerminalEvent.Runtime
           {| NnrpRuntimeEvent.header := wire_header packet;
              NnrpRuntimeEvent.metadata := NnrpRuntimeEventMetadata.ResultPush metadata;
              NnrpRuntimeEvent.tail := NnrpRuntimeEventTail.Body (RuntimePacket.body packet) |} |} s3 /\
    operation_frames s3 !! op = None /\ reads_left s3 = rest.
Proof.
  intros Hi2 Hlive Hrole Hevents Hreads Hty Hfr Hses Hlen Hmd.
  destruct (inv_live s2 Hi2 _ _ Hlive) as (Hop & _).
  set (s2' := set_transport s2 (FramedTransport.set_reads (transport s2) rest)).
  exists (forget op frame s2'). split; [|split; [apply lookup_delete_eq|done]].
  unfold returns, await_result, mbind, async_bind, pop_role_event. rewrite Hrole.
  unfold await_client_event_packet, mbind, async_bind, pop_event. rewrite Hevents.
  unfold read_packet, on_transport, FramedTransport.read_packet. unfold reads_left in Hreads. rewrite Hreads.
  fold s2'. unfold decode_event_packet, mbind, async_bind, decode_event. rewrite Hty.
  unfold decode_result_push, mbind, async_bind, check, require_session_packet, require_packet_session.
  change (session_id s2') with (session_id s2). rewrite Hses, Z.eqb_refl. cbn [negb reject_if].
  unfold lift, require_metadata_len. unfold len at 1. rewrite Hlen, Z.eqb_refl. cbn [negb reject_if].
  rewrite Hmd. cbn [protocol map_err]. unfold complete_operation_by_frame. rewrite Hfr.
  change (frame_operations s2') with (frame_operations s2).
  rewrite (proj1 (inv_inverse s2 Hi2 op frame) Hlive).
  unfold NnrpResult.from_runtime. rewrite (proj2 (Z.eqb_neq op 0) Hop). cbn [reject_if].
  unfold packet_type in Hty. simpl. unfold RuntimeFrameHeader.message_type, wire_header. simpl.
  rewrite Hty. reflexivity.
Qed.

(** while a submitted operation is live, whatever has been called
    since, a well-formed RESULT_PUSH of the session for its frame that is next on the transport
    is what [await_result] returns when nothing else is queued: a success of that operation with
    the metadata and the body of the packet.  The operation is then no longer live. *)
Theorem result_answers_submission (s0 s s1 s2 : t) (now frame : Z) (request : NnrpSubmitRequest.t)
    (packet : RuntimePacket.t) (metadata : ResultPushMetadata.t) (rest : list (RT RuntimePacket.t)) :
  opened s0 -> run s0 s -> returns (submit now request) s frame s1 -> run s1 s2 ->
  let op := FrameSubmitMetadata.operation_id (NnrpSubmitRequest.metadata request) in
  operation_frames s2 !! op = Some frame ->
  pending_role_events s2 = [] -> pending_events s2 = [] -> reads_left s2 = Ok packet :: rest ->
  packet_type packet = MessageType.ResultPush -> packet_frame packet = frame ->
  CommonHeader.session_id (RuntimePacket.header packet) = session_id s ->
  length (RuntimePacket.metadata packet) = RESULT_PUSH_METADATA_LEN ->
  ResultPushMetadata.parse (RuntimePacket.metadata packet) = Ok metadata ->
  exists s3,
    returns await_result s2
      {| NnrpResult.operation_id := op;
         NnrpResult.terminal_state := ResultTerminalState.Success;
         NnrpResult.event := NnrpTerminalEvent.Runtime
           {| NnrpRuntimeEvent.header := wire_header packet;
              NnrpRuntimeEvent.metadata := NnrpRuntimeEventMetadata.ResultPush metadata;
              NnrpRuntimeEvent.tail := NnrpRuntimeEventTail.Body (RuntimePacket.body packet) |} |} s3 /\
    operation_frames s3 !! op = None /\ reads_left s3 = rest.
Proof.
  intros Ho%opened_inv Hrun0 Hsub Hrun op Hlive Hrole Hevents Hreads Hty Hfr Hses Hlen Hmd.
  assert (inv s) as Hi by (by eapply run_inv).
  assert (inv s1) as Hi1 by (by destruct (triple_returns _ _ _ _ _ _ _ (submit_nowait_sess now request) (conj Hi I) Hsub)).
  pose proof (run_inv _ _ Hrun Hi1) as Hi2. apply (run_within later) in Hrun as [_ _ _ _ _ Hid].
  apply submit_returns in Hsub as (_ & _ & _ & d & tr & _ & _ & ->). simpl in Hid.
  apply (await_result_answers s2 op frame packet metadata rest); congruence || done.
Qed.

End properties.

(** ** An example: two submissions and their answers *)

Module ExampleRun.

#[local] Existing Instance target64.

Definition request (op frame : Z) : NnrpSubmitRequest.t :=
  NnrpSubmitRequest.mk op frame NnrpSubmitHeaderContext.default
    (FrameSubmitMetadata.mk 0 0 0 0 0 0 0 InputProfile.Unspecified TileIndexMode.DenseRange 0 0 0 0 0 0
       op SubmitMode.Inline BudgetPolicy.NONE LossTolerancePolicy.Strict 0 0
       (PayloadKind.repr PayloadKind.TokenChunk) 1) [x01].

Definition result : ResultPushMetadata.t :=
  ResultPushMetadata.mk 0 0 0 0 1 3 4 7 0 0 ResultClass.Complete BudgetPolicy.NONE 0 0 0
    (PayloadKind.repr PayloadKind.TokenChunk) 1.

Definition push (frame : Z) : RuntimePacket.t :=
  Example.packet_of MessageType.ResultPush 42 frame (wire result) [x05; x06].

(** The session, the two submissions and the first answer. *)
Definition start : t := Example.session (Example.transport [Ok (push 1)] 4).
Definition after_first : t := (submit 0 (request 7 1) start).2.
Definition after_second : t := (submit 0 (request 8 2) after_first).2.
Definition answer (op frame : Z) : NnrpResult.t :=
  {| NnrpResult.operation_id := op;
     NnrpResult.terminal_state := ResultTerminalState.Success;
     NnrpResult.event := NnrpTerminalEvent.Runtime
       {| NnrpRuntimeEvent.header := wire_header (push frame);
          NnrpRuntimeEvent.metadata := NnrpRuntimeEventMetadata.ResultPush result;
          NnrpRuntimeEvent.tail := NnrpRuntimeEventTail.Body [x05; x06] |} |}.
Definition after_answer : t := (decode_event (push 1) after_second).2.
Definition after_ping : t := (send_ping after_answer).2.

Lemma start_opened : opened start.
Proof.
  destruct (Example.session_opens (Example.transport [Ok (push 1)] 4)) as [c' Hr].
  eexists _, Example.resume_config, (Some Example.old_ticket), c'. split; [|exact Hr].
  apply Example.client_behaved. by repeat constructor.
Qed.

Lemma run_second : run after_first after_second.
Proof. exact (rtc_once _ _ (step_call _ _ _ (call_submit 0 (request 8 2)))). Qed.

Lemma run_submits : run start after_second.
Proof.
  apply (rtc_l _ _ after_first); [|exact run_second].
  exact (step_call _ _ _ (call_submit 0 (request 7 1))).
Qed.

Lemma run_ping : run after_answer after_ping.
Proof. exact (rtc_once _ _ (step_call _ _ _ call_send_ping)). Qed.

End ExampleRun.

Lemma client_sessions_sound_witness :
  inv ExampleRun.after_second /\ (await_result (Htarget := target64) ExampleRun.after_second).1 <> Ready Panic.
Proof.
  destruct (client_sessions_sound (Htarget := target64) ExampleRun.start ExampleRun.after_second
              ExampleRun.start_opened ExampleRun.run_submits) as (Hi & Hm & _).
  split; [exact Hi|]. exact (Hm NnrpResult.t _ (call_await_result (Htarget := target64))).
Defined.

Lemma client_answers_once_witness :
  NnrpResult.operation_id (ExampleRun.answer 8 2) <> NnrpResult.operation_id (ExampleRun.answer 7 1).
Proof.
  destruct (client_answers_once (Htarget := target64) ExampleRun.start ExampleRun.after_second
    ExampleRun.after_answer ExampleRun.after_ping
    (decode_event (Htarget := target64) (ExampleRun.push 2) ExampleRun.after_ping).2
    (ExampleRun.push 1) (ExampleRun.push 2) (ExampleRun.answer 7 1) (ExampleRun.answer 8 2)
    ExampleRun.start_opened ExampleRun.run_submits) as (_ & Hop & _).
  - vm_compute. reflexivity.
  - exact ExampleRun.run_ping.
  - vm_compute. reflexivity.
  - exact Hop.
Defined.

(** After the second submission the first operation cannot be submitted again, and a third one can. *)
Lemma submissions_fresh_witness :
  (exists message, submit (Htarget := target64) 0 (ExampleRun.request 7 3) ExampleRun.after_second =
     (Ready (Err (UnexpectedMessage message)), ExampleRun.after_second)) /\ (1 < 3 /\ 9 <> 7)%Z.
Proof.
  destruct (submissions_fresh (Htarget := target64) ExampleRun.start ExampleRun.after_first
    ExampleRun.after_second 0 1 (ExampleRun.request 7 1)) as [Hno Hfresh].
  - vm_compute. reflexivity.
  - exact ExampleRun.run_second.
  - split; [apply Hno; by left|].
    apply (Hfresh 0 (ExampleRun.request 9 3) 3 (submit (Htarget := target64) 0 (ExampleRun.request 9 3) ExampleRun.after_second).2).
    vm_compute. reflexivity.
Defined.

Lemma submit_on_the_wire_witness : operation_frames ExampleRun.after_first !! 7 = Some 1.
Proof.
  destruct (submit_on_the_wire (Htarget := target64) ExampleRun.start ExampleRun.after_first 0 1
              (ExampleRun.request 7 1)) as (_ & Hf & _); [vm_compute; reflexivity|exact Hf].
Defined.

Lemma result_answers_submission_witness :
  exists s3, returns (await_result (Htarget := target64)) ExampleRun.after_second (ExampleRun.answer 7 1) s3.
Proof.
  destruct (result_answers_submission (Htarget := target64) ExampleRun.start ExampleRun.start
    ExampleRun.after_first ExampleRun.after_second 0 1 (ExampleRun.request 7 1) (ExampleRun.push 1)
    ExampleRun.result [] ExampleRun.start_opened (rtc_refl _ _)) as (s3 & Hr & _).
  - vm_compute. reflexivity.
  - exact ExampleRun.run_second.
  - vm_compute. reflexivity.
  - vm_compute. reflexivity.
  - vm_compute. reflexivity.
  - vm_compute. reflexivity.
  - vm_compute. reflexivity.
  - vm_compute. reflexivity.
  - vm_compute. reflexivity.
  - vm_compute. reflexivity.
  - vm_compute. reflexivity.
  - by exists s3.
Defined.
