(* ===== verification/ClientWire.v ===== *)
(** What a client session hands out is what the peer sent
    ([src/crates/nnrp-runtime/src/client.rs], [src/crates/nnrp-runtime/src/event.rs]): an event put back
    on the wire is the packet it came from; and recovery tickets survive their encoding. *)

From S2P Require Import Prelude Bytes Errors Enums Wire Header Session Flow Control Codes.
From S2P Require Import Lifecycle Capability RuntimeControl Operation Recovery Transport Route.
From S2P Require Import RuntimeError Packet Async Pressure PreSubmit Object Cache Data Schema.
From S2P Require Import Regions Submit Event Client SessionLogic ClientTheory ClientMethods ClientOpen.
From S2P Require Import ClientOpenTheory ClientRuns.

Local Open Scope Z_scope.
Import NnrpClientSession.

(** ** Events *)

(** The header of a packet states the lengths of its parts, as [RuntimePacket::new] and the
    readers of the transports ensure. *)
Definition measured (packet : RuntimePacket.t) : Prop :=
  CommonHeader.meta_len (RuntimePacket.header packet) = len (RuntimePacket.metadata packet) /\
  CommonHeader.body_len (RuntimePacket.header packet) = len (RuntimePacket.body packet).

(** A pressure update. *)
Definition is_pressure (mt : MessageType.t) : bool :=
  match mt with MessageType.Backpressure | MessageType.CreditUpdate => true | _ => false end.

(** The event is put back on the wire as the packet it came from; the body of a pressure update
    is lost. *)
Definition restores (packet : RuntimePacket.t) (event : NnrpClientEvent.t) : Prop :=
  exists e, from_client (wire_header packet) event = Ok e /\
    NnrpRuntimeEvent.into_wire_parts e =
      Ok (wire_header packet, RuntimePacket.metadata packet,
          if is_pressure (packet_type packet) then [] else RuntimePacket.body packet).

(** A message of exactly its length is encoded again as it was. *)
Lemma reencode {A : Type} `{WireCodecLaws A} bs (m : A) :
  codec_parse bs = Ok m -> len bs = Z.of_nat (codec_len (A := A)) -> codec_to_bytes m = Ok bs.
Proof.
  intros [Hv Ht]%law_parse_sound Hl. rewrite to_bytes_valid by done. rewrite <- Ht.
  by rewrite take_ge by (unfold len in Hl; lia).
Qed.

Lemma bodyless_lens packet n message u :
  require_bodyless packet n message = Ok u ->
  len (RuntimePacket.metadata packet) = Z.of_nat n /\ RuntimePacket.body packet = [].
Proof.
  unfold require_bodyless. intros [Hm Hb]%reject_if_Ok%orb_false_iff.
  apply negb_false_iff, Z.eqb_eq in Hm, Hb. split; [done|]. apply length_zero_iff_nil. unfold len in Hb. lia.
Qed.

Lemma metadata_len packet n message u :
  require_metadata_len packet n message = Ok u -> len (RuntimePacket.metadata packet) = Z.of_nat n.
Proof. unfold require_metadata_len. intros Hm%reject_if_Ok. by apply negb_false_iff, Z.eqb_eq in Hm. Qed.

(** An event of its metadata and what follows it. *)
Lemma restores_parts packet event md tail :
  from_client (wire_header packet) event =
    Ok {| NnrpRuntimeEvent.header := wire_header packet; NnrpRuntimeEvent.metadata := md;
          NnrpRuntimeEvent.tail := tail |} ->
  NnrpRuntimeEventMetadata.to_bytes md = Ok (RuntimePacket.metadata packet) ->
  NnrpRuntimeEventTail.append_to tail [] =
    (if is_pressure (packet_type packet) then [] else RuntimePacket.body packet) ->
  restores packet event.
Proof.
  intros Hf Hm Ht. eexists. split; [exact Hf|]. unfold NnrpRuntimeEvent.into_wire_parts. simpl.
  rewrite Hm. simpl. by rewrite Ht.
Qed.

(** The walk through an arm of [decode_event]. *)
Ltac restoring_walk :=
  repeat (cbv zeta;
    first [ apply returning_bind_lift; intros ? ? | apply returning_bind; intros ? ]);
  repeat match goal with
    | H : require_bodyless _ _ _ = Ok _ |- _ => apply bodyless_lens in H as [? ?]
    | H : require_metadata_len _ _ _ = Ok _ |- _ => apply metadata_len in H
    | H : protocol _ = Ok _ |- _ => apply protocol_Ok in H
    end.

(** The encoding of the metadata. *)
Ltac reencode_metadata :=
  match goal with
  | Hp : _ (RuntimePacket.metadata ?packet) = Ok ?m, Hl : len (RuntimePacket.metadata ?packet) = _
    |- NnrpRuntimeEventMetadata.to_bytes _ = _ =>
      match type of m with ?A => exact (reencode (A := A) _ m Hp Hl) end
  end.

Ltac restoring :=
  autounfold with arms; restoring_walk; apply returning_ret;
  eapply restores_parts; [reflexivity|reencode_metadata|].

Section restoring.
Context `{Htarget : Target} (packet : RuntimePacket.t).

Lemma restores_result event op result :
  NnrpResult.from_runtime op event = Ok result -> NnrpRuntimeEvent.header event = wire_header packet ->
  NnrpRuntimeEventMetadata.to_bytes (NnrpRuntimeEvent.metadata event) = Ok (RuntimePacket.metadata packet) ->
  NnrpRuntimeEventTail.append_to (NnrpRuntimeEvent.tail event) [] =
    (if is_pressure (packet_type packet) then [] else RuntimePacket.body packet) ->
  restores packet (NnrpClientEvent.Result result).
Proof.
  intros (_ & _ & He)%from_runtime_Ok Hh Hm Ht. exists event. simpl.
  rewrite He, bool_decide_eq_true_2 by done. split; [done|].
  unfold NnrpRuntimeEvent.into_wire_parts. rewrite Hm. simpl. by rewrite Ht, Hh.
Qed.

Lemma restores_delta : packet_type packet = MessageType.ObjectPatch \/ packet_type packet = MessageType.ObjectDelta ->
  returning (restores packet) (decode_object_delta packet).
Proof.
  intros Hty. autounfold with arms. restoring_walk. apply returning_ret.
  match goal with H : require_body_len _ _ _ = Ok _ |- _ => rename H into Hb end.
  apply reject_if_Ok, negb_false_iff, Z.eqb_eq in Hb.
  pose proof (delta_split_fits _ _ _ ltac:(eassumption) Hb) as Hfit.
  eapply restores_parts.
  - cbn. unfold split_off. rewrite (proj2 (Z.leb_le _ _) Hfit). reflexivity.
  - reencode_metadata.
  - simpl. rewrite take_drop. by destruct Hty as [-> | ->].
Qed.

Lemma restores_drop : measured packet -> packet_type packet = MessageType.ResultDrop ->
  returning (restores packet) (decode_result_drop packet).
Proof.
  intros [Hm Hb] Hty. autounfold with arms. restoring_walk. apply returning_ret.
  match goal with H : validate_result_drop_header _ = Ok _ |- _ => rename H into Hd end.
  unfold validate_result_drop_header in Hd. apply reject_if_Ok, orb_false_iff in Hd as [Hd Hdb].
  apply orb_false_iff in Hd as [_ Hdm]. apply negb_false_iff, Z.eqb_eq in Hdm, Hdb.
  assert (RuntimePacket.metadata packet = [] /\ RuntimePacket.body packet = []) as [Hme Hbe].
  { split; apply length_zero_iff_nil; unfold len in *; lia. }
  eapply restores_result; [eassumption|done|by rewrite Hme|]. by rewrite Hty, Hbe.
Qed.

Lemma restores_push : packet_type packet = MessageType.ResultPush ->
  returning (restores packet) (decode_result_push packet).
Proof.
  intros Hty. autounfold with arms. restoring_walk. apply returning_ret.
  eapply restores_result; [eassumption|done|reencode_metadata|by rewrite Hty].
Qed.

Lemma restores_drop_reason : packet_type packet = MessageType.ResultDropReason ->
  returning (restores packet) (decode_result_drop_reason packet).
Proof.
  intros Hty. autounfold with arms. restoring_walk. apply returning_ret.
  eapply restores_result; [eassumption|done|reencode_metadata|by rewrite Hty].
Qed.

Lemma restores_pressure : is_pressure (packet_type packet) = true ->
  returning (restores packet) (decode_pressure packet).
Proof.
  intros Hty. autounfold with arms. restoring_walk. apply returning_lift. intros event He.
  destruct (packet_type packet) eqn:E; try discriminate Hty; injection He as <-;
    (eapply restores_parts; [reflexivity|reencode_metadata|by rewrite E]).
Qed.

Lemma restores_event : measured packet -> returning (restores packet) (decode_event packet).
Proof.
  intros Hmeasured. unfold decode_event. destruct (packet_type packet) eqn:Hty.
  all: try (apply returning_lift; discriminate).
  all: try first [ by apply restores_push | by apply restores_drop | by apply restores_drop_reason
                 | by apply restores_pressure; rewrite Hty | by apply restores_delta; auto ].
  all: restoring; rewrite Hty;
    first [reflexivity|by match goal with H : RuntimePacket.body _ = [] |- _ => rewrite H end].
Qed.

(** C18: an event that a session hands out, put back on the wire with
    [into_wire_parts], has the header, the metadata and the body of the packet that it was
    decoded from, byte for byte, for every message that a client accepts, with one exception: the body
    of BACKPRESSURE and CREDIT_UPDATE is accepted and dropped. *)
Theorem client_event_wire (s s' : t) (event : NnrpClientEvent.t) :
  measured packet -> returns (decode_event packet) s event s' ->
  exists e, from_client (wire_header packet) event = Ok e /\
    NnrpRuntimeEvent.into_wire_parts e =
      Ok (wire_header packet, RuntimePacket.metadata packet,
          if is_pressure (packet_type packet) then [] else RuntimePacket.body packet).
Proof. intros Hm Hr. exact (restores_event Hm _ _ _ Hr). Qed.

End restoring.

Lemma client_event_wire_witness :
  measured (ExampleRun.push 1) /\
  exists e, NnrpRuntimeEvent.into_wire_parts e =
    Ok (wire_header (ExampleRun.push 1), wire ExampleRun.result, [x05; x06]).
Proof.
  assert (measured (ExampleRun.push 1)) as Hm by (split; reflexivity). split; [exact Hm|].
  destruct (client_event_wire (Htarget := target64) (ExampleRun.push 1) ExampleRun.after_second
    ExampleRun.after_answer (NnrpClientEvent.Result (ExampleRun.answer 7 1)) Hm) as (e & _ & He).
  - vm_compute. reflexivity.
  - exists e. exact He.
Defined.

(** ** Recovery tickets *)

Module Ticket.
Import NnrpSessionRecoveryTicket.

Section ticket.
Context `{Htarget : Target}.

(** A ticket that can be written down: the fields fit their widths, the session is named and the
    token is not empty. *)
Record valid_ticket (t : t) : Prop := {
  ticket_session : 0 < session_id t <= u32_max;
  ticket_window : 0 <= resume_window_ms t <= u32_max;
  ticket_operation op : resume_from_operation_id t = Some op -> 0 <= op <= u64_max;
  ticket_token : 0 < len (resume_token t) <= u32_max;
  ticket_size : Z.of_nat FIXED_PREFIX_BYTES + len (resume_token t) <= usize_max
}.

Definition flags_of (t : t) : Z :=
  if is_some (resume_from_operation_id t) then FLAG_RESUME_FROM_OPERATION_ID_PRESENT else 0.

Definition prefix (t : t) : list field :=
  [ F (KU 4) (le_value MAGIC); F (KU 2) VERSION; F (KU 2) (flags_of t); F (KU 4) (session_id t);
    F (KU 4) (len (resume_token t)); F (KU 4) (resume_window_ms t);
    F (KU 8) (default 0 (resume_from_operation_id t)) ].

Lemma prefix_ok t : valid_ticket t -> fields_ok (prefix t) = true.
Proof.
  intros [Hs Hw Ho Hl Hz]. unfold prefix, fields_ok. cbn [forallb].
  assert (field_ok (F (KU 2) (flags_of t)) = true) as ->
    by (unfold flags_of; by destruct (resume_from_operation_id t)).
  assert (0 <= default 0 (resume_from_operation_id t) <= u64_max) as Hop.
  { destruct (resume_from_operation_id t) as [op|]; [by apply Ho|]. simpl. unfold u64_max. lia. }
  unfold field_ok. cbn [fk fv]. change (modulus 4) with (u32_max + 1). change (modulus 8) with (u64_max + 1).
  change ((0 <=? le_value MAGIC) && (le_value MAGIC <? u32_max + 1)) with true.
  change ((0 <=? VERSION) && (VERSION <? modulus 2)) with true. cbn [andb]. lia.
Qed.

Lemma ticket_to_bytes t : valid_ticket t -> to_bytes t = Ok (encode (prefix t) ++ resume_token t).
Proof.
  intros [_ _ _ Hl _]. unfold to_bytes. cbv zeta. rewrite (proj2 (Z.leb_le _ _)) by lia. cbn [mbind outcome_bind].
  reflexivity.
Qed.

Lemma ticket_from_bytes t : valid_ticket t -> from_bytes (encode (prefix t) ++ resume_token t) = Ok t.
Proof.
  intros Hv. pose proof (prefix_ok t Hv) as Hok. destruct Hv as [Hs Hw Ho Hl Hz].
  change (Z.of_nat FIXED_PREFIX_BYTES) with 28 in Hz.
  assert (len (encode (prefix t) ++ resume_token t) = 28 + len (resume_token t)) as Hlen.
  { rewrite len_app. unfold len at 1. by rewrite length_encode. }
  assert (read_ticket_u32 (encode (prefix t) ++ resume_token t) 8 = Ok (session_id t)) as Hsid
    by (apply protocol_Ok; accessor Hok).
  assert (read_ticket_u32 (encode (prefix t) ++ resume_token t) 12 = Ok (len (resume_token t))) as Htok
    by (apply protocol_Ok; accessor Hok).
  assert (slice (encode (prefix t) ++ resume_token t) FIXED_PREFIX_BYTES
            (length (encode (prefix t) ++ resume_token t)) = Ok (resume_token t)) as Hrest.
  { rewrite slice_to_end by (unfold len, FIXED_PREFIX_BYTES in *; lia).
    reflexivity. }
  unfold from_bytes. change (Z.of_nat FIXED_PREFIX_BYTES) with 28.
  eapply (bind_step _ _ tt); [apply reject_if_Ok; rewrite Hlen; lia|].
  eapply bind_step; [apply protocol_Ok; accessor Hok|].
  eapply (bind_step _ _ tt); [reflexivity|].
  eapply bind_step; [apply protocol_Ok; accessor Hok|].
  eapply (bind_step _ _ tt); [reflexivity|].
  eapply bind_step; [apply protocol_Ok; accessor Hok|].
  eapply (bind_step _ _ tt); [unfold flags_of; by destruct (resume_from_operation_id t)|].
  eapply bind_step; [exact Hsid|].
  eapply (bind_step _ _ tt); [apply reject_if_Ok; lia|].
  eapply bind_step; [exact Htok|].
  eapply (bind_step _ _ tt); [apply reject_if_Ok; pose proof usize_max_u32; lia|].
  eapply (bind_step _ _ tt); [apply reject_if_Ok; lia|].
  eapply bind_step; [apply ok_or_Ok, checked_add_Some; split; [reflexivity|lia]|].
  eapply (bind_step _ _ tt); [apply reject_if_Ok; rewrite Hlen; lia|].
  eapply bind_step; [apply protocol_Ok; accessor Hok|].
  eapply (bind_step _ _ (resume_from_operation_id t)).
  - assert (read_ticket_u64 (encode (prefix t) ++ resume_token t) 20 =
              Ok (default 0 (resume_from_operation_id t))) as Hop by (apply protocol_Ok; accessor Hok).
    rewrite Hop. unfold flags_of. by destruct (resume_from_operation_id t).
  - eapply bind_step; [apply protocol_Ok; exact Hrest|]. by destruct t.
Qed.

Lemma read_ticket_Ok w encoded offset v :
  read_ticket w encoded offset = Ok v -> 0 <= v < modulus w.
Proof.
  unfold read_ticket. intros H%protocol_Ok. apply bind_Ok in H as (bs & Hs & [= <-]).
  unfold slice in Hs. case_decide; [|done]. injection Hs as <-.
  pose proof (le_value_range (take (offset + w - offset) (drop offset encoded))) as Hr.
  rewrite length_take, length_drop in Hr. by replace (_ `min` _)%nat with w in Hr by lia.
Qed.

Lemma read_ticket_no_panic w encoded offset :
  (offset + w <= length encoded)%nat -> read_ticket w encoded offset <> Panic.
Proof.
  intros Hl. apply protocol_no_panic. unfold read_le, slice. by rewrite decide_True by lia.
Qed.

(** Past the length check no read is out of range. *)
Lemma from_bytes_no_panic encoded : from_bytes encoded <> Panic.
Proof.
  unfold from_bytes. apply bind_no_panic; [apply reject_if_no_panic|intros [] Hl%reject_if_Ok].
  assert (28 <= length encoded)%nat by (change (Z.of_nat FIXED_PREFIX_BYTES) with 28 in Hl; unfold len in Hl; lia).
  repeat first
    [ apply reject_if_no_panic | apply ok_or_no_panic | apply read_ticket_no_panic; lia
    | apply protocol_no_panic; unfold slice; rewrite decide_True by (unfold FIXED_PREFIX_BYTES; lia); done
    | apply bind_no_panic; [|intros ? _] | case_match | discriminate ].
Qed.

(** What is read from bytes is a ticket that can be written. *)
Lemma from_bytes_valid encoded t : from_bytes encoded = Ok t -> valid_ticket t.
Proof.
  unfold from_bytes. change (Z.of_nat FIXED_PREFIX_BYTES) with 28.
  intros [Hl%reject_if_Ok H]%then_unit_Ok. apply bind_Ok in H as (magic & _ & H).
  apply then_unit_Ok in H as [_ H]. apply bind_Ok in H as (version & _ & H).
  apply then_unit_Ok in H as [_ H]. apply bind_Ok in H as (flags & _ & H).
  apply then_unit_Ok in H as [_ H]. apply bind_Ok in H as (sid & Hsid%read_ticket_Ok & H).
  apply then_unit_Ok in H as [Hz%reject_if_Ok H]. apply bind_Ok in H as (n & Hn%read_ticket_Ok & H).
  apply then_unit_Ok in H as [_ H]. apply then_unit_Ok in H as [Hn0%reject_if_Ok H].
  apply bind_Ok in H as (expected & [-> Hmax]%ok_or_Ok%checked_add_Some & H).
  apply then_unit_Ok in H as [Heq%reject_if_Ok H]. apply bind_Ok in H as (window & Hw%read_ticket_Ok & H).
  apply bind_Ok in H as (op & Hop & H). apply bind_Ok in H as (token & Hs%protocol_Ok & [= <-]).
  rewrite slice_to_end in Hs by (unfold len, FIXED_PREFIX_BYTES in *; lia). injection Hs as <-.
  assert (len (drop FIXED_PREFIX_BYTES encoded) = n) as Hlen.
  { unfold len in *. rewrite length_drop. unfold FIXED_PREFIX_BYTES. lia. }
  change (modulus 4) with (u32_max + 1) in *.
  split; simpl; [lia|lia| |rewrite Hlen; lia|rewrite Hlen; done].
  intros o ->. case_match; [|done]. apply bind_Ok in Hop as (v & Hv%read_ticket_Ok & [= <-]).
  change (modulus 8) with (u64_max + 1) in Hv. lia.
Qed.

(** a recovery ticket with a session, a token and fields within their widths is
    written to bytes that are read back as the same ticket; every ticket that is read from any
    bytes is of that kind; and reading never panics. *)
Theorem ticket_round_trip (t : t) (encoded : bytes) :
  (valid_ticket t -> exists bs, to_bytes t = Ok bs /\ from_bytes bs = Ok t) /\
  (from_bytes encoded = Ok t -> valid_ticket t) /\ from_bytes encoded <> Panic.
Proof.
  split_and!; [|apply from_bytes_valid|apply from_bytes_no_panic].
  intros Hv. exists (encode (prefix t) ++ resume_token t).
  split; [by apply ticket_to_bytes|by apply ticket_from_bytes].
Qed.

End ticket.

Lemma ticket_round_trip_witness :
  exists bs, to_bytes Example.old_ticket = Ok bs /\
    from_bytes (H := target64) bs = Ok Example.old_ticket.
Proof.
  destruct (ticket_round_trip (Htarget := target64) Example.old_ticket []) as [Hrt _]. apply Hrt.
  split; [| |intros op [= <-]| |].
  all: first [done|vm_compute; split; congruence|vm_compute; congruence].
Defined.

End Ticket.
