(* ===== verification/Server.v ===== *)
(** The server of the runtime ([src/crates/nnrp-runtime/src/server.rs]): its configuration, the
    operations and events that it hands to the application, and the session, whose methods
    read and write packets.  The conversion of its events is in
    [src/crates/nnrp-runtime/src/event.rs].

    Every method of the session is an [Async] function of the session.  The registry of the
    server's sessions is shared: a session holds it while one of its methods runs.  The
    mutex is poisoned only when a holder panics, and none can. *)

From S2P Require Import Prelude Bytes Errors Enums Wire Header Session Flow Control Codes.
From S2P Require Import Lifecycle Capability RuntimeControl Operation Recovery Transport Route.
From S2P Require Import RuntimeError Packet Async Pressure PreSubmit Object Cache Data Schema.
From S2P Require Import Event Client.

Local Open Scope Z_scope.
Import NnrpClientSession(wire_header, packet_frame, packet_type, address, as_u32, set_trace, control_state).

Definition MAX_PENDING_SERVER_INPUTS : Z := 1024.

Definition is_dedicated_role_message (message_type : MessageType.t) : bool :=
  match message_type with
  | MessageType.SessionPatch | MessageType.CachePut | MessageType.CacheAck
  | MessageType.SessionMigrate | MessageType.Ping | MessageType.Pong => true
  | _ => false
  end.

(** ** Configuration *)

Module NnrpServerPolicyDecision.

Record t := mk {
  accepted : bool;
  session_error_code : Z;
  diagnostic : option bytes
}.

Definition accept : t := mk true SESSION_ERROR_NONE None.

Definition reject (session_error_code : Z) (diagnostic : bytes) : t :=
  mk false session_error_code (Some diagnostic).

End NnrpServerPolicyDecision.

Module NnrpServerConfig.

(** [application_policy] is the [evaluate] of the application's policy. *)
Record t := mk {
  supported_profiles : list Z;
  supported_cache_objects : list CacheObjectKind.t;
  max_cache_objects : Z;
  max_cache_object_bytes : Z;
  schema_registry : SchemaRegistry.t;
  resume_token_bytes : Z;
  max_in_flight_operations : Z;
  granted_operation_credit : Z;
  lease_ttl_ms : Z;
  resume_window_ms : Z;
  application_policy : SessionOpenMetadata.t -> Poll NnrpServerPolicyDecision.t
}.

(** [AllowAllServerPolicy::evaluate]. *)
Definition allow_all (_ : SessionOpenMetadata.t) : Poll NnrpServerPolicyDecision.t :=
  Ready (Ok NnrpServerPolicyDecision.accept).

(** [NnrpServerConfig::default], with the registry that [SchemaRegistry::standard] gives. *)
Definition default (standard : SchemaRegistry.t) : t := {|
  supported_profiles := [STANDARD_PROFILE_TOKEN];
  supported_cache_objects := [];
  max_cache_objects := 0;
  max_cache_object_bytes := 0;
  schema_registry := standard;
  resume_token_bytes := 24;
  max_in_flight_operations := 4;
  granted_operation_credit := 2;
  lease_ttl_ms := 30000;
  resume_window_ms := 120000;
  application_policy := allow_all |}.

(** The checks that need no policy; [Err] is the decision to reject. *)
Definition validate_limits (self : t) (open : SessionOpenMetadata.t)
    : Outcome NnrpServerPolicyDecision.t unit :=
  _ ← reject_if (negb (existsb (Z.eqb (SessionOpenMetadata.profile_id open)) (supported_profiles self))
                 || negb (is_ok (validate_profile_assignment (SessionOpenMetadata.profile_id open))))
        (NnrpServerPolicyDecision.reject SESSION_ERROR_PROFILE_UNSUPPORTED
           (str "requested profile is unsupported"));
  _ ← reject_if (negb (is_some (SchemaRegistry.lookup (schema_registry self)
                                  (SessionOpenMetadata.schema_id open)
                                  (SessionOpenMetadata.schema_version open))))
        (NnrpServerPolicyDecision.reject SESSION_ERROR_SCHEMA_UNSUPPORTED
           (str "requested schema is unsupported"));
  reject_if (max_in_flight_operations self <? SessionOpenMetadata.max_in_flight_operations open)
    (NnrpServerPolicyDecision.reject SESSION_ERROR_LIMIT_REACHED
       (str "requested in-flight limit exceeds the server limit")).

(** [Some decision] is the error of the source: the session is rejected. *)
Definition validate_client_open {S} (self : t) (open : SessionOpenMetadata.t)
    : Async S (option NnrpServerPolicyDecision.t) :=
  match validate_limits self open with
  | Err decision => mret (Some decision)
  | Panic => lift Panic
  | Ok _ =>
      decision ← (fun s => (application_policy self open, s));
      mret (if negb (NnrpServerPolicyDecision.accepted decision) then Some decision else None)
  end.

End NnrpServerConfig.

(** ** The registry of sessions *)

Module RuntimeSessionRecord.

Record t := mk {
  session_id : Z;
  profile_id : Z;
  schema_id : Z;
  schema_version : Z;
  resume_enabled : bool;
  resume_token_bytes : Z;
  resume_token : bytes;
  resume_expires_at_ms : Z;
  last_operation_id : Z;
  active : bool;
  connection_nonce : Z
}.

Definition set_last_operation_id (self : t) (value : Z) : t :=
  mk (session_id self) (profile_id self) (schema_id self) (schema_version self)
    (resume_enabled self) (resume_token_bytes self) (resume_token self)
    (resume_expires_at_ms self) value (active self) (connection_nonce self).

Definition set_inactive (self : t) : t :=
  mk (session_id self) (profile_id self) (schema_id self) (schema_version self)
    (resume_enabled self) (resume_token_bytes self) (resume_token self)
    (resume_expires_at_ms self) (last_operation_id self) false (connection_nonce self).

End RuntimeSessionRecord.

Abbreviation SessionRegistry := (gmap Z RuntimeSessionRecord.t).

(** ** Events *)

Module NnrpServerOperation.

Record t := mk {
  operation_id : Z;
  frame_id : Z;
  submit : NnrpRuntimeEvent.t
}.

Definition new (submit : NnrpRuntimeEvent.t) : RT t :=
  let header := NnrpRuntimeEvent.header submit in
  match RuntimeFrameHeader.message_type header, NnrpRuntimeEvent.metadata submit with
  | MessageType.FrameSubmit, NnrpRuntimeEventMetadata.FrameSubmit metadata =>
      Ok {| operation_id := FrameSubmitMetadata.operation_id metadata;
            frame_id := RuntimeFrameHeader.frame_id header;
            submit := submit |}
  | _, _ => unexpected "server operation requires a FRAME_SUBMIT runtime event"
  end.

Definition metadata (self : t) : RT FrameSubmitMetadata.t :=
  match NnrpRuntimeEvent.metadata (submit self) with
  | NnrpRuntimeEventMetadata.FrameSubmit metadata => Ok metadata
  | _ => Panic
  end.

Definition body (self : t) : RT bytes :=
  match NnrpRuntimeEvent.tail (submit self) with
  | NnrpRuntimeEventTail.Body body => Ok body
  | _ => Panic
  end.

Definition require_operation_id (self : t) (operation_id : Z) : RT unit :=
  reject_if (negb (operation_id =? NnrpServerOperation.operation_id self))
    (UnexpectedMessage "server operation metadata operation id mismatch").

End NnrpServerOperation.

Module NnrpServerEvent.

Inductive t :=
| Submit (operation : NnrpServerOperation.t)
| Runtime (event : NnrpRuntimeEvent.t)
| Lifecycle (event : OperationLifecycleEvent.t).

(** [runtime_event] and [into_runtime_event]. *)
Definition runtime_event (self : t) : option NnrpRuntimeEvent.t :=
  match self with
  | Submit operation => Some (NnrpServerOperation.submit operation)
  | Runtime event => Some event
  | Lifecycle _ => None
  end.

End NnrpServerEvent.

Module PendingServerInput.

Inductive t :=
| Event (event : NnrpServerEvent.t)
| RolePacket (packet : RuntimePacket.t).

End PendingServerInput.

Module NnrpRuntimeControl.
Record t := mk { message_type : MessageType.t; metadata : ControlRequestMetadata.t; body : bytes }.
End NnrpRuntimeControl.

Module NnrpSchedulingUpdate.
Record t := mk { message_type : MessageType.t; metadata : SchedulingMetadata.t }.
End NnrpSchedulingUpdate.

Module NnrpPressureUpdate.
Record t := mk { message_type : MessageType.t; metadata : PressureMetadata.t }.
End NnrpPressureUpdate.

Module DecodedSubmit.
Record t := mk {
  operation_id : Z;
  frame_id : Z;
  metadata : FrameSubmitMetadata.t;
  body : bytes
}.
End DecodedSubmit.

Module DecodedServerEvent.

Inductive t :=
| Submit (submit : DecodedSubmit.t)
| FrameCancel (frame_id : Z)
| PartialResult (metadata : PartialResultMetadata.t) (body : bytes)
| Progress (metadata : ProgressMetadata.t) (body : bytes)
| ResultDropReason (metadata : ResultDropReasonMetadata.t) (body : bytes)
| Control (control : NnrpRuntimeControl.t)
| Scheduling (update : NnrpSchedulingUpdate.t)
| Supersede (metadata : SupersedeMetadata.t) (body : bytes)
| Budget (metadata : BudgetMetadata.t)
| FlowUpdate (metadata : FlowUpdateMetadata.t)
| Pressure (update : NnrpPressureUpdate.t)
| Capability (message_type : MessageType.t) (metadata : CapabilityMetadata.t) (body : bytes)
| RouteHint (message_type : MessageType.t) (metadata : RouteHintMetadata.t) (body : bytes)
| TraceContext (frame_id : Z) (metadata : TraceContextMetadata.t) (body : bytes)
| RecoverableError (metadata : RecoverableErrorMetadata.t) (body : bytes)
| RetryAfter (metadata : RetryAfterMetadata.t) (body : bytes)
| ObjectDeclare (metadata : ObjectDescriptorMetadata.t) (body : bytes)
| ObjectRef (metadata : ObjectReferenceMetadata.t) (body : bytes)
| ObjectRelease (metadata : ObjectReleaseMetadata.t) (body : bytes)
| ObjectDelta (message_type : MessageType.t) (metadata : ObjectDeltaMetadata.t) (body : bytes)
| CacheReference (metadata : CacheReferenceMetadata.t) (body : bytes)
| CacheMiss (metadata : CacheMissMetadata.t) (body : bytes)
| CacheInvalidate (metadata : CacheInvalidateMetadata.t)
| Close (metadata : SessionCloseMetadata.t).

End DecodedServerEvent.

(** [NnrpRuntimeEvent::from_server]. *)
Definition from_server (header : RuntimeFrameHeader.t) (event : DecodedServerEvent.t)
    : RT NnrpRuntimeEvent.t :=
  '(metadata, tail) ←
    match event with
    | DecodedServerEvent.Submit submit =>
        Ok (NnrpRuntimeEventMetadata.FrameSubmit (DecodedSubmit.metadata submit),
            NnrpRuntimeEventTail.Body (DecodedSubmit.body submit))
    | DecodedServerEvent.FrameCancel _ =>
        Ok (NnrpRuntimeEventMetadata.None, NnrpRuntimeEventTail.None)
    | DecodedServerEvent.PartialResult metadata body =>
        Ok (NnrpRuntimeEventMetadata.PartialResult metadata, NnrpRuntimeEventTail.Body body)
    | DecodedServerEvent.Progress metadata body =>
        Ok (NnrpRuntimeEventMetadata.Progress metadata, NnrpRuntimeEventTail.Body body)
    | DecodedServerEvent.ResultDropReason metadata body =>
        Ok (NnrpRuntimeEventMetadata.ResultDropReason metadata, NnrpRuntimeEventTail.Diagnostic body)
    | DecodedServerEvent.Control control =>
        Ok (NnrpRuntimeEventMetadata.ControlRequest (NnrpRuntimeControl.metadata control),
            NnrpRuntimeEventTail.Diagnostic (NnrpRuntimeControl.body control))
    | DecodedServerEvent.Scheduling update =>
        Ok (NnrpRuntimeEventMetadata.Scheduling (NnrpSchedulingUpdate.metadata update),
            NnrpRuntimeEventTail.None)
    | DecodedServerEvent.Supersede metadata body =>
        Ok (NnrpRuntimeEventMetadata.Supersede metadata, NnrpRuntimeEventTail.Diagnostic body)
    | DecodedServerEvent.Budget metadata =>
        Ok (NnrpRuntimeEventMetadata.Budget metadata, NnrpRuntimeEventTail.None)
    | DecodedServerEvent.FlowUpdate metadata =>
        Ok (NnrpRuntimeEventMetadata.FlowUpdate metadata, NnrpRuntimeEventTail.None)
    | DecodedServerEvent.Pressure update =>
        Ok (NnrpRuntimeEventMetadata.Pressure (NnrpPressureUpdate.metadata update),
            NnrpRuntimeEventTail.None)
    | DecodedServerEvent.Capability _ metadata body =>
        Ok (NnrpRuntimeEventMetadata.Capability metadata, NnrpRuntimeEventTail.Body body)
    | DecodedServerEvent.RouteHint _ metadata body =>
        Ok (NnrpRuntimeEventMetadata.RouteHint metadata, NnrpRuntimeEventTail.Body body)
    | DecodedServerEvent.TraceContext _ metadata body =>
        Ok (NnrpRuntimeEventMetadata.TraceContext metadata, NnrpRuntimeEventTail.Body body)
    | DecodedServerEvent.RecoverableError metadata body =>
        Ok (NnrpRuntimeEventMetadata.RecoverableError metadata, NnrpRuntimeEventTail.Diagnostic body)
    | DecodedServerEvent.RetryAfter metadata body =>
        Ok (NnrpRuntimeEventMetadata.RetryAfter metadata, NnrpRuntimeEventTail.Diagnostic body)
    | DecodedServerEvent.ObjectDeclare metadata body =>
        Ok (NnrpRuntimeEventMetadata.ObjectDescriptor metadata, NnrpRuntimeEventTail.Body body)
    | DecodedServerEvent.ObjectRef metadata body =>
        Ok (NnrpRuntimeEventMetadata.ObjectReference metadata, NnrpRuntimeEventTail.Body body)
    | DecodedServerEvent.ObjectRelease metadata body =>
        Ok (NnrpRuntimeEventMetadata.ObjectRelease metadata, NnrpRuntimeEventTail.Diagnostic body)
    | DecodedServerEvent.ObjectDelta _ metadata body =>
        '(body, delta) ← split_off body (ObjectDeltaMetadata.metadata_bytes metadata);
        Ok (NnrpRuntimeEventMetadata.ObjectDelta metadata,
            NnrpRuntimeEventTail.MetadataBodyAndDelta body delta)
    | DecodedServerEvent.CacheReference metadata body =>
        Ok (NnrpRuntimeEventMetadata.CacheReference metadata, NnrpRuntimeEventTail.Body body)
    | DecodedServerEvent.CacheMiss metadata body =>
        Ok (NnrpRuntimeEventMetadata.CacheMiss metadata, NnrpRuntimeEventTail.Diagnostic body)
    | DecodedServerEvent.CacheInvalidate metadata =>
        Ok (NnrpRuntimeEventMetadata.CacheInvalidate metadata, NnrpRuntimeEventTail.None)
    | DecodedServerEvent.Close metadata =>
        Ok (NnrpRuntimeEventMetadata.SessionClose metadata, NnrpRuntimeEventTail.None)
    end;
  Ok {| NnrpRuntimeEvent.header := header; NnrpRuntimeEvent.metadata := metadata;
        NnrpRuntimeEvent.tail := tail |}.

#[export] Instance SessionCloseMetadata_eq_dec : EqDecision SessionCloseMetadata.t.
Proof. solve_decision. Defined.

(** ** The session *)

Module NnrpServerSession.

(** [clock] holds the times that [current_unix_ms] will return; after them it returns 0,
    as it does for a clock set before 1970. *)
Record t := mk {
  session_id : Z;
  active_transport_id : TransportId.t;
  client_open : SessionOpenMetadata.t;
  transport : FramedTransport.t;
  lifecycle : ConnectionLifecycle.t;
  operations : OperationRegistry.t;
  frame_operations : gmap Z Z;
  operation_frames : gmap Z Z;
  pre_submit_deadlines : PreSubmitDeadlineReservations.t;
  pressure : RuntimePressureState.t;
  cache_objects : list CacheObjectId.t;
  supported_cache_objects : list CacheObjectKind.t;
  max_cache_objects : Z;
  max_cache_object_bytes : Z;
  connection_nonce : Z;
  sessions : SessionRegistry;
  pending_close : option SessionCloseMetadata.t;
  pending_inputs : list PendingServerInput.t;
  clock : list Z
}.

(** [mk] with the fields that no method changes taken from [s]. *)
Definition update (s : t) transport lifecycle operations frame_operations operation_frames deadlines
    pressure cache_objects sessions pending_close pending_inputs clock : t :=
  mk (session_id s) (active_transport_id s) (client_open s) transport lifecycle operations
    frame_operations operation_frames deadlines pressure cache_objects (supported_cache_objects s)
    (max_cache_objects s) (max_cache_object_bytes s) (connection_nonce s) sessions pending_close
    pending_inputs clock.

Definition set_transport (s : t) tr : t :=
  update s tr (lifecycle s) (operations s) (frame_operations s) (operation_frames s)
    (pre_submit_deadlines s) (pressure s) (cache_objects s) (sessions s) (pending_close s)
    (pending_inputs s) (clock s).
Definition set_lifecycle (s : t) l : t :=
  update s (transport s) l (operations s) (frame_operations s) (operation_frames s)
    (pre_submit_deadlines s) (pressure s) (cache_objects s) (sessions s) (pending_close s)
    (pending_inputs s) (clock s).
Definition set_operations (s : t) ops : t :=
  update s (transport s) (lifecycle s) ops (frame_operations s) (operation_frames s)
    (pre_submit_deadlines s) (pressure s) (cache_objects s) (sessions s) (pending_close s)
    (pending_inputs s) (clock s).
Definition set_frames (s : t) frame_operations operation_frames : t :=
  update s (transport s) (lifecycle s) (operations s) frame_operations operation_frames
    (pre_submit_deadlines s) (pressure s) (cache_objects s) (sessions s) (pending_close s)
    (pending_inputs s) (clock s).
Definition set_pre_submit_deadlines (s : t) d : t :=
  update s (transport s) (lifecycle s) (operations s) (frame_operations s) (operation_frames s)
    d (pressure s) (cache_objects s) (sessions s) (pending_close s) (pending_inputs s) (clock s).
Definition set_pressure (s : t) p : t :=
  update s (transport s) (lifecycle s) (operations s) (frame_operations s) (operation_frames s)
    (pre_submit_deadlines s) p (cache_objects s) (sessions s) (pending_close s)
    (pending_inputs s) (clock s).
Definition set_cache_objects (s : t) objects : t :=
  update s (transport s) (lifecycle s) (operations s) (frame_operations s) (operation_frames s)
    (pre_submit_deadlines s) (pressure s) objects (sessions s) (pending_close s)
    (pending_inputs s) (clock s).
Definition set_sessions (s : t) registry : t :=
  update s (transport s) (lifecycle s) (operations s) (frame_operations s) (operation_frames s)
    (pre_submit_deadlines s) (pressure s) (cache_objects s) registry (pending_close s)
    (pending_inputs s) (clock s).
Definition set_pending_close (s : t) close : t :=
  update s (transport s) (lifecycle s) (operations s) (frame_operations s) (operation_frames s)
    (pre_submit_deadlines s) (pressure s) (cache_objects s) (sessions s) close
    (pending_inputs s) (clock s).
Definition set_pending_inputs (s : t) inputs : t :=
  update s (transport s) (lifecycle s) (operations s) (frame_operations s) (operation_frames s)
    (pre_submit_deadlines s) (pressure s) (cache_objects s) (sessions s) (pending_close s)
    inputs (clock s).
Definition set_clock (s : t) times : t :=
  update s (transport s) (lifecycle s) (operations s) (frame_operations s) (operation_frames s)
    (pre_submit_deadlines s) (pressure s) (cache_objects s) (sessions s) (pending_close s)
    (pending_inputs s) times.

(** Calls on the fields. *)
Definition on_transport {A} (m : Async FramedTransport.t A) : Async t A := fun s =>
  let (r, tr) := m (transport s) in (r, set_transport s tr).
Definition read_packet : Async t RuntimePacket.t := on_transport FramedTransport.read_packet.
Definition write_packet (packet : RuntimePacket.t) : Async t unit :=
  on_transport (FramedTransport.write_packet packet).

Definition on_lifecycle {A} (m : Method ConnectionLifecycle.t NnrpError A) : Async t A := fun s =>
  let (o, l) := m (lifecycle s) in (Ready (protocol o), set_lifecycle s l).
Definition on_operations {A} (m : Method OperationRegistry.t NnrpError A) : Async t A := fun s =>
  let (o, ops) := m (operations s) in (Ready (protocol o), set_operations s ops).
Definition on_pressure {A} (m : Method RuntimePressureState.t NnrpError A) : Async t A := fun s =>
  let (o, p) := m (pressure s) in (Ready (protocol o), set_pressure s p).
Definition on_deadlines {A} (m : Method PreSubmitDeadlineReservations.t RuntimeError A)
    : Async t A := fun s =>
  let (o, d) := m (pre_submit_deadlines s) in (Ready o, set_pre_submit_deadlines s d).

Definition current_unix_ms : Async t Z := fun s =>
  match clock s with
  | [] => (Ready (Ok 0), s)
  | now :: rest => (Ready (Ok now), set_clock s rest)
  end.

(** *** Checks *)

Definition require_session_packet (packet : RuntimePacket.t) (message : string) (self : t) : RT unit :=
  reject_if (negb (CommonHeader.session_id (RuntimePacket.header packet) =? session_id self))
    (UnexpectedMessage message).

Definition require_optional_session_packet (packet : RuntimePacket.t) (message : string) (self : t)
    : RT unit :=
  let packet_session := CommonHeader.session_id (RuntimePacket.header packet) in
  reject_if (negb (packet_session =? 0) && negb (packet_session =? session_id self))
    (UnexpectedMessage message).

Definition correlated_frame_id (operation_id : Z) (self : t) : RT Z :=
  if operation_id =? 0 then Ok 0
  else ok_or (operation_frames self !! operation_id) (Protocol (UnknownOperation operation_id)).

Definition require_operation_frame (operation_id frame_id : Z) (self : t) : RT unit :=
  correlated ← correlated_frame_id operation_id self;
  reject_if (negb (correlated =? frame_id))
    (UnexpectedMessage "server runtime event frame id does not match its operation").

Definition require_nonterminal_operation (operation_id : Z) (unknown_message terminal_message : string)
    (self : t) : RT unit :=
  operation ← ok_or (OperationRegistry.operation (operations self) operation_id)
    (UnexpectedMessage unknown_message);
  reject_if (OperationState.is_terminal (OperationRecord.state operation))
    (UnexpectedMessage terminal_message).

Definition require_trace_context_frame (frame_id : Z) (self : t) : RT unit :=
  if frame_id =? 0 then Ok tt
  else
    operation_id ← ok_or (frame_operations self !! frame_id)
      (UnexpectedMessage "server TRACE_CONTEXT references an unknown operation frame");
    require_nonterminal_operation operation_id
      "server TRACE_CONTEXT references an unknown operation"
      "server TRACE_CONTEXT references a terminal operation" self.

Definition operation_id_for_frame (frame_id : Z) (self : t) : RT Z :=
  ok_or (frame_operations self !! frame_id)
    (UnexpectedMessage "server frame id is not bound to an operation").

Definition ensure_pending_capacity (self : t) : RT unit :=
  reject_if (MAX_PENDING_SERVER_INPUTS <=? len (pending_inputs self))
    (UnexpectedMessage "server session exceeded the pending input limit").

Definition operation_state (operation_id : Z) (self : t) : RT OperationState.t :=
  record ← ok_or (OperationRegistry.operation (operations self) operation_id)
    (Protocol (UnknownOperation operation_id));
  Ok (OperationRecord.state record).

Definition operation_transition_required (operation_id : Z) (state : OperationState.t) (self : t)
    : RT bool :=
  current ← operation_state operation_id self;
  if OperationState.is_terminal current then Ok false
  else
    _ ← reject_if (negb (OperationState.can_transition_to current state))
          (Protocol (InvalidOperationTransition current state));
    Ok true.

Definition require_operation_transition (operation_id : Z) (state : OperationState.t) (self : t)
    : RT unit :=
  required ← operation_transition_required operation_id state self;
  if negb required then
    match OperationRegistry.operation (operations self) operation_id with
    | None => Panic
    | Some record => Err (Protocol (InvalidOperationTransition (OperationRecord.state record) state))
    end
  else Ok tt.

Definition require_operation_completion (operation_id : Z) (self : t) : RT unit :=
  current ← operation_state operation_id self;
  reject_if (OperationState.is_terminal current
             || (negb (bool_decide (current = OperationState.Accepted))
                 && negb (OperationState.can_transition_to current OperationState.Completed)))
    (Protocol (InvalidOperationTransition current OperationState.Completed)).

(** *** Queues and registry *)

Definition retain_pending_input (input : PendingServerInput.t) : Async t unit :=
  _ ← check ensure_pending_capacity;
  modify (fun self => set_pending_inputs self (pending_inputs self ++ [input])).

Definition push_lifecycle (event : OperationLifecycleEvent.t) (self : t) : t :=
  set_pending_inputs self
    (pending_inputs self ++ [PendingServerInput.Event (NnrpServerEvent.Lifecycle event)]).

Definition queue_lifecycle (operation_id : Z) (state : OperationState.t) : Async t unit :=
  _ ← check ensure_pending_capacity;
  event ← lift (protocol (OperationLifecycleEvent.new operation_id state));
  modify (push_lifecycle event).

(** [for operation_id in cancelled { self.queue_lifecycle(..)? }]. *)
Fixpoint queue_lifecycles (operation_ids : list Z) (state : OperationState.t) : Async t unit :=
  match operation_ids with
  | [] => mret tt
  | operation_id :: operation_ids =>
      _ ← queue_lifecycle operation_id state;
      queue_lifecycles operation_ids state
  end.

Definition update_registry_last_operation (operation_id : Z) (self : t) : t :=
  set_sessions self
    (alter (fun record => RuntimeSessionRecord.set_last_operation_id record
              (Z.max (RuntimeSessionRecord.last_operation_id record) operation_id))
       (session_id self) (sessions self)).

Definition remove_from_registry (self : t) : t :=
  match sessions self !! session_id self with
  | Some record =>
      if RuntimeSessionRecord.connection_nonce record =? connection_nonce self
      then set_sessions self (delete (session_id self) (sessions self)) else self
  | None => self
  end.

(** *** Reading an event

    One definition per arm of the match of [decode_server_event]. *)

Definition handle_frame_submit_packet (packet : RuntimePacket.t) : Async t DecodedSubmit.t :=
  let frame_id := packet_frame packet in
  _ ← lift (reject_if (negb (bool_decide (packet_type packet = MessageType.FrameSubmit)))
              (UnexpectedMessage "server expected FRAME_SUBMIT"));
  _ ← check (require_session_packet packet "server received submit for another session");
  _ ← lift (require_metadata_len packet FRAME_SUBMIT_METADATA_LEN
              "server received malformed FRAME_SUBMIT metadata length");
  metadata ← lift (protocol (FrameSubmitMetadata.parse (RuntimePacket.metadata packet)));
  let operation_id := FrameSubmitMetadata.operation_id metadata in
  _ ← check (fun self => reject_if (is_some (frame_operations self !! frame_id))
        (UnexpectedMessage "server received duplicate FRAME_SUBMIT frame id"));
  now ← current_unix_ms;
  reserved_deadline ←
    on_deadlines (PreSubmitDeadlineReservations.take_for_submit operation_id frame_id now);
  session_id ← gets session_id;
  _ ← on_operations (OperationRegistry.register (OperationDescriptor.new session_id operation_id));
  _ ← match reserved_deadline with
      | Some deadline =>
          _ ← on_operations (OperationRegistry.apply_scheduling_update session_id
                               MessageType.Deadline deadline);
          mret tt
      | None => mret tt
      end;
  _ ← modify (fun self => set_frames self (<[frame_id := operation_id]> (frame_operations self))
                            (<[operation_id := frame_id]> (operation_frames self)));
  _ ← modify (update_registry_last_operation operation_id);
  mret {| DecodedSubmit.operation_id := operation_id;
          DecodedSubmit.frame_id := frame_id;
          DecodedSubmit.metadata := metadata;
          DecodedSubmit.body := RuntimePacket.body packet |}.

Definition decode_frame_submit (packet : RuntimePacket.t) : Async t DecodedServerEvent.t :=
  submit ← handle_frame_submit_packet packet;
  mret (DecodedServerEvent.Submit submit).

(** [self.operations.cancel(..)] of one operation. *)
Definition cancel_operation (operation_id : Z) : Async t (list Z) :=
  session_id ← gets session_id;
  on_operations (OperationRegistry.cancel
    {| OperationCancelRequest.session_id := session_id;
       OperationCancelRequest.operation_id := operation_id;
       OperationCancelRequest.cancel_scope := CancelScope.Operation |}).

Definition decode_frame_cancel (packet : RuntimePacket.t) : Async t DecodedServerEvent.t :=
  _ ← check (require_session_packet packet "server received cancel for another session");
  _ ← lift (reject_if (negb (len (RuntimePacket.metadata packet) =? 0)
                       || negb (len (RuntimePacket.body packet) =? 0))
              (UnexpectedMessage "server received malformed FRAME_CANCEL lengths"));
  operation_id ← check (operation_id_for_frame (packet_frame packet));
  _ ← check ensure_pending_capacity;
  cancelled ← cancel_operation operation_id;
  _ ← queue_lifecycles cancelled OperationState.Cancelled;
  mret (DecodedServerEvent.FrameCancel (packet_frame packet)).

Definition decode_partial_result (packet : RuntimePacket.t) : Async t DecodedServerEvent.t :=
  _ ← check (require_session_packet packet "server received partial result for another session");
  _ ← lift (require_metadata_len packet PARTIAL_RESULT_METADATA_LEN
              "server received malformed PARTIAL_RESULT metadata length");
  metadata ← lift (protocol (PartialResultMetadata.parse (RuntimePacket.metadata packet)));
  _ ← lift (protocol (validate_partial_result_semantics metadata));
  _ ← lift (require_body_len (len (RuntimePacket.body packet))
              (PartialResultMetadata.body_bytes metadata)
              "server received PARTIAL_RESULT body length mismatch");
  _ ← check (require_operation_frame (PartialResultMetadata.operation_id metadata)
               (packet_frame packet));
  _ ← check (require_nonterminal_operation (PartialResultMetadata.operation_id metadata)
               "server received PARTIAL_RESULT for an unknown operation"
               "server received PARTIAL_RESULT for a terminal operation");
  mret (DecodedServerEvent.PartialResult metadata (RuntimePacket.body packet)).

Definition decode_progress (packet : RuntimePacket.t) : Async t DecodedServerEvent.t :=
  _ ← check (require_session_packet packet "server received progress for another session");
  _ ← lift (require_metadata_len packet PROGRESS_METADATA_LEN
              "server received malformed PROGRESS metadata length");
  metadata ← lift (protocol (ProgressMetadata.parse (RuntimePacket.metadata packet)));
  _ ← lift (protocol (validate_progress_semantics metadata));
  _ ← lift (require_body_len (len (RuntimePacket.body packet))
              (ProgressMetadata.body_bytes metadata)
              "server received PROGRESS body length mismatch");
  _ ← check (require_operation_frame (ProgressMetadata.operation_id metadata) (packet_frame packet));
  _ ← check (require_nonterminal_operation (ProgressMetadata.operation_id metadata)
               "server received PROGRESS for an unknown operation"
               "server received PROGRESS for a terminal operation");
  mret (DecodedServerEvent.Progress metadata (RuntimePacket.body packet)).

Definition decode_result_drop_reason (packet : RuntimePacket.t) : Async t DecodedServerEvent.t :=
  _ ← check (require_session_packet packet "server received drop reason for another session");
  _ ← lift (require_metadata_len packet RESULT_DROP_REASON_METADATA_LEN
              "server received malformed RESULT_DROP_REASON metadata length");
  metadata ← lift (protocol (ResultDropReasonMetadata.parse (RuntimePacket.metadata packet)));
  _ ← lift (protocol (validate_result_drop_reason_semantics metadata));
  _ ← lift (require_body_len (len (RuntimePacket.body packet))
              (ResultDropReasonMetadata.diagnostic_bytes metadata)
              "server received RESULT_DROP_REASON body length mismatch");
  _ ← check (require_operation_frame (ResultDropReasonMetadata.operation_id metadata)
               (packet_frame packet));
  mret (DecodedServerEvent.ResultDropReason metadata (RuntimePacket.body packet)).

(** The change of an operation that a CANCEL or an ABORT asks for. *)
Definition apply_control (message_type : MessageType.t) (operation_id : Z)
    : Async t OperationState.t :=
  match message_type with
  | MessageType.Cancel =>
      cancelled ← cancel_operation operation_id;
      _ ← lift (reject_if (bool_decide (cancelled = []))
                  (UnexpectedMessage "server cancel did not transition an active operation"));
      mret OperationState.Cancelled
  | MessageType.Abort =>
      _ ← on_operations (OperationRegistry.abort operation_id);
      mret OperationState.Failed
  | _ => lift Panic
  end.

Definition decode_control (packet : RuntimePacket.t) : Async t DecodedServerEvent.t :=
  _ ← check (require_session_packet packet "server received control for another session");
  _ ← lift (require_metadata_len packet CONTROL_REQUEST_METADATA_LEN
              "server received malformed runtime control lengths");
  metadata ← lift (protocol (ControlRequestMetadata.parse (RuntimePacket.metadata packet)));
  _ ← lift (protocol (validate_control_request_semantics (packet_type packet) metadata));
  _ ← lift (require_body_len (len (RuntimePacket.body packet))
              (ControlRequestMetadata.diagnostic_bytes metadata)
              "server received runtime control diagnostic body length mismatch");
  let operation_id := ControlRequestMetadata.operation_id metadata in
  _ ← check (require_operation_frame operation_id (packet_frame packet));
  _ ← (if negb (operation_id =? 0)
       then
         _ ← check ensure_pending_capacity;
         lifecycle_state ← apply_control (packet_type packet) operation_id;
         queue_lifecycle operation_id lifecycle_state
       else mret tt);
  mret (DecodedServerEvent.Control
          {| NnrpRuntimeControl.message_type := packet_type packet;
             NnrpRuntimeControl.metadata := metadata;
             NnrpRuntimeControl.body := RuntimePacket.body packet |}).

Definition decode_scheduling (packet : RuntimePacket.t) : Async t DecodedServerEvent.t :=
  _ ← check (require_session_packet packet "server received scheduling update for another session");
  _ ← lift (require_bodyless packet SCHEDULING_METADATA_LEN
              "server received malformed scheduling metadata length");
  metadata ← lift (protocol (SchedulingMetadata.parse (RuntimePacket.metadata packet)));
  _ ← lift (protocol (validate_scheduling_semantics (packet_type packet) metadata));
  let operation_id := SchedulingMetadata.operation_id metadata in
  known ← gets (fun self => operation_frames self !! operation_id);
  _ ← match known with
      | Some expected_frame_id =>
          _ ← lift (reject_if (negb (expected_frame_id =? packet_frame packet))
                (UnexpectedMessage "server runtime event frame id does not match its operation"));
          session_id ← gets session_id;
          _ ← on_operations (OperationRegistry.apply_scheduling_update session_id
                               (packet_type packet) metadata);
          mret tt
      | None =>
          if bool_decide (packet_type packet = MessageType.Deadline) then
            _ ← check (fun self => reject_if (is_some (frame_operations self !! packet_frame packet))
                  (UnexpectedMessage "server received pre-submit DEADLINE for a reused frame id"));
            now ← current_unix_ms;
            on_deadlines (PreSubmitDeadlineReservations.reserve (packet_frame packet) metadata now)
          else lift (Err (Protocol (UnknownOperation operation_id)))
      end;
  mret (DecodedServerEvent.Scheduling
          {| NnrpSchedulingUpdate.message_type := packet_type packet;
             NnrpSchedulingUpdate.metadata := metadata |}).

Definition decode_supersede (packet : RuntimePacket.t) : Async t DecodedServerEvent.t :=
  _ ← check (require_session_packet packet "server received supersede for another session");
  _ ← lift (require_metadata_len packet SUPERSEDE_METADATA_LEN
              "server received malformed SUPERSEDE metadata length");
  metadata ← lift (protocol (SupersedeMetadata.parse (RuntimePacket.metadata packet)));
  _ ← lift (require_body_len (len (RuntimePacket.body packet))
              (SupersedeMetadata.diagnostic_bytes metadata)
              "server received SUPERSEDE diagnostic body length mismatch");
  let old_operation_id := SupersedeMetadata.old_operation_id metadata in
  _ ← check (require_operation_frame old_operation_id (packet_frame packet));
  _ ← check ensure_pending_capacity;
  _ ← on_operations (OperationRegistry.transition old_operation_id OperationState.Superseded);
  _ ← queue_lifecycle old_operation_id OperationState.Superseded;
  mret (DecodedServerEvent.Supersede metadata (RuntimePacket.body packet)).

Definition decode_budget (packet : RuntimePacket.t) : Async t DecodedServerEvent.t :=
  _ ← check (require_session_packet packet "server received budget update for another session");
  _ ← lift (require_bodyless packet BUDGET_METADATA_LEN
              "server received malformed BUDGET_UPDATE lengths");
  metadata ← lift (protocol (BudgetMetadata.parse (RuntimePacket.metadata packet)));
  _ ← check (require_operation_frame (BudgetMetadata.operation_id metadata) (packet_frame packet));
  mret (DecodedServerEvent.Budget metadata).

Definition decode_flow_update (packet : RuntimePacket.t) : Async t DecodedServerEvent.t :=
  _ ← lift (require_bodyless packet FLOW_UPDATE_METADATA_LEN
              "server received malformed FLOW_UPDATE lengths");
  metadata ← lift (protocol (FlowUpdateMetadata.parse (RuntimePacket.metadata packet)));
  _ ← check (fun self => protocol (ConnectionLifecycle.validate_flow_update (lifecycle self)
               (RuntimePacket.header packet) metadata));
  mret (DecodedServerEvent.FlowUpdate metadata).

Definition decode_pressure (packet : RuntimePacket.t) : Async t DecodedServerEvent.t :=
  _ ← check (require_optional_session_packet packet
               "server received pressure update for another session");
  _ ← lift (require_bodyless packet PRESSURE_METADATA_LEN
              "server received malformed pressure metadata length");
  metadata ← lift (protocol (PressureMetadata.parse (RuntimePacket.metadata packet)));
  _ ← lift (protocol (validate_pressure_semantics (packet_type packet) metadata));
  _ ← on_pressure (RuntimePressureState.apply_inbound (packet_type packet) metadata);
  mret (DecodedServerEvent.Pressure
          {| NnrpPressureUpdate.message_type := packet_type packet;
             NnrpPressureUpdate.metadata := metadata |}).

Section decode.
Context `{Htarget : Target}.

Definition decode_capability (packet : RuntimePacket.t) : Async t DecodedServerEvent.t :=
  _ ← check (require_optional_session_packet packet
               "server received capability update for another session");
  _ ← lift (require_metadata_len packet CAPABILITY_METADATA_LEN
              "server received malformed capability metadata length");
  metadata ← lift (protocol (CapabilityMetadata.parse (RuntimePacket.metadata packet)));
  _ ← lift (require_body_len (len (RuntimePacket.body packet))
              (CapabilityMetadata.body_bytes metadata)
              "server received capability body length mismatch");
  _ ← lift (protocol (decode_registered_capability_tokens (RuntimePacket.body packet)
              (CapabilityMetadata.capability_count metadata) []));
  mret (DecodedServerEvent.Capability (packet_type packet) metadata (RuntimePacket.body packet)).

Definition decode_route_hint (packet : RuntimePacket.t) : Async t DecodedServerEvent.t :=
  _ ← check (require_optional_session_packet packet
               "server received route hint for another session");
  _ ← lift (require_metadata_len packet ROUTE_HINT_METADATA_LEN
              "server received malformed route hint metadata length");
  metadata ← lift (protocol (RouteHintMetadata.parse (RuntimePacket.metadata packet)));
  _ ← lift (require_body_len (len (RuntimePacket.body packet))
              (RouteHintMetadata.body_bytes metadata)
              "server received route hint body length mismatch");
  _ ← check (require_operation_frame (RouteHintMetadata.operation_id metadata)
               (packet_frame packet));
  mret (DecodedServerEvent.RouteHint (packet_type packet) metadata (RuntimePacket.body packet)).

Definition decode_trace_context (packet : RuntimePacket.t) : Async t DecodedServerEvent.t :=
  _ ← check (require_optional_session_packet packet
               "server received trace context for another session");
  _ ← lift (require_metadata_len packet TRACE_CONTEXT_METADATA_LEN
              "server received malformed TRACE_CONTEXT metadata length");
  metadata ← lift (protocol (TraceContextMetadata.parse (RuntimePacket.metadata packet)));
  _ ← lift (protocol (validate_trace_context_semantics metadata));
  _ ← check (require_trace_context_frame (packet_frame packet));
  let trace_id := CommonHeader.trace_id (RuntimePacket.header packet) in
  _ ← lift (reject_if (negb (trace_id =? 0) && negb (trace_id =? TraceContextMetadata.trace_id metadata))
              (UnexpectedMessage "server TRACE_CONTEXT header trace id does not match metadata"));
  _ ← lift (require_body_len (len (RuntimePacket.body packet))
              (TraceContextMetadata.body_bytes metadata)
              "server received TRACE_CONTEXT body length mismatch");
  mret (DecodedServerEvent.TraceContext (packet_frame packet) metadata (RuntimePacket.body packet)).

Definition decode_recoverable_error (packet : RuntimePacket.t) : Async t DecodedServerEvent.t :=
  _ ← check (require_optional_session_packet packet
               "server received recoverable error for another session");
  _ ← lift (require_metadata_len packet RECOVERABLE_ERROR_METADATA_LEN
              "server received malformed ERROR_RECOVERABLE metadata length");
  metadata ← lift (protocol (RecoverableErrorMetadata.parse (RuntimePacket.metadata packet)));
  _ ← lift (require_body_len (len (RuntimePacket.body packet))
              (RecoverableErrorMetadata.diagnostic_bytes metadata)
              "server received ERROR_RECOVERABLE diagnostic body length mismatch");
  mret (DecodedServerEvent.RecoverableError metadata (RuntimePacket.body packet)).

Definition decode_retry_after (packet : RuntimePacket.t) : Async t DecodedServerEvent.t :=
  _ ← check (require_optional_session_packet packet
               "server received retry-after for another session");
  _ ← lift (require_metadata_len packet RETRY_AFTER_METADATA_LEN
              "server received malformed RETRY_AFTER metadata length");
  metadata ← lift (protocol (RetryAfterMetadata.parse (RuntimePacket.metadata packet)));
  _ ← lift (require_body_len (len (RuntimePacket.body packet))
              (RetryAfterMetadata.diagnostic_bytes metadata)
              "server received RETRY_AFTER diagnostic body length mismatch");
  mret (DecodedServerEvent.RetryAfter metadata (RuntimePacket.body packet)).

Definition decode_object_declare (packet : RuntimePacket.t) : Async t DecodedServerEvent.t :=
  _ ← check (require_session_packet packet
               "server received object declaration for another session");
  _ ← lift (require_metadata_len packet OBJECT_DESCRIPTOR_METADATA_LEN
              "server received malformed OBJECT_DECLARE metadata length");
  metadata ← lift (protocol (ObjectDescriptorMetadata.parse (RuntimePacket.metadata packet)));
  _ ← lift (require_body_len (len (RuntimePacket.body packet))
              (ObjectDescriptorMetadata.metadata_bytes metadata)
              "server received OBJECT_DECLARE body length mismatch");
  mret (DecodedServerEvent.ObjectDeclare metadata (RuntimePacket.body packet)).

Definition decode_object_ref (packet : RuntimePacket.t) : Async t DecodedServerEvent.t :=
  _ ← check (require_session_packet packet "server received object reference for another session");
  _ ← lift (require_metadata_len packet OBJECT_REFERENCE_METADATA_LEN
              "server received malformed OBJECT_REF metadata length");
  metadata ← lift (protocol (ObjectReferenceMetadata.parse (RuntimePacket.metadata packet)));
  _ ← lift (require_body_len (len (RuntimePacket.body packet))
              (ObjectReferenceMetadata.metadata_bytes metadata)
              "server received OBJECT_REF body length mismatch");
  _ ← check (require_operation_frame (ObjectReferenceMetadata.operation_id metadata)
               (packet_frame packet));
  mret (DecodedServerEvent.ObjectRef metadata (RuntimePacket.body packet)).

Definition decode_object_release (packet : RuntimePacket.t) : Async t DecodedServerEvent.t :=
  _ ← check (require_session_packet packet "server received object release for another session");
  _ ← lift (require_metadata_len packet OBJECT_RELEASE_METADATA_LEN
              "server received malformed OBJECT_RELEASE metadata length");
  metadata ← lift (protocol (ObjectReleaseMetadata.parse (RuntimePacket.metadata packet)));
  _ ← lift (require_body_len (len (RuntimePacket.body packet))
              (ObjectReleaseMetadata.diagnostic_bytes metadata)
              "server received OBJECT_RELEASE body length mismatch");
  _ ← check (require_operation_frame (ObjectReleaseMetadata.operation_id metadata)
               (packet_frame packet));
  mret (DecodedServerEvent.ObjectRelease metadata (RuntimePacket.body packet)).

Definition decode_object_delta (packet : RuntimePacket.t) : Async t DecodedServerEvent.t :=
  _ ← check (require_session_packet packet "server received object delta for another session");
  _ ← lift (require_metadata_len packet OBJECT_DELTA_METADATA_LEN
              "server received malformed object delta metadata length");
  metadata ← lift (protocol (ObjectDeltaMetadata.parse (RuntimePacket.metadata packet)));
  _ ← lift (require_body_len (len (RuntimePacket.body packet))
              (saturating_add u32_max (ObjectDeltaMetadata.metadata_bytes metadata)
                 (ObjectDeltaMetadata.delta_bytes metadata))
              "server received object delta body length mismatch");
  mret (DecodedServerEvent.ObjectDelta (packet_type packet) metadata (RuntimePacket.body packet)).

Definition decode_cache_reference (packet : RuntimePacket.t) : Async t DecodedServerEvent.t :=
  _ ← check (require_session_packet packet "server received cache reference for another session");
  _ ← lift (require_metadata_len packet CACHE_REFERENCE_METADATA_LEN
              "server received malformed CACHE_REFERENCE metadata length");
  metadata ← lift (protocol (CacheReferenceMetadata.parse (RuntimePacket.metadata packet)));
  _ ← lift (require_body_len (len (RuntimePacket.body packet))
              (CacheReferenceMetadata.metadata_bytes metadata)
              "server received CACHE_REFERENCE body length mismatch");
  mret (DecodedServerEvent.CacheReference metadata (RuntimePacket.body packet)).

Definition decode_cache_miss (packet : RuntimePacket.t) : Async t DecodedServerEvent.t :=
  _ ← check (require_session_packet packet "server received cache miss for another session");
  _ ← lift (require_metadata_len packet CACHE_MISS_METADATA_LEN
              "server received malformed CACHE_MISS metadata length");
  metadata ← lift (protocol (CacheMissMetadata.parse (RuntimePacket.metadata packet)));
  _ ← lift (require_body_len (len (RuntimePacket.body packet))
              (CacheMissMetadata.diagnostic_bytes metadata)
              "server received CACHE_MISS diagnostic body length mismatch");
  mret (DecodedServerEvent.CacheMiss metadata (RuntimePacket.body packet)).

Definition decode_cache_invalidate (packet : RuntimePacket.t) : Async t DecodedServerEvent.t :=
  _ ← check (require_session_packet packet "server received cache invalidate for another session");
  _ ← lift (require_bodyless packet CACHE_INVALIDATE_METADATA_LEN
              "server received malformed CACHE_INVALIDATE lengths");
  metadata ← lift (protocol (CacheInvalidateMetadata.parse (RuntimePacket.metadata packet)));
  mret (DecodedServerEvent.CacheInvalidate metadata).

Definition decode_session_close (packet : RuntimePacket.t) : Async t DecodedServerEvent.t :=
  _ ← check (require_session_packet packet "server received close for another session");
  metadata ← lift (protocol (SessionCloseMetadata.parse (RuntimePacket.metadata packet)));
  _ ← on_lifecycle (ConnectionLifecycle.begin_session_close (RuntimePacket.header packet) metadata);
  _ ← modify (fun self => set_pending_close self (Some metadata));
  mret (DecodedServerEvent.Close metadata).

Definition decode_packet (packet : RuntimePacket.t) : Async t DecodedServerEvent.t :=
  match packet_type packet with
  | MessageType.FrameSubmit => decode_frame_submit packet
  | MessageType.FrameCancel => decode_frame_cancel packet
  | MessageType.PartialResult => decode_partial_result packet
  | MessageType.Progress => decode_progress packet
  | MessageType.ResultDropReason => decode_result_drop_reason packet
  | MessageType.Cancel | MessageType.Abort => decode_control packet
  | MessageType.PriorityUpdate | MessageType.Deadline | MessageType.ExpireAt =>
      decode_scheduling packet
  | MessageType.Supersede => decode_supersede packet
  | MessageType.BudgetUpdate => decode_budget packet
  | MessageType.FlowUpdate => decode_flow_update packet
  | MessageType.Backpressure | MessageType.CreditUpdate => decode_pressure packet
  | MessageType.CapabilityNegotiation | MessageType.DegradeProfile => decode_capability packet
  | MessageType.RouteHint | MessageType.ExecutionHint => decode_route_hint packet
  | MessageType.TraceContext => decode_trace_context packet
  | MessageType.ErrorRecoverable => decode_recoverable_error packet
  | MessageType.RetryAfter => decode_retry_after packet
  | MessageType.ObjectDeclare => decode_object_declare packet
  | MessageType.ObjectRef => decode_object_ref packet
  | MessageType.ObjectRelease => decode_object_release packet
  | MessageType.ObjectPatch | MessageType.ObjectDelta => decode_object_delta packet
  | MessageType.CacheReference => decode_cache_reference packet
  | MessageType.CacheMiss => decode_cache_miss packet
  | MessageType.CacheInvalidate => decode_cache_invalidate packet
  | MessageType.SessionClose => decode_session_close packet
  | _ => lift (unexpected "server expected a submit, control, object, cache, or close event")
  end.

Definition decode_server_event (packet : RuntimePacket.t) : Async t NnrpServerEvent.t :=
  decoded ← decode_packet packet;
  event ← lift (from_server (wire_header packet) decoded);
  if bool_decide (RuntimeFrameHeader.message_type (NnrpRuntimeEvent.header event)
                  = MessageType.FrameSubmit)
  then
    operation ← lift (NnrpServerOperation.new event);
    mret (NnrpServerEvent.Submit operation)
  else mret (NnrpServerEvent.Runtime event).

(** *** Receiving *)

Definition read_next_input : Async t PendingServerInput.t :=
  packet ← read_packet;
  now ← current_unix_ms;
  _ ← check (fun self => PreSubmitDeadlineReservations.reject_expired (pre_submit_deadlines self) now);
  if is_dedicated_role_message (packet_type packet)
  then mret (PendingServerInput.RolePacket packet)
  else
    event ← decode_server_event packet;
    mret (PendingServerInput.Event event).

(** A SESSION_CLOSE event. *)
Definition is_close (event : NnrpRuntimeEvent.t) : bool :=
  bool_decide (RuntimeFrameHeader.message_type (NnrpRuntimeEvent.header event)
               = MessageType.SessionClose).

Definition closed_while_waiting {A} : RT A :=
  unexpected "server session closed while waiting for FRAME_SUBMIT".

(** The search of [receive_submit] through the queue: the first submit that no close
    precedes, and the queue without it. *)
Fixpoint find_submit (inputs : list PendingServerInput.t)
    : option (RT (NnrpServerOperation.t * list PendingServerInput.t)) :=
  match inputs with
  | [] => None
  | PendingServerInput.Event (NnrpServerEvent.Submit operation) :: rest => Some (Ok (operation, rest))
  | input :: rest =>
      if match input with
         | PendingServerInput.Event (NnrpServerEvent.Runtime event) => is_close event
         | _ => false
         end
      then Some closed_while_waiting
      else
        match find_submit rest with
        | Some (Ok (operation, rest)) => Some (Ok (operation, input :: rest))
        | r => r
        end
  end.

(** The loop of [receive_submit]: each turn reads a packet, so the reads to come bound it. *)
Fixpoint await_submit (reads : list (RT RuntimePacket.t)) : Async t NnrpServerOperation.t :=
  input ← read_next_input;
  match reads with
  | [] => lift Panic
  | _ :: reads =>
      match input with
      | PendingServerInput.Event (NnrpServerEvent.Submit operation) => mret operation
      | input =>
          _ ← retain_pending_input input;
          if match input with
             | PendingServerInput.Event (NnrpServerEvent.Runtime event) => is_close event
             | _ => false
             end
          then lift closed_while_waiting
          else await_submit reads
      end
  end.

(** The results that are still to be read. *)
Definition reads_left (self : t) : list (RT RuntimePacket.t) :=
  FramedTransport.reads (transport self).

Definition receive_submit : Async t NnrpServerOperation.t :=
  inputs ← gets pending_inputs;
  match find_submit inputs with
  | Some found =>
      '(operation, rest) ← lift found;
      _ ← modify (fun self => set_pending_inputs self rest);
      mret operation
  | None =>
      reads ← gets reads_left;
      await_submit reads
  end.

Definition await_event : Async t NnrpServerEvent.t :=
  inputs ← gets pending_inputs;
  match inputs with
  | PendingServerInput.Event event :: rest =>
      _ ← modify (fun self => set_pending_inputs self rest);
      mret event
  | PendingServerInput.RolePacket _ :: _ =>
      lift (unexpected "server event pump is blocked by a dedicated role message")
  | [] =>
      input ← read_next_input;
      match input with
      | PendingServerInput.Event event => mret event
      | PendingServerInput.RolePacket _ =>
          _ ← retain_pending_input input;
          lift (unexpected "server event pump received a dedicated role message")
      end
  end.

Definition is_lifecycle (input : PendingServerInput.t) : bool :=
  match input with
  | PendingServerInput.Event (NnrpServerEvent.Lifecycle _) => true
  | _ => false
  end.

(** The first input that is not a lifecycle event, and the queue without it. *)
Fixpoint split_specialized (inputs : list PendingServerInput.t)
    : option (PendingServerInput.t * list PendingServerInput.t) :=
  match inputs with
  | [] => None
  | input :: rest =>
      if is_lifecycle input then
        match split_specialized rest with
        | Some (found, rest) => Some (found, input :: rest)
        | None => None
        end
      else Some (input, rest)
  end.

Definition take_pending_specialized_input : Async t (option PendingServerInput.t) := fun self =>
  match split_specialized (pending_inputs self) with
  | Some (found, rest) => (Ready (Ok (Some found)), set_pending_inputs self rest)
  | None => (Ready (Ok None), self)
  end.

(** The start of the receivers that look at the queue first. *)
Definition next_specialized_input : Async t PendingServerInput.t :=
  pending ← take_pending_specialized_input;
  match pending with
  | Some input => mret input
  | None => read_next_input
  end.

(** [self.pending_inputs.push_front(input); return Err(..)]. *)
Definition put_back {A} (input : PendingServerInput.t) (error : string) : Async t A :=
  _ ← modify (fun self => set_pending_inputs self (input :: pending_inputs self));
  lift (unexpected error).

(** The receivers of runtime events differ in the types that they accept. *)
Definition receive_event_matching (accepts : MessageType.t -> bool) (error : string)
    : Async t NnrpRuntimeEvent.t :=
  input ← next_specialized_input;
  match input with
  | PendingServerInput.Event (NnrpServerEvent.Runtime event) =>
      if accepts (RuntimeFrameHeader.message_type (NnrpRuntimeEvent.header event))
      then mret event else put_back input error
  | input => put_back input error
  end.

Definition receive_runtime_event (expected : MessageType.t) (error : string)
    : Async t NnrpRuntimeEvent.t :=
  receive_event_matching (fun message_type => bool_decide (message_type = expected)) error.

Definition receive_role_packet (expected : MessageType.t) (error : string) : Async t RuntimePacket.t :=
  input ← next_specialized_input;
  match input with
  | PendingServerInput.RolePacket packet =>
      if bool_decide (packet_type packet = expected) then mret packet else put_back input error
  | input => put_back input error
  end.

Definition receive_cancel : Async t Z :=
  event ← receive_runtime_event MessageType.FrameCancel "server expected FRAME_CANCEL";
  mret (RuntimeFrameHeader.frame_id (NnrpRuntimeEvent.header event)).

Definition is_control (message_type : MessageType.t) : bool :=
  match message_type with MessageType.Cancel | MessageType.Abort => true | _ => false end.

Definition is_scheduling (message_type : MessageType.t) : bool :=
  match message_type with
  | MessageType.PriorityUpdate | MessageType.Deadline | MessageType.ExpireAt => true
  | _ => false
  end.

Definition is_pressure (message_type : MessageType.t) : bool :=
  match message_type with MessageType.Backpressure | MessageType.CreditUpdate => true | _ => false end.

Definition receive_runtime_control : Async t NnrpRuntimeControl.t :=
  event ← receive_event_matching is_control "server expected CANCEL or ABORT";
  match NnrpRuntimeEvent.metadata event, NnrpRuntimeEvent.tail event with
  | NnrpRuntimeEventMetadata.ControlRequest metadata, NnrpRuntimeEventTail.Diagnostic body =>
      mret {| NnrpRuntimeControl.message_type :=
                RuntimeFrameHeader.message_type (NnrpRuntimeEvent.header event);
              NnrpRuntimeControl.metadata := metadata;
              NnrpRuntimeControl.body := body |}
  | _, _ => lift Panic
  end.

Definition receive_scheduling_update : Async t NnrpSchedulingUpdate.t :=
  event ← receive_event_matching is_scheduling
            "server expected PRIORITY_UPDATE, DEADLINE, or EXPIRE_AT";
  match NnrpRuntimeEvent.metadata event with
  | NnrpRuntimeEventMetadata.Scheduling metadata =>
      mret {| NnrpSchedulingUpdate.message_type :=
                RuntimeFrameHeader.message_type (NnrpRuntimeEvent.header event);
              NnrpSchedulingUpdate.metadata := metadata |}
  | _ => lift Panic
  end.

Definition receive_pressure_update : Async t NnrpPressureUpdate.t :=
  event ← receive_event_matching is_pressure "server expected BACKPRESSURE or CREDIT_UPDATE";
  match NnrpRuntimeEvent.metadata event with
  | NnrpRuntimeEventMetadata.Pressure metadata =>
      mret {| NnrpPressureUpdate.message_type :=
                RuntimeFrameHeader.message_type (NnrpRuntimeEvent.header event);
              NnrpPressureUpdate.metadata := metadata |}
  | _ => lift Panic
  end.

Definition receive_close : Async t SessionCloseMetadata.t :=
  event ← receive_runtime_event MessageType.SessionClose "server expected SESSION_CLOSE";
  match NnrpRuntimeEvent.metadata event with
  | NnrpRuntimeEventMetadata.SessionClose close => mret close
  | _ => lift Panic
  end.

(** *** Cache objects *)

Definition track_cache_object (object_id : CacheObjectId.t) : Async t unit := fun self =>
  if bool_decide (object_id ∈ cache_objects self) then (Ready (Ok tt), self)
  else if negb (max_cache_objects self =? 0) && (max_cache_objects self <=? len (cache_objects self))
  then (Ready (unexpected "server cache object limit reached"), self)
  else (Ready (Ok tt), set_cache_objects self (cache_objects self ++ [object_id])).

Definition validate_cache_put (metadata : CachePutMetadata.t) (self : t) : RT unit :=
  _ ← reject_if (negb (bool_decide (CachePutMetadata.object_kind metadata ∈ supported_cache_objects self)))
        (UnexpectedMessage "CACHE_PUT object kind was not negotiated in CLIENT_HELLO");
  reject_if (negb (max_cache_object_bytes self =? 0)
             && (max_cache_object_bytes self <? CachePutMetadata.object_bytes metadata))
    (UnexpectedMessage "CACHE_PUT object exceeds the negotiated byte limit").

Definition receive_cache_put : Async t (CachePutMetadata.t * bytes) :=
  packet ← receive_role_packet MessageType.CachePut "server expected CACHE_PUT";
  _ ← check (require_session_packet packet "server received cache put for another session");
  _ ← lift (require_metadata_len packet CACHE_PUT_METADATA_LEN
              "server expected a well-formed CACHE_PUT");
  metadata ← lift (protocol (CachePutMetadata.parse (RuntimePacket.metadata packet)));
  _ ← check (validate_cache_put metadata);
  _ ← lift (require_body_len (len (RuntimePacket.body packet))
              (CachePutMetadata.object_bytes metadata)
              "server received CACHE_PUT body length mismatch");
  _ ← track_cache_object (CacheObjectId.from_put metadata);
  mret (metadata, RuntimePacket.body packet).

Definition receive_cache_ack : Async t CacheAckMetadata.t :=
  packet ← receive_role_packet MessageType.CacheAck "server expected CACHE_ACK";
  _ ← check (require_session_packet packet "server received cache ack for another session");
  _ ← lift (require_bodyless packet CACHE_ACK_METADATA_LEN "server expected a well-formed CACHE_ACK");
  lift (protocol (CacheAckMetadata.parse (RuntimePacket.metadata packet))).

Definition receive_empty_role_message (expected : MessageType.t) (error : string) : Async t unit :=
  packet ← receive_role_packet expected error;
  _ ← check (require_session_packet packet error);
  lift (reject_if (negb (len (RuntimePacket.metadata packet) =? 0)
                   || negb (len (RuntimePacket.body packet) =? 0)) (UnexpectedMessage error)).

Definition receive_ping : Async t unit :=
  receive_empty_role_message MessageType.Ping "server expected PING".
Definition receive_pong : Async t unit :=
  receive_empty_role_message MessageType.Pong "server expected PONG".

Definition receive_patch : Async t SessionPatchMetadata.t :=
  packet ← receive_role_packet MessageType.SessionPatch "server expected SESSION_PATCH";
  _ ← check (require_session_packet packet "server received patch for another session");
  _ ← lift (require_metadata_len packet SESSION_PATCH_METADATA_LEN
              "server received malformed SESSION_PATCH metadata length");
  lift (protocol (SessionPatchMetadata.parse (RuntimePacket.metadata packet))).

Definition receive_migrate : Async t SessionMigrateMetadata.t :=
  packet ← receive_role_packet MessageType.SessionMigrate "server expected SESSION_MIGRATE";
  _ ← check (require_session_packet packet "server received migrate for another session");
  _ ← lift (require_metadata_len packet SESSION_MIGRATE_METADATA_LEN
              "server received malformed SESSION_MIGRATE metadata length");
  lift (protocol (SessionMigrateMetadata.parse (RuntimePacket.metadata packet))).

(** *** Sending *)

(** [self.transport.write_packet(&RuntimePacket::new(header, metadata, body)?).await]. *)
Definition write_parts (header : CommonHeader.t) (metadata : R bytes) (body : bytes) : Async t unit :=
  metadata ← lift (protocol metadata);
  packet ← lift (protocol (RuntimePacket.new header metadata body));
  write_packet packet.

(** The header of the senders that build it themselves, addressed to this session. *)
Definition send_as (message_type : MessageType.t) (metadata_len : nat) (frame_id : Z)
    (metadata : R bytes) (body : bytes) : Async t unit :=
  session_id ← gets session_id;
  write_parts
    (address (CommonHeader.new message_type (Z.of_nat metadata_len) (as_u32 (len body)))
       session_id frame_id) metadata body.

Definition write_runtime_packet (message_type : MessageType.t) (frame_id : Z) (metadata body : bytes)
    : Async t unit :=
  session_id ← gets session_id;
  let header := address (CommonHeader.new message_type (as_u32 (len metadata)) (as_u32 (len body)))
                  session_id frame_id in
  packet ← lift (protocol (RuntimePacket.new header metadata body));
  write_packet packet.

(** [write_runtime_packet] with metadata still to be encoded. *)
Definition send (message_type : MessageType.t) (frame_id : Z) (metadata : R bytes) (body : bytes)
    : Async t unit :=
  metadata ← lift (protocol metadata);
  write_runtime_packet message_type frame_id metadata body.

Definition write_result_drop_reason (metadata : ResultDropReasonMetadata.t) (diagnostics : bytes)
    : Async t unit :=
  frame_id ← check (correlated_frame_id (ResultDropReasonMetadata.operation_id metadata));
  send_as MessageType.ResultDropReason RESULT_DROP_REASON_METADATA_LEN frame_id
    (ResultDropReasonMetadata.to_bytes metadata) diagnostics.

(** The notice of an operation whose result came too late. *)
Definition expired_drop_reason (operation_id : Z) (schedule : OperationSchedule.t)
    : ResultDropReasonMetadata.t :=
  {| ResultDropReasonMetadata.operation_id := operation_id;
     ResultDropReasonMetadata.result_sequence := OperationSchedule.update_sequence schedule;
     ResultDropReasonMetadata.drop_reason_code := RESULT_DROP_REASON_DEADLINE_EXPIRED;
     ResultDropReasonMetadata.source_role := RuntimeRole.repr RuntimeRole.Server;
     ResultDropReasonMetadata.flags := 0;
     ResultDropReasonMetadata.diagnostic_bytes := 0 |}.

Definition send_expired (operation_id : Z) (schedule : OperationSchedule.t) : Async t unit :=
  _ ← check ensure_pending_capacity;
  _ ← (if negb (Z.land (OperationSchedule.flags schedule) SCHEDULING_FLAG_EMIT_DROP_REASON =? 0)
       then write_result_drop_reason (expired_drop_reason operation_id schedule) []
       else mret tt);
  _ ← queue_lifecycle operation_id OperationState.Superseded;
  lift (Err (Protocol (InvalidOperationTransition OperationState.Superseded OperationState.Completed))).

Definition send_completed (frame_id operation_id : Z) (metadata : ResultPushMetadata.t) (body : bytes)
    : Async t unit :=
  _ ← check ensure_pending_capacity;
  _ ← check (require_operation_completion operation_id);
  _ ← send_as MessageType.ResultPush RESULT_PUSH_METADATA_LEN frame_id
        (ResultPushMetadata.to_bytes metadata) body;
  _ ← on_operations (OperationRegistry.complete operation_id);
  event ← lift (protocol (OperationLifecycleEvent.new operation_id OperationState.Completed));
  modify (push_lifecycle event).

Definition send_operation_result_for_binding (frame_id : Z) (metadata : ResultPushMetadata.t)
    (body : bytes) : Async t unit :=
  operation_id ← check (operation_id_for_frame frame_id);
  now ← current_unix_ms;
  stale ← on_operations (OperationRegistry.expire_if_stale operation_id now);
  match stale with
  | Some schedule => send_expired operation_id schedule
  | None => send_completed frame_id operation_id metadata body
  end.

Definition send_operation_partial_result_for_binding (metadata : PartialResultMetadata.t) (body : bytes)
    : Async t unit :=
  _ ← lift (protocol (validate_partial_result_semantics metadata));
  _ ← lift (require_body_len (PartialResultMetadata.body_bytes metadata) (len body)
              "server PARTIAL_RESULT body length mismatch");
  _ ← check (require_nonterminal_operation (PartialResultMetadata.operation_id metadata)
               "server PARTIAL_RESULT references an unknown operation"
               "server PARTIAL_RESULT references a terminal operation");
  frame_id ← check (correlated_frame_id (PartialResultMetadata.operation_id metadata));
  send_as MessageType.PartialResult PARTIAL_RESULT_METADATA_LEN frame_id
    (PartialResultMetadata.to_bytes metadata) body.

Definition send_operation_progress_for_binding (metadata : ProgressMetadata.t) (body : bytes)
    : Async t unit :=
  _ ← lift (protocol (validate_progress_semantics metadata));
  _ ← lift (require_body_len (ProgressMetadata.body_bytes metadata) (len body)
              "server PROGRESS body length mismatch");
  _ ← check (require_nonterminal_operation (ProgressMetadata.operation_id metadata)
               "server PROGRESS references an unknown operation"
               "server PROGRESS references a terminal operation");
  frame_id ← check (correlated_frame_id (ProgressMetadata.operation_id metadata));
  send_as MessageType.Progress PROGRESS_METADATA_LEN frame_id
    (ProgressMetadata.to_bytes metadata) body.

Definition send_operation_result_drop_for_binding (metadata : ResultDropReasonMetadata.t)
    (diagnostics : bytes) : Async t unit :=
  let operation_id := ResultDropReasonMetadata.operation_id metadata in
  _ ← lift (protocol (validate_result_drop_reason_semantics metadata));
  _ ← lift (require_body_len (len diagnostics) (ResultDropReasonMetadata.diagnostic_bytes metadata)
              "server RESULT_DROP_REASON diagnostic body length mismatch");
  transition ← check (operation_transition_required operation_id OperationState.Superseded);
  _ ← (if (transition : bool) then check ensure_pending_capacity else mret tt);
  _ ← write_result_drop_reason metadata diagnostics;
  if (transition : bool) then
    _ ← on_operations (OperationRegistry.transition operation_id OperationState.Superseded);
    queue_lifecycle operation_id OperationState.Superseded
  else mret tt.

Definition send_control_request (message_type : MessageType.t) (metadata : ControlRequestMetadata.t)
    (diagnostics : bytes) : Async t unit :=
  let operation_id := ControlRequestMetadata.operation_id metadata in
  _ ← lift (protocol (validate_control_request_semantics message_type metadata));
  _ ← lift (require_body_len (len diagnostics) (ControlRequestMetadata.diagnostic_bytes metadata)
              "server runtime control diagnostic body length mismatch");
  frame_id ← check (correlated_frame_id operation_id);
  if operation_id =? 0
  then send message_type frame_id (ControlRequestMetadata.to_bytes metadata) diagnostics
  else
    state ← lift (control_state message_type);
    _ ← check (require_operation_transition operation_id state);
    _ ← check ensure_pending_capacity;
    _ ← send message_type frame_id (ControlRequestMetadata.to_bytes metadata) diagnostics;
    _ ← on_operations (OperationRegistry.transition operation_id state);
    queue_lifecycle operation_id state.

Definition send_scheduling_update (message_type : MessageType.t) (metadata : SchedulingMetadata.t)
    : Async t unit :=
  _ ← lift (protocol (validate_scheduling_semantics message_type metadata));
  frame_id ← check (correlated_frame_id (SchedulingMetadata.operation_id metadata));
  send message_type frame_id (SchedulingMetadata.to_bytes metadata) [].

Definition supersede_operation (metadata : SupersedeMetadata.t) (diagnostics : bytes) : Async t unit :=
  let old_operation_id := SupersedeMetadata.old_operation_id metadata in
  _ ← lift (require_body_len (len diagnostics) (SupersedeMetadata.diagnostic_bytes metadata)
              "server SUPERSEDE diagnostic body length mismatch");
  frame_id ← check (correlated_frame_id old_operation_id);
  _ ← check (require_operation_transition old_operation_id OperationState.Superseded);
  _ ← check ensure_pending_capacity;
  _ ← send MessageType.Supersede frame_id (SupersedeMetadata.to_bytes metadata) diagnostics;
  _ ← on_operations (OperationRegistry.transition old_operation_id OperationState.Superseded);
  queue_lifecycle old_operation_id OperationState.Superseded.

Definition update_budget (metadata : BudgetMetadata.t) : Async t unit :=
  frame_id ← check (correlated_frame_id (BudgetMetadata.operation_id metadata));
  send MessageType.BudgetUpdate frame_id (BudgetMetadata.to_bytes metadata) [].

Definition send_capability (message_type : MessageType.t) (metadata : CapabilityMetadata.t)
    (body : bytes) : Async t unit :=
  _ ← lift (match message_type with
            | MessageType.CapabilityNegotiation | MessageType.DegradeProfile => Ok tt
            | _ => unexpected
                "server capability send requires CAPABILITY_NEGOTIATION or DEGRADE_PROFILE"
            end);
  _ ← lift (require_body_len (len body) (CapabilityMetadata.body_bytes metadata)
              "server capability body length mismatch");
  _ ← lift (protocol (decode_registered_capability_tokens body
              (CapabilityMetadata.capability_count metadata) []));
  send_as message_type CAPABILITY_METADATA_LEN 0 (CapabilityMetadata.to_bytes metadata) body.

Definition send_route_hint (message_type : MessageType.t) (metadata : RouteHintMetadata.t)
    (body : bytes) : Async t unit :=
  _ ← lift (match message_type with
            | MessageType.RouteHint | MessageType.ExecutionHint => Ok tt
            | _ => unexpected "server route hint send requires ROUTE_HINT or EXECUTION_HINT"
            end);
  _ ← lift (require_body_len (len body) (RouteHintMetadata.body_bytes metadata)
              "server route hint body length mismatch");
  frame_id ← check (correlated_frame_id (RouteHintMetadata.operation_id metadata));
  send_as message_type ROUTE_HINT_METADATA_LEN frame_id (RouteHintMetadata.to_bytes metadata) body.

Definition send_object_declare (metadata : ObjectDescriptorMetadata.t) (body : bytes) : Async t unit :=
  _ ← lift (require_body_len (len body) (ObjectDescriptorMetadata.metadata_bytes metadata)
              "server OBJECT_DECLARE body length mismatch");
  send_as MessageType.ObjectDeclare OBJECT_DESCRIPTOR_METADATA_LEN 0
    (ObjectDescriptorMetadata.to_bytes metadata) body.

Definition send_object_ref (metadata : ObjectReferenceMetadata.t) (body : bytes) : Async t unit :=
  _ ← lift (require_body_len (len body) (ObjectReferenceMetadata.metadata_bytes metadata)
              "server OBJECT_REF body length mismatch");
  frame_id ← check (correlated_frame_id (ObjectReferenceMetadata.operation_id metadata));
  send_as MessageType.ObjectRef OBJECT_REFERENCE_METADATA_LEN frame_id
    (ObjectReferenceMetadata.to_bytes metadata) body.

Definition send_object_release (metadata : ObjectReleaseMetadata.t) (body : bytes) : Async t unit :=
  _ ← lift (require_body_len (len body) (ObjectReleaseMetadata.diagnostic_bytes metadata)
              "server OBJECT_RELEASE body length mismatch");
  frame_id ← check (correlated_frame_id (ObjectReleaseMetadata.operation_id metadata));
  send_as MessageType.ObjectRelease OBJECT_RELEASE_METADATA_LEN frame_id
    (ObjectReleaseMetadata.to_bytes metadata) body.

Definition send_object_delta (message_type : MessageType.t) (metadata : ObjectDeltaMetadata.t)
    (body : bytes) : Async t unit :=
  _ ← lift (match message_type with
            | MessageType.ObjectPatch | MessageType.ObjectDelta => Ok tt
            | _ => unexpected "server object delta send requires OBJECT_PATCH or OBJECT_DELTA"
            end);
  let expected_body_len :=
    saturating_add u32_max (ObjectDeltaMetadata.metadata_bytes metadata)
      (ObjectDeltaMetadata.delta_bytes metadata) in
  _ ← lift (require_body_len (len body) expected_body_len
              "server object delta body length mismatch");
  send_as message_type OBJECT_DELTA_METADATA_LEN 0 (ObjectDeltaMetadata.to_bytes metadata) body.

(** The object is counted before its body is checked. *)
Definition send_cache_put (metadata : CachePutMetadata.t) (body : bytes) : Async t unit :=
  _ ← check (validate_cache_put metadata);
  _ ← track_cache_object (CacheObjectId.from_put metadata);
  _ ← lift (require_body_len (len body) (CachePutMetadata.object_bytes metadata)
              "server CACHE_PUT body length mismatch");
  send_as MessageType.CachePut CACHE_PUT_METADATA_LEN 0 (CachePutMetadata.to_bytes metadata) body.

Definition send_cache_ack (metadata : CacheAckMetadata.t) : Async t unit :=
  send_as MessageType.CacheAck CACHE_ACK_METADATA_LEN 0 (CacheAckMetadata.to_bytes metadata) [].

Definition write_empty_role_message (message_type : MessageType.t) : Async t unit :=
  send_as message_type 0 0 (Ok []) [].

Definition send_ping : Async t unit := write_empty_role_message MessageType.Ping.
Definition send_pong : Async t unit := write_empty_role_message MessageType.Pong.

Definition send_cache_reference (metadata : CacheReferenceMetadata.t) (body : bytes) : Async t unit :=
  _ ← lift (require_body_len (len body) (CacheReferenceMetadata.metadata_bytes metadata)
              "server CACHE_REFERENCE body length mismatch");
  send_as MessageType.CacheReference CACHE_REFERENCE_METADATA_LEN 0
    (CacheReferenceMetadata.to_bytes metadata) body.

Definition send_cache_miss (metadata : CacheMissMetadata.t) (body : bytes) : Async t unit :=
  _ ← lift (require_body_len (len body) (CacheMissMetadata.diagnostic_bytes metadata)
              "server CACHE_MISS body length mismatch");
  send_as MessageType.CacheMiss CACHE_MISS_METADATA_LEN 0 (CacheMissMetadata.to_bytes metadata) body.

Definition send_cache_invalidate (metadata : CacheInvalidateMetadata.t) : Async t unit :=
  send_as MessageType.CacheInvalidate CACHE_INVALIDATE_METADATA_LEN 0
    (CacheInvalidateMetadata.to_bytes metadata) [].

Definition send_backpressure (metadata : PressureMetadata.t) : Async t unit :=
  _ ← lift (protocol (validate_pressure_semantics MessageType.Backpressure metadata));
  _ ← on_pressure (RuntimePressureState.apply_outbound MessageType.Backpressure metadata);
  send_as MessageType.Backpressure PRESSURE_METADATA_LEN 0 (PressureMetadata.to_bytes metadata) [].

Definition send_credit_update (metadata : PressureMetadata.t) : Async t unit :=
  _ ← lift (protocol (validate_pressure_semantics MessageType.CreditUpdate metadata));
  _ ← on_pressure (RuntimePressureState.apply_outbound MessageType.CreditUpdate metadata);
  send MessageType.CreditUpdate 0 (PressureMetadata.to_bytes metadata) [].

Definition send_trace_context (frame_id : Z) (metadata : TraceContextMetadata.t) (body : bytes)
    : Async t unit :=
  _ ← lift (protocol (validate_trace_context_semantics metadata));
  _ ← lift (require_body_len (len body) (TraceContextMetadata.body_bytes metadata)
              "server trace context body length mismatch");
  _ ← check (require_trace_context_frame frame_id);
  session_id ← gets session_id;
  let header := CommonHeader.new MessageType.TraceContext (Z.of_nat TRACE_CONTEXT_METADATA_LEN)
                  (as_u32 (len body)) in
  write_parts (set_trace (address header session_id frame_id) (TraceContextMetadata.trace_id metadata))
    (TraceContextMetadata.to_bytes metadata) body.

Definition send_recoverable_error (metadata : RecoverableErrorMetadata.t) (diagnostics : bytes)
    : Async t unit :=
  _ ← lift (require_body_len (len diagnostics) (RecoverableErrorMetadata.diagnostic_bytes metadata)
              "server recoverable error diagnostic body length mismatch");
  send MessageType.ErrorRecoverable (RecoverableErrorMetadata.related_frame_id metadata)
    (RecoverableErrorMetadata.to_bytes metadata) diagnostics.

Definition send_retry_after (metadata : RetryAfterMetadata.t) (diagnostics : bytes) : Async t unit :=
  _ ← lift (require_body_len (len diagnostics) (RetryAfterMetadata.diagnostic_bytes metadata)
              "server retry-after diagnostic body length mismatch");
  send MessageType.RetryAfter 0 (RetryAfterMetadata.to_bytes metadata) diagnostics.

Definition send_result_hint (metadata : ResultHintMetadata.t) : Async t unit :=
  send MessageType.ResultHint 0 (ResultHintMetadata.to_bytes metadata) [].

Definition send_patch_ack (ack : SessionPatchAckMetadata.t) : Async t unit :=
  session_id ← gets session_id;
  write_parts
    (address (CommonHeader.new MessageType.SessionPatchAck (Z.of_nat SESSION_PATCH_ACK_METADATA_LEN)
                (SessionPatchAckMetadata.profile_patch_ack_bytes ack)) session_id 0)
    (SessionPatchAckMetadata.to_bytes ack) [].

Definition send_flow_update (metadata : FlowUpdateMetadata.t) : Async t unit :=
  session_id ← gets session_id;
  let header := CommonHeader.new MessageType.FlowUpdate (Z.of_nat FLOW_UPDATE_METADATA_LEN) 0 in
  let header :=
    match FlowUpdateMetadata.scope_kind metadata with
    | FlowScopeKind.Connection => header
    | _ => address header session_id (CommonHeader.frame_id header)
    end in
  _ ← lift (protocol (FlowUpdateMetadata.validate_routing metadata header));
  write_parts header (FlowUpdateMetadata.to_bytes metadata) [].

Definition send_migrate_ack (request : SessionMigrateMetadata.t) (ack : SessionMigrateAckMetadata.t)
    : Async t unit :=
  _ ← lift (protocol (validate_migration_recovery request ack));
  send_as MessageType.SessionMigrateAck SESSION_MIGRATE_ACK_METADATA_LEN 0
    (SessionMigrateAckMetadata.to_bytes ack) [].

(** *** Closing *)

Definition ack_close (close : SessionCloseMetadata.t) : Async t unit :=
  session_id ← gets session_id;
  let ack := {| SessionCloseAckMetadata.close_status := SessionCloseStatus.Closed;
                SessionCloseAckMetadata.last_operation_id :=
                  SessionCloseMetadata.last_operation_id close;
                SessionCloseAckMetadata.session_error_code := SESSION_ERROR_NONE |} in
  let header := address (CommonHeader.new MessageType.SessionCloseAck
                           (Z.of_nat SESSION_CLOSE_ACK_METADATA_LEN) 0) session_id 0 in
  _ ← on_lifecycle (ConnectionLifecycle.apply_session_close_ack header ack);
  _ ← write_parts header (SessionCloseAckMetadata.to_bytes ack) [];
  modify (fun self => if bool_decide (pending_close self = Some close)
                      then set_pending_close self None else self).

(** [close] is [close_in_place] on a session that is given up. *)
Definition close_in_place : Async t unit :=
  pending ← gets pending_close;
  _ ← modify (fun self => set_pending_close self None);
  _ ← match pending with Some close => ack_close close | None => mret tt end;
  _ ← modify remove_from_registry;
  on_transport FramedTransport.close.

End decode.

(** *** The operation's own senders ([NnrpServerOperation]) *)

Section operation.
Context `{Htarget : Target} (operation : NnrpServerOperation.t).

Definition require_session (self : t) : RT unit :=
  let mismatch := UnexpectedMessage "server operation does not belong to this session" in
  _ ← reject_if (negb (RuntimeFrameHeader.session_id
                         (NnrpRuntimeEvent.header (NnrpServerOperation.submit operation))
                       =? session_id self)) mismatch;
  operation_id ← operation_id_for_frame (NnrpServerOperation.frame_id operation) self;
  reject_if (negb (operation_id =? NnrpServerOperation.operation_id operation)) mismatch.

Definition send_result (metadata : ResultPushMetadata.t) (body : bytes) : Async t unit :=
  _ ← check require_session;
  send_operation_result_for_binding (NnrpServerOperation.frame_id operation) metadata body.

Definition send_result_drop (metadata : ResultDropReasonMetadata.t) (diagnostic : bytes)
    : Async t unit :=
  _ ← check require_session;
  _ ← lift (NnrpServerOperation.require_operation_id operation
              (ResultDropReasonMetadata.operation_id metadata));
  send_operation_result_drop_for_binding metadata diagnostic.

Definition send_progress (metadata : ProgressMetadata.t) (body : bytes) : Async t unit :=
  _ ← check require_session;
  _ ← lift (NnrpServerOperation.require_operation_id operation (ProgressMetadata.operation_id metadata));
  send_operation_progress_for_binding metadata body.

Definition send_partial_result (metadata : PartialResultMetadata.t) (body : bytes) : Async t unit :=
  _ ← check require_session;
  _ ← lift (NnrpServerOperation.require_operation_id operation
              (PartialResultMetadata.operation_id metadata));
  send_operation_partial_result_for_binding metadata body.

End operation.
End NnrpServerSession.
