(* ===== verification/ServerOpen.v ===== *)
(** Serving a connection ([src/crates/nnrp-runtime/src/server.rs]): the server's side of the
    hello, the acceptance of sessions, the registry that all connections share, and the
    order in which the listeners are asked.

    The connection is seen from the server, as the client sees its own: the results that its
    calls will have, and what was written.  What the connections and the sessions of a server share
    is the registry.  A task holds its lock only in the sections that [choose_session],
    [insert_session] and [mark_*] describe, and before each of them other tasks may have changed
    it: [others] says how. *)

From S2P Require Import Prelude Bytes Errors Enums Wire Header Session Flow Control Codes.
From S2P Require Import Lifecycle Capability RuntimeControl Operation Recovery Negotiation.
From S2P Require Import Transport Route RuntimeError Packet Async Stream Pressure PreSubmit Object.
From S2P Require Import Cache Data Schema Event Client ClientOpen Server.

Local Open Scope Z_scope.
Import NnrpClientSession(packet_type, address, as_u32).

(** ** The registry *)

(** The loop over the allocated ids, which come in ascending order. *)
Fixpoint first_available (candidate : Z) (allocated_ids : list Z) : option Z :=
  match allocated_ids with
  | [] => Some candidate
  | allocated_id :: allocated_ids =>
      if allocated_id <? candidate then first_available candidate allocated_ids
      else if candidate <? allocated_id then Some candidate
      else
        match checked_add u32_max candidate 1 with
        | None => None
        | Some candidate => first_available candidate allocated_ids
        end
  end.

Definition first_available_session_id (allocated_ids : list Z) : option Z :=
  first_available 1 allocated_ids.

(** [registry.keys()], in ascending order. *)
Definition session_keys (registry : SessionRegistry) : list Z :=
  merge_sort Z.le (map_to_list registry).*1.

(** The bytes are compared without an early exit. *)
Definition constant_time_eq (left right : bytes) : bool :=
  if negb (length left =? length right)%nat then false
  else
    foldl (fun difference pair => Z.lor difference (Z.lxor (Z_of_byte pair.1) (Z_of_byte pair.2)))
      0 (zip left right) =? 0.

(** [registry.retain(|_, record| record.active || record.resume_expires_at_ms >= now_ms)]. *)
Definition retained (now_ms : Z) (entry : Z * RuntimeSessionRecord.t) : Prop :=
  RuntimeSessionRecord.active entry.2 = true \/
  now_ms <= RuntimeSessionRecord.resume_expires_at_ms entry.2.

#[export] Instance retained_dec now_ms entry : Decision (retained now_ms entry).
Proof. unfold retained. apply _. Defined.

Module SessionChoice.
Record t := mk {
  session_id : Z;
  recovery_error : option Z;
  prior_last_operation_id : Z
}.
End SessionChoice.

(** A record that this token resumes. *)
Definition resumable (record : RuntimeSessionRecord.t) (token : bytes) (now_ms : Z) : bool :=
  RuntimeSessionRecord.resume_enabled record && negb (RuntimeSessionRecord.active record)
  && (now_ms <=? RuntimeSessionRecord.resume_expires_at_ms record)
  && constant_time_eq (RuntimeSessionRecord.resume_token record) token.

(** The first section that holds the registry. *)
Definition choose_session (open : SessionOpenMetadata.t) (token : bytes) (now_ms : Z)
    (registry : SessionRegistry) : SessionChoice.t * SessionRegistry :=
  let registry := filter (retained now_ms) registry in
  let requested := SessionOpenMetadata.requested_session_id open in
  (if 0 <? SessionOpenMetadata.resume_token_bytes open then
     match registry !! requested with
     | Some record =>
         if resumable record token now_ms
         then SessionChoice.mk requested None (RuntimeSessionRecord.last_operation_id record)
         else SessionChoice.mk 0 (Some SESSION_ERROR_RESUME_REJECTED) 0
     | None => SessionChoice.mk 0 (Some SESSION_ERROR_RESUME_REJECTED) 0
     end
   else if negb (requested =? 0) then
     if is_some (registry !! requested)
     then SessionChoice.mk 0 (Some SESSION_ERROR_LIMIT_REACHED) 0
     else SessionChoice.mk requested None 0
   else SessionChoice.mk (default 0 (first_available_session_id (session_keys registry))) None 0,
   registry).

(** [if session_id == 0 && recovery_error.is_none() { recovery_error = .. }]. *)
Definition recovery_error (choice : SessionChoice.t) : option Z :=
  match SessionChoice.recovery_error choice with
  | Some code => Some code
  | None => if SessionChoice.session_id choice =? 0 then Some SESSION_ERROR_LIMIT_REACHED else None
  end.

Definition mark_inactive (connection_nonce : Z) (registry : SessionRegistry) (session_id : Z)
    : SessionRegistry :=
  match registry !! session_id with
  | Some record =>
      if RuntimeSessionRecord.connection_nonce record =? connection_nonce
      then if RuntimeSessionRecord.resume_enabled record
           then <[session_id := RuntimeSessionRecord.set_inactive record]> registry
           else delete session_id registry
      else registry
  | None => registry
  end.

Definition mark_connection_sessions_inactive (connection_nonce : Z) (session_ids : gset Z)
    (registry : SessionRegistry) : SessionRegistry :=
  foldl (mark_inactive connection_nonce) registry (merge_sort Z.le (elements session_ids)).

Definition mark_session_inactive (session_id connection_nonce : Z) (registry : SessionRegistry)
    : SessionRegistry :=
  mark_inactive connection_nonce registry session_id.

(** ** The connection *)

Definition profile_bitmap (profiles : list Z) : RT Z :=
  try_fold (fun bitmap profile_id =>
    bit ← ok_or (if 1 <=? profile_id then Some (profile_id - 1) else None)
            (UnexpectedMessage "profile id cannot map to CLIENT_HELLO bitmap");
    mask ← ok_or (if bit <? 32 then Some (Z.shiftl 1 bit) else None)
             (UnexpectedMessage "profile id exceeds CLIENT_HELLO bitmap");
    Ok (Z.lor bitmap mask)) 0 profiles.

Module ServerConnection.

(** [clock] and [clock_us] hold the times that [current_unix_ms] and [unix_time_us] will
    return, [random] what [getrandom::fill] will do to a buffer of a given length (it fails beyond
    the list), and
    [closes] the results of closing the connection.  [others] holds what other tasks do to the
    registry before each of the sections in which this one holds it.  [accepted_sessions] are the sessions
    sent to the application, which listens while [listening]. *)
Record t := mk {
  connection : MultiplexedConnection.t;
  closes : list (RT unit);
  sessions : SessionRegistry;
  accepted_sessions : list NnrpServerSession.t;
  listening : bool;
  clock : list Z;
  clock_us : list Z;
  random : list (nat -> option bytes);
  others : list (SessionRegistry -> SessionRegistry)
}.

Definition set_connection (self : t) c : t :=
  mk c (closes self) (sessions self) (accepted_sessions self) (listening self) (clock self)
    (clock_us self) (random self) (others self).
Definition set_sessions (self : t) registry others : t :=
  mk (connection self) (closes self) registry (accepted_sessions self) (listening self)
    (clock self) (clock_us self) (random self) others.
Definition set_accepted (self : t) accepted : t :=
  mk (connection self) (closes self) (sessions self) accepted (listening self) (clock self)
    (clock_us self) (random self) (others self).

Definition on_connection {A} (m : Async MultiplexedConnection.t A) : Async t A := fun self =>
  let (r, c) := m (connection self) in (r, set_connection self c).

(** The registry as the next section finds it. *)
Definition met (self : t) : SessionRegistry :=
  match others self with [] => sessions self | other :: _ => other (sessions self) end.

(** A section that holds the registry. *)
Definition on_sessions {A} (f : SessionRegistry -> A * SessionRegistry) : Async t A := fun self =>
  let (a, registry) := f (met self) in
  (Ready (Ok a), set_sessions self registry (tail (others self))).

Definition close : Async t unit := fun self =>
  match closes self with
  | [] => (Pending, self)
  | r :: rest =>
      (Ready r, mk (connection self) rest (sessions self) (accepted_sessions self) (listening self)
                  (clock self) (clock_us self) (random self) (others self))
  end.

Definition current_unix_ms : Async t Z := fun self =>
  match clock self with
  | [] => (Ready (Ok 0), self)
  | now :: rest =>
      (Ready (Ok now), mk (connection self) (closes self) (sessions self) (accepted_sessions self)
                         (listening self) rest (clock_us self) (random self) (others self))
  end.

Definition unix_time_us : Async t Z := fun self =>
  match clock_us self with
  | [] => (Ready (Ok 0), self)
  | now :: rest =>
      (Ready (Ok now), mk (connection self) (closes self) (sessions self) (accepted_sessions self)
                         (listening self) (clock self) rest (random self) (others self))
  end.

(** [getrandom::fill] on a buffer of this length. *)
Definition fill (n : nat) : Async t bytes := fun self =>
  match random self with
  | [] => (Ready (Err (Internal "operating system random source failed")), self)
  | source :: rest =>
      (Ready (ok_or (source n) (Internal "operating system random source failed")),
       mk (connection self) (closes self) (sessions self) (accepted_sessions self) (listening self)
         (clock self) (clock_us self) rest (others self))
  end.

Section serve.
Context `{Htarget : Target}.

Definition write (header : CommonHeader.t) (metadata : R bytes) (body : bytes) : Async t unit :=
  metadata ← lift (protocol metadata);
  packet ← lift (protocol (RuntimePacket.new header metadata body));
  on_connection (MultiplexedConnection.write_packet packet).

Definition respond_to_connection_probe (packet : RuntimePacket.t) : Async t unit :=
  probe ← lift (protocol (TransportProbeMetadata.parse (RuntimePacket.metadata packet)));
  let declared := TransportProbeMetadata.probe_payload_bytes probe in
  _ ← lift (reject_if (negb (len (RuntimePacket.body packet) =? declared))
        (Protocol (DeclaredLengthMismatch "transport_probe.probe_payload_bytes" declared
                     (len (RuntimePacket.body packet)))));
  now ← unix_time_us;
  write (CommonHeader.new MessageType.TransportProbeAck 0 0)
    (TransportProbeAckMetadata.to_bytes
       {| TransportProbeAckMetadata.probe_id := TransportProbeMetadata.probe_id probe;
          TransportProbeAckMetadata.server_recv_ts_us := now |}) [].

(** *** The hello *)

(** Each turn reads a packet, so the packets to come bound the loop. *)
Fixpoint await_hello (controls : list (RT RuntimePacket.t)) : Async t RuntimePacket.t :=
  packet ← on_connection MultiplexedConnection.read_control_packet;
  match controls with
  | [] => lift Panic
  | _ :: controls =>
      if bool_decide (packet_type packet = MessageType.TransportProbe) then
        _ ← respond_to_connection_probe packet;
        await_hello controls
      else mret packet
  end.

Definition controls_left (self : t) : list (RT RuntimePacket.t) :=
  MultiplexedConnection.controls (connection self).

Definition hello_ack (config : NnrpServerConfig.t) (hello : ClientHelloMetadata.t)
    (accepted_profile_bitmap server_cache_objects : Z) : ServerHelloAckMetadata.t := {|
  ServerHelloAckMetadata.selected_version_major := CURRENT_VERSION_MAJOR;
  ServerHelloAckMetadata.selected_wire_format := CURRENT_WIRE_FORMAT;
  ServerHelloAckMetadata.auth_status := 0;
  ServerHelloAckMetadata.session_id := 0;
  ServerHelloAckMetadata.accepted_profile_bitmap := accepted_profile_bitmap;
  ServerHelloAckMetadata.accepted_payload_kind_bitmap :=
    ClientHelloMetadata.supported_payload_kind_bitmap hello;
  ServerHelloAckMetadata.accepted_codec_bitmap := ClientHelloMetadata.supported_codec_bitmap hello;
  ServerHelloAckMetadata.accepted_compression_bitmap :=
    ClientHelloMetadata.supported_compression_bitmap hello;
  ServerHelloAckMetadata.accepted_dtype_bitmap := ClientHelloMetadata.supported_dtype_bitmap hello;
  ServerHelloAckMetadata.accepted_layout_bitmap := ClientHelloMetadata.supported_layout_bitmap hello;
  ServerHelloAckMetadata.cache_digest_bitmap := ClientHelloMetadata.cache_digest_bitmap hello;
  ServerHelloAckMetadata.cache_object_bitmap :=
    Z.land (ClientHelloMetadata.cache_object_bitmap hello) server_cache_objects;
  ServerHelloAckMetadata.max_cache_entries := Z.min (NnrpServerConfig.max_cache_objects config) u32_max;
  ServerHelloAckMetadata.max_cache_bytes := NnrpServerConfig.max_cache_object_bytes config;
  ServerHelloAckMetadata.max_lane_count := Z.max (ClientHelloMetadata.max_lane_count hello) 1;
  ServerHelloAckMetadata.max_concurrent_frames := NnrpServerConfig.max_in_flight_operations config;
  ServerHelloAckMetadata.target_cadence_x100 := ClientHelloMetadata.target_cadence_x100 hello;
  ServerHelloAckMetadata.latency_budget_ms := ClientHelloMetadata.latency_budget_ms hello;
  ServerHelloAckMetadata.quality_tier := ClientHelloMetadata.quality_tier hello;
  ServerHelloAckMetadata.degrade_policy := ClientHelloMetadata.degrade_policy hello;
  ServerHelloAckMetadata.max_body_bytes := as_u32 RuntimeFrameLimits.DEFAULT_MAX_PACKET_BYTES;
  ServerHelloAckMetadata.token_ttl_ms := NnrpServerConfig.resume_window_ms config;
  ServerHelloAckMetadata.retry_after_ms := 0;
  ServerHelloAckMetadata.control_extension_bytes := 0;
  ServerHelloAckMetadata.server_flags := 0 |}.

Definition answer_hello (config : NnrpServerConfig.t) (packet : RuntimePacket.t)
    : RT ServerHelloAckMetadata.t :=
  _ ← reject_if (negb (bool_decide (packet_type packet = MessageType.ClientHello)))
        (UnexpectedMessage "server expected CLIENT_HELLO before SESSION_OPEN");
  _ ← require_bodyless packet CLIENT_HELLO_METADATA_LEN "server received malformed CLIENT_HELLO";
  hello ← protocol (ClientHelloMetadata.parse (RuntimePacket.metadata packet));
  server_profiles ← profile_bitmap (NnrpServerConfig.supported_profiles config);
  let accepted_profile_bitmap :=
    Z.land (ClientHelloMetadata.supported_profile_bitmap hello) server_profiles in
  _ ← reject_if (accepted_profile_bitmap =? 0)
        (UnexpectedMessage "CLIENT_HELLO has no server-supported profile");
  server_cache_objects ← cache_object_bitmap (NnrpServerConfig.supported_cache_objects config);
  let ack := hello_ack config hello accepted_profile_bitmap server_cache_objects in
  _ ← protocol (ServerHelloAckMetadata.validate_against_client_hello ack hello);
  Ok ack.

Definition perform_server_hello (config : NnrpServerConfig.t) : Async t unit :=
  controls ← gets controls_left;
  packet ← await_hello controls;
  ack ← lift (answer_hello config packet);
  write (CommonHeader.new MessageType.ServerHelloAck (Z.of_nat SERVER_HELLO_ACK_METADATA_LEN) 0)
    (ServerHelloAckMetadata.to_bytes ack) [].

(** *** Accepting a session *)

Definition MAX_RESUME_TOKEN_BYTES : Z := 4096.

(** The token of a session that may be resumed. *)
Definition issue_token (config : NnrpServerConfig.t) (resume_enabled : bool) : Async t bytes :=
  if resume_enabled then
    let token_len := NnrpServerConfig.resume_token_bytes config in
    _ ← lift (reject_if (usize_max <? token_len)
                (UnexpectedMessage "configured resume token length is invalid"));
    _ ← lift (reject_if (MAX_RESUME_TOKEN_BYTES <? token_len)
                (UnexpectedMessage "configured resume token length exceeds runtime limit"));
    if token_len =? 0 then mret [] else fill (Z.to_nat token_len)
  else mret [].

Definition open_ack (config : NnrpServerConfig.t) (open : SessionOpenMetadata.t) (session_id : Z)
    (accepted resume_enabled : bool) (token_bytes extension_bytes : Z) (error_code : Z)
    : SessionOpenAckMetadata.t := {|
  SessionOpenAckMetadata.session_id := (if accepted then session_id else 0);
  SessionOpenAckMetadata.accepted_profile_id := SessionOpenMetadata.profile_id open;
  SessionOpenAckMetadata.accepted_priority_class := SessionOpenMetadata.priority_class open;
  SessionOpenAckMetadata.session_status :=
    (if negb accepted then SessionStatus.Rejected
     else if 0 <? SessionOpenMetadata.resume_token_bytes open then SessionStatus.Resumed
     else SessionStatus.Opened);
  SessionOpenAckMetadata.schema_id := SessionOpenMetadata.schema_id open;
  SessionOpenAckMetadata.schema_version := SessionOpenMetadata.schema_version open;
  SessionOpenAckMetadata.granted_operation_credit :=
    NnrpServerConfig.granted_operation_credit config;
  SessionOpenAckMetadata.max_in_flight_operations :=
    NnrpServerConfig.max_in_flight_operations config;
  SessionOpenAckMetadata.lease_ttl_ms := NnrpServerConfig.lease_ttl_ms config;
  SessionOpenAckMetadata.resume_window_ms := NnrpServerConfig.resume_window_ms config;
  SessionOpenAckMetadata.resume_token_bytes := token_bytes;
  SessionOpenAckMetadata.session_extension_bytes := extension_bytes;
  SessionOpenAckMetadata.server_session_tag := (if accepted then session_id else 0);
  SessionOpenAckMetadata.route_scope_id := 0;
  SessionOpenAckMetadata.session_error_code := error_code;
  SessionOpenAckMetadata.session_flags_ack :=
    (if resume_enabled then SESSION_ACK_FLAG_RESUME_ENABLED else 0) |}.

(** The second section that holds the registry. *)
Definition insert_session (config : NnrpServerConfig.t) (connection_nonce now_ms : Z)
    (choice : SessionChoice.t) (ack : SessionOpenAckMetadata.t) (resume_enabled : bool)
    (resume_token : bytes) (registry : SessionRegistry) : SessionRegistry :=
  let session_id := SessionChoice.session_id choice in
  <[session_id :=
      {| RuntimeSessionRecord.session_id := session_id;
         RuntimeSessionRecord.profile_id := SessionOpenAckMetadata.accepted_profile_id ack;
         RuntimeSessionRecord.schema_id := SessionOpenAckMetadata.schema_id ack;
         RuntimeSessionRecord.schema_version := SessionOpenAckMetadata.schema_version ack;
         RuntimeSessionRecord.resume_enabled := resume_enabled;
         RuntimeSessionRecord.resume_token_bytes := SessionOpenAckMetadata.resume_token_bytes ack;
         RuntimeSessionRecord.resume_token := resume_token;
         RuntimeSessionRecord.resume_expires_at_ms :=
           saturating_add u64_max now_ms (NnrpServerConfig.resume_window_ms config);
         RuntimeSessionRecord.last_operation_id := SessionChoice.prior_last_operation_id choice;
         RuntimeSessionRecord.active := true;
         RuntimeSessionRecord.connection_nonce := connection_nonce |}]> registry.

(** The session as it is sent to the application.  It reads the clock from then on. *)
Definition new_session (config : NnrpServerConfig.t) (active_transport_id : TransportId.t)
    (connection_nonce session_id : Z) (open : SessionOpenMetadata.t) (transport : FramedTransport.t)
    (lifecycle : ConnectionLifecycle.t) (registry : SessionRegistry) (clock : list Z)
    : NnrpServerSession.t := {|
  NnrpServerSession.session_id := session_id;
  NnrpServerSession.active_transport_id := active_transport_id;
  NnrpServerSession.client_open := open;
  NnrpServerSession.transport := transport;
  NnrpServerSession.lifecycle := lifecycle;
  NnrpServerSession.operations := OperationRegistry.new;
  NnrpServerSession.frame_operations := ∅;
  NnrpServerSession.operation_frames := ∅;
  NnrpServerSession.pre_submit_deadlines :=
    PreSubmitDeadlineReservations.new (SessionOpenMetadata.max_in_flight_operations open);
  NnrpServerSession.pressure := RuntimePressureState.default;
  NnrpServerSession.cache_objects := [];
  NnrpServerSession.supported_cache_objects := NnrpServerConfig.supported_cache_objects config;
  NnrpServerSession.max_cache_objects := NnrpServerConfig.max_cache_objects config;
  NnrpServerSession.max_cache_object_bytes := NnrpServerConfig.max_cache_object_bytes config;
  NnrpServerSession.connection_nonce := connection_nonce;
  NnrpServerSession.sessions := registry;
  NnrpServerSession.pending_close := None;
  NnrpServerSession.pending_inputs := [];
  NnrpServerSession.clock := clock |}.

(** What follows the acknowledgement of an accepted session. *)
Definition install_session (config : NnrpServerConfig.t) (active_transport_id : TransportId.t)
    (connection_nonce now_ms : Z) (open : SessionOpenMetadata.t) (choice : SessionChoice.t)
    (ack : SessionOpenAckMetadata.t) (resume_enabled : bool) (resume_token : bytes)
    (transport : FramedTransport.t) : Async t Z :=
  let session_id := SessionChoice.session_id choice in
  let '(opened, lifecycle) :=
    ConnectionLifecycle.apply_session_open_ack ack ConnectionLifecycle.new in
  _ ← lift (protocol opened);
  _ ← on_sessions (fun registry =>
        (tt, insert_session config connection_nonce now_ms choice ack resume_enabled resume_token
               registry));
  session ← gets (fun self =>
    new_session config active_transport_id connection_nonce session_id open transport lifecycle
      (sessions self) (clock self));
  heard ← gets listening;
  if (heard : bool) then
    _ ← modify (fun self => set_accepted self (accepted_sessions self ++ [session]));
    mret session_id
  else
    _ ← on_sessions (fun registry =>
          (tt, mark_session_inactive session_id connection_nonce registry));
    lift (Err ServerListenerSetClosed).

(** The checks of the SESSION_OPEN packet itself. *)
Definition read_open (packet : RuntimePacket.t) : RT SessionOpenMetadata.t :=
  open ← protocol (SessionOpenMetadata.parse (RuntimePacket.metadata packet));
  _ ← protocol (validate_session_recovery_request open);
  _ ← reject_if (negb (len (RuntimePacket.body packet) =? SessionOpenMetadata.resume_token_bytes open))
        (UnexpectedMessage "SESSION_OPEN resume token length does not match body");
  Ok open.

(** [validation_error.is_none() && recovery_error.is_none()]. *)
Definition accepts (rejection : option NnrpServerPolicyDecision.t) (choice : SessionChoice.t) : bool :=
  negb (is_some rejection) && negb (is_some (recovery_error choice)).

Definition enables_resume (config : NnrpServerConfig.t) (open : SessionOpenMetadata.t) (accepted : bool)
    : bool :=
  accepted
  && negb (Z.land (SessionOpenMetadata.session_flags open) SESSION_FLAG_ALLOW_RESUME =? 0)
  && (0 <? NnrpServerConfig.resume_token_bytes config).

(** [validation_error.or(recovery_error).unwrap_or(SESSION_ERROR_NONE)]. *)
Definition open_error_code (rejection : option NnrpServerPolicyDecision.t) (choice : SessionChoice.t)
    : Z :=
  match rejection with
  | Some decision => NnrpServerPolicyDecision.session_error_code decision
  | None => default SESSION_ERROR_NONE (recovery_error choice)
  end.

Definition policy_diagnostic (rejection : option NnrpServerPolicyDecision.t) : bytes :=
  default [] (rejection ≫= NnrpServerPolicyDecision.diagnostic).

Definition write_open_ack (ack : SessionOpenAckMetadata.t) (ack_body : bytes) : Async t unit :=
  write (address (CommonHeader.new MessageType.SessionOpenAck
                    (Z.of_nat SESSION_OPEN_ACK_METADATA_LEN) (as_u32 (len ack_body)))
           (SessionOpenAckMetadata.session_id ack) 0)
    (SessionOpenAckMetadata.to_bytes ack) ack_body.

Definition accept_connection_session (active_transport_id : TransportId.t) (connection_nonce : Z)
    (config : NnrpServerConfig.t) (packet : RuntimePacket.t) : Async t (option Z) :=
  open ← lift (read_open packet);
  rejection ← NnrpServerConfig.validate_client_open config open;
  now_ms ← current_unix_ms;
  choice ← on_sessions (choose_session open (RuntimePacket.body packet) now_ms);
  let session_id := SessionChoice.session_id choice in
  let accepted := accepts rejection choice in
  let resume_enabled := enables_resume config open accepted in
  let diagnostic := policy_diagnostic rejection in
  resume_token ← issue_token config resume_enabled;
  extension_bytes ←
    lift (if accepted then Ok 0
          else ok_or (if len diagnostic <=? u32_max then Some (len diagnostic) else None)
                 (UnexpectedMessage "server policy diagnostic exceeds wire length"));
  let ack := open_ack config open session_id accepted resume_enabled (as_u32 (len resume_token))
               extension_bytes (open_error_code rejection choice) in
  if accepted then
    transport ← on_connection (MultiplexedConnection.register_session session_id);
    _ ← write_open_ack ack resume_token;
    session_id ← install_session config active_transport_id connection_nonce now_ms open choice ack
                   resume_enabled resume_token transport;
    mret (Some session_id)
  else
    _ ← write_open_ack ack diagnostic;
    mret None.

(** *** The task of a connection *)

Fixpoint serve_loop (active_transport_id : TransportId.t) (connection_nonce : Z)
    (config : NnrpServerConfig.t) (controls : list (RT RuntimePacket.t)) (session_ids : gset Z)
    : Async t (gset Z) :=
  packet ← attempt (on_connection MultiplexedConnection.read_control_packet);
  match packet, controls with
  | None, _ => mret session_ids
  | Some _, [] => lift Panic
  | Some packet, _ :: controls =>
      let again := serve_loop active_transport_id connection_nonce config controls in
      if bool_decide (packet_type packet = MessageType.TransportProbe) then
        answered ← attempt (respond_to_connection_probe packet);
        if is_some answered then again session_ids else mret session_ids
      else if negb (bool_decide (packet_type packet = MessageType.SessionOpen)) then mret session_ids
      else
        accepted ← attempt (accept_connection_session active_transport_id connection_nonce config packet);
        match accepted with
        | None => mret session_ids
        | Some None => again session_ids
        | Some (Some session_id) => again ({[session_id]} ∪ session_ids)
        end
  end.

(** [connection_nonce] is what the counter of connections gave this one. *)
Definition serve_connection (active_transport_id : TransportId.t) (connection_nonce : Z)
    (config : NnrpServerConfig.t) : Async t unit :=
  greeted ← attempt (perform_server_hello config);
  if is_some greeted then
    controls ← gets controls_left;
    session_ids ← serve_loop active_transport_id connection_nonce config controls ∅;
    _ ← on_sessions (fun registry =>
          (tt, mark_connection_sessions_inactive connection_nonce session_ids registry));
    _ ← attempt close;
    mret tt
  else
    _ ← attempt close;
    mret tt.

End serve.
End ServerConnection.

(** ** The listeners *)

(** One poll of [accept_stable]: the listeners are asked in turn from [start_index] on, and
    the first that is ready answers.  [accepts] says what each of them would answer. *)
Fixpoint poll_accepts {A} (accepts : list (Poll A)) (start_index : Z) (offsets : list Z)
    : Poll (Z * A) :=
  match offsets with
  | [] => Pending
  | offset :: offsets =>
      let index := (start_index + offset) mod len accepts in
      match accepts !! Z.to_nat index with
      | None => Ready Panic
      | Some (Ready (Ok transport)) => Ready (Ok (index, transport))
      | Some (Ready (Err e)) => Ready (Err e)
      | Some (Ready Panic) => Ready Panic
      | Some Pending => poll_accepts accepts start_index offsets
      end
  end.

Definition accept_stable {A} (accepts : list (Poll A)) (start_index : Z) : Poll (Z * A) :=
  if len accepts =? 0 then Ready (Err ServerListenerSetClosed)
  else poll_accepts accepts (start_index mod len accepts) (Z.of_nat <$> seq 0 (length accepts)).

(** [self.next_accept_index.store((accepted_index + 1) % active.len(), ..)]. *)
Definition next_accept_index (accepted_index listeners : Z) : Z := (accepted_index + 1) mod listeners.
