(* ===== verification/ServerTheory.v ===== *)
(** What a server session keeps true ([src/crates/nnrp-runtime/src/server.rs]).

    [inv] ties the tables of a session to its operation registry, to its queue and to what it
    has written: a RESULT_PUSH was written for the frame of an operation exactly when the
    operation is completed, and only once.  The decoders are shown to keep it. *)

From S2P Require Import Prelude Bytes Errors Enums Wire Header Session Flow Control Codes.
From S2P Require Import Lifecycle Capability RuntimeControl Operation Recovery Transport Route.
From S2P Require Import RuntimeError Packet Async Pressure PreSubmit Object Cache Data Schema.
From S2P Require Import Event Client SessionLogic Server.

Local Open Scope Z_scope.
Import NnrpClientSession(wire_header, packet_frame, packet_type, address, as_u32, set_trace, control_state).
Import NnrpServerSession.

(** ** The invariant *)

(** The metadata and the tail of an event that the receivers take apart. *)
Definition event_fits (event : NnrpRuntimeEvent.t) : Prop :=
  let metadata := NnrpRuntimeEvent.metadata event in
  let tail := NnrpRuntimeEvent.tail event in
  match RuntimeFrameHeader.message_type (NnrpRuntimeEvent.header event) with
  | MessageType.FrameSubmit =>
      exists md body, metadata = NnrpRuntimeEventMetadata.FrameSubmit md /\
        tail = NnrpRuntimeEventTail.Body body
  | MessageType.Cancel | MessageType.Abort =>
      exists md body, metadata = NnrpRuntimeEventMetadata.ControlRequest md /\
        tail = NnrpRuntimeEventTail.Diagnostic body
  | MessageType.PriorityUpdate | MessageType.Deadline | MessageType.ExpireAt =>
      exists md, metadata = NnrpRuntimeEventMetadata.Scheduling md
  | MessageType.Backpressure | MessageType.CreditUpdate =>
      exists md, metadata = NnrpRuntimeEventMetadata.Pressure md
  | MessageType.SessionClose => exists md, metadata = NnrpRuntimeEventMetadata.SessionClose md
  | _ => True
  end.

(** An operation is what its event says. *)
Definition operation_ok (operation : NnrpServerOperation.t) : Prop :=
  NnrpServerOperation.new (NnrpServerOperation.submit operation) = Ok operation /\
  event_fits (NnrpServerOperation.submit operation).

Definition server_event_ok (event : NnrpServerEvent.t) : Prop :=
  match event with
  | NnrpServerEvent.Submit operation => operation_ok operation
  | NnrpServerEvent.Runtime event => event_fits event
  | NnrpServerEvent.Lifecycle event =>
      OperationLifecycleEvent.operation_id event <> 0 /\
      OperationState.is_terminal (OperationLifecycleEvent.state event) = true
  end.

Definition input_ok (input : PendingServerInput.t) : Prop :=
  match input with
  | PendingServerInput.Event event => server_event_ok event
  | PendingServerInput.RolePacket packet => is_dedicated_role_message (packet_type packet) = true
  end.

(** The queue is within its limit, or one input over it that was put back. *)
Definition short (inputs : list PendingServerInput.t) : Prop :=
  len inputs <= MAX_PENDING_SERVER_INPUTS.
Definition room (inputs : list PendingServerInput.t) : Prop :=
  short inputs \/
  len inputs = MAX_PENDING_SERVER_INPUTS + 1 /\ Exists (fun input => is_lifecycle input = false) inputs.

(** The frames of the RESULT_PUSH packets among some packets, in order. *)
Definition result_frames (packets : list RuntimePacket.t) : list Z :=
  packet_frame <$> filter (fun packet => packet_type packet = MessageType.ResultPush) packets.

(** The frames of the RESULT_PUSH packets that a transport was given, and whether the write returned. *)
Definition pushes (log : list (RuntimePacket.t * bool)) : list (Z * bool) :=
  (fun entry => (packet_frame entry.1, entry.2)) <$>
    filter (fun entry => packet_type entry.1 = MessageType.ResultPush) log.

(** A push that returned is the last one for its frame. *)
Definition settled (log : list (Z * bool)) : Prop :=
  forall before frame ok after, log = before ++ (frame, ok) :: after -> (frame, true) ∉ before.

Definition completed (operations : OperationRegistry.t) (op : Z) : Prop :=
  exists r, OperationRegistry.operation operations op = Some r /\
    OperationRecord.state r = OperationState.Completed.

Record inv (s : t) : Prop := {
  inv_inverse op frame :
    operation_frames s !! op = Some frame <-> frame_operations s !! frame = Some op;
  inv_registered op :
    is_Some (operation_frames s !! op) <-> is_Some (OperationRegistry.operation (operations s) op);
  inv_session op r : OperationRegistry.operation (operations s) op = Some r ->
    OperationRecord.session r = session_id s;
  inv_registry : OperationRegistry.invariant (operations s);
  inv_inputs : Forall input_ok (pending_inputs s);
  inv_room : room (pending_inputs s);
  inv_deadlines : PreSubmitDeadlineReservations.invariant (pre_submit_deadlines s);
  inv_transport : FramedTransport.well_behaved (transport s);
  inv_cache : NoDup (cache_objects s);
  inv_cache_limit : max_cache_objects s <> 0 -> len (cache_objects s) <= Z.max 0 (max_cache_objects s);
  inv_settled : settled (pushes (FramedTransport.handed (transport s)));
  inv_pushed frame :
    (frame, true) ∈ pushes (FramedTransport.handed (transport s)) <->
    exists op, frame_operations s !! frame = Some op /\ completed (operations s) op
}.

Definition any (_ : t) : Prop := True.

(** The method keeps the invariant and does not panic. *)
Definition sound {A} (m : Async t A) : Prop := keeps inv any m (fun _ _ => True).

(** ** The fields *)

Lemma inv_with_transport s tr :
  FramedTransport.well_behaved tr ->
  pushes (FramedTransport.handed tr) = pushes (FramedTransport.handed (transport s)) ->
  inv s -> inv (set_transport s tr).
Proof. intros Htr Hr []. split; simpl; rewrite ?Hr; done. Qed.

Lemma inv_with_deadlines s d :
  PreSubmitDeadlineReservations.invariant d -> inv s -> inv (set_pre_submit_deadlines s d).
Proof. intros Hd []. by split. Qed.

Lemma inv_with_lifecycle s l : inv s -> inv (set_lifecycle s l).
Proof. intros []. by split. Qed.

Lemma inv_with_pressure s p : inv s -> inv (set_pressure s p).
Proof. intros []. by split. Qed.

Lemma inv_with_sessions s registry : inv s -> inv (set_sessions s registry).
Proof. intros []. by split. Qed.

Lemma inv_with_close s close : inv s -> inv (set_pending_close s close).
Proof. intros []. by split. Qed.

Lemma inv_with_clock s times : inv s -> inv (set_clock s times).
Proof. intros []. by split. Qed.

Lemma inv_with_inputs s inputs :
  Forall input_ok inputs -> room inputs -> inv s -> inv (set_pending_inputs s inputs).
Proof. intros Hok Hroom []. by split. Qed.

(** ** The registry of operations *)

(** A change of the registry that registers and completes nothing. *)
Definition tame (ops ops' : OperationRegistry.t) : Prop :=
  OperationRegistry.descriptors ops' = OperationRegistry.descriptors ops /\
  forall op, completed ops' op <-> completed ops op.

Lemma tame_refl ops : tame ops ops.
Proof. done. Qed.

Lemma descriptors_session ops ops' op r' :
  OperationRegistry.descriptors ops' = OperationRegistry.descriptors ops ->
  OperationRegistry.operation ops' op = Some r' ->
  exists r, OperationRegistry.operation ops op = Some r /\
    OperationRecord.descriptor r' = OperationRecord.descriptor r.
Proof.
  unfold OperationRegistry.operation. intros Hd Hr'.
  assert (OperationRegistry.descriptors ops !! op = Some (OperationRecord.descriptor r')) as Hr
    by (by rewrite <- Hd, OperationRegistry.descriptors_lookup, Hr').
  rewrite OperationRegistry.descriptors_lookup in Hr.
  apply fmap_Some in Hr as (r & Hr & Hdr). by exists r.
Qed.

Lemma inv_with_operations s ops : tame (operations s) ops -> inv s -> inv (set_operations s ops).
Proof.
  intros [Hd Hc] []. split; simpl; try done.
  - intros op. rewrite inv_registered0. split; intros [r Hr].
    + destruct (descriptors_session ops (operations s) op r) as (r' & Hr' & _); [done|done|]. by exists r'.
    + destruct (descriptors_session (operations s) ops op r) as (r' & Hr' & _); [done|done|]. by exists r'.
  - intros op r Hr. destruct (descriptors_session (operations s) ops op r) as (r0 & Hr0 & Hdr); [done|done|].
    rewrite <- (inv_session0 op r0 Hr0). unfold OperationRecord.session. by rewrite Hdr.
  - unfold OperationRegistry.invariant. by rewrite Hd.
  - intros frame. rewrite inv_pushed0. by setoid_rewrite Hc.
Qed.

(** A record that is stored over another one of the same operation. *)
Lemma tame_store ops op r r' :
  OperationRegistry.operation ops op = Some r ->
  OperationRecord.descriptor r' = OperationRecord.descriptor r ->
  (OperationRecord.state r' = OperationState.Completed <->
   OperationRecord.state r = OperationState.Completed) ->
  tame ops (OperationRegistry.store ops op r').
Proof.
  intros Hr Hd Hc. split; [by eapply OperationRegistry.store_descriptors|].
  intros op'. unfold completed, OperationRegistry.operation. simpl.
  destruct (decide (op = op')) as [<-|Hne].
  - rewrite lookup_insert_eq. unfold OperationRegistry.operation in Hr. rewrite Hr. naive_solver.
  - by rewrite lookup_insert_ne.
Qed.

Lemma allowed_not_completed s s' :
  OperationState.can_transition_to s s' = true -> s <> OperationState.Completed.
Proof. by intros H ->. Qed.

(** A transition elsewhere than to [Completed]. *)
Lemma tame_transition ops op r state :
  OperationRegistry.operation ops op = Some r -> state <> OperationState.Completed ->
  OperationRecord.state r <> OperationState.Completed ->
  tame ops (OperationRegistry.store ops op (OperationRecord.set_state r state)).
Proof. intros Hr Hs Hc. by eapply tame_store. Qed.

Lemma transition_tame op state ops :
  state <> OperationState.Completed -> tame ops (OperationRegistry.transition op state ops).2.
Proof.
  intros Hs. unfold OperationRegistry.transition.
  destruct (OperationRegistry.operations ops !! op) as [r|] eqn:Hr; [|done].
  destruct (OperationState.can_transition_to _ _) eqn:Hc; simpl; [|done].
  apply tame_transition; [done|done|by eapply allowed_not_completed].
Qed.

Lemma abort_tame op ops : tame ops (OperationRegistry.abort op ops).2.
Proof.
  unfold OperationRegistry.abort.
  destruct (OperationRegistry.operations ops !! op) as [r|] eqn:Hr; [|done].
  destruct (OperationState.can_transition_to _ _) eqn:Hc; simpl; [|done].
  apply tame_transition; [done|done|by eapply allowed_not_completed].
Qed.

Lemma expire_tame op now ops : tame ops (OperationRegistry.expire_if_stale op now ops).2.
Proof.
  unfold OperationRegistry.expire_if_stale.
  destruct (OperationRegistry.operations ops !! op) as [r|] eqn:Hr; [|done].
  do 2 (case_match; [done|]). destruct (OperationState.can_transition_to _ _) eqn:Hc; simpl; [|done].
  apply tame_transition; [done|done|by eapply allowed_not_completed].
Qed.

Lemma scheduling_tame sid mt md ops : tame ops (OperationRegistry.apply_scheduling_update sid mt md ops).2.
Proof.
  unfold OperationRegistry.apply_scheduling_update. set (k := SchedulingMetadata.operation_id md).
  destruct (OperationRegistry.operations ops !! k) as [r|] eqn:Hr; [|done]. do 2 (case_match; [done|]).
  cbv zeta. set (ops1 := OperationRegistry.store ops k _).
  assert (forall schedule, tame ops (OperationRegistry.store ops1 k (OperationRecord.set_schedule r schedule)))
    as Hs.
  { intros schedule. unfold ops1, OperationRegistry.store. simpl. rewrite insert_insert_eq.
    by apply (tame_store ops k r). }
  destruct mt; try apply Hs. all: by apply (tame_store ops k r).
Qed.

(** The request of [cancel_operation]. *)
Definition cancel_request (sid op : Z) : OperationCancelRequest.t :=
  {| OperationCancelRequest.session_id := sid;
     OperationCancelRequest.operation_id := op;
     OperationCancelRequest.cancel_scope := CancelScope.Operation |}.

(** Cancelling one operation: an error, nothing to do, or that operation. *)
Lemma cancel_one sid op ops :
  (exists e, OperationRegistry.cancel (cancel_request sid op) ops = (Err e, ops)) \/
  OperationRegistry.cancel (cancel_request sid op) ops = (Ok [], ops) \/
  exists r, OperationRegistry.operation ops op = Some r /\
    OperationState.is_terminal (OperationRecord.state r) = false /\
    OperationRegistry.cancel (cancel_request sid op) ops =
      (Ok [op], OperationRegistry.store ops op (OperationRecord.set_state r OperationState.Cancelled)).
Proof.
  unfold OperationRegistry.cancel, OperationRegistry.cancel_ids, cancel_request. simpl.
  destruct (OperationRegistry.operations ops !! op) as [r|] eqn:Hr; simpl; [|by left; eexists].
  destruct (negb _); simpl; [by left; eexists|].
  replace (merge_sort Z.le [op]) with [op] by reflexivity. simpl. rewrite Hr.
  destruct (OperationState.is_terminal _) eqn:Ht; simpl; [by right; left|].
  right; right. exists r. split_and!; done.
Qed.

Lemma cancel_tame sid op ops : tame ops (OperationRegistry.cancel (cancel_request sid op) ops).2.
Proof.
  destruct (cancel_one sid op ops) as [[e ->]|[-> | (r & Hr & Ht & ->)]]; [done|done|].
  apply tame_transition; [done|done|]. by intros Hc; rewrite Hc in Ht.
Qed.

(** ** Rules *)

(** What is known of the session does not depend on its transport, clock, reservations or
    operations. *)
Definition untouched (F : t -> Prop) : Prop := forall s tr, F s -> F (set_transport s tr).
Definition timeless (F : t -> Prop) : Prop := forall s times, F s -> F (set_clock s times).
Definition undated (F : t -> Prop) : Prop := forall s d, F s -> F (set_pre_submit_deadlines s d).
Definition unregistered (F : t -> Prop) : Prop := forall s ops, F s -> F (set_operations s ops).

Create HintDb server.
#[export] Hint Extern 0 (untouched _) => (intros ? ? ?; cbn in *; tauto) : server.
#[export] Hint Extern 0 (timeless _) => (intros ? ? ?; cbn in *; tauto) : server.
#[export] Hint Extern 0 (undated _) => (intros ? ? ?; cbn in *; tauto) : server.
#[export] Hint Extern 0 (unregistered _) => (intros ? ? ?; cbn in *; tauto) : server.

Section rules.
Context {A : Type}.
Implicit Types F : t -> Prop.

(** A call on the transport that writes no result. *)
Lemma keeps_transport F (m : Async FramedTransport.t A) :
  FramedTransport.calm m ->
  (forall tr, pushes (FramedTransport.handed (m tr).2) = pushes (FramedTransport.handed tr)) ->
  untouched F -> keeps inv F (on_transport m) (fun _ => F).
Proof.
  intros Hm Hres HF s [Hi Hs]. destruct (Hm (transport s) (inv_transport s Hi)) as (Hnp & Hwb & _).
  specialize (Hres (transport s)). unfold on_transport. destruct (m (transport s)) as [r tr]. simpl in *.
  assert (inv (set_transport s tr)) by (by apply inv_with_transport).
  destruct r as [[a|e|]|]; [split; [done|by apply HF]|done|done|done].
Qed.

Lemma keeps_operations F (m : Method OperationRegistry.t NnrpError A) :
  (forall ops, (m ops).1 <> Panic) -> (forall ops, tame ops (m ops).2) -> unregistered F ->
  keeps inv F (on_operations m) (fun _ => F).
Proof.
  intros Hnp Ht HF s [Hi Hs]. specialize (Hnp (operations s)). specialize (Ht (operations s)).
  unfold on_operations. destruct (m (operations s)) as [o ops]. simpl in *.
  pose proof (inv_with_operations s ops Ht Hi). destruct o; simpl; [split; [done|by apply HF]|done|done].
Qed.

Lemma keeps_deadlines F (m : Method PreSubmitDeadlineReservations.t RuntimeError A) :
  (forall d, (m d).1 <> Panic) -> (forall d, PreSubmitDeadlineReservations.step d (m d).2) ->
  undated F -> keeps inv F (on_deadlines m) (fun _ => F).
Proof.
  intros Hnp Hst HF s [Hi Hs]. specialize (Hnp (pre_submit_deadlines s)).
  specialize (Hst (pre_submit_deadlines s)).
  apply PreSubmitDeadlineReservations.step_invariant in Hst; [|apply (inv_deadlines s Hi)].
  unfold on_deadlines. destruct (m _) as [o d]. cbn in *.
  assert (inv (set_pre_submit_deadlines s d)) by (by apply inv_with_deadlines).
  destruct o; [by auto|done|done].
Qed.

Lemma keeps_pressure F (m : Method RuntimePressureState.t NnrpError A) :
  (forall p, (m p).1 <> Panic) -> keeps inv F (on_pressure m) (fun _ _ => True).
Proof.
  intros Hm s [Hi _]. unfold on_pressure. specialize (Hm (pressure s)).
  destruct (m (pressure s)) as [[a|e|] p]; simpl in *; [split; [|done]|..]; by try apply inv_with_pressure.
Qed.
End rules.

Lemma keeps_lifecycle F (c : ConnectionLifecycle.call) :
  keeps inv F (on_lifecycle (ConnectionLifecycle.run c)) (fun _ _ => True).
Proof.
  intros s [Hi _]. pose proof (ConnectionLifecycle.run_no_panic c (lifecycle s)) as Hnp.
  unfold on_lifecycle, outcome_of in *. destruct (ConnectionLifecycle.run c (lifecycle s)) as [o l].
  pose proof (inv_with_lifecycle s l Hi). by destruct o.
Qed.

Lemma keeps_clock F : timeless F -> keeps inv F current_unix_ms (fun _ => F).
Proof.
  intros HF s [Hi Hs]. unfold current_unix_ms. destruct (clock s) as [|now rest]; [done|].
  split; [by apply inv_with_clock|by apply HF].
Qed.

Lemma keeps_read F : untouched F -> keeps inv F read_packet (fun _ => F).
Proof.
  apply keeps_transport; [apply FramedTransport.read_packet_calm|].
  intros tr. unfold FramedTransport.read_packet. by case_match.
Qed.

Lemma pushes_snoc log packet ok :
  packet_type packet <> MessageType.ResultPush -> pushes (log ++ [(packet, ok)]) = pushes log.
Proof.
  intros Hp. unfold pushes. rewrite filter_app, filter_cons_False by done. by rewrite filter_nil, app_nil_r.
Qed.

Lemma keeps_write F packet :
  packet_type packet <> MessageType.ResultPush -> untouched F ->
  keeps inv F (write_packet packet) (fun _ => F).
Proof.
  intros Hp. apply keeps_transport; [apply FramedTransport.write_packet_calm|].
  intros tr. unfold FramedTransport.write_packet.
  destruct (FramedTransport.writes tr) as [|[u|e|] ws]; simpl; by apply pushes_snoc.
Qed.

#[export] Hint Unfold require_session_packet require_optional_session_packet correlated_frame_id
  require_operation_frame require_nonterminal_operation require_trace_context_frame
  operation_id_for_frame ensure_pending_capacity operation_state operation_transition_required
  require_operation_completion validate_cache_put require_session
  NnrpServerOperation.require_operation_id NnrpServerOperation.new
  PreSubmitDeadlineReservations.reject_expired closed_while_waiting : guards.

(** One step through the body of a method. *)
Ltac walk_one :=
  cbv zeta; try match goal with |- sound _ => unfold sound end;
  match goal with
  | |- keeps _ _ (mbind _ (lift _)) _ => apply keeps_bind_lift; [guard_no_panic|intros ? ?]
  | |- keeps _ _ (mbind _ (check _)) _ => apply keeps_bind_check; [intros; guard_no_panic|intros ?]
  | |- keeps _ _ (mbind _ (gets _)) _ => apply keeps_bind_gets; intros ?
  | |- keeps _ _ (mbind _ read_packet) _ =>
      eapply keeps_bind; [apply keeps_read; auto with server|intros ?; cbv beta]
  | |- keeps _ _ (mbind _ current_unix_ms) _ =>
      eapply keeps_bind; [apply keeps_clock; auto with server|intros ?; cbv beta]
  | |- keeps _ _ (lift _) _ => apply keeps_lift; [guard_no_panic|]
  | |- keeps _ _ (check _) _ => apply keeps_check; [intros; guard_no_panic|]
  | |- keeps _ _ (mret _) _ => apply keeps_ret
  end.

(** ** The queue *)

Lemma pending_capacity s u : ensure_pending_capacity s = Ok u -> len (pending_inputs s) < MAX_PENDING_SERVER_INPUTS.
Proof. unfold ensure_pending_capacity. intros H%reject_if_Ok. lia. Qed.

Lemma inv_push s input :
  input_ok input -> len (pending_inputs s) < MAX_PENDING_SERVER_INPUTS -> inv s ->
  inv (set_pending_inputs s (pending_inputs s ++ [input])).
Proof.
  intros Hok Hl Hi. apply inv_with_inputs; [..|done].
  - apply Forall_app. split; [apply (inv_inputs s Hi)|by apply Forall_singleton].
  - left. unfold short. rewrite len_app. change (len [input]) with 1. lia.
Qed.

Lemma retain_keeps F input :
  input_ok input -> keeps inv F (retain_pending_input input) (fun _ _ => True).
Proof.
  intros Hok. unfold retain_pending_input. walk_one. apply keeps_modify.
  intros s Hi [_ Hc]. split; [|done]. apply inv_push; [done|by eapply pending_capacity|done].
Qed.

Lemma lifecycle_new_ok op state event :
  OperationLifecycleEvent.new op state = Ok event -> OperationState.is_terminal state = true ->
  server_event_ok (NnrpServerEvent.Lifecycle event).
Proof.
  unfold OperationLifecycleEvent.new. intros (? & Hop%reject_if_Ok & [= <-])%bind_Ok Ht. simpl.
  split; [lia|done].
Qed.

Lemma queue_keeps F op state :
  OperationState.is_terminal state = true -> keeps inv F (queue_lifecycle op state) (fun _ _ => True).
Proof.
  intros Ht. unfold queue_lifecycle. walk_one.
  apply keeps_bind_lift; [guard_no_panic|intros event Hev%protocol_Ok]. apply keeps_modify.
  intros s Hi [_ Hc]. split; [|done]. apply inv_push; [by eapply lifecycle_new_ok|by eapply pending_capacity|done].
Qed.

Lemma queue_all_keeps F ops state :
  OperationState.is_terminal state = true -> keeps inv F (queue_lifecycles ops state) (fun _ _ => True).
Proof.
  intros Ht. revert F. induction ops as [|op ops IH]; intros F; simpl; [by apply keeps_ret|].
  eapply keeps_bind; [by apply queue_keeps|intros ?; apply IH].
Qed.

Lemma cancel_keeps F op : unregistered F -> keeps inv F (cancel_operation op) (fun _ => F).
Proof.
  intros HF. unfold cancel_operation. apply keeps_bind_gets. intros sid.
  eapply keeps_conseq; [apply (keeps_operations F)|by intros s _ []|done]; [| |done].
  - intros ops. destruct (cancel_one sid op ops) as [[e H]|[H|(r & _ & _ & H)]]; unfold cancel_request in H;
      rewrite H; done.
  - intros ops. apply (cancel_tame sid op ops).
Qed.

Lemma transition_keeps F op state :
  state <> OperationState.Completed -> unregistered F ->
  keeps inv F (on_operations (OperationRegistry.transition op state)) (fun _ => F).
Proof.
  intros Hs. apply keeps_operations; [|intros; by apply transition_tame].
  intros ops. unfold OperationRegistry.transition. by repeat case_match.
Qed.

Lemma scheduling_no_panic sid mt md ops : (OperationRegistry.apply_scheduling_update sid mt md ops).1 <> Panic.
Proof. unfold OperationRegistry.apply_scheduling_update. cbv zeta. by repeat case_match. Qed.

Lemma scheduling_keeps F sid mt md :
  unregistered F ->
  keeps inv F (on_operations (OperationRegistry.apply_scheduling_update sid mt md)) (fun _ => F).
Proof. apply keeps_operations; intros; [apply scheduling_no_panic|apply scheduling_tame]. Qed.

(** ** Submissions *)

(** The tables after a FRAME_SUBMIT, with the record that the registry has for it. *)
Definition accepted (op frame : Z) (r : OperationRecord.t) (s : t) : t :=
  update_registry_last_operation op
    (set_frames (set_operations s (OperationRegistry.store (operations s) op r))
       (<[frame := op]> (frame_operations s)) (<[op := frame]> (operation_frames s))).

Lemma inv_accepted s op frame r :
  OperationRegistry.operation (operations s) op = None -> frame_operations s !! frame = None ->
  OperationRecord.descriptor r = OperationDescriptor.new (session_id s) op ->
  OperationRecord.state r <> OperationState.Completed ->
  OperationRegistry.invariant (OperationRegistry.store (operations s) op r) ->
  inv s -> inv (accepted op frame r s).
Proof.
  intros Hop Hf Hd Hst Hreg Hi.
  assert (operation_frames s !! op = None) as Hof.
  { apply eq_None_not_Some. rewrite (inv_registered s Hi), Hop. by intros [? ?]. }
  unfold accepted, update_registry_last_operation. apply inv_with_sessions.
  destruct Hi. split; simpl; try done.
  - intros o f. rewrite !lookup_insert_Some. split.
    + intros [[<- <-]|[Hne Ho]]; [by left|]. right. split; [|by apply inv_inverse0]. intros <-.
      apply inv_inverse0 in Ho. congruence.
    + intros [[<- <-]|[Hne Ho]]; [by left|]. right. apply inv_inverse0 in Ho. split; [|done]. intros <-.
      congruence.
  - intros o. unfold OperationRegistry.operation. simpl. rewrite !lookup_insert_is_Some'.
    by rewrite inv_registered0.
  - unfold OperationRegistry.operation in *. simpl.
    intros o r' [[<- <-]|[Hne Ho]]%lookup_insert_Some; [|by eauto].
    unfold OperationRecord.session. by rewrite Hd.
  - intros f. rewrite inv_pushed0. unfold completed, OperationRegistry.operation in *. simpl.
    setoid_rewrite lookup_insert_Some. split.
    + intros (o & Ho & r' & Hr' & Hc). exists o. split; [right; split; [by intros ->; rewrite Hf in Ho|done]|].
      exists r'. split; [right; split; [by intros ->; rewrite Hop in Hr'|done]|done].
    + intros (o & [[<- <-]|[Hne Ho]] & r' & [[Hoo Hr']|[Hne' Hr']] & Hc); try congruence.
      exists o. split; [done|]. by exists r'.
Qed.

(** A reservation is taken for its own operation. *)
Lemma take_own op frame now d md d' :
  PreSubmitDeadlineReservations.invariant d ->
  PreSubmitDeadlineReservations.take_for_submit op frame now d = (Ok (Some md), d') ->
  SchedulingMetadata.operation_id md = op.
Proof.
  intros Hi. unfold PreSubmitDeadlineReservations.take_for_submit, PreSubmitDeadlineReservations.remove_operation.
  destruct (PreSubmitDeadlineReservations.reject_expired d now); [|done..].
  destruct (PreSubmitDeadlineReservations.by_operation d !! op) as [r|] eqn:Hr.
  - case_match; [done|]. intros [= <- _]. by apply (PreSubmitDeadlineReservations.inv_operation d Hi op r Hr).
  - by case_match.
Qed.

Lemma take_keeps op frame now F :
  undated F ->
  keeps inv F (on_deadlines (PreSubmitDeadlineReservations.take_for_submit op frame now))
    (fun reserved s => F s /\ forall md, reserved = Some md -> SchedulingMetadata.operation_id md = op).
Proof.
  intros HF s [Hi Hs].
  pose proof (keeps_deadlines F _ (take_no_panic op frame now)
    (fun d => PreSubmitDeadlineReservations.step_take op frame now d) HF s (conj Hi Hs)) as Hk.
  unfold on_deadlines in *.
  destruct (PreSubmitDeadlineReservations.take_for_submit op frame now _) as [o d'] eqn:Ht.
  destruct o as [reserved|e|]; [|done..]. destruct Hk as [Hi' Hs']. split; [done|]. split; [done|].
  intros md ->. by eapply take_own; [apply (inv_deadlines s Hi)|].
Qed.

(** The deadline of a reservation goes to the operation that was just registered. *)
Lemma deadline_applies sid op ops md :
  SchedulingMetadata.operation_id md = op ->
  exists r, OperationRecord.descriptor r = OperationDescriptor.new sid op /\
    OperationRecord.state r = OperationState.Accepted /\
    forall r0, r0 = OperationRecord.mk (OperationDescriptor.new sid op) OperationState.Accepted
                      OperationSchedule.default ->
      exists schedule,
        OperationRegistry.apply_scheduling_update sid MessageType.Deadline md
          (OperationRegistry.store ops op r0) = (Ok schedule, OperationRegistry.store ops op r).
Proof.
  intros <-. unfold OperationRegistry.apply_scheduling_update. simpl.
  eexists (OperationRecord.mk _ OperationState.Accepted _). split; [reflexivity|]. split; [done|].
  intros r0 ->. rewrite lookup_insert_eq. unfold OperationRecord.session. simpl. rewrite Z.eqb_refl. simpl.
  eexists. unfold OperationRegistry.store. simpl. by rewrite !insert_insert_eq.
Qed.

(** From the registration on. *)
Definition submit_tail (op frame : Z) (reserved : option SchedulingMetadata.t) : Async t unit :=
  session_id ← gets session_id;
  _ ← on_operations (OperationRegistry.register (OperationDescriptor.new session_id op));
  _ ← match reserved with
      | Some deadline =>
          _ ← on_operations (OperationRegistry.apply_scheduling_update session_id
                               MessageType.Deadline deadline);
          mret tt
      | None => mret tt
      end;
  _ ← modify (fun self => set_frames self (<[frame := op]> (frame_operations self))
                            (<[op := frame]> (operation_frames self)));
  modify (update_registry_last_operation op).

Lemma register_no_panic d ops : (OperationRegistry.register d ops).1 <> Panic.
Proof.
  unfold OperationRegistry.register. cbv zeta. case_match eqn:E; [done|done|]. exfalso. revert E.
  unfold validate_descriptor_shape. guard_no_panic.
Qed.

(** The registration fails and changes nothing, or the operation is accepted. *)
Lemma submit_tail_cases op frame reserved s :
  inv s -> (forall md, reserved = Some md -> SchedulingMetadata.operation_id md = op) ->
  (exists e, submit_tail op frame reserved s = (Ready (Err e), set_operations s (operations s))) \/
  exists r, submit_tail op frame reserved s = (Ready (Ok tt), accepted op frame r s) /\
    OperationRegistry.operation (operations s) op = None /\
    OperationRecord.descriptor r = OperationDescriptor.new (session_id s) op /\
    OperationRecord.state r = OperationState.Accepted /\
    OperationRegistry.invariant (OperationRegistry.store (operations s) op r).
Proof.
  intros Hi Hres. unfold submit_tail, mbind, async_bind, gets, on_operations.
  destruct (OperationRegistry.register _ (operations s)) as [o ops] eqn:Hr.
  destruct o as [[]|e|]; simpl.
  2: { left. exists (Protocol e).
       pose proof (OperationRegistry.register_Err (OperationDescriptor.new (session_id s) op) (operations s)) as He.
       unfold outcome_of, state_after in He. rewrite Hr in He. simpl in He. by rewrite He. }
  2: { destruct (register_no_panic (OperationDescriptor.new (session_id s) op) (operations s)). by rewrite Hr. }
  right. pose proof (OperationRegistry.register_invariant _ _ _ Hr (inv_registry s Hi)) as Hinv.
  apply OperationRegistry.register_Ok in Hr as [(_ & Hnone & _) ->]. simpl in *.
  destruct reserved as [md|].
  - destruct (deadline_applies (session_id s) op (operations s) md (Hres md eq_refl))
      as (r & Hd & Hst & Happ). destruct (Happ _ eq_refl) as [schedule Hs].
    simpl in Hs |- *. rewrite Hs. simpl.
    exists r. split_and!; [done|done|done|done|].
    unfold OperationRegistry.invariant in *.
    replace (OperationRegistry.descriptors (OperationRegistry.store (operations s) op r))
      with (OperationRegistry.descriptors (OperationRegistry.store (operations s) op
              (OperationRecord.mk (OperationDescriptor.new (session_id s) op) OperationState.Accepted
                 OperationSchedule.default))); [done|].
    unfold OperationRegistry.descriptors, OperationRegistry.store. simpl. by rewrite !fmap_insert, Hd.
  - eexists. by split_and!.
Qed.

Lemma submit_tail_keeps op frame reserved :
  keeps inv (fun s => frame_operations s !! frame = None /\
               forall md, reserved = Some md -> SchedulingMetadata.operation_id md = op)
    (submit_tail op frame reserved) (fun _ _ => True).
Proof.
  intros s [Hi [Hf Hres]].
  destruct (submit_tail_cases op frame reserved s Hi Hres) as [[e ->]|(r & -> & Hn & Hd & Hst & Hinv)].
  - by apply inv_with_operations.
  - split; [|done]. apply inv_accepted; [done|done|done|by rewrite Hst|done|done].
Qed.

(** ** Reading an event *)

Definition decoded_ok (packet : RuntimePacket.t) (decoded : DecodedServerEvent.t) : Prop :=
  exists event, from_server (wire_header packet) decoded = Ok event /\ event_fits event.

(** A packet of one of the types becomes an event that can be handed out. *)
Definition decodes (types : list MessageType.t) (decode : RuntimePacket.t -> Async t DecodedServerEvent.t)
    : Prop :=
  forall packet, packet_type packet ∈ types ->
    keeps inv any (decode packet) (fun decoded _ => decoded_ok packet decoded).

(** The event has the type of its packet. *)
Ltac fits :=
  eexists; split; [reflexivity|];
  match goal with
  | H : packet_type _ ∈ _ |- event_fits _ =>
      unfold event_fits, packet_type in *; simpl;
      repeat (apply elem_of_cons in H as [H|H]; [rewrite H; eauto|]); by apply not_elem_of_nil in H
  end.

Ltac plain_event :=
  intros packet Hty; repeat walk_one; intros; fits.

Section decoders.
Context `{Htarget : Target}.

Lemma frame_submit_decodes : decodes [MessageType.FrameSubmit] decode_frame_submit.
Proof.
  intros packet Hty. unfold decode_frame_submit, handle_frame_submit_packet. cbv zeta.
  eapply keeps_bind; [|intros submit; apply keeps_ret; intros s _ H; exact H].
  do 6 walk_one.
  eapply keeps_bind; [apply take_keeps; auto with server|intros reserved; cbv beta].
  eapply (keeps_conseq _ _ (fun s => frame_operations s !! packet_frame packet = None /\
    forall md, reserved = Some md ->
      SchedulingMetadata.operation_id md = FrameSubmitMetadata.operation_id a2)); [|
    intros s _ [[_ Hf] Hr]; split; [|exact Hr]; apply reject_if_Ok in Hf;
    by destruct (frame_operations s !! packet_frame packet) |
    intros d s _ Hq; exact Hq].
  set (op := FrameSubmitMetadata.operation_id a2).
  set (finish := DecodedSubmit.mk op (packet_frame packet) a2 (RuntimePacket.body packet)).
  assert (decoded_ok packet (DecodedServerEvent.Submit finish)) as Hok by fits.
  eapply (keeps_ext _ _ _ (_ ← submit_tail op (packet_frame packet) reserved; mret finish)).
  - intros s. unfold submit_tail, mbind, async_bind, gets, modify, on_operations.
    destruct (OperationRegistry.register _ _) as [[u|e|] ops]; simpl; [|done..].
    destruct reserved as [md|]; simpl; [|done]. by destruct (OperationRegistry.apply_scheduling_update _ _ _ _) as [[]].
  - eapply keeps_bind; [apply submit_tail_keeps|intros ?; apply keeps_ret; intros; exact Hok].
Qed.

Lemma frame_cancel_decodes : decodes [MessageType.FrameCancel] decode_frame_cancel.
Proof.
  intros packet Hty. unfold decode_frame_cancel. do 4 walk_one.
  eapply keeps_bind; [apply (keeps_conseq _ _ any _ (fun _ => any) (fun _ => any)); [by apply cancel_keeps|done|done]|].
  intros cancelled. eapply keeps_bind; [by apply queue_all_keeps|intros ?].
  apply keeps_ret. intros. fits.
Qed.

Lemma partial_result_decodes : decodes [MessageType.PartialResult] decode_partial_result.
Proof. unfold decode_partial_result. plain_event. Qed.

Lemma progress_decodes : decodes [MessageType.Progress] decode_progress.
Proof. unfold decode_progress. plain_event. Qed.

Lemma result_drop_reason_decodes : decodes [MessageType.ResultDropReason] decode_result_drop_reason.
Proof. unfold decode_result_drop_reason. plain_event. Qed.

Lemma apply_control_keeps mt op F :
  mt = MessageType.Cancel \/ mt = MessageType.Abort -> unregistered F ->
  keeps inv F (apply_control mt op) (fun state _ => OperationState.is_terminal state = true).
Proof.
  intros Hmt HF. unfold apply_control. destruct Hmt as [-> | ->].
  - eapply keeps_bind; [by apply cancel_keeps|intros cancelled]. walk_one. by apply keeps_ret.
  - eapply keeps_bind; [apply (keeps_operations F); [|intros; apply abort_tame|done]|intros ?; by apply keeps_ret].
    intros ops. unfold OperationRegistry.abort. by repeat case_match.
Qed.

Lemma control_decodes : decodes [MessageType.Cancel; MessageType.Abort] decode_control.
Proof.
  intros packet Hty. unfold decode_control. do 3 walk_one. cbv zeta.
  apply keeps_bind_lift; [guard_no_panic|intros [] Hsem%protocol_Ok%control_semantics_type]. do 2 walk_one.
  apply (keeps_bind _ _ _ _ (fun _ _ => True)); [|intros ?; apply keeps_ret; intros; fits].
  destruct (negb _); [|by apply keeps_ret]. walk_one.
  eapply keeps_bind; [apply (keeps_conseq _ _ any _ (fun state _ => OperationState.is_terminal state = true)
    (fun state _ => OperationState.is_terminal state = true)); [by apply apply_control_keeps|done|done]|].
  intros state s [Hi Ht]. by apply (queue_keeps any _ _ Ht).
Qed.

Lemma scheduling_decodes :
  decodes [MessageType.PriorityUpdate; MessageType.Deadline; MessageType.ExpireAt] decode_scheduling.
Proof.
  intros packet Hty. unfold decode_scheduling. do 5 walk_one.
  apply (keeps_bind _ _ _ _ (fun _ _ => True)); [|intros ?; apply keeps_ret; intros; fits].
  destruct a3 as [frame|].
  - do 2 walk_one. eapply keeps_bind; [apply (keeps_conseq _ _ any _ (fun _ => any) (fun _ => any));
      [by apply scheduling_keeps|done|done]|intros ?; by apply keeps_ret].
  - case_bool_decide; [|by apply keeps_lift]. do 2 walk_one.
    apply (keeps_conseq _ _ any _ _ (fun _ => any)); [|done|done].
    apply keeps_deadlines; [intros; apply reserve_no_panic|intros d; by constructor|done].
Qed.

Lemma supersede_decodes : decodes [MessageType.Supersede] decode_supersede.
Proof.
  intros packet Hty. unfold decode_supersede. do 6 walk_one.
  eapply keeps_bind; [apply (keeps_conseq _ _ any _ (fun _ => any) (fun _ => any));
    [by apply transition_keeps|done|done]|intros ?].
  eapply keeps_bind; [by apply queue_keeps|intros ?; apply keeps_ret; intros; fits].
Qed.

Lemma budget_decodes : decodes [MessageType.BudgetUpdate] decode_budget.
Proof. unfold decode_budget. plain_event. Qed.

Lemma flow_update_decodes : decodes [MessageType.FlowUpdate] decode_flow_update.
Proof. unfold decode_flow_update. plain_event. Qed.

Lemma pressure_decodes : decodes [MessageType.Backpressure; MessageType.CreditUpdate] decode_pressure.
Proof.
  intros packet Hty. unfold decode_pressure. do 3 walk_one.
  apply keeps_bind_lift; [guard_no_panic|intros [] Hsem%protocol_Ok%pressure_semantics_type].
  eapply keeps_bind; [apply keeps_pressure; intros p; by destruct Hsem as [-> | ->]|intros u].
  apply keeps_ret. intros. fits.
Qed.

Lemma capability_decodes :
  decodes [MessageType.CapabilityNegotiation; MessageType.DegradeProfile] decode_capability.
Proof.
  intros packet Hty. unfold decode_capability. do 4 walk_one.
  apply keeps_bind_lift; [apply protocol_no_panic, decode_registered_no_panic|intros ? _].
  apply keeps_ret. intros. fits.
Qed.

Lemma route_hint_decodes : decodes [MessageType.RouteHint; MessageType.ExecutionHint] decode_route_hint.
Proof. unfold decode_route_hint. plain_event. Qed.

Lemma trace_context_decodes : decodes [MessageType.TraceContext] decode_trace_context.
Proof. unfold decode_trace_context. plain_event. Qed.

Lemma recoverable_error_decodes : decodes [MessageType.ErrorRecoverable] decode_recoverable_error.
Proof. unfold decode_recoverable_error. plain_event. Qed.

Lemma retry_after_decodes : decodes [MessageType.RetryAfter] decode_retry_after.
Proof. unfold decode_retry_after. plain_event. Qed.

Lemma object_declare_decodes : decodes [MessageType.ObjectDeclare] decode_object_declare.
Proof. unfold decode_object_declare. plain_event. Qed.

Lemma object_ref_decodes : decodes [MessageType.ObjectRef] decode_object_ref.
Proof. unfold decode_object_ref. plain_event. Qed.

Lemma object_release_decodes : decodes [MessageType.ObjectRelease] decode_object_release.
Proof. unfold decode_object_release. plain_event. Qed.

Lemma object_delta_decodes : decodes [MessageType.ObjectPatch; MessageType.ObjectDelta] decode_object_delta.
Proof.
  intros packet Hty. unfold decode_object_delta. do 2 walk_one.
  apply keeps_bind_lift; [guard_no_panic|intros m Hm%protocol_Ok].
  apply keeps_bind_lift; [guard_no_panic|intros ? Hl%reject_if_Ok].
  apply negb_false_iff, Z.eqb_eq in Hl. pose proof (delta_split_fits _ _ _ Hm Hl) as Hfit.
  apply keeps_ret. intros s _ _. unfold decoded_ok, from_server, split_off.
  rewrite (proj2 (Z.leb_le _ _) Hfit). fits.
Qed.

Lemma cache_reference_decodes : decodes [MessageType.CacheReference] decode_cache_reference.
Proof. unfold decode_cache_reference. plain_event. Qed.

Lemma cache_miss_decodes : decodes [MessageType.CacheMiss] decode_cache_miss.
Proof. unfold decode_cache_miss. plain_event. Qed.

Lemma cache_invalidate_decodes : decodes [MessageType.CacheInvalidate] decode_cache_invalidate.
Proof. unfold decode_cache_invalidate. plain_event. Qed.

Lemma session_close_decodes : decodes [MessageType.SessionClose] decode_session_close.
Proof.
  intros packet Hty. unfold decode_session_close. do 2 walk_one.
  eapply keeps_bind; [apply (keeps_lifecycle _ (ConnectionLifecycle.BeginSessionClose _ _))|intros ?].
  eapply keeps_bind; [apply (keeps_modify _ _ _ (fun _ _ => True)); intros; split; [by apply inv_with_close|done]|].
  intros ?. apply keeps_ret. intros. fits.
Qed.

Lemma decode_packet_keeps packet :
  keeps inv any (decode_packet packet) (fun decoded _ => decoded_ok packet decoded).
Proof.
  unfold decode_packet. destruct (packet_type packet) eqn:Hty;
    lazymatch goal with
    | |- keeps _ _ (decode_frame_submit _) _ => apply frame_submit_decodes
    | |- keeps _ _ (decode_frame_cancel _) _ => apply frame_cancel_decodes
    | |- keeps _ _ (decode_partial_result _) _ => apply partial_result_decodes
    | |- keeps _ _ (decode_progress _) _ => apply progress_decodes
    | |- keeps _ _ (decode_result_drop_reason _) _ => apply result_drop_reason_decodes
    | |- keeps _ _ (decode_control _) _ => apply control_decodes
    | |- keeps _ _ (decode_scheduling _) _ => apply scheduling_decodes
    | |- keeps _ _ (decode_supersede _) _ => apply supersede_decodes
    | |- keeps _ _ (decode_budget _) _ => apply budget_decodes
    | |- keeps _ _ (decode_flow_update _) _ => apply flow_update_decodes
    | |- keeps _ _ (decode_pressure _) _ => apply pressure_decodes
    | |- keeps _ _ (decode_capability _) _ => apply capability_decodes
    | |- keeps _ _ (decode_route_hint _) _ => apply route_hint_decodes
    | |- keeps _ _ (decode_trace_context _) _ => apply trace_context_decodes
    | |- keeps _ _ (decode_recoverable_error _) _ => apply recoverable_error_decodes
    | |- keeps _ _ (decode_retry_after _) _ => apply retry_after_decodes
    | |- keeps _ _ (decode_object_declare _) _ => apply object_declare_decodes
    | |- keeps _ _ (decode_object_ref _) _ => apply object_ref_decodes
    | |- keeps _ _ (decode_object_release _) _ => apply object_release_decodes
    | |- keeps _ _ (decode_object_delta _) _ => apply object_delta_decodes
    | |- keeps _ _ (decode_cache_reference _) _ => apply cache_reference_decodes
    | |- keeps _ _ (decode_cache_miss _) _ => apply cache_miss_decodes
    | |- keeps _ _ (decode_cache_invalidate _) _ => apply cache_invalidate_decodes
    | |- keeps _ _ (decode_session_close _) _ => apply session_close_decodes
    | |- _ => by apply keeps_lift
    end; rewrite Hty; repeat first [apply list_elem_of_here|apply list_elem_of_further].
Qed.

Lemma from_server_header header decoded event :
  from_server header decoded = Ok event -> NnrpRuntimeEvent.header event = header.
Proof. unfold from_server. intros ([md tail] & _ & [= <-])%bind_Ok. done. Qed.

Lemma operation_new_ok event :
  RuntimeFrameHeader.message_type (NnrpRuntimeEvent.header event) = MessageType.FrameSubmit ->
  event_fits event -> exists operation, NnrpServerOperation.new event = Ok operation /\ operation_ok operation.
Proof.
  unfold operation_ok, event_fits, NnrpServerOperation.new. intros Hty Hfit. rewrite Hty in Hfit |- *.
  destruct Hfit as (md & body & Hmd & Htl). rewrite Hmd.
  eexists. split; [reflexivity|]. simpl. rewrite Hty, Hmd. eauto.
Qed.

Lemma decode_server_event_keeps packet :
  keeps inv any (decode_server_event packet)
    (fun event _ => server_event_ok event /\ is_lifecycle (PendingServerInput.Event event) = false).
Proof.
  unfold decode_server_event. eapply keeps_bind; [apply decode_packet_keeps|intros decoded].
  intros s [Hi (event & Hev & Hfit)]. unfold mbind, async_bind, lift. rewrite Hev.
  case_bool_decide as Hty; [|done].
  destruct (operation_new_ok event Hty Hfit) as (operation & -> & Hok). done.
Qed.

End decoders.
