(* ===== verification/ServerMethods.v ===== *)
(** The methods of a server session keep its invariant and do not panic
    ([src/crates/nnrp-runtime/src/server.rs]). *)

From S2P Require Import Prelude Bytes Errors Enums Wire Header Session Flow Control Codes.
From S2P Require Import Lifecycle Capability RuntimeControl Operation Recovery Transport Route.
From S2P Require Import RuntimeError Packet Async Pressure PreSubmit Object Cache Data Schema.
From S2P Require Import Event Client SessionLogic Server ServerTheory.

Local Open Scope Z_scope.
Import NnrpClientSession(wire_header, packet_frame, packet_type, address, as_u32, set_trace, control_state).
Import NnrpServerSession.

(** ** What reading an event changes *)

(** The state changes of the code that reads an event. *)
Class reading (R : t -> t -> Prop) : Prop := {
  reading_preorder :: PreOrder R;
  reading_operations c s : R s (set_operations s (OperationRegistry.exec c (operations s)));
  reading_deadlines d s : R s (set_pre_submit_deadlines s d);
  reading_pressure p s : R s (set_pressure s p);
  reading_lifecycle l s : R s (set_lifecycle s l);
  reading_clock times s : R s (set_clock s times);
  reading_close close s : R s (set_pending_close s close);
  reading_sessions registry s : R s (set_sessions s registry);
  reading_bound frame op s : frame_operations s !! frame = None ->
    R s (set_frames s (<[frame := op]> (frame_operations s)) (<[op := frame]> (operation_frames s)));
  reading_push event s : ensure_pending_capacity s = Ok tt -> R s (push_lifecycle event s)
}.

Section reading.
Context `{Htarget : Target} (R : t -> t -> Prop) `{HR : !reading R}.

Lemma within_on_operations {A} (c : OperationRegistry.call) (m : Method OperationRegistry.t NnrpError A) :
  (forall ops, (m ops).2 = OperationRegistry.exec c ops) -> within R (on_operations m).
Proof.
  intros Hm s. specialize (Hm (operations s)). unfold on_operations.
  destruct (m (operations s)). simpl in *. subst. apply reading_operations.
Qed.

Lemma within_on_deadlines {A} (m : Method PreSubmitDeadlineReservations.t RuntimeError A) :
  within R (on_deadlines m).
Proof. intros s. unfold on_deadlines. destruct (m _). apply reading_deadlines. Qed.

Lemma within_on_pressure {A} (m : Method RuntimePressureState.t NnrpError A) : within R (on_pressure m).
Proof. intros s. unfold on_pressure. destruct (m _). apply reading_pressure. Qed.

Lemma within_on_lifecycle {A} (m : Method ConnectionLifecycle.t NnrpError A) : within R (on_lifecycle m).
Proof. intros s. unfold on_lifecycle. destruct (m _). apply reading_lifecycle. Qed.

Lemma within_on_clock : within R current_unix_ms.
Proof. intros s. unfold current_unix_ms. case_match; [reflexivity|apply reading_clock]. Qed.

Lemma within_queue op state : within R (queue_lifecycle op state).
Proof.
  intros s. unfold queue_lifecycle. apply within_checked; [apply _|intros [] Hc].
  apply within_lifted; [apply _|intros event _]. by apply reading_push.
Qed.

Lemma within_queue_all ops state : within R (queue_lifecycles ops state).
Proof.
  induction ops as [|op ops IH]; [by intros s|]. simpl.
  apply within_bind; [apply _|apply within_queue|done].
Qed.

End reading.

(** The walk through a body, by the head of what is left of it. *)
Ltac within_reading :=
  repeat (cbv beta zeta;
    lazymatch goal with
    | |- within _ (mbind _ _) => apply within_bind; [by apply _| |intros ?]
    | |- within _ (lift _) => apply within_pure; [by apply _|intros ?; reflexivity]
    | |- within _ (check _) => apply within_pure; [by apply _|intros ?; reflexivity]
    | |- within _ (gets _) => apply within_pure; [by apply _|intros ?; reflexivity]
    | |- within _ (mret _) => apply within_pure; [by apply _|intros ?; reflexivity]
    | |- within _ (on_operations (OperationRegistry.register ?d)) =>
        apply (within_on_operations _ (OperationRegistry.Register d)); reflexivity
    | |- within _ (on_operations (OperationRegistry.transition ?op ?st)) =>
        apply (within_on_operations _ (OperationRegistry.Transition op st)); reflexivity
    | |- within _ (on_operations (OperationRegistry.complete ?op)) =>
        apply (within_on_operations _ (OperationRegistry.Complete op)); reflexivity
    | |- within _ (on_operations (OperationRegistry.abort ?op)) =>
        apply (within_on_operations _ (OperationRegistry.Abort op)); reflexivity
    | |- within _ (on_operations (OperationRegistry.expire_if_stale ?op ?now)) =>
        apply (within_on_operations _ (OperationRegistry.ExpireIfStale op now)); reflexivity
    | |- within _ (on_operations (OperationRegistry.apply_scheduling_update ?s ?mt ?md)) =>
        apply (within_on_operations _ (OperationRegistry.ApplySchedulingUpdate s mt md)); reflexivity
    | |- within _ (on_operations (OperationRegistry.cancel ?r)) =>
        apply (within_on_operations _ (OperationRegistry.Cancel r)); reflexivity
    | |- within _ (on_deadlines _) => apply within_on_deadlines; by apply _
    | |- within _ (on_pressure _) => apply within_on_pressure; by apply _
    | |- within _ (on_lifecycle _) => apply within_on_lifecycle; by apply _
    | |- within _ current_unix_ms => apply within_on_clock; by apply _
    | |- within _ (queue_lifecycle _ _) => apply within_queue; by apply _
    | |- within _ (queue_lifecycles _ _) => apply within_queue_all; by apply _
    | |- within _ (modify _) =>
        apply within_modify; intros ?; first [apply reading_close|apply reading_sessions]
    | |- within _ (match _ with _ => _ end) => case_match
    | |- within _ ?m => let h := head_of m in unfold h
    end).

Section decoding.
Context `{Htarget : Target} (R : t -> t -> Prop) `{HR : !reading R}.

(** The frame stays free until the submission binds it. *)
Lemma within_frame_submit packet : within R (decode_frame_submit packet).
Proof.
  unfold decode_frame_submit, handle_frame_submit_packet. cbv zeta.
  apply within_bind; [apply _| |intros submit; by within_reading].
  do 4 (apply within_bind; [apply _|by within_reading|intros ?]).
  intros s. apply within_checked; [apply _|intros [] Hf%reject_if_Ok].
  assert (frame_operations s !! packet_frame packet = None) as Hfree
    by (by destruct (frame_operations s !! packet_frame packet)).
  clear Hf. set (F := fun s : t => frame_operations s !! packet_frame packet = None).
  repeat (eapply (within_then R F);
    [by within_reading | | exact Hfree | clear s Hfree; intros ? s Hfree]).
  - intros s1 H1. unfold current_unix_ms. by case_match.
  - intros s1 H1. unfold on_deadlines. by case_match.
  - done.
  - intros s1 H1. unfold on_operations. by case_match.
  - intros s1 H1. case_match; [|done]. unfold mbind, async_bind, on_operations.
    destruct (OperationRegistry.apply_scheduling_update _ _ _ _) as [[]]; done.
  - unfold mbind, async_bind, modify. cbv beta iota. etrans; [by apply reading_bound|].
    apply reading_sessions.
Qed.

Lemma within_decode packet : within R (decode_server_event packet).
Proof.
  unfold decode_server_event. apply within_bind; [apply _| |intros decoded; by within_reading].
  unfold decode_packet. destruct (packet_type packet) eqn:Hty;
    lazymatch goal with
    | |- within _ (decode_frame_submit _) => apply within_frame_submit
    | |- _ => by within_reading
    end.
Qed.

End decoding.

(** Reading an event does not use the transport, and queues within the limit. *)
Definition quiet (s s' : t) : Prop :=
  transport s' = transport s /\ (short (pending_inputs s) -> short (pending_inputs s')).

#[export] Instance quiet_reading : reading quiet.
Proof.
  split; unfold quiet.
  - split; [done|]. intros s1 s2 s3 [Ht Hs] [Ht' Hs']. split; [congruence|auto].
  - done.
  - done.
  - done.
  - done.
  - done.
  - done.
  - done.
  - done.
  - intros event s Hc%pending_capacity. split; [done|]. intros _. unfold short. simpl.
    rewrite len_app. change (len [_]) with 1. lia.
Qed.

(** ** Receiving *)

Section receiving.
Context `{Htarget : Target}.
Implicit Types input : PendingServerInput.t.

(** What becomes of a packet that was read. *)
Definition take_in (packet : RuntimePacket.t) : Async t PendingServerInput.t :=
  now ← current_unix_ms;
  _ ← check (fun self => PreSubmitDeadlineReservations.reject_expired (pre_submit_deadlines self) now);
  if is_dedicated_role_message (packet_type packet)
  then mret (PendingServerInput.RolePacket packet)
  else
    event ← decode_server_event packet;
    mret (PendingServerInput.Event event).

(** An input that a receiver may get. *)
Definition received_ok (input : PendingServerInput.t) : Prop :=
  input_ok input /\ is_lifecycle input = false.

Lemma take_in_keeps packet : keeps inv any (take_in packet) (fun input _ => received_ok input).
Proof.
  unfold take_in. do 2 walk_one. destruct (is_dedicated_role_message (packet_type packet)) eqn:Hd.
  - apply keeps_ret. by intros.
  - eapply keeps_bind; [eapply keeps_conseq; [apply decode_server_event_keeps|done|intros ? ? _ H; exact H]|].
    intros event. apply keeps_ret. by intros s _ [Hok Hl].
Qed.

Lemma take_in_within packet : within quiet (take_in packet).
Proof.
  unfold take_in. do 2 (apply within_bind; [apply _|by within_reading|intros ?]).
  case_match; [by within_reading|]. apply within_bind; [apply _|apply within_decode, _|intros ?].
  by within_reading.
Qed.

(** The first result that is left is used up. *)
Lemma read_left_keeps (reads : list (RT RuntimePacket.t)) G :
  keeps inv (fun s => reads_left s = reads /\ (G -> short (pending_inputs s))) read_packet
    (fun _ s => (exists r, reads = r :: reads_left s) /\ (G -> short (pending_inputs s))).
Proof.
  intros s [Hi [Hs HG]]. pose proof (keeps_read any ltac:(done) s (conj Hi I)) as Hr.
  unfold read_packet, on_transport, FramedTransport.read_packet, reads_left in *.
  destruct (FramedTransport.reads (transport s)) as [|r rest] eqn:E; simpl in *; [by destruct Hr|].
  destruct r; simpl in *; [|by destruct Hr..]. destruct Hr as [Hr _]. split; [done|]. split; [by exists (Ok a)|done].
Qed.

Lemma read_next_keeps (reads : list (RT RuntimePacket.t)) G :
  keeps inv (fun s => reads_left s = reads /\ (G -> short (pending_inputs s))) read_next_input
    (fun input s => received_ok input /\ (exists r, reads = r :: reads_left s) /\
       (G -> short (pending_inputs s))).
Proof.
  unfold read_next_input. eapply keeps_bind; [apply read_left_keeps|]. intros packet.
  apply (keeps_within quiet _ _ (take_in packet)); [apply take_in_keeps|apply take_in_within|].
  unfold reads_left. intros s s' [Ht Hsh] [Hr HG]. rewrite Ht. auto.
Qed.

(** Reading, with the queue within its limit before and after. *)
Lemma read_next_short :
  keeps inv (fun s => short (pending_inputs s)) read_next_input
    (fun input s => received_ok input /\ short (pending_inputs s)).
Proof.
  intros s [Hi Hs]. pose proof (read_next_keeps (reads_left s) True s (conj Hi (conj eq_refl (fun _ => Hs)))) as H.
  destruct (read_next_input s) as [[[input|e|]|] s']; [|done..]. naive_solver.
Qed.

Lemma read_next_sound : keeps inv any read_next_input (fun input _ => received_ok input).
Proof.
  intros s [Hi _]. pose proof (read_next_keeps (reads_left s) False s) as H.
  specialize (H (conj Hi (conj eq_refl (fun f => False_ind _ f)))).
  destruct (read_next_input s) as [[[input|e|]|] s']; [|done..]. naive_solver.
Qed.

(** *** The queue *)

Lemma split_specialized_ok inputs input rest :
  split_specialized inputs = Some (input, rest) -> Forall input_ok inputs -> room inputs ->
  received_ok input /\ Forall input_ok rest /\ short rest.
Proof.
  intros Hs Hok Hroom. assert (received_ok input /\ Forall input_ok rest /\ len inputs = len rest + 1) as (Hr & Hf & Hl).
  { clear Hroom. revert rest Hs Hok. induction inputs as [|i inputs IH]; intros rest; simpl; [done|].
    destruct (is_lifecycle i) eqn:Hi.
    - destruct (split_specialized inputs) as [[found rest']|]; [|done]. intros [= -> <-] [Hoi Hok]%Forall_cons.
      destruct (IH rest' eq_refl Hok) as (Hr & Hf & Hl). split; [done|]. split; [by constructor|].
      rewrite !len_cons. lia.
    - intros [= -> ->] [Hoi Hok]%Forall_cons. split; [done|]. split; [done|]. rewrite len_cons. lia. }
  split_and!; [done|done|]. unfold room, short in *. unfold MAX_PENDING_SERVER_INPUTS in *. lia.
Qed.

(** Nothing to take: the queue holds lifecycle events only, and is within its limit. *)
Lemma split_specialized_None inputs : split_specialized inputs = None -> room inputs -> short inputs.
Proof.
  intros Hs [Hr|[_ He]]; [done|]. exfalso. revert Hs. induction He as [i inputs Hi|i inputs He IH]; simpl.
  - by rewrite Hi.
  - destruct (is_lifecycle i); [|done]. by destruct (split_specialized inputs) as [[]|]; [|intros _; apply IH].
Qed.

Lemma next_specialized_keeps :
  keeps inv any next_specialized_input (fun input s => received_ok input /\ short (pending_inputs s)).
Proof.
  intros s [Hi _]. unfold next_specialized_input, mbind, async_bind, take_pending_specialized_input.
  destruct (split_specialized (pending_inputs s)) as [[input rest]|] eqn:Hs.
  - apply split_specialized_ok in Hs as (Hr & Hf & Hsh); [|apply (inv_inputs s Hi)|apply (inv_room s Hi)].
    split; [|done]. apply inv_with_inputs; [done|by left|done].
  - apply split_specialized_None in Hs; [|apply (inv_room s Hi)]. by apply read_next_short.
Qed.

(** What is put back may make the queue one longer than its limit. *)
Lemma put_back_keeps {A} input error (Q : A -> t -> Prop) :
  received_ok input -> keeps inv (fun s => short (pending_inputs s)) (put_back input error) Q.
Proof.
  intros [Hok Hl] s [Hi Hs]. unfold put_back, mbind, async_bind, modify, lift. simpl.
  apply inv_with_inputs; [constructor; [done|apply (inv_inputs s Hi)]| |done].
  unfold short in Hs. unfold room, short. rewrite len_cons.
  destruct (decide (len (pending_inputs s) = MAX_PENDING_SERVER_INPUTS)) as [He|Hne].
  - right. split; [lia|by left].
  - left. lia.
Qed.

Lemma receive_matching_keeps accepts error :
  keeps inv any (receive_event_matching accepts error)
    (fun event _ => event_fits event /\
       accepts (RuntimeFrameHeader.message_type (NnrpRuntimeEvent.header event)) = true).
Proof.
  unfold receive_event_matching. eapply keeps_bind; [apply next_specialized_keeps|intros input].
  cbv beta. eapply (keeps_conseq _ _ (fun s => received_ok input /\ short (pending_inputs s))); [|done|intros ? ? _ H; exact H].
  intros s [Hi [Hr Hs]].
  assert (forall A (Q : A -> t -> Prop), keeps inv (fun s => short (pending_inputs s)) (put_back input error) Q)
    as Hput by (intros; by apply put_back_keeps).
  destruct input as [[operation|event|event]|packet]; try (by apply Hput).
  destruct (accepts _) eqn:Ha; [|by apply Hput]. by destruct Hr as [Hr _].
Qed.

Lemma receive_role_keeps expected error :
  keeps inv any (receive_role_packet expected error) (fun _ _ => True).
Proof.
  unfold receive_role_packet. eapply keeps_bind; [apply next_specialized_keeps|intros input].
  cbv beta. intros s [Hi [Hr Hs]].
  assert (forall A (Q : A -> t -> Prop), keeps inv (fun s => short (pending_inputs s)) (put_back input error) Q)
    as Hput by (intros; by apply put_back_keeps).
  destruct input as [event|packet]; [by apply Hput|]. case_bool_decide; [done|by apply Hput].
Qed.

(** *** The receivers *)

Lemma receive_event_sound expected error :
  keeps inv any (receive_runtime_event expected error)
    (fun event _ => event_fits event /\
       RuntimeFrameHeader.message_type (NnrpRuntimeEvent.header event) = expected).
Proof.
  unfold receive_runtime_event. eapply keeps_conseq; [apply receive_matching_keeps|done|].
  intros event s _ [Hf Ht%bool_decide_eq_true]. done.
Qed.

Lemma receive_cancel_sound : sound receive_cancel.
Proof. unfold receive_cancel. eapply keeps_bind; [apply receive_event_sound|intros ?; by apply keeps_ret]. Qed.

(** The event that a receiver takes apart has the parts that it expects. *)
Ltac takes_apart :=
  intros event s [Hi [Hfit Ht]]; unfold event_fits in Hfit;
  destruct (RuntimeFrameHeader.message_type (NnrpRuntimeEvent.header event)); try discriminate Ht;
  repeat match type of Hfit with
  | ex _ => destruct Hfit as [? Hfit]
  | _ /\ _ => destruct Hfit as [? Hfit]
  end;
  repeat match goal with
  | H : NnrpRuntimeEvent.metadata _ = _ |- _ => rewrite H; clear H
  | H : NnrpRuntimeEvent.tail _ = _ |- _ => rewrite H; clear H
  end; done.

Lemma receive_control_sound : sound receive_runtime_control.
Proof. unfold receive_runtime_control. eapply keeps_bind; [apply receive_matching_keeps|takes_apart]. Qed.

Lemma receive_scheduling_sound : sound receive_scheduling_update.
Proof. unfold receive_scheduling_update. eapply keeps_bind; [apply receive_matching_keeps|takes_apart]. Qed.

Lemma receive_pressure_sound : sound receive_pressure_update.
Proof. unfold receive_pressure_update. eapply keeps_bind; [apply receive_matching_keeps|takes_apart]. Qed.

Lemma receive_close_sound : sound receive_close.
Proof. unfold receive_close. eapply keeps_bind; [apply receive_event_sound|takes_apart]. Qed.

(** The search goes on behind an input. *)
Ltac search :=
  match goal with
  | Hf : match find_submit ?l with _ => _ end = _, IH : forall r, _, Hok : Forall _ ?l |- _ =>
      destruct (find_submit l) as [[[operation rest]|e|]|]; try done; injection Hf as <-;
      specialize (IH _ eq_refl Hok); simpl in IH |- *; try done;
      destruct IH as (? & ? & ?); rewrite len_cons; split_and!; [done|by constructor|lia]
  end.

(** Found in the queue: an operation, or a close before it. *)
Lemma find_submit_ok inputs r :
  find_submit inputs = Some r -> Forall input_ok inputs ->
  match r with
  | Ok (operation, rest) => operation_ok operation /\ Forall input_ok rest /\ len rest < len inputs
  | Err _ => True
  | Panic => False
  end.
Proof.
  revert r. induction inputs as [|input inputs IH]; intros r; simpl; [done|].
  intros Hf [Hi Hok]%Forall_cons. rewrite len_cons.
  destruct input as [[operation|event|event]|packet]; simpl in Hf.
  - injection Hf as <-. split_and!; [done|done|lia].
  - destruct (is_close event); [by injection Hf as <-|]. search.
  - search.
  - search.
Qed.

Lemma retain_reads input reads :
  input_ok input ->
  keeps inv (fun s => reads_left s = reads) (retain_pending_input input) (fun _ s => reads_left s = reads).
Proof.
  intros Hok s [Hi Hr]. pose proof (retain_keeps any input Hok s (conj Hi I)) as H.
  unfold retain_pending_input, mbind, async_bind, check in *.
  destruct (ensure_pending_capacity s); [|done..]. by destruct H.
Qed.

(** Each turn uses up a result of the transport, so the loop ends within the reads to come. *)
Lemma await_submit_keeps reads :
  keeps inv (fun s => reads_left s = reads) (await_submit reads) (fun operation _ => operation_ok operation).
Proof.
  induction reads as [|r reads IH]; simpl.
  - eapply keeps_bind; [eapply keeps_conseq; [apply (read_next_keeps [] False)|by intros|intros ? ? _ H; exact H]|].
    intros input s [_ (_ & [? [=]] & _)].
  - eapply keeps_bind; [eapply keeps_conseq; [apply (read_next_keeps (r :: reads) False)|by intros|intros ? ? _ H; exact H]|].
    intros input. cbv beta.
    eapply (keeps_conseq _ _ (fun s => received_ok input /\ reads_left s = reads));
      [|by intros s _ (? & [? [= -> ?]] & _)|intros ? ? _ H; exact H].
    assert (forall b : bool, input_ok input ->
      keeps inv (fun s => received_ok input /\ reads_left s = reads)
        (_ ← retain_pending_input input; if b then lift closed_while_waiting else await_submit reads)
        (fun operation _ => operation_ok operation)) as Hkeep.
    { intros b Hok. eapply keeps_bind.
      - eapply keeps_conseq; [by apply (retain_reads input reads)|by intros s _ []|intros ? ? _ H; exact H].
      - intros ?. destruct b; [by apply keeps_lift|exact IH]. }
    intros s [Hi [[Hok Hl] Hr]].
    destruct input as [[operation|event|event]|packet]; [done| |apply (Hkeep false)|apply (Hkeep false)];
      try done. by apply (Hkeep (is_close event)).
Qed.

Lemma receive_submit_keeps : keeps inv any receive_submit (fun operation _ => operation_ok operation).
Proof.
  unfold receive_submit. apply keeps_bind_gets. intros inputs s [Hi [_ <-]].
  destruct (find_submit (pending_inputs s)) as [r|] eqn:Hf.
  - apply find_submit_ok in Hf; [|apply (inv_inputs s Hi)].
    destruct r as [[operation rest]|e|]; [|done..]. destruct Hf as (Hop & Hrest & Hlen).
    split; [|done]. simpl. apply inv_with_inputs; [done| |done].
    left. pose proof (inv_room s Hi) as Hroom. unfold room, short, MAX_PENDING_SERVER_INPUTS in *. lia.
  - unfold mbind, async_bind, gets. by apply (await_submit_keeps (reads_left s)).
Qed.

Lemma await_event_keeps : keeps inv any await_event (fun event _ => server_event_ok event).
Proof.
  unfold await_event. apply keeps_bind_gets. intros inputs s [Hi [_ <-]].
  pose proof (inv_inputs s Hi) as Hok. pose proof (inv_room s Hi) as Hroom.
  destruct (pending_inputs s) as [|[event|packet] rest] eqn:Hq.
  - pose proof (read_next_sound s (conj Hi I)) as H. unfold mbind, async_bind.
    destruct (read_next_input s) as [[[input|e|]|] s']; [|done..]. destruct H as [Hi' [Hin Hl]].
    destruct input as [event|packet]; [done|].
    pose proof (retain_keeps any (PendingServerInput.RolePacket packet) Hin s' (conj Hi' I)) as H.
    destruct (retain_pending_input _ s') as [[[[]|e|]|] s'']; try done. by destruct H.
  - apply Forall_cons in Hok as [Hev Hok]. split; [|done]. simpl. apply inv_with_inputs; [done| |done].
    left. unfold room, short, MAX_PENDING_SERVER_INPUTS in *. rewrite len_cons in Hroom. lia.
  - done.
Qed.

(** *** Dedicated packets *)

Lemma inv_with_cache s objects :
  NoDup objects -> (max_cache_objects s <> 0 -> len objects <= Z.max 0 (max_cache_objects s)) ->
  inv s -> inv (set_cache_objects s objects).
Proof. intros Hn Hl []. by split. Qed.

Lemma track_sound object : sound (track_cache_object object).
Proof.
  intros s [Hi _]. unfold track_cache_object. case_bool_decide as Hin; [done|].
  destruct (negb _ && _) eqn:Hfull; [done|]. split; [|done]. apply inv_with_cache; [| |done].
  - apply NoDup_app. split_and!; [apply (inv_cache s Hi)| |apply NoDup_singleton].
    by intros x Hx ->%list_elem_of_singleton.
  - intros Hmax. rewrite len_app. change (len [object]) with 1. lia.
Qed.

(** A receiver of dedicated packets: checks of the packet follow. *)
Ltac role_checks :=
  unfold sound; eapply keeps_bind; [apply receive_role_keeps|intros packet]; repeat walk_one; try done.

Lemma receive_cache_put_keeps : sound receive_cache_put.
Proof.
  unfold receive_cache_put. role_checks.
  eapply keeps_bind; [eapply keeps_conseq; [apply track_sound|done|intros ? ? _ Hq; exact Hq]|intros ?].
  by apply keeps_ret.
Qed.

Lemma receive_cache_ack_keeps : sound receive_cache_ack.
Proof. unfold receive_cache_ack. role_checks. Qed.

Lemma receive_empty_keeps expected error : sound (receive_empty_role_message expected error).
Proof. unfold receive_empty_role_message. role_checks. Qed.

Lemma receive_patch_keeps : sound receive_patch.
Proof. unfold receive_patch. role_checks. Qed.

Lemma receive_migrate_keeps : sound receive_migrate.
Proof. unfold receive_migrate. role_checks. Qed.

End receiving.

(** ** Sending *)

Section sending.
Context `{Htarget : Target}.
Implicit Types F : t -> Prop.

Lemma write_parts_keeps F header metadata body :
  CommonHeader.message_type header <> MessageType.ResultPush -> metadata <> Panic -> untouched F ->
  keeps inv F (write_parts header metadata body) (fun _ => F).
Proof.
  intros Hty Hmd HF. unfold write_parts. apply keeps_bind_lift; [by apply protocol_no_panic|intros bytes _].
  apply keeps_bind_lift; [guard_no_panic|intros packet (Hh & _)%protocol_Ok%packet_new_header].
  apply keeps_write; [|done]. unfold packet_type. by rewrite Hh.
Qed.

Lemma send_as_keeps F mt n frame metadata body :
  mt <> MessageType.ResultPush -> metadata <> Panic -> untouched F ->
  keeps inv F (send_as mt n frame metadata body) (fun _ => F).
Proof.
  intros Hmt Hmd HF. unfold send_as. apply keeps_bind_gets. intros sid.
  eapply keeps_conseq; [by apply (write_parts_keeps F)|by intros s _ []|done].
Qed.

Lemma runtime_send_keeps F mt frame metadata body :
  mt <> MessageType.ResultPush -> metadata <> Panic -> untouched F ->
  keeps inv F (send mt frame metadata body) (fun _ => F).
Proof.
  intros Hmt Hmd HF. unfold send, write_runtime_packet.
  apply keeps_bind_lift; [by apply protocol_no_panic|intros bytes _]. apply keeps_bind_gets. intros sid.
  apply keeps_bind_lift; [guard_no_panic|intros packet (Hh & _)%protocol_Ok%packet_new_header].
  eapply keeps_conseq; [apply (keeps_write F); [|done]|by intros s _ []|done].
  unfold packet_type. by rewrite Hh.
Qed.

(** A sender: checks, then one packet. *)
Ltac sends :=
  unfold sound; repeat walk_one;
  lazymatch goal with
  | |- keeps _ _ (send_as _ _ _ _ _) _ =>
      eapply keeps_conseq; [apply (send_as_keeps any); [|codec_no_panic|done]|done|done]
  | |- keeps _ _ (send _ _ _ _) _ =>
      eapply keeps_conseq; [apply (runtime_send_keeps any); [|codec_no_panic|done]|done|done]
  | |- keeps _ _ (write_parts _ _ _) _ =>
      eapply keeps_conseq; [apply (write_parts_keeps any); [|codec_no_panic|done]|done|done]
  end.

Lemma send_operation_partial_result_keeps md body : sound (send_operation_partial_result_for_binding md body).
Proof. unfold send_operation_partial_result_for_binding. by sends. Qed.

Lemma send_operation_progress_keeps md body : sound (send_operation_progress_for_binding md body).
Proof. unfold send_operation_progress_for_binding. by sends. Qed.

Lemma write_drop_reason_keeps F md body :
  untouched F -> keeps inv F (write_result_drop_reason md body) (fun _ => F).
Proof.
  intros HF. unfold write_result_drop_reason. walk_one.
  eapply keeps_conseq; [apply (send_as_keeps F); [done|codec_no_panic|done]|by intros s _ []|done].
Qed.

Lemma scheduling_semantics_type mt md :
  validate_scheduling_semantics mt md = Ok tt -> is_scheduling mt = true.
Proof. unfold validate_scheduling_semantics. by destruct mt. Qed.

Lemma send_scheduling_update_keeps mt md : sound (send_scheduling_update mt md).
Proof.
  unfold send_scheduling_update. apply keeps_bind_lift; [guard_no_panic|].
  intros [] Hs%protocol_Ok%scheduling_semantics_type. sends. by intros ->.
Qed.

Lemma update_budget_keeps md : sound (update_budget md).
Proof. unfold update_budget. by sends. Qed.

Lemma send_capability_keeps mt md body : sound (send_capability mt md body).
Proof.
  unfold send_capability. apply keeps_bind_lift; [guard_no_panic|intros [] Ht]. walk_one.
  apply keeps_bind_lift; [apply protocol_no_panic, decode_registered_no_panic|intros ? _]. sends.
  by intros ->.
Qed.

Lemma send_route_hint_keeps mt md body : sound (send_route_hint mt md body).
Proof.
  unfold send_route_hint. apply keeps_bind_lift; [guard_no_panic|intros [] Ht]. sends. by intros ->.
Qed.

Lemma send_object_declare_keeps md body : sound (send_object_declare md body).
Proof. unfold send_object_declare. by sends. Qed.

Lemma send_object_ref_keeps md body : sound (send_object_ref md body).
Proof. unfold send_object_ref. by sends. Qed.

Lemma send_object_release_keeps md body : sound (send_object_release md body).
Proof. unfold send_object_release. by sends. Qed.

Lemma send_object_delta_keeps mt md body : sound (send_object_delta mt md body).
Proof.
  unfold send_object_delta. apply keeps_bind_lift; [guard_no_panic|intros [] Ht]. sends. by intros ->.
Qed.

Lemma send_cache_put_keeps md body : sound (send_cache_put md body).
Proof.
  unfold send_cache_put. walk_one.
  eapply keeps_bind; [eapply keeps_conseq; [apply track_sound|done|intros ? ? _ Hq; exact Hq]|intros ?].
  by sends.
Qed.

Lemma send_cache_ack_keeps md : sound (send_cache_ack md).
Proof. unfold send_cache_ack. by sends. Qed.

Lemma write_empty_keeps mt : mt <> MessageType.ResultPush -> sound (write_empty_role_message mt).
Proof. intros Hmt. unfold write_empty_role_message. by apply (send_as_keeps any). Qed.

Lemma send_cache_reference_keeps md body : sound (send_cache_reference md body).
Proof. unfold send_cache_reference. by sends. Qed.

Lemma send_cache_miss_keeps md body : sound (send_cache_miss md body).
Proof. unfold send_cache_miss. by sends. Qed.

Lemma send_cache_invalidate_keeps md : sound (send_cache_invalidate md).
Proof. unfold send_cache_invalidate. by sends. Qed.

Lemma send_backpressure_keeps md : sound (send_backpressure md).
Proof. unfold send_backpressure. walk_one. eapply keeps_bind; [by apply keeps_pressure|intros ?]. by sends. Qed.

Lemma send_credit_update_keeps md : sound (send_credit_update md).
Proof. unfold send_credit_update. walk_one. eapply keeps_bind; [by apply keeps_pressure|intros ?]. by sends. Qed.

Lemma send_trace_context_keeps frame md body : sound (send_trace_context frame md body).
Proof. unfold send_trace_context. by sends. Qed.

Lemma send_recoverable_error_keeps md body : sound (send_recoverable_error md body).
Proof. unfold send_recoverable_error. by sends. Qed.

Lemma send_retry_after_keeps md body : sound (send_retry_after md body).
Proof. unfold send_retry_after. by sends. Qed.

Lemma send_result_hint_keeps md : sound (send_result_hint md).
Proof. unfold send_result_hint. by sends. Qed.

Lemma send_patch_ack_keeps ack : sound (send_patch_ack ack).
Proof. unfold send_patch_ack. by sends. Qed.

Lemma send_flow_update_keeps md : sound (send_flow_update md).
Proof. unfold send_flow_update. sends. by destruct (FlowUpdateMetadata.scope_kind md). Qed.

Lemma send_migrate_ack_keeps request ack : sound (send_migrate_ack request ack).
Proof. unfold send_migrate_ack. by sends. Qed.

(** ** Ending an operation *)

(** A transition elsewhere than to [Completed], and its event. *)
Lemma end_keeps op state F :
  state <> OperationState.Completed -> OperationState.is_terminal state = true ->
  keeps inv F
    (_ ← on_operations (OperationRegistry.transition op state); queue_lifecycle op state)
    (fun _ _ => True).
Proof.
  intros Hne Ht. eapply keeps_bind; [|intros ?; by apply queue_keeps].
  apply (keeps_conseq _ _ any _ (fun _ => any) (fun _ => any)); [by apply transition_keeps|done|done].
Qed.

Lemma send_result_drop_keeps md body : sound (send_operation_result_drop_for_binding md body).
Proof.
  unfold send_operation_result_drop_for_binding. do 3 walk_one.
  eapply (keeps_bind _ _ _ _ (fun _ => any)).
  - case_match; [|by apply keeps_ret]. by apply keeps_check; [intros; guard_no_panic|].
  - intros ?. eapply keeps_bind; [by apply (write_drop_reason_keeps any)|intros ?].
    case_match; [by apply end_keeps|by apply keeps_ret].
Qed.

Lemma control_state_ends mt state :
  control_state mt = Ok state -> state <> OperationState.Completed.
Proof. by destruct mt; intros [= <-]. Qed.

Lemma control_type_sends mt md :
  validate_control_request_semantics mt md = Ok tt -> mt <> MessageType.ResultPush.
Proof. by intros [-> | ->]%control_semantics_type. Qed.

(** A method checks that an operation can move before it says so. *)
Lemma require_transition_no_panic op state s : require_operation_transition op state s <> Panic.
Proof.
  unfold require_operation_transition, operation_transition_required, operation_state.
  destruct (OperationRegistry.operation (operations s) op); simpl; [|done]. case_match; [done|].
  by destruct (OperationState.can_transition_to _ _).
Qed.

Lemma send_control_request_keeps mt md body : sound (send_control_request mt md body).
Proof.
  unfold send_control_request. cbv zeta. unfold sound.
  apply keeps_bind_lift; [guard_no_panic|intros [] Hs%protocol_Ok]. pose proof (control_type_sends _ _ Hs) as Hmt.
  do 2 walk_one. case_match; [by sends|].
  apply keeps_bind_lift; [by destruct mt|intros state Hst].
  apply keeps_bind_check; [intros; apply require_transition_no_panic|intros ?]. walk_one.
  eapply keeps_bind; [|intros ?; apply end_keeps; [by eapply control_state_ends|by eapply control_state_terminal]].
  by sends.
Qed.

Lemma supersede_operation_keeps md body : sound (supersede_operation md body).
Proof.
  unfold supersede_operation. do 2 walk_one.
  apply keeps_bind_check; [intros; apply require_transition_no_panic|intros ?]. walk_one.
  eapply keeps_bind; [|intros ?; by apply end_keeps]. by sends.
Qed.

Lemma send_expired_keeps op schedule F : keeps inv F (send_expired op schedule) (fun _ _ => True).
Proof.
  unfold send_expired. walk_one. eapply (keeps_bind _ _ _ _ (fun _ => any)).
  - case_match; [|by apply keeps_ret].
    eapply keeps_conseq; [by apply (write_drop_reason_keeps any)|done|done].
  - intros ?. eapply keeps_bind; [by apply queue_keeps|intros ?]. by apply keeps_lift.
Qed.

(** *** Completion *)

(** What [require_operation_completion] has checked, and that [complete] does it. *)
Lemma completion_allowed s op :
  require_operation_completion op s = Ok tt ->
  exists r, OperationRegistry.operation (operations s) op = Some r /\
    OperationState.is_terminal (OperationRecord.state r) = false /\
    OperationRegistry.complete op (operations s) =
      (Ok tt, OperationRegistry.store (operations s) op (OperationRecord.set_state r OperationState.Completed)).
Proof.
  unfold require_operation_completion, operation_state, OperationRegistry.complete, OperationRegistry.operation.
  intros (st & (r & Hr%ok_or_Ok & [= <-])%bind_Ok & [Ht Hc]%reject_if_Ok%orb_false_iff)%bind_Ok.
  exists r. rewrite Hr, Ht. split_and!; [done|done|]. cbv zeta.
  case_bool_decide as Ha; simpl in *.
  - unfold OperationRegistry.store. simpl. by rewrite insert_insert_eq.
  - rewrite Hc. unfold OperationRegistry.store. simpl. by rewrite insert_insert_eq.
Qed.

Lemma pushes_push log packet ok :
  packet_type packet = MessageType.ResultPush ->
  pushes (log ++ [(packet, ok)]) = pushes log ++ [(packet_frame packet, ok)].
Proof. intros Hp. unfold pushes. rewrite filter_app, filter_cons_True by done. by rewrite fmap_app. Qed.

Lemma settled_snoc log frame ok : settled log -> (frame, true) ∉ log -> settled (log ++ [(frame, ok)]).
Proof.
  intros Hl Hn before f o after He. destruct after as [|e after _] using rev_ind.
  - apply app_inj_tail in He as [<- [= <- <-]]. done.
  - rewrite app_comm_cons, app_assoc in He. apply app_inj_tail in He as [-> _]. by eapply Hl.
Qed.

(** A frame whose operation is not completed has no result. *)
Lemma not_pushed s frame op :
  inv s -> frame_operations s !! frame = Some op -> ~ completed (operations s) op ->
  (frame, true) ∉ pushes (FramedTransport.handed (transport s)).
Proof.
  intros Hi Hf Hnc (op' & Hop' & Hc)%(inv_pushed s Hi). rewrite Hf in Hop'. by injection Hop' as <-.
Qed.

(** A result whose write did not return. *)
Lemma inv_unconfirmed s frame op packet tr :
  inv s -> frame_operations s !! frame = Some op -> ~ completed (operations s) op ->
  packet_type packet = MessageType.ResultPush -> packet_frame packet = frame ->
  FramedTransport.well_behaved tr ->
  FramedTransport.handed tr = FramedTransport.handed (transport s) ++ [(packet, false)] ->
  inv (set_transport s tr).
Proof.
  intros Hi Hf Hnc Hty Hfr Htr Hh. pose proof (not_pushed s frame op Hi Hf Hnc) as Hnew.
  destruct Hi. split; simpl; try done; rewrite ?Hh, ?(pushes_push _ _ _ Hty), ?Hfr.
  - by apply settled_snoc.
  - intros f. rewrite elem_of_app, list_elem_of_singleton, <- inv_pushed. split; [by intros [?|[=]]|by left].
Qed.

(** The session once a result was written and its operation completed. *)
Definition concluded (op : Z) (r : OperationRecord.t) (tr : FramedTransport.t) (s : t) : t :=
  set_operations (set_transport s tr)
    (OperationRegistry.store (operations s) op (OperationRecord.set_state r OperationState.Completed)).

Lemma inv_concluded s op frame r packet tr :
  frame_operations s !! frame = Some op -> OperationRegistry.operation (operations s) op = Some r ->
  OperationState.is_terminal (OperationRecord.state r) = false ->
  packet_type packet = MessageType.ResultPush -> packet_frame packet = frame ->
  FramedTransport.well_behaved tr ->
  FramedTransport.handed tr = FramedTransport.handed (transport s) ++ [(packet, true)] ->
  inv s -> inv (concluded op r tr s).
Proof.
  intros Hf Hr Ht Hty Hfr Htr Hw Hi.
  assert (~ completed (operations s) op) as Hnc.
  { intros (r' & Hr' & Hc). rewrite Hr in Hr'. injection Hr' as <-. by rewrite Hc in Ht. }
  pose proof (not_pushed s frame op Hi Hf Hnc) as Hnew.
  pose proof (OperationRegistry.store_descriptors (operations s) op r
    (OperationRecord.set_state r OperationState.Completed) Hr eq_refl) as Hds.
  destruct Hi. split; simpl; try done; rewrite ?Hw, ?(pushes_push _ _ _ Hty), ?Hfr.
  - intros o. rewrite inv_registered. unfold OperationRegistry.operation in *. simpl.
    rewrite lookup_insert_is_Some'. split; [by right|]. by intros [<-|?]; [exists r|].
  - unfold OperationRegistry.operation in *. simpl.
    intros o r' [[<- <-]|[_ Ho]]%lookup_insert_Some; [by apply (inv_session op r)|by eauto].
  - unfold OperationRegistry.invariant. by rewrite Hds.
  - by apply settled_snoc.
  - intros f. rewrite elem_of_app, list_elem_of_singleton, inv_pushed. unfold completed, OperationRegistry.operation.
    simpl. setoid_rewrite lookup_insert_Some. split.
    + intros [(o & Ho & r' & Hr' & Hc)|[= ->]].
      * exists o. split; [done|]. exists r'. split; [|done]. right. split; [|done]. intros <-.
        apply Hnc. by exists r'.
      * exists op. split; [done|]. eexists. by split; [left|].
    + intros (o & Ho & r' & [[<- <-]|[Hne Hr']] & Hc).
      * right. f_equal. apply inv_inverse in Ho, Hf. congruence.
      * left. exists o. split; [done|]. by exists r'.
Qed.

(** A write: the packet is out when it returns, and may be out when it does not. *)
Lemma write_cases packet s :
  inv s ->
  exists ok tr, (write_packet packet s).2 = set_transport s tr /\
    FramedTransport.well_behaved tr /\
    FramedTransport.handed tr = FramedTransport.handed (transport s) ++ [(packet, ok)] /\
    (if ok then (write_packet packet s).1 = Ready (Ok tt)
     else ((write_packet packet s).1 = Pending) \/ exists e, (write_packet packet s).1 = Ready (Err e)).
Proof.
  intros Hi. destruct (FramedTransport.write_packet_calm packet (transport s) (inv_transport s Hi)) as (Hnp & Hwb & _).
  unfold write_packet, on_transport. unfold FramedTransport.write_packet in *.
  destruct (FramedTransport.writes (transport s)) as [|[[]|e|] ws]; simpl in *.
  - exists false. eexists. by split_and!; [..|left].
  - exists true. eexists. by split_and!.
  - exists false. eexists. by split_and!; [..|right; eexists].
  - done.
Qed.

Lemma send_completed_keeps frame op md body :
  keeps inv (fun s => frame_operations s !! frame = Some op) (send_completed frame op md body) (fun _ _ => True).
Proof.
  unfold send_completed. apply keeps_bind_check; [intros; guard_no_panic|intros []].
  apply keeps_bind_check; [intros; guard_no_panic|intros []].
  intros s [Hi [[Hf Hcap] Hreq]]. destruct (completion_allowed s op Hreq) as (r & Hr & Ht & Hc).
  unfold mbind, async_bind. unfold send_as, write_parts, mbind, async_bind, gets, lift.
  destruct (ResultPushMetadata.to_bytes md) as [bs|e|] eqn:Hbs; simpl; [|done|].
  2: { by assert (ResultPushMetadata.to_bytes md <> Panic) by codec_no_panic. }
  destruct (RuntimePacket.new _ bs body) as [packet|e|] eqn:Hp; simpl; [|done|by apply packet_new_no_panic in Hp].
  apply packet_new_header in Hp as (Hh & _).
  assert (packet_type packet = MessageType.ResultPush /\ packet_frame packet = frame) as [Hty Hfr]
    by (unfold packet_type, packet_frame; by rewrite Hh).
  assert (~ completed (operations s) op) as Hnc.
  { intros (r' & Hr' & Hc'). rewrite Hr in Hr'. injection Hr' as <-. by rewrite Hc' in Ht. }
  destruct (write_cases packet s Hi) as ([] & tr & Hs' & Htr & Hw & Hok); destruct (write_packet packet s) as [o s']; simpl in *.
  2: { subst s'. pose proof (inv_unconfirmed s frame op packet tr Hi Hf Hnc Hty Hfr Htr Hw). by destruct Hok as [->|[e ->]]. }
  subst o s'. unfold on_operations. simpl. rewrite Hc. simpl. fold (concluded op r tr s).
  assert (inv (concluded op r tr s)) as Hi'.
  { by apply (inv_concluded s op frame r packet tr). }
  destruct (OperationLifecycleEvent.new op OperationState.Completed) as [event|e|] eqn:Hev; simpl; [|done|].
  - split; [|done]. apply (inv_push (concluded op r tr s)); [by eapply lifecycle_new_ok| |done].
    by eapply pending_capacity.
  - by assert (OperationLifecycleEvent.new op OperationState.Completed <> Panic) by guard_no_panic.
Qed.

Lemma send_operation_result_keeps frame md body : sound (send_operation_result_for_binding frame md body).
Proof.
  unfold send_operation_result_for_binding. apply keeps_bind_check; [intros; guard_no_panic|intros op].
  eapply (keeps_conseq _ _ (fun s => frame_operations s !! frame = Some op)); [|by intros s _ [_ H%ok_or_Ok]|done].
  eapply keeps_bind; [apply keeps_clock; auto with server|intros now]. cbv beta.
  eapply keeps_bind; [apply keeps_operations; [|intros; apply expire_tame|auto with server]|].
  - intros ops. unfold OperationRegistry.expire_if_stale. by repeat case_match.
  - intros [schedule|]; [apply send_expired_keeps|apply send_completed_keeps].
Qed.

(** ** Closing *)

Lemma close_keeps F :
  untouched F -> keeps inv F (on_transport FramedTransport.close) (fun _ => F).
Proof.
  apply keeps_transport; [apply FramedTransport.close_calm|].
  intros tr. unfold FramedTransport.close. by case_match.
Qed.

Lemma ack_close_keeps F close : keeps inv F (ack_close close) (fun _ _ => True).
Proof.
  unfold ack_close. walk_one.
  eapply keeps_bind; [apply (keeps_lifecycle _ (ConnectionLifecycle.ApplySessionCloseAck _ _))|intros ?].
  eapply keeps_bind; [eapply keeps_conseq; [apply (write_parts_keeps any); [done|codec_no_panic|done]|done|done]|].
  intros ?. apply keeps_modify. intros s Hi _. split; [|done]. case_bool_decide; [by apply inv_with_close|done].
Qed.

Lemma close_in_place_keeps : sound close_in_place.
Proof.
  unfold close_in_place. walk_one.
  eapply keeps_bind; [apply (keeps_modify _ _ _ (fun _ _ => True)); intros; split; [by apply inv_with_close|done]|].
  intros ?. eapply (keeps_bind _ _ _ _ (fun _ _ => True)).
  { case_match; [apply ack_close_keeps|by apply keeps_ret]. }
  intros ?. eapply keeps_bind; [|intros ?; apply (close_keeps any); done].
  apply keeps_modify. intros s Hi _. split; [|done]. unfold remove_from_registry.
  repeat case_match; [by apply inv_with_sessions|done|done].
Qed.

(** ** The senders of an operation *)

Lemma operation_send_result_keeps operation md body : sound (send_result operation md body).
Proof.
  unfold send_result. walk_one.
  eapply keeps_conseq; [by apply send_operation_result_keeps|done|done].
Qed.

Lemma operation_send_result_drop_keeps operation md body : sound (send_result_drop operation md body).
Proof.
  unfold send_result_drop. do 2 walk_one. eapply keeps_conseq; [by apply send_result_drop_keeps|done|done].
Qed.

Lemma operation_send_progress_keeps operation md body : sound (send_progress operation md body).
Proof.
  unfold send_progress. do 2 walk_one. eapply keeps_conseq; [by apply send_operation_progress_keeps|done|done].
Qed.

Lemma operation_send_partial_result_keeps operation md body : sound (send_partial_result operation md body).
Proof.
  unfold send_partial_result. do 2 walk_one.
  eapply keeps_conseq; [by apply send_operation_partial_result_keeps|done|done].
Qed.

End sending.
