(* ===== verification/ServerOpenTheory.v ===== *)
(** Serving connections ([src/crates/nnrp-runtime/src/server.rs]): which session id and which
    recovery token are accepted, what an accepted session starts with, what is left of the
    sessions of a connection that ends, and in which order the listeners are asked. *)

From S2P Require Import Prelude Bytes Errors Enums Wire Header Session Flow Control Codes.
From S2P Require Import Lifecycle Capability RuntimeControl Operation Recovery Negotiation.
From S2P Require Import Transport Route RuntimeError Packet Async Stream Pressure PreSubmit Object.
From S2P Require Import Cache Data Schema Event Client ClientOpen SessionLogic.
From S2P Require Import Server ServerOpen ServerTheory ClientOpenTheory.

Local Open Scope Z_scope.
Import NnrpClientSession(packet_type, address, as_u32).

(** ** Session ids *)

(** The smallest id from [candidate] on that is not allocated. *)
Lemma first_available_spec candidate ids :
  StronglySorted Z.le ids -> candidate <= u32_max ->
  match first_available candidate ids with
  | Some id => candidate <= id <= u32_max /\ (id ∉ ids) /\ forall x, candidate <= x < id -> x ∈ ids
  | None => forall x, candidate <= x <= u32_max -> x ∈ ids
  end.
Proof.
  intros Hs. revert candidate. induction Hs as [|id ids Hs IH Hle]; intros candidate Hc; simpl.
  { split_and!; [lia|lia|apply not_elem_of_nil|lia]. }
  destruct (Z.ltb_spec id candidate).
  { specialize (IH candidate Hc). destruct (first_available candidate ids) as [r|].
    - destruct IH as (? & Hr & Hall). split_and!; [lia..| |].
      + intros [->|?]%elem_of_cons; [lia|done].
      + intros x Hx. right. auto.
    - intros x Hx. right. auto. }
  destruct (Z.ltb_spec candidate id).
  { rewrite Forall_forall in Hle. split_and!; [lia|lia| |lia].
    intros [->|Hin]%elem_of_cons; [lia|]. specialize (Hle _ Hin). lia. }
  assert (id = candidate) as -> by lia. unfold checked_add.
  destruct (Z.leb_spec (candidate + 1) u32_max) as [Hle1|Hgt].
  - specialize (IH (candidate + 1) Hle1). destruct (first_available (candidate + 1) ids) as [r|].
    + destruct IH as (? & Hr & Hall). split_and!; [lia..| |].
      * intros [->|?]%elem_of_cons; [lia|done].
      * intros x Hx. destruct (decide (x = candidate)) as [->|Hne]; [by left|right; apply Hall; lia].
    + intros x Hx. destruct (decide (x = candidate)) as [->|Hne]; [by left|right; apply IH; lia].
  - intros x Hx. assert (x = candidate) as -> by lia. by left.
Qed.

Lemma session_keys_sorted registry : StronglySorted Z.le (session_keys registry).
Proof. apply (StronglySorted_merge_sort Z.le). Qed.

Lemma elem_of_session_keys (registry : SessionRegistry) id : id ∈ session_keys registry <-> is_Some (registry !! id).
Proof.
  unfold session_keys. rewrite (merge_sort_Permutation Z.le), list_elem_of_fmap. split.
  - intros ([i r] & -> & Hr%elem_of_map_to_list). by exists r.
  - intros [r Hr]. exists (id, r). split; [done|]. by apply elem_of_map_to_list.
Qed.

(** The id for a session that asks for none: the smallest positive one that is not taken. *)
Lemma first_available_session (registry : SessionRegistry) :
  match first_available_session_id (session_keys registry) with
  | Some id => 1 <= id <= u32_max /\ registry !! id = None /\
      forall x, 1 <= x < id -> is_Some (registry !! x)
  | None => forall x, 1 <= x <= u32_max -> is_Some (registry !! x)
  end.
Proof.
  pose proof (first_available_spec 1 (session_keys registry) (session_keys_sorted registry) ltac:(done)) as H.
  unfold first_available_session_id. destruct (first_available 1 _) as [id|].
  - destruct H as (Hr & Hn & Hall). split_and!; [lia|lia| |].
    + apply eq_None_not_Some. by rewrite <- elem_of_session_keys.
    + intros x Hx. apply elem_of_session_keys. auto.
  - intros x Hx. apply elem_of_session_keys. auto.
Qed.

(** ** Tokens *)

Lemma differences_zero acc pairs :
  foldl (fun d pair => Z.lor d (Z.lxor (Z_of_byte pair.1) (Z_of_byte pair.2))) acc pairs = 0 <->
  acc = 0 /\ Forall (fun pair : byte * byte => pair.1 = pair.2) pairs.
Proof.
  revert acc. induction pairs as [|[a b] pairs IH]; intros acc; simpl.
  - split; [by intros ->|by intros []].
  - rewrite IH, Z.lor_eq_0_iff, Z.lxor_eq_0_iff, Forall_cons. simpl. split.
    + intros [[? ?%Z_of_byte_inj] ?]. done.
    + intros [? [-> ?]]. done.
Qed.

Lemma zip_equal (l r : bytes) :
  length l = length r -> Forall (fun pair : byte * byte => pair.1 = pair.2) (zip l r) <-> l = r.
Proof.
  revert r. induction l as [|a l IH]; intros [|b r] Hl; simpl in *; try done.
  rewrite Forall_cons, IH by lia. simpl. naive_solver.
Qed.

(** The comparison of tokens is equality. *)
Lemma constant_time_eq_spec l r : constant_time_eq l r = true <-> l = r.
Proof.
  unfold constant_time_eq. destruct (Nat.eqb_spec (length l) (length r)) as [He|Hne]; simpl.
  - rewrite Z.eqb_eq, differences_zero. rewrite zip_equal by done. naive_solver.
  - split; [done|]. by intros ->.
Qed.

(** ** The choice of a session *)

Lemma retained_lookup (registry : SessionRegistry) now id record :
  filter (retained now) registry !! id = Some record <->
  registry !! id = Some record /\
  (RuntimeSessionRecord.active record = true \/ now <= RuntimeSessionRecord.resume_expires_at_ms record).
Proof. by rewrite map_lookup_filter_Some. Qed.

(** A record that a token may resume: one that allows it, is not in use, has not expired and
    has this token. *)
Definition resumes (record : RuntimeSessionRecord.t) (token : bytes) (now : Z) : Prop :=
  RuntimeSessionRecord.resume_enabled record = true /\ RuntimeSessionRecord.active record = false /\
  now <= RuntimeSessionRecord.resume_expires_at_ms record /\ RuntimeSessionRecord.resume_token record = token.

Lemma resumable_spec record token now : resumable record token now = true <-> resumes record token now.
Proof.
  unfold resumable, resumes. rewrite !andb_true_iff, constant_time_eq_spec, negb_true_iff, Z.leb_le. naive_solver.
Qed.

(** What the registry says of a session that is chosen. *)
Definition chosen (open : SessionOpenMetadata.t) (token : bytes) (now : Z) (registry : SessionRegistry)
    (id prior : Z) : Prop :=
  if 0 <? SessionOpenMetadata.resume_token_bytes open then
    id = SessionOpenMetadata.requested_session_id open /\
    exists record, registry !! id = Some record /\ resumes record token now /\
      prior = RuntimeSessionRecord.last_operation_id record
  else
    prior = 0 /\ filter (retained now) registry !! id = None /\
    if SessionOpenMetadata.requested_session_id open =? 0
    then forall x, 1 <= x < id -> is_Some (filter (retained now) registry !! x)
    else id = SessionOpenMetadata.requested_session_id open.

(** The session that is chosen is not in use. *)
Lemma chosen_idle open token now registry id prior record :
  chosen open token now registry id prior -> filter (retained now) registry !! id = Some record ->
  RuntimeSessionRecord.active record = false.
Proof.
  unfold chosen. destruct (0 <? _).
  - intros (_ & r & Hr & (_ & Ha & _) & _) [Hr' _]%retained_lookup. congruence.
  - intros (_ & Hn & _). congruence.
Qed.

Lemma choose_session_chosen open token now registry choice registry' :
  choose_session open token now registry = (choice, registry') -> recovery_error choice = None ->
  SessionChoice.session_id choice <> 0 /\
  chosen open token now registry (SessionChoice.session_id choice) (SessionChoice.prior_last_operation_id choice).
Proof.
  unfold choose_session, chosen, recovery_error. intros [= <- <-].
  destruct (0 <? SessionOpenMetadata.resume_token_bytes open).
  { destruct (filter (retained now) registry !! _) as [record|] eqn:Hr; [|done].
    destruct (resumable record token now) eqn:Hres; [|done]. simpl.
    destruct (Z.eqb_spec (SessionOpenMetadata.requested_session_id open) 0) as [?|Hid]; [done|]. intros _.
    split; [done|]. split; [done|]. exists record. apply retained_lookup in Hr as [Hr _].
    by apply resumable_spec in Hres. }
  destruct (Z.eqb_spec (SessionOpenMetadata.requested_session_id open) 0) as [Hz|Hid]; simpl.
  - pose proof (first_available_session (filter (retained now) registry)) as Hfirst.
    destruct (first_available_session_id _) as [id|]; simpl; [|done].
    destruct Hfirst as (? & Hn & Hall). intros _. by split_and!; [lia|..].
  - destruct (filter (retained now) registry !! _) eqn:Hr; simpl; [done|]. intros _. done.
Qed.

(** Why a session is not chosen. *)
Lemma choose_session_refused open token now registry choice registry' code :
  choose_session open token now registry = (choice, registry') -> recovery_error choice = Some code ->
  if 0 <? SessionOpenMetadata.resume_token_bytes open then
    (code = SESSION_ERROR_RESUME_REJECTED /\
     forall record, registry !! SessionOpenMetadata.requested_session_id open = Some record ->
       ~ resumes record token now) \/
    (code = SESSION_ERROR_LIMIT_REACHED /\ SessionOpenMetadata.requested_session_id open = 0)
  else
    code = SESSION_ERROR_LIMIT_REACHED /\
    if SessionOpenMetadata.requested_session_id open =? 0
    then forall x, 1 <= x <= u32_max -> is_Some (filter (retained now) registry !! x)
    else is_Some (filter (retained now) registry !! SessionOpenMetadata.requested_session_id open).
Proof.
  unfold choose_session, recovery_error. intros [= <- <-].
  destruct (0 <? SessionOpenMetadata.resume_token_bytes open).
  { destruct (filter (retained now) registry !! _) as [record|] eqn:Hr.
    - destruct (resumable record token now) eqn:Hres; simpl.
      + destruct (Z.eqb_spec (SessionOpenMetadata.requested_session_id open) 0) as [?|Hid]; [|done].
        intros [= <-]. by right.
      + intros [= <-]. left. split; [done|]. intros record' Hr' Hres'%resumable_spec.
        apply retained_lookup in Hr as [Hr _]. congruence.
    - simpl. intros [= <-]. left. split; [done|]. intros record' Hr' Hres'.
      assert (filter (retained now) registry !! SessionOpenMetadata.requested_session_id open = Some record') as Hk.
      { apply retained_lookup. split; [done|]. right. apply Hres'. }
      congruence. }
  destruct (Z.eqb_spec (SessionOpenMetadata.requested_session_id open) 0) as [Hz|Hid]; simpl.
  - pose proof (first_available_session (filter (retained now) registry)) as Hfirst.
    destruct (first_available_session_id _) as [id|]; simpl.
    + destruct Hfirst as ((? & ?) & _). destruct (Z.eqb_spec id 0); [lia|done].
    + by intros [= <-].
  - destruct (filter (retained now) registry !! _) eqn:Hr; simpl.
    + intros [= <-]. by split; [|eexists].
    + by rewrite (proj2 (Z.eqb_neq _ _) Hid).
Qed.

(** ** The connection *)

Import ServerConnection.

(** The ids of the registry are those of its records, and are session ids. *)
Definition registry_ok (registry : SessionRegistry) : Prop :=
  map_Forall (fun id record => id <> 0 /\ RuntimeSessionRecord.session_id record = id) registry.

(** [getrandom::fill] fills the whole buffer. *)
Definition fills (source : nat -> option bytes) : Prop := forall n bs, source n = Some bs -> length bs = n.

(** What another task does to the registry: it does not put a session of the connection [nonce]
    into use. *)
Definition foreign (nonce : Z) (other : SessionRegistry -> SessionRegistry) : Prop :=
  forall registry, registry_ok registry ->
    registry_ok (other registry) /\
    forall id record, other registry !! id = Some record ->
      RuntimeSessionRecord.connection_nonce record = nonce -> RuntimeSessionRecord.active record = true ->
      exists record', registry !! id = Some record' /\
        RuntimeSessionRecord.connection_nonce record' = nonce /\ RuntimeSessionRecord.active record' = true.

(** The results of a connection are no panics, its transports behave and have been given
    nothing, the random source fills the whole buffer, the registry satisfies [P] and what others
    do to it [R], and every session handed to the application starts well. *)
Record conn_ok (R : (SessionRegistry -> SessionRegistry) -> Prop) (P : SessionRegistry -> Prop) (c : t)
    : Prop := {
  conn_behaved : MultiplexedConnection.well_behaved (connection c);
  conn_fresh : Forall (fun r => forall tr, r = Ok tr -> FramedTransport.handed tr = [])
                 (MultiplexedConnection.registrations (connection c));
  conn_closes : Forall (fun r => r <> Panic) (closes c);
  conn_random : Forall fills (random c);
  conn_registry : P (sessions c);
  conn_others : Forall R (others c);
  conn_accepted : Forall ServerTheory.inv (accepted_sessions c)
}.

(** What is known depends on the packets to come only. *)
Definition steady (F : t -> Prop) : Prop :=
  forall c c', controls_left c' = controls_left c -> F c -> F c'.

(** The application's policy is a call of its own; it must not panic either. *)
Definition polite (config : NnrpServerConfig.t) : Prop :=
  forall open, NnrpServerConfig.application_policy config open <> Ready Panic.

Section calls.
Context `{Htarget : Target} (R : (SessionRegistry -> SessionRegistry) -> Prop) (P : SessionRegistry -> Prop).
Implicit Types F : t -> Prop.

Lemma serves_write_packet F packet :
  steady F -> keeps (conn_ok R P) F (on_connection (MultiplexedConnection.write_packet packet)) (fun _ => F).
Proof.
  intros HF c [[(Hw & Hc & Hr) Hf Hcl Hrn Hreg Hoth Hacc] HFc]. unfold on_connection, MultiplexedConnection.write_packet.
  destruct (MultiplexedConnection.writes (connection c)) as [|[u|e|] ws] eqn:E; simpl.
  - split; simpl; try done. split_and!; [|done..]. by rewrite E.
  - apply Forall_cons in Hw as [_ Hw]. split; [by split|]. by apply (HF c).
  - apply Forall_cons in Hw as [_ Hw]. by split.
  - by apply Forall_cons in Hw as [? _].
Qed.

(** The first packet to come is used up. *)
Lemma serves_read (packets : list (RT RuntimePacket.t)) :
  keeps (conn_ok R P) (fun c => controls_left c = packets)
    (on_connection MultiplexedConnection.read_control_packet)
    (fun _ c => exists r, packets = r :: controls_left c).
Proof.
  intros c [[(Hw & Hc & Hr) Hf Hcl Hrn Hreg Hoth Hacc] Hp]. unfold controls_left in *.
  unfold on_connection, MultiplexedConnection.read_control_packet.
  destruct (MultiplexedConnection.controls (connection c)) as [|[u|e|] cs] eqn:E; simpl.
  - split; simpl; try done. split_and!; [done| |done]. by rewrite E.
  - apply Forall_cons in Hc as [_ Hc]. split; [by split|]. by exists (Ok u).
  - apply Forall_cons in Hc as [_ Hc]. by split.
  - by apply Forall_cons in Hc as [? _].
Qed.

Lemma serves_register F id :
  steady F ->
  keeps (conn_ok R P) F (on_connection (MultiplexedConnection.register_session id))
    (fun tr c => F c /\ id <> 0 /\ FramedTransport.well_behaved tr /\ FramedTransport.handed tr = []).
Proof.
  intros HF c [[(Hw & Hc & Hr) Hf Hcl Hrn Hreg Hoth Hacc] HFc].
  unfold on_connection, MultiplexedConnection.register_session.
  destruct (Z.eqb_spec id 0); simpl; [by split|].
  destruct (MultiplexedConnection.registrations (connection c)) as [|r rs] eqn:E; simpl.
  - split; simpl; rewrite ?E; try done. split; [done|]. split; [done|]. by rewrite E.
  - apply Forall_cons in Hr as [[Hx Hy] Hr]. apply Forall_cons in Hf as [Hz Hf].
    destruct r as [tr|e|]; simpl; [|by split|done].
    split; [by split|]. split_and!; [by apply (HF c)|done|by apply Hy|by apply Hz].
Qed.

Lemma serves_clock F : steady F -> keeps (conn_ok R P) F current_unix_ms (fun _ => F).
Proof.
  intros HF c [Hok HFc]. unfold current_unix_ms. destruct (clock c) as [|now times]; [done|].
  split; [by destruct Hok; split|by apply (HF c)].
Qed.

Lemma serves_clock_us F : steady F -> keeps (conn_ok R P) F unix_time_us (fun _ => F).
Proof.
  intros HF c [Hok HFc]. unfold unix_time_us. destruct (clock_us c) as [|now times]; [done|].
  split; [by destruct Hok; split|by apply (HF c)].
Qed.

Lemma serves_fill F n : steady F -> keeps (conn_ok R P) F (fill n) (fun bs c => F c /\ length bs = n).
Proof.
  intros HF c [[Hb Hf Hcl Hrn Hreg Hoth Hacc] HFc]. unfold fill. destruct (random c) as [|source rest] eqn:E.
  { split; simpl; try done. by rewrite E. }
  apply Forall_cons in Hrn as [Hs Hrn]. destruct (source n) as [bs|] eqn:Hsrc; simpl; [|by split].
  split; [by split|]. split; [by apply (HF c)|by apply Hs].
Qed.

Lemma serves_close F : steady F -> keeps (conn_ok R P) F close (fun _ => F).
Proof.
  intros HF c [[Hb Hf Hcl Hrn Hreg Hoth Hacc] HFc]. unfold close. destruct (closes c) as [|r rest] eqn:E.
  { split; simpl; try done. by rewrite E. }
  apply Forall_cons in Hcl as [Hr Hcl]. destruct r; simpl; [split; [by split|by apply (HF c)]|by split|done].
Qed.

Lemma serves_write F header metadata body :
  metadata <> Panic -> steady F -> keeps (conn_ok R P) F (write header metadata body) (fun _ => F).
Proof.
  intros Hm HF. unfold write. apply keeps_bind_lift; [by apply protocol_no_panic|intros bs _].
  apply keeps_bind_lift; [guard_no_panic|intros packet _]. by apply serves_write_packet.
Qed.

Lemma serves_probe F packet : steady F -> keeps (conn_ok R P) F (respond_to_connection_probe packet) (fun _ => F).
Proof.
  intros HF. unfold respond_to_connection_probe. cbv zeta.
  do 2 (apply keeps_bind_lift; [guard_no_panic|intros ? _]).
  eapply keeps_bind; [by apply serves_clock_us|intros now]. apply serves_write; [codec_no_panic|done].
Qed.

(** *** The hello *)

Lemma steady_controls packets : steady (fun c => controls_left c = packets).
Proof. by intros c c' ->. Qed.

Lemma await_hello_serves packets :
  keeps (conn_ok R P) (fun c => controls_left c = packets) (await_hello packets) (fun _ _ => True).
Proof.
  induction packets as [|r packets IH]; simpl; (eapply keeps_bind; [apply serves_read|intros packet]).
  - intros c [_ [? [=]]].
  - cbv beta. eapply (keeps_conseq _ _ (fun c => controls_left c = packets));
      [|by intros c _ [? [= -> ->]]|intros ? ? _ H; exact H].
    case_bool_decide; [|by apply keeps_ret].
    eapply keeps_bind; [apply serves_probe, steady_controls|intros ?; exact IH].
Qed.

Lemma profile_bitmap_no_panic profiles : profile_bitmap profiles <> Panic.
Proof.
  apply try_fold_no_panic. intros b id. do 2 (apply bind_no_panic; [apply ok_or_no_panic|intros ? _]). done.
Qed.

Lemma answer_hello_no_panic config packet : answer_hello config packet <> Panic.
Proof.
  unfold answer_hello. cbv zeta. do 2 (apply bind_no_panic; [guard_no_panic|intros ? _]).
  apply bind_no_panic; [guard_no_panic|intros hello _].
  apply bind_no_panic; [apply profile_bitmap_no_panic|intros profiles _].
  apply bind_no_panic; [guard_no_panic|intros ? _].
  apply bind_no_panic; [apply ClientOpenTheory.cache_object_bitmap_no_panic|intros objects _].
  apply bind_no_panic; [apply protocol_no_panic, ClientOpenTheory.hello_validate_no_panic|done].
Qed.

Lemma server_hello_serves F config : keeps (conn_ok R P) F (perform_server_hello config) (fun _ _ => True).
Proof.
  unfold perform_server_hello. apply keeps_bind_gets. intros packets.
  eapply keeps_bind; [eapply keeps_conseq; [apply (await_hello_serves packets)|by intros c _ []|done]|intros packet].
  apply keeps_bind_lift; [apply answer_hello_no_panic|intros ack _].
  apply (serves_write (fun _ => True)); [codec_no_panic|done].
Qed.

End calls.

(** *** Accepting a session *)

(** The sessions that the connection [nonce] has in use are among [ids]. *)
Definition held (nonce : Z) (ids : gset Z) (registry : SessionRegistry) : Prop :=
  registry_ok registry /\
  forall id record, registry !! id = Some record -> RuntimeSessionRecord.connection_nonce record = nonce ->
    RuntimeSessionRecord.active record = true -> id ∈ ids.

Lemma held_subset nonce ids (registry registry' : SessionRegistry) :
  registry' ⊆ registry -> held nonce ids registry -> held nonce ids registry'.
Proof.
  intros Hsub [Hok Hheld]. split.
  - intros id record Hr. apply Hok. by eapply lookup_weaken.
  - intros id record Hr. apply Hheld. by eapply lookup_weaken.
Qed.

Lemma held_mono nonce ids ids' registry : ids ⊆ ids' -> held nonce ids registry -> held nonce ids' registry.
Proof. intros Hsub [Hok Hheld]. split; [done|]. intros id record Hr Hn Ha. set_solver. Qed.

(** Others leave the sessions in use among those that were. *)
Lemma held_foreign nonce ids other registry : foreign nonce other -> held nonce ids registry -> held nonce ids (other registry).
Proof.
  intros Hf [Hok Hheld]. destruct (Hf registry Hok) as [Hok' Hin]. split; [done|].
  intros id record Hr Hn Ha. destruct (Hin id record Hr Hn Ha) as (record' & Hr' & ? & ?). by eapply Hheld.
Qed.

Lemma held_met nonce ids c : Forall (foreign nonce) (others c) -> held nonce ids (sessions c) -> held nonce ids (met c).
Proof.
  unfold met. destruct (others c) as [|other rest]; [done|]. intros [Ho _]%Forall_cons. by apply held_foreign.
Qed.

Lemma Forall_tail {A} (Q : A -> Prop) l : Forall Q l -> Forall Q (tail l).
Proof. by destruct 1. Qed.
#[local] Hint Resolve Forall_tail : core.

(** A session just accepted satisfies the invariant. *)
Lemma inv_new_session config tid nonce id open tr l registry times :
  FramedTransport.well_behaved tr -> FramedTransport.handed tr = [] ->
  ServerTheory.inv (new_session config tid nonce id open tr l registry times).
Proof.
  intros Htr Hw. split; simpl.
  - intros op frame. by rewrite !lookup_empty.
  - intros op. unfold OperationRegistry.operation. simpl. by rewrite !lookup_empty.
  - intros op r. unfold OperationRegistry.operation. simpl. by rewrite lookup_empty.
  - apply OperationRegistry.registry_new_invariant.
  - done.
  - by left.
  - apply PreSubmitDeadlineReservations.reservations_new_invariant.
  - done.
  - constructor.
  - intros _. unfold len. simpl. lia.
  - rewrite Hw. by intros [|? ?] frame ok after [=].
  - intros frame. rewrite Hw. split; [by intros ?%elem_of_nil|]. intros (op & Hop & _). by rewrite lookup_empty in Hop.
Qed.

Section accepting.
Context `{Htarget : Target} (nonce : Z).
Implicit Types F : t -> Prop.

Lemma serves_choose F ids open token now :
  steady F ->
  keeps (conn_ok (foreign nonce) (held nonce ids)) F (on_sessions (choose_session open token now)) (fun _ => F).
Proof.
  intros HF c [[Hb Hf Hcl Hrn Hreg Hoth Hacc] HFc]. unfold on_sessions.
  destruct (choose_session open token now (met c)) as [choice registry] eqn:Hch.
  split; [split; simpl; auto|by apply (HF c)].
  unfold choose_session in Hch. injection Hch as _ <-. eapply held_subset; [apply map_filter_subseteq|by apply held_met].
Qed.

Lemma serves_policy R (P : SessionRegistry -> Prop) F config open :
  polite config ->
  keeps (conn_ok R P) F (NnrpServerConfig.validate_client_open config open) (fun _ => F).
Proof.
  intros Hp c [Hc HF]. unfold NnrpServerConfig.validate_client_open.
  destruct (NnrpServerConfig.validate_limits config open) as [[]|decision|] eqn:Hl; [|done|].
  - unfold mbind, async_bind. specialize (Hp open).
    by destruct (NnrpServerConfig.application_policy config open) as [[decision|e|]|].
  - exfalso. revert Hl. unfold NnrpServerConfig.validate_limits. guard_no_panic.
Qed.

Lemma serves_token R (P : SessionRegistry -> Prop) F config resume :
  steady F -> keeps (conn_ok R P) F (issue_token config resume) (fun _ => F).
Proof.
  intros HF. unfold issue_token. destruct resume; [|by apply keeps_ret].
  do 2 (apply keeps_bind_lift; [guard_no_panic|intros ? _]). case_match; [by apply keeps_ret|].
  eapply keeps_conseq; [by apply (serves_fill R P F)|done|by intros bs c _ []].
Qed.

(** The record of an accepted session is the only one that is new. *)
Lemma held_insert config now choice ack resume token ids registry :
  SessionChoice.session_id choice <> 0 -> held nonce ids registry ->
  held nonce ({[SessionChoice.session_id choice]} ∪ ids)
    (insert_session config nonce now choice ack resume token registry).
Proof.
  intros Hid [Hok Hheld]. unfold insert_session. split.
  - by apply map_Forall_insert_2.
  - intros id record [[<- <-]|[Hne Hr]]%lookup_insert_Some; [set_solver|].
    intros Hn Ha. apply elem_of_union_r. by eapply Hheld.
Qed.

Lemma mark_inactive_lookup registry id id' record :
  mark_inactive nonce registry id !! id' = Some record ->
  exists record', registry !! id' = Some record' /\
    RuntimeSessionRecord.session_id record = RuntimeSessionRecord.session_id record' /\
    RuntimeSessionRecord.connection_nonce record = RuntimeSessionRecord.connection_nonce record' /\
    (RuntimeSessionRecord.active record = true ->
     RuntimeSessionRecord.active record' = true /\
     (id' = id -> RuntimeSessionRecord.connection_nonce record <> nonce)).
Proof.
  unfold mark_inactive. destruct (registry !! id) as [r|] eqn:Hr; [|naive_solver].
  destruct (Z.eqb_spec (RuntimeSessionRecord.connection_nonce r) nonce) as [Hn|Hn]; [|naive_solver].
  destruct (RuntimeSessionRecord.resume_enabled r).
  - intros [[<- <-]|[Hne Hl]]%lookup_insert_Some; [by exists r; split_and!|naive_solver].
  - intros [Hne Hl]%lookup_delete_Some. naive_solver.
Qed.

Lemma held_mark ids id registry :
  held nonce ({[id]} ∪ ids) registry -> held nonce ids (mark_inactive nonce registry id).
Proof.
  intros [Hok Hheld]. split.
  - intros id' record (r & Hr & Hs & _)%mark_inactive_lookup. destruct (Hok _ _ Hr). by rewrite Hs.
  - intros id' record (r & Hr & _ & Hn & Ha)%mark_inactive_lookup Hnonce Hact.
    destruct (Ha Hact) as [Ha' Hne]. specialize (Hheld id' r Hr). rewrite <- Hn in Hheld.
    specialize (Hheld Hnonce Ha'). apply elem_of_union in Hheld as [->%elem_of_singleton|?]; [|done].
    by destruct (Hne eq_refl).
Qed.

(** The sessions in use after a call. *)
Definition grow (result : option Z) (ids : gset Z) : gset Z :=
  match result with Some id => {[id]} ∪ ids | None => ids end.

Lemma install_serves F ids config tid now open choice ack resume token tr :
  steady F -> SessionChoice.session_id choice <> 0 -> FramedTransport.well_behaved tr ->
  FramedTransport.handed tr = [] ->
  triple (fun c => conn_ok (foreign nonce) (held nonce ids) c /\ F c)
    (install_session config tid nonce now open choice ack resume token tr)
    (fun id c => conn_ok (foreign nonce) (held nonce ({[id]} ∪ ids)) c /\ F c) (conn_ok (foreign nonce) (held nonce ids)).
Proof.
  intros HF Hid Htr Hw c [[Hb Hf Hcl Hrn Hreg Hoth Hacc] HFc]. unfold install_session. cbv zeta.
  pose proof (ConnectionLifecycle.run_no_panic (ConnectionLifecycle.ApplySessionOpenAck ack) ConnectionLifecycle.new) as Hnp.
  unfold outcome_of in Hnp. simpl in Hnp.
  destruct (ConnectionLifecycle.apply_session_open_ack ack ConnectionLifecycle.new) as [[[]|e|] l]; [|done..].
  unfold mbind, async_bind, lift, modify, gets. simpl.
  pose proof (held_insert config now choice ack resume token ids (met c) Hid (held_met _ _ _ Hoth Hreg)) as Hins.
  destruct (listening c); simpl.
  - split; [|by apply (HF c)]. split; simpl; auto. apply Forall_app. split; [done|].
    apply Forall_singleton. by apply inv_new_session.
  - split; simpl; auto. apply held_mark, held_met; simpl; auto.
Qed.

(** What holds before a call and does not depend on the state. *)
Lemma triple_assume {S A} (p : Prop) (P P' : S -> Prop) (m : Async S A) Q E :
  (forall s, P' s -> P s /\ p) -> (p -> triple P m Q E) -> triple P' m Q E.
Proof. intros HP Hm s Hs. destruct (HP s Hs) as [Hs' Hp]. by apply (Hm Hp). Qed.

(** Accepting keeps the connection in order and does not panic; a session that is returned is
    the only one that is newly in use. *)
Lemma accept_serves F ids config tid packet :
  steady F -> polite config ->
  triple (fun c => conn_ok (foreign nonce) (held nonce ids) c /\ F c)
    (accept_connection_session tid nonce config packet)
    (fun result c => conn_ok (foreign nonce) (held nonce (grow result ids)) c /\ F c) (conn_ok (foreign nonce) (held nonce ids)).
Proof.
  intros HF Hp. unfold accept_connection_session. cbv zeta.
  eapply triple_bind; [apply (keeps_lift _ F); [|intros open c _ _ H; exact H]|intros open].
  { unfold read_open, validate_session_recovery_request. guard_no_panic. }
  eapply triple_bind; [by apply serves_policy|intros rejection].
  eapply triple_bind; [by apply serves_clock|intros now].
  eapply triple_bind; [by apply serves_choose|intros choice].
  eapply triple_bind; [by apply serves_token|intros token].
  eapply triple_bind; [apply (keeps_lift _ F); [guard_no_panic|intros ext c _ _ H; exact H]|intros ext].
  destruct (accepts rejection choice).
  - eapply triple_bind; [by apply serves_register|intros tr]. cbv beta.
    apply (triple_assume (SessionChoice.session_id choice <> 0 /\ FramedTransport.well_behaved tr /\
             FramedTransport.handed tr = []) (fun c => conn_ok (foreign nonce) (held nonce ids) c /\ F c));
      [by intros c (? & ? & ?)|intros (Hid & Htr & Hw)].
    eapply triple_bind; [apply serves_write; [codec_no_panic|done]|intros ?].
    eapply triple_bind; [by apply install_serves|intros id].
    by apply triple_ret.
  - eapply triple_bind; [apply serves_write; [codec_no_panic|done]|intros ?]. by apply triple_ret.
Qed.

(** *** The task of a connection *)

(** Some sessions are in use; the connection waits. *)
Definition waiting (c : t) : Prop := exists ids, conn_ok (foreign nonce) (held nonce ids) c.

Lemma serve_loop_serves config tid packets ids :
  polite config ->
  triple (fun c => conn_ok (foreign nonce) (held nonce ids) c /\ controls_left c = packets)
    (serve_loop tid nonce config packets ids)
    (fun ids' c => conn_ok (foreign nonce) (held nonce ids') c) waiting.
Proof.
  intros Hp. revert ids. induction packets as [|r packets IH]; intros ids; cbn [serve_loop].
  all: eapply triple_bind; [eapply triple_conseq;
    [apply attempt_triple, (serves_read (foreign nonce) (held nonce ids))|by intros c H; exact H|by intros a c H; exact H|
     intros c H; by exists ids]|intros [packet|]]; cbv beta iota.
  - intros c [_ [? [=]]].
  - by apply triple_ret.
  - eapply (triple_conseq _ (fun c => conn_ok (foreign nonce) (held nonce ids) c /\ controls_left c = packets));
      [|by intros c [? [? [= -> ->]]]|intros a c H; exact H|intros c H; exact H].
    pose proof (steady_controls packets) as Hst.
    assert (forall c, conn_ok (foreign nonce) (held nonce ids) c -> waiting c) as Hw by (intros c H; by exists ids).
    case_bool_decide as Hprobe; [|case_bool_decide as Hopen; simpl].
    + eapply triple_bind; [eapply triple_conseq; [apply attempt_triple, serves_probe, Hst|intros c H; exact H|intros a c H; exact H|exact Hw]|].
      intros [[]|]; simpl; [apply IH|]. by apply triple_ret.
    + eapply triple_bind; [eapply triple_conseq; [by apply attempt_triple, (accept_serves (fun c => controls_left c = packets) ids)|intros c H; exact H|intros a c H; exact H|exact Hw]|].
      intros [[id|]|]; simpl; [apply IH|apply IH|]. by apply triple_ret.
    + apply triple_ret. by intros c [].
  - by apply triple_ret.
Qed.

Lemma held_retire ids registry :
  held nonce ids registry -> held nonce ∅ (mark_connection_sessions_inactive nonce ids registry).
Proof.
  unfold mark_connection_sessions_inactive. intros Hheld.
  assert (held nonce (list_to_set (merge_sort Z.le (elements ids))) registry) as Hl.
  { eapply held_mono; [|done]. intros id Hid. rewrite elem_of_list_to_set, (merge_sort_Permutation Z.le).
    by apply elem_of_elements. }
  clear Hheld. revert registry Hl. induction (merge_sort Z.le (elements ids)) as [|id l IH]; intros registry; simpl; [done|].
  intros Hl. by apply IH, held_mark.
Qed.

Lemma serve_connection_serves config tid :
  polite config ->
  triple (conn_ok (foreign nonce) (held nonce ∅)) (serve_connection tid nonce config)
    (fun _ => conn_ok (foreign nonce) (held nonce ∅)) waiting.
Proof.
  intros Hp. unfold serve_connection.
  assert (forall c, conn_ok (foreign nonce) (held nonce ∅) c -> waiting c) as Hw by (intros c H; by exists ∅).
  assert (triple (conn_ok (foreign nonce) (held nonce ∅)) (_ ← attempt close; mret tt) (fun _ => conn_ok (foreign nonce) (held nonce ∅)) waiting) as Hclose.
  { eapply (triple_bind _ _ _ (fun _ => conn_ok (foreign nonce) (held nonce ∅))); [|intros ?; by apply triple_ret].
    eapply triple_conseq; [apply attempt_triple, (serves_close (foreign nonce) (held nonce ∅) (fun _ => True)); done|by intros c H| |exact Hw].
    by intros [[]|] c; [intros [? _]|]. }
  eapply (triple_bind _ _ _ (fun _ => conn_ok (foreign nonce) (held nonce ∅))).
  { eapply triple_conseq; [apply attempt_triple, (server_hello_serves (foreign nonce) (held nonce ∅) (fun _ => True))|by intros c H| |exact Hw].
    by intros [[]|] c; [intros [? _]|]. }
  intros [[]|]; simpl; [|exact Hclose].
  apply triple_bind_gets. intros packets.
  eapply triple_bind; [by apply serve_loop_serves|intros ids].
  eapply triple_bind; [|intros ?; exact Hclose].
  intros c [Hb Hf Hcl Hrn Hreg Hoth Hacc]. simpl. split; simpl; auto. by apply held_retire, held_met.
Qed.

End accepting.

(** ** What an acceptance returns *)

Section returned.
Context `{Htarget : Target}.

Lemma returns_server_write header metadata body c u c' :
  returns (write header metadata body) c u c' ->
  exists packet k, c' = set_connection c k /\
    MultiplexedConnection.written k = MultiplexedConnection.written (connection c) ++ [packet] /\
    metadata = Ok (RuntimePacket.metadata packet) /\ RuntimePacket.body packet = body /\
    RuntimePacket.header packet =
      RuntimePacket.set_lens header (len (RuntimePacket.metadata packet)) (len body) /\
    MultiplexedConnection.controls k = MultiplexedConnection.controls (connection c).
Proof.
  unfold write. intros (bs & ? & [Hb%protocol_Ok ->]%returns_lift & H)%returns_bind.
  apply returns_bind in H as (packet & ? & [Hp%protocol_Ok ->]%returns_lift & H).
  apply packet_new_header in Hp as (Hh & Hm & Hbody). exists packet. revert H.
  unfold returns, on_connection, MultiplexedConnection.write_packet.
  destruct (MultiplexedConnection.writes (connection c)) as [|[v|e|] ws]; [done| |done|done].
  intros [= _ <-]. eexists. split; [reflexivity|]. rewrite Hm, Hbody, Hb, Hh. done.
Qed.

Lemma returns_server_register id c tr c' :
  returns (on_connection (MultiplexedConnection.register_session id)) c tr c' ->
  id <> 0 /\ exists k, c' = set_connection c k /\
    MultiplexedConnection.written k = MultiplexedConnection.written (connection c) /\
    Ok tr ∈ MultiplexedConnection.registrations (connection c).
Proof.
  unfold returns, on_connection, MultiplexedConnection.register_session.
  destruct (Z.eqb_spec id 0); [done|].
  destruct (MultiplexedConnection.registrations (connection c)) as [|r rest]; [done|].
  intros [= -> <-]. split; [done|]. eexists. split; [reflexivity|]. split; [done|]. by left.
Qed.

Lemma returns_policy config open (c : t) rejection (c' : t) :
  returns (NnrpServerConfig.validate_client_open config open) c rejection c' ->
  c' = c /\ (rejection = None <->
    NnrpServerConfig.validate_limits config open = Ok tt /\
    exists decision, NnrpServerConfig.application_policy config open = Ready (Ok decision) /\
      NnrpServerPolicyDecision.accepted decision = true).
Proof.
  unfold NnrpServerConfig.validate_client_open, returns.
  destruct (NnrpServerConfig.validate_limits config open) as [[]|decision|]; [| |done].
  - unfold mbind, async_bind.
    destruct (NnrpServerConfig.application_policy config open) as [[decision|e|]|]; try done.
    intros [= <- <-]. split; [done|]. destruct (NnrpServerPolicyDecision.accepted decision) eqn:Ha; simpl.
    + split; [|done]. intros _. split; [done|]. by exists decision.
    + split; [done|]. intros (_ & d & [= <-] & Hd). congruence.
  - intros [= <- <-]. split; [done|]. split; [done|]. by intros [? _].
Qed.

(** The times that the calls have used up, and the random bytes. *)
Definition spent (c : t) (times : list Z) (rest : list (nat -> option bytes)) : t :=
  mk (connection c) (closes c) (sessions c) (accepted_sessions c) (listening c) times (clock_us c) rest (others c).

Lemma returns_server_clock c now c' :
  returns current_unix_ms c now c' -> now = default 0 (head (clock c)) /\ c' = spent c (tail (clock c)) (random c).
Proof.
  unfold returns, current_unix_ms. destruct c as [k cl ss acc ls [|t0 ts] us rn os]; cbn; by intros [= <- <-].
Qed.

Lemma returns_token config resume c token c' :
  returns (issue_token config resume) c token c' ->
  (exists rest, c' = spent c (clock c) rest) /\ (resume = false -> token = []) /\
  (resume = true -> Forall fills (random c) -> 0 <= NnrpServerConfig.resume_token_bytes config ->
   len token = NnrpServerConfig.resume_token_bytes config /\ len token <= MAX_RESUME_TOKEN_BYTES).
Proof.
  unfold issue_token. destruct resume; [|].
  - intros (? & ? & [_ ->]%returns_lift & H)%returns_bind.
    apply returns_bind in H as (? & ? & [Hmax%reject_if_Ok ->]%returns_lift & H). revert H.
    destruct (Z.eqb_spec (NnrpServerConfig.resume_token_bytes config) 0) as [Hz|Hnz].
    + intros [-> ->]%returns_ret. split; [exists (random c); by destruct c|]. split; [done|].
      intros _ _ _. unfold len, MAX_RESUME_TOKEN_BYTES. simpl. lia.
    + unfold returns, fill. destruct (random c) as [|source rest] eqn:E; [done|].
      intros [= Ht <-]. apply ok_or_Ok in Ht. split; [by exists rest|]. split; [done|].
      intros _ [Hf _]%Forall_cons Hnn. apply Hf in Ht. unfold len. lia.
  - intros [-> ->]%returns_ret. split; [exists (random c); by destruct c|]. done.
Qed.

(** The record of an accepted session. *)
Definition accepted_record (nonce : Z) (config : NnrpServerConfig.t) (open : SessionOpenMetadata.t)
    (id prior now : Z) (token : bytes) (record : RuntimeSessionRecord.t) : Prop :=
  RuntimeSessionRecord.session_id record = id /\ RuntimeSessionRecord.active record = true /\
  RuntimeSessionRecord.connection_nonce record = nonce /\
  RuntimeSessionRecord.resume_token record = token /\
  RuntimeSessionRecord.last_operation_id record = prior /\
  RuntimeSessionRecord.resume_enabled record = enables_resume config open true /\
  RuntimeSessionRecord.resume_expires_at_ms record =
    saturating_add u64_max now (NnrpServerConfig.resume_window_ms config).

Lemma returns_install config tid nonce now open choice ack resume token tr c id c' :
  returns (install_session config tid nonce now open choice ack resume token tr) c id c' ->
  id = SessionChoice.session_id choice /\
  exists l,
    c' = set_accepted
      (set_sessions c (insert_session config nonce now choice ack resume token (met c)) (tail (others c)))
      (accepted_sessions c ++
         [new_session config tid nonce id open tr l
            (insert_session config nonce now choice ack resume token (met c)) (clock c)]) /\
    ConnectionLifecycle.apply_session_open_ack ack ConnectionLifecycle.new = (Ok tt, l).
Proof.
  unfold install_session. cbv zeta.
  destruct (ConnectionLifecycle.apply_session_open_ack ack ConnectionLifecycle.new) as [o l].
  intros (? & ? & [Ho%protocol_Ok ->]%returns_lift & H)%returns_bind. subst o.
  apply returns_bind in H as (? & ? & [= <- <-] & H).
  apply returns_bind in H as (s & ? & [-> ->]%returns_gets & H).
  apply returns_bind in H as (heard & ? & [-> ->]%returns_gets & H). revert H. simpl.
  destruct (listening c).
  - intros (? & ? & ->%returns_modify & [-> ->]%returns_ret)%returns_bind. split; [done|]. exists l. by destruct x.
  - intros (? & ? & _ & [[=] _]%returns_lift)%returns_bind.
Qed.

Lemma read_open_Ok packet open :
  read_open packet = Ok open ->
  SessionOpenMetadata.parse (RuntimePacket.metadata packet) = Ok open /\
  validate_session_recovery_request open = Ok tt /\
  len (RuntimePacket.body packet) = SessionOpenMetadata.resume_token_bytes open.
Proof.
  unfold read_open. intros (o & Ho%protocol_Ok & H)%bind_Ok.
  apply bind_Ok in H as ([] & Hv%protocol_Ok & H). apply bind_Ok in H as (? & Hl%reject_if_Ok & [= <-]).
  split_and!; [done|done|]. by apply negb_false_iff, Z.eqb_eq in Hl.
Qed.

(** The registry as an acceptance finds it when it installs the session, after the choice of the
    session has left it to others. *)
Definition after_choice (c : t) : SessionRegistry :=
  let registry := filter (retained (default 0 (head (clock c)))) (met c) in
  match tail (others c) with [] => registry | other :: _ => other registry end.

(** The choice and the record under which a session was accepted, and what was sent. *)
Lemma accept_returns config tid nonce packet (c : t) id (c' : t) :
  returns (accept_connection_session tid nonce config packet) c (Some id) c' ->
  exists open choice token tr l ack ack_packet k rest,
    let now := default 0 (head (clock c)) in
    let registry := filter (retained now) (met c) in
    let resume := enables_resume config open true in
    let installed := insert_session config nonce now choice ack resume token (after_choice c) in
    read_open packet = Ok open /\
    NnrpServerConfig.validate_limits config open = Ok tt /\
    choose_session open (RuntimePacket.body packet) now (met c) = (choice, registry) /\
    recovery_error choice = None /\ id = SessionChoice.session_id choice /\
    (resume = false -> token = []) /\
    (resume = true -> Forall fills (random c) -> 0 <= NnrpServerConfig.resume_token_bytes config ->
     len token = NnrpServerConfig.resume_token_bytes config /\ len token <= MAX_RESUME_TOKEN_BYTES) /\
    ack = open_ack config open id true resume (as_u32 (len token)) 0 SESSION_ERROR_NONE /\
    Ok tr ∈ MultiplexedConnection.registrations (connection c) /\
    ConnectionLifecycle.apply_session_open_ack ack ConnectionLifecycle.new = (Ok tt, l) /\
    c' = set_accepted
      (set_sessions (set_connection (spent c (tail (clock c)) rest) k) installed (tail (tail (others c))))
      (accepted_sessions c ++ [new_session config tid nonce id open tr l installed (tail (clock c))]) /\
    MultiplexedConnection.written k = MultiplexedConnection.written (connection c) ++ [ack_packet] /\
    SessionOpenAckMetadata.to_bytes ack = Ok (RuntimePacket.metadata ack_packet) /\
    RuntimePacket.body ack_packet = token /\
    CommonHeader.message_type (RuntimePacket.header ack_packet) = MessageType.SessionOpenAck /\
    CommonHeader.session_id (RuntimePacket.header ack_packet) = id.
Proof.
  unfold accept_connection_session. cbv zeta.
  intros (open & ? & [Hopen ->]%returns_lift & H)%returns_bind.
  apply returns_bind in H as (rejection & ? & [-> Hrej]%returns_policy & H).
  apply returns_bind in H as (now & ? & [-> ->]%returns_server_clock & H).
  apply returns_bind in H as (choice & ? & Hch & H). unfold returns, on_sessions in Hch.
  change (met (spent c _ _)) with (met c) in Hch.
  destruct (choose_session open (RuntimePacket.body packet) (default 0 (head (clock c))) (met c))
    as [choice' registry] eqn:Hchoice. injection Hch as -> <-.
  assert (registry = filter (retained (default 0 (head (clock c)))) (met c)) as ->.
  { symmetry. exact (f_equal snd Hchoice). }
  apply returns_bind in H as (token & ? & ([rest ->] & Htok & Hlen)%returns_token & H).
  apply returns_bind in H as (ext & ? & [Hext ->]%returns_lift & H).
  destruct (accepts rejection choice) eqn:Hacc.
  2: { apply returns_bind in H as (? & ? & _ & [[=] _]%returns_ret). }
  injection Hext as <-. unfold accepts in Hacc. apply andb_prop in Hacc as [Hr1 Hr2].
  destruct rejection as [|]; [done|]. destruct (recovery_error choice) eqn:Hrec; [done|].
  apply returns_bind in H as (tr & ? & (_ & k1 & -> & Hw1 & Htr)%returns_server_register & H).
  unfold write_open_ack in H.
  apply returns_bind in H as (? & ? & (ap & k & -> & Hw & Hack & Hbody & Hhead & _)%returns_server_write & H).
  apply returns_bind in H as (id' & ? & (-> & l & -> & Hl)%returns_install & [[= ->] ->]%returns_ret).
  unfold open_error_code in *. rewrite Hrec in *. simpl in *.
  eexists open, choice, token, tr, l, _, ap, k, rest.
  split; [done|]. split; [by apply Hrej|]. split; [exact Hchoice|]. split; [exact Hrec|]. split; [done|].
  split; [done|]. split; [exact Hlen|]. split; [reflexivity|]. split; [done|]. split; [done|]. split; [reflexivity|].
  split; [by rewrite Hw, Hw1|]. split; [done|]. split; [done|]. by rewrite Hhead.
Qed.

End returned.

(** ** The listeners *)

Section listeners.
Context {A : Type}.
Implicit Types accepts : list (Poll A).

(** Every listener waits or has a carrier. *)
Definition no_failure accepts : Prop :=
  Forall (fun a => a = Pending \/ exists transport, a = Ready (Ok transport)) accepts.

(** The listener that answers is the first, from [start] on, that does not wait. *)
Lemma poll_accepts_first accepts start j m k transport :
  no_failure accepts -> 0 < len accepts ->
  (j <= k < j + m)%nat ->
  accepts !! Z.to_nat ((start + Z.of_nat k) mod len accepts) = Some (Ready (Ok transport)) ->
  exists o found,
    (j <= o <= k)%nat /\
    poll_accepts accepts start (Z.of_nat <$> seq j m) =
      Ready (Ok ((start + Z.of_nat o) mod len accepts, found)) /\
    accepts !! Z.to_nat ((start + Z.of_nat o) mod len accepts) = Some (Ready (Ok found)) /\
    forall o', (j <= o' < o)%nat ->
      accepts !! Z.to_nat ((start + Z.of_nat o') mod len accepts) = Some Pending.
Proof.
  intros Hok Hn. revert j. induction m as [|m IH]; intros j Hk Hl; [lia|]. simpl.
  set (index := (start + Z.of_nat j) mod len accepts).
  assert (is_Some (accepts !! Z.to_nat index)) as [a Ha].
  { apply lookup_lt_is_Some. pose proof (Z.mod_pos_bound (start + Z.of_nat j) (len accepts) Hn). unfold len in *. lia. }
  rewrite Ha. destruct (proj1 (Forall_lookup _ _) Hok _ _ Ha) as [-> | [found ->]].
  - destruct (decide (j = k)) as [->|Hne].
    { unfold index in Ha. rewrite Hl in Ha. discriminate Ha. }
    destruct (IH (S j)) as (o & found & Ho & Hp & Hf & Hfirst); [lia|done|].
    exists o, found. split_and!; [lia|lia|done|done|]. intros o' Ho'.
    destruct (decide (o' = j)) as [->|?]; [done|]. apply Hfirst. lia.
  - exists j, found. split_and!; [lia|lia|done|done|]. lia.
Qed.

(** The listeners that are chosen in a sequence of acceptances, each from where the last left
    off, as [accept_inner] does. *)
Fixpoint accepted_indices (start : Z) (rounds : list (list (Poll A))) : list Z :=
  match rounds with
  | [] => []
  | accepts :: rounds =>
      match accept_stable accepts start with
      | Ready (Ok (index, _)) => index :: accepted_indices (next_accept_index index (len accepts)) rounds
      | _ => []
      end
  end.

Lemma accept_stable_first accepts start k transport :
  no_failure accepts -> 0 <= k < len accepts -> 0 <= start < len accepts ->
  accepts !! Z.to_nat k = Some (Ready (Ok transport)) ->
  exists index found, accept_stable accepts start = Ready (Ok (index, found)) /\
    0 <= index < len accepts /\
    (index - start) mod len accepts <= (k - start) mod len accepts /\
    accepts !! Z.to_nat index = Some (Ready (Ok found)).
Proof.
  intros Hok Hk Hst Ha. set (n := len accepts) in *. set (d := (k - start) mod n).
  assert (0 <= d < n) as Hd by (apply Z.mod_pos_bound; lia).
  assert ((start + d) mod n = k) as Hdk.
  { unfold d. rewrite Z.add_mod_idemp_r by lia. replace (start + (k - start)) with k by lia. apply Z.mod_small. lia. }
  destruct (poll_accepts_first accepts start 0 (length accepts) (Z.to_nat d) transport)
    as (o & found & Ho & Hp & Hf & _); [done|lia|unfold n, len in *; lia| |].
  { fold n. rewrite Z2Nat.id by lia. by rewrite Hdk. }
  fold n in Hp, Hf. exists ((start + Z.of_nat o) mod n), found. split_and!.
  - unfold accept_stable. fold n. rewrite (proj2 (Z.eqb_neq n 0)) by lia.
    by rewrite (Z.mod_small start n) by lia.
  - apply Z.mod_pos_bound. lia.
  - apply Z.mod_pos_bound. lia.
  - rewrite Zminus_mod_idemp_l. replace (start + Z.of_nat o - start) with (Z.of_nat o) by lia.
    rewrite Z.mod_small by lia. lia.
  - done.
Qed.

Lemma accepted_within n k rounds start :
  0 <= k < n -> 0 <= start < n -> (k - start) mod n < len rounds ->
  Forall (fun accepts => len accepts = n /\ no_failure accepts /\
            exists transport, accepts !! Z.to_nat k = Some (Ready (Ok transport))) rounds ->
  k ∈ accepted_indices start rounds.
Proof.
  intros Hk Hst Hd Hr. revert start Hst Hd. induction Hr as [|accepts rounds (Hn & Hok & transport & Ha) _ IH];
    intros start Hst Hd.
  { unfold len in Hd. simpl in Hd. pose proof (Z.mod_pos_bound (k - start) n). lia. }
  subst n. simpl.
  destruct (accept_stable_first accepts start k transport Hok Hk Hst Ha) as (index & found & -> & Hi & Hle & _).
  destruct (decide (index = k)) as [->|Hne]; [by left|right]. set (n := len accepts) in *.
  unfold next_accept_index. apply IH; [apply Z.mod_pos_bound; lia|].
  assert ((k - (index + 1) mod n) mod n = (k - start) mod n - (index - start) mod n - 1) as ->.
  { rewrite Zminus_mod_idemp_r.
    replace (k - (index + 1)) with ((k - start) - (index - start) - 1) by lia.
    rewrite <- (Zminus_mod_idemp_l ((k - start) - (index - start))), <- Zminus_mod_idemp_l,
      (Zminus_mod (k - start)), !Z.mod_mod by lia.
    set (d := (k - start) mod n) in *. set (a := (index - start) mod n) in *.
    assert (0 <= d < n) by (apply Z.mod_pos_bound; lia). assert (0 <= a < n) by (apply Z.mod_pos_bound; lia).
    assert (a <> d).
    { intros He. apply Hne. unfold a, d in He.
      assert ((index - start - (k - start)) mod n = 0) as Hz by (rewrite Zminus_mod, He, Z.sub_diag; apply Z.mod_0_l; lia).
      replace (index - start - (k - start)) with (index - k) in Hz by lia.
      apply Z.mod_divide in Hz as [q Hq]; [|lia]. assert (q = 0) as -> by nia. lia. }
    rewrite (Z.mod_small (d - a)) by lia. apply Z.mod_small. lia. }
  rewrite len_cons in Hd. pose proof (Z.mod_pos_bound (index - start) n). lia.
Qed.

End listeners.

(** ** Properties *)

Section properties.
Context `{Htarget : Target}.

(** A session that some connection has accepted. *)
Definition opened (s : NnrpServerSession.t) : Prop :=
  exists c c' tid nonce config packet id,
    conn_ok (fun _ => True) (fun _ => True) c /\
    returns (accept_connection_session tid nonce config packet) c (Some id) c' /\
    last (accepted_sessions c') = Some s.

Lemma accepted_inv config tid nonce id open tr l registry times c :
  conn_ok (fun _ => True) (fun _ => True) c -> Ok tr ∈ MultiplexedConnection.registrations (connection c) ->
  ServerTheory.inv (new_session config tid nonce id open tr l registry times).
Proof.
  intros [(_ & _ & Hr) Hf _ _ _ _] Hin. rewrite Forall_forall in Hr, Hf. apply inv_new_session.
  - by apply (Hr _ Hin).
  - by apply (Hf _ Hin).
Qed.

Lemma server_opened_inv s : opened s -> ServerTheory.inv s.
Proof.
  intros (c & c' & tid & nonce & config & packet & id & Hc & Hr & Hs).
  apply accept_returns in Hr as (open & choice & token & tr & l & ack & ap & k & rest & H). cbv zeta in H.
  destruct H as (_ & _ & _ & _ & _ & _ & _ & _ & Htr & _ & -> & _). simpl in Hs.
  rewrite last_snoc in Hs. injection Hs as <-. by eapply accepted_inv.
Qed.

(** What the other tasks of a server do to the registry while a connection does not hold it: they
    choose and install sessions of other connections, take sessions out of use or remove them, and
    note operations of sessions. *)
Lemma foreign_choose nonce open token now : foreign nonce (fun registry => (choose_session open token now registry).2).
Proof.
  intros registry Hok. cbn. split; [intros id record [Hr _]%retained_lookup; exact (Hok _ _ Hr)|]. intros id record [Hr _]%retained_lookup Hn Ha. by exists record.
Qed.

Lemma foreign_insert nonce nonce' config now choice ack resume token :
  nonce' <> nonce -> SessionChoice.session_id choice <> 0 ->
  foreign nonce (insert_session config nonce' now choice ack resume token).
Proof.
  intros Hne Hid registry Hok. unfold insert_session. split; [by apply map_Forall_insert_2|].
  intros id record [[<- <-]|[_ Hr]]%lookup_insert_Some Hn Ha; [done|]. by exists record.
Qed.

Lemma foreign_mark nonce nonce' id : foreign nonce (mark_session_inactive id nonce').
Proof.
  intros registry Hok. unfold mark_session_inactive. split.
  - intros id' record (r & Hr & Hs & _)%mark_inactive_lookup. destruct (Hok _ _ Hr). by rewrite Hs.
  - intros id' record (r & Hr & _ & Hn & Ha)%mark_inactive_lookup Hnonce Hact. exists r.
    rewrite <- Hn. by destruct (Ha Hact).
Qed.

Lemma foreign_delete nonce id : foreign nonce (delete id).
Proof.
  intros registry Hok. split; [by apply map_Forall_delete|]. intros id' record [_ Hr]%lookup_delete_Some Hn Ha. by exists record.
Qed.

Lemma foreign_last_operation nonce id operation_id :
  foreign nonce (alter (fun record => RuntimeSessionRecord.set_last_operation_id record
    (Z.max (RuntimeSessionRecord.last_operation_id record) operation_id)) id).
Proof.
  intros registry Hok. split.
  - intros id' record [[<- (r & Hr & ->)]|[_ Hr]]%lookup_alter_Some; [exact (Hok _ _ Hr)|exact (Hok _ _ Hr)].
  - intros id' record [[<- (r & Hr & ->)]|[_ Hr]]%lookup_alter_Some Hn Ha; eexists; by split_and!.
Qed.

(** C12: when a connection accepts a SESSION_OPEN, the request is well formed and within the
    limits of the configuration, and its id is not zero.  The id is chosen in the registry as other
    tasks have left it then.  A request with a token resumes the session it names, whose record
    there allows that, is not in use, has not expired and has that very token.  Any other request
    gets the id that it asks for, or the smallest positive id without a record when it asks for
    none, and no record there that is active or not yet expired has that id.  The record is
    inserted later, into the registry as other tasks have left it since: that one then holds the
    record of this session, and is otherwise as it was.  When nobody has touched that id between
    the choice and the insertion, no session in use is displaced; the choice does not reserve
    the id, so that without this condition one can be ([session_id_race]).  The application gets
    a session with that id that satisfies the session invariant, and the one packet written is
    a SESSION_OPEN_ACK of that session with the token as its body. *)
Theorem accept_contract (c c' : t) (tid : TransportId.t) (nonce id : Z) (config : NnrpServerConfig.t)
    (packet : RuntimePacket.t) :
  conn_ok (fun _ => True) (fun _ => True) c ->
  returns (accept_connection_session tid nonce config packet) c (Some id) c' ->
  let now := default 0 (head (clock c)) in
  let at_choice := met c in
  let at_insertion := after_choice c in
  exists open prior token record s ack ack_packet,
    SessionOpenMetadata.parse (RuntimePacket.metadata packet) = Ok open /\
    len (RuntimePacket.body packet) = SessionOpenMetadata.resume_token_bytes open /\
    NnrpServerConfig.validate_limits config open = Ok tt /\
    id <> 0 /\ chosen open (RuntimePacket.body packet) now at_choice id prior /\
    sessions c' = <[id := record]> at_insertion /\
    accepted_record nonce config open id prior now token record /\
    (at_insertion !! id = filter (retained now) at_choice !! id ->
     forall displaced, at_insertion !! id = Some displaced -> RuntimeSessionRecord.active displaced = false) /\
    accepted_sessions c' = accepted_sessions c ++ [s] /\
    NnrpServerSession.session_id s = id /\ NnrpServerSession.client_open s = open /\
    ServerTheory.inv s /\
    MultiplexedConnection.written (connection c') =
      MultiplexedConnection.written (connection c) ++ [ack_packet] /\
    CommonHeader.message_type (RuntimePacket.header ack_packet) = MessageType.SessionOpenAck /\
    CommonHeader.session_id (RuntimePacket.header ack_packet) = id /\
    SessionOpenAckMetadata.to_bytes ack = Ok (RuntimePacket.metadata ack_packet) /\
    RuntimePacket.body ack_packet = token /\
    SessionOpenAckMetadata.session_id ack = id /\
    SessionOpenAckMetadata.session_status ack =
      (if 0 <? SessionOpenMetadata.resume_token_bytes open then SessionStatus.Resumed else SessionStatus.Opened).
Proof.
  intros Hc Hr. cbv zeta.
  apply accept_returns in Hr as (open & choice & token & tr & l & ack & ap & k & rest & H). cbv zeta in H.
  destruct H as ((Hparse & _ & Hlen)%read_open_Ok & Hlim & Hch & Hrec & -> & Htok & _ & -> & Htr & Hl & -> & Hw & Hack & Hbody & Hty & Hsid).
  destruct (choose_session_chosen _ _ _ _ _ _ Hch Hrec) as [Hid Hchosen].
  eexists open, (SessionChoice.prior_last_operation_id choice), token, _, _, _, ap.
  split; [exact Hparse|]. split; [exact Hlen|]. split; [exact Hlim|]. split; [exact Hid|].
  split; [exact Hchosen|]. split; [reflexivity|]. split; [by split_and!|].
  split; [intros -> displaced; exact (chosen_idle _ _ _ _ _ _ displaced Hchosen)|]. split; [reflexivity|].
  split; [reflexivity|]. split; [reflexivity|]. split; [by eapply accepted_inv|]. split; [exact Hw|].
  split; [exact Hty|]. split; [exact Hsid|]. split; [exact Hack|]. by split_and!.
Qed.

(** C20: serving a connection from the hello to its end does not panic, whatever arrives, whatever
    the calls of the connection return, and whatever other tasks do to the registry in between,
    short of putting a session of this connection into use; every session that it hands to the
    application satisfies the session invariant, and when it ends no record of the registry is still
    in use by this connection.  (The application's policy does not panic.) *)
Theorem serve_connection_contract (c : t) (tid : TransportId.t) (nonce : Z) (config : NnrpServerConfig.t) :
  polite config -> conn_ok (foreign nonce) (held nonce ∅) c ->
  (serve_connection tid nonce config c).1 <> Ready Panic /\
  Forall ServerTheory.inv (accepted_sessions (serve_connection tid nonce config c).2) /\
  forall c', returns (serve_connection tid nonce config) c tt c' ->
    forall id record, sessions c' !! id = Some record ->
      RuntimeSessionRecord.connection_nonce record = nonce -> RuntimeSessionRecord.active record = false.
Proof.
  intros Hp Hc. pose proof (serve_connection_serves nonce config tid Hp c Hc) as H. unfold returns.
  destruct (serve_connection tid nonce config c) as [[[[]|e|]|] c1]; simpl; [|destruct H as [ids H]|done|destruct H as [ids H]].
  - split; [done|]. split; [apply (conn_accepted _ _ _ H)|]. intros c' [= <-] id record Hr Hn.
    destruct (conn_registry _ _ _ H) as [_ Hheld]. destruct (RuntimeSessionRecord.active record) eqn:Ha; [|done].
    exfalso. apply (not_elem_of_empty (C := gset Z) id). by apply (Hheld id record).
  - split; [done|]. split; [apply (conn_accepted _ _ _ H)|done].
  - split; [done|]. split; [apply (conn_accepted _ _ _ H)|done].
Qed.

Lemma retained_twice now (registry : SessionRegistry) :
  filter (retained now) (filter (retained now) registry) = filter (retained now) registry.
Proof. apply map_filter_id. intros id record Hr. by apply (map_lookup_filter_Some_1_2 _ registry id record). Qed.

(** the choice of a session id does not reserve it.  When two connections have
    chosen for requests without a token and without an id before either has
    installed its session, both have the same id; the record of the second session replaces
    that of the first, and when the first connection ends the registry does not change. *)
Theorem session_id_race (open1 open2 : SessionOpenMetadata.t) (token1 token2 : bytes) (now nonce1 nonce2 : Z)
    (registry registry1 registry2 : SessionRegistry) (choice1 choice2 : SessionChoice.t)
    (config : NnrpServerConfig.t) (ack1 ack2 : SessionOpenAckMetadata.t) (resume1 resume2 : bool)
    (issued1 issued2 : bytes) :
  SessionOpenMetadata.resume_token_bytes open1 = 0 -> SessionOpenMetadata.requested_session_id open1 = 0 ->
  SessionOpenMetadata.resume_token_bytes open2 = 0 -> SessionOpenMetadata.requested_session_id open2 = 0 ->
  nonce1 <> nonce2 ->
  choose_session open1 token1 now registry = (choice1, registry1) ->
  choose_session open2 token2 now registry1 = (choice2, registry2) ->
  recovery_error choice1 = None ->
  let id := SessionChoice.session_id choice1 in
  let both := insert_session config nonce2 now choice2 ack2 resume2 issued2
                (insert_session config nonce1 now choice1 ack1 resume1 issued1 registry2) in
  SessionChoice.session_id choice2 = id /\ recovery_error choice2 = None /\
  (exists record, both !! id = Some record /\ RuntimeSessionRecord.connection_nonce record = nonce2) /\
  mark_connection_sessions_inactive nonce1 {[id]} both = both.
Proof.
  intros Ht1 Hr1 Ht2 Hr2 Hne Hc1 Hc2 Hok id both. unfold choose_session in Hc1, Hc2.
  rewrite Ht1, Hr1 in Hc1. rewrite Ht2, Hr2 in Hc2. simpl in Hc1, Hc2. injection Hc1 as Hc1 Hg1.
  injection Hc2 as Hc2 Hg2. subst registry1. rewrite retained_twice in Hc2. rewrite Hc1 in Hc2. subst choice2.
  assert (both !! id = Some _) as Hb by apply lookup_insert_eq.
  split; [done|]. split; [done|]. split; [eexists; by split|].
  unfold mark_connection_sessions_inactive. rewrite elements_singleton. simpl.
  change (merge_sort Z.le [id]) with [id]. simpl. unfold mark_inactive. rewrite Hb. simpl.
  by rewrite (proj2 (Z.eqb_neq _ _) (not_eq_sym Hne)).
Qed.

(** the listeners are asked in turn: when each acceptance starts behind the
    listener that answered last, a listener that has a carrier in each of [n] acceptances is
    chosen in one of them, [n] being the number of listeners, whatever the others do. *)
Theorem listeners_take_turns {A} (n k start : Z) (rounds : list (list (Poll A))) :
  0 <= k < n -> 0 <= start < n -> len rounds = n ->
  Forall (fun accepts => len accepts = n /\ no_failure accepts /\
            exists transport, accepts !! Z.to_nat k = Some (Ready (Ok transport))) rounds ->
  k ∈ accepted_indices start rounds.
Proof.
  intros Hk Hst Hn Hr. apply (accepted_within n); [done|done| |done]. rewrite Hn.
  apply Z.mod_pos_bound. lia.
Qed.

(** the comparison of recovery tokens, which looks at every byte, is equality. *)
Theorem tokens_compared_exactly (left right : bytes) : constant_time_eq left right = bool_decide (left = right).
Proof.
  apply eq_true_iff_eq. by rewrite constant_time_eq_spec, bool_decide_eq_true.
Qed.

End properties.

(** ** An example: a session that is opened, and its connection *)

Module ServerExample.

#[local] Existing Instance target64.

Definition config : NnrpServerConfig.t :=
  NnrpServerConfig.default
    (match SchemaRegistry.standard with Ok registry => registry | _ => SchemaRegistry.new end).

Lemma config_polite : polite config.
Proof. by intros open. Qed.

(** What the default client asks for. *)
Definition hello_packet : RuntimePacket.t :=
  ClientOpenTheory.Example.packet_of MessageType.ClientHello 0 0
    (wire (NnrpClient.hello_metadata NnrpClientConfig.default 0)) [].

Definition open_metadata (token_bytes : Z) : SessionOpenMetadata.t :=
  match session_open_metadata NnrpClientConfig.default token_bytes with
  | Ok metadata => metadata
  | _ => SessionOpenMetadata.mk 0 0 SessionPriorityClass.Balanced 0 0 0 0 0 0 0 0 0 0
  end.

Definition open_packet : RuntimePacket.t :=
  ClientOpenTheory.Example.packet_of MessageType.SessionOpen 0 0 (wire (open_metadata 0)) [].

(** A registry in which session 1 is in use by connection 8. *)
Definition other : RuntimeSessionRecord.t :=
  RuntimeSessionRecord.mk 1 STANDARD_PROFILE_TOKEN TOKEN_DELTA_SCHEMA_ID TOKEN_DELTA_SCHEMA_VERSION
    false 0 [] 0 0 true 8.

(** While the connection accepts a session, connection 10 installs session 3. *)
Definition newcomer : RuntimeSessionRecord.t :=
  RuntimeSessionRecord.mk 3 STANDARD_PROFILE_TOKEN TOKEN_DELTA_SCHEMA_ID TOKEN_DELTA_SCHEMA_VERSION
    false 0 [] 0 0 true 10.

Definition connection (controls : list (RT RuntimePacket.t)) (tr : FramedTransport.t) : t :=
  {| connection := MultiplexedConnection.mk [Ok tt; Ok tt] controls [Ok tr] [];
     closes := [Ok tt]; sessions := {[1 := other]}; accepted_sessions := []; listening := true;
     clock := [1000; 1001; 1002; 1003; 1004; 1005; 5000]; clock_us := []; random := [];
     others := [id; <[3 := newcomer]>] |}.

Lemma connection_ok controls tr (R : (SessionRegistry -> SessionRegistry) -> Prop) (P : SessionRegistry -> Prop) :
  Forall (fun r => r <> Panic) controls -> FramedTransport.well_behaved tr ->
  FramedTransport.handed tr = [] -> P {[1 := other]} -> R id -> R <[3 := newcomer]> ->
  conn_ok R P (connection controls tr).
Proof.
  intros Hc Htr Hw HP H1 H2.
  split; simpl; [|by apply Forall_singleton; intros ? [= <-]|by repeat constructor|done|done|by repeat constructor|done].
  split; [by repeat constructor|]. split; [done|]. apply Forall_singleton. split; [done|]. by intros ? [= <-].
Qed.

Lemma others_foreign nonce : nonce <> 10 -> foreign nonce id /\ foreign nonce <[3 := newcomer]>.
Proof.
  intros Hn. split.
  - intros registry Hok. split; [done|]. intros i record Hr Hnonce Ha. by exists record.
  - intros registry Hok. split; [by apply map_Forall_insert_2|].
    intros i record [[<- <-]|[_ Hr]]%lookup_insert_Some Hnonce Ha; [by destruct Hn|]. by exists record.
Qed.

Lemma registry_held nonce : nonce <> 8 -> held nonce ∅ {[1 := other]}.
Proof.
  intros Hn. split.
  - by apply map_Forall_singleton.
  - intros id record [<- <-]%lookup_singleton_Some. simpl. congruence.
Qed.

Definition transport (reads : list (RT RuntimePacket.t)) (writes : nat) : FramedTransport.t :=
  FramedTransport.mk RuntimeTransportKind.Tcp reads [] (replicate writes (Ok tt)) [Ok tt] [].

(** The connection after the session was accepted, and after its end. *)
Definition accepted (tr : FramedTransport.t) : t :=
  (accept_connection_session TransportId.Tcp 9 config open_packet (connection [] tr)).2.
Definition served (tr : FramedTransport.t) : t :=
  (serve_connection TransportId.Tcp 9 config
     (connection [Ok hello_packet; Ok open_packet; Err (UnexpectedMessage "closed")] tr)).2.

Lemma accepts_two tr :
  returns (accept_connection_session TransportId.Tcp 9 config open_packet) (connection [] tr) (Some 2) (accepted tr).
Proof. unfold returns, accepted. vm_compute. reflexivity. Qed.

End ServerExample.

Lemma accept_contract_witness :
  let tr := ServerExample.transport [] 0 in
  exists record, sessions (ServerExample.accepted tr) =
      <[2 := record]> (<[3 := ServerExample.newcomer]> {[1 := ServerExample.other]}) /\
    RuntimeSessionRecord.connection_nonce record = 9.
Proof.
  cbv zeta.
  destruct (accept_contract (Htarget := target64) (ServerExample.connection [] (ServerExample.transport [] 0))
    (ServerExample.accepted (ServerExample.transport [] 0)) TransportId.Tcp 9 2 ServerExample.config
    ServerExample.open_packet) as (open & prior & token & record & s & ack & ap & H).
  - apply ServerExample.connection_ok; [by constructor|by repeat constructor|reflexivity|exact I..].
  - apply ServerExample.accepts_two.
  - destruct H as (_ & _ & _ & _ & _ & Hs & (_ & _ & Hn & _) & _). exists record. split; [|exact Hn].
    rewrite Hs. reflexivity.
Defined.

Lemma serve_connection_contract_witness :
  let tr := ServerExample.transport [] 0 in
  dom (sessions (ServerExample.served tr)) = {[1; 3]} /\
  forall id record, sessions (ServerExample.served tr) !! id = Some record ->
    RuntimeSessionRecord.connection_nonce record = 9 -> RuntimeSessionRecord.active record = false.
Proof.
  cbv zeta. split; [vm_compute; reflexivity|].
  apply (serve_connection_contract (Htarget := target64)
    (ServerExample.connection [Ok ServerExample.hello_packet; Ok ServerExample.open_packet;
       Err (UnexpectedMessage "closed")] (ServerExample.transport [] 0)) TransportId.Tcp 9 ServerExample.config
    ServerExample.config_polite).
  - apply ServerExample.connection_ok; [by repeat constructor|by repeat constructor|reflexivity|..].
    + by apply ServerExample.registry_held.
    + by apply (ServerExample.others_foreign 9).
    + by apply (ServerExample.others_foreign 9).
  - unfold returns, ServerExample.served. vm_compute. reflexivity.
Defined.

Lemma session_id_race_witness :
  let registry := {[1 := ServerExample.other]} : SessionRegistry in
  let choice := (choose_session (ServerExample.open_metadata 0) [] 1000 registry).1 in
  SessionChoice.session_id choice = 2 /\ recovery_error choice = None.
Proof.
  cbv zeta. split; [vm_compute; reflexivity|].
  apply (session_id_race (ServerExample.open_metadata 0) (ServerExample.open_metadata 0) [] [] 1000 9 10
    {[1 := ServerExample.other]} {[1 := ServerExample.other]} {[1 := ServerExample.other]}
    (choose_session (ServerExample.open_metadata 0) [] 1000 {[1 := ServerExample.other]}).1
    (choose_session (ServerExample.open_metadata 0) [] 1000 {[1 := ServerExample.other]}).1
    ServerExample.config
    (open_ack ServerExample.config (ServerExample.open_metadata 0) 2 true false 0 0 0)
    (open_ack ServerExample.config (ServerExample.open_metadata 0) 2 true false 0 0 0) false false [] []);
    try (vm_compute; reflexivity). done.
Defined.

Lemma listeners_take_turns_witness :
  1 ∈ accepted_indices 0 [[Ready (Ok tt); Ready (Ok tt)]; [Pending; Ready (Ok tt)]].
Proof.
  apply (listeners_take_turns 2 1 0); [lia|lia|reflexivity|].
  repeat constructor; try (eexists; reflexivity); try (right; eexists; reflexivity); by left.
Defined.
