(* ===== verification/ServerRuns.v ===== *)
(** The calls of a server on its sessions, in any order
    ([src/crates/nnrp-runtime/src/server.rs]).

    A run is a sequence of calls of public methods, each of which may also fail or be given
    up while it waits.  What was shown of one method holds along every run; operations only
    move forward, and what was written stays written. *)

From S2P Require Import Prelude Bytes Errors Enums Wire Header Session Flow Control Codes.
From S2P Require Import Lifecycle Capability RuntimeControl Operation Recovery Transport Route.
From S2P Require Import RuntimeError Packet Async Pressure PreSubmit Object Cache Data Schema.
From S2P Require Import Event Client SessionLogic Server ServerTheory ServerMethods.
From S2P Require Import ServerOpen ServerOpenTheory.

Local Open Scope Z_scope.
Import NnrpClientSession(wire_header, packet_frame, packet_type, address, as_u32, set_trace, control_state).
Import NnrpServerSession.

(** ** What a method changes *)

Class serving (R : t -> t -> Prop) : Prop := {
  serving_reading :: reading R;
  serving_transport tr s :
    FramedTransport.written (transport s) `prefix_of` FramedTransport.written tr ->
    R s (set_transport s tr);
  serving_inputs inputs s : R s (set_pending_inputs s inputs);
  serving_cache objects s : R s (set_cache_objects s objects)
}.

(** A call that does not take back what was written. *)
Definition appends {A} (m : Async FramedTransport.t A) : Prop :=
  forall tr, FramedTransport.written tr `prefix_of` FramedTransport.written (m tr).2.

Lemma read_appends : appends FramedTransport.read_packet.
Proof. intros tr. unfold FramedTransport.read_packet. by case_match. Qed.

Lemma write_appends packet : appends (FramedTransport.write_packet packet).
Proof.
  intros tr. unfold FramedTransport.write_packet.
  unfold FramedTransport.written.
  destruct (FramedTransport.writes tr) as [|[u|e|] ws]; simpl; rewrite FramedTransport.returned_app; by apply prefix_app_r.
Qed.

Lemma close_appends : appends FramedTransport.close.
Proof. intros tr. unfold FramedTransport.close. by case_match. Qed.

Section serving.
Context `{Htarget : Target} (R : t -> t -> Prop) `{HR : !serving R}.

Lemma within_on_transport {A} (m : Async FramedTransport.t A) : appends m -> within R (on_transport m).
Proof.
  intros Hm s. specialize (Hm (transport s)). unfold on_transport. destruct (m (transport s)).
  by apply serving_transport.
Qed.

Lemma within_read : within R read_packet.
Proof. apply within_on_transport, read_appends. Qed.

Lemma within_write packet : within R (write_packet packet).
Proof. apply within_on_transport, write_appends. Qed.

Lemma within_close_transport : within R (on_transport FramedTransport.close).
Proof. apply within_on_transport, close_appends. Qed.

Lemma within_take_pending : within R take_pending_specialized_input.
Proof.
  intros s. unfold take_pending_specialized_input. destruct (split_specialized _) as [[]|]; simpl;
    [apply serving_inputs|reflexivity].
Qed.

Lemma within_track object : within R (track_cache_object object).
Proof. intros s. unfold track_cache_object. repeat case_match; simpl; [reflexivity..|apply serving_cache]. Qed.

End serving.

(** The walk through the body of a method, by the head of what is left of it. *)
Ltac within_serving :=
  repeat (cbv beta zeta;
    lazymatch goal with
    | |- within _ read_packet => apply within_read; by apply _
    | |- within _ (write_packet _) => apply within_write; by apply _
    | |- within _ (on_transport FramedTransport.close) => apply within_close_transport; by apply _
    | |- within _ (decode_server_event _) => apply within_decode; by apply _
    | |- within _ take_pending_specialized_input => apply within_take_pending; by apply _
    | |- within _ (track_cache_object _) => apply within_track; by apply _
    | |- within _ (modify _) =>
        apply within_modify; intros ?;
        first [ apply serving_inputs | apply reading_close | apply reading_sessions
              | case_match; [apply reading_close|reflexivity]
              | unfold remove_from_registry; repeat case_match; first [apply reading_sessions|reflexivity] ]
    | |- within _ (mbind _ _) => apply within_bind; [by apply _| |intros ?]
    | |- within _ (match _ with _ => _ end) => case_match
    | |- within _ (lift _) => apply within_pure; [by apply _|intros ?; reflexivity]
    | |- within _ (check _) => apply within_pure; [by apply _|intros ?; reflexivity]
    | |- within _ (gets _) => apply within_pure; [by apply _|intros ?; reflexivity]
    | |- within _ (mret _) => apply within_pure; [by apply _|intros ?; reflexivity]
    | |- within _ (on_operations _) => by within_reading
    | |- within _ (on_deadlines _) => by within_reading
    | |- within _ (on_pressure _) => by within_reading
    | |- within _ (on_lifecycle _) => by within_reading
    | |- within _ current_unix_ms => by within_reading
    | |- within _ (queue_lifecycle _ _) => by within_reading
    | |- within _ (queue_lifecycles _ _) => by within_reading
    | |- within _ ?m => let h := head_of m in unfold h
    end).

(** ** The calls of a program *)

Section runs.
Context `{Htarget : Target}.

(** Every public method that changes the session, with any arguments. *)
Inductive method : forall A, Async t A -> Prop :=
| call_receive_submit : method NnrpServerOperation.t receive_submit
| call_await_event : method NnrpServerEvent.t await_event
| call_send_result operation md body : method unit (send_result operation md body)
| call_send_result_drop operation md body : method unit (send_result_drop operation md body)
| call_send_progress operation md body : method unit (send_progress operation md body)
| call_send_partial_result operation md body : method unit (send_partial_result operation md body)
| call_send_control_request mt md body : method unit (send_control_request mt md body)
| call_send_scheduling_update mt md : method unit (send_scheduling_update mt md)
| call_supersede_operation md body : method unit (supersede_operation md body)
| call_update_budget md : method unit (update_budget md)
| call_send_capability mt md body : method unit (send_capability mt md body)
| call_send_route_hint mt md body : method unit (send_route_hint mt md body)
| call_send_object_declare md body : method unit (send_object_declare md body)
| call_send_object_ref md body : method unit (send_object_ref md body)
| call_send_object_release md body : method unit (send_object_release md body)
| call_send_object_delta mt md body : method unit (send_object_delta mt md body)
| call_send_cache_put md body : method unit (send_cache_put md body)
| call_send_cache_ack md : method unit (send_cache_ack md)
| call_receive_cache_put : method (CachePutMetadata.t * bytes) receive_cache_put
| call_receive_cache_ack : method CacheAckMetadata.t receive_cache_ack
| call_send_ping : method unit send_ping
| call_send_pong : method unit send_pong
| call_receive_ping : method unit receive_ping
| call_receive_pong : method unit receive_pong
| call_send_cache_reference md body : method unit (send_cache_reference md body)
| call_send_cache_miss md body : method unit (send_cache_miss md body)
| call_send_cache_invalidate md : method unit (send_cache_invalidate md)
| call_receive_cancel : method Z receive_cancel
| call_receive_runtime_control : method NnrpRuntimeControl.t receive_runtime_control
| call_receive_scheduling_update : method NnrpSchedulingUpdate.t receive_scheduling_update
| call_receive_pressure_update : method NnrpPressureUpdate.t receive_pressure_update
| call_send_backpressure md : method unit (send_backpressure md)
| call_send_credit_update md : method unit (send_credit_update md)
| call_send_trace_context frame md body : method unit (send_trace_context frame md body)
| call_send_recoverable_error md body : method unit (send_recoverable_error md body)
| call_send_retry_after md body : method unit (send_retry_after md body)
| call_send_result_hint md : method unit (send_result_hint md)
| call_track_cache_object object : method unit (track_cache_object object)
| call_receive_patch : method SessionPatchMetadata.t receive_patch
| call_send_patch_ack ack : method unit (send_patch_ack ack)
| call_send_flow_update md : method unit (send_flow_update md)
| call_receive_migrate : method SessionMigrateMetadata.t receive_migrate
| call_send_migrate_ack request ack : method unit (send_migrate_ack request ack)
| call_receive_close : method SessionCloseMetadata.t receive_close
| call_ack_close close : method unit (ack_close close)
| call_close_in_place : method unit close_in_place.

Lemma server_method_sound A (m : Async t A) : method A m -> sound m.
Proof.
  destruct 1; lazymatch goal with
    | |- sound receive_submit => eapply keeps_conseq; [apply receive_submit_keeps|done|done]
    | |- sound await_event => eapply keeps_conseq; [apply await_event_keeps|done|done]
    | |- sound send_ping => unfold send_ping; by apply write_empty_keeps
    | |- sound send_pong => unfold send_pong; by apply write_empty_keeps
    | |- sound receive_ping => unfold receive_ping; apply receive_empty_keeps
    | |- sound receive_pong => unfold receive_pong; apply receive_empty_keeps
    | |- sound (ack_close _) => exact (ack_close_keeps any _)
    | |- sound receive_cancel => apply receive_cancel_sound
    | |- sound receive_runtime_control => apply receive_control_sound
    | |- sound receive_scheduling_update => apply receive_scheduling_sound
    | |- sound receive_pressure_update => apply receive_pressure_sound
    | |- sound receive_close => apply receive_close_sound
    | |- sound (track_cache_object _) => apply track_sound
    | |- sound (send_result _ _ _) => apply operation_send_result_keeps
    | |- sound (send_result_drop _ _ _) => apply operation_send_result_drop_keeps
    | |- sound (send_progress _ _ _) => apply operation_send_progress_keeps
    | |- sound (send_partial_result _ _ _) => apply operation_send_partial_result_keeps
    | |- sound (send_control_request _ _ _) => apply send_control_request_keeps
    | |- sound (send_scheduling_update _ _) => apply send_scheduling_update_keeps
    | |- sound (supersede_operation _ _) => apply supersede_operation_keeps
    | |- sound (update_budget _) => apply update_budget_keeps
    | |- sound (send_capability _ _ _) => apply send_capability_keeps
    | |- sound (send_route_hint _ _ _) => apply send_route_hint_keeps
    | |- sound (send_object_declare _ _) => apply send_object_declare_keeps
    | |- sound (send_object_ref _ _) => apply send_object_ref_keeps
    | |- sound (send_object_release _ _) => apply send_object_release_keeps
    | |- sound (send_object_delta _ _ _) => apply send_object_delta_keeps
    | |- sound (send_cache_put _ _) => apply send_cache_put_keeps
    | |- sound (send_cache_ack _) => apply send_cache_ack_keeps
    | |- sound receive_cache_put => apply receive_cache_put_keeps
    | |- sound receive_cache_ack => apply receive_cache_ack_keeps
    | |- sound (send_cache_reference _ _) => apply send_cache_reference_keeps
    | |- sound (send_cache_miss _ _) => apply send_cache_miss_keeps
    | |- sound (send_cache_invalidate _) => apply send_cache_invalidate_keeps
    | |- sound (send_backpressure _) => apply send_backpressure_keeps
    | |- sound (send_credit_update _) => apply send_credit_update_keeps
    | |- sound (send_trace_context _ _ _) => apply send_trace_context_keeps
    | |- sound (send_recoverable_error _ _) => apply send_recoverable_error_keeps
    | |- sound (send_retry_after _ _) => apply send_retry_after_keeps
    | |- sound (send_result_hint _) => apply send_result_hint_keeps
    | |- sound receive_patch => apply receive_patch_keeps
    | |- sound (send_patch_ack _) => apply send_patch_ack_keeps
    | |- sound (send_flow_update _) => apply send_flow_update_keeps
    | |- sound receive_migrate => apply receive_migrate_keeps
    | |- sound (send_migrate_ack _ _) => apply send_migrate_ack_keeps
    | |- sound close_in_place => apply close_in_place_keeps
    end.
Qed.

(** One call: however it ends, the session is left in the state after it.  Between calls the
    transport gets more packets and can write more. *)
Inductive step (s : t) : t -> Prop :=
| step_call A (m : Async t A) : method A m -> step s (m s).2
| step_supplied tr : FramedTransport.supplied (transport s) tr -> step s (set_transport s tr).
Definition run : t -> t -> Prop := rtc step.

Lemma server_run_inv s s' : run s s' -> inv s -> inv s'.
Proof.
  induction 1 as [|s s1 s2 [A m Hm|tr Htr] _ IH]; [done|..]; intros Hi; apply IH.
  2: { apply inv_with_transport; [|by rewrite (FramedTransport.supplied_handed _ _ Htr)|done].
       apply (FramedTransport.supplied_well_behaved _ _ Htr), (inv_transport s Hi). }
  pose proof (server_method_sound A m Hm s (conj Hi I)) as H. by destruct (m s) as [[[a|e|]|] s'']; [destruct H|..].
Qed.

Section within_runs.
Context (R : t -> t -> Prop) `{HR : !serving R}.

Lemma within_await_submit reads : within R (await_submit reads).
Proof.
  induction reads as [|r reads IH]; simpl; (apply within_bind; [apply _|by within_serving|intros input]);
    [by within_serving|].
  repeat case_match; try (by within_serving);
    (apply within_bind; [apply _|by within_serving|intros ?]); try (by within_serving); exact IH.
Qed.

Lemma within_receive_submit : within R receive_submit.
Proof.
  unfold receive_submit. apply within_bind; [apply _|by within_serving|intros inputs].
  case_match; [by within_serving|]. apply within_bind; [apply _|by within_serving|intros reads].
  apply within_await_submit.
Qed.

Lemma server_method_within A (m : Async t A) : method A m -> within R m.
Proof.
  destruct 1; lazymatch goal with
    | |- within _ receive_submit => apply within_receive_submit
    | |- _ => by within_serving
    end.
Qed.

Lemma server_run_within s s' : run s s' -> R s s'.
Proof.
  induction 1 as [|s s1 s2 [A m Hm|tr Htr] _ IH]; [reflexivity|..].
  - etrans; [by apply (server_method_within A m)|done].
  - etrans; [|done]. apply serving_transport. unfold FramedTransport.written.
    by rewrite (FramedTransport.supplied_handed _ _ Htr).
Qed.
End within_runs.
End runs.

(** ** What stays *)

(** Bindings stay, operations move forward, and what was written stays written. *)
Record later (s s' : t) : Prop := {
  later_session : session_id s' = session_id s;
  later_frames : frame_operations s ⊆ frame_operations s';
  later_operations : OperationRegistry.preserves (operations s) (operations s');
  later_written :
    FramedTransport.written (transport s) `prefix_of` FramedTransport.written (transport s')
}.

#[export] Instance later_serving : serving later.
Proof.
  assert (PreOrder later) as Hpre.
  { split.
    - intros s. by split.
    - intros s1 s2 s3 [H1 H2 H3 H4] [H1' H2' H3' H4']. split; [congruence|by etrans..]. }
  split; [split|..]; try done.
  - intros c s. split; [done|done| |done]. apply OperationRegistry.exec_preserves.
  - intros frame op s Hf. split; [done| |done|done]. by apply insert_subseteq.
Qed.

(** What is settled in the calls of a session is settled for its peer. *)

Lemma pushes_cons packet ok log :
  pushes ((packet, ok) :: log) =
    if bool_decide (packet_type packet = MessageType.ResultPush)
    then (packet_frame packet, ok) :: pushes log else pushes log.
Proof. unfold pushes. rewrite filter_cons. case_bool_decide; [by rewrite decide_True|by rewrite decide_False]. Qed.

Lemma result_frames_cons packet packets :
  result_frames (packet :: packets) =
    if bool_decide (packet_type packet = MessageType.ResultPush)
    then packet_frame packet :: result_frames packets else result_frames packets.
Proof. unfold result_frames. rewrite filter_cons. case_bool_decide; [by rewrite decide_True|by rewrite decide_False]. Qed.

Lemma returned_cons packet ok log :
  FramedTransport.returned ((packet, ok) :: log) =
    if ok then packet :: FramedTransport.returned log else FramedTransport.returned log.
Proof. unfold FramedTransport.returned. rewrite filter_cons. by destruct ok. Qed.

Lemma result_frames_written log frame :
  frame ∈ result_frames (FramedTransport.returned log) <-> (frame, true) ∈ pushes log.
Proof.
  induction log as [|[packet ok] log IH]; [split; by intros ?%elem_of_nil|].
  rewrite returned_cons, pushes_cons. destruct ok; rewrite ?result_frames_cons; case_bool_decide;
    rewrite ?elem_of_cons, IH; naive_solver.
Qed.

Lemma settled_tail entry log : settled (entry :: log) -> settled log.
Proof.
  intros Hs before frame ok after ->. intros Hin. apply (Hs (entry :: before) frame ok after); [done|by right].
Qed.

Lemma settled_head frame ok log : settled ((frame, true) :: log) -> (frame, ok) ∉ log.
Proof.
  intros Hs (before & after & ->)%list_elem_of_split. eapply (Hs ((frame, true) :: before)); [done|by left].
Qed.

Lemma settled_once log : settled (pushes log) -> NoDup (result_frames (FramedTransport.returned log)).
Proof.
  induction log as [|[packet ok] log IH]; intros Hs; [constructor|].
  rewrite returned_cons. rewrite pushes_cons in Hs. destruct ok; rewrite ?result_frames_cons; case_bool_decide.
  - constructor; [|by apply IH; eapply settled_tail]. intros Hin%result_frames_written. by eapply settled_head.
  - by apply IH.
  - by apply IH; eapply settled_tail.
  - by apply IH.
Qed.

Lemma carried_result log wire frame :
  FramedTransport.carries log wire -> (frame, true) ∈ pushes log -> frame ∈ result_frames wire.
Proof.
  induction 1 as [|packet ok log wire _ IH|packet log wire _ IH]; [by intros ?%elem_of_nil|..]; rewrite pushes_cons, ?result_frames_cons;
    case_bool_decide; rewrite ?elem_of_cons; naive_solver.
Qed.

Lemma carried_none log wire frame :
  FramedTransport.carries log wire -> (forall ok, (frame, ok) ∉ pushes log) -> frame ∉ result_frames wire.
Proof.
  induction 1 as [|packet ok log wire _ IH|packet log wire _ IH]; [by intros _ ?%elem_of_nil|..];
    rewrite pushes_cons, ?result_frames_cons; case_bool_decide; try done; intros Hn; rewrite ?elem_of_cons.
  - intros [->|Hin]; [apply (Hn ok); by left|]. revert Hin. apply IH. intros o Ho. apply (Hn o). by right.
  - apply IH. intros o Ho. apply (Hn o). by right.
Qed.

Lemma filter_none (frame : Z) frames : frame ∉ frames -> filter (eq frame) frames = [].
Proof.
  induction frames as [|f frames IH]; [done|]. intros [? ?]%not_elem_of_cons. rewrite filter_cons.
  rewrite decide_False by done. by apply IH.
Qed.

Lemma carried_once log wire frame :
  FramedTransport.carries log wire -> settled (pushes log) -> (frame, false) ∉ pushes log ->
  (length (filter (eq frame) (result_frames wire)) <= 1)%nat.
Proof.
  induction 1 as [|packet ok log wire Hw IH|packet log wire Hw IH]; [cbn; lia|..];
    rewrite pushes_cons, ?result_frames_cons; case_bool_decide; try done; intros Hs Hn.
  - apply not_elem_of_cons in Hn as [Hne Hn]. rewrite filter_cons.
    destruct (decide (frame = packet_frame packet)) as [->|?]; [|apply IH; [by eapply settled_tail|done]].
    destruct ok; [|done]. cbn. assert (packet_frame packet ∉ result_frames wire) as Hnone.
    { apply (carried_none log); [done|]. intros o. by apply settled_head. }
    by rewrite filter_none.
  - apply not_elem_of_cons in Hn as [_ Hn]. apply IH; [by eapply settled_tail|done].
Qed.

Section server_properties.
Context `{Htarget : Target}.

(** C5: in every session that a server has accepted, after any sequence of calls of its
    public methods, whatever the peer sends, the transport returns and the application drops,
    the tables of frames and of operations are inverse and hold exactly the registered
    operations, the queued inputs are well formed, the cached objects are within their limit, and
    no method panics. *)
Theorem server_sessions_sound (s s' : t) :
  opened s -> run s s' ->
  inv s' /\ forall A (m : Async t A), method A m -> (m s').1 <> Ready Panic.
Proof.
  intros Ho%server_opened_inv Hrun. pose proof (server_run_inv _ _ Hrun Ho) as Hi. split; [done|].
  intros A m Hm. pose proof (server_method_sound A m Hm s' (conj Hi I)) as H.
  by destruct (m s') as [[[a|e|]|] s''].
Qed.

(** C9: for the whole life of a session, its RESULT_PUSH packets.  A send of a result has returned
    for exactly the frames whose operations are completed, for each of them once, and the
    session gives no other RESULT_PUSH for that frame to its transport afterwards.  So the peer,
    whatever it sees of the packets, sees the result of every completed operation, and sees two
    RESULT_PUSH for one frame only when an earlier send for that frame had failed or was dropped
    while it waited. *)
Theorem server_results_once (s s' : t) :
  opened s -> run s s' ->
  let log := FramedTransport.handed (transport s') in
  (forall frame, (frame, true) ∈ pushes log <->
     exists op, frame_operations s' !! frame = Some op /\ completed (operations s') op) /\
  NoDup (result_frames (FramedTransport.written (transport s'))) /\
  settled (pushes log) /\
  forall wire, FramedTransport.carries log wire ->
    (forall frame op, frame_operations s' !! frame = Some op -> completed (operations s') op ->
       frame ∈ result_frames wire) /\
    forall frame, (frame, false) ∉ pushes log -> (length (filter (eq frame) (result_frames wire)) <= 1)%nat.
Proof.
  intros Ho%server_opened_inv Hrun. pose proof (server_run_inv _ _ Hrun Ho) as Hi. cbv zeta.
  split; [apply (inv_pushed s' Hi)|]. split; [apply settled_once, (inv_settled s' Hi)|].
  split; [apply (inv_settled s' Hi)|]. intros wire Hw. split.
  - intros frame op Hf Hc. apply (carried_result _ _ _ Hw), (inv_pushed s' Hi). by exists op.
  - intros frame Hn. apply (carried_once _ _ _ Hw); [apply (inv_settled s' Hi)|done].
Qed.

(** an operation that is completed, cancelled, failed or superseded stays as it
    is, whatever is called afterwards; its frame stays bound to it, and no RESULT_PUSH is
    written for it any more: there is one if and only if the operation had been completed. *)
Theorem server_terminal_final (s0 s s' : t) (op frame : Z) (r : OperationRecord.t) :
  opened s0 -> run s0 s -> run s s' ->
  frame_operations s !! frame = Some op -> OperationRegistry.operation (operations s) op = Some r ->
  OperationState.is_terminal (OperationRecord.state r) = true ->
  frame_operations s' !! frame = Some op /\
  OperationRegistry.operation (operations s') op = Some r /\
  (frame ∈ result_frames (FramedTransport.written (transport s')) <->
   OperationRecord.state r = OperationState.Completed).
Proof.
  intros Ho%server_opened_inv Hrun0 Hrun Hf Hr Ht.
  pose proof (server_run_inv _ _ Hrun (server_run_inv _ _ Hrun0 Ho)) as Hi'.
  apply (server_run_within later) in Hrun as [_ Hframes Hops _].
  assert (frame_operations s' !! frame = Some op) as Hf' by (by eapply lookup_weaken).
  destruct (Hops op r Hr) as (r' & Hr' & _ & _ & Hfrozen). rewrite (Hfrozen Ht) in Hr'.
  split; [done|]. split; [done|].
  unfold FramedTransport.written. rewrite result_frames_written, (inv_pushed s' Hi'). split.
  - intros (op' & Hop' & r'' & Hr'' & Hc). rewrite Hf' in Hop'. injection Hop' as <-.
    unfold OperationRegistry.operation in Hr''. rewrite Hr' in Hr''. by injection Hr'' as <-.
  - intros Hc. exists op. split; [done|]. by exists r.
Qed.

(** the inputs that wait for the application are never more than one over the limit
    of 1024. *)
Theorem server_queue_bounded (s s' : t) :
  opened s -> run s s' -> len (pending_inputs s') <= MAX_PENDING_SERVER_INPUTS + 1.
Proof.
  intros Ho%server_opened_inv Hrun. pose proof (server_run_inv _ _ Hrun Ho) as Hi.
  destruct (inv_room s' Hi) as [H|[H _]]; unfold short in *; lia.
Qed.

(** The notices of an expired operation: at most one RESULT_DROP_REASON. *)
Definition dropped (op frame : Z) (schedule : OperationSchedule.t) (sent : list RuntimePacket.t) : Prop :=
  sent = [] \/
  Z.land (OperationSchedule.flags schedule) SCHEDULING_FLAG_EMIT_DROP_REASON <> 0 /\
  exists packet, sent = [packet] /\ packet_type packet = MessageType.ResultDropReason /\
    packet_frame packet = frame /\
    ResultDropReasonMetadata.to_bytes (expired_drop_reason op schedule) = Ok (RuntimePacket.metadata packet).

(** A write of metadata and body: nothing but the transport changes, by one packet at most. *)
Lemma send_as_effect mt n frame metadata body s :
  let s' := (send_as mt n frame metadata body s).2 in
  (exists tr, s' = set_transport s tr) /\
  (FramedTransport.written (transport s') = FramedTransport.written (transport s) \/
   exists packet, FramedTransport.written (transport s') = FramedTransport.written (transport s) ++ [packet] /\
     packet_type packet = mt /\ packet_frame packet = frame /\ metadata = Ok (RuntimePacket.metadata packet)).
Proof.
  cbv zeta. unfold send_as, write_parts, mbind, async_bind, gets, lift.
  assert (exists tr, s = set_transport s tr) as Hsame by (exists (transport s); by destruct s).
  destruct metadata as [bs|e|]; simpl; [|by auto..].
  destruct (RuntimePacket.new _ bs body) as [packet|e|] eqn:Hp; simpl; [|by auto..].
  apply packet_new_header in Hp as (Hh & <- & _). unfold write_packet, on_transport, FramedTransport.write_packet.
  unfold FramedTransport.written.
  destruct (FramedTransport.writes (transport s)) as [|[u|e|] ws]; simpl; (split; [by eexists|]);
    rewrite FramedTransport.returned_app; [left; by rewrite app_nil_r| |left; by rewrite app_nil_r..].
  right. exists packet. unfold packet_type, packet_frame. by rewrite Hh.
Qed.

Lemma queue_lifecycle_effect op state s :
  let s' := (queue_lifecycle op state s).2 in
  operations s' = operations s /\ transport s' = transport s.
Proof.
  cbv zeta. unfold queue_lifecycle, mbind, async_bind, check, lift, modify.
  destruct (ensure_pending_capacity s); [|done..]. by destruct (protocol _).
Qed.

Lemma send_expired_effect op frame schedule s :
  operation_frames s !! op = Some frame -> op <> 0 ->
  let '(result, s') := send_expired op schedule s in
  (forall u, result <> Ready (Ok u)) /\ operations s' = operations s /\
  exists sent, FramedTransport.written (transport s') = FramedTransport.written (transport s) ++ sent /\
    dropped op frame schedule sent.
Proof.
  intros Hf Hop. unfold send_expired. unfold mbind at 1, async_bind at 1, check at 1.
  assert (forall sent : list RuntimePacket.t, sent = [] -> dropped op frame schedule sent) as Hnone by (by left).
  assert (forall s1 : t, exists sent, FramedTransport.written (transport s1) =
    FramedTransport.written (transport s1) ++ sent /\ dropped op frame schedule sent) as Hsame
    by (intros s1; exists []; rewrite app_nil_r; auto).
  assert (forall s1, operations s1 = operations s -> exists result s',
    (_ ← queue_lifecycle op OperationState.Superseded;
      lift (A := unit) (Err (Protocol (InvalidOperationTransition OperationState.Superseded OperationState.Completed)))) s1
      = (result, s') /\
    (forall u, result <> Ready (Ok u)) /\ operations s' = operations s /\ transport s' = transport s1) as Htail.
  { intros s1 Ho. destruct (queue_lifecycle_effect op OperationState.Superseded s1) as [Ho1 Ht1].
    unfold mbind, async_bind, lift. destruct (queue_lifecycle op OperationState.Superseded s1) as [[[[]|e|]|] s2]; simpl in *;
      (eexists _, s2; split; [reflexivity|]; split; [done|]; split; [congruence|done]). }
  destruct (ensure_pending_capacity s) as [[]|e|]; [|by split_and!..].
  unfold mbind at 1, async_bind at 1. destruct (Z.eqb_spec (Z.land (OperationSchedule.flags schedule) SCHEDULING_FLAG_EMIT_DROP_REASON) 0)
    as [Hz|Hnz]; cbn [negb].
  - unfold mret, async_ret. destruct (Htail s eq_refl) as (result & s' & -> & Hr & Ho & ->). by split_and!.
  - unfold write_result_drop_reason. unfold mbind at 1, async_bind at 1, check at 1, correlated_frame_id. simpl.
    rewrite (proj2 (Z.eqb_neq op 0) Hop), Hf. cbn [ok_or].
    pose proof (send_as_effect MessageType.ResultDropReason RESULT_DROP_REASON_METADATA_LEN frame
      (ResultDropReasonMetadata.to_bytes (expired_drop_reason op schedule)) [] s) as Hsend. cbv zeta in Hsend.
    destruct (send_as _ _ _ _ _ s) as [r1 s1]. simpl in Hsend. destruct Hsend as [[tr Hs1] Hw].
    assert (exists sent, FramedTransport.written (transport s1) = FramedTransport.written (transport s) ++ sent /\
      dropped op frame schedule sent) as Hsent.
    { destruct Hw as [Hw|(packet & Hw & Hty & Hfr & Hmd)]; [exists []; rewrite app_nil_r; auto|].
      exists [packet]. split; [done|]. right. split; [done|]. by exists packet. }
    assert (operations s1 = operations s) as Ho by (by rewrite Hs1).
    destruct r1 as [[[]|e|]|]; [|by split_and!..].
    destruct (Htail s1 Ho) as (result & s' & -> & Hr & Ho' & ->). by split_and!.
Qed.

Lemma live_supersedable state :
  OperationState.is_terminal state = false -> OperationState.can_transition_to state OperationState.Superseded = true.
Proof. by destruct state. Qed.

(** a result for an operation whose EXPIRE_AT with the discard of stale results
    has passed is not sent: the call fails, the operation is superseded, no RESULT_PUSH is
    written, and what is written is at most one RESULT_DROP_REASON for its frame that gives the
    expired deadline as its reason, and only when the EXPIRE_AT asked for it. *)
Theorem late_result_dropped (s0 s : t) (op frame : Z) (r : OperationRecord.t) (md : ResultPushMetadata.t)
    (body : bytes) :
  opened s0 -> run s0 s -> frame_operations s !! frame = Some op ->
  OperationRegistry.operation (operations s) op = Some r ->
  OperationState.is_terminal (OperationRecord.state r) = false ->
  OperationRegistry.expired (OperationRecord.schedule r) (default 0 (head (clock s))) = true ->
  let '(result, s') := send_operation_result_for_binding frame md body s in
  (forall u, result <> Ready (Ok u)) /\
  OperationRegistry.operation (operations s') op =
    Some (OperationRecord.set_state r OperationState.Superseded) /\
  exists sent, FramedTransport.written (transport s') = FramedTransport.written (transport s) ++ sent /\
    dropped op frame (OperationRecord.schedule r) sent.
Proof.
  intros Ho%server_opened_inv Hrun Hf Hr Ht Hexp. pose proof (server_run_inv _ _ Hrun Ho) as Hi.
  assert (op <> 0) as Hop.
  { destruct (inv_registry s Hi) as [Hwf _].
    assert (OperationRegistry.descriptors (operations s) !! op = Some (OperationRecord.descriptor r)) as Hd
      by (rewrite OperationRegistry.descriptors_lookup; unfold OperationRegistry.operation in Hr; by rewrite Hr).
    destruct (Hwf _ _ Hd) as (Hid & Hnz & _). congruence. }
  unfold send_operation_result_for_binding. unfold mbind at 1, async_bind at 1, check at 1, operation_id_for_frame.
  rewrite Hf. cbn [ok_or]. unfold mbind at 1, async_bind at 1, current_unix_ms.
  set (s1 := match clock s with [] => s | _ :: rest => set_clock s rest end).
  assert (match clock s with [] => (Ready (Ok 0), s) | now :: rest => (Ready (Ok now), set_clock s rest) end =
    (Ready (Ok (default 0 (head (clock s)))), s1)) as -> by (unfold s1; by destruct (clock s)).
  unfold mbind at 1, async_bind at 1, on_operations at 1, OperationRegistry.expire_if_stale.
  assert (operations s1 = operations s /\ operation_frames s1 = operation_frames s /\ transport s1 = transport s)
    as (Ho1 & Hf1 & Ht1) by (unfold s1; by destruct (clock s)).
  unfold OperationRegistry.operation in Hr. rewrite Ho1, Hr, Ht, Hexp, (live_supersedable _ Ht). cbn [negb protocol map_err].
  set (s2 := set_operations s1 _).
  pose proof (send_expired_effect op frame (OperationRecord.schedule r) s2) as He.
  destruct (send_expired op (OperationRecord.schedule r) s2) as [result s']. destruct He as (Hres & Hops & Hsent).
  { change (operation_frames s1 !! op = Some frame). rewrite Hf1. by apply (inv_inverse s Hi). }
  { done. }
  split; [done|]. split; [rewrite Hops; apply lookup_insert_eq|].
  change (transport s2) with (transport s1) in Hsent. by rewrite Ht1 in Hsent.
Qed.

End server_properties.

(** ** An example: two submissions, a result and a late one *)

Module ServerRunExample.

#[local] Existing Instance target64.

Definition submit_metadata (op : Z) : FrameSubmitMetadata.t :=
  FrameSubmitMetadata.mk 0 0 0 0 0 0 0 InputProfile.Unspecified TileIndexMode.DenseRange 0 0 0 0 0 0
    op SubmitMode.Inline BudgetPolicy.NONE LossTolerancePolicy.Strict 0 0
    (PayloadKind.repr PayloadKind.TokenChunk) 1.

Definition submit_packet (op frame : Z) : RuntimePacket.t :=
  ClientOpenTheory.Example.packet_of MessageType.FrameSubmit 2 frame (wire (submit_metadata op)) [x01].

(** Operation 7 is stale from time 2000 on, and its client wants to hear of it. *)
Definition expire_packet : RuntimePacket.t :=
  ClientOpenTheory.Example.packet_of MessageType.ExpireAt 2 1
    (wire (SchedulingMetadata.mk 7 1 0 0 2000
             (Z.lor SCHEDULING_FLAG_DISCARD_STALE SCHEDULING_FLAG_EMIT_DROP_REASON))) [].

Definition result : ResultPushMetadata.t :=
  ResultPushMetadata.mk 0 0 0 0 1 3 4 7 0 0 ResultClass.Complete BudgetPolicy.NONE 0 0 0
    (PayloadKind.repr PayloadKind.TokenChunk) 1.

Definition wires : FramedTransport.t :=
  ServerExample.transport [Ok (submit_packet 7 1); Ok (submit_packet 8 2); Ok expire_packet] 4.

Definition start : t :=
  match ServerConnection.accepted_sessions (ServerExample.accepted wires) with
  | s :: _ => s
  | [] => ServerConnection.new_session ServerExample.config TransportId.Tcp 9 0 (ServerExample.open_metadata 0) wires
            ConnectionLifecycle.new ∅ []
  end.

Lemma server_start_opened : opened start.
Proof.
  exists (ServerExample.connection [] wires), (ServerExample.accepted wires), TransportId.Tcp, 9,
    ServerExample.config, ServerExample.open_packet, 2.
  split; [|split; [apply ServerExample.accepts_two|vm_compute; reflexivity]].
  apply ServerExample.connection_ok; [by constructor|by repeat constructor|reflexivity|exact I..].
Qed.

(** The two submissions, the result of operation 8, and the deadline of operation 7. *)
Definition after_first : t := (receive_submit start).2.
Definition after_second : t := (receive_submit after_first).2.
Definition operation (op frame : Z) : NnrpServerOperation.t :=
  {| NnrpServerOperation.operation_id := op; NnrpServerOperation.frame_id := frame;
     NnrpServerOperation.submit :=
       {| NnrpRuntimeEvent.header := wire_header (submit_packet op frame);
          NnrpRuntimeEvent.metadata := NnrpRuntimeEventMetadata.FrameSubmit (submit_metadata op);
          NnrpRuntimeEvent.tail := NnrpRuntimeEventTail.Body [x01] |} |}.
Definition after_expire : t := (receive_scheduling_update after_second).2.
Definition after_ping : t := (send_ping after_expire).2.
(** A session in which operation 8 was answered at once. *)
Definition answered : t := (send_result (operation 7 1) result [x05] after_first).2.
Definition answered_ping : t := (send_ping answered).2.

Lemma server_run_first : run start after_first.
Proof. exact (rtc_once _ _ (step_call _ _ _ call_receive_submit)). Qed.

Lemma server_run_expire : run start after_expire.
Proof.
  apply (rtc_l _ _ after_first); [exact (step_call _ _ _ call_receive_submit)|].
  apply (rtc_l _ _ after_second); [exact (step_call _ _ _ call_receive_submit)|].
  exact (rtc_once _ _ (step_call _ _ _ call_receive_scheduling_update)).
Qed.

Lemma server_run_answered : run start answered.
Proof.
  etrans; [exact server_run_first|]. exact (rtc_once _ _ (step_call _ _ _ (call_send_result (operation 7 1) result [x05]))).
Qed.

Lemma server_run_ping : run answered answered_ping.
Proof. exact (rtc_once _ _ (step_call _ _ _ call_send_ping)). Qed.

(** A send of the result of operation 7 that is dropped while it waits, and another one. *)
Definition slow : FramedTransport.t := ServerExample.transport [Ok (submit_packet 7 1)] 0.
Definition slow_start : t :=
  match ServerConnection.accepted_sessions (ServerExample.accepted slow) with s :: _ => s | [] => start end.
Definition dropped_send : t := (send_result (operation 7 1) result [x05] (receive_submit slow_start).2).2.
Definition unblocked : t :=
  set_transport dropped_send
    (FramedTransport.set_writes (transport dropped_send) [Ok tt] (FramedTransport.handed (transport dropped_send))).
Definition retried : t := (send_result (operation 7 1) result [x05] unblocked).2.

Lemma server_run_retried : run slow_start retried.
Proof.
  apply (rtc_l _ _ (receive_submit slow_start).2); [exact (step_call _ _ _ call_receive_submit)|].
  apply (rtc_l _ _ dropped_send); [exact (step_call _ _ _ (call_send_result (operation 7 1) result [x05]))|].
  apply (rtc_l _ _ unblocked).
  - apply step_supplied. exists [], [], [Ok tt], []. split; [by repeat constructor|vm_compute; reflexivity].
  - exact (rtc_once _ _ (step_call _ _ _ (call_send_result (operation 7 1) result [x05]))).
Qed.

(** The peer may then see the result twice. *)
Lemma retried_result :
  pushes (FramedTransport.handed (transport retried)) = [(1, false); (1, true)] /\
  exists wire, FramedTransport.carries (FramedTransport.handed (transport retried)) wire /\
    result_frames wire = [1; 1].
Proof.
  split; [vm_compute; reflexivity|]. exists (FramedTransport.handed (transport retried)).*1.
  split; [|vm_compute; reflexivity]. induction (FramedTransport.handed (transport retried)) as [|[] log IH]; by constructor.
Qed.

End ServerRunExample.

Lemma server_sessions_sound_witness :
  inv ServerRunExample.after_expire /\
  (await_event (Htarget := target64) ServerRunExample.after_expire).1 <> Ready Panic.
Proof.
  destruct (server_sessions_sound (Htarget := target64) ServerRunExample.start ServerRunExample.after_expire
    ServerRunExample.server_start_opened ServerRunExample.server_run_expire) as [Hi Hm].
  split; [exact Hi|]. exact (Hm NnrpServerEvent.t _ (call_await_event (Htarget := target64))).
Defined.

Lemma server_results_once_witness :
  result_frames (FramedTransport.written (transport ServerRunExample.answered)) = [1] /\
  (exists op, frame_operations ServerRunExample.answered !! 1 = Some op /\
    completed (operations ServerRunExample.answered) op) /\
  forall wire, FramedTransport.carries (FramedTransport.handed (transport ServerRunExample.answered)) wire ->
    (length (filter (eq 1%Z) (result_frames wire)) <= 1)%nat.
Proof.
  destruct (server_results_once (Htarget := target64) ServerRunExample.start ServerRunExample.answered
    ServerRunExample.server_start_opened ServerRunExample.server_run_answered) as (Hc & _ & _ & Hwire).
  split; [vm_compute; reflexivity|]. split; [apply Hc; vm_compute; by left|].
  intros wire Hw. apply (Hwire wire Hw). change (pushes _) with [(1, true)].
  by intros ?%list_elem_of_singleton.
Defined.

Lemma server_terminal_final_witness :
  1 ∈ result_frames (FramedTransport.written (transport ServerRunExample.answered_ping)).
Proof.
  eapply (server_terminal_final (Htarget := target64) ServerRunExample.start ServerRunExample.answered
    ServerRunExample.answered_ping 7 1).
  - exact ServerRunExample.server_start_opened.
  - exact ServerRunExample.server_run_answered.
  - exact ServerRunExample.server_run_ping.
  - vm_compute. reflexivity.
  - vm_compute. reflexivity.
  - vm_compute. reflexivity.
  - vm_compute. reflexivity.
Defined.

Lemma server_queue_bounded_witness : len (pending_inputs ServerRunExample.answered) <= MAX_PENDING_SERVER_INPUTS + 1.
Proof.
  exact (server_queue_bounded (Htarget := target64) ServerRunExample.start ServerRunExample.answered
    ServerRunExample.server_start_opened ServerRunExample.server_run_answered).
Defined.

Lemma late_result_dropped_witness :
  let sent := send_operation_result_for_binding (Htarget := target64) 1 ServerRunExample.result [x05]
                ServerRunExample.after_expire in
  result_frames (FramedTransport.written (transport sent.2)) = [] /\ forall u, sent.1 <> Ready (Ok u).
Proof.
  split; [vm_compute; reflexivity|].
  assert (exists r, OperationRegistry.operation (operations ServerRunExample.after_expire) 7 = Some r /\
    OperationState.is_terminal (OperationRecord.state r) = false /\
    OperationRegistry.expired (OperationRecord.schedule r)
      (default 0 (head (clock ServerRunExample.after_expire))) = true) as (r & Hr & Ht & He)
    by (eexists; split; [vm_compute; reflexivity|split; vm_compute; reflexivity]).
  pose proof (late_result_dropped (Htarget := target64) ServerRunExample.start ServerRunExample.after_expire 7 1
    r ServerRunExample.result [x05] ServerRunExample.server_start_opened ServerRunExample.server_run_expire
    ltac:(vm_compute; reflexivity) Hr Ht He) as H.
  destruct (send_operation_result_for_binding (Htarget := target64) 1 ServerRunExample.result [x05]
              ServerRunExample.after_expire) as [res s']. exact (proj1 H).
Defined.
