(* ===== verification/Connect.v ===== *)
(** Connecting through providers ([src/crates/nnrp-runtime/src/client_provider.rs]): the routes of
    the installed providers, the choice among them, the probes it may need, and the connection.

    A provider is the descriptor that its [descriptor] returns, each time the same.  What its
    [connect] does is part of the network: the results that the calls of [connect] will have, in
    the order of the calls, and the calls made so far. *)

From S2P Require Import Prelude Bytes Sorting Errors Enums Wire Header Control Capability.
From S2P Require Import Transport Route RuntimeError Packet Async Stream Client.

Local Open Scope Z_scope.
Import NnrpClientSession(packet_type).

Definition PROBE_SAMPLE_COUNT : Z := 3.
Definition PROBE_PAYLOAD_BYTES : Z := 32 * 1024.

(** [env!("CARGO_PKG_VERSION")]. *)
Definition CARGO_PKG_VERSION : bytes := str "1.0.0-preview.4.26".

Module ResolvedClientRoute.

Record t := mk { endpoint : ProviderEndpoint.t; security : option ClientTransportSecurity.t }.

End ResolvedClientRoute.

(** A call of [NnrpClientProvider::connect]. *)
Module ConnectCall.

Record t := mk {
  provider : TransportProviderDescriptor.t;
  endpoint : ProviderEndpoint.t;
  security : option ClientTransportSecurity.t
}.

End ConnectCall.

Module Network.

(** [elapsed] holds the microseconds that [Instant::elapsed] will report and [now_us] those of
    [SystemTime::now], one for each call. *)
Record t := mk {
  connects : list (RT FramedTransport.t);
  calls : list ConnectCall.t;
  elapsed : list Z;
  now_us : list Z
}.

(** [provider.connect(..)], with the default limits. *)
Definition connect (provider : TransportProviderDescriptor.t) (route : ResolvedClientRoute.t)
    : Async t FramedTransport.t := fun self =>
  let calls := calls self ++
    [ConnectCall.mk provider (ResolvedClientRoute.endpoint route) (ResolvedClientRoute.security route)] in
  match connects self with
  | [] => (Pending, mk [] calls (elapsed self) (now_us self))
  | r :: rest => (Ready r, mk rest calls (elapsed self) (now_us self))
  end.

(** At least one microsecond, and at most what a [u64] holds. *)
Definition elapsed_us : Async t Z := fun self =>
  (Ready (Ok (Z.min (Z.max (default 0 (head (elapsed self))) 1) u64_max)),
   mk (connects self) (calls self) (tail (elapsed self)) (now_us self)).

Definition unix_time_us : Async t Z := fun self =>
  (Ready (Ok (Z.min (default 0 (head (now_us self))) u64_max)),
   mk (connects self) (calls self) (elapsed self) (tail (now_us self))).

End Network.

(** ** The candidates *)

(** The loop over the providers, with the transports and ids that were seen.  Clients and servers
    differ in the errors. *)
Definition duplicate_step (duplicate_transport : TransportId.t -> RuntimeError)
    (duplicate_id : bytes -> RuntimeError) (seen : list TransportProviderDescriptor.t)
    (descriptor : TransportProviderDescriptor.t) : RT (list TransportProviderDescriptor.t) :=
  let transport_id := TransportProviderDescriptor.transport_id descriptor in
  let id := TransportProviderDescriptor.id descriptor in
  _ ← reject_if (bool_decide (transport_id ∈ TransportProviderDescriptor.transport_id <$> seen))
        (duplicate_transport transport_id);
  _ ← reject_if (bool_decide (id ∈ TransportProviderDescriptor.id <$> seen)) (duplicate_id id);
  Ok (seen ++ [descriptor]).

Definition reject_duplicate_transports (providers : list TransportProviderDescriptor.t) : RT unit :=
  _ ← try_fold (duplicate_step DuplicateTransportProvider DuplicateClientProviderId) [] providers;
  Ok tt.

(** The descriptor of a route whose provider is not installed. *)
Definition uninstalled (windows : bool) (transport_id : TransportId.t) : TransportProviderDescriptor.t :=
  TransportProviderDescriptor.missing windows (str "uninstalled-client-provider") CARGO_PKG_VERSION
    transport_id TransportProviderKind.PureRust (str "configured route has no installed provider").

Definition add_uninstalled_route_descriptors (windows : bool)
    (descriptors : list TransportProviderDescriptor.t) (routes : ClientProviderRoutes)
    : list TransportProviderDescriptor.t :=
  foldl (fun descriptors transport_id =>
    if bool_decide (transport_id ∈ TransportProviderDescriptor.transport_id <$> descriptors)
    then descriptors else descriptors ++ [uninstalled windows transport_id])
    descriptors (route_keys routes).

Module NnrpClientOptions.
Section options.
Context `{UriParser}.

Record t := mk {
  endpoint : NnrpEndpoint.t;
  provider_routes : ClientProviderRoutes;
  transport_policy : TransportPolicy.t;
  session_defaults : NnrpClientConfig.t
}.
End options.
End NnrpClientOptions.

Section connecting.
Context `{Htarget : Target} `{Huri : UriParser}.

Definition derive_provider_endpoint (application : NnrpEndpoint.t) (transport_id : TransportId.t)
    : Routed ProviderEndpoint.t :=
  _ ← reject_if (negb (is_some (NnrpEndpoint.port application)))
        RouteConfigurationError.EmptyProviderLocator;
  match transport_id with
  | TransportId.Tcp =>
      authority ← NnrpEndpoint.authority application;
      ProviderEndpoint.from_str (str "tcp://" ++ authority)
  | TransportId.Quic =>
      authority ← NnrpEndpoint.authority application;
      ProviderEndpoint.from_str (str "quic://" ++ authority)
  | TransportId.Ipc | TransportId.WebSocket => Err RouteConfigurationError.EmptyProviderLocator
  | _ => Err RouteConfigurationError.UnsupportedProviderScheme
  end.

(** The error is the diagnostic of the provider. *)
Definition validate_security (application : NnrpEndpoint.t) (endpoint : ProviderEndpoint.t)
    (security : option ClientTransportSecurity.t) (descriptor : TransportProviderDescriptor.t)
    : Outcome bytes unit :=
  let wasm := match TransportProviderDescriptor.kind descriptor with
              | TransportProviderKind.Wasm => true | _ => false end in
  match TransportProviderDescriptor.transport_id descriptor with
  | TransportId.Quic =>
      reject_if (negb (is_some security))
        (str "QUIC requires route-local peer verification credentials")
  | TransportId.Tcp =>
      reject_if (NnrpEndpoint.is_secure application && negb (is_some security))
        (str "nnrps TCP requires route-local peer verification credentials")
  | TransportId.Ipc =>
      _ ← reject_if (is_some security) (str "IPC does not accept transport security credentials");
      reject_if (NnrpEndpoint.is_secure application) (str "IPC does not satisfy nnrps in Preview4")
  | TransportId.WebSocket =>
      _ ← reject_if (negb (ProviderEndpoint.is_secure endpoint) && is_some security)
            (str "plain WebSocket does not accept transport security credentials");
      _ ← reject_if (NnrpEndpoint.is_secure application && negb (ProviderEndpoint.is_secure endpoint))
            (str "nnrps WebSocket requires a wss provider endpoint");
      _ ← reject_if (wasm && ProviderEndpoint.is_secure endpoint && is_some security)
            (str "browser WSS uses platform trust and rejects native certificate material");
      reject_if (negb wasm && ProviderEndpoint.is_secure endpoint && negb (is_some security))
        (str "native WSS requires route-local peer verification credentials")
  | _ => Ok tt
  end.

(** The error is the readiness record of a provider without a usable route. *)
Definition resolve_candidate (application : NnrpEndpoint.t) (route : option ClientProviderRoute.t)
    (descriptor : TransportProviderDescriptor.t)
    : Outcome TransportCandidateReadiness.t ResolvedClientRoute.t :=
  let transport_id := TransportProviderDescriptor.transport_id descriptor in
  let id := TransportProviderDescriptor.id descriptor in
  if negb (TransportProviderDescriptor.available descriptor)
  then Err (TransportCandidateReadiness.ready transport_id id)
  else
    let route := default ClientProviderRoute.default route in
    _ ← if_some (ClientProviderRoute.provider_endpoint route) (fun endpoint =>
          reject_if (negb (ProviderEndpoint.matches_transport endpoint transport_id))
            (TransportCandidateReadiness.route_unresolved transport_id id
               (str "provider endpoint scheme does not match the provider transport")));
    _ ← if_some (ClientProviderRoute.security route) (fun security =>
          map_err (fun error => TransportCandidateReadiness.security_unsatisfied transport_id id
                                  (RouteConfigurationError.to_string error))
            (ClientTransportSecurity.validate security));
    endpoint ← match ClientProviderRoute.provider_endpoint route with
               | Some endpoint => Ok endpoint
               | None =>
                   map_err (fun error => TransportCandidateReadiness.route_unresolved transport_id id
                                           (RouteConfigurationError.to_string error))
                     (derive_provider_endpoint application transport_id)
               end;
    _ ← map_err (TransportCandidateReadiness.security_unsatisfied transport_id id)
          (validate_security application endpoint (ClientProviderRoute.security route) descriptor);
    Ok {| ResolvedClientRoute.endpoint := endpoint;
          ResolvedClientRoute.security := ClientProviderRoute.security route |}.

(** The map [resolved], of which the last entry of an id counts. *)
Definition Resolved : Type := list (bytes * ResolvedClientRoute.t).

Definition resolved_route (resolved : Resolved) (id : bytes) : option ResolvedClientRoute.t :=
  snd <$> find (fun entry => bool_decide (entry.1 = id)) resolved.

Definition resolve_step (application : NnrpEndpoint.t) (routes : ClientProviderRoutes)
    (acc : Resolved * list TransportCandidateReadiness.t) (descriptor : TransportProviderDescriptor.t)
    : RT (Resolved * list TransportCandidateReadiness.t) :=
  let transport_id := TransportProviderDescriptor.transport_id descriptor in
  let id := TransportProviderDescriptor.id descriptor in
  match resolve_candidate application (routes !! transport_id) descriptor with
  | Ok route =>
      Ok ((id, route) :: acc.1, acc.2 ++ [TransportCandidateReadiness.ready transport_id id])
  | Err failure => Ok (acc.1, acc.2 ++ [failure])
  | Panic => Panic
  end.

(** ** Probes *)

Definition requires_probe (error : TransportSelectionError.t) : bool :=
  match error with
  | TransportSelectionError.InvalidEvidence _ _ _ => false
  | TransportSelectionError.ForcedTransportUnavailable _ _ candidates _
  | TransportSelectionError.NoViableTransport _ candidates _ =>
      (1 <? length (filter (fun candidate =>
        TransportCandidateDiagnostic.rejection_reason candidate
          = Some TransportRejectionReason.ProbeMissing) candidates))%nat
  end.

Definition probe_metadata (probe_id now_us : Z) : TransportProbeMetadata.t := {|
  TransportProbeMetadata.probe_id := probe_id;
  TransportProbeMetadata.probe_payload_bytes := PROBE_PAYLOAD_BYTES;
  TransportProbeMetadata.client_send_ts_us := now_us |}.

Definition probe_packet (metadata : bytes) : RT RuntimePacket.t :=
  protocol (RuntimePacket.new (CommonHeader.new MessageType.TransportProbe 0 0) metadata
              (replicate (Z.to_nat PROBE_PAYLOAD_BYTES) x00)).

(** The check of what was read. *)
Definition probe_answer (probe_id : Z) (ack_packet : RuntimePacket.t) : RT unit :=
  _ ← reject_if (negb (bool_decide (packet_type ack_packet = MessageType.TransportProbeAck))
                 || negb (len (RuntimePacket.metadata ack_packet)
                          =? Z.of_nat TRANSPORT_PROBE_ACK_METADATA_LEN))
        (UnexpectedMessage "transport probe expected TRANSPORT_PROBE_ACK");
  ack ← protocol (TransportProbeAckMetadata.parse (RuntimePacket.metadata ack_packet));
  reject_if (negb (TransportProbeAckMetadata.probe_id ack =? probe_id))
    (UnexpectedMessage "transport probe acknowledgement id mismatch").

Definition exchange_probe (probe_id : Z) (metadata : bytes) : Async FramedTransport.t unit :=
  packet ← lift (probe_packet metadata);
  _ ← FramedTransport.write_packet packet;
  ack_packet ← FramedTransport.read_packet;
  lift (probe_answer probe_id ack_packet).

(** The transport of a probe is a local of [probe_provider]. *)
Definition Probing : Type := Network.t * FramedTransport.t.

Definition on_network {A} (m : Async Network.t A) : Async Probing A := fun self =>
  let (r, network) := m self.1 in (r, (network, self.2)).
Definition on_transport {A} (m : Async FramedTransport.t A) : Async Probing A := fun self =>
  let (r, transport) := m self.2 in (r, (self.1, transport)).
Definition with_transport {A} (transport : FramedTransport.t) (m : Async Probing A)
    : Async Network.t A := fun self =>
  let (r, self) := m (self, transport) in (r, self.1).

(** The loop over the probes; a failed one ends it. *)
Fixpoint probe_loop (descriptor : TransportProviderDescriptor.t) (probe_ids : list Z)
    (samples : list ProbeSample.t) : Async Probing (list ProbeSample.t) :=
  let transport_id := TransportProviderDescriptor.transport_id descriptor in
  let id := TransportProviderDescriptor.id descriptor in
  match probe_ids with
  | [] => mret samples
  | probe_id :: probe_ids =>
      now ← on_network Network.unix_time_us;
      match TransportProbeMetadata.to_bytes (probe_metadata probe_id now) with
      | Err _ => mret samples
      | Panic => lift Panic
      | Ok metadata =>
          answered ← attempt (on_transport (exchange_probe probe_id metadata));
          elapsed ← on_network Network.elapsed_us;
          if is_some answered
          then probe_loop descriptor probe_ids
                 (samples ++ [ProbeSample.success transport_id id elapsed elapsed PROBE_PAYLOAD_BYTES
                                (Z.of_nat TRANSPORT_PROBE_ACK_METADATA_LEN)])
          else mret (samples ++ [ProbeSample.failure transport_id id elapsed false])
      end
  end.

Definition probe_provider (descriptor : TransportProviderDescriptor.t) (route : ResolvedClientRoute.t)
    : Async Network.t (list ProbeSample.t) :=
  connected ← attempt (Network.connect descriptor route);
  match connected with
  | None =>
      elapsed ← Network.elapsed_us;
      mret [ProbeSample.failure (TransportProviderDescriptor.transport_id descriptor)
              (TransportProviderDescriptor.id descriptor) elapsed false]
  | Some transport =>
      with_transport transport (
        samples ← probe_loop descriptor (Z.of_nat <$> seq 1 (Z.to_nat PROBE_SAMPLE_COUNT)) [];
        _ ← attempt (on_transport FramedTransport.close);
        mret samples)
  end.

(** [providers.iter().find(|provider| provider.descriptor().metadata.id == id)]. *)
Definition find_provider (providers : list TransportProviderDescriptor.t) (id : bytes)
    : option TransportProviderDescriptor.t :=
  find (fun provider => bool_decide (TransportProviderDescriptor.id provider = id)) providers.

Definition observation (descriptor : TransportProviderDescriptor.t) (metrics : option ProbeMetrics.t)
    : TransportProbeObservation.t :=
  let transport_id := TransportProviderDescriptor.transport_id descriptor in
  let id := TransportProviderDescriptor.id descriptor in
  match metrics with
  | Some metrics => TransportProbeObservation.succeeded transport_id id metrics
  | None => TransportProbeObservation.failed transport_id id (str "transport probe failed")
  end.

(** The body of the loop over the candidates. *)
Definition probe_candidate (providers : list TransportProviderDescriptor.t) (resolved : Resolved)
    (candidate : TransportCandidateDiagnostic.t) : Async Network.t (list TransportProbeObservation.t) :=
  let id := TransportProviderMetadata.id (TransportCandidateDiagnostic.provider candidate) in
  match find_provider providers id, resolved_route resolved id with
  | Some descriptor, Some route =>
      samples ← probe_provider descriptor route;
      metrics ← lift (map_err (fun e : Empty_set => match e with end)
                        (summarize_provider_probe descriptor samples));
      mret [observation descriptor metrics]
  | _, _ => mret []
  end.

Fixpoint probe_each (providers : list TransportProviderDescriptor.t) (resolved : Resolved)
    (candidates : list TransportCandidateDiagnostic.t)
    : Async Network.t (list TransportProbeObservation.t) :=
  match candidates with
  | [] => mret []
  | candidate :: candidates =>
      observed ← probe_candidate providers resolved candidate;
      observations ← probe_each providers resolved candidates;
      mret (observed ++ observations)
  end.

Definition probe_candidates (providers : list TransportProviderDescriptor.t) (resolved : Resolved)
    (error : TransportSelectionError.t) : Async Network.t (list TransportProbeObservation.t) :=
  match error with
  | TransportSelectionError.InvalidEvidence _ _ _ => mret []
  | TransportSelectionError.ForcedTransportUnavailable _ _ candidates _
  | TransportSelectionError.NoViableTransport _ candidates _ =>
      probe_each providers resolved (filter (fun candidate =>
        TransportCandidateDiagnostic.probe_state candidate = ProbeState.Missing) candidates)
  end.

(** ** The connection *)

Definition selection_options (options : NnrpClientOptions.t)
    (descriptors : list TransportProviderDescriptor.t) (readiness : list TransportCandidateReadiness.t)
    (observations : list TransportProbeObservation.t) : TransportSelectionOptions.t := {|
  TransportSelectionOptions.peer_supported_transports :=
    TransportProviderDescriptor.transport_id <$> descriptors;
  TransportSelectionOptions.policy := NnrpClientOptions.transport_policy options;
  TransportSelectionOptions.requested_max_frame_bytes := Some RuntimeFrameLimits.DEFAULT_MAX_PACKET_BYTES;
  TransportSelectionOptions.candidate_readiness := readiness;
  TransportSelectionOptions.probe_observations := observations |}.

(** The selection, with probes where it needs them. *)
Definition choose_transport (options : NnrpClientOptions.t)
    (providers descriptors : list TransportProviderDescriptor.t) (resolved : Resolved)
    (readiness : list TransportCandidateReadiness.t) : Async Network.t TransportSelection.t :=
  match select_transport descriptors (selection_options options descriptors readiness []) with
  | Ok selection => mret selection
  | Panic => lift Panic
  | Err error =>
      if requires_probe error then
        observations ← probe_candidates providers resolved error;
        lift (map_err TransportSelectionFailed
                (select_transport_with_probe descriptors
                   (selection_options options descriptors readiness observations)))
      else lift (Err (TransportSelectionFailed error))
  end.

Definition connect_client (windows : bool) (options : NnrpClientOptions.t)
    (providers : list TransportProviderDescriptor.t)
    : Async Network.t (FramedTransport.t * NnrpClientConfig.t * TransportSelection.t) :=
  _ ← lift (reject_duplicate_transports providers);
  let descriptors := add_uninstalled_route_descriptors windows providers
                       (NnrpClientOptions.provider_routes options) in
  '(resolved, readiness) ← lift (try_fold
    (resolve_step (NnrpClientOptions.endpoint options) (NnrpClientOptions.provider_routes options))
    ([], []) descriptors);
  selection ← choose_transport options providers descriptors resolved readiness;
  let id := TransportProviderDescriptor.id (TransportSelection.selected_provider selection) in
  provider ← lift (ok_or (find_provider providers id) (SelectedProviderUnavailable id));
  route ← lift (ok_or (resolved_route resolved id) (SelectedProviderUnavailable id));
  transport ← Network.connect provider route;
  mret (transport, NnrpClientOptions.session_defaults options, selection).
End connecting.
