(* ===== verification/ConnectTheory.v ===== *)
(** What connecting through providers promises ([Connect.v]): which providers are called and
    where, and what the caller gets. *)

From S2P Require Import Prelude Bytes Sorting Errors Enums Wire Header Control Capability.
From S2P Require Import Transport Route RuntimeError Packet Async Stream Client SessionLogic Connect.

Local Open Scope Z_scope.

Lemma drop_next {A} n (l : list A) : drop (S n) l = tail (drop n l).
Proof. revert n; induction l as [|a l IH]; intros [|n]; cbn [drop]; [done..|]. apply IH. Qed.

(** ** Duplicates *)

(** One provider for each transport and each id. *)
Definition distinct (providers : list TransportProviderDescriptor.t) : Prop :=
  NoDup (TransportProviderDescriptor.transport_id <$> providers) /\
  NoDup (TransportProviderDescriptor.id <$> providers).

Lemma duplicates_Ok dt di providers r :
  try_fold (duplicate_step dt di) [] providers = Ok r <-> distinct providers /\ r = providers.
Proof.
  unfold distinct.
  rewrite (try_fold_along (fun p => p) (duplicate_step dt di)
    (fun seen p => (TransportProviderDescriptor.transport_id p
                      ∉ (TransportProviderDescriptor.transport_id <$> seen)) /\
                   (TransportProviderDescriptor.id p ∉ (TransportProviderDescriptor.id <$> seen)))).
  - rewrite along_and.
    rewrite (along_fresh (fun p => p) TransportProviderDescriptor.transport_id) by constructor.
    rewrite (along_fresh (fun p => p) TransportProviderDescriptor.id) by constructor.
    by rewrite map_id.
  - intros seen p r'. unfold duplicate_step. rewrite !then_unit_Ok, !reject_if_Ok, !bool_decide_eq_false.
    split; [by intros (? & ? & [= <-])|by intros ([? ?] & ->)].
Qed.

Lemma duplicates_no_panic dt di seen providers : try_fold (duplicate_step dt di) seen providers <> Panic.
Proof.
  revert seen; induction providers as [|p providers IH]; intros seen; simpl; [done|].
  apply bind_no_panic; [|by intros].
  unfold duplicate_step. apply bind_no_panic; [apply reject_if_no_panic|intros _ _].
  by apply bind_no_panic; [apply reject_if_no_panic|].
Qed.

Lemma reject_duplicates_Ok providers : reject_duplicate_transports providers = Ok tt <-> distinct providers.
Proof.
  unfold reject_duplicate_transports. rewrite bind_Ok. setoid_rewrite duplicates_Ok.
  split; [by intros (r & [? _] & _)|]. intros Hd. by exists providers.
Qed.

(** Among distinct providers an id finds its provider. *)
Lemma distinct_id providers p q :
  distinct providers -> p ∈ providers -> q ∈ providers ->
  TransportProviderDescriptor.id p = TransportProviderDescriptor.id q -> p = q.
Proof.
  intros [_ Hid] [i Hi]%list_elem_of_lookup [j Hj]%list_elem_of_lookup He.
  assert (i = j) as <-; [|congruence].
  apply (NoDup_lookup _ i j (TransportProviderDescriptor.id p) Hid); rewrite list_lookup_fmap;
    [by rewrite Hi|by rewrite Hj, He].
Qed.

Lemma find_provider_elem providers p :
  distinct providers -> p ∈ providers -> find_provider providers (TransportProviderDescriptor.id p) = Some p.
Proof.
  intros Hd Hp. unfold find_provider. destruct (find _ providers) as [q|] eqn:Hf.
  - apply find_some in Hf as [Hq He%bool_decide_eq_true]. apply list_elem_of_In in Hq.
    f_equal. by apply (distinct_id providers).
  - apply list_elem_of_In in Hp. pose proof (find_none _ _ Hf p Hp) as Hn. simpl in Hn.
    by apply bool_decide_eq_false in Hn.
Qed.

(** The descriptors that are added are of providers that are not there. *)
Lemma elem_of_uninstalled windows ds (routes : ClientProviderRoutes) p :
  p ∈ add_uninstalled_route_descriptors windows ds routes ->
  p ∈ ds \/ TransportProviderDescriptor.available p = false.
Proof.
  unfold add_uninstalled_route_descriptors. generalize (route_keys routes) as keys. intros keys.
  revert ds; induction keys as [|k keys IH]; intros ds; simpl; [by left|].
  intros [Hp|Hp]%IH; [|by right]. case_bool_decide; [by left|].
  apply elem_of_app in Hp as [Hp|Hp%list_elem_of_singleton]; [by left|subst; by right].
Qed.

Lemma uninstalled_keeps windows ds (routes : ClientProviderRoutes) p :
  p ∈ ds -> p ∈ add_uninstalled_route_descriptors windows ds routes.
Proof.
  unfold add_uninstalled_route_descriptors. generalize (route_keys routes) as keys. intros keys.
  revert ds; induction keys as [|k keys IH]; intros ds; simpl; [done|]. intros Hp. apply IH.
  case_bool_decide; [done|]. apply elem_of_app. by left.
Qed.

(** ** Routes *)

Section theory.
Context `{Htarget : Target} `{Huri : UriParser}.

(** An endpoint that was parsed. *)
Definition parsed (application : NnrpEndpoint.t) : Prop :=
  exists value, NnrpEndpoint.from_str value = Ok application.

Lemma parsed_authority application : parsed application -> is_Some (uri_authority (NnrpEndpoint.uri application)).
Proof.
  intros [value Hv]. unfold NnrpEndpoint.from_str in Hv. destruct (contains value b_hash); [done|].
  apply bind_Ok in Hv as (uri & _ & Hv). apply then_unit_Ok in Hv as [_ Hv].
  apply bind_Ok in Hv as (authority & Ha%ok_or_Ok & Hv). apply then_unit_Ok in Hv as [_ [= <-]]. by eexists.
Qed.

Lemma provider_endpoint_no_panic value : ProviderEndpoint.from_str value <> Panic.
Proof.
  unfold ProviderEndpoint.from_str. apply bind_no_panic; [apply ok_or_no_panic|intros e _].
  do 3 (apply bind_no_panic; [apply reject_if_no_panic|intros _ _]).
  case_bool_decide; [by apply bind_no_panic; [apply reject_if_no_panic|]|].
  case_bool_decide; [by apply bind_no_panic; [apply reject_if_no_panic|]|].
  apply bind_no_panic; [|done].
  apply bind_no_panic; [apply ok_or_no_panic|intros uri _].
  apply bind_no_panic; [apply ok_or_no_panic|intros authority _]. apply reject_if_no_panic.
Qed.

(** The scheme that a value starts with is that of the endpoint. *)
Lemma provider_endpoint_scheme value endpoint n :
  find_str (str "://") value = Some n -> ProviderEndpoint.from_str value = Ok endpoint ->
  ProviderEndpoint.scheme endpoint = take n value.
Proof.
  intros Hn He. unfold ProviderEndpoint.from_str in He. rewrite Hn in He. cbn [ok_or mbind outcome_bind] in He.
  do 3 apply then_unit_Ok in He as [_ He]. by apply then_unit_Ok in He as [_ [= <-]].
Qed.

Lemma derived_matches application tid endpoint :
  derive_provider_endpoint application tid = Ok endpoint ->
  ProviderEndpoint.matches_transport endpoint tid = true.
Proof.
  unfold derive_provider_endpoint. intros [_ He]%then_unit_Ok. destruct tid; try done;
    apply bind_Ok in He as (authority & _ & He).
  - apply (provider_endpoint_scheme _ _ 4) in He; [|done]. unfold ProviderEndpoint.matches_transport.
    rewrite He. by apply bool_decide_eq_true.
  - apply (provider_endpoint_scheme _ _ 3) in He; [|done]. unfold ProviderEndpoint.matches_transport.
    rewrite He. by apply bool_decide_eq_true.
Qed.

Lemma derived_no_panic application tid :
  parsed application -> derive_provider_endpoint application tid <> Panic.
Proof.
  intros [authority Ha]%parsed_authority. unfold derive_provider_endpoint.
  apply bind_no_panic; [apply reject_if_no_panic|intros _ _].
  destruct tid; try done; unfold NnrpEndpoint.authority; rewrite Ha; apply provider_endpoint_no_panic.
Qed.

(** ** What is called *)

Definition is_wasm (p : TransportProviderDescriptor.t) : bool :=
  match TransportProviderDescriptor.kind p with TransportProviderKind.Wasm => true | _ => false end.

(** The connection is protected: by credentials of the route, or by the trust of the browser. *)
Definition encrypted (c : ConnectCall.t) : Prop :=
  match TransportProviderDescriptor.transport_id (ConnectCall.provider c) with
  | TransportId.Quic | TransportId.Tcp => is_Some (ConnectCall.security c)
  | TransportId.WebSocket =>
      ProviderEndpoint.is_secure (ConnectCall.endpoint c) = true /\
      (is_Some (ConnectCall.security c) \/ is_wasm (ConnectCall.provider c) = true)
  | _ => False
  end.

(** A call goes to an endpoint of the provider's transport, with credentials that are complete if
    there are any, and it is protected when the application asked for that with [nnrps]. *)
Definition secured (application : NnrpEndpoint.t) (c : ConnectCall.t) : Prop :=
  ProviderEndpoint.matches_transport (ConnectCall.endpoint c)
    (TransportProviderDescriptor.transport_id (ConnectCall.provider c)) = true /\
  (forall s, ConnectCall.security c = Some s -> ClientTransportSecurity.validate s = Ok tt) /\
  (NnrpEndpoint.is_secure application = true -> encrypted c).

Definition call (p : TransportProviderDescriptor.t) (route : ResolvedClientRoute.t) : ConnectCall.t :=
  ConnectCall.mk p (ResolvedClientRoute.endpoint route) (ResolvedClientRoute.security route).

Lemma validated_encrypted application endpoint security p :
  validate_security application endpoint security p = Ok tt ->
  ProviderEndpoint.matches_transport endpoint (TransportProviderDescriptor.transport_id p) = true ->
  NnrpEndpoint.is_secure application = true ->
  encrypted (ConnectCall.mk p endpoint security).
Proof.
  unfold validate_security, encrypted, is_wasm. cbn. intros Hv Hm Hs. rewrite Hs in Hv.
  destruct (TransportProviderDescriptor.transport_id p); cbn in Hv.
  - done.
  - apply reject_if_Ok in Hv. destruct security; [by eexists|done].
  - apply reject_if_Ok in Hv. destruct security; [by eexists|done].
  - by apply then_unit_Ok in Hv as [_ ?].
  - destruct (ProviderEndpoint.is_secure endpoint); [|by destruct security].
    split; [done|]. destruct security; [left; by eexists|].
    destruct (TransportProviderDescriptor.kind p); [done|done|by right].
Qed.

Lemma resolved_secured application route p resolved :
  resolve_candidate application route p = Ok resolved -> secured application (call p resolved).
Proof.
  unfold resolve_candidate. destruct (TransportProviderDescriptor.available p); cbn [negb]; [|done].
  set (r := default ClientProviderRoute.default route).
  intros [He Hr]%then_unit_Ok. apply then_unit_Ok in Hr as [Hc Hr].
  apply bind_Ok in Hr as (endpoint & Hend & Hr). apply then_unit_Ok in Hr as [Hv [= <-]].
  apply map_err_Ok in Hv.
  assert (ProviderEndpoint.matches_transport endpoint (TransportProviderDescriptor.transport_id p) = true) as Hm.
  { destruct (ClientProviderRoute.provider_endpoint r) as [e|]; cbn in He, Hend.
    - injection Hend as <-. by apply reject_if_Ok, negb_false_iff in He.
    - apply map_err_Ok in Hend. by eapply derived_matches. }
  split_and!; [done| |by apply validated_encrypted].
  cbn. intros s Hs. rewrite Hs in Hc. cbn in Hc. by apply map_err_Ok in Hc.
Qed.

Lemma resolve_no_panic application route p :
  parsed application -> resolve_candidate application route p <> Panic.
Proof.
  intros Ha. unfold resolve_candidate. destruct (negb _); [done|].
  set (r := default ClientProviderRoute.default route).
  apply bind_no_panic; [destruct (ClientProviderRoute.provider_endpoint r); [apply reject_if_no_panic|done]|intros _ _].
  apply bind_no_panic.
  { destruct (ClientProviderRoute.security r); [|done]. cbn. unfold ClientTransportSecurity.validate, reject_if.
    by repeat case_match. }
  intros _ _. apply bind_no_panic.
  { destruct (ClientProviderRoute.provider_endpoint r); [done|].
    pose proof (derived_no_panic application (TransportProviderDescriptor.transport_id p) Ha).
    by destruct (derive_provider_endpoint _ _). }
  intros endpoint _. apply bind_no_panic; [|done].
  unfold validate_security, reject_if. by repeat (case_match; cbn).
Qed.

(** ** The candidates of a call *)

Section candidates.
Context (windows : bool) (options : NnrpClientOptions.t) (providers : list TransportProviderDescriptor.t).

Definition candidates : list TransportProviderDescriptor.t :=
  add_uninstalled_route_descriptors windows providers (NnrpClientOptions.provider_routes options).

Definition resolution (p : TransportProviderDescriptor.t)
    : Outcome TransportCandidateReadiness.t ResolvedClientRoute.t :=
  resolve_candidate (NnrpClientOptions.endpoint options)
    (NnrpClientOptions.provider_routes options !! TransportProviderDescriptor.transport_id p) p.

(** The route of a provider that has one. *)
Definition routed (p : TransportProviderDescriptor.t) : option ResolvedClientRoute.t :=
  match resolution p with Ok route => Some route | _ => None end.

Definition readiness_of (p : TransportProviderDescriptor.t) : TransportCandidateReadiness.t :=
  match resolution p with
  | Err failure => failure
  | _ => TransportCandidateReadiness.ready (TransportProviderDescriptor.transport_id p)
           (TransportProviderDescriptor.id p)
  end.

Definition routes_of (ps : list TransportProviderDescriptor.t) : Resolved :=
  reverse (omap (fun p => pair (TransportProviderDescriptor.id p) <$> routed p) ps).

Lemma routes_of_cons p ps :
  routes_of (p :: ps) =
  routes_of ps ++ option_list (pair (TransportProviderDescriptor.id p) <$> routed p).
Proof.
  unfold routes_of. cbn [omap list_omap]. destruct (_ <$> routed p); [by rewrite reverse_cons|].
  by rewrite app_nil_r.
Qed.

Lemma resolve_loop ps acc :
  parsed (NnrpClientOptions.endpoint options) ->
  try_fold (resolve_step (NnrpClientOptions.endpoint options) (NnrpClientOptions.provider_routes options))
    acc ps = Ok (routes_of ps ++ acc.1, acc.2 ++ map readiness_of ps).
Proof.
  intros Ha. revert acc; induction ps as [|p ps IH]; intros [res rs]; cbn [try_fold].
  { by rewrite app_nil_r. }
  assert (resolve_step (NnrpClientOptions.endpoint options) (NnrpClientOptions.provider_routes options)
    (res, rs) p = Ok (option_list (pair (TransportProviderDescriptor.id p) <$> routed p) ++ res,
                      rs ++ [readiness_of p])) as ->.
  { unfold resolve_step, routed, readiness_of, resolution.
    pose proof (resolve_no_panic (NnrpClientOptions.endpoint options)
      (NnrpClientOptions.provider_routes options !! TransportProviderDescriptor.transport_id p) p Ha) as Hn.
    by destruct (resolve_candidate _ _ _). }
  cbn [mbind outcome_bind]. rewrite IH. cbn [fst snd]. by rewrite routes_of_cons, <- !app_assoc.
Qed.

Lemma readiness_key p : TransportCandidateReadiness.key (readiness_of p) = TransportProviderDescriptor.key p.
Proof.
  unfold readiness_of, resolution, resolve_candidate.
  destruct (negb _); [done|]. set (r := default ClientProviderRoute.default _).
  destruct (ClientProviderRoute.provider_endpoint r) as [e|] eqn:He; cbn.
  1: destruct (ProviderEndpoint.matches_transport _ _); [cbn|done].
  all: destruct (ClientProviderRoute.security r) as [c|] eqn:Hc; cbn;
    repeat match goal with
    | |- TransportCandidateReadiness.key (match ?o ≫= _ with _ => _ end) = _ =>
        let E := fresh in destruct o as [?|?|] eqn:E; cbn; [| |done]
    | H : map_err _ ?o = Err _ |- _ => destruct o; cbn in H; [done|injection H as <-; done|done]
    end; done.
Qed.

(** A provider that is available and ready has a route. *)
Lemma ready_routed p :
  parsed (NnrpClientOptions.endpoint options) -> TransportProviderDescriptor.available p = true ->
  TransportCandidateReadiness.route_resolved (readiness_of p) = true ->
  TransportCandidateReadiness.security_satisfied (readiness_of p) = true -> is_Some (routed p).
Proof.
  intros Ha. unfold readiness_of, routed.
  pose proof (resolve_no_panic (NnrpClientOptions.endpoint options)
    (NnrpClientOptions.provider_routes options !! TransportProviderDescriptor.transport_id p) p Ha) as Hn.
  fold (resolution p) in Hn. destruct (resolution p) as [route|f|] eqn:Hr; [by eexists| |done].
  intros Hav Hrr Hss. exfalso. revert Hr. unfold resolution, resolve_candidate. rewrite Hav. cbn [negb].
  set (r := default ClientProviderRoute.default _). cbv zeta.
  destruct (ClientProviderRoute.provider_endpoint r) as [e|]; cbn.
  1: destruct (ProviderEndpoint.matches_transport _ _); [cbn|by intros [= <-]].
  all: destruct (ClientProviderRoute.security r) as [c|]; cbn;
    repeat match goal with
    | |- (?o ≫= _) = Err _ -> False => let E := fresh in destruct o as [?|?|] eqn:E; cbn; [| |done]
    | H : map_err _ ?o = Err _ |- _ => destruct o; cbn in H; [done|injection H as <-; by intros [= <-]|done]
    end; done.
Qed.

Lemma routed_available p : is_Some (routed p) -> TransportProviderDescriptor.available p = true.
Proof.
  unfold routed, resolution, resolve_candidate. intros [route H].
  by destruct (TransportProviderDescriptor.available p).
Qed.

Lemma routed_secured p route :
  routed p = Some route -> secured (NnrpClientOptions.endpoint options) (call p route).
Proof.
  unfold routed, resolution. intros H. destruct (resolve_candidate _ _ _) eqn:Hr; [|done..].
  injection H as ->. by eapply resolved_secured.
Qed.

(** An available candidate is an installed provider. *)
Lemma candidate_installed p :
  p ∈ candidates -> TransportProviderDescriptor.available p = true -> p ∈ providers.
Proof. intros [?|Hf]%elem_of_uninstalled Ha; [done|]. by rewrite Hf in Ha. Qed.

Lemma resolved_lookup p route :
  distinct providers -> p ∈ candidates -> routed p = Some route ->
  resolved_route (routes_of candidates) (TransportProviderDescriptor.id p) = Some route.
Proof.
  intros Hd Hp Hr. unfold resolved_route.
  assert (forall id r, (id, r) ∈ routes_of candidates <->
    exists q, q ∈ candidates /\ routed q = Some r /\ id = TransportProviderDescriptor.id q) as Hin.
  { intros id r. unfold routes_of. rewrite elem_of_reverse, list_elem_of_omap. split.
    - intros (q & Hq & Hx). destruct (routed q) eqn:E; cbn in Hx; [|done]. injection Hx as <- <-. eauto.
    - intros (q & Hq & Hx & ->). exists q. by rewrite Hx. }
  assert (p ∈ providers) as Hpp by (apply candidate_installed; [done|apply routed_available; by eexists]).
  destruct (find _ (routes_of candidates)) as [[id r]|] eqn:Hf; cbn.
  - apply find_some in Hf as [Hf Hid%bool_decide_eq_true]. cbn in Hid. subst id.
    apply list_elem_of_In, Hin in Hf as (q & Hq & Hqr & He).
    assert (p = q) as <-; [|congruence].
    apply (distinct_id providers); [done|done| |done].
    apply candidate_installed; [done|apply routed_available; by eexists].
  - exfalso. pose proof (find_none _ _ Hf (TransportProviderDescriptor.id p, route)) as Hn.
    cbn in Hn. rewrite bool_decide_true in Hn by done.
    discriminate Hn. apply list_elem_of_In, Hin. by exists p.
Qed.

(** ** The selection *)

Definition readiness : list TransportCandidateReadiness.t := map readiness_of candidates.

Definition sel (observations : list TransportProbeObservation.t) : TransportSelectionOptions.t :=
  selection_options options candidates readiness observations.

(** The providers that no guard rejects; probes play no part in this. *)
Definition viable_candidates : list TransportProviderDescriptor.t := viable_providers (sel []) candidates.

(** An installed provider that the policy allows and whose route is [route]. *)
Definition usable (p : TransportProviderDescriptor.t) (route : ResolvedClientRoute.t) : Prop :=
  p ∈ providers /\ TransportProviderDescriptor.available p = true /\
  TransportPolicy.allows (NnrpClientOptions.transport_policy options)
    (TransportProviderDescriptor.transport_id p) = true /\
  routed p = Some route /\
  find_provider providers (TransportProviderDescriptor.id p) = Some p /\
  resolved_route (routes_of candidates) (TransportProviderDescriptor.id p) = Some route.

Lemma viable_usable p :
  parsed (NnrpClientOptions.endpoint options) -> distinct providers ->
  evidence_ok candidates readiness [] -> p ∈ viable_candidates -> exists route, usable p route.
Proof.
  intros Ha Hd Hev [Hv Hp]%list_elem_of_filter.
  apply (viable_exact (sel []) candidates [] p Hev Hp) in Hv as (Hpol & Hav & _ & _ & r & Hr & Hk & Hrr & Hss).
  change (r ∈ map readiness_of candidates) in Hr. apply list_elem_of_In, in_map_iff in Hr as (q & <- & Hq%list_elem_of_In).
  rewrite readiness_key in Hk.
  assert (q = p) as ->.
  { destruct Hev as (_ & Ht & _). apply list_elem_of_lookup in Hq as [i Hi], Hp as [j Hj].
    assert (i = j) as <-; [|congruence]. injection Hk as Hk _.
    apply (NoDup_lookup _ i j (TransportProviderDescriptor.transport_id p) Ht); rewrite list_lookup_fmap;
      [by rewrite Hi, <- Hk|by rewrite Hj]. }
  destruct (ready_routed p Ha Hav Hrr Hss) as [route Hroute]. exists route.
  assert (p ∈ providers) by (by apply candidate_installed).
  split_and!; [done..|by apply find_provider_elem|by apply resolved_lookup].
Qed.

(** A candidate whose probe is missing. *)
Definition unprobed (p : TransportProviderDescriptor.t) : TransportCandidateDiagnostic.t :=
  mark_missing (candidate (sel []) p).

Lemma rejection_no_probe remote policy limit rs p :
  rejection remote policy limit rs p <> Some TransportRejectionReason.ProbeMissing.
Proof. unfold rejection. by repeat case_match. Qed.

Lemma missing_reports ds :
  ds ≡ₚ map (report (sel []) mark_missing) candidates ->
  exists vs, vs ≡ₚ viable_candidates /\
    filter (fun d => TransportCandidateDiagnostic.probe_state d = ProbeState.Missing) ds = map unprobed vs /\
    length (filter (fun d => TransportCandidateDiagnostic.rejection_reason d
                             = Some TransportRejectionReason.ProbeMissing) ds) = length vs.
Proof.
  intros Hds.
  assert (forall (P : TransportCandidateDiagnostic.t -> Prop) `{!forall d, Decision (P d)},
    (forall p, P (unprobed p)) -> (forall p, ~ P (EvaluatedCandidate.diagnostic (candidate (sel []) p))) ->
    filter P ds ≡ₚ map unprobed viable_candidates) as Hfilter.
  { intros P HP Hin Hout. rewrite Hds. clear Hds. unfold viable_candidates, viable_providers, report.
    generalize candidates as ps. intros ps. induction ps as [|p ps IH]; [done|].
    cbn [map]. rewrite !filter_cons. destruct (viable (sel []) p) eqn:Hv.
    - rewrite (decide_True _ _ (Hin p)), (decide_True _ _ eq_refl). cbn [map]. by rewrite IH.
    - rewrite decide_False by apply Hout. by rewrite decide_False by done. }
  assert (forall p, TransportCandidateDiagnostic.probe_state
    (EvaluatedCandidate.diagnostic (candidate (sel []) p)) <> ProbeState.Missing) as Hn by done.
  pose proof (Hfilter (fun d => TransportCandidateDiagnostic.probe_state d = ProbeState.Missing) _
    (fun p => eq_refl) Hn) as Hm.
  pose proof (Hfilter (fun d => TransportCandidateDiagnostic.rejection_reason d
                                = Some TransportRejectionReason.ProbeMissing) _
    (fun p => eq_refl) (fun p => rejection_no_probe _ _ _ _ p)) as Hc.
  apply Permutation_map_inv in Hm as (vs & Hvs & Hp). exists vs. split; [by symmetry|]. split; [done|].
  rewrite (Permutation_length Hc), length_map. apply Permutation_length. exact Hp.
Qed.

(** The selection after the probes. *)
Definition ranked (observations : list TransportProbeObservation.t) : RT TransportSelection.t :=
  map_err TransportSelectionFailed (select_transport_with_probe candidates (sel observations)).

(** What the first selection leads to: nothing on evidence that is not accepted or without a viable
    provider, the only viable provider, or probes of all of them, in some order. *)
Definition choice_cases (m : Async Network.t TransportSelection.t) : Prop :=
  (exists e, m = lift (Err (TransportSelectionFailed e))) \/
  (evidence_ok candidates readiness [] /\ exists p selection, viable_candidates = [p] /\ m = mret selection /\
     TransportSelection.selected_provider selection = p) \/
  (evidence_ok candidates readiness [] /\ exists vs, vs ≡ₚ viable_candidates /\ (1 < length vs)%nat /\
     m = (observations ← probe_each providers (routes_of candidates) (map unprobed vs);
          lift (ranked observations))).

Lemma choose_cases :
  choice_cases (choose_transport options providers candidates (routes_of candidates) readiness).
Proof.
  unfold choose_transport. fold (sel []).
  pose proof (evidence_refused candidates readiness []) as Href.
  destruct (validate_selection_evidence candidates readiness []) as [[]|e|] eqn:Hev; [| |done].
  - apply evidence_Ok in Hev. destruct (select_exact (sel []) candidates Hev) as (ds & Hds & Hs).
    rewrite Hs. fold viable_candidates in *. unfold direct_report in Hds. fold viable_candidates in Hds.
    assert ((forall p, viable_candidates <> [p]) ->
      choice_cases (match @selection_error TransportSelection.t (TransportSelectionOptions.policy (sel [])) ds with
        | Ok selection => mret selection
        | Err error => if requires_probe error
            then observations ← probe_candidates providers (routes_of candidates) error;
                 lift (map_err TransportSelectionFailed (select_transport_with_probe candidates
                         (selection_options options candidates readiness observations)))
            else lift (Err (TransportSelectionFailed error))
        | Panic => lift Panic end)) as Herr.
    { intros Hn. assert (ds ≡ₚ map (report (sel []) mark_missing) candidates) as Hds'.
      { rewrite Hds. destruct viable_candidates as [|p [|??]]; [done|by destruct (Hn p)|done]. }
      destruct (missing_reports ds Hds') as (vs & Hvs & Hf & Hl).
      unfold selection_error.
      destruct (TransportPolicy.forced_transport _); cbn [requires_probe probe_candidates];
        rewrite Hf, Hl; (destruct (1 <? length vs)%nat eqn:Hlt; [|by left; eexists]);
        apply Nat.ltb_lt in Hlt; right; right; (split; [done|]); by exists vs. }
    destruct viable_candidates as [|p [|q l]] eqn:Hv; [by apply Herr| |by apply Herr].
    right. left. split; [done|]. by exists p, (TransportSelection.mk p ds (NnrpClientOptions.transport_policy options) None).
  - destruct Href as [text ->]. unfold select_transport. cbn [TransportSelectionOptions.candidate_readiness sel selection_options].
    rewrite Hev. left. by eexists.
Qed.

(** ** Probes *)

(** No result of the network is a panic, and the transports it gives behave. *)
Definition calm_network (self : Network.t) : Prop :=
  Forall (fun r => r <> Panic /\ forall transport, r = Ok transport -> FramedTransport.well_behaved transport)
    (Network.connects self).

(** The results of all calls of [connect], from the first on. *)
Context (script : list (RT FramedTransport.t)).

(** The calls that were made, and the results that are left. *)
Definition called (cs : list ConnectCall.t) (self : Network.t) : Prop :=
  calm_network self /\ Network.calls self = cs /\ Network.connects self = drop (length cs) script.

Lemma connect_called cs p route :
  triple (called cs) (Network.connect p route)
    (fun transport self => called (cs ++ [call p route]) self /\
       script !! length cs = Some (Ok transport) /\ FramedTransport.well_behaved transport)
    (called (cs ++ [call p route])).
Proof.
  intros [connects calls el now] (Hc & Hcs & Hs). unfold Network.connect. cbn in *. subst calls.
  unfold called. cbn [Network.connects Network.calls]. rewrite length_app, Nat.add_1_r.
  assert (drop (S (length cs)) script = tail connects) as -> by (subst connects; apply drop_next).
  assert (script !! length cs = head connects) as ->
    by (subst connects; by rewrite head_lookup, lookup_drop, Nat.add_0_r).
  destruct connects as [|r rest]; [by split_and!|]. apply Forall_cons in Hc as [[Hp Hw] Hrest].
  destruct r as [tr|e|]; [|by split_and!|done]. split_and!; try done. by apply Hw.
Qed.

Lemma time_called {A} cs (m : Async Network.t A) :
  (forall self, exists a, m self = (Ready (Ok a), (m self).2) /\
     Network.connects (m self).2 = Network.connects self /\ Network.calls (m self).2 = Network.calls self) ->
  triple (called cs) m (fun _ => called cs) (called cs).
Proof.
  intros Hm self Hc. destruct (Hm self) as (a & He & Hn & Hca). rewrite He. cbn.
  unfold called, calm_network in *. by rewrite Hn, Hca.
Qed.

(** A state of a probe: the calls made so far, and a transport that behaves. *)
Definition probing (cs : list ConnectCall.t) (self : Probing) : Prop :=
  called cs self.1 /\ FramedTransport.well_behaved self.2.

Lemma on_network_probing {A} cs (m : Async Network.t A) :
  triple (called cs) m (fun _ => called cs) (called cs) ->
  triple (probing cs) (on_network m) (fun _ => probing cs) (probing cs).
Proof.
  intros Hm [n tr] [Hn Ht]. specialize (Hm n Hn). unfold on_network. cbn in *.
  destruct (m n) as [[[a|e|]|] n']; by try split.
Qed.

(** A call that keeps the transport well behaved. *)
Definition steady {A} (m : Async FramedTransport.t A) : Prop :=
  triple FramedTransport.well_behaved m (fun _ => FramedTransport.well_behaved) FramedTransport.well_behaved.

Lemma calm_steady {A} (m : Async FramedTransport.t A) : FramedTransport.calm m -> steady m.
Proof.
  intros Hm tr Ht. destruct (Hm tr Ht) as (Hp & Hw & _). by destruct (m tr) as [[[a|e|]|] tr'].
Qed.

Lemma on_transport_probing {A} cs (m : Async FramedTransport.t A) :
  steady m -> triple (probing cs) (on_transport m) (fun _ => probing cs) (probing cs).
Proof.
  intros Hm [n tr] [Hn Ht]. specialize (Hm tr Ht). unfold on_transport. cbn in *.
  destruct (m tr) as [[[a|e|]|] tr']; by try split.
Qed.

Lemma exchange_probe_steady probe_id metadata : steady (exchange_probe probe_id metadata).
Proof.
  unfold exchange_probe, probe_packet.
  apply triple_bind_lift; [apply protocol_no_panic, packet_new_no_panic|done|intros packet _].
  eapply triple_bind; [apply calm_steady, FramedTransport.write_packet_calm|intros ?].
  eapply triple_bind; [apply calm_steady, FramedTransport.read_packet_calm|intros ack].
  apply triple_lift; [|done|done]. unfold probe_answer.
  apply bind_no_panic; [apply reject_if_no_panic|intros _ _].
  apply bind_no_panic; [apply protocol_no_panic; codec_no_panic|intros m _]. apply reject_if_no_panic.
Qed.

Lemma elapsed_called cs : triple (called cs) Network.elapsed_us (fun _ => called cs) (called cs).
Proof. apply time_called. intros self. by eexists. Qed.

Lemma unix_time_called cs : triple (called cs) Network.unix_time_us (fun _ => called cs) (called cs).
Proof. apply time_called. intros self. by eexists. Qed.

Lemma probe_loop_probing cs p ids samples :
  triple (probing cs) (probe_loop p ids samples) (fun _ => probing cs) (probing cs).
Proof.
  revert samples; induction ids as [|id ids IH]; intros samples; cbn [probe_loop]; [by apply triple_ret|].
  eapply triple_bind; [apply on_network_probing, unix_time_called|intros now].
  assert (TransportProbeMetadata.to_bytes (probe_metadata id now) <> Panic) as Hb by codec_no_panic.
  destruct (TransportProbeMetadata.to_bytes _) as [metadata|e|]; [|by apply triple_ret|done].
  eapply triple_bind; [eapply triple_conseq;
    [apply attempt_triple, on_transport_probing, (exchange_probe_steady id metadata)|done| |done]|].
  { intros r self H. instantiate (1 := fun _ => probing cs). by destruct r. }
  intros answered. cbv beta. eapply triple_bind; [apply on_network_probing, elapsed_called|intros elapsed].
  destruct (is_some answered); [apply IH|by apply triple_ret].
Qed.

Lemma probe_provider_called cs p route :
  triple (called cs) (probe_provider p route)
    (fun _ => called (cs ++ [call p route])) (called (cs ++ [call p route])).
Proof.
  unfold probe_provider.
  eapply triple_bind; [apply attempt_triple, connect_called|intros [tr|]; cbv beta iota].
  - intros self (Hc & _ & Ht). unfold with_transport.
    assert (triple (probing (cs ++ [call p route]))
      (samples ← probe_loop p (Z.of_nat <$> seq 1 (Z.to_nat PROBE_SAMPLE_COUNT)) [];
       _ ← attempt (on_transport FramedTransport.close); mret samples)
      (fun _ => probing (cs ++ [call p route])) (probing (cs ++ [call p route]))) as Ht3.
    { eapply triple_bind; [apply probe_loop_probing|intros samples].
      eapply triple_bind; [apply attempt_triple, on_transport_probing, calm_steady, FramedTransport.close_calm|].
      intros [[]|]; by apply triple_ret. }
    specialize (Ht3 (self, tr) (conj Hc Ht)). destruct (_ ≫= _) as [[[a|e|]|] self']; try done; apply Ht3.
  - eapply triple_bind; [apply elapsed_called|intros e]. by apply triple_ret.
Qed.

(** The observations of the probes name their providers, and are accepted as evidence. *)
Lemma observation_valid p samples :
  exists metrics, summarize_provider_probe p samples = Ok metrics /\ observation_ok (observation p metrics).
Proof.
  pose proof (probe_summary_exact p samples) as H.
  destruct (successful_samples p samples) as [|s l]; [by exists None|].
  destruct H as (m & Hm & _ & _ & _ & _ & Hv). by exists (Some m).
Qed.

Definition calls_of (vs : list TransportProviderDescriptor.t) : list ConnectCall.t :=
  omap (fun p => call p <$> routed p) vs.

(** Probing usable providers calls each of them once, in order; when it waits, it has called the
    first ones. *)
Lemma probe_each_called cs vs :
  Forall (fun p => exists route, usable p route) vs ->
  triple (called cs) (probe_each providers (routes_of candidates) (map unprobed vs))
    (fun observations self => called (cs ++ calls_of vs) self /\
       map TransportProbeObservation.key observations = map TransportProviderDescriptor.key vs /\
       Forall observation_ok observations)
    (fun self => exists k, called (cs ++ calls_of (take k vs)) self).
Proof.
  intros Hvs. revert cs; induction Hvs as [|p vs [route Hp] Hvs IH]; intros cs; cbn [map probe_each].
  { apply triple_ret. intros self H. by rewrite app_nil_r. }
  destruct Hp as (_ & _ & _ & Hr & Hf & Hl).
  assert (calls_of [p] = [call p route]) as Hone by (unfold calls_of; cbn; by rewrite Hr).
  eapply triple_bind with (Q := fun observed self => called (cs ++ [call p route]) self /\
    (map TransportProbeObservation.key observed = [TransportProviderDescriptor.key p] /\
     Forall observation_ok observed)).
  - unfold probe_candidate. change (TransportProviderMetadata.id _) with (TransportProviderDescriptor.id p).
    rewrite Hf, Hl. eapply triple_bind.
    { eapply triple_conseq; [apply probe_provider_called|done|by intros a self H; exact H|].
      intros self H. exists 1%nat. change (take 1 (p :: vs)) with [p]. by rewrite Hone. }
    intros samples. destruct (observation_valid p samples) as (metrics & -> & Hok).
    apply triple_ret. intros self H. split_and!; [done|by destruct metrics|by repeat constructor].
  - intros observed. cbv beta.
    assert (forall k, calls_of (take (S k) (p :: vs)) = call p route :: calls_of (take k vs)) as Htake.
    { intros k. unfold calls_of. cbn. by rewrite Hr. }
    apply triple_pure. intros [Hk Ho].
    eapply triple_bind.
    { eapply triple_conseq; [apply IH|done|by intros a self H; exact H|].
      intros self [k H]. exists (S k). rewrite Htake. by rewrite <- app_assoc in H. }
    intros observations. apply triple_ret. intros self (Hc & Hk' & Ho').
    rewrite <- app_assoc in Hc. split_and!; [|by rewrite map_app, Hk, Hk'|by apply Forall_app].
    unfold calls_of in *. cbn [omap list_omap]. rewrite Hr. exact Hc.
Qed.

(** ** The connection *)

(** The selection after the probes is of a viable provider. *)
Lemma ranked_viable vs observations selection :
  evidence_ok candidates readiness [] -> vs ≡ₚ viable_candidates -> (1 < length vs)%nat ->
  map TransportProbeObservation.key observations = map TransportProviderDescriptor.key vs ->
  Forall observation_ok observations -> ranked observations = Ok selection ->
  TransportSelection.selected_provider selection ∈ viable_candidates.
Proof.
  intros Hev Hvs Hlen Hkeys Hok Hr.
  assert (evidence_ok candidates readiness observations) as Hev'.
  { destruct Hev as (H1 & H2 & H3 & H4 & H5 & _). split_and!; try done.
    - apply Forall_forall. intros o Ho. split; [|by apply (proj1 (Forall_forall _ _) Hok)].
      assert (TransportProbeObservation.key o ∈ map TransportProviderDescriptor.key vs) as Hk
        by (rewrite <- Hkeys; apply list_elem_of_In, in_map, list_elem_of_In; done).
      apply list_elem_of_In, in_map_iff in Hk as (p & <- & Hp%list_elem_of_In).
      rewrite Hvs in Hp. apply list_elem_of_filter in Hp as [_ Hp]. by apply list_elem_of_fmap_2.
    - rewrite Hkeys. change (NoDup (TransportProviderDescriptor.key <$> vs)).
      assert (NoDup (TransportProviderDescriptor.transport_id <$> vs)) as Hnd.
      { rewrite Hvs. unfold viable_candidates, viable_providers.
        eapply sublist_NoDup; [apply H2|]. apply fmap_sublist, sublist_filter. }
      apply (NoDup_fmap_1 fst). by rewrite <- list_fmap_compose. }
  apply map_err_Ok in Hr.
  destruct (select_with_probe_exact (sel observations) candidates Hev') as (ds & Hcase).
  change (viable_providers (sel observations) candidates) with viable_candidates in Hcase.
  rewrite (Permutation_length Hvs) in Hlen.
  destruct viable_candidates as [|p [|q l]] eqn:Hv; cbn in Hlen; [lia|lia|]. rewrite <- Hv.
  destruct Hcase as [Hrank _]. rewrite Hr in Hrank. unfold ranked_result in Hrank.
  destruct (probed_providers _ candidates) as [|y ys] eqn:Hpp.
  { unfold selection_error in Hrank. by destruct (TransportPolicy.forced_transport _). }
  destruct Hrank as (x & Hx & [= ->] & _). cbn. rewrite <- Hpp in Hx.
  apply list_elem_of_omap in Hx as (p' & Hp' & Hx). unfold probed_provider in Hx.
  destruct (viable (sel observations) p') eqn:Hvp; [|done].
  destruct (success_metrics _ p'); cbn in Hx; [|done]. injection Hx as <-.
  by apply list_elem_of_filter.
Qed.

(** A call that connecting may make. *)
Definition permitted (c : ConnectCall.t) : Prop :=
  ConnectCall.provider c ∈ providers /\
  TransportProviderDescriptor.available (ConnectCall.provider c) = true /\
  TransportPolicy.allows (NnrpClientOptions.transport_policy options)
    (TransportProviderDescriptor.transport_id (ConnectCall.provider c)) = true /\
  secured (NnrpClientOptions.endpoint options) c.

Lemma usable_permitted p route : usable p route -> permitted (call p route).
Proof. intros (? & ? & ? & Hr & _). split_and!; [done..|]. by apply routed_secured. Qed.

Lemma calls_permitted vs :
  Forall (fun p => exists route, usable p route) vs -> Forall permitted (calls_of vs).
Proof.
  induction 1 as [|p vs [route Hp] Hvs IH]; [constructor|].
  assert (calls_of (p :: vs) = call p route :: calls_of vs) as ->.
  { unfold calls_of. cbn [omap list_omap]. destruct Hp as (_ & _ & _ & -> & _). done. }
  constructor; [by apply usable_permitted|done].
Qed.

(** The state when a call ends without a transport: only permitted calls were made. *)
Definition lawfully (cs : list ConnectCall.t) (self : Network.t) : Prop :=
  exists new, called (cs ++ new) self /\ Forall permitted new.

(** What is known of the selection once it is made: how many providers were probed. *)
Definition selected_after (cs : list ConnectCall.t) (selection : TransportSelection.t) (self : Network.t)
    : Prop :=
  exists vs, called (cs ++ calls_of vs) self /\
    vs ≡ₚ (match viable_candidates with [_] => [] | vs => vs end) /\
    Forall (fun p => exists route, usable p route) vs /\
    TransportSelection.selected_provider selection ∈ viable_candidates /\
    (exists route, usable (TransportSelection.selected_provider selection) route).

Lemma choose_called cs :
  parsed (NnrpClientOptions.endpoint options) -> distinct providers ->
  triple (called cs) (choose_transport options providers candidates (routes_of candidates) readiness)
    (selected_after cs) (lawfully cs).
Proof.
  intros Ha Hd. destruct choose_cases as [[e ->]|[(Hev & p & selection & Hv & -> & Hs)|(Hev & vs & Hvs & Hlen & ->)]].
  - apply triple_lift; [done| |done]. intros self Hc. exists []. by rewrite app_nil_r.
  - apply triple_ret. intros self Hc. exists []. change (calls_of []) with (@nil ConnectCall.t).
    rewrite app_nil_r, Hv, Hs. split_and!; try done.
    + by left.
    + apply (viable_usable p Ha Hd Hev). rewrite Hv. by left.
  - assert (Forall (fun p => exists route, usable p route) vs) as Hu.
    { apply Forall_forall. intros p Hp. rewrite Hvs in Hp. by apply viable_usable. }
    assert (forall k, Forall permitted (calls_of (take k vs))) as Htake
      by (intros k; by apply calls_permitted, Forall_take).
    eapply triple_bind; [eapply triple_conseq; [by apply probe_each_called|done|by intros os self H; exact H|]|].
    { intros self [k Hk]. by exists (calls_of (take k vs)). }
    intros observations. apply triple_lift.
    + unfold ranked. pose proof (evidence_refused candidates readiness observations) as Href.
      destruct (validate_selection_evidence candidates readiness observations) as [[]|e|] eqn:Hv; [| |done].
      * apply evidence_Ok in Hv. destruct (select_with_probe_exact (sel observations) candidates Hv) as (ds & Hc).
        unfold ranked_result, chosen, selection_error in Hc.
        by destruct (viable_providers _ _) as [|p [|q l]]; destruct Hc as [Hc _];
          [|rewrite Hc|]; try done; destruct (probed_providers _ _);
          try (destruct Hc as (x & _ & -> & _); done); rewrite Hc; destruct (TransportPolicy.forced_transport _).
      * unfold select_transport_with_probe. cbn [TransportSelectionOptions.candidate_readiness
          TransportSelectionOptions.probe_observations sel selection_options]. by rewrite Hv.
    + intros self (Hc & _ & _). exists (calls_of vs). split; [done|by apply calls_permitted].
    + intros selection self Hr (Hc & Hk & Ho). exists vs.
      assert (TransportSelection.selected_provider selection ∈ viable_candidates) as Hin
        by (by eapply ranked_viable). split_and!; try done; [|by apply viable_usable].
      rewrite Hvs. rewrite (Permutation_length Hvs) in Hlen. by destruct viable_candidates as [|? [|??]]; cbn in Hlen; [lia|lia|].
Qed.

(** The result of a connection: the defaults of the options, and the transport that the call
    after the probes has given, of a viable provider.  The probes go to every viable
    provider, unless there is only one. *)
Definition connected (cs : list ConnectCall.t)
    (result : FramedTransport.t * NnrpClientConfig.t * TransportSelection.t) (self : Network.t) : Prop :=
  let '(transport, config, selection) := result in
  let p := TransportSelection.selected_provider selection in
  config = NnrpClientOptions.session_defaults options /\ p ∈ viable_candidates /\
  exists route vs, usable p route /\
    vs ≡ₚ (match viable_candidates with [_] => [] | vs => vs end) /\
    Forall (fun p => exists route, usable p route) vs /\
    called (cs ++ calls_of vs ++ [call p route]) self /\
    script !! (length cs + length (calls_of vs))%nat = Some (Ok transport).

Lemma connect_client_called cs :
  parsed (NnrpClientOptions.endpoint options) ->
  triple (called cs) (connect_client windows options providers) (connected cs) (lawfully cs).
Proof.
  intros Ha. assert (forall self, called cs self -> lawfully cs self) as Hl
    by (intros self Hc; exists []; by rewrite app_nil_r).
  unfold connect_client. apply triple_bind_lift; [|exact Hl|].
  { unfold reject_duplicate_transports. by apply bind_no_panic; [apply duplicates_no_panic|]. }
  intros [] Hd%reject_duplicates_Ok. fold candidates.
  apply triple_bind_lift; [by rewrite resolve_loop|exact Hl|]. intros [resolved rs] Hres.
  rewrite (resolve_loop candidates ([], []) Ha) in Hres. cbn [fst snd app] in Hres.
  rewrite app_nil_r in Hres. injection Hres as <- <-. fold readiness.
  eapply triple_bind; [by apply choose_called|intros selection self (vs & Hc & Hvs & Hu & Hin & route & Hus)].
  pose proof Hus as (_ & _ & _ & _ & Hf & Hr).
  unfold mbind, async_bind, lift. rewrite Hf. cbn [ok_or]. rewrite Hr. cbn [ok_or].
  assert (Forall permitted (calls_of vs ++ [call (TransportSelection.selected_provider selection) route])) as Hp.
  { apply Forall_app. split; [by apply calls_permitted|]. constructor; [by apply usable_permitted|constructor]. }
  pose proof (connect_called _ (TransportSelection.selected_provider selection) route self Hc) as H.
  rewrite <- app_assoc in H.
  destruct (Network.connect _ route self) as [[[tr|e|]|] self']; [|by eexists|done|by eexists].
  destruct H as (Hc' & Hs & _). rewrite length_app in Hs. cbn. split_and!; [done|done|]. by exists route, vs.
Qed.
End candidates.

(** ** Properties *)

(** The results that are left, with placeholders for those of the calls already made. *)
Definition script_of (self : Network.t) : list (RT FramedTransport.t) :=
  replicate (length (Network.calls self)) (Err ServerListenerSetClosed) ++ Network.connects self.

Lemma called_start self : calm_network self -> called (script_of self) (Network.calls self) self.
Proof.
  intros Hc. split_and!; [done|done|]. unfold script_of.
  by rewrite drop_app_length' by (by rewrite length_replicate).
Qed.

(** C19: connecting never panics and calls only providers that are installed, available and
    allowed by the policy, each at an endpoint of its own transport and with complete
    credentials if with any.  When the application asked for [nnrps], every such call, the probes
    included, is protected: TCP and QUIC have credentials, a WebSocket endpoint is [wss] with
    credentials or in a browser, and IPC is not used.  This holds whether the connection
    succeeds, fails or waits. *)
Theorem connect_secure (windows : bool) (options : NnrpClientOptions.t)
    (providers : list TransportProviderDescriptor.t) (n : Network.t) :
  parsed (NnrpClientOptions.endpoint options) -> calm_network n ->
  (connect_client windows options providers n).1 <> Ready Panic /\
  exists new, Network.calls (connect_client windows options providers n).2 = Network.calls n ++ new /\
    Forall (permitted options providers) new.
Proof.
  intros Ha Hn. pose proof (connect_client_called windows options providers (script_of n)
    (Network.calls n) Ha n (called_start n Hn)) as H.
  destruct (connect_client windows options providers n) as [[[[[tr config] selection]|e|]|] n']; cbn in *.
  - destruct H as (_ & _ & route & vs & Hp & _ & Hu & (_ & Hc & _) & _). split; [done|].
    eexists. split; [exact Hc|]. apply Forall_app. split; [by eapply calls_permitted|].
    constructor; [by eapply usable_permitted|constructor].
  - destruct H as (new & (_ & Hc & _) & Hnew). split; [done|]. by exists new.
  - done.
  - destruct H as (new & (_ & Hc & _) & Hnew). split; [done|]. by exists new.
Qed.

Lemma calls_of_length windows options providers vs :
  Forall (fun p => exists route, usable windows options providers p route) vs ->
  length (calls_of options vs) = length vs.
Proof.
  induction 1 as [|p vs [route (_ & _ & _ & Hr & _)] _ IH]; [done|].
  unfold calls_of in *. cbn [omap list_omap]. rewrite Hr. cbn. by rewrite IH.
Qed.

(** a connection that is made is made with the defaults of the options to a provider
    that no guard of the selection rejects, at its route.  When it is the only such provider it is
    called once and nothing is probed; otherwise each of them was probed with one call before, and
    the transport is what the call after the probes returned. *)
Theorem connect_contract (windows : bool) (options : NnrpClientOptions.t)
    (providers : list TransportProviderDescriptor.t) (n : Network.t) :
  parsed (NnrpClientOptions.endpoint options) -> calm_network n ->
  forall transport config selection n',
  returns (connect_client windows options providers) n (transport, config, selection) n' ->
  let p := TransportSelection.selected_provider selection in
  config = NnrpClientOptions.session_defaults options /\
  p ∈ viable_candidates windows options providers /\ p ∈ providers /\
  exists route vs, routed options p = Some route /\
    vs ≡ₚ (match viable_candidates windows options providers with [_] => [] | vs => vs end) /\
    Network.calls n' = Network.calls n ++ calls_of options vs ++ [call p route] /\
    length (calls_of options vs) = length vs /\
    Network.connects n !! length vs = Some (Ok transport).
Proof.
  intros Ha Hn tr config selection n' Hr.
  pose proof (triple_returns _ _ _ _ _ _ _ (connect_client_called windows options providers (script_of n)
    (Network.calls n) Ha) (called_start n Hn) Hr) as (Hcfg & Hin & route & vs & Hus & Hvs & Hu & (_ & Hc & _) & Hs).
  pose proof (calls_of_length _ _ _ _ Hu) as Hlen. destruct Hus as (Hp & _ & _ & Hrt & _).
  cbv zeta. split_and!; [done..|]. exists route, vs. split_and!; [done..|].
  rewrite Hlen in Hs. unfold script_of in Hs.
  by rewrite lookup_app_r, length_replicate, Nat.add_comm, Nat.add_sub in Hs by (rewrite length_replicate; lia).
Qed.
End theory.

(** ** An example: an application that asks for [nnrps], with providers for TCP and QUIC *)

Module ConnectExample.

#[local] Existing Instance target64.

(** A parser of [scheme://authority]. *)
#[local] Instance simple_uri : UriParser := {|
  Uri := bytes * bytes;
  uri_from_str v := n ← find_str (str "://") v; Some (take n v, drop (n + 3) v);
  uri_scheme_str uri := Some uri.1;
  uri_authority uri := Some uri.2;
  authority_host a := a;
  authority_port_u16 a := Some 4433;
  uri_path_and_query _ := None |}.

Definition application : NnrpEndpoint.t := NnrpEndpoint.mk (str "nnrps://peer:4433") (str "nnrps", str "peer:4433").

Definition credentials : ClientProviderRoute.t := ClientProviderRoute.native_tls (str "peer") [x01].

Definition options (routes : ClientProviderRoutes) : NnrpClientOptions.t := {|
  NnrpClientOptions.endpoint := application;
  NnrpClientOptions.provider_routes := routes;
  NnrpClientOptions.transport_policy := TransportPolicy.Auto;
  NnrpClientOptions.session_defaults := NnrpClientConfig.default |}.

Definition provider (transport_id : TransportId.t) : TransportProviderDescriptor.t :=
  TransportProviderDescriptor.new_available false (str "provider") (str "1") transport_id
    TransportProviderKind.PureRust.

Definition secure_options : NnrpClientOptions.t :=
  options {[TransportId.Tcp := credentials; TransportId.Quic := credentials]}.

Definition providers : list TransportProviderDescriptor.t := [provider TransportId.Tcp; provider TransportId.Quic].

(** The acknowledgement of a probe. *)
Definition ack (probe_id : Z) : RT RuntimePacket.t :=
  metadata ← protocol (TransportProbeAckMetadata.to_bytes (TransportProbeAckMetadata.mk probe_id 7));
  protocol (RuntimePacket.new (CommonHeader.new MessageType.TransportProbeAck 0 0) metadata []).

Definition transport (kind : RuntimeTransportKind.t) (reads : list (RT RuntimePacket.t)) : FramedTransport.t :=
  FramedTransport.mk kind reads [] [Ok tt; Ok tt; Ok tt] [Ok tt] [].

Definition answering (kind : RuntimeTransportKind.t) : FramedTransport.t := transport kind (ack <$> [1; 2; 3]).

(** The probes of QUIC and of TCP are answered, and then TCP is faster. *)
Definition network (first : FramedTransport.t) : Network.t := {|
  Network.connects := [Ok first; Ok (answering RuntimeTransportKind.Tcp); Ok (transport RuntimeTransportKind.Tcp [])];
  Network.calls := [];
  Network.elapsed := [9; 9; 9; 5; 5; 5];
  Network.now_us := [] |}.

Definition answered : Network.t := network (answering RuntimeTransportKind.Quic).

Lemma application_parsed : parsed (NnrpClientOptions.endpoint secure_options).
Proof. exists (str "nnrps://peer:4433"). vm_compute. reflexivity. Qed.

Lemma answered_calm : calm_network answered.
Proof.
  repeat (constructor; [split; [done|]; intros tr [= <-]; split_and!; repeat constructor; vm_compute; discriminate|]).
  constructor.
Qed.

(** A peer that accepts the connection of a probe and does not answer blocks the connection:
    no other provider is tried. *)
Example silent_peer_blocks :
  (connect_client false secure_options providers (network (transport RuntimeTransportKind.Quic []))).1 = Pending.
Proof. vm_compute. reflexivity. Qed.

(** The transport that was selected and the number of calls. *)
Definition outcome : option (TransportId.t * nat) :=
  match connect_client false secure_options providers answered with
  | (Ready (Ok (_, _, selection)), n) =>
      Some (TransportProviderDescriptor.transport_id (TransportSelection.selected_provider selection),
            length (Network.calls n))
  | _ => None
  end.

Lemma outcome_tcp : outcome = Some (TransportId.Tcp, 3%nat).
Proof. vm_compute. reflexivity. Qed.

End ConnectExample.

(** Both providers are probed and TCP is connected to: three calls, all protected. *)
Lemma connect_secure_witness :
  let '(_, n) := connect_client (Htarget := target64) (Huri := ConnectExample.simple_uri) false
    ConnectExample.secure_options ConnectExample.providers ConnectExample.answered in
  ConnectExample.outcome = Some (TransportId.Tcp, 3%nat) /\
  NnrpEndpoint.is_secure (H := ConnectExample.simple_uri) ConnectExample.application = true /\
  exists new, Network.calls n = [] ++ new /\
    Forall (permitted (Huri := ConnectExample.simple_uri) ConnectExample.secure_options ConnectExample.providers) new.
Proof.
  pose proof (connect_secure (Htarget := target64) (Huri := ConnectExample.simple_uri) false
    ConnectExample.secure_options ConnectExample.providers ConnectExample.answered
    ConnectExample.application_parsed ConnectExample.answered_calm) as [_ H].
  destruct (connect_client _ _ _ _) as [r n]. split; [exact ConnectExample.outcome_tcp|].
  split; [vm_compute; reflexivity|exact H].
Defined.

Lemma connect_contract_witness :
  exists transport config selection n',
  returns (connect_client (Htarget := target64) (Huri := ConnectExample.simple_uri) false
    ConnectExample.secure_options ConnectExample.providers) ConnectExample.answered
    (transport, config, selection) n' /\
  config = NnrpClientConfig.default /\ length (Network.calls n') = 3%nat.
Proof.
  pose proof (connect_contract (Htarget := target64) (Huri := ConnectExample.simple_uri) false
    ConnectExample.secure_options ConnectExample.providers ConnectExample.answered
    ConnectExample.application_parsed ConnectExample.answered_calm) as H.
  pose proof ConnectExample.outcome_tcp as Ho. unfold ConnectExample.outcome in Ho. unfold returns in *.
  destruct (connect_client _ _ _ _) as [[[[[tr config] selection]|e|]|] n']; [|discriminate Ho..].
  destruct (H tr config selection n' eq_refl) as (Hc & _). injection Ho as _ Hn.
  exists tr, config, selection, n'. split; [reflexivity|]. split; [exact Hc|exact Hn].
Defined.
