(* ===== verification/Listen.v ===== *)
(** Listening through providers ([src/crates/nnrp-runtime/src/server_provider.rs]) and the server
    object with its accept loop ([NnrpServer] of [src/crates/nnrp-runtime/src/server.rs]).

    A provider is the descriptor that its [descriptor] returns, each time the same; the results
    that the calls of [bind] will have, and the calls made, are state.  An IP address is the text
    that its [Display] gives.  The tasks that serve connections run between the turns of the
    accept loop: a [Moment] says which sessions they have delivered before a turn, and what each
    listener answers when it is asked then. *)

From S2P Require Import Prelude Bytes Sorting Errors Enums Wire Header Control Capability.
From S2P Require Import Transport Route RuntimeError Packet Async Stream Client Server ServerOpen Connect.

Local Open Scope Z_scope.

Definition SocketAddr : Type := bytes.

Module FramedListener.

Record t := mk { transport_kind : RuntimeTransportKind.t; local_addr : RT SocketAddr }.

End FramedListener.

Definition route_rejected (transport_id : TransportId.t) (reason : TransportRejectionReason.t)
    (diagnostic : bytes) : RuntimeError := ServerRouteRejected transport_id reason diagnostic.

(** [Result::ok]. *)
Definition ok {E A} (o : Outcome E A) : option A := match o with Ok a => Some a | _ => None end.

Module BoundServerProvider.

Record t := mk {
  transport_id : TransportId.t;
  provider_endpoint : option ProviderEndpoint.t;
  local_addr : option SocketAddr;
  listener : FramedListener.t
}.

Definition new (provider_endpoint : ProviderEndpoint.t) (listener : FramedListener.t) : RT t :=
  let transport_id := RuntimeTransportKind.transport_id (FramedListener.transport_kind listener) in
  _ ← reject_if (negb (ProviderEndpoint.matches_transport provider_endpoint transport_id))
        (route_rejected transport_id TransportRejectionReason.RouteUnresolved
           (str "bound provider endpoint does not match listener transport"));
  Ok {| transport_id := transport_id; provider_endpoint := Some provider_endpoint;
        local_addr := ok (FramedListener.local_addr listener); listener := listener |}.

Definition from_listener `{UriParser} (listener : FramedListener.t) : t :=
  let transport_id := RuntimeTransportKind.transport_id (FramedListener.transport_kind listener) in
  let local_addr := ok (FramedListener.local_addr listener) in
  {| transport_id := transport_id;
     provider_endpoint :=
       addr ← local_addr;
       scheme ← match transport_id with
                | TransportId.Tcp => Some (str "tcp")
                | TransportId.Quic => Some (str "quic")
                | _ => None
                end;
       ok (ProviderEndpoint.from_str (scheme ++ str "://" ++ addr));
     local_addr := local_addr; listener := listener |}.

End BoundServerProvider.

(** ** Binding *)

Module NnrpServerOptions.
Section options.
Context `{UriParser}.

Record t := mk {
  endpoint : NnrpEndpoint.t;
  provider_routes : ServerProviderRoutes;
  transport_policy : TransportPolicy.t;
  session_defaults : NnrpServerConfig.t
}.
End options.
End NnrpServerOptions.

(** A call of [NnrpServerProvider::bind]. *)
Module BindCall.

Record t := mk {
  provider : TransportProviderDescriptor.t;
  endpoint : ProviderEndpoint.t;
  security : option ServerTransportSecurity.t
}.

End BindCall.

Module Binder.

Record t := mk { binds : list (RT BoundServerProvider.t); calls : list BindCall.t }.

Definition bind (provider : TransportProviderDescriptor.t) (endpoint : ProviderEndpoint.t)
    (security : option ServerTransportSecurity.t) : Async t BoundServerProvider.t := fun self =>
  let calls := calls self ++ [BindCall.mk provider endpoint security] in
  match binds self with
  | [] => (Pending, mk [] calls)
  | r :: rest => (Ready r, mk rest calls)
  end.

End Binder.

Definition reject_duplicate_providers (providers : list TransportProviderDescriptor.t) : RT unit :=
  _ ← try_fold (duplicate_step DuplicateServerTransportProvider DuplicateServerProviderId) [] providers;
  Ok tt.

Definition is_forced (policy : TransportPolicy.t) (transport_id : TransportId.t) : bool :=
  bool_decide (TransportPolicy.forced_transport policy = Some transport_id).

Definition not_preferred (policy : TransportPolicy.t) (d : TransportProviderDescriptor.t) : bool :=
  bool_decide (TransportPolicy.preferred_transport policy
               <> Some (TransportProviderDescriptor.transport_id d)).

Definition compare_provider_order (policy : TransportPolicy.t)
    (left right : TransportProviderDescriptor.t) : comparison :=
  let lm := TransportProviderDescriptor.metadata left in
  let rm := TransportProviderDescriptor.metadata right in
  then_with (bool_compare (not_preferred policy left) (not_preferred policy right))
  (then_with (TransportProviderMetadata.preference_rank lm
              ?= TransportProviderMetadata.preference_rank rm)
  (then_with (TransportId.repr (TransportProviderDescriptor.transport_id left)
              ?= TransportId.repr (TransportProviderDescriptor.transport_id right))
     (bytes_cmp (TransportProviderMetadata.id lm) (TransportProviderMetadata.id rm)))).

Module ServerSecurityEligibility.

Inductive t := Eligible | Ineligible (diagnostic : bytes).

End ServerSecurityEligibility.

Section binding.
Context `{Huri : UriParser}.

(** The loop over the transports with a route. *)
Definition reject_uninstalled_routes (options : NnrpServerOptions.t)
    (providers : list TransportProviderDescriptor.t) : RT unit :=
  _ ← collect (fun transport_id =>
        reject_if (TransportPolicy.allows (NnrpServerOptions.transport_policy options) transport_id
                   && forallb (fun p => bool_decide (TransportProviderDescriptor.transport_id p
                                                     <> transport_id)) providers)
          (route_rejected transport_id TransportRejectionReason.LocalUnavailable
             (str "configured server route has no installed provider")))
      (route_keys (NnrpServerOptions.provider_routes options));
  Ok tt.

Definition resolve_server_endpoint (application : NnrpEndpoint.t) (transport_id : TransportId.t)
    (route : ServerProviderRoute.t) : RT ProviderEndpoint.t :=
  _ ← map_err (fun error => route_rejected transport_id TransportRejectionReason.RouteUnresolved
                              (RouteConfigurationError.to_string error))
        (ServerProviderRoute.validate_for route transport_id);
  match ServerProviderRoute.provider_endpoint route with
  | Some endpoint => Ok endpoint
  | None =>
      _ ← reject_if (negb (is_some (NnrpEndpoint.port application)))
            (route_rejected transport_id TransportRejectionReason.RouteUnresolved
               (str "provider endpoint cannot be derived without an application port"));
      match transport_id with
      | TransportId.Tcp =>
          authority ← map_err RouteConfiguration (NnrpEndpoint.authority application);
          map_err RouteConfiguration (ProviderEndpoint.from_str (str "tcp://" ++ authority))
      | TransportId.Quic =>
          authority ← map_err RouteConfiguration (NnrpEndpoint.authority application);
          map_err RouteConfiguration (ProviderEndpoint.from_str (str "quic://" ++ authority))
      | _ =>
          Err (route_rejected transport_id TransportRejectionReason.RouteUnresolved
                 (str "IPC and WebSocket server providers require an explicit locator"))
      end
  end.

(** The reason why a transport does not satisfy the endpoint, if there is one. *)
Definition ineligible (application : NnrpEndpoint.t) (endpoint : ProviderEndpoint.t)
    (security : option ServerTransportSecurity.t) (transport_id : TransportId.t) : option bytes :=
  match transport_id with
  | TransportId.Quic =>
      if negb (is_some security) then Some (str "QUIC requires route-local server credentials") else None
  | TransportId.Tcp =>
      if NnrpEndpoint.is_secure application && negb (is_some security)
      then Some (str "nnrps TCP requires route-local server credentials") else None
  | TransportId.Ipc =>
      if NnrpEndpoint.is_secure application then Some (str "IPC does not satisfy nnrps in Preview4") else None
  | TransportId.WebSocket =>
      if NnrpEndpoint.is_secure application && negb (ProviderEndpoint.is_secure endpoint)
      then Some (str "nnrps WebSocket requires a wss provider endpoint")
      else if ProviderEndpoint.is_secure endpoint && negb (is_some security)
      then Some (str "native WSS requires route-local server credentials") else None
  | _ => None
  end.

Definition validate_server_security (application : NnrpEndpoint.t) (endpoint : ProviderEndpoint.t)
    (security : option ServerTransportSecurity.t) (transport_id : TransportId.t)
    : RT ServerSecurityEligibility.t :=
  let unsatisfied := route_rejected transport_id TransportRejectionReason.SecurityUnsatisfied in
  _ ← if_some security (fun security =>
        map_err (fun error => unsatisfied (RouteConfigurationError.to_string error))
          (ServerTransportSecurity.validate security));
  _ ← reject_if (bool_decide (transport_id = TransportId.Ipc) && is_some security)
        (unsatisfied (str "IPC does not accept transport security credentials"));
  _ ← reject_if (bool_decide (transport_id = TransportId.WebSocket)
                 && negb (ProviderEndpoint.is_secure endpoint) && is_some security)
        (unsatisfied (str "plain WebSocket does not accept transport security credentials"));
  Ok (match ineligible application endpoint security transport_id with
      | Some diagnostic => ServerSecurityEligibility.Ineligible diagnostic
      | None => ServerSecurityEligibility.Eligible
      end).

(** A provider that is skipped, unless the policy forces its transport. *)
Definition skip_unless_forced (options : NnrpServerOptions.t) (transport_id : TransportId.t)
    (reason : TransportRejectionReason.t) (diagnostic : bytes) : RT (option BoundServerProvider.t) :=
  _ ← reject_if (is_forced (NnrpServerOptions.transport_policy options) transport_id)
        (route_rejected transport_id reason diagnostic);
  Ok None.

(** The body of the loop over the providers; [None] is [continue]. *)
Definition bind_provider (options : NnrpServerOptions.t) (descriptor : TransportProviderDescriptor.t)
    : Async Binder.t (option BoundServerProvider.t) :=
  let transport_id := TransportProviderDescriptor.transport_id descriptor in
  if negb (TransportProviderDescriptor.available descriptor) then
    lift (skip_unless_forced options transport_id TransportRejectionReason.LocalUnavailable
            (default (str "forced provider is locally unavailable")
               (TransportProviderDescriptor.diagnostic descriptor)))
  else
    let route := default ServerProviderRoute.default
                   (NnrpServerOptions.provider_routes options !! transport_id) in
    endpoint ← lift (resolve_server_endpoint (NnrpServerOptions.endpoint options) transport_id route);
    security ← lift (validate_server_security (NnrpServerOptions.endpoint options) endpoint
                       (ServerProviderRoute.security route) transport_id);
    match security with
    | ServerSecurityEligibility.Ineligible diagnostic =>
        lift (skip_unless_forced options transport_id TransportRejectionReason.SecurityUnsatisfied diagnostic)
    | ServerSecurityEligibility.Eligible =>
        bound ← Binder.bind descriptor endpoint (ServerProviderRoute.security route);
        _ ← lift (reject_if (negb (bool_decide (BoundServerProvider.transport_id bound = transport_id)))
                    (route_rejected transport_id TransportRejectionReason.RouteUnresolved
                       (str "provider returned a listener for a different transport")));
        mret (Some bound)
    end.

Fixpoint bind_each (options : NnrpServerOptions.t) (providers : list TransportProviderDescriptor.t)
    : Async Binder.t (list BoundServerProvider.t) :=
  match providers with
  | [] => mret []
  | provider :: providers =>
      bound ← bind_provider options provider;
      listeners ← bind_each options providers;
      mret (option_list bound ++ listeners)
  end.

Definition bind_server (options : NnrpServerOptions.t) (providers : list TransportProviderDescriptor.t)
    : Async Binder.t (list BoundServerProvider.t) :=
  let policy := NnrpServerOptions.transport_policy options in
  _ ← lift (reject_duplicate_providers providers);
  _ ← lift (reject_uninstalled_routes options providers);
  let retained := filter (fun p =>
    TransportPolicy.allows policy (TransportProviderDescriptor.transport_id p) = true) providers in
  sorted ← lift (sort_by (fun left right => Ok (compare_provider_order policy left right)) retained);
  listeners ← bind_each options sorted;
  _ ← lift (reject_if (bool_decide (length listeners = 0%nat))
              (route_rejected (default TransportId.Unspecified (TransportPolicy.forced_transport policy))
                 TransportRejectionReason.LocalUnavailable
                 (str "no policy-eligible server provider is locally available")));
  mret listeners.
End binding.

(** ** The server *)

Module Moment.

Record t := mk { delivered : list NnrpServerSession.t; answers : list (Poll FramedTransport.t) }.

End Moment.

Module NnrpServer.

(** [carriers] are the connections whose tasks were spawned, with their transports, and [moments]
    what happens from turn to turn; past the end nothing does. *)
Record t := mk {
  listeners : option (list BoundServerProvider.t);
  next_accept_index : Z;
  listener_set_closed : bool;
  bound_provider_endpoints : gmap TransportId.t ProviderEndpoint.t;
  primary_local_addr : option SocketAddr;
  config : NnrpServerConfig.t;
  sessions : SessionRegistry;
  accepted_sessions : list NnrpServerSession.t;
  carriers : list (TransportId.t * FramedTransport.t);
  moments : list Moment.t
}.

Definition set_listeners (self : t) listeners next_accept_index listener_set_closed : t :=
  mk listeners next_accept_index listener_set_closed (bound_provider_endpoints self)
    (primary_local_addr self) (config self) (sessions self) (accepted_sessions self) (carriers self)
    (moments self).

Definition set_queues (self : t) accepted_sessions carriers moments : t :=
  mk (listeners self) (next_accept_index self) (listener_set_closed self) (bound_provider_endpoints self)
    (primary_local_addr self) (config self) (sessions self) accepted_sessions carriers moments.

(** [collect] into the map: the last endpoint of a transport counts. *)
Definition endpoints_of (listeners : list BoundServerProvider.t) : gmap TransportId.t ProviderEndpoint.t :=
  foldl (fun endpoints listener =>
    match BoundServerProvider.provider_endpoint listener with
    | Some endpoint => <[BoundServerProvider.transport_id listener := endpoint]> endpoints
    | None => endpoints
    end) ∅ listeners.

Definition from_bound_listeners (listeners : list BoundServerProvider.t) (config : NnrpServerConfig.t)
    (moments : list Moment.t) : t := {|
  listeners := Some listeners;
  next_accept_index := 0;
  listener_set_closed := false;
  bound_provider_endpoints := endpoints_of listeners;
  primary_local_addr := head (omap BoundServerProvider.local_addr listeners);
  config := config;
  sessions := ∅;
  accepted_sessions := [];
  carriers := [];
  moments := moments |}.

Definition from_boxed_listener `{UriParser} (listener : FramedListener.t) (config : NnrpServerConfig.t)
    (moments : list Moment.t) : t :=
  from_bound_listeners [BoundServerProvider.from_listener listener] config moments.

Definition from_bound_listener (endpoint : ProviderEndpoint.t) (listener : FramedListener.t)
    (config : NnrpServerConfig.t) (moments : list Moment.t) : RT t :=
  bound ← BoundServerProvider.new endpoint listener;
  Ok (from_bound_listeners [bound] config moments).

Definition listen `{UriParser} (options : NnrpServerOptions.t) (providers : list TransportProviderDescriptor.t)
    (moments : list Moment.t) : Async Binder.t t :=
  listeners ← bind_server options providers;
  mret (from_bound_listeners listeners (NnrpServerOptions.session_defaults options) moments).

Definition get_local_addr (self : t) : RT SocketAddr :=
  ok_or (primary_local_addr self)
    (UnsupportedTransport "server listener set does not expose an IP socket address").

Definition session_count (self : t) : Z := Z.of_nat (size (sessions self)).

(** The tasks of the connections run: their sessions are in the channel. *)
Definition advance : Async t unit := fun self =>
  match moments self with
  | [] => (Ready (Ok tt), self)
  | moment :: _ =>
      (Ready (Ok tt), set_queues self (accepted_sessions self ++ Moment.delivered moment) (carriers self)
                        (moments self))
  end.

(** [accepted.try_recv()]: the server holds a sender itself, so that the channel is not closed. *)
Definition try_recv : Async t (option NnrpServerSession.t) := fun self =>
  match accepted_sessions self with
  | session :: rest => (Ready (Ok (Some session)), set_queues self rest (carriers self) (tail (moments self)))
  | [] => (Ready (Ok None), self)
  end.

(** What each listener answers now. *)
Definition answers_of (active : list BoundServerProvider.t) (self : t) : list (Poll FramedTransport.t) :=
  (fun i => default Pending (head (moments self) ≫= fun moment => Moment.answers moment !! i))
    <$> seq 0 (length active).

Definition accepted_carrier : Async t (TransportId.t * FramedTransport.t) := fun self =>
  match listeners self with
  | None =>
      (Ready (Err ServerListenerSetClosed), set_listeners self None (next_accept_index self) true)
  | Some active =>
      match accept_stable (answers_of active self) (next_accept_index self) with
      | Pending => (Pending, self)
      | Ready Panic => (Ready Panic, self)
      | Ready (Err e) => (Ready (Err e), set_listeners self None (next_accept_index self) true)
      | Ready (Ok (accepted_index, transport)) =>
          match active !! Z.to_nat accepted_index with
          | None => (Ready Panic, self)
          | Some listener =>
              (Ready (Ok (BoundServerProvider.transport_id listener, transport)),
               set_listeners self (Some active)
                 (ServerOpen.next_accept_index accepted_index (len active)) (listener_set_closed self))
          end
      end
  end.

(** One turn of the loop: a session that is queued, or else a carrier whose task is spawned.  The
    second poll of the queue, in [select], finds what the first has found. *)
Definition accept_turn : Async t (option NnrpServerSession.t) :=
  _ ← advance;
  queued ← try_recv;
  match queued with
  | Some session => mret (Some session)
  | None =>
      carrier ← (fun self =>
        let (r, self) := accepted_carrier self in
        (r, set_queues self (accepted_sessions self) (carriers self) (tail (moments self))));
      _ ← modify (fun self => set_queues self (accepted_sessions self) (carriers self ++ [carrier])
                                (moments self));
      mret None
  end.

(** A turn that goes on has used a moment, so the moments to come bound the loop. *)
Fixpoint accept_loop (ahead : list Moment.t) : Async t NnrpServerSession.t :=
  turn ← accept_turn;
  match turn, ahead with
  | Some session, _ => mret session
  | None, [] => lift Panic
  | None, _ :: ahead => accept_loop ahead
  end.

Definition accept_inner : Async t NnrpServerSession.t :=
  ahead ← gets moments;
  accept_loop ahead.

(** [expired] says whether the timer fires before the call ends. *)
Definition accept_with_options (timeout_ms : Z) (expired : bool) : Async t NnrpServerSession.t :=
  if timeout_ms =? 0 then accept_inner
  else fun self =>
    match accept_inner self with
    | (Pending, self) =>
        if expired then (Ready (Err ServerAcceptTimeout), self) else (Pending, self)
    | r => r
    end.

(** [NnrpServerAcceptOptions::default] has no timeout. *)
Definition accept : Async t NnrpServerSession.t := accept_with_options 0 false.

End NnrpServer.
