(* ===== verification/ListenTheory.v ===== *)
(** What listening through providers and the accept loop promise ([Listen.v]). *)

From S2P Require Import Prelude Bytes Sorting Errors Enums Wire Header Control Capability.
From S2P Require Import Transport Route RuntimeError Packet Async Stream Client Server ServerOpen.
From S2P Require Import ServerOpenTheory ServerRuns Connect ConnectTheory Listen.

Local Open Scope Z_scope.

(** ** The order of the listeners *)

#[export] Instance compare_provider_order_total policy : TotalComparison (compare_provider_order policy).
Proof.
  unfold compare_provider_order. cbv zeta.
  repeat apply then_with_comparison;
    first [ exact (keyed_bytes_comparison (fun p => TransportProviderMetadata.id (TransportProviderDescriptor.metadata p)))
          | exact (Z_comparison (fun p => TransportProviderMetadata.preference_rank (TransportProviderDescriptor.metadata p)))
          | exact (Z_comparison (fun p => TransportId.repr (TransportProviderDescriptor.transport_id p)))
          | idtac ].
  assert (forall x y, bool_compare (not_preferred policy x) (not_preferred policy y) =
    ((if not_preferred policy x then 1 else 0) ?= (if not_preferred policy y then 1 else 0))) as He
    by (intros x y; by destruct (not_preferred policy x), (not_preferred policy y)).
  split.
  - intros x y. rewrite !He. apply Z.compare_antisym.
  - intros x y z. rewrite !He. rewrite !Z.compare_ngt_iff. lia.
Qed.

(** [left] is bound before [right], or they are equal in rank. *)
Definition before (policy : TransportPolicy.t) (left right : TransportProviderDescriptor.t) : Prop :=
  compare_provider_order policy left right <> Gt.

Lemma providers_sorted policy ps ps' :
  sort_by (E := RuntimeError) (fun left right => Ok (compare_provider_order policy left right)) ps = Ok ps' ->
  ps' ≡ₚ ps /\ StronglySorted (before policy) ps'.
Proof.
  intros Hs. split; [by eapply sort_by_perm|].
  apply (sort_by_sorted (fun left right => Ok (compare_provider_order policy left right))
    (compare_provider_order policy) (fun _ => True)) in Hs; try done.
  - intros x y _ _. apply comparison_antisym.
  - intros x y z _ _ _. apply (comparison_trans (f := compare_provider_order policy)).
  - by apply Forall_true.
Qed.

(** ** What is bound *)

(** The listener is protected by credentials of the route. *)
Definition protected (c : BindCall.t) : Prop :=
  match TransportProviderDescriptor.transport_id (BindCall.provider c) with
  | TransportId.Quic | TransportId.Tcp => is_Some (BindCall.security c)
  | TransportId.WebSocket =>
      ProviderEndpoint.is_secure (BindCall.endpoint c) = true /\ is_Some (BindCall.security c)
  | _ => False
  end.

Section theory.
Context `{Huri : UriParser}.
Context (options : NnrpServerOptions.t) (providers : list TransportProviderDescriptor.t).

(** A call of [bind] that listening may make. *)
Definition may_bind (c : BindCall.t) : Prop :=
  let transport_id := TransportProviderDescriptor.transport_id (BindCall.provider c) in
  BindCall.provider c ∈ providers /\
  TransportProviderDescriptor.available (BindCall.provider c) = true /\
  TransportPolicy.allows (NnrpServerOptions.transport_policy options) transport_id = true /\
  ProviderEndpoint.matches_transport (BindCall.endpoint c) transport_id = true /\
  (forall s, BindCall.security c = Some s -> ServerTransportSecurity.validate s = Ok tt) /\
  (transport_id = TransportId.Quic -> is_Some (BindCall.security c)) /\
  (NnrpEndpoint.is_secure (NnrpServerOptions.endpoint options) = true -> protected c).

Lemma server_endpoint_matches application tid route endpoint :
  resolve_server_endpoint application tid route = Ok endpoint ->
  ProviderEndpoint.matches_transport endpoint tid = true.
Proof.
  unfold resolve_server_endpoint, ServerProviderRoute.validate_for. intros [Hv He]%then_unit_Ok.
  apply map_err_Ok, then_unit_Ok in Hv as [Hm _].
  destruct (ServerProviderRoute.provider_endpoint route) as [e|]; cbn in Hm.
  - injection He as <-. by apply reject_if_Ok, negb_false_iff in Hm.
  - apply then_unit_Ok in He as [_ He]. unfold ProviderEndpoint.matches_transport.
    destruct tid; try done; apply bind_Ok in He as (authority & _ & He%map_err_Ok).
    + apply (provider_endpoint_scheme _ _ 4) in He; [|done]. rewrite He. by apply bool_decide_eq_true.
    + apply (provider_endpoint_scheme _ _ 3) in He; [|done]. rewrite He. by apply bool_decide_eq_true.
Qed.

Lemma server_endpoint_no_panic application tid route :
  parsed application -> resolve_server_endpoint application tid route <> Panic.
Proof.
  intros [authority Ha]%parsed_authority. unfold resolve_server_endpoint, ServerProviderRoute.validate_for.
  apply bind_no_panic.
  { unfold ServerTransportSecurity.validate, reject_if, if_some. by repeat (case_match; cbn). }
  intros _ _. destruct (ServerProviderRoute.provider_endpoint route); [done|].
  apply bind_no_panic; [apply reject_if_no_panic|intros _ _].
  assert (forall value, map_err RouteConfiguration (ProviderEndpoint.from_str value) <> Panic) as Hn.
  { intros value. pose proof (provider_endpoint_no_panic value). by destruct (ProviderEndpoint.from_str value). }
  destruct tid; try done; unfold NnrpEndpoint.authority; rewrite Ha; apply Hn.
Qed.

Lemma eligible_protected application p endpoint security :
  validate_server_security application endpoint security (TransportProviderDescriptor.transport_id p)
    = Ok ServerSecurityEligibility.Eligible ->
  ProviderEndpoint.matches_transport endpoint (TransportProviderDescriptor.transport_id p) = true ->
  (forall s, security = Some s -> ServerTransportSecurity.validate s = Ok tt) /\
  (TransportProviderDescriptor.transport_id p = TransportId.Quic -> is_Some security) /\
  (NnrpEndpoint.is_secure application = true -> protected (BindCall.mk p endpoint security)).
Proof.
  unfold validate_server_security. intros [Hs Hv]%then_unit_Ok Hm.
  apply then_unit_Ok in Hv as [_ Hv]. apply then_unit_Ok in Hv as [_ Hv].
  split_and!.
  - intros s ->. cbn in Hs. by apply map_err_Ok in Hs.
  - intros Ht. rewrite Ht in Hv. cbn in Hv. destruct security; [by eexists|done].
  - intros Ha. unfold protected. cbn. unfold ineligible in Hv. rewrite Ha in Hv.
    destruct (TransportProviderDescriptor.transport_id p), security as [s|]; cbn in Hv; try done;
      try (by eexists); by destruct (ProviderEndpoint.is_secure endpoint).
Qed.

(** The calls made so far; no result to come is a panic. *)
Definition bound (cs : list BindCall.t) (self : Binder.t) : Prop :=
  Binder.calls self = cs /\ Forall (fun r => r <> Panic) (Binder.binds self).

(** The calls after [cs] are permitted. *)
Definition lawfully_bound (cs : list BindCall.t) (self : Binder.t) : Prop :=
  exists new, bound (cs ++ new) self /\ Forall may_bind new.

Lemma lawfully_start cs self : bound cs self -> lawfully_bound cs self.
Proof. intros H. exists []. by rewrite app_nil_r. Qed.

Lemma bind_bound cs p endpoint security :
  let c := BindCall.mk p endpoint security in
  triple (bound cs) (Binder.bind p endpoint security) (fun _ => bound (cs ++ [c])) (bound (cs ++ [c])).
Proof.
  intros c [binds calls] [Hc Hb]. unfold Binder.bind. cbn in *. subst calls.
  destruct binds as [|r rest]; [by split|]. apply Forall_cons in Hb as [Hr Hrest]. by destruct r; try split.
Qed.

(** What becomes of one provider: a listener of its transport after one call, or nothing when the
    policy does not force it. *)
Definition provider_outcome (cs : list BindCall.t) (p : TransportProviderDescriptor.t)
    (r : option BoundServerProvider.t) (self : Binder.t) : Prop :=
  match r with
  | Some listener =>
      exists c, bound (cs ++ [c]) self /\ may_bind c /\ BindCall.provider c = p /\
        BoundServerProvider.transport_id listener = TransportProviderDescriptor.transport_id p
  | None =>
      bound cs self /\
      is_forced (NnrpServerOptions.transport_policy options) (TransportProviderDescriptor.transport_id p) = false
  end.

Lemma skip_bound cs p reason diagnostic :
  triple (bound cs) (lift (skip_unless_forced options (TransportProviderDescriptor.transport_id p) reason diagnostic))
    (provider_outcome cs p) (lawfully_bound cs).
Proof.
  unfold skip_unless_forced. apply triple_lift; [|apply lawfully_start|].
  - by apply bind_no_panic; [apply reject_if_no_panic|].
  - intros r self [Hf%reject_if_Ok [= <-]]%then_unit_Ok Hb. by split.
Qed.

Lemma bind_provider_bound cs p :
  parsed (NnrpServerOptions.endpoint options) -> p ∈ providers ->
  TransportPolicy.allows (NnrpServerOptions.transport_policy options) (TransportProviderDescriptor.transport_id p) = true ->
  triple (bound cs) (bind_provider options p) (provider_outcome cs p) (lawfully_bound cs).
Proof.
  intros Ha Hp Hal. unfold bind_provider.
  destruct (TransportProviderDescriptor.available p) eqn:Hav; cbn [negb]; [|apply skip_bound].
  set (route := default ServerProviderRoute.default _).
  apply triple_bind_lift; [by apply server_endpoint_no_panic|apply lawfully_start|intros endpoint He].
  apply server_endpoint_matches in He.
  apply triple_bind_lift; [|apply lawfully_start|intros [|diagnostic] Hs; [|apply skip_bound]].
  { unfold validate_server_security, ServerTransportSecurity.validate, if_some, reject_if.
    by repeat (case_match; cbn). }
  destruct (eligible_protected _ p _ _ Hs He) as (Hv & Hq & Hn).
  set (c := BindCall.mk p endpoint (ServerProviderRoute.security route)).
  assert (may_bind c) as Hc by done.
  assert (forall self, bound (cs ++ [c]) self -> lawfully_bound cs self) as Hl
    by (intros self Hb; exists [c]; split; [done|by repeat constructor]).
  eapply triple_bind; [eapply triple_conseq; [apply bind_bound|done|by intros a self H; exact H|exact Hl]|].
  intros listener. apply triple_bind_lift; [apply reject_if_no_panic|exact Hl|].
  intros [] Ht%reject_if_Ok%negb_false_iff%bool_decide_eq_true.
  apply triple_ret. intros self Hb. by exists c.
Qed.

(** Several providers: a listener for some of them, in order. *)
Definition providers_outcome (cs : list BindCall.t) (ps : list TransportProviderDescriptor.t)
    (listeners : list BoundServerProvider.t) (self : Binder.t) : Prop :=
  exists new, bound (cs ++ new) self /\ Forall may_bind new /\
    sublist (BindCall.provider <$> new) ps /\
    (BoundServerProvider.transport_id <$> listeners) =
      (fun c => TransportProviderDescriptor.transport_id (BindCall.provider c)) <$> new.

Lemma bind_each_bound cs ps :
  parsed (NnrpServerOptions.endpoint options) ->
  Forall (fun p => p ∈ providers /\ TransportPolicy.allows (NnrpServerOptions.transport_policy options)
    (TransportProviderDescriptor.transport_id p) = true) ps ->
  triple (bound cs) (bind_each options ps) (providers_outcome cs ps) (lawfully_bound cs).
Proof.
  intros Ha Hps. revert cs; induction Hps as [|p ps [Hp Hal] _ IH]; intros cs; cbn [bind_each].
  { apply triple_ret. intros self H. exists []. rewrite app_nil_r. by split_and!. }
  eapply triple_bind; [by apply bind_provider_bound|intros [listener|]; cbn [provider_outcome]].
  - intros self (c & Hb & Hc & Hcp & Ht). revert self Hb.
    apply (triple_bind _ _ _ (providers_outcome (cs ++ [c]) ps)).
    + eapply triple_conseq; [apply IH|done|done|]. intros self (new & Hn & Hf). exists (c :: new).
      split; [by rewrite <- app_assoc in Hn|by constructor].
    + intros listeners. apply triple_ret. intros self (new & Hb & Hf & Hsub & Heq). exists (c :: new).
      rewrite <- app_assoc in Hb. split_and!; [done|by constructor| |].
      * cbn. rewrite Hcp. by constructor.
      * cbn. by rewrite Ht, Hcp, Heq.
  - apply triple_pure. intros _. eapply triple_bind; [apply IH|]. intros listeners.
    apply triple_ret. intros self (new & Hb & Hf & Hsub & Heq). exists new. split_and!; try done.
    by apply sublist_cons.
Qed.

(** What a server that listens has. *)
Definition listens (cs : list BindCall.t) (listeners : list BoundServerProvider.t) (self : Binder.t) : Prop :=
  let policy := NnrpServerOptions.transport_policy options in
  exists new, bound (cs ++ new) self /\ Forall may_bind new /\ listeners <> [] /\
    (BoundServerProvider.transport_id <$> listeners) =
      (fun c => TransportProviderDescriptor.transport_id (BindCall.provider c)) <$> new /\
    NoDup (BoundServerProvider.transport_id <$> listeners) /\
    StronglySorted (before policy) (BindCall.provider <$> new).

Lemma uninstalled_no_panic : reject_uninstalled_routes options providers <> Panic.
Proof.
  unfold reject_uninstalled_routes. apply bind_no_panic; [|done].
  apply collect_no_panic. intros tid _. apply reject_if_no_panic.
Qed.

Lemma bind_server_listens cs :
  parsed (NnrpServerOptions.endpoint options) ->
  triple (bound cs) (bind_server options providers) (listens cs) (lawfully_bound cs).
Proof.
  intros Ha. unfold bind_server. set (policy := NnrpServerOptions.transport_policy options).
  apply triple_bind_lift; [|apply lawfully_start|].
  { unfold reject_duplicate_providers. by apply bind_no_panic; [apply duplicates_no_panic|]. }
  intros [] Hd. unfold reject_duplicate_providers in Hd. apply bind_Ok in Hd as (r & [[Hd _] _]%duplicates_Ok & _).
  apply triple_bind_lift; [apply uninstalled_no_panic|apply lawfully_start|intros [] _].
  set (kept := filter _ providers).
  destruct (sort_by_total (E := RuntimeError) (fun left right => Ok (compare_provider_order policy left right))
    (compare_provider_order policy) (fun _ => True) (fun _ _ _ _ => eq_refl) kept (Forall_true _ _ (fun _ => I)))
    as [sorted Hsort].
  apply triple_bind_lift; [by rewrite Hsort|apply lawfully_start|intros ps Hps].
  apply providers_sorted in Hps as [Hperm Hsorted].
  eapply triple_bind; [apply bind_each_bound; [done|]|].
  { apply Forall_forall. intros p Hp. rewrite Hperm in Hp. apply list_elem_of_filter in Hp as [? ?]. done. }
  intros listeners. apply triple_bind_lift; [apply reject_if_no_panic| |].
  { intros self (new & Hb & Hf & _). by exists new. }
  intros [] Hne%reject_if_Ok%bool_decide_eq_false. apply triple_ret.
  intros self (new & Hb & Hf & Hsub & Heq). exists new. split_and!; try done.
  - by intros ->.
  - rewrite Heq. change (fun c => _) with (TransportProviderDescriptor.transport_id ∘ BindCall.provider).
    rewrite list_fmap_compose.
    eapply sublist_NoDup; [|by apply fmap_sublist]. rewrite Hperm.
    eapply sublist_NoDup; [exact Hd|]. apply fmap_sublist, sublist_filter.
  - by eapply sublist_sorted.
Qed.
End theory.

(** C21: binding the listeners of a server never panics, and calls only providers that are
    installed, available and allowed by the policy, each at an endpoint of its own transport with
    complete credentials if with any; QUIC always has credentials, and for an [nnrps] endpoint
    every listener is protected by credentials, a WebSocket being [wss] and IPC not used.  When it
    succeeds there is at least one listener, one for each call and of the transport of its
    provider, no two of one transport, in the order of preference, and a policy that forces a
    transport gives exactly the listener of that transport. *)
Theorem listen_contract `{Huri : UriParser} (options : NnrpServerOptions.t)
    (providers : list TransportProviderDescriptor.t) (b : Binder.t) :
  parsed (NnrpServerOptions.endpoint options) -> Forall (fun r => r <> Panic) (Binder.binds b) ->
  let '(result, b') := bind_server options providers b in
  let policy := NnrpServerOptions.transport_policy options in
  result <> Ready Panic /\
  exists new, Binder.calls b' = Binder.calls b ++ new /\ Forall (may_bind options providers) new /\
    forall listeners, result = Ready (Ok listeners) ->
      let transports := BoundServerProvider.transport_id <$> listeners in
      listeners <> [] /\
      transports = (fun c => TransportProviderDescriptor.transport_id (BindCall.provider c)) <$> new /\
      NoDup transports /\ StronglySorted (before policy) (BindCall.provider <$> new) /\
      forall forced, TransportPolicy.forced_transport policy = Some forced -> transports = [forced].
Proof.
  intros Ha Hb. pose proof (bind_server_listens options providers (Binder.calls b) Ha b (conj eq_refl Hb)) as H.
  destruct (bind_server options providers b) as [[[listeners|e|]|] b'] eqn:E.
  2-4: by try (destruct H as (new & [Hc _] & Hf); split; [done|]; exists new).
  destruct H as (new & [Hc _] & Hf & Hne & Heq & Hnd & Hs). split; [done|]. exists new. split_and!; [done..|].
  intros ls [= <-]. split_and!; [done..|]. intros forced Hforced.
  assert (Forall (fun t => t = forced) (BoundServerProvider.transport_id <$> listeners)) as Hall.
  { rewrite Heq. apply Forall_fmap. eapply Forall_impl; [exact Hf|]. intros c (_ & _ & Hal & _). cbn.
    revert Hal Hforced. destruct (NnrpServerOptions.transport_policy options), (TransportProviderDescriptor.transport_id _);
      cbn; congruence. }
  destruct listeners as [|l1 [|l2 ls]]; [done| |].
  - apply Forall_cons in Hall as [Hl _]. cbn in *. by rewrite Hl.
  - apply Forall_cons in Hall as [Hl1 Hall]. apply Forall_cons in Hall as [Hl2 _].
    rewrite !fmap_cons, Hl1, Hl2 in Hnd. apply NoDup_cons in Hnd as [Hin _]. destruct Hin. by left.
Qed.

(** ** The accept loop *)

(** An answer comes from a listener that is there, and is what it said. *)
Lemma accept_stable_sound {A} (answers : list (Poll A)) start :
  match accept_stable answers start with
  | Ready (Ok (i, a)) => (Z.to_nat i < length answers)%nat /\ answers !! Z.to_nat i = Some (Ready (Ok a))
  | Ready Panic => Ready Panic ∈ answers
  | _ => True
  end.
Proof.
  unfold accept_stable. destruct (len answers =? 0) eqn:Hn; [done|]. apply Z.eqb_neq in Hn.
  generalize (Z.of_nat <$> seq 0 (length answers)) as offsets. generalize (start mod len answers) as first.
  intros first offsets. induction offsets as [|o offsets IH]; cbn [poll_accepts]; [done|].
  set (i := (first + o) mod len answers).
  assert (0 <= i < len answers) as Hi by (apply Z.mod_pos_bound; unfold len in *; lia).
  destruct (lookup_lt_is_Some_2 answers (Z.to_nat i)) as [x Hx]; [unfold len in *; lia|].
  rewrite Hx. destruct x as [[a|e|]|]; [|done| |exact IH].
  - split; [by eapply lookup_lt_Some|done].
  - by eapply list_elem_of_lookup_2.
Qed.

Module Accepting.
Import NnrpServer.

(** No listener panics. *)
Definition calm (self : t) : Prop :=
  Forall (fun m => Ready Panic ∉ Moment.answers m) (moments self).

(** The sessions that the tasks have delivered by the next turn. *)
Definition delivered_now (self : t) : list NnrpServerSession.t :=
  match moments self with [] => [] | m :: _ => Moment.delivered m end.

(** What is kept from call to call: a server is closed exactly when its listeners are gone. *)
Definition inv (self : t) : Prop := listener_set_closed self = true <-> listeners self = None.

(** One turn, from a queue [q] after the deliveries. *)
Definition turned (self : t) (q : list NnrpServerSession.t) (r : Poll (option NnrpServerSession.t)) (self' : t)
    : Prop :=
  inv self' /\ calm self' /\ moments self' = tail (moments self) /\
  match r with
  | Ready (Ok (Some s)) => q = s :: accepted_sessions self' /\ carriers self' = carriers self /\
      listeners self' = listeners self
  | Ready (Ok None) => q = [] /\ accepted_sessions self' = [] /\ listeners self' = listeners self /\
      moments self <> [] /\
      exists active listener transport, listeners self = Some active /\ listener ∈ active /\
        carriers self' = carriers self ++ [(BoundServerProvider.transport_id listener, transport)]
  | Ready (Err e) => q = [] /\ accepted_sessions self' = [] /\ listeners self' = None /\
      carriers self' = carriers self
  | Ready Panic => False
  | Pending => q = [] /\ accepted_sessions self' = [] /\ carriers self' = carriers self /\
      listeners self' = listeners self /\ is_Some (listeners self)
  end.

Lemma calm_tail self : calm self -> Forall (fun m => Ready Panic ∉ Moment.answers m) (tail (moments self)).
Proof. unfold calm. destruct (moments self); [done|]. by intros [_ ?]%Forall_cons. Qed.

Lemma answers_no_panic active self : calm self -> Ready Panic ∉ answers_of active self.
Proof.
  unfold calm, answers_of. intros Hc (i & Hi & _)%list_elem_of_fmap. destruct (moments self) as [|m ms]; cbn in Hi; [done|].
  apply Forall_cons in Hc as [Hm _]. destruct (Moment.answers m !! i) eqn:Hl; cbn in Hi; [subst|done].
  apply Hm. by eapply list_elem_of_lookup_2.
Qed.

(** Without a moment every listener waits. *)
Lemma answers_at_end active self : moments self = [] -> Forall (fun a => a = Pending) (answers_of active self).
Proof. intros Hm. unfold answers_of. rewrite Hm. apply Forall_fmap, Forall_true. by intros i. Qed.

Lemma accept_turn_spec self :
  inv self -> calm self ->
  turned self (accepted_sessions self ++ delivered_now self) (accept_turn self).1 (accept_turn self).2.
Proof.
  intros Hi Hc. pose proof (calm_tail self Hc) as Ht.
  assert (advance self = (Ready (Ok tt), set_queues self (accepted_sessions self ++ delivered_now self)
    (carriers self) (moments self))) as Hadv.
  { unfold advance, delivered_now. destruct self as [? ? ? ? ? ? ? q ? ms]. cbn.
    destruct ms; [by rewrite app_nil_r|done]. }
  unfold accept_turn, mbind, async_bind. rewrite Hadv. clear Hadv.
  set (q := accepted_sessions self ++ delivered_now self). unfold try_recv. cbn [accepted_sessions set_queues].
  destruct q as [|s rest] eqn:Hq; [|by split_and!].
  set (self1 := set_queues self [] (carriers self) (moments self)). unfold accepted_carrier.
  change (listeners self1) with (listeners self). destruct (listeners self) as [active|] eqn:Hl.
  2: { split_and!; try done. }
  pose proof (accept_stable_sound (answers_of active self1) (next_accept_index self1)) as Hs.
  destruct (accept_stable _ _) as [[[i tr]|e|]|] eqn:Hacc.
  - destruct Hs as [Hlt Hans]. assert (length (answers_of active self1) = length active) as Hlen
      by (unfold answers_of; by rewrite length_fmap, length_seq).
    destruct (lookup_lt_is_Some_2 active (Z.to_nat i)) as [listener Hlis]; [lia|]. rewrite Hlis.
    cbn -[tail]. split_and!; try done.
    + unfold inv in *. cbn. rewrite Hi, Hl. done.
    + intros Hm. pose proof (answers_at_end active self1 Hm) as Hall. rewrite Forall_forall in Hall.
      apply list_elem_of_lookup_2, Hall in Hans. done.
    + exists active, listener, tr. split_and!; [done|by eapply list_elem_of_lookup_2|done].
  - cbn -[tail]. by split_and!.
  - by destruct (answers_no_panic active self1 Hc).
  - cbn -[tail]. by split_and!.
Qed.

(** The sessions that were delivered in the first [k] moments. *)
Definition deliveries (k : nat) (ms : list Moment.t) : list NnrpServerSession.t :=
  concat (Moment.delivered <$> take k ms).

(** A call of [accept]: how many moments it took, the carriers it has spawned, and what became
    of the sessions that were queued or delivered. *)
Definition accepted (self : t) (r : Poll NnrpServerSession.t) (self' : t) : Prop :=
  inv self' /\ calm self' /\ exists k taken,
    moments self' = drop k (moments self) /\ carriers self' = carriers self ++ taken /\
    Forall (fun c => exists active listener, listeners self = Some active /\ listener ∈ active /\
                       c.1 = BoundServerProvider.transport_id listener) taken /\
    match r with
    | Ready (Ok s) => accepted_sessions self ++ deliveries k (moments self) = s :: accepted_sessions self' /\
        listeners self' = listeners self
    | Ready (Err e) => accepted_sessions self ++ deliveries k (moments self) = [] /\
        accepted_sessions self' = [] /\ listeners self' = None
    | Ready Panic => False
    | Pending => accepted_sessions self ++ deliveries k (moments self) = [] /\
        accepted_sessions self' = [] /\ listeners self' = listeners self /\ is_Some (listeners self)
    end.

Lemma deliveries_one self : deliveries 1 (moments self) = delivered_now self.
Proof. unfold deliveries, delivered_now. destruct (moments self); [done|]. cbn. by rewrite app_nil_r. Qed.

Lemma deliveries_next k ms : deliveries (S k) ms = deliveries 1 ms ++ deliveries k (tail ms).
Proof. unfold deliveries. destruct ms; cbn; [by destruct k|by rewrite app_nil_r]. Qed.

Lemma drop_one {A} (l : list A) : drop 1 l = tail l.
Proof. by destruct l. Qed.

Lemma drop_tail {A} k (l : list A) : drop k (tail l) = drop (S k) l.
Proof. destruct l; [by destruct k|done]. Qed.

(** A call that is the last turn. *)
Lemma last_turn self (r : Poll NnrpServerSession.t) self' :
  turned self (accepted_sessions self ++ delivered_now self)
    (match r with Ready (Ok s) => Ready (Ok (Some s)) | Ready (Err e) => Ready (Err e)
     | Ready Panic => Ready Panic | Pending => Pending end) self' -> accepted self r self'.
Proof.
  intros (Hi & Hc & Hm & H). split; [done|]. split; [done|]. exists 1%nat, []. rewrite deliveries_one, drop_one.
  destruct r as [[s|e|]|]; [| |done|]; rewrite app_nil_r;
    repeat match type of H with _ /\ _ => destruct H as [? H] end; by split_and!; try constructor.
Qed.

Lemma accept_loop_spec ahead self :
  moments self = ahead -> inv self -> calm self ->
  accepted self (accept_loop ahead self).1 (accept_loop ahead self).2.
Proof.
  revert self; induction ahead as [|m ahead IH]; intros self Hm Hi Hc;
    pose proof (accept_turn_spec self Hi Hc) as Ht; cbn [accept_loop]; unfold mbind, async_bind;
    destruct (accept_turn self) as [[[[s|]|e|]|] self1]; cbn [fst snd] in Ht; cbn;
    try (by apply last_turn); try (by destruct Ht as (_ & _ & _ & ?)).
  - by destruct Ht as (_ & _ & _ & _ & _ & _ & Hne & _).
  - destruct Ht as (Hi1 & Hc1 & Hm1 & Hq & Ha1 & Hl1 & _ & active & listener & tr & Hl & Hin & Hcar).
    assert (moments self1 = ahead) as Hm1' by (by rewrite Hm1, Hm).
    destruct (IH self1 Hm1' Hi1 Hc1) as (Hi2 & Hc2 & k & taken & Hm2 & Hcar2 & Htaken & H).
    split; [done|]. split; [done|]. exists (S k), ((BoundServerProvider.transport_id listener, tr) :: taken).
    rewrite deliveries_next, deliveries_one, app_assoc, Hq. rewrite Hm1, drop_tail in Hm2.
    rewrite Hcar in Hcar2. rewrite <- app_assoc in Hcar2. rewrite Ha1, Hm1, Hl1 in H. rewrite Hl1 in Htaken.
    split_and!; [done|done| |exact H]. constructor; [|done]. by exists active, listener.
Qed.

Lemma accept_inner_spec self :
  inv self -> calm self -> accepted self (accept_inner self).1 (accept_inner self).2.
Proof. intros Hi Hc. unfold accept_inner, mbind, async_bind, gets. by apply accept_loop_spec. Qed.

(** The sessions that calls of [accept] have returned, in order. *)
Definition session_of (r : Poll NnrpServerSession.t) : list NnrpServerSession.t :=
  match r with Ready (Ok s) => [s] | _ => [] end.

Inductive served : t -> list NnrpServerSession.t -> t -> Prop :=
| served_start self : served self [] self
| served_call self out self' timeout_ms expired :
    served self out self' ->
    served self (out ++ session_of (accept_with_options timeout_ms expired self').1)
      (accept_with_options timeout_ms expired self').2.

Lemma with_options self timeout_ms expired :
  (accept_with_options timeout_ms expired self).2 = (accept_inner self).2 /\
  session_of (accept_with_options timeout_ms expired self).1 = session_of (accept_inner self).1 /\
  ((accept_inner self).1 <> Ready Panic -> (accept_with_options timeout_ms expired self).1 <> Ready Panic).
Proof.
  unfold accept_with_options. destruct (timeout_ms =? 0); [done|].
  destruct (accept_inner self) as [[[s|e|]|] self']; [done..|]. by destruct expired.
Qed.

(** What holds after any calls. *)
Definition serving (listeners0 : list BoundServerProvider.t) (ms : list Moment.t)
    (out : list NnrpServerSession.t) (self : t) : Prop :=
  inv self /\ calm self /\ (listeners self = Some listeners0 \/ listeners self = None) /\
  (exists k, moments self = drop k ms /\ out ++ accepted_sessions self = deliveries k ms) /\
  Forall (fun c => exists listener, listener ∈ listeners0 /\ c.1 = BoundServerProvider.transport_id listener)
    (carriers self).

Lemma deliveries_add k j ms : deliveries (k + j) ms = deliveries k ms ++ deliveries j (drop k ms).
Proof. unfold deliveries. by rewrite <- take_take_drop, fmap_app, concat_app. Qed.

Lemma served_serving listeners0 config ms out self :
  Forall (fun m => Ready Panic ∉ Moment.answers m) ms ->
  served (from_bound_listeners listeners0 config ms) out self -> serving listeners0 ms out self.
Proof.
  intros Hms. remember (from_bound_listeners listeners0 config ms) as start eqn:Hstart.
  induction 1 as [self|self out self' timeout_ms expired Hs IH]; subst.
  { split_and!; try done; [by left|by exists 0%nat]. }
  destruct (IH eq_refl) as (Hi & Hc & Hl & (k & Hm & Hq) & Hcar).
  destruct (with_options self' timeout_ms expired) as (-> & -> & _).
  destruct (accept_inner_spec self' Hi Hc) as (Hi2 & Hc2 & j & taken & Hm2 & Hcar2 & Htaken & H).
  assert (forall q, out ++ q = deliveries k ms -> deliveries (k + j) ms = out ++ q ++ deliveries j (moments self')) as Hdel
    by (intros q Hq'; by rewrite deliveries_add, <- Hq', Hm, <- app_assoc).
  split_and!; [done|done| | |].
  - destruct (accept_inner self').1 as [[s|e|]|];
      [by destruct H as [_ ->]|by right; apply H|done|by destruct H as (_ & _ & -> & _)].
  - exists (k + j)%nat. rewrite Hm2, Hm, drop_drop. split; [done|]. rewrite (Hdel _ Hq).
    destruct (accept_inner self').1 as [[s|e|]|]; cbn; [|by destruct H as (-> & -> & _); rewrite !app_nil_r|done|by destruct H as (-> & -> & _); rewrite !app_nil_r].
    destruct H as [-> _]. by rewrite <- app_assoc.
  - rewrite Hcar2. apply Forall_app. split; [done|]. eapply Forall_impl; [exact Htaken|].
    intros c (active & listener & Ha & Hin & Hcl). exists listener. split; [|done].
    destruct Hl as [Hl|Hl]; congruence.
Qed.

(** C31: the accept loop hands out every session that the tasks of the connections deliver,
    once and in the order of delivery, whatever the listeners answer, however many calls fail or
    time out in between; it never panics.  The server says that it is closed exactly when its
    listeners are gone, which stays so, and then no call accepts a carrier any more.  Every carrier
    that was accepted is of the transport of one of the listeners. *)
Theorem server_accepts (listeners0 : list BoundServerProvider.t) (config : NnrpServerConfig.t)
    (ms : list Moment.t) (out : list NnrpServerSession.t) (self : t) :
  Forall (fun m => Ready Panic ∉ Moment.answers m) ms ->
  served (from_bound_listeners listeners0 config ms) out self ->
  (exists k, moments self = drop k ms /\ out ++ accepted_sessions self = deliveries k ms) /\
  Forall (fun c => exists listener, listener ∈ listeners0 /\ c.1 = BoundServerProvider.transport_id listener)
    (carriers self) /\
  forall timeout_ms expired,
    let '(r, self') := accept_with_options timeout_ms expired self in
    r <> Ready Panic /\ (listener_set_closed self' = true <-> listeners self' = None) /\
    (listener_set_closed self = true -> listener_set_closed self' = true /\ carriers self' = carriers self).
Proof.
  intros Hms Hs. destruct (served_serving _ _ _ _ _ Hms Hs) as (Hi & Hc & Hl & Hq & Hcar).
  split; [done|]. split; [done|]. intros timeout_ms expired.
  destruct (with_options self timeout_ms expired) as (He & _ & Hp).
  destruct (accept_inner_spec self Hi Hc) as (Hi2 & Hc2 & j & taken & Hm2 & Hcar2 & Htaken & H).
  rewrite <- He in *. destruct (accept_with_options timeout_ms expired self) as [r self']. cbn in *.
  split_and!; [apply Hp; by intros Hr; rewrite Hr in H|apply Hi2..|].
  intros Hclosed%Hi. assert (taken = []) as ->.
  { destruct Htaken as [|c cs (active & _ & Ha & _) _]; [done|congruence]. }
  rewrite app_nil_r in Hcar2. split; [|done]. apply Hi2.
  destruct (accept_inner self).1 as [[s|e|]|]; [destruct H as [_ ->]; done|by apply H|done|].
  destruct H as (_ & _ & -> & _). done.
Qed.
End Accepting.

(** ** An example: TCP and QUIC listeners for [nnrps], of which TCP is preferred *)

Module ListenExample.
Import ConnectExample.

#[local] Existing Instance simple_uri.

Definition server_credentials : ServerProviderRoute.t := ServerProviderRoute.native_tls [x01] [x02].

Definition server_options : NnrpServerOptions.t := {|
  NnrpServerOptions.endpoint := application;
  NnrpServerOptions.provider_routes :=
    {[TransportId.Tcp := server_credentials; TransportId.Quic := server_credentials]};
  NnrpServerOptions.transport_policy := TransportPolicy.PreferTcp;
  NnrpServerOptions.session_defaults := ServerExample.config |}.

Definition listener (kind : RuntimeTransportKind.t) : BoundServerProvider.t :=
  BoundServerProvider.from_listener (FramedListener.mk kind (Ok (str "127.0.0.1:4433"))).

Definition binder : Binder.t :=
  Binder.mk [Ok (listener RuntimeTransportKind.Tcp); Ok (listener RuntimeTransportKind.Quic)] [].

Definition bound_transports : option (list TransportId.t) :=
  match (bind_server server_options [provider TransportId.Quic; provider TransportId.Tcp] binder).1 with
  | Ready (Ok listeners) => Some (BoundServerProvider.transport_id <$> listeners)
  | _ => None
  end.

(** Two moments: the second listener has a carrier, and then its session is there. *)
Definition session : NnrpServerSession.t := ServerRunExample.start.

Definition moments : list Moment.t :=
  [Moment.mk [] [Pending; Ready (Ok (answering RuntimeTransportKind.Quic))]; Moment.mk [session] []].

Definition server : NnrpServer.t :=
  NnrpServer.from_bound_listeners [listener RuntimeTransportKind.Tcp; listener RuntimeTransportKind.Quic]
    ServerExample.config moments.

Definition after : NnrpServer.t := (NnrpServer.accept server).2.

Lemma binder_calm : Forall (fun r => r <> Panic) (Binder.binds binder).
Proof. by repeat constructor. Qed.

Lemma moments_calm : Forall (fun m => Ready Panic ∉ Moment.answers m) moments.
Proof. repeat constructor; cbn; set_solver. Qed.

End ListenExample.

Lemma listen_contract_witness :
  ListenExample.bound_transports = Some [TransportId.Tcp; TransportId.Quic] /\
  exists new, Forall (may_bind (Huri := ConnectExample.simple_uri) ListenExample.server_options
    [ConnectExample.provider TransportId.Quic; ConnectExample.provider TransportId.Tcp]) new /\
    length new = 2%nat.
Proof.
  split; [vm_compute; reflexivity|].
  pose proof (listen_contract (Huri := ConnectExample.simple_uri) ListenExample.server_options
    [ConnectExample.provider TransportId.Quic; ConnectExample.provider TransportId.Tcp] ListenExample.binder
    ConnectExample.application_parsed ListenExample.binder_calm) as H.
  assert (length (Binder.calls (bind_server (Huri := ConnectExample.simple_uri) ListenExample.server_options
    [ConnectExample.provider TransportId.Quic; ConnectExample.provider TransportId.Tcp]
    ListenExample.binder).2) = 2%nat) as Hn by (vm_compute; reflexivity).
  destruct (bind_server _ _ _) as [r b]. cbn in Hn. destruct H as [_ (new & Hc & Hm & _)].
  exists new. split; [exact Hm|]. cbn in Hc. rewrite <- Hc. exact Hn.
Defined.

(** One call accepts the carrier and returns the session that its task has delivered. *)
Lemma server_accepts_witness :
  Accepting.session_of (NnrpServer.accept ListenExample.server).1 = [ListenExample.session] /\
  length (NnrpServer.carriers ListenExample.after) = 1%nat /\
  exists k, NnrpServer.moments ListenExample.after = drop k ListenExample.moments /\
    [ListenExample.session] ++ NnrpServer.accepted_sessions ListenExample.after =
    Accepting.deliveries k ListenExample.moments.
Proof.
  assert (Accepting.session_of (NnrpServer.accept ListenExample.server).1 = [ListenExample.session]) as Hs
    by (vm_compute; reflexivity).
  split; [exact Hs|]. split; [vm_compute; reflexivity|].
  pose proof (Accepting.served_call _ _ _ 0 false (Accepting.served_start ListenExample.server)) as Hserved.
  change (NnrpServer.accept_with_options 0 false) with NnrpServer.accept in Hserved. rewrite Hs in Hserved.
  exact (proj1 (Accepting.server_accepts _ _ _ _ _ ListenExample.moments_calm Hserved)).
Defined.
