(* ===== verification/EndToEnd.v ===== *)
(** A client and a server session on the two ends of one connection: what one of them writes
    is what the other reads next.

    The client is that of [src/crates/nnrp-runtime/src/client.rs], the server that of
    [src/crates/nnrp-runtime/src/server.rs]; what happens to a packet between them is in
    [Stream.v] and [Multiplex.v]. *)

From S2P Require Import Prelude Bytes Errors Enums Wire Header Session Flow Control Codes.
From S2P Require Import Lifecycle Capability RuntimeControl Operation Recovery Negotiation.
From S2P Require Import Transport Route RuntimeError Packet Async Stream Pressure PreSubmit Object.
From S2P Require Import Cache Data Schema Regions Submit Event Client ClientOpen SessionLogic.
From S2P Require Import ClientTheory ClientOpenTheory ClientMethods ClientRuns.
From S2P Require Import Server ServerOpen ServerTheory ServerMethods ServerOpenTheory ServerRuns Connect.

Local Open Scope Z_scope.
Import NnrpClientSession(wire_header, packet_frame, packet_type, address, as_u32).

(** ** The server receives a submission *)

Section receiving.
Context `{Htarget : Target}.
Import NnrpServerSession.

(** No DEADLINE is waiting for its submission. *)
Definition unreserved (s : t) : Prop :=
  PreSubmitDeadlineReservations.by_operation (pre_submit_deadlines s) = ∅.

Lemma unreserved_frame s frame :
  ServerTheory.inv s -> unreserved s ->
  PreSubmitDeadlineReservations.by_frame (pre_submit_deadlines s) !! frame = None.
Proof.
  intros Hi Hu. apply eq_None_not_Some. intros [op Hop].
  apply (PreSubmitDeadlineReservations.inv_index _ (ServerTheory.inv_deadlines s Hi)) in Hop as (r & Hr & _).
  unfold unreserved in Hu. by rewrite Hu, lookup_empty in Hr.
Qed.

Lemma unreserved_expired s now :
  unreserved s -> PreSubmitDeadlineReservations.reject_expired (pre_submit_deadlines s) now = Ok tt.
Proof.
  intros Hu. unfold PreSubmitDeadlineReservations.reject_expired, PreSubmitDeadlineReservations.any_expired.
  by rewrite Hu, map_to_list_empty.
Qed.

(** The session once the clock was read. *)
Definition tick (s : t) : t := match clock s with [] => s | _ :: rest => set_clock s rest end.

Lemma returns_tick s : returns current_unix_ms s (default 0 (head (clock s))) (tick s).
Proof. unfold returns, current_unix_ms, tick. by destruct (clock s). Qed.

Lemma tick_same s :
  session_id (tick s) = session_id s /\ operations (tick s) = operations s /\
  frame_operations (tick s) = frame_operations s /\ operation_frames (tick s) = operation_frames s /\
  pre_submit_deadlines (tick s) = pre_submit_deadlines s /\ transport (tick s) = transport s /\
  pending_inputs (tick s) = pending_inputs s.
Proof. unfold tick. by destruct (clock s). Qed.

Lemma inv_tick s : ServerTheory.inv s -> ServerTheory.inv (tick s).
Proof. unfold tick. destruct (clock s); [done|apply inv_with_clock]. Qed.

(** The record of an operation that was just submitted. *)
Definition submitted_record (s : t) (op : Z) : OperationRecord.t :=
  {| OperationRecord.descriptor := OperationDescriptor.new (session_id s) op;
     OperationRecord.state := OperationState.Accepted;
     OperationRecord.schedule := OperationSchedule.default |}.

(** What the packet of a submission must be for a session. *)
Record submission (s : t) (packet : RuntimePacket.t) (md : FrameSubmitMetadata.t) : Prop := {
  submission_type : packet_type packet = MessageType.FrameSubmit;
  submission_session : CommonHeader.session_id (RuntimePacket.header packet) = session_id s;
  submission_len : length (RuntimePacket.metadata packet) = FRAME_SUBMIT_METADATA_LEN;
  submission_parse : FrameSubmitMetadata.parse (RuntimePacket.metadata packet) = Ok md;
  submission_op : FrameSubmitMetadata.operation_id md <> 0;
  submission_id : session_id s <> 0;
  submission_frame : frame_operations s !! packet_frame packet = None;
  submission_new : OperationRegistry.operation (operations s) (FrameSubmitMetadata.operation_id md) = None
}.

(** The operation that the application gets for it. *)
Definition operation_of (packet : RuntimePacket.t) (md : FrameSubmitMetadata.t) : NnrpServerOperation.t :=
  {| NnrpServerOperation.operation_id := FrameSubmitMetadata.operation_id md;
     NnrpServerOperation.frame_id := packet_frame packet;
     NnrpServerOperation.submit :=
       {| NnrpRuntimeEvent.header := wire_header packet;
          NnrpRuntimeEvent.metadata := NnrpRuntimeEventMetadata.FrameSubmit md;
          NnrpRuntimeEvent.tail := NnrpRuntimeEventTail.Body (RuntimePacket.body packet) |} |}.

Lemma register_accepts s op :
  op <> 0 -> session_id s <> 0 -> OperationRegistry.operation (operations s) op = None ->
  OperationRegistry.register (OperationDescriptor.new (session_id s) op) (operations s) =
    (Ok tt, OperationRegistry.store (operations s) op (submitted_record s op)).
Proof.
  intros Hop Hid Hnew. apply OperationRegistry.register_Ok. split; [|done]. split_and!; [|done|done].
  unfold validate_descriptor_shape. simpl.
  by rewrite (proj2 (Z.eqb_neq _ _) Hid), (proj2 (Z.eqb_neq _ _) Hop).
Qed.

Lemma submit_handled s packet md :
  ServerTheory.inv s -> unreserved s -> submission s packet md ->
  let op := FrameSubmitMetadata.operation_id md in
  returns (handle_frame_submit_packet packet) s
    {| DecodedSubmit.operation_id := op; DecodedSubmit.frame_id := packet_frame packet;
       DecodedSubmit.metadata := md; DecodedSubmit.body := RuntimePacket.body packet |}
    (ServerTheory.accepted op (packet_frame packet) (submitted_record s op)
       (set_pre_submit_deadlines (tick s) (pre_submit_deadlines s))).
Proof.
  intros Hi Hu [Hty Hsid Hlen Hparse Hop Hid Hframe Hnew]. cbv zeta. unfold handle_frame_submit_packet. cbv zeta.
  apply returns_bind. exists tt, s. split; [apply returns_lift; by rewrite bool_decide_true by done|].
  apply returns_bind. exists tt, s.
  split; [apply returns_check; unfold require_session_packet; by rewrite Hsid, Z.eqb_refl|].
  apply returns_bind. exists tt, s.
  split; [apply returns_lift; unfold require_metadata_len, len; by rewrite Hlen, Z.eqb_refl|].
  apply returns_bind. exists md, s. split; [apply returns_lift; by rewrite Hparse|].
  apply returns_bind. exists tt, s. split; [apply returns_check; by rewrite Hframe|].
  apply returns_bind. eexists _, (tick s). split; [apply returns_tick|].
  destruct (tick_same s) as (Hsid' & Hops & Hfr & Hof & Hpre & _).
  apply returns_bind. exists None, (set_pre_submit_deadlines (tick s) (pre_submit_deadlines s)). split.
  { unfold returns, on_deadlines. rewrite Hpre. unfold PreSubmitDeadlineReservations.take_for_submit,
      PreSubmitDeadlineReservations.remove_operation.
    rewrite (unreserved_expired s _ Hu). unfold unreserved in Hu. rewrite Hu, lookup_empty.
    by rewrite unreserved_frame. }
  apply returns_bind. eexists _, _. split; [apply returns_gets; split; reflexivity|].
  apply returns_bind. eexists tt, _. split.
  { unfold returns, on_operations. simpl. rewrite Hsid', Hops, (register_accepts s _ Hop Hid Hnew). reflexivity. }
  apply returns_bind. eexists tt, _. split; [apply returns_ret; split; reflexivity|].
  apply returns_bind. eexists tt, _. split; [apply returns_modify; reflexivity|].
  apply returns_bind. eexists tt, _. split; [apply returns_modify; reflexivity|].
  apply returns_ret. split; [done|]. unfold ServerTheory.accepted. simpl. by rewrite Hops.
Qed.

(** The session after the submission was received. *)
Definition received (packet : RuntimePacket.t) (op : Z) (rest : list (RT RuntimePacket.t)) (s : t) : t :=
  let s1 := tick (set_transport s (FramedTransport.set_reads (transport s) rest)) in
  ServerTheory.accepted op (packet_frame packet) (submitted_record s op)
    (set_pre_submit_deadlines (tick s1) (pre_submit_deadlines s)).

Lemma submit_received s packet md rest :
  ServerTheory.inv s -> unreserved s -> submission s packet md ->
  pending_inputs s = [] -> reads_left s = Ok packet :: rest ->
  returns receive_submit s (operation_of packet md) (received packet (FrameSubmitMetadata.operation_id md) rest s).
Proof.
  intros Hi Hu Hsub Hq Hreads. unfold receive_submit.
  apply returns_bind. eexists _, s. split; [apply returns_gets; split; reflexivity|]. rewrite Hq. simpl.
  apply returns_bind. eexists _, s. split; [apply returns_gets; split; reflexivity|]. rewrite Hreads.
  cbn [await_submit]. set (s0 := set_transport s (FramedTransport.set_reads (transport s) rest)).
  assert (ServerTheory.inv s0) as Hi0.
  { destruct (ServerTheory.inv_transport s Hi) as (Hr & Hp & Hw & Hc). apply inv_with_transport; [|done|done].
    unfold reads_left in Hreads. rewrite Hreads in Hr. apply Forall_cons in Hr as [_ Hr]. by split_and!. }
  destruct (tick_same s0) as (Hsid & Hops & Hfr & Hof & Hpre & _).
  apply returns_bind. exists (PendingServerInput.Event (NnrpServerEvent.Submit (operation_of packet md))),
    (received packet (FrameSubmitMetadata.operation_id md) rest s).
  split; [|by apply returns_ret]. unfold read_next_input.
  apply returns_bind. exists packet, s0. split.
  { unfold returns, read_packet, on_transport, FramedTransport.read_packet. unfold reads_left in Hreads. by rewrite Hreads. }
  apply returns_bind. eexists _, _. split; [apply returns_tick|].
  assert (unreserved (tick s0)) as Hu0 by (unfold unreserved; by rewrite Hpre).
  apply returns_bind. exists tt, (tick s0). split; [apply returns_check; split; [by apply unreserved_expired|done]|].
  rewrite (submission_type _ _ _ Hsub). cbn [is_dedicated_role_message].
  apply returns_bind. exists (NnrpServerEvent.Submit (operation_of packet md)),
    (received packet (FrameSubmitMetadata.operation_id md) rest s).
  split; [|by apply returns_ret]. unfold decode_server_event, decode_packet, decode_frame_submit.
  rewrite (submission_type _ _ _ Hsub).
  apply returns_bind. eexists _, _. split.
  { apply returns_bind. eexists _, _. split; [|apply returns_ret; split; reflexivity].
    apply (submit_handled (tick s0) packet md); [by apply inv_tick|done|].
    destruct Hsub. split; rewrite ?Hsid, ?Hfr, ?Hops; done. }
  apply returns_bind. eexists _, _. split; [apply returns_lift; split; reflexivity|].
  cbn [NnrpRuntimeEvent.header]. unfold wire_header at 1, RuntimeFrameHeader.from. cbn [RuntimeFrameHeader.message_type].
  pose proof (submission_type _ _ _ Hsub) as Hty. unfold packet_type in Hty.
  rewrite bool_decide_true by done.
  apply returns_bind. exists (operation_of packet md), (received packet (FrameSubmitMetadata.operation_id md) rest s).
  split; [|by apply returns_ret]. apply returns_lift. split.
  - unfold NnrpServerOperation.new. cbn [NnrpRuntimeEvent.header]. unfold wire_header at 1, RuntimeFrameHeader.from.
    cbn [RuntimeFrameHeader.message_type]. by rewrite Hty.
  - unfold received. fold s0. unfold submitted_record. by rewrite Hpre, Hsid.
Qed.

End receiving.

(** ** Metadata that was sent is read back *)

Lemma sent_read {A} `{StrictWireCodec A} (m : A) bs :
  typed m = true -> codec_to_bytes m = Ok bs -> codec_parse bs = Ok m /\ length bs = codec_len (A := A).
Proof.
  intros Ht Hw. split.
  - destruct (strict_round_trip m Ht) as [(bs' & Hw' & Hp)|(e & Hw' & _)]; congruence.
  - unfold codec_to_bytes in Hw. pose proof (law_write_strict m _ _ Ht Hw) as Hv.
    apply law_write_sound in Hw as [_ ->]. rewrite drop_replicate, Nat.sub_diag. simpl. rewrite app_nil_r.
    apply length_wire.
Qed.

(** ** The server sends a result *)

Section sending.
Context `{Htarget : Target}.
Import NnrpServerSession.

Lemma send_expired_fails op schedule s u s' : ~ returns (send_expired op schedule) s u s'.
Proof.
  unfold send_expired. intros (? & ? & _ & H)%returns_bind.
  apply returns_bind in H as (? & ? & _ & H). apply returns_bind in H as (? & ? & _ & H).
  by apply returns_lift in H as [[=] _].
Qed.

Lemma result_sent operation md body s u s' :
  returns (send_result operation md body) s u s' ->
  exists packet,
    FramedTransport.written (transport s') = FramedTransport.written (transport s) ++ [packet] /\
    packet_type packet = MessageType.ResultPush /\
    packet_frame packet = NnrpServerOperation.frame_id operation /\
    CommonHeader.session_id (RuntimePacket.header packet) = session_id s /\
    ResultPushMetadata.to_bytes md = Ok (RuntimePacket.metadata packet) /\ RuntimePacket.body packet = body.
Proof.
  unfold send_result. intros (? & ? & [_ ->]%returns_check & H)%returns_bind.
  unfold send_operation_result_for_binding in H.
  apply returns_bind in H as (op & ? & [_ ->]%returns_check & H).
  apply returns_bind in H as (now & s1 & Hnow & H).
  assert (session_id s1 = session_id s /\ transport s1 = transport s) as [Hsid Htr].
  { revert Hnow. unfold returns, current_unix_ms. by destruct (clock s); intros [= _ <-]. }
  apply returns_bind in H as (stale & s2 & Hst & H).
  assert (session_id s2 = session_id s1 /\ transport s2 = transport s1) as [Hsid2 Htr2].
  { revert Hst. unfold returns, on_operations. by destruct (OperationRegistry.expire_if_stale _ _ _); intros [= _ <-]. }
  destruct stale as [schedule|]; [by apply send_expired_fails in H|]. unfold send_completed in H.
  apply returns_bind in H as (? & ? & [_ ->]%returns_check & H).
  apply returns_bind in H as (? & ? & [_ ->]%returns_check & H).
  apply returns_bind in H as (? & s3 & Hsend & H). unfold send_as, write_parts in Hsend.
  apply returns_bind in Hsend as (sid & ? & [-> ->]%returns_gets & Hsend).
  apply returns_bind in Hsend as (bs & ? & [Hbs%protocol_Ok ->]%returns_lift & Hsend).
  apply returns_bind in Hsend as (packet & ? & [Hp%protocol_Ok ->]%returns_lift & Hsend).
  apply packet_new_header in Hp as (Hh & <- & Hbody).
  unfold returns, write_packet, on_transport in Hsend.
  destruct (FramedTransport.write_packet packet (transport s2)) as [r tr] eqn:Hw. injection Hsend as -> <-.
  apply FramedTransport.write_packet_returns in Hw as [Hw _].
  apply returns_bind in H as (? & s4 & Hc & H).
  assert (transport s4 = tr) as Htr4.
  { revert Hc. unfold returns, on_operations. by destruct (OperationRegistry.complete _ _); intros [= _ <-]. }
  apply returns_bind in H as (event & ? & [_ ->]%returns_lift & H). apply returns_modify in H as ->.
  exists packet. simpl. rewrite Htr4, Hw, Htr2, Htr. unfold packet_type, packet_frame. rewrite Hh. simpl.
  split_and!; [done|done|done|congruence|done|done].
Qed.

Lemma server_session_id s s' : run s s' -> session_id s' = session_id s.
Proof. intros Hrun. by apply (server_run_within ServerRuns.later) in Hrun as [? _ _ _]. Qed.

Lemma opened_session_id s : ServerOpenTheory.opened s -> session_id s <> 0.
Proof.
  intros (c & c' & tid & nonce & config & packet & id & Hc & Hr & Hs).
  apply accept_returns in Hr as (open & choice & token & tr & l & ack & ap & k & rest & H). cbv zeta in H.
  destruct H as (_ & _ & Hch & Hrec & -> & _ & _ & _ & _ & _ & -> & _).
  destruct (choose_session_chosen _ _ _ _ _ _ Hch Hrec) as [Hid _]. simpl in Hs.
  rewrite last_snoc in Hs. by injection Hs as <-.
Qed.

Lemma returns_unique {S A} (m : Async S A) s a s1 b s2 : returns m s a s1 -> returns m s b s2 -> a = b /\ s1 = s2.
Proof. unfold returns. intros ->. by intros [= -> ->]. Qed.

End sending.

(** ** Request and response *)

Section request_response.
Context `{Htarget : Target}.

(** C2: a request and its response, end to end.  A client submits a request, and the
    packet that it writes is the next that the server session of the same id reads, on which
    neither the frame nor the operation is known yet and nothing else is queued.  Then
    [receive_submit] gives the application an operation with the id, the frame, the metadata
    and the body of the request.  When the application later sends a result for it, after any
    other calls on the session, one packet is written; and when that packet is the next that the
    client reads, after any other calls on its session while the operation is live and nothing
    else is queued, [await_result] returns a success of that operation with the metadata
    and the body that the server's application gave, and the operation is no longer live. *)
Theorem request_response (c0 c c1 : NnrpClientSession.t) (s0 s : NnrpServerSession.t) (now frame : Z)
    (request : NnrpSubmitRequest.t) (packet : RuntimePacket.t) (rest : list (RT RuntimePacket.t)) :
  let op := FrameSubmitMetadata.operation_id (NnrpSubmitRequest.metadata request) in
  ClientRuns.opened c0 -> ClientRuns.run c0 c ->
  returns (NnrpClientSession.submit now request) c frame c1 ->
  typed (NnrpSubmitRequest.metadata request) = true ->
  ServerOpenTheory.opened s0 -> ServerRuns.run s0 s ->
  NnrpServerSession.session_id s = NnrpClientSession.session_id c -> unreserved s ->
  NnrpServerSession.frame_operations s !! frame = None ->
  OperationRegistry.operation (NnrpServerSession.operations s) op = None ->
  NnrpServerSession.pending_inputs s = [] ->
  FramedTransport.written (NnrpClientSession.transport c1) =
    FramedTransport.written (NnrpClientSession.transport c) ++ [packet] ->
  NnrpServerSession.reads_left s = Ok packet :: rest ->
  exists operation s1,
    returns NnrpServerSession.receive_submit s operation s1 /\
    NnrpServerOperation.operation_id operation = op /\ NnrpServerOperation.frame_id operation = frame /\
    NnrpServerOperation.metadata operation = Ok (NnrpSubmitRequest.metadata request) /\
    NnrpServerOperation.body operation = Ok (NnrpSubmitRequest.body request) /\
    forall s2 s3 md body,
      typed md = true -> ServerRuns.run s1 s2 ->
      returns (NnrpServerSession.send_result operation md body) s2 tt s3 ->
      exists out,
        FramedTransport.written (NnrpServerSession.transport s3) =
          FramedTransport.written (NnrpServerSession.transport s2) ++ [out] /\
        forall c2 rest',
          ClientRuns.run c1 c2 -> NnrpClientSession.operation_frames c2 !! op = Some frame ->
          NnrpClientSession.pending_role_events c2 = [] -> NnrpClientSession.pending_events c2 = [] ->
          NnrpClientSession.reads_left c2 = Ok out :: rest' ->
          exists c3,
            returns NnrpClientSession.await_result c2
              {| NnrpResult.operation_id := op;
                 NnrpResult.terminal_state := ResultTerminalState.Success;
                 NnrpResult.event := NnrpTerminalEvent.Runtime
                   {| NnrpRuntimeEvent.header := wire_header out;
                      NnrpRuntimeEvent.metadata := NnrpRuntimeEventMetadata.ResultPush md;
                      NnrpRuntimeEvent.tail := NnrpRuntimeEventTail.Body body |} |} c3 /\
            NnrpClientSession.operation_frames c3 !! op = None.
Proof.
  intros op Hco Hcrun Hsubmit Htyped Hso Hsrun Hsid Hu Hframe Hnew Hq Hw Hreads.
  assert (ClientTheory.inv c) as Hci by (eapply ClientRuns.run_inv; [done|by apply ClientRuns.opened_inv]).
  assert (ClientTheory.inv c1) as Hci1
    by (by destruct (triple_returns _ _ _ _ _ _ _ (submit_nowait_sess now request) (conj Hci I) Hsubmit)).
  assert (ServerTheory.inv s) as Hsi by (eapply server_run_inv; [done|by apply server_opened_inv]).
  pose proof (opened_session_id s0 Hso) as Hnz. rewrite <- (server_session_id s0 s Hsrun) in Hnz.
  apply submit_returns in Hsubmit as (Hfresh & Hfr & packet' & d & tr & Hw' & (bs & Hbs & Hp) & Hc1).
  assert (NnrpClientSession.session_id c1 = NnrpClientSession.session_id c) as Hid1 by (by rewrite Hc1).
  assert (packet' = packet) as ->.
  { rewrite Hc1 in Hw. simpl in Hw. rewrite Hw' in Hw. apply app_inj_tail in Hw as [_ ?]. done. }
  apply packet_new_header in Hp as (Hh & Hpm & Hpb).
  destruct (sent_read _ bs Htyped Hbs) as [Hparse Hlen].
  assert (submission s packet (NnrpSubmitRequest.metadata request)) as Hsub.
  { split; unfold packet_type, packet_frame; rewrite ?Hpm, ?Hh; try done.
    - apply Hfresh.
    - simpl. by rewrite <- Hfr. }
  exists (operation_of packet (NnrpSubmitRequest.metadata request)), (received packet op rest s).
  split; [by apply submit_received|]. split; [done|].
  assert (packet_frame packet = frame) as Hpf by (unfold packet_frame; by rewrite Hh).
  split; [exact Hpf|]. split; [done|]. split; [unfold NnrpServerOperation.body; simpl; by rewrite Hpb|].
  intros s2 s3 md body Hmd Hrun Hsend.
  apply result_sent in Hsend as (out & Hout & Hty & Hof & Hosid & Hob & Hbody).
  exists out. split; [done|]. intros c2 rest' Hcr Hlive Hroles Hevents Hcreads.
  pose proof (ClientRuns.run_inv _ _ Hcr Hci1) as Hci2.
  apply (ClientRuns.run_within ClientRuns.later) in Hcr as [_ _ _ _ _ Hid2].
  destruct (sent_read md _ Hmd Hob) as [Hrparse Hrlen].
  destruct (await_result_answers c2 op frame out md rest' Hci2 Hlive Hroles Hevents Hcreads Hty)
    as (c3 & Hr & Hdead & _).
  - rewrite Hof. exact Hpf.
  - rewrite Hosid, (server_session_id _ _ Hrun), Hid2, Hid1. simpl. rewrite <- Hsid.
    unfold received, tick. by repeat case_match.
  - exact Hrlen.
  - exact Hrparse.
  - exists c3. rewrite Hbody in Hr. done.
Qed.

End request_response.

(** ** An example: the request of the client's example reaches a server *)

Module ExchangeExample.

#[local] Existing Instance target64.

(** The server session of the same id: the client has asked for it. *)
Definition open_packet : RuntimePacket.t :=
  let m := ServerExample.open_metadata 0 in
  ClientOpenTheory.Example.packet_of MessageType.SessionOpen 0 0
    (wire (SessionOpenMetadata.mk 42 (SessionOpenMetadata.profile_id m)
             (SessionOpenMetadata.priority_class m) (SessionOpenMetadata.session_flags m)
             (SessionOpenMetadata.schema_id m) (SessionOpenMetadata.schema_version m)
             (SessionOpenMetadata.default_deadline_ms m) (SessionOpenMetadata.max_in_flight_operations m)
             (SessionOpenMetadata.lease_ttl_hint_ms m) 0 0 0 0)) [].

Definition client : NnrpClientSession.t := ClientRuns.ExampleRun.start.
Definition client_sent : NnrpClientSession.t := ClientRuns.ExampleRun.after_first.
Definition packet : RuntimePacket.t :=
  List.last (FramedTransport.written (NnrpClientSession.transport client_sent)) open_packet.

Definition wires : FramedTransport.t := ServerExample.transport [Ok packet] 2.
Definition accepted : ServerConnection.t :=
  (ServerConnection.accept_connection_session TransportId.Tcp 9 ServerExample.config open_packet
     (ServerExample.connection [] wires)).2.
Definition server : NnrpServerSession.t :=
  match ServerConnection.accepted_sessions accepted with
  | s :: _ => s
  | [] => ServerConnection.new_session ServerExample.config TransportId.Tcp 9 0 (ServerExample.open_metadata 0)
            wires ConnectionLifecycle.new ∅ []
  end.

Lemma exchange_opened : ServerOpenTheory.opened server.
Proof.
  exists (ServerExample.connection [] wires), accepted, TransportId.Tcp, 9, ServerExample.config, open_packet, 42.
  split; [|split; vm_compute; reflexivity].
  apply ServerExample.connection_ok; [by constructor|by repeat constructor|reflexivity|exact I..].
Qed.

(** The operation that the server receives, and the result that it sends. *)
Definition received : NnrpServerSession.t := (NnrpServerSession.receive_submit server).2.
Definition operation : NnrpServerOperation.t :=
  operation_of packet (NnrpSubmitRequest.metadata (ClientRuns.ExampleRun.request 7 1)).
Definition answered : NnrpServerSession.t :=
  (NnrpServerSession.send_result operation ClientRuns.ExampleRun.result [x05; x06] received).2.

Lemma exchange_received : returns NnrpServerSession.receive_submit server operation received.
Proof. vm_compute. reflexivity. Qed.

Lemma exchange_answered :
  returns (NnrpServerSession.send_result operation ClientRuns.ExampleRun.result [x05; x06]) received tt answered /\
  FramedTransport.written (NnrpServerSession.transport answered) =
    FramedTransport.written (NnrpServerSession.transport received) ++ [ClientRuns.ExampleRun.push 1].
Proof. split; vm_compute; reflexivity. Qed.

End ExchangeExample.

Lemma request_response_witness :
  exists c3, returns (NnrpClientSession.await_result (Htarget := target64)) ExchangeExample.client_sent
      (ClientRuns.ExampleRun.answer 7 1) c3 /\
    NnrpClientSession.operation_frames c3 !! 7 = None.
Proof.
  destruct (request_response (Htarget := target64) ExchangeExample.client ExchangeExample.client
    ExchangeExample.client_sent ExchangeExample.server ExchangeExample.server 0 1
    (ClientRuns.ExampleRun.request 7 1) ExchangeExample.packet [])
    as (operation & s1 & Hr & _ & _ & _ & _ & Hanswer).
  - exact ClientRuns.ExampleRun.start_opened.
  - apply rtc_refl.
  - vm_compute. reflexivity.
  - vm_compute. reflexivity.
  - exact ExchangeExample.exchange_opened.
  - apply rtc_refl.
  - vm_compute. reflexivity.
  - vm_compute. reflexivity.
  - vm_compute. reflexivity.
  - vm_compute. reflexivity.
  - vm_compute. reflexivity.
  - vm_compute. reflexivity.
  - vm_compute. reflexivity.
  - destruct (returns_unique _ _ _ _ _ _ Hr ExchangeExample.exchange_received) as [-> ->]. destruct ExchangeExample.exchange_answered as [Hs Hw].
    destruct (Hanswer ExchangeExample.received ExchangeExample.answered ClientRuns.ExampleRun.result [x05; x06])
      as (out & Hout & Hclient); [vm_compute; reflexivity|apply rtc_refl|exact Hs|].
    rewrite Hw in Hout. apply app_inj_tail in Hout as [_ <-].
    destruct (Hclient ExchangeExample.client_sent []) as (c3 & Hres & Hdead);
      [apply rtc_refl|vm_compute; reflexivity..|].
    exists c3. split; [exact Hres|exact Hdead].
Defined.

(** ** Opening a session *)

Section opening.
Context `{Htarget : Target}.

(** The numbers of a configuration fit their types. *)
Record config_fits (config : NnrpServerConfig.t) : Prop := {
  fits_credit : 0 <= NnrpServerConfig.granted_operation_credit config < modulus 2;
  fits_flight : 0 <= NnrpServerConfig.max_in_flight_operations config < modulus 2;
  fits_lease : 0 <= NnrpServerConfig.lease_ttl_ms config < modulus 4;
  fits_window : 0 <= NnrpServerConfig.resume_window_ms config < modulus 4;
  fits_token : 0 <= NnrpServerConfig.resume_token_bytes config < modulus 4
}.

Lemma open_ack_typed config open id resume n :
  config_fits config -> typed open = true -> 0 <= id < modulus 4 -> 0 <= n < modulus 4 ->
  typed (ServerConnection.open_ack config open id true resume n 0 SESSION_ERROR_NONE) = true.
Proof.
  intros [Hc Hf Hl Hw Ht] Ho Hid Hn. unfold typed, fields_ok in *. simpl in *. unfold field_ok in *. simpl in *.
  change (modulus 1) with 256 in *. change (modulus 2) with 65536 in *. change (modulus 4) with 4294967296 in *.
  change (modulus 8) with 18446744073709551616 in *.
  rewrite !andb_true_iff, !Z.leb_le, !Z.ltb_lt in Ho. destruct_and?.
  rewrite !andb_true_iff, !Z.leb_le, !Z.ltb_lt.
  assert (0 <= SessionStatus.repr (if 0 <? SessionOpenMetadata.resume_token_bytes open
    then SessionStatus.Resumed else SessionStatus.Opened) < 256) by (by case_match).
  assert (0 <= (if resume then SESSION_ACK_FLAG_RESUME_ENABLED else 0) < 4294967296) by (by destruct resume).
  split_and!; try lia; done.
Qed.

Lemma requested_fits open : typed open = true -> 0 <= SessionOpenMetadata.requested_session_id open < modulus 4.
Proof.
  intros Ho. unfold typed, fields_ok in Ho. simpl in Ho. unfold field_ok in Ho. simpl in Ho.
  apply andb_prop in Ho as [Ho _]. lia.
Qed.

Lemma choice_fits open token now registry choice registry' :
  typed open = true -> choose_session open token now registry = (choice, registry') ->
  0 <= SessionChoice.session_id choice < modulus 4.
Proof.
  intros Ho Hch. apply requested_fits in Ho as Hr. assert (0 <= 0 < modulus 4) as H0 by done.
  unfold choose_session in Hch. injection Hch as <- _.
  destruct (0 <? SessionOpenMetadata.resume_token_bytes open); [by repeat case_match|].
  destruct (negb _); [by case_match|]. simpl.
  pose proof (first_available_session (filter (retained now) registry)) as Hf.
  destruct (first_available_session_id _); simpl; [|done]. destruct Hf as ([Hl Hu] & _).
  unfold u32_max in Hu. change (modulus 4) with 4294967296. lia.
Qed.

(** The acknowledgement that the server writes is one that the client accepts. *)
Lemma open_ack_accepted cconfig resume request sconfig id enabled token packet :
  let ack := ServerConnection.open_ack sconfig request id true enabled (as_u32 (len token)) 0 SESSION_ERROR_NONE in
  typed ack = true -> SessionOpenAckMetadata.to_bytes ack = Ok (RuntimePacket.metadata packet) ->
  CommonHeader.message_type (RuntimePacket.header packet) = MessageType.SessionOpenAck ->
  RuntimePacket.body packet = token -> len token <= ServerConnection.MAX_RESUME_TOKEN_BYTES ->
  (enabled = true -> NnrpServerConfig.resume_window_ms sconfig <> 0 /\ 0 < len token) ->
  (enabled = false -> token = [] /\ SessionOpenMetadata.resume_token_bytes request <= 0) ->
  (NnrpClientConfig.resume_token_bytes cconfig <= 0 \/ len token <= NnrpClientConfig.resume_token_bytes cconfig) ->
  NnrpClient.accept_open_ack cconfig resume request packet =
    Ok (ack,
        if enabled
        then Some {| NnrpSessionRecoveryTicket.session_id := id;
                     NnrpSessionRecoveryTicket.resume_token := token;
                     NnrpSessionRecoveryTicket.resume_from_operation_id :=
                       match resume with
                       | Some ticket => NnrpSessionRecoveryTicket.resume_from_operation_id ticket
                       | None => None
                       end;
                     NnrpSessionRecoveryTicket.resume_window_ms := NnrpServerConfig.resume_window_ms sconfig |}
        else None).
Proof.
  intros ack Ht Hw Hty Hbody Hlen Hen Hdis Hcap. destruct (sent_read ack _ Ht Hw) as [Hparse _].
  change (codec_parse (RuntimePacket.metadata packet)) with
    (SessionOpenAckMetadata.parse (RuntimePacket.metadata packet)) in Hparse.
  pose proof (len_nonneg token) as Hnn. unfold ServerConnection.MAX_RESUME_TOKEN_BYTES in Hlen.
  pose proof usize_max_u32 as Hus. unfold u32_max in Hus.
  assert (as_u32 (len token) = len token) as Hu32 by (unfold as_u32; apply Z.mod_small; lia).
  assert (SessionOpenAckMetadata.resume_token_bytes ack = len token) as Htb by exact Hu32.
  assert (resume_enabled ack = enabled) as Hre by (unfold resume_enabled, ack; simpl; by destruct enabled).
  assert (SessionOpenAckMetadata.session_status ack = SessionStatus.Opened \/
    SessionOpenAckMetadata.session_status ack = SessionStatus.Resumed) as Hst
    by (unfold ack; simpl; case_match; [by right|by left]).
  assert (exists o, validate_session_recovery_ack request ack = Ok o) as [o Hv].
  { unfold validate_session_recovery_ack. cbv zeta. rewrite Hre, Htb.
    change (SessionOpenAckMetadata.resume_window_ms ack) with (NnrpServerConfig.resume_window_ms sconfig).
    assert (enabled && ((NnrpServerConfig.resume_window_ms sconfig =? 0) || (len token =? 0)) = false) as ->.
    { destruct enabled; [|done]. destruct (Hen eq_refl). simpl. lia. }
    simpl. destruct (Z.ltb_spec 0 (SessionOpenMetadata.resume_token_bytes request)) as [Hr|Hr]; simpl.
    - destruct enabled; [|destruct (Hdis eq_refl); lia].
      rewrite (proj2 (Z.eqb_neq _ 0)) by lia. by eexists.
    - destruct enabled; by eexists. }
  unfold NnrpClient.accept_open_ack. rewrite Hty, bool_decide_true by done. cbn [negb reject_if].
  unfold mbind, outcome_bind. cbv zeta. rewrite Hparse. cbn [protocol map_err]. rewrite Hv. cbn [protocol map_err].
  rewrite Htb. change (SessionOpenAckMetadata.session_extension_bytes ack) with 0.
  rewrite (proj2 (Z.leb_le (len token) usize_max)), (proj2 (Z.leb_le 0 usize_max)) by lia. cbn [andb].
  unfold checked_add. rewrite Z.add_0_r, (proj2 (Z.leb_le (len token) usize_max)) by lia. cbn [ok_or].
  rewrite Hbody, Z.eqb_refl. cbn [negb reject_if Z.eqb].
  assert (match SessionOpenAckMetadata.session_status ack with
    | SessionStatus.Opened | SessionStatus.Resumed => Ok tt
    | _ => Err (SessionRejected (SessionOpenAckMetadata.session_error_code ack) (from_utf8_lossy token))
    end = Ok (E := RuntimeError) tt) as -> by (by destruct Hst as [-> | ->]).
  assert ((0 <? len token) && (0 <? NnrpClientConfig.resume_token_bytes cconfig) &&
    (NnrpClientConfig.resume_token_bytes cconfig <? len token) = false) as -> by lia.
  cbn [reject_if]. do 2 f_equal. destruct enabled.
  - destruct (Hen eq_refl). by rewrite (proj2 (Z.ltb_lt 0 (len token))) by lia.
  - destruct (Hdis eq_refl) as [-> _]. done.
Qed.

(** C13: the two ends agree on a session.  Let the server's resume window be other than 0; let it issue
    tokens (its token length is not 0) when the client resumes with one; and let the client set no capacity
    for tokens, or one that is at least the server's token length.  When the server then accepts the
    SESSION_OPEN that a client wrote, with or without a recovery ticket, the client accepts the
    acknowledgement that the server has written: with the id of the server's session, and with
    a new recovery ticket exactly when the server's record allows a resumption.  That ticket names
    the session, and its token resumes it: as long as that record is in the registry, once it is
    no longer in use and until it expires, it meets every condition for a resumption with that token.
    (The three conditions are about the configurations; with a window of 0 the client refuses the
    acknowledgement of a session that may be resumed.) *)
Theorem session_agreed (cconfig : NnrpClientConfig.t) (resume : option NnrpSessionRecoveryTicket.t)
    (request : SessionOpenMetadata.t) (packet ack_packet : RuntimePacket.t) (sconfig : NnrpServerConfig.t)
    (c c' : ServerConnection.t) (tid : TransportId.t) (nonce id : Z) :
  let token := default [] (NnrpSessionRecoveryTicket.resume_token <$> resume) in
  session_open_metadata cconfig (len token) = Ok request -> typed request = true ->
  SessionOpenMetadata.to_bytes request = Ok (RuntimePacket.metadata packet) ->
  RuntimePacket.body packet = token ->
  conn_ok (fun _ => True) (fun _ => True) c -> config_fits sconfig ->
  returns (ServerConnection.accept_connection_session tid nonce sconfig packet) c (Some id) c' ->
  MultiplexedConnection.written (ServerConnection.connection c') =
    MultiplexedConnection.written (ServerConnection.connection c) ++ [ack_packet] ->
  NnrpServerConfig.resume_window_ms sconfig <> 0 ->
  (token <> [] -> NnrpServerConfig.resume_token_bytes sconfig <> 0) ->
  (NnrpClientConfig.resume_token_bytes cconfig <= 0 \/
   NnrpServerConfig.resume_token_bytes sconfig <= NnrpClientConfig.resume_token_bytes cconfig) ->
  exists ack ticket record,
    NnrpClient.accept_open_ack cconfig resume request ack_packet = Ok (ack, ticket) /\
    SessionOpenAckMetadata.session_id ack = id /\ ServerConnection.sessions c' !! id = Some record /\
    (ticket = None <-> RuntimeSessionRecord.resume_enabled record = false) /\
    forall t, ticket = Some t ->
      NnrpSessionRecoveryTicket.session_id t = id /\
      forall now, now <= RuntimeSessionRecord.resume_expires_at_ms record ->
        resumes (RuntimeSessionRecord.set_inactive record) (NnrpSessionRecoveryTicket.resume_token t) now.
Proof.
  intros token Hreq Htyped Hbytes Hbody Hc Hfit Hr Hw Hwin Hsup Hcap.
  apply accept_returns in Hr as (open & choice & token' & tr & l & ack & ap & k & rest & H). cbv zeta in H.
  destruct H as (Hopen & _ & Hch & Hrec & -> & Htok & Hlen & Hack & _ & _ & -> & Hw' & Hab & Hapb & Hty & _).
  simpl in Hw. rewrite Hw in Hw'. apply app_inj_tail in Hw' as [_ <-].
  apply read_open_Ok in Hopen as (Hparse & Hrr & Hbl).
  destruct (sent_read request _ Htyped Hbytes) as [Hparse' _].
  assert (open = request) as ->.
  { change (codec_parse (RuntimePacket.metadata packet)) with
      (SessionOpenMetadata.parse (RuntimePacket.metadata packet)) in Hparse'. congruence. }
  set (id := SessionChoice.session_id choice) in *. set (enabled := ServerConnection.enables_resume sconfig request true) in *.
  pose proof (fits_token sconfig Hfit) as [Htb _]. pose proof (len_nonneg token') as Hnn.
  assert (len token' <= ServerConnection.MAX_RESUME_TOKEN_BYTES) as Hmax.
  { destruct enabled; [by apply Hlen; [|apply (conn_random _ _ _ Hc)|]|by rewrite Htok]. }
  assert (enabled = true -> len token' = NnrpServerConfig.resume_token_bytes sconfig /\ 0 < len token') as Hpos.
  { intros He. destruct Hlen as [Hl _]; [done|apply (conn_random _ _ _ Hc)|done|]. split; [done|]. rewrite Hl.
    unfold enabled, ServerConnection.enables_resume in He. rewrite !andb_true_iff in He. lia. }
  assert (enabled = false -> token' = [] /\ SessionOpenMetadata.resume_token_bytes request <= 0) as Hoff.
  { intros He. split; [by apply Htok|]. destruct (Z.ltb_spec 0 (SessionOpenMetadata.resume_token_bytes request)) as [Hp|]; [|done].
    exfalso. unfold validate_session_recovery_request in Hrr. rewrite (proj2 (Z.ltb_lt _ _) Hp) in Hrr.
    apply then_unit_Ok in Hrr as [Hflag%reject_if_Ok _].
    assert (token <> []) as Hne by (intros Hn; rewrite <- Hbl, Hbody, Hn in Hp; unfold len in Hp; simpl in Hp; lia).
    specialize (Hsup Hne). unfold enabled, ServerConnection.enables_resume in He. rewrite Hflag in He. simpl in He. lia. }
  assert (typed ack = true) as Hat.
  { rewrite Hack. apply open_ack_typed; [done|done|by eapply choice_fits|].
    unfold ServerConnection.MAX_RESUME_TOKEN_BYTES in Hmax. unfold as_u32. change (modulus 4) with (2 ^ 32).
    apply Z.mod_pos_bound. lia. }
  rewrite Hack in Hat, Hab.
  pose proof (open_ack_accepted cconfig resume request sconfig id enabled token' ack_packet Hat Hab Hty Hapb Hmax) as Hacc.
  eexists _, _, _. split; [apply Hacc|split; [done|split; [apply lookup_insert_eq|]]].
  - intros He. by destruct (Hpos He).
  - exact Hoff.
  - destruct enabled; [|destruct (Hoff eq_refl) as [-> _]; unfold len; simpl; lia].
    destruct (Hpos eq_refl). lia.
  - cbn [RuntimeSessionRecord.resume_enabled RuntimeSessionRecord.resume_expires_at_ms].
    clear -enabled. clearbody enabled. destruct enabled; (split; [split; congruence|]); intros t [= <-].
    split; [reflexivity|]. intros now Hnow. by split_and!.
Qed.

End opening.

(** ** The hello *)

Section hello.
Context `{Htarget : Target}.

(** The cache limits of a configuration fit their types too. *)
Definition limits_fit (config : NnrpServerConfig.t) : Prop :=
  0 <= NnrpServerConfig.max_cache_objects config /\
  0 <= NnrpServerConfig.max_cache_object_bytes config < modulus 4.

Lemma land_fits a b n : 0 <= a < modulus n -> 0 <= Z.land a b < modulus n.
Proof.
  intros [Ha Hn]. split; [by apply Z.land_nonneg; left|]. unfold modulus in *.
  assert (0 <= 8 * Z.of_nat n) as Hk by lia.
  assert (Z.land a b = Z.land a b mod 2 ^ (8 * Z.of_nat n)) as ->; [|apply Z.mod_pos_bound; lia].
  rewrite <- Z.land_ones by lia. rewrite <- Z.land_assoc, (Z.land_comm b), Z.land_assoc, Z.land_ones by lia.
  by rewrite Z.mod_small.
Qed.

Lemma land_subset a b : bits_subset (Z.land a b) a.
Proof. intros n Hn. rewrite Z.land_spec. by intros [? _]%andb_prop. Qed.

Lemma modulus_weaken a m n : (m <= n)%nat -> 0 <= a < modulus m -> 0 <= a < modulus n.
Proof.
  intros Hle [Ha Hm]. split; [done|]. eapply Z.lt_le_trans; [exact Hm|].
  unfold modulus. apply Z.pow_le_mono_r; lia.
Qed.

Lemma hello_ack_typed config hello profiles objects :
  config_fits config -> limits_fit config -> typed hello = true ->
  typed (ServerConnection.hello_ack config hello
           (Z.land (ClientHelloMetadata.supported_profile_bitmap hello) profiles) objects) = true.
Proof.
  intros [Hc Hf Hl Hw Ht] [Hco Hcb] Hh. pose proof (fun i w v => typed_field hello i w v Hh) as Hfield.
  pose proof (land_fits _ profiles 4 (Hfield 3%nat 4%nat _ eq_refl)) as Hprof.
  pose proof (modulus_weaken _ 2 4 ltac:(lia) (land_fits _ objects 2 (Hfield 10%nat 2%nat _ eq_refl))) as Hobj.
  pose proof (modulus_weaken _ 2 4 ltac:(lia) (Hfield 9%nat 2%nat _ eq_refl)) as Hdig.
  pose proof (Hfield 4%nat 4%nat _ eq_refl) as H4. pose proof (Hfield 5%nat 4%nat _ eq_refl) as H5.
  pose proof (Hfield 6%nat 4%nat _ eq_refl) as H6. pose proof (Hfield 7%nat 4%nat _ eq_refl) as H7.
  pose proof (Hfield 8%nat 4%nat _ eq_refl) as H8. pose proof (Hfield 12%nat 2%nat _ eq_refl) as H12.
  pose proof (Hfield 15%nat 2%nat _ eq_refl) as H15. pose proof (Hfield 16%nat 2%nat _ eq_refl) as H16.
  pose proof (Hfield 17%nat 2%nat _ eq_refl) as H17. pose proof (Hfield 18%nat 2%nat _ eq_refl) as H18.
  clear Hfield. unfold typed, fields_ok. simpl. unfold field_ok. simpl.
  change (modulus 1) with 256. change (modulus 2) with 65536 in *. change (modulus 4) with 4294967296 in *.
  rewrite !andb_true_iff, !Z.leb_le, !Z.ltb_lt. unfold u32_max.
  split_and!; first [done|lia].
Qed.

(** the server greets every client that has a profile in common with it.  For a
    CLIENT_HELLO that parses and has nothing behind it, with a server whose profiles and cache
    objects have their bits, the server has an answer exactly when the profiles of the two have a
    bit in common; and the client that reads the encoded answer gets it back and finds it
    within what it has offered. *)
Theorem hello_agreed (config : NnrpServerConfig.t) (packet : RuntimePacket.t) (hello : ClientHelloMetadata.t)
    (profiles objects : Z) :
  config_fits config -> limits_fit config ->
  packet_type packet = MessageType.ClientHello -> RuntimePacket.body packet = [] ->
  length (RuntimePacket.metadata packet) = CLIENT_HELLO_METADATA_LEN ->
  ClientHelloMetadata.parse (RuntimePacket.metadata packet) = Ok hello ->
  profile_bitmap (NnrpServerConfig.supported_profiles config) = Ok profiles ->
  cache_object_bitmap (NnrpServerConfig.supported_cache_objects config) = Ok objects ->
  ((exists ack, ServerConnection.answer_hello config packet = Ok ack) <->
   Z.land (ClientHelloMetadata.supported_profile_bitmap hello) profiles <> 0) /\
  forall ack, ServerConnection.answer_hello config packet = Ok ack ->
    exists bs, ServerHelloAckMetadata.to_bytes ack = Ok bs /\
      ServerHelloAckMetadata.parse bs = Ok ack /\
      ServerHelloAckMetadata.validate_against_client_hello ack hello = Ok tt.
Proof.
  intros Hfit Hlim Hty Hbody Hlen Hparse Hprof Hobj.
  pose proof (law_parse_sound (A := ClientHelloMetadata.t) (RuntimePacket.metadata packet) hello) as Hs.
  destruct (Hs Hparse) as [Hv _]. clear Hs.
  apply andb_prop in Hv as [Hth Hg].
  set (ack := ServerConnection.hello_ack config hello
                (Z.land (ClientHelloMetadata.supported_profile_bitmap hello) profiles) objects).
  assert (typed ack = true) as Hta by (by apply hello_ack_typed).
  assert (ClientHelloMetadata.validate_capability_window hello = Ok tt) as Hwin.
  { change (is_ok (ClientHelloMetadata.validate_capability_window hello) = true) in Hg.
    by destruct (ClientHelloMetadata.validate_capability_window hello) as [[]|e|]. }
  apply capability_window_Ok in Hwin as (Hver & Hwire & _).
  assert (ServerHelloAckMetadata.validate_against_client_hello ack hello = Ok tt) as Hval.
  { apply hello_ack_Ok; [done|]. split; [exact (conj Hver (conj eq_refl Hwire))|].
    unfold grants_within_offer. split_and!; first [apply land_subset|by intros ?]. }
  assert (ServerConnection.answer_hello config packet =
    (_ ← reject_if (Z.land (ClientHelloMetadata.supported_profile_bitmap hello) profiles =? 0)
       (UnexpectedMessage "CLIENT_HELLO has no server-supported profile"); Ok ack)) as Hans.
  { unfold ServerConnection.answer_hello, require_bodyless. rewrite bool_decide_true by done.
    unfold len. rewrite Hlen, Hbody, Hparse, Hprof, Hobj. unfold mbind, outcome_bind. cbv zeta.
    change (length (@nil byte)) with 0%nat. rewrite !Z.eqb_refl. cbn [negb orb reject_if protocol map_err].
    fold ack. rewrite Hval. cbn [protocol map_err]. by destruct (Z.land _ profiles =? 0). }
  split.
  - rewrite Hans. destruct (Z.eqb_spec (Z.land (ClientHelloMetadata.supported_profile_bitmap hello) profiles) 0); simpl.
    + split; [by intros [? [=]]|done].
    + split; [done|]. by exists ack.
  - intros ack'. rewrite Hans. intros (? & _ & [= <-])%bind_Ok.
    destruct (strict_round_trip ack Hta) as [(bs & Hb & Hp)|(e & _ & Hinv)].
    + exists bs. exact (conj Hb (conj Hp Hval)).
    + unfold valid in Hinv. rewrite Hta in Hinv.
      change (mask_ok 32 0 SERVER_HELLO_ACK_FLAGS_KNOWN_MASK = false) in Hinv. discriminate Hinv.
Qed.
End hello.

(** ** Probes *)

Section probes.
Context `{Htarget : Target}.

Lemma packet_new_small header metadata body :
  len metadata + len body <= 65536 ->
  exists packet, RuntimePacket.new header metadata body = Ok packet.
Proof.
  intros Hl. pose proof usize_max_u32 as Hu.
  assert (0 <= len metadata /\ 0 <= len body) as [Hm Hb] by (unfold len; lia).
  eexists. apply RuntimePacket.new_Ok. split; [reflexivity|].
  change (packet_fits _) with (len metadata + len body <= u32_max /\
    Z.of_nat COMMON_HEADER_LEN + (len metadata + len body) <= usize_max).
  change (Z.of_nat COMMON_HEADER_LEN) with 40. unfold u32_max in *. lia.
Qed.

(** the server answers the probes of a client.  The probe that a client writes to a
    connection is answered by the server with one packet when the connection takes it, and the
    client that reads this packet accepts it as the answer to that probe and to no other. *)
Theorem probe_agreed (probe_id now : Z) (metadata : bytes) (packet : RuntimePacket.t)
    (c : ServerConnection.t) (writes : list (RT unit)) :
  0 <= probe_id < modulus 4 -> 0 <= now < modulus 8 ->
  0 <= default 0 (head (ServerConnection.clock_us c)) < modulus 8 ->
  TransportProbeMetadata.to_bytes (probe_metadata probe_id now) = Ok metadata ->
  probe_packet metadata = Ok packet ->
  MultiplexedConnection.writes (ServerConnection.connection c) = Ok tt :: writes ->
  exists c' ack, returns (ServerConnection.respond_to_connection_probe packet) c tt c' /\
    MultiplexedConnection.written (ServerConnection.connection c') =
      MultiplexedConnection.written (ServerConnection.connection c) ++ [ack] /\
    forall id, probe_answer id ack = Ok tt <-> id = probe_id.
Proof.
  intros Hid Hnow Hclock Hmd Hpk Hw.
  assert (valid (probe_metadata probe_id now) = true) as Hvalid.
  { unfold valid, typed, fields_ok. cbn -[modulus]. unfold field_ok. cbn -[modulus].
    rewrite !andb_true_iff, !Z.leb_le, !Z.ltb_lt. by split_and!; try lia. }
  pose proof (to_bytes_valid (probe_metadata probe_id now) Hvalid) as Hwire.
  change (codec_to_bytes (probe_metadata probe_id now)) with
    (TransportProbeMetadata.to_bytes (probe_metadata probe_id now)) in Hwire.
  rewrite Hmd in Hwire. injection Hwire as ->.
  apply protocol_Ok, packet_new_header in Hpk as (Hh & Hm & Hb).
  set (m := TransportProbeAckMetadata.mk probe_id (default 0 (head (ServerConnection.clock_us c)))).
  assert (valid m = true) as Hack.
  { unfold valid, typed, fields_ok. cbn -[modulus]. unfold field_ok. cbn -[modulus].
    rewrite !andb_true_iff, !Z.leb_le, !Z.ltb_lt. by split_and!; try lia. }
  destruct (packet_new_small (CommonHeader.new MessageType.TransportProbeAck 0 0) (wire m) []) as [ack Ha].
  { pose proof (length_wire m) as Hl. unfold len. rewrite Hl. vm_compute. discriminate. }
  pose proof (packet_new_header _ _ _ _ Ha) as (Hh' & Hm' & _).
  exists (ServerConnection.mk (MultiplexedConnection.mk writes
      (MultiplexedConnection.controls (ServerConnection.connection c))
      (MultiplexedConnection.registrations (ServerConnection.connection c))
      (MultiplexedConnection.written (ServerConnection.connection c) ++ [ack]))
    (ServerConnection.closes c) (ServerConnection.sessions c) (ServerConnection.accepted_sessions c)
    (ServerConnection.listening c) (ServerConnection.clock c) (tail (ServerConnection.clock_us c))
    (ServerConnection.random c) (ServerConnection.others c)), ack.
  split_and!; [|done|].
  - unfold ServerConnection.respond_to_connection_probe. apply returns_bind. exists (probe_metadata probe_id now), c.
    pose proof (law_parse_wire (A := TransportProbeMetadata.t) (probe_metadata probe_id now) [] Hvalid) as Hparse.
    rewrite app_nil_r, <- Hm in Hparse.
    split; [apply returns_lift; split; [by apply protocol_Ok|done]|].
    cbv zeta. apply returns_bind. exists tt, c. split; [apply returns_lift; split; [|done]|].
    { apply reject_if_Ok, negb_false_iff, Z.eqb_eq. rewrite Hb. unfold len. by rewrite length_replicate. }
    apply returns_bind. exists (default 0 (head (ServerConnection.clock_us c))),
      (ServerConnection.mk (ServerConnection.connection c) (ServerConnection.closes c) (ServerConnection.sessions c)
        (ServerConnection.accepted_sessions c) (ServerConnection.listening c) (ServerConnection.clock c)
        (tail (ServerConnection.clock_us c)) (ServerConnection.random c) (ServerConnection.others c)).
    split; [unfold returns, ServerConnection.unix_time_us; destruct c as [? ? ? ? ? ? [|? ?] ? ?]; reflexivity|].
    unfold ServerConnection.write. apply returns_bind. exists (wire m). eexists.
    split; [apply returns_lift; split; [|reflexivity]; apply protocol_Ok; exact (to_bytes_valid m Hack)|].
    apply returns_bind. exists ack. eexists. split; [apply returns_lift; split; [by apply protocol_Ok|reflexivity]|].
    unfold returns, ServerConnection.on_connection, MultiplexedConnection.write_packet.
    cbn [ServerConnection.connection]. by rewrite Hw.
  - intros id. unfold probe_answer. unfold packet_type. rewrite Hh', Hm'.
    pose proof (length_wire m) as Hl. unfold len at 1. rewrite Hl.
    pose proof (law_parse_wire (A := TransportProbeAckMetadata.t) m [] Hack) as Hparse. rewrite app_nil_r in Hparse.
    change (TransportProbeAckMetadata.parse (wire m) = Ok m) in Hparse. rewrite Hparse.
    rewrite then_unit_Ok, reject_if_Ok. cbn [protocol map_err mbind outcome_bind].
    rewrite reject_if_Ok, negb_false_iff, Z.eqb_eq. split; [by intros [_ <-]|by intros ->].
Qed.
End probes.

(** ** An example: a session that may be resumed *)

Module OpeningExample.

#[local] Existing Instance target64.

(** The default client, which wants to be able to resume. *)
Definition cconfig : NnrpClientConfig.t :=
  let c := NnrpClientConfig.default in
  NnrpClientConfig.mk (NnrpClientConfig.requested_session_id c) (NnrpClientConfig.profile_id c)
    (NnrpClientConfig.schema_id c) (NnrpClientConfig.schema_version c) (NnrpClientConfig.priority_class c)
    (NnrpClientConfig.default_deadline_ms c) (NnrpClientConfig.max_in_flight_operations c)
    (NnrpClientConfig.lease_ttl_hint_ms c) true (NnrpClientConfig.resume_token_bytes c)
    (NnrpClientConfig.cache_hints c).

Definition request : SessionOpenMetadata.t :=
  match session_open_metadata cconfig 0 with Ok m => m | _ => ServerExample.open_metadata 0 end.

Definition packet : RuntimePacket.t :=
  ClientOpenTheory.Example.packet_of MessageType.SessionOpen 0 0 (wire request) [].

Definition connection : ServerConnection.t :=
  let c := ServerExample.connection [] (ServerExample.transport [] 0) in
  ServerConnection.mk (ServerConnection.connection c) (ServerConnection.closes c) (ServerConnection.sessions c)
    (ServerConnection.accepted_sessions c) (ServerConnection.listening c) (ServerConnection.clock c)
    (ServerConnection.clock_us c) [fun n => Some (replicate n x07)] (ServerConnection.others c).

Lemma resumable_connection_ok : conn_ok (fun _ => True) (fun _ => True) connection.
Proof.
  destruct (ServerExample.connection_ok [] (ServerExample.transport [] 0) (fun _ => True) (fun _ => True))
    as [Hb Hf Hcl _ Hreg Hoth Hacc]; [by constructor|by repeat constructor|reflexivity|exact I..|].
  split; [exact Hb|exact Hf|exact Hcl| |exact Hreg|exact Hoth|exact Hacc].
  apply Forall_singleton. intros n bs [= <-]. apply length_replicate.
Qed.

Definition accepted : ServerConnection.t :=
  (ServerConnection.accept_connection_session TransportId.Tcp 9 ServerExample.config packet connection).2.

Definition ack_packet : RuntimePacket.t :=
  List.last (MultiplexedConnection.written (ServerConnection.connection accepted)) packet.

Lemma example_config_fits : config_fits ServerExample.config.
Proof. by split. Qed.

End OpeningExample.

Lemma session_agreed_witness :
  exists ack ticket, NnrpClient.accept_open_ack (Htarget := target64) OpeningExample.cconfig None
    OpeningExample.request OpeningExample.ack_packet = Ok (ack, ticket) /\
    SessionOpenAckMetadata.session_id ack = 2.
Proof.
  destruct (session_agreed (Htarget := target64) OpeningExample.cconfig None OpeningExample.request
    OpeningExample.packet OpeningExample.ack_packet ServerExample.config OpeningExample.connection
    OpeningExample.accepted TransportId.Tcp 9 2) as (ack & ticket & record & Ha & Hid & _).
  - vm_compute. reflexivity.
  - vm_compute. reflexivity.
  - vm_compute. reflexivity.
  - reflexivity.
  - exact OpeningExample.resumable_connection_ok.
  - exact OpeningExample.example_config_fits.
  - vm_compute. reflexivity.
  - vm_compute. reflexivity.
  - vm_compute. discriminate.
  - vm_compute. discriminate.
  - left. vm_compute. discriminate.
  - exists ack, ticket. split; [exact Ha|exact Hid].
Defined.

Lemma hello_agreed_witness :
  exists ack, ServerConnection.answer_hello ServerExample.config ServerExample.hello_packet = Ok ack.
Proof.
  apply (hello_agreed ServerExample.config ServerExample.hello_packet
    (NnrpClient.hello_metadata NnrpClientConfig.default 0) 2 0).
  - exact OpeningExample.example_config_fits.
  - split; vm_compute; [discriminate|split; [discriminate|reflexivity]].
  - reflexivity.
  - reflexivity.
  - vm_compute. reflexivity.
  - vm_compute. reflexivity.
  - vm_compute. reflexivity.
  - vm_compute. reflexivity.
  - vm_compute. discriminate.
Defined.

(** The first probe of a client, at a server whose connection takes one packet. *)
Module ProbeExample.

Definition metadata : bytes :=
  match TransportProbeMetadata.to_bytes (probe_metadata 1 5) with Ok bs => bs | _ => [] end.

Lemma probe_built : exists packet, probe_packet (Htarget := target64) metadata = Ok packet.
Proof.
  destruct (packet_new_small (Htarget := target64) (CommonHeader.new MessageType.TransportProbe 0 0) metadata
    (replicate (Z.to_nat PROBE_PAYLOAD_BYTES) x00)) as [packet Hp].
  - unfold len. rewrite length_replicate. change (length metadata) with 16%nat. unfold PROBE_PAYLOAD_BYTES. lia.
  - exists packet. by apply protocol_Ok.
Qed.

Definition connection : ServerConnection.t := ServerExample.connection [] (ServerExample.transport [] 0).

End ProbeExample.

Lemma probe_agreed_witness : exists ack, probe_answer 1 ack = Ok tt.
Proof.
  destruct ProbeExample.probe_built as [packet Hp].
  destruct (probe_agreed (Htarget := target64) 1 5 ProbeExample.metadata packet ProbeExample.connection
    (tail (MultiplexedConnection.writes (ServerConnection.connection ProbeExample.connection))))
    as (c' & ack & _ & _ & H).
  - vm_compute. split; [discriminate|reflexivity].
  - vm_compute. split; [discriminate|reflexivity].
  - vm_compute. split; [discriminate|reflexivity].
  - vm_compute. reflexivity.
  - exact Hp.
  - vm_compute. reflexivity.
  - exists ack. apply H. reflexivity.
Defined.
