(* ===== verification/FfiTypes.v ===== *)
(** The data of the C interface ([src/crates/nnrp-ffi/src/lib.rs], with the statuses of
    transport.rs beside it): statuses, handles, views of memory, and the C structs that mirror
    the structs of the core, with their conversions. *)

From S2P Require Import Prelude Bytes Errors Enums Wire Codes Object Cache Data Schema Control RuntimeControl Recovery RuntimeError.

Local Open Scope Z_scope.

(** ** Statuses *)

Module NnrpFfiStatusCode.

Inductive t :=
| Ok | InvalidArgument | InvalidHandle | InvalidState | ProtocolError | WouldBlock
| CallbackRejected | InternalError.

Definition repr (x : t) : Z :=
  match x with
  | Ok => 0
  | InvalidArgument => 1
  | InvalidHandle => 2
  | InvalidState => 3
  | ProtocolError => 4
  | WouldBlock => 5
  | CallbackRejected => 6
  | InternalError => 0xffff
  end.

End NnrpFfiStatusCode.

Module NnrpErrorFamily.

Inductive t :=
| None | Session | Cache | Schema | Transport | Lifecycle | Operation | Control | RuntimeObject
| Internal.

Definition repr (x : t) : Z :=
  match x with
  | None => 0
  | Session => 1
  | Cache => 2
  | Schema => 3
  | Transport => 4
  | Lifecycle => 5
  | Operation => 6
  | Control => 7
  | RuntimeObject => 8
  | Internal => 0xffff
  end.

End NnrpErrorFamily.

Definition ffi_error_family_for_enum (enum_name : string) : option NnrpErrorFamily.t :=
  if bool_decide (enum_name ∈ ["result_hint_budget_policy"; "result_hint_congestion_state";
                               "result_hint_reason"; "session_patch_ack_status";
                               "session_patch_reject_reason"; "error_scope"; "pressure_level"])
  then Some NnrpErrorFamily.Control
  else if bool_decide (enum_name ∈ ["runtime_object_kind"; "runtime_role"; "memory_location_hint";
                                    "ownership_hint"; "object_release_reason"; "cache_reuse_scope";
                                    "cache_miss_reason"])
  then Some NnrpErrorFamily.RuntimeObject
  else if bool_decide (enum_name ∈ ["cache_object_kind"; "cache_ack_status"; "cache_invalidate_scope"])
  then Some NnrpErrorFamily.Cache
  else if bool_decide (enum_name = "transport_id") then Some NnrpErrorFamily.Transport
  else None.

Definition ffi_error_family_for_named_field (field : string) : option NnrpErrorFamily.t :=
  let starts_with prefix := String.prefix prefix field in
  if existsb starts_with ["control_"; "result_hint"; "session_patch"; "scheduling"; "partial_result";
                          "pressure"; "capability"; "route_hint"; "trace_context"; "drop_reason";
                          "supersede"]
  then Some NnrpErrorFamily.Control
  else if existsb starts_with ["object_"; "cache_reference"; "cache_miss"]
  then Some NnrpErrorFamily.RuntimeObject
  else if starts_with "cache_" then Some NnrpErrorFamily.Cache
  else None.

Module NnrpFfiStatus.

Record t := mk {
  status_code : Z;
  error_family : Z;
  protocol_error_code : Z;
  detail_code : Z
}.

#[global] Instance eq_dec : EqDecision t.
Proof. solve_decision. Defined.

Definition make (code : NnrpFfiStatusCode.t) (family : NnrpErrorFamily.t) (protocol_error_code detail_code : Z) : t :=
  mk (NnrpFfiStatusCode.repr code) (NnrpErrorFamily.repr family) protocol_error_code detail_code.

Definition ok : t := make NnrpFfiStatusCode.Ok NnrpErrorFamily.None 0 0.

Definition invalid_argument (detail_code : Z) : t :=
  make NnrpFfiStatusCode.InvalidArgument NnrpErrorFamily.None 0 detail_code.

Definition invalid_handle (detail_code : Z) : t :=
  make NnrpFfiStatusCode.InvalidHandle NnrpErrorFamily.Lifecycle 0 detail_code.

Definition invalid_state (detail_code : Z) : t :=
  make NnrpFfiStatusCode.InvalidState NnrpErrorFamily.Lifecycle 0 detail_code.

Definition protocol (error_family : NnrpErrorFamily.t) (protocol_error_code : Z) : t :=
  make NnrpFfiStatusCode.ProtocolError error_family protocol_error_code 0.

Definition from_core_error (error : NnrpError) : t :=
  match error with
  | InvalidProtocolCombination _ | InvalidOperationRelationship _ | InvalidOperationTransition _ _ =>
      protocol NnrpErrorFamily.Lifecycle 0
  | InvalidCapabilityTokenBody _ | InvalidCapabilityToken _ | UnknownCapabilityToken _ =>
      protocol NnrpErrorFamily.Control 0
  | UnknownEnumValue enum_name _ =>
      protocol (default NnrpErrorFamily.Transport (ffi_error_family_for_enum enum_name)) 0
  | NonZeroReservedField field =>
      protocol (default NnrpErrorFamily.Transport (ffi_error_family_for_named_field field)) 0
  | DeclaredLengthMismatch field _ _ =>
      protocol (default NnrpErrorFamily.Transport (ffi_error_family_for_named_field field)) 0
  | ReservedBitsSet _ _ | UnsupportedWireFormat _ | UnsupportedVersionMajor _ | UnknownMessageType _
  | InvalidMagic | InvalidHeaderLength _ | PacketLengthMismatch _ _ | MessageLengthOverflow =>
      protocol NnrpErrorFamily.Transport 0
  | SourceTooShort _ _ | DestinationTooShort _ _ => invalid_argument 0
  | ConnectionNotOpen | ConnectionAlreadyClosed | SessionAlreadyExists _ | UnknownSession _
  | SessionNotOpen _ | OperationAlreadyExists _ | UnknownOperation _ => invalid_state 0
  end.

End NnrpFfiStatus.

(** [Result<A, NnrpFfiStatus>]. *)
Abbreviation FF := (Outcome NnrpFfiStatus.t).

(** [.map_err(|error| NnrpFfiStatus::from_core_error(&error))]. *)
Definition core {A} (o : R A) : FF A := map_err NnrpFfiStatus.from_core_error o.

Lemma core_Ok {A} (o : R A) a : core o = Ok a <-> o = Ok a.
Proof. apply map_err_Ok. Qed.

Definition transport_status (code : NnrpFfiStatusCode.t) (detail_code : Z) : NnrpFfiStatus.t :=
  NnrpFfiStatus.make code NnrpErrorFamily.Transport 0 detail_code.

Definition status_from_runtime_error (error : RuntimeError) : NnrpFfiStatus.t :=
  match error with
  | Protocol error => NnrpFfiStatus.from_core_error error
  | UnsupportedTransport _ | FrameTooLarge _ _ | RouteConfiguration _ | DuplicateTransportProvider _
  | DuplicateServerTransportProvider _ | DuplicateClientProviderId _ | DuplicateServerProviderId _
  | ServerRouteRejected _ _ _ | InvalidRecoveryTicket _ =>
      transport_status NnrpFfiStatusCode.InvalidArgument 104
  | SessionRejected code _ =>
      NnrpFfiStatus.make NnrpFfiStatusCode.ProtocolError NnrpErrorFamily.Session code 108
  | TransportClosed _ _ | UnexpectedMessage _ | TransportSelectionFailed _
  | SelectedProviderUnavailable _ | ServerListenerSetClosed =>
      transport_status NnrpFfiStatusCode.InvalidState 105
  | ServerAcceptTimeout => transport_status NnrpFfiStatusCode.WouldBlock 1
  | Io _ | FrameIdOverflow | Internal _ => transport_status NnrpFfiStatusCode.InternalError 106
  end.

Definition schema_registry_failure_status (failure : SchemaRegistryFailure.t) : NnrpFfiStatus.t :=
  NnrpFfiStatus.protocol NnrpErrorFamily.Schema (SchemaRegistryFailure.error_code failure).

Definition cache_validation_failure_status (failure : CacheValidationFailure.t) : NnrpFfiStatus.t :=
  NnrpFfiStatus.protocol NnrpErrorFamily.Cache (CacheValidationFailure.error_code failure).

Definition schema_registry_action_code (action : SchemaRegistryAction.t) : Z :=
  match action with
  | SchemaRegistryAction.Installed => 0
  | SchemaRegistryAction.AlreadyInstalled => 1
  | SchemaRegistryAction.Updated => 2
  | SchemaRegistryAction.Invalidated => 3
  end.

(** ** Handles *)

Module NnrpHandleKind.

Inductive t :=
| Invalid | Connection | Session | Operation | EventPump | Buffer | SchemaRegistry | CacheLease
| ObjectDescriptor | CacheReferenceDescriptor | TransportConnection | TransportListener
| TransportSecurityConfig | ServerAccept.

Definition repr (x : t) : Z :=
  match x with
  | Invalid => 0
  | Connection => 1
  | Session => 2
  | Operation => 3
  | EventPump => 4
  | Buffer => 5
  | SchemaRegistry => 6
  | CacheLease => 7
  | ObjectDescriptor => 8
  | CacheReferenceDescriptor => 9
  | TransportConnection => 10
  | TransportListener => 11
  | TransportSecurityConfig => 12
  | ServerAccept => 13
  end.

#[global] Instance eq_dec : EqDecision t.
Proof. solve_decision. Defined.

#[global] Instance repr_inj : Inj (=) (=) repr.
Proof. by intros [] []. Qed.

End NnrpHandleKind.

Module NnrpHandle.

Record t := mk { kind : Z; id : Z; generation : Z; flags : Z }.

#[global] Instance eq_dec : EqDecision t.
Proof. solve_decision. Defined.

Definition invalid : t := mk (NnrpHandleKind.repr NnrpHandleKind.Invalid) 0 0 0.

Definition new (kind : NnrpHandleKind.t) (id generation : Z) : t :=
  mk (NnrpHandleKind.repr kind) id generation 0.

Definition validate_kind (self : t) (k : NnrpHandleKind.t) : FF unit :=
  reject_if (negb (kind self =? NnrpHandleKind.repr k) || (id self =? 0) || (generation self =? 0))
    (NnrpFfiStatus.invalid_handle (NnrpHandleKind.repr k)).

Definition normalized (self : t) : t := mk (kind self) (id self) (generation self) 0.

(** The key of the table of entries. *)
Definition key (self : t) : Z * Z := (kind self, id self).

End NnrpHandle.

(** ** Memory

    A pointer that C passes points to memory of the host, whose readable bytes are known to the
    caller, or to the bytes of an entry of the store, which the library has handed out. *)

Module Pointer.

Inductive t := Null | Host (memory : bytes) | Owned (key : Z * Z).

Definition is_null (self : t) : bool := match self with Null => true | _ => false end.

End Pointer.

(** A pointer to a place for a result. *)
Inductive Out := NullOut | Writable.

Definition is_null_out (out : Out) : bool := match out with NullOut => true | Writable => false end.

Module NnrpBufferView.

Record t := mk { ptr : Pointer.t; len : Z }.

Definition empty : t := mk Pointer.Null 0.

Definition validate (self : t) : FF unit :=
  reject_if ((0 <? len self) && Pointer.is_null (ptr self)) (NnrpFfiStatus.invalid_argument 1).

End NnrpBufferView.

(** ** Structs of the C interface

    [from_core] is the conversion from the struct of the core, [to_core] the one to it. *)

Module NnrpSchemaDescriptorHeader.

Record t := mk {
  schema_id : Z;
  schema_version : Z;
  profile_id : Z;
  schema_flags : Z;
  min_version_major : Z;
  max_version_major : Z;
  reserved0 : Z;
  body_bytes : Z;
  dependency_count : Z;
  default_stream_semantics : Z;
  schema_hash : Z
}.

Definition from_core (value : SchemaDescriptorHeader.t) : t := {|
  schema_id := SchemaDescriptorHeader.schema_id value;
  schema_version := SchemaDescriptorHeader.schema_version value;
  profile_id := SchemaDescriptorHeader.profile_id value;
  schema_flags := SchemaDescriptorHeader.schema_flags value;
  min_version_major := SchemaDescriptorHeader.min_version_major value;
  max_version_major := SchemaDescriptorHeader.max_version_major value;
  reserved0 := 0;
  body_bytes := SchemaDescriptorHeader.body_bytes value;
  dependency_count := SchemaDescriptorHeader.dependency_count value;
  default_stream_semantics := SchemaDescriptorHeader.default_stream_semantics value;
  schema_hash := SchemaDescriptorHeader.schema_hash value |}.

Definition to_core (value : t) : FF SchemaDescriptorHeader.t :=
  _ ← core (reject_if (negb (reserved0 value =? 0)) (NonZeroReservedField "schema_descriptor.reserved0"));
  Ok {|
    SchemaDescriptorHeader.schema_id := schema_id value;
    SchemaDescriptorHeader.schema_version := schema_version value;
    SchemaDescriptorHeader.profile_id := profile_id value;
    SchemaDescriptorHeader.schema_flags := schema_flags value;
    SchemaDescriptorHeader.min_version_major := min_version_major value;
    SchemaDescriptorHeader.max_version_major := max_version_major value;
    SchemaDescriptorHeader.body_bytes := body_bytes value;
    SchemaDescriptorHeader.dependency_count := dependency_count value;
    SchemaDescriptorHeader.default_stream_semantics := default_stream_semantics value;
    SchemaDescriptorHeader.schema_hash := schema_hash value |}.

End NnrpSchemaDescriptorHeader.

Module NnrpCacheObjectId.

Record t := mk {
  cache_namespace : Z;
  object_kind : Z;
  cache_key_hi : Z;
  cache_key_lo : Z
}.

Definition from_core (value : CacheObjectId.t) : t := {|
  cache_namespace := CacheObjectId.cache_namespace value;
  object_kind := CacheObjectKind.repr (CacheObjectId.object_kind value);
  cache_key_hi := CacheObjectId.cache_key_hi value;
  cache_key_lo := CacheObjectId.cache_key_lo value |}.

Definition to_core (value : t) : FF CacheObjectId.t :=
  object_kind ← core (CacheObjectKind.try_from_u32 (object_kind value));
  Ok {|
    CacheObjectId.cache_namespace := cache_namespace value;
    CacheObjectId.cache_key_hi := cache_key_hi value;
    CacheObjectId.cache_key_lo := cache_key_lo value;
    CacheObjectId.object_kind := object_kind |}.

End NnrpCacheObjectId.

Module NnrpRuntimeObjectDescriptor.

Record t := mk {
  object_id : Z;
  object_kind : Z;
  producer_role : Z;
  consumer_role : Z;
  session_id : Z;
  byte_size : Z;
  compute_cost_units : Z;
  memory_location_hint : Z;
  ownership_hint : Z;
  lifetime_hint_ms : Z;
  metadata_bytes : Z
}.

Definition from_core (value : ObjectDescriptorMetadata.t) : t := {|
  object_id := ObjectDescriptorMetadata.object_id value;
  object_kind := RuntimeObjectKind.repr (ObjectDescriptorMetadata.object_kind value);
  producer_role := RuntimeRole.repr (ObjectDescriptorMetadata.producer_role value);
  consumer_role := RuntimeRole.repr (ObjectDescriptorMetadata.consumer_role value);
  session_id := ObjectDescriptorMetadata.session_id value;
  byte_size := ObjectDescriptorMetadata.byte_size value;
  compute_cost_units := ObjectDescriptorMetadata.compute_cost_units value;
  memory_location_hint := MemoryLocationHint.repr (ObjectDescriptorMetadata.memory_location_hint value);
  ownership_hint := OwnershipHint.repr (ObjectDescriptorMetadata.ownership_hint value);
  lifetime_hint_ms := ObjectDescriptorMetadata.lifetime_hint_ms value;
  metadata_bytes := ObjectDescriptorMetadata.metadata_bytes value |}.

Definition to_core (value : t) : FF ObjectDescriptorMetadata.t :=
  object_kind ← core (RuntimeObjectKind.try_from_u16 (object_kind value));
  producer_role ← core (RuntimeRole.try_from_u8 (producer_role value));
  consumer_role ← core (RuntimeRole.try_from_u8 (consumer_role value));
  memory_location_hint ← core (MemoryLocationHint.try_from_u16 (memory_location_hint value));
  ownership_hint ← core (OwnershipHint.try_from_u16 (ownership_hint value));
  Ok {|
    ObjectDescriptorMetadata.object_id := object_id value;
    ObjectDescriptorMetadata.object_kind := object_kind;
    ObjectDescriptorMetadata.producer_role := producer_role;
    ObjectDescriptorMetadata.consumer_role := consumer_role;
    ObjectDescriptorMetadata.session_id := session_id value;
    ObjectDescriptorMetadata.byte_size := byte_size value;
    ObjectDescriptorMetadata.compute_cost_units := compute_cost_units value;
    ObjectDescriptorMetadata.memory_location_hint := memory_location_hint;
    ObjectDescriptorMetadata.ownership_hint := ownership_hint;
    ObjectDescriptorMetadata.lifetime_hint_ms := lifetime_hint_ms value;
    ObjectDescriptorMetadata.metadata_bytes := metadata_bytes value |}.

End NnrpRuntimeObjectDescriptor.

Module NnrpObjectReferenceDescriptor.

Record t := mk {
  object_id : Z;
  operation_id : Z;
  object_version : Z;
  offset : Z;
  length : Z;
  flags : Z;
  metadata_bytes : Z
}.

Definition from_core (value : ObjectReferenceMetadata.t) : t := {|
  object_id := ObjectReferenceMetadata.object_id value;
  operation_id := ObjectReferenceMetadata.operation_id value;
  object_version := ObjectReferenceMetadata.object_version value;
  offset := ObjectReferenceMetadata.offset value;
  length := ObjectReferenceMetadata.length value;
  flags := ObjectReferenceMetadata.flags value;
  metadata_bytes := ObjectReferenceMetadata.metadata_bytes value |}.

Definition to_core (value : t) : ObjectReferenceMetadata.t := {|
    ObjectReferenceMetadata.object_id := object_id value;
    ObjectReferenceMetadata.operation_id := operation_id value;
    ObjectReferenceMetadata.object_version := object_version value;
    ObjectReferenceMetadata.offset := offset value;
    ObjectReferenceMetadata.length := length value;
    ObjectReferenceMetadata.flags := flags value;
    ObjectReferenceMetadata.metadata_bytes := metadata_bytes value |}.

End NnrpObjectReferenceDescriptor.

Module NnrpObjectReleaseDescriptor.

Record t := mk {
  object_id : Z;
  operation_id : Z;
  release_reason : Z;
  source_role : Z;
  flags : Z;
  diagnostic_bytes : Z
}.

Definition from_core (value : ObjectReleaseMetadata.t) : t := {|
  object_id := ObjectReleaseMetadata.object_id value;
  operation_id := ObjectReleaseMetadata.operation_id value;
  release_reason := ObjectReleaseReason.repr (ObjectReleaseMetadata.release_reason value);
  source_role := RuntimeRole.repr (ObjectReleaseMetadata.source_role value);
  flags := ObjectReleaseMetadata.flags value;
  diagnostic_bytes := ObjectReleaseMetadata.diagnostic_bytes value |}.

Definition to_core (value : t) : FF ObjectReleaseMetadata.t :=
  release_reason ← core (ObjectReleaseReason.try_from_u16 (release_reason value));
  source_role ← core (RuntimeRole.try_from_u8 (source_role value));
  Ok {|
    ObjectReleaseMetadata.object_id := object_id value;
    ObjectReleaseMetadata.operation_id := operation_id value;
    ObjectReleaseMetadata.release_reason := release_reason;
    ObjectReleaseMetadata.source_role := source_role;
    ObjectReleaseMetadata.flags := flags value;
    ObjectReleaseMetadata.diagnostic_bytes := diagnostic_bytes value |}.

End NnrpObjectReleaseDescriptor.

Module NnrpObjectDeltaDescriptor.

Record t := mk {
  object_id : Z;
  delta_sequence : Z;
  region_offset : Z;
  region_bytes : Z;
  delta_bytes : Z;
  flags : Z;
  metadata_bytes : Z
}.

Definition from_core (value : ObjectDeltaMetadata.t) : t := {|
  object_id := ObjectDeltaMetadata.object_id value;
  delta_sequence := ObjectDeltaMetadata.delta_sequence value;
  region_offset := ObjectDeltaMetadata.region_offset value;
  region_bytes := ObjectDeltaMetadata.region_bytes value;
  delta_bytes := ObjectDeltaMetadata.delta_bytes value;
  flags := ObjectDeltaMetadata.flags value;
  metadata_bytes := ObjectDeltaMetadata.metadata_bytes value |}.

Definition to_core (value : t) : ObjectDeltaMetadata.t := {|
    ObjectDeltaMetadata.object_id := object_id value;
    ObjectDeltaMetadata.delta_sequence := delta_sequence value;
    ObjectDeltaMetadata.region_offset := region_offset value;
    ObjectDeltaMetadata.region_bytes := region_bytes value;
    ObjectDeltaMetadata.delta_bytes := delta_bytes value;
    ObjectDeltaMetadata.flags := flags value;
    ObjectDeltaMetadata.metadata_bytes := metadata_bytes value |}.

End NnrpObjectDeltaDescriptor.

Module NnrpCacheReferenceDescriptor.

Record t := mk {
  cache_namespace : Z;
  profile_id : Z;
  reuse_scope : Z;
  cache_key_hi : Z;
  cache_key_lo : Z;
  lease_id : Z;
  producer_trace_id : Z;
  expiration_hint_ms : Z;
  metadata_bytes : Z;
  flags : Z
}.

Definition from_core (value : CacheReferenceMetadata.t) : t := {|
  cache_namespace := CacheReferenceMetadata.cache_namespace value;
  profile_id := CacheReferenceMetadata.profile_id value;
  reuse_scope := CacheReuseScope.repr (CacheReferenceMetadata.reuse_scope value);
  cache_key_hi := CacheReferenceMetadata.cache_key_hi value;
  cache_key_lo := CacheReferenceMetadata.cache_key_lo value;
  lease_id := CacheReferenceMetadata.lease_id value;
  producer_trace_id := CacheReferenceMetadata.producer_trace_id value;
  expiration_hint_ms := CacheReferenceMetadata.expiration_hint_ms value;
  metadata_bytes := CacheReferenceMetadata.metadata_bytes value;
  flags := CacheReferenceMetadata.flags value |}.

Definition to_core (value : t) : FF CacheReferenceMetadata.t :=
  reuse_scope ← core (CacheReuseScope.try_from_u16 (reuse_scope value));
  Ok {|
    CacheReferenceMetadata.cache_namespace := cache_namespace value;
    CacheReferenceMetadata.cache_key_hi := cache_key_hi value;
    CacheReferenceMetadata.cache_key_lo := cache_key_lo value;
    CacheReferenceMetadata.profile_id := profile_id value;
    CacheReferenceMetadata.reuse_scope := reuse_scope;
    CacheReferenceMetadata.lease_id := lease_id value;
    CacheReferenceMetadata.producer_trace_id := producer_trace_id value;
    CacheReferenceMetadata.expiration_hint_ms := expiration_hint_ms value;
    CacheReferenceMetadata.metadata_bytes := metadata_bytes value;
    CacheReferenceMetadata.flags := flags value |}.

End NnrpCacheReferenceDescriptor.

Module NnrpCacheMissDescriptor.

Record t := mk {
  cache_namespace : Z;
  miss_reason : Z;
  profile_id : Z;
  cache_key_hi : Z;
  cache_key_lo : Z;
  diagnostic_bytes : Z
}.

Definition from_core (value : CacheMissMetadata.t) : t := {|
  cache_namespace := CacheMissMetadata.cache_namespace value;
  miss_reason := CacheMissReason.repr (CacheMissMetadata.miss_reason value);
  profile_id := CacheMissMetadata.profile_id value;
  cache_key_hi := CacheMissMetadata.cache_key_hi value;
  cache_key_lo := CacheMissMetadata.cache_key_lo value;
  diagnostic_bytes := CacheMissMetadata.diagnostic_bytes value |}.

Definition to_core (value : t) : FF CacheMissMetadata.t :=
  miss_reason ← core (CacheMissReason.try_from_u16 (miss_reason value));
  Ok {|
    CacheMissMetadata.cache_namespace := cache_namespace value;
    CacheMissMetadata.cache_key_hi := cache_key_hi value;
    CacheMissMetadata.cache_key_lo := cache_key_lo value;
    CacheMissMetadata.miss_reason := miss_reason;
    CacheMissMetadata.profile_id := profile_id value;
    CacheMissMetadata.diagnostic_bytes := diagnostic_bytes value |}.

End NnrpCacheMissDescriptor.

Module NnrpControlRequestDescriptor.

Record t := mk {
  operation_id : Z;
  control_sequence : Z;
  reason_code : Z;
  source_role : Z;
  flags : Z;
  diagnostic_bytes : Z
}.

Definition from_core (value : ControlRequestMetadata.t) : t := {|
  operation_id := ControlRequestMetadata.operation_id value;
  control_sequence := ControlRequestMetadata.control_sequence value;
  reason_code := ControlRequestMetadata.reason_code value;
  source_role := ControlRequestMetadata.source_role value;
  flags := ControlRequestMetadata.flags value;
  diagnostic_bytes := ControlRequestMetadata.diagnostic_bytes value |}.

Definition to_core (value : t) : ControlRequestMetadata.t := {|
    ControlRequestMetadata.operation_id := operation_id value;
    ControlRequestMetadata.control_sequence := control_sequence value;
    ControlRequestMetadata.reason_code := reason_code value;
    ControlRequestMetadata.source_role := source_role value;
    ControlRequestMetadata.flags := flags value;
    ControlRequestMetadata.diagnostic_bytes := diagnostic_bytes value |}.

End NnrpControlRequestDescriptor.

Module NnrpSchedulingDescriptor.

Record t := mk {
  operation_id : Z;
  control_sequence : Z;
  priority_class : Z;
  priority_delta : Z;
  deadline_unix_ms : Z;
  flags : Z
}.

Definition from_core (value : SchedulingMetadata.t) : t := {|
  operation_id := SchedulingMetadata.operation_id value;
  control_sequence := SchedulingMetadata.control_sequence value;
  priority_class := SchedulingMetadata.priority_class value;
  priority_delta := SchedulingMetadata.priority_delta value;
  deadline_unix_ms := SchedulingMetadata.deadline_unix_ms value;
  flags := SchedulingMetadata.flags value |}.

Definition to_core (value : t) : SchedulingMetadata.t := {|
    SchedulingMetadata.operation_id := operation_id value;
    SchedulingMetadata.control_sequence := control_sequence value;
    SchedulingMetadata.priority_class := priority_class value;
    SchedulingMetadata.priority_delta := priority_delta value;
    SchedulingMetadata.deadline_unix_ms := deadline_unix_ms value;
    SchedulingMetadata.flags := flags value |}.

End NnrpSchedulingDescriptor.

Module NnrpSupersedeDescriptor.

Record t := mk {
  old_operation_id : Z;
  new_operation_id : Z;
  control_sequence : Z;
  drop_reason_code : Z;
  flags : Z;
  diagnostic_bytes : Z
}.

Definition from_core (value : SupersedeMetadata.t) : t := {|
  old_operation_id := SupersedeMetadata.old_operation_id value;
  new_operation_id := SupersedeMetadata.new_operation_id value;
  control_sequence := SupersedeMetadata.control_sequence value;
  drop_reason_code := SupersedeMetadata.drop_reason_code value;
  flags := SupersedeMetadata.flags value;
  diagnostic_bytes := SupersedeMetadata.diagnostic_bytes value |}.

Definition to_core (value : t) : SupersedeMetadata.t := {|
    SupersedeMetadata.old_operation_id := old_operation_id value;
    SupersedeMetadata.new_operation_id := new_operation_id value;
    SupersedeMetadata.control_sequence := control_sequence value;
    SupersedeMetadata.drop_reason_code := drop_reason_code value;
    SupersedeMetadata.flags := flags value;
    SupersedeMetadata.diagnostic_bytes := diagnostic_bytes value |}.

End NnrpSupersedeDescriptor.

Module NnrpBudgetDescriptor.

Record t := mk {
  operation_id : Z;
  compute_budget_units : Z;
  memory_budget_bytes : Z;
  bandwidth_budget_bytes : Z;
  token_budget : Z;
  flags : Z
}.

Definition from_core (value : BudgetMetadata.t) : t := {|
  operation_id := BudgetMetadata.operation_id value;
  compute_budget_units := BudgetMetadata.compute_budget_units value;
  memory_budget_bytes := BudgetMetadata.memory_budget_bytes value;
  bandwidth_budget_bytes := BudgetMetadata.bandwidth_budget_bytes value;
  token_budget := BudgetMetadata.token_budget value;
  flags := BudgetMetadata.flags value |}.

Definition to_core (value : t) : BudgetMetadata.t := {|
    BudgetMetadata.operation_id := operation_id value;
    BudgetMetadata.compute_budget_units := compute_budget_units value;
    BudgetMetadata.memory_budget_bytes := memory_budget_bytes value;
    BudgetMetadata.bandwidth_budget_bytes := bandwidth_budget_bytes value;
    BudgetMetadata.token_budget := token_budget value;
    BudgetMetadata.flags := flags value |}.

End NnrpBudgetDescriptor.

Module NnrpProgressDescriptor.

Record t := mk {
  operation_id : Z;
  progress_sequence : Z;
  stage_code : Z;
  percent_x100 : Z;
  object_id : Z;
  body_bytes : Z
}.

Definition from_core (value : ProgressMetadata.t) : t := {|
  operation_id := ProgressMetadata.operation_id value;
  progress_sequence := ProgressMetadata.progress_sequence value;
  stage_code := ProgressMetadata.stage_code value;
  percent_x100 := ProgressMetadata.percent_x100 value;
  object_id := ProgressMetadata.object_id value;
  body_bytes := ProgressMetadata.body_bytes value |}.

Definition to_core (value : t) : ProgressMetadata.t := {|
    ProgressMetadata.operation_id := operation_id value;
    ProgressMetadata.progress_sequence := progress_sequence value;
    ProgressMetadata.stage_code := stage_code value;
    ProgressMetadata.percent_x100 := percent_x100 value;
    ProgressMetadata.object_id := object_id value;
    ProgressMetadata.body_bytes := body_bytes value |}.

End NnrpProgressDescriptor.

Module NnrpPartialResultDescriptor.

Record t := mk {
  operation_id : Z;
  result_sequence : Z;
  object_id : Z;
  delta_sequence : Z;
  body_bytes : Z;
  flags : Z
}.

Definition from_core (value : PartialResultMetadata.t) : t := {|
  operation_id := PartialResultMetadata.operation_id value;
  result_sequence := PartialResultMetadata.result_sequence value;
  object_id := PartialResultMetadata.object_id value;
  delta_sequence := PartialResultMetadata.delta_sequence value;
  body_bytes := PartialResultMetadata.body_bytes value;
  flags := PartialResultMetadata.flags value |}.

Definition to_core (value : t) : PartialResultMetadata.t := {|
    PartialResultMetadata.operation_id := operation_id value;
    PartialResultMetadata.result_sequence := result_sequence value;
    PartialResultMetadata.object_id := object_id value;
    PartialResultMetadata.delta_sequence := delta_sequence value;
    PartialResultMetadata.body_bytes := body_bytes value;
    PartialResultMetadata.flags := flags value |}.

End NnrpPartialResultDescriptor.

Module NnrpPressureDescriptor.

Record t := mk {
  scope_id : Z;
  credit_window : Z;
  pressure_level : Z;
  pressure_reason : Z;
  retry_after_ms : Z;
  flags : Z
}.

Definition from_core (value : PressureMetadata.t) : t := {|
  scope_id := PressureMetadata.scope_id value;
  credit_window := PressureMetadata.credit_window value;
  pressure_level := PressureMetadata.pressure_level value;
  pressure_reason := PressureMetadata.pressure_reason value;
  retry_after_ms := PressureMetadata.retry_after_ms value;
  flags := PressureMetadata.flags value |}.

Definition to_core (value : t) : PressureMetadata.t := {|
    PressureMetadata.scope_id := scope_id value;
    PressureMetadata.credit_window := credit_window value;
    PressureMetadata.pressure_level := pressure_level value;
    PressureMetadata.pressure_reason := pressure_reason value;
    PressureMetadata.retry_after_ms := retry_after_ms value;
    PressureMetadata.flags := flags value |}.

End NnrpPressureDescriptor.

Module NnrpCapabilityDescriptor.

Record t := mk {
  profile_id : Z;
  capability_count : Z;
  cost_model_id : Z;
  preference_rank : Z;
  limit_bytes : Z;
  limit_units : Z;
  body_bytes : Z;
  flags : Z
}.

Definition from_core (value : CapabilityMetadata.t) : t := {|
  profile_id := CapabilityMetadata.profile_id value;
  capability_count := CapabilityMetadata.capability_count value;
  cost_model_id := CapabilityMetadata.cost_model_id value;
  preference_rank := CapabilityMetadata.preference_rank value;
  limit_bytes := CapabilityMetadata.limit_bytes value;
  limit_units := CapabilityMetadata.limit_units value;
  body_bytes := CapabilityMetadata.body_bytes value;
  flags := CapabilityMetadata.flags value |}.

Definition to_core (value : t) : CapabilityMetadata.t := {|
    CapabilityMetadata.profile_id := profile_id value;
    CapabilityMetadata.capability_count := capability_count value;
    CapabilityMetadata.cost_model_id := cost_model_id value;
    CapabilityMetadata.preference_rank := preference_rank value;
    CapabilityMetadata.limit_bytes := limit_bytes value;
    CapabilityMetadata.limit_units := limit_units value;
    CapabilityMetadata.body_bytes := body_bytes value;
    CapabilityMetadata.flags := flags value |}.

End NnrpCapabilityDescriptor.

Module NnrpRouteHintDescriptor.

Record t := mk {
  operation_id : Z;
  route_id : Z;
  executor_class : Z;
  affinity_class : Z;
  deadline_unix_ms : Z;
  body_bytes : Z;
  flags : Z
}.

Definition from_core (value : RouteHintMetadata.t) : t := {|
  operation_id := RouteHintMetadata.operation_id value;
  route_id := RouteHintMetadata.route_id value;
  executor_class := RouteHintMetadata.executor_class value;
  affinity_class := RouteHintMetadata.affinity_class value;
  deadline_unix_ms := RouteHintMetadata.deadline_unix_ms value;
  body_bytes := RouteHintMetadata.body_bytes value;
  flags := RouteHintMetadata.flags value |}.

Definition to_core (value : t) : RouteHintMetadata.t := {|
    RouteHintMetadata.operation_id := operation_id value;
    RouteHintMetadata.route_id := route_id value;
    RouteHintMetadata.executor_class := executor_class value;
    RouteHintMetadata.affinity_class := affinity_class value;
    RouteHintMetadata.deadline_unix_ms := deadline_unix_ms value;
    RouteHintMetadata.body_bytes := body_bytes value;
    RouteHintMetadata.flags := flags value |}.

End NnrpRouteHintDescriptor.

Module NnrpTraceContextDescriptor.

Record t := mk {
  trace_id : Z;
  span_id : Z;
  parent_span_id : Z;
  stage_code : Z;
  flags : Z;
  body_bytes : Z
}.

Definition from_core (value : TraceContextMetadata.t) : t := {|
  trace_id := TraceContextMetadata.trace_id value;
  span_id := TraceContextMetadata.span_id value;
  parent_span_id := TraceContextMetadata.parent_span_id value;
  stage_code := TraceContextMetadata.stage_code value;
  flags := TraceContextMetadata.flags value;
  body_bytes := TraceContextMetadata.body_bytes value |}.

Definition to_core (value : t) : TraceContextMetadata.t := {|
    TraceContextMetadata.trace_id := trace_id value;
    TraceContextMetadata.span_id := span_id value;
    TraceContextMetadata.parent_span_id := parent_span_id value;
    TraceContextMetadata.stage_code := stage_code value;
    TraceContextMetadata.flags := flags value;
    TraceContextMetadata.body_bytes := body_bytes value |}.

End NnrpTraceContextDescriptor.

Module NnrpResultDropReasonDescriptor.

Record t := mk {
  operation_id : Z;
  result_sequence : Z;
  drop_reason_code : Z;
  source_role : Z;
  flags : Z;
  diagnostic_bytes : Z
}.

Definition from_core (value : ResultDropReasonMetadata.t) : t := {|
  operation_id := ResultDropReasonMetadata.operation_id value;
  result_sequence := ResultDropReasonMetadata.result_sequence value;
  drop_reason_code := ResultDropReasonMetadata.drop_reason_code value;
  source_role := ResultDropReasonMetadata.source_role value;
  flags := ResultDropReasonMetadata.flags value;
  diagnostic_bytes := ResultDropReasonMetadata.diagnostic_bytes value |}.

Definition to_core (value : t) : ResultDropReasonMetadata.t := {|
    ResultDropReasonMetadata.operation_id := operation_id value;
    ResultDropReasonMetadata.result_sequence := result_sequence value;
    ResultDropReasonMetadata.drop_reason_code := drop_reason_code value;
    ResultDropReasonMetadata.source_role := source_role value;
    ResultDropReasonMetadata.flags := flags value;
    ResultDropReasonMetadata.diagnostic_bytes := diagnostic_bytes value |}.

End NnrpResultDropReasonDescriptor.

Module NnrpRecoverableErrorDescriptor.

Record t := mk {
  error_code : Z;
  error_scope : Z;
  recovery_action : Z;
  source_role : Z;
  flags : Z;
  retry_after_ms : Z;
  related_session_id : Z;
  related_frame_id : Z;
  related_view_id : Z;
  diagnostic_bytes : Z
}.

Definition from_core (value : RecoverableErrorMetadata.t) : t := {|
  error_code := RecoverableErrorMetadata.error_code value;
  error_scope := ErrorScope.repr (RecoverableErrorMetadata.error_scope value);
  recovery_action := RecoverableErrorMetadata.recovery_action value;
  source_role := RecoverableErrorMetadata.source_role value;
  flags := RecoverableErrorMetadata.flags value;
  retry_after_ms := RecoverableErrorMetadata.retry_after_ms value;
  related_session_id := RecoverableErrorMetadata.related_session_id value;
  related_frame_id := RecoverableErrorMetadata.related_frame_id value;
  related_view_id := RecoverableErrorMetadata.related_view_id value;
  diagnostic_bytes := RecoverableErrorMetadata.diagnostic_bytes value |}.

Definition to_core (value : t) : FF RecoverableErrorMetadata.t :=
  error_scope ← core (ErrorScope.try_from_u32 (error_scope value));
  Ok {|
    RecoverableErrorMetadata.error_code := error_code value;
    RecoverableErrorMetadata.error_scope := error_scope;
    RecoverableErrorMetadata.recovery_action := recovery_action value;
    RecoverableErrorMetadata.source_role := source_role value;
    RecoverableErrorMetadata.flags := flags value;
    RecoverableErrorMetadata.retry_after_ms := retry_after_ms value;
    RecoverableErrorMetadata.related_session_id := related_session_id value;
    RecoverableErrorMetadata.related_frame_id := related_frame_id value;
    RecoverableErrorMetadata.related_view_id := related_view_id value;
    RecoverableErrorMetadata.diagnostic_bytes := diagnostic_bytes value |}.

End NnrpRecoverableErrorDescriptor.

Module NnrpRetryAfterDescriptor.

Record t := mk {
  scope_id : Z;
  control_sequence : Z;
  retry_after_ms : Z;
  jitter_ms : Z;
  reason_code : Z;
  source_role : Z;
  flags : Z;
  diagnostic_bytes : Z
}.

Definition from_core (value : RetryAfterMetadata.t) : t := {|
  scope_id := RetryAfterMetadata.scope_id value;
  control_sequence := RetryAfterMetadata.control_sequence value;
  retry_after_ms := RetryAfterMetadata.retry_after_ms value;
  jitter_ms := RetryAfterMetadata.jitter_ms value;
  reason_code := RetryAfterMetadata.reason_code value;
  source_role := RetryAfterMetadata.source_role value;
  flags := RetryAfterMetadata.flags value;
  diagnostic_bytes := RetryAfterMetadata.diagnostic_bytes value |}.

Definition to_core (value : t) : RetryAfterMetadata.t := {|
    RetryAfterMetadata.scope_id := scope_id value;
    RetryAfterMetadata.control_sequence := control_sequence value;
    RetryAfterMetadata.retry_after_ms := retry_after_ms value;
    RetryAfterMetadata.jitter_ms := jitter_ms value;
    RetryAfterMetadata.reason_code := reason_code value;
    RetryAfterMetadata.source_role := source_role value;
    RetryAfterMetadata.flags := flags value;
    RetryAfterMetadata.diagnostic_bytes := diagnostic_bytes value |}.

End NnrpRetryAfterDescriptor.

Module NnrpTypedPayloadDescriptor.

Record t := mk {
  profile_id : Z;
  payload_kind : Z;
  descriptor_flags : Z;
  schema_id : Z;
  schema_version : Z;
  stream_semantics : Z;
  reserved0 : Z;
  offset : Z;
  length : Z
}.

Definition from_core (value : TypedPayloadDescriptor.t) : t := {|
  profile_id := TypedPayloadDescriptor.profile_id value;
  payload_kind := PayloadKind.repr (TypedPayloadDescriptor.payload_kind value);
  descriptor_flags := TypedPayloadDescriptor.descriptor_flags value;
  schema_id := TypedPayloadDescriptor.schema_id value;
  schema_version := TypedPayloadDescriptor.schema_version value;
  stream_semantics := TypedPayloadDescriptor.stream_semantics value;
  reserved0 := 0;
  offset := TypedPayloadDescriptor.offset value;
  length := TypedPayloadDescriptor.length value |}.

Definition to_core (value : t) : FF TypedPayloadDescriptor.t :=
  _ ← core (reject_if (negb (reserved0 value =? 0)) (NonZeroReservedField "typed_payload_descriptor.reserved0"));
  payload_kind ← core (PayloadKind.try_from_bit (payload_kind value));
  Ok {|
    TypedPayloadDescriptor.profile_id := profile_id value;
    TypedPayloadDescriptor.payload_kind := payload_kind;
    TypedPayloadDescriptor.descriptor_flags := descriptor_flags value;
    TypedPayloadDescriptor.schema_id := schema_id value;
    TypedPayloadDescriptor.schema_version := schema_version value;
    TypedPayloadDescriptor.stream_semantics := stream_semantics value;
    TypedPayloadDescriptor.offset := offset value;
    TypedPayloadDescriptor.length := length value |}.

End NnrpTypedPayloadDescriptor.

Module NnrpSessionRecoveryOutcome.

Record t := mk { outcome_code : Z; resume_window_ms : Z }.

Definition from_core (value : SessionRecoveryOutcome.t) : t :=
  match value with
  | SessionRecoveryOutcome.Fresh => mk 0 0
  | SessionRecoveryOutcome.ResumeEnabled resume_window_ms => mk 1 resume_window_ms
  | SessionRecoveryOutcome.Resumed resume_window_ms => mk 2 resume_window_ms
  | SessionRecoveryOutcome.ResumeRejected => mk 3 0
  end.

End NnrpSessionRecoveryOutcome.

(** ** The mirrors

    Each C struct is a faithful copy of the struct of the core: what the core gives to C comes back
    as it was, and what C gives is accepted only when it is the copy of a value of the core. *)

Record mirrored : Type := Mirror {
  core_type : Type;
  native_type : Type;
  mirror_from : core_type -> native_type;
  mirror_to : native_type -> FF core_type
}.

Definition faithful (m : mirrored) : Prop :=
  (forall c, mirror_to m (mirror_from m c) = Ok c) /\
  (forall n c, mirror_to m n = Ok c -> mirror_from m c = n) /\
  (forall n, mirror_to m n <> Panic).

(** A conversion that cannot fail. *)
Definition total {C N} (to_core : N -> C) (n : N) : FF C := Ok (to_core n).

Definition mirrors : list mirrored := [
  Mirror _ _ NnrpSchemaDescriptorHeader.from_core NnrpSchemaDescriptorHeader.to_core;
  Mirror _ _ NnrpCacheObjectId.from_core NnrpCacheObjectId.to_core;
  Mirror _ _ NnrpRuntimeObjectDescriptor.from_core NnrpRuntimeObjectDescriptor.to_core;
  Mirror _ _ NnrpObjectReferenceDescriptor.from_core (total NnrpObjectReferenceDescriptor.to_core);
  Mirror _ _ NnrpObjectReleaseDescriptor.from_core NnrpObjectReleaseDescriptor.to_core;
  Mirror _ _ NnrpObjectDeltaDescriptor.from_core (total NnrpObjectDeltaDescriptor.to_core);
  Mirror _ _ NnrpCacheReferenceDescriptor.from_core NnrpCacheReferenceDescriptor.to_core;
  Mirror _ _ NnrpCacheMissDescriptor.from_core NnrpCacheMissDescriptor.to_core;
  Mirror _ _ NnrpControlRequestDescriptor.from_core (total NnrpControlRequestDescriptor.to_core);
  Mirror _ _ NnrpSchedulingDescriptor.from_core (total NnrpSchedulingDescriptor.to_core);
  Mirror _ _ NnrpSupersedeDescriptor.from_core (total NnrpSupersedeDescriptor.to_core);
  Mirror _ _ NnrpBudgetDescriptor.from_core (total NnrpBudgetDescriptor.to_core);
  Mirror _ _ NnrpProgressDescriptor.from_core (total NnrpProgressDescriptor.to_core);
  Mirror _ _ NnrpPartialResultDescriptor.from_core (total NnrpPartialResultDescriptor.to_core);
  Mirror _ _ NnrpPressureDescriptor.from_core (total NnrpPressureDescriptor.to_core);
  Mirror _ _ NnrpCapabilityDescriptor.from_core (total NnrpCapabilityDescriptor.to_core);
  Mirror _ _ NnrpRouteHintDescriptor.from_core (total NnrpRouteHintDescriptor.to_core);
  Mirror _ _ NnrpTraceContextDescriptor.from_core (total NnrpTraceContextDescriptor.to_core);
  Mirror _ _ NnrpResultDropReasonDescriptor.from_core (total NnrpResultDropReasonDescriptor.to_core);
  Mirror _ _ NnrpRecoverableErrorDescriptor.from_core NnrpRecoverableErrorDescriptor.to_core;
  Mirror _ _ NnrpRetryAfterDescriptor.from_core (total NnrpRetryAfterDescriptor.to_core);
  Mirror _ _ NnrpTypedPayloadDescriptor.from_core NnrpTypedPayloadDescriptor.to_core ].

Lemma core_no_panic {A} (o : R A) : o <> Panic -> core o <> Panic.
Proof. by destruct o. Qed.

Lemma total_faithful {C N} (from : C -> N) (to : N -> C) :
  (forall c, to (from c) = c) -> (forall n, from (to n) = n) -> faithful (Mirror C N from (total to)).
Proof.
  intros Hto Hfrom. split_and!; cbn; unfold total; [intros c; by rewrite Hto|intros n c [= <-]; apply Hfrom|done].
Qed.

(** The fields that are enums are converted one after the other. *)
Ltac enum_fields_back :=
  repeat match goal with
  | |- context [core (?f (?r ?k))] =>
      is_var k; replace (f (r k)) with (Ok k : R _) by (by destruct k); cbn [core map_err mbind outcome_bind]
  end.

Ltac enum_fields_sound H :=
  repeat (let a := fresh "a" in let Ha := fresh in
    apply bind_Ok in H as (a & Ha%core_Ok & H);
    first
    [ apply reject_if_Ok, negb_false_iff, Z.eqb_eq in Ha
    | let T := type of a in pose proof (enum_try_from_sound (A := T) _ _ Ha) as Hz; clear Ha ];
    try subst).

Ltac enum_fields_no_panic :=
  repeat (apply bind_no_panic;
    [ apply core_no_panic; first
      [ apply reject_if_no_panic
      | match goal with
        | |- ?o <> Panic => match type of o with Outcome _ ?T => exact (enum_try_from_no_panic (A := T) _) end
        end ]
    | intros ? _ ]);
  done.

Ltac enum_mirror from to :=
  split_and!; cbn [mirror_from mirror_to core_type native_type];
  [ intros []; unfold to, from; cbn -[mbind core]; enum_fields_back; done
  | intros [] c Hc; unfold to, from in *; cbn -[mbind core] in *; enum_fields_sound Hc; by apply (inj Ok) in Hc as <-
  | intros []; unfold to; cbn -[mbind core]; enum_fields_no_panic ].

(** C35: every struct of the C interface mirrors its struct of the core faithfully: a value of
    the core that is handed to C is read back unchanged, a struct that C passes is accepted only
    when it is the image of a value of the core, and the conversion never panics. *)
Theorem mirrors_faithful : Forall faithful mirrors.
Proof.
  unfold mirrors. repeat apply Forall_cons_2; [..|apply Forall_nil_2].
  all: try (apply total_faithful; by intros []).
  - enum_mirror NnrpSchemaDescriptorHeader.from_core NnrpSchemaDescriptorHeader.to_core.
  - enum_mirror NnrpCacheObjectId.from_core NnrpCacheObjectId.to_core.
  - enum_mirror NnrpRuntimeObjectDescriptor.from_core NnrpRuntimeObjectDescriptor.to_core.
  - enum_mirror NnrpObjectReleaseDescriptor.from_core NnrpObjectReleaseDescriptor.to_core.
  - enum_mirror NnrpCacheReferenceDescriptor.from_core NnrpCacheReferenceDescriptor.to_core.
  - enum_mirror NnrpCacheMissDescriptor.from_core NnrpCacheMissDescriptor.to_core.
  - enum_mirror NnrpRecoverableErrorDescriptor.from_core NnrpRecoverableErrorDescriptor.to_core.
  - enum_mirror NnrpTypedPayloadDescriptor.from_core NnrpTypedPayloadDescriptor.to_core.
Qed.
