(* ===== verification/FfiStore.v ===== *)
(** The handle store of the C interface ([NnrpFfiHandleStore] of [src/crates/nnrp-ffi/src/lib.rs]).

    C holds handles; the resources they stand for are entries of a table keyed by kind and id.  A
    handle resolves when its kind, id and generation are those of an entry.  Closing a connection
    or a session also removes what it owns.  An [Arc] that an entry shares with a task is the
    number of a cell; of these cells the store below has the accept tickets. *)

From S2P Require Import Prelude Bytes Errors Enums Wire Codes Object Cache Data Schema Control RuntimeControl Recovery RuntimeError.
From S2P Require Import Server FfiTypes.

Local Open Scope Z_scope.

(** ** Methods in sequence: [?] ends the caller with the status *)

Section method_monad.
Context {S E : Type}.

#[global] Instance method_ret : MRet (Method S E) := fun A a s => (Ok a, s).

#[global] Instance method_bind : MBind (Method S E) := fun A B k m s =>
  match m s with
  | (Ok a, s) => k a s
  | (Err e, s) => (Err e, s)
  | (Panic, s) => (Panic, s)
  end.

(** A computation that does not change the state. *)
Definition pure_of {A} (f : S -> Outcome E A) : Method S E A := fun s => (f s, s).

Definition lift_outcome {A} (o : Outcome E A) : Method S E A := fun s => (o, s).

Definition update_with (f : S -> S) : Method S E unit := fun s => (Ok tt, f s).
End method_monad.

(** ** Resources *)

Module NnrpFfiConnectionRole.

Inductive t := Client | Server.

#[global] Instance eq_dec : EqDecision t.
Proof. solve_decision. Defined.

End NnrpFfiConnectionRole.

(** The shared object of a connection or a session, by the number of its cell. *)
Module NnrpFfiRuntime.

Inductive t := Client (cell : nat) | Server (cell : nat).

End NnrpFfiRuntime.

Module NnrpFfiResource.

Inductive t :=
| Connection (transport_id : Z) (role : NnrpFfiConnectionRole.t) (runtime : NnrpFfiRuntime.t)
| Session (connection : NnrpHandle.t) (session_id profile_id schema_id schema_version : Z)
    (runtime : NnrpFfiRuntime.t)
| ServerAccept (server : NnrpHandle.t) (runtime : nat)
| Operation (session : NnrpHandle.t) (operation_id frame_id payload_len : Z)
    (server_operation : option NnrpServerOperation.t)
| SchemaRegistry (registry : SchemaRegistry.t)
| Buffer (bytes : bytes)
| ObjectDescriptor (descriptor : ObjectDescriptorMetadata.t) (metadata : bytes)
| CacheReferenceDescriptor (descriptor : CacheReferenceMetadata.t) (metadata : bytes)
| CacheLease (owner : NnrpHandle.t) (lease : CacheLease.t) (released : bool).

(** The kind of the handles of a resource. *)
Definition kind (self : t) : NnrpHandleKind.t :=
  match self with
  | Connection _ _ _ => NnrpHandleKind.Connection
  | Session _ _ _ _ _ _ => NnrpHandleKind.Session
  | ServerAccept _ _ => NnrpHandleKind.ServerAccept
  | Operation _ _ _ _ _ => NnrpHandleKind.Operation
  | SchemaRegistry _ => NnrpHandleKind.SchemaRegistry
  | Buffer _ => NnrpHandleKind.Buffer
  | ObjectDescriptor _ _ => NnrpHandleKind.ObjectDescriptor
  | CacheReferenceDescriptor _ _ => NnrpHandleKind.CacheReferenceDescriptor
  | CacheLease _ _ _ => NnrpHandleKind.CacheLease
  end.

(** The handle that a resource belongs to. *)
Definition owner (self : t) : option NnrpHandle.t :=
  match self with
  | Session connection _ _ _ _ _ => Some connection
  | ServerAccept server _ => Some server
  | Operation session _ _ _ _ => Some session
  | CacheLease owner _ _ => Some owner
  | _ => None
  end.

(** The bytes that a view of the resource points to. *)
Definition memory (self : t) : option bytes :=
  match self with
  | Buffer bytes => Some bytes
  | ObjectDescriptor _ metadata | CacheReferenceDescriptor _ metadata => Some metadata
  | _ => None
  end.

End NnrpFfiResource.

Module NnrpFfiResourceEntry.

Record t := mk { generation : Z; resource : NnrpFfiResource.t }.

End NnrpFfiResourceEntry.

(** ** Accept tickets *)

Definition server_accept_would_block_status : NnrpFfiStatus.t :=
  NnrpFfiStatus.make NnrpFfiStatusCode.WouldBlock NnrpErrorFamily.Transport 0 160.

Definition server_accept_error_is_peer_local (error : RuntimeError) : bool :=
  match error with
  | Io _ | Protocol _ | FrameTooLarge _ _ | TransportClosed _ _ | UnexpectedMessage _ => true
  | _ => false
  end.

Module NnrpFfiServerAcceptState.

Inductive t :=
| Pending
| Ready (outcome : NnrpServerSession.t + NnrpFfiStatus.t)
| Claimed
| Released.

(** One turn of the task: [None] is [continue], after an error of one peer. *)
Definition turn (result : RT NnrpServerSession.t) (listener_set_closed : bool)
    : option (NnrpServerSession.t + NnrpFfiStatus.t) :=
  match result with
  | Ok session => Some (inl session)
  | Err error =>
      if negb listener_set_closed && server_accept_error_is_peer_local error then None
      else Some (inr (status_from_runtime_error error))
  | Panic => None
  end.

(** The end of the task. *)
Definition complete (outcome : NnrpServerSession.t + NnrpFfiStatus.t) (self : t) : t :=
  match self with Pending => Ready outcome | _ => self end.

(** The status when the wait is over; [Pending] is a timeout. *)
Definition wait (self : t) : NnrpFfiStatus.t :=
  match self with
  | Pending => server_accept_would_block_status
  | Ready (inl _) => NnrpFfiStatus.ok
  | Ready (inr status) => status
  | Claimed | Released => NnrpFfiStatus.invalid_state 161
  end.

Definition claim : Method t NnrpFfiStatus.t NnrpServerSession.t := fun self =>
  match self with
  | Ready (inl session) => (Ok session, Claimed)
  | Ready (inr status) => (Err status, Ready (inr status))
  | Pending => (Err server_accept_would_block_status, Pending)
  | Claimed => (Err (NnrpFfiStatus.invalid_state 162), Claimed)
  | Released => (Err (NnrpFfiStatus.invalid_state 162), Released)
  end.

Definition release (self : t) : t := match self with Claimed => Claimed | _ => Released end.

End NnrpFfiServerAcceptState.

(** ** The store *)

Module NnrpFfiHandleStore.

Abbreviation Entries := (gmap (Z * Z) NnrpFfiResourceEntry.t).

(** [tickets] has the shared state of each accept ticket. *)
Record t := mk {
  entries : Entries;
  next_ids : gmap Z Z;
  lifecycle_delivered_operations : list (NnrpHandle.t * NnrpHandle.t);
  terminal_operation_replies : list NnrpHandle.t;
  tickets : gmap nat NnrpFfiServerAcceptState.t
}.

Definition initial : t := mk ∅ ∅ [] [] ∅.

Abbreviation Call := (Method t NnrpFfiStatus.t).

Definition set_entries (self : t) (e : Entries) : t :=
  mk e (next_ids self) (lifecycle_delivered_operations self) (terminal_operation_replies self)
    (tickets self).
Definition set_next_ids (self : t) (ids : gmap Z Z) : t :=
  mk (entries self) ids (lifecycle_delivered_operations self) (terminal_operation_replies self)
    (tickets self).
Definition set_replies (self : t) delivered replies : t :=
  mk (entries self) (next_ids self) delivered replies (tickets self).
Definition set_tickets (self : t) ts : t :=
  mk (entries self) (next_ids self) (lifecycle_delivered_operations self)
    (terminal_operation_replies self) ts.

(** The order of the keys of the [BTreeMap]. *)
Definition entry_le (a b : (Z * Z) * NnrpFfiResourceEntry.t) : Prop :=
  a.1.1 < b.1.1 \/ a.1.1 = b.1.1 /\ a.1.2 <= b.1.2.
#[global] Instance entry_le_dec : RelDecision entry_le.
Proof. intros a b. unfold entry_le. solve_decision. Defined.

(** [entries.iter()]. *)
Definition iter (self : t) : list ((Z * Z) * NnrpFfiResourceEntry.t) :=
  merge_sort entry_le (map_to_list (entries self)).

(** The handle of an entry. *)
Definition handle_of (e : (Z * Z) * NnrpFfiResourceEntry.t) : NnrpHandle.t :=
  NnrpHandle.mk e.1.1 e.1.2 (NnrpFfiResourceEntry.generation e.2) 0.

(** [entries.iter().filter_map(..)] with a test of the resource. *)
Definition handles_where (p : NnrpFfiResource.t -> bool) (self : t) : list NnrpHandle.t :=
  handle_of <$> List.filter (fun e => p (NnrpFfiResourceEntry.resource e.2)) (iter self).

(** [entries.values().any(..)]. *)
Definition any (p : NnrpFfiResource.t -> bool) (self : t) : bool :=
  existsb (fun e => p (NnrpFfiResourceEntry.resource e.2)) (iter self).

Definition release_ticket (resource : NnrpFfiResource.t) (self : t) : t :=
  match resource with
  | NnrpFfiResource.ServerAccept _ runtime =>
      set_tickets self (alter NnrpFfiServerAcceptState.release runtime (tickets self))
  | _ => self
  end.

Definition invalidate_all (self : t) : t :=
  let self := foldl (fun self e => release_ticket (NnrpFfiResourceEntry.resource e.2) self) self (iter self) in
  mk ∅ (next_ids self) [] [] (tickets self).

(** The kinds of the handles that [insert] stores. *)
Definition stored_kind (kind : Z) : option NnrpHandleKind.t :=
  find (fun k => kind =? NnrpHandleKind.repr k)
    [NnrpHandleKind.Connection; NnrpHandleKind.Session; NnrpHandleKind.Operation;
     NnrpHandleKind.Buffer; NnrpHandleKind.SchemaRegistry; NnrpHandleKind.CacheLease;
     NnrpHandleKind.ObjectDescriptor; NnrpHandleKind.CacheReferenceDescriptor;
     NnrpHandleKind.ServerAccept].

Definition insert (handle : NnrpHandle.t) (resource : NnrpFfiResource.t) : Call unit := fun self =>
  match (k ← ok_or (stored_kind (NnrpHandle.kind handle))
               (NnrpFfiStatus.invalid_handle (NnrpHandle.kind handle));
         _ ← NnrpHandle.validate_kind handle k;
         reject_if (is_some (entries self !! NnrpHandle.key handle))
           (NnrpFfiStatus.invalid_state (NnrpHandle.kind handle))) with
  | Ok _ =>
      (Ok tt, set_entries self
        (<[NnrpHandle.key handle :=
             NnrpFfiResourceEntry.mk (NnrpHandle.generation handle) resource]> (entries self)))
  | Err status => (Err status, self)
  | Panic => (Panic, self)
  end.

Definition get (handle : NnrpHandle.t) (kind : NnrpHandleKind.t) (self : t) : FF NnrpFfiResource.t :=
  _ ← NnrpHandle.validate_kind handle kind;
  entry ← ok_or (entries self !! NnrpHandle.key handle)
            (NnrpFfiStatus.invalid_handle (NnrpHandleKind.repr kind));
  _ ← reject_if (negb (NnrpFfiResourceEntry.generation entry =? NnrpHandle.generation handle))
        (NnrpFfiStatus.invalid_handle (NnrpHandleKind.repr kind));
  Ok (NnrpFfiResourceEntry.resource entry).

Definition remove (handle : NnrpHandle.t) (kind : NnrpHandleKind.t) : Call unit :=
  _ ← pure_of (get handle kind);
  update_with (fun self =>
    let handle := NnrpHandle.normalized handle in
    let self := set_entries self (delete (NnrpHandle.key handle) (entries self)) in
    if bool_decide (kind = NnrpHandleKind.Operation)
    then set_replies self
           (List.filter (fun p => negb (bool_decide (p.2 = handle))) (lifecycle_delivered_operations self))
           (List.filter (fun o => negb (bool_decide (o = handle))) (terminal_operation_replies self))
    else self).

Definition mark_operation_lifecycle_delivered (session operation : NnrpHandle.t) (self : t) : t :=
  let pair := (NnrpHandle.normalized session, NnrpHandle.normalized operation) in
  if bool_decide (pair ∈ lifecycle_delivered_operations self) then self
  else set_replies self (lifecycle_delivered_operations self ++ [pair]) (terminal_operation_replies self).

Definition record_reply (session operation : NnrpHandle.t) : Call unit := fun self =>
  if bool_decide ((session, operation) ∈ lifecycle_delivered_operations self)
  then remove operation NnrpHandleKind.Operation self
  else if bool_decide (operation ∈ terminal_operation_replies self) then (Ok tt, self)
  else (Ok tt, set_replies self (lifecycle_delivered_operations self)
                 (terminal_operation_replies self ++ [operation])).

Definition record_terminal_operation_reply (session operation : NnrpHandle.t) : Call unit :=
  _ ← pure_of (get operation NnrpHandleKind.Operation);
  record_reply (NnrpHandle.normalized session) (NnrpHandle.normalized operation).

Definition terminal_operation_reply_recorded (operation : NnrpHandle.t) (self : t) : bool :=
  bool_decide (NnrpHandle.normalized operation ∈ terminal_operation_replies self).

(** [get_mut] and a store of the resource. *)
Definition set_resource (handle : NnrpHandle.t) (kind : NnrpHandleKind.t)
    (resource : NnrpFfiResource.t) : Call unit :=
  _ ← pure_of (get handle kind);
  update_with (fun self => set_entries self
    (alter (fun e => NnrpFfiResourceEntry.mk (NnrpFfiResourceEntry.generation e) resource)
       (NnrpHandle.key handle) (entries self))).

(** A loop of [entries.remove]. *)
Definition remove_entries (handles : list NnrpHandle.t) (self : t) : t :=
  set_entries self (foldl (fun es h => delete (NnrpHandle.key h) es) (entries self) handles).

(** The loop over the tickets of a connection that is closed. *)
Definition remove_accepts (handles : list NnrpHandle.t) (self : t) : t :=
  foldl (fun self h =>
    match entries self !! NnrpHandle.key h with
    | Some entry =>
        release_ticket (NnrpFfiResourceEntry.resource entry)
          (set_entries self (delete (NnrpHandle.key h) (entries self)))
    | None => self
    end) self handles.

(** The leases of owners that are gone do not stay. *)
Definition keeps (owners : list NnrpHandle.t) (resource : NnrpFfiResource.t) : bool :=
  match resource with
  | NnrpFfiResource.CacheLease owner _ _ => negb (bool_decide (owner ∈ owners))
  | _ => true
  end.

Definition retain_leases (owners : list NnrpHandle.t) (self : t) : t :=
  set_entries self
    (filter (fun e => keeps owners (NnrpFfiResourceEntry.resource e.2) = true) (entries self)).

Definition accepts_of (connection : NnrpHandle.t) (resource : NnrpFfiResource.t) : bool :=
  match resource with NnrpFfiResource.ServerAccept server _ => bool_decide (server = connection) | _ => false end.
Definition sessions_of (connection : NnrpHandle.t) (resource : NnrpFfiResource.t) : bool :=
  match resource with NnrpFfiResource.Session owner _ _ _ _ _ => bool_decide (owner = connection) | _ => false end.
Definition operations_of (sessions : list NnrpHandle.t) (resource : NnrpFfiResource.t) : bool :=
  match resource with NnrpFfiResource.Operation session _ _ _ _ => bool_decide (session ∈ sessions) | _ => false end.

Definition close_connection (connection : NnrpHandle.t) : Call unit :=
  _ ← pure_of (get connection NnrpHandleKind.Connection);
  update_with (fun self =>
    let accepts := handles_where (accepts_of connection) self in
    let sessions := handles_where (sessions_of connection) self in
    let operations := handles_where (operations_of sessions) self in
    let self := remove_entries operations self in
    let self := remove_accepts accepts self in
    let self := remove_entries sessions self in
    let self := set_replies self
      (List.filter (fun p => negb (bool_decide (p.1 ∈ sessions))) (lifecycle_delivered_operations self))
      (List.filter (fun o => negb (bool_decide (o ∈ operations))) (terminal_operation_replies self)) in
    let self := retain_leases (connection :: sessions ++ operations) self in
    set_entries self (delete (NnrpHandle.key connection) (entries self))).

Definition close_session (session : NnrpHandle.t) : Call unit :=
  _ ← pure_of (get session NnrpHandleKind.Session);
  update_with (fun self =>
    let operations := handles_where (operations_of [session]) self in
    let self := remove_entries operations self in
    let self := set_replies self
      (List.filter (fun p => negb (bool_decide (p.1 = session))) (lifecycle_delivered_operations self))
      (List.filter (fun o => negb (bool_decide (o ∈ operations))) (terminal_operation_replies self)) in
    let self := retain_leases (session :: operations) self in
    set_entries self (delete (NnrpHandle.key session) (entries self))).

Definition get_connection_role (connection : NnrpHandle.t) (self : t) : FF NnrpFfiConnectionRole.t :=
  resource ← get connection NnrpHandleKind.Connection self;
  match resource with
  | NnrpFfiResource.Connection _ role _ => Ok role
  | _ => Err (NnrpFfiStatus.invalid_handle (NnrpHandleKind.repr NnrpHandleKind.Connection))
  end.

(** The loop that looks for a free id.  A loop that never ends is a panic; [fuel] is one more than
    the ids that can be taken. *)
Fixpoint next_id_loop (fuel : nat) (kind next_id : Z) (es : Entries) : option Z :=
  match fuel with
  | O => None
  | S fuel =>
      let next_id := (next_id + 1) mod modulus 8 in
      if negb (next_id =? 0) && negb (is_some (es !! (kind, next_id))) then Some next_id
      else next_id_loop fuel kind next_id es
  end.

Definition next_handle_id (kind : NnrpHandleKind.t) : Call Z := fun self =>
  let k := NnrpHandleKind.repr kind in
  match next_id_loop (size (entries self) + 2) k (default 0 (next_ids self !! k)) (entries self) with
  | Some id => (Ok id, set_next_ids self (<[k := id]> (next_ids self)))
  | None => (Panic, self)
  end.

(** Reading memory: outside of what is readable nothing is defined. *)
Definition ffi_read_slice (view : NnrpBufferView.t) (self : t) : FF bytes :=
  if NnrpBufferView.len view =? 0 then Ok []
  else
    match match NnrpBufferView.ptr view with
          | Pointer.Null => None
          | Pointer.Host memory => Some memory
          | Pointer.Owned key => e ← entries self !! key; NnrpFfiResource.memory (NnrpFfiResourceEntry.resource e)
          end with
    | Some memory =>
        if NnrpBufferView.len view <=? len memory then Ok (take (Z.to_nat (NnrpBufferView.len view)) memory)
        else Panic
    | None => Panic
    end.

(** The view of the bytes of an entry. *)
Definition view_of (handle : NnrpHandle.t) (bytes : bytes) : NnrpBufferView.t :=
  NnrpBufferView.mk (Pointer.Owned (NnrpHandle.key handle)) (len bytes).

End NnrpFfiHandleStore.
