(* ===== verification/FfiObjects.v ===== *)
(** The C functions of [src/crates/nnrp-ffi/src/lib.rs] that need no connection: codecs of
    descriptors, validators of recovery, buffers, object descriptors, cache references, schema
    registries and cache leases.

    A call is a method of the store.  [Ok a] is the status [ok] with the values [a] written to the
    places that C passed; [Err status] is the status, with nothing written; a read of memory that
    is not readable is a panic.  A call that also writes with an error returns its status as a
    value. *)

From S2P Require Import Prelude Bytes Errors Enums Wire Codes Object Cache Data Schema Control Session RuntimeControl Recovery RuntimeError.
From S2P Require Import Server FfiTypes FfiStore.
Import NnrpFfiHandleStore.

Local Open Scope Z_scope.

(** ** Steps that the calls share *)

Definition reject (cond : bool) (status : NnrpFfiStatus.t) : Call unit := lift_outcome (reject_if cond status).

(** [match store.get(handle, kind) { Ok(pattern) => .., Ok(_) => invalid_handle(kind), .. }]. *)
Definition expect {A} (handle : NnrpHandle.t) (kind : NnrpHandleKind.t)
    (pick : NnrpFfiResource.t -> option A) : Call A :=
  resource ← pure_of (get handle kind);
  lift_outcome (ok_or (pick resource) (NnrpFfiStatus.invalid_handle (NnrpHandleKind.repr kind))).

Definition as_bytes (r : NnrpFfiResource.t) : option bytes :=
  match r with NnrpFfiResource.Buffer bytes => Some bytes | _ => None end.
Definition as_registry (r : NnrpFfiResource.t) : option SchemaRegistry.t :=
  match r with NnrpFfiResource.SchemaRegistry registry => Some registry | _ => None end.
Definition as_object (r : NnrpFfiResource.t) : option (ObjectDescriptorMetadata.t * bytes) :=
  match r with NnrpFfiResource.ObjectDescriptor d m => Some (d, m) | _ => None end.
Definition as_reference (r : NnrpFfiResource.t) : option (CacheReferenceMetadata.t * bytes) :=
  match r with NnrpFfiResource.CacheReferenceDescriptor d m => Some (d, m) | _ => None end.
Definition as_lease (r : NnrpFfiResource.t) : option (NnrpHandle.t * CacheLease.t * bool) :=
  match r with NnrpFfiResource.CacheLease owner lease released => Some (owner, lease, released) | _ => None end.

(** A new handle of the library. *)
Definition insert_new (kind : NnrpHandleKind.t) (generation : Z) (resource : NnrpFfiResource.t)
    : Call NnrpHandle.t :=
  id ← next_handle_id kind;
  let handle := NnrpHandle.new kind id generation in
  _ ← insert handle resource;
  mret handle.

(** [validate] and [ffi_read_slice] of a view that C passes. *)
Definition validated (view : NnrpBufferView.t) : Call unit := lift_outcome (NnrpBufferView.validate view).
Definition read_view (view : NnrpBufferView.t) : Call bytes := pure_of (ffi_read_slice view).

(** ** Codecs of descriptors *)

Module NnrpBufferViewMut.

Record t := mk { ptr : Pointer.t; len : Z }.

Definition validate (self : t) : FF unit :=
  reject_if ((0 <? len self) && Pointer.is_null (ptr self)) (NnrpFfiStatus.invalid_argument 2).

End NnrpBufferViewMut.

(** The bytes that a place of the host has; the library writes nowhere else. *)
Definition ffi_write_slice (view : NnrpBufferViewMut.t) : FF bytes :=
  if NnrpBufferViewMut.len view =? 0 then Ok []
  else
    match NnrpBufferViewMut.ptr view with
    | Pointer.Host memory =>
        if NnrpBufferViewMut.len view <=? len memory
        then Ok (take (Z.to_nat (NnrpBufferViewMut.len view)) memory) else Panic
    | _ => Panic
    end.

Definition schema_descriptor_parse_impl (source : NnrpBufferView.t) (out_descriptor : Out)
    : Call NnrpSchemaDescriptorHeader.t :=
  _ ← reject (is_null_out out_descriptor) (NnrpFfiStatus.invalid_argument 33);
  _ ← validated source;
  bytes ← read_view source;
  descriptor ← lift_outcome (core (SchemaDescriptorHeader.parse bytes));
  mret (NnrpSchemaDescriptorHeader.from_core descriptor).

(** The value is what the destination holds afterwards. *)
Definition schema_descriptor_write_impl (descriptor : NnrpSchemaDescriptorHeader.t)
    (destination : NnrpBufferViewMut.t) : Call bytes :=
  lift_outcome (
    _ ← NnrpBufferViewMut.validate destination;
    bytes ← ffi_write_slice destination;
    core_descriptor ← NnrpSchemaDescriptorHeader.to_core descriptor;
    core (SchemaDescriptorHeader.write core_descriptor bytes)).

Definition token_delta_schema_descriptor_impl (out_descriptor : Out) : Call NnrpSchemaDescriptorHeader.t :=
  _ ← reject (is_null_out out_descriptor) (NnrpFfiStatus.invalid_argument 34);
  mret (NnrpSchemaDescriptorHeader.from_core token_delta_schema_descriptor).

Definition typed_payload_descriptor_parse_impl (source : NnrpBufferView.t) (out_descriptor : Out)
    : Call NnrpTypedPayloadDescriptor.t :=
  _ ← reject (is_null_out out_descriptor) (NnrpFfiStatus.invalid_argument 35);
  _ ← validated source;
  bytes ← read_view source;
  descriptor ← lift_outcome (core (TypedPayloadDescriptor.parse bytes));
  mret (NnrpTypedPayloadDescriptor.from_core descriptor).

Definition typed_payload_descriptor_write_impl (descriptor : NnrpTypedPayloadDescriptor.t)
    (destination : NnrpBufferViewMut.t) : Call bytes :=
  lift_outcome (
    _ ← NnrpBufferViewMut.validate destination;
    bytes ← ffi_write_slice destination;
    core_descriptor ← NnrpTypedPayloadDescriptor.to_core descriptor;
    core (TypedPayloadDescriptor.write core_descriptor bytes)).

(** The loop that installs the schemas of the caller. *)
Fixpoint install_schemas (schemas : list NnrpSchemaDescriptorHeader.t) (registry : SchemaRegistry.t)
    : FF SchemaRegistry.t :=
  match schemas with
  | [] => Ok registry
  | schema :: schemas =>
      core_schema ← NnrpSchemaDescriptorHeader.to_core schema;
      match SchemaRegistry.install core_schema registry with
      | (Ok _, registry) => install_schemas schemas registry
      | (Err failure, _) => Err (schema_registry_failure_status failure)
      | (Panic, _) => Panic
      end
  end.

(** [schema_descriptors] is the array that the pointer has, [None] for a null pointer. *)
Definition typed_payload_validate_binding_impl (schema_descriptors : option (list NnrpSchemaDescriptorHeader.t))
    (schema_count : Z) (descriptor : NnrpTypedPayloadDescriptor.t) : FF unit :=
  _ ← reject_if ((0 <? schema_count) && negb (is_some schema_descriptors)) (NnrpFfiStatus.invalid_argument 36);
  schemas ← (if schema_count =? 0 then Ok []
             else match schema_descriptors with
                  | Some l => if schema_count <=? len l then Ok (take (Z.to_nat schema_count) l) else Panic
                  | None => Panic
                  end);
  registry ← install_schemas schemas SchemaRegistry.new;
  core_descriptor ← NnrpTypedPayloadDescriptor.to_core descriptor;
  map_err schema_registry_failure_status (SchemaRegistry.validate_binding registry core_descriptor).

(** ** Recovery and migration *)

Definition session_recovery_request_validate_impl (session_open_metadata : NnrpBufferView.t) : Call unit :=
  _ ← validated session_open_metadata;
  bytes ← read_view session_open_metadata;
  request ← lift_outcome (core (SessionOpenMetadata.parse bytes));
  lift_outcome (core (validate_session_recovery_request request)).

Definition session_recovery_ack_validate_impl (session_open_metadata session_open_ack_metadata : NnrpBufferView.t)
    (out_outcome : Out) : Call NnrpSessionRecoveryOutcome.t :=
  _ ← reject (is_null_out out_outcome) (NnrpFfiStatus.invalid_argument 37);
  _ ← validated session_open_metadata;
  _ ← validated session_open_ack_metadata;
  open ← read_view session_open_metadata;
  request ← lift_outcome (core (SessionOpenMetadata.parse open));
  reply ← read_view session_open_ack_metadata;
  ack ← lift_outcome (core (SessionOpenAckMetadata.parse reply));
  outcome ← lift_outcome (core (validate_session_recovery_ack request ack));
  mret (NnrpSessionRecoveryOutcome.from_core outcome).

Definition migration_recovery_validate_impl
    (session_migrate_metadata session_migrate_ack_metadata : NnrpBufferView.t) : Call unit :=
  _ ← validated session_migrate_metadata;
  _ ← validated session_migrate_ack_metadata;
  migrate ← read_view session_migrate_metadata;
  request ← lift_outcome (core (SessionMigrateMetadata.parse migrate));
  reply ← read_view session_migrate_ack_metadata;
  ack ← lift_outcome (core (SessionMigrateAckMetadata.parse reply));
  lift_outcome (core (validate_migration_recovery request ack)).

Definition migration_should_replay_frame_impl (session_migrate_ack_metadata : NnrpBufferView.t) (frame_id : Z)
    (out_should_replay : Out) : Call Z :=
  _ ← reject (is_null_out out_should_replay) (NnrpFfiStatus.invalid_argument 38);
  _ ← validated session_migrate_ack_metadata;
  reply ← read_view session_migrate_ack_metadata;
  ack ← lift_outcome (core (SessionMigrateAckMetadata.parse reply));
  mret (Z.b2z (should_replay_frame_after_migration ack frame_id)).

(** ** Buffers *)

Definition insert_owned_buffer (bytes : bytes) : Call (NnrpHandle.t * NnrpBufferView.t) :=
  handle ← insert_new NnrpHandleKind.Buffer 1 (NnrpFfiResource.Buffer bytes);
  stored ← expect handle NnrpHandleKind.Buffer as_bytes;
  mret (handle, view_of handle stored).

Definition nnrp_buffer_acquire_copy_impl (source : NnrpBufferView.t) (out_buffer out_view : Out)
    : Call (NnrpHandle.t * NnrpBufferView.t) :=
  _ ← reject (is_null_out out_buffer || is_null_out out_view) (NnrpFfiStatus.invalid_argument 44);
  _ ← validated source;
  bytes ← read_view source;
  insert_owned_buffer bytes.

Definition nnrp_buffer_view_impl (buffer : NnrpHandle.t) (out_view : Out) : Call NnrpBufferView.t :=
  _ ← reject (is_null_out out_view) (NnrpFfiStatus.invalid_argument 45);
  bytes ← expect buffer NnrpHandleKind.Buffer as_bytes;
  mret (view_of buffer bytes).

(** The releases of buffers and descriptors look the resource up before they remove it. *)
Definition release_checked {A} (handle : NnrpHandle.t) (kind : NnrpHandleKind.t)
    (pick : NnrpFfiResource.t -> option A) : Call unit :=
  _ ← expect handle kind pick;
  remove handle kind.

Definition nnrp_buffer_release_impl (buffer : NnrpHandle.t) : Call unit :=
  release_checked buffer NnrpHandleKind.Buffer as_bytes.

(** ** Object descriptors and cache references *)

Definition nnrp_object_descriptor_create_impl (descriptor : NnrpRuntimeObjectDescriptor.t)
    (metadata : NnrpBufferView.t) (out_handle : Out) : Call NnrpHandle.t :=
  _ ← reject (is_null_out out_handle) (NnrpFfiStatus.invalid_argument 50);
  _ ← reject (negb (NnrpRuntimeObjectDescriptor.metadata_bytes descriptor =? NnrpBufferView.len metadata))
        (NnrpFfiStatus.invalid_argument 51);
  _ ← validated metadata;
  descriptor ← lift_outcome (NnrpRuntimeObjectDescriptor.to_core descriptor);
  metadata ← read_view metadata;
  insert_new NnrpHandleKind.ObjectDescriptor 1 (NnrpFfiResource.ObjectDescriptor descriptor metadata).

Definition nnrp_object_descriptor_view_impl (handle : NnrpHandle.t) (out_descriptor out_metadata : Out)
    : Call (NnrpRuntimeObjectDescriptor.t * NnrpBufferView.t) :=
  _ ← reject (is_null_out out_descriptor || is_null_out out_metadata) (NnrpFfiStatus.invalid_argument 52);
  p ← expect handle NnrpHandleKind.ObjectDescriptor as_object;
  mret (NnrpRuntimeObjectDescriptor.from_core p.1, view_of handle p.2).

Definition nnrp_object_descriptor_metadata_snapshot_impl (handle : NnrpHandle.t) (out_buffer out_view : Out)
    : Call (NnrpHandle.t * NnrpBufferView.t) :=
  _ ← reject (is_null_out out_buffer || is_null_out out_view) (NnrpFfiStatus.invalid_argument 56);
  p ← expect handle NnrpHandleKind.ObjectDescriptor as_object;
  insert_owned_buffer p.2.

Definition nnrp_object_descriptor_release_impl (handle : NnrpHandle.t) : Call unit :=
  release_checked handle NnrpHandleKind.ObjectDescriptor as_object.

Definition nnrp_cache_reference_descriptor_create_impl (descriptor : NnrpCacheReferenceDescriptor.t)
    (metadata : NnrpBufferView.t) (out_handle : Out) : Call NnrpHandle.t :=
  _ ← reject (is_null_out out_handle) (NnrpFfiStatus.invalid_argument 53);
  _ ← reject (negb (NnrpCacheReferenceDescriptor.metadata_bytes descriptor =? NnrpBufferView.len metadata))
        (NnrpFfiStatus.invalid_argument 54);
  _ ← validated metadata;
  descriptor ← lift_outcome (NnrpCacheReferenceDescriptor.to_core descriptor);
  metadata ← read_view metadata;
  insert_new NnrpHandleKind.CacheReferenceDescriptor 1
    (NnrpFfiResource.CacheReferenceDescriptor descriptor metadata).

Definition nnrp_cache_reference_descriptor_view_impl (handle : NnrpHandle.t) (out_descriptor out_metadata : Out)
    : Call (NnrpCacheReferenceDescriptor.t * NnrpBufferView.t) :=
  _ ← reject (is_null_out out_descriptor || is_null_out out_metadata) (NnrpFfiStatus.invalid_argument 55);
  p ← expect handle NnrpHandleKind.CacheReferenceDescriptor as_reference;
  mret (NnrpCacheReferenceDescriptor.from_core p.1, view_of handle p.2).

Definition nnrp_cache_reference_descriptor_metadata_snapshot_impl (handle : NnrpHandle.t)
    (out_buffer out_view : Out) : Call (NnrpHandle.t * NnrpBufferView.t) :=
  _ ← reject (is_null_out out_buffer || is_null_out out_view) (NnrpFfiStatus.invalid_argument 57);
  p ← expect handle NnrpHandleKind.CacheReferenceDescriptor as_reference;
  insert_owned_buffer p.2.

Definition nnrp_cache_reference_descriptor_release_impl (handle : NnrpHandle.t) : Call unit :=
  release_checked handle NnrpHandleKind.CacheReferenceDescriptor as_reference.

(** ** Schema registries *)

Definition nnrp_schema_registry_create_impl (out_registry : Out) : Call NnrpHandle.t :=
  _ ← reject (is_null_out out_registry) (NnrpFfiStatus.invalid_argument 40);
  registry ← lift_outcome (map_err schema_registry_failure_status SchemaRegistry.standard);
  insert_new NnrpHandleKind.SchemaRegistry 1 (NnrpFfiResource.SchemaRegistry registry).

(** A method of the registry that [get_mut] finds. *)
Definition on_registry {A} (handle : NnrpHandle.t) (m : Method SchemaRegistry.t SchemaRegistryFailure.t A)
    : Call A :=
  registry ← expect handle NnrpHandleKind.SchemaRegistry as_registry;
  let p := m registry in
  _ ← set_resource handle NnrpHandleKind.SchemaRegistry (NnrpFfiResource.SchemaRegistry p.2);
  lift_outcome (map_err schema_registry_failure_status p.1).

Definition nnrp_schema_registry_install_impl (registry : NnrpHandle.t)
    (descriptor : NnrpSchemaDescriptorHeader.t) (out_action : Out) : Call Z :=
  _ ← reject (is_null_out out_action) (NnrpFfiStatus.invalid_argument 41);
  descriptor ← lift_outcome (NnrpSchemaDescriptorHeader.to_core descriptor);
  action ← on_registry registry (SchemaRegistry.install descriptor);
  mret (schema_registry_action_code action).

Definition nnrp_schema_registry_lookup_impl (registry : NnrpHandle.t) (schema_id schema_version : Z)
    (out_descriptor : Out) : Call NnrpSchemaDescriptorHeader.t :=
  _ ← reject (is_null_out out_descriptor) (NnrpFfiStatus.invalid_argument 42);
  registry ← expect registry NnrpHandleKind.SchemaRegistry as_registry;
  descriptor ← lift_outcome (ok_or (SchemaRegistry.lookup registry schema_id schema_version)
                               (schema_registry_failure_status SchemaRegistryFailure.VersionUnknown));
  mret (NnrpSchemaDescriptorHeader.from_core descriptor).

Definition nnrp_schema_registry_invalidate_impl (registry : NnrpHandle.t) (schema_id schema_version : Z)
    (out_action : Out) : Call Z :=
  _ ← reject (is_null_out out_action) (NnrpFfiStatus.invalid_argument 43);
  action ← on_registry registry (SchemaRegistry.invalidate schema_id schema_version);
  mret (schema_registry_action_code action).

Definition nnrp_schema_registry_validate_binding_impl (registry : NnrpHandle.t)
    (descriptor : NnrpTypedPayloadDescriptor.t) : Call unit :=
  descriptor ← lift_outcome (NnrpTypedPayloadDescriptor.to_core descriptor);
  registry ← expect registry NnrpHandleKind.SchemaRegistry as_registry;
  lift_outcome (map_err schema_registry_failure_status (SchemaRegistry.validate_binding registry descriptor)).

Definition nnrp_schema_registry_release_impl (registry : NnrpHandle.t) : Call unit :=
  remove registry NnrpHandleKind.SchemaRegistry.

(** ** Cache leases *)

Definition NNRP_CACHE_LEASE_OUTCOME_VALID : Z := 0.
Definition NNRP_CACHE_LEASE_OUTCOME_MISS : Z := 1.
Definition NNRP_CACHE_LEASE_OUTCOME_EXPIRED : Z := 2.
Definition NNRP_CACHE_LEASE_OUTCOME_RELEASED : Z := 3.

(** [CacheLeaseOwnerScope as u32]. *)
Definition owner_scope_code (scope : CacheLeaseOwnerScope.t) : Z :=
  match scope with
  | CacheLeaseOwnerScope.Connection => 0
  | CacheLeaseOwnerScope.Session => 1
  | CacheLeaseOwnerScope.Operation => 2
  end.

Module NnrpCacheLeaseRequest.

Record t := mk {
  owner : NnrpHandle.t;
  object_id : NnrpCacheObjectId.t;
  expected_version : Z;
  now_ms : Z;
  ttl_ms : Z
}.

End NnrpCacheLeaseRequest.

Module NnrpCacheLeaseResult.

Record t := mk {
  outcome_code : Z;
  lease_handle : NnrpHandle.t;
  object_id : NnrpCacheObjectId.t;
  object_version : Z;
  lease_id : Z;
  owner_scope : Z;
  ttl_ms : Z;
  owner_id : Z;
  granted_at_ms : Z
}.

Definition miss (object_id : CacheObjectId.t) : t := {|
  outcome_code := NNRP_CACHE_LEASE_OUTCOME_MISS;
  lease_handle := NnrpHandle.invalid;
  object_id := NnrpCacheObjectId.from_core object_id;
  object_version := 0;
  lease_id := 0;
  owner_scope := 0;
  ttl_ms := 0;
  owner_id := 0;
  granted_at_ms := 0 |}.

Definition from_lease (outcome_code : Z) (lease_handle : NnrpHandle.t) (lease : CacheLease.t) : t := {|
  outcome_code := outcome_code;
  lease_handle := lease_handle;
  object_id := NnrpCacheObjectId.from_core (CacheLease.object_id lease);
  object_version := CacheLease.object_version lease;
  lease_id := CacheLease.lease_id lease;
  owner_scope := owner_scope_code (CacheLease.owner_scope lease);
  ttl_ms := CacheLease.ttl_ms lease;
  owner_id := CacheLease.owner_id lease;
  granted_at_ms := CacheLease.granted_at_ms lease |}.

End NnrpCacheLeaseResult.

Definition cache_owner_handle_kind (kind : Z) : FF NnrpHandleKind.t :=
  if kind =? NnrpHandleKind.repr NnrpHandleKind.Connection then Ok NnrpHandleKind.Connection
  else if kind =? NnrpHandleKind.repr NnrpHandleKind.Session then Ok NnrpHandleKind.Session
  else if kind =? NnrpHandleKind.repr NnrpHandleKind.Operation then Ok NnrpHandleKind.Operation
  else Err (NnrpFfiStatus.invalid_handle kind).

Definition cache_owner_scope (kind : Z) : CacheLeaseOwnerScope.t :=
  if kind =? NnrpHandleKind.repr NnrpHandleKind.Session then CacheLeaseOwnerScope.Session
  else if kind =? NnrpHandleKind.repr NnrpHandleKind.Operation then CacheLeaseOwnerScope.Operation
  else CacheLeaseOwnerScope.Connection.

Definition cache_owner_semantic_id (owner : NnrpHandle.t) (owner_kind : NnrpHandleKind.t) (self : t) : FF Z :=
  resource ← get owner owner_kind self;
  match owner_kind, resource with
  | NnrpHandleKind.Connection, NnrpFfiResource.Connection _ _ _ => Ok (NnrpHandle.id owner)
  | NnrpHandleKind.Session, NnrpFfiResource.Session _ session_id _ _ _ _ => Ok session_id
  | NnrpHandleKind.Operation, NnrpFfiResource.Operation _ operation_id _ _ _ => Ok operation_id
  | _, _ => Err (NnrpFfiStatus.invalid_handle (NnrpHandleKind.repr owner_kind))
  end.

(** Whether an entry is a lease of the owner on the object that was not released. *)
Definition is_lease_of (owner : NnrpHandle.t) (object_id : CacheObjectId.t) (resource : NnrpFfiResource.t) : bool :=
  match resource with
  | NnrpFfiResource.CacheLease o lease released =>
      bool_decide (o = owner) && bool_decide (CacheLease.object_id lease = object_id) && negb released
  | _ => false
  end.

(** [entries.iter().find_map(..)]: the first such lease, with its handle. *)
Definition find_lease (owner : NnrpHandle.t) (object_id : CacheObjectId.t) (self : t)
    : option (NnrpHandle.t * CacheLease.t) :=
  e ← find (fun e => is_lease_of owner object_id (NnrpFfiResourceEntry.resource e.2)) (iter self);
  p ← as_lease (NnrpFfiResourceEntry.resource e.2);
  Some (handle_of e, p.1.2).

(** The result of a call that writes with every status. *)
Abbreviation LeaseCall := (Call (NnrpFfiStatus.t * NnrpCacheLeaseResult.t)).

Definition answer (status : NnrpFfiStatus.t) (outcome : Z) (handle : NnrpHandle.t) (lease : CacheLease.t)
    : LeaseCall :=
  mret (status, NnrpCacheLeaseResult.from_lease outcome handle lease).

(** A lease that was found is checked, and renewed when the request has a time to live. *)
Definition existing_lease (request : NnrpCacheLeaseRequest.t) (handle : NnrpHandle.t) (lease : CacheLease.t)
    : LeaseCall :=
  if negb (is_ok (CacheLease.validate_live_at lease (NnrpCacheLeaseRequest.now_ms request))) then
    answer (cache_validation_failure_status CacheValidationFailure.LeaseExpired)
      NNRP_CACHE_LEASE_OUTCOME_EXPIRED handle lease
  else if negb (NnrpCacheLeaseRequest.expected_version request =? 0)
       && negb (is_ok (CacheLease.validate_version lease (NnrpCacheLeaseRequest.expected_version request))) then
    answer (cache_validation_failure_status CacheValidationFailure.VersionMismatch)
      NNRP_CACHE_LEASE_OUTCOME_VALID handle lease
  else if negb (NnrpCacheLeaseRequest.ttl_ms request =? 0) then
    let renewed := CacheLease.mk (CacheLease.object_id lease) (CacheLease.object_version lease)
      (CacheLease.lease_id lease) (CacheLease.owner_scope lease) (CacheLease.owner_id lease)
      (NnrpCacheLeaseRequest.now_ms request) (NnrpCacheLeaseRequest.ttl_ms request) in
    _ ← (fun self =>
           match get handle NnrpHandleKind.CacheLease self with
           | Ok (NnrpFfiResource.CacheLease owner _ released) =>
               set_resource handle NnrpHandleKind.CacheLease
                 (NnrpFfiResource.CacheLease owner renewed released) self
           | Panic => (Panic, self)
           | _ => (Ok tt, self)
           end);
    answer NnrpFfiStatus.ok NNRP_CACHE_LEASE_OUTCOME_VALID handle renewed
  else answer NnrpFfiStatus.ok NNRP_CACHE_LEASE_OUTCOME_VALID handle lease.

Definition grant_lease (request : NnrpCacheLeaseRequest.t) (object_id : CacheObjectId.t) (owner_id : Z)
    : LeaseCall :=
  id ← next_handle_id NnrpHandleKind.CacheLease;
  let handle := NnrpHandle.new NnrpHandleKind.CacheLease id 1 in
  let lease := {|
    CacheLease.object_id := object_id;
    CacheLease.object_version := Z.max (NnrpCacheLeaseRequest.expected_version request) 1;
    CacheLease.lease_id := id;
    CacheLease.owner_scope := cache_owner_scope (NnrpHandle.kind (NnrpCacheLeaseRequest.owner request));
    CacheLease.owner_id := owner_id;
    CacheLease.granted_at_ms := NnrpCacheLeaseRequest.now_ms request;
    CacheLease.ttl_ms := Z.max (NnrpCacheLeaseRequest.ttl_ms request) 30000 |} in
  _ ← insert handle (NnrpFfiResource.CacheLease (NnrpCacheLeaseRequest.owner request) lease false);
  answer NnrpFfiStatus.ok NNRP_CACHE_LEASE_OUTCOME_VALID handle lease.

Definition cache_query_impl (request : NnrpCacheLeaseRequest.t) (out_result : Out) : LeaseCall :=
  let owner := NnrpCacheLeaseRequest.owner request in
  _ ← reject (is_null_out out_result) (NnrpFfiStatus.invalid_argument 49);
  object_id ← lift_outcome (NnrpCacheObjectId.to_core (NnrpCacheLeaseRequest.object_id request));
  if NnrpHandle.kind owner =? NnrpHandleKind.repr NnrpHandleKind.Invalid then
    mret (cache_validation_failure_status CacheValidationFailure.Miss, NnrpCacheLeaseResult.miss object_id)
  else
    match cache_owner_handle_kind (NnrpHandle.kind owner) with
    | Err status => mret (status, NnrpCacheLeaseResult.miss object_id)
    | Panic => lift_outcome Panic
    | Ok owner_kind =>
        owner_id ← pure_of (cache_owner_semantic_id owner owner_kind);
        existing ← pure_of (fun self => Ok (find_lease owner object_id self));
        match existing with
        | Some (handle, lease) => existing_lease request handle lease
        | None => grant_lease request object_id owner_id
        end
    end.

Definition nnrp_cache_touch_impl (request : NnrpCacheLeaseRequest.t) (out_result : Out) : LeaseCall :=
  _ ← reject (NnrpCacheLeaseRequest.ttl_ms request =? 0) (NnrpFfiStatus.invalid_argument 46);
  cache_query_impl request out_result.

(** The loop over the objects: it stops at the first status that is not [ok].  The value is that
    status with the results that were written. *)
Fixpoint prefetch_loop (owner : NnrpHandle.t) (objects : list NnrpCacheObjectId.t) (now_ms ttl_ms : Z)
    (self : t) : Outcome NnrpFfiStatus.t (NnrpFfiStatus.t * list NnrpCacheLeaseResult.t) * t :=
  match objects with
  | [] => (Ok (NnrpFfiStatus.ok, []), self)
  | object :: objects =>
      match cache_query_impl (NnrpCacheLeaseRequest.mk owner object 0 now_ms ttl_ms) Writable self with
      | (Ok (status, result), self) =>
          if NnrpFfiStatus.status_code status =? NnrpFfiStatusCode.repr NnrpFfiStatusCode.Ok then
            match prefetch_loop owner objects now_ms ttl_ms self with
            | (Ok (status, results), self) => (Ok (status, result :: results), self)
            | other => other
            end
          else (Ok (status, [result]), self)
      | (Err status, self) => (Ok (status, []), self)
      | (Panic, self) => (Panic, self)
      end
  end.

Definition nnrp_cache_prefetch_impl (owner : NnrpHandle.t) (objects : option (list NnrpCacheObjectId.t))
    (object_count now_ms ttl_ms : Z) (out_results : Out)
    : Call (NnrpFfiStatus.t * list NnrpCacheLeaseResult.t) :=
  _ ← reject ((0 <? object_count) && (negb (is_some objects) || is_null_out out_results))
        (NnrpFfiStatus.invalid_argument 47);
  object_ids ← lift_outcome
    (if object_count =? 0 then Ok []
     else match objects with
          | Some l => if object_count <=? len l then Ok (take (Z.to_nat object_count) l) else Panic
          | None => Panic
          end);
  prefetch_loop owner object_ids now_ms ttl_ms.

Definition nnrp_cache_release_impl (lease_handle : NnrpHandle.t) (out_result : Out) : Call NnrpCacheLeaseResult.t :=
  _ ← reject (is_null_out out_result) (NnrpFfiStatus.invalid_argument 48);
  p ← expect lease_handle NnrpHandleKind.CacheLease as_lease;
  let '(owner, lease, _) := p in
  _ ← set_resource lease_handle NnrpHandleKind.CacheLease (NnrpFfiResource.CacheLease owner lease true);
  mret (NnrpCacheLeaseResult.from_lease NNRP_CACHE_LEASE_OUTCOME_RELEASED lease_handle lease).
