(* ===== verification/FfiStoreTheory.v ===== *)
(** The handle store of the C interface stays well formed, whatever calls C makes: the theory
    of [FfiStore] that the calls of the later files are proved against.

    The ids of buffers, descriptors, registries, leases and operations are given out by the
    library, in order; those of connections, sessions and tickets by C. *)

From S2P Require Import Prelude Bytes Errors Enums Wire Codes Object Cache Data Schema Control RuntimeControl Recovery RuntimeError.
From S2P Require Import Server FfiTypes FfiStore FfiObjects.
Import NnrpFfiHandleStore.

Local Open Scope Z_scope.

(** The last id that was given out for a kind. *)
Definition next (s : t) (k : Z) : Z := default 0 (next_ids s !! k).

(** The kinds whose ids the library gives out. *)
Definition library_kind (k : Z) : Prop := k = 3 \/ 5 <= k <= 9.
#[global] Instance library_kind_dec k : Decision (library_kind k).
Proof. unfold library_kind. apply _. Defined.

Abbreviation resource_at s key r :=
  (exists g, entries s !! key = Some (NnrpFfiResourceEntry.mk g r)).

(** The kinds of the handles that a resource can belong to. *)
Definition owner_kinds (r : NnrpFfiResource.t) : list NnrpHandleKind.t :=
  match r with
  | NnrpFfiResource.Session _ _ _ _ _ _ | NnrpFfiResource.ServerAccept _ _ => [NnrpHandleKind.Connection]
  | NnrpFfiResource.Operation _ _ _ _ _ => [NnrpHandleKind.Session]
  | NnrpFfiResource.CacheLease _ _ _ => [NnrpHandleKind.Connection; NnrpHandleKind.Session; NnrpHandleKind.Operation]
  | _ => []
  end.

(** A discipline for C: a tidy caller passes handles as the library gave them to it, without
    flags.  What holds of every caller is shown for any discipline; the library resolves a handle
    whatever its flags but compares owners with them, so that some facts need a tidy caller. *)
Class Discipline := tidy : bool.

Definition as_given {HD : Discipline} (h : NnrpHandle.t) : bool := negb tidy || (NnrpHandle.flags h =? 0).

Definition owner_ok {HD : Discipline} (r : NnrpFfiResource.t) : bool :=
  match NnrpFfiResource.owner r with
  | Some o => existsb (fun k => NnrpHandle.kind o =? NnrpHandleKind.repr k) (owner_kinds r) && as_given o
  | None => true
  end.

(** ** Well-formed stores *)

Record inv {HD : Discipline} (s : t) : Prop := {
  inv_entry k id e : entries s !! (k, id) = Some e ->
    k = NnrpHandleKind.repr (NnrpFfiResource.kind (NnrpFfiResourceEntry.resource e)) /\
    id <> 0 /\ NnrpFfiResourceEntry.generation e <> 0 /\ (library_kind k -> 1 <= id <= next s k);
  inv_next k : 0 <= next s k;
  inv_owner key e : entries s !! key = Some e -> owner_ok (NnrpFfiResourceEntry.resource e) = true;
  (** an owner has at most one lease on an object that is not released *)
  inv_lease key1 key2 e1 e2 owner object_id :
    entries s !! key1 = Some e1 -> entries s !! key2 = Some e2 ->
    is_lease_of owner object_id (NnrpFfiResourceEntry.resource e1) = true ->
    is_lease_of owner object_id (NnrpFfiResourceEntry.resource e2) = true -> key1 = key2;
  (** a server has at most one ticket, and no two tickets share their state *)
  inv_server key1 key2 e1 e2 server cell1 cell2 :
    entries s !! key1 = Some e1 -> entries s !! key2 = Some e2 ->
    NnrpFfiResourceEntry.resource e1 = NnrpFfiResource.ServerAccept server cell1 ->
    NnrpFfiResourceEntry.resource e2 = NnrpFfiResource.ServerAccept server cell2 -> key1 = key2;
  inv_cell key1 key2 e1 e2 server1 server2 cell :
    entries s !! key1 = Some e1 -> entries s !! key2 = Some e2 ->
    NnrpFfiResourceEntry.resource e1 = NnrpFfiResource.ServerAccept server1 cell ->
    NnrpFfiResourceEntry.resource e2 = NnrpFfiResource.ServerAccept server2 cell -> key1 = key2;
  inv_ticket key e server cell : entries s !! key = Some e ->
    NnrpFfiResourceEntry.resource e = NnrpFfiResource.ServerAccept server cell -> is_Some (tickets s !! cell)
}.

(** [n] more ids can be given out for each kind. *)
Definition room (n : Z) (s : t) : Prop := forall k, next s k + n < modulus 8.

(** What a call that gives out at most [n] ids of a kind does: handles of the library that are
    gone do not come back, and the bytes of an entry do not change while it is there. *)
Record evolves {HD : Discipline} (n : Z) (s s' : t) : Prop := {
  evolves_inv : inv s';
  evolves_next k : next s k <= next s' k <= next s k + n;
  evolves_dead k id : library_kind k -> id <= next s k -> entries s !! (k, id) = None ->
    entries s' !! (k, id) = None;
  evolves_memory k id e e' : library_kind k -> entries s !! (k, id) = Some e -> entries s' !! (k, id) = Some e' ->
    NnrpFfiResource.memory (NnrpFfiResourceEntry.resource e') = NnrpFfiResource.memory (NnrpFfiResourceEntry.resource e) /\
    NnrpFfiResourceEntry.generation e' = NnrpFfiResourceEntry.generation e
}.

Lemma inv_initial {HD : Discipline} : inv initial.
Proof. by split. Qed.

Lemma evolves_refl {HD : Discipline} n s : 0 <= n -> inv s -> evolves n s s.
Proof. intros Hn Hs. split; [done|intros; lia|done|]. intros. simplify_eq. done. Qed.

Lemma evolves_trans {HD : Discipline} n m s1 s2 s3 :
  inv s1 -> evolves n s1 s2 -> evolves m s2 s3 -> evolves (n + m) s1 s3.
Proof.
  intros Hs1 [H1 N1 D1 M1] [H2 N2 D2 M2]. split; [done|..].
  - intros k. specialize (N1 k). specialize (N2 k). lia.
  - intros k id Hl Hid Hd. apply D2; [done|specialize (N1 k); lia|by apply D1].
  - intros k id e e' Hl He He'. destruct (entries s2 !! (k, id)) as [e2|] eqn:E2.
    + destruct (M1 _ _ _ _ Hl He E2), (M2 _ _ _ _ Hl E2 He'). split; congruence.
    + rewrite (D2 k id) in He'; [done|done| |done].
      destruct (inv_entry s1 Hs1 _ _ _ He) as (_ & _ & _ & Hb). specialize (Hb Hl). specialize (N1 k). lia.
Qed.

Lemma evolves_weaken {HD : Discipline} n m s s' : evolves n s s' -> n <= m -> evolves m s s'.
Proof. intros [H N D M] Hle. split; [done| |done|done]. intros k. specialize (N k). lia. Qed.

Lemma room_after {HD : Discipline} n m s s' : room (n + m) s -> evolves n s s' -> room m s'.
Proof. intros Hr He k. specialize (Hr k). pose proof (evolves_next _ _ _ He k). lia. Qed.

(** ** Entries that go *)

Definition shrinks (s s' : t) : Prop :=
  entries s' ⊆ entries s /\ next_ids s' = next_ids s /\ forall cell, is_Some (tickets s !! cell) -> is_Some (tickets s' !! cell).

#[global] Instance shrinks_preorder : PreOrder shrinks.
Proof.
  split; [by intros s|]. intros s1 s2 s3 (H1 & N1 & T1) (H2 & N2 & T2).
  split_and!; [by etrans|congruence|auto].
Qed.

Lemma shrinks_evolves {HD : Discipline} s s' : inv s -> shrinks s s' -> evolves 0 s s'.
Proof.
  intros Hs (Hsub & Hn & Ht). assert (forall k, next s' k = next s k) as Hnext by (intros; unfold next; by rewrite Hn).
  assert (forall key e, entries s' !! key = Some e -> entries s !! key = Some e) as Hin
    by (intros key e He; by eapply lookup_weaken).
  split.
  - split.
    + intros k id e He. rewrite Hnext. by apply (inv_entry s Hs), Hin.
    + intros k. rewrite Hnext. apply Hs.
    + intros key e He. by eapply (inv_owner s Hs), Hin.
    + intros * H1 H2. eapply inv_lease; eauto.
    + intros * H1 H2. eapply inv_server; eauto.
    + intros * H1 H2. eapply inv_cell; eauto.
    + intros * H1 H2. eapply Ht, inv_ticket; eauto.
  - intros k. rewrite Hnext. lia.
  - intros k id _ _ Hd. destruct (entries s' !! (k, id)) eqn:E; [|done]. apply Hin in E. congruence.
  - intros k id e e' _ He He'. apply Hin in He'. simplify_eq. done.
Qed.

Lemma shrinks_delete s key : shrinks s (set_entries s (delete key (entries s))).
Proof. split_and!; cbn; [apply delete_subseteq|done|done]. Qed.

Lemma shrinks_replies s delivered replies : shrinks s (set_replies s delivered replies).
Proof. by split_and!. Qed.

Lemma shrinks_release_ticket r s : shrinks s (release_ticket r s).
Proof.
  destruct r; try done. split_and!; cbn; [done..|]. intros cell H.
  destruct (decide (cell = runtime)) as [-> |]; [rewrite lookup_alter_eq; by apply fmap_is_Some|by rewrite lookup_alter_ne].
Qed.

Lemma shrinks_filter s (P : (Z * Z) * NnrpFfiResourceEntry.t -> Prop) `{!forall x, Decision (P x)} :
  shrinks s (set_entries s (filter P (entries s))).
Proof. split_and!; cbn; [apply map_filter_subseteq|done..]. Qed.

Lemma shrinks_remove_entries hs s : shrinks s (remove_entries hs s).
Proof.
  split_and!; cbn; [|done..]. generalize (entries s). induction hs as [|h hs IH]; intros es; cbn; [done|].
  etrans; [apply IH|apply delete_subseteq].
Qed.

Lemma shrinks_remove_accepts hs s : shrinks s (remove_accepts hs s).
Proof.
  revert s. induction hs as [|h hs IH]; intros s; cbn; [done|]. etrans; [|apply IH].
  destruct (entries s !! NnrpHandle.key h); [|done].
  etrans; [apply shrinks_delete|apply shrinks_release_ticket].
Qed.

Lemma shrinks_release_all (l : list ((Z * Z) * NnrpFfiResourceEntry.t)) s :
  shrinks s (foldl (fun self e => release_ticket (NnrpFfiResourceEntry.resource e.2) self) s l).
Proof.
  revert s. induction l as [|e l IH]; intros s; cbn; [done|].
  etrans; [apply shrinks_release_ticket|apply IH].
Qed.

Lemma shrinks_invalidate_all s : shrinks s (invalidate_all s).
Proof.
  etrans; [apply (shrinks_release_all (iter s))|]. split_and!; cbn; [apply map_empty_subseteq|done|done].
Qed.

(** ** Entries that come *)

(** The entries that a new one may not meet. *)
Definition admissible {HD : Discipline} (s : t) (r : NnrpFfiResource.t) : Prop :=
  owner_ok r = true /\
  (forall owner object_id key e, is_lease_of owner object_id r = true -> entries s !! key = Some e ->
     is_lease_of owner object_id (NnrpFfiResourceEntry.resource e) = false) /\
  (forall server cell, r = NnrpFfiResource.ServerAccept server cell -> is_Some (tickets s !! cell) /\
     forall key e server' cell', entries s !! key = Some e ->
       NnrpFfiResourceEntry.resource e = NnrpFfiResource.ServerAccept server' cell' -> server' <> server /\ cell' <> cell).

Definition plain (r : NnrpFfiResource.t) : bool :=
  match r with NnrpFfiResource.CacheLease _ _ false | NnrpFfiResource.ServerAccept _ _ => false | _ => true end.

Lemma plain_admissible {HD : Discipline} s r : plain r = true -> owner_ok r = true -> admissible s r.
Proof.
  intros Hp Ho. split_and!; [done|..].
  - intros owner object_id key e Hr. destruct r; try done. destruct released; [|done].
    cbn in Hr. by rewrite andb_false_r in Hr.
  - by intros server cell ->.
Qed.

Lemma validate_kind_Ok h k :
  NnrpHandle.validate_kind h k = Ok tt <->
    NnrpHandle.kind h = NnrpHandleKind.repr k /\ NnrpHandle.id h <> 0 /\ NnrpHandle.generation h <> 0.
Proof. unfold NnrpHandle.validate_kind. rewrite reject_if_Ok, !orb_false_iff, negb_false_iff, !Z.eqb_neq, Z.eqb_eq. tauto. Qed.

Lemma get_Ok h k s r :
  get h k s = Ok r <-> NnrpHandle.validate_kind h k = Ok tt /\
    entries s !! NnrpHandle.key h = Some (NnrpFfiResourceEntry.mk (NnrpHandle.generation h) r).
Proof.
  unfold get. split.
  - intros ([] & Hv & (e & He & ([] & Hg & Hr)%bind_Ok)%bind_Ok)%bind_Ok.
    split; [done|]. apply ok_or_Ok in He. apply reject_if_Ok, negb_false_iff, Z.eqb_eq in Hg.
    injection Hr as <-. rewrite He. destruct e. cbn in *. by subst.
  - intros [Hv He]. rewrite Hv. cbn. rewrite He. cbn. by rewrite Z.eqb_refl.
Qed.

(** What [insert] did when it succeeded; otherwise nothing changed. *)
Lemma insert_cases h r s :
  (exists e, insert h r s = (Err e, s)) \/
  (insert h r s = (Ok tt, set_entries s (<[NnrpHandle.key h := NnrpFfiResourceEntry.mk (NnrpHandle.generation h) r]> (entries s))) /\
   entries s !! NnrpHandle.key h = None /\ NnrpHandle.id h <> 0 /\ NnrpHandle.generation h <> 0).
Proof.
  unfold insert. destruct (stored_kind (NnrpHandle.kind h)) as [k|] eqn:Hk; cbn; [|eauto].
  destruct (NnrpHandle.validate_kind h k) as [[]|e|] eqn:Hv; cbn; [|eauto|].
  - apply validate_kind_Ok in Hv as (_ & Hid & Hg).
    destruct (entries s !! NnrpHandle.key h) eqn:He; cbn; [eauto|]. right. done.
  - by apply reject_if_no_panic in Hv.
Qed.

(** It succeeds for a handle of a kind that is stored, when the key is free. *)
Lemma insert_free k id g r s :
  NnrpFfiResource.kind r = k -> id <> 0 -> g <> 0 -> entries s !! (NnrpHandleKind.repr k, id) = None ->
  insert (NnrpHandle.new k id g) r s =
    (Ok tt, set_entries s (<[(NnrpHandleKind.repr k, id) := NnrpFfiResourceEntry.mk g r]> (entries s))).
Proof.
  intros Hk Hid Hg Hnone. unfold insert.
  assert (stored_kind (NnrpHandle.kind (NnrpHandle.new k id g)) = Some k) as -> by (subst k; by destruct r).
  assert (NnrpHandle.validate_kind (NnrpHandle.new k id g) k = Ok tt) as Hv by by apply validate_kind_Ok.
  cbn [ok_or mbind outcome_bind]. rewrite Hv. unfold NnrpHandle.key. cbn. by rewrite Hnone.
Qed.

Lemma next_set_entries s es k : next (set_entries s es) k = next s k.
Proof. done. Qed.

(** The id of a new entry of the library is the one given out last. *)
Lemma insert_evolves {HD : Discipline} h r s :
  inv s -> NnrpHandle.kind h = NnrpHandleKind.repr (NnrpFfiResource.kind r) -> admissible s r ->
  (library_kind (NnrpHandle.kind h) -> 1 <= NnrpHandle.id h /\ NnrpHandle.id h = next s (NnrpHandle.kind h)) ->
  inv (insert h r s).2 /\ (forall k, next (insert h r s).2 k = next s k) /\
  (forall key, key <> NnrpHandle.key h -> entries (insert h r s).2 !! key = entries s !! key).
Proof.
  intros Hs Hk (Ho & Hl & Ht) Hlib. destruct (insert_cases h r s) as [[e ->]|(-> & Hnone & Hid & Hg)]; [done|].
  cbn. split_and!; [|done|intros key Hne; by rewrite lookup_insert_ne].
  assert (forall key e, <[NnrpHandle.key h := NnrpFfiResourceEntry.mk (NnrpHandle.generation h) r]> (entries s) !! key = Some e ->
    key = NnrpHandle.key h /\ e = NnrpFfiResourceEntry.mk (NnrpHandle.generation h) r \/
    key <> NnrpHandle.key h /\ entries s !! key = Some e) as Hcases.
  { intros key e [[<- <-]|[? ?]]%lookup_insert_Some; auto. }
  split; cbn.
  - intros k id e [[[= -> ->] ->]|[_ He]]%Hcases; [|by apply (inv_entry s Hs)]. split_and!; [done..|].
    intros Hlk. specialize (Hlib Hlk). rewrite next_set_entries. lia.
  - apply Hs.
  - intros key e [[-> ->]|[_ He]]%Hcases; [done|by eapply inv_owner].
  - intros key1 key2 e1 e2 o i [[-> ->]|[Hn1 H1]]%Hcases [[-> ->]|[Hn2 H2]]%Hcases L1 L2; [done|..].
    + by rewrite (Hl _ _ _ _ L1 H2) in L2.
    + by rewrite (Hl _ _ _ _ L2 H1) in L1.
    + by eapply inv_lease.
  - intros key1 key2 e1 e2 sv c1 c2 [[-> ->]|[Hn1 H1]]%Hcases [[-> ->]|[Hn2 H2]]%Hcases L1 L2; [done|..].
    + destruct (Ht _ _ L1) as [_ H]. by destruct (H _ _ _ _ H2 L2).
    + destruct (Ht _ _ L2) as [_ H]. by destruct (H _ _ _ _ H1 L1).
    + by eapply inv_server.
  - intros key1 key2 e1 e2 s1 s2 c [[-> ->]|[Hn1 H1]]%Hcases [[-> ->]|[Hn2 H2]]%Hcases L1 L2; [done|..].
    + destruct (Ht _ _ L1) as [_ H]. by destruct (H _ _ _ _ H2 L2).
    + destruct (Ht _ _ L2) as [_ H]. by destruct (H _ _ _ _ H1 L1).
    + by eapply inv_cell.
  - intros key e sv c [[-> ->]|[Hn H]]%Hcases L; [by destruct (Ht _ _ L)|by eapply inv_ticket].
Qed.

(** ** Calls *)

(** A call that gives out at most [n] ids of a kind. *)
Definition frugal {HD : Discipline} {A} (n : Z) (m : Call A) : Prop := forall s, inv s -> room n s -> evolves n s (m s).2.

Lemma frugal_weaken {HD : Discipline} {A} n k (m : Call A) : frugal n m -> n <= k -> frugal k m.
Proof. intros Hm Hle s Hs Hr. apply (evolves_weaken n); [|done]. apply Hm; [done|]. intros i. specialize (Hr i). lia. Qed.

Lemma frugal_reads {HD : Discipline} {A} n (m : Call A) : 0 <= n -> (forall s, (m s).2 = s) -> frugal n m.
Proof. intros Hn Hm s Hs _. rewrite Hm. by apply evolves_refl. Qed.

Lemma frugal_shrinks {HD : Discipline} {A} n (m : Call A) : 0 <= n -> (forall s, shrinks s (m s).2) -> frugal n m.
Proof. intros Hn Hm s Hs _. apply (evolves_weaken 0); [|done]. by apply shrinks_evolves. Qed.

Lemma frugal_bind {HD : Discipline} {A B} n k (m : Call A) (f : A -> Call B) :
  0 <= k -> frugal n m -> (forall a, frugal k (f a)) -> frugal (n + k) (x ← m; f x).
Proof.
  intros Hk Hm Hf s Hs Hr. assert (room n s) as Hrn by (intros i; specialize (Hr i); lia).
  specialize (Hm s Hs Hrn). unfold mbind, method_bind. destruct (m s) as [[a|e|] s1]; cbn in *.
  - eapply evolves_trans; [done|exact Hm|]. apply Hf; [by apply Hm|by eapply room_after].
  - eapply evolves_weaken; [exact Hm|lia].
  - eapply evolves_weaken; [exact Hm|lia].
Qed.

(** A step that only reads: what it has read was in a well-formed store. *)
Definition was_read {HD : Discipline} {A} (m : Call A) (a : A) : Prop := exists s, inv s /\ (m s).1 = Ok a.

Lemma frugal_bind_reads {HD : Discipline} {A B} n (m : Call A) (f : A -> Call B) :
  0 <= n -> (forall s, (m s).2 = s) -> (forall a, was_read m a -> frugal n (f a)) -> frugal n (x ← m; f x).
Proof.
  intros Hn Hm Hf s Hs Hr. specialize (Hm s). unfold mbind, method_bind.
  destruct (m s) as [[a|e|] s1] eqn:E; cbn in Hm; subst s1; [|by apply evolves_refl..].
  apply Hf; [|done..]. exists s. by rewrite E.
Qed.

Lemma frugal_bind_last {HD : Discipline} {A B} n (m : Call A) (f : A -> Call B) :
  frugal n m -> (forall a, frugal 0 (f a)) -> frugal n (x ← m; f x).
Proof. intros Hm Hf. replace n with (n + 0) by lia. by apply frugal_bind. Qed.

Lemma expect_was_read {HD : Discipline} {A} h k (pick : NnrpFfiResource.t -> option A) a :
  was_read (expect h k pick) a -> NnrpHandle.kind h = NnrpHandleKind.repr k /\
    exists r, pick r = Some a /\ owner_ok r = true.
Proof.
  intros (s & Hs & H). unfold expect, mbind, method_bind, pure_of in H.
  destruct (get h k s) as [r|e|] eqn:Hget; [|done..]. apply get_Ok in Hget as [Hv He]. apply ok_or_Ok in H.
  split; [by apply validate_kind_Ok in Hv as [? _]|]. exists r. split; [done|]. by apply (inv_owner s Hs) in He.
Qed.

Lemma expect_reads {A} h k (pick : NnrpFfiResource.t -> option A) s : (expect h k pick s).2 = s.
Proof. unfold expect, mbind, method_bind, pure_of. by destruct (get h k s). Qed.

(** ** The operations of the store *)

Lemma remove_shrinks h k s : shrinks s (remove h k s).2.
Proof.
  unfold remove, mbind, method_bind, pure_of. destruct (get h k s); cbn; [|done..].
  case_match; [etrans; [apply shrinks_delete|apply shrinks_replies]|apply shrinks_delete].
Qed.

Lemma retain_leases_shrinks owners s : shrinks s (retain_leases owners s).
Proof. apply (shrinks_filter s). Qed.

Lemma close_connection_shrinks c s : shrinks s (close_connection c s).2.
Proof.
  unfold close_connection, mbind, method_bind, pure_of. destruct (get c _ s); cbn; [|done..].
  do 5 (etrans; [|first [apply shrinks_delete|apply retain_leases_shrinks|apply shrinks_replies
    |apply shrinks_remove_entries|apply shrinks_remove_accepts]]). apply shrinks_remove_entries.
Qed.

Lemma close_session_shrinks c s : shrinks s (close_session c s).2.
Proof.
  unfold close_session, mbind, method_bind, pure_of. destruct (get c _ s); cbn; [|done..].
  do 3 (etrans; [|first [apply shrinks_delete|apply retain_leases_shrinks|apply shrinks_replies]]).
  apply shrinks_remove_entries.
Qed.

Lemma record_terminal_shrinks session operation s : shrinks s (record_terminal_operation_reply session operation s).2.
Proof.
  unfold record_terminal_operation_reply, mbind, method_bind, pure_of. destruct (get operation _ s); cbn; [|done..].
  unfold record_reply. do 2 (case_match; [first [apply remove_shrinks|done]|]). apply shrinks_replies.
Qed.

(** An entry of a kind whose ids C gives out. *)
Lemma frugal_insert {HD : Discipline} k id g r :
  NnrpFfiResource.kind r = k -> ~ library_kind (NnrpHandleKind.repr k) -> plain r = true -> owner_ok r = true ->
  frugal 0 (insert (NnrpHandle.new k id g) r).
Proof.
  intros Hk Hl Hp Ho s Hs _. destruct (insert_evolves (NnrpHandle.new k id g) r s Hs) as (Hi & Hn & He); cbn in *.
  - by rewrite Hk.
  - by apply plain_admissible.
  - done.
  - split; [done|intros i; rewrite Hn; lia| |].
    + intros i x Hlib _ Hd. rewrite He; [done|]. intros [= -> ->]. done.
    + intros i x e e' Hlib H1 H2. rewrite He in H2; [by simplify_eq|]. intros [= -> ->]. done.
Qed.

(** The next id of the library is free at once. *)
Lemma next_handle_id_eq {HD : Discipline} k s :
  inv s -> room 1 s -> library_kind (NnrpHandleKind.repr k) ->
  next_handle_id k s = (Ok (next s (NnrpHandleKind.repr k) + 1),
    set_next_ids s (<[NnrpHandleKind.repr k := next s (NnrpHandleKind.repr k) + 1]> (next_ids s))).
Proof.
  intros Hs Hr Hl. unfold next_handle_id. fold (next s (NnrpHandleKind.repr k)).
  set (i := NnrpHandleKind.repr k) in *. replace (size (entries s) + 2)%nat with (S (size (entries s) + 1)) by lia.
  cbn. pose proof (inv_next s Hs i) as H0. specialize (Hr i). rewrite Z.mod_small by lia.
  destruct (Z.eqb_spec (next s i + 1) 0); [lia|]. cbn.
  destruct (entries s !! (i, next s i + 1)) as [e|] eqn:E; [|done].
  apply (inv_entry s Hs) in E as (_ & _ & _ & Hb). specialize (Hb Hl). lia.
Qed.

Lemma next_insert s i x k : next (set_next_ids s (<[i := x]> (next_ids s))) k = if decide (k = i) then x else next s k.
Proof. unfold next. cbn. destruct (decide (k = i)) as [-> |]; [by rewrite lookup_insert_eq|by rewrite lookup_insert_ne]. Qed.

(** A counter that goes up. *)
Lemma evolves_counter {HD : Discipline} s i : inv s -> evolves 1 s (set_next_ids s (<[i := next s i + 1]> (next_ids s))).
Proof.
  intros Hs. split.
  - split; [|intros k; rewrite next_insert; case_decide; [pose proof (inv_next s Hs i); lia|apply Hs]|apply Hs..].
    intros k id e He. destruct (inv_entry s Hs _ _ _ He) as (? & ? & ? & Hb). split_and!; [done..|].
    intros Hl. specialize (Hb Hl). rewrite next_insert. case_decide; subst; lia.
  - intros k. rewrite next_insert. case_decide; subst; lia.
  - done.
  - intros. cbn in *. by simplify_eq.
Qed.

(** A new entry of the library. *)
Lemma insert_new_evolves {HD : Discipline} k g r s :
  NnrpFfiResource.kind r = k -> library_kind (NnrpHandleKind.repr k) -> admissible s r -> inv s -> room 1 s ->
  evolves 1 s (insert_new k g r s).2 /\
  (forall key, key <> (NnrpHandleKind.repr k, next s (NnrpHandleKind.repr k) + 1) ->
     entries (insert_new k g r s).2 !! key = entries s !! key) /\
  (g <> 0 -> let h := NnrpHandle.new k (next s (NnrpHandleKind.repr k) + 1) g in
     (insert_new k g r s).1 = Ok h /\ get h k (insert_new k g r s).2 = Ok r).
Proof.
  intros Hk Hl Ha Hs Hr. set (i := NnrpHandleKind.repr k). set (id := next s i + 1).
  set (s1 := set_next_ids s (<[i := id]> (next_ids s))). set (h := NnrpHandle.new k id g).
  assert (insert_new k g r s = (match (insert h r s1).1 with Ok _ => Ok h | Err e => Err e | Panic => Panic end, (insert h r s1).2)) as ->.
  { unfold insert_new, mbind, method_bind. rewrite next_handle_id_eq by done. fold i id s1. cbv zeta. fold h.
    by destruct (insert h r s1) as [[] ?]. }
  pose proof (evolves_counter s i Hs) as He. fold id s1 in He.
  assert (next s1 i = id) as Hn by (unfold s1; rewrite next_insert; by case_decide).
  assert (entries s1 !! (i, id) = None) as Hfree.
  { destruct (entries s1 !! (i, id)) as [e|] eqn:E; [|done].
    apply (inv_entry s Hs) in E as (_ & _ & _ & Hb). specialize (Hb Hl). unfold id in Hb. lia. }
  destruct (insert_evolves h r s1) as (Hi & Hn' & Hother); cbn; [by apply He|by rewrite Hk|done| |].
  { intros _. fold i. rewrite Hn. pose proof (inv_next s Hs i). unfold id. lia. }
  split_and!; [|intros key Hne; by rewrite Hother|].
  - split; [done|intros j; rewrite Hn'; apply (evolves_next _ _ _ He)|..].
    + intros j x Hlj Hx Hd. rewrite Hother; [done|]. intros [= -> ->]. fold i id in Hx. unfold id in Hx. lia.
    + intros j x e e' Hlj H1 H2. rewrite Hother in H2; [cbn in H2; by simplify_eq|]. intros [= -> ->].
      fold i id in H1. cbn in Hfree. congruence.
  - intros Hg. assert (id <> 0) as Hid by (pose proof (inv_next s Hs i); unfold id; lia).
    unfold h. rewrite insert_free by done. cbn. split; [done|]. apply get_Ok. split.
    + by apply validate_kind_Ok.
    + unfold NnrpHandle.key. cbn. by rewrite lookup_insert_eq.
Qed.

Lemma frugal_insert_new {HD : Discipline} k g r :
  NnrpFfiResource.kind r = k -> library_kind (NnrpHandleKind.repr k) -> plain r = true -> owner_ok r = true ->
  frugal 1 (insert_new k g r).
Proof. intros Hk Hl Hp Ho s Hs Hr. apply insert_new_evolves; [done..|by apply plain_admissible|done|done]. Qed.

(** A resource that takes the place of another. *)
Record replaces (old new : NnrpFfiResource.t) : Prop := {
  replaces_kind : NnrpFfiResource.kind new = NnrpFfiResource.kind old;
  replaces_memory : NnrpFfiResource.memory new = NnrpFfiResource.memory old;
  replaces_owner : NnrpFfiResource.owner new = NnrpFfiResource.owner old;
  replaces_lease owner object_id : is_lease_of owner object_id new = true -> is_lease_of owner object_id old = true;
  replaces_ticket server cell : new = NnrpFfiResource.ServerAccept server cell -> old = new
}.

Lemma replaces_owner_ok {HD : Discipline} old new : replaces old new -> owner_ok new = owner_ok old.
Proof.
  intros [Hk _ Ho _ _]. unfold owner_ok. rewrite Ho. destruct (NnrpFfiResource.owner old); [|done].
  by destruct new, old.
Qed.

Lemma set_resource_evolves {HD : Discipline} h k r s :
  inv s -> (forall old, get h k s = Ok old -> replaces old r) -> evolves 0 s (set_resource h k r s).2.
Proof.
  intros Hs Hrep. unfold set_resource, mbind, method_bind, pure_of.
  destruct (get h k s) as [old|e|] eqn:Hget; cbn; [|by apply evolves_refl..].
  specialize (Hrep old eq_refl). apply get_Ok in Hget as [_ Hold].
  set (f := fun e => NnrpFfiResourceEntry.mk (NnrpFfiResourceEntry.generation e) r).
  assert (forall key e', alter f (NnrpHandle.key h) (entries s) !! key = Some e' ->
    exists e, entries s !! key = Some e /\ NnrpFfiResourceEntry.generation e' = NnrpFfiResourceEntry.generation e /\
      (e' = e \/ replaces (NnrpFfiResourceEntry.resource e) (NnrpFfiResourceEntry.resource e'))) as Hback.
  { intros key e' He'. destruct (decide (key = NnrpHandle.key h)) as [-> |Hne].
    - rewrite lookup_alter_eq, Hold in He'. injection He' as <-. eexists. split; [done|]. split; [done|]. by right.
    - rewrite lookup_alter_ne in He' by done. eauto. }
  assert (forall o i e e', e' = e \/ replaces (NnrpFfiResourceEntry.resource e) (NnrpFfiResourceEntry.resource e') ->
    is_lease_of o i (NnrpFfiResourceEntry.resource e') = true -> is_lease_of o i (NnrpFfiResourceEntry.resource e) = true) as Hlease.
  { intros o i e e' [-> |Hr]; [done|]. apply Hr. }
  assert (forall sv c e e', e' = e \/ replaces (NnrpFfiResourceEntry.resource e) (NnrpFfiResourceEntry.resource e') ->
    NnrpFfiResourceEntry.resource e' = NnrpFfiResource.ServerAccept sv c ->
    NnrpFfiResourceEntry.resource e = NnrpFfiResource.ServerAccept sv c) as Hticket.
  { intros sv c e e' [-> |Hr]; [done|]. intros Hq. rewrite (replaces_ticket _ _ Hr _ _ Hq). done. }
  split; cbn; [split; cbn| | |].
  - intros i id e' (e & He & Hg & Hc)%Hback. destruct (inv_entry s Hs _ _ _ He) as (Hk & Hid & Hgen & Hb).
    split_and!; [|done|by rewrite Hg|done]. destruct Hc as [-> |Hc]; [done|]. by rewrite (replaces_kind _ _ Hc).
  - apply Hs.
  - intros key e' (e & He & _ & Hc)%Hback. destruct Hc as [-> |Hc]; [by eapply inv_owner|].
    rewrite (replaces_owner_ok _ _ Hc). by eapply inv_owner.
  - intros key1 key2 e1 e2 o i (e & He & _ & Hc)%Hback (e' & He' & _ & Hc')%Hback L1 L2. eapply inv_lease; eauto.
  - intros key1 key2 e1 e2 sv c1 c2 (e & He & _ & Hc)%Hback (e' & He' & _ & Hc')%Hback L1 L2. eapply inv_server; eauto.
  - intros key1 key2 e1 e2 s1 s2 c (e & He & _ & Hc)%Hback (e' & He' & _ & Hc')%Hback L1 L2. eapply inv_cell; eauto.
  - intros key e1 sv c (e & He & _ & Hc)%Hback L. eapply inv_ticket; eauto.
  - intros i. change (next (set_entries s (alter f (NnrpHandle.key h) (entries s))) i) with (next s i). lia.
  - intros i id _ _ Hd. destruct (alter _ _ _ !! _) eqn:E; [|done]. apply Hback in E as (e & He & _). congruence.
  - intros i id e e' _ He (e2 & He2 & Hg & Hc)%Hback. simplify_eq. split; [|done].
    destruct Hc as [-> |Hc]; [done|]. apply Hc.
Qed.

(** ** Combinators of calls *)

Definition steps {HD : Discipline} (n : Z) (f : t -> t) : Prop := forall s, inv s -> room n s -> evolves n s (f s).

Lemma frugal_update {HD : Discipline} n (f : t -> t) : steps n f -> frugal n (update_with (E := NnrpFfiStatus.t) f).
Proof. intros Hf s Hs Hr. by apply Hf. Qed.

Ltac call_reads :=
  intros; first [ reflexivity | apply expect_reads
    | unfold reject, lift_outcome, pure_of, validated, read_view, mret, method_ret; reflexivity ].

(** The steps of a call that only read. *)
Ltac frugal_reading :=
  repeat (lazymatch goal with
    | |- frugal _ (mbind _ _) => apply frugal_bind_reads; [lia|call_reads|intros ? ?]
    | |- frugal _ (let x := _ in _) => cbv zeta
    end).

(** The owner of a new entry was read before. *)
Ltac solve_owner :=
  repeat match goal with
    | H : was_read (expect _ _ _) _ |- _ => apply expect_was_read in H as [? _]
    end;
  unfold owner_ok; cbn -[as_given] in *; try match goal with H : NnrpHandle.kind _ = _ |- _ => rewrite H end;
  try match goal with H : as_given _ = true |- _ => rewrite H end; reflexivity.

Create HintDb frugal.
#[export] Hint Extern 1 (frugal _ (mret _)) => (apply frugal_reads; [lia|call_reads]) : frugal.
#[export] Hint Extern 1 (frugal _ (lift_outcome _)) => (apply frugal_reads; [lia|call_reads]) : frugal.
#[export] Hint Extern 1 (frugal _ (pure_of _)) => (apply frugal_reads; [lia|call_reads]) : frugal.
#[export] Hint Extern 1 (frugal _ (expect _ _ _)) => (apply frugal_reads; [lia|call_reads]) : frugal.
#[export] Hint Extern 1 (frugal _ (remove _ _)) => (apply frugal_shrinks; [lia|apply remove_shrinks]) : frugal.
#[export] Hint Extern 1 (frugal _ (close_session _)) => (apply frugal_shrinks; [lia|apply close_session_shrinks]) : frugal.
#[export] Hint Extern 1 (frugal _ (close_connection _)) =>
  (apply frugal_shrinks; [lia|apply close_connection_shrinks]) : frugal.
#[export] Hint Extern 1 (frugal _ (record_terminal_operation_reply _ _)) =>
  (apply frugal_shrinks; [lia|apply record_terminal_shrinks]) : frugal.
#[export] Hint Extern 1 (frugal _ (insert (NnrpHandle.new _ _ _) _)) =>
  (apply frugal_insert; [reflexivity|cbn; unfold library_kind; lia|reflexivity|solve_owner]) : frugal.
#[export] Hint Extern 1 (frugal _ (insert_new _ _ _)) =>
  (apply frugal_insert_new; [reflexivity|cbn; unfold library_kind; lia|reflexivity|solve_owner]) : frugal.

Ltac solve_frugal := frugal_reading; eauto with frugal.

(** ** Buffers, descriptors and registries *)

Lemma frugal_insert_owned_buffer {HD : Discipline} bytes : frugal 1 (insert_owned_buffer bytes).
Proof.
  apply frugal_bind_last; [eauto with frugal|]. intros h. solve_frugal.
Qed.
#[export] Hint Resolve frugal_insert_owned_buffer : frugal.

Lemma frugal_on_registry {HD : Discipline} {A} h (m : Method SchemaRegistry.t SchemaRegistryFailure.t A) : frugal 0 (on_registry h m).
Proof.
  apply frugal_bind_reads; [lia|call_reads|]. intros r _. cbv zeta. apply frugal_bind_last; [|intros; eauto with frugal].
  intros s Hs _. apply set_resource_evolves; [done|]. intros old Hold.
  assert (NnrpFfiResource.kind old = NnrpHandleKind.SchemaRegistry) as Hk.
  { apply get_Ok in Hold as [Hv He]. apply validate_kind_Ok in Hv as (Hv & _).
    destruct (inv_entry s Hs _ _ _ He) as (Hq & _). cbn in Hq. apply (inj NnrpHandleKind.repr). congruence. }
  by destruct old.
Qed.

Lemma frugal_release_checked {HD : Discipline} {A} h k (pick : NnrpFfiResource.t -> option A) : frugal 0 (release_checked h k pick).
Proof. unfold release_checked. solve_frugal. Qed.
#[export] Hint Resolve frugal_on_registry frugal_release_checked : frugal.
