(* ===== verification/FfiTransport.v ===== *)
(** The transports of the C interface ([src/crates/nnrp-ffi/src/transport.rs]): the store of
    connections, listeners and security configurations, whose slots are used again under a new
    generation. *)

From S2P Require Import Prelude Bytes Errors Enums Wire Header Codes Control Capability Packet RuntimeError Stream Async.
From S2P Require Import Object Cache Data Schema RuntimeControl Recovery FfiTypes.

Local Open Scope Z_scope.

Definition DEFAULT_TIMEOUT_MS : Z := 30000.
Definition DEFAULT_MAX_FRAMES : Z := 16.
Definition DEFAULT_MAX_PACKET_BYTES : Z := 64 * 1024 * 1024.
Definition BATCH_LENGTH_PREFIX_BYTES : Z := 4.

(** The end of a task that the runtime runs with a time limit: [Pending] is the timeout, and a
    task that panics drops its sender. *)
Definition run_async {A} (future : Poll A) : FF A :=
  match future with
  | Ready (Ok a) => Ok a
  | Ready (Err error) => Err (status_from_runtime_error error)
  | Ready Panic => Err (transport_status NnrpFfiStatusCode.InternalError 1)
  | Pending => Err (transport_status NnrpFfiStatusCode.WouldBlock 1)
  end.

(** ** Resources *)

Module TransportSecurityConfig.

Inductive t :=
| Client (transport_id : TransportId.t) (server_name trusted_certificate_der : bytes)
| Server (transport_id : TransportId.t) (certificate_der private_key_pkcs8_der : bytes).

End TransportSecurityConfig.

(** A connection or a listener is shared: the resource has the number of its cell. *)
Module TransportResource.

Inductive t :=
| Connection (cell : nat)
| Listener (cell : nat) (endpoint : bytes) (max_packet_bytes : Z)
| SecurityConfig (config : TransportSecurityConfig.t).

End TransportResource.

Module TransportSlot.

Record t := mk { generation : Z; resource : option TransportResource.t; invalidated : bool }.

End TransportSlot.

(** The mark of the instance of the library, computed from the [address] of a static. *)
Definition transport_instance_cookie (address : Z) : Z :=
  let rotated := Z.lor (Z.shiftl address 17 mod modulus 8) (Z.shiftr address 47) in
  let mixed := Z.lxor (Z.lxor address rotated) 0x4e4e_5250_5452_4e53 in
  Z.max (Z.lxor mixed (Z.shiftr mixed 32) mod modulus 4) 1.

Definition transport_handle (address : Z) (kind : NnrpHandleKind.t) (id generation : Z) : NnrpHandle.t :=
  NnrpHandle.mk (NnrpHandleKind.repr kind) id generation (transport_instance_cookie address).

Module TransportStore.

(** [next_handle] is the static [NEXT_TRANSPORT_HANDLE]. *)
Record t := mk {
  slots : gmap (Z * Z) TransportSlot.t;
  reusable : gmap Z (list Z);
  next_handle : Z
}.

Definition initial : t := mk ∅ ∅ 1.

Section store.
Context (address : Z).

(** [Vec::pop] of the ids of a kind: the last one. *)
Definition pop_reusable (kind : Z) (self : t) : option Z * t :=
  match reusable self !! kind with
  | Some ids =>
      match last ids with
      | Some id => (Some id, mk (slots self) (<[kind := removelast ids]> (reusable self)) (next_handle self))
      | None => (None, self)
      end
  | None => (None, self)
  end.

Definition push_reusable (kind id : Z) (self : t) : t :=
  mk (slots self) (<[kind := default [] (reusable self !! kind) ++ [id]]> (reusable self)) (next_handle self).

Definition insert (kind : NnrpHandleKind.t) (resource : TransportResource.t)
    : Method t NnrpFfiStatus.t NnrpHandle.t := fun self =>
  let kind_value := NnrpHandleKind.repr kind in
  let (reusable_id, self) := pop_reusable kind_value self in
  match reusable_id with
  | Some id =>
      match slots self !! (kind_value, id) with
      | Some slot =>
          if TransportSlot.generation slot <? u32_max then
            let generation := TransportSlot.generation slot + 1 in
            (Ok (transport_handle address kind id generation),
             mk (<[(kind_value, id) := TransportSlot.mk generation (Some resource) false]> (slots self))
               (reusable self) (next_handle self))
          else (Panic, self)
      | None => (Panic, self)
      end
  | None =>
      let id := next_handle self in
      (Ok (transport_handle address kind id 1),
       mk (<[(kind_value, id) := TransportSlot.mk 1 (Some resource) false]> (slots self))
         (reusable self) ((id + 1) mod modulus 8))
  end.

Definition get (handle : NnrpHandle.t) (self : t) : option TransportResource.t :=
  if negb (NnrpHandle.flags handle =? transport_instance_cookie address) then None
  else
    slot ← slots self !! NnrpHandle.key handle;
    if negb (TransportSlot.generation slot =? NnrpHandle.generation handle) then None
    else TransportSlot.resource slot.

Definition close (handle : NnrpHandle.t) : Method t NnrpFfiStatus.t (option TransportResource.t) := fun self =>
  let invalid := Err (NnrpFfiStatus.invalid_handle (NnrpHandle.kind handle)) in
  if negb (NnrpHandle.flags handle =? transport_instance_cookie address) then (invalid, self)
  else
    match slots self !! NnrpHandle.key handle with
    | None => (invalid, self)
    | Some slot =>
        if negb (NnrpHandle.generation handle =? TransportSlot.generation slot) then (invalid, self)
        else if TransportSlot.invalidated slot then (invalid, self)
        else
          let self' := mk (<[NnrpHandle.key handle :=
            TransportSlot.mk (TransportSlot.generation slot) None (TransportSlot.invalidated slot)]> (slots self))
            (reusable self) (next_handle self) in
          (Ok (TransportSlot.resource slot),
           if is_some (TransportSlot.resource slot) && (TransportSlot.generation slot <? u32_max)
           then push_reusable (NnrpHandle.kind handle) (NnrpHandle.id handle) self'
           else self')
    end.

(** The order of the slots in the [BTreeMap]. *)
Definition slot_le (a b : (Z * Z) * TransportSlot.t) : Prop :=
  a.1.1 < b.1.1 \/ a.1.1 = b.1.1 /\ a.1.2 <= b.1.2.
#[global] Instance slot_le_dec : RelDecision slot_le.
Proof. intros a b. unfold slot_le. solve_decision. Defined.

Definition invalidate_slot (self : t) (e : (Z * Z) * TransportSlot.t) : t :=
  let slot := e.2 in
  let self' := mk (<[e.1 := TransportSlot.mk (TransportSlot.generation slot) None true]> (slots self))
                 (reusable self) (next_handle self) in
  if is_some (TransportSlot.resource slot) && (TransportSlot.generation slot <? u32_max)
  then push_reusable e.1.1 e.1.2 self' else self'.

Definition invalidate_all (self : t) : t :=
  foldl invalidate_slot self (merge_sort slot_le (map_to_list (slots self))).

(** ** Runs of the store *)

Inductive step (s : t) : t -> Prop :=
| step_insert kind resource : step s (insert kind resource s).2
| step_close handle : step s (close handle s).2
| step_invalidate_all : step s (invalidate_all s).

(** A handle that was handed out: its slot has reached its generation. *)
Definition issued (h : NnrpHandle.t) (s : t) : Prop :=
  NnrpHandle.flags h = transport_instance_cookie address /\ 1 <= NnrpHandle.generation h /\
  exists slot, slots s !! NnrpHandle.key h = Some slot /\
    NnrpHandle.generation h <= TransportSlot.generation slot.

(** The ids that can be used again are those of slots without a resource, each once. *)
Record wf (s : t) : Prop := {
  wf_reusable kind ids : reusable s !! kind = Some ids ->
    NoDup ids /\ Forall (fun id => exists slot, slots s !! (kind, id) = Some slot /\
      TransportSlot.resource slot = None /\ TransportSlot.generation slot < u32_max) ids;
  wf_ids kind id slot : slots s !! (kind, id) = Some slot ->
    1 <= id < next_handle s /\ 1 <= TransportSlot.generation slot;
  wf_next : 1 <= next_handle s
}.

(** A slot keeps its resource or loses it, or is used again under a later generation. *)
Definition evolves (s s' : t) : Prop :=
  forall key slot, slots s !! key = Some slot -> exists slot', slots s' !! key = Some slot' /\
    (TransportSlot.generation slot' = TransportSlot.generation slot /\
       (TransportSlot.resource slot' = TransportSlot.resource slot \/ TransportSlot.resource slot' = None) \/
     TransportSlot.generation slot < TransportSlot.generation slot').

#[global] Instance evolves_preorder : PreOrder evolves.
Proof.
  split.
  - intros s key slot H. exists slot. auto.
  - intros s1 s2 s3 H12 H23 key slot H.
    destruct (H12 _ _ H) as (slot2 & H2 & Hg2), (H23 _ _ H2) as (slot3 & H3 & Hg3).
    exists slot3. split; [done|]. destruct Hg2 as [[Hg2 Hr2]|Hg2], Hg3 as [[Hg3 Hr3]|Hg3]; [|right; lia..].
    left. split; [congruence|]. destruct Hr2, Hr3; [left|right..]; congruence.
Qed.

(** Handles that do not resolve any more. *)
Lemma issued_evolves h s s' : evolves s s' -> issued h s -> issued h s'.
Proof.
  intros He (Hf & H1 & slot & Hs & Hg). destruct (He _ _ Hs) as (slot' & Hs' & H).
  split_and!; [done..|]. exists slot'. split; [done|]. destruct H as [[-> _]|]; lia.
Qed.

Lemma dead_evolves h s s' : evolves s s' -> issued h s -> get h s = None -> get h s' = None.
Proof.
  intros He (Hf & H1 & slot & Hs & Hg) Hd. unfold get in *.
  rewrite Hf, Z.eqb_refl in *. cbn in *. rewrite Hs in Hd. cbn in Hd.
  destruct (He _ _ Hs) as (slot' & -> & H). cbn.
  destruct (Z.eqb_spec (TransportSlot.generation slot') (NnrpHandle.generation h)) as [Hgen|]; cbn; [|done].
  destruct (Z.eqb_spec (TransportSlot.generation slot) (NnrpHandle.generation h)); cbn in Hd.
  - destruct H as [[_ [-> | ->]]|]; [done..|lia].
  - destruct H as [[? _]|]; lia.
Qed.

(** ** The three operations *)

Lemma in_reusable_free s kind ids id : wf s -> reusable s !! kind = Some ids -> id ∈ ids ->
  exists slot, slots s !! (kind, id) = Some slot /\ TransportSlot.resource slot = None /\
    TransportSlot.generation slot < u32_max.
Proof. intros Hw Hr Hin. destruct (wf_reusable s Hw _ _ Hr) as [_ H]. by rewrite Forall_forall in H; apply H. Qed.

(** A slot is rewritten under a key that no list of free ids has. *)
Lemma wf_write s kind id slot next :
  wf s -> next_handle s <= next -> 1 <= id < next -> 1 <= TransportSlot.generation slot ->
  (forall ids, reusable s !! kind = Some ids -> id ∉ ids) ->
  wf (mk (<[(kind, id) := slot]> (slots s)) (reusable s) next).
Proof.
  intros Hw Hn Hid Hg Hfree. split; cbn.
  - intros k ids Hr. destruct (wf_reusable s Hw _ _ Hr) as [Hnd Hall]. split; [done|].
    eapply Forall_impl; [apply Forall_and; split; [exact Hall|apply Forall_forall; intros x Hx; exact Hx]|].
    intros x [(slot' & Hs & H) Hx]. exists slot'. split; [|done]. rewrite lookup_insert_ne; [done|].
    intros [= -> ->]. by eapply Hfree.
  - intros k i slot' [[[= <- <-] <-]|[_ Hs]]%lookup_insert_Some; [done|].
    destruct (wf_ids s Hw _ _ _ Hs). split; [lia|done].
  - pose proof (wf_next s Hw). lia.
Qed.

Lemma wf_push s kind id slot :
  wf s -> slots s !! (kind, id) = Some slot -> TransportSlot.resource slot = None ->
  TransportSlot.generation slot < u32_max -> (forall ids, reusable s !! kind = Some ids -> id ∉ ids) ->
  wf (push_reusable kind id s).
Proof.
  intros Hw Hs Hr Hg Hfree. split; cbn; [|apply Hw..].
  intros k ids [[<- <-]|[_ H]]%lookup_insert_Some; [|by apply Hw].
  destruct (reusable s !! kind) as [l|] eqn:E; cbn.
  - destruct (wf_reusable s Hw _ _ E) as [Hnd Hall]. split.
    + apply NoDup_app. split_and!; [done| |apply NoDup_singleton].
      intros x Hx ->%list_elem_of_singleton. by eapply Hfree.
    + apply Forall_app. split; [done|]. constructor; [eauto|constructor].
  - split; [apply NoDup_singleton|]. constructor; [eauto|constructor].
Qed.

Lemma get_Some h s r :
  get h s = Some r <-> NnrpHandle.flags h = transport_instance_cookie address /\
    exists slot, slots s !! NnrpHandle.key h = Some slot /\
      TransportSlot.generation slot = NnrpHandle.generation h /\ TransportSlot.resource slot = Some r.
Proof.
  unfold get. destruct (Z.eqb_spec (NnrpHandle.flags h) (transport_instance_cookie address)); cbn.
  - destruct (slots s !! NnrpHandle.key h) as [slot|]; cbn.
    + destruct (Z.eqb_spec (TransportSlot.generation slot) (NnrpHandle.generation h)); cbn; naive_solver.
    + naive_solver.
  - naive_solver.
Qed.

(** What a new handle gives: a slot that has no resource takes it under a generation that it has
    not had. *)
Definition opens (s s' : t) (h : NnrpHandle.t) (resource : TransportResource.t) : Prop :=
  evolves s s' /\ next_handle s' <= next_handle s + 1 /\ get h s' = Some resource /\
  ~ issued h s /\ issued h s' /\ forall h' r, get h' s = Some r -> get h' s' = Some r.

Lemma opens_slot s kind id generation resource reusable' next :
  (forall slot, slots s !! (NnrpHandleKind.repr kind, id) = Some slot ->
     TransportSlot.resource slot = None /\ TransportSlot.generation slot < generation) ->
  1 <= generation -> next <= next_handle s + 1 ->
  opens s (mk (<[(NnrpHandleKind.repr kind, id) := TransportSlot.mk generation (Some resource) false]> (slots s))
             reusable' next) (transport_handle address kind id generation) resource.
Proof.
  intros Hold Hg Hn. split_and!; cbn; [|done|..].
  - intros key slot Hs. cbn. destruct (decide (key = (NnrpHandleKind.repr kind, id))) as [-> |Hne].
    + eexists. rewrite lookup_insert_eq. split; [done|]. right. by apply Hold.
    + exists slot. rewrite lookup_insert_ne by done. eauto.
  - apply get_Some. cbn. split; [done|]. eexists. rewrite lookup_insert_eq. eauto.
  - intros (_ & _ & slot & Hs & Hle). cbn in *. apply Hold in Hs as [_ Hlt]. lia.
  - split_and!; [done..|]. cbn. eexists. rewrite lookup_insert_eq. split; [done|]. cbn. lia.
  - intros h' r (Hf & slot & Hs & Hgen & Hr)%get_Some. apply get_Some. split; [done|].
    exists slot. cbn. rewrite lookup_insert_ne; [done|]. intros Hk. rewrite <- Hk in Hs.
    apply Hold in Hs as [Hnone _]. congruence.
Qed.

Lemma pop_reusable_spec s kind : wf s ->
  match pop_reusable kind s with
  | (Some id, s') => slots s' = slots s /\ next_handle s' = next_handle s /\ wf s' /\
      (forall ids, reusable s' !! kind = Some ids -> id ∉ ids) /\
      exists slot, slots s !! (kind, id) = Some slot /\ TransportSlot.resource slot = None /\
        TransportSlot.generation slot < u32_max
  | (None, s') => s' = s
  end.
Proof.
  intros Hw. unfold pop_reusable. destruct (reusable s !! kind) as [ids|] eqn:Hr; [|done].
  destruct (last ids) as [id|] eqn:Hl; [|done].
  apply last_Some in Hl as [l ->]. rewrite removelast_last.
  destruct (wf_reusable s Hw _ _ Hr) as [(Hnd & Hdis & _)%NoDup_app [Hall Hid]%Forall_app].
  apply Forall_cons in Hid as [Hslot _]. split_and!; [done..| | |done]; cbn.
  - split; cbn; [|apply Hw..]. intros k ids [[<- <-]|[_ H]]%lookup_insert_Some; [done|by apply Hw].
  - intros ids. rewrite lookup_insert_eq. intros [= <-] Hin. apply (Hdis id Hin). by apply list_elem_of_singleton.
Qed.

Lemma insert_spec s kind resource :
  wf s -> next_handle s + 1 < modulus 8 ->
  exists h s', insert kind resource s = (Ok h, s') /\ wf s' /\ opens s s' h resource.
Proof.
  intros Hw Hn. unfold insert. pose proof (pop_reusable_spec s (NnrpHandleKind.repr kind) Hw) as Hp.
  destruct (pop_reusable _ s) as [[id|] s1].
  - destruct Hp as (Hs1 & Hn1 & Hw1 & Hfree & slot & Hs & Hr & Hg). rewrite Hs1, Hs.
    apply Z.ltb_lt in Hg as ->. destruct (wf_ids s Hw _ _ _ Hs) as [Hid H1]. do 2 eexists. split; [done|]. split.
    + rewrite <- Hs1. apply wf_write; cbn; [done|lia|lia|lia|done].
    + rewrite Hn1. apply opens_slot; [|lia..]. intros slot' Hs'. rewrite Hs in Hs'. injection Hs' as <-. split; [done|lia].
  - subst s1. do 2 eexists. split; [done|].
    pose proof (wf_next s Hw) as H1.
    rewrite Z.mod_small by lia. split.
    + apply wf_write; cbn; [done|lia|lia|lia|]. intros ids Hr Hin.
      destruct (in_reusable_free s _ _ _ Hw Hr Hin) as (slot & Hs & _). apply (wf_ids s Hw) in Hs. lia.
    + apply opens_slot; [|lia..]. intros slot Hs. apply (wf_ids s Hw) in Hs. lia.
Qed.

(** A slot loses its resource, and its id is free again unless its generations are used up. *)
Definition retire (key : Z * Z) (slot : TransportSlot.t) (invalidated : bool) (s : t) : t :=
  let s' := mk (<[key := TransportSlot.mk (TransportSlot.generation slot) None invalidated]> (slots s))
              (reusable s) (next_handle s) in
  if is_some (TransportSlot.resource slot) && (TransportSlot.generation slot <? u32_max)
  then push_reusable key.1 key.2 s' else s'.

Lemma wf_clear s kind id slot invalidated :
  wf s -> slots s !! (kind, id) = Some slot ->
  wf (mk (<[(kind, id) := TransportSlot.mk (TransportSlot.generation slot) None invalidated]> (slots s))
        (reusable s) (next_handle s)).
Proof.
  intros Hw Hs. split; cbn; [| |apply Hw].
  - intros k ids Hr. destruct (wf_reusable s Hw _ _ Hr) as [Hnd Hall]. split; [done|].
    eapply Forall_impl; [exact Hall|]. intros x (slot' & Hs' & Hn & Hg).
    destruct (decide ((k, x) = (kind, id))) as [[= -> ->]|Hne].
    + rewrite Hs in Hs'. injection Hs' as <-. eexists. rewrite lookup_insert_eq. by split_and!.
    + exists slot'. by rewrite lookup_insert_ne.
  - intros k i slot' [[[= <- <-] <-]|[_ H]]%lookup_insert_Some; cbn.
    + exact (wf_ids s Hw _ _ _ Hs).
    + exact (wf_ids s Hw _ _ _ H).
Qed.

Lemma retire_spec s kind id slot invalidated :
  wf s -> slots s !! (kind, id) = Some slot ->
  let s' := retire (kind, id) slot invalidated s in
  wf s' /\ evolves s s' /\ next_handle s' = next_handle s /\
  forall key, key <> (kind, id) -> slots s' !! key = slots s !! key.
Proof.
  intros Hw Hs s'. set (slot' := TransportSlot.mk (TransportSlot.generation slot) None invalidated).
  assert (slots s' = <[(kind, id) := slot']> (slots s)) as Hslots by (unfold s', retire; by case_match).
  split_and!; [| |unfold s', retire; by case_match|intros key Hne; by rewrite Hslots, lookup_insert_ne].
  - pose proof (wf_clear s kind id slot invalidated Hw Hs) as Hw'. unfold s', retire.
    destruct (is_some _ && _) eqn:E; [|done]. apply andb_true_iff in E as [Hr Hg%Z.ltb_lt].
    apply (wf_push _ kind id slot'); cbn; [done|apply lookup_insert_eq|done|done|].
    intros ids Hids Hin. destruct (in_reusable_free s _ _ _ Hw Hids Hin) as (slot2 & Hs2 & Hr2 & _).
    rewrite Hs in Hs2. injection Hs2 as <-. by rewrite Hr2 in Hr.
  - intros key x Hx. rewrite Hslots. destruct (decide (key = (kind, id))) as [-> |Hne].
    + rewrite Hs in Hx. injection Hx as <-. exists slot'. rewrite lookup_insert_eq. auto.
    + exists x. rewrite lookup_insert_ne by done. auto.
Qed.

Lemma close_spec s h :
  wf s -> wf (close h s).2 /\ evolves s (close h s).2 /\ next_handle (close h s).2 = next_handle s.
Proof.
  intros Hw. unfold close. destruct (negb _); [done|].
  destruct (slots s !! NnrpHandle.key h) as [slot|] eqn:Hs; [|done].
  destruct (negb _); [done|]. destruct (TransportSlot.invalidated slot) eqn:Hinv; [done|].
  change (let s' := retire (NnrpHandle.kind h, NnrpHandle.id h) slot false s in
    wf s' /\ evolves s s' /\ next_handle s' = next_handle s).
  destruct (retire_spec s (NnrpHandle.kind h) (NnrpHandle.id h) slot false Hw Hs) as (? & ? & ? & _). by cbv zeta.
Qed.

Lemma invalidate_loop s l :
  wf s -> NoDup l.*1 -> (forall e, e ∈ l -> slots s !! e.1 = Some e.2) ->
  let s' := foldl invalidate_slot s l in
  wf s' /\ evolves s s' /\ next_handle s' = next_handle s.
Proof.
  revert s. induction l as [|[[kind id] slot] l IH]; intros s Hw Hnd Hl; [done|].
  apply NoDup_cons in Hnd as [Hnot Hnd]. cbn.
  destruct (retire_spec s kind id slot true Hw) as (Hw' & He & Hn & Hother); [by apply (Hl (_, _)); left|].
  change (invalidate_slot s (kind, id, slot)) with (retire (kind, id) slot true s).
  destruct (IH (retire (kind, id) slot true s)) as (Hw2 & He2 & Hn2); [done|done| |].
  - intros e Hin. rewrite Hother; [apply Hl; by right|]. intros Hk. apply Hnot. rewrite <- Hk.
    apply list_elem_of_fmap. by exists e.
  - split_and!; [done|by etrans|congruence].
Qed.

Lemma invalidate_all_spec s :
  wf s -> wf (invalidate_all s) /\ evolves s (invalidate_all s) /\
    next_handle (invalidate_all s) = next_handle s.
Proof.
  intros Hw. apply invalidate_loop; [done| |].
  - rewrite merge_sort_Permutation. apply NoDup_fst_map_to_list.
  - intros [k x]. rewrite merge_sort_Permutation. cbn. apply elem_of_map_to_list.
Qed.

Lemma step_spec s s' :
  step s s' -> wf s -> next_handle s + 1 < modulus 8 ->
  wf s' /\ evolves s s' /\ next_handle s' <= next_handle s + 1.
Proof.
  intros [kind r|h|] Hw Hn.
  - destruct (insert_spec s kind r Hw Hn) as (h & s1 & -> & Hw1 & He & Hn1 & _). by split_and!.
  - destruct (close_spec s h Hw) as (? & ? & ->). split_and!; [done..|lia].
  - destruct (invalidate_all_spec s Hw) as (? & ? & ->). split_and!; [done..|lia].
Qed.

Lemma wf_initial : wf initial.
Proof. split; cbn; [|intros * H; by rewrite lookup_empty in H|lia]. intros * H. by rewrite lookup_empty in H. Qed.

Lemma run_spec n s s' :
  nsteps step n s s' -> wf s -> next_handle s + Z.of_nat n < modulus 8 ->
  wf s' /\ evolves s s' /\ next_handle s' <= next_handle s + Z.of_nat n.
Proof.
  induction 1 as [s|n s1 s2 s3 Hs _ IH]; intros Hw Hn; [split_and!; [done..|lia]|].
  destruct (step_spec _ _ Hs Hw) as (Hw2 & He2 & Hn2); [lia|].
  destruct IH as (Hw3 & He3 & Hn3); [done|lia|]. split_and!; [done|by etrans|lia].
Qed.

(** C30: the handles of transports.  In a run of fewer than 2{^64} - 1 calls of the store, a new
    resource never panics and gets a handle that was never handed out before and resolves to it,
    and every handle that resolves stays as it is; and a handle that has been handed out and does
    not resolve any more never resolves again, whatever is opened, closed or invalidated
    afterwards, although its slot is used again. *)
Theorem transport_handles_final (n m : nat) (s s' : t) :
  Z.of_nat n + Z.of_nat m + 2 < modulus 8 ->
  nsteps step n initial s -> nsteps step m s s' ->
  (forall kind resource, exists h s1, insert kind resource s = (Ok h, s1) /\
     get h s1 = Some resource /\ ~ issued h s /\ issued h s1 /\
     forall h' r, get h' s = Some r -> get h' s1 = Some r) /\
  (forall h, issued h s -> get h s = None -> issued h s' /\ get h s' = None).
Proof.
  intros Hnm Hs Hs'. destruct (run_spec _ _ _ Hs wf_initial) as (Hw & _ & Hn); [cbn; lia|]. cbn in Hn.
  destruct (run_spec _ _ _ Hs' Hw) as (_ & He & _); [lia|]. split.
  - intros kind resource. destruct (insert_spec s kind resource Hw) as (h & s1 & Hi & _ & _ & _ & H); [lia|].
    by exists h, s1.
  - intros h Hi Hg. eauto using issued_evolves, dead_evolves.
Qed.

End store.

(** A connection is opened, closed and its slot used by a second one: the first handle is dead. *)
Lemma transport_handles_final_witness :
  let open cell := insert 4096 NnrpHandleKind.TransportConnection (TransportResource.Connection cell) in
  let h := transport_handle 4096 NnrpHandleKind.TransportConnection 1 1 in
  let s1 := (open O initial).2 in
  let s2 := (close 4096 h s1).2 in
  get 4096 h s1 = Some (TransportResource.Connection O) /\
  get 4096 h (open 1%nat s2).2 = None /\
  exists h2 s3, open 1%nat s2 = (Ok h2, s3) /\ get 4096 h2 s3 = Some (TransportResource.Connection 1%nat).
Proof.
  intros open h s1 s2.
  assert (nsteps (step 4096) 2 initial s2) as Hrun.
  { eapply nsteps_l; [apply step_insert|]. apply nsteps_once. apply (step_close 4096 _ h). }
  assert (nsteps (step 4096) 1 s2 (open 1%nat s2).2) as Hrun2 by (apply nsteps_once, step_insert).
  destruct (transport_handles_final 4096 2 1 _ _ ltac:(vm_compute; done) Hrun Hrun2) as [Hnew Hdead].
  split_and!; [by vm_compute| |].
  - apply Hdead; [|by vm_compute]. split_and!; [by vm_compute..|]. exists (TransportSlot.mk 1 None false).
    split; [vm_compute; reflexivity|by vm_compute].
  - destruct (Hnew NnrpHandleKind.TransportConnection (TransportResource.Connection 1%nat))
      as (h2 & s3 & Hi & Hg & _). by exists h2, s3.
Defined.

End TransportStore.
