(* ===== verification/FfiRoles.v ===== *)
(** The C functions of [src/crates/nnrp-ffi/src/lib.rs] for connections, sessions, operations and
    accept tickets.

    A call of the runtime is run by another thread while the store is not locked: its result is an
    argument, and so is [elsewhere], what other threads do to the stores in the meantime.  The
    objects that the runtime creates are the numbers of their cells. *)

From S2P Require Import Prelude Bytes Errors Enums Wire Header Codes Object Cache Data Schema Control Session RuntimeControl Recovery Packet RuntimeError Async.
From S2P Require Import Client Server FfiTypes FfiStore FfiObjects FfiTransport.
Import NnrpFfiHandleStore.

Local Open Scope Z_scope.

(** ** Calls of the runtime *)

(** [transport::run_role_async(future, ..)], with the store as the other threads leave it. *)
Definition awaiting {A} (future : Poll A) (elsewhere : t -> t) : Call A := fun self =>
  (run_async future, elsewhere self).

(** ** The library: both stores *)

Module Library.

Record t := mk { handles : NnrpFfiHandleStore.t; transports : TransportStore.t }.

Definition on_handles {A} (m : Call A) : Method t NnrpFfiStatus.t A := fun self =>
  let (o, h) := m (handles self) in (o, mk h (transports self)).

Definition on_transports {A} (m : Method TransportStore.t NnrpFfiStatus.t A) : Method t NnrpFfiStatus.t A :=
  fun self => let (o, tr) := m (transports self) in (o, mk (handles self) tr).

(** [invalidate_all_ffi_handles] and its call for the transports. *)
Definition invalidate_all (self : t) : t :=
  mk (NnrpFfiHandleStore.invalidate_all (handles self)) (TransportStore.invalidate_all (transports self)).

End Library.

(** ** Opening connections *)

Section connections.
Context (address : Z).

Definition get_connection (handle : NnrpHandle.t) (self : TransportStore.t) : FF nat :=
  _ ← NnrpHandle.validate_kind handle NnrpHandleKind.TransportConnection;
  match TransportStore.get address handle self with
  | Some (TransportResource.Connection cell) => Ok cell
  | _ => Err (NnrpFfiStatus.invalid_handle (NnrpHandleKind.repr NnrpHandleKind.TransportConnection))
  end.

Definition get_listener (handle : NnrpHandle.t) (self : TransportStore.t) : FF (nat * Z) :=
  _ ← NnrpHandle.validate_kind handle NnrpHandleKind.TransportListener;
  match TransportStore.get address handle self with
  | Some (TransportResource.Listener cell _ max_packet_bytes) => Ok (cell, max_packet_bytes)
  | _ => Err (NnrpFfiStatus.invalid_handle (NnrpHandleKind.repr NnrpHandleKind.TransportListener))
  end.

Definition get_listener_endpoint (handle : NnrpHandle.t) (self : TransportStore.t) : FF bytes :=
  _ ← NnrpHandle.validate_kind handle NnrpHandleKind.TransportListener;
  match TransportStore.get address handle self with
  | Some (TransportResource.Listener _ endpoint _) => Ok endpoint
  | _ => Err (NnrpFfiStatus.invalid_handle (NnrpHandleKind.repr NnrpHandleKind.TransportListener))
  end.

(** [locked]: whether another thread holds the lock of the connection. *)
Definition role_transport (handle : NnrpHandle.t) (locked : bool) (self : TransportStore.t) : FF nat :=
  connection ← get_connection handle self;
  _ ← reject_if locked (transport_status NnrpFfiStatusCode.InvalidState 137);
  Ok connection.

Definition role_listener (handle : NnrpHandle.t) (self : TransportStore.t) : FF nat :=
  p ← get_listener handle self;
  Ok p.1.

Definition consume_role_transport (handle : NnrpHandle.t) : Method TransportStore.t NnrpFfiStatus.t unit :=
  resource ← TransportStore.close address handle;
  match resource with
  | Some (TransportResource.Connection _) => mret tt
  | _ => lift_outcome (Err (NnrpFfiStatus.invalid_handle (NnrpHandleKind.repr NnrpHandleKind.TransportConnection)))
  end.

Definition consume_role_listener (handle : NnrpHandle.t) : Method TransportStore.t NnrpFfiStatus.t unit :=
  resource ← TransportStore.close address handle;
  match resource with
  | Some (TransportResource.Listener _ _ _) => mret tt
  | _ => lift_outcome (Err (NnrpFfiStatus.invalid_handle (NnrpHandleKind.repr NnrpHandleKind.TransportListener)))
  end.

(** [if let Err(status) = m { let _ = cleanup; return status; }]. *)
Definition or_undo {S A} (m : Method S NnrpFfiStatus.t A) (cleanup : Method S NnrpFfiStatus.t unit)
    : Method S NnrpFfiStatus.t A := fun self =>
  match m self with
  | (Err status, self) => (Err status, (cleanup self).2)
  | other => other
  end.

Definition add_connection (handle : NnrpHandle.t) (connection : NnrpFfiResource.t)
    (consume : Method TransportStore.t NnrpFfiStatus.t unit) : Method Library.t NnrpFfiStatus.t NnrpHandle.t :=
  _ ← Library.on_handles (insert handle connection);
  _ ← or_undo (Library.on_transports consume)
        (Library.on_handles (remove handle NnrpHandleKind.Connection));
  mret handle.

(** [client]: the cell of the new client, or why there is none. *)
Definition nnrp_client_connect (connection_id generation reserved0 : Z) (transport_connection : NnrpHandle.t)
    (out_connection : Out) (locked : bool) (transport_id : Z) (client : Poll nat)
    (elsewhere : Library.t -> Library.t) : Method Library.t NnrpFfiStatus.t NnrpHandle.t :=
  _ ← lift_outcome (reject_if (is_null_out out_connection || (connection_id =? 0) || (generation =? 0)
                               || negb (reserved0 =? 0)) (NnrpFfiStatus.invalid_argument 10));
  _ ← Library.on_transports (pure_of (role_transport transport_connection locked));
  client ← (fun self => (run_async client, elsewhere self));
  add_connection (NnrpHandle.new NnrpHandleKind.Connection connection_id generation)
    (NnrpFfiResource.Connection transport_id NnrpFfiConnectionRole.Client (NnrpFfiRuntime.Client client))
    (consume_role_transport transport_connection).

(** [config] is what [to_server_config] gives, [server] what [from_boxed_listener] does with it. *)
Definition bind_server (server_id generation : Z) (transport_listener : NnrpHandle.t) (transport_id : Z)
    (config : FF NnrpServerConfig.t) (server : NnrpServerConfig.t -> RT nat)
    : Method Library.t NnrpFfiStatus.t NnrpHandle.t :=
  config ← lift_outcome config;
  _ ← Library.on_transports (pure_of (role_listener transport_listener));
  server ← lift_outcome (map_err status_from_runtime_error (server config));
  add_connection (NnrpHandle.new NnrpHandleKind.Connection server_id generation)
    (NnrpFfiResource.Connection transport_id NnrpFfiConnectionRole.Server (NnrpFfiRuntime.Server server))
    (consume_role_listener transport_listener).

End connections.

(** ** Requests with arrays *)

Module NnrpU16Slice.
Record t := mk { ptr : option (list Z); len : Z }.
Definition validate (self : t) : FF unit :=
  reject_if ((0 <? len self) && negb (is_some (ptr self))) (NnrpFfiStatus.invalid_argument 172).
End NnrpU16Slice.

Module NnrpU32Slice.
Record t := mk { ptr : option (list Z); len : Z }.
Definition empty : t := mk None 0.
Definition validate (self : t) : FF unit :=
  reject_if ((0 <? len self) && negb (is_some (ptr self))) (NnrpFfiStatus.invalid_argument 173).
End NnrpU32Slice.

Definition read_array (ptr : option (list Z)) (count : Z) : FF (list Z) :=
  if count =? 0 then Ok []
  else match ptr with
       | Some l => if count <=? len l then Ok (take (Z.to_nat count) l) else Panic
       | None => Panic
       end.

Definition ffi_read_u16_slice (view : NnrpU16Slice.t) : FF (list Z) :=
  read_array (NnrpU16Slice.ptr view) (NnrpU16Slice.len view).
Definition ffi_read_u32_slice (view : NnrpU32Slice.t) : FF (list Z) :=
  read_array (NnrpU32Slice.ptr view) (NnrpU32Slice.len view).

(** [.map(CacheObjectKind::try_from_u32).collect()]. *)
Fixpoint cache_object_kinds (codes : list Z) : R (list CacheObjectKind.t) :=
  match codes with
  | [] => Ok []
  | code :: codes =>
      kind ← CacheObjectKind.try_from_u32 code;
      kinds ← cache_object_kinds codes;
      Ok (kind :: kinds)
  end.

Module NnrpServerBindRequest.

(** [application_policy] is the [evaluate] of the policy of the sink, when it has a callback. *)
Record t := mk {
  server_id : Z;
  generation : Z;
  reserved0 : Z;
  transport_listener : NnrpHandle.t;
  supported_profiles : NnrpU16Slice.t;
  supported_cache_objects : NnrpU32Slice.t;
  max_cache_objects : Z;
  max_cache_object_bytes : Z;
  resume_token_bytes : Z;
  max_in_flight_operations : Z;
  granted_operation_credit : Z;
  lease_ttl_ms : Z;
  resume_window_ms : Z;
  schema_registry : NnrpHandle.t;
  application_policy : option (SessionOpenMetadata.t -> Poll NnrpServerPolicyDecision.t)
}.

Definition validate (self : t) : FF unit :=
  _ ← reject_if ((server_id self =? 0) || (generation self =? 0) || negb (reserved0 self =? 0)
                 || (NnrpU16Slice.len (supported_profiles self) =? 0)
                 || (max_in_flight_operations self =? 0)
                 || (max_in_flight_operations self <? granted_operation_credit self))
        (NnrpFfiStatus.invalid_argument 175);
  _ ← NnrpU16Slice.validate (supported_profiles self);
  NnrpU32Slice.validate (supported_cache_objects self).

Definition to_server_config (self : t) (store : NnrpFfiHandleStore.t) : FF NnrpServerConfig.t :=
  _ ← validate self;
  supported_profiles ← ffi_read_u16_slice (supported_profiles self);
  codes ← ffi_read_u32_slice (supported_cache_objects self);
  supported_cache_objects ← core (cache_object_kinds codes);
  registry ←
    (if NnrpHandle.kind (schema_registry self) =? NnrpHandleKind.repr NnrpHandleKind.Invalid
     then map_err schema_registry_failure_status SchemaRegistry.standard
     else (expect (schema_registry self) NnrpHandleKind.SchemaRegistry as_registry store).1);
  Ok {|
    NnrpServerConfig.supported_profiles := supported_profiles;
    NnrpServerConfig.supported_cache_objects := supported_cache_objects;
    NnrpServerConfig.max_cache_objects := max_cache_objects self;
    NnrpServerConfig.max_cache_object_bytes := max_cache_object_bytes self;
    NnrpServerConfig.schema_registry := registry;
    NnrpServerConfig.resume_token_bytes := resume_token_bytes self;
    NnrpServerConfig.max_in_flight_operations := max_in_flight_operations self;
    NnrpServerConfig.granted_operation_credit := granted_operation_credit self;
    NnrpServerConfig.lease_ttl_ms := lease_ttl_ms self;
    NnrpServerConfig.resume_window_ms := resume_window_ms self;
    NnrpServerConfig.application_policy := default NnrpServerConfig.allow_all (application_policy self) |}.

End NnrpServerBindRequest.

Definition nnrp_server_bind (address : Z) (request : NnrpServerBindRequest.t) (out_server : Out) (transport_id : Z)
    (server : NnrpServerConfig.t -> RT nat) : Method Library.t NnrpFfiStatus.t NnrpHandle.t := fun self =>
  (_ ← lift_outcome (reject_if (is_null_out out_server) (NnrpFfiStatus.invalid_argument 18));
   bind_server address (NnrpServerBindRequest.server_id request) (NnrpServerBindRequest.generation request)
     (NnrpServerBindRequest.transport_listener request) transport_id
     (NnrpServerBindRequest.to_server_config request (Library.handles self)) server) self.

(** ** Opening sessions *)

Module NnrpSessionOpenRequest.

Record t := mk {
  connection : NnrpHandle.t;
  requested_session_id : Z;
  session_handle_id : Z;
  generation : Z;
  profile_id : Z;
  priority_class : Z;
  allow_resume : Z;
  schema_id : Z;
  schema_version : Z;
  default_deadline_ms : Z;
  max_in_flight_operations : Z;
  reserved0 : Z;
  lease_ttl_hint_ms : Z;
  resume_token_bytes : Z;
  cache_hints : NnrpU32Slice.t
}.

Definition validate (self : t) : FF unit :=
  _ ← reject_if ((session_handle_id self =? 0) || (generation self =? 0) || (1 <? allow_resume self)
                 || negb (reserved0 self =? 0) || (max_in_flight_operations self =? 0)
                 || (allow_resume self =? 0) && negb (resume_token_bytes self =? 0))
        (NnrpFfiStatus.invalid_argument 174);
  NnrpU32Slice.validate (cache_hints self).

Definition to_client_config (self : t) : FF NnrpClientConfig.t :=
  _ ← validate self;
  priority_class ← core (SessionPriorityClass.try_from_u8 (priority_class self));
  codes ← ffi_read_u32_slice (cache_hints self);
  cache_hints ← core (cache_object_kinds codes);
  Ok {|
    NnrpClientConfig.requested_session_id := requested_session_id self;
    NnrpClientConfig.profile_id := profile_id self;
    NnrpClientConfig.schema_id := schema_id self;
    NnrpClientConfig.schema_version := schema_version self;
    NnrpClientConfig.priority_class := priority_class;
    NnrpClientConfig.default_deadline_ms := default_deadline_ms self;
    NnrpClientConfig.max_in_flight_operations := max_in_flight_operations self;
    NnrpClientConfig.lease_ttl_hint_ms := lease_ttl_hint_ms self;
    NnrpClientConfig.allow_resume := negb (allow_resume self =? 0);
    NnrpClientConfig.resume_token_bytes := resume_token_bytes self;
    NnrpClientConfig.cache_hints := cache_hints |}.

(** [open_request.requested_session_id = ..; open_request.allow_resume = 1]. *)
Definition resuming (self : t) (session_id : Z) : t :=
  mk (connection self) session_id (session_handle_id self) (generation self) (profile_id self)
    (priority_class self) 1 (schema_id self) (schema_version self) (default_deadline_ms self)
    (max_in_flight_operations self) (reserved0 self) (lease_ttl_hint_ms self)
    (resume_token_bytes self) (cache_hints self).

End NnrpSessionOpenRequest.

Definition as_client (r : NnrpFfiResource.t) : option nat :=
  match r with
  | NnrpFfiResource.Connection _ NnrpFfiConnectionRole.Client (NnrpFfiRuntime.Client cell) => Some cell
  | _ => None
  end.
Definition as_server (r : NnrpFfiResource.t) : option nat :=
  match r with
  | NnrpFfiResource.Connection _ NnrpFfiConnectionRole.Server (NnrpFfiRuntime.Server cell) => Some cell
  | _ => None
  end.
Definition as_client_session (r : NnrpFfiResource.t) : option nat :=
  match r with NnrpFfiResource.Session _ _ _ _ _ (NnrpFfiRuntime.Client cell) => Some cell | _ => None end.
Definition as_server_session (r : NnrpFfiResource.t) : option (NnrpHandle.t * nat) :=
  match r with
  | NnrpFfiResource.Session connection _ _ _ _ (NnrpFfiRuntime.Server cell) => Some (connection, cell)
  | _ => None
  end.
Definition as_session_id (r : NnrpFfiResource.t) : option Z :=
  match r with NnrpFfiResource.Session _ session_id _ _ _ _ => Some session_id | _ => None end.

(** A session that the runtime has opened for a client: its cell and its id on the wire. *)
Definition add_session (request : NnrpSessionOpenRequest.t) (cell : nat) (session_id : Z) : Call NnrpHandle.t :=
  let handle := NnrpHandle.new NnrpHandleKind.Session (NnrpSessionOpenRequest.session_handle_id request)
                  (NnrpSessionOpenRequest.generation request) in
  _ ← insert handle
    (NnrpFfiResource.Session (NnrpSessionOpenRequest.connection request) session_id
      (NnrpSessionOpenRequest.profile_id request) (NnrpSessionOpenRequest.schema_id request)
      (NnrpSessionOpenRequest.schema_version request) (NnrpFfiRuntime.Client cell));
  mret handle.

(** [open_session_with] and [resume_session_with] of the client of the cell. *)
Definition nnrp_client_open_session (request : NnrpSessionOpenRequest.t) (out_session : Out)
    (open_session_with : nat -> NnrpClientConfig.t -> Poll (nat * Z)) (elsewhere : t -> t) : Call NnrpHandle.t :=
  _ ← reject (is_null_out out_session) (NnrpFfiStatus.invalid_argument 11);
  config ← lift_outcome (NnrpSessionOpenRequest.to_client_config request);
  client ← expect (NnrpSessionOpenRequest.connection request) NnrpHandleKind.Connection as_client;
  session ← awaiting (open_session_with client config) elsewhere;
  add_session request session.1 session.2.

(** The session comes with the resume window of its own ticket, when it has one. *)
Definition nnrp_client_resume_session_impl `{Target} (open : NnrpSessionOpenRequest.t)
    (recovery_ticket : NnrpBufferView.t) (out_session out_outcome : Out)
    (resume_session_with : nat -> NnrpSessionRecoveryTicket.t -> NnrpClientConfig.t -> Poll (nat * Z * option Z))
    (elsewhere : t -> t) : Call (NnrpHandle.t * NnrpSessionRecoveryOutcome.t) :=
  _ ← reject (is_null_out out_session || is_null_out out_outcome) (NnrpFfiStatus.invalid_argument 39);
  _ ← validated recovery_ticket;
  encoded ← read_view recovery_ticket;
  ticket ← lift_outcome (map_err (fun _ => NnrpFfiStatus.invalid_argument 175)
                           (NnrpSessionRecoveryTicket.from_bytes encoded));
  let open_request := NnrpSessionOpenRequest.resuming open (NnrpSessionRecoveryTicket.session_id ticket) in
  _ ← lift_outcome (NnrpSessionOpenRequest.validate open_request);
  config ← lift_outcome (NnrpSessionOpenRequest.to_client_config open_request);
  client ← expect (NnrpSessionOpenRequest.connection open_request) NnrpHandleKind.Connection as_client;
  session ← awaiting (resume_session_with client ticket config) elsewhere;
  handle ← add_session open_request session.1.1 session.1.2;
  mret (handle, NnrpSessionRecoveryOutcome.mk 2 (default 0 session.2)).

(** [recovery_ticket]: the ticket of the session of the cell, as bytes. *)
Definition nnrp_client_session_recovery_ticket_impl (session : NnrpHandle.t) (out_buffer out_ticket : Out)
    (recovery_ticket : nat -> Poll bytes) (elsewhere : t -> t) : Call (NnrpHandle.t * NnrpBufferView.t) :=
  _ ← reject (is_null_out out_buffer || is_null_out out_ticket) (NnrpFfiStatus.invalid_argument 176);
  runtime ← expect session NnrpHandleKind.Session as_client_session;
  encoded ← awaiting (recovery_ticket runtime) elsewhere;
  insert_owned_buffer encoded.

Definition nnrp_session_id (session : NnrpHandle.t) (out_session_id : Out) : Call Z :=
  _ ← reject (is_null_out out_session_id) (NnrpFfiStatus.invalid_argument 177);
  expect session NnrpHandleKind.Session as_session_id.

(** ** Submitting *)

Module NnrpSubmitRequest.

Record t := mk {
  session : NnrpHandle.t;
  operation_id : Z;
  frame_id : Z;
  header_flags : Z;
  view_id : Z;
  route_id : Z;
  trace_id : Z;
  payload : NnrpBufferView.t
}.

End NnrpSubmitRequest.

(** Whether the session has an operation with this id. *)
Definition has_operation (session : NnrpHandle.t) (operation_id : Z) (resource : NnrpFfiResource.t) : bool :=
  match resource with
  | NnrpFfiResource.Operation s id _ _ _ => bool_decide (s = session) && (id =? operation_id)
  | _ => false
  end.

(** The part under the lock: the operation gets its handle before it is submitted. *)
Definition reserve_operation (request : NnrpSubmitRequest.t) : Call (nat * NnrpHandle.t) :=
  let session := NnrpSubmitRequest.session request in
  let operation_id := NnrpSubmitRequest.operation_id request in
  runtime ← expect session NnrpHandleKind.Session as_client_session;
  _ ← (fun self => (reject_if (any (has_operation session operation_id) self)
                      (NnrpFfiStatus.invalid_argument 145), self));
  operation ← insert_new NnrpHandleKind.Operation (NnrpHandle.generation session)
    (NnrpFfiResource.Operation session operation_id (NnrpSubmitRequest.frame_id request)
      (NnrpBufferView.len (NnrpSubmitRequest.payload request)) None);
  mret (runtime, operation).

(** [submit]: what the session of the cell says to the metadata and the body. *)
Definition nnrp_client_submit_impl (request : NnrpSubmitRequest.t) (out_operation : Out)
    (submit : nat -> FrameSubmitMetadata.t -> bytes -> Poll unit) (elsewhere : t -> t) : Call NnrpHandle.t :=
  _ ← reject (is_null_out out_operation || (NnrpSubmitRequest.operation_id request =? 0)
              || (NnrpSubmitRequest.frame_id request =? 0)) (NnrpFfiStatus.invalid_argument 12);
  _ ← validated (NnrpSubmitRequest.payload request);
  payload ← read_view (NnrpSubmitRequest.payload request);
  _ ← reject (len payload <? Z.of_nat FRAME_SUBMIT_METADATA_LEN) (NnrpFfiStatus.invalid_argument 144);
  metadata ← lift_outcome (core (FrameSubmitMetadata.parse (take FRAME_SUBMIT_METADATA_LEN payload)));
  _ ← reject (negb (FrameSubmitMetadata.operation_id metadata =? NnrpSubmitRequest.operation_id request))
        (NnrpFfiStatus.invalid_argument 150);
  _ ← lift_outcome (core (HeaderFlags.validate_known (NnrpSubmitRequest.header_flags request)));
  p ← reserve_operation request;
  _ ← or_undo (awaiting (submit p.1 metadata (drop FRAME_SUBMIT_METADATA_LEN payload)) elsewhere)
        (remove p.2 NnrpHandleKind.Operation);
  mret p.2.

(** ** Closing *)

Definition nnrp_client_close (session : NnrpHandle.t) (close_in_place : nat -> Poll unit) (elsewhere : t -> t)
    : Call unit :=
  runtime ← expect session NnrpHandleKind.Session as_client_session;
  _ ← awaiting (close_in_place runtime) elsewhere;
  close_session session.

Definition nnrp_server_close (session : NnrpHandle.t) (close_in_place : nat -> Poll unit) (elsewhere : t -> t)
    : Call unit :=
  runtime ← expect session NnrpHandleKind.Session as_server_session;
  _ ← awaiting (close_in_place runtime.2) elsewhere;
  close_session session.

Definition nnrp_client_close_connection (connection : NnrpHandle.t) : Call unit := close_connection connection.

Definition nnrp_client_cancel (session : NnrpHandle.t) (frame_id : Z) (cancel_frame : nat -> Poll unit)
    (elsewhere : t -> t) : Call unit :=
  _ ← reject (frame_id =? 0) (NnrpFfiStatus.invalid_argument 16);
  runtime ← expect session NnrpHandleKind.Session as_client_session;
  awaiting (cancel_frame runtime) elsewhere.

(** ** Accept tickets *)

Definition as_ticket (r : NnrpFfiResource.t) : option (NnrpHandle.t * nat) :=
  match r with NnrpFfiResource.ServerAccept server runtime => Some (server, runtime) | _ => None end.

(** [NnrpFfiServerAcceptRuntime::start]: a new ticket, on which the task works. *)
Definition start_ticket : Call nat := fun self =>
  let cell := fresh (dom (tickets self)) in
  (Ok cell, set_tickets self (<[cell := NnrpFfiServerAcceptState.Pending]> (tickets self))).

Definition nnrp_server_accept_begin (server : NnrpHandle.t) (accept_handle_id generation reserved0 : Z)
    (out_accept : Out) : Call NnrpHandle.t :=
  let handle := NnrpHandle.new NnrpHandleKind.ServerAccept accept_handle_id generation in
  _ ← reject (is_null_out out_accept || (accept_handle_id =? 0) || (generation =? 0) || negb (reserved0 =? 0))
        (NnrpFfiStatus.invalid_argument 163);
  _ ← expect server NnrpHandleKind.Connection as_server;
  _ ← (fun self => (reject_if (any (accepts_of server) self) (NnrpFfiStatus.invalid_state 163), self));
  _ ← (fun self => (reject_if (is_some (entries self !! NnrpHandle.key handle))
                      (NnrpFfiStatus.invalid_state 163), self));
  runtime ← start_ticket;
  _ ← insert handle (NnrpFfiResource.ServerAccept server runtime);
  mret handle.

(** The ticket as it is when the wait ends. *)
Definition wait_ticket (runtime : nat) (elsewhere : t -> t) : Call NnrpFfiStatus.t := fun self =>
  let self := elsewhere self in
  (match tickets self !! runtime with
   | Some state => Ok (NnrpFfiServerAcceptState.wait state)
   | None => Panic
   end, self).

Definition nnrp_server_accept_wait (accept : NnrpHandle.t) (flags : Z) (elsewhere : t -> t)
    : Call NnrpFfiStatus.t :=
  _ ← reject (negb (flags =? 0)) (NnrpFfiStatus.invalid_argument 164);
  ticket ← expect accept NnrpHandleKind.ServerAccept as_ticket;
  wait_ticket ticket.2 elsewhere.

(** [runtime.claim()]. *)
Definition claim_ticket (runtime : nat) : Call NnrpServerSession.t := fun self =>
  match tickets self !! runtime with
  | Some state =>
      let (o, state) := NnrpFfiServerAcceptState.claim state in
      (o, set_tickets self (<[runtime := state]> (tickets self)))
  | None => (Panic, self)
  end.

(** [cell]: where the session that is claimed is put. *)
Definition nnrp_server_accept_claim (accept : NnrpHandle.t) (session_handle_id generation reserved0 : Z)
    (out_result : Out) (cell : nat) : Call (NnrpHandle.t * Z) :=
  let handle := NnrpHandle.new NnrpHandleKind.Session session_handle_id generation in
  _ ← reject (is_null_out out_result || (session_handle_id =? 0) || (generation =? 0) || negb (reserved0 =? 0))
        (NnrpFfiStatus.invalid_argument 165);
  _ ← (fun self => (reject_if (is_some (entries self !! NnrpHandle.key handle))
                      (NnrpFfiStatus.invalid_state 165), self));
  ticket ← expect accept NnrpHandleKind.ServerAccept as_ticket;
  session ← claim_ticket ticket.2;
  let open := NnrpServerSession.client_open session in
  _ ← insert handle
    (NnrpFfiResource.Session ticket.1 (NnrpServerSession.session_id session) (SessionOpenMetadata.profile_id open)
      (SessionOpenMetadata.schema_id open) (SessionOpenMetadata.schema_version open) (NnrpFfiRuntime.Server cell));
  _ ← or_undo (remove accept NnrpHandleKind.ServerAccept) (remove handle NnrpHandleKind.Session);
  mret (handle, TransportId.repr (NnrpServerSession.active_transport_id session)).

(** The entry is taken out and, when it is not the ticket of the handle, put back. *)
Definition nnrp_server_accept_release (accept : NnrpHandle.t) : Call unit := fun self =>
  let invalid := Err (NnrpFfiStatus.invalid_handle (NnrpHandleKind.repr NnrpHandleKind.ServerAccept)) in
  match entries self !! NnrpHandle.key accept with
  | None => (invalid, self)
  | Some entry =>
      if (NnrpHandle.kind accept =? NnrpHandleKind.repr NnrpHandleKind.ServerAccept)
         && negb (NnrpHandle.id accept =? 0) && negb (NnrpHandle.generation accept =? 0)
         && (NnrpFfiResourceEntry.generation entry =? NnrpHandle.generation accept) then
        let self := set_entries self (delete (NnrpHandle.key accept) (entries self)) in
        match NnrpFfiResourceEntry.resource entry with
        | NnrpFfiResource.ServerAccept _ _ as ticket => (Ok tt, release_ticket ticket self)
        | _ => (invalid, self)
        end
      else (invalid, set_entries self (<[NnrpHandle.key accept := entry]> (delete (NnrpHandle.key accept) (entries self))))
  end.

(** [accept]: the session that the server of the cell accepts, and the cell where it is put. *)
Definition nnrp_server_accept (server : NnrpHandle.t) (session_handle_id generation : Z) (out_session : Out)
    (accept : nat -> Poll (NnrpServerSession.t * nat)) (elsewhere : t -> t) : Call NnrpHandle.t :=
  let handle := NnrpHandle.new NnrpHandleKind.Session session_handle_id generation in
  _ ← reject (is_null_out out_session || (session_handle_id =? 0) || (generation =? 0))
        (NnrpFfiStatus.invalid_argument 19);
  runtime ← expect server NnrpHandleKind.Connection as_server;
  p ← awaiting (accept runtime) elsewhere;
  let open := NnrpServerSession.client_open p.1 in
  _ ← insert handle
    (NnrpFfiResource.Session server (NnrpServerSession.session_id p.1) (SessionOpenMetadata.profile_id open)
      (SessionOpenMetadata.schema_id open) (SessionOpenMetadata.schema_version open) (NnrpFfiRuntime.Server p.2));
  mret handle.
