(* ===== verification/FfiEvents.v ===== *)
(** Events and frames of the C interface ([src/crates/nnrp-ffi/src/lib.rs]): what the sessions
    of the runtime receive is given to C as events with handles and owned payloads, and the frames
    that C sends are checked before a session sends them.

    The handle of an operation of a server lives until its lifecycle event was delivered and its
    last reply was sent, in whichever order. *)

From S2P Require Import Prelude Bytes Errors Enums Wire Header Codes Flow Object Cache Data Schema Control Session RuntimeControl Recovery Packet RuntimeError Async.
From S2P Require Import Event Client Server FfiTypes FfiStore FfiObjects FfiTransport FfiRoles.
Import NnrpFfiHandleStore.

Local Open Scope Z_scope.

(** ** Events *)

Module NnrpEventKind.

Inductive t :=
| None | ConnectionOpened | SessionOpened | SessionPatched | SessionClosed | SubmitAccepted | ResultPushed
| ResultDropped | FlowUpdated | Control | Error | ResultHint | PartialResult | RuntimeFrame
| OperationLifecycle.

Definition repr (x : t) : Z :=
  match x with
  | None => 0
  | ConnectionOpened => 1
  | SessionOpened => 2
  | SessionPatched => 3
  | SessionClosed => 4
  | SubmitAccepted => 5
  | ResultPushed => 6
  | ResultDropped => 7
  | FlowUpdated => 8
  | Control => 9
  | Error => 10
  | ResultHint => 11
  | PartialResult => 12
  | RuntimeFrame => 13
  | OperationLifecycle => 14
  end.

#[global] Instance eq_dec : EqDecision t.
Proof. solve_decision. Defined.

End NnrpEventKind.

Module NnrpRuntimeFrameHeader.

Record t := mk {
  present : Z;
  version_major : Z;
  wire_format : Z;
  message_type : Z;
  flags : Z;
  session_id : Z;
  frame_id : Z;
  view_id : Z;
  route_id : Z;
  trace_id : Z
}.

Definition absent : t := mk 0 0 0 0 0 0 0 0 0 0.

Definition from (header : RuntimeFrameHeader.t) : t := {|
  present := 1;
  version_major := RuntimeFrameHeader.version_major header;
  wire_format := RuntimeFrameHeader.wire_format header;
  message_type := MessageType.repr (RuntimeFrameHeader.message_type header);
  flags := RuntimeFrameHeader.flags header;
  session_id := RuntimeFrameHeader.session_id header;
  frame_id := RuntimeFrameHeader.frame_id header;
  view_id := RuntimeFrameHeader.view_id header;
  route_id := RuntimeFrameHeader.route_id header;
  trace_id := RuntimeFrameHeader.trace_id header |}.

End NnrpRuntimeFrameHeader.

Module NnrpFfiDiagnostic.

Record t := mk {
  status : NnrpFfiStatus.t;
  related_connection_id : Z;
  related_session_id : Z;
  related_operation_id : Z;
  related_frame_id : Z
}.

End NnrpFfiDiagnostic.

Module NnrpEvent.

Record t := mk {
  kind : Z;
  header : NnrpRuntimeFrameHeader.t;
  connection : NnrpHandle.t;
  session : NnrpHandle.t;
  operation : NnrpHandle.t;
  payload_owner : NnrpHandle.t;
  payload : NnrpBufferView.t;
  diagnostic : NnrpFfiDiagnostic.t
}.

Definition none : t := {|
  kind := NnrpEventKind.repr NnrpEventKind.None;
  header := NnrpRuntimeFrameHeader.absent;
  connection := NnrpHandle.invalid;
  session := NnrpHandle.invalid;
  operation := NnrpHandle.invalid;
  payload_owner := NnrpHandle.invalid;
  payload := NnrpBufferView.empty;
  diagnostic := NnrpFfiDiagnostic.mk NnrpFfiStatus.ok 0 0 0 0 |}.

End NnrpEvent.

Definition role_event_kind (message_type : MessageType.t) : NnrpEventKind.t :=
  match message_type with
  | MessageType.SessionClose => NnrpEventKind.SessionClosed
  | MessageType.FrameSubmit => NnrpEventKind.SubmitAccepted
  | MessageType.ResultPush => NnrpEventKind.ResultPushed
  | MessageType.ResultDrop | MessageType.ResultDropReason => NnrpEventKind.ResultDropped
  | MessageType.FlowUpdate => NnrpEventKind.FlowUpdated
  | MessageType.ResultHint => NnrpEventKind.ResultHint
  | MessageType.PartialResult => NnrpEventKind.PartialResult
  | MessageType.FrameCancel | MessageType.Cancel | MessageType.Abort | MessageType.PriorityUpdate
  | MessageType.Deadline | MessageType.ExpireAt | MessageType.Supersede | MessageType.BudgetUpdate
  | MessageType.Progress | MessageType.Backpressure | MessageType.CreditUpdate
  | MessageType.CapabilityNegotiation | MessageType.DegradeProfile | MessageType.RouteHint
  | MessageType.ExecutionHint | MessageType.TraceContext | MessageType.ErrorRecoverable
  | MessageType.RetryAfter => NnrpEventKind.Control
  | _ => NnrpEventKind.RuntimeFrame
  end.

Definition role_event_diagnostic (connection : NnrpHandle.t) (header : RuntimeFrameHeader.t)
    (operation_id : option Z) : NnrpFfiDiagnostic.t :=
  NnrpFfiDiagnostic.mk NnrpFfiStatus.ok (NnrpHandle.id connection) (RuntimeFrameHeader.session_id header)
    (default 0 operation_id) (RuntimeFrameHeader.frame_id header).

(** ** Operations of a session *)

(** [value.is_none_or(|v| v == x)]. *)
Definition none_or_eq (value : option Z) (x : Z) : bool :=
  match value with None => true | Some v => v =? x end.

Definition matches_operation (session : NnrpHandle.t) (operation_id frame_id : option Z)
    (resource : NnrpFfiResource.t) : bool :=
  match resource with
  | NnrpFfiResource.Operation owned_session owned_operation owned_frame _ _ =>
      bool_decide (owned_session = session) && none_or_eq operation_id owned_operation
      && none_or_eq frame_id owned_frame
  | _ => false
  end.

Definition find_operation_handle (session : NnrpHandle.t) (operation_id frame_id : option Z) (self : t)
    : FF NnrpHandle.t :=
  ok_or (head (handles_where (matches_operation session operation_id frame_id) self))
    (NnrpFfiStatus.invalid_handle (NnrpHandleKind.repr NnrpHandleKind.Operation)).

(** [.unwrap_or(NnrpHandle::invalid())]. *)
Definition or_invalid (o : FF NnrpHandle.t) : FF NnrpHandle.t :=
  match o with Err _ => Ok NnrpHandle.invalid | other => other end.

Definition as_connection_of (r : NnrpFfiResource.t) : option NnrpHandle.t :=
  match r with NnrpFfiResource.Session connection _ _ _ _ _ => Some connection | _ => None end.

Definition role_session_connection (session : NnrpHandle.t) (expected_role : NnrpFfiConnectionRole.t)
    : Call NnrpHandle.t :=
  connection ← expect session NnrpHandleKind.Session as_connection_of;
  role ← pure_of (get_connection_role connection);
  _ ← reject (negb (bool_decide (role = expected_role)))
        (NnrpFfiStatus.invalid_handle (NnrpHandleKind.repr NnrpHandleKind.Session));
  mret connection.

Definition as_operation (r : NnrpFfiResource.t)
    : option (NnrpHandle.t * Z * Z * option NnrpServerOperation.t) :=
  match r with
  | NnrpFfiResource.Operation session operation_id frame_id _ server_operation =>
      Some (session, operation_id, frame_id, server_operation)
  | _ => None
  end.

Definition is_operation (handle : NnrpHandle.t) : bool :=
  NnrpHandle.kind handle =? NnrpHandleKind.repr NnrpHandleKind.Operation.

(** What the store has of an operation, when the handle is one. *)
Definition operation_entry (operation : NnrpHandle.t) (self : t)
    : option (NnrpHandle.t * Z * Z * option NnrpServerOperation.t) :=
  if is_operation operation then
    match get operation NnrpHandleKind.Operation self with Ok r => as_operation r | _ => None end
  else None.

(** The payload of an event, in a buffer of its own unless it is empty. *)
Definition own_payload (payload : bytes) : Call (NnrpHandle.t * NnrpBufferView.t) :=
  if bool_decide (payload = []) then mret (NnrpHandle.invalid, NnrpBufferView.empty)
  else insert_owned_buffer payload.

(** ** Lifecycle events *)

(** The operation whose end is delivered: its handle goes when its last reply was sent before. *)
Definition deliver_lifecycle (scope operation : NnrpHandle.t) (server_operation : bool) : Call NnrpHandle.t :=
  recorded ← (fun self => (Ok (terminal_operation_reply_recorded operation self), self));
  if server_operation && recorded then
    _ ← remove operation NnrpHandleKind.Operation;
    mret NnrpHandle.invalid
  else
    _ ← update_with (fun self => if server_operation then mark_operation_lifecycle_delivered scope operation self
                                 else self);
    mret operation.

Definition role_lifecycle_event (scope connection : NnrpHandle.t) (event : OperationLifecycleEvent.t)
    : Call NnrpEvent.t :=
  session_id ← expect scope NnrpHandleKind.Session as_session_id;
  operation ← pure_of (fun self => or_invalid
    (find_operation_handle scope (Some (OperationLifecycleEvent.operation_id event)) None self));
  entry ← (fun self => (Ok (operation_entry operation self), self));
  let frame_id := from_option (fun e => e.1.2) 0 entry in
  let server_operation := from_option (fun e => is_some e.2) false entry in
  event_operation ← deliver_lifecycle scope operation server_operation;
  owned ← insert_owned_buffer [byte_of_Z (OperationState.repr (OperationLifecycleEvent.state event))];
  mret {|
    NnrpEvent.kind := NnrpEventKind.repr NnrpEventKind.OperationLifecycle;
    NnrpEvent.header := NnrpRuntimeFrameHeader.absent;
    NnrpEvent.connection := connection;
    NnrpEvent.session := scope;
    NnrpEvent.operation := event_operation;
    NnrpEvent.payload_owner := owned.1;
    NnrpEvent.payload := owned.2;
    NnrpEvent.diagnostic := NnrpFfiDiagnostic.mk NnrpFfiStatus.ok (NnrpHandle.id connection) session_id
      (OperationLifecycleEvent.operation_id event) frame_id |}.

(** ** Events of a client *)

(** [.filter(|operation_id| *operation_id != 0)]. *)
Definition nonzero (id : option Z) : option Z := id ≫= fun id => if id =? 0 then None else Some id.

Definition event_operation_id (event : NnrpRuntimeEvent.t) : option Z :=
  nonzero (NnrpRuntimeEventMetadata.operation_id (NnrpRuntimeEvent.metadata event)).

(** The operation of an event: by its id, else by its frame. *)
Definition client_event_operation (scope : NnrpHandle.t) (operation_id : option Z) (wire_frame_id : Z)
    (self : t) : FF NnrpHandle.t :=
  match operation_id with
  | Some operation_id => find_operation_handle scope (Some operation_id) None self
  | None =>
      if negb (wire_frame_id =? 0)
      then or_invalid (find_operation_handle scope None (Some wire_frame_id) self)
      else Ok NnrpHandle.invalid
  end.

Definition is_terminal (message_type : MessageType.t) : bool :=
  match message_type with
  | MessageType.ResultPush | MessageType.ResultDrop | MessageType.ResultDropReason => true
  | _ => false
  end.

(** The kinds of events that an operation must have. *)
Definition needs_operation (kind : NnrpEventKind.t) : bool :=
  match kind with
  | NnrpEventKind.ResultPushed | NnrpEventKind.ResultDropped | NnrpEventKind.PartialResult => true
  | _ => false
  end.

Definition runtime_event_of (kind : NnrpEventKind.t) (header : RuntimeFrameHeader.t)
    (connection scope operation : NnrpHandle.t) (owned : NnrpHandle.t * NnrpBufferView.t)
    (diagnostic : NnrpFfiDiagnostic.t) : NnrpEvent.t := {|
  NnrpEvent.kind := NnrpEventKind.repr kind;
  NnrpEvent.header := NnrpRuntimeFrameHeader.from header;
  NnrpEvent.connection := connection;
  NnrpEvent.session := scope;
  NnrpEvent.operation := operation;
  NnrpEvent.payload_owner := owned.1;
  NnrpEvent.payload := owned.2;
  NnrpEvent.diagnostic := diagnostic |}.

Definition client_runtime_event (scope connection : NnrpHandle.t) (event : NnrpRuntimeEvent.t) : Call NnrpEvent.t :=
  let header := NnrpRuntimeEvent.header event in
  let operation_id := event_operation_id event in
  let kind := role_event_kind (RuntimeFrameHeader.message_type header) in
  payload ← lift_outcome (core (NnrpRuntimeEvent.into_payload event));
  operation ← pure_of (client_event_operation scope operation_id (RuntimeFrameHeader.frame_id header));
  entry ← (fun self => (Ok (operation_entry operation self), self));
  let related := match operation_id with Some id => Some id | None => (fun e => e.1.1.2) <$> entry end in
  _ ← reject (needs_operation kind && negb (is_operation operation))
        (NnrpFfiStatus.invalid_handle (NnrpHandleKind.repr NnrpHandleKind.Operation));
  owned ← own_payload payload;
  _ ← (if is_terminal (RuntimeFrameHeader.message_type header) && is_operation operation
       then remove operation NnrpHandleKind.Operation else mret tt);
  mret (runtime_event_of kind header connection scope operation owned
          (role_event_diagnostic connection header related)).

Definition client_role_event (scope : NnrpHandle.t) (event : NnrpClientRoleEvent.t) : Call NnrpEvent.t :=
  connection ← role_session_connection scope NnrpFfiConnectionRole.Client;
  match event with
  | NnrpClientRoleEvent.Runtime event => client_runtime_event scope connection event
  | NnrpClientRoleEvent.Lifecycle event => role_lifecycle_event scope connection event
  end.

(** ** Events of a server *)

Definition server_event_operation (scope : NnrpHandle.t) (message_type : MessageType.t) (operation_id : option Z)
    (wire_frame_id : Z) (self : t) : FF NnrpHandle.t :=
  match operation_id with
  | Some operation_id =>
      match find_operation_handle scope (Some operation_id) None self with
      | Err status =>
          if bool_decide (message_type = MessageType.Deadline)
             && bool_decide (status = NnrpFfiStatus.invalid_handle (NnrpHandleKind.repr NnrpHandleKind.Operation))
          then Ok NnrpHandle.invalid else Err status
      | other => other
      end
  | None =>
      if negb (wire_frame_id =? 0)
      then or_invalid (find_operation_handle scope None (Some wire_frame_id) self)
      else Ok NnrpHandle.invalid
  end.

(** A submit gets a new operation of the session. *)
Definition server_operation_handle (scope : NnrpHandle.t) (event : NnrpRuntimeEvent.t)
    (server_operation : option NnrpServerOperation.t) (payload : bytes) : Call NnrpHandle.t :=
  let header := NnrpRuntimeEvent.header event in
  let operation_id := event_operation_id event in
  if bool_decide (RuntimeFrameHeader.message_type header = MessageType.FrameSubmit) then
    id ← next_handle_id NnrpHandleKind.Operation;
    let operation := NnrpHandle.new NnrpHandleKind.Operation id (NnrpHandle.generation scope) in
    operation_id ← lift_outcome (match operation_id with Some id => Ok id | None => Panic end);
    _ ← insert operation (NnrpFfiResource.Operation scope operation_id (RuntimeFrameHeader.frame_id header)
                            (len payload) server_operation);
    mret operation
  else pure_of (server_event_operation scope (RuntimeFrameHeader.message_type header) operation_id
                  (RuntimeFrameHeader.frame_id header)).

(** The event of a frame; an operation that was made for it goes when its payload has no buffer. *)
Definition server_runtime_event (scope connection : NnrpHandle.t) (event : NnrpRuntimeEvent.t)
    (server_operation : option NnrpServerOperation.t) : Call NnrpEvent.t :=
  let header := NnrpRuntimeEvent.header event in
  let create_operation := bool_decide (RuntimeFrameHeader.message_type header = MessageType.FrameSubmit) in
  payload ← lift_outcome (core (NnrpRuntimeEvent.to_payload event));
  operation ← server_operation_handle scope event server_operation payload;
  owned ← or_undo (own_payload payload)
    (if create_operation then update_with (fun self => remove_entries [operation] self) else mret tt);
  mret (runtime_event_of (role_event_kind (RuntimeFrameHeader.message_type header)) header connection scope operation
          owned (role_event_diagnostic connection header (event_operation_id event))).

Definition server_role_event (scope connection : NnrpHandle.t) (event : NnrpServerEvent.t) : Call NnrpEvent.t :=
  match event with
  | NnrpServerEvent.Submit operation =>
      server_runtime_event scope connection (NnrpServerOperation.submit operation) (Some operation)
  | NnrpServerEvent.Runtime event => server_runtime_event scope connection event None
  | NnrpServerEvent.Lifecycle event => role_lifecycle_event scope connection event
  end.

(** ** Batches of events *)

Module NnrpRoleEventPollRequest.
Record t := mk { scope : NnrpHandle.t; max_events : Z; timeout_ms : Z; flags : Z; reserved0 : Z }.
End NnrpRoleEventPollRequest.

Definition validate_role_event_poll (request : NnrpRoleEventPollRequest.t) (out_events : Out) (event_capacity : Z)
    (out_event_count : Out) : FF Z :=
  _ ← reject_if (is_null_out out_event_count) (NnrpFfiStatus.invalid_argument 31);
  _ ← reject_if ((event_capacity =? 0) || is_null_out out_events) (NnrpFfiStatus.invalid_argument 32);
  _ ← reject_if (negb (NnrpRoleEventPollRequest.flags request =? 0)
                 || negb (NnrpRoleEventPollRequest.reserved0 request =? 0)) (NnrpFfiStatus.invalid_argument 146);
  let requested := if NnrpRoleEventPollRequest.max_events request =? 0 then 16
                   else NnrpRoleEventPollRequest.max_events request in
  Ok (Z.min requested event_capacity).

(** One await of the session, with what the other threads do meanwhile. *)
Definition Await (A : Type) : Type := Poll A * (t -> t).

(** The loop over the events: a timeout after the first event ends the batch.  The value is the
    status with the events that were written.  An await beyond the list is a timeout. *)
Fixpoint await_events {A} (role_event : A -> Call NnrpEvent.t) (limit : nat) (first : bool) (awaits : list (Await A))
    (self : t) : Outcome NnrpFfiStatus.t (NnrpFfiStatus.t * list NnrpEvent.t) * t :=
  match limit with
  | O => (Ok (NnrpFfiStatus.ok, []), self)
  | S limit =>
      let '(future, elsewhere) := default (Pending, id) (head awaits) in
      let self := elsewhere self in
      match run_async future with
      | Ok event =>
          match role_event event self with
          | (Ok event, self) =>
              match await_events role_event limit false (tail awaits) self with
              | (Ok (status, events), self) => (Ok (status, event :: events), self)
              | other => other
              end
          | (Err status, self) => (Ok (status, []), self)
          | (Panic, self) => (Panic, self)
          end
      | Err status =>
          (Ok (if negb first && (NnrpFfiStatus.status_code status =? NnrpFfiStatusCode.repr NnrpFfiStatusCode.WouldBlock)
               then NnrpFfiStatus.ok else status, []), self)
      | Panic => (Panic, self)
      end
  end.

Definition role_client_await_events_impl (request : NnrpRoleEventPollRequest.t) (out_events : Out)
    (event_capacity : Z) (out_event_count : Out) (awaits : nat -> list (Await NnrpClientRoleEvent.t))
    : Call (NnrpFfiStatus.t * list NnrpEvent.t) :=
  limit ← lift_outcome (validate_role_event_poll request out_events event_capacity out_event_count);
  session ← expect (NnrpRoleEventPollRequest.scope request) NnrpHandleKind.Session as_client_session;
  await_events (client_role_event (NnrpRoleEventPollRequest.scope request)) (Z.to_nat limit) true (awaits session).

Definition role_server_await_events_impl (request : NnrpRoleEventPollRequest.t) (out_events : Out)
    (event_capacity : Z) (out_event_count : Out) (awaits : nat -> list (Await NnrpServerEvent.t))
    : Call (NnrpFfiStatus.t * list NnrpEvent.t) :=
  let scope := NnrpRoleEventPollRequest.scope request in
  limit ← lift_outcome (validate_role_event_poll request out_events event_capacity out_event_count);
  session ← expect scope NnrpHandleKind.Session as_server_session;
  _ ← role_session_connection scope NnrpFfiConnectionRole.Server;
  await_events (server_role_event scope session.1) (Z.to_nat limit) true (awaits session.2).

Module NnrpPollResult.
Record t := mk { status : NnrpFfiStatus.t; has_event : Z; event : NnrpEvent.t }.
End NnrpPollResult.

(** A batch of one event. *)
Definition nnrp_client_await_event (scope : NnrpHandle.t) (out_result : Out)
    (awaits : nat -> list (Await NnrpClientRoleEvent.t)) : Call NnrpPollResult.t := fun self =>
  if is_null_out out_result then (Err (NnrpFfiStatus.invalid_argument 17), self)
  else
    match role_client_await_events_impl (NnrpRoleEventPollRequest.mk scope 1 0 0 0) Writable 1 Writable awaits self with
    | (Ok (status, events), self) =>
        (Ok (NnrpPollResult.mk status (Z.b2z (len events =? 1)) (default NnrpEvent.none (head events))), self)
    | (Err status, self) => (Ok (NnrpPollResult.mk status 0 NnrpEvent.none), self)
    | (Panic, self) => (Panic, self)
    end.

Definition poll_result_none (status : NnrpFfiStatus.t) : NnrpPollResult.t :=
  NnrpPollResult.mk status 0 NnrpEvent.none.

Definition nnrp_poll_empty (out_result : Out) : FF NnrpPollResult.t :=
  _ ← reject_if (is_null_out out_result) (NnrpFfiStatus.invalid_argument 13);
  Ok (poll_result_none (NnrpFfiStatus.make NnrpFfiStatusCode.WouldBlock NnrpErrorFamily.None 0 0)).

(** [callback]: the function of the sink, when there is one. *)
Definition nnrp_dispatch_event (callback : option (NnrpEvent.t -> Z)) (event : option NnrpEvent.t) : FF unit :=
  event ← ok_or event (NnrpFfiStatus.invalid_argument 14);
  callback ← ok_or callback (NnrpFfiStatus.invalid_argument 15);
  let callback_status := callback event in
  reject_if (negb (callback_status =? NnrpFfiStatusCode.repr NnrpFfiStatusCode.Ok))
    (NnrpFfiStatus.make NnrpFfiStatusCode.CallbackRejected NnrpErrorFamily.None 0 callback_status).

Definition session_error_status (error_code : Z) : NnrpFfiStatus.t :=
  if error_code =? SESSION_ERROR_NONE then NnrpFfiStatus.ok
  else NnrpFfiStatus.protocol NnrpErrorFamily.Session error_code.
