(* ===== verification/FfiFrames.v ===== *)
(** Frames that C sends ([src/crates/nnrp-ffi/src/lib.rs]): the checks of the payload of a
    runtime frame, the choice of the method of the session that sends it, and the replies of a
    server to an operation. *)

From S2P Require Import Prelude Bytes Errors Enums Wire Header Codes Flow Object Cache Data Schema Control Session RuntimeControl Recovery Packet RuntimeError Async.
From S2P Require Import Event Client Server FfiTypes FfiStore FfiObjects FfiTransport FfiRoles FfiEvents.
Import NnrpFfiHandleStore.

Local Open Scope Z_scope.

(** [.map(|_| ())]. *)
Definition ignore {E A} (o : Outcome E A) : Outcome E unit := _ ← o; Ok tt.

(** ** Checks of payloads *)

Section payloads.
Context `{Htarget : Target}.

(** The metadata of a control message. *)
Definition control_metadata (message_type : MessageType.t) (payload : bytes) : R unit :=
  match message_type with
  | MessageType.Cancel | MessageType.Abort =>
      p ← ControlRequestMetadata.parse_with_diagnostics payload;
      validate_control_request_semantics message_type p.1
  | MessageType.PriorityUpdate | MessageType.Deadline | MessageType.ExpireAt =>
      metadata ← SchedulingMetadata.parse payload;
      validate_scheduling_semantics message_type metadata
  | MessageType.Supersede => ignore (SupersedeMetadata.parse_with_diagnostics payload)
  | MessageType.BudgetUpdate => ignore (BudgetMetadata.parse payload)
  | MessageType.Progress =>
      p ← ProgressMetadata.parse_with_body payload;
      validate_progress_semantics p.1
  | MessageType.PartialResult =>
      p ← PartialResultMetadata.parse_with_body payload;
      validate_partial_result_semantics p.1
  | MessageType.Backpressure | MessageType.CreditUpdate =>
      metadata ← PressureMetadata.parse payload;
      validate_pressure_semantics message_type metadata
  | MessageType.CapabilityNegotiation | MessageType.DegradeProfile =>
      ignore (CapabilityMetadata.parse_with_body payload)
  | MessageType.RouteHint | MessageType.ExecutionHint => ignore (RouteHintMetadata.parse_with_body payload)
  | MessageType.TraceContext =>
      p ← TraceContextMetadata.parse_with_body payload;
      validate_trace_context_semantics p.1
  | MessageType.ResultDropReason =>
      p ← ResultDropReasonMetadata.parse_with_diagnostics payload;
      validate_result_drop_reason_semantics p.1
  | MessageType.ErrorRecoverable => ignore (RecoverableErrorMetadata.parse_with_diagnostics payload)
  | MessageType.RetryAfter => ignore (RetryAfterMetadata.parse_with_diagnostics payload)
  | MessageType.ResultHint => ignore (ResultHintMetadata.parse payload)
  | _ => Err (InvalidProtocolCombination "control metadata submit requires a control metadata message type")
  end.

(** [u8::try_from(code)] and [MessageType::try_from_u8]. *)
Definition message_type_of (code detail : Z) : FF MessageType.t :=
  _ ← reject_if (255 <? code) (NnrpFfiStatus.invalid_argument detail);
  core (MessageType.try_from_u8 code).

Definition validate_control_metadata_payload (control_code : Z) (payload : NnrpBufferView.t) (store : t) : FF unit :=
  _ ← NnrpBufferView.validate payload;
  message_type ← message_type_of control_code 128;
  bytes ← ffi_read_slice payload store;
  core (control_metadata message_type bytes).

Definition validate_object_delta_payload (bytes : bytes) : FF unit :=
  metadata ← core (ObjectDeltaMetadata.parse bytes);
  declared ← ok_or
    (length ← checked_add usize_max (Z.of_nat OBJECT_DELTA_METADATA_LEN) (ObjectDeltaMetadata.metadata_bytes metadata);
     checked_add usize_max length (ObjectDeltaMetadata.delta_bytes metadata))
    (NnrpFfiStatus.from_core_error MessageLengthOverflow);
  _ ← reject_if (negb (declared =? len bytes))
        (NnrpFfiStatus.from_core_error (DeclaredLengthMismatch "object_delta.payload_bytes" declared (len bytes)));
  head ← core (slice bytes 0 (OBJECT_DELTA_METADATA_LEN + Z.to_nat (ObjectDeltaMetadata.metadata_bytes metadata)));
  core (ignore (ObjectDeltaMetadata.parse_with_extension head)).

(** The payload of a frame that may be sent. *)
Definition frame_payload (message_type : MessageType.t) (payload : NnrpBufferView.t) (bytes : bytes) (store : t)
    : FF unit :=
  match message_type with
  | MessageType.Cancel | MessageType.Abort | MessageType.PriorityUpdate | MessageType.Deadline
  | MessageType.ExpireAt | MessageType.Supersede | MessageType.BudgetUpdate | MessageType.Progress
  | MessageType.PartialResult | MessageType.Backpressure | MessageType.CreditUpdate
  | MessageType.CapabilityNegotiation | MessageType.DegradeProfile | MessageType.RouteHint
  | MessageType.ExecutionHint | MessageType.TraceContext | MessageType.ResultDropReason
  | MessageType.ErrorRecoverable | MessageType.RetryAfter =>
      validate_control_metadata_payload (MessageType.repr message_type) payload store
  | MessageType.ResultHint => core (ignore (ResultHintMetadata.parse bytes))
  | MessageType.FlowUpdate => core (ignore (FlowUpdateMetadata.parse bytes))
  | MessageType.ObjectDeclare => core (ignore (ObjectDescriptorMetadata.parse_with_extension bytes))
  | MessageType.ObjectRef => core (ignore (ObjectReferenceMetadata.parse_with_extension bytes))
  | MessageType.ObjectRelease => core (ignore (ObjectReleaseMetadata.parse_with_diagnostics bytes))
  | MessageType.ObjectPatch | MessageType.ObjectDelta => validate_object_delta_payload bytes
  | MessageType.CacheReference => core (ignore (CacheReferenceMetadata.parse_with_extension bytes))
  | MessageType.CacheMiss => core (ignore (CacheMissMetadata.parse_with_diagnostics bytes))
  | MessageType.CacheInvalidate => core (ignore (CacheInvalidateMetadata.parse bytes))
  | _ => Err (NnrpFfiStatus.from_core_error (InvalidProtocolCombination
           "runtime frame send requires a preview4 control, object, or cache message"))
  end.

Definition validate_runtime_frame_payload (message_type : Z) (payload : NnrpBufferView.t) (store : t)
    : FF MessageType.t :=
  _ ← NnrpBufferView.validate payload;
  message_type ← message_type_of message_type 140;
  bytes ← ffi_read_slice payload store;
  _ ← frame_payload message_type payload bytes store;
  Ok message_type.

Definition validate_runtime_frame_direction (role : NnrpFfiConnectionRole.t) (message_type : MessageType.t) : FF unit :=
  reject_if (bool_decide (message_type = MessageType.ResultHint)
             && negb (bool_decide (role = NnrpFfiConnectionRole.Server)))
    (NnrpFfiStatus.from_core_error (InvalidProtocolCombination "RESULT_HINT is sent from server to client")).

(** ** The methods of the sessions *)

(** [operation.as_ref().ok_or(..)?]. *)
Definition with_operation {A} (operation : option NnrpServerOperation.t) (message : string)
    (k : NnrpServerOperation.t -> Async NnrpServerSession.t A) : Async NnrpServerSession.t A :=
  operation ← lift (ok_or operation (UnexpectedMessage message));
  k operation.

Definition send_server_runtime_frame (operation : option NnrpServerOperation.t) (message_type : MessageType.t)
    (frame_id : Z) (payload : bytes) : Async NnrpServerSession.t unit :=
  match message_type with
  | MessageType.FlowUpdate =>
      metadata ← lift (protocol (FlowUpdateMetadata.parse payload));
      NnrpServerSession.send_flow_update metadata
  | MessageType.Cancel | MessageType.Abort =>
      p ← lift (protocol (ControlRequestMetadata.parse_with_diagnostics payload));
      NnrpServerSession.send_control_request message_type p.1 p.2
  | MessageType.PriorityUpdate | MessageType.Deadline | MessageType.ExpireAt =>
      metadata ← lift (protocol (SchedulingMetadata.parse payload));
      NnrpServerSession.send_scheduling_update message_type metadata
  | MessageType.Supersede =>
      p ← lift (protocol (SupersedeMetadata.parse_with_diagnostics payload));
      NnrpServerSession.supersede_operation p.1 p.2
  | MessageType.BudgetUpdate =>
      metadata ← lift (protocol (BudgetMetadata.parse payload));
      NnrpServerSession.update_budget metadata
  | MessageType.Progress =>
      p ← lift (protocol (ProgressMetadata.parse_with_body payload));
      with_operation operation "server PROGRESS requires an operation handle"
        (fun operation => NnrpServerSession.send_progress operation p.1 p.2)
  | MessageType.PartialResult =>
      p ← lift (protocol (PartialResultMetadata.parse_with_body payload));
      with_operation operation "server PARTIAL_RESULT requires an operation handle"
        (fun operation => NnrpServerSession.send_partial_result operation p.1 p.2)
  | MessageType.Backpressure =>
      metadata ← lift (protocol (PressureMetadata.parse payload));
      NnrpServerSession.send_backpressure metadata
  | MessageType.CreditUpdate =>
      metadata ← lift (protocol (PressureMetadata.parse payload));
      NnrpServerSession.send_credit_update metadata
  | MessageType.CapabilityNegotiation | MessageType.DegradeProfile =>
      p ← lift (protocol (CapabilityMetadata.parse_with_body payload));
      NnrpServerSession.send_capability message_type p.1 p.2
  | MessageType.RouteHint | MessageType.ExecutionHint =>
      p ← lift (protocol (RouteHintMetadata.parse_with_body payload));
      NnrpServerSession.send_route_hint message_type p.1 p.2
  | MessageType.TraceContext =>
      p ← lift (protocol (TraceContextMetadata.parse_with_body payload));
      NnrpServerSession.send_trace_context frame_id p.1 p.2
  | MessageType.ResultDropReason =>
      p ← lift (protocol (ResultDropReasonMetadata.parse_with_diagnostics payload));
      with_operation operation "server RESULT_DROP_REASON requires an operation handle"
        (fun operation => NnrpServerSession.send_result_drop operation p.1 p.2)
  | MessageType.ErrorRecoverable =>
      p ← lift (protocol (RecoverableErrorMetadata.parse_with_diagnostics payload));
      NnrpServerSession.send_recoverable_error p.1 p.2
  | MessageType.RetryAfter =>
      p ← lift (protocol (RetryAfterMetadata.parse_with_diagnostics payload));
      NnrpServerSession.send_retry_after p.1 p.2
  | MessageType.ResultHint =>
      metadata ← lift (protocol (ResultHintMetadata.parse payload));
      NnrpServerSession.send_result_hint metadata
  | MessageType.ObjectDeclare =>
      p ← lift (protocol (ObjectDescriptorMetadata.parse_with_extension payload));
      NnrpServerSession.send_object_declare p.1 p.2
  | MessageType.ObjectRef =>
      p ← lift (protocol (ObjectReferenceMetadata.parse_with_extension payload));
      NnrpServerSession.send_object_ref p.1 p.2
  | MessageType.ObjectRelease =>
      p ← lift (protocol (ObjectReleaseMetadata.parse_with_diagnostics payload));
      NnrpServerSession.send_object_release p.1 p.2
  | MessageType.ObjectPatch | MessageType.ObjectDelta =>
      metadata ← lift (protocol (ObjectDeltaMetadata.parse payload));
      NnrpServerSession.send_object_delta message_type metadata (drop OBJECT_DELTA_METADATA_LEN payload)
  | MessageType.CacheReference =>
      p ← lift (protocol (CacheReferenceMetadata.parse_with_extension payload));
      NnrpServerSession.send_cache_reference p.1 p.2
  | MessageType.CacheMiss =>
      p ← lift (protocol (CacheMissMetadata.parse_with_diagnostics payload));
      NnrpServerSession.send_cache_miss p.1 p.2
  | MessageType.CacheInvalidate =>
      metadata ← lift (protocol (CacheInvalidateMetadata.parse payload));
      NnrpServerSession.send_cache_invalidate metadata
  | _ => lift (Err (UnexpectedMessage "server runtime frame direction is unsupported"))
  end.

End payloads.

(** ** Sending a frame *)

(** The connection, the session and the operation that a handle stands for. *)
Definition event_scope_for_handle (handle : NnrpHandle.t) (self : t)
    : FF (NnrpHandle.t * NnrpHandle.t * NnrpHandle.t) :=
  let bad kind := Err (NnrpFfiStatus.invalid_handle (NnrpHandleKind.repr kind)) in
  let kind := NnrpHandle.kind handle in
  if kind =? NnrpHandleKind.repr NnrpHandleKind.Connection then
    r ← get handle NnrpHandleKind.Connection self;
    match r with
    | NnrpFfiResource.Connection _ _ _ => Ok (handle, NnrpHandle.invalid, NnrpHandle.invalid)
    | _ => bad NnrpHandleKind.Connection
    end
  else if kind =? NnrpHandleKind.repr NnrpHandleKind.Session then
    r ← get handle NnrpHandleKind.Session self;
    match r with
    | NnrpFfiResource.Session connection _ _ _ _ _ => Ok (connection, handle, NnrpHandle.invalid)
    | _ => bad NnrpHandleKind.Session
    end
  else if kind =? NnrpHandleKind.repr NnrpHandleKind.Operation then
    r ← get handle NnrpHandleKind.Operation self;
    match r with
    | NnrpFfiResource.Operation session _ _ _ _ =>
        r ← get session NnrpHandleKind.Session self;
        match r with
        | NnrpFfiResource.Session connection _ _ _ _ _ => Ok (connection, session, handle)
        | _ => bad NnrpHandleKind.Session
        end
    | _ => bad NnrpHandleKind.Operation
    end
  else Err (NnrpFfiStatus.invalid_handle kind).

Definition as_session_runtime (r : NnrpFfiResource.t) : option NnrpFfiRuntime.t :=
  match r with NnrpFfiResource.Session _ _ _ _ _ runtime => Some runtime | _ => None end.

Module NnrpRuntimeFrameSendRequest.
Record t := mk { handle : NnrpHandle.t; message_type : Z; frame_id : Z; payload : NnrpBufferView.t }.
End NnrpRuntimeFrameSendRequest.

(** What is read under the lock before the frame is sent. *)
Definition frame_target (handle : NnrpHandle.t) (message_type : MessageType.t) (self : t)
    : FF (NnrpFfiConnectionRole.t * NnrpFfiRuntime.t * option NnrpServerOperation.t * NnrpHandle.t) :=
  scope ← event_scope_for_handle handle self;
  let '(connection, session, operation_handle) := scope in
  _ ← reject_if (negb (NnrpHandle.kind session =? NnrpHandleKind.repr NnrpHandleKind.Session))
        (NnrpFfiStatus.invalid_handle (NnrpHandle.kind handle));
  role ← get_connection_role connection self;
  _ ← validate_runtime_frame_direction role message_type;
  runtime ← (expect session NnrpHandleKind.Session as_session_runtime self).1;
  server_operation ←
    (if is_operation operation_handle then
       r ← get operation_handle NnrpHandleKind.Operation self;
       Ok (e ← as_operation r; e.2)
     else Ok None);
  Ok (role, runtime, server_operation, session).

(** The results of the senders: of the client session of a cell, and of the server session of a
    cell for an operation. *)
Definition nnrp_runtime_frame_send_role_impl (request : NnrpRuntimeFrameSendRequest.t)
    (message_type : MessageType.t)
    (send_client : nat -> bytes -> Poll unit)
    (send_server : nat -> option NnrpServerOperation.t -> bytes -> Poll unit)
    (elsewhere : t -> t) : Call unit :=
  payload ← read_view (NnrpRuntimeFrameSendRequest.payload request);
  target ← pure_of (frame_target (NnrpRuntimeFrameSendRequest.handle request) message_type);
  let '(role, runtime, server_operation, session_handle) := target in
  _ ← match role, runtime with
      | NnrpFfiConnectionRole.Client, NnrpFfiRuntime.Client session => awaiting (send_client session payload) elsewhere
      | NnrpFfiConnectionRole.Server, NnrpFfiRuntime.Server session =>
          awaiting (send_server session server_operation payload) elsewhere
      | _, _ => lift_outcome (Err (NnrpFfiStatus.invalid_handle (NnrpHandleKind.repr NnrpHandleKind.Session)))
      end;
  if bool_decide (role = NnrpFfiConnectionRole.Server) && bool_decide (message_type = MessageType.ResultDropReason)
     && is_operation (NnrpRuntimeFrameSendRequest.handle request)
  then record_terminal_operation_reply session_handle (NnrpRuntimeFrameSendRequest.handle request)
  else mret tt.

Definition nnrp_runtime_frame_send_impl `{Target} (request : NnrpRuntimeFrameSendRequest.t)
    (send_client : MessageType.t -> nat -> bytes -> Poll unit)
    (send_server : MessageType.t -> nat -> option NnrpServerOperation.t -> bytes -> Poll unit)
    (elsewhere : t -> t) : Call unit :=
  let kind := NnrpHandle.kind (NnrpRuntimeFrameSendRequest.handle request) in
  message_type ← pure_of (validate_runtime_frame_payload (NnrpRuntimeFrameSendRequest.message_type request)
                            (NnrpRuntimeFrameSendRequest.payload request));
  _ ← reject (negb ((kind =? NnrpHandleKind.repr NnrpHandleKind.Session)
                    || (kind =? NnrpHandleKind.repr NnrpHandleKind.Operation)))
        (NnrpFfiStatus.invalid_handle kind);
  nnrp_runtime_frame_send_role_impl request message_type (send_client message_type) (send_server message_type)
    elsewhere.

(** ** Replies to an operation *)

Definition as_server_operation (r : NnrpFfiResource.t) : option (NnrpHandle.t * NnrpServerOperation.t) :=
  match r with
  | NnrpFfiResource.Operation session _ _ _ (Some operation) => Some (session, operation)
  | _ => None
  end.

(** [send_result]: what the session of the cell says to the result of the operation. *)
Definition nnrp_server_send_result_impl (operation : NnrpHandle.t) (payload : NnrpBufferView.t)
    (send_result : nat -> NnrpServerOperation.t -> ResultPushMetadata.t -> bytes -> Poll unit)
    (elsewhere : t -> t) : Call unit :=
  _ ← validated payload;
  bytes ← read_view payload;
  _ ← reject (len bytes <? Z.of_nat RESULT_PUSH_METADATA_LEN) (NnrpFfiStatus.invalid_argument 148);
  metadata ← lift_outcome (core (ResultPushMetadata.parse (take RESULT_PUSH_METADATA_LEN bytes)));
  p ← expect operation NnrpHandleKind.Operation as_server_operation;
  session ← expect p.1 NnrpHandleKind.Session as_server_session;
  _ ← role_session_connection p.1 NnrpFfiConnectionRole.Server;
  _ ← awaiting (send_result session.2 p.2 metadata (drop RESULT_PUSH_METADATA_LEN bytes)) elsewhere;
  record_terminal_operation_reply p.1 operation.

Definition operation_wire_id (operation : NnrpHandle.t) : Call Z :=
  e ← expect operation NnrpHandleKind.Operation as_operation;
  mret e.1.1.2.

Definition server_operation_runtime (operation : NnrpHandle.t) : Call (NnrpServerOperation.t * nat) :=
  p ← expect operation NnrpHandleKind.Operation as_server_operation;
  session ← expect p.1 NnrpHandleKind.Session as_server_session;
  role ← pure_of (get_connection_role session.1);
  _ ← reject (negb (bool_decide (role = NnrpFfiConnectionRole.Server)))
        (NnrpFfiStatus.invalid_handle (NnrpHandleKind.repr NnrpHandleKind.Session));
  mret (p.2, session.2).

(** [*out_result = poll_result_none(status); return status;] for every status: the value is that
    status. *)
Definition polled (m : Call unit) : Call NnrpPollResult.t := fun self =>
  match m self with
  | (Ok _, self) => (Ok (poll_result_none NnrpFfiStatus.ok), self)
  | (Err status, self) => (Ok (poll_result_none status), self)
  | (Panic, self) => (Panic, self)
  end.

Definition nnrp_server_send_partial_result_impl (operation : NnrpHandle.t)
    (partial_result : NnrpPartialResultDescriptor.t) (partial_body : NnrpBufferView.t) (out_result : Out)
    (send_partial_result : nat -> NnrpServerOperation.t -> PartialResultMetadata.t -> bytes -> Poll unit)
    (elsewhere : t -> t) : Call NnrpPollResult.t :=
  let metadata := NnrpPartialResultDescriptor.to_core partial_result in
  _ ← reject (is_null_out out_result) (NnrpFfiStatus.invalid_argument 132);
  polled (
    _ ← validated partial_body;
    operation_id ← operation_wire_id operation;
    _ ← reject (negb (PartialResultMetadata.operation_id metadata =? operation_id)) (NnrpFfiStatus.invalid_argument 133);
    _ ← lift_outcome (core (validate_partial_result_semantics metadata));
    body ← read_view partial_body;
    _ ← lift_outcome (core (PartialResultMetadata.to_vec_with_body metadata body));
    p ← server_operation_runtime operation;
    awaiting (send_partial_result p.2 p.1 metadata body) elsewhere).

Definition nnrp_server_drop_stale_result_impl (operation : NnrpHandle.t)
    (drop_reason : NnrpResultDropReasonDescriptor.t) (diagnostics : NnrpBufferView.t) (out_result : Out)
    (send_result_drop : nat -> NnrpServerOperation.t -> ResultDropReasonMetadata.t -> bytes -> Poll unit)
    (elsewhere : t -> t) : Call NnrpPollResult.t :=
  let metadata := NnrpResultDropReasonDescriptor.to_core drop_reason in
  _ ← reject (is_null_out out_result) (NnrpFfiStatus.invalid_argument 134);
  polled (
    _ ← validated diagnostics;
    operation_id ← operation_wire_id operation;
    _ ← reject (negb (ResultDropReasonMetadata.operation_id metadata =? operation_id))
          (NnrpFfiStatus.invalid_argument 135);
    _ ← lift_outcome (core (validate_result_drop_reason_semantics metadata));
    bytes ← read_view diagnostics;
    _ ← lift_outcome (core (ResultDropReasonMetadata.to_vec_with_diagnostics metadata bytes));
    p ← server_operation_runtime operation;
    awaiting (send_result_drop p.2 p.1 metadata bytes) elsewhere).
