(* ===== verification/FfiApi.v ===== *)
(** Every call of the C interface keeps the handle store well formed, gives out fresh handles, and
    never brings a released handle back ([src/crates/nnrp-ffi/src/lib.rs]). *)

From S2P Require Import Prelude Bytes Errors Enums Wire Header Codes Flow Object Cache Data Schema Control Session RuntimeControl Recovery Packet RuntimeError Async.
From S2P Require Import Event Client Server FfiTypes FfiStore FfiObjects FfiStoreTheory FfiTransport FfiRoles FfiEvents FfiFrames.
Import NnrpFfiHandleStore.

Local Open Scope Z_scope.

(** ** The entries in order *)

Lemma iter_entries s key e : (key, e) ∈ iter s <-> entries s !! key = Some e.
Proof. unfold iter. rewrite merge_sort_Permutation. apply elem_of_map_to_list. Qed.

Lemma find_elem {A} (p : A -> bool) l x : find p l = Some x -> x ∈ l /\ p x = true.
Proof. intros [Hin Hp]%find_some. split; [by apply list_elem_of_In|done]. Qed.

Lemma find_lease_Some owner object_id s h lease :
  find_lease owner object_id s = Some (h, lease) ->
  CacheLease.object_id lease = object_id /\ NnrpHandle.flags h = 0 /\
  entries s !! NnrpHandle.key h =
    Some (NnrpFfiResourceEntry.mk (NnrpHandle.generation h) (NnrpFfiResource.CacheLease owner lease false)).
Proof.
  unfold find_lease. destruct (find _ (iter s)) as [[[k id] [g r]]|] eqn:Hf; cbn; [|done].
  apply find_elem in Hf as [Hin Hp]. apply iter_entries in Hin. cbn in *.
  destruct r; try done. cbn. intros [= <- <-]. cbn in *.
  apply andb_true_iff in Hp as [[Ho Hi]%andb_true_iff Hr]. apply bool_decide_eq_true in Ho, Hi. subst.
  destruct released; [done|]. by split_and!.
Qed.

Lemma find_lease_None owner object_id s key e :
  find_lease owner object_id s = None -> entries s !! key = Some e ->
  is_lease_of owner object_id (NnrpFfiResourceEntry.resource e) = false.
Proof.
  unfold find_lease. destruct (find _ (iter s)) as [[key' e']|] eqn:Hf; cbn.
  - apply find_elem in Hf as [_ Hp]. cbn in Hp. by destruct (NnrpFfiResourceEntry.resource e').
  - intros _ He. apply (find_none _ _ Hf (key, e)). apply list_elem_of_In. by apply iter_entries.
Qed.

Lemma any_false p s key e : any p s = false -> entries s !! key = Some e -> p (NnrpFfiResourceEntry.resource e) = false.
Proof.
  intros Ha He. apply not_true_is_false. intros Hp. apply not_true_iff_false in Ha. apply Ha.
  apply existsb_exists. exists (key, e). split; [|done]. apply list_elem_of_In. by apply iter_entries.
Qed.

(** ** Cache leases *)

Lemma is_lease_of_true owner object_id r :
  is_lease_of owner object_id r = true <->
    exists lease, r = NnrpFfiResource.CacheLease owner lease false /\ CacheLease.object_id lease = object_id.
Proof.
  split.
  - destruct r; try done. cbn. intros [[Ho Hi]%andb_true_iff Hr]%andb_true_iff.
    apply bool_decide_eq_true in Ho, Hi. subst. destruct released; [done|]. eauto.
  - intros (lease & -> & <-). cbn. by rewrite !bool_decide_eq_true_2.
Qed.

Lemma existing_lease_evolves {HD : Discipline} request s owner object_id h lease :
  inv s -> find_lease owner object_id s = Some (h, lease) -> evolves 0 s (existing_lease request h lease s).2.
Proof.
  intros Hs Hf. apply find_lease_Some in Hf as (Hi & _ & He). unfold existing_lease, answer.
  do 2 (case_match; [by apply evolves_refl|]). case_match; [|by apply evolves_refl].
  unfold mbind, method_bind. destruct (get h NnrpHandleKind.CacheLease s) as [old|e|] eqn:Hget;
    [|by apply evolves_refl..]. pose proof Hget as [_ Hold]%get_Ok. rewrite He in Hold. injection Hold as <-.
  match goal with |- context [set_resource h ?k ?r s] => set (m := set_resource h k r s);
    assert (evolves 0 s m.2) as Hm end; [|by destruct m as [[] s1]].
  apply set_resource_evolves; [done|]. intros old Hold. rewrite Hget in Hold. injection Hold as <-.
  split; [done|done|done| |done]. intros o i [l [[= <- <-] Hl]]%is_lease_of_true. apply is_lease_of_true. eauto.
Qed.

(** A lease is granted as a new entry. *)
Definition granted (request : NnrpCacheLeaseRequest.t) (object_id : CacheObjectId.t) (owner_id id : Z) : CacheLease.t := {|
  CacheLease.object_id := object_id;
  CacheLease.object_version := Z.max (NnrpCacheLeaseRequest.expected_version request) 1;
  CacheLease.lease_id := id;
  CacheLease.owner_scope := cache_owner_scope (NnrpHandle.kind (NnrpCacheLeaseRequest.owner request));
  CacheLease.owner_id := owner_id;
  CacheLease.granted_at_ms := NnrpCacheLeaseRequest.now_ms request;
  CacheLease.ttl_ms := Z.max (NnrpCacheLeaseRequest.ttl_ms request) 30000 |}.

Lemma cache_owner_ok {HD : Discipline} owner lease released k :
  cache_owner_handle_kind (NnrpHandle.kind owner) = Ok k -> as_given owner = true ->
  owner_ok (NnrpFfiResource.CacheLease owner lease released) = true.
Proof.
  unfold cache_owner_handle_kind, owner_ok. cbn -[as_given]. intros H ->. rewrite andb_true_r.
  repeat (case_match; try done; simplify_eq/=; rewrite ?orb_true_r; try done).
Qed.

Lemma grant_lease_spec {HD : Discipline} request object_id owner_id k s :
  cache_owner_handle_kind (NnrpHandle.kind (NnrpCacheLeaseRequest.owner request)) = Ok k ->
  as_given (NnrpCacheLeaseRequest.owner request) = true ->
  inv s -> room 1 s -> find_lease (NnrpCacheLeaseRequest.owner request) object_id s = None ->
  let id := next s 7 + 1 in
  let lease := granted request object_id owner_id id in
  exists s', grant_lease request object_id owner_id s =
      (Ok (NnrpFfiStatus.ok, NnrpCacheLeaseResult.from_lease NNRP_CACHE_LEASE_OUTCOME_VALID
             (NnrpHandle.new NnrpHandleKind.CacheLease id 1) lease), s') /\
    evolves 1 s s' /\ (forall key, key <> (7, id) -> entries s' !! key = entries s !! key) /\
    get (NnrpHandle.new NnrpHandleKind.CacheLease id 1) NnrpHandleKind.CacheLease s' =
      Ok (NnrpFfiResource.CacheLease (NnrpCacheLeaseRequest.owner request) lease false).
Proof.
  intros Hk Hgiven Hs Hr Hf id lease.
  set (r := NnrpFfiResource.CacheLease (NnrpCacheLeaseRequest.owner request) lease false).
  destruct (insert_new_evolves NnrpHandleKind.CacheLease 1 r s) as (He & Hother & Hnew); [done|by right| |done|done|].
  { split_and!; [by eapply cache_owner_ok| |done]. intros o i key e [l [[= <- <-] Hl]]%is_lease_of_true He. cbn in Hl. subst i.
    by eapply find_lease_None. }
  destruct Hnew as [Hok Hget]; [done|]. exists (insert_new NnrpHandleKind.CacheLease 1 r s).2.
  split; [|by split_and!].
  set (q := insert (NnrpHandle.new NnrpHandleKind.CacheLease id 1) r (set_next_ids s (<[7 := id]> (next_ids s)))).
  revert Hok. unfold grant_lease, insert_new, mbind, method_bind. rewrite next_handle_id_eq by (done || by right).
  cbv zeta. repeat match goal with |- context [insert ?a ?b ?c] => change (insert a b c) with q end.
  by destruct q as [[] s1].
Qed.

Lemma frugal_cache_query {HD : Discipline} request out :
  as_given (NnrpCacheLeaseRequest.owner request) = true -> frugal 1 (cache_query_impl request out).
Proof.
  intros Hgiven. unfold cache_query_impl. frugal_reading. case_match; [eauto with frugal|].
  destruct (cache_owner_handle_kind _) as [k|e|] eqn:Hk; [|eauto with frugal..].
  apply frugal_bind_reads; [lia|call_reads|intros owner_id _].
  intros s Hs Hr. unfold mbind, method_bind, pure_of. destruct (find_lease _ _ s) as [[h lease]|] eqn:Hf.
  - eapply evolves_weaken; [by eapply existing_lease_evolves|lia].
  - by edestruct grant_lease_spec as (s' & -> & He & _).
Qed.

Lemma frugal_prefetch_loop {HD : Discipline} owner objects now_ms ttl_ms :
  as_given owner = true -> frugal (Z.of_nat (length objects)) (prefetch_loop owner objects now_ms ttl_ms).
Proof.
  intros Hgiven. induction objects as [|object objects IH]; [by apply frugal_reads|].
  intros s Hs Hr. cbn [length] in *. rewrite Nat2Z.inj_succ in *. cbn -[cache_query_impl Z.succ].
  assert (room 1 s) as Hr1 by (intros i; specialize (Hr i); lia).
  pose proof (frugal_cache_query (NnrpCacheLeaseRequest.mk owner object 0 now_ms ttl_ms) Writable Hgiven s Hs Hr1) as Hq.
  destruct (cache_query_impl _ Writable s) as [[[status result]|e|] s1]; cbn [snd] in *; [|by eapply evolves_weaken; [exact Hq|lia]..].
  case_match; [|by eapply evolves_weaken; [exact Hq|lia]].
  assert (evolves (Z.of_nat (length objects)) s1 (prefetch_loop owner objects now_ms ttl_ms s1).2) as Hl.
  { apply IH; [apply Hq|]. eapply room_after; [|exact Hq]. intros i. specialize (Hr i). lia. }
  pose proof (evolves_trans _ _ _ _ _ Hs Hq Hl) as Ht. rewrite Z.add_comm in Ht.
  by destruct (prefetch_loop owner objects now_ms ttl_ms s1) as [[[]|e|] s2].
Qed.

Lemma frugal_cache_release {HD : Discipline} h out : frugal 0 (nnrp_cache_release_impl h out).
Proof.
  unfold nnrp_cache_release_impl. apply frugal_bind_reads; [lia|call_reads|intros [] _].
  intros s Hs _. unfold mbind at 1, method_bind at 1. unfold expect, mbind at 1, method_bind at 1, pure_of.
  destruct (get h NnrpHandleKind.CacheLease s) as [r|e|] eqn:Hget; [|by apply evolves_refl..].
  cbn. destruct (as_lease r) as [[[owner lease] released]|] eqn:Hr; cbn; [|by apply evolves_refl].
  destruct r; try done. injection Hr as -> -> ->.
  assert (evolves 0 s (set_resource h NnrpHandleKind.CacheLease (NnrpFfiResource.CacheLease owner lease true) s).2) as He.
  { apply set_resource_evolves; [done|]. intros old Hold. rewrite Hget in Hold. injection Hold as <-.
    split; [done..| |done]. intros o i (l & [=] & _)%is_lease_of_true. }
  unfold mbind, method_bind. by destruct (set_resource _ _ _ _) as [[] s1].
Qed.

(** ** Sessions, operations and tickets *)

Lemma frugal_awaiting {HD : Discipline} {A} n (future : Poll A) elsewhere : steps n elsewhere -> frugal n (awaiting future elsewhere).
Proof. intros He s Hs Hr. by apply He. Qed.
#[export] Hint Resolve frugal_awaiting : frugal.

Lemma frugal_or_undo {HD : Discipline} {A} n (m : Call A) c : frugal n m -> frugal 0 c -> frugal n (or_undo m c).
Proof.
  intros Hm Hc s Hs Hr. specialize (Hm s Hs Hr). unfold or_undo. destruct (m s) as [[a|e|] s1]; cbn in *; [done| |done].
  replace n with (n + 0) by lia. eapply evolves_trans; [done|exact Hm|]. apply Hc; [apply Hm|].
  eapply room_after; [|exact Hm]. intros i. specialize (Hr i). lia.
Qed.
#[export] Hint Resolve frugal_or_undo : frugal.

Lemma frugal_add_session {HD : Discipline} {A} request cell session_id (pick : NnrpFfiResource.t -> option A) a :
  was_read (expect (NnrpSessionOpenRequest.connection request) NnrpHandleKind.Connection pick) a ->
  as_given (NnrpSessionOpenRequest.connection request) = true -> frugal 0 (add_session request cell session_id).
Proof. intros Hc Hgiven. unfold add_session. cbv zeta. apply frugal_bind_last; intros; eauto with frugal. Qed.
#[export] Hint Resolve frugal_add_session : frugal.

(** A call waits, then changes the store. *)
Lemma frugal_wait_then {HD : Discipline} {A B} n k (future : Poll A) elsewhere (f : A -> Call B) :
  0 <= k -> steps n elsewhere -> (forall a, frugal k (f a)) -> frugal (n + k) (x ← awaiting future elsewhere; f x).
Proof. intros Hk He Hf. apply frugal_bind; [done|by apply frugal_awaiting|done]. Qed.

Section waiting.
Context {HD : Discipline} (n : Z) (elsewhere : t -> t) (Hn : 0 <= n) (Helse : steps n elsewhere).

(** Nothing but an id of [k] of each kind is used after the wait. *)
Ltac wait_then := replace n with (n + 0) by lia; apply frugal_wait_then; [lia|done|intros ?].

Lemma frugal_open_session request out f :
  as_given (NnrpSessionOpenRequest.connection request) = true ->
  frugal n (nnrp_client_open_session request out f elsewhere).
Proof. intros Hgiven. unfold nnrp_client_open_session. frugal_reading. wait_then. eauto with frugal. Qed.

Lemma frugal_resume_session `{Target} open ticket out1 out2 f :
  as_given (NnrpSessionOpenRequest.connection open) = true ->
  frugal n (nnrp_client_resume_session_impl open ticket out1 out2 f elsewhere).
Proof.
  intros Hgiven. unfold nnrp_client_resume_session_impl. frugal_reading. wait_then.
  apply frugal_bind_last; intros; eauto with frugal.
Qed.

Lemma frugal_session_ticket session out1 out2 f :
  frugal (n + 1) (nnrp_client_session_recovery_ticket_impl session out1 out2 f elsewhere).
Proof.
  unfold nnrp_client_session_recovery_ticket_impl. frugal_reading. apply frugal_wait_then; eauto with frugal; lia.
Qed.

Lemma frugal_client_close session f : frugal n (nnrp_client_close session f elsewhere).
Proof. unfold nnrp_client_close. frugal_reading. wait_then. eauto with frugal. Qed.

Lemma frugal_server_close session f : frugal n (nnrp_server_close session f elsewhere).
Proof. unfold nnrp_server_close. frugal_reading. wait_then. eauto with frugal. Qed.

Lemma frugal_client_cancel session frame f : frugal n (nnrp_client_cancel session frame f elsewhere).
Proof. unfold nnrp_client_cancel. solve_frugal. Qed.

Lemma frugal_server_accept server id g out f :
  as_given server = true -> frugal n (nnrp_server_accept server id g out f elsewhere).
Proof.
  intros Hgiven. unfold nnrp_server_accept. frugal_reading. wait_then. cbv zeta. apply frugal_bind_last; intros; eauto with frugal.
Qed.

Lemma frugal_reserve_operation request :
  as_given (NnrpSubmitRequest.session request) = true -> frugal 1 (reserve_operation request).
Proof. intros Hgiven. unfold reserve_operation. frugal_reading. apply frugal_bind_last; intros; eauto with frugal. Qed.

Lemma frugal_submit request out f :
  as_given (NnrpSubmitRequest.session request) = true ->
  frugal (1 + n) (nnrp_client_submit_impl request out f elsewhere).
Proof.
  intros Hgiven. unfold nnrp_client_submit_impl. frugal_reading. apply frugal_bind; [done|by apply frugal_reserve_operation|].
  intros p. apply frugal_bind_last; intros; eauto with frugal.
Qed.

Lemma frugal_accept_wait accept flags : frugal n (nnrp_server_accept_wait accept flags elsewhere).
Proof. unfold nnrp_server_accept_wait. frugal_reading. intros s Hs Hr. by apply Helse. Qed.

(** *** Frames and replies *)

Lemma frugal_polled k (m : Call unit) : frugal k m -> frugal k (polled m).
Proof. intros Hm s Hs Hr. specialize (Hm s Hs Hr). unfold polled. by destruct (m s) as [[[]|e|] s1]. Qed.

Lemma role_session_connection_reads session role s : (role_session_connection session role s).2 = s.
Proof.
  unfold role_session_connection, mbind, method_bind. pose proof (expect_reads session NnrpHandleKind.Session as_connection_of s) as He.
  destruct (expect _ _ _ s) as [[a|e|] s1]; cbn in He; subst s1; [|done..]. unfold pure_of.
  destruct (get_connection_role a s); [|done..]. unfold reject, lift_outcome. by destruct (reject_if _ _).
Qed.

Lemma operation_wire_id_reads operation s : (operation_wire_id operation s).2 = s.
Proof.
  unfold operation_wire_id, mbind, method_bind. pose proof (expect_reads operation NnrpHandleKind.Operation as_operation s) as He.
  by destruct (expect _ _ _ s) as [[a|e|] s1].
Qed.

Lemma server_operation_runtime_reads operation s : (server_operation_runtime operation s).2 = s.
Proof.
  unfold server_operation_runtime, mbind, method_bind.
  pose proof (expect_reads operation NnrpHandleKind.Operation as_server_operation s) as He.
  destruct (expect operation _ _ s) as [[a|e|] s1]; cbn in He; subst s1; [|done..].
  pose proof (expect_reads a.1 NnrpHandleKind.Session as_server_session s) as He.
  destruct (expect a.1 _ _ s) as [[b|e|] s1]; cbn in He; subst s1; [|done..].
  unfold pure_of. destruct (get_connection_role _ s); [|done..]. unfold reject, lift_outcome. by destruct (reject_if _ _).
Qed.

Lemma frugal_send_result operation payload f : frugal n (nnrp_server_send_result_impl operation payload f elsewhere).
Proof.
  unfold nnrp_server_send_result_impl. frugal_reading.
  apply frugal_bind_reads; [lia|apply role_session_connection_reads|intros _ _]. wait_then. eauto with frugal.
Qed.

Lemma frugal_send_partial_result operation p body out f :
  frugal n (nnrp_server_send_partial_result_impl operation p body out f elsewhere).
Proof.
  unfold nnrp_server_send_partial_result_impl. frugal_reading. apply frugal_polled. frugal_reading.
  apply frugal_bind_reads; [lia|apply operation_wire_id_reads|intros ? _]. frugal_reading.
  apply frugal_bind_reads; [lia|apply server_operation_runtime_reads|intros ? _]. eauto with frugal.
Qed.

Lemma frugal_drop_stale_result operation p body out f :
  frugal n (nnrp_server_drop_stale_result_impl operation p body out f elsewhere).
Proof.
  unfold nnrp_server_drop_stale_result_impl. frugal_reading. apply frugal_polled. frugal_reading.
  apply frugal_bind_reads; [lia|apply operation_wire_id_reads|intros ? _]. frugal_reading.
  apply frugal_bind_reads; [lia|apply server_operation_runtime_reads|intros ? _]. eauto with frugal.
Qed.

Lemma frugal_frame_send `{Target} request f g : frugal n (nnrp_runtime_frame_send_impl request f g elsewhere).
Proof.
  unfold nnrp_runtime_frame_send_impl. frugal_reading. unfold nnrp_runtime_frame_send_role_impl. frugal_reading.
  repeat match goal with x : (_ * _ * _ * _)%type |- _ => destruct x as [[[role runtime] op] session] end.
  apply frugal_bind_last.
  - destruct role, runtime; eauto with frugal.
  - intros _. case_match; eauto with frugal.
Qed.
End waiting.

(** ** Tickets *)

Lemma shrinks_tickets s ts : (forall cell, is_Some (tickets s !! cell) -> is_Some (ts !! cell)) -> shrinks s (set_tickets s ts).
Proof. intros H. by split_and!. Qed.

Lemma frugal_claim_ticket {HD : Discipline} runtime : frugal 0 (claim_ticket runtime).
Proof.
  apply frugal_shrinks; [done|]. intros s. unfold claim_ticket.
  destruct (tickets s !! runtime) as [state|] eqn:E; [|done]. destruct (NnrpFfiServerAcceptState.claim state).
  apply shrinks_tickets. intros cell Hc. destruct (decide (cell = runtime)) as [-> |]; [by rewrite lookup_insert_eq|by rewrite lookup_insert_ne].
Qed.

Lemma frugal_accept_claim {HD : Discipline} accept id g reserved0 out cell : frugal 0 (nnrp_server_accept_claim accept id g reserved0 out cell).
Proof.
  unfold nnrp_server_accept_claim. frugal_reading. apply frugal_bind_last; [apply frugal_claim_ticket|intros session].
  cbv zeta. apply frugal_bind_last; [|intros _; apply frugal_bind_last; intros; eauto with frugal].
  apply frugal_insert; [done|cbn; unfold library_kind; lia|done|].
  match goal with H : was_read (expect accept _ _) _ |- _ => apply expect_was_read in H as (_ & r & Hr & Ho) end.
  destruct r; try done. by injection Hr as <-.
Qed.

Lemma frugal_accept_release {HD : Discipline} accept : frugal 0 (nnrp_server_accept_release accept).
Proof.
  apply frugal_shrinks; [done|]. intros s. unfold nnrp_server_accept_release.
  destruct (entries s !! NnrpHandle.key accept) as [e|] eqn:He; [|done]. case_match.
  - case_match; try apply shrinks_delete. etrans; [apply shrinks_delete|apply (shrinks_release_ticket (NnrpFfiResource.ServerAccept _ _))].
  - cbn. rewrite insert_delete_id by done. by split_and!.
Qed.

Lemma ticket_not_library : ~ library_kind (NnrpHandleKind.repr NnrpHandleKind.ServerAccept).
Proof. unfold library_kind. cbn. lia. Qed.

(** A new ticket is the only one of its server, and has a state of its own. *)
Lemma accept_begin_insert_evolves {HD : Discipline} server handle s :
  NnrpHandle.kind server = NnrpHandleKind.repr NnrpHandleKind.Connection -> as_given server = true ->
  inv s -> any (accepts_of server) s = false -> NnrpHandle.kind handle = NnrpHandleKind.repr NnrpHandleKind.ServerAccept ->
  let s1 := (start_ticket s).2 in
  evolves 0 s (insert handle (NnrpFfiResource.ServerAccept server (fresh (dom (tickets s)))) s1).2.
Proof.
  intros Hsv Hgiven Hs Hany Hk s1. set (cell := fresh (dom (tickets s))).
  assert (tickets s !! cell = None) as Hfresh by (apply not_elem_of_dom, is_fresh).
  assert (shrinks s s1) as Hs1.
  { apply shrinks_tickets. intros c Hc. destruct (decide (c = cell)) as [-> |]; [by rewrite lookup_insert_eq|by rewrite lookup_insert_ne]. }
  pose proof (shrinks_evolves s s1 Hs Hs1) as He.
  destruct (insert_evolves handle (NnrpFfiResource.ServerAccept server cell) s1) as (Hi & Hn & Hother); [by apply He|done| | |].
  - split_and!; [unfold owner_ok; cbn -[as_given]; by rewrite Hsv, Hgiven|done|]. intros sv c [= <- <-]. split; [cbn; rewrite lookup_insert_eq; by eexists|].
    intros key e sv' c' Hke Hr. split.
    + intros ->. pose proof (any_false _ _ _ _ Hany Hke) as Hf. rewrite Hr in Hf. cbn in Hf.
      by rewrite bool_decide_eq_true_2 in Hf.
    + intros ->. destruct (inv_ticket s Hs _ _ _ _ Hke Hr) as [? Hq]. congruence.
  - rewrite Hk. by intros ?%ticket_not_library.
  - split; [done|intros k; rewrite Hn; unfold s1, next; cbn; lia|..].
    + intros k id Hl _ Hd. rewrite Hother; [done|]. intros Hq. unfold NnrpHandle.key in Hq. rewrite Hk in Hq.
      injection Hq as -> _. by apply ticket_not_library in Hl.
    + intros k id e e' Hl H1 H2. rewrite Hother in H2; [cbn in H2; by simplify_eq|].
      intros Hq. unfold NnrpHandle.key in Hq. rewrite Hk in Hq. injection Hq as -> _. by apply ticket_not_library in Hl.
Qed.

Lemma frugal_accept_begin {HD : Discipline} server id g reserved0 out :
  as_given server = true -> frugal 0 (nnrp_server_accept_begin server id g reserved0 out).
Proof.
  intros Hgiven. unfold nnrp_server_accept_begin. cbv zeta. apply frugal_bind_reads; [lia|call_reads|intros [] _].
  apply frugal_bind_reads; [lia|call_reads|intros cell [Hsv _]%expect_was_read].
  intros s Hs _. unfold mbind at 1, method_bind at 1.
  destruct (any (accepts_of server) s) eqn:Hany; cbn -[mbind]; [by apply evolves_refl|].
  unfold mbind at 1, method_bind at 1. destruct (is_some _); cbn -[mbind]; [by apply evolves_refl|].
  unfold mbind at 1, method_bind at 1. cbn -[mbind insert].
  pose proof (accept_begin_insert_evolves server (NnrpHandle.new NnrpHandleKind.ServerAccept id g) s Hsv Hgiven Hs Hany eq_refl) as He.
  cbn -[insert] in He. unfold mbind, method_bind. by destruct (insert _ _ _) as [[] ?].
Qed.

(** ** Events *)

Lemma frugal_deliver_lifecycle {HD : Discipline} scope operation b : frugal 0 (deliver_lifecycle scope operation b).
Proof.
  unfold deliver_lifecycle. frugal_reading. case_match.
  - apply frugal_bind_last; intros; eauto with frugal.
  - apply frugal_bind_last; [|intros; eauto with frugal]. apply frugal_shrinks; [done|]. intros s. cbn.
    unfold mark_operation_lifecycle_delivered. by repeat case_match.
Qed.

Lemma frugal_role_lifecycle_event {HD : Discipline} scope connection event : frugal 1 (role_lifecycle_event scope connection event).
Proof.
  unfold role_lifecycle_event. frugal_reading.
  change 1 with (0 + 1). apply frugal_bind; [done|apply frugal_deliver_lifecycle|intros].
  apply frugal_bind_last; intros; eauto with frugal.
Qed.

Lemma frugal_own_payload {HD : Discipline} payload : frugal 1 (own_payload payload).
Proof. unfold own_payload. case_match; eauto with frugal. Qed.
#[export] Hint Resolve frugal_own_payload : frugal.

Lemma frugal_client_role_event {HD : Discipline} scope event : frugal 1 (client_role_event scope event).
Proof.
  unfold client_role_event. apply frugal_bind_reads; [lia|apply role_session_connection_reads|intros connection _].
  destruct event as [event|event]; [|apply frugal_role_lifecycle_event].
  unfold client_runtime_event. cbv zeta. frugal_reading. apply frugal_bind_last; [eauto with frugal|intros owned].
  apply frugal_bind_last; [case_match; eauto with frugal|intros; eauto with frugal].
Qed.

Lemma frugal_server_operation_handle {HD : Discipline} scope event op payload :
  NnrpHandle.kind scope = NnrpHandleKind.repr NnrpHandleKind.Session -> as_given scope = true ->
  frugal 1 (server_operation_handle scope event op payload).
Proof.
  intros Hscope Hgiven. unfold server_operation_handle. cbv zeta. case_match; [|eauto with frugal].
  destruct (event_operation_id event) as [operation_id|].
  - change (frugal 1 (insert_new NnrpHandleKind.Operation (NnrpHandle.generation scope)
      (NnrpFfiResource.Operation scope operation_id (RuntimeFrameHeader.frame_id (NnrpRuntimeEvent.header event)) (len payload) op))).
    eauto with frugal.
  - intros s Hs Hr. unfold mbind, method_bind. rewrite next_handle_id_eq; [|done|done|by left]. by apply evolves_counter.
Qed.

Lemma frugal_server_role_event {HD : Discipline} scope connection event :
  NnrpHandle.kind scope = NnrpHandleKind.repr NnrpHandleKind.Session -> as_given scope = true ->
  frugal 2 (server_role_event scope connection event).
Proof.
  intros Hscope Hgiven. assert (forall e op, frugal 2 (server_runtime_event scope connection e op)) as Hr.
  { intros e op. unfold server_runtime_event. cbv zeta. frugal_reading.
    change 2 with (1 + 1). apply frugal_bind; [done|by apply frugal_server_operation_handle|intros operation].
    apply frugal_bind_last; [|intros; eauto with frugal]. apply frugal_or_undo; [eauto with frugal|].
    case_match; [|eauto with frugal]. apply frugal_shrinks; [done|]. intros s. apply shrinks_remove_entries. }
  destruct event; [apply Hr..|]. eapply frugal_weaken; [apply frugal_role_lifecycle_event|done].
Qed.

(** A batch: each turn waits, and then makes an event. *)
Lemma frugal_await_events {HD : Discipline} {A} (role_event : A -> Call NnrpEvent.t) n k limit first (awaits : list (Await A)) :
  0 <= n -> 0 <= k -> (forall event, frugal k (role_event event)) ->
  (forall i a, awaits !! i = Some a -> steps n a.2) ->
  frugal (Z.of_nat limit * (n + k)) (await_events role_event limit first awaits).
Proof.
  intros Hn Hk Hev. revert first awaits. induction limit as [|limit IH]; intros first awaits Ha; [by apply frugal_reads|].
  intros s Hs Hr. replace (Z.of_nat (S limit) * (n + k)) with (n + (k + Z.of_nat limit * (n + k))) in * by lia.
  cbn -[Z.mul Z.add]. destruct (default (Pending, id) (head awaits)) as [future elsewhere] eqn:Hd.
  assert (evolves n s (elsewhere s)) as He.
  { destruct awaits as [|[f e] awaits]; cbn in Hd; injection Hd as <- <-; [by apply evolves_refl|].
    apply (Ha O (f, e)); [done..|]. intros i. specialize (Hr i). pose proof (Z.mul_nonneg_nonneg (Z.of_nat limit) (n + k)). lia. }
  set (s1 := elsewhere s) in *. assert (room (k + Z.of_nat limit * (n + k)) s1) as Hr1 by (by eapply room_after).
  pose proof (Z.mul_nonneg_nonneg (Z.of_nat limit) (n + k)) as Hmul.
  destruct (run_async future) as [event|status|]; cbn [snd]; [|eapply evolves_weaken; [exact He|lia]..].
  assert (evolves k s1 (role_event event s1).2) as He2 by (apply Hev; [apply He|intros i; specialize (Hr1 i); lia]).
  destruct (role_event event s1) as [[ev|status|] s2]; cbn [snd] in *;
    [|eapply evolves_weaken; [eapply evolves_trans; [exact Hs|exact He|exact He2]|lia]..].
  assert (evolves (Z.of_nat limit * (n + k)) s2 (await_events role_event limit false (tail awaits) s2).2) as He3.
  { apply IH; [|apply He2|by eapply room_after]. intros i a Hi. apply (Ha (S i)). by destruct awaits. }
  pose proof (evolves_trans _ _ _ _ _ Hs He (evolves_trans _ _ _ _ _ (evolves_inv _ _ _ He) He2 He3)) as Ht.
  by destruct (await_events role_event limit false (tail awaits) s2) as [[[]|e|] s3].
Qed.

(** The most events that a call returns. *)
Definition event_limit (request : NnrpRoleEventPollRequest.t) (event_capacity : Z) : Z :=
  let requested := if NnrpRoleEventPollRequest.max_events request =? 0 then 16
                   else NnrpRoleEventPollRequest.max_events request in
  Z.of_nat (Z.to_nat (Z.min requested event_capacity)).

Lemma validate_role_event_poll_Ok request o1 capacity o2 limit :
  validate_role_event_poll request o1 capacity o2 = Ok limit -> Z.of_nat (Z.to_nat limit) = event_limit request capacity.
Proof.
  unfold validate_role_event_poll. intros ([] & _ & ([] & _ & ([] & _ & [= <-])%bind_Ok)%bind_Ok)%bind_Ok. done.
Qed.

Lemma frugal_client_await_events {HD : Discipline} n request o1 capacity o2 awaits :
  0 <= n -> (forall cell i a, awaits cell !! i = Some a -> steps n a.2) ->
  frugal (event_limit request capacity * (n + 1)) (role_client_await_events_impl request o1 capacity o2 awaits).
Proof.
  intros Hn Ha. unfold role_client_await_events_impl.
  apply frugal_bind_reads; [unfold event_limit; lia|call_reads|intros limit (s & _ & Hl)].
  apply validate_role_event_poll_Ok in Hl as <-. frugal_reading.
  apply frugal_await_events; [done|done|apply frugal_client_role_event|apply Ha].
Qed.

Lemma frugal_server_await_events {HD : Discipline} n request o1 capacity o2 awaits :
  as_given (NnrpRoleEventPollRequest.scope request) = true ->
  0 <= n -> (forall cell i a, awaits cell !! i = Some a -> steps n a.2) ->
  frugal (event_limit request capacity * (n + 2)) (role_server_await_events_impl request o1 capacity o2 awaits).
Proof.
  intros Hgiven Hn Ha. unfold role_server_await_events_impl. cbv zeta.
  apply frugal_bind_reads; [unfold event_limit; lia|call_reads|intros limit (s & _ & Hl)].
  apply validate_role_event_poll_Ok in Hl as <-.
  apply frugal_bind_reads; [lia|call_reads|intros session [Hscope _]%expect_was_read].
  apply frugal_bind_reads; [lia|apply role_session_connection_reads|intros connection _].
  apply frugal_await_events; [done|done|intros event; by apply frugal_server_role_event|apply Ha].
Qed.

(** ** Opening connections *)

(** The part of [add_connection] that is seen in the handle store. *)
Definition open_connection (id g transport_id : Z) (role : NnrpFfiConnectionRole.t) (runtime : NnrpFfiRuntime.t)
    (consumed : FF unit) : Call unit :=
  let handle := NnrpHandle.new NnrpHandleKind.Connection id g in
  _ ← insert handle (NnrpFfiResource.Connection transport_id role runtime);
  or_undo (lift_outcome consumed) (remove handle NnrpHandleKind.Connection).

Lemma add_connection_handles id g transport_id role runtime consume self :
  Library.handles (add_connection (NnrpHandle.new NnrpHandleKind.Connection id g)
      (NnrpFfiResource.Connection transport_id role runtime) consume self).2 =
    (open_connection id g transport_id role runtime (consume (Library.transports self)).1 (Library.handles self)).2.
Proof.
  unfold add_connection, open_connection, or_undo, Library.on_handles, Library.on_transports, mbind, method_bind, lift_outcome.
  destruct (insert _ _ _) as [[[]|e|] h]; cbn; [|done..].
  destruct (consume (Library.transports self)) as [[[]|e|] tr]; cbn; [done| |done].
  by destruct (remove _ _ h).
Qed.

Lemma frugal_open_connection {HD : Discipline} id g transport_id role runtime consumed :
  frugal 0 (open_connection id g transport_id role runtime consumed).
Proof. unfold open_connection. cbv zeta. apply frugal_bind_last; intros; eauto with frugal. Qed.

(** ** Runs of the interface

    [api n f]: the calls of C, in any order and with any interleaving at the points where they wait
    for the runtime, can take the store from [s] to [f s], giving out at most [n] ids of a kind.  The
    handles that a call makes the owner of a new entry are passed as the discipline of C says. *)

Definition effect {A} (m : Call A) : t -> t := fun s => (m s).2.

Inductive api {HD : Discipline} : Z -> (t -> t) -> Prop :=
| api_none : api 0 (fun s => s)
| api_then n m f g : api n f -> api m g -> api (n + m) (fun s => g (f s))
| api_invalidate_all : api 0 invalidate_all
| api_buffer_acquire_copy source o1 o2 : api 1 (effect (nnrp_buffer_acquire_copy_impl source o1 o2))
| api_buffer_release h : api 0 (effect (nnrp_buffer_release_impl h))
| api_object_create d m o : api 1 (effect (nnrp_object_descriptor_create_impl d m o))
| api_object_snapshot h o1 o2 : api 1 (effect (nnrp_object_descriptor_metadata_snapshot_impl h o1 o2))
| api_object_release h : api 0 (effect (nnrp_object_descriptor_release_impl h))
| api_reference_create d m o : api 1 (effect (nnrp_cache_reference_descriptor_create_impl d m o))
| api_reference_snapshot h o1 o2 : api 1 (effect (nnrp_cache_reference_descriptor_metadata_snapshot_impl h o1 o2))
| api_reference_release h : api 0 (effect (nnrp_cache_reference_descriptor_release_impl h))
| api_registry_create o : api 1 (effect (nnrp_schema_registry_create_impl o))
| api_registry_install h d o : api 0 (effect (nnrp_schema_registry_install_impl h d o))
| api_registry_invalidate h i v o : api 0 (effect (nnrp_schema_registry_invalidate_impl h i v o))
| api_registry_release h : api 0 (effect (nnrp_schema_registry_release_impl h))
| api_cache_query r o : as_given (NnrpCacheLeaseRequest.owner r) = true -> api 1 (effect (cache_query_impl r o))
| api_cache_touch r o : as_given (NnrpCacheLeaseRequest.owner r) = true -> api 1 (effect (nnrp_cache_touch_impl r o))
| api_cache_prefetch owner l now ttl : as_given owner = true ->
    api (Z.of_nat (length l)) (effect (prefetch_loop owner l now ttl))
| api_cache_release h o : api 0 (effect (nnrp_cache_release_impl h o))
| api_open_connection id g transport_id role runtime consumed :
    api 0 (effect (open_connection id g transport_id role runtime consumed))
| api_close_connection h : api 0 (effect (nnrp_client_close_connection h))
| api_open_session n e r o f : as_given (NnrpSessionOpenRequest.connection r) = true -> api n e ->
    api n (effect (nnrp_client_open_session r o f e))
| api_resume_session (T : Target) n e r v o1 o2 f : as_given (NnrpSessionOpenRequest.connection r) = true ->
    api n e -> api n (effect (nnrp_client_resume_session_impl r v o1 o2 f e))
| api_session_ticket n e h o1 o2 f : api n e -> api (n + 1) (effect (nnrp_client_session_recovery_ticket_impl h o1 o2 f e))
| api_submit n e r o f : as_given (NnrpSubmitRequest.session r) = true -> api n e ->
    api (1 + n) (effect (nnrp_client_submit_impl r o f e))
| api_client_close n e h f : api n e -> api n (effect (nnrp_client_close h f e))
| api_server_close n e h f : api n e -> api n (effect (nnrp_server_close h f e))
| api_cancel n e h i f : api n e -> api n (effect (nnrp_client_cancel h i f e))
| api_accept_begin h i g r o : as_given h = true -> api 0 (effect (nnrp_server_accept_begin h i g r o))
| api_accept_done cell outcome :
    api 0 (fun s => set_tickets s (alter (NnrpFfiServerAcceptState.complete outcome) cell (tickets s)))
| api_accept_wait n e h flags : api n e -> api n (effect (nnrp_server_accept_wait h flags e))
| api_accept_claim h i g r o cell : api 0 (effect (nnrp_server_accept_claim h i g r o cell))
| api_accept_release h : api 0 (effect (nnrp_server_accept_release h))
| api_accept n e h i g o f : as_given h = true -> api n e -> api n (effect (nnrp_server_accept h i g o f e))
| api_client_events n r o1 capacity o2 awaits : 0 <= n -> (forall cell i a, awaits cell !! i = Some a -> api n a.2) ->
    api (event_limit r capacity * (n + 1)) (effect (role_client_await_events_impl r o1 capacity o2 awaits))
| api_server_events n r o1 capacity o2 awaits : as_given (NnrpRoleEventPollRequest.scope r) = true -> 0 <= n -> (forall cell i a, awaits cell !! i = Some a -> api n a.2) ->
    api (event_limit r capacity * (n + 2)) (effect (role_server_await_events_impl r o1 capacity o2 awaits))
| api_frame_send (T : Target) n e r f g : api n e -> api n (effect (nnrp_runtime_frame_send_impl r f g e))
| api_send_result n e h p f : api n e -> api n (effect (nnrp_server_send_result_impl h p f e))
| api_send_partial_result n e h p v o f : api n e -> api n (effect (nnrp_server_send_partial_result_impl h p v o f e))
| api_drop_stale_result n e h p v o f : api n e -> api n (effect (nnrp_server_drop_stale_result_impl h p v o f e)).

Lemma frugal_steps {HD : Discipline} {A} n (m : Call A) : frugal n m -> steps n (effect m).
Proof. done. Qed.

Lemma steps_then {HD : Discipline} n m f g : 0 <= m -> steps n f -> steps m g -> steps (n + m) (fun s => g (f s)).
Proof.
  intros Hm Hf Hg s Hs Hr. assert (evolves n s (f s)) as Hfs by (apply Hf; [done|intros i; specialize (Hr i); lia]).
  eapply evolves_trans; [done|exact Hfs|]. apply Hg; [apply Hfs|by eapply room_after].
Qed.

Lemma steps_accept_done {HD : Discipline} cell outcome :
  steps 0 (fun s => set_tickets s (alter (NnrpFfiServerAcceptState.complete outcome) cell (tickets s))).
Proof.
  intros s Hs _. apply shrinks_evolves; [done|]. apply shrinks_tickets. intros c Hc.
  destruct (decide (c = cell)) as [-> |]; [rewrite lookup_alter_eq; by apply fmap_is_Some|by rewrite lookup_alter_ne].
Qed.

Create HintDb api_calls.
#[export] Hint Resolve frugal_cache_query frugal_prefetch_loop frugal_cache_release frugal_open_session
  frugal_resume_session frugal_session_ticket frugal_client_close frugal_server_close frugal_client_cancel
  frugal_server_accept frugal_submit frugal_accept_wait frugal_send_result frugal_send_partial_result
  frugal_drop_stale_result frugal_frame_send frugal_accept_claim frugal_accept_release frugal_accept_begin
  frugal_client_await_events frugal_server_await_events frugal_open_connection : api_calls.

Ltac waiting_call :=
  apply frugal_steps; try (match goal with IH : 0 <= _ /\ steps _ _ |- _ => destruct IH end); solve [auto with api_calls].

Lemma api_steps {HD : Discipline} n f : api n f -> 0 <= n /\ steps n f.
Proof.
  induction 1; (split; [unfold event_limit; lia|]); try waiting_call.
  - intros s Hs _. by apply evolves_refl.
  - destruct IHapi1, IHapi2. by apply steps_then.
  - intros s Hs _. apply shrinks_evolves; [done|apply shrinks_invalidate_all].
  - apply frugal_steps. unfold nnrp_buffer_acquire_copy_impl. solve_frugal.
  - apply frugal_steps. apply frugal_release_checked.
  - apply frugal_steps. unfold nnrp_object_descriptor_create_impl. solve_frugal.
  - apply frugal_steps. unfold nnrp_object_descriptor_metadata_snapshot_impl. solve_frugal.
  - apply frugal_steps. apply frugal_release_checked.
  - apply frugal_steps. unfold nnrp_cache_reference_descriptor_create_impl. solve_frugal.
  - apply frugal_steps. unfold nnrp_cache_reference_descriptor_metadata_snapshot_impl. solve_frugal.
  - apply frugal_steps. apply frugal_release_checked.
  - apply frugal_steps. unfold nnrp_schema_registry_create_impl. solve_frugal.
  - apply frugal_steps. unfold nnrp_schema_registry_install_impl. frugal_reading.
    apply frugal_bind_last; intros; eauto with frugal.
  - apply frugal_steps. unfold nnrp_schema_registry_invalidate_impl. frugal_reading.
    apply frugal_bind_last; intros; eauto with frugal.
  - apply frugal_steps. unfold nnrp_schema_registry_release_impl. eauto with frugal.
  - apply frugal_steps. unfold nnrp_cache_touch_impl. frugal_reading. auto with api_calls.
  - apply frugal_steps. unfold nnrp_client_close_connection. eauto with frugal.
  - apply steps_accept_done.
  - apply frugal_steps, frugal_client_await_events; [done|]. intros cell i a Hi. by destruct (H1 cell i a Hi).
  - apply frugal_steps, frugal_server_await_events; [done|done|]. intros cell i a Hi. by destruct (H2 cell i a Hi).
Qed.

Lemma room_initial n : n < modulus 8 -> room n initial.
Proof. intros Hn k. unfold next. cbn. rewrite lookup_empty. cbn. lia. Qed.

(** A handle that does not resolve. *)
Definition dead (h : NnrpHandle.t) (k : NnrpHandleKind.t) (s : t) : Prop := forall r, get h k s <> Ok r.

Lemma dead_handle_evolves {HD : Discipline} n s s' h k :
  evolves n s s' -> library_kind (NnrpHandleKind.repr k) -> NnrpHandle.id h <= next s (NnrpHandleKind.repr k) ->
  dead h k s -> dead h k s'.
Proof.
  intros He Hl Hid Hd r [Hv Hr]%get_Ok. pose proof Hv as (Hk & _ & _)%validate_kind_Ok.
  unfold NnrpHandle.key in Hr. rewrite Hk in Hr.
  destruct (entries s !! (NnrpHandleKind.repr k, NnrpHandle.id h)) as [[g0 r0]|] eqn:E.
  - destruct (evolves_memory _ _ _ He _ _ _ _ Hl E Hr) as [_ Hg]. cbn in Hg. subst g0.
    apply (Hd r0), get_Ok. split; [done|]. unfold NnrpHandle.key. by rewrite Hk.
  - by rewrite (evolves_dead _ _ _ He _ _ Hl Hid E) in Hr.
Qed.

Lemma view_evolves {HD : Discipline} n s s' h k r r' bs :
  evolves n s s' -> library_kind (NnrpHandleKind.repr k) -> get h k s = Ok r -> get h k s' = Ok r' ->
  NnrpFfiResource.memory r = Some bs -> ffi_read_slice (view_of h bs) s' = Ok bs.
Proof.
  intros He Hl [Hv Hr]%get_Ok [_ Hr']%get_Ok Hm. pose proof Hv as (Hk & _ & _)%validate_kind_Ok.
  unfold ffi_read_slice, view_of. cbn. destruct (Z.eqb_spec (len bs) 0) as [H0|].
  { unfold len in H0. by destruct bs. }
  rewrite Hr'. cbn. unfold NnrpHandle.key in *. rewrite Hk in *.
  destruct (evolves_memory _ _ _ He _ _ _ _ Hl Hr Hr') as [Hmem _]. cbn in Hmem. rewrite Hmem, Hm, Z.leb_refl.
  unfold len. by rewrite Nat2Z.id, firstn_all.
Qed.

(** A caller who passes the handles as they were given. *)
Definition tidy_caller : Discipline := true.

(** Two handles of the same thing: they resolve alike, whatever their flags. *)
Definition same (h1 h2 : NnrpHandle.t) : Prop := NnrpHandle.normalized h1 = NnrpHandle.normalized h2.

Lemma same_resolves h1 h2 k s : same h1 h2 -> get h1 k s = get h2 k s.
Proof. destruct h1, h2. by intros [= -> -> ->]. Qed.

Lemma as_given_same h1 h2 :
  as_given (HD := tidy_caller) h1 = true -> as_given (HD := tidy_caller) h2 = true -> same h1 h2 -> h1 = h2.
Proof. destruct h1, h2. intros H1%Z.eqb_eq H2%Z.eqb_eq [= -> -> ->]. cbn in *. by subst. Qed.

Lemma owner_given {HD : Discipline} r o : owner_ok r = true -> NnrpFfiResource.owner r = Some o -> as_given o = true.
Proof. unfold owner_ok. intros H Ho. rewrite Ho in H. by apply andb_true_iff in H as [_ ?]. Qed.

(** A well-formed store. *)
Record well_formed (s : t) : Prop := {
  wf_entry k id e : entries s !! (k, id) = Some e ->
    k = NnrpHandleKind.repr (NnrpFfiResource.kind (NnrpFfiResourceEntry.resource e)) /\
    id <> 0 /\ NnrpFfiResourceEntry.generation e <> 0 /\ (library_kind k -> 1 <= id <= next s k);
  wf_lease key1 key2 e1 e2 owner1 owner2 lease1 lease2 :
    entries s !! key1 = Some e1 -> entries s !! key2 = Some e2 ->
    NnrpFfiResourceEntry.resource e1 = NnrpFfiResource.CacheLease owner1 lease1 false ->
    NnrpFfiResourceEntry.resource e2 = NnrpFfiResource.CacheLease owner2 lease2 false ->
    same owner1 owner2 -> CacheLease.object_id lease1 = CacheLease.object_id lease2 -> key1 = key2;
  wf_server key1 key2 e1 e2 server1 server2 cell1 cell2 :
    entries s !! key1 = Some e1 -> entries s !! key2 = Some e2 ->
    NnrpFfiResourceEntry.resource e1 = NnrpFfiResource.ServerAccept server1 cell1 ->
    NnrpFfiResourceEntry.resource e2 = NnrpFfiResource.ServerAccept server2 cell2 ->
    same server1 server2 -> key1 = key2;
  wf_cell key1 key2 e1 e2 server1 server2 cell :
    entries s !! key1 = Some e1 -> entries s !! key2 = Some e2 ->
    NnrpFfiResourceEntry.resource e1 = NnrpFfiResource.ServerAccept server1 cell ->
    NnrpFfiResourceEntry.resource e2 = NnrpFfiResource.ServerAccept server2 cell -> key1 = key2;
  wf_ticket key e server cell : entries s !! key = Some e ->
    NnrpFfiResourceEntry.resource e = NnrpFfiResource.ServerAccept server cell -> is_Some (tickets s !! cell)
}.

Lemma inv_well_formed s : inv (HD := tidy_caller) s -> well_formed s.
Proof.
  intros Hs.
  assert (forall key e o, entries s !! key = Some e -> NnrpFfiResource.owner (NnrpFfiResourceEntry.resource e) = Some o ->
    as_given (HD := tidy_caller) o = true) as Hgiven.
  { intros key e o He Ho. apply (owner_given (HD := tidy_caller) (NnrpFfiResourceEntry.resource e)); [|done].
    by apply (inv_owner s Hs key). }
  split; [apply Hs|..|apply Hs|apply Hs].
  - intros * H1 H2 R1 R2 Hsame Hobj.
    assert (owner1 = owner2) as <-
      by (apply as_given_same; [by eapply Hgiven; [|rewrite R1]|by eapply Hgiven; [|rewrite R2]|done]).
    eapply (inv_lease s Hs _ _ _ _ owner1 (CacheLease.object_id lease1) H1 H2); rewrite ?R1, ?R2; apply is_lease_of_true; eauto.
  - intros * H1 H2 R1 R2 Hsame.
    assert (server1 = server2) as <-
      by (apply as_given_same; [by eapply Hgiven; [|rewrite R1]|by eapply Hgiven; [|rewrite R2]|done]).
    by eapply (inv_server s Hs).
Qed.

(** C26: in every store that calls of the C interface reach, whatever they are and however they
    interleave, when C passes handles as it got them: an entry is stored under the kind of its
    resource, its id and its generation are not zero, and the library has given its id out if it gives
    out ids of this kind; an owner has at most one lease on an object that is not released, a server
    has at most one accept ticket, and each ticket has a state of its own.  (Fewer than 2{^64} ids are
    given out.  The library resolves a handle whatever its flags but compares owners with them: a
    caller who changes the flags gets a second ticket for a server, [flags_split_server].) *)
Theorem ffi_store_invariant (n : Z) (f : t -> t) :
  n < modulus 8 -> api (HD := tidy_caller) n f -> well_formed (f initial).
Proof.
  intros Hn [_ Hf]%api_steps. apply inv_well_formed, Hf; [apply inv_initial|by apply room_initial].
Qed.

(** The server of both tickets resolves to the same connection. *)
Example flags_split_server :
  let server := NnrpHandle.new NnrpHandleKind.Connection 4 1 in
  let flagged := NnrpHandle.mk (NnrpHandle.kind server) 4 1 1 in
  let bind := effect (open_connection 4 1 2 NnrpFfiConnectionRole.Server (NnrpFfiRuntime.Server O) (Ok tt)) in
  let begin h id := effect (nnrp_server_accept_begin h id 1 0 Writable) in
  let s := begin flagged 10 (begin server 9 (bind initial)) in
  same server flagged /\
  NnrpFfiResourceEntry.resource <$> entries s !! (13, 9) = Some (NnrpFfiResource.ServerAccept server 0) /\
  NnrpFfiResourceEntry.resource <$> entries s !! (13, 10) = Some (NnrpFfiResource.ServerAccept flagged 1).
Proof. vm_compute. done. Qed.

(** C14: the handles that the library gives out, as long as fewer than 2{^64} ids of a kind are
    given out.  After any calls, [f], and any later calls, [g]: a new resource of a kind whose ids
    the library gives out gets an id that was never given out, under which it is found; a handle of
    the library that does not resolve after [f], because it was released or its owner was closed, does
    not resolve after [g]; and while a buffer or a descriptor that is there after [f] is not
    released, the view of its bytes reads the same bytes after [g]. *)
Theorem ffi_handles_final {HD : Discipline} (n m : Z) (f g : t -> t) :
  n + m + 1 < modulus 8 -> api n f -> api m g ->
  let s := f initial in
  let s' := g s in
  (forall k generation r, NnrpFfiResource.kind r = k -> library_kind (NnrpHandleKind.repr k) -> plain r = true ->
     owner_ok r = true -> generation <> 0 -> exists h s1, insert_new k generation r s = (Ok h, s1) /\ get h k s1 = Ok r /\
       next s (NnrpHandleKind.repr k) < NnrpHandle.id h <= next s1 (NnrpHandleKind.repr k)) /\
  (forall h k, library_kind (NnrpHandleKind.repr k) -> NnrpHandle.id h <= next s (NnrpHandleKind.repr k) ->
     dead h k s -> dead h k s') /\
  (forall h k r r' bs, library_kind (NnrpHandleKind.repr k) -> get h k s = Ok r -> get h k s' = Ok r' ->
     NnrpFfiResource.memory r = Some bs -> ffi_read_slice (view_of h bs) s' = Ok bs).
Proof.
  intros Hnm [Hn Hf]%api_steps [Hm Hg]%api_steps s s'.
  assert (evolves n initial s) as Hs by (apply Hf; [apply inv_initial|apply room_initial; lia]).
  assert (room (m + 1) s) as Hr by (eapply room_after; [|exact Hs]; apply room_initial; lia).
  assert (evolves m s s') as Hs' by (apply Hg; [apply Hs|intros k; specialize (Hr k); lia]).
  split_and!.
  - intros k generation r Hk Hl Hp Ho Hgen.
    destruct (insert_new_evolves k generation r s) as (He & _ & Hnew);
      [done|done|by apply plain_admissible|apply Hs|intros i; specialize (Hr i); lia|].
    destruct (Hnew Hgen) as [Hok Hget]. do 2 eexists. split; [by rewrite (surjective_pairing (insert_new _ _ _ _)), Hok|].
    split; [exact Hget|]. cbn. split; [lia|].
    apply get_Ok in Hget as [_ Hget]. apply (inv_entry _ (evolves_inv _ _ _ He)) in Hget as (_ & _ & _ & Hb).
    by apply Hb.
  - intros h k Hl Hid. by apply (dead_handle_evolves m).
  - intros h k r r' bs Hl. by apply (view_evolves m).
Qed.

(** A client connects and asks twice for a lease on an object: it has one lease. *)
Lemma ffi_store_invariant_witness :
  let connection := NnrpHandle.new NnrpHandleKind.Connection 1 1 in
  let request := NnrpCacheLeaseRequest.mk connection (NnrpCacheObjectId.mk 1 1 2 3) 0 1000 0 in
  let connect := effect (open_connection 1 1 2 NnrpFfiConnectionRole.Client (NnrpFfiRuntime.Client O) (Ok tt)) in
  let query := effect (cache_query_impl request Writable) in
  let s := query (query (connect initial)) in
  well_formed s /\ size (entries s) = 2%nat /\
  is_some (find_lease connection (CacheObjectId.mk 1 2 3 CacheObjectKind.CameraBlock) s) = true.
Proof.
  intros connection request connect query s. split.
  - apply (ffi_store_invariant (0 + (1 + 1)) (fun s => query (query (connect s)))); [by vm_compute|].
    apply (api_then 0 (1 + 1) connect (fun s => query (query s))); [apply api_open_connection|].
    by apply (api_then 1 1 query query); apply api_cache_query.
  - by vm_compute.
Defined.

(** A buffer is acquired and released; a second one does not bring its handle back. *)
Lemma ffi_handles_final_witness :
  let source := NnrpBufferView.mk (Pointer.Host [x01; x02; x03]) 3 in
  let acquire := effect (nnrp_buffer_acquire_copy_impl source Writable Writable) in
  let h := NnrpHandle.new NnrpHandleKind.Buffer 1 1 in
  let release := effect (nnrp_buffer_release_impl h) in
  let s := release (acquire initial) in
  get h NnrpHandleKind.Buffer (acquire initial) = Ok (NnrpFfiResource.Buffer [x01; x02; x03]) /\
  dead h NnrpHandleKind.Buffer (acquire s) /\
  ffi_read_slice (view_of (NnrpHandle.new NnrpHandleKind.Buffer 2 1) [x01; x02; x03]) (acquire (acquire s)) =
    Ok [x01; x02; x03].
Proof.
  intros source acquire h release s.
  assert (api (HD := false) (1 + 0) (fun s => release (acquire s))) as Hf
    by (apply (api_then 1 0); [apply api_buffer_acquire_copy|apply api_buffer_release]).
  assert (api (HD := false) 1 acquire) as Hg by apply api_buffer_acquire_copy. split; [by vm_compute|]. split.
  - destruct (ffi_handles_final (HD := false) (1 + 0) 1 _ acquire ltac:(by vm_compute) Hf Hg) as (_ & Hdead & _).
    apply Hdead; [by right|by vm_compute|]. intros r. vm_compute. discriminate.
  - destruct (ffi_handles_final (HD := false) (1 + 0 + 1) 1 _ acquire ltac:(by vm_compute) (api_then _ _ _ _ Hf Hg) Hg) as (_ & _ & Hview).
    apply (Hview (NnrpHandle.new NnrpHandleKind.Buffer 2 1) NnrpHandleKind.Buffer (NnrpFfiResource.Buffer [x01; x02; x03])
      (NnrpFfiResource.Buffer [x01; x02; x03])); [by right|by vm_compute..].
Defined.
