(* ===== verification/FfiOwnership.v ===== *)
(** What goes with what in the handle store ([src/crates/nnrp-ffi/src/lib.rs]): closing a
    connection or a session removes what it owns and nothing else; the handle of an operation of a
    server lives until its last reply and its lifecycle event; a cache lease lives until it is
    released. *)

From S2P Require Import Prelude Bytes Errors Enums Wire Header Codes Flow Object Cache Data Schema Control Session RuntimeControl Recovery Packet RuntimeError Async.
From S2P Require Import Event Client Server FfiTypes FfiStore FfiObjects FfiStoreTheory FfiTransport FfiRoles FfiEvents FfiFrames FfiApi.
Import NnrpFfiHandleStore.

Local Open Scope Z_scope.

Abbreviation resource_of := NnrpFfiResourceEntry.resource.

(** ** Ownership *)

(** The entries that belong to what a handle stands for, at any distance. *)
Inductive owned (s : t) (h : NnrpHandle.t) : Z * Z -> Prop :=
| owned_entry key e o : entries s !! key = Some e -> NnrpFfiResource.owner (resource_of e) = Some o -> same o h ->
    owned s h key
| owned_through key' e' key e o : owned s h key' -> entries s !! key' = Some e' -> entries s !! key = Some e ->
    NnrpFfiResource.owner (resource_of e) = Some o -> same o (handle_of (key', e')) -> owned s h key.

Lemma handles_where_elem p s h :
  h ∈ handles_where p s <-> exists key e, entries s !! key = Some e /\ p (resource_of e) = true /\ h = handle_of (key, e).
Proof.
  unfold handles_where. rewrite list_elem_of_fmap. split.
  - intros ([key e] & -> & Hin). apply list_elem_of_In, filter_In in Hin as [Hin Hp]. cbn in Hp.
    apply list_elem_of_In, iter_entries in Hin. eauto.
  - intros (key & e & He & Hp & ->). exists (key, e). split; [done|]. apply list_elem_of_In, filter_In.
    split; [|done]. apply list_elem_of_In. by apply iter_entries.
Qed.

Lemma key_handle_of key e : NnrpHandle.key (handle_of (key, e)) = key.
Proof. by destruct key. Qed.

Lemma handles_where_key p s key e :
  entries s !! key = Some e -> (key ∈ NnrpHandle.key <$> handles_where p s <-> p (resource_of e) = true).
Proof.
  intros He. rewrite list_elem_of_fmap. split.
  - intros (h & -> & (key' & e' & He' & Hp & ->)%handles_where_elem). rewrite key_handle_of in He. by simplify_eq.
  - intros Hp. exists (handle_of (key, e)). rewrite key_handle_of. split; [done|]. apply handles_where_elem. eauto.
Qed.

(** ** Removing several entries *)

Lemma delete_all_lookup (hs : list NnrpHandle.t) (es : Entries) (key : Z * Z) (e : NnrpFfiResourceEntry.t) :
  foldl (fun es h => delete (NnrpHandle.key h) es) es hs !! key = Some e <->
    es !! key = Some e /\ key ∉ NnrpHandle.key <$> hs.
Proof.
  revert es. induction hs as [|h hs IH]; intros es; cbn; [by rewrite elem_of_nil; naive_solver|].
  rewrite IH, elem_of_cons, lookup_delete_Some. naive_solver.
Qed.

(** One ticket. *)
Definition remove_accept (h : NnrpHandle.t) (s : t) : t :=
  match entries s !! NnrpHandle.key h with
  | Some e => release_ticket (resource_of e) (set_entries s (delete (NnrpHandle.key h) (entries s)))
  | None => s
  end.

Lemma remove_accepts_cons h hs s : remove_accepts (h :: hs) s = remove_accepts hs (remove_accept h s).
Proof. done. Qed.

Lemma remove_accept_entries h s : entries (remove_accept h s) = delete (NnrpHandle.key h) (entries s).
Proof.
  unfold remove_accept. destruct (entries s !! NnrpHandle.key h) as [e|] eqn:E; [by destruct (resource_of e)|].
  by rewrite delete_id.
Qed.

Lemma remove_accepts_lookup hs s key e :
  entries (remove_accepts hs s) !! key = Some e <-> entries s !! key = Some e /\ key ∉ NnrpHandle.key <$> hs.
Proof.
  revert s. induction hs as [|h hs IH]; intros s; [cbn; by rewrite elem_of_nil; naive_solver|].
  rewrite remove_accepts_cons, IH, remove_accept_entries, lookup_delete_Some. cbn. rewrite elem_of_cons. naive_solver.
Qed.

(** ** Tickets of a closed server *)

Definition given_up (state : NnrpFfiServerAcceptState.t) : Prop :=
  state = NnrpFfiServerAcceptState.Released \/ state = NnrpFfiServerAcceptState.Claimed.

Lemma release_given_up state : given_up (NnrpFfiServerAcceptState.release state).
Proof. unfold given_up. destruct state; cbn; auto. Qed.

Definition cell_given_up (cell : nat) (s : t) : Prop := forall state, tickets s !! cell = Some state -> given_up state.

Lemma release_ticket_keeps r s cell : cell_given_up cell s -> cell_given_up cell (release_ticket r s).
Proof.
  intros H. destruct r; try done. intros state. cbn. destruct (decide (cell = runtime)) as [-> |].
  - rewrite lookup_alter_eq. intros (x & _ & ->)%fmap_Some. apply release_given_up.
  - rewrite lookup_alter_ne by done. apply H.
Qed.

Lemma release_ticket_releases server cell s : cell_given_up cell (release_ticket (NnrpFfiResource.ServerAccept server cell) s).
Proof. intros state. cbn. rewrite lookup_alter_eq. intros (x & _ & ->)%fmap_Some. apply release_given_up. Qed.

Lemma remove_accepts_keeps hs s cell : cell_given_up cell s -> cell_given_up cell (remove_accepts hs s).
Proof.
  revert s. induction hs as [|h hs IH]; intros s Hs; [done|]. rewrite remove_accepts_cons. apply IH.
  unfold remove_accept. destruct (entries s !! NnrpHandle.key h); [|done]. by apply release_ticket_keeps.
Qed.

Lemma remove_accepts_releases hs s h e server cell :
  h ∈ hs -> entries s !! NnrpHandle.key h = Some e -> resource_of e = NnrpFfiResource.ServerAccept server cell ->
  cell_given_up cell (remove_accepts hs s).
Proof.
  revert s. induction hs as [|h' hs IH]; intros s Hin He Hr; [by apply elem_of_nil in Hin|].
  rewrite remove_accepts_cons. destruct (decide (NnrpHandle.key h' = NnrpHandle.key h)) as [Hk|Hne].
  - apply remove_accepts_keeps. unfold remove_accept. rewrite Hk, He, Hr. apply release_ticket_releases.
  - apply elem_of_cons in Hin as [-> |Hin]; [done|]. apply IH; [done| |done].
    by rewrite remove_accept_entries, lookup_delete_ne.
Qed.

(** ** Closing a connection *)

Section closing.
Context (s : t) (Hs : inv (HD := tidy_caller) s).

(** In the store of a tidy caller an owner is named by one handle. *)
Lemma owner_named key e o h :
  entries s !! key = Some e -> NnrpFfiResource.owner (resource_of e) = Some o -> NnrpHandle.flags h = 0 ->
  same o h -> NnrpFfiResource.owner (resource_of e) = Some h.
Proof.
  intros He Ho Hf Hsame. rewrite Ho. f_equal. apply as_given_same; [|by apply Z.eqb_eq|done].
  apply (owner_given (HD := tidy_caller) (resource_of e)); [by apply (inv_owner s Hs key)|done].
Qed.

(** The kind of an owner, when the entry that it stands for is there. *)
Lemma owner_entry_kind key e key' e' :
  entries s !! key = Some e -> NnrpFfiResource.owner (resource_of e) = Some (handle_of (key', e')) ->
  entries s !! key' = Some e' -> NnrpFfiResource.kind (resource_of e') ∈ owner_kinds (resource_of e).
Proof.
  intros He Ho He'. pose proof (inv_owner s Hs _ _ He) as H. unfold owner_ok in H. rewrite Ho in H.
  apply andb_true_iff in H as [H _]. apply existsb_exists in H as (k & Hin & Hk%Z.eqb_eq). cbn in Hk. destruct key' as [i id].
  destruct (inv_entry s Hs _ _ _ He') as [Hi _]. cbn in Hk. rewrite Hi in Hk. apply (inj NnrpHandleKind.repr) in Hk as ->.
  by apply list_elem_of_In.
Qed.

Lemma owner_kind key e h k :
  entries s !! key = Some e -> NnrpFfiResource.owner (resource_of e) = Some h ->
  NnrpHandle.kind h = NnrpHandleKind.repr k -> k ∈ owner_kinds (resource_of e).
Proof.
  intros He Ho Hk. pose proof (inv_owner s Hs _ _ He) as H. unfold owner_ok in H. rewrite Ho in H.
  apply andb_true_iff in H as [H _]. apply existsb_exists in H as (k' & Hin & Hk'%Z.eqb_eq). rewrite Hk in Hk'. apply (inj NnrpHandleKind.repr) in Hk' as ->.
  by apply list_elem_of_In.
Qed.

(** What [close_connection] looks for. *)
Definition closes_with (c : NnrpHandle.t) (r : NnrpFfiResource.t) : Prop :=
  let sessions := handles_where (sessions_of c) s in
  let operations := handles_where (operations_of sessions) s in
  accepts_of c r = true \/ sessions_of c r = true \/ operations_of sessions r = true \/
  keeps (c :: sessions ++ operations) r = false.

Lemma keeps_false owners r :
  keeps owners r = false <-> exists o lease released, r = NnrpFfiResource.CacheLease o lease released /\ o ∈ owners.
Proof.
  split.
  - destruct r; try done. cbn. rewrite negb_false_iff, bool_decide_eq_true. eauto.
  - intros (o & lease & released & -> & Hin). cbn. by rewrite bool_decide_eq_true_2.
Qed.

Lemma closes_with_owned c key e :
  entries s !! key = Some e -> closes_with c (resource_of e) -> owned s c key.
Proof.
  intros He. set (sessions := handles_where (sessions_of c) s).
  assert (forall key e, entries s !! key = Some e -> sessions_of c (resource_of e) = true -> owned s c key) as Hsession.
  { intros k x Hx Hp. apply (owned_entry _ _ _ x c); [done| |done]. destruct (resource_of x); try done.
    cbn in *. by apply bool_decide_eq_true in Hp as ->. }
  assert (forall key e, entries s !! key = Some e -> operations_of sessions (resource_of e) = true -> owned s c key) as Hop.
  { intros k x Hx Hp. destruct (resource_of x) eqn:Hr; try done. cbn in Hp. apply bool_decide_eq_true in Hp.
    apply handles_where_elem in Hp as (k' & e' & He' & Hp & ->).
    apply (owned_through _ _ k' e' _ x (handle_of (k', e'))); [by eapply Hsession|done|done| |done]. by rewrite Hr. }
  intros [H|[H|[H|H]]].
  - apply (owned_entry _ _ _ e c); [done| |done]. destruct (resource_of e); try done. cbn in *. by apply bool_decide_eq_true in H as ->.
  - by eapply Hsession.
  - by eapply Hop.
  - apply keeps_false in H as (o & lease & released & Hr & Hin). rewrite elem_of_cons, elem_of_app in Hin.
    destruct Hin as [-> |[(k' & e' & He' & Hp & ->)%handles_where_elem|(k' & e' & He' & Hp & ->)%handles_where_elem]].
    + apply (owned_entry _ _ _ e c); [done| |done]. by rewrite Hr.
    + apply (owned_through _ _ k' e' _ e (handle_of (k', e'))); [by eapply Hsession|done|done| |done]. by rewrite Hr.
    + apply (owned_through _ _ k' e' _ e (handle_of (k', e'))); [by eapply Hop|done|done| |done]. by rewrite Hr.
Qed.

Ltac wrong_kind Hk :=
  exfalso; clear -Hk; cbn in Hk; repeat (apply elem_of_cons in Hk as [?|Hk]; [discriminate|]); by apply elem_of_nil in Hk.

Lemma owned_closes_with c key e :
  NnrpHandle.kind c = NnrpHandleKind.repr NnrpHandleKind.Connection -> NnrpHandle.flags c = 0 ->
  owned s c key -> entries s !! key = Some e -> closes_with c (resource_of e).
Proof.
  intros Hc Hflags Ho. revert e.
  induction Ho as [key e o He Ho Hsame|key' e' key e o _ IH He' He Ho Hsame]; intros e2 He2; simplify_eq.
  - apply (owner_named _ _ _ _ He Ho Hflags) in Hsame as Ho'. clear Ho Hsame. rename Ho' into Ho.
    pose proof (owner_kind _ _ _ _ He Ho Hc) as Hk. unfold closes_with.
    destruct (resource_of e) eqn:Hr; cbn in Ho; try done; injection Ho as ->; cbn in Hk |- *.
    + right; left. by rewrite bool_decide_eq_true_2.
    + left. by rewrite bool_decide_eq_true_2.
    + wrong_kind Hk.
    + right; right; right. by rewrite bool_decide_eq_true_2 by (by left).
  - apply (owner_named _ _ _ (handle_of (key', e')) He Ho eq_refl) in Hsame as Ho'. clear Ho Hsame. rename Ho' into Ho.
    specialize (IH _ He'). pose proof (owner_entry_kind _ _ _ _ He Ho He') as Hk. unfold closes_with.
    set (sessions := handles_where (sessions_of c) s) in *.
    set (operations := handles_where (operations_of sessions) s) in *.
    assert (sessions_of c (resource_of e') = true -> handle_of (key', e') ∈ sessions) as Hin1
      by (intros; apply handles_where_elem; eauto).
    assert (operations_of sessions (resource_of e') = true -> handle_of (key', e') ∈ operations) as Hin2
      by (intros; apply handles_where_elem; eauto).
    assert (handle_of (key', e') ∈ sessions ++ operations -> forall lease released,
      keeps (c :: sessions ++ operations) (NnrpFfiResource.CacheLease (handle_of (key', e')) lease released) = false) as Hlease.
    { intros Hin lease released. apply keeps_false. do 3 eexists. split; [done|]. by right. }
    destruct IH as [H|[H|[H|H]]].
    + destruct (resource_of e'); try done. destruct (resource_of e); wrong_kind Hk.
    + specialize (Hin1 H). destruct (resource_of e') eqn:Hr'; try done. destruct (resource_of e); cbn in Ho, Hk; try done;
        injection Ho as ->; try (wrong_kind Hk).
      * right; right; left. cbn. by rewrite bool_decide_eq_true_2.
      * right; right; right. apply Hlease, elem_of_app. by left.
    + specialize (Hin2 H). destruct (resource_of e') eqn:Hr'; try done. destruct (resource_of e); cbn in Ho, Hk; try done;
        injection Ho as ->; try (wrong_kind Hk).
      right; right; right. apply Hlease, elem_of_app. by right.
    + apply keeps_false in H as (? & ? & ? & Hr' & _). rewrite Hr' in Hk. destruct (resource_of e); wrong_kind Hk.
Qed.

Lemma close_connection_lookup c r key e :
  get c NnrpHandleKind.Connection s = Ok r ->
  entries (close_connection c s).2 !! key = Some e <->
    entries s !! key = Some e /\ key <> NnrpHandle.key c /\ ~ closes_with c (resource_of e).
Proof.
  intros Hget. unfold close_connection, mbind, method_bind, pure_of, update_with. rewrite Hget. cbn [snd].
  set (sessions := handles_where (sessions_of c) s). set (operations := handles_where (operations_of sessions) s).
  cbn. rewrite lookup_delete_Some, map_lookup_filter_Some, delete_all_lookup, remove_accepts_lookup.
  cbn. rewrite delete_all_lookup. unfold closes_with. fold sessions operations.
  set (accepts := handles_where (accepts_of c) s).
  assert (entries s !! key = Some e ->
    (key ∈ NnrpHandle.key <$> operations <-> operations_of sessions (resource_of e) = true) /\
    (key ∈ NnrpHandle.key <$> accepts <-> accepts_of c (resource_of e) = true) /\
    (key ∈ NnrpHandle.key <$> sessions <-> sessions_of c (resource_of e) = true)) as Hkeys
    by (intros; split_and!; by apply handles_where_key).
  destruct (keeps (c :: sessions ++ operations) (resource_of e)); cbn; split.
  - intros (Hne & (((He & Hop) & Hacc) & Hses) & _). specialize (Hkeys He). split_and!; [done|done|]. intuition congruence.
  - intros (He & Hne & Hnot). specialize (Hkeys He). split; [congruence|]. tauto.
  - by intros (_ & _ & [=]).
  - tauto.
Qed.
End closing.

Lemma close_connection_outcome c r s : get c NnrpHandleKind.Connection s = Ok r -> (close_connection c s).1 = Ok tt.
Proof. intros Hget. unfold close_connection, mbind, method_bind, pure_of. by rewrite Hget. Qed.

Lemma close_connection_tickets c r s : get c NnrpHandleKind.Connection s = Ok r ->
  exists s1, tickets (close_connection c s).2 = tickets (remove_accepts (handles_where (accepts_of c) s) s1) /\
    forall key e server cell, entries s !! key = Some e -> resource_of e = NnrpFfiResource.ServerAccept server cell ->
      entries s1 !! key = Some e.
Proof.
  intros Hget. unfold close_connection, mbind, method_bind, pure_of, update_with. rewrite Hget. cbn [snd].
  set (sessions := handles_where (sessions_of c) s). set (operations := handles_where (operations_of sessions) s).
  exists (remove_entries operations s). split; [done|].
  intros key e server cell He Hr. cbn. apply delete_all_lookup. split; [done|].
  assert (key ∈ NnrpHandle.key <$> operations <-> operations_of sessions (resource_of e) = true) as ->
    by (by apply handles_where_key). by rewrite Hr.
Qed.

(** C22: closing a connection.  In every store that calls of the C interface reach, when C passes
    handles as it got them, closing a connection that is there succeeds, and removes the
    connection and exactly what it owns: its sessions and accept tickets, their operations, and the
    cache leases of all of these; nothing that stays belongs to something that went, and the
    tickets that went are given up.  (With flags in the handle the connection is closed and what
    it owns stays, [flags_keep_tickets].) *)
Theorem close_connection_exact (n : Z) (f : t -> t) (c : NnrpHandle.t) (r : NnrpFfiResource.t) :
  n < modulus 8 -> api (HD := tidy_caller) n f -> NnrpHandle.flags c = 0 ->
  let s := f initial in
  get c NnrpHandleKind.Connection s = Ok r ->
  exists s', close_connection c s = (Ok tt, s') /\
    (forall key e, entries s' !! key = Some e <->
       entries s !! key = Some e /\ key <> NnrpHandle.key c /\ ~ owned s c key) /\
    (forall key e o key' e', entries s' !! key = Some e -> owned s c key' -> entries s !! key' = Some e' ->
       NnrpFfiResource.owner (resource_of e) = Some o -> ~ same o c /\ ~ same o (handle_of (key', e'))) /\
    (forall key e server cell, entries s !! key = Some e -> owned s c key ->
       resource_of e = NnrpFfiResource.ServerAccept server cell -> cell_given_up cell s').
Proof.
  intros Hn [_ Hf]%api_steps Hflags s Hget.
  assert (inv (HD := tidy_caller) s) as Hs by (apply Hf; [apply inv_initial|by apply room_initial]).
  assert (NnrpHandle.kind c = NnrpHandleKind.repr NnrpHandleKind.Connection) as Hc
    by (by apply get_Ok in Hget as [(? & _)%validate_kind_Ok _]).
  exists (close_connection c s).2.
  assert (forall key e, entries (close_connection c s).2 !! key = Some e <->
    entries s !! key = Some e /\ key <> NnrpHandle.key c /\ ~ owned s c key) as Hexact.
  { intros key e. rewrite (close_connection_lookup s c r) by done. split.
    - intros (He & Hne & Hnot). split_and!; [done..|]. intros Ho. apply Hnot. by eapply owned_closes_with.
    - intros (He & Hne & Hnot). split_and!; [done..|]. intros Hw. apply Hnot. by eapply closes_with_owned. }
  split_and!; [by rewrite (surjective_pairing (close_connection c s)), (close_connection_outcome c r)|done|..].
  - intros key e o key' e' (He & Hne & Hnot)%Hexact Ho He' Hq. split; intros Hsame; apply Hnot.
    + by eapply owned_entry.
    + by eapply owned_through.
  - intros key e server cell He Ho Hr. destruct (close_connection_tickets c r s Hget) as (s1 & Ht & Hs1).
    unfold cell_given_up. rewrite Ht. eapply (remove_accepts_releases _ _ (handle_of (key, e))); [| |exact Hr].
    + apply handles_where_elem. exists key, e. split_and!; [done| |done].
      pose proof (owned_closes_with s Hs c key e Hc Hflags Ho He) as Hw. unfold closes_with in Hw. rewrite Hr in Hw |- *.
      cbn in Hw |- *. destruct Hw as [Hw|[Hw|[Hw|Hw]]]; done.
    + rewrite key_handle_of. by eapply Hs1.
Qed.

(** A server is closed with a handle that has flags: its ticket stays. *)
Example flags_keep_tickets :
  let server := NnrpHandle.new NnrpHandleKind.Connection 4 1 in
  let flagged := NnrpHandle.mk (NnrpHandle.kind server) 4 1 1 in
  let bind := effect (open_connection 4 1 2 NnrpFfiConnectionRole.Server (NnrpFfiRuntime.Server O) (Ok tt)) in
  let begin := effect (nnrp_server_accept_begin server 9 1 0 Writable) in
  let s := begin (bind initial) in
  let closed := close_connection flagged s in
  same server flagged /\ owned s flagged (13, 9) /\ closed.1 = Ok tt /\
  resource_of <$> entries closed.2 !! (13, 9) = Some (NnrpFfiResource.ServerAccept server 0).
Proof.
  cbv zeta. split; [done|]. split; [|by vm_compute].
  eapply owned_entry; [vm_compute; reflexivity|reflexivity|reflexivity].
Qed.

(** A server with an accept ticket and a lease is closed. *)
Lemma close_connection_exact_witness :
  let server := NnrpHandle.new NnrpHandleKind.Connection 4 1 in
  let request := NnrpCacheLeaseRequest.mk server (NnrpCacheObjectId.mk 1 1 2 3) 0 1000 0 in
  let bind := effect (open_connection 4 1 2 NnrpFfiConnectionRole.Server (NnrpFfiRuntime.Server O) (Ok tt)) in
  let begin := effect (nnrp_server_accept_begin server 9 1 0 Writable) in
  let query := effect (cache_query_impl request Writable) in
  let f s := query (begin (bind s)) in
  size (entries (f initial)) = 3%nat /\
  exists s', close_connection server (f initial) = (Ok tt, s') /\ forall key, entries s' !! key = None.
Proof.
  intros server request bind begin query f. split; [by vm_compute|].
  assert (api (HD := tidy_caller) (0 + (0 + 1)) f) as Hf.
  { apply (api_then 0 (0 + 1) bind (fun s => query (begin s))); [apply api_open_connection|].
    apply (api_then 0 1 begin query); [by apply api_accept_begin|by apply api_cache_query]. }
  set (r := NnrpFfiResource.Connection 2 NnrpFfiConnectionRole.Server (NnrpFfiRuntime.Server O)).
  assert (get server NnrpHandleKind.Connection (f initial) = Ok r) as Hget by (vm_compute; reflexivity).
  assert (0 + (0 + 1) < modulus 8) as Hn by (vm_compute; reflexivity).
  destruct (close_connection_exact _ f server r Hn Hf eq_refl Hget) as (s' & Hclose & Hexact & _).
  exists s'. split; [exact Hclose|]. intros key. destruct (entries s' !! key) as [e|] eqn:E; [|done]. exfalso.
  apply Hexact in E as (He & Hne & Hnot). apply Hnot. clear Hexact Hclose Hnot. apply (owned_entry _ _ _ e server); [done| |reflexivity].
  apply elem_of_map_to_list in He. vm_compute in He.
  repeat (apply elem_of_cons in He as [He|He]; [injection He as -> ->; first [reflexivity|by destruct Hne]|]).
  by apply elem_of_nil in He.
Defined.

(** ** Operations of a server *)

Lemma remove_Ok h k r s : get h k s = Ok r -> (remove h k s).1 = Ok tt /\ dead h k (remove h k s).2.
Proof.
  intros Hget. unfold remove, mbind, method_bind, pure_of. rewrite Hget. split; [done|].
  intros r' [_ He]%get_Ok. cbn in He. case_match; cbn in He; by rewrite lookup_delete_eq in He.
Qed.

Lemma get_set_replies h k s d p : get h k (set_replies s d p) = get h k s.
Proof. done. Qed.

(** Neither the last reply of an operation nor its lifecycle event has happened. *)
Definition in_progress (session operation : NnrpHandle.t) (s : t) : Prop :=
  (session, operation) ∉ lifecycle_delivered_operations s /\ operation ∉ terminal_operation_replies s.

(** the two records of the store about an operation that a server replies to, when it is there, its
    handles have no flags and neither record has been made: [record_terminal_operation_reply] alone, once or
    several times, and the delivery of the lifecycle event alone leave the handle as it is; when
    both have happened, in whichever order, it does not resolve any more and the event no longer
    carries it.  ([nnrp_server_drop_stale_result] sends a last reply without the first record.) *)
Theorem server_operation_lifetime (session operation : NnrpHandle.t) (r : NnrpFfiResource.t) (s : t) :
  NnrpHandle.flags session = 0 -> NnrpHandle.flags operation = 0 ->
  get operation NnrpHandleKind.Operation s = Ok r ->
  in_progress session operation s ->
  exists replied delivered, record_terminal_operation_reply session operation s = (Ok tt, replied) /\
    deliver_lifecycle session operation true s = (Ok operation, delivered) /\
    record_terminal_operation_reply session operation replied = (Ok tt, replied) /\
    get operation NnrpHandleKind.Operation replied = Ok r /\ get operation NnrpHandleKind.Operation delivered = Ok r /\
    (exists s1, deliver_lifecycle session operation true replied = (Ok NnrpHandle.invalid, s1) /\ dead operation NnrpHandleKind.Operation s1) /\
    (exists s2, record_terminal_operation_reply session operation delivered = (Ok tt, s2) /\ dead operation NnrpHandleKind.Operation s2).
Proof.
  intros Hfs Hfo Hget [Hnd Hnr].
  set (reply := record_terminal_operation_reply session operation).
  set (deliver := deliver_lifecycle session operation true).
  assert (NnrpHandle.normalized session = session) as Hs by (destruct session; cbn in *; by subst).
  assert (NnrpHandle.normalized operation = operation) as Ho by (destruct operation; cbn in *; by subst).
  set (replied := set_replies s (lifecycle_delivered_operations s) (terminal_operation_replies s ++ [operation])).
  set (delivered := set_replies s (lifecycle_delivered_operations s ++ [(session, operation)]) (terminal_operation_replies s)).
  assert (operation ∈ terminal_operation_replies replied) as Hin by (cbn; apply elem_of_app; right; by left).
  assert ((session, operation) ∈ lifecycle_delivered_operations delivered) as Hin2 by (cbn; apply elem_of_app; right; by left).
  exists replied, delivered. split_and!.
  - unfold reply, record_terminal_operation_reply, mbind, method_bind, pure_of. rewrite Hget, Hs, Ho. unfold record_reply.
    by rewrite !bool_decide_eq_false_2.
  - unfold deliver, deliver_lifecycle, terminal_operation_reply_recorded, mbind, method_bind. rewrite Ho.
    rewrite bool_decide_eq_false_2 by done. cbn. unfold mark_operation_lifecycle_delivered. rewrite Hs, Ho.
    by rewrite bool_decide_eq_false_2.
  - unfold reply, record_terminal_operation_reply, mbind, method_bind, pure_of.
    assert (get operation NnrpHandleKind.Operation replied = Ok r) as -> by done. rewrite Hs, Ho. unfold record_reply.
    by rewrite bool_decide_eq_false_2, bool_decide_eq_true_2.
  - done.
  - done.
  - destruct (remove_Ok operation NnrpHandleKind.Operation r replied Hget) as [H1 H2].
    exists (remove operation NnrpHandleKind.Operation replied).2. split; [|done].
    unfold deliver, deliver_lifecycle, terminal_operation_reply_recorded, mbind at 1, method_bind at 1. rewrite Ho.
    rewrite bool_decide_eq_true_2 by done. cbn -[mbind remove]. unfold mbind, method_bind.
    destruct (remove operation NnrpHandleKind.Operation replied) as [o s1]. cbn in H1. by subst o.
  - destruct (remove_Ok operation NnrpHandleKind.Operation r delivered Hget) as [H1 H2].
    exists (remove operation NnrpHandleKind.Operation delivered).2. split; [|done].
    unfold reply, record_terminal_operation_reply, mbind, method_bind, pure_of.
    assert (get operation NnrpHandleKind.Operation delivered = Ok r) as -> by done. rewrite Hs, Ho. unfold record_reply.
    rewrite bool_decide_eq_true_2 by done. rewrite (surjective_pairing (remove _ _ _)). by rewrite H1.
Qed.

(** An operation of the session with handle 2. *)
Lemma server_operation_lifetime_witness :
  let session := NnrpHandle.new NnrpHandleKind.Session 2 1 in
  let operation := NnrpHandle.new NnrpHandleKind.Operation 1 1 in
  let s := mk {[ (3, 1) := NnrpFfiResourceEntry.mk 1 (NnrpFfiResource.Operation session 5 6 72 None) ]} ∅ [] [] ∅ in
  exists s1 s2, record_terminal_operation_reply session operation s = (Ok tt, s1) /\
    deliver_lifecycle session operation true s1 = (Ok NnrpHandle.invalid, s2) /\
    dead operation NnrpHandleKind.Operation s2.
Proof.
  intros session operation s.
  destruct (server_operation_lifetime session operation (NnrpFfiResource.Operation session 5 6 72 None) s eq_refl eq_refl eq_refl)
    as (s1 & _ & Hs1 & _ & _ & _ & _ & (s2 & Hs2 & Hdead) & _); [split; by apply not_elem_of_nil|].
  by exists s1, s2.
Defined.

(** ** Cache leases *)

Lemma find_lease_unique {HD : Discipline} s h owner lease :
  inv s -> NnrpHandle.flags h = 0 ->
  entries s !! NnrpHandle.key h = Some (NnrpFfiResourceEntry.mk (NnrpHandle.generation h) (NnrpFfiResource.CacheLease owner lease false)) ->
  find_lease owner (CacheLease.object_id lease) s = Some (h, lease).
Proof.
  intros Hs Hf He. assert (is_lease_of owner (CacheLease.object_id lease) (NnrpFfiResource.CacheLease owner lease false) = true) as Hl
    by (apply is_lease_of_true; eauto).
  destruct (find_lease owner (CacheLease.object_id lease) s) as [[h' lease']|] eqn:Hfind.
  - apply find_lease_Some in Hfind as (Hi & Hf' & He').
    assert (NnrpHandle.key h' = NnrpHandle.key h) as Hk.
    { eapply (inv_lease s Hs); [exact He'|exact He| |exact Hl]. apply is_lease_of_true. eauto. }
    rewrite Hk, He in He'. injection He' as Hg ->. destruct h, h'. unfold NnrpHandle.key in Hk. cbn in *. by simplify_eq.
  - pose proof (find_lease_None _ _ _ _ _ Hfind He) as Hn. cbn [resource_of] in Hn. congruence.
Qed.

(** After a lease is marked as released its owner has none on the object. *)
Lemma release_find_lease {HD : Discipline} s h owner lease :
  inv s -> NnrpHandle.flags h = 0 -> NnrpHandle.validate_kind h NnrpHandleKind.CacheLease = Ok tt ->
  entries s !! NnrpHandle.key h = Some (NnrpFfiResourceEntry.mk (NnrpHandle.generation h) (NnrpFfiResource.CacheLease owner lease false)) ->
  exists s', nnrp_cache_release_impl h Writable s =
      (Ok (NnrpCacheLeaseResult.from_lease NNRP_CACHE_LEASE_OUTCOME_RELEASED h lease), s') /\
    find_lease owner (CacheLease.object_id lease) s' = None.
Proof.
  intros Hs Hf Hv He. set (new := NnrpFfiResource.CacheLease owner lease true).
  set (s' := set_entries s (alter (fun e => NnrpFfiResourceEntry.mk (NnrpFfiResourceEntry.generation e) new) (NnrpHandle.key h) (entries s))).
  assert (get h NnrpHandleKind.CacheLease s = Ok (NnrpFfiResource.CacheLease owner lease false)) as Hget by (by apply get_Ok).
  exists s'. split.
  - unfold nnrp_cache_release_impl, expect, set_resource, mbind, method_bind, pure_of, reject, lift_outcome. cbn.
    rewrite Hget. cbn. by rewrite Hget.
  - destruct (find_lease owner (CacheLease.object_id lease) s') as [[h' lease']|] eqn:Hfind; [|done].
    apply find_lease_Some in Hfind as (Hi & _ & He'). cbn in He'.
    destruct (decide (NnrpHandle.key h' = NnrpHandle.key h)) as [Hk|Hne].
    + rewrite Hk, lookup_alter_eq, He in He'. done.
    + rewrite lookup_alter_ne in He' by done. destruct Hne.
      eapply (inv_lease s Hs); [exact He'|exact He| |]; apply is_lease_of_true; eauto.
Qed.

Lemma get_other s s' h k key : (forall key', key' <> key -> entries s' !! key' = entries s !! key') ->
  NnrpHandle.key h <> key -> get h k s' = get h k s.
Proof. intros Ho Hne. unfold get. by rewrite Ho. Qed.

Lemma cache_query_some request object_id owner_id k s :
  NnrpCacheObjectId.to_core (NnrpCacheLeaseRequest.object_id request) = Ok object_id ->
  cache_owner_handle_kind (NnrpHandle.kind (NnrpCacheLeaseRequest.owner request)) = Ok k ->
  cache_owner_semantic_id (NnrpCacheLeaseRequest.owner request) k s = Ok owner_id ->
  cache_query_impl request Writable s =
    match find_lease (NnrpCacheLeaseRequest.owner request) object_id s with
    | Some (h, lease) => existing_lease request h lease s
    | None => grant_lease request object_id owner_id s
    end.
Proof.
  intros Ho Hk Hid. unfold cache_query_impl, mbind, method_bind, pure_of, reject, lift_outcome.
  cbn -[cache_owner_semantic_id cache_owner_handle_kind find_lease existing_lease grant_lease]. rewrite Ho.
  destruct (Z.eqb_spec (NnrpHandle.kind (NnrpCacheLeaseRequest.owner request)) 0) as [Hz|].
  { rewrite Hz in Hk. done. }
  rewrite Hk. cbv beta iota zeta. rewrite Hid. by destruct (find_lease _ _ s) as [[]|].
Qed.

(** the life of a cache lease.  In every store that calls of the C interface reach, an owner that
    is there and has no lease on an object gets one with its next query: a new handle, that keeps for
    at least 30 seconds; until it expires every query finds the same lease, after it every query says
    that it has expired, and neither changes the store; when it is released the owner has none. *)
Theorem cache_lease_cycle {HD : Discipline} (n : Z) (f : t -> t) (request : NnrpCacheLeaseRequest.t) (object_id : CacheObjectId.t)
    (k : NnrpHandleKind.t) (owner_id : Z) :
  n + 1 < modulus 8 -> api n f -> as_given (NnrpCacheLeaseRequest.owner request) = true ->
  let s := f initial in
  let owner := NnrpCacheLeaseRequest.owner request in
  NnrpCacheObjectId.to_core (NnrpCacheLeaseRequest.object_id request) = Ok object_id ->
  cache_owner_handle_kind (NnrpHandle.kind owner) = Ok k -> cache_owner_semantic_id owner k s = Ok owner_id ->
  find_lease owner object_id s = None ->
  let h := NnrpHandle.new NnrpHandleKind.CacheLease (next s 7 + 1) 1 in
  let lease := granted request object_id owner_id (next s 7 + 1) in
  exists s1, cache_query_impl request Writable s =
      (Ok (NnrpFfiStatus.ok, NnrpCacheLeaseResult.from_lease NNRP_CACHE_LEASE_OUTCOME_VALID h lease), s1) /\
    30000 <= CacheLease.ttl_ms lease /\
    (forall now expected_version, expected_version = 0 \/ expected_version = CacheLease.object_version lease ->
       cache_query_impl (NnrpCacheLeaseRequest.mk owner (NnrpCacheLeaseRequest.object_id request) expected_version now 0) Writable s1 =
         (Ok (if CacheLease.is_expired_at lease now
              then (cache_validation_failure_status CacheValidationFailure.LeaseExpired,
                    NnrpCacheLeaseResult.from_lease NNRP_CACHE_LEASE_OUTCOME_EXPIRED h lease)
              else (NnrpFfiStatus.ok, NnrpCacheLeaseResult.from_lease NNRP_CACHE_LEASE_OUTCOME_VALID h lease)), s1)) /\
    exists s2, nnrp_cache_release_impl h Writable s1 =
        (Ok (NnrpCacheLeaseResult.from_lease NNRP_CACHE_LEASE_OUTCOME_RELEASED h lease), s2) /\
      find_lease owner object_id s2 = None.
Proof.
  intros Hn [Hn0 Hf]%api_steps Hgiven s owner Hobj Hk Hid Hnone h lease.
  assert (evolves n initial s) as Hev by (apply Hf; [apply inv_initial|apply room_initial; lia]).
  assert (inv s) as Hs by apply Hev.
  assert (room 1 s) as Hr by (eapply room_after; [|exact Hev]; by apply room_initial).
  destruct (grant_lease_spec request object_id owner_id k s Hk Hgiven Hs Hr Hnone) as (s1 & Hgrant & He & Hother & Hget).
  fold h lease in Hgrant, Hget. assert (inv s1) as Hs1 by apply He. pose proof Hget as [Hv Hentry]%get_Ok.
  assert (cache_owner_semantic_id owner k s1 = Ok owner_id) as Hid1.
  { unfold cache_owner_semantic_id in *. rewrite (get_other s s1 owner k (7, next s 7 + 1)); [done|done|].
    intros Hq. unfold NnrpHandle.key in Hq. injection Hq as Hq _. fold owner in Hk. by rewrite Hq in Hk. }
  exists s1. split_and!.
  - rewrite (cache_query_some _ object_id owner_id k); [|done..]. fold owner. by rewrite Hnone.
  - cbn. lia.
  - intros now expected Hexp. rewrite (cache_query_some _ object_id owner_id k); [|done..]. cbn [NnrpCacheLeaseRequest.owner].
    change object_id with (CacheLease.object_id lease) at 1. rewrite (find_lease_unique s1 h owner lease) by done.
    unfold existing_lease, CacheLease.validate_live_at, CacheLease.validate_version. cbn [NnrpCacheLeaseRequest.now_ms
      NnrpCacheLeaseRequest.expected_version NnrpCacheLeaseRequest.ttl_ms].
    destruct (CacheLease.is_expired_at lease now); [done|]. cbn -[CacheLease.object_version].
    destruct Hexp as [-> | ->]; [done|]. rewrite Z.eqb_refl. cbn -[CacheLease.object_version]. by rewrite andb_false_r.
  - change object_id with (CacheLease.object_id lease). by apply release_find_lease.
Qed.

(** A client asks at 1 s for a lease, which has expired at 31 s. *)
Lemma cache_lease_cycle_witness :
  let connection := NnrpHandle.new NnrpHandleKind.Connection 1 1 in
  let request := NnrpCacheLeaseRequest.mk connection (NnrpCacheObjectId.mk 1 1 2 3) 0 1000 0 in
  let later := NnrpCacheLeaseRequest.mk connection (NnrpCacheObjectId.mk 1 1 2 3) 0 31000 0 in
  let s := effect (open_connection 1 1 2 NnrpFfiConnectionRole.Client (NnrpFfiRuntime.Client O) (Ok tt)) initial in
  exists s1 granted refused, cache_query_impl request Writable s = (Ok (NnrpFfiStatus.ok, granted), s1) /\
    cache_query_impl later Writable s1 =
      (Ok (cache_validation_failure_status CacheValidationFailure.LeaseExpired, refused), s1).
Proof.
  intros connection request later s.
  set (object_id := CacheObjectId.mk 1 2 3 CacheObjectKind.CameraBlock).
  set (connect := effect (open_connection 1 1 2 NnrpFfiConnectionRole.Client (NnrpFfiRuntime.Client O) (Ok tt))).
  assert (0 + 1 < modulus 8) as Hn by (vm_compute; reflexivity).
  assert (api (HD := false) 0 connect) as Hf by apply api_open_connection.
  assert (cache_owner_semantic_id connection NnrpHandleKind.Connection (connect initial) = Ok 1) as Hid by (vm_compute; reflexivity).
  assert (find_lease connection object_id (connect initial) = None) as Hnone by (vm_compute; reflexivity).
  destruct (cache_lease_cycle 0 connect request object_id NnrpHandleKind.Connection 1 Hn Hf eq_refl eq_refl eq_refl Hid Hnone)
    as (s1 & Hq & _ & Hagain & _).
  do 3 eexists. split; [exact Hq|]. exact (Hagain 31000 0 (or_introl eq_refl)).
Defined.
