(* ===== verification/FfiBatch.v ===== *)
(** The transport calls of the C interface ([src/crates/nnrp-ffi/src/transport.rs]): opening and
    closing, and the batches of packets that are written and read.

    What has arrived at a connection and was not read is the list [reads] of its transport; what
    arrives while a call waits is an argument, a [Window] for each wait.  Sockets are opened by
    other crates: what they return is an argument of the calls. *)

From S2P Require Import Prelude Bytes Errors Enums Wire Header Codes Object Cache Data Schema Control Capability Session RuntimeControl Recovery Packet RuntimeError Stream Async.
From S2P Require Import FfiTypes FfiStore FfiObjects FfiStoreTheory FfiTransport FfiRoles.

Local Open Scope Z_scope.

(** ** Connections *)

Module TransportConnectionState.

(** [clock_us] has the times that [unix_time_us] will return. *)
Record t := mk {
  transport : FramedTransport.t;
  pending : list RuntimePacket.t;
  max_packet_bytes : Z;
  clock_us : list Z
}.

Definition set_transport (self : t) transport : t :=
  mk transport (pending self) (max_packet_bytes self) (clock_us self).
Definition set_pending (self : t) pending : t :=
  mk (transport self) pending (max_packet_bytes self) (clock_us self).

Definition on_transport {A} (m : Async FramedTransport.t A) : Async t A := fun self =>
  let (r, transport) := m (transport self) in (r, set_transport self transport).

Definition unix_time_us : Async t Z := fun self =>
  match clock_us self with
  | [] => (Ready (Ok 0), self)
  | now :: rest => (Ready (Ok now), mk (transport self) (pending self) (max_packet_bytes self) rest)
  end.

(** What has arrived when a wait ends. *)
Definition arrive (window : list (RT RuntimePacket.t)) (self : t) : t :=
  set_transport self
    (FramedTransport.set_reads (transport self) (FramedTransport.reads (transport self) ++ window)).

(** [wrap_connection]. *)
Definition wrap_connection (connection : FramedTransport.t) (max_packet_bytes : Z) (clock_us : list Z) : t :=
  mk connection [] max_packet_bytes clock_us.

Section connection.
Context `{Htarget : Target}.

(** *** [ProbeAwareTransport::read_packet] *)

Definition is_probe (packet : RuntimePacket.t) : bool :=
  bool_decide (CommonHeader.message_type (RuntimePacket.header packet) = MessageType.TransportProbe).

Definition answer_probe (packet : RuntimePacket.t) : Async t unit :=
  probe ← lift (protocol (TransportProbeMetadata.parse (RuntimePacket.metadata packet)));
  let declared := TransportProbeMetadata.probe_payload_bytes probe in
  _ ← lift (reject_if (negb (len (RuntimePacket.body packet) =? declared))
        (Protocol (DeclaredLengthMismatch "transport_probe.probe_payload_bytes" declared
                     (len (RuntimePacket.body packet)))));
  now ← unix_time_us;
  metadata ← lift (protocol (TransportProbeAckMetadata.to_bytes
    {| TransportProbeAckMetadata.probe_id := TransportProbeMetadata.probe_id probe;
       TransportProbeAckMetadata.server_recv_ts_us := now |}));
  ack_packet ← lift (protocol (RuntimePacket.new (CommonHeader.new MessageType.TransportProbeAck 0 0) metadata []));
  on_transport (FramedTransport.write_packet ack_packet).

(** Each turn reads a packet: the turns are one more than the packets that have arrived. *)
Fixpoint read_loop (turns : nat) : Async t RuntimePacket.t :=
  match turns with
  | O => lift Panic
  | S turns =>
      packet ← on_transport FramedTransport.read_packet;
      if negb (is_probe packet) then mret packet
      else _ ← answer_probe packet; read_loop turns
  end.

Definition read_packet : Async t RuntimePacket.t := fun self =>
  read_loop (S (length (FramedTransport.reads (transport self)))) self.

(** *** [RoleTransport] *)

Definition role_read_packet (window : list (RT RuntimePacket.t)) : Async t RuntimePacket.t := fun self =>
  match pending self with
  | packet :: rest => (Ready (Ok packet), set_pending self rest)
  | [] => read_packet (arrive window self)
  end.

Definition role_write_packet (packet : RuntimePacket.t) : Async t unit :=
  on_transport (FramedTransport.write_packet packet).

Definition role_close : Async t unit := on_transport FramedTransport.close.

(** ** Writing a batch *)

Definition packet_from_bytes (bytes : bytes) (limit : Z) : RT RuntimePacket.t :=
  _ ← reject_if (len bytes <? Z.of_nat COMMON_HEADER_LEN)
        (Protocol (SourceTooShort (Z.of_nat COMMON_HEADER_LEN) (len bytes)));
  _ ← reject_if (limit <? len bytes) (FrameTooLarge (len bytes) limit);
  header ← protocol (CommonHeader.parse (take COMMON_HEADER_LEN bytes));
  packet_len ← protocol (CommonHeader.packet_len header);
  _ ← reject_if (negb (packet_len =? len bytes)) (Protocol (PacketLengthMismatch packet_len (len bytes)));
  let metadata_end := (COMMON_HEADER_LEN + Z.to_nat (CommonHeader.meta_len header))%nat in
  metadata ← protocol (slice bytes COMMON_HEADER_LEN metadata_end);
  body ← protocol (slice bytes metadata_end (length bytes));
  protocol (RuntimePacket.from_parts header metadata body).

(** The loop over the frames; the number is the frame at which it is. *)
Fixpoint write_frames (index : Z) (frames : list bytes) (self : t) : Poll unit * Z * t :=
  match frames with
  | [] => (Ready (Ok tt), index, self)
  | bytes :: frames =>
      match packet_from_bytes bytes (max_packet_bytes self) with
      | Ok packet =>
          match on_transport (FramedTransport.write_packet packet) self with
          | (Ready (Ok _), self) => write_frames (index + 1) frames self
          | (r, self) => (r, index, self)
          end
      | Err error => (Ready (Err error), index, self)
      | Panic => (Ready Panic, index, self)
      end
  end.

(** ** Reading a batch *)

(** One wait of at most a millisecond: what arrives in it, and whether the time of the whole call
    ends with it. *)
Definition Window : Type := list (RT RuntimePacket.t) * bool.

(** The next packet, or [None] when there is none in time. *)
Definition next_packet (window : Window) : Async t (option RuntimePacket.t) := fun self =>
  match pending self with
  | packet :: rest => (Ready (Ok (Some packet)), set_pending self rest)
  | [] =>
      match read_packet (arrive window.1 self) with
      | (Ready (Ok packet), self) => (Ready (Ok (Some packet)), self)
      | (Ready (Err error), self) => (Ready (Err error), self)
      | (Ready Panic, self) => (Ready Panic, self)
      | (Pending, self) => (if window.2 then Pending else Ready (Ok None), self)
      end
  end.

Definition encoded_len (bytes : bytes) (max_bytes : Z) : RT Z :=
  ok_or (checked_add usize_max (len bytes) BATCH_LENGTH_PREFIX_BYTES) (FrameTooLarge usize_max max_bytes).

Definition push_front (packet : RuntimePacket.t) : Async t unit :=
  modify (fun self => set_pending self (packet :: pending self)).

(** [total.checked_add(n).is_none_or(|next_total| next_total > max_bytes)]. *)
Definition exceeds (total n max_bytes : Z) : bool :=
  from_option (fun next_total => max_bytes <? next_total) true (checked_add usize_max total n).

(** The loop: [room] is how many frames it may add.  A wait uses up a window. *)
Fixpoint read_frames (room : nat) (max_bytes total : Z) (bytes : list bytes) (windows : list Window)
    : Async t (list Bytes.bytes) :=
  match room with
  | O => mret bytes
  | S room =>
      if negb (total <? max_bytes) then mret bytes
      else
        waits ← gets (fun self => bool_decide (pending self = []));
        next ← next_packet (default ([], false) (head windows));
        match next with
        | None => mret bytes
        | Some packet =>
            packet_bytes ← lift (protocol (RuntimePacket.to_bytes packet));
            packet_encoded_len ← lift (encoded_len packet_bytes max_bytes);
            if exceeds total packet_encoded_len max_bytes then
              _ ← push_front packet;
              mret bytes
            else
              read_frames room max_bytes (total + packet_encoded_len) (bytes ++ [packet_bytes])
                (if waits : bool then tail windows else windows)
        end
  end.

(** The task of [transport_read_batch]; the first packet is waited for with [first]. *)
Definition read_batch (max_frames max_bytes : Z) (first : list (RT RuntimePacket.t)) (windows : list Window)
    : Async t (list bytes) :=
  packet ← role_read_packet first;
  first_bytes ← lift (protocol (RuntimePacket.to_bytes packet));
  first_encoded_len ← lift (encoded_len first_bytes max_bytes);
  if max_bytes <? first_encoded_len then
    _ ← push_front packet;
    lift (Err (FrameTooLarge first_encoded_len max_bytes))
  else
    read_frames (Z.to_nat (max_frames - 1)) max_bytes first_encoded_len [first_bytes] windows.

End connection.

End TransportConnectionState.

Fixpoint encode_batch (packets : list bytes) : FF bytes :=
  match packets with
  | [] => Ok []
  | packet :: packets =>
      _ ← reject_if (u32_max <? len packet) (NnrpFfiStatus.invalid_argument 111);
      encoded ← encode_batch packets;
      Ok (le_bytes 4 (len packet) ++ packet ++ encoded)
  end.

(** ** The calls *)

(** The stores, and the connections that their cells stand for. *)
Module World.

Record t := mk { library : Library.t; connections : gmap nat TransportConnectionState.t }.

Definition Call (A : Type) : Type := Method t NnrpFfiStatus.t A.

Definition handles (self : t) : NnrpFfiHandleStore.t := Library.handles (library self).
Definition transports (self : t) : TransportStore.t := Library.transports (library self).

Definition on_library {A} (m : Method Library.t NnrpFfiStatus.t A) : Call A := fun self =>
  let (o, l) := m (library self) in (o, mk l (connections self)).

(** A task on the connection of a cell, under its lock, with what other threads do to the stores
    in the meantime. *)
Definition on_connection {A} (cell : nat) (task : TransportConnectionState.t -> A * TransportConnectionState.t)
    (elsewhere : Library.t -> Library.t) : Call A := fun self =>
  match connections self !! cell with
  | Some connection =>
      let (a, connection) := task connection in
      (Ok a, mk (elsewhere (library self)) (<[cell := connection]> (connections self)))
  | None => (Panic, self)
  end.

(** A new connection in a cell of its own, and its handle. *)
Definition add_connection (address : Z) (connection : TransportConnectionState.t) : Call NnrpHandle.t := fun self =>
  let cell := fresh (dom (connections self)) in
  on_library (Library.on_transports
    (TransportStore.insert address NnrpHandleKind.TransportConnection (TransportResource.Connection cell)))
    (mk (library self) (<[cell := connection]> (connections self))).

End World.

Section calls.
Context `{Htarget : Target} (address : Z) (transport_is_linked : TransportId.t -> bool).
Implicit Types (elsewhere : Library.t -> Library.t).

Definition effective_packet_limit (max_packet_bytes : Z) : FF Z :=
  let value := if max_packet_bytes =? 0 then DEFAULT_MAX_PACKET_BYTES else max_packet_bytes in
  _ ← reject_if (usize_max <? value) (NnrpFfiStatus.invalid_argument 103);
  Ok value.

Definition parse_transport_id (value : Z) : FF TransportId.t :=
  transport ← map_err (fun _ => NnrpFfiStatus.invalid_argument 107) (TransportId.try_from_u32 value);
  _ ← reject_if (bool_decide (transport = TransportId.Unspecified)) (NnrpFfiStatus.invalid_argument 107);
  Ok transport.

Definition copied_bytes (view : NnrpBufferView.t) (detail : Z) (store : NnrpFfiHandleStore.t) : FF bytes :=
  _ ← NnrpBufferView.validate view;
  if NnrpBufferView.len view =? 0 then Ok []
  else
    _ ← reject_if (Pointer.is_null (NnrpBufferView.ptr view)) (NnrpFfiStatus.invalid_argument detail);
    NnrpFfiHandleStore.ffi_read_slice view store.

Definition copied_utf8 (view : NnrpBufferView.t) (detail : Z) (store : NnrpFfiHandleStore.t) : FF bytes :=
  bytes ← copied_bytes view detail store;
  _ ← reject_if (negb (utf8_valid bytes)) (NnrpFfiStatus.invalid_argument detail);
  Ok bytes.

(** [matches!(transport_id, Tcp | Quic | WebSocket)], for a transport of this library. *)
Definition has_security (transport_id : TransportId.t) : bool :=
  transport_is_linked transport_id &&
  match transport_id with
  | TransportId.Tcp | TransportId.Quic | TransportId.WebSocket => true
  | _ => false
  end.

Definition add_security_config (config : FF TransportSecurityConfig.t) : World.Call NnrpHandle.t :=
  config ← lift_outcome config;
  World.on_library (Library.on_transports (TransportStore.insert address NnrpHandleKind.TransportSecurityConfig
    (TransportResource.SecurityConfig config))).

Definition client_security_config (transport_id : Z) (server_name trusted_certificate_der : NnrpBufferView.t)
    (store : NnrpFfiHandleStore.t) : FF TransportSecurityConfig.t :=
  transport_id ← parse_transport_id transport_id;
  _ ← reject_if (negb (has_security transport_id)) (NnrpFfiStatus.invalid_argument 114);
  server_name ← copied_utf8 server_name 115 store;
  trusted_certificate_der ← copied_bytes trusted_certificate_der 116 store;
  _ ← reject_if (bool_decide (server_name = []) || bool_decide (trusted_certificate_der = []))
        (NnrpFfiStatus.invalid_argument 117);
  Ok (TransportSecurityConfig.Client transport_id server_name trusted_certificate_der).

Definition transport_client_security_config_create (transport_id flags : Z)
    (server_name trusted_certificate_der : NnrpBufferView.t) (out_config : Out) : World.Call NnrpHandle.t := fun self =>
  (_ ← lift_outcome (reject_if (is_null_out out_config || negb (flags =? 0)) (NnrpFfiStatus.invalid_argument 113));
   add_security_config
     (client_security_config transport_id server_name trusted_certificate_der (World.handles self))) self.

Definition server_security_config (transport_id : Z) (certificate_der private_key_pkcs8_der : NnrpBufferView.t)
    (store : NnrpFfiHandleStore.t) : FF TransportSecurityConfig.t :=
  transport_id ← parse_transport_id transport_id;
  _ ← reject_if (negb (has_security transport_id)) (NnrpFfiStatus.invalid_argument 119);
  certificate_der ← copied_bytes certificate_der 120 store;
  private_key_pkcs8_der ← copied_bytes private_key_pkcs8_der 121 store;
  _ ← reject_if (bool_decide (certificate_der = []) || bool_decide (private_key_pkcs8_der = []))
        (NnrpFfiStatus.invalid_argument 122);
  Ok (TransportSecurityConfig.Server transport_id certificate_der private_key_pkcs8_der).

Definition transport_server_security_config_create (transport_id flags : Z)
    (certificate_der private_key_pkcs8_der : NnrpBufferView.t) (out_config : Out) : World.Call NnrpHandle.t := fun self =>
  (_ ← lift_outcome (reject_if (is_null_out out_config || negb (flags =? 0)) (NnrpFfiStatus.invalid_argument 118));
   add_security_config
     (server_security_config transport_id certificate_der private_key_pkcs8_der (World.handles self))) self.

(** *** Opening *)

Record NnrpTransportOpenRequest := {
  transport_id : Z;
  flags : Z;
  endpoint : NnrpBufferView.t;
  config : NnrpHandle.t;
  open_max_packet_bytes : Z;
  timeout_ms : Z;
  reserved0 : Z
}.

(** Without the time limit, which the result of the task stands for. *)
Definition validated_open_request (request : NnrpTransportOpenRequest) (store : NnrpFfiHandleStore.t)
    : FF (TransportId.t * bytes * Z) :=
  _ ← reject_if (negb (flags request =? 0) || negb (reserved0 request =? 0)) (NnrpFfiStatus.invalid_argument 123);
  transport ← parse_transport_id (transport_id request);
  _ ← reject_if (negb (transport_is_linked transport)) (NnrpFfiStatus.invalid_argument 107);
  endpoint ← copied_utf8 (endpoint request) 124 store;
  _ ← reject_if (bool_decide (endpoint = [])) (NnrpFfiStatus.invalid_argument 124);
  limit ← effective_packet_limit (open_max_packet_bytes request);
  Ok (transport, endpoint, limit).

(** A task of another crate. *)
Definition elsewhere_run {A} (future : Poll A) elsewhere : World.Call A := fun self =>
  (run_async future, World.mk (elsewhere (World.library self)) (World.connections self)).

(** [connect] is [connect_transport]; [clock_us] are the times that the connection will read. *)
Definition transport_connect (request : NnrpTransportOpenRequest) (out_connection : Out)
    (connect : TransportId.t -> bytes -> NnrpHandle.t -> Z -> Poll FramedTransport.t) (clock_us : list Z) elsewhere
    : World.Call NnrpHandle.t :=
  _ ← lift_outcome (reject_if (is_null_out out_connection) (NnrpFfiStatus.invalid_argument 125));
  p ← pure_of (fun self => validated_open_request request (World.handles self));
  let '(transport, endpoint, limit) := p in
  connection ← elsewhere_run (connect transport endpoint (config request) limit) elsewhere;
  World.add_connection address (TransportConnectionState.wrap_connection connection limit clock_us).

(** [listen] is [listen_transport]: the cell of the listener and its endpoint. *)
Definition transport_listen (request : NnrpTransportOpenRequest) (out_listener : Out)
    (listen : TransportId.t -> bytes -> NnrpHandle.t -> Z -> Poll (nat * bytes)) elsewhere : World.Call NnrpHandle.t :=
  _ ← lift_outcome (reject_if (is_null_out out_listener) (NnrpFfiStatus.invalid_argument 126));
  p ← pure_of (fun self => validated_open_request request (World.handles self));
  let '(transport, endpoint, limit) := p in
  listener ← elsewhere_run (listen transport endpoint (config request) limit) elsewhere;
  World.on_library (Library.on_transports (TransportStore.insert address NnrpHandleKind.TransportListener
    (TransportResource.Listener listener.1 listener.2 limit))).

Definition transport_listener_endpoint (listener : NnrpHandle.t) (out_buffer out_endpoint : Out)
    : World.Call (NnrpHandle.t * NnrpBufferView.t) :=
  _ ← lift_outcome (reject_if (is_null_out out_buffer || is_null_out out_endpoint)
                      (NnrpFfiStatus.invalid_argument 135));
  endpoint ← pure_of (fun self => get_listener_endpoint address listener (World.transports self));
  World.on_library (Library.on_handles (insert_owned_buffer endpoint)).

(** [accept]: the connection that the listener of the cell accepts. *)
Definition transport_accept (listener : NnrpHandle.t) (reserved0 : Z) (out_connection : Out)
    (accept : nat -> Poll FramedTransport.t) (clock_us : list Z) elsewhere : World.Call NnrpHandle.t :=
  _ ← lift_outcome (reject_if (is_null_out out_connection || negb (reserved0 =? 0))
                      (NnrpFfiStatus.invalid_argument 127));
  p ← pure_of (fun self => get_listener address listener (World.transports self));
  connection ← elsewhere_run (accept p.1) elsewhere;
  World.add_connection address (TransportConnectionState.wrap_connection connection p.2 clock_us).

(** *** Batches *)

Definition set_detail (status : NnrpFfiStatus.t) (index : Z) : NnrpFfiStatus.t :=
  NnrpFfiStatus.mk (NnrpFfiStatus.status_code status) (NnrpFfiStatus.error_family status)
    (NnrpFfiStatus.protocol_error_code status) index.

(** The copies of the frames; an error has the number of its frame. *)
Fixpoint copy_frames (index : Z) (views : list NnrpBufferView.t) (store : NnrpFfiHandleStore.t) : FF (list bytes) :=
  match views with
  | [] => Ok []
  | view :: views =>
      bytes ← map_err (fun status => set_detail status index) (copied_bytes view 129 store);
      frames ← copy_frames (index + 1) views store;
      Ok (bytes :: frames)
  end.

(** [run_async_mapped] with the number of the frame in the status. *)
Definition run_async_indexed (result : Poll unit * Z) : FF unit :=
  match result.1 with
  | Ready (Err error) => Err (set_detail (status_from_runtime_error error) result.2)
  | other => run_async other
  end.

(** [frames] are the views that can be read at the pointer. *)
Definition transport_write_batch (connection : NnrpHandle.t) (frames : option (list NnrpBufferView.t))
    (frame_count flags : Z) elsewhere : World.Call unit :=
  _ ← lift_outcome (reject_if (negb (flags =? 0) || (frame_count =? 0) || negb (is_some frames))
                      (NnrpFfiStatus.invalid_argument 128));
  cell ← pure_of (fun self => get_connection address connection (World.transports self));
  views ← lift_outcome (if frame_count <=? len (default [] frames)
                        then Ok (take (Z.to_nat frame_count) (default [] frames)) else Panic);
  frame_bytes ← pure_of (fun self => copy_frames 0 views (World.handles self));
  result ← World.on_connection cell (TransportConnectionState.write_frames 0 frame_bytes) elsewhere;
  lift_outcome (run_async_indexed result).

Record NnrpTransportFrameBatch := {
  payload_owner : NnrpHandle.t;
  payload : NnrpBufferView.t;
  frame_count : Z
}.

Definition transport_read_batch (connection : NnrpHandle.t) (max_frames max_bytes : Z) (out_batch : Out)
    (first : list (RT RuntimePacket.t)) (windows : list TransportConnectionState.Window) elsewhere
    : World.Call NnrpTransportFrameBatch :=
  _ ← lift_outcome (reject_if (is_null_out out_batch) (NnrpFfiStatus.invalid_argument 130));
  cell ← pure_of (fun self => get_connection address connection (World.transports self));
  let max_frames := if max_frames =? 0 then DEFAULT_MAX_FRAMES else max_frames in
  max_bytes ← lift_outcome (effective_packet_limit max_bytes);
  result ← World.on_connection cell (TransportConnectionState.read_batch max_frames max_bytes first windows) elsewhere;
  packets ← lift_outcome (run_async result);
  encoded ← lift_outcome (encode_batch packets);
  owned ← World.on_library (Library.on_handles (insert_owned_buffer encoded));
  mret {| payload_owner := owned.1; payload := owned.2; frame_count := len packets mod modulus 4 |}.

(** *** Closing *)

Definition transport_close (handle : NnrpHandle.t) elsewhere : World.Call unit :=
  let kind := NnrpHandle.kind handle in
  _ ← lift_outcome (reject_if (negb ((kind =? NnrpHandleKind.repr NnrpHandleKind.TransportConnection)
                                     || (kind =? NnrpHandleKind.repr NnrpHandleKind.TransportListener)
                                     || (kind =? NnrpHandleKind.repr NnrpHandleKind.TransportSecurityConfig)))
                      (NnrpFfiStatus.invalid_handle kind));
  resource ← World.on_library (Library.on_transports (TransportStore.close address handle));
  match resource with
  | Some (TransportResource.Connection cell) =>
      result ← World.on_connection cell TransportConnectionState.role_close elsewhere;
      lift_outcome (run_async result)
  | _ => mret tt
  end.

End calls.
