(* ===== verification/FfiBatchTheory.v ===== *)
(** Batches of packets on a connection: what is written is what was given, in order and up to the
    frame that the status names; what is read is what has arrived, in order, and what does not
    fit stays for the next reader. *)

From S2P Require Import Prelude Bytes Errors Enums Wire Header Codes Object Cache Data Schema Control Capability Session RuntimeControl Recovery Packet RuntimeError Stream Async.
From S2P Require Import FfiTypes FfiStore FfiObjects FfiStoreTheory FfiTransport FfiRoles FfiBatch.
Import TransportConnectionState.

Local Open Scope Z_scope.

Abbreviation arrived s := (FramedTransport.reads (transport s)).
Abbreviation handed s := (FramedTransport.handed (transport s)).

(** The packets that are the given frames. *)
Abbreviation serialised := (Forall2 (fun packet bytes => RuntimePacket.to_bytes packet = Ok bytes)).

Ltac abind := unfold mbind at 1, async_bind at 1; try unfold lift at 1; cbv beta iota delta [protocol map_err reject_if].

Section batches.
Context `{Htarget : Target}.

(** ** Writing *)


Lemma packet_from_bytes_no_panic bytes limit : packet_from_bytes bytes limit <> Panic.
Proof.
  unfold packet_from_bytes. apply bind_no_panic; [apply reject_if_no_panic|intros [] H1%reject_if_Ok%Z.ltb_ge].
  apply bind_no_panic; [apply reject_if_no_panic|intros [] _]. unfold len in H1.
  apply bind_no_panic; [|intros h [Hv Ht]%protocol_Ok%header_parse_iff].
  { apply protocol_no_panic. exact (law_parse_no_panic (A := CommonHeader.t) _). }
  destruct (valid_lengths _ Hv).
  apply bind_no_panic; [|intros n [Hfit ->]%protocol_Ok%packet_len_Ok].
  { apply protocol_no_panic, packet_len_no_panic. }
  apply bind_no_panic; [apply reject_if_no_panic|intros [] Hl%reject_if_Ok%negb_false_iff%Z.eqb_eq].
  unfold len in Hl. apply bind_no_panic; [|intros md _].
  { unfold slice. by rewrite decide_True by lia. }
  apply bind_no_panic; [by rewrite slice_to_end by lia|intros bd _].
  apply protocol_no_panic, bind_no_panic; [apply packet_len_no_panic|intros].
  by apply bind_no_panic; [apply reject_if_no_panic|].
Qed.


(** ** Reading *)

Definition data : list RuntimePacket.t -> list RuntimePacket.t := filter (fun p => is_probe p = false).
Definition probes : list RuntimePacket.t -> list RuntimePacket.t := filter (fun p => is_probe p = true).

(** The acknowledgement of a probe. *)
Definition answers (packet ack : RuntimePacket.t) : Prop :=
  exists probe now metadata,
    TransportProbeMetadata.parse (RuntimePacket.metadata packet) = Ok probe /\
    TransportProbeAckMetadata.to_bytes
      {| TransportProbeAckMetadata.probe_id := TransportProbeMetadata.probe_id probe;
         TransportProbeAckMetadata.server_recv_ts_us := now |} = Ok metadata /\
    RuntimePacket.new (CommonHeader.new MessageType.TransportProbeAck 0 0) metadata [] = Ok ack.

(** The answers that were given to the transport: their writes returned, but perhaps the last. *)
Definition answered (all : bool) (acks : list (RuntimePacket.t * bool)) : Prop :=
  exists returned last, acks = ((fun p => (p, true)) <$> returned) ++ ((fun p => (p, false)) <$> option_list last) /\
    (all = true -> last = None).

(** A reader has taken packets from a connection at which [window] arrived: those that were
    pending, then those that have arrived, in order; the probes go to nobody, and each of them is
    answered. *)
Definition drained (all : bool) (window : list (RT RuntimePacket.t)) (s : t) (taken : list RuntimePacket.t) (s' : t) : Prop :=
  exists consumed acks,
    arrived s ++ window = (Ok <$> consumed) ++ arrived s' /\
    taken ++ pending s' = pending s ++ data consumed /\
    handed s' = handed s ++ acks /\ Forall2 answers (probes consumed) acks.*1 /\ answered all acks.

Lemma answered_nil all : answered all [].
Proof. by exists [], None. Qed.

Lemma answered_app all acks1 acks2 : answered true acks1 -> answered all acks2 -> answered all (acks1 ++ acks2).
Proof.
  intros (r1 & l1 & -> & Hl1) (r2 & l2 & -> & Hl2). rewrite (Hl1 eq_refl). exists (r1 ++ r2), l2.
  cbn. by rewrite app_nil_r, app_assoc, fmap_app.
Qed.

Lemma answered_weaken all acks : answered all acks -> answered false acks.
Proof. intros (r & l & -> & _). by exists r, l. Qed.

Lemma drained_weaken all w s taken s' : drained all w s taken s' -> drained false w s taken s'.
Proof. intros (c & a & H1 & H2 & H3 & H4 & H5). exists c, a. split_and!; [done..|by eapply answered_weaken]. Qed.

Lemma drained_refl all s : drained all [] s [] s.
Proof. exists [], []. rewrite !app_nil_r. split_and!; [done..|constructor|apply answered_nil]. Qed.

Lemma drained_trans all w1 w2 s1 s2 s3 t1 t2 :
  drained true w1 s1 t1 s2 -> drained all w2 s2 t2 s3 -> drained all (w1 ++ w2) s1 (t1 ++ t2) s3.
Proof.
  intros (c1 & a1 & Ha1 & Ht1 & Hw1 & Hq1 & Hs1) (c2 & a2 & Ha2 & Ht2 & Hw2 & Hq2 & Hs2).
  exists (c1 ++ c2), (a1 ++ a2). split_and!.
  - by rewrite app_assoc, Ha1, fmap_app, <- !app_assoc, Ha2.
  - unfold data in *. by rewrite filter_app, app_assoc, <- Ht1, <- !app_assoc, Ht2.
  - by rewrite Hw2, Hw1, <- app_assoc.
  - unfold probes in *. rewrite filter_app, fmap_app. by apply Forall2_app.
  - by apply answered_app.
Qed.

(** A packet that was taken last is put back. *)
Lemma drained_push all w s taken p s' :
  drained all w s (taken ++ [p]) s' -> drained all w s taken (set_pending s' (p :: pending s')).
Proof.
  intros (c & a & Ha & Ht & H). exists c, a. split_and!; [done| |apply H..].
  rewrite <- Ht, <- app_assoc. done.
Qed.

Lemma drained_pop all s p rest : pending s = p :: rest -> drained all [] s [p] (set_pending s rest).
Proof. intros Hp. exists [], []. cbn. rewrite Hp, !app_nil_r. split_and!; [done..|constructor|apply answered_nil]. Qed.

Lemma drained_arrive all w w' s taken s' : drained all w (arrive w' s) taken s' -> drained all (w' ++ w) s taken s'.
Proof.
  intros (c & a & Ha & H). exists c, a. cbn in Ha. split; [by rewrite app_assoc|exact H].
Qed.

(** A turn that consumes a probe, with its answer. *)
Lemma drained_probe ok s s' p ack :
  is_probe p = true -> arrived s = Ok p :: arrived s' -> pending s' = pending s ->
  handed s' = handed s ++ [(ack, ok)] -> answers p ack -> drained ok [] s [] s'.
Proof.
  intros Hp Ha Hpd Hw Hack. exists [p], [(ack, ok)]. unfold data, probes.
  rewrite !filter_cons, !filter_nil, decide_False, decide_True by congruence. cbn -[answers]. rewrite !app_nil_r, Hpd.
  split_and!; [done..|by repeat constructor|].
  destruct ok; [by exists [ack], None|by exists [], (Some ack)].
Qed.

Lemma unix_time_us_reads s :
  exists now s1, unix_time_us s = (Ready (Ok now), s1) /\ transport s1 = transport s /\ pending s1 = pending s.
Proof. unfold unix_time_us. destruct (clock_us s) as [|now clk]; eauto. Qed.

Lemma answer_probe_effect p s :
  let '(r, s') := answer_probe p s in
  arrived s' = arrived s /\ pending s' = pending s /\
  match r with
  | Ready (Ok _) => exists ack, handed s' = handed s ++ [(ack, true)] /\ answers p ack
  | Pending => exists ack, handed s' = handed s ++ [(ack, false)] /\ answers p ack
  | _ => True
  end.
Proof.
  unfold answer_probe. abind. destruct (TransportProbeMetadata.parse _) as [probe|e|] eqn:Hp; [|done..].
  abind. destruct (negb _); [done|].
  unfold mbind at 1, async_bind at 1. destruct (unix_time_us_reads s) as (now & s1 & -> & <- & <-).
  abind. destruct (TransportProbeAckMetadata.to_bytes _) as [metadata|e|] eqn:Hb; [|done..].
  abind. destruct (RuntimePacket.new _ _ _) as [ack|e|] eqn:Hn; [|done..].
  assert (answers p ack) as Hans by (by exists probe, now, metadata).
  unfold on_transport, FramedTransport.write_packet.
  destruct s1 as [[k rs ps ws cs wr] pd mx clk]; cbn -[answers].
  destruct ws as [|[[]|e|] ws]; cbn -[answers]; by eauto.
Qed.

(** Reading, when no packet is pending: a packet that is not a probe is taken, or none. *)
Lemma read_loop_drains turns s :
  pending s = [] ->
  match read_loop turns s with
  | (Ready (Ok p), s') => drained true [] s [p] s' /\ pending s' = []
  | (Pending, s') => drained false [] s [] s' /\ pending s' = []
  | _ => True
  end.
Proof.
  revert s. induction turns as [|turns IH]; intros s Hpd; [done|]. cbn [read_loop].
  unfold mbind at 1, async_bind at 1, on_transport at 1, FramedTransport.read_packet.
  destruct (arrived s) as [|[p|e|] rest] eqn:Ha; [|destruct (is_probe p) eqn:Hq|done..].
  - destruct s as [[k rs ps ws cs wr] pd mx clk]. cbn in *. subst. split; [|done]. apply drained_refl.
  - cbn [negb]. unfold mbind at 1, async_bind at 1.
    set (s1 := set_transport s _).
    pose proof (answer_probe_effect p s1) as He.
    destruct (answer_probe p s1) as [r s2]. destruct He as (Ha2 & Hp2 & Hack).
    destruct r as [[[]|e|]|]; [|done|done|]; destruct Hack as (ack & Hw2 & Hack).
    + assert (drained true [] s [] s2) as Hd by (eapply drained_probe; [done|rewrite Ha, Ha2|..]; done).
      assert (pending s2 = []) as Hpd2 by (by rewrite Hp2). specialize (IH s2 Hpd2).
      destruct (read_loop turns s2) as [[[p'|e|]|] s3]; [|done|done|].
      all: destruct IH as [Hd' Hpd3]; split; [|done]; by apply (drained_trans _ [] [] _ s2 _ [] _).
    + split; [|by rewrite Hp2]. eapply drained_probe; [done|rewrite Ha, Ha2|..]; done.
  - cbn. split; [|done]. exists [p], []. unfold data, probes.
    rewrite !filter_cons, !filter_nil, decide_True, decide_False by congruence. cbn.
    rewrite Ha, Hpd, !app_nil_r. split_and!; [done..|constructor|apply answered_nil].
Qed.

Lemma read_packet_drains window s :
  pending s = [] ->
  match read_packet (arrive window s) with
  | (Ready (Ok p), s') => drained true window s [p] s' /\ pending s' = []
  | (Pending, s') => drained false window s [] s' /\ pending s' = []
  | _ => True
  end.
Proof.
  intros Hp. unfold read_packet. set (turns := S _).
  pose proof (read_loop_drains turns (arrive window s) Hp) as Hd.
  destruct (read_loop turns _) as [[[p|e|]|] s']; [|done|done|].
  all: destruct Hd as [Hd%drained_arrive Hp']; by rewrite app_nil_r in Hd.
Qed.

(** What a reader may use of a window: nothing when a packet is pending. *)
Definition used (window : list (RT RuntimePacket.t)) (s : t) : list (RT RuntimePacket.t) :=
  if bool_decide (pending s = []) then window else [].

Lemma role_read_drains window s p s' :
  role_read_packet window s = (Ready (Ok p), s') -> drained true (used window s) s [p] s'.
Proof.
  unfold role_read_packet, used. destruct (pending s) as [|q rest] eqn:Hp.
  - intros Hr. pose proof (read_packet_drains window s Hp) as Hd. rewrite Hr in Hd. by destruct Hd.
  - intros [= <- <-]. by apply drained_pop.
Qed.

Lemma next_packet_drains window s o s' :
  next_packet window s = (Ready (Ok o), s') -> drained (is_some o) (used window.1 s) s (option_list o) s'.
Proof.
  unfold next_packet, used. destruct (pending s) as [|q rest] eqn:Hp.
  - pose proof (read_packet_drains window.1 s Hp) as Hd.
    destruct (read_packet _) as [[[p|e|]|] s1]; [|done|done|destruct window.2; [done|]].
    all: destruct Hd as [Hd _]; by intros [= <- <-].
  - intros [= <- <-]. by apply drained_pop.
Qed.

(** The size of a batch as it is encoded. *)
Fixpoint batch_size (frames : list bytes) : Z :=
  match frames with
  | [] => 0
  | bytes :: frames => len bytes + BATCH_LENGTH_PREFIX_BYTES + batch_size frames
  end.

Lemma read_frames_drains room max_bytes total bytes windows s frames s' :
  read_frames room max_bytes total bytes windows s = (Ready (Ok frames), s') ->
  exists more taken n, frames = bytes ++ more /\ serialised taken more /\
    drained false (concat (fst <$> take n windows)) s taken s' /\ (length more <= room)%nat /\
    (total <= max_bytes -> total + batch_size more <= max_bytes).
Proof.
  revert total bytes windows s. induction room as [|room IH]; intros total bytes windows s.
  { intros [= <- <-]. exists [], [], 0%nat. rewrite app_nil_r. split_and!; [done|constructor|apply drained_refl|done|cbn; lia]. }
  cbn [read_frames]. destruct (negb _).
  { intros [= <- <-]. exists [], [], 0%nat. rewrite app_nil_r. split_and!; [done|constructor|apply drained_refl|cbn; lia..]. }
  intros (waits & s0 & [-> ->]%returns_gets & (o & s1 & Hn & Hk)%returns_bind)%returns_bind.
  apply next_packet_drains in Hn.
  assert (used (default ([], false) (head windows)).1 s = concat (fst <$> take (if bool_decide (pending s = []) then 1 else 0)%nat windows)) as Hu.
  { unfold used. case_bool_decide; [|done]. destruct windows; cbn; [done|by rewrite app_nil_r]. }
  destruct o as [p|]; cbn [option_list] in Hn; cycle 1.
  { apply returns_ret in Hk as [-> ->]. rewrite Hu in Hn. eexists [], [], _. rewrite app_nil_r.
    split_and!; [done|constructor|exact Hn|cbn; lia..]. }
  apply returns_bind in Hk as (b & s2 & [Hb%protocol_Ok ->]%returns_lift & Hk).
  apply returns_bind in Hk as (n & s3 & [Hl ->]%returns_lift & Hk).
  unfold encoded_len in Hl. apply ok_or_Ok, checked_add_Some in Hl as [-> Hmax].
  destruct (exceeds _ _ _) eqn:Hx.
  { apply returns_bind in Hk as ([] & s4 & ->%returns_modify & [-> ->]%returns_ret).
    eexists [], [], _. rewrite app_nil_r. rewrite Hu in Hn.
    split_and!; [done|constructor|exact (drained_push _ _ _ [] _ _ (drained_weaken _ _ _ _ _ Hn))|cbn; lia..]. }
  unfold exceeds in Hx. destruct (checked_add _ _ _) as [next|] eqn:Hc; [|done].
  apply checked_add_Some in Hc as [-> _]. cbn in Hx. apply Z.ltb_ge in Hx.
  apply IH in Hk as (more & taken & k & -> & Hs & Hd & Hlen & Hsize). rewrite Hu in Hn.
  pose proof (drained_trans _ _ _ _ _ _ _ _ Hn Hd) as Hall. rewrite <- concat_app, <- fmap_app in Hall.
  exists (b :: more), (p :: taken).
  exists (if bool_decide (pending s = []) then S k else k). split_and!.
  - by rewrite <- app_assoc.
  - by constructor.
  - case_bool_decide; [|exact Hall]. destruct windows as [|w ws]; [by destruct k|exact Hall].
  - cbn. lia.
  - cbn. intros _. unfold BATCH_LENGTH_PREFIX_BYTES in *. lia.
Qed.

Lemma read_batch_drains max_frames max_bytes first windows s frames s' :
  0 < max_frames ->
  read_batch max_frames max_bytes first windows s = (Ready (Ok frames), s') ->
  exists taken n, serialised taken frames /\
    drained false (used first s ++ concat (fst <$> take n windows)) s taken s' /\
    1 <= len frames <= max_frames /\ batch_size frames <= max_bytes.
Proof.
  intros Hm Hb. unfold read_batch in Hb.
  apply returns_bind in Hb as (p & s1 & Hp%role_read_drains & Hb).
  apply returns_bind in Hb as (b & s2 & [Hs%protocol_Ok ->]%returns_lift & Hb).
  apply returns_bind in Hb as (n & s3 & [Hl ->]%returns_lift & Hb).
  unfold encoded_len in Hl. apply ok_or_Ok, checked_add_Some in Hl as [-> _].
  destruct (max_bytes <? _) eqn:Hx; [by apply returns_bind in Hb as (u & s2 & _ & [Hb _]%returns_lift)|].
  apply Z.ltb_ge in Hx.
  apply read_frames_drains in Hb as (more & taken & k & -> & Hser & Hd & Hlen & Hsize).
  exists (p :: taken), k. split_and!.
  - by constructor.
  - by apply (drained_trans _ _ _ _ _ _ [p] _ Hp).
  - unfold len. rewrite length_app. cbn. lia.
  - unfold len. rewrite length_app. cbn. lia.
  - cbn. specialize (Hsize Hx). lia.
Qed.

(** A packet that is larger than the caller has room for stays for the next reader. *)
Lemma too_large_stays max_frames max_bytes first windows s p s1 b :
  role_read_packet first s = (Ready (Ok p), s1) -> RuntimePacket.to_bytes p = Ok b ->
  max_bytes < len b + BATCH_LENGTH_PREFIX_BYTES <= usize_max ->
  exists s', read_batch max_frames max_bytes first windows s
      = (Ready (Err (FrameTooLarge (len b + BATCH_LENGTH_PREFIX_BYTES) max_bytes)), s') /\
    drained true (used first s) s [] s' /\ head (pending s') = Some p.
Proof.
  intros Hr Hb Hm. exists (set_pending s1 (p :: pending s1)). split; [|split; [|done]].
  - unfold read_batch, mbind, async_bind. rewrite Hr. unfold lift. rewrite Hb. cbn [protocol map_err].
    unfold encoded_len. replace (checked_add _ _ _) with (Some (len b + BATCH_LENGTH_PREFIX_BYTES))
      by (symmetry; apply checked_add_Some; lia).
    cbn [ok_or]. by replace (max_bytes <? _) with true by lia.
  - by apply (drained_push _ _ _ []), role_read_drains.
Qed.

End batches.

(** ** The encoding of a batch *)

(** The reader of the host: a length of four bytes before each frame. *)
Fixpoint decode_batch (frames : nat) (encoded : bytes) : option (list bytes) :=
  match frames with
  | O => if bool_decide (encoded = []) then Some [] else None
  | S frames =>
      let n := Z.to_nat (le_value (take 4 encoded)) in
      if (length encoded <? 4 + n)%nat then None
      else rest ← decode_batch frames (drop (4 + n) encoded); Some (take n (drop 4 encoded) :: rest)
  end.

Lemma encode_batch_decodes packets encoded :
  encode_batch packets = Ok encoded ->
  decode_batch (length packets) encoded = Some packets /\ len encoded = batch_size packets.
Proof.
  revert encoded. induction packets as [|p packets IH]; intros encoded; cbn [encode_batch]; [by intros [= <-]|].
  intros ([] & Hl%reject_if_Ok%Z.ltb_ge & (rest & [Hd Hn]%IH & He)%bind_Ok)%bind_Ok.
  apply (inj Ok) in He as <-. cbn [length decode_batch batch_size]. rewrite take_app_length' by (by rewrite length_le_bytes).
  rewrite le_value_bytes, Z.mod_small
    by (unfold len, u32_max in *; change (modulus 4) with 4294967296; lia).
  unfold len at 1 2 3. rewrite Nat2Z.id. cbv zeta.
  replace (_ <? _)%nat with false
    by (symmetry; apply Nat.ltb_ge; rewrite !length_app, length_le_bytes; lia).
  split.
  - rewrite (drop_app_length' (le_bytes 4 _)) by (by rewrite length_le_bytes). rewrite take_app_length.
    rewrite (app_assoc (le_bytes 4 _) p rest), drop_app_length' by (unfold len; rewrite length_app, length_le_bytes; lia). by rewrite Hd.
  - unfold len in *. rewrite !length_app, length_le_bytes. unfold BATCH_LENGTH_PREFIX_BYTES. lia.
Qed.

(** ** A buffer can be read through its view *)

Lemma call_bind_Ok {S E A B} (m : Method S E A) (k : A -> Method S E B) s b s' :
  mbind k m s = (Ok b, s') <-> exists a s1, m s = (Ok a, s1) /\ k a s1 = (Ok b, s').
Proof.
  unfold mbind, method_bind. destruct (m s) as [[a|e|] s1]; split; try naive_solver.
Qed.

Lemma owned_buffer_read bytes s owner view s' :
  insert_owned_buffer bytes s = (Ok (owner, view), s') ->
  NnrpFfiHandleStore.ffi_read_slice view s' = Ok bytes.
Proof.
  unfold insert_owned_buffer, insert_new.
  intros (h & s1 & (i & s2 & Hid & ([] & s3 & Hins & [= <- <-])%call_bind_Ok)%call_bind_Ok &
          (stored & s4 & Hexp & [= <- <- <-])%call_bind_Ok)%call_bind_Ok.
  unfold expect in Hexp. apply call_bind_Ok in Hexp as (r & s5 & [= Hget <-] & [= Hr <-]).
  apply get_Ok in Hget as [_ Hget]. unfold NnrpFfiHandleStore.insert in Hins.
  destruct (_ ≫= _); [|done..]. injection Hins as <-. cbn in Hget.
  rewrite lookup_insert_eq in Hget. injection Hget as <-. apply ok_or_Ok in Hr as [= <-].
  unfold NnrpFfiHandleStore.ffi_read_slice, NnrpFfiHandleStore.view_of.
  cbn -[len NnrpHandle.key]. rewrite lookup_insert_eq. cbn -[len NnrpHandle.key].
  destruct (Z.eqb_spec (len bytes) 0) as [H0|H0].
  { unfold len in H0. by destruct bytes. }
  rewrite Z.leb_refl. unfold len. by rewrite Nat2Z.id, firstn_all.
Qed.

(** ** The calls *)

Section contract.
Context `{Htarget : Target} (address : Z).


Lemma on_connection_Ok {A} cell (task : t -> A * t) elsewhere w a w' :
  World.on_connection cell task elsewhere w = (Ok a, w') ->
  exists s, World.connections w !! cell = Some s /\ a = (task s).1 /\
    w' = World.mk (elsewhere (World.library w)) (<[cell := (task s).2]> (World.connections w)).
Proof.
  unfold World.on_connection. destruct (_ !! cell) as [s|]; [|done]. destruct (task s) as [x s'] eqn:Ht.
  intros [= <- <-]. exists s. by rewrite Ht.
Qed.

(** The limits that are meant when the caller gives zero. *)
Definition frame_limit (max_frames : Z) : Z := if max_frames =? 0 then DEFAULT_MAX_FRAMES else max_frames.
Definition byte_limit (max_bytes : Z) : Z := if max_bytes =? 0 then DEFAULT_MAX_PACKET_BYTES else max_bytes.

(** C23: a batch that is read has the packets of the connection in order: those that were kept
    back before, then those that have arrived, without the probes; what was read and does not fit is
    kept for the next reader, so that nothing is lost or doubled.  For each probe that was consumed
    its acknowledgement was given to the transport, in order and nothing else; the writes of the
    acknowledgements returned, but perhaps that of the last, at which the wait may have ended.  The
    batch has at least one packet and no more packets and bytes than the caller asked for, and
    the host gets the packets back from the buffer of the batch. *)
Theorem read_batch_exact connection max_frames max_bytes out_batch first windows elsewhere w batch w' :
  0 <= max_frames < modulus 4 ->
  transport_read_batch address connection max_frames max_bytes out_batch first windows elsewhere w = (Ok batch, w') ->
  exists cell s s' taken frames n encoded,
    get_connection address connection (World.transports w) = Ok cell /\
    World.connections w !! cell = Some s /\ World.connections w' = <[cell := s']> (World.connections w) /\
    drained false (used first s ++ concat (fst <$> take n windows)) s taken s' /\ serialised taken frames /\
    frame_count batch = len frames /\ 1 <= frame_count batch <= frame_limit max_frames /\
    NnrpFfiHandleStore.ffi_read_slice (payload batch) (World.handles w') = Ok encoded /\
    len encoded <= byte_limit max_bytes /\ decode_batch (length frames) encoded = Some frames.
Proof.
  intros Hf Hb. unfold transport_read_batch in Hb.
  apply call_bind_Ok in Hb as ([] & w0 & [= _ <-] & Hb). apply call_bind_Ok in Hb as (cell & w0 & [= Hcell <-] & Hb).
  apply call_bind_Ok in Hb as (limit & w0 & [= Hlimit <-] & Hb).
  apply bind_Ok in Hlimit as ([] & _ & [= <-]). fold (byte_limit max_bytes) (frame_limit max_frames) in Hb.
  apply call_bind_Ok in Hb as (r & w1 & (s & Hs & -> & ->)%on_connection_Ok & Hb).
  set (task := read_batch _ _ _ _) in Hb. destruct (task s) as [r s'] eqn:Ht. subst task. cbn [fst snd] in Hb.
  apply call_bind_Ok in Hb as (frames & w2 & [= Hr <-] & Hb).
  destruct r as [[fs|e|]|]; [|done..]. injection Hr as ->.
  apply call_bind_Ok in Hb as (encoded & w3 & [= [Hd Hn]%encode_batch_decodes <-] & Hb).
  apply call_bind_Ok in Hb as ([owner view] & w4 & Ho & [= <- <-]).
  assert (0 < frame_limit max_frames < modulus 4) as Hlim.
  { unfold frame_limit, DEFAULT_MAX_FRAMES. change (modulus 4) with 4294967296 in *. destruct (Z.eqb_spec max_frames 0); lia. }
  apply read_batch_drains in Ht as (taken & n & Hser & Hdr & Hlen & Hsize); [|lia].
  unfold World.on_library, Library.on_handles in Ho. cbn -[insert_owned_buffer] in Ho.
  destruct (insert_owned_buffer encoded _) as [o h] eqn:Hi. injection Ho as -> <-.
  apply owned_buffer_read in Hi. exists cell, s, s', taken, frames, n, encoded. cbn -[NnrpFfiHandleStore.ffi_read_slice].
  rewrite Z.mod_small by lia. split_and!; [done..|lia|lia|exact Hi|lia|exact Hd].
Qed.


End contract.

(** ** Examples *)

Module BatchExample.
#[local] Existing Instance target64.

Definition ping (session_id : Z) : RuntimePacket.t :=
  RuntimePacket.mk (CommonHeader.mk CURRENT_VERSION_MAJOR CURRENT_WIRE_FORMAT MessageType.Ping
    (Z.of_nat COMMON_HEADER_LEN) 0 0 0 session_id 0 0 0 0) [] [].

Definition probe : RuntimePacket.t :=
  RuntimePacket.mk (CommonHeader.new MessageType.TransportProbe 16 0)
    (wire {| TransportProbeMetadata.probe_id := 7; TransportProbeMetadata.probe_payload_bytes := 0;
             TransportProbeMetadata.client_send_ts_us := 1 |}) [].

(** A connection with a packet that was kept back, a probe and a packet that has arrived. *)
Definition connection : t :=
  mk (FramedTransport.mk RuntimeTransportKind.Tcp [Ok probe; Ok (ping 2)] [] [Ok tt; Ok tt; Err FrameIdOverflow] [] [])
    [ping 1] 1000 [5].

Definition store : TransportStore.t :=
  (TransportStore.insert 0 NnrpHandleKind.TransportConnection (TransportResource.Connection 0) TransportStore.initial).2.
Definition handle : NnrpHandle.t := transport_handle 0 NnrpHandleKind.TransportConnection 1 1.
Definition world : World.t := World.mk (Library.mk NnrpFfiHandleStore.initial store) {[0%nat := connection]}.

Definition read (max_frames : Z) (windows : list Window) :=
  transport_read_batch 0 handle max_frames 0 Writable [] windows id world.
Definition view (bytes : bytes) : NnrpBufferView.t := NnrpBufferView.mk (Pointer.Host bytes) (len bytes).

(** Both packets are read and the probe is answered. *)
Definition batch : NnrpTransportFrameBatch :=
  Build_NnrpTransportFrameBatch (NnrpHandle.new NnrpHandleKind.Buffer 1 1)
    (NnrpBufferView.mk (Pointer.Owned (NnrpHandleKind.repr NnrpHandleKind.Buffer, 1)) 88) 2.

Lemma read_batch_exact_witness :
  (read 2 []).1 = Ok batch /\
  exists taken frames s', drained false [] connection taken s' /\
    serialised taken frames /\ len frames = 2.
Proof.
  assert ((read 2 []).1 = Ok batch) as Hb by (vm_compute; reflexivity). split; [exact Hb|].
  destruct (read_batch_exact 0 handle 2 0 Writable [] [] id world batch (read 2 []).2)
    as (cell & s & s' & taken & frames & n & encoded & Hc & Hs & Hs' & Hd & Hser & Hf & _).
  - split; [lia|vm_compute; reflexivity].
  - rewrite <- Hb. symmetry. exact (surjective_pairing (read 2 [])).
  - assert (get_connection 0 handle (World.transports world) = Ok 0%nat) as H0 by (vm_compute; reflexivity).
    rewrite H0 in Hc. injection Hc as <-.
    assert (World.connections world !! 0%nat = Some connection) as H1 by (vm_compute; reflexivity).
    rewrite H1 in Hs. injection Hs as <-. exists taken, frames, s'. split; [|split; [exact Hser|by rewrite <- Hf]].
    unfold used in Hd. by destruct n, (bool_decide _).
Defined.



(** A read that fails, or whose time is over, drops the packets that the call has taken. *)
Example batch_drops_packets :
  (read 16 [([Err FrameIdOverflow], false)]).1 = Err (status_from_runtime_error FrameIdOverflow) /\
  (read 16 [([], false); ([], true)]).1 = Err (transport_status NnrpFfiStatusCode.WouldBlock 1) /\
  pending <$> World.connections (read 16 [([Err FrameIdOverflow], false)]).2 !! 0%nat = Some [] /\
  pending <$> World.connections (read 16 [([], false); ([], true)]).2 !! 0%nat = Some [].
Proof. vm_compute. done. Qed.

End BatchExample.
