(* ===== verification/FfiPolicy.v ===== *)
(** The admission policy of the C interface ([src/crates/nnrp-ffi/src/lib.rs]): a server asks the
    host with a callback and a request id whether a session may open, and the host answers later,
    from any thread, with [nnrp_server_policy_complete].

    An evaluation is a task of the server.  It has a guard, which takes its request out of the
    table, and the receiver of a channel for one decision; the table has the senders.  What
    happens while the callback runs and while the task waits is an argument. *)

From S2P Require Import Prelude Bytes Errors Enums Wire Header Codes Session Capability Packet RuntimeError Async.
From S2P Require Import Object Cache Data Schema RuntimeControl Recovery Client Server FfiTypes FfiStore.

Local Open Scope Z_scope.

(** ** [String::from_utf8_lossy] *)

Definition REPLACEMENT : bytes := [xef; xbf; xbd].

(** A sequence that breaks off is replaced by one character, up to the byte that does not fit. *)
Fixpoint utf8_lossy (bs : bytes) : bytes :=
  match bs with
  | [] => []
  | b0 :: r0 =>
      if in_range 0 0x7f b0 then b0 :: utf8_lossy r0
      else if in_range 0xc2 0xdf b0 then
        match r0 with
        | b1 :: r1 => if utf8_tail b1 then b0 :: b1 :: utf8_lossy r1 else REPLACEMENT ++ utf8_lossy r0
        | [] => REPLACEMENT
        end
      else if in_range 0xe0 0xef b0 then
        match r0 with
        | b1 :: r1 =>
            if in_range (if Z_of_byte b0 =? 0xe0 then 0xa0 else 0x80)
                        (if Z_of_byte b0 =? 0xed then 0x9f else 0xbf) b1 then
              match r1 with
              | b2 :: r2 => if utf8_tail b2 then b0 :: b1 :: b2 :: utf8_lossy r2 else REPLACEMENT ++ utf8_lossy r1
              | [] => REPLACEMENT
              end
            else REPLACEMENT ++ utf8_lossy r0
        | [] => REPLACEMENT
        end
      else if in_range 0xf0 0xf4 b0 then
        match r0 with
        | b1 :: r1 =>
            if in_range (if Z_of_byte b0 =? 0xf0 then 0x90 else 0x80)
                        (if Z_of_byte b0 =? 0xf4 then 0x8f else 0xbf) b1 then
              match r1 with
              | b2 :: r2 =>
                  if utf8_tail b2 then
                    match r2 with
                    | b3 :: r3 =>
                        if utf8_tail b3 then b0 :: b1 :: b2 :: b3 :: utf8_lossy r3 else REPLACEMENT ++ utf8_lossy r2
                    | [] => REPLACEMENT
                    end
                  else REPLACEMENT ++ utf8_lossy r1
              | [] => REPLACEMENT
              end
            else REPLACEMENT ++ utf8_lossy r0
        | [] => REPLACEMENT
        end
      else REPLACEMENT ++ utf8_lossy r0
  end.

Lemma utf8_valid_replacement bs : utf8_valid (REPLACEMENT ++ bs) = utf8_valid bs.
Proof. reflexivity. Qed.

Ltac utf8_known :=
  cbn [utf8_valid];
  repeat match goal with
    | H : in_range _ _ _ = _ |- _ => rewrite H
    | H : utf8_tail _ = _ |- _ => rewrite H
    end; cbn [andb].
Ltac utf8_leaf IH :=
  split;
  [rewrite ?utf8_valid_replacement; utf8_known; first [done | apply IH; cbn; lia]
  |utf8_known; first [done | intros Hv; do 4 try (f_equal; []); by apply IH; [cbn; lia|] | repeat case_match; done]].

(** The result is a string, and a string is its own result. *)
Lemma utf8_lossy_spec bs : utf8_valid (utf8_lossy bs) = true /\ (utf8_valid bs = true -> utf8_lossy bs = bs).
Proof.
  induction bs as [bs IH] using (induction_ltof1 _ (@length byte)). unfold ltof in IH.
  destruct bs as [|b0 r0]; [done|]. cbn [utf8_lossy].
  destruct (in_range 0 0x7f b0) eqn:H0; [utf8_leaf IH|].
  destruct (in_range 0xc2 0xdf b0) eqn:H1.
  { destruct r0 as [|b1 r1]; [utf8_leaf IH|]. destruct (utf8_tail b1) eqn:H2; utf8_leaf IH. }
  destruct (in_range 0xe0 0xef b0) eqn:H2.
  { destruct r0 as [|b1 r1]; [utf8_leaf IH|]. destruct (in_range _ _ b1) eqn:H3; [|destruct r1; utf8_leaf IH].
    destruct r1 as [|b2 r2]; [utf8_leaf IH|]. destruct (utf8_tail b2) eqn:H4; utf8_leaf IH. }
  destruct (in_range 0xf0 0xf4 b0) eqn:H3; [|destruct r0 as [|b1 [|b2 [|b3 r3]]]; utf8_leaf IH].
  destruct r0 as [|b1 r1]; [utf8_leaf IH|].
  destruct (in_range _ _ b1) eqn:H4; [|destruct r1 as [|b2 [|b3 r3]]; utf8_leaf IH].
  destruct r1 as [|b2 r2]; [utf8_leaf IH|]. destruct (utf8_tail b2) eqn:H5; [|destruct r2; utf8_leaf IH].
  destruct r2 as [|b3 r3]; [utf8_leaf IH|]. destruct (utf8_tail b3) eqn:H6; utf8_leaf IH.
Qed.

(** ** Requests *)

(** An evaluation that was not dropped: the decision that has been sent to it, and whether its
    receiver is still there (it is dropped before the guard is). *)
Module Evaluation.

Record t := mk { received : option NnrpServerPolicyDecision.t; receiver : bool }.

#[global] Instance decision_eq_dec : EqDecision NnrpServerPolicyDecision.t.
Proof. solve_decision. Defined.
#[global] Instance eq_dec : EqDecision t.
Proof. solve_decision. Defined.

End Evaluation.

Module PolicyRequests.

Record t := mk {
  next_request_id : Z;
  senders : gset Z;
  evaluations : gmap Z Evaluation.t
}.

Definition initial : t := mk 1 ∅ ∅.

(** [fetch_add(1)] until the id is free and not zero.  Without a free id the loop does not end:
    [turns] is two more than the ids that are taken. *)
Fixpoint next_free (turns : nat) (next : Z) (taken : gset Z) : option (Z * Z) :=
  match turns with
  | O => None
  | S turns =>
      let request_id := next in
      let next := (next + 1) mod modulus 8 in
      if (request_id =? 0) || bool_decide (request_id ∈ taken) then next_free turns next taken
      else Some (request_id, next)
  end.

Definition register_server_policy_request (self : t) : option (Z * t) :=
  match next_free (size (senders self) + 2) (next_request_id self) (senders self) with
  | Some (request_id, next) =>
      Some (request_id, mk next ({[request_id]} ∪ senders self)
                          (<[request_id := Evaluation.mk None true]> (evaluations self)))
  | None => None
  end.

(** The receiver is dropped, then the guard. *)
Definition drop_receiver (request_id : Z) (self : t) : t :=
  mk (next_request_id self) (senders self)
    (alter (fun e => Evaluation.mk (Evaluation.received e) false) request_id (evaluations self)).
Definition drop_guard (request_id : Z) (self : t) : t :=
  mk (next_request_id self) (senders self ∖ {[request_id]}) (delete request_id (evaluations self)).

Module NnrpServerPolicyCompleteRequest.
Record t := mk {
  request_id : Z;
  accepted : Z;
  reserved0 : list Z;
  session_error_code : Z;
  diagnostic : NnrpBufferView.t
}.
End NnrpServerPolicyCompleteRequest.

(** The decision that a request of the host stands for. *)
Definition decision_of (request : NnrpServerPolicyCompleteRequest.t) (store : NnrpFfiHandleStore.t)
    : FF NnrpServerPolicyDecision.t :=
  let accepted := NnrpServerPolicyCompleteRequest.accepted request in
  let code := NnrpServerPolicyCompleteRequest.session_error_code request in
  let diagnostic := NnrpServerPolicyCompleteRequest.diagnostic request in
  _ ← reject_if ((NnrpServerPolicyCompleteRequest.request_id request =? 0)
        || negb (bool_decide (NnrpServerPolicyCompleteRequest.reserved0 request = [0; 0; 0]))
        || (1 <? accepted)
        || negb (is_ok (NnrpBufferView.validate diagnostic))
        || (negb (accepted =? 0) && negb (code =? SESSION_ERROR_NONE))
        || ((accepted =? 0) && (code =? SESSION_ERROR_NONE)))
        (NnrpFfiStatus.invalid_argument 175);
  if negb (accepted =? 0) then Ok NnrpServerPolicyDecision.accept
  else
    text ← NnrpFfiHandleStore.ffi_read_slice diagnostic store;
    Ok (NnrpServerPolicyDecision.reject code (utf8_lossy text)).

(** [sender.send(decision)] fails when the receiver is gone. *)
Definition send (request_id : Z) (decision : NnrpServerPolicyDecision.t) : Method t NnrpFfiStatus.t unit := fun self =>
  match evaluations self !! request_id with
  | Some (Evaluation.mk _ true) =>
      (Ok tt, mk (next_request_id self) (senders self)
                (<[request_id := Evaluation.mk (Some decision) true]> (evaluations self)))
  | _ => (Err (NnrpFfiStatus.invalid_state 177), self)
  end.

Definition nnrp_server_policy_complete (request : NnrpServerPolicyCompleteRequest.t) (store : NnrpFfiHandleStore.t)
    : Method t NnrpFfiStatus.t unit := fun self =>
  let request_id := NnrpServerPolicyCompleteRequest.request_id request in
  match decision_of request store with
  | Ok decision =>
      if bool_decide (request_id ∈ senders self)
      then send request_id decision
             (mk (next_request_id self) (senders self ∖ {[request_id]}) (evaluations self))
      else (Err (NnrpFfiStatus.invalid_state 176), self)
  | Err status => (Err status, self)
  | Panic => (Panic, self)
  end.

(** ** An evaluation *)

(** What a task that is polled finds: the decision, a sender that was dropped, or nothing yet. *)
Definition poll_decision (request_id : Z) (self : t) : option NnrpServerPolicyDecision.t :=
  match evaluations self !! request_id with
  | Some (Evaluation.mk (Some decision) _) => Some decision
  | _ =>
      if bool_decide (request_id ∈ senders self) then None
      else Some (NnrpServerPolicyDecision.reject SESSION_ERROR_PROFILE_UNSUPPORTED
                   (str "server policy request was cancelled before completion"))
  end.

(** [display] and [decimal] are the texts of an error and of a number; [begin] is the callback of
    the host with what happens until it returns, [meanwhile] what happens until the task is polled
    the last time. *)
Definition evaluate (display : NnrpError -> bytes) (decimal : Z -> bytes) (open : SessionOpenMetadata.t)
    (begin : Z -> bytes -> t -> Z * t) (meanwhile : Z -> t -> t) (self : t) : Poll NnrpServerPolicyDecision.t * t :=
  match SessionOpenMetadata.to_bytes open with
  | Err error =>
      (Ready (Ok (NnrpServerPolicyDecision.reject SESSION_ERROR_PROFILE_UNSUPPORTED
                    (str "failed to encode session policy input: " ++ display error))), self)
  | Panic => (Ready Panic, self)
  | Ok metadata =>
      match register_server_policy_request self with
      | None => (Pending, self)
      | Some (request_id, self) =>
          let (callback_status, self) := begin request_id metadata self in
          if negb (callback_status =? NnrpFfiStatusCode.repr NnrpFfiStatusCode.Ok) then
            (Ready (Ok (NnrpServerPolicyDecision.reject SESSION_ERROR_PROFILE_UNSUPPORTED
                          (str "server policy begin callback failed with status " ++ decimal callback_status))),
             drop_guard request_id (drop_receiver request_id self))
          else
            let self := meanwhile request_id self in
            match poll_decision request_id self with
            | Some decision => (Ready (Ok decision), drop_guard request_id self)
            | None => (Pending, self)
            end
      end
  end.

(** ** Runs *)

(** What the host and the server see of a step: a question, or an answer that was taken. *)
Inductive event :=
| Asked (request_id : Z)
| Decided (request_id : Z) (decision : NnrpServerPolicyDecision.t).

Inductive step (s : t) : list event -> t -> Prop :=
| step_register request_id s' :
    register_server_policy_request s = Some (request_id, s') -> step s [Asked request_id] s'
| step_complete request store decision s' :
    decision_of request store = Ok decision ->
    nnrp_server_policy_complete request store s = (Ok tt, s') ->
    step s [Decided (NnrpServerPolicyCompleteRequest.request_id request) decision] s'
| step_refused request store status s' :
    nnrp_server_policy_complete request store s = (Err status, s') -> step s [] s'
| step_drop_receiver request_id : step s [] (drop_receiver request_id s)
| step_drop_guard request_id : step s [] (drop_guard request_id s).

Inductive run : list event -> t -> Prop :=
| run_initial : run [] initial
| run_step trace s events s' : run trace s -> step s events s' -> run (trace ++ events) s'.

Definition asked (trace : list event) : list Z :=
  omap (fun e => match e with Asked id => Some id | _ => None end) trace.
Definition decided (trace : list event) : list (Z * NnrpServerPolicyDecision.t) :=
  omap (fun e => match e with Decided id d => Some (id, d) | _ => None end) trace.

(** The questions have the ids 1, 2, ..; a sender belongs to an evaluation without a decision, and
    an evaluation that waits has one; decisions are of questions, one for each at most. *)
Record inv (trace : list event) (s : t) : Prop := {
  inv_asked : asked trace = seqZ 1 (Z.of_nat (length (asked trace)));
  inv_next : next_request_id s = 1 + Z.of_nat (length (asked trace));
  inv_senders id : id ∈ senders s -> exists receiver, evaluations s !! id = Some (Evaluation.mk None receiver);
  inv_waiting id : evaluations s !! id = Some (Evaluation.mk None true) -> id ∈ senders s;
  inv_known id e : evaluations s !! id = Some e -> id ∈ asked trace;
  inv_received id d receiver : evaluations s !! id = Some (Evaluation.mk (Some d) receiver) -> (id, d) ∈ decided trace;
  inv_open id : id ∈ senders s -> id ∉ (decided trace).*1;
  inv_decided id : id ∈ (decided trace).*1 -> id ∈ asked trace;
  inv_once : NoDup (decided trace).*1
}.

Lemma inv_initial_requests : inv [] initial.
Proof. split; cbn; try set_solver; try done. constructor. Qed.

(** While there are ids left, a question gets the next one. *)
Lemma register_fresh trace s :
  inv trace s -> Z.of_nat (length (asked trace)) < modulus 8 - 1 ->
  register_server_policy_request s =
    Some (next_request_id s, mk ((next_request_id s + 1) mod modulus 8) ({[next_request_id s]} ∪ senders s)
      (<[next_request_id s := Evaluation.mk None true]> (evaluations s))) /\
  next_request_id s ∉ asked trace.
Proof.
  intros Hi Hn. assert (next_request_id s ∉ asked trace) as Hfresh.
  { rewrite (inv_asked _ _ Hi), (inv_next _ _ Hi), elem_of_seqZ. lia. }
  split; [|done]. unfold register_server_policy_request.
  replace (size (senders s) + 2)%nat with (S (size (senders s) + 1)) by lia. cbn [next_free].
  rewrite (inv_next _ _ Hi) in *. replace (1 + _ =? 0) with false by lia.
  rewrite bool_decide_eq_false_2; [done|]. intros (r & He)%(inv_senders _ _ Hi).
  by apply Hfresh, (inv_known _ _ Hi _ _ He).
Qed.

Lemma asked_app t1 t2 : asked (t1 ++ t2) = asked t1 ++ asked t2.
Proof. apply omap_app. Qed.
Lemma decided_app t1 t2 : decided (t1 ++ t2) = decided t1 ++ decided t2.
Proof. apply omap_app. Qed.

Lemma inv_register trace s request_id s' :
  inv trace s -> Z.of_nat (length (asked trace)) < modulus 8 - 2 ->
  register_server_policy_request s = Some (request_id, s') -> inv (trace ++ [Asked request_id]) s'.
Proof.
  intros Hi Hn Hr. destruct (register_fresh _ _ Hi) as [He Hfresh]; [lia|]. rewrite He in Hr.
  injection Hr as <- <-. split; rewrite ?asked_app, ?decided_app, ?length_app; cbn -[seqZ]; rewrite ?app_nil_r.
  - rewrite Nat2Z.inj_add, seqZ_app by lia. cbn [Z.of_nat]. rewrite <- (inv_asked _ _ Hi). f_equal.
    rewrite (inv_next _ _ Hi). by rewrite seqZ_cons, seqZ_nil by lia.
  - rewrite (inv_next _ _ Hi), Z.mod_small by lia. lia.
  - intros id [->%elem_of_singleton | [r Hid]%(inv_senders _ _ Hi)]%elem_of_union; [eexists; apply lookup_insert_eq|].
    exists r. rewrite lookup_insert_ne; [done|]. intros <-. by apply Hfresh, (inv_known _ _ Hi _ _ Hid).
  - intros id [[<- _]|[_ H%(inv_waiting _ _ Hi)]]%lookup_insert_Some; apply elem_of_union; [left; by apply elem_of_singleton|by right].
  - intros id e [[<- _]|[_ H%(inv_known _ _ Hi)]]%lookup_insert_Some; apply elem_of_app; [right; by left|by left].
  - intros id d r [[_ [=]]|[_ H]]%lookup_insert_Some. by apply (inv_received _ _ Hi _ _ _ H).
  - intros id [->%elem_of_singleton | Hid]%elem_of_union; [by intros ?%(inv_decided _ _ Hi)|by apply (inv_open _ _ Hi)].
  - intros id H%(inv_decided _ _ Hi). apply elem_of_app. by left.
  - apply Hi.
Qed.

(** A sender goes whose evaluation does not wait. *)
Lemma inv_expired trace s id :
  inv trace s -> evaluations s !! id <> Some (Evaluation.mk None true) ->
  inv trace (mk (next_request_id s) (senders s ∖ {[id]}) (evaluations s)).
Proof.
  intros Hi He. split; cbn; try apply Hi.
  - intros id' [H _]%elem_of_difference. by apply (inv_senders _ _ Hi).
  - intros id' H. apply elem_of_difference. split; [by apply (inv_waiting _ _ Hi)|].
    intros ->%elem_of_singleton. done.
  - intros id' [H _]%elem_of_difference. by apply (inv_open _ _ Hi).
Qed.

(** What the host gets for an answer: it is taken when its evaluation waits. *)
Lemma complete_spec trace s request store decision :
  inv trace s -> decision_of request store = Ok decision ->
  let id := NnrpServerPolicyCompleteRequest.request_id request in
  let (o, s') := nnrp_server_policy_complete request store s in
  evaluations s !! id = Some (Evaluation.mk None true) /\ o = Ok tt /\
    s' = mk (next_request_id s) (senders s ∖ {[id]}) (<[id := Evaluation.mk (Some decision) true]> (evaluations s)) \/
  evaluations s !! id <> Some (Evaluation.mk None true) /\ (exists status, o = Err status) /\
    (s' = s \/ s' = mk (next_request_id s) (senders s ∖ {[id]}) (evaluations s)).
Proof.
  intros Hi Hd id. unfold nnrp_server_policy_complete. rewrite Hd. fold id.
  case_bool_decide as Hs.
  - destruct (inv_senders _ _ Hi _ Hs) as [r He]. unfold send. cbn. rewrite He. destruct r; [by left|].
    right. split; [done|]. eauto.
  - right. split; [by intros H%(inv_waiting _ _ Hi)|]. eauto.
Qed.

Lemma inv_complete trace s request store decision s' :
  inv trace s -> decision_of request store = Ok decision ->
  nnrp_server_policy_complete request store s = (Ok tt, s') ->
  inv (trace ++ [Decided (NnrpServerPolicyCompleteRequest.request_id request) decision]) s'.
Proof.
  intros Hi Hd Hc. pose proof (complete_spec _ _ _ _ _ Hi Hd) as Hs. cbv zeta in Hs. rewrite Hc in Hs.
  set (id := NnrpServerPolicyCompleteRequest.request_id request) in *.
  destruct Hs as [(He & _ & ->)|(_ & [status [=]] & _)].
  pose proof (inv_waiting _ _ Hi _ He) as Hin.
  split; rewrite ?asked_app, ?decided_app; cbn; rewrite ?app_nil_r; try apply Hi.
  - intros id' [[r H]%(inv_senders _ _ Hi) Hne%not_elem_of_singleton]%elem_of_difference.
    exists r. by rewrite lookup_insert_ne.
  - intros id' [[_ [=]]|[Hne H%(inv_waiting _ _ Hi)]]%lookup_insert_Some. apply elem_of_difference.
    split; [done|]. by apply not_elem_of_singleton.
  - intros id' e [[<- _]|[_ H]]%lookup_insert_Some; [|by apply (inv_known _ _ Hi _ _ H)].
    by apply (inv_known _ _ Hi _ _ He).
  - intros id' d r [[<- [= <- _]]|[_ H]]%lookup_insert_Some; apply elem_of_app; [right; by left|].
    left. by apply (inv_received _ _ Hi _ _ _ H).
  - intros id' [H Hne%not_elem_of_singleton]%elem_of_difference. rewrite fmap_app. cbn.
    intros [H1 | ->%list_elem_of_singleton]%elem_of_app; [by apply (inv_open _ _ Hi _ H)|done].
  - intros id'. rewrite fmap_app. cbn. intros [H%(inv_decided _ _ Hi) | ->%list_elem_of_singleton]%elem_of_app; [done|].
    by apply (inv_known _ _ Hi _ _ He).
  - rewrite fmap_app. cbn. apply NoDup_app. split_and!; [apply Hi| |apply NoDup_singleton].
    intros id' H ->%list_elem_of_singleton. by apply (inv_open _ _ Hi _ Hin).
Qed.

Lemma inv_refused trace s request store status s' :
  inv trace s -> nnrp_server_policy_complete request store s = (Err status, s') -> inv trace s'.
Proof.
  intros Hi Hc. destruct (decision_of request store) as [d|e|] eqn:Hd.
  - pose proof (complete_spec _ _ _ _ _ Hi Hd) as Hs. cbv zeta in Hs. rewrite Hc in Hs.
    destruct Hs as [(_ & [=] & _)|(He & _ & [-> | ->])]; [done|by apply inv_expired].
  - unfold nnrp_server_policy_complete in Hc. rewrite Hd in Hc. by injection Hc as _ <-.
  - unfold nnrp_server_policy_complete in Hc. by rewrite Hd in Hc.
Qed.

Lemma lookup_altered id id' (es : gmap Z Evaluation.t) e :
  alter (fun e => Evaluation.mk (Evaluation.received e) false) id es !! id' = Some e ->
  exists e', es !! id' = Some e' /\ Evaluation.received e' = Evaluation.received e.
Proof.
  destruct (decide (id = id')) as [-> |Hne]; [|rewrite lookup_alter_ne by done; eauto].
  rewrite lookup_alter_eq. destruct (es !! id') as [e'|]; [|done]. intros [= <-]. eauto.
Qed.

Lemma lookup_alter_waiting id id' (es : gmap Z Evaluation.t) :
  alter (fun e => Evaluation.mk (Evaluation.received e) false) id es !! id' = Some (Evaluation.mk None true) ->
  id <> id' /\ es !! id' = Some (Evaluation.mk None true).
Proof.
  destruct (decide (id = id')) as [-> |Hne]; [|by rewrite lookup_alter_ne].
  rewrite lookup_alter_eq. by destruct (es !! id').
Qed.

Lemma inv_drop_receiver trace s id : inv trace s -> inv trace (drop_receiver id s).
Proof.
  intros Hi. split; cbn; try apply Hi.
  - intros id' [r H]%(inv_senders _ _ Hi). destruct (decide (id = id')) as [-> |Hne].
    + rewrite lookup_alter_eq, H. by eexists.
    + rewrite lookup_alter_ne by done. eauto.
  - intros id' (_ & H)%lookup_alter_waiting. by apply (inv_waiting _ _ Hi).
  - intros id' e (e' & H & _)%lookup_altered. by apply (inv_known _ _ Hi _ _ H).
  - intros id' d r ([x r'] & H & [= ->])%lookup_altered. by apply (inv_received _ _ Hi _ _ _ H).
Qed.

Lemma inv_drop_guard trace s id : inv trace s -> inv trace (drop_guard id s).
Proof.
  intros Hi. split; cbn; try apply Hi.
  - intros id' [[r H]%(inv_senders _ _ Hi) Hne%not_elem_of_singleton]%elem_of_difference.
    exists r. by rewrite lookup_delete_ne.
  - intros id' [Hne H%(inv_waiting _ _ Hi)]%lookup_delete_Some. apply elem_of_difference.
    split; [done|]. by apply not_elem_of_singleton.
  - intros id' e [_ H]%lookup_delete_Some. by apply (inv_known _ _ Hi _ _ H).
  - intros id' d r [_ H]%lookup_delete_Some. by apply (inv_received _ _ Hi _ _ _ H).
  - intros id' [H _]%elem_of_difference. by apply (inv_open _ _ Hi).
Qed.

Lemma policy_run_inv trace s : run trace s -> Z.of_nat (length (asked trace)) < modulus 8 - 1 -> inv trace s.
Proof.
  induction 1 as [|trace s events s' Hr IH Hs]; [intros _; apply inv_initial_requests|].
  rewrite asked_app, length_app. intros Hn. specialize (IH ltac:(lia)).
  destruct Hs as [id s' He|request store d s' Hd Hc|request store status s' Hc|id|id]; cbn in Hn.
  - eapply inv_register; [done|lia|done].
  - by eapply inv_complete.
  - rewrite app_nil_r. by eapply inv_refused.
  - rewrite app_nil_r. by apply inv_drop_receiver.
  - rewrite app_nil_r. by apply inv_drop_guard.
Qed.

Lemma decision_of_spec request store decision :
  decision_of request store = Ok decision ->
  NnrpServerPolicyDecision.accepted decision = negb (NnrpServerPolicyCompleteRequest.accepted request =? 0) /\
  utf8_valid (default [] (NnrpServerPolicyDecision.diagnostic decision)) = true.
Proof.
  unfold decision_of. intros ([] & _ & Hd)%bind_Ok. destruct (negb _) eqn:Ha; [by injection Hd as <-|].
  apply bind_Ok in Hd as (text & _ & [= <-]). split; [done|]. apply utf8_lossy_spec.
Qed.

(** The task returns what the host has decided: from a run in which the question was asked to one
    in which its receiver is still there. *)
Lemma evaluate_decision display decimal open begin meanwhile s metadata id s1 s2 trace d s' :
  SessionOpenMetadata.to_bytes open = Ok metadata -> register_server_policy_request s = Some (id, s1) ->
  begin id metadata s1 = (0, s2) -> run trace (meanwhile id s2) -> Z.of_nat (length (asked trace)) < modulus 8 - 1 ->
  (Evaluation.receiver <$> (evaluations (meanwhile id s2) !! id)) = Some true ->
  evaluate display decimal open begin meanwhile s = (Ready (Ok d), s') ->
  (id, d) ∈ decided trace /\ id ∉ senders s' /\ evaluations s' !! id = None.
Proof.
  intros Hm Hg Hb Hr Hn He Hd. pose proof (policy_run_inv _ _ Hr Hn) as Hi. unfold evaluate in Hd. rewrite Hm, Hg, Hb in Hd.
  cbn in Hd. set (s3 := meanwhile id s2) in *. unfold poll_decision in Hd.
  destruct (evaluations s3 !! id) as [[[d'|] []]|] eqn:Hs; cbn in He; try done.
  - injection Hd as <- <-. split; [by apply (inv_received _ _ Hi _ _ _ Hs)|]. cbn.
    split; [set_solver|apply lookup_delete_eq].
  - by rewrite bool_decide_eq_true_2 in Hd by by apply (inv_waiting _ _ Hi).
Qed.

(** C27: whatever the host, the servers and the threads that drop evaluations do, every question
    has an id of its own and gets at most one decision, the answer that was taken; the table has
    a sender exactly for the evaluations that wait and for some that are being dropped, so that
    it is empty when there are none.  A question can be asked as long as ids are left, an answer
    to an evaluation that waits is taken and is what it returns, and any other answer is refused
    and decides nothing. *)
Theorem policy_decided_once trace s :
  run trace s -> Z.of_nat (length (asked trace)) < modulus 8 - 1 ->
  NoDup (asked trace) /\ NoDup (decided trace).*1 /\ (forall id, id ∈ (decided trace).*1 -> id ∈ asked trace) /\
  (evaluations s = ∅ -> senders s = ∅) /\
  (exists id s', register_server_policy_request s = Some (id, s') /\ id ∉ asked trace) /\
  (forall id decision, evaluations s !! id = Some (Evaluation.mk (Some decision) true) ->
     poll_decision id s = Some decision /\ (id, decision) ∈ decided trace) /\
  (forall id, evaluations s !! id = Some (Evaluation.mk None true) -> poll_decision id s = None) /\
  (forall request store decision, decision_of request store = Ok decision ->
     let id := NnrpServerPolicyCompleteRequest.request_id request in
     let (o, s') := nnrp_server_policy_complete request store s in
     if bool_decide (evaluations s !! id = Some (Evaluation.mk None true))
     then o = Ok tt /\ poll_decision id s' = Some decision
     else (exists status, o = Err status) /\ evaluations s' = evaluations s) /\
  (forall request store decision, decision_of request store = Ok decision ->
     NnrpServerPolicyDecision.accepted decision = negb (NnrpServerPolicyCompleteRequest.accepted request =? 0) /\
     utf8_valid (default [] (NnrpServerPolicyDecision.diagnostic decision)) = true).
Proof.
  intros Hr Hn. pose proof (policy_run_inv _ _ Hr Hn) as Hi. split_and!.
  - rewrite (inv_asked _ _ Hi). apply NoDup_seqZ.
  - apply Hi.
  - apply Hi.
  - intros He. apply elem_of_equiv_empty_L. intros id [r H]%(inv_senders _ _ Hi). by rewrite He, lookup_empty in H.
  - destruct (register_fresh _ _ Hi) as [He Hf]; [lia|]. eauto.
  - intros id d He. split; [unfold poll_decision; by rewrite He|]. by apply (inv_received _ _ Hi _ _ _ He).
  - intros id He. unfold poll_decision. rewrite He. by rewrite bool_decide_eq_true_2 by by apply (inv_waiting _ _ Hi).
  - intros request store d Hd. pose proof (complete_spec _ _ _ _ _ Hi Hd) as Hs. cbv zeta in *.
    destruct (nnrp_server_policy_complete _ _ _) as [o s']. destruct Hs as [(He & -> & ->)|(He & Ho & Hs)].
    + rewrite bool_decide_eq_true_2 by done. split; [done|]. unfold poll_decision. cbn. by rewrite lookup_insert_eq.
    + rewrite bool_decide_eq_false_2 by done. split; [done|]. by destruct Hs as [-> | ->].
  - apply decision_of_spec.
Qed.

(** A question that is asked twice gets two ids; the first is answered, and only once. *)
Definition answer_first : NnrpServerPolicyCompleteRequest.t :=
  NnrpServerPolicyCompleteRequest.mk 1 0 [0; 0; 0] 7 (NnrpBufferView.mk (Pointer.Host [xff]) 1).
Definition asked_twice : t :=
  mk 3 {[2; 1]} (<[2 := Evaluation.mk None true]> (<[1 := Evaluation.mk None true]> ∅)).
Definition answered : t := (nnrp_server_policy_complete answer_first NnrpFfiHandleStore.initial asked_twice).2.
Definition decision : NnrpServerPolicyDecision.t := NnrpServerPolicyDecision.reject 7 REPLACEMENT.

Lemma policy_decided_once_witness :
  poll_decision 1 answered = Some decision /\ poll_decision 2 answered = None /\
  exists status, (nnrp_server_policy_complete answer_first NnrpFfiHandleStore.initial answered).1 = Err status.
Proof.
  assert (run [Asked 1; Asked 2; Decided 1 decision] answered) as Hr.
  { apply (run_step [Asked 1; Asked 2] asked_twice [Decided 1 decision]).
    - apply (run_step [Asked 1] (mk 2 {[1]} (<[1 := Evaluation.mk None true]> ∅)) [Asked 2]).
      + apply (run_step [] initial [Asked 1]); [apply run_initial|]. apply step_register. vm_compute. reflexivity.
      + apply step_register. vm_compute. reflexivity.
    - apply (step_complete _ answer_first NnrpFfiHandleStore.initial decision); vm_compute; reflexivity. }
  destruct (policy_decided_once _ _ Hr) as (_ & _ & _ & _ & _ & Hd & Hw & Ha & _); [vm_compute; reflexivity|].
  split; [apply Hd; vm_compute; reflexivity|]. split; [apply Hw; vm_compute; reflexivity|].
  specialize (Ha answer_first NnrpFfiHandleStore.initial decision ltac:(vm_compute; reflexivity)). cbv zeta in Ha.
  rewrite bool_decide_eq_false_2 in Ha by (vm_compute; discriminate).
  destruct (nnrp_server_policy_complete _ _ _) as [o s']. exact (proj1 Ha).
Defined.

End PolicyRequests.
