(* ===== verification/Catalogue.v ===== *)
(** The catalogue of the wire structs and enums of nnrp-core.

    Each list names every struct or enum of its kind that the crate declares; the
    theorems hold of all of them.  They follow from the interfaces [WireCodecLaws],
    [StrictWireCodec], [TailedCodecLaws] and [WireEnumLaws], which the component files
    establish for each entry. *)

From S2P Require Import Prelude Bytes Errors Enums Wire Header Session Flow Control Capability.
From S2P Require Import RuntimeControl Object Cache Data Schema Regions.

Local Open Scope Z_scope.

(** ** Structs *)

Definition codec_entry : Type := { A : Type & WireCodec A }.

Definition codec (A : Type) `{C : WireCodec A} : codec_entry := existT A C.

(** The metadata structs and blocks.  [CommonHeader] is apart: its [write] accepts
    headers of other versions, which its [parse] refuses. *)
Definition protocol_codecs : list codec_entry :=
  [ codec SessionOpenMetadata.t; codec SessionOpenAckMetadata.t; codec SessionCloseMetadata.t;
    codec SessionCloseAckMetadata.t; codec FlowUpdateMetadata.t; codec ClientHelloMetadata.t;
    codec ServerHelloAckMetadata.t; codec SessionPatchMetadata.t;
    codec SessionPatchAckMetadata.t; codec ResultHintMetadata.t;
    codec TransportProbeMetadata.t; codec TransportProbeAckMetadata.t;
    codec SessionMigrateMetadata.t; codec SessionMigrateAckMetadata.t; codec ErrorMetadata.t;
    codec ControlRequestMetadata.t; codec SchedulingMetadata.t; codec SupersedeMetadata.t;
    codec BudgetMetadata.t; codec ProgressMetadata.t; codec PartialResultMetadata.t;
    codec PressureMetadata.t; codec CapabilityMetadata.t; codec RouteHintMetadata.t;
    codec TraceContextMetadata.t; codec ResultDropReasonMetadata.t;
    codec RecoverableErrorMetadata.t; codec RetryAfterMetadata.t;
    codec ObjectDescriptorMetadata.t; codec ObjectReferenceMetadata.t;
    codec ObjectReleaseMetadata.t; codec ObjectDeltaMetadata.t; codec CacheReferenceMetadata.t;
    codec CacheMissMetadata.t; codec CachePutMetadata.t; codec CacheAckMetadata.t;
    codec CacheInvalidateMetadata.t; codec FrameSubmitMetadata.t; codec ResultPushMetadata.t;
    codec InlineObjectBlockHeader.t; codec TensorSectionDescriptor.t;
    codec ObjectReferenceBlock.t; codec BodyRegionPrelude.t; codec SchemaDescriptorHeader.t;
    codec TypedPayloadDescriptor.t ].

Section of_a_codec.
Context (c : codec_entry).
Let A : Type := projT1 c.
Let C : WireCodec A := projT2 c.
#[local] Existing Instance C.

(** The laws that the component files prove. *)
Definition lawful : Prop := exists L : WireCodecLaws A, @StrictWireCodec A C L.

(** A value that [to_bytes] accepts parses back to itself; it refuses the invalid
    values and no other. *)
Definition round_trips : Prop :=
  forall m : A, typed m = true ->
    (valid m = true /\ exists bs, codec_to_bytes m = Ok bs /\ codec_parse bs = Ok m) \/
    (valid m = false /\ exists e, codec_to_bytes m = Err e).

(** What [parse] accepts is written back byte for byte, and it depends on nothing past the
    struct's own length. *)
Definition canonical_encoding : Prop :=
  forall bs (m : A), codec_parse bs = Ok m ->
    codec_to_bytes m = Ok (take (codec_len (A := A)) bs) /\
    forall rest, codec_parse (take (codec_len (A := A)) bs ++ rest) = Ok m.

(** [parse] and [write] end with a value or an error, and too short a slice is the
    error that says so. *)
Definition never_panics : Prop :=
  (forall bs, codec_parse (A := A) bs <> Panic) /\
  (forall (m : A) d, codec_write m d <> Panic) /\
  (forall bs, (length bs < codec_len (A := A))%nat ->
     codec_parse (A := A) bs =
     Err (SourceTooShort (Z.of_nat (codec_len (A := A))) (len bs))) /\
  (forall (m : A) d, (length d < codec_len (A := A))%nat ->
     codec_write m d = Err (DestinationTooShort (Z.of_nat (codec_len (A := A))) (len d))).

(** The values that [parse] gives are those whose fields fit their types and which satisfy
    the struct's own rules. *)
Definition parses_typed : Prop :=
  forall m : A, (exists bs, codec_parse bs = Ok m) <-> typed m = true /\ codec_guard m = true.

(** [write] leaves everything past the struct's length alone, and the value it has
    written is what [parse] reads. *)
Definition writes_own_prefix : Prop :=
  forall (m : A) d d', typed m = true -> codec_write m d = Ok d' ->
    length d' = length d /\
    drop (codec_len (A := A)) d' = drop (codec_len (A := A)) d /\
    codec_parse d' = Ok m.

Lemma lawful_round_trips : lawful -> round_trips.
Proof.
  intros [L Hs] m Ht. destruct (strict_round_trip m Ht) as [(bs & Hb & Hp)|(e & He & Hv)].
  - left. split; [by eapply law_write_strict|eauto].
  - right. eauto.
Qed.

Lemma lawful_canonical : lawful -> canonical_encoding.
Proof.
  intros [L _] bs m Hp. split; [by apply parse_to_bytes|]. intros rest. by apply parse_prefix.
Qed.

Lemma lawful_parses_typed : lawful -> parses_typed.
Proof.
  intros [L _] m. rewrite <- andb_true_iff. split.
  - by intros [bs [Hv _]%law_parse_sound].
  - intros Hv. exists (wire m ++ []). by apply law_parse_wire.
Qed.

Lemma lawful_never_panics : lawful -> never_panics.
Proof.
  intros [L _]. split_and!.
  - apply law_parse_no_panic.
  - apply law_write_no_panic.
  - apply law_parse_short.
  - apply law_write_short.
Qed.

Lemma lawful_writes_own_prefix : lawful -> writes_own_prefix.
Proof.
  intros [L Hs] m d d' Ht Hw. destruct (write_frame m d d' Hw) as [Hl Hd].
  split_and!; [done|done|]. eapply write_then_parse; [|done]. by eapply law_write_strict.
Qed.
End of_a_codec.

Lemma protocol_codecs_lawful : Forall lawful protocol_codecs.
Proof. repeat (constructor; [unshelve eexists; apply _|]). constructor. Qed.

(** C1: Every metadata struct and body block of the protocol round-trips: a value whose
    fields fit their types is either valid, encoded and parsed back to itself, or
    invalid and refused by the encoder. *)
Theorem codecs_round_trip : Forall round_trips protocol_codecs.
Proof. eapply Forall_impl; [apply protocol_codecs_lawful|apply lawful_round_trips]. Qed.

(** C7: The encodings are canonical: whatever [parse] accepts, from any bytes, encodes to
    the very bytes it was read from, and [parse] looks at no byte past the struct. *)
Theorem codecs_canonical : Forall canonical_encoding protocol_codecs.
Proof. eapply Forall_impl; [apply protocol_codecs_lawful|apply lawful_canonical]. Qed.

(** C36: The values that [parse] returns are, for each struct, exactly those whose
    fields fit their machine types and which satisfy the struct's own rules. *)
Theorem codecs_typed : Forall parses_typed protocol_codecs.
Proof. eapply Forall_impl; [apply protocol_codecs_lawful|apply lawful_parses_typed]. Qed.

(** C37: No input makes [parse] or [write] of any struct panic, and a slice that is too
    short is reported with the expected and the actual length. *)
Theorem codecs_never_panic : Forall never_panics protocol_codecs.
Proof. eapply Forall_impl; [apply protocol_codecs_lawful|apply lawful_never_panics]. Qed.

(** [write] into a larger buffer changes the struct's own bytes only, and the
    buffer then parses to the value written. *)
Theorem codecs_write_frame : Forall writes_own_prefix protocol_codecs.
Proof. eapply Forall_impl; [apply protocol_codecs_lawful|apply lawful_writes_own_prefix]. Qed.

(** ** Structs with a declared tail *)

Record tailed_entry := tailed_mk {
  tailed_type : Type;
  tailed_codec : WireCodec tailed_type;
  tailed_ops : TailedCodec tailed_type
}.

Definition with_tail (A : Type) `{C : WireCodec A} `{T : !TailedCodec A} : tailed_entry :=
  tailed_mk A C T.

Definition tailed_codecs `{Target} : list tailed_entry :=
  [ with_tail ControlRequestMetadata.t; with_tail SupersedeMetadata.t;
    with_tail ProgressMetadata.t; with_tail PartialResultMetadata.t;
    with_tail CapabilityMetadata.t; with_tail RouteHintMetadata.t;
    with_tail TraceContextMetadata.t; with_tail ResultDropReasonMetadata.t;
    with_tail RecoverableErrorMetadata.t; with_tail RetryAfterMetadata.t;
    with_tail ObjectDescriptorMetadata.t; with_tail ObjectReferenceMetadata.t;
    with_tail ObjectReleaseMetadata.t; with_tail ObjectDeltaMetadata.t;
    with_tail CacheReferenceMetadata.t; with_tail CacheMissMetadata.t ].

Section of_a_tailed_codec.
Context (c : tailed_entry).
Let A : Type := tailed_type c.
Let C : WireCodec A := tailed_codec c.
#[local] Existing Instance C.
Let T : TailedCodec A := tailed_ops c.
#[local] Existing Instance T.

Definition lawful_tail : Prop :=
  exists L : WireCodecLaws A, @StrictWireCodec A C L /\ TailedCodecLaws A.

(** Reading and writing a struct with its tail are inverse to each other, the tail that is read
    has the declared length, and neither direction panics. *)
Definition tail_round_trips : Prop :=
  (forall (m : A) tail bs, typed m = true ->
     to_vec_with_tail m tail = Ok bs -> parse_with_tail bs = Ok (m, tail)) /\
  (forall bs (m : A) tail, parse_with_tail bs = Ok (m, tail) ->
     to_vec_with_tail m tail = Ok bs /\ len tail = tail_declared m) /\
  (forall bs, parse_with_tail (A := A) bs <> Panic) /\
  (forall (m : A) tail, to_vec_with_tail m tail <> Panic).

Lemma lawful_tail_round_trips : lawful_tail -> tail_round_trips.
Proof.
  intros (L & Hs & Ht). split_and!.
  - intros m tail bs Hm Hb. by apply to_vec_then_parse.
  - intros bs m tail Hp. split; [by apply parse_then_to_vec|].
    by apply parse_with_tail_Ok in Hp as (_ & -> & _).
  - apply parse_with_tail_no_panic.
  - apply to_vec_with_tail_no_panic.
Qed.
End of_a_tailed_codec.

Lemma with_tail_lawful (A : Type) {C : WireCodec A} {L : WireCodecLaws A}
  {S : StrictWireCodec A} {T : TailedCodec A} {TL : TailedCodecLaws A} :
  lawful_tail (with_tail A).
Proof. exists L. by split. Qed.

Lemma tailed_codecs_lawful `{Target} : Forall lawful_tail tailed_codecs.
Proof. unfold tailed_codecs. repeat (constructor; [eapply with_tail_lawful; apply _|]). constructor. Qed.

(** A struct with a declared tail (diagnostics, body, extension) and its tail
    round-trip in both directions on every target, and the tail has exactly the
    declared length. *)
Theorem tailed_round_trip (T : Target) : Forall tail_round_trips tailed_codecs.
Proof. eapply Forall_impl; [apply tailed_codecs_lawful|apply lawful_tail_round_trips]. Qed.

(** ** Enums *)

Definition enum_entry : Type := { A : Type & WireEnum A }.

Definition wire_enum (A : Type) `{E : WireEnum A} : enum_entry := existT A E.

Definition protocol_enums : list enum_entry :=
  [ wire_enum MessageType.t; wire_enum SessionPriorityClass.t; wire_enum SessionStatus.t;
    wire_enum SessionCloseReason.t; wire_enum InFlightPolicy.t; wire_enum SessionCloseStatus.t;
    wire_enum OperationState.t; wire_enum ResultTerminalState.t; wire_enum CancelScope.t;
    wire_enum FlowScopeKind.t; wire_enum FlowUpdateReason.t; wire_enum BackpressureLevel.t;
    wire_enum ResultHintBudgetPolicy.t; wire_enum ResultHintCongestionState.t;
    wire_enum ResultHintReason.t; wire_enum SessionPatchAckStatus.t;
    wire_enum SessionPatchRejectReason.t; wire_enum TransportId.t; wire_enum ErrorScope.t;
    wire_enum CacheObjectKind.t; wire_enum CacheAckStatus.t; wire_enum CacheInvalidateScope.t;
    wire_enum LossTolerancePolicy.t; wire_enum InputProfile.t; wire_enum TileIndexMode.t;
    wire_enum SubmitMode.t; wire_enum ResultClass.t; wire_enum PayloadKind.t;
    wire_enum RuntimeObjectKind.t; wire_enum RuntimeRole.t; wire_enum MemoryLocationHint.t;
    wire_enum OwnershipHint.t; wire_enum ObjectReleaseReason.t; wire_enum CacheReuseScope.t;
    wire_enum CacheMissReason.t ].

Section of_an_enum.
Context (c : enum_entry).
Let A : Type := projT1 c.
Let E : WireEnum A := projT2 c.
#[local] Existing Instance E.

(** [try_from] is the partial inverse of the discriminant, which fits the enum's width;
    a value that is no discriminant is an error. *)
Definition enum_exact : Prop :=
  (forall a : A, 0 <= enum_repr a < modulus (enum_width (A := A))) /\
  (forall z (a : A), enum_try_from z = Ok a <-> z = enum_repr a) /\
  (forall z, (forall a : A, enum_repr a <> z) -> exists e, enum_try_from (A := A) z = Err e).

Lemma lawful_enum_exact : WireEnumLaws A -> enum_exact.
Proof.
  intros L. split_and!; [apply enum_repr_range|apply enum_try_from_iff|apply enum_unknown_rejected].
Qed.
End of_an_enum.

Lemma protocol_enums_lawful :
  Forall (fun c => @WireEnumLaws (projT1 c) (projT2 c)) protocol_enums.
Proof. repeat (constructor; [apply _|]). constructor. Qed.

(** For every wire enum, reading a value gives a constructor exactly when the value
    is that constructor's discriminant, discriminants fit the field, and any other
    value is an error. *)
Theorem enums_exact : Forall enum_exact protocol_enums.
Proof. eapply Forall_impl; [apply protocol_enums_lawful|apply lawful_enum_exact]. Qed.
